(* ===== verification/_CoqProject ===== *)
-Q . S2P
Prelude.v
Read.v
NetflowFixed.v
Netflow1.v
Netflow5.v
Netflow6.v
Netflow7.v
Session.v
Translate.v
TranslateTables.v
Netflow9.v
Ipfix.v
NetflowDecoder.v
GoStrings.v
GoNet.v
Jchf.v
Ic.v
NetflowFormat.v
NetflowRoundtrip.v
RingBuffer.v
Stitch.v
Filter.v
Rollup.v
RollupCache.v
Pipeline.v
CustomsIndex.v
GoMap.v
SnmpTags.v
FlowToJCHF.v
Answers.v
AlphaChan.v
FormatsUtil.v
FlowInput.v
MibProfile.v
MibTraps.v
SnmpCounters.v
SnmpConv.v
ServiceTypes.v
ServiceTable1.v
ServiceTable2.v
ServiceTable3.v
ServiceTable4.v
Rules.v
KtHelpers.v
Maps.v
Km.v
Enrich.v
Prom.v
Influx.v
Carbon.v
Nrm.v
SnmpDevice.v
SnmpTrap.v
Kflow.v
VpcLogs.v
Service.v
SnmpMeta.v
Otel.v
Disco.v
Records.v
Sinks.v
Config.v
CommandLine.v
Inputs.v
SnmpStart.v
Api.v
Auth.v
Series.v
Meraki.v
