(* ===== verification/Prelude.v ===== *)
(** * ktranslate: a verification development

    ktranslate takes flows and device metrics in many forms, turns them into one flow
    record ([kt.JCHF]), filters, aggregates and samples the records, and writes them in
    many formats. This library models the parts that decide what comes out, as
    functions and step relations over the program's own data, and proves what makes
    them correct.

    ** The parts and how they meet

    - Input. The NetFlow packages (src/pkg/util/netflow) decode packets; src/pkg/inputs/flow
      turns decoded messages of routers into records; src/pkg/cat/jchf.go and kentik.go
      turn Kentik flows into records; src/pkg/inputs/snmp polls devices, with profiles
      that say what to poll and traps that arrive unasked.
    - The record. src/pkg/kt/types.go defines it, with the map it is rendered as.
    - The pipeline. src/pkg/cat/kkc.go passes each batch through src/pkg/filter,
      src/pkg/rollup, sampling and a format; src/pkg/stitch pairs the two directions of a
      conversation.
    - Output. src/pkg/formats/util joins records with the metadata of devices; the formats
      write them; src/pkg/formats/netflow writes NetFlow, which the decoders of the first
      item read back.

    ** The files

    - Prelude.v: integers at their width ([wrapu], [wraps]), bytes, big-endian words, the
      monad [res] of results, errors, panics and exhausted fuel, readers, slices, and the
      tactics and hints of the library. GoStrings.v, GoNet.v and GoMap.v: the parts of
      Go's strings, strconv and net packages that are used, and loops that change the map
      they range over.
    - Read.v (util/netflow/read), Translate.v and TranslateTables.v (translate),
      Session.v (session), NetflowFixed.v and Netflow1.v, Netflow5.v, Netflow6.v,
      Netflow7.v, Netflow9.v and Ipfix.v (the package of each version), NetflowDecoder.v
      (decoder.go): a decoder is a function from bytes, and for the last two from a
      session, to a packet or an error; the [Unmarshal] methods keep their names. The
      interface [Session.Template] is what the two template decoders are proved against.
    - Jchf.v (kt/types.go), Ic.v (util/ic), NetflowFormat.v and NetflowRoundtrip.v
      (formats/netflow).
    - RingBuffer.v and Stitch.v (stitch), Filter.v (filter), Rollup.v and RollupCache.v
      (rollup), Pipeline.v (cat/kkc.go).
    - CustomsIndex.v (util/kflow2/customs_index.go), FlowToJCHF.v (cat/jchf.go),
      AlphaChan.v (cat/kentik.go), Answers.v (for which filters and rollups every flow of
      the service has an answer), FlowInput.v (inputs/flow).
    - SnmpTags.v (kt/snmp.go [ProviderMap.Init], inputs/snmp/snmp.go [parseConfig]),
      MibProfile.v and MibTraps.v (inputs/snmp/mibs), SnmpCounters.v (kt/counters,
      inputs/snmp/metrics/interface_metrics.go and poll.go, [WalkOID] of
      inputs/snmp/util/util.go),
      SnmpConv.v (the conversions of
      inputs/snmp/util/util.go and vendor/powerset.go), SnmpDevice.v (device metrics and pings), SnmpTrap.v
      (inputs/snmp/traps), SnmpMeta.v (inputs/snmp/metadata), Disco.v (discovery and what it
      writes back), SnmpStart.v (sections of the configuration, sessions, which pollers a
      device gets), Meraki.v (inputs/snmp/x/meraki: pages and retries, which organizations and
      networks are followed, the tasks of a poll, uplinks, tunnels, status and events).
    - FormatsUtil.v (formats/util), Prom.v (formats/prom/prom.go), Influx.v (formats/influx), Carbon.v
      (formats/carbon), Nrm.v (formats/nrm), Otel.v (formats/otel), Records.v (formats json,
      splunk, elasticsearch, parquet, avro and snmp), Series.v (formats/ddog, formats/redis,
      formats/prom/remote.go).
    - ServiceTypes.v and ServiceTable1.v to ServiceTable4.v (util/service, one definition
      for each stretch of the table), Rules.v (util/rule), KtHelpers.v (kt/helpers.go,
      kt/utf8.go), Maps.v (maps, cat/mapping.go), Km.v (km), Enrich.v ([doEnrichments] of
      cat/jchf.go, util/resolv).
    - Kflow.v (util/kflow2 and formats/kflow), VpcLogs.v (logs of clouds, kt/aws.go,
      kt/gcp.go), Inputs.v (inputs/http, inputs/syslog).
    - Service.v (cat: requests, sinks, copies of the log, start and stop), Sinks.v (sinks),
      Config.v (config.go), CommandLine.v (cmd/ktranslate/main.go and the flags that the
      packages declare), Api.v (api, kt/device_types.go: the client of the Kentik API over a
      heap of devices), Auth.v (cat/auth, which shares that heap).

    A Go map is a [gmap], [None] when it may be nil; a range over a map is a fold in an
    order given as an argument, or left open by a permutation, so that a theorem holds for
    every order; a loop that changes its own map is a run of [GoMap.range]. Goroutines
    that share state are steps of a transition relation (Rollup.v, AlphaChan.v, Api.v); a state
    behind a mutex is passed from step to step. Pointers shared by several owners are
    locations of a heap (MibProfile.v). A panic is a result of its own.

    ** What is shown

    - Decoders: no packet makes them panic; what they accept is what the layout says
      (the fixed versions exactly); templates stay apart by source; encoding and decoding
      are inverse; the loops over records end, except for a record length of 0, which is
      characterised.
    - Round trips through the NetFlow format, and the refinement that composes the
      pipeline with it.
    - Conversion to records: each field is the message's, whatever is written around it;
      types of the fields, which columns become which, what a reused record keeps; the record pool is conserved, every flow
      is accounted for, and the workers drain.
    - Filters mean what their text says; rollups conserve sums and the cache accounts for
      every flow; the ring buffer refines a list; stitching is characterised by
      what is stored between the two directions, after any flows.
    - SNMP: tags are independent of map order; profiles extend to the union of what they
      name; pruning, search and trap variables; reported differences of counters never
      exceed the growth of the counter.
    - Around the record: what the rules say of addresses and ports, that the mapper of tags
      loses no request and comes to rest, what relabelling and enrichment change and leave.
    - Text formats: labels stay aligned with values, merged points keep the last of each
      field, and a body can be taken apart into its lines and words; what New Relic, Otel,
      Elasticsearch, Parquet and SNMP traps get of a record, what is left out of it, and
      that samples queued for OpenTelemetry are sent, waiting or counted as dropped; that
      the commands for Redis do what writing each measurement would.
    - Kentik flows written and read back are the same; columns of cloud logs go by name.
    - SNMP devices: what a poll reports, the metadata that is kept between polls and the
      address in an IPv6 index; discovery adds what it finds whatever the order of answers
      and the schedule of its workers, and saves tags as they were; sessions, the number of
      tries to connect, and that a device that fails ends the start of all after it;
      of Meraki that pages come once and in order within the retries, and that every
      uplink of a followed network has one record.
    - Inputs and outputs: how requests are answered and what of them goes on; what a syslog
      message becomes; files and buckets keep every byte, log lines are sent once, accounts
      are not mixed, and the service's counts of what it deals with add up.
    - Devices of the portal: what a refresh keeps of the answers, that every run of calls,
      refreshes and loads leaves devices in their places, that a load is started
      no more often than calls overlap, and what the service of devices finds.
    - The start: which flags are errors, that one wrong flag may go unnoticed, what the
      program is without arguments, and what modes and files change of it.

    ** Bounds and fuel

    [fuel] occurs where the source's recursion is bounded by data: the loops over data
    records of NetFlow 9 and IPFIX take the length of the data plus one, and
    [DataSet_ends_iff] says when that is enough; the extension of profiles takes the
    number of profiles plus one, and [extend_terminates] shows that it suffices. Other
    recursions are structural. Integers wrap at the width the source gives them; lengths
    of lists are unbounded, with a bound as a hypothesis where the source counts them.

    ** Not modelled, and why

    Sockets, files, HTTP servers and clients themselves, the stores and queues of clouds
    (inputs/vpc beyond the logs, the clients of sinks), the connection of the Kentik API client, the
    extension of inputs/snmp for arista, the clients of single devices of meraki, netbox and the download of
    profiles, the managers of configuration (config), the base server and its logging and
    metrics (eggs, util/logger, util/cmetrics): they are calls to libraries. The capnp, protobuf and YAML readers are generated or third-party: what
    they return is an argument. Enrichment runs scripts in a third-party interpreter.
    Formats that hand the record to a third-party encoder are modelled up to that encoder
    or left out. Regular expressions are an oracle. The unique rollup counts with a
    third-party sketch. Package eggs/kmux is a copy of a router library. *)
From Stdlib Require Export ZArith Lia Strings.Byte Strings.Ascii.
From stdpp Require Export base tactics list gmap strings sorting.

Declare Scope go_scope.
Delimit Scope go_scope with go.
Local Open Scope Z_scope.
Abbreviation byte := Byte.byte.

(** ** Machine integers

    A Go integer of width [w] is a [Z]; conversions and arithmetic wrap. *)

Definition wrapu (w x : Z) : Z := x `mod` 2 ^ w.
Definition wraps (w x : Z) : Z := (x + 2 ^ (w - 1)) `mod` 2 ^ w - 2 ^ (w - 1).
Definition in_u (w x : Z) : Prop := 0 ≤ x < 2 ^ w.
Definition in_s (w x : Z) : Prop := - 2 ^ (w - 1) ≤ x < 2 ^ (w - 1).
Definition maxUint64 : Z := 2 ^ 64 - 1.

#[export] Instance in_u_dec w x : Decision (in_u w x).
Proof. unfold in_u. apply _. Defined.
#[export] Instance in_s_dec w x : Decision (in_s w x).
Proof. unfold in_s. apply _. Defined.

Lemma wrapu_id w x : in_u w x → wrapu w x = x.
Proof. intros H. unfold wrapu. by apply Z.mod_small. Qed.

Lemma wrapu_range w x : 0 ≤ w → in_u w (wrapu w x).
Proof. intros H. apply Z.mod_pos_bound. by apply Z.pow_pos_nonneg. Qed.

Lemma wraps_id w x : 0 < w → in_s w x → wraps w x = x.
Proof.
  intros Hw [Hl Hu]. unfold wraps.
  assert (2 ^ w = 2 * 2 ^ (w - 1)) as E.
  { rewrite <-Z.pow_succ_r by lia. f_equal. lia. }
  rewrite Z.mod_small by lia. lia.
Qed.

Lemma wraps_range w x : 0 < w → in_s w (wraps w x).
Proof.
  intros Hw. unfold in_s, wraps.
  assert (2 ^ w = 2 * 2 ^ (w - 1)) as E.
  { rewrite <-Z.pow_succ_r by lia. f_equal. lia. }
  pose proof (Z.mod_pos_bound (x + 2 ^ (w - 1)) (2 ^ w)).
  assert (0 < 2 ^ w) by (apply Z.pow_pos_nonneg; lia). lia.
Qed.

(** ** Bytes and big-endian words *)

Definition b2z (b : byte) : Z := Z.of_N (Byte.to_N b).
Definition z2b (z : Z) : byte := default Byte.x00 (Byte.of_N (Z.to_N (z `mod` 256))).

Lemma b2z_range b : 0 ≤ b2z b < 256.
Proof. unfold b2z. pose proof (Byte.to_N_bounded b). lia. Qed.

Lemma z2b_b2z b : z2b (b2z b) = b.
Proof.
  unfold z2b. rewrite Z.mod_small by apply b2z_range.
  unfold b2z. by rewrite N2Z.id, Byte.of_to_N.
Qed.

Lemma b2z_z2b z : b2z (z2b z) = z `mod` 256.
Proof.
  unfold z2b. pose proof (Z.mod_pos_bound z 256 eq_refl) as Hb.
  destruct (Byte.of_N (Z.to_N (z `mod` 256))) as [b|] eqn:E; simpl.
  - apply Byte.to_of_N in E. unfold b2z. rewrite E. lia.
  - apply Byte.of_N_None_iff in E. lia.
Qed.

#[export] Instance byte_eq_dec : EqDecision byte := Byte.byte_eq_dec.

Definition be_decode (l : list byte) : Z := fold_left (λ acc b, acc * 256 + b2z b) l 0.

Fixpoint be_encode (n : nat) (x : Z) : list byte :=
  match n with
  | O => []
  | S m => be_encode m (x / 256) ++ [z2b x]
  end.

Lemma be_decode_snoc l b : be_decode (l ++ [b]) = be_decode l * 256 + b2z b.
Proof. unfold be_decode. by rewrite fold_left_app. Qed.

Lemma length_be_encode n x : length (be_encode n x) = n.
Proof. revert x. induction n as [|n IH]; intros x; [done|]. simpl. rewrite length_app, IH. simpl. lia. Qed.

Lemma be_decode_encode n x : be_decode (be_encode n x) = x `mod` 256 ^ Z.of_nat n.
Proof.
  revert x. induction n as [|n IH]; intros x.
  { simpl. by rewrite Z.mod_1_r. }
  cbn [be_encode]. rewrite be_decode_snoc, IH, b2z_z2b.
  rewrite Nat2Z.inj_succ, Z.pow_succ_r by lia.
  rewrite (Z.rem_mul_r x 256) by lia. lia.
Qed.

Lemma be_decode_range l : 0 ≤ be_decode l < 256 ^ Z.of_nat (length l).
Proof.
  induction l as [|b l IH] using rev_ind; [done|].
  rewrite be_decode_snoc, length_app. simpl.
  rewrite Nat2Z.inj_add, Z.pow_add_r by lia.
  pose proof (b2z_range b). simpl Z.of_nat. nia.
Qed.

Lemma be_encode_decode l : be_encode (length l) (be_decode l) = l.
Proof.
  induction l as [|b l IH] using rev_ind; [done|].
  rewrite length_app, Nat.add_comm. simpl. rewrite be_decode_snoc.
  pose proof (b2z_range b).
  rewrite Z.div_add_l, Z.div_small, Z.add_0_r, IH by lia. f_equal.
  unfold z2b. rewrite Z.add_comm, Z_mod_plus_full. fold (z2b (b2z b)). by rewrite z2b_b2z.
Qed.

(** ** Go errors and outcomes

    [Errorf] keeps the format string and the arguments of [fmt.Errorf] as they
    are written; the text is not rendered.  A computation ends in a value, an
    error value, a run-time panic, or runs out of the fuel that bounds a loop
    whose exit depends on the data. *)

Inductive error :=
| EOF
| ErrUnexpectedEOF
| ErrShortBuffer
| Errorf (format : string) (args : list fmt_arg)
with fmt_arg :=
| FInt (z : Z)
| FStr (s : string)
| FErr (e : error).

Inductive res (A : Type) :=
| Ok (a : A)
| Err (e : error)
| Panic (why : string)
| OutOfFuel.
Arguments Ok {A} a.
Arguments Err {A} e.
Arguments Panic {A} why.
Arguments OutOfFuel {A}.

#[export] Instance res_ret : MRet res := λ A a, Ok a.
#[export] Instance res_bind : MBind res := λ A B f m,
  match m with
  | Ok a => f a
  | Err e => Err e
  | Panic w => Panic w
  | OutOfFuel => OutOfFuel
  end.

#[export] Instance res_fmap : FMap res := λ A B f m, a ← m; mret (f a).

Definition is_ok {A} (r : res A) : bool := match r with Ok _ => true | _ => false end.

(** [s[i]] and [s[i] = x] on a slice. *)
Definition slice_get {A} (s : list A) (i : nat) : res A :=
  match s !! i with Some x => Ok x | None => Panic "index out of range" end.
Definition slice_set {A} (s : list A) (i : nat) (x : A) : res (list A) :=
  if (i <? length s)%nat then Ok (<[i := x]> s) else Panic "index out of range".
Lemma slice_set_ok {A} (l : list A) i x : (i < length l)%nat → slice_set l i x = Ok (<[i := x]> l).
Proof. intros H. unfold slice_set. by rewrite (proj2 (Nat.ltb_lt _ _)). Qed.
Lemma slice_get_ok {A} (l : list A) i x : l !! i = Some x → slice_get l i = Ok x.
Proof. intros H. unfold slice_get. by rewrite H. Qed.

(** A loop that stops at the first failure. *)
Fixpoint res_mapM {A B} (f : A → res B) (l : list A) : res (list B) :=
  match l with
  | [] => Ok []
  | a :: l => b ← f a; bs ← res_mapM f l; Ok (b :: bs)
  end.

Lemma res_mapM_ok {A B} (f : A → res B) (g : A → B) l : (∀ a, a ∈ l → f a = Ok (g a)) → res_mapM f l = Ok (g <$> l).
Proof.
  induction l as [|a l IH]; intros Hf; [done|]. cbn [res_mapM]. rewrite Hf by left. cbn [mbind res_bind].
  rewrite IH by (intros; apply Hf; by right). done.
Qed.

(** [filter] where nothing passes, and after a map. *)
Lemma list_filter_none {A} (P : A → Prop) `{∀ x, Decision (P x)} (l : list A) : Forall (λ x, ¬ P x) l → filter P l = [].
Proof. induction 1 as [|x l Hx _ IH]; [done|]. by rewrite filter_cons, decide_False. Qed.
Lemma list_filter_map {A B} (f : A → B) (P : B → Prop) `{∀ x, Decision (P x)} (l : list A) :
  filter P (f <$> l) = f <$> filter (λ x, P (f x)) l.
Proof.
  induction l as [|x l IH]; [done|]. rewrite fmap_cons, !filter_cons. destruct (decide (P (f x))); [|done].
  by rewrite fmap_cons, IH.
Qed.

(** Before and after a cut of a sorted list. *)
Lemma StronglySorted_split {A} (R : A → A → Prop) l1 l2 : StronglySorted R (l1 ++ l2) →
  StronglySorted R l1 ∧ ∀ x y, x ∈ l1 → y ∈ l2 → R x y.
Proof.
  induction l1 as [|a l1 IH]; cbn [app]; intros H.
  - split; [constructor|]. intros x y Hx. by apply not_elem_of_nil in Hx.
  - inversion H as [|? ? Hs Hf]; subst. destruct (IH Hs) as [Hs1 Hxy].
    apply Forall_app in Hf as [Hf1 Hf2]. split; [by constructor|].
    intros x y [->|Hx]%elem_of_cons Hy; [|by apply Hxy]. rewrite Forall_forall in Hf2. by apply Hf2.
Qed.

Lemma res_bind_Ok {A B} (m : res A) (f : A → res B) b :
  m ≫= f = Ok b ↔ ∃ a, m = Ok a ∧ f a = Ok b.
Proof.
  split; [|by intros (a & -> & ?)].
  destruct m; simpl; try discriminate. eauto.
Qed.

(** [rd A] reads from a [bytes.Buffer]: the unread bytes go in, the value and
    the bytes left come out. *)

Definition rd (A : Type) : Type := list byte → res (A * list byte).
#[export] Instance rd_ret : MRet rd := λ A a r, Ok (a, r).
#[export] Instance rd_bind : MBind rd := λ A B f m r,
  match m r with
  | Ok (a, r') => f a r'
  | Err e => Err e
  | Panic w => Panic w
  | OutOfFuel => OutOfFuel
  end.
Definition rd_err {A} (e : error) : rd A := λ _, Err e.

(** [fmt.Errorf(format, err)] around a failing read. *)
Definition rd_wrap {A} (format : string) (m : rd A) : rd A := λ r,
  match m r with
  | Err e => Err (Errorf format [FErr e])
  | x => x
  end.

(** [buffer.ReadFrom(r)]: the reader is drained, [m] reads the copy, what [m]
    leaves is dropped. *)
Definition rd_drain {A} (m : rd A) : rd A := λ r,
  match m r with Ok (a, _) => Ok (a, []) | x => x end.

Fixpoint replicateM {A} (n : nat) (m : rd A) : rd (list A) :=
  match n with
  | O => mret []
  | S n => x ← m; xs ← replicateM n m; mret (x :: xs)
  end.

Lemma rd_bind_Ok {A B} (m : rd A) (f : A → rd B) r a r' :
  m r = Ok (a, r') → (m ≫= f) r = f a r'.
Proof. intros H. unfold mbind, rd_bind. by rewrite H. Qed.

Lemma rd_bind_inv {A B} (m : rd A) (f : A → rd B) r b r'' :
  (m ≫= f) r = Ok (b, r'') ↔ ∃ a r', m r = Ok (a, r') ∧ f a r' = Ok (b, r'').
Proof.
  unfold mbind, rd_bind. split.
  - destruct (m r) as [[a r']| | |]; try discriminate. eauto.
  - by intros (a & r' & -> & ?).
Qed.

Lemma rd_wrap_Ok {A} s (m : rd A) r x : rd_wrap s m r = Ok x ↔ m r = Ok x.
Proof. unfold rd_wrap. destruct (m r); naive_solver. Qed.

(** [m] never runs out of fuel. *)
Definition fuelled {A} (m : rd A) : Prop := ∀ r, m r ≠ OutOfFuel.
(** [m] ends in a value or an error: no panic, no lack of fuel. *)
Definition settled {A} (x : res A) : Prop := match x with Ok _ | Err _ => True | _ => False end.
Definition safe {A} (m : rd A) : Prop := ∀ r, settled (m r).
(** A success of [m] leaves at least [n] bytes fewer and never invents input. *)
Definition eats {A} (n : nat) (m : rd A) : Prop :=
  ∀ r a r', m r = Ok (a, r') → (length r' + n ≤ length r)%nat.

Lemma safe_ret {A} (a : A) : safe (mret a).
Proof. by intros r. Qed.
Lemma safe_err {A} e : safe (@rd_err A e).
Proof. by intros r. Qed.
Lemma safe_bind {A B} (m : rd A) (f : A → rd B) : safe m → (∀ a, safe (f a)) → safe (m ≫= f).
Proof.
  intros Hm Hf r. unfold mbind, rd_bind. specialize (Hm r).
  destruct (m r) as [[a r']| | |]; try done. apply Hf.
Qed.
Lemma safe_wrap {A} s (m : rd A) : safe m → safe (rd_wrap s m).
Proof. intros Hm r. unfold rd_wrap. specialize (Hm r). by destruct (m r). Qed.
Lemma rd_drain_ok {A} (m : rd A) r a r' : m r = Ok (a, r') → rd_drain m r = Ok (a, []).
Proof. unfold rd_drain. by intros ->. Qed.
Lemma settled_drain {A} (m : rd A) r : settled (m r) → settled (rd_drain m r).
Proof. unfold rd_drain. by destruct (m r) as [[]| | |]. Qed.
Lemma safe_drain {A} (m : rd A) : safe m → safe (rd_drain m).
Proof. intros Hm r. unfold rd_drain. specialize (Hm r). by destruct (m r) as [[]| | |]. Qed.
Lemma eats_drain {A} n (m : rd A) : eats n m → eats n (rd_drain m).
Proof.
  intros Hm r a r' E. unfold rd_drain in E. destruct (m r) as [[b r1]| | |] eqn:Em; try done.
  injection E as -> <-. apply Hm in Em. simpl. lia.
Qed.
Lemma safe_replicateM {A} n (m : rd A) : safe m → safe (replicateM n m).
Proof.
  intros Hm. induction n as [|n IH]; simpl; [apply safe_ret|].
  apply safe_bind; [done|]. intros a. apply safe_bind; [done|]. intros. apply safe_ret.
Qed.
Lemma safe_if {A} (b : bool) (m1 m2 : rd A) : safe m1 → safe m2 → safe (if b then m1 else m2).
Proof. by destruct b. Qed.

Lemma eats_ret {A} (a : A) : eats 0 (mret a).
Proof. intros r b r' [= -> ->]. lia. Qed.
Lemma eats_bind {A B} n k (m : rd A) (f : A → rd B) :
  eats n m → (∀ a, eats k (f a)) → eats (n + k) (m ≫= f).
Proof.
  intros Hm Hf r b r'' H. apply rd_bind_inv in H as (a & r' & H1 & H2).
  apply Hm in H1. apply Hf in H2. lia.
Qed.
Lemma eats_weaken {A} n k (m : rd A) : (k ≤ n)%nat → eats n m → eats k m.
Proof. intros Hk Hm r a r' H. apply Hm in H. lia. Qed.
Lemma eats_wrap {A} n s (m : rd A) : eats n m → eats n (rd_wrap s m).
Proof. intros Hm r a r' H. apply rd_wrap_Ok in H. by apply Hm in H. Qed.
Lemma eats_replicateM {A} n k (m : rd A) : eats k m → eats (n * k) (replicateM n m).
Proof.
  intros Hm. induction n as [|n IH]; simpl; [apply eats_ret|].
  apply eats_bind; [done|]. intros a. eapply eats_weaken; [|apply eats_bind; [apply IH|]].
  2: { intros. apply eats_ret. } lia.
Qed.

Lemma replicateM_length {A} n (m : rd A) r l r' :
  replicateM n m r = Ok (l, r') → length l = n.
Proof.
  revert r l r'. induction n as [|n IH]; intros r l r' H; [by injection H as <- _|].
  simpl in H. apply rd_bind_inv in H as (x & r1 & _ & H).
  apply rd_bind_inv in H as (xs & r2 & H & [= <- <-]). simpl. f_equal. eauto.
Qed.

Create HintDb rd_db.
#[export] Hint Resolve safe_ret safe_err safe_wrap safe_drain safe_replicateM safe_if eats_ret eats_wrap : rd_db.

(** ** [time.Time] and [time.Duration]

    A time is seconds and nanoseconds since the epoch, a duration an [int64] of
    nanoseconds. *)
Record Time := mkTime { t_sec : Z; t_nsec : Z }.
Definition Nanosecond : Z := 1.
Definition Microsecond : Z := 1000.
Definition Millisecond : Z := 1000000.
Definition Second : Z := 1000000000.
Definition Duration_mul (a b : Z) : Z := wraps 64 (a * b).
Definition time_Unix (sec nsec : Z) : Time :=
  {| t_sec := sec + nsec / Second; t_nsec := nsec `mod` Second |}.
Definition Time_Add (t : Time) (d : Z) : Time := time_Unix (t_sec t) (t_nsec t + d).
