(* ===== verification/Read.v ===== *)
(** Package [read] (src/pkg/util/netflow/read): big-endian words, variable
    length byte strings and TCP flags, read from a [bytes.Buffer].  The reader
    is the list of unread bytes; the [io.MultiReader] that puts the version word
    back in front of a packet behaves as the concatenation, because the first
    read of every decoder takes exactly that word. *)
From S2P Require Import Prelude.
Local Open Scope Z_scope.

(** ** The reader primitives of the standard library *)

(** [io.ReadFull] into a buffer of [n] bytes. *)
Definition ReadFull (n : nat) : rd (list byte) := λ r,
  if decide (n ≤ length r)%nat then Ok (take n r, drop n r)
  else match r with [] => Err EOF | _ => Err ErrUnexpectedEOF end.

(** [bytes.Buffer.Read] into the slice [p]: a short read is no error. *)
Definition buffer_Read (p : list byte) : rd (list byte) := λ r,
  match r with
  | [] => if decide (length p = 0%nat) then Ok (p, []) else Err EOF
  | _ => Ok (take (length p) r ++ drop (length r) p, drop (length p) r)
  end.

(** [make([]byte, n)]. *)
Definition make_bytes (n : nat) : list byte := replicate n Byte.x00.

(** ** read.go *)

Definition Uint8 : rd Z := b ← ReadFull 1; mret (be_decode b).
Definition Uint16 : rd Z := b ← ReadFull 2; mret (be_decode b).
Definition Uint32 : rd Z := b ← ReadFull 4; mret (be_decode b).
Definition Uint64 : rd Z := b ← ReadFull 8; mret (be_decode b).
Definition Uint32IPv4 : rd Z := u ← Uint32; mret u.

(** [p] is the slice passed in, [pcap] its capacity. *)
Definition VariableLength (p : list byte) (pcap : nat) : rd (list byte) :=
  l0 ← Uint8;
  l ← (if l0 <? 255 then mret l0 else Uint16);
  let l := Z.to_nat l in
  let b :=
    if (pcap <? l)%nat then make_bytes l
    else if (length p <? l)%nat then p ++ make_bytes (l - length p)
    else p in
  buffer_Read b.

(** ** string.go *)

Definition tcpFlags : list ascii := ["N"; "C"; "E"; "U"; "A"; "P"; "R"; "S"; "F"]%char.

Fixpoint TCPFlags_loop (n : nat) (i : nat) (f : Z) : string :=
  match n with
  | O => "]"
  | S n =>
      String (if 0 <? Z.land f 1 then List.nth (8 - i) tcpFlags "."%char else "."%char)
             (TCPFlags_loop n (S i) (Z.shiftr f 1))
  end.
Definition TCPFlags (f : Z) : string := String "["%char (TCPFlags_loop 8 0 f).

(** ** Laws of the readers *)

Lemma ReadFull_ok n r : (n ≤ length r)%nat → ReadFull n r = Ok (take n r, drop n r).
Proof. intros. unfold ReadFull. by rewrite decide_True. Qed.

Lemma ReadFull_inv n r b r' :
  ReadFull n r = Ok (b, r') → (n ≤ length r)%nat ∧ b = take n r ∧ r' = drop n r.
Proof. unfold ReadFull. case_decide; [naive_solver|by destruct r]. Qed.

Lemma ReadFull_short n r e :
  ReadFull n r = Err e ↔
  (length r < n)%nat ∧ (e = EOF ∧ r = [] ∨ e = ErrUnexpectedEOF ∧ r ≠ []).
Proof.
  unfold ReadFull. case_decide as Hn.
  - split; [done|]. intros [Hl _]. lia.
  - destruct r as [|x r].
    + split; [intros [= <-]|intros (_ & [[-> _]|[_ Hr]])]; [simpl in *; eauto with lia|done|done].
    + split; [intros [= <-]|intros (_ & [[_ Hr]|[-> _]])]; [simpl in *; eauto with lia|done|done].
Qed.

Lemma Uint8_ok r : (1 ≤ length r)%nat → Uint8 r = Ok (be_decode (take 1 r), drop 1 r).
Proof. intros. unfold Uint8. by rewrite (rd_bind_Ok _ _ _ _ _ (ReadFull_ok _ _ H)). Qed.
Lemma Uint16_ok r : (2 ≤ length r)%nat → Uint16 r = Ok (be_decode (take 2 r), drop 2 r).
Proof. intros. unfold Uint16. by rewrite (rd_bind_Ok _ _ _ _ _ (ReadFull_ok _ _ H)). Qed.
Lemma Uint32_ok r : (4 ≤ length r)%nat → Uint32 r = Ok (be_decode (take 4 r), drop 4 r).
Proof. intros. unfold Uint32. by rewrite (rd_bind_Ok _ _ _ _ _ (ReadFull_ok _ _ H)). Qed.
Lemma Uint64_ok r : (8 ≤ length r)%nat → Uint64 r = Ok (be_decode (take 8 r), drop 8 r).
Proof. intros. unfold Uint64. by rewrite (rd_bind_Ok _ _ _ _ _ (ReadFull_ok _ _ H)). Qed.

Lemma buffer_Read_ok n r :
  (n ≤ length r)%nat → buffer_Read (make_bytes n) r = Ok (take n r, drop n r).
Proof.
  intros Hn. unfold buffer_Read, make_bytes. rewrite length_replicate.
  destruct r as [|x r].
  - destruct n; [|simpl in *; lia]. done.
  - rewrite drop_ge by (rewrite length_replicate; lia). by rewrite app_nil_r.
Qed.

(** A short read is padded with what the slice held. *)
Lemma buffer_Read_short n r :
  r ≠ [] → (length r ≤ n)%nat →
  buffer_Read (make_bytes n) r = Ok (r ++ make_bytes (n - length r), []).
Proof.
  intros Hr Hn. unfold buffer_Read, make_bytes. rewrite length_replicate.
  destruct r as [|x r]; [done|]. f_equal. f_equal.
  - rewrite take_ge by lia. by rewrite drop_replicate.
  - by rewrite drop_ge by lia.
Qed.

Lemma buffer_Read_length p r b r' : buffer_Read p r = Ok (b, r') → length b = length p.
Proof.
  unfold buffer_Read. destruct r as [|x r].
  - case_decide; naive_solver.
  - intros [= <- <-]. rewrite length_app, length_take, length_drop. simpl. lia.
Qed.

Lemma buffer_Read_rest p r b r' : buffer_Read p r = Ok (b, r') → r' = drop (length p) r.
Proof. unfold buffer_Read. destruct r as [|x r]; [case_decide; [|done]|]; intros [= <- <-]; by rewrite ?drop_nil. Qed.

Lemma buffer_Read_err p r e : buffer_Read p r = Err e → e = EOF ∧ r = [] ∧ length p ≠ 0%nat.
Proof. unfold buffer_Read. destruct r; [case_decide|]; naive_solver. Qed.

Lemma safe_ReadFull n : safe (ReadFull n).
Proof. intros r. unfold ReadFull. case_decide; [done|]. by destruct r. Qed.
Lemma safe_buffer_Read p : safe (buffer_Read p).
Proof. intros r. unfold buffer_Read. destruct r; [case_decide|]; done. Qed.
Lemma eats_ReadFull n : eats n (ReadFull n).
Proof. intros r b r' H. apply ReadFull_inv in H as (? & -> & ->). rewrite length_drop. lia. Qed.
Lemma eats_buffer_Read p : eats 0 (buffer_Read p).
Proof. intros r b r' ->%buffer_Read_rest. rewrite length_drop. lia. Qed.

Lemma eats_word n : eats n (b ← ReadFull n; mret (be_decode b)).
Proof.
  replace n with (n + 0)%nat at 1 by lia.
  apply eats_bind; [apply eats_ReadFull|]. intros. apply eats_ret.
Qed.
Lemma safe_word n : safe (b ← ReadFull n; mret (be_decode b)).
Proof. apply safe_bind; [apply safe_ReadFull|]. intros. apply safe_ret. Qed.

Lemma safe_Uint8 : safe Uint8. Proof. apply safe_word. Qed.
Lemma safe_Uint16 : safe Uint16. Proof. apply safe_word. Qed.
Lemma safe_Uint32 : safe Uint32. Proof. apply safe_word. Qed.
Lemma safe_Uint64 : safe Uint64. Proof. apply safe_word. Qed.
Lemma eats_Uint8 : eats 1 Uint8. Proof. apply eats_word. Qed.
Lemma eats_Uint16 : eats 2 Uint16. Proof. apply eats_word. Qed.
Lemma eats_Uint32 : eats 4 Uint32. Proof. apply eats_word. Qed.
Lemma eats_Uint64 : eats 8 Uint64. Proof. apply eats_word. Qed.

#[export] Hint Resolve safe_ReadFull safe_buffer_Read safe_Uint8 safe_Uint16 safe_Uint32
  safe_Uint64 eats_ReadFull eats_buffer_Read eats_Uint8 eats_Uint16 eats_Uint32 eats_Uint64 : rd_db.

(** Proves [safe] of a straight-line reader. *)
Ltac solve_safe :=
  repeat lazymatch goal with
  | |- safe (_ ≫= _) => apply safe_bind
  | |- safe (rd_wrap _ _) => apply safe_wrap
  | |- safe (rd_drain _) => apply safe_drain
  | |- safe (replicateM _ _) => apply safe_replicateM
  | |- safe (if _ then _ else _) => apply safe_if
  | |- safe (let _ := _ in _) => cbv zeta
  | |- safe (match ?x with _ => _ end) => destruct x
  | |- safe _ => solve [eauto with rd_db]
  | |- _ => intros ?
  end.

Lemma safe_VariableLength p c : safe (VariableLength p c).
Proof. unfold VariableLength. solve_safe. Qed.
Lemma eats_VariableLength p c : eats 1 (VariableLength p c).
Proof.
  unfold VariableLength. change 1%nat with (1 + (0 + 0))%nat.
  apply eats_bind; [apply eats_Uint8|]. intros l0.
  apply eats_bind; [|intros; apply eats_buffer_Read].
  destruct (l0 <? 255); [apply eats_ret|]. eapply eats_weaken; [|apply eats_Uint16]. lia.
Qed.
#[export] Hint Resolve safe_VariableLength eats_VariableLength : rd_db.


(** The field of [n] bytes at offset [off]. *)
Definition bytes_at (off n : nat) (b : list byte) : list byte := take n (drop off b).
Definition word_at (off n : nat) (b : list byte) : Z := be_decode (bytes_at off n b).

Lemma word_at_range off n b : (off + n ≤ length b)%nat → 0 ≤ word_at off n b < 256 ^ Z.of_nat n.
Proof.
  intros H. unfold word_at, bytes_at. pose proof (be_decode_range (take n (drop off b))) as R.
  rewrite length_take, length_drop in R. by replace (n `min` (length b - off))%nat with n in R by lia.
Qed.

Lemma bytes_at_app off n b z : (off + n ≤ length b)%nat → bytes_at off n (b ++ z) = bytes_at off n b.
Proof. intros H. unfold bytes_at. rewrite drop_app_le, take_app_le by (rewrite ?length_drop; lia). done. Qed.
Lemma word_at_app off n b z : (off + n ≤ length b)%nat → word_at off n (b ++ z) = word_at off n b.
Proof. intros H. unfold word_at. by rewrite bytes_at_app. Qed.

(** A plain [Read] followed by a word: a short read is caught by the word. *)
Lemma eats_Read_then {B} n k (f : list byte → rd B) :
  (∀ a, eats (S k) (f a)) → eats (n + S k) (buffer_Read (make_bytes n) ≫= f).
Proof.
  intros Hf r b r'' H. apply rd_bind_inv in H as (a & r' & H1 & H2).
  apply buffer_Read_rest in H1 as ->. apply Hf in H2.
  unfold make_bytes in H2. rewrite length_replicate, length_drop in H2. lia.
Qed.

(** One reading step at offset [off] of [b], for the layout theorems. *)
Lemma step_Uint8 {B} (f : Z → rd B) off b : (off + 1 ≤ length b)%nat →
  (Uint8 ≫= f) (drop off b) = f (word_at off 1 b) (drop (off + 1) b).
Proof. intros H. erewrite rd_bind_Ok; [|apply Uint8_ok; rewrite length_drop; lia]. by rewrite drop_drop. Qed.
Lemma step_Uint16 {B} (f : Z → rd B) off b : (off + 2 ≤ length b)%nat →
  (Uint16 ≫= f) (drop off b) = f (word_at off 2 b) (drop (off + 2) b).
Proof. intros H. erewrite rd_bind_Ok; [|apply Uint16_ok; rewrite length_drop; lia]. by rewrite drop_drop. Qed.
Lemma step_Uint32 {B} (f : Z → rd B) off b : (off + 4 ≤ length b)%nat →
  (Uint32 ≫= f) (drop off b) = f (word_at off 4 b) (drop (off + 4) b).
Proof. intros H. erewrite rd_bind_Ok; [|apply Uint32_ok; rewrite length_drop; lia]. by rewrite drop_drop. Qed.
Lemma step_Uint64 {B} (f : Z → rd B) off b : (off + 8 ≤ length b)%nat →
  (Uint64 ≫= f) (drop off b) = f (word_at off 8 b) (drop (off + 8) b).
Proof. intros H. erewrite rd_bind_Ok; [|apply Uint64_ok; rewrite length_drop; lia]. by rewrite drop_drop. Qed.
Lemma step_Read {B} n (f : list byte → rd B) off b : (off + n ≤ length b)%nat →
  (buffer_Read (make_bytes n) ≫= f) (drop off b) = f (bytes_at off n b) (drop (off + n) b).
Proof. intros H. erewrite rd_bind_Ok; [|apply buffer_Read_ok; rewrite length_drop; lia]. by rewrite drop_drop. Qed.

Ltac read_layout :=
  repeat (first [rewrite step_Uint8 by lia | rewrite step_Uint16 by lia | rewrite step_Uint32 by lia
                |rewrite step_Uint64 by lia | rewrite step_Read by lia]; simpl Nat.add).

(** ** Loops over a buffer

    [for cond(buffer) { x := T{}; if err := body(&x, buffer); err != nil { return err };
    xs = append(xs, x) }]. *)
Fixpoint loop_while {A} (fuel : nat) (cond : list byte → bool) (body : rd A) : rd (list A) := λ r,
  if cond r then
    match fuel with
    | O => OutOfFuel
    | S fuel => (x ← body; xs ← loop_while fuel cond body; mret (x :: xs)) r
    end
  else Ok ([], r).

(** The same loop when [io.EOF] from the body ends it without an error. *)
Fixpoint loop_until_EOF {A} (fuel : nat) (cond : list byte → bool) (body : rd A) : rd (list A) := λ r,
  if cond r then
    match fuel with
    | O => OutOfFuel
    | S fuel =>
        match body r with
        | Ok (x, r') => (xs ← loop_until_EOF fuel cond body; mret (x :: xs)) r'
        | Err EOF => Ok ([], r)
        | Err e => Err e
        | Panic w => Panic w
        | OutOfFuel => OutOfFuel
        end
    end
  else Ok ([], r).

(** A loop whose body eats a byte in every round it starts ends within
    [length r] rounds. *)
Section progress.
Context {A : Type} (cond : list byte → bool) (body : rd A).
Hypothesis Hs : ∀ r, cond r = true → settled (body r).
Hypothesis He : ∀ r a r', cond r = true → body r = Ok (a, r') → (length r' < length r)%nat.
Hypothesis Hc : cond [] = false.

Lemma loop_while_settled fuel r : (length r ≤ fuel)%nat → settled (loop_while fuel cond body r).
Proof using Hs He Hc.
  revert r. induction fuel as [|fuel IH]; intros r Hr.
  - destruct r; [|simpl in Hr; lia]. simpl. by rewrite Hc.
  - simpl. destruct (cond r) eqn:E; [|done]. unfold mbind, rd_bind.
    specialize (Hs r E). destruct (body r) as [[x r']| | |] eqn:Eb; try done.
    apply He in Eb; [|done]. specialize (IH r' ltac:(lia)).
    by destruct (loop_while fuel cond body r') as [[xs r'']| | |].
Qed.

Lemma loop_until_EOF_settled fuel r :
  (length r ≤ fuel)%nat → settled (loop_until_EOF fuel cond body r).
Proof using Hs He Hc.
  revert r. induction fuel as [|fuel IH]; intros r Hr.
  - destruct r; [|simpl in Hr; lia]. simpl. by rewrite Hc.
  - simpl. destruct (cond r) eqn:E; [|done].
    specialize (Hs r E). destruct (body r) as [[x r']|[]| |] eqn:Eb; try done.
    apply He in Eb; [|done]. specialize (IH r' ltac:(lia)). unfold mbind, rd_bind.
    by destruct (loop_until_EOF fuel cond body r') as [[xs r'']| | |].
Qed.
End progress.

Lemma loop_until_EOF_no_panic {A} fuel cond (body : rd A) r w :
  safe body → loop_until_EOF fuel cond body r ≠ Panic w.
Proof.
  intros Hs. revert r. induction fuel as [|fuel IH]; intros r; simpl; destruct (cond r); try done.
  specialize (Hs r). destruct (body r) as [[x r']|[]| |]; try done.
  unfold mbind, rd_bind. specialize (IH r'). by destruct (loop_until_EOF fuel cond body r') as [[]| | |].
Qed.

(** A loop whose body succeeds without eating never ends. *)
Lemma loop_while_diverges {A} fuel cond (body : rd A) r x :
  cond r = true → body r = Ok (x, r) → loop_while fuel cond body r = OutOfFuel.
Proof.
  intros Hc Hb. induction fuel as [|fuel IH]; simpl; rewrite Hc; [done|].
  unfold mbind, rd_bind. by rewrite Hb, IH.
Qed.

Lemma loop_until_EOF_diverges {A} fuel cond (body : rd A) r x :
  cond r = true → body r = Ok (x, r) → loop_until_EOF fuel cond body r = OutOfFuel.
Proof.
  intros Hc Hb. induction fuel as [|fuel IH]; simpl; rewrite Hc; [done|].
  rewrite Hb. unfold mbind, rd_bind. by rewrite IH.
Qed.

(** A loop whose body eats chunks, over a buffer that is the chunks. *)
Lemma loop_while_chunks {A} fuel cond (body : rd A) (xs : list A) (enc : A → list byte) tl :
  (∀ x tl, x ∈ xs → body (enc x ++ tl) = Ok (x, tl)) →
  (∀ x tl, x ∈ xs → cond (enc x ++ tl) = true) → cond tl = false → (length xs ≤ fuel)%nat →
  loop_while fuel cond body (concat (enc <$> xs) ++ tl) = Ok (xs, tl).
Proof.
  intros Hb Hc Ht. revert fuel. induction xs as [|x xs IH]; intros fuel Hf.
  { destruct fuel; simpl; by rewrite Ht. }
  destruct fuel as [|fuel]; [simpl in Hf; lia|].
  cbn [fmap list_fmap concat]. rewrite <-app_assoc. cbn [loop_while].
  rewrite Hc by set_solver. erewrite rd_bind_Ok; [|apply Hb; set_solver].
  erewrite rd_bind_Ok; [|apply IH; [| |simpl in Hf; lia]; intros; (apply Hb || apply Hc); set_solver].
  done.
Qed.

Lemma loop_until_EOF_chunks_map {A B} fuel cond (body : rd B) (xs : list A) (enc : A → list byte) (v : A → B) tl :
  (∀ x tl, x ∈ xs → body (enc x ++ tl) = Ok (v x, tl)) →
  (∀ x tl, x ∈ xs → cond (enc x ++ tl) = true) → cond tl = false → (length xs ≤ fuel)%nat →
  loop_until_EOF fuel cond body (concat (enc <$> xs) ++ tl) = Ok (v <$> xs, tl).
Proof.
  intros Hb Hc Ht. revert fuel. induction xs as [|x xs IH]; intros fuel Hf.
  { destruct fuel; simpl; by rewrite Ht. }
  destruct fuel as [|fuel]; [simpl in Hf; lia|].
  cbn [fmap list_fmap concat]. rewrite <-app_assoc. cbn [loop_until_EOF].
  rewrite Hc by set_solver. rewrite Hb by set_solver.
  erewrite rd_bind_Ok; [|apply IH; [| |simpl in Hf; lia]; intros; (apply Hb || apply Hc); set_solver].
  done.
Qed.

Lemma replicateM_chunks {A} (m : rd A) (xs : list A) (enc : A → list byte) tl :
  (∀ x tl, x ∈ xs → m (enc x ++ tl) = Ok (x, tl)) →
  replicateM (length xs) m (concat (enc <$> xs) ++ tl) = Ok (xs, tl).
Proof.
  intros Hm. induction xs as [|x xs IH]; [done|].
  cbn [fmap list_fmap concat length replicateM]. rewrite <-app_assoc.
  erewrite rd_bind_Ok; [|apply Hm; set_solver].
  erewrite rd_bind_Ok; [|apply IH; intros; apply Hm; set_solver]. done.
Qed.

(** Reading back what [binary.BigEndian.PutUintN] wrote. *)
Lemma read_word n x tl : 0 ≤ x < 256 ^ Z.of_nat n →
  (b ← ReadFull n; mret (be_decode b)) (be_encode n x ++ tl) = Ok (x, tl).
Proof.
  intros Hx. erewrite rd_bind_Ok; [|apply ReadFull_ok; rewrite length_app, length_be_encode; lia].
  rewrite take_app_length', drop_app_length' by (by rewrite length_be_encode).
  unfold mret, rd_ret. rewrite be_decode_encode, Z.mod_small by done. done.
Qed.
Lemma read_Uint16 x tl : in_u 16 x → Uint16 (be_encode 2 x ++ tl) = Ok (x, tl).
Proof. intros H. by apply (read_word 2). Qed.
Lemma read_Uint32 x tl : in_u 32 x → Uint32 (be_encode 4 x ++ tl) = Ok (x, tl).
Proof. intros H. by apply (read_word 4). Qed.
Lemma buffer_Read_app n p tl : length p = n → buffer_Read (make_bytes n) (p ++ tl) = Ok (p, tl).
Proof.
  intros Hp. rewrite buffer_Read_ok by (rewrite length_app; lia).
  by rewrite take_app_length', drop_app_length' by done.
Qed.

(** [xs] are the values [v x] encoded as [enc x]. *)
Lemma loop_while_chunks_map {A B} fuel cond (body : rd B) (xs : list A) (enc : A → list byte) (v : A → B) tl :
  (∀ x tl, x ∈ xs → body (enc x ++ tl) = Ok (v x, tl)) →
  (∀ x tl, x ∈ xs → cond (enc x ++ tl) = true) → cond tl = false → (length xs ≤ fuel)%nat →
  loop_while fuel cond body (concat (enc <$> xs) ++ tl) = Ok (v <$> xs, tl).
Proof.
  intros Hb Hc Ht. revert fuel. induction xs as [|x xs IH]; intros fuel Hf.
  { destruct fuel; simpl; by rewrite Ht. }
  destruct fuel as [|fuel]; [simpl in Hf; lia|].
  cbn [fmap list_fmap concat]. rewrite <-app_assoc. cbn [loop_while].
  rewrite Hc by set_solver. erewrite rd_bind_Ok; [|apply Hb; set_solver].
  erewrite rd_bind_Ok; [|apply IH; [| |simpl in Hf; lia]; intros; (apply Hb || apply Hc); set_solver].
  done.
Qed.

(** Reads one encoded word off the front of the buffer. *)
Ltac read_back :=
  repeat (rewrite <-?app_assoc;
    first [erewrite rd_bind_Ok by (apply rd_wrap_Ok; first [apply read_Uint16|apply read_Uint32]; done)
          |erewrite rd_bind_Ok by (first [apply read_Uint16|apply read_Uint32]; done)]).

Lemma length_concat_ge {A} (f : A → list byte) k xs :
  (∀ x, x ∈ xs → k ≤ length (f x))%nat → (k * length xs ≤ length (concat (f <$> xs)))%nat.
Proof.
  induction xs as [|x xs IH]; intros H; simpl; [lia|]. rewrite length_app, Nat.mul_succ_r.
  pose proof (H x ltac:(set_solver)). assert (k * length xs ≤ length (concat (f <$> xs)))%nat by (apply IH; set_solver).
  unfold fmap in *. lia.
Qed.


(** *** Variable length byte strings *)

Definition encode_variable (bs : list byte) : list byte :=
  if (length bs <? 255)%nat then be_encode 1 (Z.of_nat (length bs)) ++ bs
  else be_encode 1 255 ++ be_encode 2 (Z.of_nat (length bs)) ++ bs.

Lemma buffer_Read_into p bs tl : length p = length bs → buffer_Read p (bs ++ tl) = Ok (bs, tl).
Proof.
  intros Hp. unfold buffer_Read. destruct (bs ++ tl) as [|x r] eqn:E.
  - apply app_eq_nil in E as [-> ->]. destruct p; [done|done].
  - rewrite <-E, Hp, take_app_length, drop_app_length.
    rewrite drop_ge by (rewrite length_app; lia). by rewrite app_nil_r.
Qed.

Lemma read_variable p pcap bs tl : (length p ≤ length bs)%nat → Z.of_nat (length bs) < 65536 →
  VariableLength p pcap (encode_variable bs ++ tl) = Ok (bs, tl).
Proof.
  intros Hp Hl. unfold VariableLength, encode_variable.
  set (k := λ l : Z, buffer_Read _).
  assert (k (Z.of_nat (length bs)) (bs ++ tl) = Ok (bs, tl)) as Hk.
  { unfold k. apply buffer_Read_into. rewrite Nat2Z.id.
    destruct (pcap <? length bs)%nat; [unfold make_bytes; by rewrite length_replicate|].
    destruct (length p <? length bs)%nat eqn:E; [|apply Nat.ltb_ge in E; lia].
    unfold make_bytes. rewrite length_app, length_replicate. lia. }
  destruct (length bs <? 255)%nat eqn:E.
  - apply Nat.ltb_lt in E. rewrite <-app_assoc.
    erewrite rd_bind_Ok by (apply (read_word 1); lia).
    rewrite (proj2 (Z.ltb_lt _ _)) by lia. by erewrite rd_bind_Ok by done.
  - rewrite <-!app_assoc. erewrite rd_bind_Ok by (by apply (read_word 1)).
    change (255 <? 255) with false. erewrite rd_bind_Ok by (apply read_Uint16; unfold in_u; lia). done.
Qed.

Lemma encode_variable_nonempty bs : encode_variable bs ≠ [].
Proof. unfold encode_variable. by case_match. Qed.
