(* ===== verification/NetflowFixed.v ===== *)
(** What the four decoders with a fixed record layout (netflow1, netflow5,
    netflow6, netflow7) share: a header that holds a record count, then that many
    records of one length.  The section's hypotheses are discharged by each
    version's layout lemmas. *)
From S2P Require Import Prelude Read.
Local Open Scope Z_scope.

Section fixed.
Context {H R : Type} (hdr : rd H) (rec : rd R) (count : H → Z).
Context (hlen rlen : nat) (hdr_of : list byte → H) (rec_of : list byte → R).

(** [p.Header.Unmarshal] and the loop over [p.Records]. *)
Definition unmarshal_fixed : rd (H * list R) :=
  h ← hdr;
  rs ← replicateM (Z.to_nat (count h)) rec;
  mret (h, rs).

Hypothesis rec_layout : ∀ b, (rlen ≤ length b)%nat → rec b = Ok (rec_of b, drop rlen b).
Hypothesis rec_eats : eats rlen rec.
Hypothesis hdr_layout : ∀ b, (hlen ≤ length b)%nat → 1 ≤ count (hdr_of b) ≤ 32 →
  hdr b = Ok (hdr_of b, drop hlen b).
Hypothesis hdr_eats : eats hlen hdr.
Hypothesis hdr_bounds : ∀ b h r, hdr b = Ok (h, r) → h = hdr_of b ∧ 1 ≤ count h ≤ 32.

Lemma replicateM_layout n b : (n * rlen ≤ length b)%nat →
  replicateM n rec b = Ok ((λ i, rec_of (drop (i * rlen) b)) <$> seq 0 n, drop (n * rlen) b).
Proof using rec_layout.
  revert b. induction n as [|n IH]; intros b Hb; [done|].
  cbn [replicateM]. erewrite rd_bind_Ok; [|apply rec_layout; lia].
  erewrite rd_bind_Ok; [|apply IH; rewrite length_drop; lia].
  rewrite drop_drop. unfold mret, rd_ret. do 2 f_equal.
  cbn [seq fmap list_fmap]. f_equal. rewrite <-(fmap_S_seq 0 n), <-list_fmap_compose.
  apply list_fmap_ext. intros i x _. simpl. by rewrite drop_drop.
Qed.

Lemma unmarshal_fixed_layout b n :
  count (hdr_of b) = Z.of_nat n → (1 ≤ n ≤ 32)%nat → (hlen + n * rlen ≤ length b)%nat →
  unmarshal_fixed b =
    Ok (hdr_of b, (λ i, rec_of (drop (hlen + i * rlen) b)) <$> seq 0 n, drop (hlen + n * rlen) b).
Proof using rec_layout hdr_layout.
  intros Hc Hn Hb. unfold unmarshal_fixed.
  erewrite rd_bind_Ok; [|apply hdr_layout; lia]. rewrite Hc, Nat2Z.id.
  erewrite rd_bind_Ok; [|apply replicateM_layout; rewrite length_drop; lia].
  unfold mret, rd_ret. rewrite drop_drop. do 3 f_equal.
  apply list_fmap_ext. intros i x _. by rewrite drop_drop.
Qed.

Lemma unmarshal_fixed_complete b h rs r :
  unmarshal_fixed b = Ok (h, rs, r) →
  h = hdr_of b ∧ 1 ≤ count h ≤ 32 ∧ (hlen + Z.to_nat (count h) * rlen ≤ length b)%nat.
Proof using hdr_eats hdr_bounds rec_eats.
  intros E. unfold unmarshal_fixed in E. apply rd_bind_inv in E as (h0 & r0 & E1 & E).
  apply rd_bind_inv in E as (rs0 & r1 & E2 & E). injection E as -> -> ->.
  pose proof (hdr_bounds _ _ _ E1) as [-> Hc]. split; [done|]. split; [done|].
  apply hdr_eats in E1. apply (eats_replicateM _ _ _ rec_eats) in E2. lia.
Qed.
End fixed.

(** ** The words the headers combine *)

Lemma count_in_bounds {A} (c : Z) (m1 m2 : A) : 1 ≤ c ≤ 32 →
  (if (c <? 1) || (32 <? c) then m1 else m2) = m2.
Proof. intros H. by rewrite (proj2 (Z.ltb_ge _ _)), (proj2 (Z.ltb_ge _ _)) by lia. Qed.

Lemma count_out_of_bounds {A} (c : Z) (m1 m2 : A) : ¬ 1 ≤ c ≤ 32 →
  (if (c <? 1) || (32 <? c) then m1 else m2) = m1.
Proof.
  intros H. destruct (c <? 1) eqn:E1; [done|]. destruct (32 <? c) eqn:E2; [done|].
  apply Z.ltb_ge in E1, E2. lia.
Qed.

Lemma word_at_split off n m b : (off + n + m ≤ length b)%nat →
  word_at off (n + m) b = word_at off n b * 256 ^ Z.of_nat m + word_at (off + n) m b.
Proof.
  intros H. unfold word_at, bytes_at.
  replace (take (n + m) (drop off b)) with (take n (drop off b) ++ take m (drop (off + n) b)).
  2: { rewrite <-(take_take_drop (drop off b) n m), drop_drop. done. }
  assert (length (take m (drop (off + n) b)) = m) as Hm by (rewrite length_take, length_drop; lia).
  revert Hm. generalize (take m (drop (off + n) b)) as l2, (take n (drop off b)) as l1.
  clear. intros l2 l1. revert m. induction l2 as [|x l2 IH] using rev_ind; intros m Hm.
  { simpl in Hm. subst. rewrite app_nil_r. change (be_decode []) with 0. lia. }
  rewrite length_app in Hm. simpl in Hm. rewrite app_assoc, !be_decode_snoc, (IH (length l2) eq_refl).
  replace (Z.of_nat m) with (Z.succ (Z.of_nat (length l2))) by lia. rewrite Z.pow_succ_r by lia. lia.
Qed.

(** [int64(t >> 32)] and [int64(t & 0xffffffff)] are the two halves of the word. *)
Lemma unix_split off b : (off + 8 ≤ length b)%nat →
  time_Unix (wraps 64 (Z.shiftr (word_at off 8 b) 32)) (wraps 64 (Z.land (word_at off 8 b) 0xffffffff)) =
  time_Unix (word_at off 4 b) (word_at (off + 4) 4 b).
Proof.
  intros H. pose proof (word_at_range off 4 b ltac:(lia)). pose proof (word_at_range (off + 4) 4 b ltac:(lia)).
  change 8%nat with (4 + 4)%nat. rewrite (word_at_split off 4 4) by lia.
  change (256 ^ Z.of_nat 4) with (2 ^ 32) in *.
  change 0xffffffff with (Z.ones 32). rewrite Z.land_ones, Z.shiftr_div_pow2 by lia.
  rewrite Z.div_add_l, Z.div_small, Z.add_0_r by lia.
  rewrite Z.add_comm, Z_mod_plus_full, Z.mod_small by lia.
  rewrite !wraps_id; unfold in_s; lia || done.
Qed.

Lemma uptime_small off b : (off + 4 ≤ length b)%nat →
  Duration_mul (word_at off 4 b) Millisecond = word_at off 4 b * Millisecond.
Proof.
  intros H. pose proof (word_at_range off 4 b H). unfold Duration_mul. apply wraps_id; [lia|].
  unfold in_s, Millisecond in *. lia.
Qed.

(** Proves [eats n] of a straight-line reader whose plain reads are followed by words. *)
Ltac solve_eats_go :=
  lazymatch goal with
  | |- eats 0 (buffer_Read _ ≫= _) => apply (eats_bind 0 0); [apply eats_buffer_Read|intros ?]
  | |- eats _ (buffer_Read (make_bytes ?k) ≫= _) => apply (eats_Read_then k); intros ?
  | |- eats (S ?n) (Uint8 ≫= _) => apply (eats_bind 1 n); [apply eats_Uint8|intros ?]
  | |- eats (S (S ?n)) (Uint16 ≫= _) => apply (eats_bind 2 n); [apply eats_Uint16|intros ?]
  | |- eats (S (S (S (S ?n)))) (Uint32 ≫= _) => apply (eats_bind 4 n); [apply eats_Uint32|intros ?]
  | |- eats (S (S (S (S (S (S (S (S ?n)))))))) (Uint64 ≫= _) => apply (eats_bind 8 n); [apply eats_Uint64|intros ?]
  | |- eats 0 (mret _) => apply eats_ret
  | |- eats _ (if _ then rd_err _ else _) => case_match; [done|]
  | |- eats _ (let x := _ in _) => cbv zeta
  end.
Ltac solve_eats n := repeat solve_eats_go.
