(* ===== verification/Netflow5.v ===== *)
(** NetFlow version 5 (src/pkg/util/netflow/netflow5): the fixed header, the fixed
    record and the packet, each read field by field in wire order.   *)
From S2P Require Import Prelude Read NetflowFixed.
Local Open Scope Z_scope.

Definition Version : Z := 5.

Record PacketHeader := mkPacketHeader {
  h_Version : Z;
  h_Count : Z;
  h_SysUptime : Z;
  h_Unix : Time;
  h_FlowSequence : Z;
  h_EngineType : Z;
  h_EngineID : Z;
  h_SamplingInterval : Z }.

Record FlowRecord := mkFlowRecord {
  SrcAddr : list byte;
  DstAddr : list byte;
  NextHop : list byte;
  Input : Z;
  Output : Z;
  Packets : Z;
  Bytes : Z;
  First : Z;
  Last : Z;
  SrcPort : Z;
  DstPort : Z;
  Pad1 : Z;
  TCPFlags : Z;
  Protocol : Z;
  ToS : Z;
  SrcAS : Z;
  DstAS : Z;
  SrcMask : Z;
  DstMask : Z;
  Pad2 : Z }.

Record Packet := mkPacket { Header : PacketHeader; Records : list FlowRecord }.

(** ** Unmarshal *)

Definition PacketHeader_Unmarshal : rd PacketHeader :=
  version ← Uint16;
  count ← Uint16;
  if (count <? 1) || (32 <? count)
  then rd_err (Errorf "protocol error: %d flows out of bounds" [FInt count])
  else
  u ← Uint32;
  let sysUptime := Duration_mul u Millisecond in
  t ← Uint64;
  let unix := time_Unix (wraps 64 (Z.shiftr t 32)) (wraps 64 (Z.land t 0xffffffff)) in
  flowSequence ← Uint32;
  engineType ← Uint8;
  engineID ← Uint8;
  samplingInterval ← Uint16;
  mret {| h_Version := version; h_Count := count; h_SysUptime := sysUptime; h_Unix := unix;
            h_FlowSequence := flowSequence;
            h_EngineType := engineType;
            h_EngineID := engineID;
            h_SamplingInterval := samplingInterval |}.

Definition FlowRecord_Unmarshal : rd FlowRecord :=
  srcAddr ← buffer_Read (make_bytes 4);
  dstAddr ← buffer_Read (make_bytes 4);
  nextHop ← buffer_Read (make_bytes 4);
  input ← Uint16;
  output ← Uint16;
  packets ← Uint32;
  bytes ← Uint32;
  first ← Uint32;
  last ← Uint32;
  srcPort ← Uint16;
  dstPort ← Uint16;
  pad1 ← Uint8;
  tCPFlags ← Uint8;
  protocol ← Uint8;
  toS ← Uint8;
  srcAS ← Uint16;
  dstAS ← Uint16;
  srcMask ← Uint8;
  dstMask ← Uint8;
  pad2 ← Uint16;
  mret {| SrcAddr := srcAddr;
          DstAddr := dstAddr;
          NextHop := nextHop;
          Input := input;
          Output := output;
          Packets := packets;
          Bytes := bytes;
          First := first;
          Last := last;
          SrcPort := srcPort;
          DstPort := dstPort;
          Pad1 := pad1;
          TCPFlags := tCPFlags;
          Protocol := protocol;
          ToS := toS;
          SrcAS := srcAS;
          DstAS := dstAS;
          SrcMask := srcMask;
          DstMask := dstMask;
          Pad2 := pad2 |}.

Definition Packet_Unmarshal : rd Packet :=
  h ← PacketHeader_Unmarshal;
  records ← replicateM (Z.to_nat (h_Count h)) FlowRecord_Unmarshal;
  mret {| Header := h; Records := records |}.

(** decoder.go *)
Definition Read : rd Packet := Packet_Unmarshal.

(** ** The wire layout

    The fields at the byte offsets the comments of packet.go give. *)

Definition header_at (b : list byte) : PacketHeader :=
  {| h_Version := word_at 0 2 b;
     h_Count := word_at 2 2 b;
     h_SysUptime := word_at 4 4 b * Millisecond;
     h_Unix := time_Unix (word_at 8 4 b) (word_at 12 4 b);
     h_FlowSequence := word_at 16 4 b;
     h_EngineType := word_at 20 1 b;
     h_EngineID := word_at 21 1 b;
     h_SamplingInterval := word_at 22 2 b |}.

Definition record_at (b : list byte) : FlowRecord :=
  {| SrcAddr := bytes_at 0 4 b;
     DstAddr := bytes_at 4 4 b;
     NextHop := bytes_at 8 4 b;
     Input := word_at 12 2 b;
     Output := word_at 14 2 b;
     Packets := word_at 16 4 b;
     Bytes := word_at 20 4 b;
     First := word_at 24 4 b;
     Last := word_at 28 4 b;
     SrcPort := word_at 32 2 b;
     DstPort := word_at 34 2 b;
     Pad1 := word_at 36 1 b;
     TCPFlags := word_at 37 1 b;
     Protocol := word_at 38 1 b;
     ToS := word_at 39 1 b;
     SrcAS := word_at 40 2 b;
     DstAS := word_at 42 2 b;
     SrcMask := word_at 44 1 b;
     DstMask := word_at 45 1 b;
     Pad2 := word_at 46 2 b |}.

Lemma FlowRecord_layout_v5 b : (48 ≤ length b)%nat →
  FlowRecord_Unmarshal b = Ok (record_at b, drop 48 b).
Proof. intros Hb. unfold FlowRecord_Unmarshal. rewrite <-(drop_0 b) at 1. read_layout. done. Qed.

Lemma PacketHeader_layout_v5 b : (24 ≤ length b)%nat → 1 ≤ h_Count (header_at b) ≤ 32 →
  PacketHeader_Unmarshal b = Ok (header_at b, drop 24 b).
Proof.
  intros Hb Hc. simpl in Hc. unfold PacketHeader_Unmarshal. rewrite <-(drop_0 b) at 1. read_layout.
  rewrite count_in_bounds by done. read_layout. unfold mret, rd_ret, header_at.
  rewrite (unix_split 8) by lia. rewrite (uptime_small 4) by lia. done.
Qed.

Lemma eats_FlowRecord_v5 : eats 48 FlowRecord_Unmarshal.
Proof. unfold FlowRecord_Unmarshal. solve_eats 48%nat. Qed.
Lemma safe_FlowRecord_v5 : safe FlowRecord_Unmarshal.
Proof. unfold FlowRecord_Unmarshal. solve_safe. Qed.
Lemma safe_PacketHeader_v5 : safe PacketHeader_Unmarshal.
Proof. unfold PacketHeader_Unmarshal. solve_safe. Qed.
Lemma safe_Packet_v5 : safe Packet_Unmarshal.
Proof.
  apply safe_bind; [apply safe_PacketHeader_v5|]. intros h.
  apply safe_bind; [apply safe_replicateM, safe_FlowRecord_v5|]. intros. apply safe_ret.
Qed.

Lemma PacketHeader_inv_v5 b h r :
  PacketHeader_Unmarshal b = Ok (h, r) →
  h = header_at b ∧ 1 ≤ h_Count h ≤ 32 ∧ (length r + 24 ≤ length b)%nat.
Proof.
  intros E. assert (24 ≤ length b)%nat as Hb.
  { revert E. unfold PacketHeader_Unmarshal. intros E.
    enough (length r + 24 ≤ length b)%nat by lia. revert b h r E.
    change (eats 24 PacketHeader_Unmarshal). unfold PacketHeader_Unmarshal. solve_eats 24%nat. }
  destruct (decide (1 ≤ h_Count (header_at b) ≤ 32)) as [Hc|Hc].
  - rewrite PacketHeader_layout_v5 in E by done. injection E as <- <-.
    rewrite length_drop. split; [done|]. split; [done|lia].
  - revert E. unfold PacketHeader_Unmarshal. rewrite <-(drop_0 b) at 1. read_layout.
    rewrite count_out_of_bounds by done. done.
Qed.

Definition packet_at (b : list byte) : Packet :=
  {| Header := header_at b;
     Records := (λ i, record_at (drop (24 + i * 48) b)) <$> seq 0 (Z.to_nat (word_at 2 2 b)) |}.

Lemma Packet_layout_v5 b n : word_at 2 2 b = Z.of_nat n → (1 ≤ n ≤ 32)%nat →
  (24 + n * 48 ≤ length b)%nat → Packet_Unmarshal b = Ok (packet_at b, drop (24 + n * 48) b).
Proof.
  intros Hn Hr Hl.
  pose proof (unmarshal_fixed_layout _ _ h_Count 24 48 _ _ FlowRecord_layout_v5 PacketHeader_layout_v5 b n Hn Hr Hl) as E.
  unfold unmarshal_fixed in E. apply rd_bind_inv in E as (h & r1 & E1 & E).
  apply rd_bind_inv in E as (rs & r2 & E2 & E). injection E as -> -> ->.
  unfold Packet_Unmarshal. rewrite (rd_bind_Ok _ _ _ _ _ E1), (rd_bind_Ok _ _ _ _ _ E2).
  unfold packet_at. by rewrite Hn, Nat2Z.id.
Qed.

Lemma Packet_complete_v5 b p r : Packet_Unmarshal b = Ok (p, r) →
  1 ≤ word_at 2 2 b ≤ 32 ∧ (24 + Z.to_nat (word_at 2 2 b) * 48 ≤ length b)%nat.
Proof.
  intros E. unfold Packet_Unmarshal in E. apply rd_bind_inv in E as (h & r1 & E1 & E).
  apply rd_bind_inv in E as (rs & r2 & E2 & _). apply PacketHeader_inv_v5 in E1 as (-> & Hc & Hl).
  apply (eats_replicateM _ _ _ eats_FlowRecord_v5) in E2. split; [done|]. simpl h_Count in E2. lia.
Qed.

(** C13: The decoder is exactly the wire layout: it succeeds if and only if the header
    is whole, its count is between 1 and 32 and every counted record is whole; the
    result then holds the fields at their documented offsets and the bytes after
    the last record are left unread. *)
Lemma Packet_Unmarshal_exact b p r :
  Packet_Unmarshal b = Ok (p, r) ↔
    1 ≤ word_at 2 2 b ≤ 32 ∧ (24 + Z.to_nat (word_at 2 2 b) * 48 ≤ length b)%nat ∧
    p = packet_at b ∧ r = drop (24 + Z.to_nat (word_at 2 2 b) * 48) b.
Proof.
  split.
  - intros E. pose proof (Packet_complete_v5 _ _ _ E) as [Hc Hl].
    rewrite (Packet_layout_v5 b (Z.to_nat (word_at 2 2 b))) in E by lia.
    injection E as <- <-. done.
  - intros (Hc & Hl & -> & ->). apply Packet_layout_v5; lia.
Qed.
