(* ===== verification/Netflow7.v ===== *)
(** NetFlow version 7 (src/pkg/util/netflow/netflow7): the fixed header, the fixed
    record and the packet, each read field by field in wire order.  The last field is an address read with a plain [Read]: a record cut inside it is accepted. *)
From S2P Require Import Prelude Read NetflowFixed.
Local Open Scope Z_scope.

Definition Version : Z := 7.

Record PacketHeader := mkPacketHeader {
  h_Version : Z;
  h_Count : Z;
  h_SysUptime : Z;
  h_Unix : Time;
  h_FlowSequence : Z;
  h_Reserved : Z }.

Record FlowRecord := mkFlowRecord {
  SrcAddr : list byte;
  DstAddr : list byte;
  NextHop : list byte;
  Input : Z;
  Output : Z;
  Packets : Z;
  Bytes : Z;
  First : Z;
  Last : Z;
  SrcPort : Z;
  DstPort : Z;
  Pad1 : Z;
  TCPFlags : Z;
  Protocol : Z;
  ToS : Z;
  SrcAS : Z;
  DstAS : Z;
  SrcMask : Z;
  DstMask : Z;
  Flags : Z;
  RouterSC : list byte }.

Record Packet := mkPacket { Header : PacketHeader; Records : list FlowRecord }.

(** ** Unmarshal *)

Definition PacketHeader_Unmarshal : rd PacketHeader :=
  version ← Uint16;
  count ← Uint16;
  if (count <? 1) || (32 <? count)
  then rd_err (Errorf "protocol error: %d flows out of bounds" [FInt count])
  else
  u ← Uint32;
  let sysUptime := Duration_mul u Millisecond in
  t ← Uint64;
  let unix := time_Unix (wraps 64 (Z.shiftr t 32)) (wraps 64 (Z.land t 0xffffffff)) in
  flowSequence ← Uint32;
  reserved ← Uint32;
  mret {| h_Version := version; h_Count := count; h_SysUptime := sysUptime; h_Unix := unix;
            h_FlowSequence := flowSequence;
            h_Reserved := reserved |}.

Definition FlowRecord_Unmarshal : rd FlowRecord :=
  srcAddr ← buffer_Read (make_bytes 4);
  dstAddr ← buffer_Read (make_bytes 4);
  nextHop ← buffer_Read (make_bytes 4);
  input ← Uint16;
  output ← Uint16;
  packets ← Uint32;
  bytes ← Uint32;
  first ← Uint32;
  last ← Uint32;
  srcPort ← Uint16;
  dstPort ← Uint16;
  pad1 ← Uint8;
  tCPFlags ← Uint8;
  protocol ← Uint8;
  toS ← Uint8;
  srcAS ← Uint16;
  dstAS ← Uint16;
  srcMask ← Uint8;
  dstMask ← Uint8;
  flags ← Uint16;
  routerSC ← buffer_Read (make_bytes 4);
  mret {| SrcAddr := srcAddr;
          DstAddr := dstAddr;
          NextHop := nextHop;
          Input := input;
          Output := output;
          Packets := packets;
          Bytes := bytes;
          First := first;
          Last := last;
          SrcPort := srcPort;
          DstPort := dstPort;
          Pad1 := pad1;
          TCPFlags := tCPFlags;
          Protocol := protocol;
          ToS := toS;
          SrcAS := srcAS;
          DstAS := dstAS;
          SrcMask := srcMask;
          DstMask := dstMask;
          Flags := flags;
          RouterSC := routerSC |}.

Definition Packet_Unmarshal : rd Packet :=
  h ← PacketHeader_Unmarshal;
  records ← replicateM (Z.to_nat (h_Count h)) FlowRecord_Unmarshal;
  mret {| Header := h; Records := records |}.

(** decoder.go *)
Definition Read : rd Packet := Packet_Unmarshal.

(** ** The wire layout

    The fields at the byte offsets the comments of packet.go give. *)

Definition header_at (b : list byte) : PacketHeader :=
  {| h_Version := word_at 0 2 b;
     h_Count := word_at 2 2 b;
     h_SysUptime := word_at 4 4 b * Millisecond;
     h_Unix := time_Unix (word_at 8 4 b) (word_at 12 4 b);
     h_FlowSequence := word_at 16 4 b;
     h_Reserved := word_at 20 4 b |}.

Definition record_at (b : list byte) : FlowRecord :=
  {| SrcAddr := bytes_at 0 4 b;
     DstAddr := bytes_at 4 4 b;
     NextHop := bytes_at 8 4 b;
     Input := word_at 12 2 b;
     Output := word_at 14 2 b;
     Packets := word_at 16 4 b;
     Bytes := word_at 20 4 b;
     First := word_at 24 4 b;
     Last := word_at 28 4 b;
     SrcPort := word_at 32 2 b;
     DstPort := word_at 34 2 b;
     Pad1 := word_at 36 1 b;
     TCPFlags := word_at 37 1 b;
     Protocol := word_at 38 1 b;
     ToS := word_at 39 1 b;
     SrcAS := word_at 40 2 b;
     DstAS := word_at 42 2 b;
     SrcMask := word_at 44 1 b;
     DstMask := word_at 45 1 b;
     Flags := word_at 46 2 b;
     RouterSC := bytes_at 48 4 b |}.

Lemma FlowRecord_layout_v7 b : (52 ≤ length b)%nat →
  FlowRecord_Unmarshal b = Ok (record_at b, drop 52 b).
Proof. intros Hb. unfold FlowRecord_Unmarshal. rewrite <-(drop_0 b) at 1. read_layout. done. Qed.

Lemma PacketHeader_layout_v7 b : (24 ≤ length b)%nat → 1 ≤ h_Count (header_at b) ≤ 32 →
  PacketHeader_Unmarshal b = Ok (header_at b, drop 24 b).
Proof.
  intros Hb Hc. simpl in Hc. unfold PacketHeader_Unmarshal. rewrite <-(drop_0 b) at 1. read_layout.
  rewrite count_in_bounds by done. read_layout. unfold mret, rd_ret, header_at.
  rewrite (unix_split 8) by lia. rewrite (uptime_small 4) by lia. done.
Qed.

Lemma eats_FlowRecord_v7 : eats 48 FlowRecord_Unmarshal.
Proof. unfold FlowRecord_Unmarshal. solve_eats 48%nat. Qed.
Lemma safe_FlowRecord_v7 : safe FlowRecord_Unmarshal.
Proof. unfold FlowRecord_Unmarshal. solve_safe. Qed.
Lemma safe_PacketHeader_v7 : safe PacketHeader_Unmarshal.
Proof. unfold PacketHeader_Unmarshal. solve_safe. Qed.
Lemma safe_Packet_v7 : safe Packet_Unmarshal.
Proof.
  apply safe_bind; [apply safe_PacketHeader_v7|]. intros h.
  apply safe_bind; [apply safe_replicateM, safe_FlowRecord_v7|]. intros. apply safe_ret.
Qed.

Lemma PacketHeader_inv_v7 b h r :
  PacketHeader_Unmarshal b = Ok (h, r) →
  h = header_at b ∧ 1 ≤ h_Count h ≤ 32 ∧ (length r + 24 ≤ length b)%nat.
Proof.
  intros E. assert (24 ≤ length b)%nat as Hb.
  { revert E. unfold PacketHeader_Unmarshal. intros E.
    enough (length r + 24 ≤ length b)%nat by lia. revert b h r E.
    change (eats 24 PacketHeader_Unmarshal). unfold PacketHeader_Unmarshal. solve_eats 24%nat. }
  destruct (decide (1 ≤ h_Count (header_at b) ≤ 32)) as [Hc|Hc].
  - rewrite PacketHeader_layout_v7 in E by done. injection E as <- <-.
    rewrite length_drop. split; [done|]. split; [done|lia].
  - revert E. unfold PacketHeader_Unmarshal. rewrite <-(drop_0 b) at 1. read_layout.
    rewrite count_out_of_bounds by done. done.
Qed.

Definition packet_at (b : list byte) : Packet :=
  {| Header := header_at b;
     Records := (λ i, record_at (drop (24 + i * 52) b)) <$> seq 0 (Z.to_nat (word_at 2 2 b)) |}.

Lemma Packet_layout_v7 b n : word_at 2 2 b = Z.of_nat n → (1 ≤ n ≤ 32)%nat →
  (24 + n * 52 ≤ length b)%nat → Packet_Unmarshal b = Ok (packet_at b, drop (24 + n * 52) b).
Proof.
  intros Hn Hr Hl.
  pose proof (unmarshal_fixed_layout _ _ h_Count 24 52 _ _ FlowRecord_layout_v7 PacketHeader_layout_v7 b n Hn Hr Hl) as E.
  unfold unmarshal_fixed in E. apply rd_bind_inv in E as (h & r1 & E1 & E).
  apply rd_bind_inv in E as (rs & r2 & E2 & E). injection E as -> -> ->.
  unfold Packet_Unmarshal. rewrite (rd_bind_Ok _ _ _ _ _ E1), (rd_bind_Ok _ _ _ _ _ E2).
  unfold packet_at. by rewrite Hn, Nat2Z.id.
Qed.

Lemma FlowRecord_short_v7 b : (48 < length b < 52)%nat →
  FlowRecord_Unmarshal b = FlowRecord_Unmarshal (b ++ make_bytes (52 - length b)).
Proof.
  intros Hb. set (z := make_bytes (52 - length b)).
  assert (length (b ++ z) = 52%nat) as Hz by (unfold z, make_bytes; rewrite length_app, length_replicate; lia).
  rewrite (FlowRecord_layout_v7 (b ++ z)) by lia. rewrite drop_ge by lia.
  unfold FlowRecord_Unmarshal. rewrite <-(drop_0 b) at 1. read_layout.
  erewrite rd_bind_Ok; [|apply buffer_Read_short; [|rewrite length_drop; lia]].
  2: { intros E. apply (f_equal length) in E. rewrite length_drop in E. simpl in E. lia. }
  unfold mret, rd_ret, record_at. rewrite !bytes_at_app, !word_at_app by lia. do 3 f_equal.
  unfold bytes_at. rewrite length_drop, drop_app_le, take_ge by (rewrite ?length_app, ?length_drop; unfold z, make_bytes; rewrite ?length_replicate; lia).
  unfold z. do 2 f_equal. lia.
Qed.

Lemma records_short_v7 k n b : (1 ≤ k ≤ 3)%nat → (length b + k = 52 * S n)%nat →
  replicateM (S n) FlowRecord_Unmarshal b = replicateM (S n) FlowRecord_Unmarshal (b ++ make_bytes k).
Proof.
  intros Hk. revert b. induction n as [|n IH]; intros b Hb.
  - cbn [replicateM]. unfold mbind at 1 3, rd_bind. rewrite FlowRecord_short_v7 by lia.
    by replace (52 - length b)%nat with k by lia.
  - change (replicateM (S (S n)) FlowRecord_Unmarshal) with
      (x ← FlowRecord_Unmarshal; xs ← replicateM (S n) FlowRecord_Unmarshal; mret (x :: xs)).
    rewrite (rd_bind_Ok _ _ b _ _ (FlowRecord_layout_v7 b ltac:(lia))).
    rewrite (rd_bind_Ok _ _ (b ++ make_bytes k) _ _
      (FlowRecord_layout_v7 (b ++ make_bytes k) ltac:(rewrite length_app; lia))).
    rewrite drop_app_le by lia. unfold mbind, rd_bind.
    rewrite (IH (drop 52 b)) by (rewrite length_drop; lia).
    replace (record_at (b ++ make_bytes k)) with (record_at b); [done|].
    unfold record_at. by rewrite !bytes_at_app, !word_at_app by lia.
Qed.

(** A packet cut by one to three bytes inside the last record's RouterSC is
    accepted, and decodes as if the cut bytes had been zero. *)
Lemma nf7_truncated_accepted b n k :
  word_at 2 2 b = Z.of_nat (S n) → (S n ≤ 32)%nat → (1 ≤ k ≤ 3)%nat →
  (length b + k = 24 + 52 * S n)%nat →
  Packet_Unmarshal b = Ok (packet_at (b ++ make_bytes k), []).
Proof.
  intros Hn Hr Hk Hl.
  assert (length (b ++ make_bytes k) = 24 + 52 * S n)%nat as Hz
    by (unfold make_bytes; rewrite length_app, length_replicate; lia).
  assert (word_at 2 2 (b ++ make_bytes k) = Z.of_nat (S n)) as Hn' by (rewrite word_at_app; lia || done).
  pose proof (Packet_layout_v7 (b ++ make_bytes k) (S n) Hn' ltac:(lia) ltac:(lia)) as E.
  rewrite drop_ge in E by lia. rewrite <-E. clear E.
  unfold Packet_Unmarshal.
  rewrite (rd_bind_Ok _ _ b _ _ (PacketHeader_layout_v7 b ltac:(lia) ltac:(cbn [h_Count header_at]; lia))).
  rewrite (rd_bind_Ok _ _ (b ++ make_bytes k) _ _ (PacketHeader_layout_v7 (b ++ make_bytes k) ltac:(lia) ltac:(cbn [h_Count header_at]; lia))).
  replace (header_at (b ++ make_bytes k)) with (header_at b)
    by (unfold header_at; by rewrite !word_at_app by lia).
  simpl h_Count. rewrite Hn, Nat2Z.id, drop_app_le by lia.
  unfold mbind at 1 2, rd_bind at 1 2. rewrite (records_short_v7 k) by (rewrite ?length_drop; lia). done.
Qed.

Definition cut_packet_v7 : list byte := be_encode 2 7 ++ be_encode 2 1 ++ make_bytes 71.
Lemma nf7_truncated_accepted_witness :
  Packet_Unmarshal cut_packet_v7 = Ok (packet_at (cut_packet_v7 ++ make_bytes 1), []).
Proof. apply (nf7_truncated_accepted cut_packet_v7 0 1); [reflexivity|lia|lia|reflexivity]. Defined.
