(* ===== verification/Session.v ===== *)
(** Package [session] (src/pkg/util/netflow/session): the template store the
    NetFlow 9 and IPFIX decoders share.

    The [Template] interface is the class [Template]; a type switch on an
    interface value is a pair of casts, the class [Implements].  Both decoders are
    proved against these classes; NetflowDecoder.v gives the one dynamic type that
    holds the four concrete template types. *)
From S2P Require Import Prelude.
Local Open Scope Z_scope.

(** The interface: a dynamic value with an [ID] method. *)
Class Template (T : Type) := template_ID : T → Z.
Class HasID (R : Type) := ID : R → Z.

(** [R] is a concrete type behind the interface: [up] stores it, [down] is the
    type assertion. *)
Class Implements (R T : Type) `{HasID R, Template T} := {
  up : R → T;
  down : T → option R;
  down_up r : down (up r) = Some r;
  up_down t r : down t = Some r → t = up r;
  template_ID_up r : template_ID (up r) = ID r }.

(** Two different concrete types behind one interface. *)
Class DistinctTypes (R1 R2 T : Type) `{Implements R1 T, Implements R2 T} :=
  distinct_types : ∀ r : R2, down (R:=R1) (up r) = None.

Record templateKey := mkTemplateKey { sourceID : Z; templateID : Z }.
#[export] Instance templateKey_eq_dec : EqDecision templateKey.
Proof. solve_decision. Defined.
#[export] Instance templateKey_countable : Countable templateKey.
Proof.
  refine (inj_countable' (λ k, (sourceID k, templateID k)) (λ p, mkTemplateKey p.1 p.2) _).
  by intros [].
Defined.

Section session.
Context {T : Type} `{Template T}.

Record basicSession := mkSession { templates : gmap templateKey T }.

Definition New : basicSession := {| templates := ∅ |}.

Definition AddTemplate (source : Z) (t : T) (s : basicSession) : basicSession :=
  {| templates := <[{| sourceID := source; templateID := template_ID t |} := t]> (templates s) |}.

Definition GetTemplate (source template : Z) (s : basicSession) : option T :=
  templates s !! {| sourceID := source; templateID := template |}.

Lemma GetTemplate_New source id : GetTemplate source id New = None.
Proof. apply lookup_empty. Qed.

Lemma GetTemplate_Add_same source t s :
  GetTemplate source (template_ID t) (AddTemplate source t s) = Some t.
Proof. apply lookup_insert_eq. Qed.

Lemma GetTemplate_Add_other source t s source' id :
  (source', id) ≠ (source, template_ID t) →
  GetTemplate source' id (AddTemplate source t s) = GetTemplate source' id s.
Proof. intros Hne. apply lookup_insert_ne. congruence. Qed.

(** Every stored template sits under its own id. *)
Definition session_wf (s : basicSession) : Prop :=
  ∀ k t, templates s !! k = Some t → template_ID t = templateID k.

Lemma New_wf : session_wf New.
Proof. intros k t Hk. cbn [templates New] in Hk. by rewrite lookup_empty in Hk. Qed.

Lemma AddTemplate_wf source t s : session_wf s → session_wf (AddTemplate source t s).
Proof.
  intros Hs k t' Hk. simpl in Hk.
  apply lookup_insert_Some in Hk as [[<- <-]|[_ Hk]]; [done|]. by apply Hs.
Qed.

(** [for _, tr := range records { tr.register(source, s) }], with a nil session
    as [None]. *)
Definition register {R} `{!HasID R, !Implements R T} (source : Z) (r : R)
    (s : option basicSession) : option basicSession := AddTemplate source (up r) <$> s.

Fixpoint register_all {R} `{!HasID R, !Implements R T} (source : Z) (rs : list R)
    (s : option basicSession) : option basicSession :=
  match rs with
  | [] => s
  | r :: rs => register_all source rs (register source r s)
  end.

Lemma register_all_wf {R} `{!HasID R, !Implements R T} source (rs : list R) s :
  session_wf s → ∃ s', register_all source rs (Some s) = Some s' ∧ session_wf s'.
Proof.
  revert s. induction rs as [|r rs IH]; intros s Hs; [by exists s|].
  apply IH. by apply AddTemplate_wf.
Qed.
Definition session_ok (s : option basicSession) : Prop := ∀ s0, s = Some s0 → session_wf s0.

(** What a decoding step keeps: sessions stay well formed and only templates of [source]
    change. *)
Definition session_step (source : Z) (s s' : option basicSession) : Prop :=
  (session_ok s → session_ok s') ∧
  (is_Some s ↔ is_Some s') ∧
  ∀ s0 s0' source' id, s = Some s0 → s' = Some s0' → source' ≠ source →
    GetTemplate source' id s0' = GetTemplate source' id s0.

Lemma session_step_refl source (s : option basicSession) : session_step source s s.
Proof. split; [done|]. split; [done|]. by intros s0 s0' ?? -> [= ->]. Qed.

Lemma session_step_trans source (s1 s2 s3 : option basicSession) :
  session_step source s1 s2 → session_step source s2 s3 → session_step source s1 s3.
Proof.
  intros (W1 & S1 & G1) (W2 & S2 & G2). split; [by auto|]. split; [by rewrite S1|].
  intros s0 s0' source' id H1 H3 Hne.
  destruct (proj1 S1 (ex_intro _ s0 H1)) as [sm Hm].
  rewrite (G2 sm s0') by done. by apply G1.
Qed.

Lemma session_step_register_all {R} `{!HasID R, !Implements R T} source (rs : list R) s :
  session_step source s (register_all source rs s).
Proof.
  revert s. induction rs as [|r rs IH]; intros s; [apply session_step_refl|].
  eapply session_step_trans; [|apply IH]. unfold register. split; [|split].
  - intros Hok s0 Hs0. destruct s as [s1|]; [|done]. injection Hs0 as <-.
    apply AddTemplate_wf. by apply Hok.
  - destruct s; simpl; split; intros [? ?]; naive_solver.
  - intros s0 s0' source' id -> [= <-] Hne. apply GetTemplate_Add_other. congruence.
Qed.
End session.
Arguments basicSession : clear implicits.

Create HintDb session_db.
#[export] Hint Resolve New_wf AddTemplate_wf : session_db.
