(* ===== verification/Translate.v ===== *)
(** Package [translate] (src/pkg/util/netflow/translate/translate.go): the types
    of information elements and the translation of the raw bytes of a field. *)
From S2P Require Import Prelude.
Local Open Scope Z_scope.

Inductive FieldType :=
| Unknown | Uint8 | Uint16 | Uint32 | Uint64 | Int8 | Int16 | Int32 | Int64
| Float32 | Float64 | Boolean | MacAddress | OctetArray | String
| DateTimeSeconds | DateTimeMilliseconds | DateTimeMicroseconds | DateTimeNanoseconds
| Ipv4Address | Ipv6Address.

#[export] Instance FieldType_eq_dec : EqDecision FieldType.
Proof. solve_decision. Defined.

Definition FieldTypes_list : list (string * FieldType) :=
  [ ("unsigned8", Uint8); ("unsigned16", Uint16); ("unsigned32", Uint32);
    ("unsigned64", Uint64); ("signed8", Int8); ("signed16", Int16);
    ("signed32", Int32); ("signed64", Int64); ("float32", Float32);
    ("float64", Float64); ("boolean", Boolean); ("macAddress", MacAddress);
    ("octetArray", OctetArray); ("string", String);
    ("dateTimeSeconds", DateTimeSeconds); ("dateTimeMilliseconds", DateTimeMilliseconds);
    ("dateTimeMicroseconds", DateTimeMicroseconds); ("dateTimeNanoseconds", DateTimeNanoseconds);
    ("ipv4Address", Ipv4Address); ("ipv6Address", Ipv6Address) ].

(** Reading a missing key of the map gives the zero value, [Unknown]. *)
Definition FieldTypes (name : string) : FieldType :=
  default Unknown ((list_to_map FieldTypes_list : gmap string FieldType) !! name).

Definition minLength (t : FieldType) : nat :=
  match t with
  | Uint8 | Int8 | Boolean => 1
  | Uint16 | Int16 => 1
  | Uint32 | Int32 => 1
  | Float32 | DateTimeSeconds => 4
  | Uint64 | Int64 => 1
  | Float64 => 4
  | DateTimeMilliseconds | DateTimeMicroseconds | DateTimeNanoseconds => 8
  | MacAddress => 6
  | Ipv4Address => 4
  | Ipv6Address => 16
  | Unknown | OctetArray | String => 0
  end.

Record InformationElementEntry := mkEntry {
  Name : string;
  FieldID : Z;
  EnterpriseID : Z;
  Type_ : FieldType }.

(** [Key]: enterprise id, field id. *)
Abbreviation Key := (Z * Z)%type.
Abbreviation informationElements := (gmap (Z * Z) InformationElementEntry).

(** The [interface{}] values a field translates to. *)
Inductive value :=
| VNil
| VUint8 (z : Z) | VUint16 (z : Z) | VUint32 (z : Z) | VUint64 (z : Z)
| VInt8 (z : Z) | VInt16 (z : Z) | VInt32 (z : Z) | VInt64 (z : Z)
| VFloat32 (bits : Z)          (* math.Float32frombits *)
| VFloat64 (bits : Z)          (* math.Float64frombits *)
| VFloat64of32 (bits : Z)      (* float64(math.Float32frombits) *)
| VBool (b : bool)
| VBytes (b : list byte)
| VString (b : list byte)
| VHardwareAddr (b : list byte)
| VIP (b : list byte)
| VTime (t : Time).

Definition reducedSizeErr : error :=
  Errorf "Unable to read reduced size encoding: size not implemented" [].
Definition tooManyBitsErr : error :=
  Errorf "Unable to read reduced size encoding: too many bits" [].

(** [bs[i]] as a number; every use is behind a length check. *)
Definition byte_at (i : nat) (bs : list byte) : Z := b2z (List.nth i bs Byte.x00).

Definition reducedSizeReadUnsigned (bs : list byte) (maxBits : Z) : res Z :=
  if maxBits <? Z.of_nat (length bs) * 8 then Err tooManyBitsErr
  else match length bs with
  | 1%nat => Ok (byte_at 0 bs)
  | 2%nat => Ok (be_decode bs)
  | 3%nat => Ok (wrapu 32 (wrapu 32 (Z.shiftl (byte_at 0 bs) 16) +
                           wrapu 32 (Z.shiftl (byte_at 1 bs) 8) + byte_at 2 bs))
  | 4%nat => Ok (be_decode bs)
  | 8%nat => Ok (be_decode bs)
  | _ => Err reducedSizeErr
  end.

Definition reducedSizeReadSigned (bs : list byte) (maxBits : Z) : res Z :=
  if maxBits <? Z.of_nat (length bs) * 8 then Err tooManyBitsErr
  else match length bs with
  | 1%nat => Ok (wraps 8 (byte_at 0 bs))
  | 2%nat => Ok (wraps 16 (be_decode bs))
  | 4%nat => Ok (wraps 32 (be_decode bs))
  | 8%nat => Ok (wraps 64 (be_decode bs))
  | _ => Err reducedSizeErr
  end.

(** The pointer types [reducedSizeRead] switches on. *)
Inductive reducedTarget := PUint16 | PUint32 | PUint64 | PInt16 | PInt32 | PInt64.

Definition reducedSizeRead (bs : list byte) (i : reducedTarget) : res Z :=
  match i with
  | PUint16 => wrapu 16 <$> reducedSizeReadUnsigned bs 16
  | PUint32 => wrapu 32 <$> reducedSizeReadUnsigned bs 32
  | PUint64 => wrapu 64 <$> reducedSizeReadUnsigned bs 64
  | PInt16 => wraps 16 <$> reducedSizeReadSigned bs 16
  | PInt32 => wraps 32 <$> reducedSizeReadSigned bs 32
  | PInt64 => wraps 64 <$> reducedSizeReadSigned bs 64
  end.

(** [if err := reducedSizeRead(bs, &i); err == nil { return i }], else the raw bytes. *)
Definition reduced_or_raw (bs : list byte) (i : reducedTarget) (mk : Z → value) : value :=
  match reducedSizeRead bs i with Ok z => mk z | _ => VBytes bs end.

(** [time.Unix(0, 0).Add(time.Duration(int64(bits)) * unit)]. *)
Definition epoch_Add (bits unit_ : Z) : Time :=
  Time_Add (time_Unix 0 0) (Duration_mul (wraps 64 bits) unit_).

Definition Bytes (bs : list byte) (t : FieldType) : value :=
  if (length bs <? minLength t)%nat then VBytes bs
  else match t with
  | Uint8 => VUint8 (byte_at 0 bs)
  | Uint16 => reduced_or_raw bs PUint16 VUint16
  | Uint32 => reduced_or_raw bs PUint32 VUint32
  | Uint64 => reduced_or_raw bs PUint64 VUint64
  | Int8 => VInt8 (wraps 8 (byte_at 0 bs))
  | Int16 => reduced_or_raw bs PInt16 VInt16
  | Int32 => reduced_or_raw bs PInt32 VInt32
  | Int64 => reduced_or_raw bs PInt64 VInt64
  | Float32 => VFloat32 (be_decode (take 4 bs))
  | Float64 =>
      match length bs with
      | 4%nat => VFloat64of32 (be_decode (take 4 bs))
      | 8%nat => VFloat64 (be_decode (take 8 bs))
      | _ => VBytes bs
      end
  | Boolean => VBool (byte_at 0 bs =? 1)
  | Unknown | OctetArray => VBytes bs
  | String => VString bs
  | MacAddress => VHardwareAddr bs
  | Ipv4Address | Ipv6Address => VIP bs
  | DateTimeSeconds => VTime (time_Unix (be_decode (take 4 bs)) 0)
  | DateTimeMilliseconds => VTime (epoch_Add (be_decode (take 8 bs)) Millisecond)
  | DateTimeMicroseconds => VTime (epoch_Add (be_decode (take 8 bs)) Microsecond)
  | DateTimeNanoseconds => VTime (epoch_Add (be_decode (take 8 bs)) Nanosecond)
  end.

(** ** Laws *)

Lemma byte_at_0 b bs : byte_at 0 (b :: bs) = b2z b.
Proof. done. Qed.

(** The supported widths of an unsigned element read back as the big-endian
    number whenever the width fits the element. *)
Definition reduced_width (k : nat) : bool :=
  match k with 1%nat | 2%nat | 3%nat | 4%nat | 8%nat => true | _ => false end.

Lemma be_decode_1 b : be_decode [b] = b2z b.
Proof. unfold be_decode. simpl. lia. Qed.

Lemma reducedSizeReadUnsigned_ok bs maxBits :
  reduced_width (length bs) = true → Z.of_nat (length bs) * 8 ≤ maxBits →
  reducedSizeReadUnsigned bs maxBits = Ok (be_decode bs).
Proof.
  intros Hw Hm. unfold reducedSizeReadUnsigned. rewrite (proj2 (Z.ltb_ge _ _)) by done.
  destruct bs as [|b0 [|b1 [|b2 [|b3 bs]]]]; try done.
  - simpl length. cbn iota. f_equal. unfold byte_at, be_decode. simpl.
    pose proof (b2z_range b0). pose proof (b2z_range b1). pose proof (b2z_range b2).
    rewrite !Z.shiftl_mul_pow2 by lia. rewrite !wrapu_id; unfold in_u; lia || nia || idtac.
    all: rewrite ?wrapu_id; unfold in_u; lia.
  - destruct bs as [|b4 [|b5 [|b6 [|b7 [|b8 bs]]]]]; done.
Qed.

Lemma be_decode_in_u bs w : Z.of_nat (length bs) * 8 ≤ w → in_u w (be_decode bs).
Proof.
  intros H. pose proof (be_decode_range bs) as R. unfold in_u. split; [lia|].
  eapply Z.lt_le_trans; [apply R|]. change 256 with (2 ^ 8).
  rewrite <-Z.pow_mul_r by lia. apply Z.pow_le_mono_r; lia.
Qed.

(** An unsigned element of [w] bits. *)
Definition uint_type (w : Z) : FieldType :=
  if w =? 16 then Uint16 else if w =? 32 then Uint32 else Uint64.
Definition uint_value (w : Z) : Z → value :=
  if w =? 16 then VUint16 else if w =? 32 then VUint32 else VUint64.

Lemma Bytes_unsigned bs w :
  (w = 16 ∨ w = 32 ∨ w = 64) → reduced_width (length bs) = true → Z.of_nat (length bs) * 8 ≤ w →
  Bytes bs (uint_type w) = uint_value w (be_decode bs).
Proof.
  intros Hw Hr Hl. assert (¬ (length bs < 1)%nat) as Hn by (destruct bs; simpl in *; [done|lia]).
  pose proof (be_decode_in_u bs w Hl).
  unfold Bytes, reduced_or_raw, reducedSizeRead.
  destruct Hw as [-> | [-> | ->]]; simpl; rewrite (proj2 (Nat.ltb_ge _ _)) by lia;
    rewrite reducedSizeReadUnsigned_ok by done; simpl; by rewrite wrapu_id.
Qed.

Lemma Bytes_short bs t : (length bs < minLength t)%nat → Bytes bs t = VBytes bs.
Proof. intros H. unfold Bytes. by rewrite (proj2 (Nat.ltb_lt _ _)). Qed.

(** An integer element of [w] bits, and the widths it can be sent in. *)
Definition int_type (signed : bool) (w : Z) : FieldType :=
  if signed then if w =? 16 then Int16 else if w =? 32 then Int32 else Int64 else uint_type w.
Definition int_value (signed : bool) (w : Z) : Z → value :=
  if signed then if w =? 16 then VInt16 else if w =? 32 then VInt32 else VInt64 else uint_value w.
Definition sent_width (signed : bool) (k : nat) : bool :=
  reduced_width k && negb (signed && (k =? 3)%nat).

Lemma wraps_in_s w v x : 0 < w ≤ v → in_s v (wraps w x).
Proof.
  intros Hw. unfold in_s, wraps. assert (2 ^ w = 2 * 2 ^ (w - 1)) as E by (rewrite <-Z.pow_succ_r by lia; f_equal; lia).
  pose proof (Z.mod_pos_bound (x + 2 ^ (w - 1)) (2 ^ w) ltac:(lia)).
  pose proof (Z.pow_le_mono_r 2 (w - 1) (v - 1) ltac:(lia) ltac:(lia)). lia.
Qed.

Lemma reducedSizeReadSigned_ok bs maxBits : reducedSizeReadSigned bs maxBits =
  if maxBits <? Z.of_nat (length bs) * 8 then Err tooManyBitsErr
  else if sent_width true (length bs) then Ok (wraps (8 * Z.of_nat (length bs)) (be_decode bs))
  else Err reducedSizeErr.
Proof.
  unfold reducedSizeReadSigned. destruct (_ <? _); [done|].
  do 9 (destruct bs as [|? bs]; [done|]). done.
Qed.

Lemma reducedSizeReadUnsigned_eq bs maxBits : reducedSizeReadUnsigned bs maxBits =
  if maxBits <? Z.of_nat (length bs) * 8 then Err tooManyBitsErr
  else if sent_width false (length bs) then Ok (be_decode bs) else Err reducedSizeErr.
Proof.
  destruct (maxBits <? _) eqn:E; [unfold reducedSizeReadUnsigned; by rewrite E|].
  unfold sent_width. rewrite andb_true_r. destruct (reduced_width (length bs)) eqn:W.
  - apply reducedSizeReadUnsigned_ok; [done|]. by apply Z.ltb_ge in E.
  - unfold reducedSizeReadUnsigned. rewrite E. do 9 (destruct bs as [|? bs]; [done|]). done.
Qed.

(** An integer element decodes to the big-endian number of its bytes, in two's
    complement of the width sent when signed, whenever that width is one the decoder
    knows and fits the element; every other field is given back as raw bytes. *)
Theorem Bytes_integer bs w signed : w ∈ [16; 32; 64] →
  Bytes bs (int_type signed w) =
  if sent_width signed (length bs) && (Z.of_nat (length bs) * 8 <=? w)
  then int_value signed w (if signed then wraps (8 * Z.of_nat (length bs)) (be_decode bs) else be_decode bs)
  else VBytes bs.
Proof.
  intros Hw. destruct (decide (length bs = 0%nat)) as [H0|H0].
  { destruct bs; [|done]. repeat (apply elem_of_cons in Hw as [->|Hw]); [by destruct signed..|by apply elem_of_nil in Hw]. }
  assert (∀ t, minLength t = 1%nat → (length bs <? minLength t)%nat = false) as Hmin
    by (intros t ->; apply Nat.ltb_ge; lia).
  pose proof (λ v, be_decode_in_u bs v) as Hu.
  repeat (apply elem_of_cons in Hw as [->|Hw]); [..|by apply elem_of_nil in Hw]; destruct signed; unfold Bytes;
    rewrite Hmin by done; cbn -[reducedSizeReadSigned reducedSizeReadUnsigned sent_width Z.leb wraps be_decode length Z.mul];
    unfold reduced_or_raw, reducedSizeRead; rewrite ?reducedSizeReadSigned_ok, ?reducedSizeReadUnsigned_eq, Z.leb_antisym;
    destruct (_ <? _) eqn:E; rewrite ?andb_false_r, ?andb_true_r; try done; apply Z.ltb_ge in E;
    destruct (sent_width _ _); try done; cbn [fmap res_fmap mbind res_bind mret res_ret]; unfold mret, res_ret; f_equal;
    first [by apply wrapu_id, Hu | apply wraps_id; [done|]; apply wraps_in_s; lia].
Qed.

Lemma Bytes_integer_witness : 16 ∈ [16; 32; 64] ∧ Bytes [Byte.xff] Int16 = VInt16 (-1).
Proof.
  split; [left|]. refine (Bytes_integer [Byte.xff] 16 true _). left.
Defined.
