(* ===== verification/TranslateTables.v ===== *)
(** The builtin dictionary of information elements
    (src/pkg/util/netflow/translate/{rfc5102,cisco,cert,a10,gigamon,nprobe,paloalto,
    silverpeak,versa,viptela}.go), entry by entry, and [NewTranslate].

    [E ent id fid name ty] is the assignment
    [builtin[Key{ent, id}] = InformationElementEntry{FieldID: fid, Name: name,
    Type: FieldTypes[ty]}].  Go runs the [init] functions of a package in file
    name order: the tables are inserted in that order, and the reverse elements
    of RFC 5103 are added at the end of rfc5102.go, over what is there by then. *)
From S2P Require Import Prelude Translate.
Local Open Scope Z_scope.

Definition E (ent id fid : Z) (name ty : string) : Key * InformationElementEntry :=
  ((ent, id), {| Name := name; FieldID := fid; EnterpriseID := 0; Type_ := FieldTypes ty |}).

Definition a10_table : list (Key * InformationElementEntry) :=
  [ E 40842 258 258 "a10Mystery258" "unsigned16";
    E 40842 259 259 "a10Mystery259" "unsigned16" ].

Definition cert_table : list (Key * InformationElementEntry) :=
  [ E 6871 14 14 "initialTCPFlags" "unsigned8";
    E 6871 15 15 "unionTCPFlags" "unsigned8";
    E 6871 21 21 "reverseFlowDeltaMilliseconds" "dateTimeMilliseconds";
    E 6871 22 22 "silkTCPState" "unsigned8";
    E 6871 30 30 "silkFlowType" "unsigned8";
    E 6871 31 31 "silkFlowSensor" "unsigned8";
    E 6871 33 33 "silkAppLabel" "unsigned8";
    E 6871 40 40 "flowAttributes" "unsigned16" ].

Definition cisco_table_1 : list (Key * InformationElementEntry) :=
  [ E 0 33000 33002 "firewallIngressACL" "octetArray";
    E 0 33001 33002 "firewallEgressACL" "octetArray";
    E 0 33002 33002 "firewallExtendedEventCode" "unsigned16";
    E 0 40000 40000 "firewallAAAUsername" "string";
    E 0 35001 35001 "extendedEventCode" "unsigned16";
    E 9 8232 8232 "PolicyQosClassificationHierarchy" "unsigned24";
    E 9 9252 9252 "waas optimizationSegment" "unsigned8";
    E 9 9265 9265 "artClient packets" "unsigned64";
    E 9 9266 9266 "artServer packets" "unsigned64";
    E 9 9268 9268 "artCountRetransmissions " "unsigned32";
    E 9 9272 9272 "artCountTransactions " "unsigned32";
    E 9 9273 9273 "artTotalTransactionTimeSum " "unsigned32";
    E 9 9274 9274 "artTotalTransactionTimeMaximum " "unsigned32";
    E 9 9275 9275 "artTotalTransactionTimeMinimum " "unsigned32";
    E 9 9282 9282 "artCountNewConnections " "unsigned32";
    E 9 9292 9292 "artCountResponses " "unsigned32";
    E 9 9293 9293 "artCountResponsesHistogramBucket1 " "unsigned32";
    E 9 9294 9294 "artCountResponsesHistogramBucket2 " "unsigned32";
    E 9 9295 9295 "artCountResponsesHistogramBucket3 " "unsigned32";
    E 9 9296 9296 "artCountResponsesHistogramBucket4 " "unsigned32";
    E 9 9297 9297 "artCountResponsesHistogramBucket5 " "unsigned32";
    E 9 9298 9298 "artCountResponsesHistogramBucket6 " "unsigned32";
    E 9 9299 9299 "artCountResponsesHistogramBucket7 " "unsigned32";
    E 9 9300 9300 "artCountLateResponses " "unsigned32";
    E 9 9303 9303 "artResponseTimeSum " "unsigned32";
    E 9 9304 9304 "artResponseTimeMaximum " "unsigned32";
    E 9 9305 9305 "artResponseTimeMinimum " "unsigned32";
    E 9 9306 9306 "artServerResponseTimeSum " "unsigned32";
    E 9 9307 9307 "artServerResponseTimeMaximum " "unsigned32";
    E 9 9308 9308 "artServerResponseTimeMinimum " "unsigned32";
    E 9 9309 9309 "artTotalResponseTimeSum " "unsigned32";
    E 9 9310 9310 "artTotalResponseTimeMaximum " "unsigned32";
    E 9 9311 9311 "artTotalResponseTimeMinimum " "unsigned32";
    E 9 9313 9313 "artNetworkTimeSum " "unsigned32";
    E 9 9314 9314 "artNetworkTimeMaximum " "unsigned32";
    E 9 9315 9315 "artNetworkTimeMinimum " "unsigned32";
    E 9 9316 9316 "artClientNetworkTimeSum " "unsigned32";
    E 9 9317 9317 "artClientNetworkTimeMaximum " "unsigned32";
    E 9 9318 9318 "artClientNetworkTimeMinimum " "unsigned32";
    E 9 9319 9319 "artServerNetworkTimeSum " "unsigned32";
    E 9 9320 9320 "artServerNetworkTimeMaximum " "unsigned32";
    E 9 9321 9321 "artServerNetworkTimeMinimum " "unsigned32";
    E 9 9357 9357 "applicationHttpUriStatistics" "octetArray";
    E 9 9360 9360 "PolicyQosQueue index" "unsigned32";
    E 9 9360 9360 "PolicyQosQueue INDEX" "unsigned32";
    E 9 9361 9361 "PolicyQosQueue drops" "unsigned64";
    E 9 12232 12230 "applicationFamilyName" "string";
    E 9 12232 12231 "applicationSetName" "string";
    E 9 12232 12232 "applicationCategoryName" "string";
    E 9 12233 12233 "applicationSubCategoryName" "string";
    E 9 12234 12234 "applicationGroupName" "string";
    E 9 12235 12235 "applicationHttpUser-agent" "octetArray";
    E 9 12243 12243 "applicationTraffic-class" "string";
    E 9 12244 12244 "applicationBusiness-relevance" "string";
    E 9 32733 32733 "timestampAbsoluteMonitoring-interval" "unsigned64";
    E 5951 128 128 "netscalerRoundTripTime" "unsigned32";
    E 5951 129 129 "netscalerTransactionId" "unsigned32";
    E 5951 130 130 "netscalerHttpReqUrl" "string";
    E 5951 131 131 "netscalerHttpReqCookie" "string";
    E 5951 132 132 "netscalerFlowFlags" "unsigned64";
    E 5951 133 133 "netscalerConnectionId" "unsigned32";
    E 5951 134 134 "netscalerSyslogPriority" "unsigned8";
    E 5951 135 135 "netscalerSyslogMessage" "string";
    E 5951 136 136 "netscalerSyslogTimestamp" "unsigned64";
    E 5951 140 140 "netscalerHttpReqReferer" "string";
    E 5951 141 141 "netscalerHttpReqMethod" "string";
    E 5951 142 142 "netscalerHttpReqHost" "string";
    E 5951 143 143 "netscalerHttpReqUserAgent" "string";
    E 5951 144 144 "netscalerHttpRspStatus" "unsigned16";
    E 5951 145 145 "netscalerHttpRspLen" "unsigned64";
    E 5951 146 146 "netscalerServerTTFB" "unsigned64";
    E 5951 147 147 "netscalerServerTTLB" "unsigned64";
    E 5951 150 150 "netscalerAppNameIncarnationNumber" "unsigned32";
    E 5951 151 151 "netscalerAppNameAppId" "unsigned32";
    E 5951 152 152 "netscalerAppName" "string";
    E 5951 153 153 "netscalerHttpReqRcvFB" "unsigned64";
    E 5951 156 156 "netscalerHttpReqForwFB" "unsigned64";
    E 5951 157 157 "netscalerHttpResRcvFB" "unsigned64";
    E 5951 158 158 "netscalerHttpResForwFB" "unsigned64";
    E 5951 159 159 "netscalerHttpReqRcvLB" "unsigned64";
    E 5951 160 160 "netscalerHttpReqForwLB" "unsigned64";
    E 5951 161 161 "netscalerMainPageId" "unsigned32";
    E 5951 162 162 "netscalerMainPageCoreId" "unsigned32";
    E 5951 163 163 "netscalerHttpClientInteractionStartTime" "string";
    E 5951 164 164 "netscalerHttpClientRenderEndTime" "string";
    E 5951 165 165 "netscalerHttpClientRenderStartTime" "string";
    E 5951 167 167 "netscalerAppTemplateName" "string";
    E 5951 168 168 "netscalerHttpClientInteractionEndTime" "string";
    E 5951 169 169 "netscalerHttpResRcvLB" "unsigned64";
    E 5951 170 170 "netscalerHttpResForwLB" "unsigned64";
    E 5951 171 171 "netscalerAppUnitNameAppId" "unsigned32";
    E 5951 172 172 "netscalerDbLoginFlags" "unsigned32";
    E 5951 173 173 "netscalerDbReqType" "unsigned8";
    E 5951 174 174 "netscalerDbProtocolName" "unsigned8";
    E 5951 175 175 "netscalerDbUserName" "string";
    E 5951 176 176 "netscalerDbDatabaseName" "string";
    E 5951 177 177 "netscalerDbCltHostName" "string";
    E 5951 178 178 "netscalerDbReqString" "string";
    E 5951 179 179 "netscalerDbRespStatusString" "string";
    E 5951 180 180 "netscalerDbRespStatus" "unsigned64";
    E 5951 181 181 "netscalerDbRespLength" "unsigned64";
    E 5951 182 182 "netscalerClientRTT" "unsigned32";
    E 5951 183 183 "netscalerHttpContentType" "string";
    E 5951 185 185 "netscalerHttpReqAuthorization" "string";
    E 5951 186 186 "netscalerHttpReqVia" "string";
    E 5951 187 187 "netscalerHttpResLocation" "string";
    E 5951 188 188 "netscalerHttpResSetCookie" "string";
    E 5951 189 189 "netscalerHttpResSetCookie2" "string";
    E 5951 190 190 "netscalerHttpReqXForwardedFor" "string";
    E 5951 192 192 "netscalerConnectionChainID" "octetarray";
    E 5951 193 193 "netscalerConnectionChainHopCount" "unsigned64";
    E 5951 200 200 "netscalerICASessionGuid" "octetarray";
    E 5951 201 201 "netscaleIcaClientVersion" "string";
    E 5951 202 202 "netscalerIcaClientType" "unsigned16";
    E 5951 203 203 "netscalerIcaClientIP" "ip4_addr";
    E 5951 204 204 "netscalerIcaClientHostName" "string";
    E 5951 205 205 "netscalerAaaUsername" "string";
    E 5951 207 207 "netscalerIcaDomainName" "string";
    E 5951 208 208 "netscalerIcaClientLauncher" "unsigned16";
    E 5951 209 209 "netscalerIcaSessionSetupTime" "unsigned32";
    E 5951 210 210 "netscalerIcaServerName" "string";
    E 5951 214 214 "netscalerIcaSessionReconnects" "unsigned8";
    E 5951 215 215 "netscalerIcaRTT" "unsigned32";
    E 5951 216 216 "netscalerIcaClientsideRXBytes" "unsigned32";
    E 5951 217 217 "netscalerIcaClientsideTXBytes" "unsigned32";
    E 5951 219 219 "netscalerIcaClientsidePacketsRetransmit" "unsigned16";
    E 5951 220 220 "netscalerIcaServersidePacketsRetransmit" "unsigned16";
    E 5951 221 221 "netscalerIcaClientsideRTT" "unsigned32";
    E 5951 222 222 "netscalerIcaServersideRTT" "unsigned32";
    E 5951 223 223 "netscalerIcaSessionUpdateBeginSec" "unsigned32";
    E 5951 224 224 "netscalerIcaSessionUpdateEndSec" "unsigned32";
    E 5951 225 225 "netscalerIcaChannelId1" "unsigned32";
    E 5951 226 226 "netscalerIcaChannelId1Bytes" "unsigned32";
    E 5951 227 227 "netscalerIcaChannelId2" "unsigned32";
    E 5951 228 228 "netscalerIcaChannelId2Bytes" "unsigned32";
    E 5951 229 229 "netscalerIcaChannelId3" "unsigned32";
    E 5951 230 230 "netscalerIcaChannelId3Bytes" "unsigned32";
    E 5951 231 231 "netscalerIcaChannelId4" "unsigned32";
    E 5951 232 232 "netscalerIcaChannelId4Bytes" "unsigned32";
    E 5951 233 233 "netscalerIcaChannelId5" "unsigned32";
    E 5951 234 234 "netscalerIcaChannelId5Bytes" "unsigned32";
    E 5951 235 235 "netscalerIcaConnectionPriority" "unsigned16";
    E 5951 236 236 "netscalerApplicationStartupDuration" "unsigned32";
    E 5951 237 237 "netscalerIcaLaunchMechanism" "unsigned16";
    E 5951 238 238 "netscalerIcaApplicationName" "string" ].

Definition cisco_table_2 : list (Key * InformationElementEntry) :=
  [ E 5951 239 239 "netscalerApplicationStartupTime" "unsigned32";
    E 5951 240 240 "netscalerIcaApplicationTerminationType" "unsigned16";
    E 5951 241 241 "netscalerIcaApplicationTerminationTime" "unsigned32";
    E 5951 242 242 "netscalerIcaSessionEndTime" "unsigned32";
    E 5951 243 243 "netscalerIcaClientsideJitter" "unsigned32";
    E 5951 244 244 "netscalerIcaServersideJitter" "unsigned32";
    E 5951 245 245 "netscalerIcaAppProcessID" "unsigned32";
    E 5951 246 246 "netscalerIcaAppModulePath" "string";
    E 5951 247 247 "netscalerIcaDeviceSerialNo" "unsigned32";
    E 5951 248 248 "netscalerMsiClientCookie" "octetarray";
    E 5951 249 249 "netscalerIcaFlags" "unsigned64";
    E 5951 250 250 "netscalerIcaUsername" "string";
    E 5951 251 251 "netscalerLicenseType" "unsigned8";
    E 5951 252 252 "netscalerMaxLicenseCount" "unsigned64";
    E 5951 253 253 "netscalerCurrentLicenseConsumed" "unsigned64";
    E 5951 254 254 "netscalerIcaNetworkUpdateStartTime" "unsigned32";
    E 5951 255 255 "netscalerIcaNetworkUpdateEndTime" "unsigned32";
    E 5951 256 256 "netscalerIcaClientsideSRTT" "unsigned32";
    E 5951 257 257 "netscalerIcaServersideSRTT" "unsigned32";
    E 5951 258 258 "netscalerIcaClientsideDelay" "unsigned32";
    E 5951 259 259 "netscalerIcaServersideDelay" "unsigned32";
    E 5951 260 260 "netscalerIcaHostDelay" "unsigned32";
    E 5951 261 261 "netscalerIcaClientSideWindowSize" "unsigned16";
    E 5951 262 262 "netscalerIcaServerSideWindowSize" "unsigned16";
    E 5951 263 263 "netscalerIcaClientSideRTOCount" "unsigned16";
    E 5951 264 264 "netscalerIcaServerSideRTOCount" "unsigned16";
    E 5951 265 265 "netscalerIcaL7ClientLatency" "unsigned32";
    E 5951 266 266 "netscalerIcaL7ServerLatency" "unsigned32";
    E 5951 267 267 "netscalerHttpDomainName" "string";
    E 5951 268 268 "netscalerCacheRedirClientConnectionCoreID" "unsigned32";
    E 5951 269 269 "netscalerCacheRedirClientConnectionTransactionID" "unsigned32";
    E 5951 270 270 "netscalerUnknown270" "unsigned32";
    E 5951 271 271 "netscalerUnknown271" "unsigned32";
    E 5951 272 272 "netscalerUnknown272" "unsigned32";
    E 5951 273 273 "netscalerUnknown273" "unsigned32";
    E 5951 274 274 "netscalerUnknown274" "unsigned32";
    E 5951 275 275 "netscalerUnknown275" "unsigned32";
    E 5951 276 276 "netscalerUnknown276" "unsigned32";
    E 5951 277 277 "netscalerUnknown277" "unsigned32";
    E 5951 278 278 "netscalerUnknown278" "unsigned32";
    E 5951 279 279 "netscalerUnknown279" "unsigned32";
    E 5951 280 280 "netscalerUnknown280" "unsigned32";
    E 5951 281 281 "netscalerUnknown281" "unsigned32";
    E 5951 282 282 "netscalerUnknown282" "unsigned32";
    E 5951 283 283 "netscalerUnknown283" "unsigned32";
    E 5951 284 284 "netscalerUnknown284" "unsigned32";
    E 5951 285 285 "netscalerUnknown285" "unsigned32";
    E 5951 286 286 "netscalerUnknown286" "unsigned32";
    E 5951 287 287 "netscalerUnknown287" "unsigned32";
    E 5951 288 288 "netscalerUnknown288" "unsigned32";
    E 5951 289 289 "netscalerUnknown289" "unsigned32";
    E 5951 290 290 "netscalerUnknown290" "unsigned32";
    E 5951 291 291 "netscalerUnknown291" "unsigned32";
    E 5951 292 292 "netscalerUnknown292" "unsigned32";
    E 5951 293 293 "netscalerUnknown293" "unsigned32";
    E 5951 294 294 "netscalerUnknown294" "unsigned32";
    E 5951 295 295 "netscalerUnknown295" "unsigned32";
    E 5951 296 296 "netscalerUnknown296" "unsigned32";
    E 5951 297 297 "netscalerUnknown297" "unsigned32";
    E 5951 298 298 "netscalerUnknown298" "unsigned32";
    E 5951 299 299 "netscalerUnknown299" "unsigned32";
    E 5951 300 300 "netscalerUnknown300" "unsigned32";
    E 5951 301 301 "netscalerUnknown301" "unsigned32";
    E 5951 302 302 "netscalerUnknown302" "unsigned32";
    E 5951 303 303 "netscalerUnknown303" "unsigned32";
    E 5951 304 304 "netscalerUnknown304" "unsigned32";
    E 5951 305 305 "netscalerUnknown305" "unsigned32";
    E 5951 306 306 "netscalerUnknown306" "unsigned32";
    E 5951 307 307 "netscalerUnknown307" "unsigned32";
    E 5951 308 308 "netscalerUnknown308" "unsigned32";
    E 5951 309 309 "netscalerUnknown309" "unsigned32";
    E 5951 310 310 "netscalerUnknown310" "unsigned32";
    E 5951 311 311 "netscalerUnknown311" "unsigned32";
    E 5951 312 312 "netscalerUnknown312" "unsigned32";
    E 5951 313 313 "netscalerUnknown313" "unsigned32";
    E 5951 314 314 "netscalerUnknown314" "unsigned32";
    E 5951 315 315 "netscalerUnknown315" "unsigned32";
    E 5951 316 316 "netscalerUnknown316" "string";
    E 5951 317 317 "netscalerUnknown317" "unsigned32";
    E 5951 318 318 "netscalerUnknown318" "unsigned32";
    E 5951 319 319 "netscalerUnknown319" "string";
    E 5951 320 320 "netscalerUnknown320" "unsigned16";
    E 5951 321 321 "netscalerUnknown321" "unsigned32";
    E 5951 322 322 "netscalerUnknown322" "unsigned32";
    E 5951 323 323 "netscalerUnknown323" "unsigned16";
    E 5951 324 324 "netscalerUnknown324" "unsigned16";
    E 5951 325 325 "netscalerUnknown325" "unsigned16";
    E 5951 326 326 "netscalerUnknown326" "unsigned16";
    E 5951 327 327 "netscalerUnknown327" "unsigned32";
    E 5951 328 328 "netscalerUnknown328" "unsigned16";
    E 5951 329 329 "netscalerUnknown329" "unsigned16";
    E 5951 330 330 "netscalerUnknown330" "unsigned16";
    E 5951 331 331 "netscalerUnknown331" "unsigned16";
    E 5951 332 332 "netscalerUnknown332" "unsigned32";
    E 5951 333 333 "netscalerUnknown333" "string";
    E 5951 334 334 "netscalerUnknown334" "string";
    E 5951 335 335 "netscalerUnknown335" "unsigned32";
    E 5951 336 336 "netscalerUnknown336" "unsigned32";
    E 5951 337 337 "netscalerUnknown337" "unsigned32";
    E 5951 338 338 "netscalerUnknown338" "unsigned32";
    E 5951 339 339 "netscalerUnknown339" "unsigned32";
    E 5951 340 340 "netscalerUnknown340" "unsigned32";
    E 5951 341 341 "netscalerUnknown341" "unsigned32";
    E 5951 342 342 "netscalerUnknown342" "unsigned32";
    E 5951 343 343 "netscalerUnknown343" "unsigned32";
    E 5951 344 344 "netscalerUnknown344" "unsigned32";
    E 5951 345 345 "netscalerUnknown345" "unsigned32";
    E 5951 346 346 "netscalerUnknown346" "unsigned32";
    E 5951 347 347 "netscalerUnknown347" "unsigned32";
    E 5951 348 348 "netscalerUnknown348" "unsigned16";
    E 5951 349 349 "netscalerUnknown349" "string";
    E 5951 350 350 "netscalerUnknown350" "string";
    E 5951 351 351 "netscalerUnknown351" "string";
    E 5951 352 352 "netscalerUnknown352" "unsigned16";
    E 5951 353 353 "netscalerUnknown353" "unsigned32";
    E 5951 354 354 "netscalerUnknown354" "unsigned32";
    E 5951 355 355 "netscalerUnknown355" "unsigned32";
    E 5951 356 356 "netscalerUnknown356" "unsigned32";
    E 5951 357 357 "netscalerUnknown357" "unsigned32";
    E 5951 363 363 "netscalerUnknown363" "octetarray";
    E 5951 383 383 "netscalerUnknown383" "octetarray";
    E 5951 391 391 "netscalerUnknown391" "unsigned32";
    E 5951 398 398 "netscalerUnknown398" "unsigned32";
    E 5951 404 404 "netscalerUnknown404" "unsigned32";
    E 5951 405 405 "netscalerUnknown405" "unsigned32";
    E 5951 427 427 "netscalerUnknown427" "unsigned64";
    E 5951 429 429 "netscalerUnknown429" "unsigned8";
    E 5951 432 432 "netscalerUnknown432" "unsigned8";
    E 5951 433 433 "netscalerUnknown433" "unsigned8";
    E 5951 453 453 "netscalerUnknown453" "unsigned64";
    E 5951 465 465 "netscalerUnknown465" "unsigned32" ].

Definition gigamon_table : list (Key * InformationElementEntry) :=
  [ E 26866 1 1 "gigamonHttpReqUrl" "string";
    E 26866 2 2 "gigamonHttpRspStatus" "unsigned16";
    E 26866 202 202 "gigamonDnsOpCode" "unsigned8";
    E 26866 212 212 "dnsNsCount" "unsigned16";
    E 26866 220 220 "dnsAuthorityName" "string";
    E 26866 221 221 "dnsAuthorityType" "unsigned16" ].

Definition nprobe_table : list (Key * InformationElementEntry) :=
  [ E 0 57581 57581 "RETRANSMITTED_IN_PKTS" "unsigned32";
    E 0 57582 57582 "RETRANSMITTED_OUT_PKTS" "unsigned32";
    E 0 57583 57583 "OOORDER_IN_PKTS" "unsigned32";
    E 0 57584 57584 "OOORDER_OUT_PKTS" "unsigned32";
    E 0 57552 57552 "FRAGMENTS" "unsigned32";
    E 0 57595 57595 "CLIENT_NW_LATENCY_MS" "unsigned32";
    E 0 57596 57596 "SERVER_NW_LATENCY_MS" "unsigned32";
    E 0 57597 57597 "APPL_LATENCY_MS" "unsigned32" ].

Definition paloalto_table : list (Key * InformationElementEntry) :=
  [ E 0 56701 56701 "paloAltoApplicationID" "string";
    E 0 56702 56701 "paloAltoUserID" "string" ].

Definition rfc5102_table_1 : list (Key * InformationElementEntry) :=
  [ E 0 1 1 "octetDeltaCount" "unsigned64";
    E 0 2 2 "packetDeltaCount" "unsigned64";
    E 0 3 3 "deltaFlowCount" "unsigned64";
    E 0 4 4 "protocolIdentifier" "unsigned8";
    E 0 5 5 "ipClassOfService" "unsigned8";
    E 0 6 6 "tcpControlBits" "unsigned16";
    E 0 7 7 "sourceTransportPort" "unsigned16";
    E 0 8 8 "sourceIPv4Address" "ipv4Address";
    E 0 9 9 "sourceIPv4PrefixLength" "unsigned8";
    E 0 10 10 "ingressInterface" "unsigned32";
    E 0 11 11 "destinationTransportPort" "unsigned16";
    E 0 12 12 "destinationIPv4Address" "ipv4Address";
    E 0 13 13 "destinationIPv4PrefixLength" "unsigned8";
    E 0 14 14 "egressInterface" "unsigned32";
    E 0 15 15 "ipNextHopIPv4Address" "ipv4Address";
    E 0 16 16 "bgpSourceAsNumber" "unsigned32";
    E 0 17 17 "bgpDestinationAsNumber" "unsigned32";
    E 0 18 18 "bgpNextHopIPv4Address" "ipv4Address";
    E 0 19 19 "postMCastPacketDeltaCount" "unsigned64";
    E 0 20 20 "postMCastOctetDeltaCount" "unsigned64";
    E 0 21 21 "flowEndSysUpTime" "unsigned32";
    E 0 22 22 "flowStartSysUpTime" "unsigned32";
    E 0 23 23 "postOctetDeltaCount" "unsigned64";
    E 0 24 24 "postPacketDeltaCount" "unsigned64";
    E 0 25 25 "minimumIpTotalLength" "unsigned64";
    E 0 26 26 "maximumIpTotalLength" "unsigned64";
    E 0 27 27 "sourceIPv6Address" "ipv6Address";
    E 0 28 28 "destinationIPv6Address" "ipv6Address";
    E 0 29 29 "sourceIPv6PrefixLength" "unsigned8";
    E 0 30 30 "destinationIPv6PrefixLength" "unsigned8";
    E 0 31 31 "flowLabelIPv6" "unsigned32";
    E 0 32 32 "icmpTypeCodeIPv4" "unsigned16";
    E 0 33 33 "igmpType" "unsigned8";
    E 0 34 34 "samplingInterval" "unsigned32";
    E 0 35 35 "samplingAlgorithm" "unsigned8";
    E 0 36 36 "flowActiveTimeout" "unsigned16";
    E 0 37 37 "flowIdleTimeout" "unsigned16";
    E 0 38 38 "engineType" "unsigned8";
    E 0 39 39 "engineId" "unsigned8";
    E 0 40 40 "exportedOctetTotalCount" "unsigned64";
    E 0 41 41 "exportedMessageTotalCount" "unsigned64";
    E 0 42 42 "exportedFlowRecordTotalCount" "unsigned64";
    E 0 43 43 "ipv4RouterSc" "ipv4Address";
    E 0 44 44 "sourceIPv4Prefix" "ipv4Address";
    E 0 45 45 "destinationIPv4Prefix" "ipv4Address";
    E 0 46 46 "mplsTopLabelType" "unsigned8";
    E 0 47 47 "mplsTopLabelIPv4Address" "ipv4Address";
    E 0 48 48 "samplerId" "unsigned32";
    E 0 49 49 "samplerMode" "unsigned8";
    E 0 50 50 "samplerRandomInterval" "unsigned32";
    E 0 51 51 "classId" "unsigned8";
    E 0 52 52 "minimumTTL" "unsigned8";
    E 0 53 53 "maximumTTL" "unsigned8";
    E 0 54 54 "fragmentIdentification" "unsigned32";
    E 0 55 55 "postIpClassOfService" "unsigned8";
    E 0 56 56 "sourceMacAddress" "macAddress";
    E 0 57 57 "postDestinationMacAddress" "macAddress";
    E 0 58 58 "vlanId" "unsigned16";
    E 0 59 59 "postVlanId" "unsigned16";
    E 0 60 60 "ipVersion" "unsigned8";
    E 0 61 61 "flowDirection" "unsigned8";
    E 0 62 62 "ipNextHopIPv6Address" "ipv6Address";
    E 0 63 63 "bgpNextHopIPv6Address" "ipv6Address";
    E 0 64 64 "ipv6ExtensionHeaders" "unsigned32";
    E 0 70 70 "mplsTopLabelStackSection" "octetArray";
    E 0 71 71 "mplsLabelStackSection2" "octetArray";
    E 0 72 72 "mplsLabelStackSection3" "octetArray";
    E 0 73 73 "mplsLabelStackSection4" "octetArray";
    E 0 74 74 "mplsLabelStackSection5" "octetArray";
    E 0 75 75 "mplsLabelStackSection6" "octetArray";
    E 0 76 76 "mplsLabelStackSection7" "octetArray";
    E 0 77 77 "mplsLabelStackSection8" "octetArray";
    E 0 78 78 "mplsLabelStackSection9" "octetArray";
    E 0 79 79 "mplsLabelStackSection10" "octetArray";
    E 0 80 80 "destinationMacAddress" "macAddress";
    E 0 81 81 "postSourceMacAddress" "macAddress";
    E 0 82 82 "interfaceName" "string";
    E 0 83 83 "interfaceDescription" "string";
    E 0 84 84 "samplerName" "string";
    E 0 85 85 "octetTotalCount" "unsigned64";
    E 0 86 86 "packetTotalCount" "unsigned64";
    E 0 87 87 "flagsAndSamplerId" "unsigned32";
    E 0 88 88 "fragmentOffset" "unsigned16";
    E 0 89 89 "forwardingStatus" "unsigned32";
    E 0 90 90 "mplsVpnRouteDistinguisher" "octetArray";
    E 0 91 91 "mplsTopLabelPrefixLength" "unsigned8";
    E 0 92 92 "srcTrafficIndex" "unsigned32";
    E 0 93 93 "dstTrafficIndex" "unsigned32";
    E 0 94 94 "applicationDescription" "string";
    E 0 95 95 "applicationId" "octetArray";
    E 0 96 96 "applicationName" "string";
    E 0 98 98 "postIpDiffServCodePoint" "unsigned8";
    E 0 99 99 "multicastReplicationFactor" "unsigned32";
    E 0 100 100 "className" "string";
    E 0 101 101 "classificationEngineId" "unsigned8";
    E 0 102 102 "layer2packetSectionOffset" "unsigned16";
    E 0 103 103 "layer2packetSectionSize" "unsigned16";
    E 0 104 104 "layer2packetSectionData" "octetArray";
    E 0 128 128 "bgpNextAdjacentAsNumber" "unsigned32";
    E 0 129 129 "bgpPrevAdjacentAsNumber" "unsigned32";
    E 0 130 130 "exporterIPv4Address" "ipv4Address";
    E 0 131 131 "exporterIPv6Address" "ipv6Address";
    E 0 132 132 "droppedOctetDeltaCount" "unsigned64";
    E 0 133 133 "droppedPacketDeltaCount" "unsigned64";
    E 0 134 134 "droppedOctetTotalCount" "unsigned64";
    E 0 135 135 "droppedPacketTotalCount" "unsigned64";
    E 0 136 136 "flowEndReason" "unsigned8";
    E 0 137 137 "commonPropertiesId" "unsigned64";
    E 0 138 138 "observationPointId" "unsigned64";
    E 0 139 139 "icmpTypeCodeIPv6" "unsigned16";
    E 0 140 140 "mplsTopLabelIPv6Address" "ipv6Address";
    E 0 141 141 "lineCardId" "unsigned32";
    E 0 142 142 "portId" "unsigned32";
    E 0 143 143 "meteringProcessId" "unsigned32";
    E 0 144 144 "exportingProcessId" "unsigned32";
    E 0 145 145 "templateId" "unsigned16";
    E 0 146 146 "wlanChannelId" "unsigned8";
    E 0 147 147 "wlanSSID" "string";
    E 0 148 148 "flowId" "unsigned64";
    E 0 149 149 "observationDomainId" "unsigned32";
    E 0 150 150 "flowStartSeconds" "dateTimeSeconds";
    E 0 151 151 "flowEndSeconds" "dateTimeSeconds";
    E 0 152 152 "flowStartMilliseconds" "dateTimeMilliseconds";
    E 0 153 153 "flowEndMilliseconds" "dateTimeMilliseconds";
    E 0 154 154 "flowStartMicroseconds" "dateTimeMicroseconds";
    E 0 155 155 "flowEndMicroseconds" "dateTimeMicroseconds";
    E 0 156 156 "flowStartNanoseconds" "dateTimeNanoseconds";
    E 0 157 157 "flowEndNanoseconds" "dateTimeNanoseconds";
    E 0 158 158 "flowStartDeltaMicroseconds" "unsigned32";
    E 0 159 159 "flowEndDeltaMicroseconds" "unsigned32";
    E 0 160 160 "systemInitTimeMilliseconds" "dateTimeMilliseconds";
    E 0 161 161 "flowDurationMilliseconds" "unsigned32";
    E 0 162 162 "flowDurationMicroseconds" "unsigned32";
    E 0 163 163 "observedFlowTotalCount" "unsigned64";
    E 0 164 164 "ignoredPacketTotalCount" "unsigned64";
    E 0 165 165 "ignoredOctetTotalCount" "unsigned64";
    E 0 166 166 "notSentFlowTotalCount" "unsigned64";
    E 0 167 167 "notSentPacketTotalCount" "unsigned64";
    E 0 168 168 "notSentOctetTotalCount" "unsigned64";
    E 0 169 169 "destinationIPv6Prefix" "ipv6Address";
    E 0 170 170 "sourceIPv6Prefix" "ipv6Address";
    E 0 171 171 "postOctetTotalCount" "unsigned64";
    E 0 172 172 "postPacketTotalCount" "unsigned64";
    E 0 173 173 "flowKeyIndicator" "unsigned64";
    E 0 174 174 "postMCastPacketTotalCount" "unsigned64";
    E 0 175 175 "postMCastOctetTotalCount" "unsigned64";
    E 0 176 176 "icmpTypeIPv4" "unsigned8";
    E 0 177 177 "icmpCodeIPv4" "unsigned8";
    E 0 178 178 "icmpTypeIPv6" "unsigned8" ].

Definition rfc5102_table_2 : list (Key * InformationElementEntry) :=
  [ E 0 179 179 "icmpCodeIPv6" "unsigned8";
    E 0 180 180 "udpSourcePort" "unsigned16";
    E 0 181 181 "udpDestinationPort" "unsigned16";
    E 0 182 182 "tcpSourcePort" "unsigned16";
    E 0 183 183 "tcpDestinationPort" "unsigned16";
    E 0 184 184 "tcpSequenceNumber" "unsigned32";
    E 0 185 185 "tcpAcknowledgementNumber" "unsigned32";
    E 0 186 186 "tcpWindowSize" "unsigned16";
    E 0 187 187 "tcpUrgentPointer" "unsigned16";
    E 0 188 188 "tcpHeaderLength" "unsigned8";
    E 0 189 189 "ipHeaderLength" "unsigned8";
    E 0 190 190 "totalLengthIPv4" "unsigned16";
    E 0 191 191 "payloadLengthIPv6" "unsigned16";
    E 0 192 192 "ipTTL" "unsigned8";
    E 0 193 193 "nextHeaderIPv6" "unsigned8";
    E 0 194 194 "mplsPayloadLength" "unsigned32";
    E 0 195 195 "ipDiffServCodePoint" "unsigned8";
    E 0 196 196 "ipPrecedence" "unsigned8";
    E 0 197 197 "fragmentFlags" "unsigned8";
    E 0 198 198 "octetDeltaSumOfSquares" "unsigned64";
    E 0 199 199 "octetTotalSumOfSquares" "unsigned64";
    E 0 200 200 "mplsTopLabelTTL" "unsigned8";
    E 0 201 201 "mplsLabelStackLength" "unsigned32";
    E 0 202 202 "mplsLabelStackDepth" "unsigned32";
    E 0 203 203 "mplsTopLabelExp" "unsigned8";
    E 0 204 204 "ipPayloadLength" "unsigned32";
    E 0 205 205 "udpMessageLength" "unsigned16";
    E 0 206 206 "isMulticast" "unsigned8";
    E 0 207 207 "ipv4IHL" "unsigned8";
    E 0 208 208 "ipv4Options" "unsigned32";
    E 0 209 209 "tcpOptions" "unsigned64";
    E 0 210 210 "paddingOctets" "octetArray";
    E 0 211 211 "collectorIPv4Address" "ipv4Address";
    E 0 212 212 "collectorIPv6Address" "ipv6Address";
    E 0 213 213 "exportInterface" "unsigned32";
    E 0 214 214 "exportProtocolVersion" "unsigned8";
    E 0 215 215 "exportTransportProtocol" "unsigned8";
    E 0 216 216 "collectorTransportPort" "unsigned16";
    E 0 217 217 "exporterTransportPort" "unsigned16";
    E 0 218 218 "tcpSynTotalCount" "unsigned64";
    E 0 219 219 "tcpFinTotalCount" "unsigned64";
    E 0 220 220 "tcpRstTotalCount" "unsigned64";
    E 0 221 221 "tcpPshTotalCount" "unsigned64";
    E 0 222 222 "tcpAckTotalCount" "unsigned64";
    E 0 223 223 "tcpUrgTotalCount" "unsigned64";
    E 0 224 224 "ipTotalLength" "unsigned64";
    E 0 225 225 "postNATSourceIPv4Address" "ipv4Address";
    E 0 226 226 "postNATDestinationIPv4Address" "ipv4Address";
    E 0 227 227 "postNAPTSourceTransportPort" "unsigned16";
    E 0 228 228 "postNAPTDestinationTransportPort" "unsigned16";
    E 0 229 229 "natOriginatingAddressRealm" "unsigned8";
    E 0 230 230 "natEvent" "unsigned8";
    E 0 231 231 "initiatorOctets" "unsigned64";
    E 0 232 232 "responderOctets" "unsigned64";
    E 0 233 233 "firewallEvent" "unsigned8";
    E 0 234 234 "ingressVRFID" "unsigned32";
    E 0 235 235 "egressVRFID" "unsigned32";
    E 0 236 236 "VRFname" "string";
    E 0 237 237 "postMplsTopLabelExp" "unsigned8";
    E 0 238 238 "tcpWindowScale" "unsigned16";
    E 0 239 239 "biflowDirection" "unsigned8";
    E 0 240 240 "ethernetHeaderLength" "unsigned8";
    E 0 241 241 "ethernetPayloadLength" "unsigned16";
    E 0 242 242 "ethernetTotalLength" "unsigned16";
    E 0 243 243 "dot1qVlanId" "unsigned16";
    E 0 244 244 "dot1qPriority" "unsigned8";
    E 0 245 245 "dot1qCustomerVlanId" "unsigned16";
    E 0 246 246 "dot1qCustomerPriority" "unsigned8";
    E 0 247 247 "metroEvcId" "string";
    E 0 248 248 "metroEvcType" "unsigned8";
    E 0 249 249 "pseudoWireId" "unsigned32";
    E 0 250 250 "pseudoWireType" "unsigned16";
    E 0 251 251 "pseudoWireControlWord" "unsigned32";
    E 0 252 252 "ingressPhysicalInterface" "unsigned32";
    E 0 253 253 "egressPhysicalInterface" "unsigned32";
    E 0 254 254 "postDot1qVlanId" "unsigned16";
    E 0 255 255 "postDot1qCustomerVlanId" "unsigned16";
    E 0 256 256 "ethernetType" "unsigned16";
    E 0 257 257 "postIpPrecedence" "unsigned8";
    E 0 258 258 "collectionTimeMilliseconds" "dateTimeMilliseconds";
    E 0 259 259 "exportSctpStreamId" "unsigned16";
    E 0 260 260 "maxExportSeconds" "dateTimeSeconds";
    E 0 261 261 "maxFlowEndSeconds" "dateTimeSeconds";
    E 0 262 262 "messageMD5Checksum" "octetArray";
    E 0 263 263 "messageScope" "unsigned8";
    E 0 264 264 "minExportSeconds" "dateTimeSeconds";
    E 0 265 265 "minFlowStartSeconds" "dateTimeSeconds";
    E 0 266 266 "opaqueOctets" "octetArray";
    E 0 267 267 "sessionScope" "unsigned8";
    E 0 268 268 "maxFlowEndMicroseconds" "dateTimeMicroseconds";
    E 0 269 269 "maxFlowEndMilliseconds" "dateTimeMilliseconds";
    E 0 270 270 "maxFlowEndNanoseconds" "dateTimeNanoseconds";
    E 0 271 271 "minFlowStartMicroseconds" "dateTimeMicroseconds";
    E 0 272 272 "minFlowStartMilliseconds" "dateTimeMilliseconds";
    E 0 273 273 "minFlowStartNanoseconds" "dateTimeNanoseconds";
    E 0 274 274 "collectorCertificate" "octetArray";
    E 0 275 275 "exporterCertificate" "octetArray";
    E 0 276 276 "dataRecordsReliability" "boolean";
    E 0 277 277 "observationPointType" "unsigned8";
    E 0 278 278 "newConnectionDeltaCount" "unsigned32";
    E 0 279 279 "connectionSumDurationSeconds" "unsigned64";
    E 0 280 280 "connectionTransactionId" "unsigned64";
    E 0 281 281 "postNATSourceIPv6Address" "ipv6Address";
    E 0 282 282 "postNATDestinationIPv6Address" "ipv6Address";
    E 0 283 283 "natPoolId" "unsigned32";
    E 0 284 284 "natPoolName" "string";
    E 0 285 285 "anonymizationFlags" "unsigned16";
    E 0 286 286 "anonymizationTechnique" "unsigned16";
    E 0 287 287 "informationElementIndex" "unsigned16";
    E 0 288 288 "p2pTechnology" "string";
    E 0 289 289 "tunnelTechnology" "string";
    E 0 290 290 "encryptedTechnology" "string";
    E 0 291 291 "basicList" "basicList";
    E 0 292 292 "subTemplateList" "subTemplateList";
    E 0 293 293 "subTemplateMultiList" "subTemplateMultiList";
    E 0 294 294 "bgpValidityState" "unsigned8";
    E 0 295 295 "IPSecSPI" "unsigned32";
    E 0 296 296 "greKey" "unsigned32";
    E 0 297 297 "natType" "unsigned8";
    E 0 298 298 "initiatorPackets" "unsigned64";
    E 0 299 299 "responderPackets" "unsigned64";
    E 0 300 300 "observationDomainName" "string";
    E 0 301 301 "selectionSequenceId" "unsigned64";
    E 0 302 302 "selectorId" "unsigned64";
    E 0 303 303 "informationElementId" "unsigned16";
    E 0 304 304 "selectorAlgorithm" "unsigned16";
    E 0 305 305 "samplingPacketInterval" "unsigned32";
    E 0 306 306 "samplingPacketSpace" "unsigned32";
    E 0 307 307 "samplingTimeInterval" "unsigned32";
    E 0 308 308 "samplingTimeSpace" "unsigned32";
    E 0 309 309 "samplingSize" "unsigned32";
    E 0 310 310 "samplingPopulation" "unsigned32";
    E 0 311 311 "samplingProbability" "float64";
    E 0 312 312 "dataLinkFrameSize" "unsigned16";
    E 0 313 313 "ipHeaderPacketSection" "octetArray";
    E 0 314 314 "ipPayloadPacketSection" "octetArray";
    E 0 315 315 "dataLinkFrameSection" "octetArray";
    E 0 316 316 "mplsLabelStackSection" "octetArray";
    E 0 317 317 "mplsPayloadPacketSection" "octetArray";
    E 0 318 318 "selectorIdTotalPktsObserved" "unsigned64";
    E 0 319 319 "selectorIdTotalPktsSelected" "unsigned64";
    E 0 320 320 "absoluteError" "float64";
    E 0 321 321 "relativeError" "float64";
    E 0 322 322 "observationTimeSeconds" "dateTimeSeconds";
    E 0 323 323 "observationTimeMilliseconds" "dateTimeMilliseconds";
    E 0 324 324 "observationTimeMicroseconds" "dateTimeMicroseconds";
    E 0 325 325 "observationTimeNanoseconds" "dateTimeNanoseconds";
    E 0 326 326 "digestHashValue" "unsigned64";
    E 0 327 327 "hashIPPayloadOffset" "unsigned64" ].

Definition rfc5102_table_3 : list (Key * InformationElementEntry) :=
  [ E 0 328 328 "hashIPPayloadSize" "unsigned64";
    E 0 329 329 "hashOutputRangeMin" "unsigned64";
    E 0 330 330 "hashOutputRangeMax" "unsigned64";
    E 0 331 331 "hashSelectedRangeMin" "unsigned64";
    E 0 332 332 "hashSelectedRangeMax" "unsigned64";
    E 0 333 333 "hashDigestOutput" "boolean";
    E 0 334 334 "hashInitialiserValue" "unsigned64";
    E 0 335 335 "selectorName" "string";
    E 0 336 336 "upperCILimit" "float64";
    E 0 337 337 "lowerCILimit" "float64";
    E 0 338 338 "confidenceLevel" "float64";
    E 0 339 339 "informationElementDataType" "unsigned8";
    E 0 340 340 "informationElementDescription" "string";
    E 0 341 341 "informationElementName" "string";
    E 0 342 342 "informationElementRangeBegin" "unsigned64";
    E 0 343 343 "informationElementRangeEnd" "unsigned64";
    E 0 344 344 "informationElementSemantics" "unsigned8";
    E 0 345 345 "informationElementUnits" "unsigned16";
    E 0 346 346 "privateEnterpriseNumber" "unsigned32";
    E 0 347 347 "virtualStationInterfaceId" "octetArray";
    E 0 348 348 "virtualStationInterfaceName" "string";
    E 0 349 349 "virtualStationUUID" "octetArray";
    E 0 350 350 "virtualStationName" "string";
    E 0 351 351 "layer2SegmentId" "unsigned64";
    E 0 352 352 "layer2OctetDeltaCount" "unsigned64";
    E 0 353 353 "layer2OctetTotalCount" "unsigned64";
    E 0 354 354 "ingressUnicastPacketTotalCount" "unsigned64";
    E 0 355 355 "ingressMulticastPacketTotalCount" "unsigned64";
    E 0 356 356 "ingressBroadcastPacketTotalCount" "unsigned64";
    E 0 357 357 "egressUnicastPacketTotalCount" "unsigned64";
    E 0 358 358 "egressBroadcastPacketTotalCount" "unsigned64";
    E 0 359 359 "monitoringIntervalStartMilliSeconds" "dateTimeMilliseconds";
    E 0 360 360 "monitoringIntervalEndMilliSeconds" "dateTimeMilliseconds";
    E 0 361 361 "portRangeStart" "unsigned16";
    E 0 362 362 "portRangeEnd" "unsigned16";
    E 0 363 363 "portRangeStepSize" "unsigned16";
    E 0 364 364 "portRangeNumPorts" "unsigned16";
    E 0 365 365 "staMacAddress" "macAddress";
    E 0 366 366 "staIPv4Address" "ipv4Address";
    E 0 367 367 "wtpMacAddress" "macAddress";
    E 0 368 368 "ingressInterfaceType" "unsigned32";
    E 0 369 369 "egressInterfaceType" "unsigned32";
    E 0 370 370 "rtpSequenceNumber" "unsigned16";
    E 0 371 371 "userName" "string";
    E 0 372 372 "applicationCategoryName" "string";
    E 0 373 373 "applicationSubCategoryName" "string";
    E 0 374 374 "applicationGroupName" "string";
    E 0 375 375 "originalFlowsPresent" "unsigned64";
    E 0 376 376 "originalFlowsInitiated" "unsigned64";
    E 0 377 377 "originalFlowsCompleted" "unsigned64";
    E 0 378 378 "distinctCountOfSourceIPAddress" "unsigned64";
    E 0 379 379 "distinctCountOfDestinationIPAddress" "unsigned64";
    E 0 380 380 "distinctCountOfSourceIPv4Address" "unsigned32";
    E 0 381 381 "distinctCountOfDestinationIPv4Address" "unsigned32";
    E 0 382 382 "distinctCountOfSourceIPv6Address" "unsigned64";
    E 0 383 383 "distinctCountOfDestinationIPv6Address" "unsigned64";
    E 0 384 384 "valueDistributionMethod" "unsigned8";
    E 0 385 385 "rfc3550JitterMilliseconds" "unsigned32";
    E 0 386 386 "rfc3550JitterMicroseconds" "unsigned32";
    E 0 387 387 "rfc3550JitterNanoseconds" "unsigned32";
    E 0 388 388 "dot1qDEI" "boolean";
    E 0 389 389 "dot1qCustomerDEI" "boolean";
    E 0 390 390 "flowSelectorAlgorithm" "unsigned16";
    E 0 391 391 "flowSelectedOctetDeltaCount" "unsigned64";
    E 0 392 392 "flowSelectedPacketDeltaCount" "unsigned64";
    E 0 393 393 "flowSelectedFlowDeltaCount" "unsigned64";
    E 0 394 394 "selectorIDTotalFlowsObserved" "unsigned64";
    E 0 395 395 "selectorIDTotalFlowsSelected" "unsigned64";
    E 0 396 396 "samplingFlowInterval" "unsigned64";
    E 0 397 397 "samplingFlowSpacing" "unsigned64";
    E 0 398 398 "flowSamplingTimeInterval" "unsigned64";
    E 0 399 399 "flowSamplingTimeSpacing" "unsigned64";
    E 0 400 400 "hashFlowDomain" "unsigned16";
    E 0 401 401 "transportOctetDeltaCount" "unsigned64";
    E 0 402 402 "transportPacketDeltaCount" "unsigned64";
    E 0 403 403 "originalExporterIPv4Address" "ipv4Address";
    E 0 404 404 "originalExporterIPv6Address" "ipv6Address";
    E 0 405 405 "originalObservationDomainId" "unsigned32";
    E 0 406 406 "intermediateProcessId" "unsigned32";
    E 0 407 407 "ignoredDataRecordTotalCount" "unsigned64";
    E 0 408 408 "dataLinkFrameType" "unsigned16";
    E 0 409 409 "sectionOffset" "unsigned16";
    E 0 410 410 "sectionExportedOctets" "unsigned16";
    E 0 411 411 "dot1qServiceInstanceTag" "octetArray";
    E 0 412 412 "dot1qServiceInstanceId" "unsigned32";
    E 0 413 413 "dot1qServiceInstancePriority" "unsigned8";
    E 0 414 414 "dot1qCustomerSourceMacAddress" "macAddress";
    E 0 415 415 "dot1qCustomerDestinationMacAddress" "macAddress";
    E 0 417 417 "postLayer2OctetDeltaCount" "unsigned64";
    E 0 418 418 "postMCastLayer2OctetDeltaCount" "unsigned64";
    E 0 420 420 "postLayer2OctetTotalCount" "unsigned64";
    E 0 421 421 "postMCastLayer2OctetTotalCount" "unsigned64";
    E 0 422 422 "minimumLayer2TotalLength" "unsigned64";
    E 0 423 423 "maximumLayer2TotalLength" "unsigned64";
    E 0 424 424 "droppedLayer2OctetDeltaCount" "unsigned64";
    E 0 425 425 "droppedLayer2OctetTotalCount" "unsigned64";
    E 0 426 426 "ignoredLayer2OctetTotalCount" "unsigned64";
    E 0 427 427 "notSentLayer2OctetTotalCount" "unsigned64";
    E 0 428 428 "layer2OctetDeltaSumOfSquares" "unsigned64";
    E 0 429 429 "layer2OctetTotalSumOfSquares" "unsigned64";
    E 0 430 430 "layer2FrameDeltaCount" "unsigned64";
    E 0 431 431 "layer2FrameTotalCount" "unsigned64";
    E 0 432 432 "pseudoWireDestinationIPv4Address" "ipv4Address";
    E 0 433 433 "ignoredLayer2FrameTotalCount" "unsigned64";
    E 0 434 434 "mibObjectValueInteger" "signed32";
    E 0 435 435 "mibObjectValueOctetString" "octetArray";
    E 0 436 436 "mibObjectValueOID" "octetArray";
    E 0 437 437 "mibObjectValueBits" "octetArray";
    E 0 438 438 "mibObjectValueIPAddress" "ipv4Address";
    E 0 439 439 "mibObjectValueCounter" "unsigned64";
    E 0 440 440 "mibObjectValueGauge" "unsigned32";
    E 0 441 441 "mibObjectValueTimeTicks" "unsigned32";
    E 0 442 442 "mibObjectValueUnsigned" "unsigned32";
    E 0 443 443 "mibObjectValueTable" "subTemplateList";
    E 0 444 444 "mibObjectValueRow" "subTemplateList";
    E 0 445 445 "mibObjectIdentifier" "octetArray";
    E 0 446 446 "mibSubIdentifier" "unsigned32";
    E 0 447 447 "mibIndexIndicator" "unsigned64";
    E 0 448 448 "mibCaptureTimeSemantics" "unsigned8";
    E 0 449 449 "mibContextEngineID" "octetArray";
    E 0 450 450 "mibContextName" "string";
    E 0 451 451 "mibObjectName" "string";
    E 0 452 452 "mibObjectDescription" "string";
    E 0 453 453 "mibObjectSyntax" "string";
    E 0 454 454 "mibModuleName" "string";
    E 0 455 455 "mobileIMSI" "string";
    E 0 456 456 "mobileMSISDN" "string";
    E 0 457 457 "httpStatusCode" "unsigned16";
    E 0 458 458 "sourceTransportPortsLimit" "unsigned16";
    E 0 459 459 "httpRequestMethod" "string";
    E 0 460 460 "httpRequestHost" "string";
    E 0 461 461 "httpRequestTarget" "string";
    E 0 462 462 "httpMessageVersion" "string";
    E 0 463 463 "natInstanceID" "unsigned32";
    E 0 464 464 "internalAddressRealm" "octetArray";
    E 0 465 465 "externalAddressRealm" "octetArray";
    E 0 466 466 "natQuotaExceededEvent" "unsigned32";
    E 0 467 467 "natThresholdEvent" "unsigned32";
    E 0 468 468 "httpUserAgent" "string";
    E 0 469 469 "httpContentType" "string";
    E 0 470 470 "httpReasonPhrase" "string" ].

Definition silverpeak_table : list (Key * InformationElementEntry) :=
  [ E 23867 1 1 "silverpeakClientIpv4Address" "ipv4Address";
    E 23867 2 2 "silverpeakServerIpv4Address" "ipv4Address";
    E 23867 3 3 "silverpeakConnectionServerOctetDeltaCount" "unsigned64";
    E 23867 4 4 "silverpeakConnectionServerPacketDeltaCount" "unsigned64";
    E 23867 5 5 "silverpeakConnectionClientOctetDeltaCount" "unsigned64";
    E 23867 6 6 "silverpeakConnectionClientPacketDeltaCount" "unsigned64";
    E 23867 7 7 "silverpeakConnectionInitiator" "ipv4Address";
    E 23867 8 8 "silverpeakApplicationHttHost" "string";
    E 23867 9 9 "silverpeakConnectionNumberOfConnections" "unsigned8";
    E 23867 10 10 "silverpeakConnectionServerResponsesCount" "unsigned8";
    E 23867 11 11 "silverpeakConnectionServerResponseDelay" "unsigned32";
    E 23867 12 12 "silverpeakConnectionNetworkToServerDelay" "unsigned32";
    E 23867 13 13 "silverpeakConnectionNetworkToClientDelay" "unsigned32";
    E 23867 14 14 "silverpeakConnectionClientPacketRetransmissionCount" "unsigned32";
    E 23867 15 15 "silverpeakConnectionClientToServerNetworkDelay" "unsigned32";
    E 23867 16 16 "silverpeakConnectionApplicationDelay" "unsigned32";
    E 23867 17 17 "silverpeakConnectionClientToServerResponseDelay" "unsigned32";
    E 23867 18 18 "silverpeakConnectionTransactionDuration" "unsigned32";
    E 23867 19 19 "silverpeakConnectionTransactionDurationMin" "unsigned32";
    E 23867 20 20 "silverpeakConnectionTransactionDurationMax" "unsigned32";
    E 23867 21 21 "silverpeakConnectionTransactionCompleteCount" "unsigned8";
    E 23867 22 22 "silverpeakFromZone" "string";
    E 23867 23 23 "silverpeakToZone" "string";
    E 23867 24 24 "silverpeakTag" "string";
    E 23867 25 25 "silverpeakOverlay" "string";
    E 23867 26 26 "silverpeakDirection" "string";
    E 23867 27 27 "silverpeakApplicationCategory" "string" ].

Definition versa_table : list (Key * InformationElementEntry) :=
  [ E 42359 519 519 "versaAppID" "unsigned32";
    E 42359 522 522 "versaTenantID" "unsigned16";
    E 42359 540 540 "versaEventType" "unsigned16";
    E 42359 574 574 "versaApplianceID" "unsigned16" ].

Definition viptela_table : list (Key * InformationElementEntry) :=
  [ E 41916 4321 4321 "viptelaVpnId" "unsigned64";
    E 41916 4322 4321 "viptelaMystery" "unsigned32" ].

Definition reversePEN : Z := 29305.

(** The elements with no reverse (RFC 5103). *)
Definition not_reversible : list Z :=
  [148; 145; 149; 137;
   130; 131; 217; 211; 212; 213; 214; 215; 216; 173;
   41; 40; 42; 163; 164; 165; 166; 167; 168;
   210].

(** [strings.ToUpper] of a one byte string. *)
Definition upper (c : ascii) : ascii :=
  let n := nat_of_ascii c in
  if ((97 <=? n)%nat && (n <=? 122)%nat)%bool then ascii_of_nat (n - 32) else c.
Definition capitalise (s : string) : string :=
  match s with String.EmptyString => s | String.String c s => String.String (upper c) s end.

(** One round of the loop over [builtin] at the end of rfc5102.go. *)
Definition reverse_entry (k : Key) (v : InformationElementEntry) :
    option (Key * InformationElementEntry) :=
  if decide (k.1 ≠ 0) then None
  else if decide (k.2 ∈ not_reversible) then None
  else Some ((reversePEN, k.2),
    {| Name := String.append "reverse" (capitalise (Name v)); FieldID := FieldID v;
       EnterpriseID := reversePEN; Type_ := Type_ v |}).

Definition insert_all (es : list (Key * InformationElementEntry)) (m : informationElements) :
    informationElements := foldl (λ m e, <[e.1 := e.2]> m) m es.

Definition add_reverse (m : informationElements) : informationElements :=
  insert_all (omap (λ e, reverse_entry e.1 e.2) (map_to_list m)) m.

Definition before_reverse : informationElements :=
  insert_all (a10_table ++ cert_table ++ cisco_table_1 ++ cisco_table_2 ++ gigamon_table ++
    nprobe_table ++ paloalto_table ++ rfc5102_table_1 ++ rfc5102_table_2 ++ rfc5102_table_3) ∅.

Definition builtin : informationElements :=
  insert_all (silverpeak_table ++ versa_table ++ viptela_table) (add_reverse before_reverse).

(** A [Translate] is its dictionary; the session it embeds is not read. *)
Record Translate_ := mkTranslate { elements : informationElements }.
Definition NewTranslate : Translate_ := {| elements := builtin |}.
Definition Key_lookup (t : Translate_) (k : Key) : option InformationElementEntry := elements t !! k.

