(* ===== verification/Netflow9.v ===== *)
(** NetFlow version 9 (src/pkg/util/netflow/netflow9): packet header, template,
    options template and data flow sets, and the decoder that resolves data flow
    sets through the session's templates.

    A decoder step returns the session next to its outcome, because templates
    registered before an error stay registered.  [fuel] bounds the two loops over
    the records of a data flow set, whose record size comes from the wire. *)
From S2P Require Import Prelude Session Translate TranslateTables Read.
Local Open Scope Z_scope.

Definition Version : Z := 9.

Record PacketHeader := mkPacketHeader {
  h_Version : Z; h_Count : Z; h_SysUpTime : Z; h_UnixSecs : Z;
  h_SequenceNumber : Z; h_SourceID : Z }.

Record FlowSetHeader := mkFlowSetHeader { fsh_ID : Z; fsh_Length : Z }.

Record FieldSpecifier := mkFieldSpecifier { fs_Type : Z; fs_Length : Z }.

Record TemplateRecord := mkTemplateRecord {
  tr_TemplateID : Z; tr_FieldCount : Z; tr_Fields : list FieldSpecifier }.

Record OptionsTemplateRecord := mkOptionsTemplateRecord {
  otr_TemplateID : Z;
  otr_ScopeFieldCount : Z; otr_ScopeFields : list FieldSpecifier;
  otr_FieldCount : Z; otr_Fields : list FieldSpecifier }.

Record TranslatedField := mkTranslatedField {
  tf_Name : string; tf_Type : Z; tf_Value : value; tf_Bytes : list byte }.

Record Field := mkField {
  f_Type : Z; f_Length : Z; f_Translated : option TranslatedField; f_Bytes : list byte }.

Record DataRecord := mkDataRecord { dr_TemplateID : Z; dr_Fields : list Field }.

Record OptionsDataRecord := mkOptionsDataRecord {
  odr_TemplateID : Z; odr_ScopeFields : list Field; odr_Fields : list Field }.

Record TemplateFlowSet := mkTemplateFlowSet {
  tfs_Header : FlowSetHeader; tfs_Records : list TemplateRecord }.
Record OptionsTemplateFlowSet := mkOptionsTemplateFlowSet {
  ots_Header : FlowSetHeader; ots_Records : list OptionsTemplateRecord }.
Record DataFlowSet := mkDataFlowSet {
  dfs_Header : FlowSetHeader; dfs_Records : list DataRecord }.
Record OptionsDataFlowSet := mkOptionsDataFlowSet {
  ods_Header : FlowSetHeader; ods_Records : list OptionsDataRecord }.

Record Packet := mkPacket {
  p_Header : PacketHeader;
  p_TemplateFlowSets : list TemplateFlowSet;
  p_OptionsTemplateFlowSets : list OptionsTemplateFlowSet;
  p_DataFlowSets : list DataFlowSet;
  p_OptionsDataFlowSets : list OptionsDataFlowSet }.

#[export] Instance TemplateRecord_ID : HasID TemplateRecord := tr_TemplateID.
#[export] Instance OptionsTemplateRecord_ID : HasID OptionsTemplateRecord := otr_TemplateID.

(** ** Headers and templates *)

Definition PacketHeader_Len : Z := 20.
Definition FlowSetHeader_Len : Z := 4.

Definition PacketHeader_Unmarshal : rd PacketHeader :=
  version ← rd_wrap "netflow9 header truncated while reading version field: %v" Uint16;
  count ← rd_wrap "netflow9 header truncated while reading count field: %v" Uint16;
  sysUpTime ← rd_wrap "netflow9 header truncated while reading sysUpTime field: %v" Uint32;
  unixSecs ← rd_wrap "netflow9 header truncated while reading unix-secs field: %v" Uint32;
  sequenceNumber ← rd_wrap "netflow9 header truncated while reading sequence-number field: %v" Uint32;
  sourceID ← rd_wrap "netflow9 header truncated while reading source-id field: %v" Uint32;
  mret {| h_Version := version; h_Count := count; h_SysUpTime := sysUpTime;
          h_UnixSecs := unixSecs; h_SequenceNumber := sequenceNumber; h_SourceID := sourceID |}.

Definition FlowSetHeader_Unmarshal : rd FlowSetHeader :=
  id ← Uint16;
  len ← Uint16;
  mret {| fsh_ID := id; fsh_Length := len |}.

Definition FieldSpecifier_Unmarshal : rd FieldSpecifier :=
  ty ← Uint16;
  len ← Uint16;
  mret {| fs_Type := ty; fs_Length := len |}.

(** The receiver is a slice made with the count of the record. *)
Definition FieldSpecifiers_Unmarshal (count : Z) : rd (list FieldSpecifier) :=
  replicateM (Z.to_nat count) FieldSpecifier_Unmarshal.

Definition TemplateRecord_Unmarshal : rd TemplateRecord :=
  templateID ← Uint16;
  fieldCount ← Uint16;
  fields ← FieldSpecifiers_Unmarshal fieldCount;
  mret {| tr_TemplateID := templateID; tr_FieldCount := fieldCount; tr_Fields := fields |}.

Definition TemplateRecord_Size (tr : TemplateRecord) : Z :=
  foldl (λ size f, size + fs_Length f) 0 (tr_Fields tr).

(** The reader is drained into a buffer of its own, of which only one record is read. *)
Definition OptionsTemplateRecord_Unmarshal : rd OptionsTemplateRecord :=
  templateID ← Uint16;
  scopeFieldCount ← Uint16;
  fieldCount ← Uint16;
  let scopeFieldCount := scopeFieldCount / 4 in
  let fieldCount := fieldCount / 4 in
  rd_drain (
    scopeFields ← FieldSpecifiers_Unmarshal scopeFieldCount;
    fields ← FieldSpecifiers_Unmarshal fieldCount;
    mret {| otr_TemplateID := templateID;
            otr_ScopeFieldCount := scopeFieldCount; otr_ScopeFields := scopeFields;
            otr_FieldCount := fieldCount; otr_Fields := fields |}).

(** [buffer.Len() > 4] and [buffer.Len() >= 4]. *)
Definition more_than_4 (r : list byte) : bool := (4 <? length r)%nat.
Definition at_least_4 (r : list byte) : bool := (4 <=? length r)%nat.

(** A template record takes at least four bytes, so the loop makes fewer rounds
    than there are bytes. *)
Definition TemplateFlowSet_UnmarshalRecords : rd (list TemplateRecord) :=
  rd_drain (λ r, loop_while (length r) more_than_4 TemplateRecord_Unmarshal r).

Definition OptionsTemplateFlowSet_UnmarshalRecords : rd (list OptionsTemplateRecord) :=
  rd_drain (λ r, loop_while (length r) more_than_4 OptionsTemplateRecord_Unmarshal r).

(** ** Data *)

Definition Field_Unmarshal (fs : FieldSpecifier) : rd Field :=
  bytes ← buffer_Read (make_bytes (Z.to_nat (fs_Length fs)));
  mret {| f_Type := fs_Type fs; f_Length := fs_Length fs; f_Translated := None; f_Bytes := bytes |}.

(** translate.go: the fields, in place, as far as there are both fields and
    specifiers. *)
Definition translate_field (t : Translate_) (f : Field) (field : FieldSpecifier) : Field :=
  let tf :=
    match Key_lookup t (0, fs_Type field) with
    | Some element =>
        {| tf_Name := Name element; tf_Type := fs_Type field;
           tf_Value := Bytes (f_Bytes f) (Type_ element); tf_Bytes := [] |}
    | None => {| tf_Name := ""; tf_Type := fs_Type field; tf_Value := VNil; tf_Bytes := [] |}
    end in
  {| f_Type := f_Type f; f_Length := f_Length f; f_Translated := Some tf; f_Bytes := f_Bytes f |}.

Fixpoint Translate_Record (t : Translate_) (fields : list Field) (fss : list FieldSpecifier) : list Field :=
  match fss, fields with
  | fs :: fss, f :: fields => translate_field t f fs :: Translate_Record t fields fss
  | _, _ => fields
  end.

Definition Translate_opt (t : option Translate_) (fields : list Field) (fss : list FieldSpecifier) : list Field :=
  match t with Some t => Translate_Record t fields fss | None => fields end.

(** [for i := 0; buffer.Len() > 0 && i < len(fss); i++]. *)
Fixpoint DataRecord_fields (fss : list FieldSpecifier) : rd (list Field) := λ r,
  match fss with
  | [] => Ok ([], r)
  | fs :: fss =>
      if (0 <? length r)%nat
      then (f ← Field_Unmarshal fs; fields ← DataRecord_fields fss; mret (f :: fields)) r
      else Ok ([], r)
  end.

Definition DataRecord_Unmarshal (templateID : Z) (fss : list FieldSpecifier) (t : option Translate_) :
    rd DataRecord :=
  rd_drain (
    fields ← DataRecord_fields fss;
    let fields := if (0 <? length fields)%nat then Translate_opt t fields fss else fields in
    mret {| dr_TemplateID := templateID; dr_Fields := fields |}).

(** [dr.Unmarshal(bytes.NewBuffer(buffer.Next(n)), ...)]. *)
Definition rd_next {A} (n : nat) (m : rd A) : rd A := λ r,
  match m (take n r) with Ok (a, _) => Ok (a, drop n r) | x => x end.

Definition DataFlowSet_Unmarshal (fuel : nat) (tr : TemplateRecord) (t : option Translate_) :
    rd (list DataRecord) :=
  rd_drain (loop_while fuel at_least_4
    (rd_next (Z.to_nat (TemplateRecord_Size tr))
      (DataRecord_Unmarshal (tr_TemplateID tr) (tr_Fields tr) t))).

Fixpoint fields_Unmarshal (fss : list FieldSpecifier) : rd (list Field) :=
  match fss with
  | [] => mret []
  | fs :: fss => f ← Field_Unmarshal fs; fields ← fields_Unmarshal fss; mret (f :: fields)
  end.

Definition OptionsDataRecord_Unmarshal (templateID : Z) (scopeFss fss : list FieldSpecifier)
    (t : option Translate_) : rd OptionsDataRecord :=
  scopeFields ← fields_Unmarshal scopeFss;
  fields ← fields_Unmarshal fss;
  mret {| odr_TemplateID := templateID;
          odr_ScopeFields := Translate_opt t scopeFields scopeFss;
          odr_Fields := Translate_opt t fields fss |}.

Definition OptionsDataFlowSet_Unmarshal (fuel : nat) (otr : OptionsTemplateRecord)
    (t : option Translate_) : rd (list OptionsDataRecord) :=
  rd_drain (loop_until_EOF fuel at_least_4
    (OptionsDataRecord_Unmarshal (otr_TemplateID otr) (otr_ScopeFields otr) (otr_Fields otr) t)).

(** ** Flow sets and the packet *)

Definition with_TemplateFlowSet (p : Packet) (x : TemplateFlowSet) : Packet :=
  {| p_Header := p_Header p; p_TemplateFlowSets := p_TemplateFlowSets p ++ [x];
     p_OptionsTemplateFlowSets := p_OptionsTemplateFlowSets p;
     p_DataFlowSets := p_DataFlowSets p; p_OptionsDataFlowSets := p_OptionsDataFlowSets p |}.
Definition with_OptionsTemplateFlowSet (p : Packet) (x : OptionsTemplateFlowSet) : Packet :=
  {| p_Header := p_Header p; p_TemplateFlowSets := p_TemplateFlowSets p;
     p_OptionsTemplateFlowSets := p_OptionsTemplateFlowSets p ++ [x];
     p_DataFlowSets := p_DataFlowSets p; p_OptionsDataFlowSets := p_OptionsDataFlowSets p |}.
Definition with_DataFlowSet (p : Packet) (x : DataFlowSet) : Packet :=
  {| p_Header := p_Header p; p_TemplateFlowSets := p_TemplateFlowSets p;
     p_OptionsTemplateFlowSets := p_OptionsTemplateFlowSets p;
     p_DataFlowSets := p_DataFlowSets p ++ [x]; p_OptionsDataFlowSets := p_OptionsDataFlowSets p |}.
Definition with_OptionsDataFlowSet (p : Packet) (x : OptionsDataFlowSet) : Packet :=
  {| p_Header := p_Header p; p_TemplateFlowSets := p_TemplateFlowSets p;
     p_OptionsTemplateFlowSets := p_OptionsTemplateFlowSets p;
     p_DataFlowSets := p_DataFlowSets p; p_OptionsDataFlowSets := p_OptionsDataFlowSets p ++ [x] |}.

Section decoder.
Context {T : Type} `{Template T} `{!Implements TemplateRecord T}
  `{!Implements OptionsTemplateRecord T}.

(** The [switch header.ID] on the body [data] of flow set [i]. *)
Definition UnmarshalFlowSet (fuel : nat) (i : Z) (p : Packet) (header : FlowSetHeader)
    (data : list byte) (s : option (basicSession T)) (t : option Translate_) :
    option (basicSession T) * res Packet :=
  let source := h_SourceID (p_Header p) in
  if fsh_ID header =? 0 then
    match TemplateFlowSet_UnmarshalRecords data with
    | Ok (records, _) =>
        (register_all source records s,
         Ok (with_TemplateFlowSet p {| tfs_Header := header; tfs_Records := records |}))
    | Err e => (s, Err e) | Panic w => (s, Panic w) | OutOfFuel => (s, OutOfFuel)
    end
  else if fsh_ID header =? 1 then
    match OptionsTemplateFlowSet_UnmarshalRecords data with
    | Ok (records, _) =>
        (register_all source records s,
         Ok (with_OptionsTemplateFlowSet p {| ots_Header := header; ots_Records := records |}))
    | Err e => (s, Err e) | Panic w => (s, Panic w) | OutOfFuel => (s, OutOfFuel)
    end
  else
    match s with
    | None => (s, Ok p)
    | Some s0 =>
        match GetTemplate source (fsh_ID header) s0 with
        | None => (s, Ok p)
        | Some tm =>
            match down (R:=TemplateRecord) tm with
            | Some template =>
                (s, '(records, _) ← DataFlowSet_Unmarshal fuel template t data;
                    mret (with_DataFlowSet p {| dfs_Header := header; dfs_Records := records |}))
            | None =>
                match down (R:=OptionsTemplateRecord) tm with
                | Some template =>
                    (s, '(records, _) ← OptionsDataFlowSet_Unmarshal fuel template t data;
                        mret (with_OptionsDataFlowSet p {| ods_Header := header; ods_Records := records |}))
                | None =>
                    (s, Err (Errorf "netflow9 DataFlowSet %d with source-id %d, template-id %d, retrieved template record of type %T; rejected"
                               [FInt i; FInt source; FInt (fsh_ID header)]))
                end
            end
        end
    end.

(** The loop of [UnmarshalFlowSets], [n] rounds before [i] reaches the count. *)
Fixpoint UnmarshalFlowSets_loop (fuel n : nat) (i : Z) (p : Packet) (buffer : list byte)
    (s : option (basicSession T)) (t : option Translate_) : option (basicSession T) * res Packet :=
  match n with
  | O => (s, Ok p)
  | S n =>
      if (0 <? length buffer)%nat then
        match FlowSetHeader_Unmarshal buffer with
        | Ok (header, buffer) =>
            let readSize := fsh_Length header - FlowSetHeader_Len in
            if readSize <=? 0
            then (s, Err (Errorf "netflow9 FlowSet %d has illegal size %d bytes" [FInt i; FInt readSize]))
            else
              match ReadFull (Z.to_nat readSize) buffer with
              | Ok (data, buffer) =>
                  match UnmarshalFlowSet fuel i p header data s t with
                  | (s, Ok p) => UnmarshalFlowSets_loop fuel n (i + 1) p buffer s t
                  | x => x
                  end
              | _ => (s, Err (Errorf "netflow9 FlowSet %d truncated; header says %d bytes, but message contains only %d"
                                [FInt i; FInt readSize; FInt (Z.of_nat (length buffer))]))
              end
        | _ => (s, Err (Errorf "netflow9 FlowSetHeader %d truncated" [FInt i]))
        end
      else (s, Ok p)
  end.

Definition UnmarshalFlowSets (fuel : nat) (p : Packet) (r : list byte)
    (s : option (basicSession T)) (t : option Translate_) : option (basicSession T) * res Packet :=
  if (length r =? 0)%nat then (s, Err (Errorf "netflow9 message has zero-length body" []))
  else UnmarshalFlowSets_loop fuel (Z.to_nat (h_Count (p_Header p))) 0 p r s t.

(** decoder.go *)
Definition errInvalidVersion (v : Z) : error :=
  Errorf "version %d is not a valid NetFlow packet version" [FInt v].

Definition Read (fuel : nat) (r : list byte) (s : option (basicSession T)) (t : option Translate_) :
    option (basicSession T) * res Packet :=
  let t := match t, s with None, Some _ => Some NewTranslate | _, _ => t end in
  match PacketHeader_Unmarshal r with
  | Ok (header, r) =>
      let p := {| p_Header := header; p_TemplateFlowSets := []; p_OptionsTemplateFlowSets := [];
                  p_DataFlowSets := []; p_OptionsDataFlowSets := [] |} in
      if negb (h_Version header =? Version) then (s, Err (errInvalidVersion (h_Version header)))
      else if PacketHeader_Len <? 4 then (s, Err ErrShortBuffer)
      else if h_Count header =? 0 then (s, Ok p)
      else UnmarshalFlowSets fuel p r s t
  | Err e => (s, Err e) | Panic w => (s, Panic w) | OutOfFuel => (s, OutOfFuel)
  end.
End decoder.

(** ** Laws *)

Lemma safe_TemplateRecord_v9 : safe TemplateRecord_Unmarshal.
Proof. unfold TemplateRecord_Unmarshal, FieldSpecifiers_Unmarshal, FieldSpecifier_Unmarshal. solve_safe. Qed.
Lemma eats_TemplateRecord_v9 : eats 4 TemplateRecord_Unmarshal.
Proof.
  unfold TemplateRecord_Unmarshal. apply (eats_bind 2 2); [apply eats_Uint16|intros].
  apply (eats_bind 2 0); [apply eats_Uint16|intros]. apply (eats_bind 0 0); [|intros; apply eats_ret].
  unfold FieldSpecifiers_Unmarshal. rewrite <-(Nat.mul_0_r (Z.to_nat a0)). apply eats_replicateM.
  apply (eats_bind 0 0); [eapply eats_weaken, eats_Uint16; lia|intros].
  apply (eats_bind 0 0); [eapply eats_weaken, eats_Uint16; lia|intros]. apply eats_ret.
Qed.
Lemma safe_OptionsTemplateRecord_v9 : safe OptionsTemplateRecord_Unmarshal.
Proof.
  unfold OptionsTemplateRecord_Unmarshal, FieldSpecifiers_Unmarshal, FieldSpecifier_Unmarshal.
  solve_safe.
Qed.
Lemma eats_OptionsTemplateRecord_v9 : eats 6 OptionsTemplateRecord_Unmarshal.
Proof.
  unfold OptionsTemplateRecord_Unmarshal. apply (eats_bind 2 4); [apply eats_Uint16|intros].
  apply (eats_bind 2 2); [apply eats_Uint16|intros]. apply (eats_bind 2 0); [apply eats_Uint16|intros].
  intros r b r' E. unfold rd_drain in E. case_match; try done. case_match. injection E as _ <-. simpl. lia.
Qed.

#[export] Hint Resolve safe_TemplateRecord_v9 safe_OptionsTemplateRecord_v9 : rd_db.

Lemma more_than_4_nil : more_than_4 [] = false. Proof. done. Qed.
Lemma at_least_4_nil : at_least_4 [] = false. Proof. done. Qed.

Lemma UnmarshalRecords_settled_v9 data : settled (TemplateFlowSet_UnmarshalRecords data).
Proof.
  apply settled_drain, loop_while_settled; [| |done|done].
  - intros r _. apply safe_TemplateRecord_v9.
  - intros r a r' _ E. apply eats_TemplateRecord_v9 in E. lia.
Qed.

Lemma OptionsUnmarshalRecords_settled_v9 data : settled (OptionsTemplateFlowSet_UnmarshalRecords data).
Proof.
  apply settled_drain, loop_while_settled; [| |done|done].
  - intros r _. apply safe_OptionsTemplateRecord_v9.
  - intros r a r' _ E. apply eats_OptionsTemplateRecord_v9 in E. lia.
Qed.

(** Reading the fields of a record. *)

Lemma DataRecord_fields_ok fss r : ∃ fields r', DataRecord_fields fss r = Ok (fields, r').
Proof.
  revert r. induction fss as [|fs fss IH]; intros r; [by eexists _, _|].
  simpl. destruct r as [|b r]; [by eexists _, _|]. simpl.
  unfold Field_Unmarshal. unfold mbind at 1, rd_bind at 1. unfold mbind at 1, rd_bind at 1.
  simpl. edestruct IH as (fields & r' & E). erewrite rd_bind_Ok by exact E.
  by eexists _, _.
Qed.

Lemma DataRecord_Unmarshal_ok id fss t r : ∃ dr, DataRecord_Unmarshal id fss t r = Ok (dr, []).
Proof.
  unfold DataRecord_Unmarshal, rd_drain.
  destruct (DataRecord_fields_ok fss r) as (fields & r' & E).
  erewrite rd_bind_Ok by exact E. by eexists.
Qed.

Lemma rd_next_ok {A} n (m : rd A) r a r' :
  m (take n r) = Ok (a, r') → rd_next n m r = Ok (a, drop n r).
Proof. unfold rd_next. by intros ->. Qed.

Section data_loop.
Context (tr : TemplateRecord) (t : option Translate_).
Let body := rd_next (Z.to_nat (TemplateRecord_Size tr))
  (DataRecord_Unmarshal (tr_TemplateID tr) (tr_Fields tr) t).

Lemma data_body_ok r : ∃ dr, body r = Ok (dr, drop (Z.to_nat (TemplateRecord_Size tr)) r).
Proof.
  destruct (DataRecord_Unmarshal_ok (tr_TemplateID tr) (tr_Fields tr) t
    (take (Z.to_nat (TemplateRecord_Size tr)) r)) as [dr E].
  exists dr. by eapply rd_next_ok.
Qed.

Lemma loop_while_no_error fuel r : loop_while fuel at_least_4 body r = OutOfFuel ∨
  ∃ drs r', loop_while fuel at_least_4 body r = Ok (drs, r').
Proof.
  revert r. induction fuel as [|fuel IH]; intros r; simpl; destruct (at_least_4 r); eauto.
  destruct (data_body_ok r) as [dr E]. rewrite (rd_bind_Ok _ _ _ _ _ E).
  unfold mbind, rd_bind. destruct (IH (drop (Z.to_nat (TemplateRecord_Size tr)) r)) as [-> | (drs & r' & ->)].
  - by left.
  - right. by eexists _, _.
Qed.

(** With room to advance the data loop ends, and never in an error. *)
Lemma DataFlowSet_terminates fuel data :
  0 < TemplateRecord_Size tr ∨ (length data < 4)%nat → (length data ≤ fuel)%nat →
  ∃ records, DataFlowSet_Unmarshal fuel tr t data = Ok (records, []).
Proof.
  intros Hsize Hfuel. unfold DataFlowSet_Unmarshal. fold body.
  assert (settled (loop_while fuel at_least_4 body data)) as Hset.
  { destruct Hsize as [Hs|Hd].
    - apply loop_while_settled; [| |done|done].
      + intros r _. by destruct (data_body_ok r) as [dr ->].
      + intros r a r' Hr E. destruct (data_body_ok r) as [dr Eb]. rewrite Eb in E.
        injection E as _ <-. unfold at_least_4 in Hr. apply Nat.leb_le in Hr.
        rewrite length_drop. lia.
    - destruct fuel; simpl; unfold at_least_4; by rewrite (proj2 (Nat.leb_gt _ _)). }
  destruct (loop_while_no_error fuel data) as [E|(drs & r' & E)]; [by rewrite E in Hset|].
  exists drs. by eapply rd_drain_ok.
Qed.

Lemma DataFlowSet_diverges fuel data :
  TemplateRecord_Size tr ≤ 0 → (4 ≤ length data)%nat →
  DataFlowSet_Unmarshal fuel tr t data = OutOfFuel.
Proof.
  intros Hsize Hd. unfold DataFlowSet_Unmarshal, rd_drain. fold body.
  destruct (data_body_ok data) as [dr E].
  rewrite (loop_while_diverges _ _ _ _ dr); [done| |].
  - unfold at_least_4. by apply Nat.leb_le.
  - rewrite E. by replace (Z.to_nat (TemplateRecord_Size tr)) with 0%nat by lia.
Qed.
End data_loop.

(** Option records: the loop advances when some field has a length. *)

Lemma safe_fields_v9 fss : safe (fields_Unmarshal fss).
Proof. induction fss; simpl; unfold Field_Unmarshal; solve_safe; done. Qed.

Lemma safe_OptionsDataRecord_v9 id scope fss t : safe (OptionsDataRecord_Unmarshal id scope fss t).
Proof.
  unfold OptionsDataRecord_Unmarshal.
  apply safe_bind; [apply safe_fields_v9|intros]. apply safe_bind; [apply safe_fields_v9|intros].
  apply safe_ret.
Qed.

Lemma fields_rest_v9 fss r fields r' : fields_Unmarshal fss r = Ok (fields, r') →
  r' = drop (sum_list ((λ fs, Z.to_nat (fs_Length fs)) <$> fss)) r.
Proof.
  revert r fields. induction fss as [|fs fss IH]; intros r fields E; [by injection E as _ <-|].
  simpl in E. apply rd_bind_inv in E as (f & r1 & E1 & E). apply rd_bind_inv in E as (fl & r2 & E2 & E).
  injection E as _ <-. unfold Field_Unmarshal in E1. apply rd_bind_inv in E1 as (b & r3 & E1 & E3).
  injection E3 as _ <-. apply buffer_Read_rest in E1. subst r3. apply IH in E2. subst r2.
  rewrite drop_drop. unfold make_bytes. rewrite length_replicate. done.
Qed.

Definition lengths (fss : list FieldSpecifier) : nat := sum_list ((λ fs, Z.to_nat (fs_Length fs)) <$> fss).

Lemma options_body_rest id scope fss t r odr r' :
  OptionsDataRecord_Unmarshal id scope fss t r = Ok (odr, r') →
  r' = drop (lengths scope + lengths fss) r.
Proof.
  unfold OptionsDataRecord_Unmarshal. intros E.
  apply rd_bind_inv in E as (f1 & r1 & E1 & E). apply rd_bind_inv in E as (f2 & r2 & E2 & E).
  injection E as _ <-. apply fields_rest_v9 in E1 as ->. apply fields_rest_v9 in E2 as ->.
  by rewrite drop_drop.
Qed.

Lemma OptionsDataFlowSet_settled fuel otr t data :
  (0 < lengths (otr_ScopeFields otr) + lengths (otr_Fields otr))%nat → (length data ≤ fuel)%nat →
  settled (OptionsDataFlowSet_Unmarshal fuel otr t data).
Proof.
  intros Hl Hf. apply settled_drain, loop_until_EOF_settled; [| |done|done].
  - intros r _. apply safe_OptionsDataRecord_v9.
  - intros r a r' Hr E. apply options_body_rest in E as ->. rewrite length_drop.
    unfold at_least_4 in Hr. apply Nat.leb_le in Hr. lia.
Qed.

(** ** The decoder as a whole *)

Section decoder_laws.
Context {T : Type} `{Template T} `{!Implements TemplateRecord T}
  `{!Implements OptionsTemplateRecord T}.

(** A template of which every record has length zero. *)
Definition stuck_template (tm : T) : Prop :=
  (∃ tr, down (R:=TemplateRecord) tm = Some tr ∧ TemplateRecord_Size tr ≤ 0) ∨
  (∃ otr, down (R:=OptionsTemplateRecord) tm = Some otr ∧
          lengths (otr_ScopeFields otr) + lengths (otr_Fields otr) = 0)%nat.

Definition holds_stuck_template (s : option (basicSession T)) : Prop :=
  ∃ s0 k tm, s = Some s0 ∧ templates s0 !! k = Some tm ∧ stuck_template tm.

Lemma UnmarshalFlowSet_session fuel i p header data s t s' r :
  UnmarshalFlowSet fuel i p header data s t = (s', r) →
  session_step (h_SourceID (p_Header p)) s s'.
Proof.
  unfold UnmarshalFlowSet. intros E.
  repeat case_match; simplify_eq; first [apply session_step_refl | apply session_step_register_all].
Qed.

Lemma UnmarshalFlowSet_header fuel i p header data s t s' p' :
  UnmarshalFlowSet fuel i p header data s t = (s', Ok p') → p_Header p' = p_Header p.
Proof.
  unfold UnmarshalFlowSet. intros E.
  repeat case_match; simplify_eq; try done;
    match goal with
    | Hb : _ ≫= _ = Ok _ |- _ => apply res_bind_Ok in Hb; destruct Hb as ([? ?] & _ & Hb); by inversion Hb
    end.
Qed.

Lemma UnmarshalFlowSet_outcome fuel i p header data s t s' r :
  UnmarshalFlowSet fuel i p header data s t = (s', r) → (length data ≤ fuel)%nat →
  settled r ∨ r = OutOfFuel ∧ holds_stuck_template s'.
Proof.
  intros E Hf. unfold UnmarshalFlowSet in E.
  destruct (fsh_ID header =? 0).
  { pose proof (UnmarshalRecords_settled_v9 data) as Hs.
    destruct (TemplateFlowSet_UnmarshalRecords data) as [[]| | |]; simplify_eq; by left. }
  destruct (fsh_ID header =? 1).
  { pose proof (OptionsUnmarshalRecords_settled_v9 data) as Hs.
    destruct (OptionsTemplateFlowSet_UnmarshalRecords data) as [[]| | |]; simplify_eq; by left. }
  destruct s as [s0|]; [|simplify_eq; by left].
  destruct (GetTemplate _ _ _) as [tm|] eqn:Eg; [|simplify_eq; by left].
  destruct (down (R:=TemplateRecord) tm) as [tr|] eqn:Etr.
  { injection E as <- <-.
    destruct (decide (0 < TemplateRecord_Size tr)) as [Hp|Hz].
    - left. destruct (DataFlowSet_terminates tr t fuel data (or_introl Hp) Hf) as [rs ->]. done.
    - destruct (decide (length data < 4)%nat) as [Hd|Hd].
      + left. destruct (DataFlowSet_terminates tr t fuel data (or_intror Hd) Hf) as [rs ->]. done.
      + right. rewrite DataFlowSet_diverges by lia. split; [done|].
        eexists _, _, tm. split; [done|]. split; [exact Eg|]. left. exists tr. split; [done|lia]. }
  destruct (down (R:=OptionsTemplateRecord) tm) as [otr|] eqn:Eotr; [|simplify_eq; by left].
  injection E as <- <-.
  destruct (decide (0 < lengths (otr_ScopeFields otr) + lengths (otr_Fields otr))%nat) as [Hp|Hz].
  - left. pose proof (OptionsDataFlowSet_settled fuel otr t data Hp Hf) as Hs.
    by destruct (OptionsDataFlowSet_Unmarshal fuel otr t data) as [[]| | |].
  - destruct (OptionsDataFlowSet_Unmarshal fuel otr t data) as [[]| | |] eqn:Eo; [by left|by left| |].
    + exfalso. revert Eo. unfold OptionsDataFlowSet_Unmarshal, rd_drain.
      destruct (loop_until_EOF _ _ _ _) as [[]| | |] eqn:El; try done. intros _.
      by apply loop_until_EOF_no_panic in El; [|apply safe_OptionsDataRecord_v9].
    + right. split; [done|]. eexists _, _, tm. split; [done|]. split; [exact Eg|].
      right. exists otr. split; [done|lia].
Qed.

Lemma UnmarshalFlowSets_loop_spec fuel n i p buffer s t s' r :
  UnmarshalFlowSets_loop fuel n i p buffer s t = (s', r) → (length buffer ≤ fuel)%nat →
  session_step (h_SourceID (p_Header p)) s s' ∧
  (settled r ∨ r = OutOfFuel ∧ holds_stuck_template s').
Proof.
  revert i p buffer s. induction n as [|n IH]; intros i p buffer s E Hf; simpl in E.
  { simplify_eq. split; [apply session_step_refl|by left]. }
  assert (∀ x, (s, Err x) = (s', r) → session_step (h_SourceID (p_Header p)) s s' ∧
    (settled r ∨ r = OutOfFuel ∧ holds_stuck_template s')) as Herr.
  { intros x [= <- <-]. split; [apply session_step_refl|by left]. }
  destruct (0 <? length buffer)%nat; [|simplify_eq; split; [apply session_step_refl|by left]].
  destruct (FlowSetHeader_Unmarshal buffer) as [[header b1]| | |] eqn:Eh; try by eapply Herr.
  destruct (fsh_Length header - FlowSetHeader_Len <=? 0); [by eapply Herr|].
  destruct (ReadFull _ b1) as [[data b2]| | |] eqn:Er; try by eapply Herr.
  assert (length b1 ≤ length buffer)%nat as H1.
  { assert (eats 0 FlowSetHeader_Unmarshal) as He.
    { unfold FlowSetHeader_Unmarshal. apply (eats_bind 0 0); [eapply eats_weaken, eats_Uint16; lia|intros].
      apply (eats_bind 0 0); [eapply eats_weaken, eats_Uint16; lia|intros]. apply eats_ret. }
    apply He in Eh. lia. }
  apply ReadFull_inv in Er as (Hl & -> & ->).
  set (data := take _ b1) in *.
  assert (length data ≤ fuel)%nat as Hd by (unfold data; rewrite length_take; lia).
  destruct (UnmarshalFlowSet fuel i p header data s t) as [s1 r1] eqn:Eu.
  pose proof (UnmarshalFlowSet_session _ _ _ _ _ _ _ _ _ Eu) as Hstep.
  pose proof (UnmarshalFlowSet_outcome _ _ _ _ _ _ _ _ _ Eu Hd) as Hout.
  destruct r1 as [p1| | |]; [|by simplify_eq..].
  apply UnmarshalFlowSet_header in Eu.
  apply IH in E as [Hs2 Ho]; [|rewrite length_drop; lia].
  rewrite Eu in Hs2. split; [by eapply session_step_trans|done].
Qed.

Lemma safe_PacketHeader_v9 : safe PacketHeader_Unmarshal.
Proof. unfold PacketHeader_Unmarshal. solve_safe. Qed.
Lemma eats_PacketHeader_v9 : eats 0 PacketHeader_Unmarshal.
Proof.
  unfold PacketHeader_Unmarshal.
  repeat (apply (eats_bind 0 0);
    [apply eats_wrap; eapply eats_weaken; [|eauto with rd_db]; lia|intros ?]). apply eats_ret.
Qed.

Lemma Read_v9_spec fuel r s t s' out :
  Read fuel r s t = (s', out) → (length r ≤ fuel)%nat →
  (∃ source, session_step source s s' ∧
    (length r < 20 ∨ word_at 16 4 r = source)%nat) ∧
  (settled out ∨ out = OutOfFuel ∧ holds_stuck_template s').
Proof.
  intros E Hf. unfold Read in E.
  destruct (PacketHeader_Unmarshal r) as [[h r1]| | |] eqn:Eh.
  2-4: pose proof (safe_PacketHeader_v9 r) as Hs; rewrite Eh in Hs; simplify_eq; try done.
  2: { split; [|by left]. exists (word_at 16 4 r). split; [apply session_step_refl|by right]. }
  pose proof (eats_PacketHeader_v9 _ _ _ Eh).
  assert (length r < 20 ∨ word_at 16 4 r = h_SourceID h)%nat as Hsrc.
  { destruct (decide (length r < 20)%nat); [by left|right].
    revert Eh. unfold PacketHeader_Unmarshal. rewrite <-(drop_0 r) at 1. unfold rd_wrap.
    unfold mbind at 1, rd_bind at 1.
    intros Eh. revert Eh. rewrite !Uint16_ok by (rewrite ?length_drop; lia). cbn iota beta. 
    unfold mbind at 1, rd_bind at 1. rewrite !Uint16_ok by (rewrite ?length_drop; lia). cbn iota beta.
    do 4 (unfold mbind at 1, rd_bind at 1; rewrite !Uint32_ok by (rewrite ?length_drop; lia); cbn iota beta).
    unfold mret, rd_ret. intros [= <- <-]. cbn [h_SourceID]. rewrite !drop_drop. done. }
  revert E. case_match; [intros [= <- <-]; split; [|by left]; eexists; by split; [apply session_step_refl|]|].
  case_match; [done|].
  case_match; [intros [= <- <-]; split; [|by left]; eexists; by split; [apply session_step_refl|]|].
  unfold UnmarshalFlowSets. case_match.
  { intros [= <- <-]. split; [|by left]. eexists. by split; [apply session_step_refl|]. }
  intros E. apply UnmarshalFlowSets_loop_spec in E as [Hs Ho]; [|lia].
  split; [|done]. eexists. by split.
Qed.
End decoder_laws.

(** ** Encoding, and what the decoder makes of it *)

Definition encode_FieldSpecifier (fs : FieldSpecifier) : list byte :=
  be_encode 2 (fs_Type fs) ++ be_encode 2 (fs_Length fs).
Definition encode_TemplateRecord (tr : TemplateRecord) : list byte :=
  be_encode 2 (tr_TemplateID tr) ++ be_encode 2 (tr_FieldCount tr) ++
  concat (encode_FieldSpecifier <$> tr_Fields tr).
Definition encode_FlowSetHeader (h : FlowSetHeader) : list byte :=
  be_encode 2 (fsh_ID h) ++ be_encode 2 (fsh_Length h).
Definition encode_PacketHeader (h : PacketHeader) : list byte :=
  be_encode 2 (h_Version h) ++ be_encode 2 (h_Count h) ++ be_encode 4 (h_SysUpTime h) ++
  be_encode 4 (h_UnixSecs h) ++ be_encode 4 (h_SequenceNumber h) ++ be_encode 4 (h_SourceID h).

Definition FieldSpecifier_wf (fs : FieldSpecifier) : Prop :=
  in_u 16 (fs_Type fs) ∧ in_u 16 (fs_Length fs).
Definition TemplateRecord_wf (tr : TemplateRecord) : Prop :=
  in_u 16 (tr_TemplateID tr) ∧ in_u 16 (tr_FieldCount tr) ∧
  tr_FieldCount tr = Z.of_nat (length (tr_Fields tr)) ∧ tr_Fields tr ≠ [] ∧
  Forall FieldSpecifier_wf (tr_Fields tr).
Definition FlowSetHeader_wf (h : FlowSetHeader) : Prop :=
  in_u 16 (fsh_ID h) ∧ in_u 16 (fsh_Length h).
Definition PacketHeader_wf (h : PacketHeader) : Prop :=
  h_Version h = Version ∧ in_u 16 (h_Count h) ∧ in_u 32 (h_SysUpTime h) ∧
  in_u 32 (h_UnixSecs h) ∧ in_u 32 (h_SequenceNumber h) ∧ in_u 32 (h_SourceID h).

#[export] Instance FieldSpecifier_wf_dec fs : Decision (FieldSpecifier_wf fs).
Proof. unfold FieldSpecifier_wf. apply _. Defined.

Lemma read_FieldSpecifier fs tl : FieldSpecifier_wf fs →
  FieldSpecifier_Unmarshal (encode_FieldSpecifier fs ++ tl) = Ok (fs, tl).
Proof.
  destruct fs as [ty len]. intros [Ht Hl]; simpl in *. unfold FieldSpecifier_Unmarshal, encode_FieldSpecifier.
  simpl. read_back. done.
Qed.

Lemma read_FieldSpecifiers fss tl : Forall FieldSpecifier_wf fss →
  FieldSpecifiers_Unmarshal (Z.of_nat (length fss)) (concat (encode_FieldSpecifier <$> fss) ++ tl) = Ok (fss, tl).
Proof.
  intros Hf. unfold FieldSpecifiers_Unmarshal. rewrite Nat2Z.id. apply replicateM_chunks.
  intros fs tl' Hin. apply read_FieldSpecifier. by eapply Forall_forall.
Qed.

Lemma read_TemplateRecord tr tl : TemplateRecord_wf tr →
  TemplateRecord_Unmarshal (encode_TemplateRecord tr ++ tl) = Ok (tr, tl).
Proof.
  destruct tr as [id count fss]. intros (Hid & Hc & Hcount & _ & Hf); simpl in *.
  unfold TemplateRecord_Unmarshal, encode_TemplateRecord. simpl. read_back.
  rewrite Hcount. by erewrite rd_bind_Ok by (by apply read_FieldSpecifiers).
Qed.

Lemma read_FlowSetHeader h tl : FlowSetHeader_wf h →
  FlowSetHeader_Unmarshal (encode_FlowSetHeader h ++ tl) = Ok (h, tl).
Proof.
  destruct h as [id len]. intros [Hi Hl]; simpl in *.
  unfold FlowSetHeader_Unmarshal, encode_FlowSetHeader. simpl. read_back. done.
Qed.

Lemma read_PacketHeader h tl : PacketHeader_wf h →
  PacketHeader_Unmarshal (encode_PacketHeader h ++ tl) = Ok (h, tl).
Proof.
  destruct h as [v c u x q s]. intros (Hv & Hc & Hu & Hx & Hq & Hs); simpl in *.
  assert (in_u 16 v) by (subst v; done).
  unfold PacketHeader_Unmarshal, encode_PacketHeader. simpl. read_back. done.
Qed.

Lemma length_encode_FieldSpecifier fs : length (encode_FieldSpecifier fs) = 4%nat.
Proof. unfold encode_FieldSpecifier. by rewrite length_app, !length_be_encode. Qed.
Lemma length_encode_TemplateRecord tr : tr_Fields tr ≠ [] → (8 ≤ length (encode_TemplateRecord tr))%nat.
Proof.
  intros Hne. unfold encode_TemplateRecord. rewrite !length_app, !length_be_encode.
  destruct (tr_Fields tr); [done|]. cbn [fmap list_fmap concat].
  rewrite length_app, length_encode_FieldSpecifier. lia.
Qed.

Lemma read_templates trs pad : Forall TemplateRecord_wf trs → (length pad ≤ 4)%nat →
  TemplateFlowSet_UnmarshalRecords (concat (encode_TemplateRecord <$> trs) ++ pad) = Ok (trs, []).
Proof.
  intros Hwf Hpad. rewrite Forall_forall in Hwf. eapply rd_drain_ok, (loop_while_chunks _ _ _ _ encode_TemplateRecord).
  - intros tr tl Hin. apply read_TemplateRecord. auto.
  - intros tr tl Hin. apply Nat.ltb_lt. rewrite length_app.
    destruct (Hwf tr Hin) as (_ & _ & _ & Hne & _). pose proof (length_encode_TemplateRecord tr Hne). lia.
  - by apply Nat.ltb_ge.
  - rewrite length_app. pose proof (length_concat_ge encode_TemplateRecord 1 trs) as Hl.
    assert (1 * length trs ≤ length (concat (encode_TemplateRecord <$> trs)))%nat; [|lia].
    apply Hl. intros tr Hin. destruct (Hwf tr Hin) as (_ & _ & _ & Hne & _).
    pose proof (length_encode_TemplateRecord tr Hne). lia.
Qed.

(** A record of a template: one byte string per field, of the field's length. *)
Definition record_of (fss : list FieldSpecifier) (bss : list (list byte)) : Prop :=
  Forall2 (λ fs bs, fs_Length fs = Z.of_nat (length bs) ∧ bs ≠ []) fss bss.
Definition fields_of (fss : list FieldSpecifier) (bss : list (list byte)) : list Field :=
  zip_with (λ fs bs, {| f_Type := fs_Type fs; f_Length := fs_Length fs;
                        f_Translated := None; f_Bytes := bs |}) fss bss.

Lemma read_DataRecord_fields fss bss : record_of fss bss →
  DataRecord_fields fss (concat bss) = Ok (fields_of fss bss, []).
Proof.
  induction 1 as [|fs bs fss bss [Hl Hne] _ IH]; [done|]. simpl.
  destruct bs as [|b bs]; [done|]. rewrite <-app_comm_cons. cbn [length Nat.ltb Nat.leb].
  unfold Field_Unmarshal. erewrite rd_bind_Ok.
  2: { rewrite app_comm_cons. erewrite rd_bind_Ok by (apply buffer_Read_app; lia). done. }
  erewrite rd_bind_Ok by exact IH. done.
Qed.

Lemma Size_record tr bss : record_of (tr_Fields tr) bss →
  TemplateRecord_Size tr = Z.of_nat (length (concat bss)).
Proof.
  unfold TemplateRecord_Size. replace (Z.of_nat (length (concat bss))) with (0 + Z.of_nat (length (concat bss))) by lia.
  generalize 0. intros a H. revert a. induction H as [|fs bs fss bss [Hl _] _ IH]; intros a; simpl; [lia|].
  rewrite IH, length_app. lia.
Qed.

Definition record_value (tr : TemplateRecord) (t : option Translate_) (bss : list (list byte)) : DataRecord :=
  {| dr_TemplateID := tr_TemplateID tr;
     dr_Fields := Translate_opt t (fields_of (tr_Fields tr) bss) (tr_Fields tr) |}.

Lemma read_DataRecord tr t bss : record_of (tr_Fields tr) bss → tr_Fields tr ≠ [] →
  DataRecord_Unmarshal (tr_TemplateID tr) (tr_Fields tr) t (concat bss) = Ok (record_value tr t bss, []).
Proof.
  intros Hrec Hne. eapply rd_drain_ok. erewrite rd_bind_Ok by (by apply read_DataRecord_fields).
  unfold record_value. destruct Hrec; done.
Qed.

Lemma read_data fuel tr t bsss pad : Forall (record_of (tr_Fields tr)) bsss →
  4 ≤ TemplateRecord_Size tr → (length pad < 4)%nat → (length bsss ≤ fuel)%nat →
  DataFlowSet_Unmarshal fuel tr t (concat (@concat byte <$> bsss) ++ pad) =
    Ok (record_value tr t <$> bsss, []).
Proof.
  intros Hrecs Hsize Hpad Hfuel. rewrite Forall_forall in Hrecs.
  assert (tr_Fields tr ≠ []) as Hne by (intros E; unfold TemplateRecord_Size in Hsize; rewrite E in Hsize; simpl in Hsize; lia).
  assert (∀ bss, bss ∈ bsss → Z.to_nat (TemplateRecord_Size tr) = length (concat bss)) as Hlen.
  { intros bss Hin. rewrite (Size_record tr bss) by auto. lia. }
  eapply rd_drain_ok, (loop_while_chunks_map _ _ _ _ (@concat byte)); [| | |done].
  - intros bss tl Hin. rewrite (Hlen bss Hin). erewrite rd_next_ok.
    2: { rewrite take_app_length. apply read_DataRecord; auto. } by rewrite drop_app_length.
  - intros bss tl Hin. apply Nat.leb_le. rewrite length_app. specialize (Hlen bss Hin). lia.
  - by apply Nat.leb_gt.
Qed.

(** ** Properties *)

(** The records of a data flow set are read in finitely many rounds exactly when
    a round advances: the template's record size is positive, or there is too little
    data for a single round.  Otherwise [DataFlowSet.Unmarshal] loops for ever. *)
Theorem DataFlowSet_ends_iff tr t data :
  (∃ fuel, DataFlowSet_Unmarshal fuel tr t data ≠ OutOfFuel) ↔
  0 < TemplateRecord_Size tr ∨ (length data < 4)%nat.
Proof.
  split.
  - intros [fuel Hf]. destruct (decide (0 < TemplateRecord_Size tr)); [by left|].
    destruct (decide (length data < 4)%nat); [by right|].
    destruct Hf. apply DataFlowSet_diverges; lia.
  - intros H. exists (length data).
    by destruct (DataFlowSet_terminates tr t (length data) data H (le_n _)) as [rs ->].
Qed.

(** An options template flow set yields at most one record however many it
    holds: reading the first one drains the buffer the loop iterates over. *)
Theorem OptionsTemplateFlowSet_one_record data records r :
  OptionsTemplateFlowSet_UnmarshalRecords data = Ok (records, r) →
  (length records ≤ 1)%nat ∧ r = [].
Proof.
  unfold OptionsTemplateFlowSet_UnmarshalRecords, rd_drain.
  destruct (loop_while _ _ _ data) as [[rs r1]| | |] eqn:E; try done. intros [= <- <-]. split; [|done].
  destruct (length data) as [|n] eqn:El; simpl in E.
  { destruct data; [|done]. simpl in E. injection E as <- <-. simpl; lia. }
  destruct (more_than_4 data); [|injection E as <- <-; simpl; lia].
  apply rd_bind_inv in E as (otr & r2 & E1 & E2).
  apply rd_bind_inv in E2 as (rs' & r3 & E2 & [= <- <-]).
  assert (r2 = []) as ->.
  { unfold OptionsTemplateRecord_Unmarshal in E1.
    do 3 (apply rd_bind_inv in E1 as (? & ? & _ & E1)).
    unfold rd_drain in E1. case_match; try done. case_match. by injection E1. }
  destruct n; simpl in E2; injection E2 as <- <-; simpl; lia.
Qed.

(** Two options templates on the wire. *)
Definition two_options_v9 : list byte :=
  concat (replicate 2 (be_encode 2 256 ++ be_encode 2 4 ++ be_encode 2 4 ++ be_encode 8 0x0001000400020004)).
Lemma OptionsTemplateFlowSet_one_record_witness : ∃ records r,
  OptionsTemplateFlowSet_UnmarshalRecords two_options_v9 = Ok (records, r) ∧ (length records ≤ 1)%nat ∧ r = [].
Proof.
  eexists _, _. split; [vm_compute; reflexivity|].
  apply (OptionsTemplateFlowSet_one_record two_options_v9). vm_compute. reflexivity.
Defined.

Section roundtrip.
Context {T : Type} `{Template T} `{!Implements TemplateRecord T}
  `{!Implements OptionsTemplateRecord T}.

Lemma UnmarshalFlowSets_step fuel n i p h body tl (s : option (basicSession T)) t :
  FlowSetHeader_wf h → fsh_Length h = 4 + Z.of_nat (length body) → body ≠ [] →
  UnmarshalFlowSets_loop fuel (S n) i p (encode_FlowSetHeader h ++ body ++ tl) s t =
  match UnmarshalFlowSet fuel i p h body s t with
  | (s, Ok p) => UnmarshalFlowSets_loop fuel n (i + 1) p tl s t
  | x => x
  end.
Proof.
  intros Hwf Hlen Hne. cbn [UnmarshalFlowSets_loop].
  rewrite (proj2 (Nat.ltb_lt _ _)).
  2: { rewrite length_app. unfold encode_FlowSetHeader. rewrite length_app, !length_be_encode. lia. }
  rewrite read_FlowSetHeader by done.
  assert (0 < length body)%nat by (destruct body; [done|simpl; lia]).
  replace (fsh_Length h - FlowSetHeader_Len) with (Z.of_nat (length body)) by (unfold FlowSetHeader_Len; lia).
  rewrite (proj2 (Z.leb_gt _ _)) by lia. rewrite Nat2Z.id, ReadFull_ok by (rewrite length_app; lia).
  rewrite take_app_length, drop_app_length. by destruct (UnmarshalFlowSet _ _ _ _ _ _ _) as [? [| | |]].
Qed.

(** C3: A packet of a template flow set and a data flow set decodes to what was
    encoded: the templates are registered for the packet's source before the data
    flow set looks its template up, and each data record comes back field by field. *)
Theorem Read_v9_roundtrip fuel (s s1 : basicSession T) t h h1 trs pad1 h2 tr bsss pad2 :
  PacketHeader_wf h → h_Count h = 2 →
  FlowSetHeader_wf h1 → fsh_ID h1 = 0 →
  fsh_Length h1 = 4 + Z.of_nat (length (concat (encode_TemplateRecord <$> trs) ++ pad1)) →
  trs ≠ [] → Forall TemplateRecord_wf trs → (length pad1 ≤ 4)%nat →
  register_all (h_SourceID h) trs (Some s) = Some s1 →
  FlowSetHeader_wf h2 → 2 ≤ fsh_ID h2 → GetTemplate (h_SourceID h) (fsh_ID h2) s1 = Some (up tr) →
  fsh_Length h2 = 4 + Z.of_nat (length (concat (@concat byte <$> bsss) ++ pad2)) →
  bsss ≠ [] → Forall (record_of (tr_Fields tr)) bsss → 4 ≤ TemplateRecord_Size tr →
  (length pad2 < 4)%nat → (length bsss ≤ fuel)%nat →
  Read fuel (encode_PacketHeader h ++
    (encode_FlowSetHeader h1 ++ concat (encode_TemplateRecord <$> trs) ++ pad1) ++
    (encode_FlowSetHeader h2 ++ concat (@concat byte <$> bsss) ++ pad2)) (Some s) t =
  (Some s1, Ok {| p_Header := h;
                  p_TemplateFlowSets := [{| tfs_Header := h1; tfs_Records := trs |}];
                  p_OptionsTemplateFlowSets := [];
                  p_DataFlowSets :=
                    [{| dfs_Header := h2;
                        dfs_Records := record_value tr (Some (default NewTranslate t)) <$> bsss |}];
                  p_OptionsDataFlowSets := [] |}).
Proof.
  intros Hh Hcount Hh1 Hid1 Hlen1 Hne1 Hwf1 Hpad1 Hreg Hh2 Hid2 Hget Hlen2 Hne2 Hrecs Hsize Hpad2 Hfuel.
  assert (concat (encode_TemplateRecord <$> trs) ++ pad1 ≠ []) as Hb1.
  { destruct trs as [|t0 trs]; [done|]. apply Forall_cons in Hwf1 as [(_ & _ & _ & Hf & _) _].
    pose proof (length_encode_TemplateRecord t0 Hf) as Hl. intros [Hb _]%app_eq_nil.
    cbn [fmap list_fmap concat] in Hb. apply app_eq_nil in Hb as [Hb _]. rewrite Hb in Hl. simpl in Hl. lia. }
  assert (concat (@concat byte <$> bsss) ++ pad2 ≠ []) as Hb2.
  { destruct bsss as [|b0 bsss]; [done|]. apply Forall_cons in Hrecs as [Hr _].
    apply Size_record in Hr. intros [Hb _]%app_eq_nil.
    cbn [fmap list_fmap concat] in Hb. apply app_eq_nil in Hb as [Hb _]. rewrite Hb in Hr. simpl in Hr. lia. }
  unfold Read. rewrite read_PacketHeader by done.
  destruct Hh as (Hv & _). rewrite Hv, Hcount. cbn [negb Z.eqb Version PacketHeader_Len Z.ltb Z.compare Pos.compare].
  change (negb (Version =? Version)) with false. cbn iota.
  unfold UnmarshalFlowSets. cbn [p_Header]. rewrite Hcount. change (Z.to_nat 2) with 2%nat.
  rewrite (proj2 (Nat.eqb_neq _ _)).
  2: { rewrite length_app. unfold encode_FlowSetHeader. rewrite !length_app, !length_be_encode. lia. }
  rewrite <-!app_assoc. set (rest := encode_FlowSetHeader h2 ++ _).
  replace (encode_FlowSetHeader h1 ++ concat (encode_TemplateRecord <$> trs) ++ pad1 ++ rest)
    with (encode_FlowSetHeader h1 ++ (concat (encode_TemplateRecord <$> trs) ++ pad1) ++ rest)
    by (by rewrite <-!app_assoc).
  rewrite UnmarshalFlowSets_step by done.
  unfold UnmarshalFlowSet at 1. rewrite Hid1, Z.eqb_refl, read_templates by done. cbn [p_Header].
  rewrite Hreg. subst rest.
  replace (encode_FlowSetHeader h2 ++ concat (@concat byte <$> bsss) ++ pad2)
    with (encode_FlowSetHeader h2 ++ (concat (@concat byte <$> bsss) ++ pad2) ++ []) by (by rewrite app_nil_r).
  rewrite UnmarshalFlowSets_step by done.
  unfold UnmarshalFlowSet at 1. rewrite !(proj2 (Z.eqb_neq _ _)) by lia.
  cbn [p_Header with_TemplateFlowSet]. rewrite Hget, down_up.
  rewrite read_data by done. by destruct t.
Qed.
End roundtrip.
