(* ===== verification/Ipfix.v ===== *)
(** IPFIX (src/pkg/util/netflow/ipfix): message header, template, options template
    and data sets, and the decoder that resolves data sets through the session.

    As in Netflow9.v a decoder step returns the session next to its outcome, and
    [fuel] bounds the loops over data records, whose size comes from the wire.  The
    partial message Go returns next to a non-nil error is not kept. *)
From S2P Require Import Prelude Session Translate TranslateTables Read.
Local Open Scope Z_scope.

Definition Version : Z := 10.
Definition EnterpriseBit : Z := 32768.
Definition VariableLength : Z := 65535.

Record MessageHeader := mkMessageHeader {
  mh_Version : Z; mh_Length : Z; mh_ExportTime : Z; mh_SequenceNumber : Z;
  mh_ObservationDomainID : Z }.

Record FieldSpecifier := mkFieldSpecifier {
  fs_InformationElementID : Z; fs_Length : Z; fs_EnterpriseNumber : Z; fs_EnterpriseBitSet : bool }.

Record SetHeader := mkSetHeader { sh_ID : Z; sh_Length : Z }.

Record TemplateRecord := mkTemplateRecord {
  tr_TemplateID : Z; tr_FieldCount : Z; tr_Fields : list FieldSpecifier }.

Record OptionsTemplateRecord := mkOptionsTemplateRecord {
  otr_TemplateID : Z; otr_FieldCount : Z; otr_Fields : list FieldSpecifier;
  otr_ScopeFieldCount : Z; otr_ScopeFields : list FieldSpecifier }.

Record TranslatedField := mkTranslatedField {
  tf_Name : string; tf_InformationElementID : Z; tf_EnterpriseNumber : Z;
  tf_Value : value; tf_Bytes : list byte }.

Record Field := mkField { f_Bytes : list byte; f_Translated : option TranslatedField }.

Record DataRecord := mkDataRecord { dr_TemplateID : Z; dr_Fields : list Field }.
Record OptionsDataRecord := mkOptionsDataRecord {
  odr_TemplateID : Z; odr_ScopeFields : list Field; odr_Fields : list Field }.

Record TemplateSet := mkTemplateSet { ts_Header : SetHeader; ts_Records : list TemplateRecord }.
Record OptionsTemplateSet := mkOptionsTemplateSet {
  ots_Header : SetHeader; ots_Records : list OptionsTemplateRecord }.
Record DataSet := mkDataSet { ds_Header : SetHeader; ds_Records : list DataRecord }.
Record OptionsDataSet := mkOptionsDataSet {
  ods_Header : SetHeader; ods_Records : list OptionsDataRecord }.

Record Message := mkMessage {
  m_Header : MessageHeader;
  m_TemplateSets : list TemplateSet;
  m_OptionsTemplateSets : list OptionsTemplateSet;
  m_DataSets : list DataSet;
  m_OptionsDataSets : list OptionsDataSet }.

#[export] Instance TemplateRecord_ID : HasID TemplateRecord := tr_TemplateID.
#[export] Instance OptionsTemplateRecord_ID : HasID OptionsTemplateRecord := otr_TemplateID.

(** ** Headers and templates *)

Definition MessageHeader_Len : Z := 16.
Definition SetHeader_Len : Z := 4.

Definition MessageHeader_Unmarshal : rd MessageHeader :=
  version ← rd_wrap "ipfix header truncated while reading version field: %v" Uint16;
  len ← rd_wrap "ipfix header truncated while reading length field: %v" Uint16;
  exportTime ← rd_wrap "ipfix header truncated while reading export-time field: %v" Uint32;
  sequenceNumber ← rd_wrap "ipfix header truncated while reading sequence-number field: %v" Uint32;
  observationDomainID ←
    rd_wrap "ipfix header truncated while reading observation-domain-id field: %v" Uint32;
  mret {| mh_Version := version; mh_Length := len; mh_ExportTime := exportTime;
          mh_SequenceNumber := sequenceNumber; mh_ObservationDomainID := observationDomainID |}.

Definition IsVariableLength (fs : FieldSpecifier) : bool := fs_InformationElementID fs =? VariableLength.
Definition FieldSpecifier_Len (fs : FieldSpecifier) : Z := if fs_EnterpriseBitSet fs then 8 else 4.
Definition FieldSpecifiers_Len (fss : list FieldSpecifier) : Z :=
  foldl (λ l f, l + FieldSpecifier_Len f) 0 fss.
Definition TemplateRecord_Len (tr : TemplateRecord) : Z := 4 + FieldSpecifiers_Len (tr_Fields tr).

Definition FieldSpecifier_Unmarshal : rd FieldSpecifier :=
  id ← Uint16;
  len ← Uint16;
  if 0 <? Z.land id EnterpriseBit then
    enterprise ← Uint32;
    mret {| fs_InformationElementID := Z.lxor id EnterpriseBit; fs_Length := len;
            fs_EnterpriseNumber := enterprise; fs_EnterpriseBitSet := true |}
  else
    mret {| fs_InformationElementID := id; fs_Length := len;
            fs_EnterpriseNumber := 0; fs_EnterpriseBitSet := false |}.

Definition FieldSpecifiers_Unmarshal (count : Z) : rd (list FieldSpecifier) :=
  replicateM (Z.to_nat count) FieldSpecifier_Unmarshal.

Definition SetHeader_Unmarshal : rd SetHeader :=
  id ← Uint16;
  len ← Uint16;
  mret {| sh_ID := id; sh_Length := len |}.

Definition SetHeader_Bytes (h : SetHeader) : list byte :=
  be_encode 2 (sh_ID h) ++ be_encode 2 (sh_Length h).

Definition TemplateRecord_Unmarshal : rd TemplateRecord :=
  templateID ← Uint16;
  fieldCount ← Uint16;
  fields ← FieldSpecifiers_Unmarshal fieldCount;
  mret {| tr_TemplateID := templateID; tr_FieldCount := fieldCount; tr_Fields := fields |}.

Definition TemplateRecord_Bytes (tr : TemplateRecord) : list byte :=
  be_encode 2 (tr_TemplateID tr) ++ be_encode 2 (tr_FieldCount tr).

Definition errProtocol (f : string) (args : list fmt_arg) : error :=
  Errorf (String.append "protocol error: " f) args.

Definition OptionsTemplateRecord_Unmarshal : rd OptionsTemplateRecord :=
  templateID ← Uint16;
  fieldCount ← Uint16;
  scopeFieldCount ← Uint16;
  if fieldCount <? scopeFieldCount then
    rd_err (errProtocol "scope field count %d higher than field count %d" [FInt scopeFieldCount; FInt fieldCount])
  else
    rd_drain (
      scopeFields ← FieldSpecifiers_Unmarshal scopeFieldCount;
      fields ← FieldSpecifiers_Unmarshal (wrapu 16 (fieldCount - scopeFieldCount));
      mret {| otr_TemplateID := templateID; otr_FieldCount := fieldCount; otr_Fields := fields;
              otr_ScopeFieldCount := scopeFieldCount; otr_ScopeFields := scopeFields |}).

(** [buffer.Len() > 4] and [buffer.Len() > 0]. *)
Definition more_than_4 (r : list byte) : bool := (4 <? length r)%nat.
Definition nonempty (r : list byte) : bool := (0 <? length r)%nat.

Definition TemplateSet_UnmarshalRecords : rd (list TemplateRecord) :=
  rd_drain (λ r, loop_while (length r) more_than_4 TemplateRecord_Unmarshal r).

Definition OptionsTemplateSet_UnmarshalRecords : rd (list OptionsTemplateRecord) :=
  rd_drain (λ r, loop_while (length r) more_than_4 OptionsTemplateRecord_Unmarshal r).

(** ** Data *)

Definition Field_Unmarshal (fs : FieldSpecifier) : rd Field :=
  bytes ← (if fs_Length fs =? VariableLength then Read.VariableLength [] 0
           else buffer_Read (make_bytes (Z.to_nat (fs_Length fs))));
  mret {| f_Bytes := bytes; f_Translated := None |}.

Fixpoint fields_Unmarshal (fss : list FieldSpecifier) : rd (list Field) :=
  match fss with
  | [] => mret []
  | fs :: fss => f ← Field_Unmarshal fs; fields ← fields_Unmarshal fss; mret (f :: fields)
  end.

Definition translate_field (t : Translate_) (f : Field) (field : FieldSpecifier) : Field :=
  let en := fs_EnterpriseNumber field in
  let id := fs_InformationElementID field in
  let tf :=
    match Key_lookup t (en, id) with
    | Some element =>
        {| tf_Name := Name element; tf_InformationElementID := id; tf_EnterpriseNumber := en;
           tf_Value := Bytes (f_Bytes f) (Type_ element); tf_Bytes := [] |}
    | None =>
        {| tf_Name := ""; tf_InformationElementID := id; tf_EnterpriseNumber := en;
           tf_Value := VNil; tf_Bytes := [] |}
    end in
  {| f_Bytes := f_Bytes f; f_Translated := Some tf |}.

(** The guard [i > len(fields)] lets the index one past the end through. *)
Fixpoint Translate_Record (t : Translate_) (fields : list Field) (fss : list FieldSpecifier) :
    res (list Field) :=
  match fss, fields with
  | [], _ => Ok fields
  | fs :: fss, f :: fields => rest ← Translate_Record t fields fss; mret (translate_field t f fs :: rest)
  | _ :: _, [] => Panic "index out of range"
  end.

(** A step that does not touch the reader. *)
Definition rd_lift {A} (x : res A) : rd A := λ r, a ← x; Ok (a, r).

Definition DataRecord_Unmarshal (templateID : Z) (fss : list FieldSpecifier) (t : option Translate_) :
    rd DataRecord :=
  fields ← fields_Unmarshal fss;
  fields ← rd_lift (match t with
                    | Some t => if (0 <? length fields)%nat then Translate_Record t fields fss else Ok fields
                    | None => Ok fields
                    end);
  mret {| dr_TemplateID := templateID; dr_Fields := fields |}.

Definition DataSet_Unmarshal (fuel : nat) (tr : TemplateRecord) (t : option Translate_) :
    rd (list DataRecord) :=
  rd_drain (loop_until_EOF fuel nonempty (DataRecord_Unmarshal (tr_TemplateID tr) (tr_Fields tr) t)).

Definition OptionsDataRecord_Unmarshal (templateID : Z) (scopeFss fss : list FieldSpecifier)
    (t : option Translate_) : rd OptionsDataRecord :=
  scopeFields ← fields_Unmarshal scopeFss;
  fields ← fields_Unmarshal fss;
  both ← rd_lift (match t with
                  | Some t =>
                      if ((0 <? length scopeFields) && (0 <? length fields))%nat then
                        scopeFields ← Translate_Record t scopeFields scopeFss;
                        fields ← Translate_Record t fields fss;
                        mret (scopeFields, fields)
                      else Ok (scopeFields, fields)
                  | None => Ok (scopeFields, fields)
                  end);
  mret {| odr_TemplateID := templateID; odr_ScopeFields := both.1; odr_Fields := both.2 |}.

Definition OptionsDataSet_Unmarshal (fuel : nat) (otr : OptionsTemplateRecord) (t : option Translate_) :
    rd (list OptionsDataRecord) :=
  rd_drain (loop_until_EOF fuel nonempty
    (OptionsDataRecord_Unmarshal (otr_TemplateID otr) (otr_ScopeFields otr) (otr_Fields otr) t)).

(** ** Sets and the message *)

Definition with_TemplateSet (m : Message) (x : TemplateSet) : Message :=
  {| m_Header := m_Header m; m_TemplateSets := m_TemplateSets m ++ [x];
     m_OptionsTemplateSets := m_OptionsTemplateSets m;
     m_DataSets := m_DataSets m; m_OptionsDataSets := m_OptionsDataSets m |}.
Definition with_OptionsTemplateSet (m : Message) (x : OptionsTemplateSet) : Message :=
  {| m_Header := m_Header m; m_TemplateSets := m_TemplateSets m;
     m_OptionsTemplateSets := m_OptionsTemplateSets m ++ [x];
     m_DataSets := m_DataSets m; m_OptionsDataSets := m_OptionsDataSets m |}.
Definition with_DataSet (m : Message) (x : DataSet) : Message :=
  {| m_Header := m_Header m; m_TemplateSets := m_TemplateSets m;
     m_OptionsTemplateSets := m_OptionsTemplateSets m;
     m_DataSets := m_DataSets m ++ [x]; m_OptionsDataSets := m_OptionsDataSets m |}.
Definition with_OptionsDataSet (m : Message) (x : OptionsDataSet) : Message :=
  {| m_Header := m_Header m; m_TemplateSets := m_TemplateSets m;
     m_OptionsTemplateSets := m_OptionsTemplateSets m;
     m_DataSets := m_DataSets m; m_OptionsDataSets := m_OptionsDataSets m ++ [x] |}.

Section decoder.
Context {T : Type} `{Template T} `{!Implements TemplateRecord T}
  `{!Implements OptionsTemplateRecord T}.

(** The [switch] on the id of set [i] with the body [data]. *)
Definition UnmarshalSet (fuel : nat) (i : Z) (m : Message) (header : SetHeader)
    (data : list byte) (s : option (basicSession T)) (t : option Translate_) :
    option (basicSession T) * res Message :=
  let domain := mh_ObservationDomainID (m_Header m) in
  if sh_ID header <? 2 then (s, Err (errProtocol "received invalid set id" []))
  else if sh_ID header =? 2 then
    match TemplateSet_UnmarshalRecords data with
    | Ok (records, _) =>
        (register_all domain records s,
         Ok (with_TemplateSet m {| ts_Header := header; ts_Records := records |}))
    | Err e => (s, Err e) | Panic w => (s, Panic w) | OutOfFuel => (s, OutOfFuel)
    end
  else if sh_ID header =? 3 then
    match OptionsTemplateSet_UnmarshalRecords data with
    | Ok (records, _) =>
        (register_all domain records s,
         Ok (with_OptionsTemplateSet m {| ots_Header := header; ots_Records := records |}))
    | Err e => (s, Err e) | Panic w => (s, Panic w) | OutOfFuel => (s, OutOfFuel)
    end
  else if (4 <=? sh_ID header) && (sh_ID header <=? 255) then (s, Ok m)
  else
    match s with
    | None => (s, Ok m)
    | Some s0 =>
        match GetTemplate domain (sh_ID header) s0 with
        | None => (s, Ok m)
        | Some tm =>
            match down (R:=TemplateRecord) tm with
            | Some template =>
                (s, '(records, _) ← DataSet_Unmarshal fuel template t data;
                    mret (with_DataSet m {| ds_Header := header; ds_Records := records |}))
            | None =>
                match down (R:=OptionsTemplateRecord) tm with
                | Some template =>
                    (s, '(records, _) ← OptionsDataSet_Unmarshal fuel template t data;
                        mret (with_OptionsDataSet m {| ods_Header := header; ods_Records := records |}))
                | None =>
                    (s, Err (Errorf "ipfix DataSet %d with observation-domain-id %d, template-id %d, retrieved template record of type %T; rejected"
                               [FInt i; FInt domain; FInt (sh_ID header)]))
                end
            end
        end
    end.

(** [for i := 0; buffer.Len() > 0; i++]; a round takes a header of four bytes, so
    [n] as large as the buffer is enough. *)
Fixpoint UnmarshalSets_loop (fuel n : nat) (i : Z) (m : Message) (buffer : list byte)
    (s : option (basicSession T)) (t : option Translate_) : option (basicSession T) * res Message :=
  if (0 <? length buffer)%nat then
    match n with
    | O => (s, OutOfFuel)
    | S n =>
        match SetHeader_Unmarshal buffer with
        | Ok (header, buffer) =>
            let readSize := sh_Length header - SetHeader_Len in
            if readSize <=? 0
            then (s, Err (Errorf "The %d IPFix message is too big: %d bytes." [FInt i; FInt readSize]))
            else
              match buffer_Read (make_bytes (Z.to_nat readSize)) buffer with
              | Ok (data, rest) =>
                  if (length buffer <? Z.to_nat readSize)%nat then (s, Err ErrUnexpectedEOF)
                  else
                    match UnmarshalSet fuel i m header data s t with
                    | (s, Ok m) => UnmarshalSets_loop fuel n (i + 1) m rest s t
                    | x => x
                    end
              | Err e => (s, Err e) | Panic w => (s, Panic w) | OutOfFuel => (s, OutOfFuel)
              end
        | Err e => (s, Err e) | Panic w => (s, Panic w) | OutOfFuel => (s, OutOfFuel)
        end
    end
  else (s, Ok m).

Definition UnmarshalSets (fuel : nat) (m : Message) (r : list byte)
    (s : option (basicSession T)) (t : option Translate_) : option (basicSession T) * res Message :=
  let readSize := mh_Length (m_Header m) - MessageHeader_Len in
  if readSize <=? 0
  then (s, Err (Errorf "The IPFix message is too big: %d bytes." [FInt (mh_Length (m_Header m))]))
  else
    match ReadFull (Z.to_nat readSize) r with
    | Ok (data, _) => UnmarshalSets_loop fuel (length data) 0 m data s t
    | Err err =>
        (s, Err (Errorf "ipfix message truncated; header says %d bytes, but message contains only %d: %v"
                   [FInt readSize; FInt (Z.of_nat (length r)); FErr err]))
    | Panic w => (s, Panic w) | OutOfFuel => (s, OutOfFuel)
    end.

(** decoder.go *)
Definition errInvalidVersion (v : Z) : error :=
  Errorf "You used an unsupported IPFix message version: %d." [FInt v].

Definition Read (fuel : nat) (r : list byte) (s : option (basicSession T)) (t : option Translate_) :
    option (basicSession T) * res Message :=
  let t := match t, s with None, Some _ => Some NewTranslate | _, _ => t end in
  match MessageHeader_Unmarshal r with
  | Ok (header, r) =>
      if mh_Length header <? MessageHeader_Len then (s, Err ErrShortBuffer)
      else if negb (mh_Version header =? Version) then (s, Err (errInvalidVersion (mh_Version header)))
      else
        UnmarshalSets fuel {| m_Header := header; m_TemplateSets := []; m_OptionsTemplateSets := [];
                              m_DataSets := []; m_OptionsDataSets := [] |} r s t
  | Err e => (s, Err e) | Panic w => (s, Panic w) | OutOfFuel => (s, OutOfFuel)
  end.
End decoder.

(** ** Laws *)

Lemma safe_FieldSpecifier_ipfix : safe FieldSpecifier_Unmarshal.
Proof. unfold FieldSpecifier_Unmarshal. solve_safe. Qed.
#[export] Hint Resolve safe_FieldSpecifier_ipfix : rd_db.
Lemma eats_FieldSpecifier_ipfix : eats 4 FieldSpecifier_Unmarshal.
Proof.
  unfold FieldSpecifier_Unmarshal. apply (eats_bind 2 2); [apply eats_Uint16|intros].
  apply (eats_bind 2 0); [apply eats_Uint16|intros]. destruct (_ <? _); [|apply eats_ret].
  apply (eats_bind 0 0); [eapply eats_weaken, eats_Uint32; lia|intros; apply eats_ret].
Qed.
Lemma safe_TemplateRecord_ipfix : safe TemplateRecord_Unmarshal.
Proof. unfold TemplateRecord_Unmarshal, FieldSpecifiers_Unmarshal. solve_safe. Qed.
Lemma eats_TemplateRecord_ipfix : eats 4 TemplateRecord_Unmarshal.
Proof.
  unfold TemplateRecord_Unmarshal. apply (eats_bind 2 2); [apply eats_Uint16|intros].
  apply (eats_bind 2 0); [apply eats_Uint16|intros]. apply (eats_bind 0 0); [|intros; apply eats_ret].
  unfold FieldSpecifiers_Unmarshal. eapply eats_weaken, (eats_replicateM _ 4), eats_FieldSpecifier_ipfix. lia.
Qed.
Lemma safe_OptionsTemplateRecord_ipfix : safe OptionsTemplateRecord_Unmarshal.
Proof. unfold OptionsTemplateRecord_Unmarshal, FieldSpecifiers_Unmarshal. solve_safe. Qed.
Lemma eats_OptionsTemplateRecord_ipfix : eats 6 OptionsTemplateRecord_Unmarshal.
Proof.
  unfold OptionsTemplateRecord_Unmarshal. apply (eats_bind 2 4); [apply eats_Uint16|intros].
  apply (eats_bind 2 2); [apply eats_Uint16|intros]. apply (eats_bind 2 0); [apply eats_Uint16|intros].
  destruct (_ <? _); [done|].
  intros r b r' E. unfold rd_drain in E. case_match; try done. case_match. injection E as _ <-. simpl. lia.
Qed.
#[export] Hint Resolve safe_TemplateRecord_ipfix safe_OptionsTemplateRecord_ipfix : rd_db.

Lemma UnmarshalRecords_settled_ipfix data : settled (TemplateSet_UnmarshalRecords data).
Proof.
  apply settled_drain, loop_while_settled; [| |done|done].
  - intros r _. apply safe_TemplateRecord_ipfix.
  - intros r a r' _ E. apply eats_TemplateRecord_ipfix in E. lia.
Qed.

Lemma OptionsUnmarshalRecords_settled_ipfix data : settled (OptionsTemplateSet_UnmarshalRecords data).
Proof.
  apply settled_drain, loop_while_settled; [| |done|done].
  - intros r _. apply safe_OptionsTemplateRecord_ipfix.
  - intros r a r' _ E. apply eats_OptionsTemplateRecord_ipfix in E. lia.
Qed.

(** Fields and data records. *)

Lemma safe_Field_ipfix fs : safe (Field_Unmarshal fs).
Proof.
  unfold Field_Unmarshal. apply safe_bind; [|intros; apply safe_ret].
  destruct (_ =? _); [apply safe_VariableLength|apply safe_buffer_Read].
Qed.
Lemma safe_fields_ipfix fss : safe (fields_Unmarshal fss).
Proof.
  induction fss as [|fs fss IH]; simpl; [apply safe_ret|].
  apply safe_bind; [apply safe_Field_ipfix|intros]. apply safe_bind; [done|intros; apply safe_ret].
Qed.

Lemma fields_length_ipfix fss r fields r' : fields_Unmarshal fss r = Ok (fields, r') → length fields = length fss.
Proof.
  revert r fields. induction fss as [|fs fss IH]; intros r fields E; [by injection E as <- _|].
  simpl in E. apply rd_bind_inv in E as (f & r1 & _ & E). apply rd_bind_inv in E as (fl & r2 & E & [= <- <-]).
  simpl. f_equal. by eapply IH.
Qed.

(** One translated field per specifier: the index past the end is never reached. *)
Lemma Translate_Record_ok t fields fss : length fields = length fss →
  Translate_Record t fields fss = Ok (zip_with (translate_field t) fields fss).
Proof.
  revert fields. induction fss as [|fs fss IH]; intros [|f fields] Hl; try done. simpl in *.
  rewrite IH by lia. done.
Qed.

Definition translated (t : option Translate_) (fields : list Field) (fss : list FieldSpecifier) : list Field :=
  match t with Some t => zip_with (translate_field t) fields fss | None => fields end.

Lemma DataRecord_eq id fss t r :
  DataRecord_Unmarshal id fss t r =
  ('(fields, r') ← fields_Unmarshal fss r;
   mret ({| dr_TemplateID := id; dr_Fields := translated t fields fss |}, r')).
Proof.
  unfold DataRecord_Unmarshal. unfold mbind at 1, rd_bind at 1.
  destruct (fields_Unmarshal fss r) as [[fields r']| | |] eqn:E; try done.
  apply fields_length_ipfix in E. unfold rd_lift, translated. destruct t as [t|]; [|done].
  destruct fields as [|f fields]; [by destruct fss|]. cbn [length Nat.ltb Nat.leb].
  by rewrite Translate_Record_ok.
Qed.

Definition translated2 (t : option Translate_) (sf f : list Field) (sfs fss : list FieldSpecifier) :=
  match t with
  | Some t => if ((0 <? length sf) && (0 <? length f))%nat
              then (zip_with (translate_field t) sf sfs, zip_with (translate_field t) f fss) else (sf, f)
  | None => (sf, f)
  end.

Lemma OptionsDataRecord_eq id sfs fss t r :
  OptionsDataRecord_Unmarshal id sfs fss t r =
  ('(sf, r1) ← fields_Unmarshal sfs r;
   '(f, r2) ← fields_Unmarshal fss r1;
   mret ({| odr_TemplateID := id; odr_ScopeFields := (translated2 t sf f sfs fss).1;
            odr_Fields := (translated2 t sf f sfs fss).2 |}, r2)).
Proof.
  unfold OptionsDataRecord_Unmarshal, mbind, rd_bind, res_bind.
  destruct (fields_Unmarshal sfs r) as [[sf r1]| | |] eqn:E1; [|done..].
  destruct (fields_Unmarshal fss r1) as [[f r2]| | |] eqn:E2; [|done..].
  apply fields_length_ipfix in E1, E2. unfold rd_lift, translated2, mbind, res_bind.
  destruct t as [t|]; [|done].
  destruct ((0 <? length sf) && (0 <? length f))%nat; [|done].
  by rewrite !Translate_Record_ok.
Qed.

Lemma safe_DataRecord_ipfix id fss t : safe (DataRecord_Unmarshal id fss t).
Proof.
  intros r. rewrite DataRecord_eq. pose proof (safe_fields_ipfix fss r).
  by destruct (fields_Unmarshal fss r) as [[]| | |].
Qed.
Lemma safe_OptionsDataRecord_ipfix id sfs fss t : safe (OptionsDataRecord_Unmarshal id sfs fss t).
Proof.
  intros r. rewrite OptionsDataRecord_eq. pose proof (safe_fields_ipfix sfs r).
  destruct (fields_Unmarshal sfs r) as [[sf r1]| | |]; try done. simpl.
  pose proof (safe_fields_ipfix fss r1). by destruct (fields_Unmarshal fss r1) as [[]| | |].
Qed.

(** A record advances when one of its fields has a length. *)
Definition sized (fss : list FieldSpecifier) : Prop := Exists (λ fs, 0 < fs_Length fs) fss.
#[export] Instance sized_dec fss : Decision (sized fss).
Proof. unfold sized. apply _. Defined.

Lemma eats0_Field_ipfix fs : eats 0 (Field_Unmarshal fs).
Proof.
  unfold Field_Unmarshal. apply (eats_bind 0 0); [|intros; apply eats_ret].
  destruct (_ =? _); [eapply eats_weaken, eats_VariableLength; lia|apply eats_buffer_Read].
Qed.

Lemma eats1_Field_ipfix fs : 0 < fs_Length fs → eats 1 (Field_Unmarshal fs).
Proof.
  intros Hl. unfold Field_Unmarshal. apply (eats_bind 1 0); [|intros; apply eats_ret].
  destruct (_ =? _); [apply eats_VariableLength|].
  intros r b r' E. pose proof (buffer_Read_rest _ _ _ _ E) as ->. unfold buffer_Read in E.
  unfold make_bytes in *. rewrite length_replicate, length_drop in *.
  destruct r; [|simpl; lia]. rewrite decide_False in E by lia. done.
Qed.

Lemma eats0_fields_ipfix fss : eats 0 (fields_Unmarshal fss).
Proof.
  induction fss as [|fs fss IH]; simpl; [apply eats_ret|].
  apply (eats_bind 0 0); [apply eats0_Field_ipfix|intros].
  apply (eats_bind 0 0); [done|intros; apply eats_ret].
Qed.

Lemma eats1_fields_ipfix fss : sized fss → eats 1 (fields_Unmarshal fss).
Proof.
  induction 1 as [fs fss Hl|fs fss _ IH]; simpl.
  - apply (eats_bind 1 0); [by apply eats1_Field_ipfix|intros].
    apply (eats_bind 0 0); [apply eats0_fields_ipfix|intros; apply eats_ret].
  - apply (eats_bind 0 1); [apply eats0_Field_ipfix|intros].
    apply (eats_bind 1 0); [done|intros; apply eats_ret].
Qed.

Lemma unsized_fields fss r : ¬ sized fss → ∃ fields, fields_Unmarshal fss r = Ok (fields, r).
Proof.
  induction fss as [|fs fss IH]; intros Hs; [by eexists|]. simpl.
  assert (Field_Unmarshal fs r = Ok ({| f_Bytes := []; f_Translated := None |}, r)) as E.
  { assert (¬ 0 < fs_Length fs) by (intros ?; apply Hs; by left).
    unfold Field_Unmarshal. rewrite (proj2 (Z.eqb_neq _ _)) by (unfold VariableLength; lia).
    replace (Z.to_nat (fs_Length fs)) with 0%nat by lia. by destruct r. }
  destruct IH as [fields Ef]; [intros ?; apply Hs; by right|].
  erewrite rd_bind_Ok by exact E. erewrite rd_bind_Ok by exact Ef. by eexists.
Qed.

Lemma nonempty_nil : nonempty [] = false. Proof. done. Qed.
Lemma nonempty_cons r : r ≠ [] → nonempty r = true. Proof. by destruct r. Qed.

Lemma DataSet_settled fuel tr t data :
  sized (tr_Fields tr) ∨ data = [] → (length data ≤ fuel)%nat →
  settled (DataSet_Unmarshal fuel tr t data).
Proof.
  intros [Hs| ->] Hf; [|by destruct fuel].
  apply settled_drain, loop_until_EOF_settled; [| |done|done].
  - intros r _. apply safe_DataRecord_ipfix.
  - intros r a r' _ E. rewrite DataRecord_eq in E. apply res_bind_Ok in E as ([fields r1] & E & [= <- <-]).
    apply eats1_fields_ipfix in E; [lia|done].
Qed.

Lemma DataSet_diverges fuel tr t data :
  ¬ sized (tr_Fields tr) → data ≠ [] → DataSet_Unmarshal fuel tr t data = OutOfFuel.
Proof.
  intros Hs Hd. unfold DataSet_Unmarshal, rd_drain.
  destruct (unsized_fields _ data Hs) as [fields E].
  erewrite loop_until_EOF_diverges; [done|by apply nonempty_cons|].
  rewrite DataRecord_eq, E. done.
Qed.

Lemma OptionsDataSet_settled fuel otr t data :
  sized (otr_ScopeFields otr ++ otr_Fields otr) → (length data ≤ fuel)%nat →
  settled (OptionsDataSet_Unmarshal fuel otr t data).
Proof.
  intros Hs Hf. apply settled_drain, loop_until_EOF_settled; [| |done|done].
  - intros r _. apply safe_OptionsDataRecord_ipfix.
  - intros r a r' _ E. rewrite OptionsDataRecord_eq in E.
    apply res_bind_Ok in E as ([sf r1] & E1 & E). apply res_bind_Ok in E as ([f r2] & E2 & [= <- <-]).
    unfold sized in Hs. rewrite Exists_app in Hs.
    pose proof (eats0_fields_ipfix _ _ _ _ E1). pose proof (eats0_fields_ipfix _ _ _ _ E2).
    destruct Hs as [Hs|Hs]; [apply eats1_fields_ipfix in E1; [lia|done]|apply eats1_fields_ipfix in E2; [lia|done]].
Qed.

Lemma OptionsDataSet_no_panic fuel otr t data w : OptionsDataSet_Unmarshal fuel otr t data ≠ Panic w.
Proof.
  unfold OptionsDataSet_Unmarshal, rd_drain.
  destruct (loop_until_EOF _ _ _ _) as [[]| | |] eqn:El; try done.
  by apply loop_until_EOF_no_panic in El; [|apply safe_OptionsDataRecord_ipfix].
Qed.

(** ** The decoder as a whole *)

Section decoder_laws.
Context {T : Type} `{Template T} `{!Implements TemplateRecord T}
  `{!Implements OptionsTemplateRecord T}.

(** A template none of whose fields has a length. *)
Definition stuck_template (tm : T) : Prop :=
  (∃ tr, down (R:=TemplateRecord) tm = Some tr ∧ ¬ sized (tr_Fields tr)) ∨
  (∃ otr, down (R:=OptionsTemplateRecord) tm = Some otr ∧ ¬ sized (otr_ScopeFields otr ++ otr_Fields otr)).

Definition holds_stuck_template (s : option (basicSession T)) : Prop :=
  ∃ s0 k tm, s = Some s0 ∧ templates s0 !! k = Some tm ∧ stuck_template tm.

Lemma UnmarshalSet_session fuel i m header data s t s' r :
  UnmarshalSet fuel i m header data s t = (s', r) →
  session_step (mh_ObservationDomainID (m_Header m)) s s'.
Proof.
  unfold UnmarshalSet. intros E.
  repeat case_match; simplify_eq; first [apply session_step_refl | apply session_step_register_all].
Qed.

Lemma UnmarshalSet_header fuel i m header data s t s' m' :
  UnmarshalSet fuel i m header data s t = (s', Ok m') → m_Header m' = m_Header m.
Proof.
  unfold UnmarshalSet. intros E.
  repeat case_match; simplify_eq; try done;
    match goal with
    | Hb : _ ≫= _ = Ok _ |- _ => apply res_bind_Ok in Hb; destruct Hb as ([? ?] & _ & Hb); by inversion Hb
    end.
Qed.

Lemma UnmarshalSet_outcome fuel i m header data s t s' r :
  UnmarshalSet fuel i m header data s t = (s', r) → (length data ≤ fuel)%nat →
  settled r ∨ r = OutOfFuel ∧ holds_stuck_template s'.
Proof.
  intros E Hf. unfold UnmarshalSet in E.
  destruct (sh_ID header <? 2); [simplify_eq; by left|].
  destruct (sh_ID header =? 2).
  { pose proof (UnmarshalRecords_settled_ipfix data).
    destruct (TemplateSet_UnmarshalRecords data) as [[]| | |]; simplify_eq; by left. }
  destruct (sh_ID header =? 3).
  { pose proof (OptionsUnmarshalRecords_settled_ipfix data).
    destruct (OptionsTemplateSet_UnmarshalRecords data) as [[]| | |]; simplify_eq; by left. }
  destruct (_ && _); [simplify_eq; by left|].
  destruct s as [s0|]; [|simplify_eq; by left].
  destruct (GetTemplate _ _ _) as [tm|] eqn:Eg; [|simplify_eq; by left].
  destruct (down (R:=TemplateRecord) tm) as [tr|] eqn:Etr.
  { injection E as <- <-. destruct (decide (sized (tr_Fields tr) ∨ data = [])) as [Hp|Hz].
    - left. pose proof (DataSet_settled fuel tr t data Hp Hf).
      by destruct (DataSet_Unmarshal fuel tr t data) as [[]| | |].
    - right. rewrite DataSet_diverges by naive_solver. split; [done|].
      eexists _, _, tm. split; [done|]. split; [exact Eg|]. left. exists tr. naive_solver. }
  destruct (down (R:=OptionsTemplateRecord) tm) as [otr|] eqn:Eotr; [|simplify_eq; by left].
  injection E as <- <-. destruct (decide (sized (otr_ScopeFields otr ++ otr_Fields otr))) as [Hp|Hz].
  - left. pose proof (OptionsDataSet_settled fuel otr t data Hp Hf).
    by destruct (OptionsDataSet_Unmarshal fuel otr t data) as [[]| | |].
  - destruct (OptionsDataSet_Unmarshal fuel otr t data) as [[]| | |] eqn:Eo; [by left|by left| |].
    + by apply OptionsDataSet_no_panic in Eo.
    + right. split; [done|]. eexists _, _, tm. split; [done|]. split; [exact Eg|].
      right. by exists otr.
Qed.

Lemma eats_SetHeader : eats 4 SetHeader_Unmarshal.
Proof.
  unfold SetHeader_Unmarshal. apply (eats_bind 2 2); [apply eats_Uint16|intros].
  apply (eats_bind 2 0); [apply eats_Uint16|intros; apply eats_ret].
Qed.
Lemma safe_SetHeader : safe SetHeader_Unmarshal.
Proof. unfold SetHeader_Unmarshal. solve_safe. Qed.

Lemma UnmarshalSets_loop_spec fuel n i m buffer s t s' r :
  UnmarshalSets_loop fuel n i m buffer s t = (s', r) → (length buffer ≤ fuel)%nat → (length buffer ≤ n)%nat →
  session_step (mh_ObservationDomainID (m_Header m)) s s' ∧
  (settled r ∨ r = OutOfFuel ∧ holds_stuck_template s').
Proof.
  assert (∀ s' r' d, (s, r') = (s', r) → settled r' → session_step d s s' ∧
    (settled r ∨ r = OutOfFuel ∧ holds_stuck_template s')) as Hstop.
  { intros s0 r' d [= <- <-] Hs. split; [apply session_step_refl|by left]. }
  revert i m buffer s Hstop. induction n as [|n IH]; intros i m buffer s Hstop E Hf Hn; simpl in E.
  { destruct buffer; [|simpl in Hn; lia]. (eapply Hstop; [exact E|done]). }
  destruct (0 <? length buffer)%nat; [|(eapply Hstop; [exact E|done])].
  pose proof (safe_SetHeader buffer) as Hh. destruct (SetHeader_Unmarshal buffer) as [[header b1]| | |] eqn:Eh;
    [|(eapply Hstop; [exact E|done])|done..].
  apply eats_SetHeader in Eh. destruct (sh_Length header - SetHeader_Len <=? 0); [(eapply Hstop; [exact E|done])|].
  set (p := make_bytes _) in E. pose proof (safe_buffer_Read p b1) as Hr.
  destruct (buffer_Read p b1) as [[data b2]| | |] eqn:Er; [|(eapply Hstop; [exact E|done])|done..].
  pose proof (buffer_Read_length _ _ _ _ Er) as Hlen. apply buffer_Read_rest in Er as ->.
  destruct (length b1 <? _)%nat eqn:El; [(eapply Hstop; [exact E|done])|]. apply Nat.ltb_ge in El.
  unfold p, make_bytes in Hlen. rewrite length_replicate in Hlen.
  destruct (UnmarshalSet fuel i m header data s t) as [s1 r1] eqn:Eu.
  pose proof (UnmarshalSet_session _ _ _ _ _ _ _ _ _ Eu) as Hstep.
  pose proof (UnmarshalSet_outcome _ _ _ _ _ _ _ _ _ Eu ltac:(lia)) as Hout.
  destruct r1 as [m1| | |]; [|by simplify_eq..].
  apply UnmarshalSet_header in Eu.
  apply IH in E as [Hs2 Ho]; [| |rewrite length_drop; lia..].
  2: { intros s0 r' d [= <- <-] Hs. split; [apply session_step_refl|by left]. }
  rewrite Eu in Hs2. split; [by eapply session_step_trans|done].
Qed.

Lemma safe_MessageHeader : safe MessageHeader_Unmarshal.
Proof. unfold MessageHeader_Unmarshal. solve_safe. Qed.
Lemma eats_MessageHeader : eats 0 MessageHeader_Unmarshal.
Proof.
  unfold MessageHeader_Unmarshal.
  repeat (apply (eats_bind 0 0);
    [apply eats_wrap; eapply eats_weaken; [|eauto with rd_db]; lia|intros ?]). apply eats_ret.
Qed.

Lemma Read_ipfix_spec fuel r s t s' out :
  Read fuel r s t = (s', out) → (length r ≤ fuel)%nat →
  (∃ domain, session_step domain s s') ∧ (settled out ∨ out = OutOfFuel ∧ holds_stuck_template s').
Proof.
  intros E Hf. unfold Read in E. pose proof (safe_MessageHeader r) as Hs.
  assert (∀ out', (s, out') = (s', out) → settled out' → (∃ domain, session_step domain s s') ∧
    (settled out ∨ out = OutOfFuel ∧ holds_stuck_template s')) as Hstop.
  { intros out' [= <- <-] Ho. split; [exists 0; apply session_step_refl|by left]. }
  destruct (MessageHeader_Unmarshal r) as [[h r1]| | |] eqn:Eh; [|(eapply Hstop; [exact E|done])|done..].
  apply eats_MessageHeader in Eh.
  destruct (_ <? _); [(eapply Hstop; [exact E|done])|]. destruct (negb _); [(eapply Hstop; [exact E|done])|].
  unfold UnmarshalSets in E. destruct (_ <=? _); [(eapply Hstop; [exact E|done])|].
  pose proof (safe_ReadFull (Z.to_nat (mh_Length h - MessageHeader_Len)) r1) as Hr. cbn [m_Header] in E.
  destruct (ReadFull _ r1) as [[data rest]| | |] eqn:Er; [|(eapply Hstop; [exact E|done])|done..].
  apply ReadFull_inv in Er as (Hl & -> & ->).
  apply UnmarshalSets_loop_spec in E as [Hstep Hout]; [|rewrite length_take; lia..].
  split; [by eexists|done].
Qed.
End decoder_laws.

(** ** Encoding, and what the decoder makes of it *)

Definition encode_FieldSpecifier (fs : FieldSpecifier) : list byte :=
  if fs_EnterpriseBitSet fs then
    be_encode 2 (fs_InformationElementID fs + EnterpriseBit) ++ be_encode 2 (fs_Length fs) ++
    be_encode 4 (fs_EnterpriseNumber fs)
  else be_encode 2 (fs_InformationElementID fs) ++ be_encode 2 (fs_Length fs).
Definition encode_TemplateRecord (tr : TemplateRecord) : list byte :=
  TemplateRecord_Bytes tr ++ concat (encode_FieldSpecifier <$> tr_Fields tr).
Definition encode_MessageHeader (h : MessageHeader) : list byte :=
  be_encode 2 (mh_Version h) ++ be_encode 2 (mh_Length h) ++ be_encode 4 (mh_ExportTime h) ++
  be_encode 4 (mh_SequenceNumber h) ++ be_encode 4 (mh_ObservationDomainID h).

Definition FieldSpecifier_wf (fs : FieldSpecifier) : Prop :=
  in_u 15 (fs_InformationElementID fs) ∧ in_u 16 (fs_Length fs) ∧
  if fs_EnterpriseBitSet fs then in_u 32 (fs_EnterpriseNumber fs) else fs_EnterpriseNumber fs = 0.
Definition TemplateRecord_wf (tr : TemplateRecord) : Prop :=
  in_u 16 (tr_TemplateID tr) ∧ in_u 16 (tr_FieldCount tr) ∧
  tr_FieldCount tr = Z.of_nat (length (tr_Fields tr)) ∧ tr_Fields tr ≠ [] ∧
  Forall FieldSpecifier_wf (tr_Fields tr).
Definition SetHeader_wf (h : SetHeader) : Prop := in_u 16 (sh_ID h) ∧ in_u 16 (sh_Length h).
Definition MessageHeader_wf (h : MessageHeader) : Prop :=
  mh_Version h = Version ∧ in_u 16 (mh_Length h) ∧ in_u 32 (mh_ExportTime h) ∧
  in_u 32 (mh_SequenceNumber h) ∧ in_u 32 (mh_ObservationDomainID h).

(** The enterprise bit is the top bit of the word. *)
Lemma bit_clear x : in_u 15 x → Z.land x EnterpriseBit = 0.
Proof.
  intros Hx. change EnterpriseBit with (2 ^ 15). apply Z.bits_inj'. intros n Hn.
  rewrite Z.land_spec, Z.bits_0, Z.pow2_bits_eqb by done.
  destruct (Z.eqb_spec 15 n) as [<-|]; [|by rewrite andb_false_r].
  unfold in_u in Hx. destruct (decide (x = 0)) as [->|]; [by rewrite Z.bits_0|].
  rewrite Z.bits_above_log2; [done|lia|apply Z.log2_lt_pow2; lia].
Qed.

Lemma bit_set x : in_u 15 x →
  Z.land (x + EnterpriseBit) EnterpriseBit = EnterpriseBit ∧
  Z.lxor (x + EnterpriseBit) EnterpriseBit = x.
Proof.
  intros Hx%bit_clear. rewrite Z.add_nocarry_lxor by done. split.
  - by rewrite Z.lxor_lor, Z.land_lor_distr_l, Hx, Z.land_diag.
  - by rewrite Z.lxor_assoc, Z.lxor_nilpotent, Z.lxor_0_r.
Qed.

Lemma read_FieldSpecifier_ipfix fs tl : FieldSpecifier_wf fs →
  FieldSpecifier_Unmarshal (encode_FieldSpecifier fs ++ tl) = Ok (fs, tl).
Proof.
  destruct fs as [id len en bit]. intros (Hid & Hl & Hen); simpl in *.
  unfold FieldSpecifier_Unmarshal, encode_FieldSpecifier. simpl. destruct bit.
  - assert (in_u 16 (id + EnterpriseBit)) by (unfold in_u, EnterpriseBit in *; lia).
    read_back. destruct (bit_set id Hid) as [-> ->]. change (0 <? EnterpriseBit) with true. cbn iota.
    read_back. done.
  - assert (in_u 16 id) by (unfold in_u in *; lia).
    read_back. rewrite bit_clear by done. simpl. by rewrite Hen.
Qed.

Lemma length_encode_FieldSpecifier_ipfix fs :
  Z.of_nat (length (encode_FieldSpecifier fs)) = FieldSpecifier_Len fs.
Proof.
  unfold encode_FieldSpecifier, FieldSpecifier_Len.
  destruct (fs_EnterpriseBitSet fs); by rewrite ?length_app, !length_be_encode.
Qed.

(** [Len] is the length on the wire. *)
Lemma length_encode_TemplateRecord_ipfix tr :
  Z.of_nat (length (encode_TemplateRecord tr)) = TemplateRecord_Len tr.
Proof.
  unfold encode_TemplateRecord, TemplateRecord_Bytes, TemplateRecord_Len, FieldSpecifiers_Len.
  rewrite !length_app, !length_be_encode. change (2 + 2)%nat with 4%nat. rewrite Nat2Z.inj_add. f_equal.
  assert (∀ a, a + Z.of_nat (length (concat (encode_FieldSpecifier <$> tr_Fields tr))) =
    foldl (λ l f, l + FieldSpecifier_Len f) a (tr_Fields tr)) as Ha; [|by rewrite <-Ha].
  induction (tr_Fields tr) as [|fs fss IH]; intros a; cbn [fmap list_fmap concat foldl]; [simpl; lia|].
  rewrite <-IH, length_app, <-length_encode_FieldSpecifier_ipfix. unfold fmap. lia.
Qed.

Lemma TemplateRecord_Len_ge tr : tr_Fields tr ≠ [] → 8 ≤ TemplateRecord_Len tr.
Proof.
  intros Hne. rewrite <-length_encode_TemplateRecord_ipfix.
  unfold encode_TemplateRecord, TemplateRecord_Bytes. rewrite !length_app, !length_be_encode.
  destruct (tr_Fields tr) as [|fs fss]; [done|]. cbn [fmap list_fmap concat].
  rewrite length_app. pose proof (length_encode_FieldSpecifier_ipfix fs). unfold FieldSpecifier_Len in *.
  destruct (fs_EnterpriseBitSet fs); lia.
Qed.

Lemma read_TemplateRecord_ipfix tr tl : TemplateRecord_wf tr →
  TemplateRecord_Unmarshal (encode_TemplateRecord tr ++ tl) = Ok (tr, tl).
Proof.
  destruct tr as [id count fss]. intros (Hid & Hc & Hcount & _ & Hf); simpl in *.
  unfold TemplateRecord_Unmarshal, encode_TemplateRecord, TemplateRecord_Bytes. simpl. read_back.
  rewrite Hcount. unfold FieldSpecifiers_Unmarshal. rewrite Nat2Z.id.
  erewrite rd_bind_Ok; [done|]. apply replicateM_chunks. intros fs tl' Hin.
  apply read_FieldSpecifier_ipfix. by eapply Forall_forall.
Qed.

Lemma read_SetHeader h tl : SetHeader_wf h → SetHeader_Unmarshal (SetHeader_Bytes h ++ tl) = Ok (h, tl).
Proof.
  destruct h as [id len]. intros [Hi Hl]; simpl in *.
  unfold SetHeader_Unmarshal, SetHeader_Bytes. simpl. read_back. done.
Qed.

Lemma read_MessageHeader h tl : MessageHeader_wf h →
  MessageHeader_Unmarshal (encode_MessageHeader h ++ tl) = Ok (h, tl).
Proof.
  destruct h as [v l e q o]. intros (Hv & Hl & He & Hq & Ho); simpl in *.
  assert (in_u 16 v) by (subst v; done).
  unfold MessageHeader_Unmarshal, encode_MessageHeader. simpl. read_back. done.
Qed.

Lemma read_templates_ipfix trs pad : Forall TemplateRecord_wf trs → (length pad ≤ 4)%nat →
  TemplateSet_UnmarshalRecords (concat (encode_TemplateRecord <$> trs) ++ pad) = Ok (trs, []).
Proof.
  intros Hwf Hpad. rewrite Forall_forall in Hwf.
  assert (∀ tr, tr ∈ trs → (8 ≤ length (encode_TemplateRecord tr))%nat) as Hlen.
  { intros tr Hin. destruct (Hwf tr Hin) as (_ & _ & _ & Hne & _).
    pose proof (TemplateRecord_Len_ge tr Hne). pose proof (length_encode_TemplateRecord_ipfix tr). lia. }
  eapply rd_drain_ok, (loop_while_chunks _ _ _ _ encode_TemplateRecord).
  - intros tr tl Hin. apply read_TemplateRecord_ipfix. auto.
  - intros tr tl Hin. apply Nat.ltb_lt. rewrite length_app. specialize (Hlen tr Hin). lia.
  - by apply Nat.ltb_ge.
  - rewrite length_app. pose proof (length_concat_ge encode_TemplateRecord 8 trs Hlen). lia.
Qed.

(** A record of a template: one byte string per field, of the field's length, or
    with its own length in front when the field's length is variable. *)
Definition field_of (fs : FieldSpecifier) (bs : list byte) : Prop :=
  0 < fs_Length fs ∧
  if fs_Length fs =? VariableLength then Z.of_nat (length bs) < 65536 else fs_Length fs = Z.of_nat (length bs).
Definition record_of (fss : list FieldSpecifier) (bss : list (list byte)) : Prop := Forall2 field_of fss bss.
Definition encode_field (fs : FieldSpecifier) (bs : list byte) : list byte :=
  if fs_Length fs =? VariableLength then encode_variable bs else bs.
Definition encode_record (fss : list FieldSpecifier) (bss : list (list byte)) : list byte :=
  concat (zip_with encode_field fss bss).
Definition field_value (bs : list byte) : Field := {| f_Bytes := bs; f_Translated := None |}.

Lemma read_Field fs bs tl : field_of fs bs →
  Field_Unmarshal fs (encode_field fs bs ++ tl) = Ok (field_value bs, tl).
Proof.
  unfold field_of, encode_field, Field_Unmarshal. intros [Hp Hf]. destruct (fs_Length fs =? VariableLength).
  - by erewrite rd_bind_Ok by (apply read_variable; simpl; lia).
  - by erewrite rd_bind_Ok by (apply buffer_Read_app; lia).
Qed.

Lemma read_fields fss bss tl : record_of fss bss →
  fields_Unmarshal fss (encode_record fss bss ++ tl) = Ok (field_value <$> bss, tl).
Proof.
  unfold encode_record. induction 1 as [|fs bs fss bss Hf _ IH]; [done|].
  cbn [zip_with concat fields_Unmarshal]. rewrite <-app_assoc.
  erewrite rd_bind_Ok by (by apply read_Field). by erewrite rd_bind_Ok by exact IH.
Qed.

Definition record_value (tr : TemplateRecord) (t : option Translate_) (bss : list (list byte)) : DataRecord :=
  {| dr_TemplateID := tr_TemplateID tr;
     dr_Fields := translated t (field_value <$> bss) (tr_Fields tr) |}.

Lemma encode_record_nonempty fss bss : record_of fss bss → fss ≠ [] → (1 ≤ length (encode_record fss bss))%nat.
Proof.
  intros [|fs bs fss' bss' [Hp Hf] _] Hne; [done|].
  unfold encode_record, encode_field. cbn [zip_with concat]. rewrite length_app.
  destruct (fs_Length fs =? VariableLength); [|lia].
  pose proof (encode_variable_nonempty bs). destruct (encode_variable bs); [done|simpl; lia].
Qed.

Lemma read_data_ipfix fuel tr t bsss : Forall (record_of (tr_Fields tr)) bsss →
  tr_Fields tr ≠ [] → (length bsss ≤ fuel)%nat →
  DataSet_Unmarshal fuel tr t (concat (encode_record (tr_Fields tr) <$> bsss)) =
    Ok (record_value tr t <$> bsss, []).
Proof.
  intros Hrecs Hne Hfuel. rewrite Forall_forall in Hrecs.
  rewrite <-(app_nil_r (concat _)).
  eapply rd_drain_ok, (loop_until_EOF_chunks_map _ _ _ _ (encode_record (tr_Fields tr))); [| |done|done].
  - intros bss tl Hin. rewrite DataRecord_eq, read_fields by auto. done.
  - intros bss tl Hin. apply Nat.ltb_lt. rewrite length_app.
    pose proof (encode_record_nonempty _ _ (Hrecs bss Hin) Hne). lia.
Qed.

(** ** Properties *)

(** C14: The data loop ends exactly when a round advances: some field of the template
    has a length, or there is no data.  A template of zero-length fields makes
    [DataSet.Unmarshal] loop for ever on any data. *)
Theorem DataSet_ends_iff tr t data :
  (∃ fuel, DataSet_Unmarshal fuel tr t data ≠ OutOfFuel) ↔ sized (tr_Fields tr) ∨ data = [].
Proof.
  split.
  - intros [fuel Hf]. destruct (decide (sized (tr_Fields tr))); [by left|].
    destruct (decide (data = [])); [by right|]. destruct Hf. by apply DataSet_diverges.
  - intros H. exists (length data). pose proof (DataSet_settled (length data) tr t data H (le_n _)) as Hs.
    by destruct (DataSet_Unmarshal _ tr t data).
Qed.

(** Padding after the last record of a data set, shorter than a record of one
    fixed-length field, is not dropped: it becomes a record of its own, filled up
    with zeros. *)
Theorem DataSet_padding_is_a_record fuel id fs bss pad :
  (0 < fs_Length fs < VariableLength) → Forall (λ bs, Z.of_nat (length bs) = fs_Length fs) bss →
  pad ≠ [] → Z.of_nat (length pad) < fs_Length fs → (length bss < fuel)%nat →
  DataSet_Unmarshal fuel {| tr_TemplateID := id; tr_FieldCount := 1; tr_Fields := [fs] |} None
    (concat bss ++ pad) =
  Ok ((λ bs, {| dr_TemplateID := id; dr_Fields := [field_value bs] |}) <$>
        (bss ++ [pad ++ make_bytes (Z.to_nat (fs_Length fs) - length pad)]), []).
Proof.
  intros Hl Hbss Hne Hpad Hfuel. eapply rd_drain_ok. cbn [tr_Fields tr_TemplateID].
  set (body := DataRecord_Unmarshal id [fs] None).
  assert (∀ bs r r', buffer_Read (make_bytes (Z.to_nat (fs_Length fs))) r = Ok (bs, r') →
    body r = Ok ({| dr_TemplateID := id; dr_Fields := [field_value bs] |}, r')) as Hbody.
  { intros bs r r' E. unfold body. rewrite DataRecord_eq. cbn [fields_Unmarshal].
    unfold Field_Unmarshal. rewrite (proj2 (Z.eqb_neq _ _)) by lia.
    unfold mbind at 2, rd_bind at 1. unfold mbind at 2, rd_bind at 1. rewrite E. done. }
  revert fuel Hfuel. induction Hbss as [|bs bss Hbs _ IH]; intros [|fuel] Hfuel; simpl in Hfuel; try lia.
  - cbn [concat app loop_until_EOF]. rewrite nonempty_cons by done.
    rewrite (Hbody _ _ _ (buffer_Read_short (Z.to_nat (fs_Length fs)) pad Hne ltac:(lia))).
    by destruct fuel.
  - cbn [concat]. rewrite <-app_assoc. cbn [loop_until_EOF].
    rewrite nonempty_cons by (destruct bs; simpl in *; [lia|done]).
    rewrite (Hbody _ _ _ (buffer_Read_app (Z.to_nat (fs_Length fs)) bs (concat bss ++ pad) ltac:(lia))).
    erewrite rd_bind_Ok by (apply IH; lia). done.
Qed.

Lemma DataSet_padding_is_a_record_witness :
  let fs := {| fs_InformationElementID := 1; fs_Length := 4; fs_EnterpriseNumber := 0; fs_EnterpriseBitSet := false |} in
  DataSet_Unmarshal 2 {| tr_TemplateID := 256; tr_FieldCount := 1; tr_Fields := [fs] |} None
    (concat [be_encode 4 7] ++ make_bytes 2) =
  Ok ((λ bs, {| dr_TemplateID := 256; dr_Fields := [field_value bs] |}) <$> [be_encode 4 7; make_bytes 4], []).
Proof.
  intros fs. apply (DataSet_padding_is_a_record 2 256 fs [be_encode 4 7] (make_bytes 2)); [by vm_compute| |done|done|simpl; lia].
  constructor; [reflexivity|constructor].
Defined.

(** As in NetFlow 9, an options template set yields at most one record. *)
Theorem OptionsTemplateSet_one_record data records r :
  OptionsTemplateSet_UnmarshalRecords data = Ok (records, r) → (length records ≤ 1)%nat ∧ r = [].
Proof.
  unfold OptionsTemplateSet_UnmarshalRecords, rd_drain.
  destruct (loop_while _ _ _ data) as [[rs r1]| | |] eqn:E; try done. intros [= <- <-]. split; [|done].
  destruct (length data) as [|n] eqn:El; simpl in E.
  { destruct data; [|done]. simpl in E. injection E as <- <-. simpl; lia. }
  destruct (more_than_4 data); [|injection E as <- <-; simpl; lia].
  apply rd_bind_inv in E as (otr & r2 & E1 & E2).
  apply rd_bind_inv in E2 as (rs' & r3 & E2 & [= <- <-]).
  assert (r2 = []) as ->.
  { unfold OptionsTemplateRecord_Unmarshal in E1.
    do 3 (apply rd_bind_inv in E1 as (? & ? & _ & E1)). destruct (_ <? _); [done|].
    unfold rd_drain in E1. case_match; try done. case_match. by injection E1. }
  destruct n; simpl in E2; injection E2 as <- <-; simpl; lia.
Qed.

(** Two options templates on the wire, each of a scope field and a field. *)
Definition two_options_ipfix : list byte :=
  concat (replicate 2 (be_encode 2 256 ++ be_encode 2 2 ++ be_encode 2 1 ++ be_encode 8 0x0001000400020004)).
Lemma OptionsTemplateSet_one_record_witness : ∃ records r,
  OptionsTemplateSet_UnmarshalRecords two_options_ipfix = Ok (records, r) ∧ (length records ≤ 1)%nat ∧ r = [].
Proof.
  eexists _, _. split; [vm_compute; reflexivity|].
  apply (OptionsTemplateSet_one_record two_options_ipfix). vm_compute. reflexivity.
Defined.

Section roundtrip.
Context {T : Type} `{Template T} `{!Implements TemplateRecord T}
  `{!Implements OptionsTemplateRecord T}.

Lemma UnmarshalSets_step fuel n i m h body tl (s : option (basicSession T)) t :
  SetHeader_wf h → sh_Length h = 4 + Z.of_nat (length body) → body ≠ [] →
  UnmarshalSets_loop fuel (S n) i m (SetHeader_Bytes h ++ body ++ tl) s t =
  match UnmarshalSet fuel i m h body s t with
  | (s, Ok m) => UnmarshalSets_loop fuel n (i + 1) m tl s t
  | x => x
  end.
Proof.
  intros Hwf Hlen Hne. cbn [UnmarshalSets_loop].
  rewrite (proj2 (Nat.ltb_lt _ _)).
  2: { rewrite length_app. unfold SetHeader_Bytes. rewrite length_app, !length_be_encode. lia. }
  rewrite read_SetHeader by done.
  assert (0 < length body)%nat by (destruct body; [done|simpl; lia]).
  replace (sh_Length h - SetHeader_Len) with (Z.of_nat (length body)) by (unfold SetHeader_Len; lia).
  rewrite (proj2 (Z.leb_gt _ _)) by lia. rewrite Nat2Z.id, buffer_Read_app by done.
  rewrite (proj2 (Nat.ltb_ge _ _)) by (rewrite length_app; lia). done.
Qed.

(** The encoded message: a template set and a data set. *)
Definition encode_Message (h : MessageHeader) (h1 : SetHeader) (trs : list TemplateRecord) (pad1 : list byte)
    (h2 : SetHeader) (tr : TemplateRecord) (bsss : list (list (list byte))) : list byte :=
  encode_MessageHeader h ++ SetHeader_Bytes h1 ++ (concat (encode_TemplateRecord <$> trs) ++ pad1) ++
  SetHeader_Bytes h2 ++ concat (encode_record (tr_Fields tr) <$> bsss).

(** C2: Decoding an encoded message registers its templates and gives back every
    data record, fixed, variable-length and enterprise fields alike. *)
Theorem Read_ipfix_roundtrip fuel (s s1 : basicSession T) t h h1 trs pad1 h2 tr bsss tl :
  MessageHeader_wf h →
  mh_Length h = Z.of_nat (length (encode_Message h h1 trs pad1 h2 tr bsss)) →
  SetHeader_wf h1 → sh_ID h1 = 2 →
  sh_Length h1 = 4 + Z.of_nat (length (concat (encode_TemplateRecord <$> trs) ++ pad1)) →
  trs ≠ [] → Forall TemplateRecord_wf trs → (length pad1 ≤ 4)%nat →
  register_all (mh_ObservationDomainID h) trs (Some s) = Some s1 →
  SetHeader_wf h2 → 255 < sh_ID h2 →
  GetTemplate (mh_ObservationDomainID h) (sh_ID h2) s1 = Some (up tr) → tr_Fields tr ≠ [] →
  sh_Length h2 = 4 + Z.of_nat (length (concat (encode_record (tr_Fields tr) <$> bsss))) →
  bsss ≠ [] → Forall (record_of (tr_Fields tr)) bsss → (length bsss ≤ fuel)%nat →
  Read fuel (encode_Message h h1 trs pad1 h2 tr bsss ++ tl) (Some s) t =
  (Some s1, Ok {| m_Header := h;
                  m_TemplateSets := [{| ts_Header := h1; ts_Records := trs |}];
                  m_OptionsTemplateSets := [];
                  m_DataSets :=
                    [{| ds_Header := h2;
                        ds_Records := record_value tr (Some (default NewTranslate t)) <$> bsss |}];
                  m_OptionsDataSets := [] |}).
Proof.
  intros Hh Hlen Hh1 Hid1 Hlen1 Hne1 Hwf1 Hpad1 Hreg Hh2 Hid2 Hget Hnef Hlen2 Hne2 Hrecs Hfuel.
  assert (concat (encode_TemplateRecord <$> trs) ++ pad1 ≠ []) as Hb1.
  { destruct trs as [|t0 trs]; [done|]. apply Forall_cons in Hwf1 as [(_ & _ & _ & Hf & _) _].
    pose proof (TemplateRecord_Len_ge t0 Hf) as Hl. rewrite <-length_encode_TemplateRecord_ipfix in Hl.
    intros [Hb _]%app_eq_nil. cbn [fmap list_fmap concat] in Hb. apply app_eq_nil in Hb as [Hb _].
    rewrite Hb in Hl. simpl in Hl. lia. }
  assert (concat (encode_record (tr_Fields tr) <$> bsss) ≠ []) as Hb2.
  { destruct bsss as [|b0 bsss]; [done|]. apply Forall_cons in Hrecs as [Hr _].
    pose proof (encode_record_nonempty _ _ Hr Hnef) as Hl. cbn [fmap list_fmap concat].
    intros [Hb _]%app_eq_nil. rewrite Hb in Hl. simpl in Hl. lia. }
  unfold encode_Message in *. set (body1 := concat _ ++ pad1) in *. set (body2 := concat (encode_record _ <$> _)) in *.
  assert (length (encode_MessageHeader h) = 16)%nat as Hl16.
  { unfold encode_MessageHeader. by rewrite !length_app, !length_be_encode. }
  unfold Read. rewrite <-app_assoc, read_MessageHeader by done. rewrite length_app in Hlen.
  rewrite (proj2 (Z.ltb_ge _ _)) by (unfold MessageHeader_Len; lia).
  destruct Hh as (Hv & _). rewrite Hv. change (negb (Version =? Version)) with false. cbn iota.
  unfold UnmarshalSets. cbn [m_Header]. set (sets := SetHeader_Bytes h1 ++ _) in *.
  assert (4 < length sets)%nat as Hsets.
  { unfold sets, SetHeader_Bytes. rewrite !length_app, !length_be_encode.
    destruct body1; [done|simpl; lia]. }
  replace (mh_Length h - MessageHeader_Len) with (Z.of_nat (length sets)) by (unfold MessageHeader_Len; lia).
  rewrite (proj2 (Z.leb_gt _ _)) by lia.
  rewrite Nat2Z.id, ReadFull_ok by (rewrite length_app; lia). rewrite take_app_length.
  destruct (length sets) as [|[|n]] eqn:El; [lia..|]. subst sets.
  rewrite UnmarshalSets_step by done. unfold UnmarshalSet at 1. rewrite Hid1.
  change (2 <? 2) with false. change (2 =? 2) with true. cbn iota.
  unfold body1. rewrite read_templates_ipfix by done. cbn [m_Header]. rewrite Hreg.
  rewrite <-(app_nil_r body2), UnmarshalSets_step by done. unfold UnmarshalSet at 1.
  rewrite (proj2 (Z.ltb_ge _ _)), !(proj2 (Z.eqb_neq _ _)) by lia.
  rewrite andb_comm, (proj2 (Z.leb_gt _ _)) by lia. cbn [andb m_Header with_TemplateSet].
  rewrite Hget, down_up. unfold body2. rewrite read_data_ipfix by done. by destruct n, t.
Qed.
End roundtrip.
