(* ===== verification/NetflowDecoder.v ===== *)
(** The NetFlow decoder (src/pkg/util/netflow/decoder.go): the version word picks
    the decoder, and the NetFlow 9 and IPFIX decoders share one session.  The
    dynamic type behind the [session.Template] interface is the sum of the four
    concrete template types, which discharges the [Implements] classes the decoders
    were proved against. *)
From S2P Require Import Prelude Read Session Translate TranslateTables.
From S2P Require Netflow1 Netflow5 Netflow6 Netflow7 Netflow9 Ipfix.
Local Open Scope Z_scope.
#[export] Existing Instances Netflow9.TemplateRecord_ID Netflow9.OptionsTemplateRecord_ID
  Ipfix.TemplateRecord_ID Ipfix.OptionsTemplateRecord_ID.

Inductive template :=
| V9Template (tr : Netflow9.TemplateRecord)
| V9Options (otr : Netflow9.OptionsTemplateRecord)
| IpfixTemplate (tr : Ipfix.TemplateRecord)
| IpfixOptions (otr : Ipfix.OptionsTemplateRecord).

(** The [ID] methods. *)
#[export] Instance template_Template : Template template := λ t,
  match t with
  | V9Template tr => Netflow9.tr_TemplateID tr
  | V9Options otr => Netflow9.otr_TemplateID otr
  | IpfixTemplate tr => Ipfix.tr_TemplateID tr
  | IpfixOptions otr => Ipfix.otr_TemplateID otr
  end.

Local Ltac solve_cast := intros [] ? H; by inversion H.
#[export] Instance V9Template_Implements : Implements Netflow9.TemplateRecord template.
Proof.
  refine {| up := V9Template : Netflow9.TemplateRecord → template;
            down := λ t, match t with V9Template r => Some r | _ => None end |}; [done|solve_cast|done].
Defined.
#[export] Instance V9Options_Implements : Implements Netflow9.OptionsTemplateRecord template.
Proof.
  refine {| up := V9Options : Netflow9.OptionsTemplateRecord → template;
            down := λ t, match t with V9Options r => Some r | _ => None end |}; [done|solve_cast|done].
Defined.
#[export] Instance IpfixTemplate_Implements : Implements Ipfix.TemplateRecord template.
Proof.
  refine {| up := IpfixTemplate : Ipfix.TemplateRecord → template;
            down := λ t, match t with IpfixTemplate r => Some r | _ => None end |}; [done|solve_cast|done].
Defined.
#[export] Instance IpfixOptions_Implements : Implements Ipfix.OptionsTemplateRecord template.
Proof.
  refine {| up := IpfixOptions : Ipfix.OptionsTemplateRecord → template;
            down := λ t, match t with IpfixOptions r => Some r | _ => None end |}; [done|solve_cast|done].
Defined.

#[export] Instance V9_distinct : DistinctTypes Netflow9.TemplateRecord Netflow9.OptionsTemplateRecord template.
Proof. done. Qed.
#[export] Instance Ipfix_distinct : DistinctTypes Ipfix.TemplateRecord Ipfix.OptionsTemplateRecord template.
Proof. done. Qed.

Inductive Message :=
| M1 (p : Netflow1.Packet)
| M5 (p : Netflow5.Packet)
| M6 (p : Netflow6.Packet)
| M7 (p : Netflow7.Packet)
| M9 (p : Netflow9.Packet)
| M10 (m : Ipfix.Message).

Definition session := option (basicSession template).

(** [d.Read].  The version word is read and put back in front of the reader. *)
Definition Read (fuel : nat) (r : list byte) (s : session) : session * res Message :=
  match ReadFull 2 r with
  | Ok (data, _) =>
      let version := be_decode data in
      if version =? Netflow1.Version then (s, '(p, _) ← Netflow1.Read r; mret (M1 p))
      else if version =? Netflow5.Version then (s, '(p, _) ← Netflow5.Read r; mret (M5 p))
      else if version =? Netflow6.Version then (s, '(p, _) ← Netflow6.Read r; mret (M6 p))
      else if version =? Netflow7.Version then (s, '(p, _) ← Netflow7.Read r; mret (M7 p))
      else if version =? Netflow9.Version then
        let '(s, out) := Netflow9.Read fuel r s None in (s, M9 <$> out)
      else if version =? Ipfix.Version then
        let '(s, out) := Ipfix.Read fuel r s None in (s, M10 <$> out)
      else (s, Err (Errorf "netflow: unsupported version %d" [FInt version]))
  | Err err => (s, Err (Errorf "failed to read netflow version number: %v" [FErr err]))
  | Panic w => (s, Panic w) | OutOfFuel => (s, OutOfFuel)
  end.

(** A stream of packets through one decoder: the messages of the packets that
    decode, and the session after them. *)
Fixpoint Read_all (fuel : nat) (packets : list (list byte)) (s : session) : session * list (res Message) :=
  match packets with
  | [] => (s, [])
  | r :: packets =>
      let '(s, out) := Read fuel r s in
      let '(s, outs) := Read_all fuel packets s in (s, out :: outs)
  end.

(** ** Laws *)

Lemma settled_map {A B} (x : res A) (f : A → res B) : settled x → (∀ a, settled (f a)) → settled (x ≫= f).
Proof. destruct x; try done. intros _ Hf. apply Hf. Qed.

Definition stuck_session (s : session) : Prop :=
  Netflow9.holds_stuck_template s ∨ Ipfix.holds_stuck_template s.

Lemma settled_fmap_stuck {A B} (f : A → B) (x : res A) (P : Prop) :
  settled x ∨ x = OutOfFuel ∧ P → settled (f <$> x) ∨ f <$> x = OutOfFuel ∧ P.
Proof. intros [H|[-> H]]; [left; by destruct x|by right]. Qed.

Lemma Read_spec fuel r s s' out : Read fuel r s = (s', out) → (length r ≤ fuel)%nat →
  (∃ source, session_step source s s') ∧ (settled out ∨ out = OutOfFuel ∧ stuck_session s').
Proof.
  intros E Hf. unfold Read in E.
  assert (∀ out', (s, out') = (s', out) → settled out' → (∃ source, session_step source s s') ∧
    (settled out ∨ out = OutOfFuel ∧ stuck_session s')) as Hstop.
  { intros out' [= <- <-] Ho. split; [exists 0; apply session_step_refl|by left]. }
  pose proof (safe_ReadFull 2 r) as Hr. destruct (ReadFull 2 r) as [[data r1]| | |]; try done;
    [|by eapply Hstop; [exact E|]].
  destruct (_ =? _); [eapply Hstop; [exact E|]; apply settled_map; [apply Netflow1.safe_Packet_v1|by intros []]|].
  destruct (_ =? _); [eapply Hstop; [exact E|]; apply settled_map; [apply Netflow5.safe_Packet_v5|by intros []]|].
  destruct (_ =? _); [eapply Hstop; [exact E|]; apply settled_map; [apply Netflow6.safe_Packet_v6|by intros []]|].
  destruct (_ =? _); [eapply Hstop; [exact E|]; apply settled_map; [apply Netflow7.safe_Packet_v7|by intros []]|].
  destruct (_ =? Netflow9.Version).
  { destruct (Netflow9.Read fuel r s None) as [s1 o1] eqn:E9. injection E as <- <-.
    apply Netflow9.Read_v9_spec in E9 as [(source & Hs & _) Ho]; [|done]. split; [by exists source|].
    apply settled_fmap_stuck. unfold stuck_session. naive_solver. }
  destruct (_ =? Ipfix.Version).
  { destruct (Ipfix.Read fuel r s None) as [s1 o1] eqn:E10. injection E as <- <-.
    apply Ipfix.Read_ipfix_spec in E10 as [Hs Ho]; [|done]. split; [done|].
    apply settled_fmap_stuck. unfold stuck_session. naive_solver. }
  by eapply Hstop; [exact E|].
Qed.

Lemma Read_all_wf fuel packets s s' outs : Read_all fuel packets s = (s', outs) →
  Forall (λ r, length r ≤ fuel)%nat packets → session_ok s →
  session_ok s' ∧ (is_Some s ↔ is_Some s') ∧ length outs = length packets.
Proof.
  revert s outs. induction packets as [|r packets IH]; intros s outs E Hf Hok; simpl in E.
  { by injection E as <- <-. }
  apply Forall_cons in Hf as [Hr Hf].
  destruct (Read fuel r s) as [s1 out] eqn:Er. destruct (Read_all fuel packets s1) as [s2 outs2] eqn:Ea.
  injection E as <- <-. apply Read_spec in Er as [(source & Hw & Hs & _) _]; [|done].
  apply IH in Ea as (Hw2 & Hs2 & Hl); [|done|auto]. split; [done|]. split; [by rewrite Hs|]. simpl. by rewrite Hl.
Qed.

(** ** Properties *)

(** C4: Decoding never panics on any bytes, and never loops unless the session
    holds a template whose records have no length. *)
Theorem Read_never_panics fuel r s :
  (length r ≤ fuel)%nat →
  match (Read fuel r s).2 with
  | Ok _ | Err _ => True
  | Panic _ => False
  | OutOfFuel => stuck_session (Read fuel r s).1
  end.
Proof.
  intros Hf. destruct (Read fuel r s) as [s' out] eqn:E.
  apply Read_spec in E as [_ Hout]; [|done]. simpl. destruct out; naive_solver.
Qed.

(** Template isolation over a stream of packets: the session stays well formed,
    every stored template under its own id, whatever the bytes. *)
Theorem Read_all_sessions fuel packets s s' outs source id tm :
  Read_all fuel packets (Some s) = (Some s', outs) →
  Forall (λ r, length r ≤ fuel)%nat packets → session_wf s →
  GetTemplate source id s' = Some tm → template_ID tm = id ∧ length outs = length packets.
Proof.
  intros E Hf Hwf Hg. apply Read_all_wf in E as (Hok & _ & Hl); [|done|by intros ? [= <-]].
  split; [|done]. apply (Hok s' eq_refl) in Hg. done.
Qed.

(** One packet changes the templates of at most one source id. *)
Theorem Read_isolates_sources fuel r s s' out :
  Read fuel r (Some s) = (Some s', out) → (length r ≤ fuel)%nat →
  ∃ source, ∀ source' id, source' ≠ source → GetTemplate source' id s' = GetTemplate source' id s.
Proof.
  intros E Hf. apply Read_spec in E as [(source & _ & _ & Hs) _]; [|done].
  exists source. intros source' id Hne. by apply Hs.
Qed.

(** A version-1 header gives its uptime 10^6 times smaller than a version-5 header
    of the same bytes: version 1 takes the milliseconds on the wire as nanoseconds. *)
Theorem SysUptime_units b1 b5 h1 h5 r1 r5 :
  Netflow1.PacketHeader_Unmarshal b1 = Ok (h1, r1) → Netflow5.PacketHeader_Unmarshal b5 = Ok (h5, r5) →
  word_at 4 4 b1 = word_at 4 4 b5 →
  Netflow5.h_SysUptime h5 = Netflow1.h_SysUptime h1 * Millisecond.
Proof.
  intros E1 E5 Hw. apply Netflow1.PacketHeader_inv_v1 in E1 as (-> & _ & _).
  apply Netflow5.PacketHeader_inv_v5 in E5 as (-> & _ & _). simpl. by rewrite Hw.
Qed.

(** Source ids and observation domains share one key space: an IPFIX data set
    whose id matches a template NetFlow 9 announced under the same number is
    rejected, and the whole message with it. *)
Theorem v9_template_blocks_ipfix fuel i m header data s t tr :
  255 < Ipfix.sh_ID header →
  GetTemplate (Ipfix.mh_ObservationDomainID (Ipfix.m_Header m)) (Ipfix.sh_ID header) s = Some (V9Template tr) →
  ∃ e, Ipfix.UnmarshalSet fuel i m header data (Some s) t = (Some s, Err e).
Proof.
  intros Hid Hg. unfold Ipfix.UnmarshalSet.
  rewrite (proj2 (Z.ltb_ge _ _)), !(proj2 (Z.eqb_neq _ _)) by lia.
  rewrite andb_comm, (proj2 (Z.leb_gt _ _)) by lia. simpl andb. cbn iota. rewrite Hg. simpl. by eexists.
Qed.

(** ** The theorems at concrete packets *)

Module Example9.
Definition tr : Netflow9.TemplateRecord :=
  {| Netflow9.tr_TemplateID := 256; Netflow9.tr_FieldCount := 2;
     Netflow9.tr_Fields := [ {| Netflow9.fs_Type := 8; Netflow9.fs_Length := 4 |};
                             {| Netflow9.fs_Type := 1; Netflow9.fs_Length := 8 |} ] |}.
Definition h : Netflow9.PacketHeader :=
  {| Netflow9.h_Version := 9; Netflow9.h_Count := 2; Netflow9.h_SysUpTime := 5; Netflow9.h_UnixSecs := 6;
     Netflow9.h_SequenceNumber := 7; Netflow9.h_SourceID := 8 |}.
Definition h1 : Netflow9.FlowSetHeader := {| Netflow9.fsh_ID := 0; Netflow9.fsh_Length := 16 |}.
Definition h2 : Netflow9.FlowSetHeader := {| Netflow9.fsh_ID := 256; Netflow9.fsh_Length := 31 |}.
Definition rows : list (list (list byte)) :=
  [ [be_encode 4 167772161; be_encode 8 1500]; [be_encode 4 167772162; be_encode 8 9000] ].
Definition packet : list byte := Netflow9.encode_PacketHeader h ++
  (Netflow9.encode_FlowSetHeader h1 ++ concat (Netflow9.encode_TemplateRecord <$> [tr]) ++ []) ++
  (Netflow9.encode_FlowSetHeader h2 ++ concat (@concat byte <$> rows) ++ make_bytes 3).
Definition after : basicSession template := AddTemplate 8 (V9Template tr) New.
Lemma templates_wf_9 : Forall Netflow9.TemplateRecord_wf [tr].
Proof.
  constructor; [|constructor]. split_and!; try done.
  repeat (constructor; [first [done | split_and!; done]|]). constructor.
Qed.
End Example9.

Module Example10.
Definition tr : Ipfix.TemplateRecord :=
  {| Ipfix.tr_TemplateID := 256; Ipfix.tr_FieldCount := 2;
     Ipfix.tr_Fields := [ Ipfix.mkFieldSpecifier 82 65535 0 false; Ipfix.mkFieldSpecifier 57 4 2636 true ] |}.
Definition h : Ipfix.MessageHeader := Ipfix.mkMessageHeader 10 54 1 2 8.
Definition h1 : Ipfix.SetHeader := Ipfix.mkSetHeader 2 20.
Definition h2 : Ipfix.SetHeader := Ipfix.mkSetHeader 256 18.
Definition rows : list (list (list byte)) := [ [be_encode 2 9; be_encode 4 1]; [be_encode 2 8; be_encode 4 2] ].
Definition packet : list byte := Ipfix.encode_Message h h1 [tr] [] h2 tr rows.
Definition after : basicSession template := AddTemplate 8 (IpfixTemplate tr) New.
Lemma templates_wf_10 : Forall Ipfix.TemplateRecord_wf [tr].
Proof.
  constructor; [|constructor]. split_and!; try done.
  repeat (constructor; [first [done | split_and!; done]|]). constructor.
Qed.
End Example10.

(** Decides a closed side condition of a round trip. *)
Local Ltac concrete :=
  lazymatch goal with
  | |- Forall Netflow9.TemplateRecord_wf _ => exact Example9.templates_wf_9
  | |- Forall Ipfix.TemplateRecord_wf _ => exact Example10.templates_wf_10
  | |- Forall _ _ => repeat constructor; done
  | |- (_ ≤ _)%nat => apply Nat.leb_le; reflexivity
  | |- (_ < _)%nat => apply Nat.ltb_lt; reflexivity
  | |- _ => first [done | by vm_compute | by repeat split]
  end.

Lemma Read_v9_roundtrip_witness :
  Netflow9.Read 2 Example9.packet (Some New) None =
  (Some Example9.after, Ok {| Netflow9.p_Header := Example9.h;
     Netflow9.p_TemplateFlowSets := [{| Netflow9.tfs_Header := Example9.h1; Netflow9.tfs_Records := [Example9.tr] |}];
     Netflow9.p_OptionsTemplateFlowSets := [];
     Netflow9.p_DataFlowSets := [{| Netflow9.dfs_Header := Example9.h2;
       Netflow9.dfs_Records := Netflow9.record_value Example9.tr (Some NewTranslate) <$> Example9.rows |}];
     Netflow9.p_OptionsDataFlowSets := [] |}).
Proof.
  apply (Netflow9.Read_v9_roundtrip 2 New Example9.after None Example9.h Example9.h1 [Example9.tr] []
    Example9.h2 Example9.tr Example9.rows (make_bytes 3)); concrete.
Defined.

Lemma Read_ipfix_roundtrip_witness :
  Ipfix.Read 2 (Example10.packet ++ [Byte.x00]) (Some New) None =
  (Some Example10.after, Ok {| Ipfix.m_Header := Example10.h;
     Ipfix.m_TemplateSets := [{| Ipfix.ts_Header := Example10.h1; Ipfix.ts_Records := [Example10.tr] |}];
     Ipfix.m_OptionsTemplateSets := [];
     Ipfix.m_DataSets := [{| Ipfix.ds_Header := Example10.h2;
       Ipfix.ds_Records := Ipfix.record_value Example10.tr (Some NewTranslate) <$> Example10.rows |}];
     Ipfix.m_OptionsDataSets := [] |}).
Proof.
  apply (Ipfix.Read_ipfix_roundtrip 2 New Example10.after None Example10.h Example10.h1 [Example10.tr] []
    Example10.h2 Example10.tr Example10.rows [Byte.x00]); concrete.
Defined.

Lemma Read_never_panics_witness :
  (length Example9.packet ≤ 100)%nat ∧
  match (Read 100 Example9.packet (Some New)).2 with
  | Ok _ | Err _ => True | Panic _ => False
  | OutOfFuel => stuck_session (Read 100 Example9.packet (Some New)).1
  end.
Proof.
  assert (length Example9.packet ≤ 100)%nat as Hl by (apply Nat.leb_le; reflexivity).
  split; [exact Hl|]. apply (Read_never_panics 100 Example9.packet (Some New)). exact Hl.
Defined.

Lemma Read_all_sessions_witness : ∃ s' outs,
  Read_all 100 [Example9.packet; Example10.packet] (Some New) = (Some s', outs) ∧
  template_ID (IpfixTemplate Example10.tr) = 256 ∧ length outs = 2%nat.
Proof.
  eexists _, _. split; [vm_compute; reflexivity|].
  apply (Read_all_sessions 100 [Example9.packet; Example10.packet] New
    (AddTemplate 8 (IpfixTemplate Example10.tr) (AddTemplate 8 (V9Template Example9.tr) New)) _ 8).
  - vm_compute. reflexivity.
  - repeat constructor; apply Nat.leb_le; reflexivity.
  - apply New_wf.
  - reflexivity.
Defined.

Lemma Read_isolates_sources_witness : ∃ source, ∀ source' id, source' ≠ source →
  GetTemplate source' id Example9.after = GetTemplate source' id (New : basicSession template).
Proof.
  eapply (Read_isolates_sources 100 Example9.packet New Example9.after).
  - vm_compute. reflexivity.
  - apply Nat.leb_le. reflexivity.
Defined.

(** Headers of one uptime, 1000 milliseconds on the wire. *)
Definition uptime_v1 : list byte := be_encode 2 1 ++ be_encode 2 1 ++ be_encode 4 1000 ++ make_bytes 8.
Definition uptime_v5 : list byte := be_encode 2 5 ++ be_encode 2 1 ++ be_encode 4 1000 ++ make_bytes 16.
Lemma SysUptime_units_witness : ∃ h1 h5 r1 r5,
  Netflow1.PacketHeader_Unmarshal uptime_v1 = Ok (h1, r1) ∧ Netflow5.PacketHeader_Unmarshal uptime_v5 = Ok (h5, r5) ∧
  Netflow5.h_SysUptime h5 = Netflow1.h_SysUptime h1 * Millisecond.
Proof.
  eexists _, _, _, _. split; [vm_compute; reflexivity|]. split; [vm_compute; reflexivity|].
  eapply (SysUptime_units uptime_v1 uptime_v5); vm_compute; reflexivity.
Defined.

Lemma v9_template_blocks_ipfix_witness : ∃ e,
  Ipfix.UnmarshalSet 1 0 {| Ipfix.m_Header := Example10.h; Ipfix.m_TemplateSets := [];
    Ipfix.m_OptionsTemplateSets := []; Ipfix.m_DataSets := []; Ipfix.m_OptionsDataSets := [] |}
    Example10.h2 [Byte.x01] (Some Example9.after) None = (Some Example9.after, Err e).
Proof. by apply (v9_template_blocks_ipfix _ _ _ _ _ Example9.after _ Example9.tr). Defined.
