(* ===== verification/GoStrings.v ===== *)
(** The parts of Go's [strings] and [strconv] packages the modelled code uses, on
    strings as byte strings. *)
From S2P Require Import Prelude.
Local Open Scope Z_scope.

(** ** [strings] *)

Fixpoint Join (elems : list string) (sep : string) : string :=
  match elems with
  | [] => ""
  | [s] => s
  | s :: elems => String.append s (String.append sep (Join elems sep))
  end.

Fixpoint HasPrefix (s prefix : string) : bool :=
  match prefix, s with
  | EmptyString, _ => true
  | String p prefix, String c s => Ascii.eqb p c && HasPrefix s prefix
  | String _ _, EmptyString => false
  end.

Fixpoint drop_string (n : nat) (s : string) : string :=
  match n, s with
  | S n, String _ s => drop_string n s
  | _, _ => s
  end.

Fixpoint take_string (n : nat) (s : string) : string :=
  match n, s with
  | S n, String c s => String c (take_string n s)
  | _, _ => EmptyString
  end.

Fixpoint Contains (s substr : string) : bool :=
  HasPrefix s substr || match s with EmptyString => false | String _ s => Contains s substr end.

(** The bytes before the first occurrence of [sep] and those after it. *)
Fixpoint Cut (s sep : string) : option (string * string) :=
  if HasPrefix s sep then Some (EmptyString, drop_string (String.length sep) s)
  else match s with
  | EmptyString => None
  | String c s => '(a, b) ← Cut s sep; Some (String c a, b)
  end.

(** [strings.SplitN(s, sep, n+1)] for a non-empty separator; [Split] needs no
    more cuts than there are bytes. *)
Fixpoint SplitN (n : nat) (s sep : string) : list string :=
  match n with
  | O => [s]
  | S n => match Cut s sep with
           | Some (a, b) => a :: SplitN n b sep
           | None => [s]
           end
  end.
Definition Split (s sep : string) : list string := SplitN (String.length s) s sep.

(** [strings.Replace(s, old, new, n)] for a non-empty [old]. *)
Fixpoint Replace (s old new : string) (n : nat) : string :=
  match n with
  | O => s
  | S n => match Cut s old with
           | Some (a, b) => String.append a (String.append new (Replace b old new n))
           | None => s
           end
  end.
Definition ReplaceAll (s old new : string) : string := Replace s old new (String.length s).

Definition lower_ascii (c : ascii) : ascii :=
  let n := nat_of_ascii c in
  if ((65 <=? n) && (n <=? 90))%nat then ascii_of_nat (n + 32) else c.

(** [strings.ToLower] of an ASCII string. *)
Fixpoint ToLower (s : string) : string :=
  match s with EmptyString => EmptyString | String c s => String (lower_ascii c) (ToLower s) end.

Definition is_space (c : ascii) : bool :=
  let n := nat_of_ascii c in ((9 <=? n) && (n <=? 13))%nat || (n =? 32)%nat.

Fixpoint trim_left (s : string) : string :=
  match s with String c t => if is_space c then trim_left t else s | EmptyString => s end.
Fixpoint trim_right (s : string) : string :=
  match s with
  | EmptyString => EmptyString
  | String c t =>
      match trim_right t with
      | EmptyString => if is_space c then EmptyString else String c EmptyString
      | t' => String c t'
      end
  end.
(** [strings.TrimSpace] on ASCII space. *)
Definition TrimSpace (s : string) : string := trim_right (trim_left s).

(** ** [strconv] *)

Definition digit_value (c : ascii) : option Z :=
  let n := nat_of_ascii c in
  if ((48 <=? n) && (n <=? 57))%nat then Some (Z.of_nat n - 48) else None.

Fixpoint digits_value (s : string) (acc : Z) : option Z :=
  match s with
  | EmptyString => Some acc
  | String c s => d ← digit_value c; digits_value s (acc * 10 + d)
  end.

(** The loop of [strconv.ParseUint] in base ten: the first byte that is no digit or
    takes the number out of range decides. *)
Inductive parsed := Parsed (z : Z) | ErrSyntax | ErrRange.
Fixpoint ParseUint_loop (s : string) (acc : Z) : parsed :=
  match s with
  | EmptyString => Parsed acc
  | String c s =>
      match digit_value c with
      | None => ErrSyntax
      | Some d => if maxUint64 <? acc * 10 + d then ErrRange else ParseUint_loop s (acc * 10 + d)
      end
  end.

(** [strconv.Atoi] on a 64-bit machine: the value, which is the nearest bound on a
    range error and zero on a syntax error, and whether there was no error. *)
Definition Atoi_value (s : string) : Z * bool :=
  let '(neg, t) :=
    match s with
    | String "-" t => (true, t)
    | String "+" t => (false, t)
    | _ => (false, s)
    end in
  let r := match t with EmptyString => ErrSyntax | _ => ParseUint_loop t 0 end in
  let clamp u := if (neg : bool) then (if 2 ^ 63 <? u then (- 2 ^ 63, false) else (- u, true))
                 else (if 2 ^ 63 <=? u then (2 ^ 63 - 1, false) else (u, true)) in
  match r with
  | Parsed u => clamp u
  | ErrSyntax => (0, false)
  | ErrRange => clamp maxUint64
  end.
Definition Atoi (s : string) : option Z := let '(v, ok) := Atoi_value s in if (ok : bool) then Some v else None.

Definition digit_char (d : Z) : ascii := ascii_of_nat (Z.to_nat (48 + d)).

(** The decimal digits, least significant last, with at most [fuel] digits. *)
Fixpoint decimal (fuel : nat) (z : Z) (acc : string) : string :=
  match fuel with
  | O => acc
  | S fuel =>
      let acc := String (digit_char (z mod 10)) acc in
      if z <? 10 then acc else decimal fuel (z / 10) acc
  end.
(** [strconv.Itoa]: twenty digits hold any 64-bit integer. *)
Definition Itoa (z : Z) : string :=
  if z <? 0 then String "-" (decimal 20 (- z) EmptyString) else decimal 20 z EmptyString.

(** ** Laws *)

Lemma append_nil_l t : String.append "" t = t.
Proof. done. Qed.
Lemma append_cons c s t : String.append (String c s) t = String c (String.append s t).
Proof. done. Qed.
Lemma append_nil_r s : String.append s "" = s.
Proof. induction s as [|c s IH]; [done|]. by rewrite append_cons, IH. Qed.
Lemma append_assoc s1 s2 s3 :
  String.append (String.append s1 s2) s3 = String.append s1 (String.append s2 s3).
Proof. induction s1 as [|c s1 IH]; [done|]. by rewrite !append_cons, IH. Qed.
Lemma length_append s1 s2 : String.length (String.append s1 s2) = (String.length s1 + String.length s2)%nat.
Proof. induction s1 as [|c s1 IH]; [done|]. rewrite append_cons. simpl. by rewrite IH. Qed.
Lemma drop_string_append s1 s2 : drop_string (String.length s1) (String.append s1 s2) = s2.
Proof. induction s1 as [|c s1 IH]; [by destruct s2|]. rewrite append_cons. done. Qed.
Lemma HasPrefix_append s1 s2 : HasPrefix (String.append s1 s2) s1 = true.
Proof. induction s1 as [|c s1 IH]; [by destruct s2|]. rewrite append_cons. simpl. by rewrite Ascii.eqb_refl. Qed.
Lemma HasPrefix_spec s p : HasPrefix s p = true ↔ ∃ t, s = String.append p t.
Proof.
  revert s. induction p as [|c p IH]; intros s; simpl.
  - split; [by eexists|]. by destruct s.
  - destruct s as [|d s]; simpl; [split; [done|by intros [? ?]]|].
    rewrite andb_true_iff, Ascii.eqb_eq, IH. split.
    + intros [-> [t ->]]. by exists t.
    + intros [t Ht]. rewrite append_cons in Ht. injection Ht as -> ->. eauto.
Qed.

(** Cutting finds the separator. *)
Lemma Cut_Some s sep a b : Cut s sep = Some (a, b) → s = String.append a (String.append sep b).
Proof.
  revert a. induction s as [|c s IH]; intros a; cbn [Cut].
  - destruct (HasPrefix "" sep) eqn:E; [|done]. intros [= <- <-].
    by destruct sep.
  - destruct (HasPrefix (String c s) sep) eqn:E.
    + intros [= <- <-]. apply HasPrefix_spec in E as [t ->]. by rewrite drop_string_append.
    + destruct (Cut s sep) as [[a' b']|]; simpl; [|done]. intros [= <- <-].
      rewrite append_cons. f_equal. by apply IH.
Qed.

Lemma Cut_None s sep : Cut s sep = None → Contains s sep = false.
Proof.
  induction s as [|c s IH]; cbn [Cut Contains].
  - by destruct (HasPrefix "" sep).
  - destruct (HasPrefix (String c s) sep); [done|]. simpl.
    destruct (Cut s sep) as [[]|]; [done|]. auto.
Qed.

(** One-character separators. *)
Lemma HasPrefix_char c d s : HasPrefix (String c s) (String d "") = Ascii.eqb d c.
Proof. cbn [HasPrefix]. destruct s; by rewrite andb_true_r. Qed.

Lemma Cut_char d a b : Contains a (String d "") = false →
  Cut (String.append a (String d b)) (String d "") = Some (a, b).
Proof.
  induction a as [|c a IH]; cbn [Contains]; intros Ha.
  - rewrite append_nil_l. cbn [Cut]. rewrite HasPrefix_char, Ascii.eqb_refl. by destruct b.
  - rewrite append_cons. cbn [Cut]. rewrite HasPrefix_char in Ha |- *. apply orb_false_iff in Ha as [-> Ha].
    by rewrite IH.
Qed.

Lemma Cut_char_None d a : Contains a (String d "") = false → Cut a (String d "") = None.
Proof.
  induction a as [|c a IH]; cbn [Contains]; intros Ha; [done|].
  cbn [Cut]. rewrite HasPrefix_char in Ha |- *. apply orb_false_iff in Ha as [-> Ha]. by rewrite IH.
Qed.

Lemma Contains_char_append d a b :
  Contains (String.append a b) (String d "") = Contains a (String d "") || Contains b (String d "").
Proof.
  induction a as [|c a IH]; [by rewrite append_nil_l|]. rewrite append_cons. cbn [Contains].
  rewrite !HasPrefix_char, IH. by rewrite orb_assoc.
Qed.

Lemma Split_char_none d a : Contains a (String d "") = false → Split a (String d "") = [a].
Proof. intros Ha. unfold Split. destruct (String.length a); [done|]. cbn [SplitN]. by rewrite Cut_char_None. Qed.

Lemma Split_char d a b : Contains a (String d "") = false → Contains b (String d "") = false →
  Split (String.append a (String d b)) (String d "") = [a; b].
Proof.
  intros Ha Hb. unfold Split. rewrite length_append. cbn [String.length]. rewrite Nat.add_succ_r. cbn [SplitN].
  rewrite Cut_char by done. destruct (_ + _)%nat; [done|]. cbn [SplitN]. by rewrite Cut_char_None.
Qed.

(** Decimal round trip. *)
Lemma digit_value_char d : 0 ≤ d < 10 → digit_value (digit_char d) = Some d.
Proof.
  intros H. assert (d = 0 ∨ d = 1 ∨ d = 2 ∨ d = 3 ∨ d = 4 ∨ d = 5 ∨ d = 6 ∨ d = 7 ∨ d = 8 ∨ d = 9) as Hd by lia.
  by destruct Hd as [->|[->|[->|[->|[->|[->|[->|[->|[->| ->]]]]]]]]].
Qed.

Lemma decimal_value fuel z acc v : 0 ≤ z < 10 ^ Z.of_nat fuel →
  digits_value (decimal fuel z acc) v = digits_value acc (v * 10 ^ Z.of_nat (String.length (decimal fuel z acc) - String.length acc) + z).
Proof.
  revert z acc v. induction fuel as [|fuel IH]; intros z acc v Hz.
  { simpl. replace z with 0 by (simpl in Hz; lia). rewrite Nat.sub_diag. simpl. f_equal. lia. }
  cbn [decimal]. rewrite Nat2Z.inj_succ, Z.pow_succ_r in Hz by lia.
  destruct (z <? 10) eqn:E.
  - apply Z.ltb_lt in E. cbn [digits_value String.length]. rewrite Z.mod_small by lia.
    rewrite digit_value_char by lia. cbn [mbind option_bind]. f_equal.
    replace (S (String.length acc) - String.length acc)%nat with 1%nat by lia. lia.
  - apply Z.ltb_ge in E. pose proof (Z.mod_pos_bound z 10 eq_refl).
    assert (z / 10 < 10 ^ Z.of_nat fuel) by (apply Z.div_lt_upper_bound; lia).
    rewrite IH by (split; [apply Z.div_pos; lia|done]). cbn [String.length digits_value].
    rewrite digit_value_char by lia. cbn [mbind option_bind]. f_equal.
    set (L := String.length (decimal fuel (z / 10) _)).
    assert (String.length acc < L)%nat as HL.
    { unfold L. clear. generalize (z / 10), (digit_char (z mod 10)). intros y c.
      assert (∀ f y s, String.length s ≤ String.length (decimal f y s))%nat as Hmono.
      { induction f as [|f IHf]; intros y' s'; simpl; [lia|]. case_match; simpl; [lia|].
        specialize (IHf (y' / 10) (String (digit_char (y' mod 10)) s')). simpl in IHf. lia. }
      specialize (Hmono fuel y (String c acc)). simpl in Hmono. lia. }
    replace (L - String.length acc)%nat with (S (L - S (String.length acc)))%nat by lia.
    rewrite Nat2Z.inj_succ, Z.pow_succ_r by lia. pose proof (Z.div_mod z 10). lia.
Qed.

Lemma decimal_head fuel z acc : (0 < fuel)%nat → 0 ≤ z →
  ∃ d s, decimal fuel z acc = String (digit_char d) s ∧ 0 ≤ d < 10.
Proof.
  revert z acc. induction fuel as [|fuel IH]; intros z acc Hf Hz; [lia|]. cbn [decimal].
  pose proof (Z.mod_pos_bound z 10 eq_refl). case_match; [by eexists _, _|].
  destruct fuel; [by eexists _, _|]. apply IH; [lia|]. apply Z.div_pos; lia.
Qed.

Lemma decimal_value0 z : 0 ≤ z < 10 ^ 20 → digits_value (decimal 20 z "") 0 = Some z.
Proof. intros H. rewrite decimal_value by done. simpl. done. Qed.

(** A parse that stays in range is the value of the digits. *)
Lemma ParseUint_value s acc v : digits_value s acc = Some v → v ≤ maxUint64 → 0 ≤ acc →
  ParseUint_loop s acc = Parsed v ∧ acc ≤ v.
Proof.
  revert acc. induction s as [|c s IH]; intros acc; simpl.
  { intros [= ->] _ _. done. }
  destruct (digit_value c) as [d|] eqn:Ed; simpl; [|done]. intros E Hv Ha.
  assert (0 ≤ d) as Hd.
  { unfold digit_value in Ed. case_match eqn:Ec; [|done]. injection Ed as <-.
    apply andb_true_iff in Ec as [Ec _]. apply Nat.leb_le in Ec. lia. }
  destruct (IH (acc * 10 + d) E Hv ltac:(lia)) as [E2 Hle]. rewrite (proj2 (Z.ltb_ge _ _)) by lia.
  split; [done|lia].
Qed.

Lemma digit_cases d : 0 ≤ d < 10 → match digit_char d with "-"%char | "+"%char => False | _ => True end.
Proof.
  intros H. assert (d = 0 ∨ d = 1 ∨ d = 2 ∨ d = 3 ∨ d = 4 ∨ d = 5 ∨ d = 6 ∨ d = 7 ∨ d = 8 ∨ d = 9) as Hc by lia.
  by destruct Hc as [->|[->|[->|[->|[->|[->|[->|[->|[->| ->]]]]]]]]].
Qed.

Lemma Itoa_parse z : 0 ≤ z ≤ maxUint64 →
  ∃ d s, decimal 20 z "" = String (digit_char d) s ∧ 0 ≤ d < 10 ∧
         ParseUint_loop (String (digit_char d) s) 0 = Parsed z.
Proof.
  intros Hz. assert (maxUint64 < 10 ^ 20) by done.
  destruct (decimal_head 20 z "") as (d & s & Hd & Hr); [lia|lia|].
  exists d, s. split; [done|]. split; [done|]. rewrite <-Hd.
  apply ParseUint_value; [apply decimal_value0; lia|lia|lia].
Qed.

(** Parsing what was printed. *)
Lemma Atoi_Itoa z : in_s 64 z → Atoi (Itoa z) = Some z.
Proof.
  intros Hz. assert (- 2 ^ 63 ≤ z < 2 ^ 63) as Hr by (unfold in_s in Hz; lia).
  unfold Itoa. destruct (z <? 0) eqn:E.
  - apply Z.ltb_lt in E. destruct (Itoa_parse (- z)) as (d & s & Hd & _ & Hp); [unfold maxUint64; lia|].
    unfold Atoi, Atoi_value. rewrite Hd, Hp. rewrite (proj2 (Z.ltb_ge _ _)) by lia. f_equal. lia.
  - apply Z.ltb_ge in E. destruct (Itoa_parse z) as (d & s & Hd & Hb & Hp); [unfold maxUint64; lia|].
    unfold Atoi, Atoi_value. rewrite Hd. pose proof (digit_cases d Hb) as Hc.
    assert (match String (digit_char d) s with
            | String "-" t => (true, t) | String "+" t => (false, t)
            | _ => (false, String (digit_char d) s) end = (false, String (digit_char d) s)) as ->.
    { destruct (digit_char d) as [[] [] [] [] [] [] [] []]; done. }
    rewrite Hp. by rewrite (proj2 (Z.leb_gt _ _)) by lia.
Qed.

(** ** Splitting what was joined *)

Lemma Join_cons a b l sep : Join (a :: b :: l) sep = String.append a (String.append sep (Join (b :: l) sep)).
Proof. done. Qed.

Lemma SplitN_Join sep l : l ≠ [] →
  (∀ a rest, a ∈ l → Cut (String.append a (String.append sep rest)) sep = Some (a, rest)) →
  (∀ a, a ∈ l → Cut a sep = None) →
  ∀ n, (length l ≤ S n)%nat → SplitN n (Join l sep) sep = l.
Proof.
  intros Hl Hc Hn. induction l as [|a [|b l] IH]; [done| |]; intros n Hlen.
  - cbn [Join]. destruct n; [done|]. cbn [SplitN]. by rewrite Hn by left.
  - destruct n as [|n]; [simpl in Hlen; lia|]. rewrite Join_cons. cbn [SplitN]. rewrite Hc by left. f_equal.
    apply IH; [done|intros; apply Hc; by right|intros; apply Hn; by right|simpl in *; lia].
Qed.

Lemma Join_length l sep : sep ≠ "" → (length l ≤ S (String.length (Join l sep)))%nat.
Proof.
  intros Hs. induction l as [|a [|b l] IH]; [simpl; lia|simpl; lia|]. rewrite Join_cons, !length_append.
  assert (1 ≤ String.length sep)%nat by (destruct sep; simpl; [done|lia]). cbn [length] in *. lia.
Qed.

Lemma Split_Join sep l : sep ≠ "" → l ≠ [] →
  (∀ a rest, a ∈ l → Cut (String.append a (String.append sep rest)) sep = Some (a, rest)) →
  (∀ a, a ∈ l → Cut a sep = None) → Split (Join l sep) sep = l.
Proof. intros Hs Hl Hc Hn. unfold Split. apply SplitN_Join; try done. by apply Join_length. Qed.

Lemma Split_Join_char d l : l ≠ [] → Forall (λ s, Contains s (String d "") = false) l →
  Split (Join l (String d "")) (String d "") = l.
Proof.
  intros Hl Hf. rewrite Forall_forall in Hf. apply Split_Join; [done|done|..].
  - intros a rest Ha. rewrite append_cons, append_nil_l. apply Cut_char. by apply Hf.
  - intros a Ha. apply Cut_char_None. by apply Hf.
Qed.

(** Words hold no first character of the separator. *)
Lemma Cut_word c a T : Contains a (String c "") = false → ∀ s,
  Cut (String.append a s) (String c T) = (λ p, (String.append a p.1, p.2)) <$> Cut s (String c T).
Proof.
  induction a as [|x a IH]; intros Ha s.
  - rewrite append_nil_l. destruct (Cut s (String c T)) as [[p q]|]; simpl; [|done]. by rewrite append_nil_l.
  - cbn [Contains] in Ha. rewrite HasPrefix_char in Ha. apply orb_false_iff in Ha as [Hx Ha].
    rewrite append_cons. cbn [Cut HasPrefix]. rewrite Hx. cbn [andb]. rewrite IH by done.
    destruct (Cut s (String c T)) as [[p q]|]; [|done]. cbn [fmap option_fmap option_map mbind option_bind fst snd].
    by rewrite append_cons.
Qed.

Lemma Cut_prefix sep rest : Cut (String.append sep rest) sep = Some ("", rest).
Proof.
  pose proof (HasPrefix_append sep rest) as H. pose proof (drop_string_append sep rest) as Hd.
  destruct (String.append sep rest); cbn [Cut]; by rewrite H, Hd.
Qed.

Lemma Cut_word_sep c a T rest : Contains a (String c "") = false →
  Cut (String.append a (String.append (String c T) rest)) (String c T) = Some (a, rest).
Proof. intros Ha. rewrite Cut_word, Cut_prefix by done. cbn [fmap option_fmap option_map fst snd]. by rewrite append_nil_r. Qed.

Lemma Cut_word_None c a T : Contains a (String c "") = false → Cut a (String c T) = None.
Proof. intros Ha. rewrite <-(append_nil_r a), Cut_word by done. done. Qed.

Lemma Replace_None s old new n : Cut s old = None → Replace s old new n = s.
Proof. intros E. destruct n; cbn [Replace]; [done|]. by rewrite E. Qed.

Lemma append_inj_r a b c : String.append a c = String.append b c → a = b.
Proof.
  revert b. induction a as [|x a IH]; intros b H.
  - destruct b as [|y b]; [done|]. exfalso. apply (f_equal String.length) in H. rewrite !length_append in H. cbn [String.length] in H. lia.
  - destruct b as [|y b].
    + exfalso. apply (f_equal String.length) in H. rewrite !length_append in H. cbn [String.length] in H. lia.
    + rewrite !append_cons in H. injection H as -> H. f_equal. by apply IH.
Qed.
