(* ===== verification/GoNet.v ===== *)
(** The parts of Go's [net] package the modelled code uses: parsing and printing
    of IP addresses (package [netip] behind [net.ParseIP]) and of MAC addresses. *)
From S2P Require Import Prelude GoStrings.
Local Open Scope Z_scope.

Definition IP := list byte.            (* [None] is the nil slice where it matters *)
Definition HardwareAddr := list byte.

Definition hex_value (c : ascii) : option Z :=
  let n := Z.of_nat (nat_of_ascii c) in
  if (48 <=? n) && (n <=? 57) then Some (n - 48)
  else if (97 <=? n) && (n <=? 102) then Some (n - 87)
  else if (65 <=? n) && (n <=? 70) then Some (n - 55)
  else None.
Definition hex_char (d : Z) : ascii :=
  ascii_of_nat (Z.to_nat (if d <? 10 then 48 + d else 87 + d)).

(** ** [netip.parseIPv4Fields]

    [prev] is the byte before the current one, [None] at the start. *)
Fixpoint parseIPv4_loop (s : string) (prev : option ascii) (fields : list Z) (val digLen : Z) :
    option (list Z) :=
  match s with
  | EmptyString => if (length fields <? 3)%nat then None else Some (fields ++ [val])
  | String c s =>
      match digit_value c with
      | Some d =>
          if (digLen =? 1) && (val =? 0) then None
          else let val := val * 10 + d in
               if 255 <? val then None else parseIPv4_loop s (Some c) fields val (digLen + 1)
      | None =>
          if Ascii.eqb c "." then
            if match prev with None => true | Some p => Ascii.eqb p "." end || String.eqb s "" then None
            else if (length fields =? 3)%nat then None
            else parseIPv4_loop s (Some c) (fields ++ [val]) 0 0
          else None
      end
  end.
Definition parseIPv4 (s : string) : option (list byte) :=
  match parseIPv4_loop s None [] 0 0 with Some fields => Some (map z2b fields) | None => None end.

(** ** [netip.parseIPv6] without a zone *)

(** The hexadecimal digits at the front: their value and number, or an error on
    the fifth. *)
Fixpoint hex_group (s : string) (off : nat) (acc : Z) : option (Z * nat * string) :=
  match s with
  | EmptyString => Some (acc, off, s)
  | String c t =>
      match hex_value c with
      | None => Some (acc, off, s)
      | Some d => if (3 <? off)%nat then None else hex_group t (S off) (acc * 16 + d)
      end
  end.

(** The loop [for i < 16]; [ip] is what was stored so far, of length [i], and
    [ellipsis] the position of the double colon.  Eight rounds fill the address. *)
Fixpoint parseIPv6_loop (fuel : nat) (s : string) (ip : list byte) (ellipsis : option nat) :
    option (list byte * option nat * string) :=
  match fuel with
  | O => Some (ip, ellipsis, s)
  | S fuel =>
      if (16 <=? length ip)%nat then Some (ip, ellipsis, s)
      else
        '(acc, off, rest) ← hex_group s 0 0;
        if (off =? 0)%nat then None
        else
          match rest with
          | String "." _ =>
              if match ellipsis with None => negb (length ip =? 12)%nat | Some _ => false end then None
              else if (16 <? length ip + 4)%nat then None
              else v4 ← parseIPv4 s; Some (ip ++ v4, ellipsis, EmptyString)
          | _ =>
              let ip := ip ++ be_encode 2 acc in
              match rest with
              | EmptyString => Some (ip, ellipsis, rest)
              | String ":" EmptyString => None
              | String ":" (String ":" rest) =>
                  match ellipsis with
                  | Some _ => None
                  | None =>
                      let ellipsis := Some (length ip) in
                      if String.eqb rest "" then Some (ip, ellipsis, rest)
                      else parseIPv6_loop fuel rest ip ellipsis
                  end
              | String ":" rest => parseIPv6_loop fuel rest ip ellipsis
              | _ => None
              end
          end
  end.

Definition parseIPv6 (s : string) : option (list byte) :=
  let '(s, ellipsis) :=
    match s with String ":" (String ":" s) => (s, Some 0%nat) | _ => (s, None) end in
  match ellipsis, s with
  | Some _, EmptyString => Some (replicate 16 Byte.x00)
  | _, _ =>
      '(ip, ellipsis, rest) ← parseIPv6_loop 9 s [] ellipsis;
      if negb (String.eqb rest "") then None
      else if (length ip <? 16)%nat then
        match ellipsis with
        | None => None
        | Some e => Some (take e ip ++ replicate (16 - length ip) Byte.x00 ++ drop e ip)
        end
      else match ellipsis with Some _ => None | None => Some ip end
  end.

(** The first dot, colon or percent sign decides; a zone makes [ParseIP] fail. *)
Fixpoint addr_kind (s : string) : option ascii :=
  match s with
  | EmptyString => None
  | String c s =>
      if Ascii.eqb c "." || Ascii.eqb c ":" || Ascii.eqb c "%" then Some c else addr_kind s
  end.
Definition v4InV6Prefix : list byte := replicate 10 Byte.x00 ++ [Byte.xff; Byte.xff].

(** [net.ParseIP]: sixteen bytes, or nil. *)
Definition ParseIP (s : string) : option IP :=
  match addr_kind s with
  | Some "."%char => v4 ← parseIPv4 s; Some (v4InV6Prefix ++ v4)
  | Some ":"%char => if Contains s "%" then None else parseIPv6 s
  | _ => None
  end.

Definition To4 (ip : IP) : option IP :=
  if (length ip =? 4)%nat then Some ip
  else if (length ip =? 16)%nat && bool_decide (take 12 ip = v4InV6Prefix) then Some (drop 12 ip)
  else None.
Definition To16 (ip : IP) : option IP :=
  if (length ip =? 4)%nat then Some (v4InV6Prefix ++ ip)
  else if (length ip =? 16)%nat then Some ip else None.

(** ** [IP.String] *)

Fixpoint dotted (bs : list byte) : string :=
  match bs with
  | [] => EmptyString
  | [b] => Itoa (b2z b)
  | b :: bs => String.append (Itoa (b2z b)) (String "." (dotted bs))
  end.

(** The 16-bit groups. *)
Fixpoint groups (bs : list byte) : list Z :=
  match bs with
  | a :: b :: bs => be_decode [a; b] :: groups bs
  | _ => []
  end.

(** Hexadecimal without leading zeros. *)
Definition group_hex (g : Z) : string :=
  let d3 := String (hex_char (g mod 16)) EmptyString in
  let d2 := String (hex_char (g / 16 mod 16)) d3 in
  let d1 := String (hex_char (g / 256 mod 16)) d2 in
  let d0 := String (hex_char (g / 4096)) d1 in
  if 4096 <=? g then d0 else if 256 <=? g then d1 else if 16 <=? g then d2 else d3.

Fixpoint zero_run (gs : list Z) : nat :=
  match gs with 0 :: gs => S (zero_run gs) | _ => 0 end.

(** The first longest run of at least two zero groups: start and end. *)
Fixpoint zero_span (n : nat) (i : nat) (gs : list Z) (best : nat * nat) : nat * nat :=
  match n with
  | O => best
  | S n =>
      let l := zero_run (drop i gs) in
      let best := if ((2 <=? l) && (best.2 - best.1 <? l))%nat then (i, i + l)%nat else best in
      zero_span n (S i) gs best
  end.

(** The groups after the double colon. *)
Fixpoint ipv6_tail (n : nat) (i : nat) (gs : list Z) : string :=
  match n with
  | O => EmptyString
  | S n =>
      if (8 <=? i)%nat then EmptyString
      else String.append (group_hex (List.nth i gs 0))
             (if (8 <=? S i)%nat then EmptyString else String ":" (ipv6_tail n (S i) gs))
  end.

Fixpoint ipv6_groups (n : nat) (i : nat) (gs : list Z) (span : nat * nat) : string :=
  match n with
  | O => EmptyString
  | S n =>
      if (i =? span.1)%nat && (span.1 <? span.2)%nat then
        String.append "::" (ipv6_tail n (span.2) gs)
      else if (8 <=? i)%nat then EmptyString
      else String.append (if (0 <? i)%nat then ":" else "")
             (String.append (group_hex (List.nth i gs 0)) (ipv6_groups n (S i) gs span))
  end.

Definition ipv6_string (ip : list byte) : string :=
  let gs := groups ip in ipv6_groups 9 0 gs (zero_span 8 0 gs (0, 0)%nat).

Definition hex_byte (b : byte) : string :=
  String (hex_char (b2z b / 16)) (String (hex_char (b2z b mod 16)) EmptyString).
Definition hex_bytes (bs : list byte) : string := foldr String.append EmptyString (hex_byte <$> bs).

Definition IP_String (ip : IP) : string :=
  if (length ip =? 0)%nat then "<nil>"
  else if negb ((length ip =? 4)%nat || (length ip =? 16)%nat) then String "?" (hex_bytes ip)
  else match To4 ip with
       | Some v4 => dotted v4
       | None => ipv6_string ip
       end.

(** ** MAC addresses *)

Definition HardwareAddr_String (a : HardwareAddr) : string := Join (hex_byte <$> a) ":".

Definition xtoi2 (s : string) (e : ascii) : option byte :=
  match s with
  | String a (String b rest) =>
      match rest with
      | String c _ => if Ascii.eqb c e then x ← hex_value a; y ← hex_value b; Some (z2b (x * 16 + y)) else None
      | EmptyString => x ← hex_value a; y ← hex_value b; Some (z2b (x * 16 + y))
      end
  | _ => None
  end.

Fixpoint parse_pairs (n : nat) (s : string) (e : ascii) : option (list byte) :=
  match n with
  | O => Some []
  | S n => b ← xtoi2 s e; bs ← parse_pairs n (drop_string 3 s) e; Some (b :: bs)
  end.
Fixpoint parse_quads (n : nat) (s : string) : option (list byte) :=
  match n with
  | O => Some []
  | S n =>
      a ← xtoi2 (take_string 2 s) "000"%char; b ← xtoi2 (drop_string 2 s) ".";
      bs ← parse_quads n (drop_string 5 s); Some (a :: b :: bs)
  end.

Definition mac_len (n : nat) : bool := (n =? 6)%nat || (n =? 8)%nat || (n =? 20)%nat.

(** [net.ParseMAC]; [None] is an error with a nil address. *)
Definition ParseMAC (s : string) : option HardwareAddr :=
  let len := String.length s in
  if (len <? 14)%nat then None
  else
    match String.get 2 s, String.get 4 s with
    | Some c, d =>
        if Ascii.eqb c ":" || Ascii.eqb c "-" then
          if negb ((len + 1) mod 3 =? 0)%nat then None
          else if negb (mac_len ((len + 1) / 3)) then None
          else parse_pairs ((len + 1) / 3) s c
        else if match d with Some d => Ascii.eqb d "." | None => false end then
          if negb ((len + 1) mod 5 =? 0)%nat then None
          else if negb (mac_len (2 * ((len + 1) / 5))) then None
          else parse_quads ((len + 1) / 5) s
        else None
    | None, _ => None
    end.

(** ** Laws *)

Example ParseIP_v4 : IP_String <$> ParseIP "10.2.2.1" = Some "10.2.2.1". Proof. by vm_compute. Qed.
Example ParseIP_v6 : IP_String <$> ParseIP "2001:db8::68" = Some "2001:db8::68". Proof. by vm_compute. Qed.
Example ParseIP_v6_full : IP_String <$> ParseIP "1:0:0:2:0:0:0:3" = Some "1:0:0:2::3". Proof. by vm_compute. Qed.
Example ParseIP_v6_end : IP_String <$> ParseIP "fe80::" = Some "fe80::". Proof. by vm_compute. Qed.
Example ParseIP_v6_all : IP_String <$> ParseIP "1:2:3:4:5:6:7:8" = Some "1:2:3:4:5:6:7:8". Proof. by vm_compute. Qed.
Example ParseIP_any : IP_String <$> ParseIP "::" = Some "::". Proof. by vm_compute. Qed.
Example ParseIP_mapped : IP_String <$> ParseIP "::ffff:1.2.3.4" = Some "1.2.3.4". Proof. by vm_compute. Qed.
Example ParseIP_bad : ParseIP "1.2.3.04" = None ∧ ParseIP "1:2" = None ∧ ParseIP "1:2:3:4:5:6:7:8:9" = None
  ∧ ParseIP "1::2::3" = None ∧ ParseIP "fe80::1%eth0" = None ∧ ParseIP "" = None. Proof. by vm_compute. Qed.
Example ParseMAC_colon : HardwareAddr_String <$> ParseMAC "90:61:AE-fb:c2:19" = None. Proof. by vm_compute. Qed.
Example ParseMAC_ok : HardwareAddr_String <$> ParseMAC "90:61:AE:fb:c2:19" = Some "90:61:ae:fb:c2:19". Proof. by vm_compute. Qed.
Example ParseMAC_dot : HardwareAddr_String <$> ParseMAC "9061.aefb.c219" = Some "90:61:ae:fb:c2:19". Proof. by vm_compute. Qed.

Lemma parseIPv4_loop_length s prev fields val dl r :
  parseIPv4_loop s prev fields val dl = Some r → (length fields ≤ 3)%nat → length r = 4%nat.
Proof.
  revert prev fields val dl. induction s as [|c s IH]; intros prev fields val dl; cbn [parseIPv4_loop].
  - destruct (_ <? _)%nat eqn:E; [done|]. apply Nat.ltb_ge in E. intros [= <-] Hl. rewrite length_app. simpl. lia.
  - destruct (digit_value c) as [d|].
    + destruct (_ && _); [done|]. destruct (_ <? _); [done|]. apply IH.
    + destruct (Ascii.eqb c "."); [|done]. destruct (_ || _); [done|].
      destruct (length fields =? 3)%nat eqn:E; [done|]. apply Nat.eqb_neq in E. intros H Hl.
      eapply IH; [exact H|]. rewrite length_app. simpl. lia.
Qed.
Lemma parseIPv4_length s r : parseIPv4 s = Some r → length r = 4%nat.
Proof.
  unfold parseIPv4. destruct (parseIPv4_loop s None [] 0 0) as [fs|] eqn:E; [|done].
  intros [= <-]. rewrite length_map. eapply parseIPv4_loop_length; [exact E|simpl; lia].
Qed.

Lemma parseIPv6_loop_length fuel s ip e r : parseIPv6_loop fuel s ip e = Some r →
  Nat.Even (length ip) → (length ip ≤ 16)%nat → Nat.Even (length r.1.1) ∧ (length r.1.1 ≤ 16)%nat.
Proof.
  revert s ip e. induction fuel as [|fuel IH]; intros s ip e; cbn [parseIPv6_loop]; [by intros [= <-]|].
  destruct (16 <=? length ip)%nat eqn:E16; [by intros [= <-]|]. apply Nat.leb_gt in E16.
  destruct (hex_group s 0 0) as [[[acc off] rest]|]; cbn [mbind option_bind]; [|done].
  destruct (off =? 0)%nat; [done|]. intros H Hev Hl.
  assert (length ip + 2 ≤ 16)%nat as Hl2 by (destruct Hev as [k Hk]; lia).
  assert (Nat.Even (length (ip ++ be_encode 2 acc)) ∧ length (ip ++ be_encode 2 acc) ≤ 16)%nat as [Hev2 Hle2].
  { rewrite length_app, length_be_encode. split; [|lia]. destruct Hev as [k Hk]. exists (S k). lia. }
  assert (∀ v4, (16 <? length ip + 4)%nat = false → parseIPv4 s = Some v4 →
    Nat.Even (length (ip ++ v4)) ∧ (length (ip ++ v4) ≤ 16)%nat) as H4.
  { intros v4 Hlt Hv%parseIPv4_length. apply Nat.ltb_ge in Hlt. rewrite length_app, Hv. split; [|lia].
    destruct Hev as [k Hk]. exists (k + 2)%nat. lia. }
  repeat (case_match; simplify_eq/=; try done); eauto.
  all: destruct (parseIPv4 s) as [v4|] eqn:Ev; simpl in *; simplify_eq/=; eauto.
Qed.

Lemma parseIPv6_length s r : parseIPv6 s = Some r → length r = 16%nat.
Proof.
  unfold parseIPv6. set (p := match s with String ":" _ => _ | _ => _ end). destruct p as [s' e].
  assert (∀ r', ('(ip, ellipsis, rest) ← parseIPv6_loop 9 s' [] e;
      if negb (String.eqb rest "") then None
      else if (length ip <? 16)%nat then
        match ellipsis with
        | None => None
        | Some e => Some (take e ip ++ replicate (16 - length ip) Byte.x00 ++ drop e ip)
        end
      else match ellipsis with Some _ => None | None => Some ip end) = Some r' → length r' = 16%nat) as H.
  { intros r'. destruct (parseIPv6_loop 9 s' [] e) as [[[ip e'] rest]|] eqn:E; cbn [mbind option_bind]; [|done].
    apply parseIPv6_loop_length in E as [_ Hle]; [|by exists 0%nat|simpl; lia]. simpl in Hle.
    destruct (negb _); [done|]. destruct (length ip <? 16)%nat eqn:El.
    - destruct e' as [k|]; [|done]. intros [= <-]. apply Nat.ltb_lt in El.
      rewrite !length_app, length_replicate, length_take, length_drop. lia.
    - apply Nat.ltb_ge in El. destruct e'; [done|]. intros [= <-]. lia. }
  destruct e; [destruct s'|]; [by intros [= <-]|apply H..].
Qed.

Lemma ParseIP_length s ip : ParseIP s = Some ip → length ip = 16%nat.
Proof.
  unfold ParseIP. destruct (addr_kind s) as [c|]; [|done]. intros E.
  assert (c = "."%char ∨ c = ":"%char) as [-> | ->].
  { destruct c as [[] [] [] [] [] [] [] []]; try done; eauto. }
  - destruct (parseIPv4 s) as [v4|] eqn:E4; [|done]. simplify_eq/=. apply parseIPv4_length in E4. by rewrite E4.
  - destruct (Contains s "%"); [done|]. by apply parseIPv6_length in E.
Qed.

Lemma To4_Some ip v4 : To4 ip = Some v4 → length v4 = 4%nat ∧ IP_String ip = dotted v4 ∧ IP_String v4 = dotted v4.
Proof.
  intros E. assert (length v4 = 4%nat ∧ (length ip = 4%nat ∨ length ip = 16%nat)) as [H4 Hl].
  { unfold To4 in E. destruct (length ip =? 4)%nat eqn:E4; [injection E as <-; apply Nat.eqb_eq in E4; auto|].
    destruct (length ip =? 16)%nat eqn:E16; [|done]. simpl in E. destruct (bool_decide _); [|done].
    injection E as <-. apply Nat.eqb_eq in E16. rewrite length_drop. lia. }
  split; [done|]. unfold IP_String. rewrite E, H4. split; [|by unfold To4; rewrite H4].
  by destruct Hl as [-> | ->].
Qed.

(** ** Networks: [ParseCIDR] and [IPNet.Contains] *)

Record IPNet := mkIPNet { Net_IP : IP; Net_Mask : list byte }.

(** [dtoi] on a string that must be all digits; [big] bounds the value. *)
Fixpoint dtoi_loop (s : string) (n : Z) : option Z :=
  match s with
  | EmptyString => Some n
  | String c s =>
      d ← digit_value c;
      if 0xFFFFFF <=? n * 10 + d then None else dtoi_loop s (n * 10 + d)
  end.
Definition dtoi (s : string) : option Z := match s with EmptyString => None | _ => dtoi_loop s 0 end.

(** [^byte(0xff >> n)]: the top [n] bits. *)
Definition mask_byte (n : nat) : byte := z2b (255 - Z.shiftr 255 (Z.of_nat n)).
Fixpoint CIDRMask (ones l : nat) : list byte :=
  match l with
  | O => []
  | S l => mask_byte (min ones 8) :: CIDRMask (ones - 8) l
  end.

Definition and_bytes (a b : list byte) : list byte := zip_with (λ x y, z2b (Z.land (b2z x) (b2z y))) a b.

(** [ip.Mask(mask)] for an address of sixteen bytes, [None] where it is nil. *)
Definition IP_Mask (ip : IP) (mask : list byte) : option IP :=
  let ip := if (length mask =? 4)%nat && (length ip =? 16)%nat && bool_decide (take 12 ip = v4InV6Prefix)
            then drop 12 ip else ip in
  if (length ip =? length mask)%nat then Some (and_bytes ip mask) else None.

(** The text's own family decides the width of the mask. *)
Definition ParseCIDR (s : string) : option (IP * IPNet) :=
  '(addr, mask) ← Cut s "/";
  ip ← ParseIP addr;
  n ← dtoi mask;
  let len := match addr_kind addr with Some "."%char => 4%nat | _ => 16%nat end in
  if 8 * Z.of_nat len <? n then None
  else
    let m := CIDRMask (Z.to_nat n) len in
    nw ← IP_Mask ip m;
    Some (ip, {| Net_IP := nw; Net_Mask := m |}).

Definition networkNumberAndMask (n : IPNet) : option (IP * list byte) :=
  ip ← match To4 (Net_IP n) with
       | Some v4 => Some v4
       | None => if (length (Net_IP n) =? 16)%nat then Some (Net_IP n) else None
       end;
  let m := Net_Mask n in
  if (length m =? 4)%nat then if (length ip =? 4)%nat then Some (ip, m) else None
  else if (length m =? 16)%nat then Some (ip, if (length ip =? 4)%nat then drop 12 m else m)
  else None.

(** [n.Contains(ip)]; a nil address has no bytes, a nil network number neither. *)
Definition IPNet_Contains (n : IPNet) (ip : option IP) : bool :=
  let '(nn, m) := default ([], []) (networkNumberAndMask n) in
  let x := match ip with
           | None => []
           | Some ip => default ip (To4 ip)
           end in
  (length x =? length nn)%nat && bool_decide (and_bytes nn m = and_bytes x m).

(** A mask of [ones] bits compares the leading [ones] bits, as one number. *)
Lemma be_decode_cons b l : be_decode (b :: l) = b2z b * 2 ^ (8 * Z.of_nat (length l)) + be_decode l.
Proof.
  induction l as [|c l IH] using rev_ind; [unfold be_decode; simpl; lia|].
  rewrite app_comm_cons, !be_decode_snoc, IH, length_app. simpl.
  replace (8 * Z.of_nat (length l + 1)) with (8 * Z.of_nat (length l) + 8) by lia.
  rewrite Z.pow_add_r by lia. lia.
Qed.

Definition mask_check (n : nat) (x : Z) : bool :=
  Z.land x (b2z (mask_byte n)) =? Z.shiftl (Z.shiftr x (8 - Z.of_nat n)) (8 - Z.of_nat n).
Lemma mask_checked : forallb (λ n, forallb (λ x, mask_check n (Z.of_nat x)) (seq 0 256)) (seq 0 9) = true.
Proof. vm_compute. reflexivity. Qed.

Lemma land_mask_byte n b : (n ≤ 8)%nat →
  Z.land (b2z b) (b2z (mask_byte n)) = b2z b / 2 ^ (8 - Z.of_nat n) * 2 ^ (8 - Z.of_nat n).
Proof.
  intros Hn. pose proof mask_checked as H. rewrite forallb_forall in H.
  specialize (H n ltac:(apply in_seq; lia)). rewrite forallb_forall in H. pose proof (b2z_range b) as Hb.
  specialize (H (Z.to_nat (b2z b)) ltac:(apply in_seq; lia)). rewrite Z2Nat.id in H by lia.
  unfold mask_check in H. apply Z.eqb_eq in H. rewrite H. by rewrite Z.shiftl_mul_pow2, Z.shiftr_div_pow2 by lia.
Qed.

Lemma z2b_land_mask n a b : (n ≤ 8)%nat →
  z2b (Z.land (b2z a) (b2z (mask_byte n))) = z2b (Z.land (b2z b) (b2z (mask_byte n))) ↔
  b2z a / 2 ^ (8 - Z.of_nat n) = b2z b / 2 ^ (8 - Z.of_nat n).
Proof.
  intros Hn. rewrite !land_mask_byte by done. pose proof (b2z_range a). pose proof (b2z_range b).
  assert (0 < 2 ^ (8 - Z.of_nat n)) as Hp by (apply Z.pow_pos_nonneg; lia).
  assert (∀ x, 0 ≤ b2z x / 2 ^ (8 - Z.of_nat n) * 2 ^ (8 - Z.of_nat n) < 256) as Hr.
  { intros x. pose proof (b2z_range x). pose proof (Z.mul_div_le (b2z x) (2 ^ (8 - Z.of_nat n)) Hp).
    pose proof (Z.div_pos (b2z x) (2 ^ (8 - Z.of_nat n)) ltac:(lia) Hp). nia. }
  split; [|by intros ->]. intros E. apply (f_equal b2z) in E. rewrite !b2z_z2b in E.
  unfold wrapu in E. change (2 ^ 8) with 256 in E. rewrite !Z.mod_small in E by apply Hr. nia.
Qed.

Lemma CIDRMask_0 l a b : length a = l → length b = l → and_bytes a (CIDRMask 0 l) = and_bytes b (CIDRMask 0 l).
Proof.
  revert a b. induction l as [|l IH]; intros [|x a] [|y b] Ha Hb; try done. injection Ha as Ha. injection Hb as Hb.
  unfold and_bytes. cbn [CIDRMask zip_with]. f_equal; [|by apply IH].
  change (mask_byte (min 0 8)) with Byte.x00. by rewrite !Z.land_0_r.
Qed.

Lemma cons_eq_iff {A} (x y : A) (l k : list A) : x :: l = y :: k ↔ x = y ∧ l = k.
Proof. split; [by intros [= -> ->]|by intros [-> ->]]. Qed.

Lemma CIDRMask_prefix l ones a b : length a = l → length b = l → (ones ≤ 8 * l)%nat →
  let k := 8 * Z.of_nat l - Z.of_nat ones in
  and_bytes a (CIDRMask ones l) = and_bytes b (CIDRMask ones l) ↔ be_decode a / 2 ^ k = be_decode b / 2 ^ k.
Proof.
  revert ones a b. induction l as [|l IH]; intros ones a b Ha Hb Ho k; [by destruct a, b|].
  destruct a as [|x a], b as [|y b]; try done. injection Ha as Ha. injection Hb as Hb.
  unfold and_bytes. cbn [CIDRMask zip_with]. fold (and_bytes a (CIDRMask (ones - 8) l)) (and_bytes b (CIDRMask (ones - 8) l)).
  rewrite !be_decode_cons, Ha, Hb. pose proof (be_decode_range a) as Ra. pose proof (be_decode_range b) as Rb.
  rewrite Ha in Ra. rewrite Hb in Rb. change 256 with (2 ^ 8) in Ra, Rb. rewrite <-Z.pow_mul_r in Ra, Rb by lia.
  rewrite cons_eq_iff. rewrite z2b_land_mask by lia. destruct (decide (8 ≤ ones)%nat) as [H8|H8].
  - rewrite (Nat.min_r ones 8) by lia. change (8 - Z.of_nat 8) with 0. change (2 ^ 0) with 1. rewrite !Z.div_1_r.
    rewrite (IH (ones - 8)%nat a b Ha Hb ltac:(lia)). replace (8 * Z.of_nat l - Z.of_nat (ones - 8)) with k by lia.
    assert (0 < 2 ^ k) as Hk by (apply Z.pow_pos_nonneg; lia).
    replace (8 * Z.of_nat l) with (k + (8 * Z.of_nat l - k)) in * by lia.
    rewrite Z.pow_add_r in * by lia. set (d := 2 ^ k) in *. set (e := 2 ^ (8 * Z.of_nat l - k)) in *.
    rewrite !(Z.mul_comm d e), !Z.mul_assoc, !Z.div_add_l by lia.
    assert (0 ≤ be_decode a / d < e ∧ 0 ≤ be_decode b / d < e) as [? ?].
    { split; split; try (apply Z.div_pos; lia); apply Z.div_lt_upper_bound; lia. }
    split; [intros [-> ->]; done|]. intros E. assert (b2z x = b2z y) by nia. split; [done|nia].
  - replace (ones - 8)%nat with 0%nat by lia. rewrite (Nat.min_l ones 8) by lia.
    replace k with (8 * Z.of_nat l + (8 - Z.of_nat ones)) by lia. rewrite Z.pow_add_r by lia.
    set (d := 2 ^ (8 * Z.of_nat l)) in *. assert (0 < d) by lia. assert (0 < 2 ^ (8 - Z.of_nat ones)) by (apply Z.pow_pos_nonneg; lia).
    rewrite <-!Z.div_div, !Z.div_add_l by lia. rewrite !(Z.div_small (be_decode _)) by lia. rewrite !Z.add_0_r.
    split; [by intros [? _]|]. intros ?. split; [done|]. by apply CIDRMask_0.
Qed.

Lemma land_byte x m : Z.land (b2z x) m `mod` 256 = Z.land (b2z x) m.
Proof.
  change 256 with (2 ^ 8). pose proof (b2z_range x) as R.
  assert (Z.land (b2z x) (Z.ones 8) = b2z x) as E by (rewrite Z.land_ones by done; by apply Z.mod_small).
  rewrite <-E at 2. rewrite <-(Z.land_ones _ 8), <-!Z.land_assoc, (Z.land_comm m) by done. done.
Qed.

Lemma and_bytes_idem a m : and_bytes (and_bytes a m) m = and_bytes a m.
Proof.
  revert m. induction a as [|x a IH]; intros [|y m]; try done. unfold and_bytes. cbn [zip_with]. f_equal; [|apply IH].
  by rewrite b2z_z2b, land_byte, <-Z.land_assoc, Z.land_diag.
Qed.

Lemma and_bytes_length a m : length a = length m → length (and_bytes a m) = length a.
Proof. intros E. unfold and_bytes. rewrite length_zip_with. lia. Qed.

Lemma CIDRMask_length ones l : length (CIDRMask ones l) = l.
Proof. revert ones. induction l as [|l IH]; intros ones; [done|]. cbn [CIDRMask length]. by rewrite IH. Qed.

Lemma ParseCIDR_inv s ip n : ParseCIDR s = Some (ip, n) →
  ∃ addr mask ones, Cut s "/" = Some (addr, mask) ∧ ParseIP addr = Some ip ∧ dtoi mask = Some ones ∧
    let l := match addr_kind addr with Some "."%char => 4%nat | _ => 16%nat end in
    ones ≤ 8 * Z.of_nat l ∧ Net_Mask n = CIDRMask (Z.to_nat ones) l ∧ IP_Mask ip (Net_Mask n) = Some (Net_IP n).
Proof.
  unfold ParseCIDR. intros E. destruct (Cut s "/") as [[addr mask]|] eqn:Ec; [|done]. cbn [mbind option_bind] in E.
  destruct (ParseIP addr) as [ip0|] eqn:Ep; [|done]. destruct (dtoi mask) as [ones|] eqn:Ed; [|done].
  cbn [mbind option_bind] in E. cbv zeta in E. set (l := match addr_kind addr with Some "."%char => 4%nat | _ => 16%nat end) in *.
  destruct (_ <? ones) eqn:El; [done|]. apply Z.ltb_ge in El.
  destruct (IP_Mask ip0 _) as [nw|] eqn:Em; [|done]. injection E as <- <-.
  exists addr, mask, ones. split; [done|]. split; [done|]. split; [done|]. split; [done|]. split; [done|exact Em].
Qed.

Lemma dtoi_nonneg s n : dtoi s = Some n → 0 ≤ n.
Proof.
  assert (∀ s acc n, 0 ≤ acc → dtoi_loop s acc = Some n → 0 ≤ n) as H.
  { intros s0. induction s0 as [|c s0 IH]; intros acc n0 Ha; cbn [dtoi_loop]; [by intros [= <-]|].
    destruct (digit_value c) as [d|] eqn:Ed; [|done]. cbn [mbind option_bind]. destruct (_ <=? _); [done|].
    apply IH. unfold digit_value in Ed. destruct (_ && _) eqn:Eb in Ed; [|done]. injection Ed as <-.
    apply andb_true_iff in Eb as [Hl Hu]. apply Nat.leb_le in Hl. lia. }
  unfold dtoi. destruct s; [done|]. by apply H.
Qed.

(** A network written with an IPv4 address holds the IPv4 addresses, mapped ones
    included, that share its leading bits. *)
Lemma Contains_v4 s ip n v4 : ParseCIDR s = Some (ip, n) → length (Net_Mask n) = 4%nat → To4 ip = Some v4 →
  ∃ ones, 0 ≤ ones ≤ 32 ∧ Net_Mask n = CIDRMask (Z.to_nat ones) 4 ∧
    ∀ x, IPNet_Contains n x = true ↔ ∃ x4, x ≫= To4 = Some x4 ∧
      be_decode x4 / 2 ^ (32 - ones) = be_decode v4 / 2 ^ (32 - ones).
Proof.
  intros E Hm H4. apply ParseCIDR_inv in E as (addr & mask & ones & _ & Hp & Hd & Ho & Hn & Hi).
  rewrite Hn, CIDRMask_length in Hm. set (l := match addr_kind addr with Some "."%char => 4%nat | _ => 16%nat end) in *.
  clearbody l. subst l. cbn [Z.of_nat Pos.of_succ_nat Pos.succ Z.mul Pos.mul] in Ho.
  pose proof (dtoi_nonneg _ _ Hd). exists ones. split; [lia|]. split; [done|]. intros x.
  pose proof (ParseIP_length _ _ Hp) as Hl. destruct (To4_Some _ _ H4) as (Hv & _ & _).
  assert (drop 12 ip = v4 ∧ take 12 ip = v4InV6Prefix) as [Hdrop Htake].
  { unfold To4 in H4. rewrite Hl in H4. change (16 =? 4)%nat with false in H4. change (16 =? 16)%nat with true in H4.
    cbn [andb] in H4. destruct (bool_decide _) eqn:Eb; [|done]. apply bool_decide_eq_true in Eb. by injection H4. }
  assert (Net_IP n = and_bytes v4 (Net_Mask n)) as Hnet.
  { unfold IP_Mask in Hi. rewrite Hn, CIDRMask_length, Hl in Hi. change (4 =? 4)%nat with true in Hi.
    change (16 =? 16)%nat with true in Hi. rewrite bool_decide_true in Hi by done. cbn [andb] in Hi.
    rewrite Hdrop, Hv in Hi. change (4 =? 4)%nat with true in Hi. rewrite Hn. by injection Hi. }
  assert (length (Net_IP n) = 4%nat) as Hnl by (rewrite Hnet, Hn, and_bytes_length, Hv; [done|by rewrite CIDRMask_length]).
  unfold IPNet_Contains, networkNumberAndMask. unfold To4 at 1. rewrite Hnl. change (4 =? 4)%nat with true.
  cbn [mbind option_bind]. cbv zeta. rewrite Hn, CIDRMask_length. change (4 =? 4)%nat with true.
  rewrite Hnl. change (4 =? 4)%nat with true. cbn [default from_option id].
  rewrite Hnet, Hn, and_bytes_length by (by rewrite CIDRMask_length, Hv). rewrite Hv, and_bytes_idem.
  rewrite andb_true_iff, Nat.eqb_eq, bool_decide_eq_true.
  pose proof (λ a, CIDRMask_prefix 4 (Z.to_nat ones) v4 a Hv) as Hpre.
  split.
  - intros [Hx Hand]. destruct x as [y|]; [|done]. cbn [mbind option_bind]. destruct (To4 y) as [x4|] eqn:Ey.
    + cbn [default from_option id] in *. exists x4. split; [done|]. apply Hpre in Hand; [|done|lia].
      rewrite Z2Nat.id in Hand by lia. by symmetry.
    + cbn [default from_option id] in Hx. unfold To4 in Ey. by rewrite Hx in Ey.
  - intros (x4 & Hx & Hq). destruct x as [y|]; [|done]. cbn [mbind option_bind] in Hx. rewrite Hx. cbn [default from_option id].
    destruct (To4_Some _ _ Hx) as (Hx4 & _ & _). split; [done|]. apply Hpre; [done|lia|]. rewrite Z2Nat.id by lia. by symmetry.
Qed.
