(* ===== verification/Jchf.v ===== *)
(** The flow record [kt.JCHF] (src/pkg/kt/types.go), its rendering as a map, its
    keys, and the output envelope.

    A Go map is [None] when nil; reading a nil map gives the zero value, writing one
    panics.  float32 and float64 values are only copied and are kept as bits. *)
From S2P Require Import Prelude GoStrings.
Local Open Scope Z_scope.

Abbreviation gomap A := (option (gmap string A)).
Definition float32 := Z.
Definition float64 := Z.
#[export] Instance float32_eq_dec : EqDecision float32 := Z.eq_dec.
#[export] Instance float64_eq_dec : EqDecision float64 := Z.eq_dec.

Definition map_get {A} (zero : A) (m : gomap A) (k : string) : A := default zero (m ≫= (.!! k)).
Definition map_set {A} (k : string) (v : A) (m : gomap A) : res (gomap A) :=
  match m with Some m => Ok (Some (<[k := v]> m)) | None => Panic "assignment to entry in nil map" end.
Definition map_range {A} (m : gomap A) : gmap string A := default ∅ m.

Definition IfaceID := Z.
Definition DeviceID := Z.
Definition Cid := Z.
Definition Provider_ := string.
Definition OutputType := string.

(** Pointers to parsed objects this package only carries. *)
Record Regexp := mkRegexp { pattern : string }.
Record Content := mkContent { MimeType : string; Size : Z; Compression : Z }.
Record Request := mkRequest { Method : string; Url : string }.
Record Response := mkResponse { Status : Z; Response_Content : Content }.
Record Entry := mkEntry { Entry_Request : Request; Entry_Response : Response; Entry_Time : float64 }.
Record HarLog := mkHarLog { Entries : list Entry }.
Record HarFile := mkHarFile { HarLog_ : HarLog }.

Record MetricInfo := mkMetricInfo {
  Oid : string; Mib : string; MI_Name : string; Profile : string; MI_Table : string;
  Format : string; MI_Type : string; PollDur : Z; Tables : gomap bool }.

(** The entries of a metadata table, without the SNMP object they came from. *)
Record MetaValue := mkMetaValue {
  TableName : string; TableNames : gomap bool; StringVal : string; IntVal : Z }.
Record DeviceTableMetadata := mkDeviceTableMetadata { Customs : gomap MetaValue }.

(** The values of the rendered map. *)
Inductive avro :=
| AInt64 (z : Z)
| AInt32 (z : Z)
| AFloat32 (f : float32)
| AString (s : string)
| AProvider (s : Provider_)
| AMapStr (m : gomap string)
| AMapInt32 (m : gomap Z)
| AMapInt64 (m : gomap Z)
| AMapFloat32 (m : gomap float32).
#[export] Instance avro_eq_dec : EqDecision avro.
Proof. solve_decision. Defined.

Record JCHF := mkJCHF {
  Timestamp : Z;
  DstAs : Z;
  DstGeo : string;
  HeaderLen : Z;
  InBytes : Z;
  InPkts : Z;
  InputPort : IfaceID;
  IpSize : Z;
  DstAddr : string;
  SrcAddr : string;
  L4DstPort : Z;
  L4SrcPort : Z;
  OutputPort : IfaceID;
  Protocol : string;
  SampledPacketSize : Z;
  SrcAs : Z;
  SrcGeo : string;
  TcpFlags : Z;
  Tos : Z;
  VlanIn : Z;
  VlanOut : Z;
  NextHop : string;
  MplsType : Z;
  OutBytes : Z;
  OutPkts : Z;
  TcpRetransmit : Z;
  SrcFlowTags : string;
  DstFlowTags : string;
  SampleRate : Z;
  DeviceId : DeviceID;
  DeviceName : string;
  CompanyId : Cid;
  DstBgpAsPath : string;
  DstBgpCommunity : string;
  SrcBgpAsPath : string;
  SrcBgpCommunity : string;
  SrcNextHopAs : Z;
  DstNextHopAs : Z;
  SrcGeoRegion : string;
  DstGeoRegion : string;
  SrcGeoCity : string;
  DstGeoCity : string;
  DstNextHop : string;
  SrcNextHop : string;
  SrcRoutePrefix : string;
  DstRoutePrefix : string;
  SrcSecondAsn : Z;
  DstSecondAsn : Z;
  SrcThirdAsn : Z;
  DstThirdAsn : Z;
  SrcEthMac : string;
  DstEthMac : string;
  InputIntDesc : string;
  OutputIntDesc : string;
  InputIntAlias : string;
  OutputIntAlias : string;
  InputInterfaceCapacity : Z;
  OutputInterfaceCapacity : Z;
  InputInterfaceIP : string;
  OutputInterfaceIP : string;
  CustomStr : gomap string;
  CustomInt : gomap Z;
  CustomBigInt : gomap Z;
  CustomFloat : gomap float32;
  EventType : string;
  Provider : Provider_;
  avroSet : gomap avro;
  hasSetAvro : bool;
  CustomMetrics : gomap MetricInfo;
  CustomTables : gomap DeviceTableMetadata;
  MatchAttr : gomap Regexp;
  ApplySample : bool;
  Har : option HarFile }.

(** The zero value of the struct. *)
Definition JCHF_zero : JCHF :=
  {| Timestamp := 0;
     DstAs := 0;
     DstGeo := "";
     HeaderLen := 0;
     InBytes := 0;
     InPkts := 0;
     InputPort := 0;
     IpSize := 0;
     DstAddr := "";
     SrcAddr := "";
     L4DstPort := 0;
     L4SrcPort := 0;
     OutputPort := 0;
     Protocol := "";
     SampledPacketSize := 0;
     SrcAs := 0;
     SrcGeo := "";
     TcpFlags := 0;
     Tos := 0;
     VlanIn := 0;
     VlanOut := 0;
     NextHop := "";
     MplsType := 0;
     OutBytes := 0;
     OutPkts := 0;
     TcpRetransmit := 0;
     SrcFlowTags := "";
     DstFlowTags := "";
     SampleRate := 0;
     DeviceId := 0;
     DeviceName := "";
     CompanyId := 0;
     DstBgpAsPath := "";
     DstBgpCommunity := "";
     SrcBgpAsPath := "";
     SrcBgpCommunity := "";
     SrcNextHopAs := 0;
     DstNextHopAs := 0;
     SrcGeoRegion := "";
     DstGeoRegion := "";
     SrcGeoCity := "";
     DstGeoCity := "";
     DstNextHop := "";
     SrcNextHop := "";
     SrcRoutePrefix := "";
     DstRoutePrefix := "";
     SrcSecondAsn := 0;
     DstSecondAsn := 0;
     SrcThirdAsn := 0;
     DstThirdAsn := 0;
     SrcEthMac := "";
     DstEthMac := "";
     InputIntDesc := "";
     OutputIntDesc := "";
     InputIntAlias := "";
     OutputIntAlias := "";
     InputInterfaceCapacity := 0;
     OutputInterfaceCapacity := 0;
     InputInterfaceIP := "";
     OutputInterfaceIP := "";
     CustomStr := None;
     CustomInt := None;
     CustomBigInt := None;
     CustomFloat := None;
     EventType := "";
     Provider := "";
     avroSet := None;
     hasSetAvro := false;
     CustomMetrics := None;
     CustomTables := None;
     MatchAttr := None;
     ApplySample := false;
     Har := None |}.

Definition JCHF_eta (j : JCHF) : JCHF :=
  {| Timestamp := Timestamp j;
     DstAs := DstAs j;
     DstGeo := DstGeo j;
     HeaderLen := HeaderLen j;
     InBytes := InBytes j;
     InPkts := InPkts j;
     InputPort := InputPort j;
     IpSize := IpSize j;
     DstAddr := DstAddr j;
     SrcAddr := SrcAddr j;
     L4DstPort := L4DstPort j;
     L4SrcPort := L4SrcPort j;
     OutputPort := OutputPort j;
     Protocol := Protocol j;
     SampledPacketSize := SampledPacketSize j;
     SrcAs := SrcAs j;
     SrcGeo := SrcGeo j;
     TcpFlags := TcpFlags j;
     Tos := Tos j;
     VlanIn := VlanIn j;
     VlanOut := VlanOut j;
     NextHop := NextHop j;
     MplsType := MplsType j;
     OutBytes := OutBytes j;
     OutPkts := OutPkts j;
     TcpRetransmit := TcpRetransmit j;
     SrcFlowTags := SrcFlowTags j;
     DstFlowTags := DstFlowTags j;
     SampleRate := SampleRate j;
     DeviceId := DeviceId j;
     DeviceName := DeviceName j;
     CompanyId := CompanyId j;
     DstBgpAsPath := DstBgpAsPath j;
     DstBgpCommunity := DstBgpCommunity j;
     SrcBgpAsPath := SrcBgpAsPath j;
     SrcBgpCommunity := SrcBgpCommunity j;
     SrcNextHopAs := SrcNextHopAs j;
     DstNextHopAs := DstNextHopAs j;
     SrcGeoRegion := SrcGeoRegion j;
     DstGeoRegion := DstGeoRegion j;
     SrcGeoCity := SrcGeoCity j;
     DstGeoCity := DstGeoCity j;
     DstNextHop := DstNextHop j;
     SrcNextHop := SrcNextHop j;
     SrcRoutePrefix := SrcRoutePrefix j;
     DstRoutePrefix := DstRoutePrefix j;
     SrcSecondAsn := SrcSecondAsn j;
     DstSecondAsn := DstSecondAsn j;
     SrcThirdAsn := SrcThirdAsn j;
     DstThirdAsn := DstThirdAsn j;
     SrcEthMac := SrcEthMac j;
     DstEthMac := DstEthMac j;
     InputIntDesc := InputIntDesc j;
     OutputIntDesc := OutputIntDesc j;
     InputIntAlias := InputIntAlias j;
     OutputIntAlias := OutputIntAlias j;
     InputInterfaceCapacity := InputInterfaceCapacity j;
     OutputInterfaceCapacity := OutputInterfaceCapacity j;
     InputInterfaceIP := InputInterfaceIP j;
     OutputInterfaceIP := OutputInterfaceIP j;
     CustomStr := CustomStr j;
     CustomInt := CustomInt j;
     CustomBigInt := CustomBigInt j;
     CustomFloat := CustomFloat j;
     EventType := EventType j;
     Provider := Provider j;
     avroSet := avroSet j;
     hasSetAvro := hasSetAvro j;
     CustomMetrics := CustomMetrics j;
     CustomTables := CustomTables j;
     MatchAttr := MatchAttr j;
     ApplySample := ApplySample j;
     Har := Har j |}.

(** [j <| field := v |>] assigns one field of the struct. *)
Class Setter {A} (f : JCHF → A) := set_field : A → JCHF → JCHF.
Arguments set_field {A} f {_} v j.
Notation "j <| f := v |>" := (set_field f v j) (at level 1, left associativity, f at level 9, v at level 80).
Ltac build_setter :=
  lazymatch goal with
  | |- Setter ?f =>
      let v := fresh "v" in let j := fresh "j" in
      unfold Setter; intros v j;
      let e := eval cbv beta delta [JCHF_eta] in (JCHF_eta j) in
      let p := eval pattern (f j) in e in
      match p with ?g _ => let r := eval cbv beta in (g v) in exact r end
  end.
#[export] Hint Extern 0 (Setter ?f) => build_setter : typeclass_instances.

(** ** [ToMap] *)

Definition avro_rows (j : JCHF) : list (string * avro) :=
  [ ("timestamp", AInt64 (wraps 64 (Timestamp j)));
    ("dst_as", AInt64 (wraps 64 (DstAs j)));
    ("dst_geo", AString (DstGeo j));
    ("header_len", AInt64 (wraps 64 (HeaderLen j)));
    ("in_bytes", AInt64 (wraps 64 (InBytes j)));
    ("in_pkts", AInt64 (wraps 64 (InPkts j)));
    ("input_port", AInt64 (wraps 64 (InputPort j)));
    ("dst_addr", AString (DstAddr j));
    ("src_addr", AString (SrcAddr j));
    ("l4_dst_port", AInt64 (wraps 64 (L4DstPort j)));
    ("l4_src_port", AInt64 (wraps 64 (L4SrcPort j)));
    ("output_port", AInt64 (wraps 64 (OutputPort j)));
    ("protocol", AString (Protocol j));
    ("sampled_packet_size", AInt64 (wraps 64 (SampledPacketSize j)));
    ("src_as", AInt64 (wraps 64 (SrcAs j)));
    ("src_geo", AString (SrcGeo j));
    ("tcp_flags", AInt64 (wraps 64 (TcpFlags j)));
    ("tos", AInt64 (wraps 64 (Tos j)));
    ("vlan_in", AInt64 (wraps 64 (VlanIn j)));
    ("vlan_out", AInt64 (wraps 64 (VlanOut j)));
    ("out_bytes", AInt64 (wraps 64 (OutBytes j)));
    ("out_pkts", AInt64 (wraps 64 (OutPkts j)));
    ("tcp_rx", AInt64 (wraps 64 (TcpRetransmit j)));
    ("src_flow_tags", AString (SrcFlowTags j));
    ("dst_flow_tags", AString (DstFlowTags j));
    ("sample_rate", AInt64 (wraps 64 (SampleRate j)));
    ("device_id", AInt64 (wraps 64 (DeviceId j)));
    ("device_name", AString (DeviceName j));
    ("company_id", AInt64 (wraps 64 (CompanyId j)));
    ("dst_bgp_as_path", AString (DstBgpAsPath j));
    ("dst_bgp_comm", AString (DstBgpCommunity j));
    ("src_bpg_as_path", AString (SrcBgpAsPath j));
    ("src_bgp_comm", AString (SrcBgpCommunity j));
    ("src_nexthop_as", AInt64 (wraps 64 (SrcNextHopAs j)));
    ("dst_nexthop_as", AInt64 (wraps 64 (DstNextHopAs j)));
    ("src_geo_region", AString (SrcGeoRegion j));
    ("dst_geo_region", AString (DstGeoRegion j));
    ("src_geo_city", AString (SrcGeoCity j));
    ("dst_geo_city", AString (DstGeoCity j));
    ("dst_nexthop", AString (DstNextHop j));
    ("src_nexthop", AString (SrcNextHop j));
    ("src_route_prefix", AString (SrcRoutePrefix j));
    ("dst_route_prefix", AString (DstRoutePrefix j));
    ("src_second_asn", AInt64 (wraps 64 (SrcSecondAsn j)));
    ("dst_second_asn", AInt64 (wraps 64 (DstSecondAsn j)));
    ("src_third_asn", AInt64 (wraps 64 (SrcThirdAsn j)));
    ("dst_third_asn", AInt64 (wraps 64 (DstThirdAsn j)));
    ("src_eth_mac", AString (SrcEthMac j));
    ("dst_eth_mac", AString (DstEthMac j));
    ("input_int_desc", AString (InputIntDesc j));
    ("output_int_desc", AString (OutputIntDesc j));
    ("input_int_alias", AString (InputIntAlias j));
    ("output_int_alias", AString (OutputIntAlias j));
    ("input_interface_capacity", AInt64 (InputInterfaceCapacity j));
    ("output_interface_capacity", AInt64 (OutputInterfaceCapacity j));
    ("input_interface_ip", AString (InputInterfaceIP j));
    ("output_interface_ip", AString (OutputInterfaceIP j));
    ("custom_str", AMapStr (CustomStr j));
    ("custom_int", AMapInt32 (CustomInt j));
    ("custom_bigint", AMapInt64 (CustomBigInt j));
    ("custom_float", AMapFloat32 (CustomFloat j));
    ("eventType", AString (EventType j));
    ("provider", AProvider (Provider j)) ].

(** The map is filled in place and cached: a record whose map is set gives the
    cached map whatever its fields hold now.  Writing to a nil map panics. *)
Definition ToMap (j : JCHF) : res (JCHF * gmap string avro) :=
  if hasSetAvro j then Ok (j, map_range (avroSet j))
  else
    match avroSet j with
    | None => Panic "assignment to entry in nil map"
    | Some m =>
        let m := foldl (λ m kv, <[kv.1 := kv.2]> m) m (avro_rows j) in
        Ok (j <| avroSet := Some m |> <| hasSetAvro := true |>, m)
    end.

(** ** [Flatten] *)

(** The entries of a map-valued value, as they are copied into the flat map. *)
Definition custom_of (v : avro) : option (gmap string avro) :=
  match v with
  | AMapStr m => Some (AString <$> map_range m)
  | AMapInt32 m => Some (AInt32 <$> map_range m)
  | AMapInt64 m => Some (AInt64 <$> map_range m)
  | AMapFloat32 m => Some (AFloat32 <$> map_range m)
  | _ => None
  end.

(** One round of [for k, v := range mapr], at key [k]: an entry removed before it
    is reached is not produced. *)
Definition Flatten_step (mapr : gmap string avro) (k : string) : gmap string avro :=
  match mapr !! k with
  | None => mapr
  | Some v =>
      match custom_of v with
      | Some mv => delete k (mv ∪ mapr)
      | None => if decide (v = AString "<nil>") then <[k := AString ""]> mapr else mapr
      end
  end.

(** [visit] is the order in which the range loop reaches the keys, which Go leaves
    open.  The flat map is the cached map of the record. *)
Definition Flatten (visit : list string) (j : JCHF) : res (JCHF * gmap string avro) :=
  '(j, mapr) ← ToMap j;
  let mapr := foldl Flatten_step mapr visit in
  Ok (j <| avroSet := Some mapr |>, mapr).

(** ** The other operations *)

Definition Cid_Itoa (id : Cid) : string := Itoa (wraps 64 id).
Definition DeviceID_Itoa (id : DeviceID) : string := Itoa (wraps 64 id).
Definition IfaceID_Itoa (id : IfaceID) : string := Itoa (wraps 64 id).

Definition MetricInfo_GetType (m : MetricInfo) : string :=
  if String.eqb (MI_Type m) "" then "snmp" else MI_Type m.

Definition NewJCHF : JCHF := JCHF_zero <| avroSet := Some ∅ |> <| hasSetAvro := false |>.
Definition Reset (j : JCHF) : JCHF := j <| hasSetAvro := false |>.

Definition SetMap (j : JCHF) : JCHF :=
  j <| avroSet := Some ∅ |> <| CustomStr := Some ∅ |> <| CustomInt := Some ∅ |>
    <| CustomBigInt := Some ∅ |> <| CustomFloat := Some ∅ |> <| CustomMetrics := Some ∅ |>
    <| CustomTables := Some ∅ |> <| MatchAttr := Some ∅ |>.

Definition SetIFPorts (p : IfaceID) (j : JCHF) : JCHF := j <| OutputPort := p |> <| InputPort := p |>.

Definition GetKey (j : JCHF) : string :=
  if L4SrcPort j <? 32768
  then Join [map_get "" (CustomStr j) "src_endpoint"; map_get "" (CustomStr j) "dst_endpoint"; Protocol j] "|"
  else Join [map_get "" (CustomStr j) "dst_endpoint"; map_get "" (CustomStr j) "src_endpoint"; Protocol j] "|".

(** [aid, _ := strconv.Atoi(id)]: the error is dropped, the value kept. *)
Definition NewAgentId (id : string) : Z := wrapu 64 (Atoi_value id).1.
Definition NewTestId (id : string) : Z := wrapu 64 (Atoi_value id).1.

(** ** The output envelope *)

Definition EventOutput : OutputType := "event".
Definition MetricOutput : OutputType := "metric".
Definition RollupOutput : OutputType := "rollup".

Record OutputContext := mkOutputContext {
  Ctx_Provider : Provider_; Ctx_Type : OutputType; Ctx_CompanyId : Cid; SenderId : string }.

(** Without the callback. *)
Record Output := mkOutput { Body : list byte; Ctx : OutputContext; NoBuffer : bool }.

Definition OutputContext_zero : OutputContext :=
  {| Ctx_Provider := ""; Ctx_Type := ""; Ctx_CompanyId := 0; SenderId := "" |}.

Definition NewOutput (body : list byte) : Output :=
  {| Body := body; Ctx := OutputContext_zero; NoBuffer := false |}.
Definition NewOutputWithProvider (body : list byte) (prov : Provider_) (stype : OutputType) : Output :=
  {| Body := body; NoBuffer := false;
     Ctx := {| Ctx_Provider := prov; Ctx_Type := stype; Ctx_CompanyId := 0; SenderId := "" |} |}.
Definition NewOutputWithProviderAndCompanySender (body : list byte) (prov : Provider_) (cid : Cid)
    (stype : OutputType) (senderid : string) : Output :=
  {| Body := body; NoBuffer := false;
     Ctx := {| Ctx_Provider := prov; Ctx_Type := stype; Ctx_CompanyId := cid; SenderId := senderid |} |}.
Definition NewOutputNoBuffer (body : list byte) : Output :=
  {| Body := body; Ctx := OutputContext_zero; NoBuffer := true |}.

Definition IsEvent (o : Output) : bool := String.eqb (Ctx_Type (Ctx o)) EventOutput.
Definition IsMetric (o : Output) : bool :=
  String.eqb (Ctx_Type (Ctx o)) RollupOutput || String.eqb (Ctx_Type (Ctx o)) MetricOutput.

(** The providers with a data type of their own. *)
Definition provider_types : list (Provider_ * string) :=
  [ ("kentik-router", "snmp"); ("kentik-vpc", "vpc-flows"); ("kentik-network-synthetic", "synthetics");
    ("kentik-switch", "snmp"); ("kentik-firewall", "snmp"); ("kentik-ups", "snmp");
    ("kentik-pdu", "snmp"); ("kentik-iot", "snmp"); ("kentik-host", "snmp"); ("kentik-alert", "snmp");
    ("kentik-flow-device", "device-flows") ].

Definition GetDataType (o : option Output) : string :=
  match o with
  | None => ""
  | Some o => default "device-flows" ((list_to_map provider_types : gmap string string) !! Ctx_Provider (Ctx o))
  end.

Definition BodyLen (o : option Output) : nat := match o with None => 0 | Some o => length (Body o) end.

(** ** Laws of [Flatten] *)

(** What the rewriting of the nil string leaves of a value. *)
Definition norm (v : avro) : avro := if decide (v = AString "<nil>") then AString "" else v.

Lemma norm_nil : norm (AString "") = norm (AString "<nil>").
Proof. done. Qed.
Lemma custom_of_flat v mv k w : custom_of v = Some mv → mv !! k = Some w → custom_of w = None.
Proof.
  destruct v; simpl; intros [= <-]; rewrite lookup_fmap; destruct (map_range _ !! k); simpl; by intros [= <-].
Qed.

Section flatten.
Context (m0 : gmap string avro).

(** The entries of the map-valued rows visited so far. *)
Definition row_custom (k : string) : gmap string avro := default ∅ (m0 !! k ≫= custom_of).
Definition extras (visited : list string) : gmap string avro :=
  foldl (λ acc k, row_custom k ∪ acc) ∅ visited.

Record flat_inv (visited : list string) (m : gmap string avro) : Prop := {
  fi_scalar k v : m0 !! k = Some v → custom_of v = None → norm <$> m !! k = Some (norm v);
  fi_map k v : m0 !! k = Some v → is_Some (custom_of v) →
    m !! k = if decide (k ∈ visited) then None else Some v;
  fi_extra k : m0 !! k = None → norm <$> m !! k = norm <$> extras visited !! k }.

Lemma flat_inv_nil : flat_inv [] m0.
Proof.
  constructor.
  - by intros k v -> _.
  - intros k v -> _. by rewrite decide_False by set_solver.
  - intros k ->. unfold extras. simpl. by rewrite lookup_empty.
Qed.

Lemma extras_nil : extras [] = ∅.
Proof. done. Qed.
Lemma extras_snoc visited k : extras (visited ++ [k]) = row_custom k ∪ extras visited.
Proof. unfold extras. by rewrite foldl_app. Qed.

Lemma extras_flat visited k v : extras visited !! k = Some v → custom_of v = None.
Proof.
  induction visited as [|s visited IH] using rev_ind; [by rewrite extras_nil, lookup_empty|].
  rewrite extras_snoc. intros [Hv|[_ Hv]]%lookup_union_Some_raw; [|auto].
  unfold row_custom in Hv. destruct (m0 !! s) as [w|] eqn:Ew; simpl in Hv; [|by rewrite lookup_empty in Hv].
  destruct (custom_of w) as [mv|] eqn:Ec; simpl in Hv; [|by rewrite lookup_empty in Hv].
  by eapply custom_of_flat.
Qed.

Lemma flat_step_scalar visited m k v :
  flat_inv visited m → m !! k = Some v → custom_of v = None → row_custom k = ∅ →
  flat_inv (visited ++ [k]) (if decide (v = AString "<nil>") then <[k := AString ""]> m else m).
Proof.
  intros [Hs Hm He] Hk Hv Hrow.
  assert (∀ k', norm <$> (if decide (v = AString "<nil>") then <[k := AString ""]> m else m) !! k' = norm <$> m !! k') as Hn.
  { intros k'. case_decide as Hd; [|done]. subst v. destruct (decide (k' = k)) as [->|].
    - by rewrite lookup_insert_eq, Hk.
    - by rewrite lookup_insert_ne by congruence. }
  constructor.
  - intros k' v' H0 Hc. rewrite Hn. by apply Hs.
  - intros k' v' H0 Hc. specialize (Hm k' v' H0 Hc).
    destruct (decide (k' = k)) as [->|Hne].
    + rewrite Hk in Hm. destruct (decide (k ∈ visited)); [done|]. injection Hm as ->.
      rewrite Hv in Hc. by destruct Hc.
    + assert ((if decide (v = AString "<nil>") then <[k := AString ""]> m else m) !! k' = m !! k') as ->.
      { case_decide; [|done]. by rewrite lookup_insert_ne by congruence. }
      rewrite Hm. destruct (decide (k' ∈ visited)), (decide (k' ∈ visited ++ [k])); set_solver.
  - intros k' H0. rewrite Hn, extras_snoc, Hrow, (left_id_L ∅ (∪)). by apply He.
Qed.

(** With pairwise disjoint rows the entries do not depend on the order. *)
Lemma extras_lookup visited k w :
  (∀ s1 s2, s1 ≠ s2 → row_custom s1 ##ₘ row_custom s2) → NoDup visited →
  extras visited !! k = Some w ↔ ∃ s, s ∈ visited ∧ row_custom s !! k = Some w.
Proof.
  intros Hd. induction visited as [|s visited IH] using rev_ind; intros Hnd.
  { rewrite extras_nil, lookup_empty. set_solver. }
  apply NoDup_app in Hnd as (Hnd & Hs & _). specialize (IH Hnd).
  rewrite extras_snoc, lookup_union_Some_raw, IH. split.
  - intros [Hw|[_ (s' & Hin & Hw)]]; [exists s|exists s']; set_solver.
  - intros (s' & [Hin| ->%list_elem_of_singleton]%elem_of_app & Hw); [right|by left].
    split; [|by exists s']. eapply map_disjoint_Some_r; [apply (Hd s s')|done]. set_solver.
Qed.
Hypothesis custom_fresh : ∀ k, row_custom k ##ₘ m0.

Lemma flat_step_map visited m k v mv :
  flat_inv visited m → m0 !! k = Some v → m !! k = Some v → custom_of v = Some mv →
  flat_inv (visited ++ [k]) (delete k (mv ∪ m)).
Proof using custom_fresh.
  intros [Hs Hm He] H0 Hk Hc.
  assert (row_custom k = mv) as Hrow by (unfold row_custom; by rewrite H0; simpl; rewrite Hc).
  pose proof (custom_fresh k) as Hf. rewrite Hrow in Hf.
  assert (∀ k' w, m0 !! k' = Some w → mv !! k' = None) as Hfresh by (intros; by eapply map_disjoint_Some_r).
  constructor.
  - intros k' v' H0' Hc'. assert (k' ≠ k) by congruence.
    rewrite lookup_delete_ne by congruence. rewrite lookup_union_r by eauto. by apply Hs.
  - intros k' v' H0' Hc'. destruct (decide (k' = k)) as [->|Hne].
    + rewrite lookup_delete_eq. by rewrite decide_True by set_solver.
    + rewrite lookup_delete_ne by congruence. rewrite lookup_union_r by eauto. rewrite (Hm k' v') by done.
      destruct (decide (k' ∈ visited)), (decide (k' ∈ visited ++ [k])); set_solver.
  - intros k' H0'. assert (k' ≠ k) by congruence.
    rewrite lookup_delete_ne by congruence. rewrite extras_snoc, Hrow.
    destruct (mv !! k') as [w|] eqn:Ew.
    + by rewrite !(lookup_union_Some_l _ _ _ _ Ew).
    + rewrite !lookup_union_r by done. by apply He.
Qed.

Lemma flat_inv_step visited m k : k ∉ visited → flat_inv visited m →
  flat_inv (visited ++ [k]) (Flatten_step m k).
Proof using custom_fresh.
  intros Hnew Hinv. pose proof Hinv as [Hs Hm He]. unfold Flatten_step.
  destruct (m0 !! k) as [v0|] eqn:E0.
  - destruct (custom_of v0) as [mv|] eqn:Ec.
    + assert (m !! k = Some v0) as Hk by (rewrite (Hm k v0) by (rewrite ?Ec; eauto); by rewrite decide_False).
      rewrite Hk, Ec. by eapply flat_step_map.
    + pose proof (Hs k v0 E0 Ec) as Hn. destruct (m !! k) as [v|] eqn:Ek; [|done].
      assert (custom_of v = None) as ->.
      { injection Hn as Hn. unfold norm in Hn. repeat case_decide; subst; simpl in *; congruence || done. }
      apply flat_step_scalar; try done.
      * injection Hn as Hn. unfold norm in Hn. repeat case_decide; subst; simpl in *; congruence || done.
      * unfold row_custom. rewrite E0. simpl. by rewrite Ec.
  - assert (row_custom k = ∅) as Hrow by (unfold row_custom; by rewrite E0).
    pose proof (He k E0) as Hn. destruct (m !! k) as [v|] eqn:Ek.
    + assert (custom_of v = None) as Hcv.
      { destruct (extras visited !! k) as [w|] eqn:Ew; [|done]. injection Hn as Hn.
        apply extras_flat in Ew. unfold norm in Hn. repeat case_decide; subst; simpl in *; congruence || done. }
      rewrite Hcv. by apply flat_step_scalar.
    + constructor; [done| |].
      * intros k' v' H0' Hc'. rewrite (Hm k' v') by done.
        destruct (decide (k' ∈ visited)), (decide (k' ∈ visited ++ [k])); set_solver.
      * intros k' H0'. rewrite extras_snoc, Hrow, (left_id_L ∅ (∪)). by apply He.
Qed.

Lemma flat_inv_fold visit : NoDup visit → flat_inv visit (foldl Flatten_step m0 visit).
Proof using custom_fresh.
  induction visit as [|k visit IH] using rev_ind; intros Hnd; [apply flat_inv_nil|].
  apply NoDup_app in Hnd as (Hnd & Hk & _). rewrite foldl_app. simpl.
  apply flat_inv_step; [set_solver|auto].
Qed.

End flatten.

(** ** Rendering a fresh record *)

(** The rows of a record have distinct keys, four of them map-valued. *)
Lemma avro_keys_NoDup j : NoDup (avro_rows j).*1.
Proof.
  assert ((avro_rows j).*1 = (avro_rows JCHF_zero).*1) as -> by reflexivity.
  apply (bool_decide_unpack (NoDup (avro_rows JCHF_zero).*1)). by vm_compute.
Qed.

Definition custom_rows (j : JCHF) : list (string * gmap string avro) :=
  [ ("custom_str", AString <$> map_range (CustomStr j)); ("custom_int", AInt32 <$> map_range (CustomInt j));
    ("custom_bigint", AInt64 <$> map_range (CustomBigInt j));
    ("custom_float", AFloat32 <$> map_range (CustomFloat j)) ].
Definition customs (j : JCHF) : gmap string avro := ⋃ (custom_rows j).*2.

Lemma custom_rows_spec j s mv :
  (s, mv) ∈ custom_rows j ↔ ∃ v, (s, v) ∈ avro_rows j ∧ custom_of v = Some mv.
Proof.
  assert (omap (λ kv, (kv.1,.) <$> custom_of kv.2) (avro_rows j) = custom_rows j) as <- by done.
  rewrite list_elem_of_omap. split.
  - intros ([s' v] & Hin & E). simpl in E. destruct (custom_of v) eqn:Ec; simplify_eq/=. eauto.
  - intros (v & Hin & E). exists (s, v). simpl. by rewrite E.
Qed.

(** Custom keys that clash neither with a row nor with each other. *)
Definition custom_keys_ok (j : JCHF) : Prop :=
  (∀ s mv k, (s, mv) ∈ custom_rows j → is_Some (mv !! k) → k ∉ (avro_rows j).*1) ∧
  (∀ s1 s2 mv1 mv2, (s1, mv1) ∈ custom_rows j → (s2, mv2) ∈ custom_rows j → s1 ≠ s2 → mv1 ##ₘ mv2).

Lemma insert_rows_lookup (rows : list (string * avro)) (m : gmap string avro) k : NoDup rows.*1 →
  foldl (λ m kv, <[kv.1 := kv.2]> m) m rows !! k =
  match (list_to_map rows : gmap string avro) !! k with Some v => Some v | None => m !! k end.
Proof.
  revert m. induction rows as [|[k' v] rows IH]; intros m Hnd; [done|].
  apply NoDup_cons in Hnd as [Hk Hnd]. simpl. rewrite IH by done.
  destruct (decide (k' = k)) as [->|Hne].
  - rewrite lookup_insert_eq. rewrite not_elem_of_list_to_map_1 by done. by rewrite lookup_insert_eq.
  - rewrite !lookup_insert_ne by done. done.
Qed.

(** [ToMap] over the map a record carries: its own rows, then what was there. *)
Lemma ToMap_lookup j m : hasSetAvro j = false → avroSet j = Some m →
  ∃ j' m', ToMap j = Ok (j', m') ∧
    (∀ k v, (k, v) ∈ avro_rows j → m' !! k = Some v) ∧
    (∀ k, k ∉ (avro_rows j).*1 → m' !! k = m !! k).
Proof.
  intros Hs Ha. unfold ToMap. rewrite Hs, Ha. eexists _, _. split; [done|]. split.
  - intros k v Hin. rewrite insert_rows_lookup by apply avro_keys_NoDup.
    by rewrite (elem_of_list_to_map_1 _ _ _ (avro_keys_NoDup j) Hin).
  - intros k Hk. rewrite insert_rows_lookup by apply avro_keys_NoDup.
    by rewrite not_elem_of_list_to_map_1.
Qed.

(** Finds a row in a list of rows. *)
Ltac solve_row := by repeat first [apply list_elem_of_here | apply list_elem_of_further].

Lemma customs_lookup j k w : custom_keys_ok j →
  customs j !! k = Some w ↔ ∃ s mv, (s, mv) ∈ custom_rows j ∧ mv !! k = Some w.
Proof.
  intros [_ H2].
  assert (∀ s1 s2 mv1 mv2, (s1, mv1) ∈ custom_rows j → (s2, mv2) ∈ custom_rows j → s1 ≠ s2 →
    is_Some (mv2 !! k) → mv1 !! k = None) as Hd.
  { intros s1 s2 mv1 mv2 Hi1 Hi2 Hne [w2 Hw2]. eapply map_disjoint_Some_r; [by eapply (H2 s1 s2)|done]. }
  unfold customs, custom_rows in *. simpl. rewrite (right_id_L ∅ (∪)).
  rewrite !lookup_union_Some_raw. split.
  - intros [H|[_ [H|[_ [H|[_ H]]]]]]; (eexists _, _; split; [|exact H]); solve_row.
  - intros (s & mv & Hin & Hw).
    repeat (apply elem_of_cons in Hin as [Hin|Hin]; [injection Hin as -> ->|]); [| | | |by apply elem_of_nil in Hin].
    + by left.
    + right. split; [eapply (Hd "custom_str" "custom_int"); [solve_row..|done|by eexists]|]. by left.
    + right. split; [eapply (Hd "custom_str" "custom_bigint"); [solve_row..|done|by eexists]|].
      right. split; [eapply (Hd "custom_int" "custom_bigint"); [solve_row..|done|by eexists]|]. by left.
    + right. split; [eapply (Hd "custom_str" "custom_float"); [solve_row..|done|by eexists]|].
      right. split; [eapply (Hd "custom_int" "custom_float"); [solve_row..|done|by eexists]|].
      right. split; [eapply (Hd "custom_bigint" "custom_float"); [solve_row..|done|by eexists]|]. done.
Qed.

Section fresh.
Context (j : JCHF) (m : gmap string avro).
Hypothesis rows : ∀ k v, (k, v) ∈ avro_rows j → m !! k = Some v.
Hypothesis no_rest : ∀ k, k ∉ (avro_rows j).*1 → m !! k = None.
Hypothesis keys_ok : custom_keys_ok j.

Lemma row_inv k v : m !! k = Some v → (k, v) ∈ avro_rows j.
Proof using rows no_rest.
  intros Hk. destruct (decide (k ∈ (avro_rows j).*1)) as [Hin|Hn]; [|by rewrite no_rest in Hk].
  apply list_elem_of_fmap in Hin as ([k' v'] & -> & Hin). simpl in *.
  rewrite (rows _ _ Hin) in Hk. by injection Hk as <-.
Qed.

Lemma row_custom_spec s mv : (s, mv) ∈ custom_rows j → row_custom m s = mv.
Proof using rows.
  intros (v & Hin & E)%custom_rows_spec. unfold row_custom. rewrite (rows _ _ Hin). simpl. by rewrite E.
Qed.

Lemma row_custom_inv s k w : row_custom m s !! k = Some w → (s, row_custom m s) ∈ custom_rows j.
Proof using rows no_rest.
  unfold row_custom. destruct (m !! s) as [v|] eqn:Ev; simpl; [|by rewrite lookup_empty].
  destruct (custom_of v) as [mv|] eqn:Ec; simpl; [|by rewrite lookup_empty].
  intros _. apply custom_rows_spec. exists v. split; [by apply row_inv|done].
Qed.

Lemma fresh_disjoint k : row_custom m k ##ₘ m.
Proof using rows no_rest keys_ok.
  apply map_disjoint_spec. intros k' w v Hw Hv. pose proof (row_custom_inv _ _ _ Hw) as Hin.
  destruct keys_ok as [H1 _]. eapply H1; [exact Hin|by eexists|].
  apply row_inv in Hv. by apply (list_elem_of_fmap_2 fst) in Hv.
Qed.

Lemma rows_disjoint s1 s2 : s1 ≠ s2 → row_custom m s1 ##ₘ row_custom m s2.
Proof using rows no_rest keys_ok.
  intros Hne. apply map_disjoint_spec. intros k w1 w2 Hw1 Hw2.
  destruct keys_ok as [_ H2].
  specialize (H2 s1 s2 _ _ (row_custom_inv _ _ _ Hw1) (row_custom_inv _ _ _ Hw2) Hne).
  by eapply map_disjoint_spec.
Qed.

Lemma flatten_fresh visit : NoDup visit → (∀ k, k ∈ (avro_rows j).*1 → k ∈ visit) →
  let flat := foldl Flatten_step m visit in
  (∀ k v, (k, v) ∈ avro_rows j → custom_of v = None → norm <$> flat !! k = Some (norm v)) ∧
  (∀ s mv, (s, mv) ∈ custom_rows j → flat !! s = None) ∧
  (∀ k, k ∉ (avro_rows j).*1 → norm <$> flat !! k = norm <$> customs j !! k).
Proof using rows no_rest keys_ok.
  intros Hnd Hcov flat. destruct (flat_inv_fold m fresh_disjoint visit Hnd) as [Hs Hm He].
  fold flat in Hs, Hm, He. split; [|split].
  - intros k v Hin Hc. apply (Hs k v); auto.
  - intros s mv (v & Hin & Ec)%custom_rows_spec. rewrite (Hm s v) by (rewrite ?Ec; eauto).
    rewrite decide_True; [done|]. apply Hcov. by apply (list_elem_of_fmap_2 fst) in Hin.
  - intros k Hk. rewrite (He k) by auto. f_equal. apply option_eq. intros w.
    rewrite extras_lookup, customs_lookup; [|done|apply rows_disjoint|done]. split.
    + intros (s & _ & Hw). exists s, (row_custom m s). split; [by eapply row_custom_inv|done].
    + intros (s & mv & Hin & Hw). exists s. rewrite (row_custom_spec _ _ Hin). split; [|done].
      apply Hcov. apply custom_rows_spec in Hin as (v & Hin & _). by apply (list_elem_of_fmap_2 fst) in Hin.
Qed.
End fresh.

(** A key outside the map-valued rows keeps its value through the flattening. *)
Lemma Flatten_keeps visit m k v :
  m !! k = Some v → custom_of v = None →
  (∀ s w mv, m !! s = Some w → custom_of w = Some mv → mv !! k = None) →
  norm <$> foldl Flatten_step m visit !! k = Some (norm v).
Proof.
  revert m v. induction visit as [|s visit IH]; intros m v Hk Hc Hm; simpl; [by rewrite Hk|].
  assert (∀ s' w mv, custom_of w = Some mv → ∀ k', mv !! k' = Some s' → custom_of s' = None) as Hflat
    by (intros; by eapply custom_of_flat).
  unfold Flatten_step at 2. destruct (m !! s) as [w|] eqn:Es; [|by apply IH].
  destruct (custom_of w) as [mv|] eqn:Ec.
  - assert (s ≠ k) by congruence. apply IH; [|done|].
    + rewrite lookup_delete_ne by done. by rewrite lookup_union_r by (by eapply Hm).
    + intros s' w' mv' Hs' Hc'. rewrite lookup_delete_Some in Hs'. destruct Hs' as [_ [Hs'|[_ Hs']]%lookup_union_Some_raw].
      * rewrite (Hflat _ _ _ Ec _ Hs') in Hc'. done.
      * by eapply Hm.
  - case_decide as Hw; [|by apply IH]. subst w. destruct (decide (s = k)) as [->|Hne].
    + rewrite Hk in Es. injection Es as ->. rewrite <-norm_nil. apply IH; [by rewrite lookup_insert_eq|done|].
      intros s' w' mv' [[<- <-]|[_ Hs']]%lookup_insert_Some Hc'; [done|by eapply Hm].
    + apply IH; [by rewrite lookup_insert_ne|done|].
      intros s' w' mv' [[<- <-]|[_ Hs']]%lookup_insert_Some Hc'; [done|by eapply Hm].
Qed.

(** ** Properties *)

(** [Flatten] of a fresh record, whatever order the map is ranged over: every
    scalar row under its own key, the four custom maps replaced by their entries, and
    nothing else, up to the rewriting of the nil string. *)
Theorem Flatten_fresh visit j :
  hasSetAvro j = false → avroSet j = Some ∅ → custom_keys_ok j →
  NoDup visit → (∀ k, k ∈ (avro_rows j).*1 → k ∈ visit) →
  ∃ j' flat, Flatten visit j = Ok (j', flat) ∧
    (∀ k v, (k, v) ∈ avro_rows j → custom_of v = None → norm <$> flat !! k = Some (norm v)) ∧
    (∀ s mv, (s, mv) ∈ custom_rows j → flat !! s = None) ∧
    (∀ k, k ∉ (avro_rows j).*1 → norm <$> flat !! k = norm <$> customs j !! k).
Proof.
  intros Hs Ha Hok Hnd Hcov. destruct (ToMap_lookup j ∅ Hs Ha) as (j1 & m & E & Hrows & Hrest).
  unfold Flatten. rewrite E. simpl. eexists _, _. split; [done|].
  apply flatten_fresh; [done| |done|done|done]. intros k Hk. by rewrite Hrest, lookup_empty.
Qed.

(** The flat map is the record's own map, and [Reset] does not clear it: a record
    that is flattened, reset and refilled, as the flow pools do, still shows a custom
    string of the earlier flow that the later flow does not have. *)
Theorem Flatten_leaks visit visit' j j' flat j2 k s :
  hasSetAvro j = false → avroSet j = Some ∅ → custom_keys_ok j →
  NoDup visit → (∀ k, k ∈ (avro_rows j).*1 → k ∈ visit) →
  Flatten visit j = Ok (j', flat) → map_range (CustomStr j) !! k = Some s →
  avroSet j2 = avroSet (Reset j') → hasSetAvro j2 = hasSetAvro (Reset j') →
  (∀ s mv, (s, mv) ∈ custom_rows j2 → mv !! k = None) →
  ∃ j3 flat2, Flatten visit' j2 = Ok (j3, flat2) ∧ norm <$> flat2 !! k = Some (norm (AString s)).
Proof.
  intros Hs Ha Hok Hnd Hcov Ef Hk Ha2 Hs2 Hnot.
  destruct (ToMap_lookup j ∅ Hs Ha) as (j1 & m & E & Hrows & Hrest).
  assert (∀ k, k ∉ (avro_rows j).*1 → m !! k = None) as Hrest' by (intros; by rewrite Hrest, lookup_empty).
  unfold Flatten in Ef. rewrite E in Ef. simpl in Ef. injection Ef as <- <-.
  destruct (flatten_fresh j m Hrows Hrest' Hok visit Hnd Hcov) as (F1 & F2 & F3).
  set (flat := foldl Flatten_step m visit) in *.
  assert (("custom_str", AString <$> map_range (CustomStr j)) ∈ custom_rows j) as Hcs by (unfold custom_rows; solve_row).
  assert ((AString <$> map_range (CustomStr j)) !! k = Some (AString s)) as Hks by (by rewrite lookup_fmap, Hk).
  assert (k ∉ (avro_rows j).*1) as Hkr by (destruct Hok as [H1 _]; by eapply H1; [exact Hcs|eexists]).
  pose proof (F3 k Hkr) as Hkf. rewrite (proj2 (customs_lookup j k (AString s) Hok)) in Hkf by eauto.
  destruct (flat !! k) as [v|] eqn:Ev; [|done]. injection Hkf as Hkf.
  assert (∀ s w, flat !! s = Some w → custom_of w = None) as Hflat.
  { intros s' w Hw. destruct (custom_of w) as [mv|] eqn:Ec; [|done]. exfalso.
    assert (norm w = w) as Hnw by (unfold norm; case_decide; subst; done).
    destruct (decide (s' ∈ (avro_rows j).*1)) as [Hin|Hn].
    - apply list_elem_of_fmap in Hin as ([s'' v'] & -> & Hin). simpl in *.
      destruct (custom_of v') as [mv'|] eqn:Ec'.
      + rewrite (F2 s'' mv') in Hw; [done|]. apply custom_rows_spec. eauto.
      + specialize (F1 _ _ Hin Ec'). rewrite Hw in F1. injection F1 as F1. rewrite Hnw in F1. subst w.
        unfold norm in Ec. case_decide; simpl in *; congruence.
    - pose proof (F3 s' Hn) as F. rewrite Hw in F. destruct (customs j !! s') as [w'|] eqn:Ew'; [|done].
      injection F as F. apply customs_lookup in Ew' as (s3 & mv3 & Hi3 & Hw3); [|done].
      apply custom_rows_spec in Hi3 as (v3 & _ & Ec3). apply (custom_of_flat _ _ _ _ Ec3) in Hw3.
      rewrite Hnw in F. subst w. unfold norm in Ec. case_decide; simpl in *; congruence. }
  simpl in Ha2, Hs2. destruct (ToMap_lookup j2 flat Hs2 Ha2) as (j3 & m2 & E2 & Hrows2 & Hrest2).
  unfold Flatten. rewrite E2. simpl. eexists _, _. split; [done|]. rewrite <-Hkf.
  assert ((avro_rows j2).*1 = (avro_rows j).*1) as Hkeys by done.
  apply Flatten_keeps; [by rewrite Hrest2, Ev by (by rewrite Hkeys)|by eapply Hflat|].
  intros s' w mv Hw Hc. destruct (decide (s' ∈ (avro_rows j2).*1)) as [Hin|Hn].
  - apply list_elem_of_fmap in Hin as ([s'' v'] & -> & Hin). simpl in *.
    rewrite (Hrows2 _ _ Hin) in Hw. injection Hw as ->. apply (Hnot s''), custom_rows_spec. eauto.
  - rewrite Hrest2 in Hw by done. rewrite (Hflat _ _ Hw) in Hc. done.
Qed.

(** Once rendered, a record keeps giving the first rendering: a sample rate set
    afterwards does not reach the map until [Reset]. *)
Theorem ToMap_stale j j1 m rate :
  ToMap j = Ok (j1, m) →
  ToMap (j1 <| SampleRate := rate |>) = Ok (j1 <| SampleRate := rate |>, m).
Proof.
  unfold ToMap. destruct (hasSetAvro j) eqn:Es.
  - intros E. injection E as <- <-.
    assert (hasSetAvro (j <| SampleRate := rate |>) = true) as -> by exact Es. reflexivity.
  - destruct (avroSet j) as [m0|]; [|done].
    generalize (foldl (λ m kv, <[kv.1:=kv.2]> m) m0 (avro_rows j)). intros m1 E.
    injection E as <- <-. reflexivity.
Qed.

(** The two directions of a conversation share a key when exactly one side uses an
    ephemeral port. *)
Theorem GetKey_both_directions j j' :
  L4SrcPort j < 32768 → 32768 ≤ L4SrcPort j' → Protocol j' = Protocol j →
  map_get "" (CustomStr j') "src_endpoint" = map_get "" (CustomStr j) "dst_endpoint" →
  map_get "" (CustomStr j') "dst_endpoint" = map_get "" (CustomStr j) "src_endpoint" →
  GetKey j' = GetKey j.
Proof.
  intros H H' Hp Hs Hd. unfold GetKey.
  rewrite (proj2 (Z.ltb_lt _ _) H), (proj2 (Z.ltb_ge _ _) H').
  by rewrite Hs, Hd, Hp.
Qed.

(** ** The theorems at a concrete flow *)

Definition flow1 : JCHF := NewJCHF <| CustomStr := Some {[ "app" := "dns" ]} |> <| SrcAddr := "10.0.0.1" |>.
Definition visit1 : list string := (avro_rows flow1).*1.

Lemma flow1_rows : custom_rows flow1 =
  [ ("custom_str", {[ "app" := AString "dns" ]}); ("custom_int", ∅); ("custom_bigint", ∅); ("custom_float", ∅) ].
Proof.
  unfold custom_rows. change (CustomStr flow1) with (Some {[ "app" := "dns" ]} : gomap string).
  change (CustomInt flow1) with (None : gomap Z). change (CustomBigInt flow1) with (None : gomap Z).
  change (CustomFloat flow1) with (None : gomap float32). unfold map_range. cbn [default from_option id].
  by rewrite map_fmap_singleton, !fmap_empty.
Qed.

Lemma flow1_keys_ok : custom_keys_ok flow1.
Proof.
  unfold custom_keys_ok. rewrite flow1_rows. split.
  - intros s mv k Hin [w Hw].
    repeat (apply elem_of_cons in Hin as [[= -> ->]|Hin]); [|by rewrite lookup_empty in Hw..|by apply elem_of_nil in Hin].
    apply lookup_singleton_Some in Hw as [<- _]. apply (bool_decide_unpack _). by vm_compute.
  - intros s1 s2 mv1 mv2 H1 H2 Hne.
    repeat (apply elem_of_cons in H1 as [[= -> ->]|H1]); [|apply map_disjoint_empty_l..|by apply elem_of_nil in H1].
    repeat (apply elem_of_cons in H2 as [[= -> ->]|H2]); [done|apply map_disjoint_empty_r..|by apply elem_of_nil in H2].
Qed.

Lemma Flatten_fresh_witness : ∃ j' flat, Flatten visit1 flow1 = Ok (j', flat) ∧
    (∀ k v, (k, v) ∈ avro_rows flow1 → custom_of v = None → norm <$> flat !! k = Some (norm v)) ∧
    (∀ s mv, (s, mv) ∈ custom_rows flow1 → flat !! s = None) ∧
    (∀ k, k ∉ (avro_rows flow1).*1 → norm <$> flat !! k = norm <$> customs flow1 !! k).
Proof.
  apply (Flatten_fresh visit1 flow1); [reflexivity|reflexivity|apply flow1_keys_ok|apply avro_keys_NoDup|done].
Defined.

Lemma Flatten_leaks_witness : ∃ j' flat, Flatten visit1 flow1 = Ok (j', flat) ∧
  ∃ j3 flat2, Flatten visit1 (NewJCHF <| avroSet := avroSet (Reset j') |>) = Ok (j3, flat2) ∧
    norm <$> flat2 !! "app" = Some (norm (AString "dns")).
Proof.
  eexists _, _. split; [reflexivity|].
  eapply (Flatten_leaks visit1 visit1 flow1 _ _ _ "app" "dns");
    [reflexivity|reflexivity|apply flow1_keys_ok|apply avro_keys_NoDup|done|reflexivity|reflexivity|reflexivity|reflexivity|].
  intros s mv Hin. unfold custom_rows in Hin.
  repeat (apply elem_of_cons in Hin as [[= -> ->]|Hin]); [reflexivity..|by apply elem_of_nil in Hin].
Defined.

Lemma ToMap_stale_witness : ∃ j1 m, ToMap flow1 = Ok (j1, m) ∧
  ToMap (j1 <| SampleRate := 1000 |>) = Ok (j1 <| SampleRate := 1000 |>, m).
Proof. eexists _, _. split; [reflexivity|]. apply (ToMap_stale flow1). reflexivity. Defined.

Definition direction (src dst : string) (port : Z) : JCHF :=
  NewJCHF <| CustomStr := Some (<[ "src_endpoint" := src ]> {[ "dst_endpoint" := dst ]}) |>
    <| L4SrcPort := port |> <| Protocol := "TCP" |>.
Lemma GetKey_both_directions_witness :
  GetKey (direction "10.0.0.2:40000" "10.0.0.1:443" 40000) = GetKey (direction "10.0.0.1:443" "10.0.0.2:40000" 443).
Proof.
  apply (GetKey_both_directions (direction "10.0.0.1:443" "10.0.0.2:40000" 443)); first [reflexivity | by vm_compute].
Defined.
