(* ===== verification/Ic.v ===== *)
(** Package [ic] (src/pkg/util/ic): interface classification codes, traffic
    profiles, and the protocol names and numbers. *)
From S2P Require Import Prelude GoStrings.
Local Open Scope Z_scope.

(** ** proto.go *)

Definition PROTO_NAMES_list : list (Z * string) :=
  [ (0, "HOPOPT"); (1, "ICMP"); (2, "IGMP");
    (3, "GGP"); (4, "IPv4"); (5, "ST");
    (6, "TCP"); (7, "CBT"); (8, "EGP");
    (9, "IGP"); (10, "BBN-RCC-MON"); (11, "NVP-II");
    (12, "PUP"); (13, "ARGUS"); (14, "EMCON");
    (15, "XNET"); (16, "CHAOS"); (17, "UDP");
    (18, "MUX"); (19, "DCN-MEAS"); (20, "HMP");
    (21, "PRM"); (22, "XNS-IDP"); (23, "TRUNK-1");
    (24, "TRUNK-2"); (25, "LEAF-1"); (26, "LEAF-2");
    (27, "RDP"); (28, "IRTP"); (29, "ISO-TP4");
    (30, "NETBLT"); (31, "MFE-NSP"); (32, "MERIT-INP");
    (33, "DCCP"); (34, "3PC"); (35, "IDPR");
    (36, "XTP"); (37, "DDP"); (38, "IDPR-CMTP");
    (39, "TP++"); (40, "IL"); (41, "IPv6");
    (42, "SDRP"); (43, "IPv6-Route"); (44, "IPv6-Frag");
    (45, "IDRP"); (46, "RSVP"); (47, "GRE");
    (48, "DSR"); (49, "BNA"); (50, "ESP");
    (51, "AH"); (52, "I-NLSP"); (53, "SWIPE (deprecated)");
    (54, "NARP"); (55, "MOBILE"); (56, "TLSP");
    (57, "SKIP"); (58, "IPv6-ICMP"); (59, "IPv6-NoNxt");
    (60, "IPv6-Opts"); (61, ""); (62, "CFTP");
    (63, ""); (64, "SAT-EXPAK"); (65, "KRYPTOLAN");
    (66, "RVD"); (67, "IPPC"); (68, "");
    (69, "SAT-MON"); (70, "VISA"); (71, "IPCV");
    (72, "CPNX"); (73, "CPHB"); (74, "WSN");
    (75, "PVP"); (76, "BR-SAT-MON"); (77, "SUN-ND");
    (78, "WB-MON"); (79, "WB-EXPAK"); (80, "ISO-IP");
    (81, "VMTP"); (82, "SECURE-VMTP"); (83, "VINES");
    (84, "IPTM"); (85, "NSFNET-IGP"); (86, "DGP");
    (87, "TCF"); (88, "EIGRP"); (89, "OSPFIGP");
    (90, "Sprite-RPC"); (91, "LARP"); (92, "MTP");
    (93, "AX.25"); (94, "IPIP"); (95, "MICP (deprecated)");
    (96, "SCC-SP"); (97, "ETHERIP"); (98, "ENCAP");
    (99, ""); (100, "GMTP"); (101, "IFMP");
    (102, "PNNI"); (103, "PIM"); (104, "ARIS");
    (105, "SCPS"); (106, "QNX"); (107, "A/N");
    (108, "IPComp"); (109, "SNP"); (110, "Compaq-Peer");
    (111, "IPX-in-IP"); (112, "VRRP"); (113, "PGM");
    (114, ""); (115, "L2TP"); (116, "DDX");
    (117, "IATP"); (118, "STP"); (119, "SRP");
    (120, "UTI"); (121, "SMP"); (122, "SM (deprecated)");
    (123, "PTP"); (124, "ISIS over IPv4"); (125, "FIRE");
    (126, "CRTP"); (127, "CRUDP"); (128, "SSCOPMCE");
    (129, "IPLT"); (130, "SPS"); (131, "PIPE");
    (132, "SCTP"); (133, "FC"); (134, "RSVP-E2E-IGNORE");
    (135, "Mobility Header"); (136, "UDPLite"); (137, "MPLS-in-IP");
    (138, "manet"); (139, "HIP"); (140, "Shim6");
    (141, "WESP"); (142, "ROHC"); (143, "Ethernet");
    (255, "Reserved") ].
Definition PROTO_NAMES : gmap Z string := list_to_map PROTO_NAMES_list.

(** The order in which the initialiser of [PROTO_NUMS] ranges over the names, which
    Go leaves open; it matters because five numbers have the empty name. *)
Class ProtoOrder := {
  proto_order : list (Z * string);
  proto_order_perm : proto_order ≡ₚ PROTO_NAMES_list }.

Section protocols.
Context `{ProtoOrder}.

(** [for k, v := range PROTO_NAMES { pn[v] = uint8(k) }]. *)
Definition PROTO_NUMS : gmap string Z :=
  foldl (λ pn kv, <[kv.2 := wrapu 8 kv.1]> pn) ∅ proto_order.

(** Reading a missing key gives the zero value. *)
Definition proto_num (s : string) : Z := default 0 (PROTO_NUMS !! s).
End protocols.
Definition proto_name (n : Z) : string := default "" (PROTO_NAMES !! n).

(** ** ic.go: the codes *)

Definition NB_EXTERNAL : Z := 10.
Definition NB_INTERNAL : Z := 20.
Definition NB_EXTERNAL_NAME : string := "external".
Definition NB_INTERNAL_NAME : string := "internal".
Definition CT_FREE_PNI : Z := 5.
Definition CT_CUSTOMER : Z := 15.
Definition CT_HOST : Z := 25.
Definition CT_BACKBONE : Z := 35.
Definition CT_PAID_PNI : Z := 45.
Definition CT_OTHER : Z := 55.
Definition CT_TRANSIT : Z := 65.
Definition CT_IX : Z := 75.
Definition CT_RESERVED : Z := 85.
Definition CT_AVAILABLE : Z := 95.
Definition CT_DC_IC : Z := 105.
Definition CT_AGG_IC : Z := 115.
Definition CT_EMBEDDED_CACHE_IC : Z := 125.
Definition CT_CLOUD_IX : Z := 135.
Definition CT_DC_FABRIC : Z := 145.
Definition CT_FREE_PNI_NAME : string := "free_pni".
Definition CT_CUSTOMER_NAME : string := "customer".
Definition CT_HOST_NAME : string := "host".
Definition CT_BACKBONE_NAME : string := "backbone".
Definition CT_PAID_PNI_NAME : string := "paid_pni".
Definition CT_OTHER_NAME : string := "other".
Definition CT_TRANSIT_NAME : string := "transit".
Definition CT_IX_NAME : string := "ix".
Definition CT_RESERVED_NAME : string := "reserved".
Definition CT_AVAILABLE_NAME : string := "available".
Definition CT_DC_IC_NAME : string := "datacenter_interconnect".
Definition CT_AGG_IC_NAME : string := "aggregation_interconnect".
Definition CT_EMBEDDED_CACHE_NAME : string := "embedded_cache".
Definition CT_CLOUD_IX_NAME : string := "cloud_interconnect".
Definition CT_DC_FABRIC_NAME : string := "datacenter_fabric".
Definition NETWORK_CL_INTERNAL_NAME : string := "inside".
Definition NETWORK_CL_EXTERNAL_NAME : string := "outside".
Definition NETWORK_CL_CLOUD_AWS : string := "aws".
Definition NETWORK_CL_CLOUD_IBM : string := "ibm".
Definition NETWORK_CL_CLOUD_AZURE : string := "azure".
Definition NETWORK_CL_CLOUD_GCP : string := "gcp".
Definition NETWORK_SRC_INTERNAL : Z := 10.
Definition NETWORK_SRC_EXTERNAL : Z := 20.
Definition NETWORK_SRC_CLOUD_AWS : Z := 80.
Definition NETWORK_SRC_CLOUD_AZURE : Z := 90.
Definition NETWORK_SRC_CLOUD_GCP : Z := 100.
Definition NETWORK_SRC_CLOUD_IBM : Z := 110.
Definition NETWORK_SRC_INTERNAL_NAME : string := "internal".
Definition NETWORK_SRC_THROUGH_NAME : string := "through".
Definition NETWORK_SRC_TERMINATED_NAME : string := "from outside, terminated inside".
Definition NETWORK_SRC_ORIGINATED_NAME : string := "originated inside, to outside".
Definition NETWORK_SRC_CLOUD_INTERNAL_NAME : string := "cloud internal".
Definition NETWORK_SRC_FROM_OUTSIDE_TO_CLOUD_NAME : string := "from outside to cloud".
Definition NETWORK_SRC_FROM_CLOUD_TO_OUTSIDE_NAME : string := "from cloud to outside".
Definition NETWORK_SRC_FROM_CLOUD_TO_INSIDE_NAME : string := "from cloud to inside".
Definition NETWORK_SRC_FROM_INSIDE_TO_CLOUD_NAME : string := "from inside to cloud".
Definition NETWORK_SRC_MULTICLOUD_NAME : string := "multi-cloud".
Definition NETWORK_SRC_INBOUND_NAME : string := "inbound".
Definition NETWORK_SRC_OUTBOUND_NAME : string := "outbound".
Definition NETWORK_SRC_OTHER_NAME : string := "other".
Definition NETWORK_DIR_IN_NAME : string := "in".
Definition NETWORK_DIR_OUT_NAME : string := "out".
Definition NETWORK_DIR_NOT_HOST_NAME : string := "not_a_host".
Definition NETWORK_DIR_ERR_NAME : string := "error".
Definition NETWORK_DIR_IN : Z := 40.
Definition NETWORK_DIR_OUT : Z := 50.
Definition NETWORK_DIR_NOT_HOST : Z := 60.
Definition NETWORK_DIR_ERR : Z := 70.
Definition RPKI_NOT_FOUND : Z := 1.
Definition RPKI_EXPLICIT_INVALID : Z := 2.
Definition RPKI_INVALID_PREFIX : Z := 3.
Definition RPKI_INVALID : Z := 4.
Definition RPKI_VALID : Z := 5.
Definition RPKI_INVALID_COVERING : Z := 6.
Definition RPKI_COVERING_NOT_FOUND : Z := 7.
Definition RPKI_ERROR : Z := 8.
Definition RPKI_INTERNAL : Z := 9.
Definition RPKI_MAX_NUM : Z := 32.
Definition RPKI_NOT_FOUND_NAME : string := "RPKI Unknown".
Definition RPKI_EXPLICIT_INVALID_NAME : string := "RPKI Invalid: explicit ASN 0".
Definition RPKI_INVALID_PREFIX_NAME : string := "RPKI Invalid: prefix length out of bounds".
Definition RPKI_INVALID_NAME : string := "RPKI Invalid: incorrect Origin ASN (should be AS%d)".
Definition RPKI_INVALID_COVERING_NAME : string := "RPKI Invalid: valid covering prefix".
Definition RPKI_COVERING_NOT_FOUND_NAME : string := "RPKI Invalid: unknown covering prefix".
Definition RPKI_VALID_NAME : string := "RPKI Valid".
Definition RPKI_ERROR_NAME : string := "RPKI Error".
Definition RPKI_INTERNAL_NAME : string := "".
Definition RPKI_UNKNOWN_MIN_NAME : string := "RPKI Unknown".
Definition RPKI_VALID_MIN_NAME : string := "RPKI Valid".
Definition RPKI_INVALID_COVERED_MIN_NAME : string := "RPKI Invalid - covering Valid/Unknown".
Definition RPKI_INVALID_MIN_NAME : string := "RPKI Invalid - Will be dropped".
Definition NONE_INT : Z := 0.
Definition NONE_NAME : string := "none".

Definition NETWORK_BOUNDARY_INT_TO_NAME_list : list (Z * string) :=
  [ (NB_EXTERNAL, NB_EXTERNAL_NAME);
    (NB_INTERNAL, NB_INTERNAL_NAME) ].
Definition NETWORK_CLASS_INT_TO_NAME_list : list (Z * string) :=
  [ (NETWORK_SRC_EXTERNAL, NETWORK_CL_EXTERNAL_NAME);
    (NETWORK_SRC_INTERNAL, NETWORK_CL_INTERNAL_NAME);
    (NETWORK_SRC_CLOUD_AWS, NETWORK_CL_CLOUD_AWS);
    (NETWORK_SRC_CLOUD_AZURE, NETWORK_CL_CLOUD_AZURE);
    (NETWORK_SRC_CLOUD_GCP, NETWORK_CL_CLOUD_GCP);
    (NETWORK_SRC_CLOUD_IBM, NETWORK_CL_CLOUD_IBM);
    (NETWORK_DIR_IN, NETWORK_DIR_IN_NAME);
    (NETWORK_DIR_OUT, NETWORK_DIR_OUT_NAME);
    (NETWORK_DIR_NOT_HOST, NETWORK_DIR_NOT_HOST_NAME);
    (NETWORK_DIR_ERR, NETWORK_DIR_ERR_NAME) ].
Definition CONNECTIVITY_TYPE_INT_TO_NAME_list : list (Z * string) :=
  [ (CT_FREE_PNI, CT_FREE_PNI_NAME);
    (CT_CUSTOMER, CT_CUSTOMER_NAME);
    (CT_HOST, CT_HOST_NAME);
    (CT_BACKBONE, CT_BACKBONE_NAME);
    (CT_PAID_PNI, CT_PAID_PNI_NAME);
    (CT_OTHER, CT_OTHER_NAME);
    (CT_TRANSIT, CT_TRANSIT_NAME);
    (CT_IX, CT_IX_NAME);
    (CT_RESERVED, CT_RESERVED_NAME);
    (CT_AVAILABLE, CT_AVAILABLE_NAME);
    (CT_DC_IC, CT_DC_IC_NAME);
    (CT_AGG_IC, CT_AGG_IC_NAME);
    (CT_EMBEDDED_CACHE_IC, CT_EMBEDDED_CACHE_NAME);
    (CT_CLOUD_IX, CT_CLOUD_IX_NAME);
    (CT_DC_FABRIC, CT_DC_FABRIC_NAME) ].
Definition RPKI_INT_TO_NAME_list : list (Z * string) :=
  [ (RPKI_NOT_FOUND, RPKI_NOT_FOUND_NAME);
    (RPKI_EXPLICIT_INVALID, RPKI_EXPLICIT_INVALID_NAME);
    (RPKI_INVALID_PREFIX, RPKI_INVALID_PREFIX_NAME);
    (RPKI_INVALID, RPKI_INVALID_NAME);
    (RPKI_VALID, RPKI_VALID_NAME);
    (RPKI_INVALID_COVERING, RPKI_INVALID_COVERING_NAME);
    (RPKI_COVERING_NOT_FOUND, RPKI_COVERING_NOT_FOUND_NAME);
    (RPKI_ERROR, RPKI_ERROR_NAME);
    (RPKI_INTERNAL, RPKI_INTERNAL_NAME) ].
Definition RPKI_INT_TO_MIN_NAME_list : list (Z * string) :=
  [ (RPKI_NOT_FOUND, RPKI_UNKNOWN_MIN_NAME);
    (RPKI_EXPLICIT_INVALID, RPKI_INVALID_MIN_NAME);
    (RPKI_INVALID_PREFIX, RPKI_INVALID_MIN_NAME);
    (RPKI_INVALID, RPKI_INVALID_MIN_NAME);
    (RPKI_VALID, RPKI_VALID_MIN_NAME);
    (RPKI_INVALID_COVERING, RPKI_INVALID_COVERED_MIN_NAME);
    (RPKI_COVERING_NOT_FOUND, RPKI_INVALID_COVERED_MIN_NAME);
    (RPKI_ERROR, RPKI_ERROR_NAME);
    (RPKI_INTERNAL, RPKI_INTERNAL_NAME) ].

(** ** Traffic profiles *)

Record TrafficProfileNumbers := mkProfile {
  OriginationNumbers : list Z; DestinationNumbers : list Z }.

Definition trafficProfileNumbersByName_list : list (string * list TrafficProfileNumbers) :=
  [ (NETWORK_SRC_INTERNAL_NAME, [ mkProfile [NETWORK_SRC_INTERNAL] [NETWORK_SRC_INTERNAL] ]);
    (NETWORK_SRC_THROUGH_NAME, [ mkProfile [NETWORK_SRC_EXTERNAL] [NETWORK_SRC_EXTERNAL] ]);
    (NETWORK_SRC_TERMINATED_NAME, [ mkProfile [NETWORK_SRC_EXTERNAL] [NETWORK_SRC_INTERNAL] ]);
    (NETWORK_SRC_ORIGINATED_NAME, [ mkProfile [NETWORK_SRC_INTERNAL] [NETWORK_SRC_EXTERNAL] ]);
    (NETWORK_SRC_CLOUD_INTERNAL_NAME, [ mkProfile [NETWORK_SRC_CLOUD_AWS] [NETWORK_SRC_CLOUD_AWS];
        mkProfile [NETWORK_SRC_CLOUD_AZURE] [NETWORK_SRC_CLOUD_AZURE];
        mkProfile [NETWORK_SRC_CLOUD_GCP] [NETWORK_SRC_CLOUD_GCP];
        mkProfile [NETWORK_SRC_CLOUD_IBM] [NETWORK_SRC_CLOUD_IBM] ]);
    (NETWORK_SRC_MULTICLOUD_NAME, [ mkProfile [NETWORK_SRC_CLOUD_AWS] [NETWORK_SRC_CLOUD_AZURE; NETWORK_SRC_CLOUD_GCP; NETWORK_SRC_CLOUD_IBM];
        mkProfile [NETWORK_SRC_CLOUD_AZURE] [NETWORK_SRC_CLOUD_AWS; NETWORK_SRC_CLOUD_GCP; NETWORK_SRC_CLOUD_IBM];
        mkProfile [NETWORK_SRC_CLOUD_GCP] [NETWORK_SRC_CLOUD_AWS; NETWORK_SRC_CLOUD_AZURE; NETWORK_SRC_CLOUD_IBM];
        mkProfile [NETWORK_SRC_CLOUD_IBM] [NETWORK_SRC_CLOUD_AWS; NETWORK_SRC_CLOUD_AZURE; NETWORK_SRC_CLOUD_GCP];
        mkProfile [NETWORK_SRC_CLOUD_AZURE; NETWORK_SRC_CLOUD_GCP; NETWORK_SRC_CLOUD_IBM] [NETWORK_SRC_CLOUD_AWS];
        mkProfile [NETWORK_SRC_CLOUD_AWS; NETWORK_SRC_CLOUD_GCP; NETWORK_SRC_CLOUD_IBM] [NETWORK_SRC_CLOUD_AZURE];
        mkProfile [NETWORK_SRC_CLOUD_AWS; NETWORK_SRC_CLOUD_AZURE; NETWORK_SRC_CLOUD_IBM] [NETWORK_SRC_CLOUD_GCP];
        mkProfile [NETWORK_SRC_CLOUD_AWS; NETWORK_SRC_CLOUD_AZURE; NETWORK_SRC_CLOUD_GCP] [NETWORK_SRC_CLOUD_IBM] ]);
    (NETWORK_SRC_FROM_OUTSIDE_TO_CLOUD_NAME, [ mkProfile [NETWORK_SRC_EXTERNAL] [NETWORK_SRC_CLOUD_AWS; NETWORK_SRC_CLOUD_AZURE; NETWORK_SRC_CLOUD_GCP; NETWORK_SRC_CLOUD_IBM] ]);
    (NETWORK_SRC_FROM_CLOUD_TO_OUTSIDE_NAME, [ mkProfile [NETWORK_SRC_CLOUD_AWS; NETWORK_SRC_CLOUD_AZURE; NETWORK_SRC_CLOUD_GCP; NETWORK_SRC_CLOUD_IBM] [NETWORK_SRC_EXTERNAL] ]);
    (NETWORK_SRC_FROM_CLOUD_TO_INSIDE_NAME, [ mkProfile [NETWORK_SRC_CLOUD_AWS; NETWORK_SRC_CLOUD_AZURE; NETWORK_SRC_CLOUD_GCP; NETWORK_SRC_CLOUD_IBM] [NETWORK_SRC_INTERNAL] ]);
    (NETWORK_SRC_FROM_INSIDE_TO_CLOUD_NAME, [ mkProfile [NETWORK_SRC_INTERNAL] [NETWORK_SRC_CLOUD_AWS; NETWORK_SRC_CLOUD_AZURE; NETWORK_SRC_CLOUD_GCP; NETWORK_SRC_CLOUD_IBM] ]);
    ("", []) ].
Definition trafficProfileNumbersByName : gmap string (list TrafficProfileNumbers) :=
  list_to_map trafficProfileNumbersByName_list.

Definition TrafficProfileNumbersFromName (profile : string) : list TrafficProfileNumbers :=
  match trafficProfileNumbersByName !! ToLower profile with
  | Some ret => ret
  | None => default [] (trafficProfileNumbersByName !! "")
  end.

Definition TrafficNameFromNumbers (ov dv : Z) : string :=
  let fromCloud := (ov =? NETWORK_SRC_CLOUD_AWS) || (ov =? NETWORK_SRC_CLOUD_AZURE) ||
                   (ov =? NETWORK_SRC_CLOUD_GCP) || (ov =? NETWORK_SRC_CLOUD_IBM) in
  let fromOutside := ov =? NETWORK_SRC_EXTERNAL in
  let fromInside := ov =? NETWORK_SRC_INTERNAL in
  let toCloud := (dv =? NETWORK_SRC_CLOUD_AWS) || (dv =? NETWORK_SRC_CLOUD_AZURE) ||
                 (dv =? NETWORK_SRC_CLOUD_GCP) || (dv =? NETWORK_SRC_CLOUD_IBM) in
  let toOutside := dv =? NETWORK_SRC_EXTERNAL in
  let toInside := dv =? NETWORK_SRC_INTERNAL in
  if fromInside && toOutside then NETWORK_SRC_ORIGINATED_NAME
  else if fromOutside && toInside then NETWORK_SRC_TERMINATED_NAME
  else if fromOutside && toOutside then NETWORK_SRC_THROUGH_NAME
  else if fromInside && toInside then NETWORK_SRC_INTERNAL_NAME
  else if fromCloud && (ov =? dv) then NETWORK_SRC_CLOUD_INTERNAL_NAME
  else if fromCloud && toCloud && negb (ov =? dv) then NETWORK_SRC_MULTICLOUD_NAME
  else if fromOutside && toCloud then NETWORK_SRC_FROM_OUTSIDE_TO_CLOUD_NAME
  else if fromCloud && toOutside then NETWORK_SRC_FROM_CLOUD_TO_OUTSIDE_NAME
  else if fromCloud && toInside then NETWORK_SRC_FROM_CLOUD_TO_INSIDE_NAME
  else if fromInside && toCloud then NETWORK_SRC_FROM_INSIDE_TO_CLOUD_NAME
  else "".

(** ** Codes and names

    The maps the functions read; [OverrideConnectivityType] changes two of them. *)
Record ic_state := mkIc {
  CONNECTIVITY_TYPE_INT_TO_NAME : gmap Z string;
  CONNECTIVITY_TYPE_NAME_TO_INT : gmap string Z }.

(** [for k, v := range int_to_name { m[v] = k }]. *)
Definition invert (l : list (Z * string)) : gmap string Z := list_to_map ((λ kv, (kv.2, kv.1)) <$> l).

Definition ic_init : ic_state :=
  {| CONNECTIVITY_TYPE_INT_TO_NAME := list_to_map CONNECTIVITY_TYPE_INT_TO_NAME_list;
     CONNECTIVITY_TYPE_NAME_TO_INT := invert CONNECTIVITY_TYPE_INT_TO_NAME_list |}.
Definition NETWORK_BOUNDARY_INT_TO_NAME : gmap Z string := list_to_map NETWORK_BOUNDARY_INT_TO_NAME_list.
Definition NETWORK_BOUNDARY_NAME_TO_INT : gmap string Z := invert NETWORK_BOUNDARY_INT_TO_NAME_list.
Definition NETWORK_CLASS_NAME_TO_INT : gmap string Z := invert NETWORK_CLASS_INT_TO_NAME_list.
Definition RPKI_NAME_TO_INT : gmap string Z := invert RPKI_INT_TO_NAME_list.

Definition NameFromCTInt (ic : Z) (s : ic_state) : string :=
  match CONNECTIVITY_TYPE_INT_TO_NAME s !! ic with Some v => v | None => NONE_NAME end.
Definition IntFromCTName (ic : string) (s : ic_state) : Z :=
  match CONNECTIVITY_TYPE_NAME_TO_INT s !! ic with Some v => v | None => NONE_INT end.
Definition NameFromNBInt (ic : Z) : string :=
  match NETWORK_BOUNDARY_INT_TO_NAME !! ic with Some v => v | None => NONE_NAME end.
Definition IntFromNBName (ic : string) : Z :=
  match NETWORK_BOUNDARY_NAME_TO_INT !! ic with Some v => v | None => NONE_INT end.

(** [newC]: the pairs of [newBase], the last one of a key winning. *)
Definition override_pairs (newBase : string) : gmap string string :=
  foldl (λ newC pt,
    match Split pt ":" with
    | [k; v] => <[k := v]> newC
    | _ => newC
    end) ∅ (Split newBase ",").

(** One round of [for old, new := range newC]. *)
Definition override_step (s : ic_state * Z) (on : string * string) : ic_state * Z :=
  match CONNECTIVITY_TYPE_NAME_TO_INT s.1 !! on.1 with
  | Some v =>
      ({| CONNECTIVITY_TYPE_INT_TO_NAME := <[v := on.2]> (CONNECTIVITY_TYPE_INT_TO_NAME s.1);
          CONNECTIVITY_TYPE_NAME_TO_INT := <[on.2 := v]> (CONNECTIVITY_TYPE_NAME_TO_INT s.1) |}, s.2 + 1)
  | None => s
  end.

(** [order]: the pairs in the order the range loop visits them, which Go leaves open. *)
Definition OverrideConnectivityType (newBase : string) (order : list (string * string)) (s : ic_state) :
    ic_state * Z := foldl override_step (s, 0) order.
Definition override_order (newBase : string) (order : list (string * string)) : Prop :=
  order ≡ₚ map_to_list (override_pairs newBase).

(** ** Laws *)

Definition codes : list Z :=
  [NETWORK_SRC_INTERNAL; NETWORK_SRC_EXTERNAL; NETWORK_SRC_CLOUD_AWS; NETWORK_SRC_CLOUD_AZURE;
   NETWORK_SRC_CLOUD_GCP; NETWORK_SRC_CLOUD_IBM].

Definition profile_matches (profile : string) (ov dv : Z) : Prop :=
  ∃ c, c ∈ TrafficProfileNumbersFromName profile ∧ ov ∈ OriginationNumbers c ∧ dv ∈ DestinationNumbers c.

Lemma profiles_lookup p : trafficProfileNumbersByName !! p = None ∨
  ∃ cs, (p, cs) ∈ trafficProfileNumbersByName_list ∧ trafficProfileNumbersByName !! p = Some cs.
Proof.
  destruct (trafficProfileNumbersByName !! p) as [cs|] eqn:E; [right|by left].
  exists cs. split; [|done]. by apply elem_of_list_to_map_2 in E.
Qed.

Lemma code_other z c : z ∉ codes → c ∈ codes → (z =? c) = false.
Proof. intros Hz Hc. apply Z.eqb_neq. by intros ->. Qed.
Ltac not_code H := repeat (rewrite (code_other _ _ H) by (by apply (bool_decide_unpack _))).

Lemma TrafficName_from ov dv : ov ∉ codes → TrafficNameFromNumbers ov dv = "".
Proof. intros H. unfold TrafficNameFromNumbers. not_code H. done. Qed.

Lemma TrafficName_to ov dv : dv ∉ codes → TrafficNameFromNumbers ov dv = "".
Proof.
  intros H. destruct (decide (ov = dv)) as [->|Hne]; [by apply TrafficName_from|].
  unfold TrafficNameFromNumbers. not_code H. rewrite (proj2 (Z.eqb_neq ov dv) Hne).
  by rewrite !andb_false_r.
Qed.

Lemma TrafficName_codes ov dv : TrafficNameFromNumbers ov dv ≠ "" → ov ∈ codes ∧ dv ∈ codes.
Proof.
  intros Hne. split.
  - destruct (decide (ov ∈ codes)); [done|]. by rewrite TrafficName_from in Hne.
  - destruct (decide (dv ∈ codes)); [done|]. by rewrite TrafficName_to in Hne.
Qed.

(** Every code of a profile is one of the six, and on those the two functions
    agree; both facts are finite. *)
Lemma profile_codes : Forall (λ pc, Forall (λ c, (∀ o, o ∈ OriginationNumbers c → o ∈ codes) ∧
  (∀ d, d ∈ DestinationNumbers c → d ∈ codes)) pc.2) trafficProfileNumbersByName_list.
Proof.
  assert (Forall (λ pc, Forall (λ c, Forall (.∈ codes) (OriginationNumbers c) ∧
    Forall (.∈ codes) (DestinationNumbers c)) pc.2) trafficProfileNumbersByName_list) as H
    by (by apply (bool_decide_unpack _)).
  eapply Forall_impl; [exact H|]. intros pc Hpc. eapply Forall_impl; [exact Hpc|].
  intros c [Ho Hd]. by rewrite !Forall_forall in Ho, Hd.
Qed.

Lemma profile_finite : Forall (λ pc, Forall (λ ov, Forall (λ dv,
    Exists (λ c, ov ∈ OriginationNumbers c ∧ dv ∈ DestinationNumbers c) pc.2 ↔
    TrafficNameFromNumbers ov dv = pc.1 ∧ pc.1 ≠ "") codes) codes) trafficProfileNumbersByName_list.
Proof. apply (bool_decide_unpack _). by vm_compute. Qed.

Lemma TrafficName_known : Forall (λ ov, Forall (λ dv,
  TrafficNameFromNumbers ov dv ∈ trafficProfileNumbersByName_list.*1) codes) codes.
Proof. apply (bool_decide_unpack _). by vm_compute. Qed.

(** ** Properties *)

(** The traffic profile of a pair of network classes and the table of class pairs
    per profile are inverse to each other: a pair is listed under a name exactly when
    the name, in lower case, is the pair's traffic name. *)
Theorem profile_iff_name profile ov dv :
  profile_matches profile ov dv ↔
  TrafficNameFromNumbers ov dv = ToLower profile ∧ ToLower profile ≠ "".
Proof.
  unfold profile_matches, TrafficProfileNumbersFromName. generalize (ToLower profile) as p. intros p.
  pose proof profile_codes as Hc. pose proof profile_finite as Hf. rewrite Forall_forall in Hc, Hf.
  destruct (profiles_lookup p) as [E|(cs & Hin & E)]; rewrite E.
  - split.
    + intros (c & Hcin & _). by apply elem_of_nil in Hcin.
    + intros [En Hne]. exfalso. assert (TrafficNameFromNumbers ov dv ≠ "") as H by congruence.
      apply TrafficName_codes in H as [Ho Hd]. pose proof TrafficName_known as Hk.
      rewrite Forall_forall in Hk. specialize (Hk ov Ho). rewrite Forall_forall in Hk. specialize (Hk dv Hd).
      rewrite En in Hk. apply not_elem_of_list_to_map_2 in E. done.
  - specialize (Hf _ Hin). specialize (Hc _ Hin). simpl in *. rewrite Forall_forall in Hf. rewrite Forall_forall in Hc. split.
    + intros (c & Hcin & Ho & Hd). destruct (Hc c Hcin) as [Hco Hcd].
      specialize (Hf ov (Hco _ Ho)). rewrite Forall_forall in Hf. apply (Hf dv (Hcd _ Hd)).
      apply Exists_exists. by exists c.
    + intros [En Hne]. assert (TrafficNameFromNumbers ov dv ≠ "") as H by congruence.
      apply TrafficName_codes in H as [Ho Hd]. specialize (Hf ov Ho). rewrite Forall_forall in Hf.
      destruct (Hf dv Hd) as [_ Hx]. specialize (Hx (conj En Hne)). apply Exists_exists in Hx as (c & ? & ? & ?).
      by exists c.
Qed.

(** Looking up a map that a range loop filled. *)
Lemma foldl_insert_inv {A} (l : list (Z * string)) (f : Z → A) (m : gmap string A) s k :
  foldl (λ pn kv, <[kv.2 := f kv.1]> pn) m l !! s = Some k →
  m !! s = Some k ∨ ∃ n, (n, s) ∈ l ∧ k = f n.
Proof.
  revert m. induction l as [|[n v] l IH]; intros m; simpl; [by left|].
  intros [[[<- <-]|[_ E]]%lookup_insert_Some|(n' & Hin & ->)]%IH.
  - right. exists n. set_solver.
  - by left.
  - right. exists n'. set_solver.
Qed.
Lemma foldl_insert_some {A} (l : list (Z * string)) (f : Z → A) (m : gmap string A) s n :
  (n, s) ∈ l → is_Some (foldl (λ pn kv, <[kv.2 := f kv.1]> pn) m l !! s).
Proof.
  intros Hin. induction l as [|[n' v] l IH] using rev_ind; [by apply elem_of_nil in Hin|].
  rewrite foldl_app. simpl. destruct (decide (v = s)) as [->|Hne]; [rewrite lookup_insert_eq; by eexists|].
  rewrite lookup_insert_ne by done. apply IH. apply elem_of_app in Hin as [Hin|Hin]; [done|].
  apply list_elem_of_singleton in Hin. congruence.
Qed.

Lemma protocols_range : Forall (λ kv, wrapu 8 kv.1 = kv.1 ∧ in_u 8 kv.1 ∧ proto_name kv.1 = kv.2) PROTO_NAMES_list.
Proof. apply (bool_decide_unpack _). by vm_compute. Qed.

Lemma protocols_unique : Forall (λ kv, Forall (λ kv' : Z * string, kv.2 = kv'.2 → kv.2 = "" ∨ kv.1 = kv'.1) PROTO_NAMES_list)
  PROTO_NAMES_list.
Proof. apply (bool_decide_unpack _). by vm_compute. Qed.

(** The number chosen for a name is a number of that name. *)
Lemma proto_name_num `{ProtoOrder} s : is_Some (PROTO_NUMS !! s) → proto_name (proto_num s) = s ∧ in_u 8 (proto_num s).
Proof.
  intros [k E]. unfold proto_num. rewrite E. simpl. unfold PROTO_NUMS in E.
  apply foldl_insert_inv in E as [E|(n & Hin & ->)]; [by rewrite lookup_empty in E|].
  rewrite proto_order_perm in Hin. pose proof protocols_range as Hr. rewrite Forall_forall in Hr.
  specialize (Hr _ Hin). simpl in *. destruct Hr as (-> & ? & ?). done.
Qed.

(** Protocol numbers and names are inverse to each other for every named
    protocol, whatever order the tables were built in. *)
Lemma proto_num_name `{ProtoOrder} k s : (k, s) ∈ PROTO_NAMES_list → s ≠ "" → proto_num s = k ∧ proto_name k = s.
Proof.
  intros Hin Hne. pose proof protocols_range as Hr. pose proof protocols_unique as Hu.
  rewrite Forall_forall in Hr. rewrite Forall_forall in Hu. split; [|by apply (Hr _ Hin)].
  assert ((k, s) ∈ proto_order) as Hin' by (by rewrite proto_order_perm).
  destruct (foldl_insert_some proto_order (wrapu 8) ∅ s k Hin') as [k' E].
  unfold proto_num, PROTO_NUMS. rewrite E. simpl.
  apply foldl_insert_inv in E as [E|(n & Hn & ->)]; [by rewrite lookup_empty in E|].
  rewrite proto_order_perm in Hn. specialize (Hu _ Hn). rewrite Forall_forall in Hu.
  destruct (Hu _ Hin eq_refl) as [|Ek]; [done|]. simpl in Ek. subst n. by apply (Hr _ Hin).
Qed.

(** A record without a protocol gets the number of one of the five unnamed
    protocols, never zero: the tables hold the empty name. *)
Theorem proto_num_empty `{ProtoOrder} : proto_num "" ∈ [61; 63; 68; 99; 114].
Proof.
  assert ((61, "") ∈ proto_order) as Hin.
  { rewrite proto_order_perm. apply (bool_decide_unpack _). by vm_compute. }
  destruct (foldl_insert_some proto_order (wrapu 8) ∅ "" 61 Hin) as [k E].
  unfold proto_num, PROTO_NUMS. rewrite E. simpl.
  apply foldl_insert_inv in E as [E|(n & Hn & ->)]; [by rewrite lookup_empty in E|].
  rewrite proto_order_perm in Hn.
  assert (Forall (λ kv, kv.2 = "" → wrapu 8 kv.1 ∈ [61; 63; 68; 99; 114]) PROTO_NAMES_list) as Hf
    by (apply (bool_decide_unpack _); by vm_compute).
  rewrite Forall_forall in Hf. by apply (Hf _ Hn).
Qed.

Lemma override_pairs_one old new :
  Contains old ":" = false → Contains new ":" = false → Contains old "," = false → Contains new "," = false →
  override_pairs (String.append old (String ":" new)) = {[ old := new ]}.
Proof.
  intros Ho Hn Ho' Hn'. unfold override_pairs. rewrite Split_char_none.
  - cbn [foldl]. by rewrite Split_char.
  - rewrite Contains_char_append, Ho'. cbn [Contains]. by rewrite Hn', HasPrefix_char.
Qed.

(** An override renames a connectivity type: afterwards its number gives the new
    name, and both the new name and the old one give its number. *)
Theorem override_one old new v s order :
  Contains old ":" = false → Contains new ":" = false → Contains old "," = false → Contains new "," = false →
  CONNECTIVITY_TYPE_NAME_TO_INT s !! old = Some v →
  override_order (String.append old (String ":" new)) order →
  ∃ s', OverrideConnectivityType (String.append old (String ":" new)) order s = (s', 1) ∧
    NameFromCTInt v s' = new ∧ IntFromCTName new s' = v ∧ IntFromCTName old s' = v.
Proof.
  intros Ho Hn Ho' Hn' E Hord. unfold override_order in Hord.
  rewrite override_pairs_one, map_to_list_singleton in Hord by done. apply Permutation_singleton_r in Hord as ->.
  unfold OverrideConnectivityType. cbn [foldl]. unfold override_step. cbn [fst snd]. rewrite E.
  eexists. split; [done|]. unfold NameFromCTInt, IntFromCTName. simpl. rewrite !lookup_insert_eq.
  split; [done|]. split; [done|].
  destruct (decide (new = old)) as [->|]; [by rewrite lookup_insert_eq|].
  by rewrite lookup_insert_ne, E.
Qed.

(** A class-type override as the configuration gives it. *)
Lemma override_one_witness : ∃ s',
  OverrideConnectivityType "free_pni:peering" [("free_pni", "peering")] ic_init = (s', 1) ∧
  NameFromCTInt CT_FREE_PNI s' = "peering" ∧ IntFromCTName "peering" s' = CT_FREE_PNI ∧ IntFromCTName "free_pni" s' = CT_FREE_PNI.
Proof.
  apply (override_one "free_pni" "peering" CT_FREE_PNI ic_init [("free_pni", "peering")]); try reflexivity.
  vm_compute. constructor. constructor.
Defined.

(** The names visited in the order of the source. *)
Definition source_order : ProtoOrder :=
  {| proto_order := PROTO_NAMES_list; proto_order_perm := Permutation_refl _ |}.
Lemma proto_num_empty_witness : @proto_num source_order "" ∈ [61; 63; 68; 99; 114].
Proof. apply (@proto_num_empty source_order). Defined.
