(* ===== verification/NetflowFormat.v ===== *)
(** The NetFlow output format (src/pkg/formats/netflow): flow records packed as
    IPFIX or NetFlow 9 with one fixed template, and decoded back through the NetFlow
    decoder.  Log output is not modelled; the template tracker is. *)
From S2P Require Import Prelude GoStrings GoNet Jchf Ic Session Read Translate TranslateTables NetflowDecoder.
From S2P Require Ipfix Netflow9.
Local Open Scope Z_scope.

Definition IN_BYTES : Z := 1.
Definition IN_PKTS : Z := 2.
Definition PROTOCOL : Z := 4.
Definition TOS : Z := 5.
Definition TCP_FLAGS : Z := 6.
Definition L4_SRC_PORT : Z := 7.
Definition IPV4_SRC_ADDR : Z := 8.
Definition INPUT_SNMP : Z := 10.
Definition L4_DST_PORT : Z := 11.
Definition IPV4_DST_ADDR : Z := 12.
Definition OUTPUT_SNMP : Z := 14.
Definition SRC_AS : Z := 16.
Definition DST_AS : Z := 17.
Definition OUT_BYTES : Z := 23.
Definition OUT_PKTS : Z := 24.
Definition IPV6_SRC_ADDR : Z := 27.
Definition IPV6_DST_ADDR : Z := 28.
Definition SRC_MAC : Z := 56.
Definition DST_MAC : Z := 80.
Definition OBSERVATION_POINT_ID : Z := 138.
Definition FLOW_START_SECONDS : Z := 150.
Definition FLOW_END_SECONDS : Z := 151.

(** [Field]: type and length. *)
Record FormatField := mkFormatField { Field_Type : Z; Field_Length : Z }.

Definition fields : list FormatField :=
  [ mkFormatField PROTOCOL 1; mkFormatField TOS 1; mkFormatField TCP_FLAGS 2; mkFormatField SRC_MAC 6;
    mkFormatField DST_MAC 6; mkFormatField IPV4_SRC_ADDR 4; mkFormatField IPV4_DST_ADDR 4;
    mkFormatField L4_SRC_PORT 2; mkFormatField L4_DST_PORT 2; mkFormatField IPV6_SRC_ADDR 16;
    mkFormatField IPV6_DST_ADDR 16; mkFormatField SRC_AS 4; mkFormatField DST_AS 4;
    mkFormatField INPUT_SNMP 4; mkFormatField OUTPUT_SNMP 4; mkFormatField IN_BYTES 8;
    mkFormatField OUT_BYTES 8; mkFormatField IN_PKTS 8; mkFormatField OUT_PKTS 8;
    mkFormatField OBSERVATION_POINT_ID 8; mkFormatField FLOW_START_SECONDS 4;
    mkFormatField FLOW_END_SECONDS 4 ].

Definition templateSet : Z := 2.
Definition dataSet : Z := 256.
Definition templateId : Z := 256.

(** The tracker: observation domain, template id, rendered template. *)
Definition templateTracker := gmap Z (gmap Z string).

Record NetflowFormat := mkNetflowFormat {
  nf_session : NetflowDecoder.session;
  nf_tracker : templateTracker;
  nf_version : Z }.

(** [NewFormat] on a configuration that may be nil, with the session it makes. *)
Definition NewFormat (compression_none : bool) (cfg : option string) : res NetflowFormat :=
  match cfg with
  | None => Err (Errorf "netflow format cannot be nil" [])
  | Some version =>
      version ← (if String.eqb version "ipfix" then Ok Ipfix.Version
                 else if String.eqb version "netflow9" then Ok Netflow9.Version
                 else Err (Errorf "You used an unsupported netflow version: %s. Use netflow9 or ipfix." [FStr version]));
      if negb compression_none then Err (Errorf "You cannot use compression on IPFix data." [])
      else Ok {| nf_session := Some New; nf_tracker := ∅; nf_version := version |}
  end.

(** ** Encoding *)

Section encoding.
Context `{ProtoOrder}.

(** The word of an IPv4 address and the bytes of an IPv6 address. *)
Definition ip2int (ip : option IP) : Z * option (list byte) :=
  match ip with
  | None => (0, None)
  | Some ip =>
      match To4 ip with
      | Some v4 => (be_decode v4, None)
      | None => (0, To16 ip)
      end
  end.

Definition empty16 : list byte := make_bytes 16.

(** The bytes [binary.Write] gives for the value chosen by the field's type; a nil
    value is an error of [binary.Write]. *)
Definition encode_field (src4 dst4 : Z) (src6 dst6 smac dmac : list byte) (flow : JCHF) (type : Z) :
    res (list byte) :=
  if type =? PROTOCOL then Ok (be_encode 1 (proto_num (Protocol flow)))
  else if type =? TOS then Ok (be_encode 1 (Tos flow))
  else if type =? TCP_FLAGS then Ok (be_encode 2 (TcpFlags flow))
  else if type =? SRC_MAC then Ok (take 6 smac)
  else if type =? DST_MAC then Ok (take 6 dmac)
  else if type =? IPV4_SRC_ADDR then Ok (be_encode 4 src4)
  else if type =? IPV4_DST_ADDR then Ok (be_encode 4 dst4)
  else if type =? L4_SRC_PORT then Ok (be_encode 2 (L4SrcPort flow))
  else if type =? L4_DST_PORT then Ok (be_encode 2 (L4DstPort flow))
  else if type =? IPV6_SRC_ADDR then Ok src6
  else if type =? IPV6_DST_ADDR then Ok dst6
  else if type =? SRC_AS then Ok (be_encode 4 (SrcAs flow))
  else if type =? DST_AS then Ok (be_encode 4 (DstAs flow))
  else if type =? INPUT_SNMP then Ok (be_encode 4 (InputPort flow))
  else if type =? OUTPUT_SNMP then Ok (be_encode 4 (OutputPort flow))
  else if type =? IN_BYTES then Ok (be_encode 8 (InBytes flow))
  else if type =? OUT_BYTES then Ok (be_encode 8 (OutBytes flow))
  else if type =? IN_PKTS then Ok (be_encode 8 (InPkts flow))
  else if type =? OUT_PKTS then Ok (be_encode 8 (OutPkts flow))
  else if type =? OBSERVATION_POINT_ID then
    Ok (be_encode 8 (wrapu 64 (wrapu 64 (Z.shiftl (Z.land (CompanyId flow) 0xffff) 32) + DeviceId flow)))
  else if type =? FLOW_START_SECONDS then Ok (be_encode 4 (Timestamp flow))
  else if type =? FLOW_END_SECONDS then Ok (be_encode 4 (wraps 64 (Timestamp flow + 60)))
  else Err (Errorf "binary.Write: some values are not fixed-sized in type invalid" []).

Fixpoint encode_fields (value : Z → res (list byte)) (fs : list FormatField) : res (list byte) :=
  match fs with
  | [] => Ok []
  | f :: fs => b ← value (Field_Type f); rest ← encode_fields value fs; Ok (b ++ rest)
  end.

Definition encodeFlow (flow : JCHF) : res (list byte) :=
  let '(src4, src6) := ip2int (ParseIP (SrcAddr flow)) in
  let '(dst4, dst6) := ip2int (ParseIP (DstAddr flow)) in
  let src6 := default empty16 src6 in
  let dst6 := default empty16 dst6 in
  let smac := default (take 6 empty16) (ParseMAC (SrcEthMac flow)) in
  let dmac := default (take 6 empty16) (ParseMAC (DstEthMac flow)) in
  encode_fields (encode_field src4 dst4 src6 dst6 smac dmac flow) fields.

Definition encodeTemplate (tempId : Z) : list byte :=
  be_encode 2 tempId ++ be_encode 2 (Z.of_nat (length fields)) ++
  concat ((λ f, be_encode 2 (Field_Type f) ++ be_encode 2 (Field_Length f)) <$> fields).

(** [uint16(body.Len() + 4)]; the two header types have one layout. *)
Definition writeWithHeader (version id : Z) (body : list byte) : list byte :=
  let len := wrapu 16 (Z.of_nat (length body) + 4) in
  if version =? Ipfix.Version then
    Ipfix.SetHeader_Bytes {| Ipfix.sh_ID := id; Ipfix.sh_Length := len |} ++ body
  else if version =? Netflow9.Version then
    Netflow9.encode_FlowSetHeader {| Netflow9.fsh_ID := id; Netflow9.fsh_Length := len |} ++ body
  else [].

(** [flow.Write(padding[:n])]. *)
Definition pad4 (flow : list byte) : list byte := flow ++ make_bytes (length flow mod 4).

Fixpoint pack_flows (version : Z) (msgs : list JCHF) : res (list byte) :=
  match msgs with
  | [] => Ok []
  | m :: msgs =>
      flow ← encodeFlow m;
      rest ← pack_flows version msgs;
      Ok (writeWithHeader version templateId (pad4 flow) ++ rest)
  end.

Definition packIpfix (f : NetflowFormat) (msgs : list JCHF) : res (option Output) :=
  match msgs with
  | [] => Ok None
  | _ =>
      let tmp := writeWithHeader (nf_version f) templateSet (encodeTemplate templateId) in
      flows ← pack_flows (nf_version f) msgs;
      let dataBuf := tmp ++ flows in
      let header := {| Ipfix.mh_Version := nf_version f;
                       Ipfix.mh_Length := wrapu 16 (Z.of_nat (length dataBuf) + 16);
                       Ipfix.mh_ExportTime := 0; Ipfix.mh_SequenceNumber := 0;
                       Ipfix.mh_ObservationDomainID := 0 |} in
      Ok (Some (NewOutput (Ipfix.encode_MessageHeader header ++ dataBuf)))
  end.

Definition pack9 (f : NetflowFormat) (flows : list JCHF) : res (option Output) :=
  let header := {| Netflow9.h_Version := Netflow9.Version;
                   Netflow9.h_Count := wrapu 16 (Z.of_nat (length flows) + 1);
                   Netflow9.h_SysUpTime := 0; Netflow9.h_UnixSecs := 0;
                   Netflow9.h_SequenceNumber := 0; Netflow9.h_SourceID := 0 |} in
  let tmp := writeWithHeader (nf_version f) 0 (encodeTemplate templateId) in
  body ← pack_flows (nf_version f) flows;
  Ok (Some (NewOutput (Netflow9.encode_PacketHeader header ++ tmp ++ body))).

Definition To (f : NetflowFormat) (msgs : list JCHF) : res (option Output) :=
  if nf_version f =? Netflow9.Version then pack9 f msgs
  else if nf_version f =? Ipfix.Version then packIpfix f msgs
  else Err (Errorf "You used an unsupported version." []).
End encoding.

(** ** Decoding *)

(** [setCHFField]: [None] is the result false. *)
Definition setCHFField (flow : JCHF) (id : Z) (v : value) : option JCHF :=
  if id =? PROTOCOL then
    match v with VUint8 protocol => Some (flow <| Protocol := proto_name protocol |>) | _ => None end
  else if id =? TOS then match v with VUint8 tos => Some (flow <| Tos := tos |>) | _ => None end
  else if id =? TCP_FLAGS then match v with VUint16 x => Some (flow <| TcpFlags := x |>) | _ => None end
  else if id =? L4_SRC_PORT then match v with VUint16 x => Some (flow <| L4SrcPort := x |>) | _ => None end
  else if id =? L4_DST_PORT then match v with VUint16 x => Some (flow <| L4DstPort := x |>) | _ => None end
  else if id =? IPV4_SRC_ADDR then
    match v with
    | VIP ip => Some (if String.eqb (IP_String ip) "0.0.0.0" then flow else flow <| SrcAddr := IP_String ip |>)
    | _ => None end
  else if id =? IPV4_DST_ADDR then
    match v with
    | VIP ip => Some (if String.eqb (IP_String ip) "0.0.0.0" then flow else flow <| DstAddr := IP_String ip |>)
    | _ => None end
  else if id =? IPV6_SRC_ADDR then
    match v with
    | VIP ip => Some (if String.eqb (IP_String ip) "::" then flow else flow <| SrcAddr := IP_String ip |>)
    | _ => None end
  else if id =? IPV6_DST_ADDR then
    match v with
    | VIP ip => Some (if String.eqb (IP_String ip) "::" then flow else flow <| DstAddr := IP_String ip |>)
    | _ => None end
  else if id =? INPUT_SNMP then match v with VUint32 x => Some (flow <| InputPort := x |>) | _ => None end
  else if id =? OUTPUT_SNMP then match v with VUint32 x => Some (flow <| OutputPort := x |>) | _ => None end
  else if id =? SRC_AS then match v with VUint32 x => Some (flow <| SrcAs := x |>) | _ => None end
  else if id =? DST_AS then match v with VUint32 x => Some (flow <| DstAs := x |>) | _ => None end
  else if id =? IN_PKTS then match v with VUint64 x => Some (flow <| InPkts := x |>) | _ => None end
  else if id =? IN_BYTES then match v with VUint64 x => Some (flow <| InBytes := x |>) | _ => None end
  else if id =? OUT_PKTS then match v with VUint64 x => Some (flow <| OutPkts := x |>) | _ => None end
  else if id =? OUT_BYTES then match v with VUint64 x => Some (flow <| OutBytes := x |>) | _ => None end
  else if id =? SRC_MAC then
    match v with VHardwareAddr a => Some (flow <| SrcEthMac := HardwareAddr_String a |>) | _ => None end
  else if id =? DST_MAC then
    match v with VHardwareAddr a => Some (flow <| DstEthMac := HardwareAddr_String a |>) | _ => None end
  else if id =? FLOW_START_SECONDS then
    match v with VTime ts => Some (flow <| Timestamp := t_sec ts |>) | _ => None end
  else Some flow.

(** The fields with a translation, in order; a field that cannot be set drops the
    record. *)
Fixpoint setCHFFields (flow : JCHF) (ivs : list (option (Z * value))) : option JCHF :=
  match ivs with
  | [] => Some flow
  | None :: ivs => setCHFFields flow ivs
  | Some (id, v) :: ivs => flow ← setCHFField flow id v; setCHFFields flow ivs
  end.

Definition decodeIpfixRecord (dr : Ipfix.DataRecord) : option JCHF :=
  setCHFFields NewJCHF
    ((λ f, (λ tf, (Ipfix.tf_InformationElementID tf, Ipfix.tf_Value tf)) <$> Ipfix.f_Translated f) <$>
       Ipfix.dr_Fields dr).

Definition decodeV9Record (dr : Netflow9.DataRecord) : option JCHF :=
  setCHFFields NewJCHF
    ((λ f, (λ tf, (Netflow9.tf_Type tf, Netflow9.tf_Value tf)) <$> Netflow9.f_Translated f) <$>
       Netflow9.dr_Fields dr).

(** *** template-tracker.go *)

(** Reading a missing inner map or entry gives the empty string. *)
Definition addTemplate (srcId templateId : Z) (templateStr : string) (tr : templateTracker) : templateTracker :=
  let inner := default ∅ (tr !! srcId) in
  if String.eqb templateStr (default "" (inner !! templateId)) then <[srcId := inner]> tr
  else <[srcId := <[templateId := templateStr]> inner]> tr.

Definition ipfix_field_string (f : Ipfix.FieldSpecifier) : string :=
  String.append (Itoa (Ipfix.fs_EnterpriseNumber f)) (String.append ":"
    (String.append (Itoa (Ipfix.fs_InformationElementID f)) (String.append " ("
      (String.append (Itoa (Ipfix.fs_Length f)) "), ")))).
Definition v9_field_string (f : Netflow9.FieldSpecifier) : string :=
  String.append (Itoa (Netflow9.fs_Type f)) (String.append " ("
    (String.append (Itoa (Netflow9.fs_Length f)) "), ")).
Definition concat_strings (l : list string) : string := foldr String.append EmptyString l.

Definition addIpfixTemplate (srcId : Z) (tr : Ipfix.TemplateRecord) : templateTracker → templateTracker :=
  addTemplate srcId (Ipfix.tr_TemplateID tr) (concat_strings (ipfix_field_string <$> Ipfix.tr_Fields tr)).
Definition addV9Template (srcId : Z) (tr : Netflow9.TemplateRecord) : templateTracker → templateTracker :=
  addTemplate srcId (Netflow9.tr_TemplateID tr) (concat_strings (v9_field_string <$> Netflow9.tr_Fields tr)).
Definition addIpfixOptionsTemplate (srcId : Z) (otr : Ipfix.OptionsTemplateRecord) :
    templateTracker → templateTracker :=
  addTemplate srcId (Ipfix.otr_TemplateID otr)
    (concat_strings ("options scope: " :: (ipfix_field_string <$> Ipfix.otr_ScopeFields otr) ++
                     "data: " :: (ipfix_field_string <$> Ipfix.otr_Fields otr))).
Definition addV9OptionsTemplate (srcId : Z) (otr : Netflow9.OptionsTemplateRecord) :
    templateTracker → templateTracker :=
  addTemplate srcId (Netflow9.otr_TemplateID otr)
    (concat_strings ("options scope: " :: (v9_field_string <$> Netflow9.otr_ScopeFields otr) ++
                     "data: " :: (v9_field_string <$> Netflow9.otr_Fields otr))).

Definition with_tracker (f : NetflowFormat) (tr : templateTracker) : NetflowFormat :=
  {| nf_session := nf_session f; nf_tracker := tr; nf_version := nf_version f |}.

Definition decodeIpfix (f : NetflowFormat) (msg : Ipfix.Message) : NetflowFormat * list JCHF :=
  let templates := concat (Ipfix.ts_Records <$> Ipfix.m_TemplateSets msg) in
  (with_tracker f (foldl (λ tr t, addIpfixTemplate (Ipfix.mh_ObservationDomainID (Ipfix.m_Header msg)) t tr)
                    (nf_tracker f) templates),
   omap decodeIpfixRecord (concat (Ipfix.ds_Records <$> Ipfix.m_DataSets msg))).

Definition decodeV9 (f : NetflowFormat) (msg : Netflow9.Packet) : NetflowFormat * list JCHF :=
  let templates := concat (Netflow9.tfs_Records <$> Netflow9.p_TemplateFlowSets msg) in
  (with_tracker f (foldl (λ tr t, addV9Template (Netflow9.h_SourceID (Netflow9.p_Header msg)) t tr)
                    (nf_tracker f) templates),
   omap decodeV9Record (concat (Netflow9.dfs_Records <$> Netflow9.p_DataFlowSets msg))).

Fixpoint ToMaps (chfs : list JCHF) : res (list (gmap string avro)) :=
  match chfs with
  | [] => Ok []
  | m :: chfs => '(_, v) ← ToMap m; vs ← ToMaps chfs; Ok (v :: vs)
  end.

Definition From (fuel : nat) (f : NetflowFormat) (raw : list byte) :
    NetflowFormat * res (list (gmap string avro)) :=
  let '(s, m) := NetflowDecoder.Read fuel raw (nf_session f) in
  let f := {| nf_session := s; nf_tracker := nf_tracker f; nf_version := nf_version f |} in
  match m with
  | Ok (M9 p) => let '(f, chfs) := decodeV9 f p in (f, ToMaps chfs)
  | Ok (M10 msg) => let '(f, chfs) := decodeIpfix f msg in (f, ToMaps chfs)
  | Ok _ => (f, Err (Errorf "ipfix parser failed to decode a message: %v: %v" []))
  | Err e => (f, Err e) | Panic w => (f, Panic w) | OutOfFuel => (f, OutOfFuel)
  end.

(** ** The packed flow, field by field *)

Section flow.
Context `{ProtoOrder}.

Definition src4 (j : JCHF) : Z := (ip2int (ParseIP (SrcAddr j))).1.
Definition dst4 (j : JCHF) : Z := (ip2int (ParseIP (DstAddr j))).1.
Definition src6 (j : JCHF) : list byte := default empty16 (ip2int (ParseIP (SrcAddr j))).2.
Definition dst6 (j : JCHF) : list byte := default empty16 (ip2int (ParseIP (DstAddr j))).2.
Definition smac (j : JCHF) : list byte := take 6 (default (take 6 empty16) (ParseMAC (SrcEthMac j))).
Definition dmac (j : JCHF) : list byte := take 6 (default (take 6 empty16) (ParseMAC (DstEthMac j))).
Definition observation_point (j : JCHF) : Z :=
  wrapu 64 (wrapu 64 (Z.shiftl (Z.land (CompanyId j) 0xffff) 32) + DeviceId j).

Definition flow_values (j : JCHF) : list (list byte) :=
  [ be_encode 1 (proto_num (Protocol j)); be_encode 1 (Tos j); be_encode 2 (TcpFlags j);
    smac j; dmac j; be_encode 4 (src4 j); be_encode 4 (dst4 j);
    be_encode 2 (L4SrcPort j); be_encode 2 (L4DstPort j); src6 j; dst6 j;
    be_encode 4 (SrcAs j); be_encode 4 (DstAs j); be_encode 4 (InputPort j); be_encode 4 (OutputPort j);
    be_encode 8 (InBytes j); be_encode 8 (OutBytes j); be_encode 8 (InPkts j); be_encode 8 (OutPkts j);
    be_encode 8 (observation_point j); be_encode 4 (Timestamp j);
    be_encode 4 (wraps 64 (Timestamp j + 60)) ].

Lemma encodeFlow_eq j : encodeFlow j = Ok (concat (flow_values j)).
Proof.
  unfold encodeFlow, flow_values, src4, dst4, src6, dst6, smac, dmac.
  destruct (ip2int (ParseIP (SrcAddr j))) as [s4 s6], (ip2int (ParseIP (DstAddr j))) as [d4 d6].
  cbn [fst snd concat]. reflexivity.
Qed.

Lemma parse_pairs_length n s e bs : parse_pairs n s e = Some bs → length bs = n.
Proof.
  revert s bs. induction n as [|n IH]; intros s bs; cbn [parse_pairs]; [by intros [= <-]|].
  destruct (xtoi2 s e); cbn [mbind option_bind]; [|done]. destruct (parse_pairs n (drop_string 3 s) e) eqn:E; cbn [mbind option_bind]; [|done].
  intros [= <-]. simpl. f_equal. by eapply IH.
Qed.
Lemma parse_quads_length n s bs : parse_quads n s = Some bs → length bs = (2 * n)%nat.
Proof.
  revert s bs. induction n as [|n IH]; intros s bs; cbn [parse_quads]; [by intros [= <-]|].
  destruct (xtoi2 (take_string 2 s) _); cbn [mbind option_bind]; [|done]. destruct (xtoi2 (drop_string 2 s) _); cbn [mbind option_bind]; [|done].
  destruct (parse_quads n (drop_string 5 s)) eqn:E; cbn [mbind option_bind]; [|done].
  intros [= <-]. simpl. apply IH in E. lia.
Qed.

Lemma ParseMAC_length s a : ParseMAC s = Some a → (6 ≤ length a)%nat.
Proof.
  assert (∀ n, mac_len n = true → 6 ≤ n)%nat as Hm.
  { intros n. unfold mac_len. rewrite !orb_true_iff, !Nat.eqb_eq. lia. }
  unfold ParseMAC. destruct (_ <? 14)%nat; [done|]. destruct (String.get 2 s) as [c|]; [|done].
  destruct (_ || _).
  - destruct (negb _); [done|]. destruct (mac_len ((String.length s + 1) / 3)) eqn:E; [|done]. cbn [negb].
    intros Hp%parse_pairs_length. apply Hm in E. lia.
  - destruct (match String.get 4 s with Some _ => _ | None => _ end); [|done].
    destruct (negb _); [done|]. destruct (mac_len (2 * ((String.length s + 1) / 5))) eqn:E; [|done]. cbn [negb].
    intros Hp%parse_quads_length. apply Hm in E. lia.
Qed.

Lemma mac_length s : length (take 6 (default (take 6 empty16) (ParseMAC s))) = 6%nat.
Proof.
  destruct (ParseMAC s) as [a|] eqn:E; [|done]. apply ParseMAC_length in E.
  change (length (take 6 a) = 6%nat). rewrite length_take. lia.
Qed.

Lemma v6_length ip : length (default empty16 (ip2int ip).2) = 16%nat.
Proof.
  destruct ip as [ip|]; [|done]. unfold ip2int. destruct (To4 ip); [done|]. cbn [snd]. unfold To16.
  destruct (length ip =? 4)%nat eqn:E4.
  { apply Nat.eqb_eq in E4. change (length (v4InV6Prefix ++ ip) = 16%nat). by rewrite length_app, E4. }
  destruct (length ip =? 16)%nat eqn:E; [by apply Nat.eqb_eq in E|done].
Qed.

Lemma flow_lengths j : Forall2 (λ f b, Field_Length f = Z.of_nat (length b)) fields (flow_values j).
Proof.
  unfold fields, flow_values, smac, dmac, src6, dst6.
  repeat (constructor; [cbn [Field_Length]; rewrite ?length_be_encode, ?mac_length, ?v6_length; done|]).
  constructor.
Qed.

Lemma flow_length j : length (concat (flow_values j)) = 124%nat.
Proof.
  unfold flow_values, smac, dmac, src6, dst6. cbn [concat].
  rewrite !length_app, !length_be_encode, !mac_length, !v6_length. done.
Qed.

(** ** What the decoder finds in it *)

(** Types of the fields in the table of elements. *)
Definition field_types : list FieldType :=
  [ Uint8; Uint8; Uint16; MacAddress; MacAddress; Ipv4Address; Ipv4Address; Uint16; Uint16;
    Ipv6Address; Ipv6Address; Uint32; Uint32; Uint32; Uint32; Uint64; Uint64; Uint64; Uint64; Uint64;
    DateTimeSeconds; DateTimeSeconds ].

Lemma field_elements : (λ f, Type_ <$> Key_lookup NewTranslate (0, Field_Type f)) <$> fields = Some <$> field_types.
Proof. vm_compute. reflexivity. Qed.

Definition set_src (zero : string) (ip : IP) (j : JCHF) : JCHF :=
  if String.eqb (IP_String ip) zero then j else j <| SrcAddr := IP_String ip |>.
Definition set_dst (zero : string) (ip : IP) (j : JCHF) : JCHF :=
  if String.eqb (IP_String ip) zero then j else j <| DstAddr := IP_String ip |>.

(** The record the decoder makes of a packed flow: each field at the width of the
    template. *)
Definition decoded (j : JCHF) : JCHF :=
  (set_dst "::" (dst6 j) (set_src "::" (src6 j)
    ((set_dst "0.0.0.0" (be_encode 4 (dst4 j)) (set_src "0.0.0.0" (be_encode 4 (src4 j))
      (NewJCHF
        <| Protocol := proto_name (wrapu 8 (proto_num (Protocol j))) |>
        <| Tos := wrapu 8 (Tos j) |>
        <| TcpFlags := wrapu 16 (TcpFlags j) |>
        <| SrcEthMac := HardwareAddr_String (smac j) |>
        <| DstEthMac := HardwareAddr_String (dmac j) |>)))
      <| L4SrcPort := wrapu 16 (L4SrcPort j) |>
      <| L4DstPort := wrapu 16 (L4DstPort j) |>)))
    <| SrcAs := wrapu 32 (SrcAs j) |>
    <| DstAs := wrapu 32 (DstAs j) |>
    <| InputPort := wrapu 32 (InputPort j) |>
    <| OutputPort := wrapu 32 (OutputPort j) |>
    <| InBytes := wrapu 64 (InBytes j) |>
    <| OutBytes := wrapu 64 (OutBytes j) |>
    <| InPkts := wrapu 64 (InPkts j) |>
    <| OutPkts := wrapu 64 (OutPkts j) |>
    <| Timestamp := wrapu 32 (Timestamp j) |>.

Lemma Bytes_u8 x : Bytes (be_encode 1 x) Uint8 = VUint8 (wrapu 8 x).
Proof. unfold Bytes. simpl. unfold byte_at. simpl. by rewrite b2z_z2b. Qed.
Lemma Bytes_u16 x : Bytes (be_encode 2 x) Uint16 = VUint16 (wrapu 16 x).
Proof.
  pose proof (Bytes_unsigned (be_encode 2 x) 16) as E. rewrite length_be_encode in E.
  cbn [uint_type uint_value Z.eqb Pos.eqb] in E. rewrite E by (done || lia). by rewrite be_decode_encode.
Qed.
Lemma Bytes_u32 x : Bytes (be_encode 4 x) Uint32 = VUint32 (wrapu 32 x).
Proof.
  pose proof (Bytes_unsigned (be_encode 4 x) 32) as E. rewrite length_be_encode in E.
  cbn [uint_type uint_value Z.eqb Pos.eqb] in E. rewrite E by (done || lia). by rewrite be_decode_encode.
Qed.
Lemma Bytes_u64 x : Bytes (be_encode 8 x) Uint64 = VUint64 (wrapu 64 x).
Proof.
  pose proof (Bytes_unsigned (be_encode 8 x) 64) as E. rewrite length_be_encode in E.
  cbn [uint_type uint_value Z.eqb Pos.eqb] in E. rewrite E by (done || lia). by rewrite be_decode_encode.
Qed.
Lemma Bytes_sized t bs : minLength t = length bs →
  Bytes bs t = match t with
    | MacAddress => VHardwareAddr bs
    | Ipv4Address | Ipv6Address => VIP bs
    | DateTimeSeconds => VTime (time_Unix (be_decode (take 4 bs)) 0)
    | _ => Bytes bs t end.
Proof. intros Hl. unfold Bytes. rewrite Hl, Nat.ltb_irrefl. by destruct t. Qed.
Lemma Bytes_seconds x : Bytes (be_encode 4 x) DateTimeSeconds = VTime {| t_sec := wrapu 32 x; t_nsec := 0 |}.
Proof.
  rewrite Bytes_sized by (by rewrite length_be_encode).
  rewrite take_ge by (by rewrite length_be_encode). rewrite be_decode_encode.
  unfold time_Unix. simpl. by rewrite Z.add_0_r.
Qed.

Lemma setCHFFields_cons flow flow' id v ivs :
  setCHFField flow id v = Some flow' → setCHFFields flow (Some (id, v) :: ivs) = setCHFFields flow' ivs.
Proof. intros E. cbn [setCHFFields]. by rewrite E. Qed.

Lemma setCHFFields_decoded j :
  setCHFFields NewJCHF (zip_with (λ fty b, Some (Field_Type fty.1, Bytes b fty.2)) (zip fields field_types) (flow_values j))
  = Some (decoded j).
Proof.
  unfold fields, field_types, flow_values. cbn [zip zip_with fst snd Field_Type].
  rewrite (Bytes_sized MacAddress (smac j)) by (symmetry; apply mac_length).
  rewrite (Bytes_sized MacAddress (dmac j)) by (symmetry; apply mac_length).
  rewrite (Bytes_sized Ipv6Address (src6 j)) by (symmetry; apply v6_length).
  rewrite (Bytes_sized Ipv6Address (dst6 j)) by (symmetry; apply v6_length).
  rewrite !(Bytes_sized Ipv4Address) by (by rewrite length_be_encode).
  rewrite !Bytes_u8, !Bytes_u16, !Bytes_u32, !Bytes_u64, !Bytes_seconds.
  repeat (erewrite setCHFFields_cons by reflexivity). reflexivity.
Qed.
End flow.

(** ** The packed message *)

Definition ipfix_template : Ipfix.TemplateRecord :=
  {| Ipfix.tr_TemplateID := templateId; Ipfix.tr_FieldCount := 22;
     Ipfix.tr_Fields := (λ f, {| Ipfix.fs_InformationElementID := Field_Type f; Ipfix.fs_Length := Field_Length f;
       Ipfix.fs_EnterpriseNumber := 0; Ipfix.fs_EnterpriseBitSet := false |}) <$> fields |}.
Definition v9_template : Netflow9.TemplateRecord :=
  {| Netflow9.tr_TemplateID := templateId; Netflow9.tr_FieldCount := 22;
     Netflow9.tr_Fields := (λ f, {| Netflow9.fs_Type := Field_Type f; Netflow9.fs_Length := Field_Length f |}) <$> fields |}.

Lemma ipfix_template_wf : Ipfix.TemplateRecord_wf ipfix_template.
Proof. split_and!; try done. repeat (constructor; [done|]). constructor. Qed.
Lemma v9_template_wf : Netflow9.TemplateRecord_wf v9_template.
Proof. split_and!; try done. repeat (constructor; [done|]). constructor. Qed.

Lemma encodeTemplate_ipfix : encodeTemplate templateId = concat (Ipfix.encode_TemplateRecord <$> [ipfix_template]) ++ [].
Proof. vm_compute. reflexivity. Qed.
Lemma encodeTemplate_v9 : encodeTemplate templateId = concat (Netflow9.encode_TemplateRecord <$> [v9_template]) ++ [].
Proof. vm_compute. reflexivity. Qed.
Lemma encodeTemplate_length : length (encodeTemplate templateId) = 92%nat.
Proof. vm_compute. reflexivity. Qed.

Section message.
Context `{ProtoOrder}.

Definition ipfix_header (id len : Z) : Ipfix.SetHeader := {| Ipfix.sh_ID := id; Ipfix.sh_Length := len |}.
Definition v9_header (id len : Z) : Netflow9.FlowSetHeader := {| Netflow9.fsh_ID := id; Netflow9.fsh_Length := len |}.

(** The data set of one flow: 128 bytes. *)
Definition ipfix_set (j : JCHF) : list byte :=
  Ipfix.SetHeader_Bytes (ipfix_header templateId 128) ++ concat (flow_values j).
Definition v9_set (j : JCHF) : list byte :=
  Netflow9.encode_FlowSetHeader (v9_header templateId 128) ++ concat (flow_values j).

Lemma pad4_flow j : pad4 (concat (flow_values j)) = concat (flow_values j).
Proof. unfold pad4. rewrite flow_length. apply app_nil_r. Qed.

Lemma pack_flows_ipfix msgs : pack_flows Ipfix.Version msgs = Ok (concat (ipfix_set <$> msgs)).
Proof.
  induction msgs as [|m msgs IH]; [done|]. cbn [pack_flows]. rewrite encodeFlow_eq. cbn [mbind res_bind].
  rewrite IH. cbn [mbind res_bind]. rewrite pad4_flow.
  unfold writeWithHeader. rewrite flow_length. done.
Qed.
Lemma pack_flows_v9 msgs : pack_flows Netflow9.Version msgs = Ok (concat (v9_set <$> msgs)).
Proof.
  induction msgs as [|m msgs IH]; [done|]. cbn [pack_flows]. rewrite encodeFlow_eq. cbn [mbind res_bind].
  rewrite IH. cbn [mbind res_bind]. rewrite pad4_flow.
  unfold writeWithHeader. rewrite flow_length. done.
Qed.

Lemma ipfix_set_length j : length (ipfix_set j) = 128%nat.
Proof. unfold ipfix_set. rewrite length_app, flow_length. done. Qed.
Lemma ipfix_sets_length msgs : length (concat (ipfix_set <$> msgs)) = (128 * length msgs)%nat.
Proof.
  induction msgs as [|m msgs IH]; [done|]. rewrite fmap_cons. cbn [concat length].
  rewrite length_app, ipfix_set_length, IH. lia.
Qed.
Lemma ipfix_sets_take k msgs :
  take (128 * k) (concat (ipfix_set <$> msgs)) = concat (ipfix_set <$> take k msgs).
Proof.
  revert k. induction msgs as [|m msgs IH]; intros k.
  { rewrite take_nil. apply take_nil. }
  destruct k as [|k]; [done|]. rewrite firstn_cons, !fmap_cons. cbn [concat].
  rewrite take_app, ipfix_set_length.
  rewrite take_ge by (rewrite ipfix_set_length; lia). f_equal. rewrite <-IH. f_equal. lia.
Qed.

(** *** Records *)

Lemma ipfix_record_of j : Ipfix.record_of (Ipfix.tr_Fields ipfix_template) (flow_values j).
Proof.
  unfold ipfix_template, fields, flow_values, smac, dmac, src6, dst6, Ipfix.record_of.
  cbn [Ipfix.tr_Fields fmap list_fmap].
  repeat (constructor; [split; [done|]; cbn [Ipfix.fs_Length Field_Length Z.eqb Pos.eqb];
    rewrite ?length_be_encode, ?mac_length, ?v6_length; done|]).
  constructor.
Qed.
Lemma v9_record_of j : Netflow9.record_of (Netflow9.tr_Fields v9_template) (flow_values j).
Proof.
  assert (∀ (bs : list byte) n, length bs = S n → bs ≠ []) as Hne by (by intros [] ?).
  unfold v9_template, fields, flow_values, smac, dmac, src6, dst6, Netflow9.record_of.
  cbn [Netflow9.tr_Fields fmap list_fmap].
  repeat (constructor; [split; cbn [Netflow9.fs_Length Field_Length];
    [rewrite ?length_be_encode, ?mac_length, ?v6_length; done|
     eapply Hne; rewrite ?length_be_encode, ?mac_length, ?v6_length; reflexivity]|]).
  constructor.
Qed.

Lemma ipfix_record_bytes j : Ipfix.encode_record (Ipfix.tr_Fields ipfix_template) (flow_values j) = concat (flow_values j).
Proof. reflexivity. Qed.

Definition ipfix_record (j : JCHF) : Ipfix.DataRecord :=
  Ipfix.record_value ipfix_template (Some NewTranslate) (flow_values j).
Definition v9_record (j : JCHF) : Netflow9.DataRecord :=
  Netflow9.record_value v9_template (Some NewTranslate) (flow_values j).

(** The translated fields of a record, by the type of each element. *)
Lemma ipfix_translated t fs tys bss :
  (λ f, Type_ <$> Key_lookup t (0, Field_Type f)) <$> fs = Some <$> tys →
  (λ f, (λ tf, (Ipfix.tf_InformationElementID tf, Ipfix.tf_Value tf)) <$> Ipfix.f_Translated f) <$>
    zip_with (Ipfix.translate_field t) (Ipfix.field_value <$> bss)
      ((λ f, {| Ipfix.fs_InformationElementID := Field_Type f; Ipfix.fs_Length := Field_Length f;
               Ipfix.fs_EnterpriseNumber := 0; Ipfix.fs_EnterpriseBitSet := false |}) <$> fs) =
  zip_with (λ fty b, Some (Field_Type fty.1, Bytes b fty.2)) (zip fs tys) bss.
Proof.
  revert tys bss. induction fs as [|f fs IH]; intros [|ty tys] [|bs bss] E; try done.
  injection E as E1 E2. cbn [zip zip_with fmap list_fmap]. f_equal; [|by apply IH].
  unfold Ipfix.translate_field. cbn. destruct (Key_lookup t (0, Field_Type f)) as [e|]; [|done].
  injection E1 as <-. done.
Qed.

Lemma v9_translated t fs tys bss : length fs = length bss →
  (λ f, Type_ <$> Key_lookup t (0, Field_Type f)) <$> fs = Some <$> tys →
  (λ f, (λ tf, (Netflow9.tf_Type tf, Netflow9.tf_Value tf)) <$> Netflow9.f_Translated f) <$>
    Netflow9.Translate_Record t
      (Netflow9.fields_of ((λ f, {| Netflow9.fs_Type := Field_Type f; Netflow9.fs_Length := Field_Length f |}) <$> fs) bss)
      ((λ f, {| Netflow9.fs_Type := Field_Type f; Netflow9.fs_Length := Field_Length f |}) <$> fs) =
  zip_with (λ fty b, Some (Field_Type fty.1, Bytes b fty.2)) (zip fs tys) bss.
Proof.
  revert tys bss. induction fs as [|f fs IH]; intros [|ty tys] [|bs bss] Hl E; try done.
  injection E as E1 E2. injection Hl as Hl. unfold Netflow9.fields_of.
  cbn [zip zip_with fmap list_fmap Netflow9.Translate_Record]. f_equal; [|by apply IH].
  unfold Netflow9.translate_field. cbn. destruct (Key_lookup t (0, Field_Type f)) as [e|]; [|done].
  injection E1 as <-. done.
Qed.

Lemma decodeIpfixRecord_flow j : decodeIpfixRecord (ipfix_record j) = Some (decoded j).
Proof.
  rewrite <-setCHFFields_decoded. unfold decodeIpfixRecord, ipfix_record, Ipfix.record_value.
  cbn [Ipfix.dr_Fields Ipfix.translated]. 
  exact (f_equal (setCHFFields NewJCHF) (ipfix_translated NewTranslate fields field_types (flow_values j) field_elements)).
Qed.
Lemma decodeV9Record_flow j : decodeV9Record (v9_record j) = Some (decoded j).
Proof.
  rewrite <-setCHFFields_decoded. unfold decodeV9Record, v9_record, Netflow9.record_value.
  cbn [Netflow9.dr_Fields Netflow9.Translate_opt]. 
  exact (f_equal (setCHFFields NewJCHF) (v9_translated NewTranslate fields field_types (flow_values j) eq_refl field_elements)).
Qed.
End message.
