(* ===== verification/NetflowRoundtrip.v ===== *)
(** Packing flow records and decoding them back (src/pkg/formats/netflow): the
    round trips of both versions, with the wrap-around of the IPFIX length field. *)
From S2P Require Import Prelude GoStrings GoNet Jchf Ic Session Read.
From S2P Require Import Translate TranslateTables NetflowDecoder NetflowFormat.
From S2P Require Ipfix Netflow9.
Local Open Scope Z_scope.

(** ** The round trip *)

Section roundtrip.
Context `{ProtoOrder}.

Definition rendered (j : JCHF) : gmap string avro :=
  foldl (λ m kv, <[kv.1 := kv.2]> m) ∅ (avro_rows (decoded j)).

Lemma decoded_map j : avroSet (decoded j) = Some ∅ ∧ hasSetAvro (decoded j) = false.
Proof. unfold decoded, set_src, set_dst. repeat case_match; split; reflexivity. Qed.

Lemma ToMaps_decoded msgs : ToMaps (decoded <$> msgs) = Ok (rendered <$> msgs).
Proof.
  induction msgs as [|m msgs IH]; [done|]. rewrite !fmap_cons. cbn [ToMaps].
  unfold ToMap. destruct (decoded_map m) as [-> ->]. cbn [mbind res_bind]. by rewrite IH.
Qed.

Lemma ex_and_comm2 {A B} (P : A → Prop) (Q : A → B → Prop) :
  (∃ a, P a ∧ ∃ b, Q a b) → ∃ a b, P a ∧ Q a b.
Proof. intros (a & Ha & b & Hb). eauto. Qed.

Lemma omap_all {A B C} (f : B → option C) (g : A → B) (h : A → C) (l : list A) :
  (∀ x, f (g x) = Some (h x)) → omap f (g <$> l) = h <$> l.
Proof.
  intros E. induction l as [|x l IH]; [done|]. rewrite !fmap_cons. cbn [omap list_omap].
  rewrite E. f_equal. exact IH.
Qed.

(** *** IPFIX *)

Lemma ipfix_sets_loop fuel n i m msgs (s : basicSession template) :
  GetTemplate 0 templateId s = Some (IpfixTemplate ipfix_template) →
  Ipfix.mh_ObservationDomainID (Ipfix.m_Header m) = 0 → (length msgs ≤ n)%nat → (1 ≤ fuel)%nat →
  ∃ m', Ipfix.UnmarshalSets_loop fuel n i m (concat (ipfix_set <$> msgs)) (Some s) (Some NewTranslate) = (Some s, Ok m') ∧
    Ipfix.m_Header m' = Ipfix.m_Header m ∧ Ipfix.m_TemplateSets m' = Ipfix.m_TemplateSets m ∧
    concat (Ipfix.ds_Records <$> Ipfix.m_DataSets m') =
      concat (Ipfix.ds_Records <$> Ipfix.m_DataSets m) ++ (ipfix_record <$> msgs).
Proof.
  intros Hs Hd Hn Hf. revert n i m Hd Hn. induction msgs as [|j msgs IH]; intros n i m Hd Hn.
  { exists m. split; [by destruct n|]. split; [done|]. split; [done|]. by rewrite app_nil_r. }
  destruct n as [|n]; [simpl in Hn; lia|]. rewrite fmap_cons. cbn [concat].
  unfold ipfix_set at 1. rewrite <-app_assoc.
  rewrite Ipfix.UnmarshalSets_step.
  2: { split; done. }
  2: { cbn [Ipfix.sh_Length ipfix_header]. rewrite flow_length. done. }
  2: { intros E. apply (f_equal length) in E. rewrite flow_length in E. done. }
  unfold Ipfix.UnmarshalSet. cbn [Ipfix.sh_ID ipfix_header]. rewrite Hd.
  change (templateId <? 2) with false. change (templateId =? 2) with false.
  change (templateId =? 3) with false. change ((4 <=? templateId) && (templateId <=? 255)) with false. cbn iota.
  rewrite Hs. cbn [down IpfixTemplate_Implements].
  pose proof (Ipfix.read_data_ipfix fuel ipfix_template (Some NewTranslate) [flow_values j]) as E.
  cbn [fmap list_fmap concat length] in E. rewrite ipfix_record_bytes, app_nil_r in E.
  rewrite E; [|constructor; [apply ipfix_record_of|constructor]|done|done]. cbn [mbind res_bind].
  unfold mret, res_ret. set (m1 := Ipfix.with_DataSet _ _).
  destruct (IH n (i + 1) m1) as (m' & -> & Hh & Ht & Hr); [done|simpl in Hn; lia|].
  exists m'. split; [done|]. split; [done|]. split; [done|]. rewrite Hr. unfold m1.
  cbn [Ipfix.m_DataSets Ipfix.with_DataSet]. rewrite fmap_app, concat_app. cbn [fmap list_fmap concat Ipfix.ds_Records].
  rewrite <-app_assoc. done.
Qed.

(** The header's length field, modulo 2^16, covers the template and the first
    [n mod 512] flows. *)
Lemma ipfix_length n : wrapu 16 (Z.of_nat (96 + 128 * n) + 16) = Z.of_nat (112 + 128 * (n mod 512)).
Proof.
  unfold wrapu. rewrite !Nat2Z.inj_add, !Nat2Z.inj_mul, Nat2Z.inj_mod.
  change (Z.of_nat 96) with 96. change (Z.of_nat 112) with 112. change (Z.of_nat 128) with 128. change (Z.of_nat 512) with 512.
  set (z := Z.of_nat n). assert (0 ≤ z) by (unfold z; lia). change (2 ^ 16) with (128 * 512).
  pose proof (Z.div_mod z 512 ltac:(lia)) as Hz. pose proof (Z.mod_pos_bound z 512 ltac:(lia)).
  symmetry. apply Z.mod_unique with (q := z / 512); lia.
Qed.

Definition packed_template (version setid : Z) : list byte := writeWithHeader version setid (encodeTemplate templateId).

Lemma packIpfix_eq f msgs : nf_version f = Ipfix.Version → msgs ≠ [] →
  To f msgs = Ok (Some (NewOutput (Ipfix.encode_MessageHeader
    {| Ipfix.mh_Version := Ipfix.Version; Ipfix.mh_Length := Z.of_nat (112 + 128 * (length msgs mod 512));
       Ipfix.mh_ExportTime := 0; Ipfix.mh_SequenceNumber := 0; Ipfix.mh_ObservationDomainID := 0 |} ++
    (Ipfix.SetHeader_Bytes (ipfix_header 2 96) ++ encodeTemplate templateId) ++ concat (ipfix_set <$> msgs)))).
Proof.
  intros Hv Hne. unfold To. rewrite Hv. change (Ipfix.Version =? Netflow9.Version) with false.
  change (Ipfix.Version =? Ipfix.Version) with true. cbn iota. unfold packIpfix. rewrite Hv.
  destruct msgs as [|m0 msgs]; [done|]. set (ms := m0 :: msgs). rewrite pack_flows_ipfix. cbn [mbind res_bind]. cbv zeta.
  unfold writeWithHeader. rewrite encodeTemplate_length.
  change (Ipfix.Version =? Ipfix.Version) with true. cbn iota.
  change (wrapu 16 (Z.of_nat 92 + 4)) with 96. fold (ipfix_header templateSet 96).
  rewrite length_app, length_app, encodeTemplate_length, ipfix_sets_length.
  change (length (Ipfix.SetHeader_Bytes (ipfix_header templateSet 96))) with 4%nat.
  rewrite ipfix_length. done.
Qed.

Lemma packed_body_take k msgs : (k ≤ length msgs)%nat →
  let body := (Ipfix.SetHeader_Bytes (ipfix_header 2 96) ++ encodeTemplate templateId) ++ concat (ipfix_set <$> msgs) in
  take (96 + 128 * k) body = Ipfix.SetHeader_Bytes (ipfix_header 2 96) ++
    (encodeTemplate templateId) ++ concat (ipfix_set <$> take k msgs) ∧ (96 + 128 * k ≤ length body)%nat.
Proof.
  intros Hk body. split.
  - unfold body. rewrite take_app, length_app, encodeTemplate_length.
    change (length (Ipfix.SetHeader_Bytes (ipfix_header 2 96))) with 4%nat.
    replace (96 + 128 * k - (4 + 92))%nat with (128 * k)%nat by lia.
    rewrite take_ge, ipfix_sets_take by (rewrite length_app, encodeTemplate_length;
      change (length (Ipfix.SetHeader_Bytes (ipfix_header 2 96))) with 4%nat; lia).
    by rewrite <-app_assoc.
  - unfold body. rewrite !length_app, encodeTemplate_length, ipfix_sets_length.
    change (length (Ipfix.SetHeader_Bytes (ipfix_header 2 96))) with 4%nat. lia.
Qed.

Lemma From_To_ipfix fuel f msgs s :
  nf_version f = Ipfix.Version → nf_session f = Some s → msgs ≠ [] → (1 ≤ fuel)%nat →
  ∃ out f', To f msgs = Ok (Some out) ∧
    From fuel f (Body out) = (f', Ok (rendered <$> take (length msgs mod 512) msgs)) ∧
    nf_session f' = Some (AddTemplate 0 (IpfixTemplate ipfix_template) s).
Proof.
  intros Hv Hs Hne Hf. rewrite (packIpfix_eq f msgs Hv Hne). apply ex_and_comm2. eexists. split; [reflexivity|].
  set (k := (length msgs mod 512)%nat).
  assert (k ≤ length msgs)%nat as Hk by (apply Nat.Div0.mod_le).
  assert (k < 512)%nat as Hk2 by (by apply Nat.mod_upper_bound).
  set (h := Ipfix.mkMessageHeader _ _ _ _ _). cbn [Body NewOutput].
  set (body := _ ++ concat (ipfix_set <$> msgs)).
  unfold From. rewrite Hs. unfold NetflowDecoder.Read.
  assert (Ipfix.MessageHeader_wf h) as Hh by (split; [done|]; split; [unfold h, in_u; cbn [Ipfix.mh_Length]; lia|done]).
  rewrite ReadFull_ok by (rewrite length_app; change (length (Ipfix.encode_MessageHeader h)) with 16%nat; lia).
  change (be_decode (take 2 (Ipfix.encode_MessageHeader h ++ body))) with Ipfix.Version. cbn iota zeta.
  change (Ipfix.Version =? Netflow1.Version) with false. change (Ipfix.Version =? Netflow5.Version) with false.
  change (Ipfix.Version =? Netflow6.Version) with false. change (Ipfix.Version =? Netflow7.Version) with false.
  change (Ipfix.Version =? Netflow9.Version) with false. change (Ipfix.Version =? Ipfix.Version) with true. cbn iota.
  unfold Ipfix.Read. rewrite Ipfix.read_MessageHeader by done.
  assert (Ipfix.mh_Length h = Z.of_nat (112 + 128 * k)) as Hlen by done.
  rewrite (proj2 (Z.ltb_ge _ _)) by (rewrite Hlen; unfold Ipfix.MessageHeader_Len; lia).
  change (negb (Ipfix.mh_Version h =? Ipfix.Version)) with false. cbn iota.
  unfold Ipfix.UnmarshalSets. cbn [Ipfix.m_Header]. rewrite Hlen.
  replace (Z.of_nat (112 + 128 * k) - Ipfix.MessageHeader_Len) with (Z.of_nat (96 + 128 * k)) by (unfold Ipfix.MessageHeader_Len; lia).
  rewrite (proj2 (Z.leb_gt _ _)) by lia. rewrite Nat2Z.id.
  destruct (packed_body_take k msgs Hk) as [Hbody Hlb]. fold body in Hbody, Hlb.
  rewrite ReadFull_ok by done. rewrite length_take_le by done. rewrite Hbody.
  change (96 + 128 * k)%nat with (S (95 + 128 * k)).
  set (m0 := Ipfix.mkMessage h [] [] [] []).
  rewrite Ipfix.UnmarshalSets_step by (done || rewrite encodeTemplate_length; done).
  unfold Ipfix.UnmarshalSet at 1. cbn [Ipfix.sh_ID ipfix_header].
  change (2 <? 2) with false. change (2 =? 2) with true. cbn iota.
  rewrite encodeTemplate_ipfix, (Ipfix.read_templates_ipfix [ipfix_template] [])
    by (first [by constructor; [apply ipfix_template_wf|constructor]|simpl; lia]).
  cbn [register_all]. set (m1 := Ipfix.with_TemplateSet _ _).
  set (s1 := AddTemplate 0 (IpfixTemplate ipfix_template) s).
  change (register _ ipfix_template (Some s)) with (Some s1).
  destruct (ipfix_sets_loop fuel (95 + 128 * k) (0 + 1) m1 (take k msgs) s1) as (m' & -> & Hh' & Ht' & Hr');
    [exact (GetTemplate_Add_same 0 (IpfixTemplate ipfix_template) s)|done|rewrite length_take; lia|done|].
  cbn [fmap res_fmap mbind res_bind]. unfold mret, res_ret, decodeIpfix. cbn [nf_session nf_tracker nf_version].
  rewrite Hr'.
  change (concat (Ipfix.ds_Records <$> Ipfix.m_DataSets m1)) with (@nil Ipfix.DataRecord). cbn [app].
  rewrite (omap_all _ _ _ _ decodeIpfixRecord_flow), ToMaps_decoded. eexists. split; reflexivity.
Qed.

(** C1: Packing flow records as IPFIX and decoding the output gives back the first
    [n mod 512] of the [n] records, each at the width of its field: all of them below
    512 records, and none at all at 512, where the 16-bit length of the message wraps. *)
Theorem ipfix_To_From fuel f msgs s :
  nf_version f = Ipfix.Version → nf_session f = Some s → msgs ≠ [] → (1 ≤ fuel)%nat →
  ∃ out f', To f msgs = Ok (Some out) ∧
    From fuel f (Body out) = (f', Ok (rendered <$> take (length msgs mod 512) msgs)) ∧
    nf_session f' = Some (AddTemplate 0 (IpfixTemplate ipfix_template) s).
Proof. apply From_To_ipfix. Qed.

(** *** NetFlow 9 *)

Lemma v9_sets_loop fuel n i p msgs (s : basicSession template) :
  GetTemplate 0 templateId s = Some (V9Template v9_template) →
  Netflow9.h_SourceID (Netflow9.p_Header p) = 0 → (1 ≤ fuel)%nat → n = length msgs →
  ∃ p', Netflow9.UnmarshalFlowSets_loop fuel n i p (concat (v9_set <$> msgs)) (Some s) (Some NewTranslate) = (Some s, Ok p') ∧
    concat (Netflow9.dfs_Records <$> Netflow9.p_DataFlowSets p') =
      concat (Netflow9.dfs_Records <$> Netflow9.p_DataFlowSets p) ++ (v9_record <$> msgs).
Proof.
  intros Hs Hd Hf ->. revert i p Hd. induction msgs as [|j msgs IH]; intros i p Hd.
  { exists p. split; [done|]. by rewrite app_nil_r. }
  rewrite fmap_cons. cbn [concat length]. unfold v9_set at 1. rewrite <-app_assoc.
  rewrite Netflow9.UnmarshalFlowSets_step.
  2: { split; done. }
  2: { cbn [Netflow9.fsh_Length v9_header]. rewrite flow_length. done. }
  2: { intros E. apply (f_equal length) in E. rewrite flow_length in E. done. }
  unfold Netflow9.UnmarshalFlowSet. cbn [Netflow9.fsh_ID v9_header]. rewrite Hd.
  change (templateId =? 0) with false. change (templateId =? 1) with false. cbn iota.
  rewrite Hs. cbn [down V9Template_Implements].
  pose proof (Netflow9.read_data fuel v9_template (Some NewTranslate) [flow_values j] []) as E.
  cbn [fmap list_fmap concat length] in E. rewrite !app_nil_r in E.
  rewrite E; [|constructor; [apply v9_record_of|constructor]|by vm_compute|simpl; lia|done]. cbn [mbind res_bind].
  unfold mret, res_ret. set (p1 := Netflow9.with_DataFlowSet _ _).
  destruct (IH (i + 1) p1) as (p' & -> & Hr); [done|].
  exists p'. split; [done|]. rewrite Hr. unfold p1.
  cbn [Netflow9.p_DataFlowSets Netflow9.with_DataFlowSet]. rewrite fmap_app, concat_app.
  cbn [fmap list_fmap concat Netflow9.dfs_Records]. rewrite <-app_assoc. done.
Qed.

Lemma From_To_v9 fuel f msgs s :
  nf_version f = Netflow9.Version → nf_session f = Some s → (1 ≤ fuel)%nat →
  Z.of_nat (length msgs) < 65535 →
  ∃ out f', To f msgs = Ok (Some out) ∧
    From fuel f (Body out) = (f', Ok (rendered <$> msgs)) ∧
    nf_session f' = Some (AddTemplate 0 (V9Template v9_template) s).
Proof.
  intros Hv Hs Hf Hn. unfold To. rewrite Hv. change (Netflow9.Version =? Netflow9.Version) with true. cbn iota.
  unfold pack9. rewrite Hv, pack_flows_v9. cbn [mbind res_bind]. apply ex_and_comm2. eexists. split; [reflexivity|].
  set (h := Netflow9.mkPacketHeader _ _ _ _ _ _). cbn [Body NewOutput].
  assert (Netflow9.h_Count h = Z.of_nat (S (length msgs))) as Hcount.
  { unfold h. cbn [Netflow9.h_Count]. rewrite wrapu_id by (unfold in_u; lia). lia. }
  assert (Netflow9.PacketHeader_wf h) as Hh.
  { split; [done|]. split; [rewrite Hcount; unfold in_u; lia|done]. }
  unfold writeWithHeader. rewrite encodeTemplate_length.
  change (Netflow9.Version =? Ipfix.Version) with false. change (Netflow9.Version =? Netflow9.Version) with true. cbn iota.
  change (wrapu 16 (Z.of_nat 92 + 4)) with 96. fold (v9_header 0 96).
  set (body := (Netflow9.encode_FlowSetHeader (v9_header 0 96) ++ encodeTemplate templateId) ++ _).
  unfold From. rewrite Hs. unfold NetflowDecoder.Read.
  rewrite ReadFull_ok by (rewrite length_app; change (length (Netflow9.encode_PacketHeader h)) with 20%nat; lia).
  change (be_decode (take 2 (Netflow9.encode_PacketHeader h ++ body))) with Netflow9.Version. cbn iota zeta.
  change (Netflow9.Version =? Netflow1.Version) with false. change (Netflow9.Version =? Netflow5.Version) with false.
  change (Netflow9.Version =? Netflow6.Version) with false. change (Netflow9.Version =? Netflow7.Version) with false.
  change (Netflow9.Version =? Netflow9.Version) with true. cbn iota.
  unfold Netflow9.Read. rewrite Netflow9.read_PacketHeader by done.
  change (negb (Netflow9.h_Version h =? Netflow9.Version)) with false.
  change (Netflow9.PacketHeader_Len <? 4) with false. cbn iota.
  rewrite (proj2 (Z.eqb_neq _ _)) by (rewrite Hcount; lia).
  unfold Netflow9.UnmarshalFlowSets. cbn [Netflow9.p_Header]. rewrite Hcount, Nat2Z.id.
  rewrite (proj2 (Nat.eqb_neq _ _)).
  2: { unfold body. rewrite !length_app, encodeTemplate_length. lia. }
  unfold body. rewrite <-app_assoc. set (p0 := Netflow9.mkPacket h [] [] [] []).
  rewrite Netflow9.UnmarshalFlowSets_step by (done || rewrite encodeTemplate_length; done).
  unfold Netflow9.UnmarshalFlowSet at 1. cbn [Netflow9.fsh_ID v9_header]. change (0 =? 0) with true. cbn iota.
  rewrite encodeTemplate_v9, (Netflow9.read_templates [v9_template] [])
    by (first [by constructor; [apply v9_template_wf|constructor]|simpl; lia]).
  cbn [register_all]. set (p1 := Netflow9.with_TemplateFlowSet _ _).
  set (s1 := AddTemplate 0 (V9Template v9_template) s).
  change (register _ v9_template (Some s)) with (Some s1).
  destruct (v9_sets_loop fuel (length msgs) (0 + 1) p1 msgs s1) as (p' & -> & Hr');
    [exact (GetTemplate_Add_same 0 (V9Template v9_template) s)|done..|].
  cbn [fmap res_fmap mbind res_bind]. unfold mret, res_ret, decodeV9. cbn [nf_session nf_tracker nf_version].
  rewrite Hr'.
  change (concat (Netflow9.dfs_Records <$> Netflow9.p_DataFlowSets p1)) with (@nil Netflow9.DataRecord). cbn [app].
  rewrite (omap_all _ _ _ _ decodeV9Record_flow), ToMaps_decoded. eexists. split; reflexivity.
Qed.

(** C11: The same round trip for NetFlow 9, whose count field holds 65534 flows and the
    template. *)
Theorem v9_To_From fuel f msgs s :
  nf_version f = Netflow9.Version → nf_session f = Some s → (1 ≤ fuel)%nat →
  Z.of_nat (length msgs) < 65535 →
  ∃ out f', To f msgs = Ok (Some out) ∧
    From fuel f (Body out) = (f', Ok (rendered <$> msgs)) ∧
    nf_session f' = Some (AddTemplate 0 (V9Template v9_template) s).
Proof. apply From_To_v9. Qed.

(** *** What survives *)

(** The addresses of the decoded record: the canonical text of the original
    address, and none for the unspecified addresses or text that is no address. *)
Definition canonical (s : string) : string :=
  match ParseIP s with
  | None => ""
  | Some ip =>
      let zero := match To4 ip with Some _ => "0.0.0.0" | None => "::" end in
      if String.eqb (IP_String ip) zero then "" else IP_String ip
  end.

(** One side of the decoded record's addresses: what the two address fields of a
    flow set, in this order. *)
Lemma canonical_fields s (v4 : Z) (v6 : list byte) :
  ip2int (ParseIP s) = (v4, (ip2int (ParseIP s)).2) → v6 = default empty16 (ip2int (ParseIP s)).2 →
  (let t4 := IP_String (be_encode 4 v4) in let t6 := IP_String v6 in
   let a := if String.eqb t4 "0.0.0.0" then "" else t4 in if String.eqb t6 "::" then a else t6)
  = canonical s.
Proof.
  unfold canonical. destruct (ParseIP s) as [ip|] eqn:Ep.
  2: { intros [= <-] ->. by vm_compute. }
  pose proof (ParseIP_length _ _ Ep) as Hl. unfold ip2int. destruct (To4 ip) as [a|] eqn:E4.
  - intros [= <-] ->. destruct (To4_Some _ _ E4) as (Ha & Hip & Ha'). cbn [snd default].
    unfold IP in *. rewrite <-Ha, be_encode_decode. change (String.eqb (IP_String (default empty16 None)) "::") with true.
    cbv zeta. cbn iota. by rewrite Hip, Ha'.
  - unfold To16. rewrite Hl. change (16 =? 4)%nat with false. change (16 =? 16)%nat with true. cbn iota.
    intros [= <-] ->. cbn [snd default]. change (IP_String (be_encode 4 0)) with "0.0.0.0". cbv zeta.
    done.
Qed.

Lemma decoded_SrcAddr j : SrcAddr (decoded j) = canonical (SrcAddr j).
Proof.
  rewrite <-(canonical_fields (SrcAddr j) (src4 j) (src6 j)); [|apply surjective_pairing|reflexivity].
  cbv zeta. unfold decoded, set_src, set_dst.
  destruct (String.eqb (IP_String (dst6 j)) "::"), (String.eqb (IP_String (src6 j)) "::"),
    (String.eqb (IP_String (be_encode 4 (dst4 j))) "0.0.0.0"),
    (String.eqb (IP_String (be_encode 4 (src4 j))) "0.0.0.0"); reflexivity.
Qed.

Lemma decoded_DstAddr j : DstAddr (decoded j) = canonical (DstAddr j).
Proof.
  rewrite <-(canonical_fields (DstAddr j) (dst4 j) (dst6 j)); [|apply surjective_pairing|reflexivity].
  cbv zeta. unfold decoded, set_src, set_dst.
  destruct (String.eqb (IP_String (dst6 j)) "::"), (String.eqb (IP_String (src6 j)) "::"),
    (String.eqb (IP_String (be_encode 4 (dst4 j))) "0.0.0.0"),
    (String.eqb (IP_String (be_encode 4 (src4 j))) "0.0.0.0"); reflexivity.
Qed.

(** The fields of the template that fit it. *)
Record fits (j : JCHF) : Prop := {
  fits_Protocol : is_Some (PROTO_NUMS !! Protocol j);
  fits_Tos : in_u 8 (Tos j);
  fits_TcpFlags : in_u 16 (TcpFlags j);
  fits_L4SrcPort : in_u 16 (L4SrcPort j);
  fits_L4DstPort : in_u 16 (L4DstPort j);
  fits_SrcAs : in_u 32 (SrcAs j);
  fits_DstAs : in_u 32 (DstAs j);
  fits_InputPort : in_u 32 (InputPort j);
  fits_OutputPort : in_u 32 (OutputPort j);
  fits_InBytes : in_u 64 (InBytes j);
  fits_OutBytes : in_u 64 (OutBytes j);
  fits_InPkts : in_u 64 (InPkts j);
  fits_OutPkts : in_u 64 (OutPkts j);
  fits_Timestamp : in_u 32 (Timestamp j) }.

Ltac field_is v :=
  transitivity v; [unfold decoded, set_src, set_dst; repeat case_match; reflexivity|].

(** The numbers, the protocol and the addresses of a flow whose fields fit the
    template survive the trip, the addresses in their canonical text: both decoders
    find in the bytes of the flow a record of the template that gives them back. *)
Theorem decoded_faithful j : fits j → ∃ bss d,
  encodeFlow j = Ok (concat bss) ∧
  decodeIpfixRecord (Ipfix.record_value ipfix_template (Some NewTranslate) bss) = Some d ∧
  decodeV9Record (Netflow9.record_value v9_template (Some NewTranslate) bss) = Some d ∧
  Protocol d = Protocol j ∧ Tos d = Tos j ∧ TcpFlags d = TcpFlags j ∧
  L4SrcPort d = L4SrcPort j ∧ L4DstPort d = L4DstPort j ∧ SrcAs d = SrcAs j ∧ DstAs d = DstAs j ∧
  InputPort d = InputPort j ∧ OutputPort d = OutputPort j ∧
  InBytes d = InBytes j ∧ OutBytes d = OutBytes j ∧ InPkts d = InPkts j ∧ OutPkts d = OutPkts j ∧
  Timestamp d = Timestamp j ∧
  SrcAddr d = canonical (SrcAddr j) ∧ DstAddr d = canonical (DstAddr j).
Proof.
  intros [P T1 T2 L1 L2 A1 A2 I1 I2 B1 B2 K1 K2 S]. exists (flow_values j), (decoded j).
  split; [apply encodeFlow_eq|]. split; [apply decodeIpfixRecord_flow|]. split; [apply decodeV9Record_flow|].
  rewrite decoded_SrcAddr, decoded_DstAddr. destruct (proto_name_num _ P) as [Pn Pr].
  split. { field_is (proto_name (wrapu 8 (proto_num (Protocol j)))). by rewrite wrapu_id. }
  split. { field_is (wrapu 8 (Tos j)). by apply wrapu_id. }
  split. { field_is (wrapu 16 (TcpFlags j)). by apply wrapu_id. }
  split. { field_is (wrapu 16 (L4SrcPort j)). by apply wrapu_id. }
  split. { field_is (wrapu 16 (L4DstPort j)). by apply wrapu_id. }
  split. { field_is (wrapu 32 (SrcAs j)). by apply wrapu_id. }
  split. { field_is (wrapu 32 (DstAs j)). by apply wrapu_id. }
  split. { field_is (wrapu 32 (InputPort j)). by apply wrapu_id. }
  split. { field_is (wrapu 32 (OutputPort j)). by apply wrapu_id. }
  split. { field_is (wrapu 64 (InBytes j)). by apply wrapu_id. }
  split. { field_is (wrapu 64 (OutBytes j)). by apply wrapu_id. }
  split. { field_is (wrapu 64 (InPkts j)). by apply wrapu_id. }
  split. { field_is (wrapu 64 (OutPkts j)). by apply wrapu_id. }
  split. { field_is (wrapu 32 (Timestamp j)). by apply wrapu_id. }
  done.
Qed.
End roundtrip.

(** ** The theorems at a concrete flow *)

#[local] Existing Instance source_order.

Definition flow_dns : JCHF :=
  NewJCHF <| Protocol := "UDP" |> <| SrcAddr := "10.0.0.1" |> <| DstAddr := "2001:DB8::1" |>
    <| L4SrcPort := 40000 |> <| L4DstPort := 53 |> <| InBytes := 1500 |> <| InPkts := 3 |> <| Timestamp := 1700000000 |>.
Definition format_of (version : Z) : NetflowFormat :=
  {| nf_session := Some New; nf_tracker := ∅; nf_version := version |}.

Lemma ipfix_To_From_witness : ∃ out f', To (format_of Ipfix.Version) [flow_dns] = Ok (Some out) ∧
  From 1 (format_of Ipfix.Version) (Body out) = (f', Ok (rendered <$> take (1 mod 512) [flow_dns])) ∧
  nf_session f' = Some (AddTemplate 0 (IpfixTemplate ipfix_template) New).
Proof.
  apply (ipfix_To_From 1 (format_of Ipfix.Version) [flow_dns] New); [reflexivity|reflexivity|discriminate|lia].
Defined.

Lemma v9_To_From_witness : ∃ out f', To (format_of Netflow9.Version) [flow_dns; flow_dns] = Ok (Some out) ∧
  From 1 (format_of Netflow9.Version) (Body out) = (f', Ok (rendered <$> [flow_dns; flow_dns])) ∧
  nf_session f' = Some (AddTemplate 0 (V9Template v9_template) New).
Proof.
  apply (v9_To_From 1 (format_of Netflow9.Version) [flow_dns; flow_dns] New); [reflexivity|reflexivity|lia|reflexivity].
Defined.

Lemma decoded_faithful_witness : ∃ bss d, encodeFlow flow_dns = Ok (concat bss) ∧
  decodeV9Record (Netflow9.record_value v9_template (Some NewTranslate) bss) = Some d ∧
  Protocol d = "UDP" ∧ InBytes d = 1500 ∧ SrcAddr d = "10.0.0.1" ∧ DstAddr d = "2001:db8::1".
Proof.
  destruct (decoded_faithful flow_dns)
    as (bss & d & E & _ & D9 & P & _ & _ & _ & _ & _ & _ & _ & _ & B & _ & _ & _ & _ & S & D).
  - constructor; first [by vm_compute; eauto | split; [discriminate|reflexivity]].
  - exists bss, d. split; [exact E|]. split; [exact D9|]. split; [exact P|]. split; [exact B|].
    split; [rewrite S|rewrite D]; vm_compute; reflexivity.
Defined.
