(* ===== verification/RingBuffer.v ===== *)
(** Package [ringbuffer] (src/pkg/stitch/ringbuffer): a fixed-capacity store of
    string-keyed values that evicts the oldest slot when full.

    Indexing a slice outside its range is a panic.  The reference is a list of
    distinct keys, oldest first. *)
From S2P Require Import Prelude.


Section ringbuffer.
Context {V : Type} (zero : V).

(** [entry] and [Entry]: key and value. *)
Abbreviation entry := (string * V)%type (only parsing).

Record RingBuffer := mkRingBuffer {
  data : list entry;
  index : gmap string nat;
  head : nat;
  tail : nat;
  size : nat;
  capacity : nat }.

Definition New (capacity : Z) : res RingBuffer :=
  if (capacity <? 1)%Z then Panic "ringbuffer: capacity must be at least 1"
  else Ok {| data := replicate (Z.to_nat capacity) ("", zero); index := ∅; head := 0; tail := 0;
             size := 0; capacity := Z.to_nat capacity |}.

(** Make room for one slot: evict the oldest when full. *)
Definition make_room (r : RingBuffer) : res RingBuffer :=
  if (size r =? capacity r)%nat then
    e ← slice_get (data r) (head r);
    Ok {| data := data r; index := delete e.1 (index r); head := (head r + 1) mod capacity r;
          tail := tail r; size := size r; capacity := capacity r |}
  else
    Ok {| data := data r; index := index r; head := head r; tail := tail r; size := size r + 1;
          capacity := capacity r |}.

Definition Put (key : string) (value : V) (r : RingBuffer) : res RingBuffer :=
  match index r !! key with
  | Some slot =>
      e ← slice_get (data r) slot;
      d ← slice_set (data r) slot (e.1, value);
      Ok {| data := d; index := index r; head := head r; tail := tail r; size := size r;
            capacity := capacity r |}
  | None =>
      r ← make_room r;
      d ← slice_set (data r) (tail r) (key, value);
      Ok {| data := d; index := <[key := tail r]> (index r); head := head r;
            tail := (tail r + 1) mod capacity r; size := size r; capacity := capacity r |}
  end.

Definition Get (key : string) (r : RingBuffer) : res (V * bool) :=
  match index r !! key with
  | None => Ok (zero, false)
  | Some slot => e ← slice_get (data r) slot; Ok (e.2, true)
  end.

Definition GetAndDelete (key : string) (r : RingBuffer) : res (RingBuffer * (V * bool)) :=
  match index r !! key with
  | None => Ok (r, (zero, false))
  | Some slot =>
      e ← slice_get (data r) slot;
      Ok ({| data := data r; index := delete key (index r); head := head r; tail := tail r;
             size := size r; capacity := capacity r |}, (e.2, true))
  end.

Definition Contains (key : string) (r : RingBuffer) : bool :=
  match index r !! key with Some _ => true | None => false end.

Definition Oldest (r : RingBuffer) : res (entry * bool) :=
  if (size r =? 0)%nat then Ok (("", zero), false)
  else e ← slice_get (data r) (head r); Ok (e, true).

Definition Newest (r : RingBuffer) : res (entry * bool) :=
  if (size r =? 0)%nat then Ok (("", zero), false)
  else e ← slice_get (data r) ((tail r + capacity r - 1) mod capacity r); Ok (e, true).

Definition Entries (r : RingBuffer) : res (list entry) :=
  res_mapM (λ i, slice_get (data r) ((head r + i) mod capacity r)) (seq 0 (size r)).

Definition Keys (r : RingBuffer) : res (list string) :=
  res_mapM (λ i, e ← slice_get (data r) ((head r + i) mod capacity r); Ok e.1) (seq 0 (size r)).

Definition Len (r : RingBuffer) : nat := size r.
Definition Cap (r : RingBuffer) : nat := capacity r.
Definition IsFull (r : RingBuffer) : bool := (size r =? capacity r)%nat.

(** ** The invariant of every operation *)

(** The physical slot of the [i]th oldest entry. *)
Definition slot (r : RingBuffer) (i : nat) : nat := (head r + i) mod capacity r.

Record wf (r : RingBuffer) : Prop := {
  wf_capacity : (0 < capacity r)%nat;
  wf_data : length (data r) = capacity r;
  wf_size : (size r ≤ capacity r)%nat;
  wf_head : (head r < capacity r)%nat;
  wf_tail : tail r = (head r + size r) mod capacity r;
  wf_index k s : index r !! k = Some s →
    ∃ i v, (i < size r)%nat ∧ s = slot r i ∧ data r !! s = Some (k, v) }.

Lemma mod_wrap c h i : (0 < c)%nat → (h < c)%nat → (i ≤ c)%nat →
  ((h + i) mod c = if h + i <? c then h + i else h + i - c)%nat.
Proof.
  intros Hc Hh Hi. destruct (Nat.ltb_spec (h + i) c); [by apply Nat.mod_small|].
  symmetry. apply Nat.mod_unique with (q := 1%nat); lia.
Qed.

Lemma slot_lt r i : wf r → (slot r i < capacity r)%nat.
Proof. intros W. apply Nat.mod_upper_bound. destruct W. lia. Qed.

Lemma slot_inj r i j : wf r → (i < capacity r)%nat → (j < capacity r)%nat → slot r i = slot r j → i = j.
Proof.
  intros W Hi Hj. unfold slot. destruct W. rewrite !mod_wrap by lia.
  destruct (Nat.ltb_spec (head r + i) (capacity r)), (Nat.ltb_spec (head r + j) (capacity r)); lia.
Qed.

Lemma slot_read r i : wf r → ∃ e, data r !! slot r i = Some e.
Proof. intros W. apply lookup_lt_is_Some. rewrite (wf_data _ W). by apply slot_lt. Qed.

Lemma New_buffer_wf c : (1 ≤ c)%Z → ∃ r, New c = Ok r ∧ wf r ∧ size r = 0%nat ∧ index r = ∅ ∧ capacity r = Z.to_nat c.
Proof.
  intros Hc. unfold New. rewrite (proj2 (Z.ltb_ge _ _)) by lia. eexists. split; [done|].
  split; [|done]. constructor; simpl; try lia.
  - by rewrite length_replicate.
  - symmetry. apply Nat.Div0.mod_0_l.
  - intros k s. by rewrite lookup_empty.
Qed.

(** What a write does, to a slot in use and to a new one. *)
Lemma Put_present key value r s : wf r → index r !! key = Some s →
  ∃ r', Put key value r = Ok r' ∧ wf r' ∧ index r' = index r ∧ head r' = head r ∧ size r' = size r ∧
        capacity r' = capacity r ∧ data r' = <[s := (key, value)]> (data r).
Proof.
  intros W Hk. pose proof (wf_index _ W _ _ Hk) as (i & v & Hi & -> & Hd).
  unfold Put. rewrite Hk. cbn beta match. rewrite (slice_get_ok _ _ _ Hd). cbn [mbind res_bind fst].
  rewrite slice_set_ok by (rewrite (wf_data _ W); by apply slot_lt). cbn [mbind res_bind].
  eexists. split; [done|]. split; [|done]. destruct W as [C D Sz Hh T I]. constructor; simpl; try done.
  - by rewrite length_insert.
  - intros k s Hks. destruct (I k s Hks) as (j & w & Hj & -> & Hdj). exists j.
    destruct (decide (slot r j = slot r i)) as [E|E].
    + exists value. split; [done|]. split; [done|]. rewrite E in Hks, Hdj |- *.
      rewrite Hd in Hdj. injection Hdj as <- _. rewrite list_lookup_insert_eq; [done|].
      rewrite D. apply Nat.mod_upper_bound. lia.
    + exists w. split; [done|]. split; [done|]. by rewrite list_lookup_insert_ne.
Qed.

Lemma Put_absent key value r : wf r → index r !! key = None →
  ∃ r', Put key value r = Ok r' ∧ wf r' ∧ capacity r' = capacity r ∧
    data r' = <[tail r := (key, value)]> (data r) ∧
    if (size r =? capacity r)%nat
    then (∃ e, data r !! head r = Some e ∧ index r' = <[key := tail r]> (delete e.1 (index r))) ∧
         head r' = (head r + 1) mod capacity r ∧ size r' = size r
    else index r' = <[key := tail r]> (index r) ∧ head r' = head r ∧ size r' = (size r + 1)%nat.
Proof.
  intros W Hk. destruct (slot_read r 0 W) as [e He]. unfold slot in He. rewrite Nat.add_0_r in He.
  pose proof W as [C D Sz Hh T I]. rewrite Nat.mod_small in He by lia.
  assert (tail r < capacity r)%nat as Ht by (rewrite T; apply Nat.mod_upper_bound; lia).
  unfold Put. rewrite Hk. cbn beta match. unfold make_room. destruct (size r =? capacity r)%nat eqn:Ef.
  - apply Nat.eqb_eq in Ef. rewrite (slice_get_ok _ _ _ He). cbn [mbind res_bind data tail index head size capacity].
    rewrite slice_set_ok by lia. cbn [mbind res_bind]. eexists. split; [done|].
    cbn [data index head size capacity]. split; [|by eauto 10].
    assert (tail r = head r) as Eth by (rewrite T, Ef, mod_wrap by lia; destruct (Nat.ltb_spec (head r + capacity r) (capacity r)); lia).
    constructor; cbn [data index head tail size capacity]; try lia.
    + by rewrite length_insert.
    + apply Nat.mod_upper_bound. lia.
    + rewrite Eth, Nat.Div0.add_mod_idemp_l, Ef.
      replace (head r + 1 + capacity r)%nat with (head r + 1 + 1 * capacity r)%nat by lia.
      by rewrite Nat.Div0.mod_add.
    + intros k s [[<- <-]|[Hne Hs]]%lookup_insert_Some.
      * exists (capacity r - 1)%nat, value. split; [lia|]. unfold slot. cbn [head capacity].
        rewrite Nat.Div0.add_mod_idemp_l.
        replace (head r + 1 + (capacity r - 1))%nat with (head r + capacity r)%nat by lia.
        rewrite mod_wrap by lia. destruct (Nat.ltb_spec (head r + capacity r) (capacity r)); [lia|].
        split; [lia|]. apply list_lookup_insert_eq. lia.
      * apply lookup_delete_Some in Hs as [Hne' Hs]. destruct (I k s Hs) as (i & w & Hi & -> & Hd).
        destruct i as [|i].
        { unfold slot in Hd. rewrite Nat.add_0_r, Nat.mod_small in Hd by lia. rewrite He in Hd. injection Hd as ->. done. }
        exists i, w. split; [lia|]. split.
        { unfold slot. cbn [head capacity]. rewrite Nat.Div0.add_mod_idemp_l. f_equal. lia. }
        rewrite list_lookup_insert_ne; [done|]. intros E. rewrite Eth in E.
        assert (slot r 0 = slot r (S i)) as Es by (rewrite <-E; unfold slot; rewrite Nat.add_0_r, Nat.mod_small; lia).
        apply slot_inj in Es; [lia|done|lia|lia].
  - apply Nat.eqb_neq in Ef. cbn [mbind res_bind data tail index head size capacity].
    rewrite slice_set_ok by lia. cbn [mbind res_bind]. eexists. split; [done|].
    cbn [data index head size capacity]. split; [|by eauto 10].
    constructor; cbn [data index head tail size capacity]; try lia.
    + by rewrite length_insert.
    + rewrite T, Nat.Div0.add_mod_idemp_l. f_equal. lia.
    + intros k s [[<- <-]|[Hne Hs]]%lookup_insert_Some.
      * exists (size r), value. split; [lia|]. split; [done|]. apply list_lookup_insert_eq. lia.
      * destruct (I k s Hs) as (i & w & Hi & -> & Hd). exists i, w. split; [lia|]. split; [done|].
        rewrite list_lookup_insert_ne; [done|]. rewrite T. intros E.
        change (slot r (size r) = slot r i) in E. apply slot_inj in E; [lia|done|lia|lia].
Qed.

Lemma GetAndDelete_wf key r : wf r → ∃ r' vb, GetAndDelete key r = Ok (r', vb) ∧ wf r' ∧
  index r' = delete key (index r) ∧ data r' = data r ∧ head r' = head r ∧ size r' = size r ∧
  capacity r' = capacity r ∧ Get key r = Ok vb.
Proof.
  intros W. unfold GetAndDelete, Get. destruct (index r !! key) as [s|] eqn:Hk.
  - pose proof (wf_index _ W _ _ Hk) as (i & v & Hi & -> & Hd). cbn beta match. rewrite (slice_get_ok _ _ _ Hd).
    cbn [mbind res_bind]. eexists _, _. split; [done|]. split; [|done].
    destruct W as [C D Sz Hh T I]. constructor; simpl; try done.
    intros k s [_ Hs]%lookup_delete_Some. by apply I.
  - eexists _, _. split; [done|]. split; [done|]. rewrite delete_id by done. done.
Qed.

(** ** The reference: a queue of slots, each with its entry and whether it is live *)

Abbreviation queue := (list (entry * bool)) (only parsing).

Definition is_live (k : string) (x : entry * bool) : bool := String.eqb x.1.1 k && x.2.
Definition kill (k : string) (l : queue) : queue :=
  (λ x, if String.eqb x.1.1 k then (x.1, false) else x) <$> l.
Definition queue_get (k : string) (l : queue) : V * bool :=
  match list_find (is_live k) l with Some (_, x) => (x.1.2, true) | None => (zero, false) end.
Definition evict (cap : nat) (l : queue) : queue :=
  if (length l =? cap)%nat then match l with [] => [] | e :: l => kill e.1.1 l end else l.
Definition queue_put (cap : nat) (k : string) (v : V) (l : queue) : queue :=
  if existsb (is_live k) l then (λ x, if is_live k x then ((k, v), true) else x) <$> l
  else evict cap l ++ [((k, v), true)].

Record refines (r : RingBuffer) (l : queue) : Prop := {
  ref_wf : wf r;
  ref_length : length l = size r;
  ref_data i x : l !! i = Some x → data r !! slot r i = Some x.1;
  ref_index k s : index r !! k = Some s ↔ ∃ i v, l !! i = Some ((k, v), true) ∧ s = slot r i }.

Lemma is_live_iff k x : is_live k x = true ↔ ∃ v, x = ((k, v), true).
Proof.
  destruct x as [[k' v] b]. unfold is_live. simpl. rewrite andb_true_iff, String.eqb_eq.
  split; [intros [-> ->]; by eexists|intros [w [= -> -> ->]]; done].
Qed.

Lemma live_index k r l : refines r l → existsb (is_live k) l = bool_decide (is_Some (index r !! k)).
Proof.
  intros R. apply eq_true_iff_eq. rewrite bool_decide_eq_true, existsb_exists. split.
  - intros (x & Hin & Hx). apply is_live_iff in Hx as [v ->]. apply list_elem_of_In, list_elem_of_lookup in Hin as [i Hi].
    exists (slot r i). apply (ref_index _ _ R). eauto.
  - intros [s Hs]. apply (ref_index _ _ R) in Hs as (i & v & Hi & _). exists ((k, v), true).
    split; [apply list_elem_of_In; by eapply list_elem_of_lookup_2|by apply is_live_iff; eexists].
Qed.

Lemma queue_lt r l i x : refines r l → l !! i = Some x → (i < size r)%nat ∧ (i < capacity r)%nat.
Proof.
  intros R Hi. apply lookup_lt_Some in Hi. rewrite (ref_length _ _ R) in Hi.
  pose proof (wf_size _ (ref_wf _ _ R)). lia.
Qed.

Lemma slot_unique r l i j x y : refines r l → l !! i = Some x → l !! j = Some y → slot r i = slot r j → i = j.
Proof.
  intros R Hi Hj. apply slot_inj; [apply R|..]; eapply queue_lt; done.
Qed.

Lemma kill_lookup k l i x : kill k l !! i = Some x ↔
  ∃ y, l !! i = Some y ∧ x = if String.eqb y.1.1 k then (y.1, false) else y.
Proof. unfold kill. rewrite list_lookup_fmap, fmap_Some. done. Qed.

Lemma kill_live k l i k' v : kill k l !! i = Some ((k', v), true) ↔ k' ≠ k ∧ l !! i = Some ((k', v), true).
Proof.
  rewrite kill_lookup. split.
  - intros ([[k1 v1] b] & Hy & E). simpl in E. destruct (String.eqb_spec k1 k); [done|]. by injection E as -> -> ->.
  - intros [Hne Hl]. eexists. split; [exact Hl|]. simpl. by destruct (String.eqb_spec k' k).
Qed.

Lemma New_refines c r : New c = Ok r → refines r [].
Proof.
  intros E. unfold New in E. destruct (c <? 1)%Z eqn:Ec; [done|]. apply Z.ltb_ge in Ec.
  destruct (New_buffer_wf c Ec) as (r' & E' & W & Hs & Hi & _). unfold New in E'. rewrite (proj2 (Z.ltb_ge _ _)) in E' by lia.
  rewrite E in E'. injection E' as <-. constructor; [done|done|done|].
  intros k s. rewrite Hi, lookup_empty. split; [done|]. by intros (i & v & [= ] & _).
Qed.

Lemma Get_refines k r l : refines r l → Get k r = Ok (queue_get k l).
Proof.
  intros R. unfold Get, queue_get. destruct (list_find (is_live k) l) as [[i x]|] eqn:E.
  - apply list_find_Some in E as (Hi & Hx & _). apply Is_true_true, is_live_iff in Hx as [v ->].
    rewrite (proj2 (ref_index _ _ R k (slot r i))) by eauto.
    rewrite (slice_get_ok _ _ _ (ref_data _ _ R _ _ Hi)). done.
  - destruct (index r !! k) as [s|] eqn:Ek; [|done]. exfalso.
    apply (ref_index _ _ R) in Ek as (i & v & Hi & _). apply list_find_None in E. rewrite Forall_forall in E.
    apply (E ((k, v), true)); [by eapply list_elem_of_lookup_2|]. apply Is_true_true, is_live_iff. by eexists.
Qed.

Lemma Put_present_refines k v r l s : refines r l → index r !! k = Some s →
  ∃ r', Put k v r = Ok r' ∧ refines r' ((λ x, if is_live k x then ((k, v), true) else x) <$> l) ∧ capacity r' = capacity r.
Proof.
  intros R Hk. destruct (Put_present k v r s (ref_wf _ _ R) Hk) as (r' & E & W & Hi & Hh & Hs & Hc & Hd).
  exists r'. split; [done|]. split; [|done].
  assert (∀ i, slot r' i = slot r i) as Hsl by (intros i; unfold slot; by rewrite Hh, Hc).
  apply (ref_index _ _ R) in Hk as (i & v0 & Hi0 & ->). constructor; [done|by rewrite length_fmap, Hs, (ref_length _ _ R)|..].
  - intros j x. rewrite list_lookup_fmap, fmap_Some. intros (y & Hy & ->). rewrite Hsl, Hd.
    destruct (is_live k y) eqn:El.
    + apply is_live_iff in El as [w ->].
      assert (slot r i = slot r j) as Esl.
      { pose proof (proj2 (ref_index _ _ R k (slot r i)) ltac:(eauto)) as H1.
        pose proof (proj2 (ref_index _ _ R k (slot r j)) ltac:(eauto)) as H2. congruence. }
      rewrite Esl. apply list_lookup_insert_eq. rewrite (wf_data _ (ref_wf _ _ R)). apply slot_lt, R.
    + rewrite list_lookup_insert_ne; [by apply R|]. intros Esl.
      rewrite (slot_unique _ _ _ _ _ _ R Hi0 Hy Esl), Hy in Hi0. injection Hi0 as ->.
      by rewrite (proj2 (is_live_iff _ _)) in El by by eexists.
  - intros k' s. rewrite Hi, (ref_index _ _ R). split.
    + intros (j & w & Hj & ->). destruct (is_live k ((k', w), true)) eqn:El.
      * exists j, v. rewrite list_lookup_fmap, Hj. cbn [fmap option_fmap option_map]. rewrite El. apply is_live_iff in El as [w' [= -> _]].
        by rewrite Hsl.
      * exists j, w. rewrite list_lookup_fmap, Hj. cbn [fmap option_fmap option_map]. by rewrite El, Hsl.
    + intros (j & w & Hj & ->). rewrite list_lookup_fmap, fmap_Some in Hj. destruct Hj as (y & Hy & Ey).
      destruct (is_live k y) eqn:El.
      * apply is_live_iff in El as [w' ->]. injection Ey as -> ->. exists j, w'. by rewrite Hsl.
      * subst y. exists j, w. by rewrite Hsl.
Qed.

(** Adding a slot at the tail, after [l1], what eviction left. *)
Lemma append_refines k v r r' l1 :
  wf r' → tail r = slot r' (length l1) → (length l1 < capacity r')%nat → size r' = S (length l1) →
  data r' = <[tail r := (k, v)]> (data r) → length (data r) = capacity r' →
  (∀ i x, l1 !! i = Some x → data r !! slot r' i = Some x.1) →
  (∀ k' s, k' ≠ k → index r' !! k' = Some s ↔ ∃ i w, l1 !! i = Some ((k', w), true) ∧ s = slot r' i) →
  (∀ i w, l1 !! i ≠ Some ((k, w), true)) → index r' !! k = Some (tail r) →
  refines r' (l1 ++ [((k, v), true)]).
Proof.
  intros W Ht Hlt Hsz Hd Hld Hl1 Hidx Hk1 Hk. constructor; [done|by rewrite length_app, Hsz, Nat.add_1_r|..].
  - intros i x [[Hi Hx]|[Hi Hx]]%lookup_snoc_Some.
    + rewrite Hd, list_lookup_insert_ne; [by apply Hl1|]. rewrite Ht. intros E.
      apply slot_inj in E; [lia|done|lia|lia].
    + subst i x. rewrite <-Ht, Hd. apply list_lookup_insert_eq. rewrite Hld, Ht. by apply slot_lt.
  - intros k' s. destruct (decide (k' = k)) as [->|Hne].
    + rewrite Hk. split.
      * intros [= <-]. exists (length l1), v. by rewrite list_lookup_middle.
      * intros (i & w & [[Hi Hx]|[Hi Hx]]%lookup_snoc_Some & ->); [by apply Hk1 in Hx|]. subst i. by rewrite Ht.
    + rewrite Hidx by done. split; intros (i & w & Hi & ->).
      * exists i, w. split; [by apply lookup_app_l_Some|done].
      * apply lookup_snoc_Some in Hi as [[Hi Hx]|[Hi [= -> ->]]]; [by eauto|done].
Qed.

Lemma Put_absent_refines k v r l : refines r l → index r !! k = None →
  ∃ r', Put k v r = Ok r' ∧ refines r' (evict (capacity r) l ++ [((k, v), true)]) ∧ capacity r' = capacity r.
Proof.
  intros R Hk. destruct (Put_absent k v r (ref_wf _ _ R) Hk) as (r' & E & W' & Hc & Hd & Hcase).
  exists r'. split; [done|]. split; [|done]. pose proof (ref_wf _ _ R) as W. pose proof W as [C D Sz Hh T I].
  assert (∀ i w, l !! i ≠ Some ((k, w), true)) as Hnl.
  { intros i w Hi. pose proof (proj2 (ref_index _ _ R k (slot r i)) ltac:(eauto)). congruence. }
  unfold evict. rewrite (ref_length _ _ R). destruct (size r =? capacity r)%nat eqn:Ef.
  - apply Nat.eqb_eq in Ef. destruct Hcase as ((e & He & Hi) & Hh' & Hs).
    destruct l as [|[e0 b0] l]; [pose proof (ref_length _ _ R); simpl in *; lia|].
    pose proof (ref_length _ _ R) as Hlen. simpl in Hlen.
    assert (slot r 0 = head r) as Hs0 by (unfold slot; rewrite Nat.add_0_r, Nat.mod_small; lia).
    pose proof (ref_data _ _ R 0 (e0, b0) eq_refl) as He0. rewrite Hs0, He in He0. injection He0 as ->. cbn [fst] in *.
    assert (∀ i, slot r' i = slot r (S i)) as Hsl.
    { intros i. unfold slot. rewrite Hc, Hh', Nat.Div0.add_mod_idemp_l. f_equal. lia. }
    apply (append_refines k v r); rewrite ?length_fmap; unfold kill; rewrite ?length_fmap; try done; try lia.
    + rewrite Hsl, Hlen. exact T.
    + intros i x Hx. apply kill_lookup in Hx as (y & Hy & ->). rewrite Hsl, (ref_data _ _ R (S i) y Hy).
      by destruct (String.eqb _ _).
    + intros k' s Hne. rewrite Hi, lookup_insert_ne by done. split.
      * intros [Hne' Hs']%lookup_delete_Some. apply (ref_index _ _ R) in Hs' as (i & w & Hi' & ->).
        destruct i as [|i]; [by injection Hi' as -> _|]. exists i, w. rewrite Hsl. split; [|done].
        by apply kill_live.
      * intros (i & w & Hi' & ->). apply kill_live in Hi' as [Hne' Hi']. rewrite lookup_delete_ne by done.
        apply (ref_index _ _ R). exists (S i), w. by rewrite Hsl.
    + intros i w [_ Hi']%kill_live. by apply (Hnl (S i) w).
    + rewrite Hi. apply lookup_insert_eq.
  - apply Nat.eqb_neq in Ef. destruct Hcase as (Hi & Hh' & Hs).
    assert (∀ i, slot r' i = slot r i) as Hsl by (intros i; unfold slot; by rewrite Hc, Hh').
    apply (append_refines k v r); rewrite ?(ref_length _ _ R); try done; try lia.
    + by rewrite Hsl, T.
    + intros i x Hx. rewrite Hsl. by apply R.
    + intros k' s Hne. rewrite Hi, lookup_insert_ne, (ref_index _ _ R) by done. by setoid_rewrite Hsl.
    + rewrite Hi. apply lookup_insert_eq.
Qed.

Lemma Put_refines k v r l : refines r l →
  ∃ r', Put k v r = Ok r' ∧ refines r' (queue_put (capacity r) k v l) ∧ capacity r' = capacity r.
Proof.
  intros R. unfold queue_put. rewrite (live_index _ _ _ R). destruct (index r !! k) as [s|] eqn:Hk.
  - rewrite bool_decide_true by eauto. by eapply Put_present_refines.
  - rewrite bool_decide_false by (by intros [? ?]). by apply Put_absent_refines.
Qed.

Lemma GetAndDelete_refines k r l : refines r l →
  ∃ r', GetAndDelete k r = Ok (r', queue_get k l) ∧ refines r' (kill k l) ∧ capacity r' = capacity r.
Proof.
  intros R. destruct (GetAndDelete_wf k r (ref_wf _ _ R)) as (r' & vb & E & W & Hi & Hd & Hh & Hs & Hc & Hg).
  rewrite (Get_refines _ _ _ R) in Hg. injection Hg as <-. exists r'. split; [done|]. split; [|done].
  assert (∀ i, slot r' i = slot r i) as Hsl by (intros i; unfold slot; by rewrite Hh, Hc).
  constructor; [done|unfold kill; by rewrite length_fmap, Hs, (ref_length _ _ R)|..].
  - intros i x (y & Hy & ->)%kill_lookup. rewrite Hd, Hsl, (ref_data _ _ R _ _ Hy). by destruct (String.eqb _ _).
  - intros k' s. rewrite Hi. setoid_rewrite kill_live. setoid_rewrite Hsl. rewrite lookup_delete_Some, (ref_index _ _ R).
    naive_solver.
Qed.

Lemma Entries_refines r l : refines r l → Entries r = Ok l.*1 ∧ Keys r = Ok l.*1.*1.
Proof.
  intros R. pose (g := λ i, default (("", zero), false) (l !! i)).
  assert (∀ i, i ∈ seq 0 (size r) → slice_get (data r) (slot r i) = Ok (g i).1) as Hg.
  { intros i Hi%elem_of_seq. apply slice_get_ok. unfold g.
    destruct (lookup_lt_is_Some_2 l i) as [x Hx]; [rewrite (ref_length _ _ R); lia|]. rewrite Hx. by apply R. }
  assert (g <$> seq 0 (size r) = l) as El.
  { rewrite <-(ref_length _ _ R). apply list_eq. intros i. rewrite list_lookup_fmap.
    destruct (decide (i < length l)%nat).
    - rewrite lookup_seq_lt by done. simpl. unfold g. by destruct (lookup_lt_is_Some_2 l i) as [x ->].
    - rewrite (lookup_ge_None_2 l) by lia. by rewrite lookup_seq_ge by lia. }
  split.
  - unfold Entries. rewrite (res_mapM_ok _ (λ i, (g i).1)) by done. rewrite <-El at 1. by rewrite <-!list_fmap_compose.
  - unfold Keys. rewrite (res_mapM_ok _ (λ i, (g i).1.1)).
    + rewrite <-El at 1. by rewrite <-!list_fmap_compose.
    + intros i Hi. fold (slot r i). by rewrite (Hg i Hi).
Qed.

(** ** Sequences of operations *)

Inductive op := OpPut (key : string) (value : V) | OpGet (key : string) | OpGetAndDelete (key : string).

Definition step (o : op) (r : RingBuffer) : res (RingBuffer * option (V * bool)) :=
  match o with
  | OpPut key value => r ← Put key value r; Ok (r, None)
  | OpGet key => vb ← Get key r; Ok (r, Some vb)
  | OpGetAndDelete key => '(r, vb) ← GetAndDelete key r; Ok (r, Some vb)
  end.
Definition queue_step (cap : nat) (o : op) (l : queue) : queue * option (V * bool) :=
  match o with
  | OpPut key value => (queue_put cap key value l, None)
  | OpGet key => (l, Some (queue_get key l))
  | OpGetAndDelete key => (kill key l, Some (queue_get key l))
  end.

Fixpoint run (ops : list op) (r : RingBuffer) : res (RingBuffer * list (option (V * bool))) :=
  match ops with
  | [] => Ok (r, [])
  | o :: ops => '(r, out) ← step o r; '(r, outs) ← run ops r; Ok (r, out :: outs)
  end.
Fixpoint queue_run (cap : nat) (ops : list op) (l : queue) : queue * list (option (V * bool)) :=
  match ops with
  | [] => (l, [])
  | o :: ops =>
      let '(l, out) := queue_step cap o l in let '(l, outs) := queue_run cap ops l in (l, out :: outs)
  end.

Lemma step_refines o r l : refines r l →
  ∃ r', step o r = Ok (r', (queue_step (capacity r) o l).2) ∧ refines r' (queue_step (capacity r) o l).1 ∧
        capacity r' = capacity r.
Proof.
  intros R. destruct o as [k v|k|k]; cbn [step queue_step fst snd].
  - destruct (Put_refines k v r l R) as (r' & -> & R' & Hc). by exists r'.
  - rewrite (Get_refines _ _ _ R). by exists r.
  - destruct (GetAndDelete_refines k r l R) as (r' & -> & R' & Hc). by exists r'.
Qed.

Lemma run_refines ops r l : refines r l →
  ∃ r', run ops r = Ok (r', (queue_run (capacity r) ops l).2) ∧ refines r' (queue_run (capacity r) ops l).1 ∧
        capacity r' = capacity r.
Proof.
  revert r l. induction ops as [|o ops IH]; intros r l R; [by exists r|]. cbn [run queue_run].
  destruct (step_refines o r l R) as (r1 & -> & R1 & H1). destruct (queue_step _ o l) as [l1 out1]. cbn [fst snd] in *.
  destruct (IH r1 l1 R1) as (r2 & E2 & R2 & H2). rewrite H1 in E2, R2. cbn [mbind res_bind]. rewrite E2.
  destruct (queue_run _ ops l1) as [l2 outs].
  exists r2. split; [done|]. split; [done|congruence].
Qed.

Lemma kill_absent k (l : queue) : k ∉ l.*1.*1 → kill k l = l.
Proof.
  induction l as [|[[k' v] b] l IH]; [done|]. rewrite !fmap_cons, not_elem_of_cons. intros [Hne Hl].
  unfold kill. rewrite fmap_cons. cbn [fst]. destruct (String.eqb_spec k' k); [done|]. f_equal. by apply IH.
Qed.

Definition alive (kvs : list entry) : queue := (λ kv, (kv, true)) <$> kvs.

Lemma alive_keys kvs : (alive kvs).*1 = kvs.
Proof. unfold alive. rewrite <-list_fmap_compose. apply list_fmap_id. Qed.

Lemma queue_put_fresh cap k v kvs : (0 < cap)%nat → (length kvs ≤ cap)%nat → NoDup kvs.*1 → k ∉ kvs.*1 →
  queue_put cap k v (alive kvs) = alive (drop (S (length kvs) - cap) (kvs ++ [(k, v)])).
Proof.
  intros Hc Hl Hn Hk. unfold queue_put.
  destruct (existsb (is_live k) (alive kvs)) eqn:E.
  { apply existsb_exists in E as (x & Hin & Hx). apply is_live_iff in Hx as [w ->]. destruct Hk.
    apply list_elem_of_In in Hin. apply (list_elem_of_fmap_2 fst) in Hin. rewrite alive_keys in Hin.
    by apply (list_elem_of_fmap_2 fst) in Hin. }
  unfold evict, alive. rewrite length_fmap. destruct (length kvs =? cap)%nat eqn:Ef.
  - apply Nat.eqb_eq in Ef. rewrite Ef. replace (S cap - cap)%nat with 1%nat by lia.
    destruct kvs as [|[k0 v0] kvs]; [simpl in *; lia|]. rewrite fmap_cons. cbn [app drop].
    rewrite drop_0, fmap_app. rewrite fmap_cons, NoDup_cons in Hn. destruct Hn as [Hn _]. cbn [fst] in *.
    rewrite kill_absent; [done|]. change (k0 ∉ (alive kvs).*1.*1). by rewrite alive_keys.
  - apply Nat.eqb_neq in Ef. replace (S (length kvs) - cap)%nat with 0%nat by lia. by rewrite drop_0, fmap_app.
Qed.

Lemma queue_puts cap kvs : (0 < cap)%nat → NoDup kvs.*1 →
  (queue_run cap ((λ kv, OpPut kv.1 kv.2) <$> kvs) []).1 = alive (drop (length kvs - cap) kvs).
Proof.
  intros Hc. assert (∀ l kvs, length l ≤ cap → NoDup (l ++ kvs).*1 →
    (queue_run cap ((λ kv, OpPut kv.1 kv.2) <$> kvs) (alive l)).1 =
      alive (drop (length l + length kvs - cap) (l ++ kvs)))%nat as H.
  { intros l kvs'. revert l. induction kvs' as [|[k v] kvs' IH]; intros l Hl Hn.
    - cbn [fmap list_fmap queue_run fst length]. rewrite app_nil_r. replace (length l + 0 - cap)%nat with 0%nat by lia. done.
    - rewrite fmap_cons. cbn [queue_run queue_step fst snd].
      rewrite fmap_app, NoDup_app in Hn. destruct Hn as (Hn1 & Hn2 & Hn3).
      rewrite queue_put_fresh; [|done..|by intros Hk; apply (Hn2 k Hk); left].
      set (l' := drop _ (l ++ _)). destruct (queue_run cap _ (alive l')) as [q outs] eqn:Eq. cbn [fst].
      assert (length l' = min cap (S (length l)))%nat as Hl' by (unfold l'; rewrite length_drop, length_app; simpl; lia).
      assert (alive (drop (length l' + length kvs' - cap) (l' ++ kvs')) = q) as <-.
      + rewrite <-IH; [by rewrite Eq|lia|]. unfold l'. assert (NoDup ((l ++ [(k, v)]) ++ kvs').*1) as Hall.
        { rewrite <-app_assoc, fmap_app, NoDup_app. done. }
        rewrite <-(take_drop (S (length l) - cap) (l ++ [(k, v)])), <-app_assoc in Hall.
        rewrite fmap_app, NoDup_app in Hall. apply Hall.
      + f_equal. unfold l' at 2. rewrite <-(drop_app_le (l ++ [(k, v)]) kvs') by (rewrite length_app; simpl; lia).
        rewrite drop_drop, <-app_assoc, Hl'. cbn [app length]. f_equal. lia. }
  intros Hn. apply (H []); [simpl; lia|done].
Qed.

(** ** What a client of the buffer gets *)

(** C10: From a new buffer, no sequence of operations panics, every answer is the
    queue's answer, and the listed entries are the queue's: at most the capacity, oldest
    first. *)
Theorem run_from_new c ops : (1 ≤ c)%Z →
  ∃ r outs q, (r ← New c; run ops r) = Ok (r, outs) ∧ queue_run (Z.to_nat c) ops [] = (q, outs) ∧
    Entries r = Ok q.*1 ∧ Keys r = Ok q.*1.*1 ∧ Len r = length q ∧ (Len r ≤ Cap r)%nat ∧ Z.of_nat (Cap r) = c.
Proof.
  intros Hc. destruct (New_buffer_wf c Hc) as (r0 & E & W & _ & _ & Hcap). pose proof (New_refines c r0 E) as R0.
  destruct (run_refines ops r0 [] R0) as (r & Er & R & Hcr). rewrite Hcap in Er, R.
  destruct (queue_run (Z.to_nat c) ops []) as [q outs]. cbn [fst snd] in *. exists r, outs, q. rewrite E. cbn [mbind res_bind].
  split; [done|]. split; [done|]. destruct (Entries_refines r q R) as [-> ->]. unfold Len, Cap.
  rewrite (ref_length _ _ R). pose proof (wf_size _ (ref_wf _ _ R)). repeat split; try done. lia.
Qed.

(** Putting distinct keys keeps exactly the last [capacity] of them, in order. *)
Theorem puts_keep_window c kvs : (1 ≤ c)%Z → NoDup kvs.*1 →
  ∃ r outs, (r ← New c; run ((λ kv, OpPut kv.1 kv.2) <$> kvs) r) = Ok (r, outs) ∧
    Entries r = Ok (drop (length kvs - Z.to_nat c) kvs) ∧
    ∀ k v, (k, v) ∈ drop (length kvs - Z.to_nat c) kvs → Get k r = Ok (v, true).
Proof.
  intros Hc Hn. destruct (New_buffer_wf c Hc) as (r0 & E & W & _ & _ & Hcap). pose proof (New_refines c r0 E) as R0.
  destruct (run_refines ((λ kv, OpPut kv.1 kv.2) <$> kvs) r0 [] R0) as (r & Er & R & _).
  rewrite Hcap, queue_puts in R by (done || lia). rewrite E. eexists r, _. split; [exact Er|].
  split; [by rewrite (proj1 (Entries_refines _ _ R)), alive_keys|]. intros k v Hin.
  apply (list_elem_of_fmap_2 (λ kv : entry, (kv, true))) in Hin. apply list_elem_of_lookup in Hin as [i Hi].
  unfold Get. rewrite (proj2 (ref_index _ _ R k (slot r i))) by eauto.
  by rewrite (slice_get_ok _ _ _ (ref_data _ _ R _ _ Hi)).
Qed.

(** The slot of a deleted key stays, and its eviction takes the key's newer entry out
    of the index: the key is listed among the entries but no longer found. *)
Theorem stale_eviction r l0 a v0 v1 k v :
  refines r (((a, v0), false) :: l0) → length l0 = pred (capacity r) → ((a, v1), true) ∈ l0 →
  index r !! k = None →
  ∃ r' es, Put k v r = Ok r' ∧ Get a r = Ok (v1, true) ∧
    Contains a r' = false ∧ Entries r' = Ok es ∧ (a, v1) ∈ es.
Proof.
  intros R Hl Ha Hk. pose proof (wf_capacity _ (ref_wf _ _ R)) as Hc.
  apply list_elem_of_lookup in Ha as [i Hi].
  pose proof (proj2 (ref_index _ _ R a (slot r (S i))) ltac:(by exists (S i), v1)) as Hia.
  destruct (Put_absent_refines k v r _ R Hk) as (r' & E & R' & _). exists r'. eexists. split; [exact E|].
  unfold evict in R'. cbn [length] in R'. rewrite Hl, (proj2 (Nat.eqb_eq _ _)) in R' by lia. cbn [fst] in R'.
  split; [unfold Get; rewrite Hia; by rewrite (slice_get_ok _ _ _ (ref_data _ _ R (S i) _ Hi))|].
  split; [|split; [apply (Entries_refines _ _ R')|]].
  - unfold Contains. destruct (index r' !! a) as [s|] eqn:Es; [|done]. exfalso.
    apply (ref_index _ _ R') in Es as (j & w & [[_ Hj]|[_ [= -> ->]]]%lookup_snoc_Some & _).
    + by apply kill_live in Hj as [? _].
    + congruence.
  - apply list_elem_of_lookup. exists i. rewrite list_lookup_fmap.
    rewrite lookup_app_l; [|unfold kill; rewrite length_fmap; by eapply lookup_lt_Some].
    unfold kill. rewrite list_lookup_fmap, Hi. cbn [fmap option_fmap option_map fst].
    by rewrite (proj2 (String.eqb_eq _ _)).
Qed.
End ringbuffer.
Arguments RingBuffer : clear implicits.

(** ** The theorems at a concrete buffer *)

Definition ops1 : list (op (V := nat)) :=
  [OpPut "a" 1%nat; OpPut "b" 2%nat; OpPut "a" 3%nat; OpPut "c" 4%nat; OpGet "a"; OpGetAndDelete "c"; OpGet "c"].
Lemma run_from_new_witness : ∃ r outs q, (r ← New 0%nat 2; run 0%nat ops1 r) = Ok (r, outs) ∧
  queue_run 0%nat 2 ops1 [] = (q, outs) ∧ Entries r = Ok q.*1 ∧ Keys r = Ok q.*1.*1 ∧ Len r = length q ∧
  (Len r ≤ Cap r)%nat ∧ Z.of_nat (Cap r) = 2%Z.
Proof. apply (run_from_new 0%nat 2 ops1). lia. Defined.

Definition puts1 : list (string * nat) := [("a", 1%nat); ("b", 2%nat); ("c", 3%nat)].
Lemma puts_keep_window_witness : ∃ r outs,
  (r ← New 0%nat 2; run 0%nat ((λ kv, OpPut kv.1 kv.2) <$> puts1) r) = Ok (r, outs) ∧
  Entries r = Ok [("b", 2%nat); ("c", 3%nat)] ∧
  ∀ k v, (k, v) ∈ [("b", 2%nat); ("c", 3%nat)] → Get 0%nat k r = Ok (v, true).
Proof.
  apply (puts_keep_window 0%nat 2 puts1); [lia|]. apply (bool_decide_unpack _). by vm_compute.
Defined.

(** [a] is put, taken and put again: its first slot is stale. *)
Definition stale_queue : list (string * nat * bool) := [(("a", 1%nat), false); (("a", 2%nat), true)].
Lemma stale_buffer : ∃ r, refines r stale_queue ∧ capacity r = 2%nat ∧ index r !! "b" = None.
Proof.
  destruct (New_buffer_wf 0%nat 2 ltac:(lia)) as (r0 & E & _ & _ & _ & Hc). pose proof (New_refines 0%nat 2 r0 E) as R0.
  destruct (run_refines 0%nat [OpPut "a" 1%nat; OpGetAndDelete "a"; OpPut "a" 2%nat] r0 [] R0) as (r & _ & R & Hr).
  rewrite Hc in R, Hr. exists r. split; [exact R|]. split; [exact Hr|].
  destruct (index r !! "b") as [s|] eqn:Eb; [|done]. apply (ref_index _ _ R) in Eb as (i & v & Hi & _).
  by destruct i as [|[|i]].
Qed.
Lemma stale_eviction_witness : ∃ r r' es, Put "b" 3%nat r = Ok r' ∧ Get 0%nat "a" r = Ok (2%nat, true) ∧
  Contains "a" r' = false ∧ Entries r' = Ok es ∧ ("a", 2%nat) ∈ es.
Proof.
  destruct stale_buffer as (r & R & Hc & Hb). exists r.
  apply (stale_eviction 0%nat r [(("a", 2%nat), true)] "a" 1%nat 2%nat "b" 3%nat); [exact R|by rewrite Hc|left|exact Hb].
Defined.
