(* ===== verification/Stitch.v ===== *)
(** Package [stitch] (src/pkg/stitch/stitch.go): the two directions of a
    conversation are paired through a ring buffer of the flows not yet matched. *)
From S2P Require Import Prelude Jchf.
From S2P Require RingBuffer.

Record stitchSnapshot := mkSnapshot {
  sn_TcpFlags : Z;
  sn_InBytes : Z;
  sn_InPkts : Z;
  sn_TcpRetransmit : Z;
  sn_Timestamp : Z }.
Definition stitchSnapshot_zero : stitchSnapshot := mkSnapshot 0 0 0 0 0.

(** The stitcher's cache, and how often its two meters were marked. *)
Record Stitcher := mkStitcher {
  cache : RingBuffer.RingBuffer stitchSnapshot;
  FlowsIn : Z;
  FlowsMatched : Z }.

Definition NewStitcher (Enable : bool) (BufLen : Z) : res (option Stitcher) :=
  if Enable then
    r ← RingBuffer.New stitchSnapshot_zero BufLen;
    Ok (Some {| cache := r; FlowsIn := 0; FlowsMatched := 0 |})
  else Ok None.

Definition snapshot (msg : JCHF) : stitchSnapshot :=
  {| sn_TcpFlags := TcpFlags msg; sn_InBytes := InBytes msg; sn_InPkts := InPkts msg;
     sn_TcpRetransmit := TcpRetransmit msg; sn_Timestamp := Timestamp msg |}.

(** The writes to the message's maps, in the order of the code. *)
Definition set_pair (nm : stitchSnapshot) (msg : JCHF) : res JCHF :=
  ci ← map_set "pair_tcp_flags" (wraps 32 (sn_TcpFlags nm)) (CustomInt msg);
  cb ← map_set "pair_in_bytes" (wraps 64 (sn_InBytes nm)) (CustomBigInt msg);
  cb ← map_set "pair_in_pkts" (wraps 64 (sn_InPkts nm)) cb;
  ci ← map_set "pair_tcp_rx" (wraps 32 (sn_TcpRetransmit nm)) ci;
  cb ← map_set "pair_timestamp" (sn_Timestamp nm) cb;
  Ok (msg <| CustomInt := ci |> <| CustomBigInt := cb |>).

Definition Stitch (msg : JCHF) (s : Stitcher) : res (Stitcher * JCHF * bool) :=
  let key := GetKey msg in
  '(r, (nm, ok)) ← RingBuffer.GetAndDelete stitchSnapshot_zero key (cache s);
  if ok : bool then
    msg ← set_pair nm msg;
    Ok ({| cache := r; FlowsIn := FlowsIn s + 1; FlowsMatched := FlowsMatched s + 1 |}, msg, true)
  else
    r ← RingBuffer.Put key (snapshot msg) r;
    Ok ({| cache := r; FlowsIn := FlowsIn s + 1; FlowsMatched := FlowsMatched s |}, msg, false).

(** A stream of flows through one stitcher. *)
Fixpoint Stitch_all (msgs : list JCHF) (s : Stitcher) : res (Stitcher * list (JCHF * bool)) :=
  match msgs with
  | [] => Ok (s, [])
  | msg :: msgs =>
      '(s, msg, ok) ← Stitch msg s; '(s, outs) ← Stitch_all msgs s; Ok (s, (msg, ok) :: outs)
  end.

(** ** Laws *)

Abbreviation refines := (RingBuffer.refines (V := stitchSnapshot)) (only parsing).

(** A flow whose key is not waiting: it is stored, unchanged. *)
Lemma Stitch_unmatched msg s q : refines (cache s) q → RingBuffer.index (cache s) !! GetKey msg = None →
  ∃ s', Stitch msg s = Ok (s', msg, false) ∧
    refines (cache s') (RingBuffer.evict (RingBuffer.capacity (cache s)) q ++ [((GetKey msg, snapshot msg), true)]) ∧
    RingBuffer.capacity (cache s') = RingBuffer.capacity (cache s).
Proof.
  intros R Hk. unfold Stitch, RingBuffer.GetAndDelete. rewrite Hk. cbn [mbind res_bind].
  destruct (RingBuffer.Put_absent_refines (GetKey msg) (snapshot msg) _ _ R Hk) as (r' & -> & R' & Hc).
  cbn [mbind res_bind]. eexists. split; [reflexivity|]. done.
Qed.

(** A flow whose key waits with the snapshot [nm]. *)
Lemma Stitch_matched msg s q nm ci cb : refines (cache s) q →
  RingBuffer.queue_get stitchSnapshot_zero (GetKey msg) q = (nm, true) →
  CustomInt msg = Some ci → CustomBigInt msg = Some cb →
  ∃ s' msg', Stitch msg s = Ok (s', msg', true) ∧ set_pair nm msg = Ok msg' ∧
    refines (cache s') (RingBuffer.kill (GetKey msg) q) ∧
    RingBuffer.capacity (cache s') = RingBuffer.capacity (cache s).
Proof.
  intros R Hq Hi Hb. unfold Stitch.
  destruct (RingBuffer.GetAndDelete_refines stitchSnapshot_zero (GetKey msg) _ _ R) as (r' & -> & R' & Hc).
  rewrite Hq. cbn [mbind res_bind]. unfold set_pair. rewrite Hi, Hb. cbn [mbind res_bind map_set].
  eexists _, _. split; [reflexivity|]. split; [reflexivity|]. done.
Qed.

(** Any flow with its maps goes through. *)
Lemma Stitch_total msg s q : refines (cache s) q → is_Some (CustomInt msg) → is_Some (CustomBigInt msg) →
  ∃ s' msg' ok, Stitch msg s = Ok (s', msg', ok) ∧ RingBuffer.capacity (cache s') = RingBuffer.capacity (cache s) ∧
    refines (cache s') (if ok : bool then RingBuffer.kill (GetKey msg) q
                        else RingBuffer.evict (RingBuffer.capacity (cache s)) q ++ [((GetKey msg, snapshot msg), true)]).
Proof.
  intros R [ci Hi] [cb Hb]. destruct (RingBuffer.queue_get stitchSnapshot_zero (GetKey msg) q) as [nm [|]] eqn:Hq.
  - destruct (Stitch_matched msg s q nm ci cb R Hq Hi Hb) as (s' & m' & E & _ & R' & Hc). by exists s', m', true.
  - destruct (Stitch_unmatched msg s q R) as (s' & E & R' & Hc); [|by exists s', msg, false].
    pose proof (RingBuffer.Get_refines stitchSnapshot_zero (GetKey msg) _ _ R) as Hg. rewrite Hq in Hg. unfold RingBuffer.Get in Hg.
    destruct (RingBuffer.index (cache s) !! GetKey msg) as [sl|]; [|done]. by destruct (slice_get _ sl).
Qed.

(** What any flow that goes through leaves is a queue. *)
Lemma Stitch_refines msg s q s' msg' ok : refines (cache s) q → Stitch msg s = Ok (s', msg', ok) →
  ∃ q', refines (cache s') q' ∧ (ok = false → msg' = msg ∧ RingBuffer.queue_get stitchSnapshot_zero (GetKey msg) q = (stitchSnapshot_zero, false) ∧
    q' = RingBuffer.evict (RingBuffer.capacity (cache s)) q ++ [((GetKey msg, snapshot msg), true)]).
Proof.
  intros R. unfold Stitch. destruct (RingBuffer.GetAndDelete_refines stitchSnapshot_zero (GetKey msg) _ _ R) as (r & E & R1 & Hc1).
  rewrite E. cbn [mbind res_bind]. destruct (RingBuffer.queue_get _ _ q) as [nm [|]] eqn:Hq.
  - destruct (set_pair nm msg); cbn [mbind res_bind]; try done. intros [= <- <- <-]. by eexists.
  - pose proof (RingBuffer.Get_refines stitchSnapshot_zero (GetKey msg) _ _ R) as Hg. rewrite Hq in Hg. unfold RingBuffer.Get in Hg.
    destruct (RingBuffer.index (cache s) !! GetKey msg) as [sl|] eqn:Hk; [by destruct (slice_get _ sl)|]. injection Hg as <-.
    unfold RingBuffer.GetAndDelete in E. rewrite Hk in E. injection E as <-.
    destruct (RingBuffer.Put_absent_refines (GetKey msg) (snapshot msg) _ _ R Hk) as (r' & -> & R' & _). cbn [mbind res_bind].
    intros [= <- <- <-]. eexists. split; [exact R'|]. by intros _.
Qed.
Lemma Stitch_all_refines msgs s q s' outs : refines (cache s) q → Stitch_all msgs s = Ok (s', outs) → ∃ q', refines (cache s') q'.
Proof.
  revert s q s' outs. induction msgs as [|m msgs IH]; intros s q s' outs R; cbn [Stitch_all]; [intros [= <- _]; by exists q|].
  destruct (Stitch m s) as [[[s1 m'] ok]| | |] eqn:E; try done. cbn [mbind res_bind].
  destruct (Stitch_refines _ _ _ _ _ _ R E) as (q1 & R1 & _). destruct (Stitch_all msgs s1) as [[s2 outs2]| | |] eqn:E2; try done. cbn [mbind res_bind].
  intros [= <- _]. by eapply IH.
Qed.

(** *** How long a flow waits *)

Abbreviation queue := (list (string * stitchSnapshot * bool)) (only parsing).
Abbreviation get := (RingBuffer.queue_get stitchSnapshot_zero) (only parsing).

Lemma get_cons k x (q : queue) : get k (x :: q) = if RingBuffer.is_live k x then (x.1.2, true) else get k q.
Proof.
  unfold RingBuffer.queue_get. cbn [list_find]. destruct (decide (RingBuffer.is_live k x)) as [H|H].
  - by rewrite (proj1 (Is_true_true _) H).
  - rewrite (proj1 (Is_true_false _) H). by destruct (list_find _ q) as [[]|].
Qed.
Lemma get_snoc k x (q : queue) : get k (q ++ [x]) =
  if (get k q).2 then get k q else if RingBuffer.is_live k x then (x.1.2, true) else (stitchSnapshot_zero, false).
Proof.
  induction q as [|y q IH]; [cbn [app]; by rewrite get_cons|]. cbn [app]. rewrite !get_cons, IH. by destruct (RingBuffer.is_live k y).
Qed.
Lemma get_kill k k' (q : queue) : get k (RingBuffer.kill k' q) = if String.eqb k k' then (stitchSnapshot_zero, false) else get k q.
Proof.
  induction q as [|[[k1 v] b] q IH]; [by destruct (String.eqb k k')|]. unfold RingBuffer.kill. rewrite fmap_cons, get_cons.
  fold (RingBuffer.kill k' q). rewrite IH, get_cons. unfold RingBuffer.is_live. cbn [fst snd].
  destruct (String.eqb_spec k k') as [->|Hk], (String.eqb_spec k1 k') as [->|H1]; cbn [fst snd]; rewrite ?andb_false_r; try done.
  - by rewrite (proj2 (String.eqb_neq k1 k')).
  - by rewrite (proj2 (String.eqb_neq k' k)) by congruence.
Qed.
Lemma kill_keys k (q : queue) : (RingBuffer.kill k q).*1.*1 = q.*1.*1.
Proof. unfold RingBuffer.kill. rewrite <-!list_fmap_compose. apply list_fmap_ext. intros _ x _. cbn. by destruct (String.eqb _ _). Qed.

(** The oldest slot of a key. *)
Definition oldest (k : string) (ks : list string) (i : nat) : Prop := ks !! i = Some k ∧ ∀ j, (j < i)%nat → ks !! j ≠ Some k.
Lemma oldest_app k l1 l2 i : oldest k l1 i → oldest k (l1 ++ l2) i.
Proof.
  intros [H1 H2]. pose proof (lookup_lt_Some _ _ _ H1). split; [by apply lookup_app_l_Some|]. intros j Hj. rewrite lookup_app_l by lia. by apply H2.
Qed.

(** The value [v] waits under [k]; its oldest slot, stale or not, is the [i]th. *)
Record waits (k : string) (v : stitchSnapshot) (q : queue) (i : nat) : Prop := {
  wa_get : get k q = (v, true);
  wa_oldest : oldest k q.*1.*1 i }.

Lemma waits_kill k k' v q i : k' ≠ k → waits k v q i → waits k v (RingBuffer.kill k' q) i.
Proof.
  intros Hk [H1 H2]. split; [|by rewrite kill_keys]. rewrite get_kill. by rewrite (proj2 (String.eqb_neq _ _)) by congruence.
Qed.
Lemma waits_snoc k x v q i : x.1.1 ≠ k → waits k v q i → waits k v (q ++ [x]) i.
Proof. intros Hk [H1 H2]. split; [by rewrite get_snoc, H1|]. rewrite !fmap_app. by apply oldest_app. Qed.

(** Another flow is stored: the value stays as long as its oldest slot does. *)
Lemma waits_store k x v q i cap : x.1.1 ≠ k → waits k v q i → (length q ≤ cap)%nat →
  if (length q <? cap + i)%nat then
    ∃ i', waits k v (RingBuffer.evict cap q ++ [x]) i' ∧ (S i' + length q = i + length (RingBuffer.evict cap q ++ [x]))%nat
  else get k (RingBuffer.evict cap q ++ [x]) = (stitchSnapshot_zero, false).
Proof.
  intros Hx Hw Hc. unfold RingBuffer.evict. destruct (Nat.eqb_spec (length q) cap) as [He|He].
  - destruct q as [|e q]; [by destruct Hw as [[=] _]|]. destruct i as [|i].
    + rewrite (proj2 (Nat.ltb_ge _ _)) by lia. destruct Hw as [_ [[= Hk] _]]. rewrite get_snoc, get_kill, Hk, String.eqb_refl.
      unfold RingBuffer.is_live. by rewrite (proj2 (String.eqb_neq _ _)).
    + rewrite (proj2 (Nat.ltb_lt _ _)) by lia. exists i. split; [|unfold RingBuffer.kill; rewrite length_app, length_fmap; cbn [length]; lia].
      destruct Hw as [H1 [H2 H3]]. assert (e.1.1 ≠ k) as Hek by (intros E; apply (H3 0%nat); [lia|cbn; by rewrite E]).
      apply waits_snoc; [done|]. apply waits_kill; [done|]. split.
      * rewrite get_cons in H1. unfold RingBuffer.is_live in H1. by rewrite (proj2 (String.eqb_neq _ _)) in H1.
      * split; [exact H2|]. intros j Hj. apply (H3 (S j)). lia.
  - rewrite (proj2 (Nat.ltb_lt _ _)) by lia. exists i. split; [by apply waits_snoc|]. rewrite length_app. cbn [length]. lia.
Qed.
Lemma gone_store k x q cap : x.1.1 ≠ k → get k q = (stitchSnapshot_zero, false) → get k (RingBuffer.evict cap q ++ [x]) = (stitchSnapshot_zero, false).
Proof.
  intros Hx Hq. assert (get k (RingBuffer.evict cap q) = (stitchSnapshot_zero, false)) as H.
  { unfold RingBuffer.evict. destruct (_ =? _)%nat; [|done]. destruct q as [|e q]; [done|]. rewrite get_kill. case_match; [done|].
    rewrite get_cons in Hq. by destruct (RingBuffer.is_live k e). }
  rewrite get_snoc, H. unfold RingBuffer.is_live. by rewrite (proj2 (String.eqb_neq _ _)).
Qed.

(** How many of a stream were not matched, and are stored. *)
Definition stored (outs : list (JCHF * bool)) : nat := length (filter (λ o : JCHF * bool, o.2 = false) outs).
(** A flow that can be paired: its maps are made. *)
Definition mapped (m : JCHF) : Prop := is_Some (CustomInt m) ∧ is_Some (CustomBigInt m).

Lemma Stitch_all_waits k others : ∀ s q, refines (cache s) q → Forall mapped others → Forall (λ m, GetKey m ≠ k) others →
  ∃ s' outs q', Stitch_all others s = Ok (s', outs) ∧ refines (cache s') q' ∧
    (get k q = (stitchSnapshot_zero, false) → get k q' = (stitchSnapshot_zero, false)) ∧
    ∀ v i, waits k v q i → if (length q + stored outs <=? RingBuffer.capacity (cache s) + i)%nat then ∃ i', waits k v q' i'
      else get k q' = (stitchSnapshot_zero, false).
Proof.
  induction others as [|m others IH]; intros s q R Hm Hk.
  { exists s, [], q. split; [done|]. split; [done|]. split; [done|]. intros v i Hw. change (stored []) with 0%nat. destruct (Nat.leb_spec (length q + 0) (RingBuffer.capacity (cache s) + i)) as [|Hl];
      [by exists i|]. destruct (RingBuffer.ref_wf _ _ R) as [_ _ Hsz _ _ _]. rewrite <-(RingBuffer.ref_length _ _ R) in Hsz. lia. }
  apply Forall_cons in Hm as [[Hi Hb] Hm]. apply Forall_cons in Hk as [Hne Hk].
  destruct (Stitch_total m s q R Hi Hb) as (s1 & m' & ok & E & Hc & R1). set (q1 := if ok then _ else _) in R1.
  destruct (IH s1 q1 R1 Hm Hk) as (s' & outs & q' & E' & R' & Hgone & Hwait). exists s', ((m', ok) :: outs), q'.
  cbn [Stitch_all]. rewrite E. cbn [mbind res_bind]. rewrite E'. split; [done|]. split; [done|].
  destruct (RingBuffer.ref_wf _ _ R) as [_ _ Hsz _ _ _]. rewrite <-(RingBuffer.ref_length _ _ R) in Hsz. rewrite Hc in Hwait. destruct ok.
  - split; [intros Hq; apply Hgone; unfold q1; rewrite get_kill; by case_match|]. intros v i Hw. apply (waits_kill _ _ _ _ _ Hne), Hwait in Hw.
    unfold q1, RingBuffer.kill in Hw. rewrite length_fmap in Hw. exact Hw.
  - split; [intros Hq; by apply Hgone, gone_store|]. intros v i Hw.
    assert (stored ((m', false) :: outs) = S (stored outs)) as -> by done.
    pose proof (waits_store k ((GetKey m, snapshot m), true) v q i (RingBuffer.capacity (cache s)) Hne Hw Hsz) as Hst. fold q1 in Hst.
    destruct (Nat.ltb_spec (length q) (RingBuffer.capacity (cache s) + i)) as [Hlt|Hge].
    + destruct Hst as (i' & Hw' & Hlen). apply Hwait in Hw'. unfold q1 in Hw'.
      match goal with |- if ?b then _ else _ => match type of Hw' with if ?b' then _ else _ => assert (b = b') as -> end end; [|exact Hw'].
      fold q1 in Hlen |- *. destruct (Nat.leb_spec (length q + S (stored outs)) (RingBuffer.capacity (cache s) + i)), (Nat.leb_spec (length q1 + stored outs) (RingBuffer.capacity (cache s) + i')); done || lia.
    + rewrite (proj2 (Nat.leb_gt _ _)) by lia. by apply Hgone.
Qed.

(** The message with the other direction's counters added. *)
Definition paired (m1 m2 : JCHF) : JCHF :=
  m2 <| CustomInt := (λ m, <["pair_tcp_flags" := wraps 32 (TcpFlags m1)]>
                           (<["pair_tcp_rx" := wraps 32 (TcpRetransmit m1)]> m)) <$> CustomInt m2 |>
     <| CustomBigInt := (λ m, <["pair_in_bytes" := wraps 64 (InBytes m1)]>
                              (<["pair_in_pkts" := wraps 64 (InPkts m1)]>
                              (<["pair_timestamp" := Timestamp m1]> m))) <$> CustomBigInt m2 |>.

Lemma set_pair_paired m1 m2 : is_Some (CustomInt m2) → is_Some (CustomBigInt m2) →
  set_pair (snapshot m1) m2 = Ok (paired m1 m2).
Proof.
  intros [ci Hi] [cb Hb]. unfold set_pair, paired. rewrite Hi, Hb. cbn [map_set mbind res_bind fmap option_fmap option_map].
  unfold snapshot. cbn [sn_TcpFlags sn_InBytes sn_InPkts sn_TcpRetransmit sn_Timestamp].
  rewrite (insert_insert_ne ci "pair_tcp_rx") by done.
  rewrite (insert_insert_ne _ "pair_timestamp" "pair_in_pkts"), (insert_insert_ne _ "pair_timestamp" "pair_in_bytes"),
    (insert_insert_ne _ "pair_in_pkts" "pair_in_bytes") by done. reflexivity.
Qed.

Lemma oldest_exists k (ks : list string) : k ∈ ks → ∃ i, oldest k ks i.
Proof.
  intros Hin. destruct (list_find_elem_of (λ x, x = k) ks k Hin eq_refl) as [[i x] (Hi & -> & Hl)%list_find_Some]. exists i. split; [done|].
  intros j Hj E. by destruct (Hl j k E Hj).
Qed.

(** C12: Whatever flows a stitcher has seen, of flows that have their maps the second direction of a conversation whose
    first was stored is matched exactly when the flows of other conversations that were
    stored in between have left the oldest slot of the conversation in the buffer,
    be it that of its first direction or a stale one of an earlier pair; when there is
    no earlier slot, that is when they are fewer than the buffer holds. The second
    direction then carries the counters of the first and a third flow of the
    conversation starts afresh; otherwise it is left as it is. *)
Theorem stitch_window c s0 past s m1 s1 m1' others m2 :
  NewStitcher true c = Ok (Some s0) → (∃ outs, Stitch_all past s0 = Ok (s, outs)) →
  Stitch m1 s = Ok (s1, m1', false) → Forall mapped others → Forall (λ m, GetKey m ≠ GetKey m1) others →
  GetKey m2 = GetKey m1 → mapped m2 →
  ∃ ks i s2 outs s3 m2', RingBuffer.Keys (cache s1) = Ok ks ∧ oldest (GetKey m1) ks i ∧ Stitch_all others s1 = Ok (s2, outs) ∧
    let hit := (length ks + stored outs <=? RingBuffer.capacity (cache s1) + i)%nat in
    Stitch m2 s2 = Ok (s3, m2', hit) ∧
    (S i = length ks → hit = (stored outs <? RingBuffer.capacity (cache s1))%nat) ∧
    if hit then m2' = paired m1 m2 ∧ ∀ m3, GetKey m3 = GetKey m1 → ∃ s4, Stitch m3 s3 = Ok (s4, m3, false)
    else m2' = m2.
Proof.
  intros E0 [pouts Ep] E1 Hm Hk Hk2 [Hi Hb].
  assert (refines (cache s0) []) as R0.
  { unfold NewStitcher in E0. destruct (RingBuffer.New stitchSnapshot_zero c) as [r| | |] eqn:Er; try done. injection E0 as <-. by apply (RingBuffer.New_refines stitchSnapshot_zero c). }
  destruct (Stitch_all_refines _ _ _ _ _ R0 Ep) as [q R]. destruct (Stitch_refines _ _ _ _ _ _ R E1) as (q1 & R1 & H1).
  destruct (H1 eq_refl) as (_ & Hq & Hq1). clear H1.
  assert (GetKey m1 ∈ q1.*1.*1) as Hin by (rewrite Hq1, !fmap_app; apply elem_of_app; right; left).
  destruct (oldest_exists _ _ Hin) as [i Hold]. assert (waits (GetKey m1) (snapshot m1) q1 i) as Hw.
  { split; [|done]. rewrite Hq1, get_snoc. assert (get (GetKey m1) (RingBuffer.evict (RingBuffer.capacity (cache s)) q) = (stitchSnapshot_zero, false)) as ->.
    { unfold RingBuffer.evict. destruct (_ =? _)%nat; [|done]. destruct q as [|e q]; [done|]. rewrite get_kill. case_match; [done|].
      rewrite get_cons in Hq. by destruct (RingBuffer.is_live _ e). }
    unfold RingBuffer.is_live. cbn [fst snd]. by rewrite String.eqb_refl. }
  destruct (Stitch_all_waits (GetKey m1) others s1 q1 R1 Hm Hk) as (s2 & outs & q2 & E2 & R2 & _ & Hwait). specialize (Hwait _ _ Hw).
  destruct (RingBuffer.Entries_refines stitchSnapshot_zero _ _ R1) as [_ Hkeys].
  exists q1.*1.*1, i, s2, outs. rewrite !length_fmap.
  assert (S i = length q1 → (length q1 + stored outs <=? RingBuffer.capacity (cache s1) + i)%nat = (stored outs <? RingBuffer.capacity (cache s1))%nat) as Hlast.
  { intros HS. destruct (Nat.ltb_spec (stored outs) (RingBuffer.capacity (cache s1))); [apply Nat.leb_le|apply Nat.leb_gt]; lia. }
  destruct (_ <=? _)%nat; cbv zeta.
  - destruct Hwait as [i' [Hg _]], Hi as [ci Hi], Hb as [cb Hb]. rewrite <-Hk2 in Hg.
    destruct (Stitch_matched m2 s2 q2 _ ci cb R2 Hg Hi Hb) as (s3 & m2' & E3 & Ep3 & R3 & _). rewrite set_pair_paired in Ep3 by eauto. injection Ep3 as <-.
    exists s3, (paired m1 m2). split_and!; [done..|]. intros m3 Hk3.
    destruct (Stitch_unmatched m3 s3 _ R3) as (s4 & E4 & _); [|by exists s4].
    destruct (RingBuffer.index (cache s3) !! GetKey m3) as [sl|] eqn:El; [|done]. exfalso.
    apply (RingBuffer.ref_index _ _ R3) in El as (i3 & v3 & [Hne _]%RingBuffer.kill_live & _). congruence.
  - destruct (Stitch_unmatched m2 s2 q2 R2) as (s3 & E3 & _); [|by exists s3, m2; split_and!].
    pose proof (RingBuffer.Get_refines stitchSnapshot_zero (GetKey m1) _ _ R2) as Hg. rewrite Hwait in Hg. unfold RingBuffer.Get in Hg. rewrite Hk2.
    destruct (RingBuffer.index (cache s2) !! GetKey m1) as [sl|]; [|done]. by destruct (slice_get _ sl).
Qed.

(** ** A conversation *)

Definition endpoints (src dst : string) (port bytes : Z) : JCHF :=
  NewJCHF <| CustomStr := Some (<[ "src_endpoint" := src ]> {[ "dst_endpoint" := dst ]}) |>
    <| CustomInt := Some ∅ |> <| CustomBigInt := Some ∅ |> <| L4SrcPort := port |> <| InBytes := bytes |>.
Definition request : JCHF := endpoints "10.0.0.1:40000" "10.0.0.2:443" 40000 700.
Definition response : JCHF := endpoints "10.0.0.2:443" "10.0.0.1:40000" 443 90000.
Definition other : JCHF := endpoints "10.0.0.9:40001" "10.0.0.2:443" 40001 40.

Definition no_stitcher : Stitcher := mkStitcher (RingBuffer.mkRingBuffer [] ∅ 0 0 0 0) 0 0.
Definition ex_new : Stitcher := match NewStitcher true 2 with Ok (Some s) => s | _ => no_stitcher end.
Definition ex_one : Stitcher := match Stitch request ex_new with Ok (s, _, _) => s | _ => no_stitcher end.

(** After the request and another flow, the response. *)
Lemma stitch_window_witness : NewStitcher true 2 = Ok (Some ex_new) ∧ Stitch request ex_new = Ok (ex_one, request, false) ∧
  ∃ s2 outs s3 m2', Stitch_all [other] ex_one = Ok (s2, outs) ∧ Stitch response s2 = Ok (s3, m2', (stored outs <? 2)%nat).
Proof.
  split; [reflexivity|]. split; [vm_compute; reflexivity|].
  destruct (stitch_window 2 ex_new [] ex_new request ex_one request [other] response) as (ks & i & s2 & outs & s3 & m2' & Hk & Hi & E2 & E3 & Hlast & _);
    [reflexivity|by exists []|vm_compute; reflexivity|repeat constructor; by eexists|repeat constructor; by vm_compute|by vm_compute|split; by eexists|].
  exists s2, outs, s3, m2'. split; [exact E2|]. vm_compute in Hk. injection Hk as <-. rewrite Hlast in E3; [exact E3|].
  destruct i as [|i]; [reflexivity|]. destruct Hi as [Hi _]. discriminate Hi.
Defined.

(** A pair leaves a stale slot: with two slots the next request of the conversation is
    lost to one other flow. *)
Example stale_slot_loses : (λ r, match r with Ok (_, outs) => snd <$> outs | _ => [] end)
  (s0 ← NewStitcher true 2; match s0 with Some s => Stitch_all [request; response; request; other; response] s | None => Panic "" end)
  = [false; true; false; false; false].
Proof. vm_compute. reflexivity. Qed.
