(* ===== verification/Filter.v ===== *)
(** Package [filter] (src/pkg/filter): flag text to filters, and filters over
    rendered flows.

    A method stored in a filter's [cf] field is named by a tag.  Indexing
    [dimension[1]] panics when the dimension has no dot.  Text is ASCII. *)
From S2P Require Import Prelude GoStrings GoNet Jchf.
Local Open Scope Z_scope.

(** ** Definitions (filter.go) *)

Definition Equal : string := "==".
Definition NotEqual : string := "!=".
Definition LessThan : string := "<".
Definition GreaterThan : string := ">".
Definition Contains_ : string := "%".
Definition Has : string := "=~".
Definition NotHas : string := "!~".

Definition String_ : string := "string".
Definition Int : string := "int".
Definition Addr : string := "addr".

Definition OrToken : string := " or ".
Definition AndToken : string := " and ".
Definition AndUpperCase : string := " AND ".
Definition OrUpperCase : string := " OR ".

Record FilterDef := mkFilterDef {
  Dimension : string; Operator : string; Value : string; FType : string; Name : string }.
Definition FilterDefWrapper := list FilterDef.
Definition FilterDefs := list FilterDefWrapper.

(** [FilterFlag.Set]. *)
Definition FilterFlag_Set (val : string) (ff : list string) : list string := ff ++ [TrimSpace val].
Definition FilterFlag_String (ff : list string) : string := Join ff AndToken.

(** The type of a filter of three parts, guessed from its value. *)
Definition guess_type (value : string) : string :=
  match Atoi value with
  | Some _ => Int
  | None => match ParseCIDR value with Some _ => Addr | None => String_ end
  end.

(** One round of the loop of [FilterDefs.Set]. *)
Definition parse_def (orSet : string) : res FilterDef :=
  let pts := Split orSet "," in
  if (length pts <? 3)%nat then Err (Errorf "Filter flag is defined by <type> dimension operator value" [])
  else
    let pts := if (length pts =? 3)%nat then guess_type (nth 2 pts "") :: pts else pts in
    let name := if (length pts =? 5)%nat then nth 4 pts "" else "" in
    let ptn := TrimSpace <$> pts in
    Ok {| FType := nth 0 ptn ""; Dimension := nth 1 ptn ""; Operator := nth 2 ptn "";
          Value := nth 3 ptn ""; Name := name |}.

Fixpoint parse_defs (orSets : list string) : res FilterDefWrapper :=
  match orSets with
  | [] => Ok []
  | orSet :: orSets => fd ← parse_def orSet; fds ← parse_defs orSets; Ok (fd :: fds)
  end.

(** [FilterDefs.Set]: an error leaves the definitions as they were. *)
Definition FilterDefs_Set (value : string) (i : FilterDefs) : res FilterDefs :=
  inner ← parse_defs (Split (Replace value OrUpperCase OrToken 1) OrToken);
  Ok (i ++ [inner]).

(** ** Filters (string.go, int.go, addr.go) *)

Inductive string_cf := stringEquals | stringNotEquals | stringContains | stringHas | stringNotHas.
Inductive int_cf := intEquals | intNotEquals | intLessThan | intGreaterThan.
Inductive addr_cf := addrEquals | addrNotEquals | addrContains.

Inductive Filter :=
| StringFilter (cf : string_cf) (dimension : list string) (value : string) (name : string)
| IntFilter (cf : int_cf) (dimension : list string) (value : Z) (name : string)
| AddrFilter (cf : addr_cf) (dimension : list string) (value : IPNet) (name : string).

Definition newStringFilter (fd : FilterDef) : res Filter :=
  let mk cf := Ok (StringFilter cf (Split (Dimension fd) ".") (Value fd) (Name fd)) in
  if String.eqb (Operator fd) Equal then mk stringEquals
  else if String.eqb (Operator fd) NotEqual then mk stringNotEquals
  else if String.eqb (Operator fd) Contains_ then mk stringContains
  else if String.eqb (Operator fd) Has then mk stringHas
  else if String.eqb (Operator fd) NotHas then mk stringNotHas
  else Err (Errorf "Invalid operator for string: %s" [FStr (Operator fd)]).

Definition newIntFilter (fd : FilterDef) : res Filter :=
  match Atoi (Value fd) with
  | None => Err (Errorf "Invalid int value: %s" [FStr (Value fd)])
  | Some val =>
      let mk cf := Ok (IntFilter cf (Split (Dimension fd) ".") val (Name fd)) in
      if String.eqb (Operator fd) Equal then mk intEquals
      else if String.eqb (Operator fd) NotEqual then mk intNotEquals
      else if String.eqb (Operator fd) LessThan then mk intLessThan
      else if String.eqb (Operator fd) GreaterThan then mk intGreaterThan
      else Err (Errorf "Invalid operator for int: %s" [FStr (Operator fd)])
  end.

Definition newAddrFilter (fd : FilterDef) : res Filter :=
  match ParseCIDR (Value fd) with
  | None => Err (Errorf "invalid CIDR address: %s" [FStr (Value fd)])
  | Some (_, val) =>
      let mk cf := Ok (AddrFilter cf (Split (Dimension fd) ".") val (Name fd)) in
      if String.eqb (Operator fd) Equal then mk addrEquals
      else if String.eqb (Operator fd) NotEqual then mk addrNotEquals
      else if String.eqb (Operator fd) Contains_ then mk addrContains
      else Err (Errorf "Invalid operator for addr: %s" [FStr (Operator fd)])
  end.

(** [f.dimension[i]]. *)
Definition dim (d : list string) (i : nat) : res string :=
  match d !! i with Some s => Ok s | None => Panic "index out of range" end.

(** The lookup of a string dimension shared by the methods of strings and
    addresses; [test] is what the method returns on the string it finds. *)
Definition on_string (d : list string) (test : string → bool) (chf : gmap string avro) : res bool :=
  d0 ← dim d 0;
  match chf !! d0 with
  | Some (AString s) => Ok (test s)
  | Some (AMapStr m) => d1 ← dim d 1; Ok (test (map_get "" m d1))
  | Some _ => Ok false
  | None =>
      match chf !! "custom_str" with
      | Some (AMapStr m) => match m ≫= (.!! d0) with Some s => Ok (test s) | None => Ok false end
      | _ => Ok false
      end
  end.

Definition has_string (d : list string) (chf : gmap string avro) : res bool :=
  d0 ← dim d 0;
  match chf !! d0 with
  | Some (AString _) => Ok true
  | Some (AMapStr m) => d1 ← dim d 1; Ok (bool_decide (is_Some (m ≫= (.!! d1))))
  | Some _ => Ok false
  | None =>
      match chf !! "custom_str" with
      | Some (AMapStr m) => Ok (bool_decide (is_Some (m ≫= (.!! d0))))
      | _ => Ok false
      end
  end.

(** The integer methods differ in the comparison; an [int32] map compares with the
    value cut to 32 bits. *)
Definition on_int (d : list string) (cmp : Z → Z → bool) (value : Z) (chf : gmap string avro) : res bool :=
  d0 ← dim d 0;
  match chf !! d0 with
  | Some (AInt64 z) => Ok (cmp z value)
  | Some (AMapInt32 m) => d1 ← dim d 1; Ok (cmp (map_get 0 m d1) (wraps 32 value))
  | Some (AMapInt64 m) => d1 ← dim d 1; Ok (cmp (map_get 0 m d1) value)
  | Some _ => Ok false
  | None =>
      match chf !! "custom_bigint" with
      | Some (AMapInt64 m) => match m ≫= (.!! d0) with Some z => Ok (cmp z value) | None => Ok false end
      | _ => Ok false
      end
  end.

Definition FilterMap (f : Filter) (chf : gmap string avro) : res bool :=
  match f with
  | StringFilter cf d value _ =>
      match cf with
      | stringEquals => on_string d (λ s, String.eqb s value) chf
      | stringNotEquals => negb <$> on_string d (λ s, String.eqb s value) chf
      | stringContains => on_string d (λ s, Contains s value) chf
      | stringHas => has_string d chf
      | stringNotHas => negb <$> has_string d chf
      end
  | IntFilter cf d value _ =>
      match cf with
      | intEquals => on_int d Z.eqb value chf
      | intNotEquals => negb <$> on_int d Z.eqb value chf
      | intLessThan => on_int d Z.ltb value chf
      | intGreaterThan => on_int d Z.gtb value chf
      end
  | AddrFilter cf d value _ =>
      match cf with
      | addrEquals | addrContains => on_string d (λ s, IPNet_Contains value (ParseIP s)) chf
      | addrNotEquals => negb <$> on_string d (λ s, IPNet_Contains value (ParseIP s)) chf
      end
  end.

(** [f.Filter(in)]: the rendering is cached in the flow. *)
Definition Filter_JCHF (f : Filter) (j : JCHF) : res (JCHF * bool) :=
  '(j, mapr) ← ToMap j; b ← FilterMap f mapr; Ok (j, b).

Definition Filter_GetName (f : Filter) : string :=
  match f with StringFilter _ _ _ n | IntFilter _ _ _ n | AddrFilter _ _ _ n => n end.

(** ** Wrappers: any filter of a wrapper lets the flow through *)

Definition FilterWrapper := list Filter.

Fixpoint Wrapper_FilterMap (fs : FilterWrapper) (chf : gmap string avro) : res bool :=
  match fs with
  | [] => Ok false
  | f :: fs => b ← FilterMap f chf; if b : bool then Ok true else Wrapper_FilterMap fs chf
  end.

Fixpoint Wrapper_Filter (fs : FilterWrapper) (j : JCHF) : res (JCHF * bool) :=
  match fs with
  | [] => Ok (j, false)
  | f :: fs => '(j, b) ← Filter_JCHF f j; if b : bool then Ok (j, true) else Wrapper_Filter fs j
  end.

Definition Wrapper_GetName (fs : FilterWrapper) : string :=
  match fs with f :: _ => Filter_GetName f | [] => "" end.

(** ** [GetFilters] *)

Fixpoint set_all (andSets : list string) (ff : FilterDefs) : res FilterDefs :=
  match andSets with
  | [] => Ok ff
  | andSet :: andSets => ff ← FilterDefs_Set andSet ff; set_all andSets ff
  end.

Fixpoint GetFilterDefs (filters : list string) (ff : FilterDefs) : res FilterDefs :=
  match filters with
  | [] => Ok ff
  | f :: filters => ff ← set_all (Split (Replace f AndUpperCase AndToken 1) AndToken) ff; GetFilterDefs filters ff
  end.

Definition newFilter (fd : FilterDef) : res Filter :=
  if String.eqb (FType fd) String_ then newStringFilter fd
  else if String.eqb (FType fd) Int then newIntFilter fd
  else if String.eqb (FType fd) Addr then newAddrFilter fd
  else Err (Errorf "Invalid type: %s. Valid Types: %s|%s|%s" [FStr (FType fd); FStr String_; FStr Int; FStr Addr]).

Definition GetFilters (filters : list string) : res (list FilterWrapper) :=
  ff ← GetFilterDefs filters [];
  res_mapM (res_mapM newFilter) ff.

(** ** Flag text *)

(** The parts of a definition a flag can carry: no comma, no blank. *)
Definition word (s : string) : Prop :=
  Contains s " " = false ∧ Contains s "," = false ∧ TrimSpace s = s.
Definition def_ok (fd : FilterDef) : Prop :=
  FType fd ∈ [String_; Int; Addr] ∧ word (Dimension fd) ∧ word (Operator fd) ∧ word (Value fd) ∧ word (Name fd).
Definition def_parts (fd : FilterDef) : list string :=
  [FType fd; Dimension fd; Operator fd; Value fd] ++ (if String.eqb (Name fd) "" then [] else [Name fd]).
Definition def_text (fd : FilterDef) : string := Join (def_parts fd) ",".
Definition or_text (fds : FilterDefWrapper) : string := Join (def_text <$> fds) OrToken.
Definition flag_text (cnf : FilterDefs) : string := Join (or_text <$> cnf) AndToken.

Lemma type_word t : t ∈ [String_; Int; Addr] → word t.
Proof. intros H. repeat (apply elem_of_cons in H as [->|H]); [done..|by apply elem_of_nil in H]. Qed.

Lemma def_parts_words fd : def_ok fd → Forall word (def_parts fd).
Proof.
  intros (T & D & O & V & N). unfold def_parts. pose proof (type_word _ T).
  apply Forall_app. split; [by repeat (apply Forall_cons; split); try done; apply Forall_nil|].
  destruct (String.eqb _ _); [by apply Forall_nil|]. apply Forall_cons. split; [done|by apply Forall_nil].
Qed.

Lemma Contains_Join c l sep : Contains sep (String c "") = false →
  Forall (λ s, Contains s (String c "") = false) l → Contains (Join l sep) (String c "") = false.
Proof.
  intros Hs Hl. induction Hl as [|a l Ha Hl IH]; [done|]. destruct l as [|b l]; [done|].
  rewrite Join_cons, !Contains_char_append, Ha, Hs. exact IH.
Qed.

Lemma def_text_no_space fd : def_ok fd → Contains (def_text fd) " " = false.
Proof.
  intros H. unfold def_text. apply Contains_Join; [done|].
  eapply Forall_impl; [by apply def_parts_words|]. by intros s (? & _ & _).
Qed.

Lemma parse_def_text fd : def_ok fd → parse_def (def_text fd) = Ok fd.
Proof.
  intros H. pose proof (def_parts_words fd H) as Hw. unfold parse_def, def_text.
  rewrite Split_Join_char.
  2: { unfold def_parts. by destruct fd. }
  2: { eapply Forall_impl; [exact Hw|]. by intros s (_ & ? & _). }
  assert (TrimSpace <$> def_parts fd = def_parts fd) as Htrim.
  { rewrite <-(list_fmap_id (def_parts fd)) at 2. apply list_fmap_ext. intros i s Hs.
    rewrite Forall_lookup in Hw. by apply (Hw i s Hs). }
  destruct H as (T & D & O & V & N). destruct fd as [d o v t n]. unfold def_parts in *. cbn [FType Dimension Operator Value Name] in *.
  destruct (String.eqb n "") eqn:En; cbn [app length Nat.ltb Nat.leb Nat.eqb] in *; rewrite Htrim; cbn [nth].
  - apply String.eqb_eq in En as ->. done.
  - done.
Qed.

Lemma parse_defs_text fds : Forall def_ok fds → parse_defs (def_text <$> fds) = Ok fds.
Proof.
  induction 1 as [|fd fds H _ IH]; [done|]. rewrite fmap_cons. cbn [parse_defs]. by rewrite parse_def_text, IH.
Qed.

(** A text that starts with a type does not start with what follows the blank of
    another token. *)
Definition starts_def (s : string) : Prop := ∃ t r, t ∈ [String_; Int; Addr] ∧ s = String.append t (String "," r).

Lemma def_text_starts fd : def_ok fd → ∃ r, def_text fd = String.append (FType fd) (String "," r).
Proof. intros _. unfold def_text, def_parts. cbn [app]. rewrite Join_cons. eexists. reflexivity. Qed.

Lemma starts_append s r : starts_def s → starts_def (String.append s r).
Proof. intros (t & r' & Ht & ->). exists t, (String.append r' r). split; [done|]. by rewrite append_assoc, append_cons. Qed.

Lemma or_text_starts fds : fds ≠ [] → Forall def_ok fds → starts_def (or_text fds).
Proof.
  intros Hne H. unfold or_text. destruct H as [|fd fds H _]; [done|]. rewrite fmap_cons.
  destruct (def_text_starts fd H) as [r E]. assert (starts_def (def_text fd)) as Hs by (exists (FType fd), r; split; [apply H|done]).
  destruct fds as [|fd2 fds]; [done|]. rewrite fmap_cons, Join_cons. by apply starts_append.
Qed.

Lemma starts_not s T : starts_def s → T ∈ ["AND "; "and "; "OR "; "or "] → HasPrefix s T = false.
Proof.
  intros (t & r & Ht & ->) HT.
  repeat (apply elem_of_cons in Ht as [->|Ht]); [..|by apply elem_of_nil in Ht];
    repeat (apply elem_of_cons in HT as [->|HT]); try done; by apply elem_of_nil in HT.
Qed.

(** Tokens do not match inside or-sets or across their separators. *)
Lemma Cut_skip_or T s : starts_def s → T ∈ ["AND "; "and "; "OR "] → Cut s (String " " T) = None →
  Cut (String.append OrToken s) (String " " T) = None.
Proof.
  intros Hs HT Hn.
  assert (HasPrefix s T = false) as Hp.
  { apply starts_not; [done|]. repeat (apply elem_of_cons in HT as [->|HT]); first [by apply elem_of_nil in HT | by repeat (left || right)]. }
  change (String.append OrToken s) with (String " " (String "o" (String "r" (String " " s)))).
  cbn [Cut HasPrefix Ascii.eqb Bool.eqb andb]. rewrite Hp, Hn.
  repeat (apply elem_of_cons in HT as [->|HT]); [reflexivity..|by apply elem_of_nil in HT].
Qed.

Lemma Cut_skip_and T s : starts_def s → T ∈ ["AND "; "OR "] → Cut s (String " " T) = None →
  Cut (String.append AndToken s) (String " " T) = None.
Proof.
  intros Hs HT Hn.
  assert (HasPrefix s T = false) as Hp.
  { apply starts_not; [done|]. repeat (apply elem_of_cons in HT as [->|HT]); first [by apply elem_of_nil in HT | by repeat (left || right)]. }
  change (String.append AndToken s) with (String " " (String "a" (String "n" (String "d" (String " " s))))).
  cbn [Cut HasPrefix Ascii.eqb Bool.eqb andb]. rewrite Hp, Hn.
  repeat (apply elem_of_cons in HT as [->|HT]); [reflexivity..|by apply elem_of_nil in HT].
Qed.

Lemma or_text_Cut T fds : fds ≠ [] → Forall def_ok fds → T ∈ ["AND "; "and "; "OR "] →
  Cut (or_text fds) (String " " T) = None.
Proof.
  intros Hne H HT. unfold or_text. induction H as [|fd fds Hfd H IH]; [done|]. rewrite fmap_cons.
  pose proof (def_text_no_space fd Hfd) as Hsp. destruct fds as [|fd2 fds]; [by apply Cut_word_None|].
  rewrite fmap_cons, Join_cons. rewrite Cut_word by done. rewrite <-fmap_cons. rewrite Cut_skip_or; [done| |done|by apply IH].
  by apply or_text_starts.
Qed.

Lemma Split_or_text fds : fds ≠ [] → Forall def_ok fds → Split (or_text fds) OrToken = def_text <$> fds.
Proof.
  intros Hne H. unfold or_text. rewrite Forall_forall in H. apply Split_Join; [done|by destruct fds|..].
  - intros a rest (fd & -> & Hfd)%list_elem_of_fmap. by apply Cut_word_sep, def_text_no_space, H.
  - intros a (fd & -> & Hfd)%list_elem_of_fmap. by apply Cut_word_None, def_text_no_space, H.
Qed.

Lemma FilterDefs_Set_text fds ff : fds ≠ [] → Forall def_ok fds → FilterDefs_Set (or_text fds) ff = Ok (ff ++ [fds]).
Proof.
  intros Hne H. unfold FilterDefs_Set. rewrite Replace_None.
  2: { apply or_text_Cut; [done|done|by repeat (left || right)]. }
  by rewrite Split_or_text, parse_defs_text.
Qed.

Definition cnf_ok (cnf : FilterDefs) : Prop := Forall (λ fds, fds ≠ [] ∧ Forall def_ok fds) cnf.

Lemma set_all_text cnf ff : cnf_ok cnf → set_all (or_text <$> cnf) ff = Ok (ff ++ cnf).
Proof.
  intros H. revert ff. induction H as [|fds cnf [Hne Hfds] H IH]; intros ff; [by rewrite app_nil_r|].
  rewrite fmap_cons. cbn [set_all]. rewrite FilterDefs_Set_text by done. cbn [mbind res_bind].
  by rewrite IH, <-app_assoc.
Qed.

Lemma flag_text_starts cnf : cnf ≠ [] → cnf_ok cnf → starts_def (flag_text cnf).
Proof.
  intros Hne H. unfold flag_text. destruct H as [|fds cnf [Hn Hf] H]; [done|]. rewrite fmap_cons.
  pose proof (or_text_starts fds Hn Hf). destruct cnf as [|fds2 cnf]; [done|]. rewrite fmap_cons, Join_cons. by apply starts_append.
Qed.

(** Inside an or-set followed by more text, a token is found where it is in the rest. *)
Lemma Cut_or_text T fds s : fds ≠ [] → Forall def_ok fds → T ∈ ["AND "; "and "; "OR "] →
  Cut (String.append (or_text fds) s) (String " " T) =
  (λ p, (String.append (or_text fds) p.1, p.2)) <$> Cut s (String " " T).
Proof.
  intros Hne H HT. unfold or_text. induction H as [|fd fds Hfd H IH]; [done|]. rewrite fmap_cons.
  pose proof (def_text_no_space fd Hfd) as Hsp. destruct fds as [|fd2 fds]; [by apply Cut_word|].
  specialize (IH ltac:(done)). pose proof (or_text_starts (fd2 :: fds) ltac:(done) H) as Hst. unfold or_text in Hst.
  rewrite fmap_cons, Join_cons, <-fmap_cons. set (J := Join (def_text <$> fd2 :: fds) OrToken) in *.
  rewrite !append_assoc, Cut_word by done.
  assert (HasPrefix (String.append J s) T = false) as Hp.
  { apply starts_not; [by apply starts_append|].
    repeat (apply elem_of_cons in HT as [->|HT]); first [by apply elem_of_nil in HT | by repeat (left || right)]. }
  change (String.append OrToken (String.append J s))
    with (String " " (String "o" (String "r" (String " " (String.append J s))))).
  assert (Cut (String " " (String "o" (String "r" (String " " (String.append J s))))) (String " " T) =
    (λ p, (String " " (String "o" (String "r" (String " " p.1))), p.2)) <$> Cut (String.append J s) (String " " T)) as ->.
  { cbn [Cut HasPrefix Ascii.eqb Bool.eqb andb]. rewrite Hp.
    destruct (Cut (String.append J s) (String " " T)) as [[p q]|];
      repeat (apply elem_of_cons in HT as [->|HT]); first [reflexivity | by apply elem_of_nil in HT]. }
  rewrite IH. destruct (Cut s (String " " T)) as [[p q]|]; [|done]. cbn [fmap option_fmap option_map fst snd].
  rewrite !append_assoc. done.
Qed.

Lemma flag_text_Cut T cnf : cnf ≠ [] → cnf_ok cnf → T ∈ ["AND "; "OR "] → Cut (flag_text cnf) (String " " T) = None.
Proof.
  intros Hne H HT. assert (T ∈ ["AND "; "and "; "OR "]) as HT'.
  { repeat (apply elem_of_cons in HT as [->|HT]); first [by apply elem_of_nil in HT | by repeat (left || right)]. }
  unfold flag_text. induction H as [|fds cnf [Hn Hf] H IH]; [done|]. rewrite fmap_cons.
  destruct cnf as [|fds2 cnf]; [by apply or_text_Cut|]. rewrite fmap_cons, Join_cons, <-fmap_cons.
  rewrite Cut_or_text by done. rewrite Cut_skip_and; [done|by apply flag_text_starts|done|by apply IH].
Qed.

Lemma Split_flag_text cnf : cnf ≠ [] → cnf_ok cnf → Split (flag_text cnf) AndToken = or_text <$> cnf.
Proof.
  intros Hne H. unfold cnf_ok in H. rewrite Forall_forall in H. unfold flag_text. apply Split_Join; [done|by destruct cnf|..].
  - intros a rest (fds & -> & Hfds)%list_elem_of_fmap. destruct (H _ Hfds) as [Hn Hf].
    change AndToken with (String " " "and ") at 2. rewrite Cut_or_text by (done || by repeat (left || right)).
    change AndToken with (String " " "and "). rewrite Cut_prefix. cbn [fmap option_fmap option_map fst snd]. by rewrite append_nil_r.
  - intros a (fds & -> & Hfds)%list_elem_of_fmap. destruct (H _ Hfds) as [Hn Hf]. apply or_text_Cut; [done|done|by repeat (left || right)].
Qed.

(** A flag written as definitions joined by [or], and these by [and], is read back as
    exactly these definitions: an and-list of or-lists. *)
Theorem flag_parses cnf : cnf ≠ [] → cnf_ok cnf → GetFilterDefs [flag_text cnf] [] = Ok cnf.
Proof.
  intros Hne H. cbn [GetFilterDefs]. rewrite Replace_None.
  - rewrite Split_flag_text, set_all_text by done. done.
  - apply (flag_text_Cut "AND "); [done|done|left].
Qed.

(** ** What filters accept *)

Definition fresh (j : JCHF) : Prop := hasSetAvro j = false ∧ is_Some (avroSet j).

Definition int_cmp (op : string) (z v : Z) : bool :=
  if String.eqb op Equal then z =? v
  else if String.eqb op NotEqual then negb (z =? v)
  else if String.eqb op LessThan then z <? v else v <? z.

Lemma column_no_dot j d v : (d, v) ∈ avro_rows j → Contains d "." = false.
Proof.
  intros H. apply (list_elem_of_fmap_2 fst) in H. assert ((avro_rows j).*1 = (avro_rows JCHF_zero).*1) as E by reflexivity.
  rewrite E in H. assert (Forall (λ d, Contains d "." = false) (avro_rows JCHF_zero).*1) as Hf
    by (apply (bool_decide_unpack _); by vm_compute).
  rewrite Forall_forall in Hf. by apply Hf.
Qed.

Lemma column_filter (f : Filter) j d v : fresh j → (d, v) ∈ avro_rows j →
  ∃ j' m, ToMap j = Ok (j', m) ∧ m !! d = Some v ∧ Filter_JCHF f j = (b ← FilterMap f m; Ok (j', b)).
Proof.
  intros [Hs [m0 Ha]] Hin. destruct (ToMap_lookup j m0 Hs Ha) as (j' & m & E & Hm & _).
  exists j', m. split; [done|]. split; [by apply Hm|]. unfold Filter_JCHF. by rewrite E.
Qed.

(** An integer filter on a numeric column lets a flow through exactly when the
    column's value compares with the filter's as its operator says. *)
Theorem int_filter_compares j d z op v n : fresh j → (d, AInt64 z) ∈ avro_rows j → in_s 64 v →
  op ∈ [Equal; NotEqual; LessThan; GreaterThan] →
  ∃ f j', newFilter {| Dimension := d; Operator := op; Value := Itoa v; FType := Int; Name := n |} = Ok f ∧
    Filter_JCHF f j = Ok (j', int_cmp op z v).
Proof.
  intros Hf Hin Hv Hop. pose proof (column_no_dot _ _ _ Hin) as Hdot.
  unfold newFilter. cbn [FType]. change (String.eqb Int String_) with false. change (String.eqb Int Int) with true. cbn iota.
  unfold newIntFilter. cbn [Value Dimension Operator Name]. rewrite Atoi_Itoa, Split_char_none by done.
  assert (∀ cf, ∃ j', Filter_JCHF (IntFilter cf [d] v n) j =
    Ok (j', match cf with intEquals => z =? v | intNotEquals => negb (z =? v) | intLessThan => z <? v | _ => z >? v end)) as H.
  { intros cf. destruct (column_filter (IntFilter cf [d] v n) j d _ Hf Hin) as (j' & m & _ & Hm & E).
    exists j'. rewrite E. destruct cf; cbn [FilterMap]; unfold on_int, dim; cbn [lookup list_lookup mbind res_bind];
      by rewrite Hm. }
  repeat (apply elem_of_cons in Hop as [->|Hop]); [..|by apply elem_of_nil in Hop].
  - destruct (H intEquals) as [j' E]. eexists _, j'. split; [reflexivity|exact E].
  - destruct (H intNotEquals) as [j' E]. eexists _, j'. split; [reflexivity|exact E].
  - destruct (H intLessThan) as [j' E]. eexists _, j'. split; [reflexivity|exact E].
  - destruct (H intGreaterThan) as [j' E]. eexists _, j'. split; [reflexivity|]. rewrite Z.gtb_ltb in E. exact E.
Qed.

(** An address filter with an IPv4 network lets a flow through exactly when its
    column holds an IPv4 address, mapped or not, that shares the network's prefix. *)
Theorem addr_filter_prefix j d a c ip net v4 n : fresh j → (d, AString a) ∈ avro_rows j →
  ParseCIDR c = Some (ip, net) → length (Net_Mask net) = 4%nat → To4 ip = Some v4 →
  ∃ f j' b ones, newFilter {| Dimension := d; Operator := Equal; Value := c; FType := Addr; Name := n |} = Ok f ∧
    Filter_JCHF f j = Ok (j', b) ∧ Net_Mask net = CIDRMask (Z.to_nat ones) 4 ∧ 0 ≤ ones ≤ 32 ∧
    (b = true ↔ ∃ x4, ParseIP a ≫= To4 = Some x4 ∧ be_decode x4 / 2 ^ (32 - ones) = be_decode v4 / 2 ^ (32 - ones)).
Proof.
  intros Hf Hin Hc Hl H4. pose proof (column_no_dot _ _ _ Hin) as Hdot.
  destruct (Contains_v4 _ _ _ _ Hc Hl H4) as (ones & Ho & Hm & Hspec).
  unfold newFilter. cbn [FType]. change (String.eqb Addr String_) with false. change (String.eqb Addr Int) with false.
  change (String.eqb Addr Addr) with true. cbn iota.
  unfold newAddrFilter. cbn [Value Dimension Operator Name]. rewrite Hc, Split_char_none by done.
  destruct (column_filter (AddrFilter addrEquals [d] net n) j d _ Hf Hin) as (j' & m & _ & Hm' & E).
  exists (AddrFilter addrEquals [d] net n), j', (IPNet_Contains net (ParseIP a)), ones. split; [reflexivity|].
  split; [|split; [done|]; split; [done|apply Hspec]].
  rewrite E. cbn [FilterMap]. unfold on_string, dim. cbn [lookup list_lookup mbind res_bind]. by rewrite Hm'.
Qed.

(** Values a filter looks inside of with the second part of its dimension. *)
Definition needs_key (f : Filter) (v : avro) : bool :=
  match f, v with
  | IntFilter _ _ _ _, (AMapInt32 _ | AMapInt64 _) => true
  | (StringFilter _ _ _ _ | AddrFilter _ _ _ _), AMapStr _ => true
  | _, _ => false
  end.
Definition dims (f : Filter) : list string :=
  match f with StringFilter _ d _ _ | IntFilter _ d _ _ | AddrFilter _ d _ _ => d end.

Lemma negb_total (r : res bool) : (∃ b, negb <$> r = Ok b) ↔ ∃ b, r = Ok b.
Proof. destruct r; simpl; split; intros [b E]; try done; by eexists. Qed.

Lemma on_string_total d0 ds test chf : (∃ b, on_string (d0 :: ds) test chf = Ok b) ↔
  ¬ (ds = [] ∧ ∃ m, chf !! d0 = Some (AMapStr m)).
Proof.
  unfold on_string, dim. cbn [lookup list_lookup mbind res_bind].
  destruct (chf !! d0) as [[]|] eqn:E; try (split; [intros _ (_ & m' & [= ])|intros _; by eexists]).
  - destruct ds; cbn; split; [by intros [b [=]]|intros H; destruct H; by eauto|by intros _ [[=] _]|by eexists].
  - split; [by intros _ (_ & m' & [=])|intros _]. destruct (chf !! "custom_str") as [[]|]; try by eexists.
    destruct (_ ≫= _); by eexists.
Qed.

Lemma has_string_total d0 ds chf : (∃ b, has_string (d0 :: ds) chf = Ok b) ↔
  ¬ (ds = [] ∧ ∃ m, chf !! d0 = Some (AMapStr m)).
Proof.
  unfold has_string, dim. cbn [lookup list_lookup mbind res_bind].
  destruct (chf !! d0) as [[]|] eqn:E; try (split; [intros _ (_ & m' & [= ])|intros _; by eexists]).
  - destruct ds; cbn; split; [by intros [b [=]]|intros H; destruct H; by eauto|by intros _ [[=] _]|by eexists].
  - split; [by intros _ (_ & m' & [=])|intros _]. destruct (chf !! "custom_str") as [[]|]; by eexists.
Qed.

Lemma on_int_total d0 ds cmp v chf : (∃ b, on_int (d0 :: ds) cmp v chf = Ok b) ↔
  ¬ (ds = [] ∧ ∃ m, chf !! d0 = Some (AMapInt32 m) ∨ chf !! d0 = Some (AMapInt64 m)).
Proof.
  unfold on_int, dim. cbn [lookup list_lookup mbind res_bind].
  destruct (chf !! d0) as [[]|] eqn:E; try (split; [intros _ (_ & m' & [[=]|[=]])|intros _; by eexists]).
  - destruct ds; cbn; split; [by intros [b [=]]|intros H; destruct H; by eauto|by intros _ [[=] _]|by eexists].
  - destruct ds; cbn; split; [by intros [b [=]]|intros H; destruct H; by eauto|by intros _ [[=] _]|by eexists].
  - split; [by intros _ (_ & m' & [[=]|[=]])|intros _]. destruct (chf !! "custom_bigint") as [[]|]; try by eexists.
    destruct (_ ≫= _); by eexists.
Qed.

(** A filter gives an answer on every flow but one kind, where it panics: its
    dimension has no dot and names a column that holds a map. *)
Theorem FilterMap_total f chf d0 ds : dims f = d0 :: ds →
  (∃ b, FilterMap f chf = Ok b) ↔ ¬ (ds = [] ∧ ∃ v, chf !! d0 = Some v ∧ needs_key f v = true).
Proof.
  intros Hd.
  assert (∀ P : Prop, P ↔ ¬ (ds = [] ∧ ∃ m, chf !! d0 = Some (AMapStr m)) →
    P ↔ ¬ (ds = [] ∧ ∃ v, chf !! d0 = Some v ∧ match v with AMapStr _ => true | _ => false end = true)) as Hstr.
  { intros P ->. split; intros H [He Hv]; apply H; (split; [done|]).
    - destruct Hv as ([] & Hv & E); try done. by eexists.
    - destruct Hv as [m Hm]. by eexists. }
  destruct f as [cf d v n|cf d v n|cf d v n]; cbn [dims] in Hd; subst d.
  - apply Hstr. destruct cf; cbn [FilterMap]; rewrite ?negb_total; first [apply on_string_total|apply has_string_total].
  - transitivity (¬ (ds = [] ∧ ∃ m, chf !! d0 = Some (AMapInt32 m) ∨ chf !! d0 = Some (AMapInt64 m))).
    + destruct cf; cbn [FilterMap]; rewrite ?negb_total; apply on_int_total.
    + split; intros H [He Hv]; apply H; (split; [done|]).
      * destruct Hv as ([] & Hv & E); try done; eexists; eauto.
      * destruct Hv as [m [Hm|Hm]]; by eexists.
  - apply Hstr. destruct cf; cbn [FilterMap]; rewrite ?negb_total; apply on_string_total.
Qed.

(** A filter on a custom integer compares modulo 2^32, and finds the integer only
    under its [custom_int] prefix: without it no value is equal. *)
Theorem custom_int_filter j k m z v n : hasSetAvro j = false → avroSet j = Some ∅ →
  CustomInt j = Some m → m !! k = Some z → k ∉ (avro_rows j).*1 → map_range (CustomBigInt j) !! k = None →
  ∃ j', Filter_JCHF (IntFilter intEquals ["custom_int"; k] v n) j = Ok (j', z =? wraps 32 v) ∧
    Filter_JCHF (IntFilter intEquals [k] v n) j = Ok (j', false).
Proof.
  intros Hs Ha Hi Hz Hk Hb. destruct (ToMap_lookup j ∅ Hs Ha) as (j' & mm & E & Hm & Ho).
  exists j'. unfold Filter_JCHF. rewrite E. cbn [mbind res_bind FilterMap]. unfold on_int, dim.
  cbn [lookup list_lookup mbind res_bind]. split.
  - rewrite (Hm "custom_int" (AMapInt32 (CustomInt j))) by (unfold avro_rows; solve_row).
    rewrite Hi. unfold map_get. cbn [mbind option_bind]. by rewrite Hz.
  - rewrite (Ho k Hk), lookup_empty. rewrite (Hm "custom_bigint" (AMapInt64 (CustomBigInt j))) by (unfold avro_rows; solve_row).
    destruct (CustomBigInt j) as [mb|]; [|done]. cbn [map_range default from_option id] in Hb.
    cbn [mbind option_bind]. by rewrite Hb.
Qed.

(** ** The theorems at concrete flags and flows *)

Definition def_src : FilterDef := mkFilterDef "src_addr" "%" "10.2.2.0/24" "addr" "".
Definition def_port : FilterDef := mkFilterDef "l4_dst_port" "<" "1024" "int" "".
Definition def_named : FilterDef := mkFilterDef "custom_str.app" "==" "dns" "string" "by_app".

Local Ltac def_ok := repeat split; first [by repeat (left || right) | reflexivity].
Lemma flag_parses_witness :
  GetFilterDefs ["addr,src_addr,%,10.2.2.0/24 and int,l4_dst_port,<,1024 or string,custom_str.app,==,dns,by_app"] [] =
  Ok [[def_src]; [def_port; def_named]].
Proof.
  apply (flag_parses [[def_src]; [def_port; def_named]]); [discriminate|].
  repeat (apply Forall_cons; split; [split; [discriminate|repeat (apply Forall_cons; split; [def_ok|]); apply Forall_nil; done]|]).
  by apply Forall_nil.
Defined.

Definition flow_web : JCHF :=
  NewJCHF <| SrcAddr := "10.2.2.9" |> <| L4DstPort := 443 |> <| CustomInt := Some {[ "vrf" := 5 ]} |>.
Lemma flow_web_fresh : fresh flow_web.
Proof. split; [reflexivity|by eexists]. Qed.

Lemma int_filter_compares_witness : ∃ f j',
  newFilter {| Dimension := "l4_dst_port"; Operator := LessThan; Value := Itoa 1024; FType := Int; Name := "" |} = Ok f ∧
  Filter_JCHF f flow_web = Ok (j', true).
Proof.
  apply (int_filter_compares flow_web "l4_dst_port" 443 LessThan 1024 ""); [apply flow_web_fresh| |done|by repeat (left || right)].
  unfold avro_rows. solve_row.
Defined.

Definition net_10_2_2 : IPNet := mkIPNet (be_encode 4 0x0a020200) (CIDRMask 24 4).
Lemma addr_filter_prefix_witness : ∃ f j' b ones,
  newFilter {| Dimension := "src_addr"; Operator := Equal; Value := "10.2.2.0/24"; FType := Addr; Name := "" |} = Ok f ∧
  Filter_JCHF f flow_web = Ok (j', b) ∧ Net_Mask net_10_2_2 = CIDRMask (Z.to_nat ones) 4 ∧ 0 ≤ ones ≤ 32 ∧
  (b = true ↔ ∃ x4, ParseIP "10.2.2.9" ≫= To4 = Some x4 ∧
     be_decode x4 / 2 ^ (32 - ones) = be_decode (be_encode 4 0x0a020200) / 2 ^ (32 - ones)).
Proof.
  apply (addr_filter_prefix flow_web "src_addr" "10.2.2.9" "10.2.2.0/24" (v4InV6Prefix ++ be_encode 4 0x0a020200)
    net_10_2_2 (be_encode 4 0x0a020200) "" flow_web_fresh).
  - unfold avro_rows. solve_row.
  - vm_compute. reflexivity.
  - reflexivity.
  - reflexivity.
Defined.

Lemma FilterMap_total_witness :
  (∃ b, FilterMap (StringFilter stringEquals ["custom_str"] "x" "") {["custom_str" := AMapStr None]} = Ok b) ↔
  ¬ (@nil string = [] ∧ ∃ v, ({["custom_str" := AMapStr None]} : gmap string avro) !! "custom_str" = Some v ∧
     needs_key (StringFilter stringEquals ["custom_str"] "x" "") v = true).
Proof. by apply (FilterMap_total (StringFilter stringEquals ["custom_str"] "x" "")). Defined.

Lemma custom_int_filter_witness : ∃ j',
  Filter_JCHF (IntFilter intEquals ["custom_int"; "vrf"] 4294967301 "") flow_web = Ok (j', true) ∧
  Filter_JCHF (IntFilter intEquals ["vrf"] 4294967301 "") flow_web = Ok (j', false).
Proof.
  apply (custom_int_filter flow_web "vrf" {[ "vrf" := 5 ]} 5 4294967301); [reflexivity..| |reflexivity].
  apply (bool_decide_unpack _). by vm_compute.
Defined.
