(* ===== verification/Rollup.v ===== *)
(** Package [rollup] (src/pkg/rollup): what all rollups share (rollup.go) and the
    additive rollup (stats.go).

    The channel of an additive rollup is a queue; its consumer and its exporter are
    steps of a transition relation.  A float64 is a [spec_float] of the Standard
    Library. [sort.Sort] is not stable: its result is any sorted permutation. *)
From Stdlib Require Import Floats.SpecFloat.
From S2P Require Import Prelude GoStrings Jchf.
From S2P Require Filter.
Local Open Scope Z_scope.

(** ** Definitions from the flags (rollup.go) *)

Definition UndefinedKey : string := "undefined".
Definition DimJoinToken : string := "$$".
Definition EventTypePrefix : string := "KFlow:".

Record RollupDef := mkRollupDef {
  Sample : bool;
  Method : string;
  Metrics : list string;
  Dimensions : list string;
  NameSet : list string }.

Definition RollupDefs_Set (value : string) (i : list RollupDef) : res (list RollupDef) :=
  let pts := Split value "," in
  if (length pts <? 3)%nat
  then Err (Errorf "Rollup flag is defined by type, name, metric, dimension 1, dimension 2, ..., dimension n" [])
  else
    let ptn := TrimSpace <$> pts in
    let p0 := nth 0 ptn "" in
    let def sample method :=
      {| Sample := sample; Method := method; NameSet := Split (nth 1 ptn "") ";";
         Metrics := Split (nth 2 ptn "") "+"; Dimensions := drop 3 ptn |} in
    if (2 <? String.length p0)%nat && HasPrefix p0 "s_"
    then Ok (i ++ [def true (drop_string 2 p0)])
    else Ok (i ++ [def false p0]).

Record splitDim := mkSplitDim { sd_lhs : list string; sd_join : string; sd_rhs : list string }.

Record rollupBase := mkRollupBase {
  metrics : list string;
  multiMetrics : list (list string);
  multiDims : list (list string);
  splitDims : gmap nat splitDim;
  keyJoin : string;
  eventType : string;
  sample : bool;
  nameSet : list string;
  filters : list Filter.FilterWrapper;
  hasFilters : bool;
  splitMetrics : bool }.

(** One round of the loop over the dimensions: the dimension's parts, and how it is
    joined when it is a pair. *)
Definition init_dim (d : string) : res (list string * option splitDim) :=
  if Contains d DimJoinToken then
    match SplitN 2 d DimJoinToken with
    | [lhs; join; rhs] =>
        Ok ([d], Some {| sd_lhs := Split lhs "."; sd_join := join; sd_rhs := Split rhs "." |})
    | _ => Err (Errorf "Invalid dimension grouping: %s" [FStr d])
    end
  else
    let pts := Split d "." in
    if (length pts =? 1)%nat || (length pts =? 2)%nat then Ok (pts, None)
    else Err (Errorf "Invalid dimension: %s" [FStr d]).

Fixpoint splits_from (i : nat) (ds : list (list string * option splitDim)) : gmap nat splitDim :=
  match ds with
  | [] => ∅
  | (_, Some sd) :: ds => <[i := sd]> (splits_from (S i) ds)
  | (_, None) :: ds => splits_from (S i) ds
  end.

(** The loop over the metrics: plain metrics, two-level metrics, whether some metric
    is a list. *)
Fixpoint init_metrics (ms : list string) (acc : list string * list (list string) * bool) :
    res (list string * list (list string) * bool) :=
  match ms with
  | [] => Ok acc
  | m :: ms =>
      let '(plain, multi, split) := acc in
      match Split m "." with
      | [_] =>
          let splitSet := Split m ";" in
          if (1 <? length splitSet)%nat then init_metrics ms (plain ++ splitSet, multi, true)
          else init_metrics ms (plain ++ [m], multi, split)
      | [a; b] => init_metrics ms (plain, multi ++ [[a; b]], split)
      | _ => Err (Errorf "Invalid metric: %s" [FStr m])
      end
  end.

Definition base_init (rd : RollupDef) (join : string) : res rollupBase :=
  ds ← res_mapM init_dim (Dimensions rd);
  '(plain, multi, split) ← init_metrics (Metrics rd) ([], [], false);
  Ok {| metrics := plain; multiMetrics := multi; multiDims := ds.*1; splitDims := splits_from 0 ds;
        keyJoin := join;
        eventType := ReplaceAll (String.append EventTypePrefix (String.append (Join (Metrics rd) "_")
          (String.append ":" (Join (Dimensions rd) ":")))) "." "_";
        sample := Sample rd; nameSet := NameSet rd; filters := []; hasFilters := false;
        splitMetrics := split |}.

Definition SetFilter (fw : Filter.FilterWrapper) (r : rollupBase) : rollupBase :=
  {| metrics := metrics r; multiMetrics := multiMetrics r; multiDims := multiDims r; splitDims := splitDims r;
     keyJoin := keyJoin r; eventType := eventType r; sample := sample r; nameSet := nameSet r;
     filters := filters r ++ [fw]; hasFilters := true; splitMetrics := splitMetrics r |}.

Definition GetName (r : rollupBase) : string := Join (nameSet r) ";".

(** ** Keys *)

(** A dimension of two parts: a custom string falls back to the other direction. *)
Definition custom_key (m : gomap string) (d : string) : string :=
  let key := map_get "" m d in
  if String.eqb key "" then
    if HasPrefix d "source_" then map_get "" m (String.append "dest_" (drop_string 7 d))
    else if HasPrefix d "dest_" then map_get "" m (String.append "source_" (drop_string 5 d))
    else key
  else key.

Definition setKey (keepUndefined : bool) (mapr : gmap string avro) (d : list string) : string :=
  let key :=
    match d with
    | [] => ""
    | [d0] =>
        match mapr !! d0 with
        | Some (AString v) => v
        | Some (AInt64 v) => Itoa v
        | _ => ""
        end
    | d0 :: d1 :: _ =>
        match mapr !! d0 with
        | Some (AMapStr m) => custom_key m d1
        | Some (AMapInt32 m) | Some (AMapInt64 m) => Itoa (map_get 0 m d1)
        | _ => ""
        end
    end in
  if keepUndefined && String.eqb key "" then UndefinedKey else key.

Definition keyPart (keepUndefined : bool) (r : rollupBase) (mapr : gmap string avro) (i : nat) (d : list string) : string :=
  match splitDims r !! i with
  | None => setKey keepUndefined mapr d
  | Some md =>
      String.append (setKey keepUndefined mapr (sd_lhs md))
        (String.append (sd_join md) (setKey keepUndefined mapr (sd_rhs md)))
  end.

Definition keyParts (keepUndefined : bool) (r : rollupBase) (mapr : gmap string avro) : list string :=
  imap (keyPart keepUndefined r mapr) (multiDims r).

Definition getKey (keepUndefined : bool) (r : rollupBase) (mapr : gmap string avro) : string :=
  Join (keyParts keepUndefined r mapr) (keyJoin r).

Definition combo (multiDims : list (list string)) : list string :=
  (λ d, if (length d =? 1)%nat then nth 0 d "" else nth 1 d "") <$> multiDims.

(** [r.filter(in)]: the flows every filter lets through. *)
Fixpoint passes (fs : list Filter.FilterWrapper) (flow : gmap string avro) : res bool :=
  match fs with
  | [] => Ok true
  | f :: fs => b ← Filter.Wrapper_FilterMap f flow; if b : bool then passes fs flow else Ok false
  end.
Fixpoint base_filter (r : rollupBase) (l : list (gmap string avro)) : res (list (gmap string avro)) :=
  match l with
  | [] => Ok []
  | flow :: l =>
      keep ← passes (filters r) flow;
      rest ← base_filter r l;
      Ok (if keep : bool then flow :: rest else rest)
  end.
Definition filtered (r : rollupBase) (l : list (gmap string avro)) : res (list (gmap string avro)) :=
  if hasFilters r then base_filter r l else Ok l.

(** ** The additive rollup (stats.go) *)

Definition CHAN_SLACK : nat := 10 * 10 * 10 * 10.

Definition float64_of_uint64 (z : Z) : spec_float := binary_normalize 53 1024 z 0 false.

Record sumset := mkSumset {
  ss_sum : gmap string (list Z);
  ss_count : Z;
  ss_min : Z;
  ss_max : Z;
  ss_prov : Provider_ }.

(** The locals of [addSum] and of [sumKvs] at their start. *)
Definition sumset_zero : sumset := mkSumset ∅ 0 maxUint64 0 "".

(** [uint64(m)] of an int64 metric, nothing for another type. *)
Definition metric_value (mapr : gmap string avro) (metric : string) : Z :=
  match mapr !! metric with Some (AInt64 m) => wrapu 64 m | _ => 0 end.
Definition multi_value (mapr : gmap string avro) (m : list string) : Z :=
  match m with
  | m0 :: m1 :: _ =>
      match mapr !! m0 with
      | Some (AMapInt32 mm) | Some (AMapInt64 mm) => wrapu 64 (map_get 0 mm m1)
      | _ => 0
      end
  | _ => 0
  end.

Definition sample_rate (mapr : gmap string avro) : res Z :=
  match mapr !! "sample_rate" with
  | Some (AInt64 z) => Ok (wrapu 64 z)
  | _ => Panic "interface conversion: sample_rate is not int64"
  end.
Definition provider (mapr : gmap string avro) : res Provider_ :=
  match mapr !! "provider" with
  | Some (AProvider p) => Ok p
  | _ => Panic "interface conversion: provider is not kt.Provider"
  end.

(** Adjust for the sample rate when the rollup does so. *)
Definition adjust (r : rollupBase) (sr v : Z) : Z := if sample r && (0 <? sr) then wrapu 64 (v * sr) else v.

Definition add_at (i : nat) (v : Z) (row : list Z) : res (list Z) :=
  old ← slice_get row i; slice_set row i (wrapu 64 (old + v)).

(** The loop over listed metrics: each has its own place in the row. *)
Fixpoint split_loop (r : rollupBase) (mapr : gmap string avro) (sr : Z) (i : nat) (ms : list string)
    (row : list Z) (value : Z) : res (list Z * Z) :=
  match ms with
  | [] => Ok (row, value)
  | m :: ms =>
      let vv := adjust r sr (metric_value mapr m) in
      row ← add_at i vv row;
      split_loop r mapr sr (S i) ms row (wrapu 64 (value + vv))
  end.

Definition plain_value (r : rollupBase) (mapr : gmap string avro) : Z :=
  foldl (λ v m, wrapu 64 (v + multi_value mapr m))
    (foldl (λ v m, wrapu 64 (v + metric_value mapr m)) 0 (metrics r)) (multiMetrics r).

Definition add_row (r : rollupBase) (mapr : gmap string avro) (sr : Z) (row : list Z) : res (list Z * Z) :=
  if splitMetrics r then split_loop r mapr sr 0 (metrics r) row 0
  else
    let value := adjust r sr (plain_value r mapr) in
    row ← add_at 0 value row;
    Ok (row, value).

Section stats.
Context (keepUndefined : bool).

(** One round of the loop of [addSum]. *)
Definition addSum_flow (r : rollupBase) (acc : sumset) (mapr : gmap string avro) : res sumset :=
  let key := getKey keepUndefined r mapr in
  sr ← sample_rate mapr;
  '(row, value) ← add_row r mapr sr (default (replicate (length (nameSet r)) 0) (ss_sum acc !! key));
  prov ← provider mapr;
  Ok {| ss_sum := <[key := row]> (ss_sum acc);
        ss_count := wrapu 64 (ss_count acc + 1);
        ss_min := if value <? ss_min acc then value else ss_min acc;
        ss_max := if ss_max acc <? value then value else ss_max acc;
        ss_prov := prov |}.

Fixpoint addSum_loop (r : rollupBase) (l : list (gmap string avro)) (acc : sumset) : res sumset :=
  match l with
  | [] => Ok acc
  | mapr :: l => acc ← addSum_flow r acc mapr; addSum_loop r l acc
  end.
Definition addSum (r : rollupBase) (l : list (gmap string avro)) : res sumset := addSum_loop r l sumset_zero.

Record StatsRollup := mkStats { base : rollupBase; kvs : list sumset; worker : sumset }.

Definition newSumRollup (rd : RollupDef) (join : string) : res StatsRollup :=
  b ← base_init rd join; Ok {| base := b; kvs := []; worker := sumset_zero |}.

(** [Add]: the batch is queued, or dropped when the channel is full. *)
Definition Add (l : list (gmap string avro)) (s : StatsRollup) : res StatsRollup :=
  l ← filtered (base s) l;
  itm ← addSum (base s) l;
  Ok {| base := base s; kvs := if (length (kvs s) <? CHAN_SLACK)%nat then kvs s ++ [itm] else kvs s;
        worker := worker s |}.

(** [sum[k][i] += vv] over a row. *)
Definition add_rows (a v : list Z) : list Z := imap (λ i x, wrapu 64 (x + default 0 (v !! i))) a.
Definition merge_row (a v : option (list Z)) : option (list Z) :=
  match a, v with
  | Some a, Some v => Some (add_rows a v)
  | None, Some v => Some (add_rows (replicate (length v) 0) v)
  | a, None => a
  end.
Definition rows_fit (a v : gmap string (list Z)) : Prop :=
  map_Forall (λ k v, match a !! k with Some a => (length v ≤ length a)%nat | None => True end) v.
#[export] Instance rows_fit_dec a v : Decision (rows_fit a v).
Proof.
  unfold rows_fit. apply map_Forall_dec. intros k x. destruct (a !! k); apply _.
Defined.

(** A batch taken from the channel is added to the totals. *)
Definition consume_item (itm acc : sumset) : res sumset :=
  if decide (rows_fit (ss_sum acc) (ss_sum itm)) then
    Ok {| ss_sum := merge merge_row (ss_sum acc) (ss_sum itm);
          ss_count := wrapu 64 (ss_count acc + ss_count itm);
          ss_min := if ss_min itm <? ss_min acc then ss_min itm else ss_min acc;
          ss_max := if ss_max acc <? ss_max itm then ss_max itm else ss_max acc;
          ss_prov := ss_prov itm |}
  else Panic "index out of range".

(** The locals of [sumKvs] after an export: the minimum is reset to zero. *)
Definition sumset_reset : sumset := mkSumset ∅ 0 0 0 "".

(** ** Export *)

Record Roll := mkRoll {
  ro_Name : string; ro_EventType : string; ro_Dimension : string; ro_Metric : spec_float;
  ro_KeyJoin : string; ro_dims : list string; ro_Count : Z; ro_Min : Z; ro_Max : Z; ro_Provider : Provider_ }.

(** What [sort.Sort(byValue(keys))] may leave, and the part of it that is exported. *)
Definition not_below (a b : Roll) : Prop := SFltb (ro_Metric a) (ro_Metric b) = false.
Definition sort_of (l keys : list Roll) : Prop := l ≡ₚ keys ∧ StronglySorted not_below keys.
Definition top (TopK : Z) (keys : list Roll) : list Roll :=
  if (0 <? TopK) && (TopK <? Z.of_nat (length keys)) then take (Z.to_nat TopK) keys else keys.

(** The entry of key [k] for the [i]th name. *)
Definition roll_of (r : rollupBase) (acc : sumset) (i : nat) (name : string) (kv : string * list Z) : Roll :=
  {| ro_Name := name; ro_EventType := eventType r; ro_Dimension := kv.1;
     ro_Metric := float64_of_uint64 (nth i kv.2 0); ro_KeyJoin := keyJoin r; ro_dims := combo (multiDims r);
     ro_Count := ss_count acc; ro_Min := ss_min acc; ro_Max := ss_max acc; ro_Provider := ss_prov acc |}.

Fixpoint exports_from (TopK : Z) (r : rollupBase) (acc : sumset) (i : nat) (names : list string) (out : list Roll) : Prop :=
  match names with
  | [] => out = []
  | name :: names => ∃ keys rest,
      sort_of (roll_of r acc i name <$> map_to_list (ss_sum acc)) keys ∧
      exports_from TopK r acc (S i) names rest ∧ out = top TopK keys ++ rest
  end.

(** [exportSum]; nothing is exported from no keys. *)
Definition exportSum (TopK : Z) (r : rollupBase) (acc : sumset) (out : list Roll) : Prop :=
  if decide (ss_sum acc = ∅) then out = [] else exports_from TopK r acc 0 (nameSet r) out.

(** ** The goroutines as a transition system

    [added] are the flows whose batch entered the channel, [exported] the totals
    handed to [exportSum]; consumer and exporter interleave freely. *)

Inductive reach (b : rollupBase) : StatsRollup → list (gmap string avro) → list sumset → Prop :=
| reach_new : reach b {| base := b; kvs := []; worker := sumset_zero |} [] []
| reach_add s added exported l itm :
    reach b s added exported → addSum b l = Ok itm → (length (kvs s) < CHAN_SLACK)%nat →
    reach b {| base := b; kvs := kvs s ++ [itm]; worker := worker s |} (added ++ l) exported
| reach_consume s added exported itm q acc :
    reach b s added exported → kvs s = itm :: q → consume_item itm (worker s) = Ok acc →
    reach b {| base := b; kvs := q; worker := acc |} added exported
| reach_export s added exported :
    reach b s added exported →
    reach b {| base := b; kvs := kvs s; worker := sumset_reset |} added (exported ++ [worker s]).

(** ** Conservation of the totals *)

(** What a flow adds at place [i] of the row of its key. *)
Definition flow_rate (mapr : gmap string avro) : Z := match sample_rate mapr with Ok sr => sr | _ => 0 end.
Definition contribution (b : rollupBase) (mapr : gmap string avro) (i : nat) : Z :=
  if splitMetrics b
  then match metrics b !! i with Some m => adjust b (flow_rate mapr) (metric_value mapr m) | None => 0 end
  else if (i =? 0)%nat then adjust b (flow_rate mapr) (plain_value b mapr) else 0.
Definition contribution_of (b : rollupBase) (k : string) (i : nat) (mapr : gmap string avro) : Z :=
  if String.eqb (getKey keepUndefined b mapr) k then contribution b mapr i else 0.

Definition sum_list_Z (l : list Z) : Z := foldr Z.add 0 l.
Definition row_at (i : nat) (row : list Z) : Z := default 0 (row !! i).
Definition sum_at (k : string) (i : nat) (s : sumset) : Z := row_at i (default [] (ss_sum s !! k)).

Lemma sum_list_Z_app l l' : sum_list_Z (l ++ l') = sum_list_Z l + sum_list_Z l'.
Proof. unfold sum_list_Z. induction l as [|x l IH]; cbn [foldr app]; [done|]. rewrite IH. lia. Qed.

(** Congruence modulo 2^64. *)
Definition cong (a b : Z) : Prop := wrapu 64 a = wrapu 64 b.
#[local] Instance cong_equiv : Equivalence cong.
Proof. unfold cong. split; [done|by intros ??|intros ?? z -> ?; done]. Qed.
#[local] Instance cong_add : Proper (cong ==> cong ==> cong) Z.add.
Proof. intros a a' Ha b b' Hb. unfold cong, wrapu in *. by rewrite Z.add_mod, Ha, Hb, <-Z.add_mod. Qed.
Lemma cong_wrap a : cong (wrapu 64 a) a.
Proof. unfold cong, wrapu. by apply Z.mod_mod. Qed.

Lemma row_at_insert i j v row : (i < length row)%nat →
  row_at j (<[i := v]> row) = if decide (i = j) then v else row_at j row.
Proof.
  intros Hi. unfold row_at. destruct (decide (i = j)) as [->|Hne].
  - by rewrite list_lookup_insert_eq.
  - by rewrite list_lookup_insert_ne.
Qed.

Lemma add_at_inv i v row row' : add_at i v row = Ok row' →
  length row' = length row ∧ (i < length row)%nat ∧
  ∀ j, cong (row_at j row') (row_at j row + if decide (i = j) then v else 0).
Proof.
  unfold add_at, slice_get, slice_set. destruct (row !! i) as [old|] eqn:El; [|done]. cbn [mbind res_bind].
  pose proof (lookup_lt_Some _ _ _ El) as Hi. rewrite (proj2 (Nat.ltb_lt _ _) Hi). intros [= <-].
  rewrite length_insert. split_and!; [done|done|]. intros j. rewrite row_at_insert by done.
  destruct (decide (i = j)) as [<-|]; [|by rewrite Z.add_0_r].
  rewrite cong_wrap. unfold row_at. by rewrite El.
Qed.

Lemma split_loop_inv r mapr sr i ms row value row' value' :
  split_loop r mapr sr i ms row value = Ok (row', value') →
  length row' = length row ∧ ∀ j, cong (row_at j row')
    (row_at j row + match (if (i <=? j)%nat then ms !! (j - i)%nat else None) with
                    | Some m => adjust r sr (metric_value mapr m) | None => 0 end).
Proof.
  revert i row value. induction ms as [|m ms IH]; intros i row value; cbn [split_loop].
  { intros [= -> ->]. split; [done|]. intros j. destruct (i <=? j)%nat; cbn; by rewrite Z.add_0_r. }
  destruct (add_at i _ row) as [row1| | |] eqn:Ea; try done. cbn [mbind res_bind]. intros H.
  apply add_at_inv in Ea as (Hl & Hi & Ha). apply IH in H as (Hl' & H). split; [lia|].
  intros j. rewrite H, Ha. destruct (decide (i = j)) as [<-|Hne].
  - rewrite Nat.leb_refl, Nat.sub_diag, (proj2 (Nat.leb_gt (S i) i)) by lia. cbn. by rewrite Z.add_0_r.
  - rewrite Z.add_0_r. destruct (Nat.leb_spec (S i) j) as [Hj|Hj].
    + rewrite (proj2 (Nat.leb_le i j)) by lia. replace (j - i)%nat with (S (j - S i)) by lia. done.
    + by rewrite (proj2 (Nat.leb_gt i j)) by lia.
Qed.

Lemma add_row_inv r mapr sr row row' value : sample_rate mapr = Ok sr → add_row r mapr sr row = Ok (row', value) →
  length row' = length row ∧ ∀ j, cong (row_at j row') (row_at j row + contribution r mapr j).
Proof.
  intros Hsr. unfold add_row, contribution, flow_rate. rewrite Hsr. destruct (splitMetrics r).
  - intros (Hl & H)%split_loop_inv. split; [done|]. intros j. rewrite H, Nat.sub_0_r. done.
  - destruct (add_at 0 _ row) as [row1| | |] eqn:Ea; try done. cbn [mbind res_bind]. intros [= -> _].
    apply add_at_inv in Ea as (Hl & _ & Ha). split; [done|]. intros j. rewrite Ha.
    destruct j; cbn; [done|]. done.
Qed.

(** Every row has a place per name. *)
Definition rows_ok (b : rollupBase) (s : sumset) : Prop :=
  map_Forall (λ _ row, length row = length (nameSet b)) (ss_sum s).

Lemma rows_ok_empty b c mn mx p : rows_ok b (mkSumset ∅ c mn mx p).
Proof. apply map_Forall_empty. Qed.

Lemma row_at_replicate j n : row_at j (replicate n 0) = 0.
Proof.
  unfold row_at. destruct (replicate n 0 !! j) as [z|] eqn:E; [|done].
  by apply lookup_replicate in E as [-> _].
Qed.

Lemma addSum_flow_inv b acc mapr acc' : addSum_flow b acc mapr = Ok acc' → rows_ok b acc →
  rows_ok b acc' ∧ ss_count acc' = wrapu 64 (ss_count acc + 1) ∧
  ∀ k i, cong (sum_at k i acc') (sum_at k i acc + contribution_of b k i mapr).
Proof.
  unfold addSum_flow. intros H Hok. apply res_bind_Ok in H as (sr & Hsr & H).
  apply res_bind_Ok in H as ([row value] & Hrow & H). apply res_bind_Ok in H as (p & _ & [= <-]).
  apply add_row_inv in Hrow as (Hl & Hrow); [|done].
  assert (length (default (replicate (length (nameSet b)) 0) (ss_sum acc !! getKey keepUndefined b mapr)) =
    length (nameSet b)) as Hlen.
  { destruct (ss_sum acc !! _) eqn:E; cbn [default]; [by apply (Hok _ _ E)|by rewrite length_replicate]. }
  split_and!; [|done|].
  - apply map_Forall_insert_2; [congruence|done].
  - intros k i. unfold sum_at, contribution_of. cbn [ss_sum].
    destruct (String.eqb_spec (getKey keepUndefined b mapr) k) as [<-|Hne].
    + rewrite lookup_insert_eq. cbn [default]. rewrite Hrow.
      destruct (ss_sum acc !! _); cbn [default]; [done|]. by rewrite row_at_replicate.
    + rewrite lookup_insert_ne by done. by rewrite Z.add_0_r.
Qed.

Lemma addSum_loop_inv b l acc acc' : addSum_loop b l acc = Ok acc' → rows_ok b acc →
  rows_ok b acc' ∧ cong (ss_count acc') (ss_count acc + Z.of_nat (length l)) ∧
  ∀ k i, cong (sum_at k i acc') (sum_at k i acc + sum_list_Z (contribution_of b k i <$> l)).
Proof.
  revert acc. induction l as [|mapr l IH]; intros acc; cbn [addSum_loop].
  { intros [= ->] Hok. split_and!; [done|cbn; by rewrite Z.add_0_r|]. intros. cbn. by rewrite Z.add_0_r. }
  intros H Hok. apply res_bind_Ok in H as (acc1 & H1 & H).
  apply addSum_flow_inv in H1 as (Hok1 & Hc1 & H1); [|done]. apply IH in H as (Hok' & Hc & H); [|done].
  split_and!; [done| |].
  - rewrite Hc, Hc1. cbn [length]. rewrite cong_wrap. apply eq_subrelation; [apply _|lia].
  - intros k i. rewrite H, H1. rewrite fmap_cons. cbn [sum_list_Z foldr]. fold (sum_list_Z (contribution_of b k i <$> l)).
    by rewrite Z.add_assoc.
Qed.

Lemma addSum_inv b l itm : addSum b l = Ok itm →
  rows_ok b itm ∧ cong (ss_count itm) (Z.of_nat (length l)) ∧
  ∀ k i, cong (sum_at k i itm) (sum_list_Z (contribution_of b k i <$> l)).
Proof. intros H. apply addSum_loop_inv in H as (Hok & Hc & H); [done|]. apply rows_ok_empty. Qed.

Lemma add_rows_at a v i : (length v ≤ length a)%nat → cong (row_at i (add_rows a v)) (row_at i a + row_at i v).
Proof.
  intros Hl. unfold row_at, add_rows. rewrite list_lookup_imap.
  destruct (a !! i) as [x|] eqn:Ea; cbn; [apply cong_wrap|].
  apply lookup_ge_None in Ea. by rewrite (lookup_ge_None_2 v i) by lia.
Qed.

Lemma merge_row_at a v i : match a, v with Some a, Some v => (length v ≤ length a)%nat | _, _ => True end →
  cong (row_at i (default [] (merge_row a v))) (row_at i (default [] a) + row_at i (default [] v)).
Proof.
  intros Hl. destruct a as [a|], v as [v|]; cbn [merge_row default]; [by apply add_rows_at| | |done].
  - by rewrite Z.add_0_r.
  - etrans; [apply add_rows_at; by rewrite length_replicate|]. by rewrite row_at_replicate.
Qed.

Lemma merge_row_length n a v row : merge_row a v = Some row →
  (∀ x, a = Some x → length x = n) → (∀ x, v = Some x → length x = n) → length row = n.
Proof.
  intros H Ha Hv. destruct a as [a|], v as [v|]; cbn [merge_row] in H; try done; injection H as <-.
  - unfold add_rows. rewrite length_imap. by apply Ha.
  - by apply Ha.
  - unfold add_rows. rewrite length_imap, length_replicate. by apply Hv.
Qed.

Lemma rows_ok_fit b acc itm : rows_ok b acc → rows_ok b itm → rows_fit (ss_sum acc) (ss_sum itm).
Proof.
  intros Ha Hi k v Hv. destruct (ss_sum acc !! k) as [a|] eqn:E; [|done].
  rewrite (Ha _ _ E), (Hi _ _ Hv). done.
Qed.

Lemma consume_item_ok b acc itm : rows_ok b acc → rows_ok b itm → is_ok (consume_item itm acc) = true.
Proof. intros Ha Hi. unfold consume_item. by rewrite decide_True by eauto using rows_ok_fit. Qed.

Lemma consume_item_inv b itm acc acc' : consume_item itm acc = Ok acc' → rows_ok b acc → rows_ok b itm →
  rows_ok b acc' ∧ cong (ss_count acc') (ss_count acc + ss_count itm) ∧
  ∀ k i, cong (sum_at k i acc') (sum_at k i acc + sum_at k i itm).
Proof.
  unfold consume_item. intros H Ha Hi. destruct (decide _) as [Hfit|]; [|done]. injection H as <-.
  unfold sum_at. split_and!; cbn [ss_sum ss_count]; [|apply cong_wrap|].
  - intros k row H. cbn [ss_sum] in H. rewrite lookup_merge in H.
    eapply merge_row_length; [|exact (Ha k)|exact (Hi k)].
    by destruct (ss_sum acc !! k), (ss_sum itm !! k).
  - intros k i. rewrite lookup_merge.
    replace (diag_None merge_row (ss_sum acc !! k) (ss_sum itm !! k))
      with (merge_row (ss_sum acc !! k) (ss_sum itm !! k)) by (by destruct (ss_sum acc !! k), (ss_sum itm !! k)).
    apply merge_row_at. destruct (ss_sum itm !! k) as [v|] eqn:E; [|by destruct (ss_sum acc !! k)].
    pose proof (Hfit k v E) as Hkv. cbv beta in Hkv. destruct (ss_sum acc !! k); exact Hkv.
Qed.

(** The totals held anywhere: exported, being summed, queued. *)
Definition all_of (exported : list sumset) (s : StatsRollup) : list sumset := exported ++ worker s :: kvs s.
Definition total_at (k : string) (i : nat) (l : list sumset) : Z := sum_list_Z (sum_at k i <$> l).
Definition total_count (l : list sumset) : Z := sum_list_Z (ss_count <$> l).

Record conserved (b : rollupBase) (s : StatsRollup) (added : list (gmap string avro)) (exported : list sumset) : Prop := {
  co_worker : rows_ok b (worker s);
  co_kvs : Forall (rows_ok b) (kvs s);
  co_slack : (length (kvs s) ≤ CHAN_SLACK)%nat;
  co_count : cong (total_count (all_of exported s)) (Z.of_nat (length added));
  co_sum k i : cong (total_at k i (all_of exported s)) (sum_list_Z (contribution_of b k i <$> added)) }.

Lemma total_cons (f : sumset → Z) x l : sum_list_Z (f <$> x :: l) = f x + sum_list_Z (f <$> l).
Proof. done. Qed.
Lemma total_shift (f : sumset → Z) exported w q : sum_list_Z (f <$> (exported ++ w :: q)) =
  sum_list_Z (f <$> exported) + (f w + sum_list_Z (f <$> q)).
Proof. by rewrite fmap_app, sum_list_Z_app, fmap_cons. Qed.

Lemma reach_conserved b s added exported : reach b s added exported → conserved b s added exported.
Proof.
  unfold total_count, total_at, all_of in *.
  induction 1 as [|s added exported l itm _ [Hw Hk Hs Hc Ht] Ha Hlt
                  |s added exported itm q acc _ [Hw Hk Hs Hc Ht] Eq Hci|s added exported _ [Hw Hk Hs Hc Ht]].
  - split; [apply rows_ok_empty|constructor|cbn [kvs length]; lia|done|done].
  - apply addSum_inv in Ha as (Hok & Hc' & Ha).
    split; unfold total_count, total_at, all_of in *; cbn [worker kvs]; [done| |rewrite length_app; cbn [length]; lia| |].
    + apply Forall_app. split; [done|]. by apply Forall_singleton.
    + rewrite app_comm_cons, (assoc_L (++)), fmap_app, sum_list_Z_app, Hc, length_app, Nat2Z.inj_add. cbn.
      by rewrite Z.add_0_r, Hc'.
    + intros k i. rewrite app_comm_cons, (assoc_L (++)), (fmap_app _ (exported ++ _)), (fmap_app _ added), !sum_list_Z_app, Ht. cbn.
      by rewrite Z.add_0_r, Ha.
  - rewrite Eq in *. apply Forall_cons_1 in Hk as [Hi Hq].
    apply (consume_item_inv b) in Hci as (Hok & Hc' & Hci); [|done|done].
    split; unfold total_count, total_at, all_of in *; cbn [worker kvs]; [done|done|cbn [length] in Hs; lia| |].
    + rewrite <-Hc, Eq, !total_shift, Hc'. apply eq_subrelation; [apply _|]. rewrite total_cons. lia.
    + intros k i. rewrite <-Ht, Eq, !total_shift, Hci. apply eq_subrelation; [apply _|]. rewrite total_cons. lia.
  - split; unfold total_count, total_at, all_of in *; cbn [worker kvs]; [apply rows_ok_empty|done|done| |].
    + rewrite <-Hc, !total_shift. apply eq_subrelation; [apply _|].
      cbn [fmap list_fmap sum_list_Z foldr ss_count sumset_reset]. lia.
    + intros k i. rewrite <-Ht, !total_shift. apply eq_subrelation; [apply _|].
      change (sum_at k i sumset_reset) with 0. cbn [fmap list_fmap sum_list_Z foldr]. lia.
Qed.

(** C15: An additive rollup loses and invents nothing: however batches are added,
    consumed and exported, for every key and name what was exported, is being summed
    and is queued adds up, modulo 2^64, to what the accepted flows contribute; the
    counts add up to the number of flows; and the consumer's next batch always fits,
    so it never panics. *)
Theorem sum_conservation b s added exported (R : reach b s added exported) :
  (∀ k i, wrapu 64 (total_at k i (all_of exported s)) = wrapu 64 (sum_list_Z (contribution_of b k i <$> added))) ∧
  wrapu 64 (total_count (all_of exported s)) = wrapu 64 (Z.of_nat (length added)) ∧
  (length (kvs s) ≤ CHAN_SLACK)%nat ∧
  (∀ itm q, kvs s = itm :: q → is_ok (consume_item itm (worker s)) = true).
Proof.
  apply reach_conserved in R as [Hw Hk Hs Hc Ht]. split_and!; [exact Ht|exact Hc|done|].
  intros itm q E. rewrite E in Hk. apply Forall_cons_1 in Hk as [Hi _]. by apply (consume_item_ok b).
Qed.


(** ** The minimum *)

Lemma adjust_nonneg r sr v : 0 ≤ v → 0 ≤ adjust r sr v.
Proof. intros Hv. unfold adjust. destruct (_ && _); [|done]. by apply wrapu_range. Qed.
Lemma metric_value_nonneg mapr m : 0 ≤ metric_value mapr m.
Proof. unfold metric_value. destruct (mapr !! m) as [[]|]; try done. by apply wrapu_range. Qed.

Lemma split_loop_nonneg r mapr sr i ms row value row' value' : 0 ≤ value →
  split_loop r mapr sr i ms row value = Ok (row', value') → 0 ≤ value'.
Proof.
  revert i row value. induction ms as [|m ms IH]; intros i row value Hv; cbn [split_loop]; [by intros [= _ <-]|].
  intros H. apply res_bind_Ok in H as (row1 & _ & H). eapply IH; [|exact H]. by apply wrapu_range.
Qed.

Lemma foldl_wrap_nonneg {A} (f : A → Z) l v : 0 ≤ v → 0 ≤ foldl (λ v m, wrapu 64 (v + f m)) v l.
Proof.
  revert v. induction l as [|a l IH]; intros v Hv; [done|]. cbn [foldl]. apply IH. by apply wrapu_range.
Qed.

Lemma add_row_nonneg r mapr sr row row' value : add_row r mapr sr row = Ok (row', value) → 0 ≤ value.
Proof.
  unfold add_row. destruct (splitMetrics r); [by apply split_loop_nonneg|].
  intros H. apply res_bind_Ok in H as (row1 & _ & [= _ <-]).
  apply adjust_nonneg. unfold plain_value. apply foldl_wrap_nonneg, foldl_wrap_nonneg. done.
Qed.

Lemma addSum_min b l itm : addSum b l = Ok itm → 0 ≤ ss_min itm.
Proof.
  unfold addSum. assert (0 ≤ ss_min sumset_zero) as H0 by done. revert H0.
  generalize sumset_zero as acc. induction l as [|mapr l IH]; intros acc H0; cbn [addSum_loop]; [by intros [= <-]|].
  intros H. apply res_bind_Ok in H as (acc1 & H1 & H). eapply IH; [|exact H].
  unfold addSum_flow in H1. apply res_bind_Ok in H1 as (sr & _ & H1).
  apply res_bind_Ok in H1 as ([row value] & Hv & H1). apply res_bind_Ok in H1 as (p & _ & [= <-]).
  apply add_row_nonneg in Hv. cbn [ss_min]. by destruct (_ <? _).
Qed.

Lemma reach_min b s added exported : reach b s added exported →
  Forall (λ itm, 0 ≤ ss_min itm) (kvs s) ∧
  match exported with [] => True | _ :: rest => ss_min (worker s) = 0 ∧ Forall (λ e, ss_min e = 0) rest end.
Proof.
  induction 1 as [|s added exported l itm _ [Hk IH] Ha Hlt
                  |s added exported itm q acc _ [Hk IH] Eq Hci|s added exported _ [Hk IH]]; cbn [kvs worker].
  - done.
  - split; [|done]. apply Forall_app. split; [done|]. apply Forall_singleton. by eapply addSum_min.
  - rewrite Eq in Hk. apply Forall_cons_1 in Hk as [Hi Hq]. split; [done|].
    destruct exported as [|e0 rest]; [done|]. destruct IH as [IH Hrest]. split; [|done].
    unfold consume_item in Hci. destruct (decide _); [|done]. injection Hci as <-. cbn [ss_min].
    rewrite IH. destruct (Z.ltb_spec (ss_min itm) 0); [lia|done].
  - split; [done|]. destruct exported as [|e0 rest]; cbn [app]; [done|]. destruct IH as [IH Hrest].
    split; [done|]. apply Forall_app. split; [done|]. by apply Forall_singleton.
Qed.

(** ** What is exported *)

Lemma top_incl TopK keys : top TopK keys ⊆ keys.
Proof. unfold top. destruct (_ && _); [|done]. intros x (i & Hi)%list_elem_of_lookup. apply list_elem_of_lookup.
  exists i. rewrite lookup_take in Hi. by case_decide. Qed.

Lemma exports_from_in TopK r acc i names out x : exports_from TopK r acc i names out → x ∈ out →
  ∃ j name k row, names !! j = Some name ∧ ss_sum acc !! k = Some row ∧ x = roll_of r acc (i + j) name (k, row).
Proof.
  revert i out. induction names as [|name names IH]; intros i out; cbn [exports_from].
  { intros -> H. by apply not_elem_of_nil in H. }
  intros (keys & rest & [Hp _] & Hr & ->) [Hx|Hx]%elem_of_app.
  - apply top_incl in Hx. rewrite <-Hp in Hx. apply list_elem_of_fmap in Hx as ([k row] & -> & Hx).
    apply elem_of_map_to_list in Hx. exists 0%nat, name, k, row. by rewrite Nat.add_0_r.
  - destruct (IH _ _ Hr Hx) as (j & nm & k & row & Hj & Hk & ->). exists (S j), nm, k, row.
    split_and!; [done|done|]. f_equal. lia.
Qed.

(** The reported minimum is right at most in the first export: in every later
    one each roll says 0, whatever the flows were, since the consumer restarts its
    minimum at 0. *)
Theorem min_zero_after_export b s added e0 rest e TopK out r
    (R : reach b s added (e0 :: rest)) (He : e ∈ rest) (Hout : exportSum TopK b e out) (Hr : r ∈ out) :
  ro_Min r = 0.
Proof.
  apply reach_min in R as [_ [_ Hrest]]. rewrite Forall_forall in Hrest. apply Hrest in He.
  unfold exportSum in Hout. destruct (decide _) as [_|_]; [subst; by apply not_elem_of_nil in Hr|].
  destruct (exports_from_in _ _ _ _ _ _ _ Hout Hr) as (j & nm & k & row & _ & _ & ->). exact He.
Qed.

(** One name's part of an export: rolls of the totals, one per key at most, as many
    as asked for, and no key left out is above one that is in. *)
Record best_of (TopK : Z) (r : rollupBase) (acc : sumset) (i : nat) (name : string) (seg : list Roll) : Prop := {
  bo_rolls x : x ∈ seg → ∃ k row, ss_sum acc !! k = Some row ∧ x = roll_of r acc i name (k, row);
  bo_nodup : NoDup (ro_Dimension <$> seg);
  bo_size : Z.of_nat (length seg) =
    if 0 <? TopK then Z.min TopK (Z.of_nat (size (ss_sum acc))) else Z.of_nat (size (ss_sum acc));
  bo_order : StronglySorted not_below seg;
  bo_best k row x : ss_sum acc !! k = Some row → k ∉ (ro_Dimension <$> seg) → x ∈ seg →
    SFltb (ro_Metric x) (float64_of_uint64 (nth i row 0)) = false }.

Lemma top_split TopK keys : ∃ others, keys = top TopK keys ++ others ∧
  Z.of_nat (length (top TopK keys)) = if 0 <? TopK then Z.min TopK (Z.of_nat (length keys)) else Z.of_nat (length keys).
Proof.
  unfold top. destruct (Z.ltb_spec 0 TopK), (Z.ltb_spec TopK (Z.of_nat (length keys))); cbn [andb].
  - exists (drop (Z.to_nat TopK) keys). rewrite take_drop, length_take. split; [done|lia].
  - exists []. rewrite app_nil_r. split; [done|lia].
  - exists []. by rewrite app_nil_r.
  - exists []. by rewrite app_nil_r.
Qed.

Lemma best_of_top TopK r acc i name keys :
  sort_of (roll_of r acc i name <$> map_to_list (ss_sum acc)) keys → best_of TopK r acc i name (top TopK keys).
Proof.
  intros [Hp Hs]. destruct (top_split TopK keys) as (others & Ek & Hlen).
  set (seg := top TopK keys) in *. clearbody seg. subst keys.
  apply StronglySorted_split in Hs as [Hs Hout].
  assert (∀ x, x ∈ seg ++ others ↔ ∃ k row, ss_sum acc !! k = Some row ∧ x = roll_of r acc i name (k, row)) as Hin.
  { intros x. rewrite <-Hp, list_elem_of_fmap. split.
    - intros ([k row] & -> & H). apply elem_of_map_to_list in H. eauto.
    - intros (k & row & H & ->). exists (k, row). split; [done|]. by apply elem_of_map_to_list. }
  assert (NoDup (ro_Dimension <$> seg ++ others)) as Hnd.
  { rewrite <-Hp, <-list_fmap_compose. change (NoDup ((map_to_list (ss_sum acc)).*1)). apply NoDup_fst_map_to_list. }
  split; [| | |done|].
  - intros x Hx. apply Hin. apply elem_of_app. by left.
  - rewrite fmap_app in Hnd. by apply NoDup_app in Hnd as [? _].
  - rewrite Hlen. replace (length (seg ++ others)) with (size (ss_sum acc)); [done|].
    by rewrite <-Hp, length_fmap, length_map_to_list.
  - intros k row x Hk Hn Hx. apply (Hout x (roll_of r acc i name (k, row))); [done|].
    assert (roll_of r acc i name (k, row) ∈ seg ++ others) as [Hy|Hy]%elem_of_app by (apply Hin; eauto); [|done].
    destruct Hn. by apply (list_elem_of_fmap_2 ro_Dimension) in Hy.
Qed.

Lemma exports_from_best TopK r acc i names out : exports_from TopK r acc i names out →
  ∃ segs, out = concat segs ∧ length segs = length names ∧
    ∀ j name seg, names !! j = Some name → segs !! j = Some seg → best_of TopK r acc (i + j) name seg.
Proof.
  revert i out. induction names as [|name names IH]; intros i out; cbn [exports_from].
  { intros ->. by exists []. }
  intros (keys & rest & Hs & Hr & ->). destruct (IH _ _ Hr) as (segs & -> & Hl & Hb).
  exists (top TopK keys :: segs). split_and!; [done|cbn; by rewrite Hl|].
  intros [|j] nm seg; cbn; [|intros Hn Hg; specialize (Hb _ _ _ Hn Hg); by rewrite Nat.add_succ_r].
  intros [= <-] [= <-]. rewrite Nat.add_0_r. by apply best_of_top.
Qed.

(** An export lists, name after name, the best rolls of that name: each the
    total of its own key, in falling order, [TopK] of them when there are more, and
    no key left out has a larger total than one exported. *)
Theorem export_top TopK b acc out (Hout : exportSum TopK b acc out) (Hne : ss_sum acc ≠ ∅) :
  ∃ segs, out = concat segs ∧ length segs = length (nameSet b) ∧
    ∀ i name seg, nameSet b !! i = Some name → segs !! i = Some seg → best_of TopK b acc i name seg.
Proof.
  unfold exportSum in Hout. rewrite decide_False in Hout by done. by apply exports_from_best in Hout.
Qed.

(** ** More listed metrics than names *)

Lemma split_loop_panics r mapr sr i ms row value : (i ≤ length row < i + length ms)%nat →
  split_loop r mapr sr i ms row value = Panic "index out of range".
Proof.
  revert i row value. induction ms as [|m ms IH]; intros i row value; cbn [length split_loop]; [lia|]. intros Hl.
  unfold add_at, slice_get, slice_set. destruct (row !! i) as [old|] eqn:E; [|done]. cbn [mbind res_bind].
  pose proof (lookup_lt_Some _ _ _ E) as Hi. rewrite (proj2 (Nat.ltb_lt _ _) Hi).
  apply IH. rewrite length_insert. lia.
Qed.

(** A rollup over a list of metrics longer than its list of names panics on the
    first flow it is given: the row of a key has one place per name. *)
Theorem metrics_need_names b mapr l (Hs : splitMetrics b = true)
    (Hl : (length (nameSet b) < length (metrics b))%nat) (Hsr : is_ok (sample_rate mapr) = true) :
  addSum b (mapr :: l) = Panic "index out of range".
Proof.
  unfold addSum. cbn [addSum_loop]. unfold addSum_flow. destruct (sample_rate mapr); try done. cbn [mbind res_bind].
  unfold add_row. rewrite Hs. unfold sumset_zero. cbn [ss_sum]. rewrite lookup_empty. cbn [default].
  rewrite split_loop_panics by (rewrite length_replicate; lia). done.
Qed.
End stats.

(** ** The theorems on a concrete rollup *)

Definition ex_base (names ms : list string) (split : bool) : rollupBase :=
  {| metrics := ms; multiMetrics := []; multiDims := [["dst_addr"]]; splitDims := ∅; keyJoin := "^";
     eventType := "KFlow:in_bytes:dst_addr"; sample := true; nameSet := names; filters := [];
     hasFilters := false; splitMetrics := split |}.
Definition ex_flow (dst : string) (bytes rate : Z) : gmap string avro :=
  <["dst_addr" := AString dst]> (<["in_bytes" := AInt64 bytes]> (<["out_bytes" := AInt64 1]>
    (<["sample_rate" := AInt64 rate]> (<["provider" := AProvider "router"]> ∅)))).
Definition ex_added : list (gmap string avro) :=
  [ex_flow "10.0.0.1" 100 3; ex_flow "10.0.0.2" 50 0; ex_flow "10.0.0.1" 7 1].

Ltac reach_steps := repeat match goal with
  | |- addSum _ _ _ = Ok _ => vm_compute; reflexivity
  | |- kvs _ = _ :: _ => reflexivity
  | |- consume_item _ _ = Ok _ => vm_compute; reflexivity
  | |- (_ < CHAN_SLACK)%nat => cbn [kvs length]; unfold CHAN_SLACK; lia
  end.

Lemma sum_conservation_witness : ∃ s exported,
  reach false (ex_base ["total"] ["in_bytes"] false) s (ex_added ++ ex_added) exported ∧
  sum_at "10.0.0.1" 0 (worker s) = 307 ∧
  wrapu 64 (total_at "10.0.0.1" 0 (all_of exported s)) =
  wrapu 64 (sum_list_Z (contribution_of false (ex_base ["total"] ["in_bytes"] false) "10.0.0.1" 0 <$> ex_added ++ ex_added)).
Proof.
  eexists _, _. split_and!.
  - eapply reach_add; [eapply reach_consume; [eapply (reach_add _ _ _ [])|..]|..];
      [apply reach_new|reach_steps..].
  - vm_compute. reflexivity.
  - apply sum_conservation.
    eapply reach_add; [eapply reach_consume; [eapply (reach_add _ _ _ [])|..]|..];
      [apply reach_new|reach_steps..].
Defined.

Lemma exportSum_one TopK b acc name k row : nameSet b = [name] → ss_sum acc = {[k := row]} →
  exportSum TopK b acc [roll_of b acc 0 name (k, row)].
Proof.
  intros Hn Hk. unfold exportSum. rewrite Hk, decide_False by apply map_non_empty_singleton. rewrite Hn. cbn [exports_from].
  exists [roll_of b acc 0 name (k, row)], []. rewrite Hk, map_to_list_singleton. split_and!; [|done|].
  - split; [done|]. by repeat constructor.
  - unfold top. destruct (Z.ltb_spec 0 TopK), (Z.ltb_spec TopK (Z.of_nat (length [roll_of b acc 0 name (k, row)])));
      try done. cbn [length] in *. lia.
Qed.

(** Two exports: the second one's only flow carried 300 bytes, yet its minimum is 0. *)
Lemma min_zero_after_export_witness : ∃ s added e0 e r,
  reach false (ex_base ["total"] ["in_bytes"] false) s added [e0; e] ∧
  exportSum 10 (ex_base ["total"] ["in_bytes"] false) e [r] ∧
  ro_Metric r = float64_of_uint64 300 ∧ ro_Max r = 300 ∧ ro_Min r = 0.
Proof.
  assert (∃ s added e0 e, reach false (ex_base ["total"] ["in_bytes"] false) s added [e0; e] ∧
    ss_sum e = {["10.0.0.1" := [300]]} ∧ ss_max e = 300) as (s & added & e0 & e & R & Hs & Hmax).
  { do 4 eexists. split.
    - eapply (reach_export _ _ _ _ [_]), reach_consume;
        [eapply (reach_add _ _ _ _ _ [ex_flow "10.0.0.1" 100 3]);
           [eapply (reach_export _ _ _ _ []), reach_new|reach_steps..]|reach_steps..].
    - cbn [worker ss_sum ss_max]. split; [|reflexivity]. vm_compute. reflexivity. }
  assert (exportSum 10 (ex_base ["total"] ["in_bytes"] false) e
    [roll_of (ex_base ["total"] ["in_bytes"] false) e 0 "total" ("10.0.0.1", [300])]) as Hout by by apply exportSum_one.
  exists s, added, e0, e, (roll_of (ex_base ["total"] ["in_bytes"] false) e 0 "total" ("10.0.0.1", [300])).
  split_and!; [done|done|reflexivity|exact Hmax|].
  eapply (min_zero_after_export false (ex_base ["total"] ["in_bytes"] false) s added e0 [e] e 10 _ _ R);
    [left; reflexivity|exact Hout|left; reflexivity].
Defined.

Definition ex_totals : sumset := mkSumset (<["10.0.0.1" := [307]]> {["10.0.0.2" := [50]]}) 3 7 300 "router".
Definition ex_roll (k : string) (v : Z) : Roll := roll_of (ex_base ["total"] ["in_bytes"] false) ex_totals 0 "total" (k, [v]).

Lemma export_top_witness :
  exportSum 1 (ex_base ["total"] ["in_bytes"] false) ex_totals [ex_roll "10.0.0.1" 307] ∧
  ∃ segs, [ex_roll "10.0.0.1" 307] = concat segs ∧ length segs = 1%nat ∧
    ∀ i name seg, ["total"] !! i = Some name → segs !! i = Some seg →
      best_of 1 (ex_base ["total"] ["in_bytes"] false) ex_totals i name seg.
Proof.
  assert (ss_sum ex_totals ≠ ∅) as Hne by apply insert_non_empty.
  assert (exportSum 1 (ex_base ["total"] ["in_bytes"] false) ex_totals [ex_roll "10.0.0.1" 307]) as Hout.
  { unfold exportSum. rewrite decide_False by done. cbn [exports_from nameSet ex_base].
    exists [ex_roll "10.0.0.1" 307; ex_roll "10.0.0.2" 50], []. split_and!; [|done|reflexivity].
    split.
    - replace (map_to_list (ss_sum ex_totals)) with [("10.0.0.1", [307]); ("10.0.0.2", [50])] || 
      replace (map_to_list (ss_sum ex_totals)) with [("10.0.0.2", [50]); ("10.0.0.1", [307])].
      all: try (vm_compute; reflexivity). all: cbn [fmap list_fmap]. all: (reflexivity || apply Permutation_swap).
    - repeat constructor; vm_compute; reflexivity. }
  split; [exact Hout|]. by apply (export_top 1 (ex_base ["total"] ["in_bytes"] false) ex_totals).
Defined.

(** The flag [sum,total,in_bytes;out_bytes,dst_addr] makes such a rollup. *)
Lemma metrics_need_names_witness : ∃ rd b,
  RollupDefs_Set "sum,total,in_bytes;out_bytes,dst_addr" [] = Ok [rd] ∧ base_init rd "^" = Ok b ∧
  addSum false b ex_added = Panic "index out of range".
Proof.
  eexists _, _. split_and!; [vm_compute; reflexivity|vm_compute; reflexivity|].
  apply metrics_need_names; [reflexivity|cbn; lia|vm_compute; reflexivity].
Defined.
