(* ===== verification/RollupCache.v ===== *)
(** The cached rollup (src/pkg/rollup/cache.go): totals per key in a map that is
    emptied by an export and thinned by an emergency cleanup.

    A time is a number of nanoseconds.  [Add] reads the clock once ([now]) and each
    cleanup reads it again ([later i], during the [i]th flow).  [sort.Slice] on ages is
    a sort of numbers, so its result is determined.  An entry that a cleanup has taken
    out of the map is no longer seen: what is then added to it is lost. *)
From Stdlib Require Import Floats.SpecFloat.
From S2P Require Import Prelude GoStrings Jchf Rollup.
From S2P Require Filter.
Local Open Scope Z_scope.

Definition CACHE_ENTRY_OVERHEAD : Z := 150.

Record CacheEntry := mkCacheEntry {
  ce_Key : string; ce_Sum : Z; ce_Count : Z; ce_Min : Z; ce_Max : Z; ce_Provider : Provider_;
  ce_UniqueVals : gset string; ce_LastUpdated : Z }.

Record CacheConfig := mkCacheConfig { TopK : Z; EmergencyCleanup : bool; MaxMemoryMB : Z; MaxKeys : Z }.

Record CacheRollup := mkCacheRollup {
  c_base : rollupBase;
  cache : gmap string CacheEntry;
  config : CacheConfig;
  isUnique : bool;
  memoryUsage : Z }.

Definition newCacheRollup (rd : RollupDef) (join : string) (cfg : CacheConfig) (isUnique : bool) : res CacheRollup :=
  b ← base_init rd join;
  Ok {| c_base := b; cache := ∅; config := cfg; isUnique := isUnique; memoryUsage := 0 |}.

Definition with_cache (m : gmap string CacheEntry) (mem : Z) (r : CacheRollup) : CacheRollup :=
  {| c_base := c_base r; cache := m; config := config r; isUnique := isUnique r; memoryUsage := mem |}.

Definition estimateEntrySize (isUnique : bool) (entry : CacheEntry) : Z :=
  let size := CACHE_ENTRY_OVERHEAD + Z.of_nat (String.length (ce_Key entry)) in
  if isUnique
  then size + Z.of_nat (base.size (ce_UniqueVals entry)) * 20 +
    set_fold (λ k s, Z.of_nat (String.length k) + s) 0 (ce_UniqueVals entry)
  else size.

Definition shouldDoEmergencyCleanup (r : CacheRollup) : bool :=
  let cfg := config r in
  EmergencyCleanup cfg &&
    (((0 <? MaxMemoryMB cfg) && (MaxMemoryMB cfg * 1024 * 1024 <? memoryUsage r)) ||
     ((0 <? MaxKeys cfg) && (MaxKeys cfg <? Z.of_nat (base.size (cache r))))).

(** The ages, oldest first. *)
Definition sorted_ages (now : Z) (m : gmap string CacheEntry) : list Z :=
  merge_sort Z.ge ((λ kv, now - ce_LastUpdated kv.2) <$> map_to_list m).

Definition threshold_index (n : nat) : nat := if (n / 2 <? 1)%nat then 1 else n / 2.

Definition total_size (isUnique : bool) (m : gmap string CacheEntry) : Z :=
  map_fold (λ _ e s, estimateEntrySize isUnique e + s) 0 m.

Definition doEmergencyCleanup (now : Z) (r : CacheRollup) : res CacheRollup :=
  if (base.size (cache r) =? 0)%nat then Ok r
  else
    let ages := sorted_ages now (cache r) in
    ageThreshold ← slice_get ages (threshold_index (length ages));
    let old kv := ageThreshold <=? now - ce_LastUpdated (kv.2 : CacheEntry) in
    let removed := filter (λ kv, old kv = true) (cache r) in
    Ok (with_cache (filter (λ kv, old kv = false) (cache r)) (memoryUsage r - total_size (isUnique r) removed) r).

Definition addStatValues (b : rollupBase) (entry : CacheEntry) (mapr : gmap string avro) : res CacheEntry :=
  sr ← sample_rate mapr;
  let value := adjust b sr (plain_value b mapr) in
  Ok {| ce_Key := ce_Key entry; ce_Sum := wrapu 64 (ce_Sum entry + value); ce_Count := ce_Count entry;
        ce_Min := if value <? ce_Min entry then value else ce_Min entry;
        ce_Max := if ce_Max entry <? value then value else ce_Max entry;
        ce_Provider := ce_Provider entry; ce_UniqueVals := ce_UniqueVals entry;
        ce_LastUpdated := ce_LastUpdated entry |}.

(** The text a metric contributes to the set of values. *)
Definition unique_plain (mapr : gmap string avro) (metric : string) : option string :=
  match mapr !! metric with
  | Some (AString m) => Some m
  | Some (AInt64 m) => Some (Itoa m)
  | _ => None
  end.
Definition unique_multi (mapr : gmap string avro) (m : list string) : option string :=
  match m with
  | m0 :: m1 :: _ =>
      match mapr !! m0 with
      | Some (AMapStr mm) => Some (map_get "" mm m1)
      | Some (AMapInt32 mm) | Some (AMapInt64 mm) => Some (Itoa (map_get 0 mm m1))
      | _ => None
      end
  | _ => None
  end.
Definition unique_values (b : rollupBase) (mapr : gmap string avro) : gset string :=
  list_to_set (omap (unique_plain mapr) (metrics b) ++ omap (unique_multi mapr) (multiMetrics b)).

Definition addUniqueValues (b : rollupBase) (entry : CacheEntry) (mapr : gmap string avro) : CacheEntry :=
  {| ce_Key := ce_Key entry; ce_Sum := ce_Sum entry; ce_Count := ce_Count entry; ce_Min := ce_Min entry;
     ce_Max := ce_Max entry; ce_Provider := ce_Provider entry;
     ce_UniqueVals := ce_UniqueVals entry ∪ unique_values b mapr; ce_LastUpdated := ce_LastUpdated entry |}.

Definition new_entry (key : string) (prov : Provider_) (now : Z) : CacheEntry :=
  {| ce_Key := key; ce_Sum := 0; ce_Count := 0; ce_Min := maxUint64; ce_Max := 0; ce_Provider := prov;
     ce_UniqueVals := ∅; ce_LastUpdated := now |}.

(** [entry.LastUpdated = now; entry.Count++]. *)
Definition touch (now : Z) (entry : CacheEntry) : CacheEntry :=
  {| ce_Key := ce_Key entry; ce_Sum := ce_Sum entry; ce_Count := wrapu 64 (ce_Count entry + 1);
     ce_Min := ce_Min entry; ce_Max := ce_Max entry; ce_Provider := ce_Provider entry;
     ce_UniqueVals := ce_UniqueVals entry; ce_LastUpdated := now |}.

(** The entry of a key, made when it is missing, after the cleanup that may follow. *)
Definition get_entry (now later : Z) (key : string) (mapr : gmap string avro) (r : CacheRollup) :
    res (CacheRollup * CacheEntry) :=
  match cache r !! key with
  | Some entry => Ok (r, entry)
  | None =>
      prov ← provider mapr;
      let entry := new_entry key prov now in
      let r := with_cache (<[key := entry]> (cache r)) (memoryUsage r + estimateEntrySize (isUnique r) entry) r in
      r ← (if shouldDoEmergencyCleanup r then doEmergencyCleanup later r else Ok r);
      Ok (r, entry)
  end.

Section cache.
Context (keepUndefined : bool).

(** One round of the loop of [Add]. *)
Definition cache_add (now later : Z) (r : CacheRollup) (mapr : gmap string avro) : res CacheRollup :=
  let key := getKey keepUndefined (c_base r) mapr in
  if String.eqb key "" then Ok r
  else
    '(r, entry) ← get_entry now later key mapr r;
    let entry := touch now entry in
    entry ← (if isUnique r then Ok (addUniqueValues (c_base r) entry mapr) else addStatValues (c_base r) entry mapr);
    Ok (with_cache (match cache r !! key with Some _ => <[key := entry]> (cache r) | None => cache r end) (memoryUsage r) r).

Fixpoint cache_loop (now : Z) (later : nat → Z) (i : nat) (l : list (gmap string avro)) (r : CacheRollup) : res CacheRollup :=
  match l with
  | [] => Ok r
  | mapr :: l => r ← cache_add now (later i) r mapr; cache_loop now later (S i) l r
  end.

Definition Cache_Add (now : Z) (later : nat → Z) (l : list (gmap string avro)) (r : CacheRollup) : res CacheRollup :=
  l ← filtered (c_base r) l; cache_loop now later 0 l r.

Definition cache_roll (r : CacheRollup) (entry : CacheEntry) : Roll :=
  {| ro_Name := Join (nameSet (c_base r)) ";"; ro_EventType := eventType (c_base r); ro_Dimension := ce_Key entry;
     ro_Metric := float64_of_uint64 (if isUnique r then Z.of_nat (base.size (ce_UniqueVals entry)) else ce_Sum entry);
     ro_KeyJoin := keyJoin (c_base r); ro_dims := combo (multiDims (c_base r)); ro_Count := ce_Count entry;
     ro_Min := ce_Min entry; ro_Max := ce_Max entry; ro_Provider := ce_Provider entry |}.

(** [doExport]: the cache is taken; its best entries are returned. *)
Definition doExport (r : CacheRollup) (r' : CacheRollup) (out : list Roll) : Prop :=
  r' = with_cache ∅ 0 r ∧
  if decide (cache r = ∅) then out = []
  else ∃ keys, sort_of ((λ kv, cache_roll r kv.2) <$> map_to_list (cache r)) keys ∧ out = top (TopK (config r)) keys.
End cache.

(** ** The memory estimate *)

Lemma total_size_insert u k e m : m !! k = None →
  total_size u (<[k := e]> m) = estimateEntrySize u e + total_size u m.
Proof.
  intros Hk. unfold total_size. rewrite map_fold_insert_L; [done| |done]. intros. lia.
Qed.

Lemma total_size_delete u k e m : m !! k = Some e → total_size u m = estimateEntrySize u e + total_size u (delete k m).
Proof. intros Hk. rewrite <-(insert_delete_id m k e Hk) at 1. by rewrite total_size_insert by apply lookup_delete_eq. Qed.

Lemma total_size_update u k e e' m : m !! k = Some e → estimateEntrySize u e' = estimateEntrySize u e →
  total_size u (<[k := e']> m) = total_size u m.
Proof.
  intros Hk He. rewrite (total_size_delete u k e m Hk), (total_size_delete u k e' (<[k := e']> m)) by apply lookup_insert_eq.
  by rewrite delete_insert_eq, He.
Qed.

Lemma total_size_filter u (P : CacheEntry → bool) m :
  total_size u m = total_size u (filter (λ kv, P kv.2 = true) m) + total_size u (filter (λ kv, P kv.2 = false) m).
Proof.
  induction m as [|k e m Hk IH] using map_ind; [done|]. rewrite total_size_insert by done. destruct (P e) eqn:HP.
  - rewrite (map_filter_insert_True (λ kv, P kv.2 = true)) by done.
    rewrite (map_filter_insert_False (λ kv, P kv.2 = false)) by (cbn; congruence).
    rewrite (delete_id m k Hk), total_size_insert by (apply map_lookup_filter_None; by left). lia.
  - rewrite (map_filter_insert_True (λ kv, P kv.2 = false)) by done.
    rewrite (map_filter_insert_False (λ kv, P kv.2 = true)) by (cbn; congruence).
    rewrite (delete_id m k Hk), total_size_insert by (apply map_lookup_filter_None; by left). lia.
Qed.

Definition memory_exact (r : CacheRollup) : Prop := memoryUsage r = total_size (isUnique r) (cache r).

Lemma cleanup_memory now r r' : doEmergencyCleanup now r = Ok r' → memory_exact r → memory_exact r'.
Proof.
  unfold doEmergencyCleanup, memory_exact. destruct (base.size (cache r) =? 0)%nat; [by intros [= <-]|].
  intros H Hm. apply res_bind_Ok in H as (thr & _ & [= <-]). cbn [with_cache memoryUsage cache isUnique].
  rewrite Hm, (total_size_filter (isUnique r) (λ e, thr <=? now - ce_LastUpdated e)). lia.
Qed.

Lemma cleanup_cache now r r' : doEmergencyCleanup now r = Ok r' → isUnique r' = isUnique r ∧ c_base r' = c_base r ∧
  ∀ k e, cache r' !! k = Some e → cache r !! k = Some e.
Proof.
  unfold doEmergencyCleanup. destruct (base.size (cache r) =? 0)%nat; [by intros [= <-]|].
  intros H. apply res_bind_Ok in H as (thr & _ & [= <-]). split_and!; [done|done|].
  intros k e (H & _)%map_lookup_filter_Some. done.
Qed.

Lemma get_entry_inv now later key mapr r r' entry : get_entry now later key mapr r = Ok (r', entry) → memory_exact r →
  memory_exact r' ∧ isUnique r' = isUnique r ∧ c_base r' = c_base r ∧
  (cache r' !! key = Some entry ∨ cache r' !! key = None).
Proof.
  unfold get_entry. destruct (cache r !! key) as [e|] eqn:Ek; [intros [= <- <-] Hm; split_and!; auto|].
  intros H Hm. apply res_bind_Ok in H as (prov & _ & H). set (r1 := with_cache _ _ _) in *. cbv zeta in H.
  assert (memory_exact r1) as Hm1.
  { unfold memory_exact, r1 in *. cbn [with_cache memoryUsage cache isUnique]. rewrite total_size_insert by done. lia. }
  apply res_bind_Ok in H as (r2 & Hr & [= <- <-]). destruct (shouldDoEmergencyCleanup r1).
  - destruct (cleanup_cache _ _ _ Hr) as (Hu & Hb & Hc). split_and!; [by eapply cleanup_memory|done|done|].
    destruct (cache r2 !! key) as [e|] eqn:E; [|by right]. left. apply Hc in E. cbn [cache with_cache r1] in E.
    by rewrite lookup_insert_eq in E.
  - injection Hr as <-. split_and!; [done|done|done|]. left. cbn [cache with_cache r1]. apply lookup_insert_eq.
Qed.

Section cache_memory.
Context (keepUndefined : bool).

Lemma cache_add_memory now later r mapr r' : cache_add keepUndefined now later r mapr = Ok r' →
  isUnique r = false → memory_exact r → memory_exact r' ∧ isUnique r' = false.
Proof.
  unfold cache_add. intros H Hu Hm. destruct (String.eqb _ ""); [by injection H as <-|].
  apply res_bind_Ok in H as ([r1 entry] & Hg & H). destruct (get_entry_inv _ _ _ _ _ _ _ Hg Hm) as (Hm1 & Hu1 & _ & Hk).
  apply res_bind_Ok in H as (entry2 & He & [= <-]). rewrite Hu1, Hu in He.
  apply res_bind_Ok in He as (sr & _ & [= <-]). unfold memory_exact in *.
  cbn [with_cache memoryUsage cache isUnique]. split; [|congruence]. rewrite Hm1.
  destruct Hk as [Hk|Hk]; rewrite Hk; [|done]. symmetry. apply (total_size_update _ _ _ _ _ Hk).
  unfold estimateEntrySize. by rewrite Hu1, Hu.
Qed.

(** For a cache of sums the memory estimate is exact: through any batches, with
    any cleanups, it is the sum of the estimates of the entries present. *)
Theorem memory_is_exact now later i l r r' (Hu : isUnique r = false) (Hm : memory_exact r)
    (Hl : cache_loop keepUndefined now later i l r = Ok r') : memory_exact r' ∧ isUnique r' = false.
Proof.
  revert i r Hu Hm Hl. induction l as [|mapr l IH]; intros i r Hu Hm H; cbn [cache_loop] in H; [by injection H as <-|].
  apply res_bind_Ok in H as (r1 & H1 & H). apply cache_add_memory in H1 as [Hm1 Hu1]; [|done|done]. by eapply IH.
Qed.
End cache_memory.

(** ** Emergency cleanup *)

#[local] Instance Zge_total : Total Z.ge.
Proof. intros x y. lia. Qed.
#[local] Instance Zge_trans : Transitive Z.ge.
Proof. intros x y z. lia. Qed.

Lemma sorted_ages_perm now m : sorted_ages now m ≡ₚ (λ kv, now - ce_LastUpdated kv.2) <$> map_to_list m.
Proof. apply merge_sort_Permutation. Qed.
Lemma sorted_ages_length now m : length (sorted_ages now m) = base.size m.
Proof. by rewrite sorted_ages_perm, length_fmap, length_map_to_list. Qed.


Lemma young_after (l : list Z) (i : nat) (t : Z) : StronglySorted Z.ge l → l !! i = Some t →
  (length (filter (λ a, Z.leb t a = false) l) + S i ≤ length l)%nat.
Proof.
  intros Hs Hi. pose proof (lookup_lt_Some _ _ _ Hi) as Hlt.
  rewrite <-(take_drop_middle l i t Hi) in Hs |- *. apply StronglySorted_split in Hs as [_ Hge].
  rewrite filter_app, filter_cons, (proj2 (Z.leb_le t t)) by lia. rewrite decide_False by done.
  assert (filter (λ a, Z.leb t a = false) (take i l) = []) as ->.
  { apply list_filter_none. apply Forall_forall. intros x Hx. rewrite (proj2 (Z.leb_le t x)); [by intros [=]|].
    pose proof (Hge x t Hx ltac:(left)). lia. }
  rewrite !length_app. cbn [length app]. pose proof (length_filter (λ a, Z.leb t a = false) (drop (S i) l)).
  rewrite length_take_le by lia. lia.
Qed.

Lemma cleanup_kept now m t :
  base.size (filter (λ kv, Z.leb t (now - ce_LastUpdated kv.2) = false) m) =
  length (filter (λ a, Z.leb t a = false) (sorted_ages now m)).
Proof.
  rewrite sorted_ages_perm, list_filter_map, length_fmap. rewrite <-length_map_to_list.
  apply Permutation_length, NoDup_Permutation; [apply NoDup_map_to_list|apply NoDup_filter, NoDup_map_to_list|].
  intros [k e]. rewrite list_elem_of_filter, !elem_of_map_to_list, map_lookup_filter_Some. tauto.
Qed.

(** C16: An emergency cleanup throws away more than half of the entries: all those as
    old as the one in the middle, or older. Entries of one age, as the entries one
    batch has just made, all go. *)
Theorem cleanup_more_than_half now r (Hn : (2 ≤ base.size (cache r))%nat) :
  ∃ r' t, doEmergencyCleanup now r = Ok r' ∧
    (∀ k e, cache r' !! k = Some e ↔ cache r !! k = Some e ∧ now - ce_LastUpdated e < t) ∧
    (2 * base.size (cache r') < base.size (cache r))%nat ∧
    ((∃ u, map_Forall (λ _ e, ce_LastUpdated e = u) (cache r)) → cache r' = ∅).
Proof.
  unfold doEmergencyCleanup. rewrite (proj2 (Nat.eqb_neq _ _)) by lia. rewrite sorted_ages_length.
  set (n := base.size (cache r)) in *. assert (threshold_index n = (n / 2)%nat) as Hidx.
  { unfold threshold_index. pose proof (Nat.div_le_lower_bound n 2 1 ltac:(lia) ltac:(lia)).
    by rewrite (proj2 (Nat.ltb_ge _ _)). }
  pose proof (Nat.div_lt n 2 ltac:(lia) ltac:(lia)) as Hlt. pose proof (Nat.mul_succ_div_gt n 2 ltac:(lia)) as Hgt.
  rewrite Hidx. destruct (lookup_lt_is_Some_2 (sorted_ages now (cache r)) (n / 2)) as [t Ht];
    [by rewrite sorted_ages_length|]. rewrite (slice_get_ok _ _ _ Ht). cbn [mbind res_bind].
  eexists _, t. split; [reflexivity|]. cbn [with_cache cache]. split_and!.
  - intros k e. rewrite map_lookup_filter_Some. cbn [snd]. by rewrite Z.leb_gt.
  - rewrite cleanup_kept. pose proof (StronglySorted_merge_sort Z.ge ((λ kv, now - ce_LastUpdated kv.2) <$> map_to_list (cache r))) as Hs.
    fold (sorted_ages now (cache r)) in Hs. pose proof (young_after _ _ _ Hs Ht) as Hy.
    rewrite sorted_ages_length in Hy. fold n in Hy. lia.
  - intros [u Hu]. apply map_empty. intros k. apply map_lookup_filter_None. right. intros e Hk. cbn [snd]. rewrite (Hu k e Hk).
    apply list_elem_of_lookup_2 in Ht. rewrite sorted_ages_perm in Ht. apply list_elem_of_fmap in Ht as ([k' e'] & -> & Hin).
    apply elem_of_map_to_list in Hin. cbn [snd]. rewrite (Hu k' e' Hin). rewrite Z.leb_refl. by intros [=].
Qed.

Lemma cleanup_one_panics now r : base.size (cache r) = 1%nat → doEmergencyCleanup now r = Panic "index out of range".
Proof.
  intros Hn. unfold doEmergencyCleanup. rewrite sorted_ages_length, Hn. cbn [Nat.eqb].
  change (threshold_index 1) with 1%nat. unfold slice_get. rewrite lookup_ge_None_2; [done|].
  rewrite sorted_ages_length. lia.
Qed.

(** ** What the cache adds up *)

Section tallies.
Context (keepUndefined : bool).

Definition flow_value (b : rollupBase) (mapr : gmap string avro) : Z := adjust b (flow_rate mapr) (plain_value b mapr).
Definition values_of (b : rollupBase) (k : string) (seen : list (gmap string avro)) : list Z :=
  flow_value b <$> filter (λ m, getKey keepUndefined b m = k) seen.

(** [entry] sums up the flows of key [k] among [seen]. *)
Record tallied (b : rollupBase) (seen : list (gmap string avro)) (k : string) (entry : CacheEntry) : Prop := {
  ta_key : ce_Key entry = k;
  ta_sum : ce_Sum entry = wrapu 64 (sum_list_Z (values_of b k seen));
  ta_count : ce_Count entry = wrapu 64 (Z.of_nat (length (values_of b k seen)));
  ta_min : ce_Min entry = foldr Z.min maxUint64 (values_of b k seen);
  ta_max : ce_Max entry = foldr Z.max 0 (values_of b k seen) }.

(** The cache has an entry per key seen, the empty key left out. *)
Definition tallies (seen : list (gmap string avro)) (r : CacheRollup) : Prop :=
  cache r !! "" = None ∧
  ∀ k, k ≠ "" → match cache r !! k with
                | Some entry => values_of (c_base r) k seen ≠ [] ∧ tallied (c_base r) seen k entry
                | None => values_of (c_base r) k seen = []
                end.

(** The flows [Add] accepts. *)
Definition countable_flow (m : gmap string avro) : Prop := is_ok (sample_rate m) = true ∧ is_ok (provider m) = true.

Lemma values_of_snoc b k seen m : values_of b k (seen ++ [m]) =
  values_of b k seen ++ (if String.eqb (getKey keepUndefined b m) k then [flow_value b m] else []).
Proof.
  unfold values_of. rewrite filter_app, fmap_app. f_equal. rewrite filter_cons.
  destruct (String.eqb_spec (getKey keepUndefined b m) k); [by rewrite decide_True|by rewrite decide_False].
Qed.

Lemma foldr_min_snoc l x : foldr Z.min maxUint64 (l ++ [x]) = Z.min x (foldr Z.min maxUint64 l).
Proof. induction l as [|y l IH]; cbn [foldr app]; [done|]. rewrite IH. lia. Qed.
Lemma foldr_max_snoc l x : foldr Z.max 0 (l ++ [x]) = Z.max x (foldr Z.max 0 l).
Proof. induction l as [|y l IH]; cbn [foldr app]; [done|]. rewrite IH. lia. Qed.

(** One more flow of the key, on the entry of the flows before it or on a new one. *)
Lemma tallied_step b seen m entry now entry' :
  tallied b seen (getKey keepUndefined b m) entry →
  addStatValues b (touch now entry) m = Ok entry' → tallied b (seen ++ [m]) (getKey keepUndefined b m) entry'.
Proof.
  intros [Hk Hs Hc Hmin Hmax] H. unfold addStatValues in H. apply res_bind_Ok in H as (sr & Hsr & [= <-]).
  assert (flow_value b m = adjust b sr (plain_value b m)) as Hv by (unfold flow_value, flow_rate; by rewrite Hsr).
  split; cbn [ce_Key ce_Sum ce_Count ce_Min ce_Max touch]; [done| | | |];
    rewrite values_of_snoc, String.eqb_refl, <-?Hv.
  - rewrite sum_list_Z_app, Hs. unfold sum_list_Z at 3. cbn [foldr]. unfold wrapu. rewrite Zplus_mod_idemp_l. f_equal. lia.
  - rewrite length_app, Hc. cbn [length]. unfold wrapu. rewrite Zplus_mod_idemp_l. f_equal. lia.
  - rewrite foldr_min_snoc, Hmin. destruct (Z.ltb_spec (flow_value b m) (foldr Z.min maxUint64 (values_of b (getKey keepUndefined b m) seen))); lia.
  - rewrite foldr_max_snoc, Hmax. destruct (Z.ltb_spec (foldr Z.max 0 (values_of b (getKey keepUndefined b m) seen)) (flow_value b m)); lia.
Qed.

Lemma tallied_other b seen m k entry : getKey keepUndefined b m ≠ k → tallied b seen k entry → tallied b (seen ++ [m]) k entry.
Proof.
  intros Hne [Hk Hs Hc Hmin Hmax]. apply String.eqb_neq in Hne.
  split; rewrite ?values_of_snoc, ?Hne, ?app_nil_r; done.
Qed.

Lemma tallied_new b k p now seen : values_of b k seen = [] → tallied b seen k (new_entry k p now).
Proof. intros Hv. split; rewrite ?Hv; done. Qed.

Lemma cache_add_tallies now later r seen m :
  EmergencyCleanup (config r) = false → isUnique r = false → countable_flow m → tallies seen r →
  ∃ r', cache_add keepUndefined now later r m = Ok r' ∧ c_base r' = c_base r ∧ config r' = config r ∧
    isUnique r' = false ∧ tallies (seen ++ [m]) r'.
Proof.
  intros He Hu [Hsr Hp] [H0 Ht]. unfold cache_add. set (key := getKey keepUndefined (c_base r) m).
  destruct (String.eqb_spec key "") as [Hkey|Hkey].
  { exists r. split_and!; [done..|]. split; [done|]. intros k Hk. specialize (Ht k Hk).
    assert (key ≠ k) as Hne by congruence. unfold key in Hne. pose proof (proj2 (String.eqb_neq _ _) Hne) as Hb.
    destruct (cache r !! k) as [e|]; rewrite values_of_snoc, Hb, app_nil_r; [|done].
    destruct Ht as [Hv Ht]. split; [done|]. by apply tallied_other. }
  assert (∃ r1 entry, get_entry now later key m r = Ok (r1, entry) ∧ c_base r1 = c_base r ∧ config r1 = config r ∧
    isUnique r1 = false ∧ cache r1 = <[key := entry]> (cache r) ∧ tallied (c_base r) seen key entry)
    as (r1 & entry & -> & Hb1 & Hc1 & Hu1 & Hm1 & Hta).
  { unfold get_entry. specialize (Ht key Hkey). destruct (cache r !! key) as [e|] eqn:Ek.
    - exists r, e. destruct Ht as [_ Ht]. split_and!; [done..| |done]. by rewrite insert_id.
    - destruct (provider m) as [p| | |]; try done. cbn [mbind res_bind]. unfold shouldDoEmergencyCleanup.
      cbn [with_cache config]. rewrite He. cbn [andb mbind res_bind]. eexists _, _. split_and!; [reflexivity|done..|].
      by apply tallied_new. }
  cbn [mbind res_bind]. rewrite Hu1. unfold addStatValues at 1. destruct (sample_rate m) as [sr| | |] eqn:Esr; try done.
  cbn [mbind res_bind]. set (entry' := mkCacheEntry _ _ _ _ _ _ _ _).
  assert (addStatValues (c_base r) (touch now entry) m = Ok entry') as Hadd.
  { unfold addStatValues. rewrite Esr. cbn [mbind res_bind]. unfold entry'. by rewrite Hb1. }
  apply (tallied_step _ seen) in Hadd; [|exact Hta]. fold key in Hadd.
  eexists. split; [reflexivity|]. rewrite Hm1, lookup_insert_eq, insert_insert_eq. split_and!; [done..|].
  unfold tallies. cbn [with_cache cache c_base]. rewrite Hb1. split; [by rewrite lookup_insert_ne|].
  intros k Hk. destruct (decide (key = k)) as [<-|Hne].
  - rewrite lookup_insert_eq. split; [|exact Hadd]. rewrite values_of_snoc. fold key. rewrite String.eqb_refl.
    by destruct (values_of _ _ _).
  - rewrite lookup_insert_ne by done. specialize (Ht k Hk). pose proof (proj2 (String.eqb_neq _ _) Hne) as Hb.
    destruct (cache r !! k) as [e|]; rewrite values_of_snoc; fold key; rewrite Hb, app_nil_r; [|done].
    destruct Ht as [Hv Ht]. split; [done|]. by apply tallied_other.
Qed.

Lemma cache_loop_tallies now later i r seen l :
  EmergencyCleanup (config r) = false → isUnique r = false → Forall countable_flow l → tallies seen r →
  ∃ r', cache_loop keepUndefined now later i l r = Ok r' ∧ c_base r' = c_base r ∧ config r' = config r ∧
    isUnique r' = false ∧ tallies (seen ++ l) r'.
Proof.
  intros He Hu Hl. revert i r seen He Hu. induction Hl as [|m l Hm Hl IH]; intros i r seen He Hu Ht.
  { exists r. rewrite app_nil_r. done. }
  cbn [cache_loop]. destruct (cache_add_tallies now (later i) r seen m He Hu Hm Ht) as (r1 & -> & Hb & Hc & Hu1 & Ht1).
  cbn [mbind res_bind]. destruct (IH (S i) r1 (seen ++ [m])) as (r2 & -> & Hb2 & Hc2 & Hu2 & Ht2); [by rewrite Hc|done|done|].
  exists r2. rewrite <-(assoc_L (++)) in Ht2. cbn [app] in Ht2. split_and!; congruence || done.
Qed.

(** Batches added one after the other, each with its own clock readings. *)
Fixpoint add_batches (batches : list (Z * (nat → Z) * list (gmap string avro))) (r : CacheRollup) : res CacheRollup :=
  match batches with
  | [] => Ok r
  | (now, later, l) :: batches => r ← Cache_Add keepUndefined now later l r; add_batches batches r
  end.

Lemma add_batches_tallies batches r seen :
  EmergencyCleanup (config r) = false → isUnique r = false → hasFilters (c_base r) = false →
  Forall (λ b, Forall countable_flow b.2) batches → tallies seen r →
  ∃ r', add_batches batches r = Ok r' ∧ c_base r' = c_base r ∧ tallies (seen ++ concat (snd <$> batches)) r'.
Proof.
  intros He Hu Hf Hl. revert r seen He Hu Hf. induction Hl as [|[[now later] l] batches Hm Hl IH]; intros r seen He Hu Hf Ht.
  { exists r. rewrite app_nil_r. done. }
  cbn [add_batches snd] in *. unfold Cache_Add, filtered. rewrite Hf. cbn [mbind res_bind].
  destruct (cache_loop_tallies now later 0 r seen l He Hu Hm Ht) as (r1 & -> & Hb & Hc & Hu1 & Ht1). cbn [mbind res_bind].
  destruct (IH r1 (seen ++ l)) as (r2 & -> & Hb2 & Ht2); [by rewrite Hc|done|by rewrite Hb|done|].
  exists r2. rewrite <-(assoc_L (++)) in Ht2. split_and!; [done|congruence|]. rewrite fmap_cons. done.
Qed.

(** Without emergency cleanups a cache of sums never fails and tallies every
    flow: an entry for each key seen but the empty one, with the sum of its flows'
    values and their number modulo 2^64, and their least and greatest value. *)
Theorem cache_tallies rd join cfg r0 batches (Hr : newCacheRollup rd join cfg false = Ok r0)
    (He : EmergencyCleanup cfg = false) (Hl : Forall (λ b, Forall countable_flow b.2) batches) :
  ∃ r, add_batches batches r0 = Ok r ∧ tallies (concat (snd <$> batches)) r.
Proof.
  unfold newCacheRollup in Hr. apply res_bind_Ok in Hr as (b & Hb & [= <-]).
  assert (hasFilters b = false) as Hf.
  { unfold base_init in Hb. apply res_bind_Ok in Hb as (ds & _ & Hb). apply res_bind_Ok in Hb as ([[p m] s] & _ & [= <-]). done. }
  destruct (add_batches_tallies batches (mkCacheRollup b ∅ cfg false 0) [] He eq_refl Hf Hl) as (r & E & _ & Ht); [|by exists r].
  split; [apply lookup_empty|]. intros k Hk. cbn [cache]. by rewrite lookup_empty.
Qed.
End tallies.

(** ** The theorems on a concrete cache *)

Definition ex_def : RollupDef :=
  {| Sample := true; Method := "cache"; Metrics := ["in_bytes"]; Dimensions := ["dst_addr"]; NameSet := ["total"] |}.
Definition ex_cache (m : gmap string CacheEntry) (mem : Z) (maxKeys : Z) : CacheRollup :=
  {| c_base := ex_base ["total"] ["in_bytes"] false; cache := m; isUnique := false; memoryUsage := mem;
     config := {| TopK := 10; EmergencyCleanup := true; MaxMemoryMB := 0; MaxKeys := maxKeys |} |}.

Lemma cache_tallies_witness : ∃ r0 r,
  newCacheRollup ex_def "^" {| TopK := 10; EmergencyCleanup := false; MaxMemoryMB := 0; MaxKeys := 0 |} false = Ok r0 ∧
  add_batches false [(5, λ _, 6, ex_added); (9, λ _, 9, ex_added)] r0 = Ok r ∧ tallies false (ex_added ++ ex_added) r.
Proof.
  eexists. destruct (cache_tallies false ex_def "^" {| TopK := 10; EmergencyCleanup := false; MaxMemoryMB := 0; MaxKeys := 0 |} _
    [(5, λ _, 6, ex_added); (9, λ _, 9, ex_added)] eq_refl eq_refl) as (r & E & Ht).
  - repeat (apply Forall_cons; split); first [by split|by apply Forall_nil].
  - exists r. split; [reflexivity|]. split; [exact E|exact Ht].
Defined.

(** Three keys where two are allowed: a cleanup runs during the third flow. *)
Definition ex_keys : list (gmap string avro) := [ex_flow "a" 1 1; ex_flow "b" 2 1; ex_flow "c" 3 1].
Lemma memory_is_exact_witness : ∃ r', cache_loop false 5 (λ _, 6) 0 ex_keys (ex_cache ∅ 0 2) = Ok r' ∧
  cache r' = ∅ ∧ memory_exact r' ∧ isUnique r' = false.
Proof.
  eexists. split; [vm_compute; reflexivity|]. split; [reflexivity|].
  eapply (memory_is_exact false 5 (λ _, 6) 0 ex_keys (ex_cache ∅ 0 2)); [reflexivity|reflexivity|].
  vm_compute. reflexivity.
Defined.

Definition ex_entries : gmap string CacheEntry :=
  <["a" := new_entry "a" "router" 5]> (<["b" := new_entry "b" "router" 5]> {["c" := new_entry "c" "router" 5]}).
Lemma cleanup_more_than_half_witness : ∃ r',
  doEmergencyCleanup 7 (ex_cache ex_entries 453 2) = Ok r' ∧ cache r' = ∅.
Proof.
  destruct (cleanup_more_than_half 7 (ex_cache ex_entries 453 2)) as (r' & t & E & _ & _ & H).
  - vm_compute. lia.
  - exists r'. split; [exact E|]. apply H. exists 5.
    intros k e Hk. cbn [ex_cache cache] in Hk. unfold ex_entries in Hk. repeat (apply lookup_insert_Some in Hk as [[_ <-]|[_ Hk]]; [reflexivity|]).
    by apply lookup_singleton_Some in Hk as [_ <-].
Defined.
