(* ===== verification/Pipeline.v ===== *)
(** The flow pipeline (src/pkg/cat/kkc.go): a batch of flows is filtered, added to the
    rollups, sampled, and handed to the formatter in messages of bounded size.

    The service modelled has no enrichment configured and additive rollups only; its
    formatter is a function from flows to an output, as the NetFlow formatter is.
    [rand.Shuffle] is a permutation chosen by the caller.  An [int] has 64 bits; the
    two computations through float64 are exact below 2^51. *)
From S2P Require Import Prelude GoStrings GoNet Jchf Ic Session.
From S2P Require Import Translate TranslateTables NetflowDecoder NetflowFormat NetflowRoundtrip.
From S2P Require Filter Rollup Ipfix Netflow9.
Local Open Scope Z_scope.

(** ** Message sizes *)

Definition effectiveMaxFlowsPerMessage (n : Z) : Z := if n <=? 0 then 1 else n.

(** The loop of [jchfExportSliceBounds]. *)
Fixpoint bounds_loop (fuel : nat) (batchSize keep last next : Z) : res (list (Z * Z)) :=
  match fuel with
  | O => OutOfFuel
  | S fuel =>
      if next <? wraps 64 (keep + batchSize) then
        let batch := if keep <? next then keep else next in
        if batch =? keep then Ok [(last, batch)]
        else
          rest ← bounds_loop fuel batchSize keep next (wraps 64 (next + batchSize));
          Ok ((last, batch) :: rest)
      else Ok []
  end.

Definition jchfExportSliceBounds (fuel : nat) (batchSize keep : Z) : res (list (Z * Z)) :=
  let batchSize := effectiveMaxFlowsPerMessage batchSize in
  bounds_loop fuel batchSize keep 0 batchSize.

(** [msgs[lo:hi]]. *)
Definition slice_range {A} (msgs : list A) (lo hi : Z) : res (list A) :=
  if (0 <=? lo) && (lo <=? hi) && (hi <=? Z.of_nat (length msgs))
  then Ok (take (Z.to_nat (hi - lo)) (drop (Z.to_nat lo) msgs))
  else Panic "slice bounds out of range".

(** A batch is formatted; a formatter's error is logged, no output is fine. *)
Fixpoint export_spans (seri : list JCHF → res (option Output)) (msgs : list JCHF) (spans : list (Z * Z)) :
    res (list Output) :=
  match spans with
  | [] => Ok []
  | (lo, hi) :: spans =>
      part ← slice_range msgs lo hi;
      match seri part with
      | Ok (Some ser) => rest ← export_spans seri msgs spans; Ok (ser :: rest)
      | Ok None | Err _ => export_spans seri msgs spans
      | Panic why => Panic why
      | OutOfFuel => OutOfFuel
      end
  end.

Definition exportJchfBatches (fuel : nat) (maxFlows : Z) (seri : list JCHF → res (option Output))
    (msgs : list JCHF) (keep : Z) : res (list Output) :=
  spans ← jchfExportSliceBounds fuel maxFlows keep; export_spans seri msgs spans.

(** The size after a sink's complaint ([sendToSinks]). *)
Definition tooBig (maxFlows : Z) : Z := Z.max (3 * maxFlows / 4) 1.

(** The size after [LoadConfig] (src/config.go). *)
Definition MaxNetflowsPerMessage : Z := 510.
Definition loaded_size (format : string) (maxFlows : Z) : Z :=
  if String.eqb format "netflow" && ((maxFlows <=? 0) || (MaxNetflowsPerMessage <? maxFlows))
  then MaxNetflowsPerMessage else maxFlows.

(** ** Filtering *)

Fixpoint msg_passes (filters : list Filter.FilterWrapper) (msg : JCHF) : res (JCHF * bool) :=
  match filters with
  | [] => Ok (msg, true)
  | f :: filters =>
      '(msg, b) ← Filter.Wrapper_Filter f msg;
      if b : bool then msg_passes filters msg else Ok (msg, false)
  end.

Fixpoint reduce (filters : list Filter.FilterWrapper) (l : list JCHF) : res (list JCHF) :=
  match l with
  | [] => Ok []
  | msg :: l =>
      '(msg, keep) ← msg_passes filters msg;
      out ← reduce filters l;
      Ok (if keep : bool then msg :: out else out)
  end.

(** ** Filters and rollups of the configuration ([NewKTranslate]) *)

Definition set_filter (f : Filter.FilterWrapper) (roll : Rollup.StatsRollup) : Rollup.StatsRollup :=
  if String.eqb (Filter.Wrapper_GetName f) (Rollup.GetName (Rollup.base roll))
  then {| Rollup.base := Rollup.SetFilter f (Rollup.base roll); Rollup.kvs := Rollup.kvs roll;
          Rollup.worker := Rollup.worker roll |}
  else roll.

Fixpoint assign_filters (filters : list Filter.FilterWrapper) (fullSet : list Filter.FilterWrapper)
    (rolls : list Rollup.StatsRollup) : list Filter.FilterWrapper * list Rollup.StatsRollup :=
  match filters with
  | [] => (fullSet, rolls)
  | f :: filters =>
      if String.eqb (Filter.Wrapper_GetName f) "" then assign_filters filters (fullSet ++ [f]) rolls
      else assign_filters filters fullSet (set_filter f <$> rolls)
  end.

(** ** One batch of flows *)

Record KTranslate := mkKTranslate {
  filters : list Filter.FilterWrapper;
  doFilter : bool;
  rollups : list Rollup.StatsRollup;
  doRollups : bool;
  RollupAndAlpha : bool;
  SampleRate_ : Z;
  SampleMin : Z;
  MaxFlowsPerMessage : Z }.

Definition NewKTranslate (fs : list Filter.FilterWrapper) (rolls : list Rollup.StatsRollup)
    (rollupAndAlpha : bool) (sampleRate sampleMin maxFlows : Z) : KTranslate :=
  let '(fullSet, rolls) := assign_filters fs [] rolls in
  {| filters := fullSet; doFilter := (0 <? length fullSet)%nat;
     rollups := rolls; doRollups := (0 <? length rolls)%nat; RollupAndAlpha := rollupAndAlpha;
     SampleRate_ := sampleRate; SampleMin := sampleMin; MaxFlowsPerMessage := maxFlows |}.

Fixpoint to_maps (msgs : list JCHF) : res (list JCHF * list (gmap string avro)) :=
  match msgs with
  | [] => Ok ([], [])
  | msg :: msgs =>
      '(msg, m) ← ToMap msg; '(msgs, rv) ← to_maps msgs; Ok (msg :: msgs, m :: rv)
  end.

Definition with_rollups (rolls : list Rollup.StatsRollup) (kc : KTranslate) : KTranslate :=
  {| filters := filters kc; doFilter := doFilter kc; rollups := rolls; doRollups := doRollups kc;
     RollupAndAlpha := RollupAndAlpha kc; SampleRate_ := SampleRate_ kc; SampleMin := SampleMin kc;
     MaxFlowsPerMessage := MaxFlowsPerMessage kc |}.

Definition scale_rate (rate : Z) (msg : JCHF) : JCHF :=
  msg <| SampleRate := wrapu 32 (SampleRate msg * wrapu 32 rate) |>.

(** The flows and how many of them are kept. *)
Definition sample_flows (shuffle : list JCHF → list JCHF) (kc : KTranslate) (msgs : list JCHF) : list JCHF * Z :=
  let keep := Z.of_nat (length msgs) in
  let doSample := (1 <? keep) && match msgs with msg :: _ => ApplySample msg | [] => false end in
  if doSample && (1 <? SampleRate_ kc) && (SampleMin kc <? keep)
  then (scale_rate (SampleRate_ kc) <$> shuffle msgs, Z.max (keep / SampleRate_ kc) 1)
  else (msgs, keep).

Definition handleInput (fuel : nat) (keepUndefined : bool) (shuffle : list JCHF → list JCHF)
    (seri : list JCHF → res (option Output)) (kc : KTranslate) (msgs : list JCHF) : res (KTranslate * list Output) :=
  msgs ← (if doFilter kc then reduce (filters kc) msgs else Ok msgs);
  '(msgs, rolls) ←
    (if doRollups kc then
       '(msgs, rv) ← to_maps msgs;
       rolls ← res_mapM (Rollup.Add keepUndefined rv) (rollups kc);
       Ok (msgs, rolls)
     else Ok (msgs, rollups kc));
  let kc := with_rollups rolls kc in
  if negb (doRollups kc) || RollupAndAlpha kc then
    let '(msgs, keep) := sample_flows shuffle kc msgs in
    outs ← exportJchfBatches fuel (MaxFlowsPerMessage kc) seri msgs keep;
    Ok (kc, outs)
  else Ok (kc, []).

(** ** Batches *)

(** [parts] are the batches [spans] cut out of [msgs]. *)
Definition cuts {A} (msgs : list A) (b : Z) (spans : list (Z * Z)) (parts : list (list A)) : Prop :=
  Forall2 (λ s part, slice_range msgs s.1 s.2 = Ok part ∧ (0 < length part)%nat ∧ Z.of_nat (length part) ≤ b) spans parts.

Lemma slice_range_ok {A} (msgs : list A) lo hi : 0 ≤ lo → lo ≤ hi → hi ≤ Z.of_nat (length msgs) →
  slice_range msgs lo hi = Ok (take (Z.to_nat (hi - lo)) (drop (Z.to_nat lo) msgs)).
Proof. intros H1 H2 H3. unfold slice_range. by rewrite !(proj2 (Z.leb_le _ _)). Qed.

Lemma cut_length {A} (msgs : list A) lo hi : 0 ≤ lo → lo ≤ hi → hi ≤ Z.of_nat (length msgs) →
  Z.of_nat (length (take (Z.to_nat (hi - lo)) (drop (Z.to_nat lo) msgs))) = hi - lo.
Proof. intros H1 H2 H3. rewrite length_take, length_drop. lia. Qed.

Lemma bounds_loop_cuts {A} (msgs : list A) fuel b keep last :
  0 < b → keep + b < 2 ^ 63 → 0 ≤ last → last ≤ keep → keep ≤ Z.of_nat (length msgs) →
  keep - last < Z.of_nat fuel → (last = keep → keep = 0) →
  ∃ spans parts, bounds_loop fuel b keep last (last + b) = Ok spans ∧ cuts msgs b spans parts ∧
    concat parts = take (Z.to_nat (keep - last)) (drop (Z.to_nat last) msgs).
Proof.
  intros Hb Ho. revert last. induction fuel as [|fuel IH]; intros last H0 Hl Hk Hf Hz; [lia|].
  cbn [bounds_loop]. rewrite (wraps_id 64 (keep + b)) by (unfold in_s; lia).
  destruct (Z.ltb_spec (last + b) (keep + b)) as [Hlt|Hge].
  2: { exists [], []. split_and!; [done|constructor|]. by replace (keep - last) with 0 by lia. }
  destruct (Z.ltb_spec keep (last + b)) as [Hlast|Hmore].
  - rewrite Z.eqb_refl. exists [(last, keep)], [take (Z.to_nat (keep - last)) (drop (Z.to_nat last) msgs)].
    pose proof (cut_length msgs last keep H0 Hl Hk). split_and!; [done| |cbn; by rewrite app_nil_r].
    constructor; [|constructor]. cbn [fst snd]. split_and!; [by apply slice_range_ok|lia|lia].
  - assert (last + b ≤ Z.of_nat (length msgs)) as Hlb by lia.
    pose proof (slice_range_ok msgs last (last + b) H0 ltac:(lia) Hlb) as Hs.
    pose proof (cut_length msgs last (last + b) H0 ltac:(lia) Hlb) as Hc. set (part := take _ _) in *.
    destruct (Z.eqb_spec (last + b) keep) as [Heq|Hne].
    + exists [(last, last + b)], [part]. split_and!; [done| |].
      * constructor; [|constructor]. cbn [fst snd]. split_and!; [done|lia|lia].
      * cbn [concat]. rewrite app_nil_r. unfold part. by rewrite Heq.
    + rewrite (wraps_id 64 (last + b + b)) by (unfold in_s; lia).
      destruct (IH (last + b)) as (spans & parts & -> & Hcuts & Hcat); try lia.
      exists ((last, last + b) :: spans), (part :: parts). split_and!; [done| |].
      * constructor; [|done]. cbn [fst snd]. split_and!; [done|lia|lia].
      * cbn [concat]. rewrite Hcat. unfold part.
        replace (Z.to_nat (keep - last)) with (Z.to_nat (last + b - last) + Z.to_nat (keep - (last + b)))%nat by lia.
        rewrite <-take_take_drop, drop_drop. do 2 f_equal. f_equal. lia.
Qed.

(** What a formatter makes of the batches. *)
Fixpoint outputs (seri : list JCHF → res (option Output)) (parts : list (list JCHF)) : list Output :=
  match parts with
  | [] => []
  | part :: parts =>
      match seri part with Ok (Some ser) => ser :: outputs seri parts | _ => outputs seri parts end
  end.

Lemma export_spans_cuts seri msgs b spans parts : cuts msgs b spans parts → (∀ part, settled (seri part)) →
  export_spans seri msgs spans = Ok (outputs seri parts).
Proof.
  intros H Hs. induction H as [|[lo hi] part spans parts (Hsl & _ & _) _ IH]; [done|].
  cbn [export_spans outputs fst snd] in *. rewrite Hsl. cbn [mbind res_bind]. specialize (Hs part).
  destruct (seri part) as [[ser|]| | |]; try done. by rewrite IH.
Qed.

Lemma exportJchfBatches_parts fuel maxFlows seri msgs keep :
  (∀ part, settled (seri part)) → 0 ≤ keep ≤ Z.of_nat (length msgs) → keep < Z.of_nat fuel →
  keep + effectiveMaxFlowsPerMessage maxFlows < 2 ^ 63 →
  ∃ parts, concat parts = take (Z.to_nat keep) msgs ∧
    Forall (λ part, (0 < length part)%nat ∧ Z.of_nat (length part) ≤ effectiveMaxFlowsPerMessage maxFlows) parts ∧
    exportJchfBatches fuel maxFlows seri msgs keep = Ok (outputs seri parts).
Proof.
  intros Hs [H0 Hk] Hf Ho. unfold exportJchfBatches, jchfExportSliceBounds.
  assert (0 < effectiveMaxFlowsPerMessage maxFlows) as Hb
    by (unfold effectiveMaxFlowsPerMessage; destruct (Z.leb_spec maxFlows 0); lia).
  destruct (bounds_loop_cuts msgs fuel (effectiveMaxFlowsPerMessage maxFlows) keep 0) as (spans & parts & E & Hcuts & Hcat);
    try lia. rewrite Z.add_0_l in E. rewrite E. cbn [mbind res_bind]. exists parts. split_and!.
  - rewrite Hcat, Z.sub_0_r. by rewrite drop_0.
  - clear -Hcuts. induction Hcuts as [|s part spans parts (_ & H1 & H2) _ IH]; constructor; eauto.
  - by eapply export_spans_cuts.
Qed.

(** ** Filtering *)

(** The rendering of a flow, whether cached or not. *)
Definition view (j : JCHF) : gmap string avro := match ToMap j with Ok (_, m) => m | _ => ∅ end.
Definition holds (m : gmap string avro) (f : Filter.Filter) : bool :=
  match Filter.FilterMap f m with Ok b => b | _ => false end.
(** Every wrapper has a filter that holds. *)
Definition accepts (fs : list Filter.FilterWrapper) (m : gmap string avro) : bool := forallb (existsb (holds m)) fs.

(** [j'] is [j] with its rendering cached. *)
Definition cached (j j' : JCHF) : Prop := ToMap j = Ok (j', view j).

Lemma ToMap_view j j' m : ToMap j = Ok (j', m) → cached j j' ∧ m = view j.
Proof. intros H. unfold cached, view. by rewrite H. Qed.
Lemma cached_again j j' : cached j j' → ToMap j' = Ok (j', view j) ∧ view j' = view j.
Proof.
  intros H. assert (ToMap j' = Ok (j', view j)) as E; [|split; [done|unfold view at 1; by rewrite E]].
  unfold cached in H. revert H. generalize (view j). intros m. unfold ToMap. destruct (hasSetAvro j) eqn:Es.
  - intros [= <- <-]. by rewrite Es.
  - destruct (avroSet j) as [m0|]; [|done]. generalize (foldl (λ m kv, <[kv.1:=kv.2]> m) m0 (avro_rows j)).
    intros m1. intros [= <- <-]. reflexivity.
Qed.
Lemma cached_stale j j' rate : cached j j' → ToMap (j' <| SampleRate := rate |>) = Ok (j' <| SampleRate := rate |>, view j).
Proof.
  intros H. apply cached_again in H as [H _]. revert H. generalize (view j). intros m. unfold ToMap.
  change (hasSetAvro (j' <| SampleRate := rate |>)) with (hasSetAvro j').
  change (avroSet (j' <| SampleRate := rate |>)) with (avroSet j').
  destruct (hasSetAvro j') eqn:Es; [by intros [= <-]|].
  destruct (avroSet j') as [m0|]; [|done]. generalize (foldl (λ m kv, <[kv.1:=kv.2]> m) m0 (avro_rows j')).
  intros m1 [= Ej _]. apply (f_equal hasSetAvro) in Ej. rewrite Es in Ej. done.
Qed.

(** A flow is answered for: it renders, and no filter panics on it. *)
Definition answered (fs : list Filter.FilterWrapper) (j : JCHF) : Prop :=
  is_ok (ToMap j) = true ∧ ∀ w f, w ∈ fs → f ∈ w → is_ok (Filter.FilterMap f (view j)) = true.

Lemma Wrapper_Filter_answer w j : is_ok (ToMap j) = true → (∀ f, f ∈ w → is_ok (Filter.FilterMap f (view j)) = true) →
  ∃ j', Filter.Wrapper_Filter w j = Ok (j', existsb (holds (view j)) w) ∧ (j' = j ∨ cached j j') ∧ (w ≠ [] → cached j j').
Proof.
  revert j. induction w as [|f w IH]; intros j Ht Hf; [exists j; split_and!; [done|by left|done]|].
  cbn [Filter.Wrapper_Filter existsb]. unfold Filter.Filter_JCHF at 1.
  destruct (ToMap j) as [[j1 m]| | |] eqn:E; try done. apply ToMap_view in E as [Hc ->]. cbn [mbind res_bind].
  pose proof (cached_again _ _ Hc) as [Ha Hv]. pose proof (Hf f ltac:(left)) as Hok. unfold holds at 1.
  destruct (Filter.FilterMap f (view j)) as [b| | |]; try done. cbn [mbind res_bind].
  destruct b; [exists j1; split_and!; auto|].
  destruct (IH j1) as (j' & E & Hj' & _).
  { by rewrite Ha. }
  { intros f' Hf'. rewrite Hv. apply Hf. by right. }
  rewrite E, Hv. assert (j' = j1) as ->.
  { destruct Hj' as [->|Hj']; [done|]. unfold cached in Hj'. rewrite Ha in Hj'. by injection Hj'. }
  exists j1. split_and!; auto.
Qed.

Lemma msg_passes_answer fs j : answered fs j →
  ∃ j', msg_passes fs j = Ok (j', accepts fs (view j)) ∧ (j' = j ∨ cached j j') ∧ (accepts fs (view j) = true → fs ≠ [] → cached j j').
Proof.
  revert j. induction fs as [|w fs IH]; intros j [Ht Hf]; [exists j; split_and!; [done|by left|done]|].
  cbn [msg_passes]. destruct (Wrapper_Filter_answer w j Ht) as (j1 & E & Hj1 & Hw).
  { intros f Hin. apply (Hf w f); [left|done]. }
  rewrite E. cbn [mbind res_bind]. unfold accepts at 1. cbn [forallb].
  destruct (existsb (holds (view j)) w) eqn:Eb; cbn [andb]; [|exists j1; split_and!; [done|done|]; unfold accepts; cbn [forallb]; by rewrite Eb].
  assert (cached j j1) as Hc by (apply Hw; by destruct w).
  pose proof (cached_again _ _ Hc) as [Ha Hv]. destruct (IH j1) as (j' & -> & Hj' & _).
  { split; [by rewrite Ha|]. intros w' f' H1 H2. rewrite Hv. by apply (Hf w' f'); [right|]. }
  rewrite Hv. assert (j' = j1) as ->.
  { destruct Hj' as [->|Hj']; [done|]. unfold cached in Hj'. rewrite Ha in Hj'. by injection Hj'. }
  exists j1. split_and!; auto.
Qed.

Lemma reduce_kept fs l (Hne : fs ≠ []) (Ha : Forall (answered fs) l) :
  ∃ out, reduce fs l = Ok out ∧ Forall2 cached (filter (λ j, accepts fs (view j) = true) l) out.
Proof.
  induction Ha as [|j l Hj _ (out & E & IH)]; [exists []; by split|].
  cbn [reduce]. destruct (msg_passes_answer fs j Hj) as (j' & -> & _ & Hc). cbn [mbind res_bind].
  rewrite E. cbn [mbind res_bind]. rewrite filter_cons. destruct (accepts fs (view j)).
  - exists (j' :: out). rewrite decide_True by done. split; [done|]. constructor; [|done]. by apply Hc.
  - exists out. rewrite decide_False by done. done.
Qed.

(** Filtering a batch keeps, in order, exactly the flows for which every wrapper
    has a filter that holds: an and of ors. The kept flows are rendered. *)
Theorem reduce_cnf fs l (Hne : fs ≠ []) (Ha : Forall (answered fs) l) :
  ∃ out, reduce fs l = Ok out ∧ Forall2 cached (filter (λ j, accepts fs (view j) = true) l) out.
Proof. by apply reduce_kept. Qed.

(** ** Sampling *)

Lemma cached_rate j j' : cached j j' → SampleRate j' = SampleRate j.
Proof.
  unfold cached. generalize (view j). intros m. unfold ToMap. destruct (hasSetAvro j); [by intros [= <-]|].
  destruct (avroSet j) as [m0|]; [|done]. generalize (foldl (λ m kv, <[kv.1:=kv.2]> m) m0 (avro_rows j)).
  intros m1 [= <- _]. reflexivity.
Qed.

Lemma sample_flows_inv shuffle kc msgs flows keep : sample_flows shuffle kc msgs = (flows, keep) →
  (flows = msgs ∧ keep = Z.of_nat (length msgs)) ∨
  (flows = scale_rate (SampleRate_ kc) <$> shuffle msgs ∧ keep = Z.max (Z.of_nat (length msgs) / SampleRate_ kc) 1 ∧
   1 < SampleRate_ kc ∧ 1 < Z.of_nat (length msgs)).
Proof.
  unfold sample_flows. destruct (Z.ltb_spec 1 (Z.of_nat (length msgs))); [|by intros [= <- <-]; left].
  destruct (match msgs with msg :: _ => ApplySample msg | [] => false end); [|by intros [= <- <-]; left].
  destruct (Z.ltb_spec 1 (SampleRate_ kc)); [|by intros [= <- <-]; left].
  destruct (_ <? _); [|by intros [= <- <-]; left]. intros [= <- <-]. by right.
Qed.

Lemma sample_flows_keep shuffle kc msgs flows keep : shuffle msgs ≡ₚ msgs → sample_flows shuffle kc msgs = (flows, keep) →
  0 ≤ keep ≤ Z.of_nat (length flows).
Proof.
  intros Hp [(-> & ->)|(-> & -> & Hr & Hl)]%sample_flows_inv; [lia|].
  rewrite length_fmap, Hp. pose proof (Z.div_le_upper_bound (Z.of_nat (length msgs)) (SampleRate_ kc) (Z.of_nat (length msgs)) ltac:(lia) ltac:(nia)). lia.
Qed.

Lemma fresh_view_rate j : Filter.fresh j → view j !! "sample_rate" = Some (AInt64 (wraps 64 (SampleRate j))).
Proof.
  intros [Hs [m0 Ha]]. destruct (ToMap_lookup j m0 Hs Ha) as (j' & m & E & Hm & _).
  unfold view. rewrite E. apply Hm. unfold avro_rows. solve_row.
Qed.

(** Filtering renders a flow, so the sample rate that sampling multiplies in
    afterwards is not in the map the formatters see: each sampled flow carries the
    scaled rate in its field and the old rate in its map. *)
Theorem sampling_after_rendering kc shuffle msgs out flows keep
    (Hne : filters kc ≠ []) (Ha : Forall (answered (filters kc)) msgs) (Hf : Forall Filter.fresh msgs)
    (Hred : reduce (filters kc) msgs = Ok out) (Hsh : shuffle out ≡ₚ out)
    (Hs : sample_flows shuffle kc out = (flows, keep)) (Hk : keep < Z.of_nat (length out)) :
  Forall (λ j, ∃ j0 m, j0 ∈ msgs ∧ SampleRate j = wrapu 32 (SampleRate j0 * wrapu 32 (SampleRate_ kc)) ∧
    ToMap j = Ok (j, m) ∧ m !! "sample_rate" = Some (AInt64 (wraps 64 (SampleRate j0)))) flows.
Proof.
  destruct (reduce_kept _ _ Hne Ha) as (out' & E & Hc). rewrite E in Hred. injection Hred as ->.
  apply sample_flows_inv in Hs as [(_ & ->)|(-> & _)]; [lia|].
  apply Forall_forall. intros j (j1 & -> & Hj)%list_elem_of_fmap. rewrite Hsh in Hj.
  apply list_elem_of_lookup in Hj as [i Hi]. destruct (Forall2_lookup_r _ _ _ _ _ Hc Hi) as (j0 & Hj0 & Hcj).
  apply list_elem_of_lookup_2, list_elem_of_filter in Hj0 as [_ Hj0]. exists j0, (view j0). split_and!; [done| | |].
  - unfold scale_rate. by rewrite <-(cached_rate _ _ Hcj).
  - by apply cached_stale.
  - apply fresh_view_rate. rewrite Forall_forall in Hf. by apply Hf.
Qed.

(** ** From flows to NetFlow messages and back *)

Section netflow.
Context `{ProtoOrder}.

Lemma To_version f g msgs : nf_version f = nf_version g → To f msgs = To g msgs.
Proof. intros E. unfold To, pack9, packIpfix. by rewrite E. Qed.

Lemma To_settled f part : nf_version f = Ipfix.Version ∨ nf_version f = Netflow9.Version → settled (To f part).
Proof.
  intros [Hv|Hv]; unfold To; rewrite Hv.
  - change (Ipfix.Version =? Netflow9.Version) with false. change (Ipfix.Version =? Ipfix.Version) with true. cbn iota.
    unfold packIpfix. rewrite Hv. destruct part; [done|]. by rewrite pack_flows_ipfix.
  - change (Netflow9.Version =? Netflow9.Version) with true. cbn iota. unfold pack9. by rewrite Hv, pack_flows_v9.
Qed.

(** [out] decodes to the flows of [part], whatever the receiver knows already. *)
Definition decodes_to (v : Z) (out : Output) (part : list JCHF) : Prop :=
  ∀ g s, nf_version g = v → nf_session g = Some s → ∃ g', From 1 g (Body out) = (g', Ok (rendered <$> part)).

(** What the receiver of a message gets of the flows in it: the length of an IPFIX set
    has 16 bits, and a record has 128 bytes. *)
Definition received (v : Z) (part : list JCHF) : list JCHF :=
  if v =? Ipfix.Version then take (length part mod 512) part else part.

Lemma received_all v part : (length part < 512)%nat → received v part = part.
Proof. intros Hl. unfold received. case_match; [|done]. rewrite Nat.mod_small by done. by apply take_ge. Qed.

Lemma To_decodes f part : nf_version f = Ipfix.Version ∨ nf_version f = Netflow9.Version →
  (0 < length part)%nat → (nf_version f = Netflow9.Version → Z.of_nat (length part) < 65535) →
  ∃ out, To f part = Ok (Some out) ∧ decodes_to (nf_version f) out (received (nf_version f) part).
Proof.
  intros Hv H0 H1. assert (part ≠ []) as Hne by (intros ->; cbn in H0; lia). unfold received.
  assert (∃ out, To f part = Ok (Some out)) as [out E].
  { set (g := mkNetflowFormat (Some New) ∅ (nf_version f)). rewrite (To_version f g) by done. destruct Hv as [Hv|Hv].
    - destruct (From_To_ipfix 1 g part New) as (out & _ & E & _); [done|done|done|done|by exists out].
    - destruct (From_To_v9 1 g part New) as (out & _ & E & _); [done|done|done|by apply H1|by exists out]. }
  exists out. split; [done|]. intros g s Hg Hs. rewrite (To_version f g) in E by done. destruct Hv as [Hv|Hv]; rewrite Hv.
  - destruct (From_To_ipfix 1 g part s) as (out' & g' & E' & Hd & _); [congruence|done|done|done|].
    rewrite E in E'. injection E' as ->. by exists g'.
  - destruct (From_To_v9 1 g part s) as (out' & g' & E' & Hd & _); [congruence|done|done|by apply H1|].
    rewrite E in E'. injection E' as ->. by exists g'.
Qed.

Lemma outputs_decode f parts : nf_version f = Ipfix.Version ∨ nf_version f = Netflow9.Version →
  Forall (λ part, (0 < length part)%nat ∧ (nf_version f = Netflow9.Version → Z.of_nat (length part) < 65535)) parts →
  Forall2 (decodes_to (nf_version f)) (outputs (To f) parts) (received (nf_version f) <$> parts).
Proof.
  intros Hv. induction 1 as [|part parts [H0 H1] _ IH]; [constructor|]. cbn [outputs fmap list_fmap].
  destruct (To_decodes f part Hv H0 H1) as (out & -> & Hd). by constructor.
Qed.

Lemma loaded_size_small maxFlows : 1 ≤ effectiveMaxFlowsPerMessage (loaded_size "netflow" maxFlows) ≤ 510.
Proof.
  unfold loaded_size, MaxNetflowsPerMessage, effectiveMaxFlowsPerMessage. cbn [String.eqb Ascii.eqb Bool.eqb andb].
  destruct (Z.leb_spec maxFlows 0), (Z.ltb_spec 510 maxFlows); cbn [orb]; case_match eqn:E; lia.
Qed.

(** What goes on from the rollups of a batch. *)
Definition rolled (keepUndefined : bool) (kc : KTranslate) (msgs : list JCHF) : res (list JCHF * list Rollup.StatsRollup) :=
  if doRollups kc then
    '(msgs, rv) ← to_maps msgs; rolls ← res_mapM (Rollup.Add keepUndefined rv) (rollups kc); Ok (msgs, rolls)
  else Ok (msgs, rollups kc).

(** C5: A service that exports NetFlow 9 or IPFIX cuts the flows of a batch that pass its
    filters and its sampling, in order, into messages no larger than configured, unless
    it makes rollups only. Every receiver decodes a message of NetFlow 9 to all its
    flows, and one of IPFIX to the first [n mod 512] of its [n]. So no flow is lost
    when messages have at most 511 flows, as they have whatever is configured when
    [LoadConfig] reads the configuration; with the default 10000 of the flags a message
    of IPFIX may lose flows. A batch is what the enrichment leaves of it. *)
Theorem netflow_export fuel keepUndefined shuffle f kc msgs kept shown rolls flows keep
    (Hv : nf_version f = Ipfix.Version ∨
          nf_version f = Netflow9.Version ∧ effectiveMaxFlowsPerMessage (MaxFlowsPerMessage kc) < 65535)
    (Hsh : ∀ l, shuffle l ≡ₚ l)
    (Hred : (if doFilter kc then reduce (filters kc) msgs else Ok msgs) = Ok kept)
    (Hroll : rolled keepUndefined kc kept = Ok (shown, rolls))
    (Hs : sample_flows shuffle kc shown = (flows, keep))
    (Hl : Z.of_nat (length flows) + effectiveMaxFlowsPerMessage (MaxFlowsPerMessage kc) < 2 ^ 63) (Hfuel : (length flows < fuel)%nat) :
  ∃ outs parts, handleInput fuel keepUndefined shuffle (To f) kc msgs = Ok (with_rollups rolls kc, outs) ∧
    concat parts = (if negb (doRollups kc) || RollupAndAlpha kc then take (Z.to_nat keep) flows else []) ∧
    Forall (λ part, (0 < length part)%nat ∧ Z.of_nat (length part) ≤ effectiveMaxFlowsPerMessage (MaxFlowsPerMessage kc)) parts ∧
    Forall2 (decodes_to (nf_version f)) outs (received (nf_version f) <$> parts) ∧
    (effectiveMaxFlowsPerMessage (MaxFlowsPerMessage kc) ≤ 511 → received (nf_version f) <$> parts = parts) ∧
    (∀ maxFlows, MaxFlowsPerMessage kc = loaded_size "netflow" maxFlows → received (nf_version f) <$> parts = parts).
Proof.
  assert (handleInput fuel keepUndefined shuffle (To f) kc msgs =
    if negb (doRollups kc) || RollupAndAlpha kc then
      outs ← exportJchfBatches fuel (MaxFlowsPerMessage kc) (To f) flows keep; Ok (with_rollups rolls kc, outs)
    else Ok (with_rollups rolls kc, [])) as ->.
  { unfold handleInput. rewrite Hred. cbn [mbind res_bind].
    change (if doRollups kc then _ else _) with (rolled keepUndefined kc kept). rewrite Hroll. cbn [mbind res_bind].
    change (sample_flows shuffle (with_rollups rolls kc) shown) with (sample_flows shuffle kc shown). by rewrite Hs. }
  assert (nf_version f = Ipfix.Version ∨ nf_version f = Netflow9.Version) as Hv' by tauto.
  assert (∀ parts, Forall (λ part : list JCHF, (0 < length part)%nat ∧ Z.of_nat (length part) ≤ effectiveMaxFlowsPerMessage (MaxFlowsPerMessage kc)) parts →
    effectiveMaxFlowsPerMessage (MaxFlowsPerMessage kc) ≤ 511 → received (nf_version f) <$> parts = parts) as Hall.
  { intros parts Hp Hm. induction Hp as [|part parts [_ H1] _ IH]; [done|]. cbn [fmap list_fmap]. f_equal; [|exact IH]. apply received_all. lia. }
  destruct (negb (doRollups kc) || RollupAndAlpha kc); [|exists [], []; by split_and!].
  pose proof (sample_flows_keep _ _ _ _ _ (Hsh shown) Hs) as Hk.
  destruct (exportJchfBatches_parts fuel (MaxFlowsPerMessage kc) (To f) flows keep) as (parts & Hcat & Hparts & ->);
    [by intros; apply To_settled|done|lia|lia|].
  exists (outputs (To f) parts), parts. split_and!; [done|done|done| |by apply Hall|].
  - apply outputs_decode; [done|]. eapply Forall_impl; [exact Hparts|]. intros part [? Hp]. split; [done|]. intros H9.
    destruct Hv as [H10|[_ Hb]]; [rewrite H9 in H10; discriminate H10|lia].
  - intros maxFlows Hm. apply Hall; [done|]. pose proof (loaded_size_small maxFlows). rewrite Hm. lia.
Qed.
End netflow.

(** ** The theorems on concrete batches *)

Definition sampled_flow (addr : string) : JCHF := flow_dns <| SrcAddr := addr |> <| SampleRate := 5 |> <| ApplySample := true |>.
Definition ex_batch : list JCHF := [sampled_flow "10.0.0.1"; sampled_flow "10.0.0.2"; sampled_flow "10.0.0.1"].
Definition ex_filters : list Filter.FilterWrapper :=
  [[Filter.StringFilter Filter.stringEquals ["src_addr"] "10.0.0.1" ""; Filter.IntFilter Filter.intLessThan ["l4_dst_port"] 10 ""]].
Definition ex_service (fs : list Filter.FilterWrapper) (sampleRate : Z) : KTranslate :=
  NewKTranslate fs [] false sampleRate 0 (loaded_size "netflow" 10000).

Lemma ex_answered : Forall (answered ex_filters) ex_batch.
Proof.
  repeat (apply Forall_cons; split); [..|by apply Forall_nil]; (split; [reflexivity|]);
    intros w f Hw Hf; repeat (apply elem_of_cons in Hw as [->|Hw]); try (by apply elem_of_nil in Hw);
    repeat (apply elem_of_cons in Hf as [->|Hf]); try (by apply elem_of_nil in Hf); vm_compute; reflexivity.
Qed.

Lemma reduce_cnf_witness : ∃ out, reduce ex_filters ex_batch = Ok out ∧
  Forall2 cached (filter (λ j, accepts ex_filters (view j) = true) ex_batch) out ∧ length out = 2%nat.
Proof.
  destruct (reduce_cnf ex_filters ex_batch ltac:(discriminate) ex_answered) as (out & E & H).
  exists out. split_and!; [exact E|exact H|]. rewrite <-(Forall2_length _ _ _ H). vm_compute. reflexivity.
Defined.

Definition ex_kept : list JCHF := match reduce ex_filters ex_batch with Ok out => out | _ => [] end.
Lemma ex_reduced : reduce ex_filters ex_batch = Ok ex_kept.
Proof. vm_cast_no_check (@eq_refl (res (list JCHF)) (Ok ex_kept)). Qed.
Lemma ex_length : length ex_kept = 2%nat.
Proof. vm_compute. reflexivity. Qed.
Lemma ex_sampled : sample_flows reverse (ex_service ex_filters 10) ex_kept = (scale_rate 10 <$> reverse ex_kept, 1).
Proof. vm_cast_no_check (@eq_refl (list JCHF * Z) (scale_rate 10 <$> reverse ex_kept, 1)). Qed.
Lemma ex_fresh : Forall Filter.fresh ex_batch.
Proof. repeat (apply Forall_cons; split); [..|by apply Forall_nil]; (split; [reflexivity|by eexists]). Qed.

Lemma sampling_after_rendering_witness :
  Forall (λ j, ∃ j0 m, j0 ∈ ex_batch ∧ SampleRate j = wrapu 32 (SampleRate j0 * wrapu 32 10) ∧
    ToMap j = Ok (j, m) ∧ m !! "sample_rate" = Some (AInt64 (wraps 64 (SampleRate j0)))) (scale_rate 10 <$> reverse ex_kept).
Proof.
  apply (sampling_after_rendering (ex_service ex_filters 10) reverse ex_batch ex_kept (scale_rate 10 <$> reverse ex_kept) 1
    ltac:(discriminate) ex_answered ex_fresh ex_reduced (reverse_Permutation ex_kept) ex_sampled).
  rewrite ex_length. lia.
Defined.

#[local] Existing Instance source_order.
Lemma netflow_export_witness : ∃ outs parts,
  handleInput 4 false reverse (To (format_of Ipfix.Version)) (ex_service [] 1) ex_batch =
    Ok (with_rollups [] (ex_service [] 1), outs) ∧
  concat parts = ex_batch ∧ Forall2 (decodes_to Ipfix.Version) outs parts.
Proof.
  destruct (netflow_export 4 false reverse (format_of Ipfix.Version) (ex_service [] 1) ex_batch ex_batch ex_batch [] ex_batch 3)
    as (outs & parts & E & Hc & _ & Hd & _ & Hall); [by left|apply reverse_Permutation|reflexivity|reflexivity|reflexivity|vm_compute; reflexivity|cbn; lia|].
  rewrite (Hall 10000 eq_refl) in Hd. exists outs, parts. split_and!; [exact E|exact Hc|exact Hd].
Defined.
