(* ===== verification/CustomsIndex.v ===== *)
(** The index of a flow's custom columns (src/pkg/util/kflow2/customs_index.go): a
    lookup without maps that is never cleared between flows.

    A custom value and the list of a flow's customs come from the generated Cap'n
    Proto code: the type of values is a parameter, and a flow is what its [Custom]
    method returns, [None] for an error. *)
From S2P Require Import Prelude.
Local Open Scope Z_scope.

Section index.
Context {V : Type} (defaultValue : V).

Definition maxUint32 : Z := 2 ^ 32 - 1.

Record CustomsIndex := mkCustomsIndex {
  maxCustomDimensionID : Z;
  currentFlowNumber : Z;
  columnIDToCompanyIndex : list Z;
  valueAtColumnIndex : list V;
  flowNumberAtColumnIndex : list Z }.

(** ** Operations *)

(** The loop that numbers the columns, from one. *)
Fixpoint number_columns (index : nat) (ids : list Z) (columns : list Z) : res (list Z) :=
  match ids with
  | [] => Ok columns
  | id :: ids =>
      columns ← slice_set columns (Z.to_nat id) (wrapu 32 (Z.of_nat index + 1));
      number_columns (S index) ids columns
  end.

Definition NewCustomsIndex (companyCIDs : list Z) : res CustomsIndex :=
  let n := length companyCIDs in
  let new maxID columns :=
    {| maxCustomDimensionID := maxID; currentFlowNumber := 0; columnIDToCompanyIndex := columns;
       valueAtColumnIndex := replicate n defaultValue; flowNumberAtColumnIndex := replicate n 0 |} in
  match last (merge_sort Z.le companyCIDs) with
  | None => Ok (new 0 [])
  | Some maxID =>
      columns ← number_columns 0 (merge_sort Z.le companyCIDs) (replicate (Z.to_nat (wrapu 32 (maxID + 1))) 0);
      Ok (new maxID columns)
  end.

Definition companyIndexForColumnID (c : CustomsIndex) (id : Z) : res (option Z) :=
  if id <=? maxCustomDimensionID c then
    companyColumnIndex ← slice_get (columnIDToCompanyIndex c) (Z.to_nat id);
    Ok (if 0 <? companyColumnIndex then Some (companyColumnIndex - 1) else None)
  else Ok None.

(** One custom of the flow being indexed. *)
Definition index_custom (c : CustomsIndex) (custom : Z * V) : res CustomsIndex :=
  found ← companyIndexForColumnID c custom.1;
  match found with
  | None => Ok c
  | Some i =>
      values ← slice_set (valueAtColumnIndex c) (Z.to_nat i) custom.2;
      numbers ← slice_set (flowNumberAtColumnIndex c) (Z.to_nat i) (currentFlowNumber c);
      Ok {| maxCustomDimensionID := maxCustomDimensionID c; currentFlowNumber := currentFlowNumber c;
            columnIDToCompanyIndex := columnIDToCompanyIndex c;
            valueAtColumnIndex := values; flowNumberAtColumnIndex := numbers |}
  end.

Fixpoint index_customs (c : CustomsIndex) (customs : list (Z * V)) : res CustomsIndex :=
  match customs with
  | [] => Ok c
  | custom :: customs => c ← index_custom c custom; index_customs c customs
  end.

(** The number of the next flow; the numbers start afresh after the greatest. *)
Definition next_flow (c : CustomsIndex) : CustomsIndex :=
  let reset := currentFlowNumber c =? maxUint32 in
  {| maxCustomDimensionID := maxCustomDimensionID c;
     currentFlowNumber := wrapu 32 ((if reset then 0 else currentFlowNumber c) + 1);
     columnIDToCompanyIndex := columnIDToCompanyIndex c;
     valueAtColumnIndex := valueAtColumnIndex c;
     flowNumberAtColumnIndex :=
       if reset then replicate (length (flowNumberAtColumnIndex c)) 0 else flowNumberAtColumnIndex c |}.

Definition IndexFlow (c : CustomsIndex) (customs : option (list (Z * V))) : res CustomsIndex :=
  let c := next_flow c in
  match customs with None => Ok c | Some customs => index_customs c customs end.

Definition CustomColumnWithID (c : CustomsIndex) (id : Z) : res (V * bool) :=
  found ← companyIndexForColumnID c id;
  match found with
  | None => Ok (defaultValue, false)
  | Some i =>
      v ← slice_get (valueAtColumnIndex c) (Z.to_nat i);
      k ← slice_get (flowNumberAtColumnIndex c) (Z.to_nat i);
      Ok (v, k =? currentFlowNumber c)
  end.

(** ** What it stands for *)

(** The last value a flow gives to a column. *)
Fixpoint last_value (id : Z) (customs : list (Z * V)) : option V :=
  match customs with
  | [] => None
  | (k, v) :: customs =>
      match last_value id customs with
      | Some w => Some w
      | None => if k =? id then Some v else None
      end
  end.

Definition spec_lookup (cids : list Z) (customs : list (Z * V)) (id : Z) : option V :=
  if decide (id ∈ cids) then last_value id customs else None.

Lemma last_value_snoc id customs k v : last_value id (customs ++ [(k, v)]) =
  if k =? id then Some v else last_value id customs.
Proof.
  induction customs as [|[k' v'] customs IH]; cbn [last_value app]; [by destruct (k =? id)|].
  rewrite IH. by destruct (k =? id).
Qed.

(** ** The numbering *)

(** [columns] sends an id to one more than a place of [ids] that holds it, and every
    id of [ids] has one. *)
Record numbering (ids columns : list Z) : Prop := {
  nu_place id p : 0 ≤ id → columns !! Z.to_nat id = Some p → 0 < p → ids !! Z.to_nat (p - 1) = Some id;
  nu_all id : id ∈ ids → ∃ p, columns !! Z.to_nat id = Some p ∧ 0 < p }.

Lemma number_columns_ok done ids columns :
  numbering done columns → Z.of_nat (length (done ++ ids)) < 2 ^ 32 →
  Forall (λ id, 0 ≤ id ∧ (Z.to_nat id < length columns)%nat) ids →
  ∃ columns', number_columns (length done) ids columns = Ok columns' ∧ length columns' = length columns ∧
    numbering (done ++ ids) columns'.
Proof.
  revert done columns. induction ids as [|id ids IH]; intros done columns Hn Hl Hids.
  { exists columns. by rewrite app_nil_r. }
  apply Forall_cons_1 in Hids as [[H0 Hid] Hids]. cbn [number_columns]. rewrite slice_set_ok by done. cbn [mbind res_bind].
  assert (wrapu 32 (Z.of_nat (length done) + 1) = Z.of_nat (length done) + 1) as ->.
  { apply wrapu_id. rewrite length_app in Hl. cbn [length] in Hl. unfold in_u. lia. }
  set (columns1 := <[_ := _]> columns).
  assert (numbering (done ++ [id]) columns1) as Hn1.
  { split.
    - intros i p Hi Hp Hpos. unfold columns1 in Hp. destruct (decide (Z.to_nat i = Z.to_nat id)) as [E|Hne].
      + assert (i = id) as -> by lia. rewrite list_lookup_insert_eq in Hp by done. injection Hp as <-.
        rewrite Z.add_simpl_r, Nat2Z.id. rewrite lookup_app_r by done. by rewrite Nat.sub_diag.
      + rewrite list_lookup_insert_ne in Hp by lia. apply lookup_app_l_Some. by eapply (nu_place _ _ Hn).
    - intros i [Hi|Hi]%elem_of_app; unfold columns1.
      + destruct (nu_all _ _ Hn i Hi) as (p & Hp & Hpos). destruct (decide (Z.to_nat i = Z.to_nat id)) as [->|Hne].
        * rewrite list_lookup_insert_eq by done. eexists. split; [reflexivity|lia].
        * rewrite list_lookup_insert_ne by lia. eauto.
      + apply list_elem_of_singleton in Hi as ->. rewrite list_lookup_insert_eq by done. eexists. split; [reflexivity|lia]. }
  destruct (IH (done ++ [id]) columns1 Hn1) as (columns' & E & Hl' & Hn').
  - by rewrite <-(assoc_L (++)).
  - unfold columns1. by rewrite length_insert.
  - rewrite length_app in E. cbn [length] in E. rewrite Nat.add_1_r in E. exists columns'. split; [done|].
    rewrite <-(assoc_L (++)) in Hn'. split; [|done]. rewrite Hl'. unfold columns1. by rewrite length_insert.
Qed.

(** ** The invariant *)

Section invariant.
Context (cids : list Z).

(** The index of a company with the columns [cids], apart from the flow. *)
Record index_ok (c : CustomsIndex) : Prop := {
  ix_ids ids : ids = merge_sort Z.le cids → numbering ids (columnIDToCompanyIndex c);
  ix_max id : id ∈ cids → 0 ≤ id ≤ maxCustomDimensionID c;
  ix_columns : length (columnIDToCompanyIndex c) = S (Z.to_nat (maxCustomDimensionID c));
  ix_values : length (valueAtColumnIndex c) = length cids;
  ix_numbers : length (flowNumberAtColumnIndex c) = length cids;
  ix_current : 0 ≤ currentFlowNumber c ≤ maxUint32;
  ix_past : Forall (λ k, 0 ≤ k ≤ currentFlowNumber c) (flowNumberAtColumnIndex c) }.

(** The places of the columns hold what the flow has given so far. *)
Definition holds_flow (customs : list (Z * V)) (c : CustomsIndex) : Prop :=
  ∀ id p, 0 ≤ id → columnIDToCompanyIndex c !! Z.to_nat id = Some p → 0 < p →
    match last_value id customs with
    | Some v => valueAtColumnIndex c !! Z.to_nat (p - 1) = Some v ∧
                flowNumberAtColumnIndex c !! Z.to_nat (p - 1) = Some (currentFlowNumber c)
    | None => ∃ k, flowNumberAtColumnIndex c !! Z.to_nat (p - 1) = Some k ∧ k < currentFlowNumber c
    end.

Lemma place_lt c id p : index_ok c → 0 ≤ id → columnIDToCompanyIndex c !! Z.to_nat id = Some p → 0 < p →
  (Z.to_nat (p - 1) < length cids)%nat.
Proof.
  intros Hc H0 Hp Hpos. pose proof (nu_place _ _ (ix_ids _ Hc _ eq_refl) id p H0 Hp Hpos) as Hi.
  apply lookup_lt_Some in Hi. by rewrite merge_sort_Permutation in Hi.
Qed.

(** Distinct columns have distinct places. *)
Lemma place_inj c id id' p p' : index_ok c → 0 ≤ id → 0 ≤ id' →
  columnIDToCompanyIndex c !! Z.to_nat id = Some p → 0 < p →
  columnIDToCompanyIndex c !! Z.to_nat id' = Some p' → 0 < p' → Z.to_nat (p - 1) = Z.to_nat (p' - 1) → id = id'.
Proof.
  intros Hc H0 H0' Hp Hpos Hp' Hpos' E. pose proof (ix_ids _ Hc _ eq_refl) as Hn.
  pose proof (nu_place _ _ Hn id p H0 Hp Hpos) as Hi. pose proof (nu_place _ _ Hn id' p' H0' Hp' Hpos') as Hi'.
  congruence.
Qed.

(** A column of the company has a place, another column none. *)
Lemma companyIndex_ok c id : index_ok c → 0 ≤ id →
  companyIndexForColumnID c id = Ok (
    if decide (id ∈ cids)
    then (λ p, p - 1) <$> columnIDToCompanyIndex c !! Z.to_nat id else None) ∧
  (id ∈ cids → ∃ p, columnIDToCompanyIndex c !! Z.to_nat id = Some p ∧ 0 < p).
Proof.
  intros Hc H0. pose proof (ix_ids _ Hc _ eq_refl) as Hn.
  assert (id ∈ cids → ∃ p, columnIDToCompanyIndex c !! Z.to_nat id = Some p ∧ 0 < p) as Hall.
  { intros Hin. apply (nu_all _ _ Hn). by rewrite merge_sort_Permutation. }
  split; [|exact Hall]. unfold companyIndexForColumnID. destruct (Z.leb_spec id (maxCustomDimensionID c)) as [Hle|Hgt].
  - assert (is_Some (columnIDToCompanyIndex c !! Z.to_nat id)) as [p Hp]
      by (apply lookup_lt_is_Some_2; rewrite (ix_columns _ Hc); lia).
    rewrite (slice_get_ok _ _ _ Hp), Hp. cbn [mbind res_bind]. destruct (decide (id ∈ cids)) as [Hin|Hin].
    + destruct (Hall Hin) as (p' & Hp' & Hpos). rewrite Hp in Hp'. injection Hp' as <-.
      by rewrite (proj2 (Z.ltb_lt _ _)).
    + destruct (Z.ltb_spec 0 p) as [Hpos|]; [|done].
      pose proof (nu_place _ _ Hn id p H0 Hp Hpos) as Hi. apply list_elem_of_lookup_2 in Hi.
      rewrite merge_sort_Permutation in Hi. done.
  - rewrite decide_False; [done|]. intros Hin. apply (ix_max _ Hc) in Hin. lia.
Qed.

Lemma index_custom_ok c customs id v : index_ok c → holds_flow customs c → 0 ≤ id →
  ∃ c', index_custom c (id, v) = Ok c' ∧ index_ok c' ∧ holds_flow (customs ++ [(id, v)]) c' ∧
    currentFlowNumber c' = currentFlowNumber c.
Proof.
  intros Hc Hh H0. unfold index_custom. cbn [fst snd]. destruct (companyIndex_ok c id Hc H0) as [E Hall]. rewrite E.
  cbn [mbind res_bind]. destruct (decide (id ∈ cids)) as [Hin|Hin].
  - destruct (Hall Hin) as (p & Hp & Hpos). rewrite Hp. cbn [fmap option_fmap option_map].
    pose proof (place_lt c id p Hc H0 Hp Hpos) as Hlt.
    rewrite !slice_set_ok by (rewrite ?(ix_values _ Hc), ?(ix_numbers _ Hc); done). cbn [mbind res_bind].
    eexists. split; [reflexivity|]. destruct Hc as [Hids Hmax Hcol Hval Hnum Hcur Hpast]. split; [|split; [|done]].
    + split; cbn; [done|done|done|by rewrite length_insert|by rewrite length_insert|done|].
      apply Forall_insert; [done|lia].
    + intros id' p' H0' Hp' Hpos'. cbn [columnIDToCompanyIndex valueAtColumnIndex flowNumberAtColumnIndex currentFlowNumber] in *.
      rewrite last_value_snoc. destruct (Z.eqb_spec id id') as [<-|Hne].
      * rewrite Hp in Hp'. injection Hp' as <-. rewrite !list_lookup_insert_eq by (rewrite ?Hval, ?Hnum; done). done.
      * assert (Z.to_nat (p - 1) ≠ Z.to_nat (p' - 1)) as Hd.
        { intros Ep. apply Hne. eapply (place_inj c id id' p p'); [split|..]; done. }
        rewrite !list_lookup_insert_ne by done. by apply Hh.
  - exists c. split_and!; [done|done| |done]. intros id' p' H0' Hp' Hpos'. rewrite last_value_snoc.
    destruct (Z.eqb_spec id id') as [<-|]; [|by apply Hh]. destruct Hin.
    pose proof (nu_place _ _ (ix_ids _ Hc _ eq_refl) id p' H0 Hp' Hpos') as Hi. apply list_elem_of_lookup_2 in Hi.
    by rewrite merge_sort_Permutation in Hi.
Qed.

Lemma index_customs_ok c done customs : index_ok c → holds_flow done c → Forall (λ kv, 0 ≤ kv.1) customs →
  ∃ c', index_customs c customs = Ok c' ∧ index_ok c' ∧ holds_flow (done ++ customs) c' ∧
    currentFlowNumber c' = currentFlowNumber c.
Proof.
  intros Hc Hh Hids. revert c done Hc Hh. induction Hids as [|[id v] customs H0 _ IH]; intros c done Hc Hh.
  { exists c. by rewrite app_nil_r. }
  cbn [index_customs]. destruct (index_custom_ok c done id v Hc Hh H0) as (c1 & -> & Hc1 & Hh1 & Hn1). cbn [mbind res_bind].
  destruct (IH c1 (done ++ [(id, v)]) Hc1 Hh1) as (c2 & -> & Hc2 & Hh2 & Hn2). exists c2.
  rewrite <-(assoc_L (++)) in Hh2. split_and!; [done..|congruence].
Qed.

(** A new flow starts with nothing found: its number is above every number kept. *)
Lemma next_flow_ok c : index_ok c → index_ok (next_flow c) ∧ holds_flow [] (next_flow c) ∧ 0 < currentFlowNumber (next_flow c).
Proof.
  intros Hc. pose proof Hc as [Hids Hmax Hcol Hval Hnum Hcur Hpast]. unfold maxUint32 in *.
  assert (∀ b k, (b = true → k = 0) → (b = false → 0 ≤ k < 2 ^ 32 - 1) →
    wrapu 32 ((if b : bool then 0 else k) + 1) = (if b then 0 else k) + 1) as Hwrap.
  { intros [] k H1 H2; apply wrapu_id; unfold in_u; [lia|specialize (H2 eq_refl); lia]. }
  assert (Forall (λ k, 0 ≤ k < currentFlowNumber (next_flow c)) (flowNumberAtColumnIndex (next_flow c)) ∧
    0 < currentFlowNumber (next_flow c) ≤ 2 ^ 32 - 1) as [Hlt Hpos].
  { unfold next_flow, maxUint32. cbn [currentFlowNumber flowNumberAtColumnIndex].
    destruct (Z.eqb_spec (currentFlowNumber c) (2 ^ 32 - 1)) as [E|E].
    - change (wrapu 32 (0 + 1)) with 1. split; [|lia]. apply Forall_replicate. lia.
    - rewrite wrapu_id by (unfold in_u; lia). split; [|lia]. eapply Forall_impl; [exact Hpast|]. intros k Hk. cbn beta in Hk. lia. }
  split; [|split; [|lia]].
  - split; cbn [next_flow columnIDToCompanyIndex maxCustomDimensionID valueAtColumnIndex]; [done..| | |].
    + unfold next_flow. cbn [flowNumberAtColumnIndex]. destruct (_ =? _); [by rewrite length_replicate|done].
    + unfold maxUint32. lia.
    + eapply Forall_impl; [exact Hlt|]. intros k Hk. cbn beta in Hk. lia.
  - intros id p H0 Hp Hpos'. cbn [last_value]. pose proof (place_lt c id p Hc H0 Hp Hpos') as Hl.
    assert (length (flowNumberAtColumnIndex (next_flow c)) = length cids) as Hnl.
    { unfold next_flow. cbn [flowNumberAtColumnIndex]. destruct (_ =? _); [by rewrite length_replicate|done]. }
    rewrite <-Hnl in Hl. apply lookup_lt_is_Some_2 in Hl as [k Hk]. exists k. split; [done|].
    rewrite Forall_lookup in Hlt. specialize (Hlt _ _ Hk). cbn beta in Hlt. lia.
Qed.
End invariant.

(** ** From a new index through any number of flows *)

Definition id_ok (id : Z) : Prop := 0 ≤ id < maxUint32.

Lemma NewCustomsIndex_ok cids : cids ≠ [] → Forall id_ok cids → Z.of_nat (length cids) < 2 ^ 32 →
  ∃ c, NewCustomsIndex cids = Ok c ∧ index_ok cids c.
Proof.
  intros Hne Hids Hl. unfold NewCustomsIndex. pose proof (merge_sort_Permutation Z.le cids) as Hp.
  pose proof (StronglySorted_merge_sort Z.le cids) as Hs. set (ids := merge_sort Z.le cids) in *.
  destruct (last ids) as [maxID|] eqn:Elast.
  2: { apply last_None in Elast. rewrite Elast in Hp. by apply Permutation_nil_l in Hp. }
  apply last_Some in Elast as [ids0 Eids]. rewrite Eids in Hs. apply StronglySorted_split in Hs as [_ Hle].
  assert (∀ id, id ∈ cids → id_ok id ∧ id ≤ maxID) as Hmax.
  { intros id Hin. split; [rewrite Forall_forall in Hids; by apply Hids|]. rewrite <-Hp, Eids in Hin.
    apply elem_of_app in Hin as [Hin|Hin]; [by apply Hle; [|left]|]. by apply list_elem_of_singleton in Hin as ->. }
  assert (id_ok maxID) as Hm.
  { apply Hmax. rewrite <-Hp, Eids. apply elem_of_app. right. by left. }
  unfold id_ok, maxUint32 in Hm. rewrite wrapu_id by (unfold in_u; lia).
  assert (Forall (λ id, 0 ≤ id ∧ (Z.to_nat id < length (replicate (Z.to_nat (maxID + 1)) 0%Z))%nat) ids) as Hr.
  { apply Forall_forall. intros id Hin. rewrite Hp in Hin. apply Hmax in Hin as [[? ?] ?]. rewrite length_replicate. lia. }
  destruct (number_columns_ok [] ids (replicate (Z.to_nat (maxID + 1)) 0)) as (columns & E & Hlen & Hn); [|by rewrite app_nil_l, Hp|exact Hr|].
  { split; [|by intros id Hin%elem_of_nil]. intros id p H0 Hlk Hpos.
    apply lookup_replicate in Hlk as [-> _]. lia. }
  change (length (@nil Z)) with 0%nat in E. rewrite E. cbn [mbind res_bind]. eexists. split; [reflexivity|]. rewrite length_replicate in Hlen.
  split; cbn; [by intros ? ->| |rewrite Hlen; lia|by rewrite length_replicate|by rewrite length_replicate|unfold maxUint32; lia|].
  - intros id Hin. apply Hmax in Hin as [[? ?] ?]. lia.
  - apply Forall_replicate. lia.
Qed.

(** Flows are indexed one after the other. *)
Fixpoint index_flows (c : CustomsIndex) (flows : list (option (list (Z * V)))) : res CustomsIndex :=
  match flows with
  | [] => Ok c
  | flow :: flows => c ← IndexFlow c flow; index_flows c flows
  end.

Definition flow_ok (flow : option (list (Z * V))) : Prop := Forall (λ kv, 0 ≤ kv.1) (default [] flow).

Lemma IndexFlow_ok cids c flow : index_ok cids c → flow_ok flow →
  ∃ c', IndexFlow c flow = Ok c' ∧ index_ok cids c' ∧ holds_flow (default [] flow) c' ∧ 0 < currentFlowNumber c'.
Proof.
  intros Hc Hf. unfold IndexFlow. destruct (next_flow_ok cids c Hc) as (Hc1 & Hh1 & Hpos).
  destruct flow as [customs|]; [|by exists (next_flow c)].
  destruct (index_customs_ok cids (next_flow c) [] customs Hc1 Hh1 Hf) as (c2 & -> & Hc2 & Hh2 & Hn). exists c2.
  split_and!; [done..|by rewrite Hn].
Qed.

Lemma index_flows_ok cids c flows flow : index_ok cids c → Forall flow_ok (flows ++ [flow]) →
  ∃ c', index_flows c (flows ++ [flow]) = Ok c' ∧ index_ok cids c' ∧ holds_flow (default [] flow) c'.
Proof.
  intros Hc Hf. revert c Hc. induction flows as [|f flows IH]; intros c Hc; cbn [app index_flows] in *;
    apply Forall_cons_1 in Hf as [Hf Hfs].
  - destruct (IndexFlow_ok cids c flow Hc Hf) as (c' & -> & Hc' & Hh & _). by exists c'.
  - destruct (IndexFlow_ok cids c f Hc Hf) as (c1 & -> & Hc1 & _). by apply IH.
Qed.

Lemma CustomColumnWithID_ok cids c customs id : index_ok cids c → holds_flow customs c → 0 ≤ id →
  match spec_lookup cids customs id with
  | Some v => CustomColumnWithID c id = Ok (v, true)
  | None => ∃ v, CustomColumnWithID c id = Ok (v, false)
  end.
Proof.
  intros Hc Hh H0. unfold spec_lookup, CustomColumnWithID. destruct (companyIndex_ok cids c id Hc H0) as [-> Hall].
  cbn [mbind res_bind]. destruct (decide (id ∈ cids)) as [Hin|Hin]; [|by eexists].
  destruct (Hall Hin) as (p & Hp & Hpos). rewrite Hp. cbn [fmap option_fmap option_map].
  specialize (Hh id p H0 Hp Hpos). destruct (last_value id customs) as [v|].
  - destruct Hh as [Hv Hk]. rewrite (slice_get_ok _ _ _ Hv), (slice_get_ok _ _ _ Hk). cbn [mbind res_bind]. by rewrite Z.eqb_refl.
  - destruct Hh as (k & Hk & Hlt). pose proof (lookup_lt_Some _ _ _ Hk) as Hl. rewrite (ix_numbers _ _ Hc), <-(ix_values _ _ Hc) in Hl.
    apply lookup_lt_is_Some_2 in Hl as [v Hv]. exists v.
    rewrite (slice_get_ok _ _ _ Hv), (slice_get_ok _ _ _ Hk). cbn [mbind res_bind]. by rewrite (proj2 (Z.eqb_neq _ _)) by lia.
Qed.

(** The index refines a map made afresh for each flow: whatever flows came
    before, past the wrap-around of the flow number too, looking up a column gives
    the last value the current flow has for it when the company has that column, and
    nothing otherwise. A flow whose customs cannot be read has none. *)
Theorem customs_index_refines cids flows flow
    (Hne : cids ≠ []) (Hids : Forall id_ok cids) (Hl : Z.of_nat (length cids) < 2 ^ 32)
    (Hf : Forall flow_ok (flows ++ [flow])) :
  ∃ c c', NewCustomsIndex cids = Ok c ∧ index_flows c (flows ++ [flow]) = Ok c' ∧
    ∀ id, 0 ≤ id → match spec_lookup cids (default [] flow) id with
                   | Some v => CustomColumnWithID c' id = Ok (v, true)
                   | None => ∃ v, CustomColumnWithID c' id = Ok (v, false)
                   end.
Proof.
  destruct (NewCustomsIndex_ok cids Hne Hids Hl) as (c & E & Hc).
  destruct (index_flows_ok cids c flows flow Hc Hf) as (c' & E' & Hc' & Hh).
  exists c, c'. split_and!; [done|done|]. intros id H0. by apply CustomColumnWithID_ok.
Qed.

(** The bounds of the index: without columns, a custom of id 0 panics; with the
    greatest id among the columns, making the index panics; and before the first
    flow every column of the company is reported as found. *)
Theorem customs_index_bounds v cids c :
  (∃ c0, NewCustomsIndex [] = Ok c0 ∧ IndexFlow c0 (Some [(0, v)]) = Panic "index out of range") ∧
  NewCustomsIndex [maxUint32] = Panic "index out of range" ∧
  (NewCustomsIndex cids = Ok c → index_ok cids c → ∀ id, id ∈ cids → ∃ w, CustomColumnWithID c id = Ok (w, true)).
Proof.
  split_and!; [eexists; split; reflexivity| |].
  - unfold NewCustomsIndex. change (merge_sort Z.le [maxUint32]) with [maxUint32]. cbn [last length].
    change (wrapu 32 (maxUint32 + 1)) with 0. cbn [Z.to_nat replicate number_columns]. unfold slice_set. cbn [length].
    by destruct (Z.to_nat maxUint32).
  - intros E Hc id Hin. assert (currentFlowNumber c = 0 ∧ flowNumberAtColumnIndex c = replicate (length cids) 0) as [Hcur Hnum].
    { unfold NewCustomsIndex in E. destruct (last _); [|by injection E as <-].
      apply res_bind_Ok in E as (columns & _ & [= <-]). done. }
    pose proof (ix_max _ _ Hc id Hin) as [H0 _]. unfold CustomColumnWithID.
    destruct (companyIndex_ok cids c id Hc H0) as [-> Hall]. cbn [mbind res_bind]. rewrite decide_True by done.
    destruct (Hall Hin) as (p & Hp & Hpos). rewrite Hp. cbn [fmap option_fmap option_map].
    pose proof (place_lt cids c id p Hc H0 Hp Hpos) as Hlt.
    pose proof (Hlt) as Hlv. rewrite <-(ix_values _ _ Hc) in Hlv. apply lookup_lt_is_Some_2 in Hlv as [w Hw]. exists w.
    rewrite (slice_get_ok _ _ _ Hw). cbn [mbind res_bind]. unfold slice_get.
    rewrite Hnum, lookup_replicate_2 by done. cbn [mbind res_bind]. by rewrite Hcur.
Qed.
End index.

(** ** The theorem on concrete flows *)

Lemma customs_index_refines_witness : ∃ c c',
  NewCustomsIndex "" [7; 2] = Ok c ∧ index_flows c ([Some [(2, "a"); (7, "b")]; None] ++ [Some [(2, "x"); (9, "y"); (2, "z")]]) = Ok c' ∧
  CustomColumnWithID "" c' 2 = Ok ("z", true) ∧ (∃ v, CustomColumnWithID "" c' 7 = Ok (v, false)) ∧
  (∃ v, CustomColumnWithID "" c' 9 = Ok (v, false)).
Proof.
  destruct (customs_index_refines "" [7; 2] [Some [(2, "a"); (7, "b")]; None] (Some [(2, "x"); (9, "y"); (2, "z")]))
    as (c & c' & E & E' & H).
  - discriminate.
  - repeat constructor; unfold maxUint32; lia.
  - reflexivity.
  - repeat constructor; cbn; lia.
  - exists c, c'. split; [exact E|]. split; [exact E'|].
    split; [apply (H 2); lia|]. split; [apply (H 7); lia|apply (H 9); lia].
Defined.

Lemma customs_index_bounds_witness : ∃ c w, NewCustomsIndex "" [7; 2] = Ok c ∧ CustomColumnWithID "" c 7 = Ok (w, true).
Proof.
  destruct (NewCustomsIndex_ok "" [7; 2]) as (c & E & Hc);
    [discriminate|repeat constructor; unfold maxUint32; lia|reflexivity|].
  destruct (customs_index_bounds "" "v" [7; 2] c) as (_ & _ & H). destruct (H E Hc 7 ltac:(left)) as [w Hw].
  exists c, w. split; [exact E|exact Hw].
Defined.
