(* ===== verification/GoMap.v ===== *)
(** Ranging over a Go map whose entries the loop changes.

    The order of a range loop is not specified.  An entry removed before it is
    reached is not produced; an entry created during the loop may be produced or
    skipped.  [range] holds between the state before a loop and any state the
    language allows after it. *)
From S2P Require Import Prelude GoStrings.
Local Open Scope Z_scope.

Section range.
Context {V St : Type} (get : St → gmap string V) (body : string → V → St → St).

(** [must] are the keys still owed, [seen] those already produced. *)
Inductive range_from : gset string → gset string → St → St → Prop :=
| range_done seen s : range_from ∅ seen s s
| range_step must seen s k v s' :
    get s !! k = Some v → k ∉ seen →
    range_from ((must ∖ {[k]}) ∩ dom (get (body k v s))) ((seen ∪ {[k]}) ∩ dom (get (body k v s))) (body k v s) s' →
    range_from must seen s s'.

Definition range (s s' : St) : Prop := range_from (dom (get s)) ∅ s s'.

(** An invariant of the rounds holds at the end, where nothing is owed. *)
Lemma range_inv (I : gset string → gset string → St → Prop) must seen s s' :
  (∀ must seen s k v, I must seen s → get s !! k = Some v → k ∉ seen →
    I ((must ∖ {[k]}) ∩ dom (get (body k v s))) ((seen ∪ {[k]}) ∩ dom (get (body k v s))) (body k v s)) →
  range_from must seen s s' → I must seen s → ∃ seen', I ∅ seen' s'.
Proof. intros Hstep. induction 1 as [seen s|must seen s k v s' Hk Hs _ IH]; intros HI; [by exists seen|]. eauto. Qed.

(** Some run of the loop ends: new entries may be skipped. *)
Lemma range_total s : ∃ s', range s s'.
Proof.
  unfold range. assert (dom (get s) ⊆ dom (get s) ∧ dom (get s) ## (∅ : gset string)) as H by set_solver. revert H.
  generalize (∅ : gset string) as seen. generalize (dom (get s)) at 1 3 4 as must. intros must.
  revert s. induction (set_wf must) as [must _ IH]. intros s seen [Hsub Hdis].
  destruct (set_choose_or_empty must) as [[k Hk]|Hempty].
  - assert (k ∈ dom (get s)) as Hd by set_solver. apply elem_of_dom in Hd as [v Hv].
    destruct (IH ((must ∖ {[k]}) ∩ dom (get (body k v s)))) with (s := body k v s)
      (seen := (seen ∪ {[k]}) ∩ dom (get (body k v s))) as (s' & Hs'); [set_solver|set_solver|].
    exists s'. eapply range_step; [exact Hv|set_solver|exact Hs'].
  - apply leibniz_equiv in Hempty as ->. exists s. constructor.
Qed.
End range.

(** ** Renaming keys while ranging *)

(** The loop that moves every key without the prefix [pre] under [pre ++ rest]. *)
Section rename.
Context {V : Type} (pre rest : string).

Definition rename_body (k : string) (v : V) (m : gmap string V) : gmap string V :=
  if HasPrefix k pre then m else <[String.append (String.append pre rest) k := v]> (delete k m).

(** The renamed map: a moved entry takes the place of one already there. *)
Definition renamed (m : gmap string V) : gmap string V :=
  kmap (String.append (String.append pre rest)) (filter (λ kv, HasPrefix kv.1 pre = false) m) ∪
  filter (λ kv, HasPrefix kv.1 pre = true) m.
End rename.

#[export] Instance append_inj p : Inj (=) (=) (String.append p).
Proof. intros a b. induction p as [|c p IH]; [done|]. rewrite !append_cons. intros [= H]. by apply IH. Qed.

Section rename_ok.
Context {V : Type} (pre rest : string) (m0 : gmap string V).
Abbreviation full := (String.append (String.append pre rest)).

Lemma full_prefix k : HasPrefix (full k) pre = true.
Proof. rewrite append_assoc. apply HasPrefix_append. Qed.

(** Unmoved keys are as they were; a moved key is gone and its entry is at the new
    name. *)
Record renaming (must seen : gset string) (m : gmap string V) : Prop := {
  re_plain k : HasPrefix k pre = false → m !! k = if decide (k ∈ must) then m0 !! k else None;
  re_owed k : HasPrefix k pre = false → k ∈ must → is_Some (m0 !! k);
  re_moved k v : HasPrefix k pre = false → k ∉ must → m0 !! k = Some v → m !! full k = Some v;
  re_other k : HasPrefix k pre = true → (∀ k0, HasPrefix k0 pre = false → is_Some (m0 !! k0) → k0 ∉ must → k ≠ full k0) →
    m !! k = m0 !! k }.

Lemma renaming_start : renaming (dom m0) ∅ m0.
Proof.
  split.
  - intros k _. case_decide as H; [done|]. by apply not_elem_of_dom in H.
  - intros k _ H. by apply elem_of_dom.
  - intros k v _ H Hk. apply not_elem_of_dom in H. congruence.
  - done.
Qed.

Lemma renaming_step must seen m k v : renaming must seen m → m !! k = Some v →
  renaming ((must ∖ {[k]}) ∩ dom (rename_body pre rest k v m)) ((seen ∪ {[k]}) ∩ dom (rename_body pre rest k v m)) (rename_body pre rest k v m).
Proof.
  intros [Hp Ho Hm Hot] Hk. unfold rename_body. destruct (HasPrefix k pre) eqn:Hpk.
  - assert (∀ x, HasPrefix x pre = false → x ∈ (must ∖ {[k]}) ∩ dom m ↔ x ∈ must) as Hsame.
    { intros x Hx. split; [set_solver|]. intros Hin. rewrite elem_of_intersection, elem_of_difference, not_elem_of_singleton.
      split; [split; [done|congruence]|]. apply elem_of_dom. rewrite (Hp x Hx), decide_True by done. by apply Ho. }
    split.
    + intros x Hx. rewrite (Hp x Hx). destruct (decide (x ∈ must)) as [Hin|Hin].
      * by rewrite decide_True by (by apply Hsame).
      * by rewrite decide_False by (by rewrite Hsame).
    + intros x Hx Hin. rewrite (Hsame x Hx) in Hin. by apply Ho.
    + intros x w Hx Hin. rewrite Hsame in Hin by done. by apply Hm.
    + intros x Hx H. apply Hot; [done|]. intros x0 H0 Hs0 Hin. apply H; [done|done|]. by rewrite Hsame.
  - assert (k ∈ must ∧ m0 !! k = Some v) as [Hkm Hk0].
    { rewrite (Hp k Hpk) in Hk. destruct (decide (k ∈ must)) as [Hin|]; done. }
    assert (∀ x, HasPrefix x pre = false → full k ≠ x) as Hne by (intros x Hx <-; by rewrite full_prefix in Hx).
    assert (∀ x, HasPrefix x pre = false → x ∈ (must ∖ {[k]}) ∩ dom (<[full k := v]> (delete k m)) ↔ x ∈ must ∧ x ≠ k) as Hsame.
    { intros x Hx. rewrite elem_of_intersection, elem_of_difference, not_elem_of_singleton. split; [tauto|].
      intros [Hin Hxk]. split; [done|]. apply elem_of_dom. rewrite lookup_insert_ne, lookup_delete_ne by (done || by apply Hne).
      rewrite (Hp x Hx), decide_True by done. by apply Ho. }
    split.
    + intros x Hx. rewrite lookup_insert_ne by by apply Hne. destruct (decide (x = k)) as [->|Hxk].
      * rewrite lookup_delete_eq, decide_False; [done|]. rewrite Hsame by done. tauto.
      * rewrite lookup_delete_ne, (Hp x Hx) by done. destruct (decide (x ∈ must)) as [Hin|Hin].
        -- by rewrite decide_True by (by apply Hsame).
        -- rewrite decide_False; [done|]. rewrite Hsame by done. tauto.
    + intros x Hx Hin. apply (Hsame x Hx) in Hin as [Hin _]. by apply Ho.
    + intros x w Hx Hin Hw. destruct (decide (x = k)) as [->|Hxk].
      * rewrite lookup_insert_eq. congruence.
      * rewrite lookup_insert_ne by (intros E; by apply (inj full) in E).
        rewrite lookup_delete_ne by (intros ->; by rewrite full_prefix in Hpk).
        apply Hm; [done| |done]. intros Hxm. apply Hin. rewrite Hsame by done. done.
    + intros x Hx H. rewrite lookup_insert_ne.
      2: { intros <-. apply (H k); [done|by eexists| |done]. rewrite Hsame by done. tauto. }
      rewrite lookup_delete_ne by congruence. apply Hot; [done|]. intros x0 H0 Hs0 Hin. apply H; [done|done|]. rewrite Hsame by done. tauto.
Qed.

Lemma renaming_end seen m : renaming ∅ seen m → m = renamed pre rest m0.
Proof.
  intros [Hp _ Hm Hot]. apply map_eq. intros k. unfold renamed. rewrite lookup_union.
  destruct (HasPrefix k pre) eqn:Hk.
  - destruct (kmap full (filter (λ kv, HasPrefix kv.1 pre = false) m0) !! k) as [v|] eqn:E.
    + apply lookup_kmap_Some in E as (k0 & -> & [E0 H0]%map_lookup_filter_Some); [|apply _].
      rewrite (Hm k0 v) by (done || set_solver). by destruct (filter (λ kv, HasPrefix kv.1 pre = true) m0 !! full k0).
    + rewrite Hot; [|done|].
      * rewrite (left_id_L None (∪)). destruct (m0 !! k) as [v|] eqn:E0.
        -- symmetry. by apply map_lookup_filter_Some.
        -- symmetry. apply map_lookup_filter_None. by left.
      * intros k0 H0 [v Hv] _ ->. rewrite lookup_kmap in E by apply _.
        apply map_lookup_filter_None in E as [E|E]; [congruence|]. by apply (E v Hv).
  - rewrite (Hp k Hk), decide_False by set_solver.
    destruct (kmap full (filter (λ kv, HasPrefix kv.1 pre = false) m0) !! k) as [v|] eqn:E.
    + apply lookup_kmap_Some in E as (k0 & -> & _); [|apply _]. by rewrite full_prefix in Hk.
    + rewrite (left_id_L None (∪)). symmetry. apply map_lookup_filter_None. right. intros v _. cbn. by rewrite Hk.
Qed.

(** Whatever the order, the loop renames. *)
Lemma range_rename m : range id (rename_body pre rest) m0 m ↔ m = renamed pre rest m0.
Proof.
  assert (∀ m, range id (rename_body pre rest) m0 m → m = renamed pre rest m0) as Hto.
  { intros m' Hr. destruct (range_inv id (rename_body pre rest) renaming _ _ _ _ ltac:(intros; by apply renaming_step) Hr renaming_start)
      as (seen & Hend). by eapply renaming_end. }
  split; [apply Hto|]. intros ->. destruct (range_total id (rename_body pre rest) m0) as (m' & Hr).
  by rewrite <-(Hto m' Hr).
Qed.
End rename_ok.
