(* ===== verification/SnmpTags.v ===== *)
(** User tags and match attributes of SNMP devices: the per-provider and global sets
    of the configuration (src/pkg/kt/snmp.go, [ProviderMap.Init]) and what a device
    ends up with (src/pkg/inputs/snmp/snmp.go, [parseConfig]).

    The loops change the maps they range over; they are runs of [GoMap.range], so the
    theorems hold for every order.  Tags and match attributes go through the same
    code; the model follows one of the two. *)
From S2P Require Import Prelude GoStrings GoMap Jchf.
Local Open Scope Z_scope.

Definition UserTagPrefix : string := "tags.".
Definition ProviderToken : string := ":".
Definition ProviderPrefix : string := String.append "provider" ProviderToken.
Definition GlobalProvider : string := "global".
Definition DeviceProvider : string := "device".

(** A range loop over a map that may be nil. *)
Definition gorange {V} (body : string → V → gmap string V → gmap string V) (m m' : gomap V) : Prop :=
  match m, m' with Some m, Some m' => range id body m m' | None, None => True | _, _ => False end.

(** ** The configuration's sets *)

Record device := mkDevice { UserTags : gomap string; d_Provider : Provider_; ExpectedDevTags : Z }.
Record SnmpConfig := mkSnmpConfig { g_UserTags : gomap string; Devices : gmap string device; doneInit : bool }.

Definition with_tags (tags : gomap string) (d : device) : device :=
  {| UserTags := tags; d_Provider := d_Provider d; ExpectedDevTags := ExpectedDevTags d |}.

(** A loop of [Init] that puts unprefixed keys under a provider. *)
Definition under (provider : string) : string → string → gmap string string → gmap string string :=
  rename_body ProviderPrefix (String.append provider ProviderToken).

Definition provider_key (provider k : string) : string :=
  String.append (String.append ProviderPrefix (String.append provider ProviderToken)) k.

(** The loop that copies a provider's set; its keys are distinct, so the order does
    not matter. *)
Definition copy_provider (provider : string) (p g : gmap string string) : gmap string string :=
  map_fold (λ k v g, if HasPrefix k ProviderPrefix then g else <[provider_key provider k := v]> g) g p.

(** What each device is after its loop. *)
Definition devices_ranged (f : device → device → Prop) (ds ds' : gmap string device) : Prop :=
  ∀ name, match ds !! name, ds' !! name with Some d, Some d' => f d d' | None, None => True | _, _ => False end.

(** [p.Init(provider, cfg)] for the tags [p]. *)
Definition Init (provider : string) (p : gomap string) (cfg cfg' : SnmpConfig) : Prop :=
  let g := match p, g_UserTags cfg with Some _, None => Some ∅ | _, g => g end in
  ∃ g1,
    (if doneInit cfg then g1 = g ∧ Devices cfg' = Devices cfg
     else gorange (under GlobalProvider) g g1 ∧
       devices_ranged (λ d d', d' = with_tags (UserTags d') d ∧ gorange (under DeviceProvider) (UserTags d) (UserTags d'))
         (Devices cfg) (Devices cfg')) ∧
    g_UserTags cfg' = match p with None => g1 | Some p => copy_provider provider p <$> g1 end ∧
    doneInit cfg' = true.

(** The range over the providers of the configuration. *)
Fixpoint init_all (providers : list (string * gomap string)) (cfg cfg' : SnmpConfig) : Prop :=
  match providers with
  | [] => cfg' = cfg
  | (provider, p) :: providers => ∃ cfg1, Init provider p cfg cfg1 ∧ init_all providers cfg1 cfg'
  end.

(** The global set fills in what a device lacks. *)
Definition add_global (g : gomap string) (d : device) : device :=
  match g with
  | None => d
  | Some g =>
      if decide (g = ∅) then d
      else with_tags (Some (map_fold (λ k v m, match m !! k with Some _ => m | None => <[k := v]> m end)
                              (map_range (UserTags d)) g)) d
  end.

(** ** A device's own view *)

Definition matchesPrefix (tag : string) (provider : Provider_) : option string :=
  if negb (HasPrefix tag ProviderPrefix) then Some tag
  else
    match SplitN 2 tag ProviderToken with
    | [_; p; t] => if String.eqb p provider then Some t else None
    | _ => Some tag
    end.

(** The loop of [set] and of [prune]. *)
Definition set_body (p : Provider_) (k v : string) (m : gmap string string) : gmap string string :=
  match matchesPrefix k p with
  | Some nk => let m := delete k m in match m !! nk with Some _ => m | None => <[nk := v]> m end
  | None => m
  end.
Definition prune_body (k v : string) (m : gmap string string) : gmap string string :=
  if HasPrefix k ProviderPrefix then delete k m else m.

Definition setDeviceTagsAndMatch (d d' : device) : Prop :=
  ∃ m1 m2 m3 m4,
    gorange (set_body DeviceProvider) (UserTags d) m1 ∧
    gorange (set_body (d_Provider d)) m1 m2 ∧
    gorange (set_body GlobalProvider) m2 m3 ∧
    gorange prune_body m3 m4 ∧ d' = with_tags m4 d.

(** [device.InitUserTags(serviceName)]: the tags every flow of the device gets. *)
Definition tag_key (k : string) : string := if HasPrefix k UserTagPrefix then k else String.append UserTagPrefix k.
Definition InitUserTags (serviceName : string) (d : device) (allUserTags : gmap string string) : Prop :=
  let n := Z.of_nat (size (map_range (UserTags d))) in
  ¬ (0 < ExpectedDevTags d ∧ n ≠ ExpectedDevTags d) ∧
  let tags := if String.eqb serviceName "ktranslate" then map_range (UserTags d)
              else <["container_service" := serviceName]> (map_range (UserTags d)) in
  ∃ order, order ≡ₚ map_to_list tags ∧ allUserTags = foldl (λ out kv, <[tag_key kv.1 := kv.2]> out) ∅ order.

(** The tag part of [parseConfig], for the device [name]. *)
Definition parse_tags (providers : gmap string (gomap string)) (cfg : SnmpConfig) (name : string) (d' : device) : Prop :=
  ∃ order cfg1 d1,
    order ≡ₚ map_to_list providers ∧ init_all order cfg cfg1 ∧ Devices cfg1 !! name = Some d1 ∧
    setDeviceTagsAndMatch (add_global (g_UserTags cfg1) d1) d'.

(** ** Prefixed keys *)

Definition plain (k : string) : Prop := HasPrefix k ProviderPrefix = false.
#[export] Instance plain_dec k : Decision (plain k).
Proof. unfold plain. apply _. Defined.
(** A provider's name has no colon. *)
Definition name_ok (p : string) : Prop := Contains p ProviderToken = false.

Lemma provider_key_prefix p k : HasPrefix (provider_key p k) ProviderPrefix = true.
Proof. unfold provider_key. rewrite append_assoc. apply HasPrefix_append. Qed.
Lemma provider_key_plain p k : plain k → provider_key p k ≠ k.
Proof. intros Hk E. unfold plain in Hk. rewrite <-E, provider_key_prefix in Hk. done. Qed.
#[export] Instance provider_key_inj p : Inj (=) (=) (provider_key p).
Proof. intros a b E. by apply (inj (String.append _)) in E. Qed.

Lemma provider_key_split p k : name_ok p → SplitN 2 (provider_key p k) ProviderToken = ["provider"; p; k].
Proof.
  intros Hp. assert (provider_key p k = String.append "provider" (String ":" (String.append p (String ":" k)))) as ->.
  { unfold provider_key, ProviderPrefix, ProviderToken. rewrite !append_assoc. reflexivity. }
  unfold ProviderToken, name_ok in *. cbn [SplitN]. rewrite Cut_char by reflexivity. by rewrite Cut_char by done.
Qed.

Lemma matchesPrefix_key p k q : name_ok p → matchesPrefix (provider_key p k) q = if String.eqb p q then Some k else None.
Proof. intros Hp. unfold matchesPrefix. rewrite provider_key_prefix. cbn [negb]. by rewrite provider_key_split. Qed.
Lemma matchesPrefix_plain k q : plain k → matchesPrefix k q = Some k.
Proof. unfold plain, matchesPrefix. by intros ->. Qed.

Lemma provider_key_eq p q a b : name_ok p → name_ok q → provider_key p a = provider_key q b → p = q ∧ a = b.
Proof.
  intros Hp Hq E. apply (f_equal (λ s, SplitN 2 s ProviderToken)) in E. rewrite !provider_key_split in E by done.
  by injection E.
Qed.

(** ** The loops, whatever their order *)

(** The keys of a configuration: plain, or a plain key under a provider. *)
Definition keys_ok (m : gmap string string) : Prop :=
  map_Forall (λ k _, plain k ∨ ∃ q t, name_ok q ∧ plain t ∧ k = provider_key q t) m.

(** A tag of [p] becomes the plain tag unless there is one. *)
Definition set_at (p : Provider_) (m : gmap string string) (k : string) : option string :=
  if decide (plain k) then match m !! k with Some v => Some v | None => m !! provider_key p k end
  else match matchesPrefix k p with Some _ => None | None => m !! k end.

Section set_ok.
Context (p : Provider_) (Hp : name_ok p) (m0 : gmap string string) (Hm0 : keys_ok m0).

Record setting (must seen : gset string) (m : gmap string string) : Prop := {
  sg_plain k : plain k → m !! k =
    match m0 !! k with
    | Some v => Some v
    | None => if decide (provider_key p k ∈ must) then None else m0 !! provider_key p k
    end;
  sg_own t : plain t → m !! provider_key p t = if decide (provider_key p t ∈ must) then m0 !! provider_key p t else None;
  sg_owed t : plain t → provider_key p t ∈ must → is_Some (m0 !! provider_key p t);
  sg_other k : ¬ plain k → matchesPrefix k p = None → m !! k = m0 !! k;
  sg_keys k : ¬ plain k → is_Some (m !! k) → is_Some (m0 !! k) }.

Lemma setting_start : setting (dom m0) ∅ m0.
Proof.
  split; try done.
  - intros k Hk. destruct (m0 !! k); [done|]. case_decide as H; [done|]. by apply not_elem_of_dom in H.
  - intros t Ht. case_decide as H; [done|]. by apply not_elem_of_dom in H.
  - intros t Ht H. by apply elem_of_dom.
Qed.

(** Nothing owed changes when a round leaves the map as it is. *)
Lemma setting_same must seen seen' m k : setting must seen m → (∀ t, plain t → k ≠ provider_key p t) →
  setting ((must ∖ {[k]}) ∩ dom m) seen' m.
Proof.
  intros [Hpl Ho Hw Hot Hk] Hne.
  assert (∀ t, plain t → provider_key p t ∈ (must ∖ {[k]}) ∩ dom m ↔ provider_key p t ∈ must) as Hsame.
  { intros t Ht. rewrite elem_of_intersection, elem_of_difference, not_elem_of_singleton. split; [tauto|].
    intros Hin. split; [split; [done|]|].
    - intros E. by apply (Hne t Ht).
    - apply elem_of_dom. rewrite (Ho t Ht), decide_True by done. by apply Hw. }
  split; [| | |done|done].
  - intros x Hx. rewrite (Hpl x Hx). destruct (m0 !! x); [done|]. apply decide_ext. by rewrite Hsame.
  - intros t Ht. rewrite (Ho t Ht). apply decide_ext. by rewrite Hsame.
  - intros t Ht Hin. apply Hw; [done|]. by apply Hsame.
Qed.

Lemma setting_step must seen m k v : setting must seen m → m !! k = Some v →
  setting ((must ∖ {[k]}) ∩ dom (set_body p k v m)) ((seen ∪ {[k]}) ∩ dom (set_body p k v m)) (set_body p k v m).
Proof.
  intros HI Hk. pose proof HI as [Hpl Ho Hw Hot Hkeys]. unfold set_body. destruct (decide (plain k)) as [Hpk|Hpk].
  - rewrite matchesPrefix_plain by done. rewrite lookup_delete_eq, insert_delete_eq, insert_id by done.
    eapply setting_same; [exact HI|]. intros t _ ->. unfold plain in Hpk. by rewrite provider_key_prefix in Hpk.
  - destruct (Hkeys k Hpk ltac:(by eexists)) as [v0 Hv0].
    destruct (Hm0 k v0 Hv0) as [?|(q & t & Hq & Ht & ->)]; [done|].
    rewrite matchesPrefix_key by done. destruct (String.eqb_spec q p) as [->|Hqp].
    2: { eapply setting_same; [exact HI|]. intros t' Ht' E. by apply provider_key_eq in E as [-> _]. }
    pose proof Hk as Hk'. rewrite (Ho t Ht) in Hk'. destruct (decide (provider_key p t ∈ must)) as [Hin|]; [|done].
    rewrite lookup_delete_ne by (by apply provider_key_plain).
    set (m' := match m !! t with Some _ => delete (provider_key p t) m | None => <[t := v]> (delete (provider_key p t) m) end).
    assert (∀ x, x ≠ t → x ≠ provider_key p t → m' !! x = m !! x) as Hsame.
    { intros x H1 H2. unfold m'. destruct (m !! t); rewrite ?lookup_insert_ne, lookup_delete_ne by done; done. }
    assert (m' !! provider_key p t = None) as Hgone.
    { unfold m'. destruct (m !! t); rewrite ?lookup_insert_ne, lookup_delete_eq by (intros E; symmetry in E; by apply provider_key_plain in E); done. }
    assert (m' !! t = match m !! t with Some w => Some w | None => Some v end) as Hnew.
    { unfold m'. destruct (m !! t) eqn:Et; [by rewrite lookup_delete_ne by (by apply provider_key_plain)|apply lookup_insert_eq]. }
    assert (∀ x, plain x → x ≠ t → provider_key p x ∈ (must ∖ {[provider_key p t]}) ∩ dom m' ↔ provider_key p x ∈ must) as Hmust.
    { intros x Hx Hxt. rewrite elem_of_intersection, elem_of_difference, not_elem_of_singleton. split; [tauto|].
      intros Hxin. split; [split; [done|intros E; by apply (inj _) in E]|]. apply elem_of_dom. rewrite Hsame.
      - rewrite (Ho x Hx), decide_True by done. by apply Hw.
      - intros E. rewrite <-E in Ht. unfold plain in Ht. by rewrite provider_key_prefix in Ht.
      - intros E. by apply (inj _) in E. }
    split.
    + intros x Hx. destruct (decide (x = t)) as [->|Hxt].
      * rewrite Hnew, (Hpl t Ht). destruct (m0 !! t); [done|]. rewrite decide_True by done. rewrite decide_False by set_solver. done.
      * rewrite Hsame, (Hpl x Hx) by (done || intros E; unfold plain in Hx; by rewrite E, provider_key_prefix in Hx).
        destruct (m0 !! x); [done|]. apply decide_ext. by rewrite Hmust.
    + intros x Hx. destruct (decide (x = t)) as [->|Hxt].
      * rewrite Hgone. by rewrite decide_False by set_solver.
      * rewrite Hsame, (Ho x Hx).
        -- apply decide_ext. by rewrite Hmust.
        -- intros E. rewrite <-E in Ht. unfold plain in Ht. by rewrite provider_key_prefix in Ht.
        -- intros E. by apply (inj _) in E.
    + intros x Hx Hxin. apply Hw; [done|]. set_solver.
    + intros x Hx Hmx. assert (x ≠ provider_key p t) as Hxk.
      { intros ->. rewrite matchesPrefix_key, String.eqb_refl in Hmx by done. done. }
      rewrite Hsame by (done || by intros ->). by apply Hot.
    + intros x Hx. destruct (decide (x = provider_key p t)) as [->|Hxk]; [by rewrite Hgone; intros []|].
      rewrite Hsame by (done || by intros ->). by apply Hkeys.
Qed.

Lemma range_set m : range id (set_body p) m0 m → ∀ k, m !! k = set_at p m0 k.
Proof.
  intros Hr. destruct (range_inv id (set_body p) setting _ _ _ _ ltac:(intros; by apply setting_step) Hr setting_start)
    as (seen & [Hpl Ho _ Hot Hkeys]). intros k. unfold set_at. destruct (decide (plain k)) as [Hk|Hk].
  - rewrite (Hpl k Hk). destruct (m0 !! k); [done|]. by rewrite decide_False by set_solver.
  - destruct (matchesPrefix k p) as [nk|] eqn:E; [|by apply Hot].
    destruct (m !! k) as [v|] eqn:Ek; [|done]. destruct (Hkeys k Hk ltac:(by eexists)) as [v0 Hv0].
    destruct (Hm0 k v0 Hv0) as [?|(q & t & Hq & Ht & ->)]; [done|]. rewrite matchesPrefix_key in E by done.
    destruct (String.eqb_spec q p) as [->|]; [|done]. rewrite (Ho t Ht), decide_False in Ek by set_solver. done.
Qed.

(** The keys stay well-formed. *)
Lemma set_keys_ok m : (∀ k, m !! k = set_at p m0 k) → keys_ok m.
Proof.
  intros Hm k v Hk. rewrite Hm in Hk. unfold set_at in Hk. destruct (decide (plain k)) as [|Hpk]; [by left|].
  destruct (matchesPrefix k p); [done|]. by apply (Hm0 k v).
Qed.
End set_ok.

Lemma range_prune m0 m : range id prune_body m0 m → m = filter (λ kv, plain kv.1) m0.
Proof.
  intros Hr. set (I := λ (must seen : gset string) (m : gmap string string),
    (∀ k, plain k → m !! k = m0 !! k) ∧ (∀ k, ¬ plain k → m !! k = if decide (k ∈ must) then m0 !! k else None)).
  destruct (range_inv id prune_body I (dom m0) ∅ m0 m) as (seen & Hpl & Hno); [|exact Hr| |].
  - intros must seen m1 k v [Hpl Hno] Hk _. unfold id in *.
    assert (∀ x, ¬ plain x → is_Some (prune_body k v m1 !! x) ∨ x ∉ must ∨ x = k ∨ m0 !! x = None) as Hd.
    { intros x Hx. destruct (decide (x = k)) as [->|Hxk]; [tauto|]. destruct (decide (x ∈ must)) as [Hin|]; [|tauto].
      destruct (m0 !! x) as [w|] eqn:E; [|tauto]. left. specialize (Hno x Hx). rewrite decide_True, E in Hno by done.
      unfold prune_body. destruct (HasPrefix k ProviderPrefix); rewrite ?lookup_delete_ne by done; by eexists. }
    unfold prune_body in *. destruct (HasPrefix k ProviderPrefix) eqn:Ek; split.
    + intros x Hx. rewrite lookup_delete_ne by (intros ->; unfold plain in Hx; congruence). by apply Hpl.
    + intros x Hx. destruct (decide (x = k)) as [->|Hxk]; [rewrite lookup_delete_eq; by rewrite decide_False by set_solver|].
      rewrite lookup_delete_ne, (Hno x Hx) by done. destruct (decide (x ∈ must)) as [Hin|Hin].
      * destruct (m0 !! x) as [w|] eqn:E; [|by case_decide]. rewrite decide_True; [done|].
        rewrite elem_of_intersection, elem_of_difference, not_elem_of_singleton. split; [done|]. apply elem_of_dom.
        destruct (Hd x Hx) as [?|[?|[?|?]]]; done || congruence.
      * by rewrite decide_False by set_solver.
    + done.
    + intros x Hx. rewrite (Hno x Hx). destruct (decide (x ∈ must)) as [Hin|Hin].
      * destruct (m0 !! x) as [w|] eqn:E; [|by case_decide]. rewrite decide_True; [done|].
        rewrite elem_of_intersection, elem_of_difference, not_elem_of_singleton. split.
        -- split; [done|]. intros ->. unfold plain in Hx. congruence.
        -- apply elem_of_dom. specialize (Hno x Hx). rewrite decide_True, E in Hno by done. by eexists.
      * by rewrite decide_False by set_solver.
  - split; [done|]. intros k Hk. case_decide as H; [done|]. by apply not_elem_of_dom in H.
  - apply map_eq. intros k. destruct (decide (plain k)) as [Hk|Hk].
    + rewrite (Hpl k Hk). destruct (m0 !! k) as [v|] eqn:E; symmetry; [by apply map_lookup_filter_Some|].
      apply map_lookup_filter_None. by left.
    + rewrite (Hno k Hk), decide_False by set_solver. symmetry. apply map_lookup_filter_None. right. by intros v _ ?.
Qed.

Lemma gorange_set p (m m' : gomap string) : name_ok p → keys_ok (map_range m) → gorange (set_body p) m m' →
  (∀ k, map_range m' !! k = set_at p (map_range m) k) ∧ keys_ok (map_range m').
Proof.
  intros Hp Hk Hr. assert (∀ k, map_range m' !! k = set_at p (map_range m) k) as H; [|split; [done|by eapply set_keys_ok]].
  destruct m as [m|], m' as [m'|]; try done.
  - by apply (range_set p Hp).
  - intros k. unfold map_range, set_at. cbn [default]. rewrite !lookup_empty. repeat case_match; done.
Qed.

Lemma gorange_rename pre rest (m m' : gomap string) : gorange (rename_body pre rest) m m' → map_range m' = renamed pre rest (map_range m).
Proof.
  destruct m as [m|], m' as [m'|]; [|done|done|].
  - by intros ->%range_rename.
  - intros _. unfold map_range, renamed. cbn [default]. by rewrite !map_filter_empty, kmap_empty, (left_id_L ∅ (∪)).
Qed.

(** The first of several values. *)
Definition first_of (l : list (option string)) : option string :=
  foldr (λ o r, match o with Some v => Some v | None => r end) None l.

(** A device's loops pick, for a plain tag, its own, the device's, its provider's,
    the global one, in this order; nothing else is left. *)
Lemma set_device_tags d d' k :
  name_ok (d_Provider d) → d_Provider d ≠ DeviceProvider → d_Provider d ≠ GlobalProvider → keys_ok (map_range (UserTags d)) →
  setDeviceTagsAndMatch d d' →
  map_range (UserTags d') !! k =
    (let m := map_range (UserTags d) in
     if decide (plain k)
     then first_of [m !! k; m !! provider_key DeviceProvider k; m !! provider_key (d_Provider d) k; m !! provider_key GlobalProvider k]
     else None).
Proof.
  intros Hp Hpd Hpg Hk (m1 & m2 & m3 & m4 & H1 & H2 & H3 & H4 & ->). cbv zeta. cbn [with_tags UserTags].
  destruct (gorange_set DeviceProvider _ _ ltac:(done) Hk H1) as [E1 Hk1].
  destruct (gorange_set (d_Provider d) _ _ Hp Hk1 H2) as [E2 Hk2].
  destruct (gorange_set GlobalProvider _ _ ltac:(done) Hk2 H3) as [E3 _].
  assert (map_range m4 = filter (λ kv, plain kv.1) (map_range m3)) as ->.
  { destruct m3 as [m3|], m4 as [m4|]; try done. by apply range_prune. }
  set (m := map_range (UserTags d)) in *.
  assert (∀ p q t m', name_ok q → q ≠ p → set_at p m' (provider_key q t) = m' !! provider_key q t) as Hskip.
  { intros p q t m' Hq Hne. unfold set_at. rewrite decide_False by (unfold plain; by rewrite provider_key_prefix).
    rewrite matchesPrefix_key by done. by destruct (String.eqb_spec q p). }
  destruct (decide (plain k)) as [Hpk|Hpk].
  - transitivity (map_range m3 !! k).
    { destruct (map_range m3 !! k) as [v|] eqn:E; [by apply map_lookup_filter_Some|]. apply map_lookup_filter_None. by left. }
    assert (∀ p m', set_at p m' k = match m' !! k with Some v => Some v | None => m' !! provider_key p k end) as Hplain
      by (intros p m'; unfold set_at; rewrite decide_True by exact Hpk; reflexivity).
    rewrite E3, Hplain, !E2, Hplain, Hskip, !E1, Hplain, !Hskip by done. cbn [first_of foldr].
    destruct (m !! k); [done|]. destruct (m !! provider_key DeviceProvider k); [done|].
    destruct (m !! provider_key (d_Provider d) k); [done|]. by destruct (m !! provider_key GlobalProvider k).
  - apply map_lookup_filter_None. right. by intros v _ ?.
Qed.

(** ** The providers' sets *)

Lemma copy_provider_at q p g t : plain t → map_Forall (λ k _, plain k) p →
  copy_provider q p g !! provider_key q t = match p !! t with Some v => Some v | None => g !! provider_key q t end.
Proof.
  intros Ht. unfold copy_provider. revert t Ht. refine (map_fold_weak_ind (λ r p, ∀ t, plain t → map_Forall (λ k _, plain k) p →
    r !! provider_key q t = match p !! t with Some v => Some v | None => g !! provider_key q t end) _ _ _ _ p).
  - intros t _ _. by rewrite lookup_empty.
  - intros k v p' r Hk IH t Ht Hpl. assert (plain k) as Hpk by (by eapply (Hpl k v); rewrite lookup_insert_eq).
    unfold plain in Hpk. rewrite Hpk. destruct (decide (k = t)) as [->|Hne]; [by rewrite !lookup_insert_eq|].
    rewrite !lookup_insert_ne by (done || intros E; by apply (inj _) in E). apply IH; [done|].
    by eapply map_Forall_insert_1_2.
Qed.

Lemma copy_provider_other q p g k : (∀ t, plain t → is_Some (p !! t) → k ≠ provider_key q t) →
  copy_provider q p g !! k = g !! k.
Proof.
  unfold copy_provider. revert k. refine (map_fold_weak_ind (λ r p, ∀ k, (∀ t, plain t → is_Some (p !! t) → k ≠ provider_key q t) →
    r !! k = g !! k) _ _ _ _ p); [done|].
  intros x v p' r Hx IH k Hne. assert (r !! k = g !! k) as E.
  { apply IH. intros t Ht Hs. apply Hne; [done|]. destruct (decide (x = t)) as [->|]; [by rewrite lookup_insert_eq; eexists|by rewrite lookup_insert_ne]. }
  destruct (HasPrefix x ProviderPrefix) eqn:Ex; [done|]. rewrite lookup_insert_ne; [done|].
  intros E'. apply (Hne x Ex); [by rewrite lookup_insert_eq; eexists|done].
Qed.

Lemma renamed_at rest (m : gmap string string) t : map_Forall (λ k _, plain k) m → plain t →
  renamed ProviderPrefix (String.append rest ProviderToken) m !! provider_key rest t = m !! t.
Proof.
  intros Hm Ht. unfold renamed. rewrite lookup_union.
  assert (provider_key rest t = String.append (String.append ProviderPrefix (String.append rest ProviderToken)) t) as -> by done.
  rewrite lookup_kmap by apply _. assert (filter (λ kv, HasPrefix kv.1 ProviderPrefix = true) m = ∅) as ->.
  { apply map_empty. intros k. apply map_lookup_filter_None. right. intros v Hv. cbn. by rewrite (Hm k v Hv). }
  rewrite lookup_empty, (right_id_L None (∪)).
  destruct (m !! t) as [v|] eqn:E; [by apply map_lookup_filter_Some|]. apply map_lookup_filter_None. by left.
Qed.

Lemma renamed_keys rest (m : gmap string string) k v : map_Forall (λ k _, plain k) m →
  renamed ProviderPrefix (String.append rest ProviderToken) m !! k = Some v → ∃ t, plain t ∧ k = provider_key rest t.
Proof.
  intros Hm. unfold renamed. intros [H|[_ H]]%lookup_union_Some_raw.
  - apply lookup_kmap_Some in H as (t & -> & [H _]%map_lookup_filter_Some); [|apply _]. exists t. split; [by apply (Hm t v)|done].
  - apply map_lookup_filter_Some in H as [H Hp]. cbn in Hp. by rewrite (Hm k v H) in Hp.
Qed.

Lemma copy_provider_empty q g : copy_provider q ∅ g = g.
Proof. unfold copy_provider. by rewrite map_fold_empty. Qed.

Lemma copy_provider_keys q p g k v : copy_provider q p g !! k = Some v →
  is_Some (g !! k) ∨ ∃ t, plain t ∧ k = provider_key q t.
Proof.
  unfold copy_provider. revert v. refine (map_fold_weak_ind (λ r p, ∀ v, r !! k = Some v →
    is_Some (g !! k) ∨ ∃ t, plain t ∧ k = provider_key q t) _ _ _ _ p); [intros v H; left; by exists v|].
  intros x w p' r _ IH v. destruct (HasPrefix x ProviderPrefix) eqn:Ex; [apply IH|].
  destruct (decide (provider_key q x = k)) as [<-|Hne]; [intros _; right; by exists x|]. rewrite lookup_insert_ne by done. apply IH.
Qed.

(** [p.Init] on the sets, a nil set being empty. *)
Lemma Init_sets q p cfg cfg' : doneInit cfg = true → Init q p cfg cfg' →
  map_range (g_UserTags cfg') = copy_provider q (map_range p) (map_range (g_UserTags cfg)) ∧
  Devices cfg' = Devices cfg ∧ doneInit cfg' = true.
Proof.
  intros Hd (g1 & H & -> & ->). rewrite Hd in H. destruct H as [-> ->]. split; [|done].
  destruct p as [p|], (g_UserTags cfg) as [g|]; unfold map_range; cbn [default fmap option_fmap option_map]; by rewrite ?copy_provider_empty.
Qed.

Abbreviation under_global := (renamed ProviderPrefix (String.append GlobalProvider ProviderToken)).
Abbreviation under_device := (renamed ProviderPrefix (String.append DeviceProvider ProviderToken)).

Lemma Init_first q p cfg cfg' : doneInit cfg = false → Init q p cfg cfg' →
  map_range (g_UserTags cfg') = copy_provider q (map_range p) (under_global (map_range (g_UserTags cfg))) ∧
  (∀ name d, Devices cfg !! name = Some d → ∃ d', Devices cfg' !! name = Some d' ∧ d_Provider d' = d_Provider d ∧
     map_range (UserTags d') = under_device (map_range (UserTags d))) ∧
  doneInit cfg' = true.
Proof.
  intros Hd (g1 & H & -> & ->). rewrite Hd in H. destruct H as [Hg Hds]. split; [|split; [|done]].
  - apply gorange_rename in Hg as Hg'.
    assert (under_global (map_range (g_UserTags cfg)) = map_range g1) as -> by (rewrite Hg'; by destruct p, (g_UserTags cfg)).
    destruct p as [p|]; [|by rewrite copy_provider_empty].
    destruct g1 as [g1|]; [done|]. by destruct (g_UserTags cfg).
  - intros name d E. specialize (Hds name). rewrite E in Hds. destruct (Devices cfg' !! name) as [d'|]; [|done].
    destruct Hds as [-> Hr]. exists (with_tags (UserTags d') d). split; [done|]. split; [done|]. by apply gorange_rename in Hr.
Qed.

(** The providers' sets, copied one after the other. *)
Definition copies (ps : list (string * gomap string)) (g : gmap string string) : gmap string string :=
  foldl (λ g pm, copy_provider pm.1 (map_range pm.2) g) g ps.

Lemma init_all_sets ps cfg cfg' : doneInit cfg = true → init_all ps cfg cfg' →
  map_range (g_UserTags cfg') = copies ps (map_range (g_UserTags cfg)) ∧ Devices cfg' = Devices cfg.
Proof.
  revert cfg. induction ps as [|[q p] ps IH]; intros cfg Hd; [by intros ->|].
  intros (cfg1 & (E1 & E2 & E3)%Init_sets & H2); [|done]. destruct (IH cfg1 E3 H2) as [H3 H4].
  rewrite H3, E1, H4, E2. done.
Qed.

Definition set_ok (pm : string * gomap string) : Prop :=
  name_ok pm.1 ∧ pm.1 ≠ DeviceProvider ∧ pm.1 ≠ GlobalProvider ∧ map_Forall (λ k _, plain k) (map_range pm.2).

Lemma copies_other ps g q t : name_ok q → Forall set_ok ps → q ∉ ps.*1 → copies ps g !! provider_key q t = g !! provider_key q t.
Proof.
  intros Hq. revert g. induction ps as [|[q' m] ps IH]; intros g Hf Hin; [done|].
  apply Forall_cons in Hf as [(Hq' & _ & _ & _) Hf]. apply not_elem_of_cons in Hin as [Hne Hin].
  unfold copies. cbn [foldl fst snd]. fold (copies ps (copy_provider q' (map_range m) g)). rewrite IH by done.
  apply copy_provider_other. intros t' _ _ E. by apply provider_key_eq in E as [-> _].
Qed.

Lemma copies_at ps g q m t : NoDup ps.*1 → Forall set_ok ps → (q, m) ∈ ps → plain t → g !! provider_key q t = None →
  copies ps g !! provider_key q t = map_range m !! t.
Proof.
  revert g. induction ps as [|[q' m'] ps IH]; intros g Hnd Hf Hin Ht Hg; [by apply elem_of_nil in Hin|].
  cbn [fmap list_fmap fst] in Hnd. apply NoDup_cons in Hnd as [Hni Hnd]. apply Forall_cons in Hf as [(Hq' & Hr) Hf].
  unfold copies. cbn [foldl fst snd]. fold (copies ps (copy_provider q' (map_range m') g)).
  apply elem_of_cons in Hin as [[= -> ->]|Hin].
  - rewrite copies_other by done. rewrite copy_provider_at by (done || apply Hr). rewrite Hg. by destruct (map_range m' !! t).
  - apply IH; try done. rewrite copy_provider_other; [done|]. intros t' _ _ E.
    assert (name_ok q) as Hq by (rewrite Forall_forall in Hf; by apply (Hf (q, m))).
    apply provider_key_eq in E as [-> _]; [|done|done]. apply Hni. apply (list_elem_of_fmap_2 fst _ (q', m) Hin).
Qed.

Lemma copies_keys ps g k v : Forall set_ok ps → copies ps g !! k = Some v →
  is_Some (g !! k) ∨ ∃ q t, q ∈ ps.*1 ∧ name_ok q ∧ plain t ∧ k = provider_key q t.
Proof.
  revert g. induction ps as [|[q m] ps IH]; intros g Hf; [intros H; left; by exists v|].
  apply Forall_cons in Hf as [(Hq & _ & _ & Hm) Hf]. unfold copies. cbn [foldl fst snd].
  fold (copies ps (copy_provider q (map_range m) g)). intros [[w H]|(q' & t & Hin & Hr)]%IH; [|right; exists q', t; split; [by right|done]|done].
  apply copy_provider_keys in H as [?|(t & Ht & ->)]; [by left|]. right. exists q, t. split; [by left|done].
Qed.

(** ** The device's tags *)

Lemma add_global_provider g d : d_Provider (add_global g d) = d_Provider d.
Proof. destruct g as [g|]; [|done]. unfold add_global. by case_decide. Qed.

Lemma add_global_at g d k :
  map_range (UserTags (add_global g d)) !! k =
    match map_range (UserTags d) !! k with Some v => Some v | None => map_range g !! k end.
Proof.
  assert (∀ o : option string, o = match o with Some v => Some v | None => (∅ : gmap string string) !! k end) as Hempty
    by (intros []; by rewrite ?lookup_empty).
  destruct g as [g|]; [|apply Hempty]. unfold add_global. destruct (decide (g = ∅)) as [->|_]; [apply Hempty|]. clear Hempty.
  unfold with_tags. cbn [UserTags]. unfold map_range at 1 3. cbn [default]. revert k.
  refine (map_fold_weak_ind (λ r g, ∀ k, r !! k = match map_range (UserTags d) !! k with Some v => Some v | None => g !! k end)
      _ _ _ _ g).
  - intros k. rewrite lookup_empty. by destruct (map_range (UserTags d) !! k).
  - intros k v g' r Hk IH x. pose proof (IH k) as Ek. destruct (decide (k = x)) as [->|Hne].
    + rewrite lookup_insert_eq. destruct (map_range (UserTags d) !! x) eqn:E.
      * by rewrite Ek.
      * rewrite Ek, Hk. apply lookup_insert_eq.
    + rewrite (lookup_insert_ne g') by done. destruct (r !! k); [apply IH|]. rewrite lookup_insert_ne by done. apply IH.
Qed.

(** A configuration as its author writes it. *)
Record config_ok (providers : gmap string (gomap string)) (cfg : SnmpConfig) : Prop := {
  co_done : doneInit cfg = false;
  co_global : map_Forall (λ k _, plain k) (map_range (g_UserTags cfg));
  co_devices : map_Forall (λ _ d, map_Forall (λ k _, plain k) (map_range (UserTags d))) (Devices cfg);
  co_sets : map_Forall (λ q m, set_ok (q, m)) providers }.

Lemma plain_none (m : gmap string string) q t : map_Forall (λ k _, plain k) m → m !! provider_key q t = None.
Proof.
  intros Hm. destruct (m !! provider_key q t) as [v|] eqn:E; [|done]. specialize (Hm _ _ E). cbn in Hm.
  unfold plain in Hm. by rewrite provider_key_prefix in Hm.
Qed.

Lemma renamed_none rest q (m : gmap string string) t : map_Forall (λ k _, plain k) m → name_ok rest → name_ok q → q ≠ rest →
  renamed ProviderPrefix (String.append rest ProviderToken) m !! provider_key q t = None.
Proof.
  intros Hm Hr Hq Hne. destruct (renamed _ _ m !! _) as [v|] eqn:E; [|done].
  apply renamed_keys in E as (t' & _ & E); [|done]. by apply provider_key_eq in E as [-> _].
Qed.

Lemma renamed_plain rest (m : gmap string string) k : map_Forall (λ k _, plain k) m → plain k →
  renamed ProviderPrefix (String.append rest ProviderToken) m !! k = None.
Proof.
  intros Hm Hk. destruct (renamed _ _ m !! k) as [v|] eqn:E; [|done].
  apply renamed_keys in E as (t' & _ & ->); [|done]. unfold plain in Hk. by rewrite provider_key_prefix in Hk.
Qed.

(** The device before its loops: its own tags, then the configuration's. *)
Record assembled (providers : gmap string (gomap string)) (cfg : SnmpConfig) (d e : device) : Prop := {
  as_provider : d_Provider e = d_Provider d;
  as_keys : keys_ok (map_range (UserTags e));
  as_first k : plain k →
    let m := map_range (UserTags e) in
    first_of [m !! k; m !! provider_key DeviceProvider k; m !! provider_key (d_Provider d) k; m !! provider_key GlobalProvider k] =
    first_of [map_range (UserTags d) !! k; map_range (default None (providers !! d_Provider d)) !! k;
              map_range (g_UserTags cfg) !! k] }.

Section assembled.
Context (providers : gmap string (gomap string)) (cfg : SnmpConfig) (Hok : config_ok providers cfg).
Context (d : device) (name : string) (Hd : Devices cfg !! name = Some d).
Context (Hp : name_ok (d_Provider d)) (Hpd : d_Provider d ≠ DeviceProvider) (Hpg : d_Provider d ≠ GlobalProvider).

Local Lemma own_plain : map_Forall (λ k _, plain k) (map_range (UserTags d)).
Proof using Hok Hd. exact (co_devices _ _ Hok name d Hd). Qed.

(** Without provider sets nothing is renamed. *)
Lemma assembled_none : providers = ∅ → assembled providers cfg d (add_global (g_UserTags cfg) d).
Proof using Hok Hd.
  intros He. pose proof own_plain as Hown. pose proof (co_global _ _ Hok) as Hg. split; [apply add_global_provider| |].
  - intros k v. rewrite add_global_at. destruct (map_range (UserTags d) !! k) as [w|] eqn:E; intros H; left; [by apply (Hown k w)|by apply (Hg k v)].
  - intros k Hk. cbv zeta. rewrite !add_global_at, !(plain_none _ _ _ Hown), !(plain_none _ _ _ Hg), He, lookup_empty.
    cbn [first_of foldr default from_option]. rewrite (lookup_empty k : map_range None !! k = None).
    destruct (map_range (UserTags d) !! k); [done|]. by destruct (map_range (g_UserTags cfg) !! k).
Qed.

(** With provider sets every key carries the name of the set it comes from. *)
Lemma assembled_some order cfg1 d1 : providers ≠ ∅ → order ≡ₚ map_to_list providers → init_all order cfg cfg1 →
  Devices cfg1 !! name = Some d1 → assembled providers cfg d (add_global (g_UserTags cfg1) d1).
Proof using Hok Hd Hp Hpd Hpg.
  intros Hne Ho Hi Hd1. pose proof own_plain as Hown. pose proof (co_global _ _ Hok) as Hg.
  assert (Forall set_ok order) as Hsets.
  { apply Forall_forall. intros [q m] Hin. rewrite Ho, elem_of_map_to_list in Hin. by apply (co_sets _ _ Hok q m). }
  assert (NoDup order.*1) as Hnd by (rewrite Ho; apply NoDup_fst_map_to_list).
  assert (d_Provider d1 = d_Provider d ∧ map_range (UserTags d1) = under_device (map_range (UserTags d)) ∧
    map_range (g_UserTags cfg1) = copies order (under_global (map_range (g_UserTags cfg)))) as (Ep & Eu & Eg).
  { destruct order as [|[q p] order]; [apply Permutation_nil, map_to_list_empty_iff in Ho; done|].
    destruct Hi as (c & (E1 & E2 & E3)%Init_first & Hi); [|exact (co_done _ _ Hok)].
    destruct (init_all_sets _ _ _ E3 Hi) as [E4 E5]. destruct (E2 name d Hd) as (d' & H1 & H2 & H3).
    rewrite E5, H1 in Hd1. injection Hd1 as <-. split; [done|]. split; [done|]. by rewrite E4, E1. }
  split; [by rewrite add_global_provider| |].
  - intros k v. rewrite add_global_at, Eu, Eg. right.
    destruct (under_device _ !! k) as [w|] eqn:E.
    + apply renamed_keys in E as (t & Ht & ->); [|done]. by exists DeviceProvider, t.
    + apply copies_keys in H as [[w H]|(q & t & _ & ?)]; [|by exists q, t|done].
      apply renamed_keys in H as (t & Ht & ->); [|done]. by exists GlobalProvider, t.
  - intros k Hk. cbv zeta. rewrite !add_global_at, Eu, Eg. rewrite (renamed_plain DeviceProvider) by done.
    assert (copies order (under_global (map_range (g_UserTags cfg))) !! k = None) as ->.
    { destruct (copies _ _ !! k) as [v|] eqn:E; [|done].
      apply copies_keys in E as [[w H]|(q & t & _ & _ & _ & ->)]; [by rewrite renamed_plain in H| |done].
      unfold plain in Hk. by rewrite provider_key_prefix in Hk. }
    rewrite renamed_at, !renamed_none by done.
    assert (∀ q, q = DeviceProvider ∨ q = GlobalProvider → q ∉ order.*1) as Hnot.
    { intros q Hq ((q' & m) & -> & Hin)%list_elem_of_fmap. rewrite Forall_forall in Hsets. destruct (Hsets _ Hin) as (_ & ? & ? & _).
      by destruct Hq. }
    rewrite (copies_other order _ DeviceProvider), (copies_other order _ GlobalProvider) by (done || apply Hnot; tauto).
    rewrite renamed_none, renamed_at by done.
    assert (copies order (under_global (map_range (g_UserTags cfg))) !! provider_key (d_Provider d) k =
      map_range (default None (providers !! d_Provider d)) !! k) as ->.
    { destruct (providers !! d_Provider d) as [m|] eqn:E.
      - apply copies_at; [done|done| |done|by apply renamed_none]. by rewrite Ho, elem_of_map_to_list.
      - rewrite copies_other; [|done|done|].
        + rewrite renamed_none by done. symmetry. apply lookup_empty.
        + intros ((q & m) & Eq & Hin)%list_elem_of_fmap. cbn in Eq. rewrite Ho, elem_of_map_to_list in Hin. assert (Some m = None) as [=]. rewrite <-Hin, <-Eq. exact E. }
    cbn [first_of foldr]. by destruct (map_range (UserTags d) !! k).
Qed.
End assembled.

(** ** The loops end *)

Lemma gorange_total {V} body (m : gomap V) : ∃ m', gorange body m m'.
Proof. destruct m as [m|]; [|by exists None]. destruct (range_total id body m) as (m' & H). by exists (Some m'). Qed.

Lemma gorange_renamed pre rest (m : gomap string) : gorange (rename_body pre rest) m (renamed pre rest <$> m).
Proof. destruct m as [m|]; [|done]. cbn. by apply range_rename. Qed.

Lemma Init_total q p cfg : ∃ cfg', Init q p cfg cfg' ∧ dom (Devices cfg') = dom (Devices cfg).
Proof.
  unfold Init. set (g := match p, g_UserTags cfg with Some _, None => Some ∅ | _, g => g end). destruct (doneInit cfg).
  - exists {| g_UserTags := match p with None => g | Some p => copy_provider q p <$> g end; Devices := Devices cfg; doneInit := true |}.
    split; [|done]. by exists g.
  - destruct (gorange_total (under GlobalProvider) g) as (g1 & Hg).
    exists {| g_UserTags := match p with None => g1 | Some p => copy_provider q p <$> g1 end;
              Devices := (λ d, with_tags (under_device <$> UserTags d) d) <$> Devices cfg; doneInit := true |}.
    cbn [g_UserTags Devices doneInit]. split; [|by rewrite dom_fmap_L]. exists g1. split; [|done]. split; [done|].
    intros name. rewrite lookup_fmap. destruct (Devices cfg !! name) as [d|]; [|done]. cbn [fmap option_fmap option_map].
    split; [done|]. apply gorange_renamed.
Qed.

Lemma init_all_total ps cfg : ∃ cfg', init_all ps cfg cfg' ∧ dom (Devices cfg') = dom (Devices cfg).
Proof.
  revert cfg. induction ps as [|[q p] ps IH]; intros cfg; [by exists cfg|].
  destruct (Init_total q p cfg) as (c & Hc & Ec). destruct (IH c) as (cfg' & H & E). exists cfg'. split; [|congruence]. by exists c.
Qed.

Lemma parse_tags_total providers cfg name : is_Some (Devices cfg !! name) → ∃ d', parse_tags providers cfg name d'.
Proof.
  intros Hs%elem_of_dom. destruct (init_all_total (map_to_list providers) cfg) as (c & Hc & E).
  rewrite <-E in Hs. apply elem_of_dom in Hs as [d1 Hd1]. set (d2 := add_global (g_UserTags c) d1).
  destruct (gorange_total (set_body DeviceProvider) (UserTags d2)) as (m1 & H1).
  destruct (gorange_total (set_body (d_Provider d2)) m1) as (m2 & H2).
  destruct (gorange_total (set_body GlobalProvider) m2) as (m3 & H3).
  destruct (gorange_total prune_body m3) as (m4 & H4).
  exists (with_tags m4 d2), (map_to_list providers), c, d1. split; [done|]. split; [done|]. split; [done|].
  by exists m1, m2, m3, m4.
Qed.

(** The tags of a device after [parseConfig]: for every plain tag the device's own
    value, else the one of the set of its provider, else the global one, whatever the
    order in which the maps are ranged over, and no key with a provider's prefix is
    left.  The parse always ends with such a device. *)
Theorem device_tags providers cfg name d :
  config_ok providers cfg → Devices cfg !! name = Some d →
  name_ok (d_Provider d) → d_Provider d ≠ DeviceProvider → d_Provider d ≠ GlobalProvider →
  (∃ d', parse_tags providers cfg name d') ∧
  ∀ d' k, parse_tags providers cfg name d' →
    map_range (UserTags d') !! k =
      if decide (plain k)
      then first_of [map_range (UserTags d) !! k; map_range (default None (providers !! d_Provider d)) !! k;
                     map_range (g_UserTags cfg) !! k]
      else None.
Proof.
  intros Hok Hd Hp Hpd Hpg. split; [apply parse_tags_total; by eexists|].
  intros d' k (order & cfg1 & d1 & Ho & Hi & Hd1 & Hset).
  assert (assembled providers cfg d (add_global (g_UserTags cfg1) d1)) as [Ep Hk Hf].
  { destruct (decide (providers = ∅)) as [He|He]; [|by eapply assembled_some].
    rewrite He, map_to_list_empty in Ho. apply Permutation_nil_r in Ho as ->. rewrite Hi in Hd1 |- *.
    rewrite Hd1 in Hd. injection Hd as ->. by apply (assembled_none providers cfg Hok d name). }
  apply (set_device_tags _ _ k) in Hset as ->; try (done || by rewrite Ep). cbv zeta.
  destruct (decide (plain k)) as [Hpk|]; [|done]. rewrite Ep. by apply Hf.
Qed.

#[export] Instance set_ok_dec pm : Decision (set_ok pm).
Proof. unfold set_ok, name_ok. apply _. Defined.

Definition ex_device : device := {| UserTags := Some {["site" := "a"; "rack" := "7"]}; d_Provider := "arista"; ExpectedDevTags := 0 |}.
Definition ex_config : SnmpConfig :=
  {| g_UserTags := Some {["site" := "g"; "env" := "prod"; "team" := "net"]}; Devices := {["sw1" := ex_device]}; doneInit := false |}.
Definition ex_providers : gmap string (gomap string) := {["arista" := Some {["env" := "lab"]}; "cisco" := Some {["team" := "core"]}]}.

(** The switch keeps its site, takes the environment of its provider and the global
    team; the set of another provider does not touch it. *)
Lemma device_tags_witness : ∃ d', parse_tags ex_providers ex_config "sw1" d' ∧
  map_range (UserTags d') !! "site" = Some "a" ∧ map_range (UserTags d') !! "env" = Some "lab" ∧
  map_range (UserTags d') !! "team" = Some "net" ∧ map_range (UserTags d') !! "provider:cisco:team" = None.
Proof.
  destruct (device_tags ex_providers ex_config "sw1" ex_device) as [[d' Hd] H].
  - split; [done| | |]; apply (bool_decide_unpack _); vm_compute; exact I.
  - done.
  - done.
  - done.
  - done.
  - exists d'. split; [done|]. rewrite !(H d') by done. repeat split; vm_compute; reflexivity.
Defined.

(** ** The tags of the flows *)

(** Every tag of a flow has the prefix and comes from a tag of the device, and every
    tag of the device gives one. *)
Lemma InitUserTags_tags sn d all : InitUserTags sn d all →
  let tags := if String.eqb sn "ktranslate" then map_range (UserTags d) else <["container_service" := sn]> (map_range (UserTags d)) in
  (∀ k v, all !! k = Some v → HasPrefix k UserTagPrefix = true ∧ ∃ k0, k = tag_key k0 ∧ tags !! k0 = Some v) ∧
  (∀ k0, is_Some (tags !! k0) → is_Some (all !! tag_key k0)).
Proof.
  intros [_ (order & Ho & ->)]. set (tags := if String.eqb sn "ktranslate" then _ else _) in *. cbv zeta.
  assert (∀ k v, (k, v) ∈ order ↔ tags !! k = Some v) as Hin by (intros k v; by rewrite Ho, elem_of_map_to_list).
  assert (∀ l (acc : gmap string string),
    (∀ k v, foldl (λ out kv, <[tag_key kv.1 := kv.2]> out) acc l !! k = Some v →
       acc !! k = Some v ∨ ∃ k0, k = tag_key k0 ∧ (k0, v) ∈ l) ∧
    (∀ k, is_Some (acc !! k) ∨ (∃ k0 v, k = tag_key k0 ∧ (k0, v) ∈ l) →
       is_Some (foldl (λ out kv, <[tag_key kv.1 := kv.2]> out) acc l !! k))) as Hfold.
  { induction l as [|[k1 v1] l IH]; intros acc; cbn [foldl fst snd].
    - split; [by left|]. intros k [?|(k0 & v & _ & []%elem_of_nil)]; done.
    - destruct (IH (<[tag_key k1 := v1]> acc)) as [H1 H2]. split.
      + intros k v [H|(k0 & -> & H)]%H1; [|right; exists k0; split; [done|by right]].
        destruct (decide (tag_key k1 = k)) as [<-|Hne]; [|left; by rewrite lookup_insert_ne in H].
        rewrite lookup_insert_eq in H. injection H as ->. right. exists k1. split; [done|by left].
      + intros k H. apply H2. destruct (decide (tag_key k1 = k)) as [<-|Hne]; [left; rewrite lookup_insert_eq; by eexists|].
        rewrite lookup_insert_ne by done. destruct H as [?|(k0 & v & -> & [[= -> ->]|?]%elem_of_cons)]; [by left|done|].
        right. by exists k0, v. }
  destruct (Hfold order ∅) as [H1 H2]. split.
  - intros k v [H|(k0 & -> & H)]%H1; [by rewrite lookup_empty in H|]. split.
    + unfold tag_key. destruct (HasPrefix k0 UserTagPrefix) eqn:E; [done|apply HasPrefix_append].
    + exists k0. by rewrite <-Hin.
  - intros k0 [v Hv]. apply H2. right. exists k0, v. by rewrite Hin.
Qed.
