(* ===== verification/FlowToJCHF.v ===== *)
(** From a Kentik flow to a flow record (src/pkg/cat/jchf.go).

    A flow is what the getters of its capnp message return; the API client, the tag
    maps and the resolver are interfaces of the conversion.  The order in which the
    loops range over maps is left open. *)
From S2P Require Import Prelude GoStrings GoNet Jchf Ic GoMap.
Local Open Scope Z_scope.

(** ** What the conversion reads *)

(** [Custom_value] and what else [Which] can be. *)
Inductive Custom_value :=
| Uint16Val (v : Z)
| Uint32Val (v : Z)
| Uint64Val (v : Z)
| Float32Val (v : float32)
| StrVal (s : string)
| AddrVal (bs : list byte)
| OtherVal.
Record Custom := mkCustom { Custom_Id : Z; Custom_Value : Custom_value }.

(** A text getter gives a string and an error. *)
Definition text : Type := string * option error.

Record CHF := mkCHF {
  c_DstAs : Z; c_DstGeo : Z; c_DstGeoRegion : Z; c_DstGeoCity : Z; c_HeaderLen : Z; c_InBytes : Z; c_InPkts : Z;
  c_InputPort : Z; c_IpSize : Z; c_L4DstPort : Z; c_L4SrcPort : Z; c_OutputPort : Z; c_Protocol : Z;
  c_SampledPacketSize : Z; c_SrcAs : Z; c_SrcGeo : Z; c_SrcGeoRegion : Z; c_SrcGeoCity : Z; c_TcpFlags : Z;
  c_Tos : Z; c_VlanIn : Z; c_VlanOut : Z; c_MplsType : Z; c_OutBytes : Z; c_OutPkts : Z; c_TcpRetransmit : Z;
  c_SampleRate : Z; c_DeviceId : Z; c_SrcNextHopAs : Z; c_DstNextHopAs : Z; c_SrcSecondAsn : Z; c_DstSecondAsn : Z;
  c_SrcThirdAsn : Z; c_DstThirdAsn : Z; c_SrcEthMac : Z; c_DstEthMac : Z;
  c_SrcFlowTags : text; c_DstFlowTags : text; c_SrcBgpAsPath : text; c_DstBgpAsPath : text;
  c_SrcBgpCommunity : text; c_DstBgpCommunity : text;
  c_Ipv4DstAddr : Z; c_Ipv4SrcAddr : Z; c_Ipv6DstAddr : list byte; c_Ipv6SrcAddr : list byte;
  c_SrcRoutePrefix : Z; c_DstRoutePrefix : Z; c_Ipv4SrcNextHop : Z; c_Ipv4DstNextHop : Z;
  c_Ipv6SrcNextHop : list byte; c_Ipv6DstNextHop : list byte; c_Custom : list Custom }.

Record Flow := mkFlow { f_CompanyId : Z; f_CHF : CHF; f_DeviceName : string }.

(** The parts of the API's objects that are read. *)
Record Column := mkColumn { Column_ID : Z; Column_Name : string }.
Record Device := mkDevice {
  D_Name : string; DeviceSubtype : string; SendingIps : list IP; Site : option string;
  D_Customs : list Column; FullSite : option (string * string) }.
Record Interface := mkInterface {
  Description : string; Alias : string; SnmpSpeedMbps : Z; Address : string;
  I_Provider : string; NetworkBoundary : string; ConnectivityType : string }.
Record Test := mkTest { T_Name : string; T_Type : string }.
Record Agent := mkAgent {
  Ag_Alias : string; Ag_LocalIp : string; Ag_Ip : string; Ag_Asn : Z; Ag_Region : string; Ag_City : string;
  Ag_Country : string; Ag_CloudRegion : string; Ag_CloudProvider : string; Ag_SiteName : string; Ag_Id : string }.

Class KentikApi := {
  GetDevice : Cid → DeviceID → option Device;
  GetInterface : Device → IfaceID → option Interface;
  GetTest : Z → option Test;
  GetAgent : Z → option Agent;
  GetAgentByIP : string → option Agent }.

Class TagMapper := {
  LookupTagValue : Cid → Z → string → option (string * string);
  LookupTagValueBig : Cid → Z → string → option (string * string);
  LookupKV : Z → string }.

Record UDR := mkUDR { ColumnName : string; ApplicationName : string; UDR_Type : string }.
Record UDRMapper := mkUDRMapper { UDRs : gmap Z (gmap string UDR); Subtypes : gmap string (gmap string UDR) }.

(** The service, as far as the conversion reads it. *)
Record KT := mkKT {
  mapr : gmap Z string; udrMapr : option UDRMapper; tagMap : TagMapper; tagMapCity : TagMapper; tagMapRegion : TagMapper;
  apic : KentikApi; resolver : option (string → string); ic_tables : ic_state }.

Definition APP_PROTOCOL_COL : string := "app_protocol".
Definition UDR_TYPE_INT : string := "int".
Definition UDR_TYPE_BIGINT : string := "bigint".
Definition UDR_TYPE_STRING : string := "string".
Definition UDR_TYPE : string := "application_type".

(** ** Assignments to the maps, which are made before the first one *)

Definition put_str (k v : string) (dst : JCHF) : JCHF := dst <| CustomStr := Some (<[k := v]> (map_range (CustomStr dst))) |>.
Definition put_int (k : string) (v : Z) (dst : JCHF) : JCHF := dst <| CustomInt := Some (<[k := v]> (map_range (CustomInt dst))) |>.
Definition put_big (k : string) (v : Z) (dst : JCHF) : JCHF := dst <| CustomBigInt := Some (<[k := v]> (map_range (CustomBigInt dst))) |>.
Definition put_float (k : string) (v : float32) (dst : JCHF) : JCHF := dst <| CustomFloat := Some (<[k := v]> (map_range (CustomFloat dst))) |>.
Definition del_str (k : string) (dst : JCHF) : JCHF := dst <| CustomStr := Some (delete k (map_range (CustomStr dst))) |>.
Definition del_int (k : string) (dst : JCHF) : JCHF := dst <| CustomInt := Some (delete k (map_range (CustomInt dst))) |>.
Definition del_big (k : string) (dst : JCHF) : JCHF := dst <| CustomBigInt := Some (delete k (map_range (CustomBigInt dst))) |>.
Definition str_at (k : string) (dst : JCHF) : string := map_get "" (CustomStr dst) k.
Definition int_at (k : string) (dst : JCHF) : Z := map_get 0 (CustomInt dst) k.
Definition big_at (k : string) (dst : JCHF) : Z := map_get 0 (CustomBigInt dst) k.

(** ** Event and provider *)

Definition KENTIK_EVENT_TYPE : string := "KFlow".
Definition KENTIK_EVENT_SNMP : string := "KSnmp".
Definition KENTIK_EVENT_TRACE : string := "KTrace".
Definition KENTIK_EVENT_SYNTH : string := "KSynth".
Definition KENTIK_EVENT_SYNTH_GEST : string := "KSynthgest".
Definition ProviderFlowDevice : Provider_ := "kentik-flow-device".
Definition ProviderVPC : Provider_ := "kentik-vpc".
Definition ProviderSynth : Provider_ := "kentik-network-synthetic".
Definition defaultProvider : Provider_ := ProviderFlowDevice.

Definition getEventType (dst : JCHF) : string :=
  let app := int_at APP_PROTOCOL_COL dst in
  if app =? 12 then KENTIK_EVENT_SNMP
  else if app =? 10 then (if int_at "result_type" dst =? 4 then KENTIK_EVENT_TRACE else KENTIK_EVENT_SYNTH)
  else if app =? 18 then KENTIK_EVENT_SYNTH_GEST
  else KENTIK_EVENT_TYPE.

Definition HasSuffix (s suffix : string) : bool :=
  (String.length suffix <=? String.length s)%nat &&
  String.eqb (drop_string (String.length s - String.length suffix) s) suffix.

Definition getProviderType (dst : JCHF) : Provider_ :=
  match map_range (CustomStr dst) !! UDR_TYPE with
  | None => defaultProvider
  | Some udr =>
      if String.eqb udr "kprobe" || String.eqb udr "kappa" then defaultProvider
      else if (int_at APP_PROTOCOL_COL dst =? 10) || (int_at APP_PROTOCOL_COL dst =? 11) then ProviderSynth
      else if HasSuffix udr "_subnet" then ProviderVPC
      else defaultProvider
  end.

(** ** Tables *)

Definition cdn2Name_list : list (Z * string) :=
  [ (0, "--"); (1, "AFXcdn"); (2, "Akamai"); (3, "Alibaba Cloud");
    (4, "Amazon + AWS"); (5, "Ananke"); (6, "Apple"); (7, "AT&T");
    (8, "Azion"); (9, "BelugaCDN"); (10, "Blue Hat Network"); (11, "CacheFly");
    (12, "CDN77"); (13, "CDNetworks"); (14, "CDNify"); (15, "ChinaCache");
    (16, "Cloudflare"); (17, "EdgeCast Verizon"); (18, "Facebook"); (19, "Fastly");
    (20, "G-Core CDN"); (21, "Google Youtube"); (22, "Hibernia"); (23, "Imperva Incapsula");
    (24, "Instartlogic"); (25, "Internap"); (26, "KeyCDN"); (27, "LeaseWeb CDN");
    (28, "Level3"); (29, "Limelight"); (30, "Medianova"); (31, "Netflix");
    (32, "Mirror Image"); (33, "Ngenix"); (34, "QUANTIL ChinaNetCenter"); (35, "Reflected Networks - Swift");
    (36, "Alibaba_Cloud"); (37, "Tata communications"); (38, "Telefonica"); (39, "TurboBytes");
    (40, "Microsoft Azure"); (41, "Yahoo"); (42, "Zenedge"); (43, "Stackpath MaxCDN NetDNA Highwinds");
    (44, "Dropbox"); (45, "Pandora"); (46, "Twitch.TV"); (47, "Comcast CDN");
    (48, "BunnyCDN"); (49, "CDNvideo"); (50, "cdnnow"); (51, "SingularCDN");
    (52, "Kingsoft Cloud"); (53, "Tencent Cloud") ].
Definition NameByCDN (cdn : Z) : string := default "" ((list_to_map cdn2Name_list : gmap Z string) !! cdn).

Definition remap_list : list (string * string) :=
  [ ("kt_aws_dst_acc_id", "dest_account"); ("kt_aws_src_acc_id", "source_account");
    ("kt_az_dst_sub_id", "dest_account"); ("kt_az_src_sub_id", "source_account");
    ("destination_project_id", "dest_account"); ("source_project_id", "source_account");
    ("account", "source_account"); ("kt_aws_src_region", "source_region");
    ("kt_aws_dst_region", "dest_region"); ("kt_az_src_region", "source_region");
    ("kt_az_dst_region", "dest_region"); ("src_region", "source_region");
    ("dst_region", "dest_region"); ("source_region", "source_region");
    ("destination_region", "dest_region"); ("kt_aws_src_vpc_id", "source_vpc");
    ("kt_aws_dst_vpc_id", "dest_vpc"); ("kt_az_dst_rsrc_group", "source_vpc");
    ("kt_az_src_rsrc_group", "dest_vpc"); ("source_subnet_name", "source_vpc");
    ("destination_subnet_name", "dest_vpc"); ("src_vpc", "source_vpc");
    ("dst_vpc", "dest_vpc") ].

(** ** Text *)

(** The bytes of a rune; what is no rune becomes U+FFFD. *)
Definition ascii_of_Z (z : Z) : ascii := ascii_of_nat (Z.to_nat z).
Definition rune_string (z : Z) : string :=
  let c x := ascii_of_Z x in
  let r := if (1114111 <? z) || ((55296 <=? z) && (z <=? 57343)) then 65533 else z in
  if r <? 128 then String (c r) ""
  else if r <? 2048 then String (c (192 + r / 64)) (String (c (128 + r mod 64)) "")
  else if r <? 65536 then
    String (c (224 + r / 4096)) (String (c (128 + r / 64 mod 64)) (String (c (128 + r mod 64)) ""))
  else
    String (c (240 + r / 262144)) (String (c (128 + r / 4096 mod 64))
      (String (c (128 + r / 64 mod 64)) (String (c (128 + r mod 64)) ""))).

(** The country of a packed geo above 0. *)
Definition geo_string (geo : Z) : string :=
  let s := String.append (rune_string (Z.shiftr geo 8)) (rune_string (Z.land geo 255)) in
  match s with String "-" _ => "--" | _ => s end.

Definition mac_string (mac : Z) : string := HardwareAddr_String (be_encode 8 mac).
Definition Int2ip (nn : Z) : IP := be_encode 4 nn.
Definition addr_string (v4 : Z) (v6 : list byte) : string :=
  if 0 <? v4 then IP_String (Int2ip v4) else IP_String v6.

(** ** The parts of [flowToJCHF] *)

Section conversion.
Context (kc : KT).

(** The fixed fields. *)
Definition base_fields (dst : JCHF) (src : Flow) (currentTS : Z) : JCHF :=
  let c := f_CHF src in
  let dst := dst <| CustomStr := Some ∅ |> <| CustomInt := Some ∅ |> <| CustomBigInt := Some ∅ |> <| CustomFloat := Some ∅ |> in
  let dst := dst <| Timestamp := currentTS |> <| DstAs := c_DstAs c |> in
  let dst := if 0 <? c_DstGeo c then dst <| DstGeo := geo_string (c_DstGeo c) |> else dst in
  let dst := dst <| DstGeoRegion := @LookupKV (tagMapRegion kc) (c_DstGeoRegion c) |>
    <| DstGeoCity := @LookupKV (tagMapCity kc) (c_DstGeoCity c) |>
    <| HeaderLen := c_HeaderLen c |> <| InBytes := c_InBytes c |> <| InPkts := c_InPkts c |>
    <| InputPort := c_InputPort c |> <| IpSize := c_IpSize c |> <| L4DstPort := c_L4DstPort c |>
    <| L4SrcPort := c_L4SrcPort c |> <| OutputPort := c_OutputPort c |>
    <| Protocol := proto_name (wrapu 16 (c_Protocol c)) |> <| SampledPacketSize := c_SampledPacketSize c |>
    <| SrcAs := c_SrcAs c |> in
  let dst := if 0 <? c_SrcGeo c then dst <| SrcGeo := geo_string (c_SrcGeo c) |> else dst in
  dst <| SrcGeoRegion := @LookupKV (tagMapRegion kc) (c_SrcGeoRegion c) |>
    <| SrcGeoCity := @LookupKV (tagMapCity kc) (c_SrcGeoCity c) |>
    <| TcpFlags := c_TcpFlags c |> <| Tos := c_Tos c |> <| VlanIn := c_VlanIn c |> <| VlanOut := c_VlanOut c |>
    <| MplsType := c_MplsType c |> <| OutBytes := c_OutBytes c |> <| OutPkts := c_OutPkts c |>
    <| TcpRetransmit := c_TcpRetransmit c |> <| SampleRate := c_SampleRate c / 100 |>
    <| DeviceId := c_DeviceId c |> <| DeviceName := f_DeviceName src |> <| CompanyId := wrapu 64 (f_CompanyId src) |>
    <| SrcNextHopAs := c_SrcNextHopAs c |> <| DstNextHopAs := c_DstNextHopAs c |>
    <| SrcSecondAsn := c_SrcSecondAsn c |> <| DstSecondAsn := c_DstSecondAsn c |>
    <| SrcThirdAsn := c_SrcThirdAsn c |> <| DstThirdAsn := c_DstThirdAsn c |>.

Definition input_interface (i : Interface) (dst : JCHF) : JCHF :=
  put_str "input_connectivity_type" (ConnectivityType i) (put_str "input_network_boundary" (NetworkBoundary i)
    (put_str "input_provider" (I_Provider i)
      (dst <| InputIntDesc := Description i |> <| InputIntAlias := Alias i |>
           <| InputInterfaceCapacity := SnmpSpeedMbps i |> <| InputInterfaceIP := Address i |>))).
Definition output_interface (i : Interface) (dst : JCHF) : JCHF :=
  put_str "output_connectivity_type" (ConnectivityType i) (put_str "output_network_boundary" (NetworkBoundary i)
    (put_str "output_provider" (I_Provider i)
      (dst <| OutputIntDesc := Description i |> <| OutputIntAlias := Alias i |>
           <| OutputInterfaceCapacity := SnmpSpeedMbps i |> <| OutputInterfaceIP := Address i |>))).

(** What is known about the device, and the names of its columns. *)
Definition device_fields (dst : JCHF) : JCHF * gmap Z string :=
  match @GetDevice (apic kc) (CompanyId dst) (DeviceId dst) with
  | None => (dst, ∅)
  | Some d =>
      let dst := put_str UDR_TYPE (DeviceSubtype d) (dst <| DeviceName := D_Name d |>) in
      let dst := match SendingIps d with ip :: _ => put_str "SamplerAddress" (IP_String ip) dst | [] => dst end in
      let dst := match Site d with Some s => put_str "device_site" s dst | None => dst end in
      let dst := match @GetInterface (apic kc) d (InputPort dst) with Some i => input_interface i dst | None => dst end in
      let dst := match @GetInterface (apic kc) d (OutputPort dst) with Some i => output_interface i dst | None => dst end in
      let names := foldl (λ m v, <[Column_ID v := Column_Name v]> m) ∅ (D_Customs d) in
      match FullSite d with
      | Some (market, country) => (put_str "device_site_country" country (put_str "device_site_market" market dst), names)
      | None => (dst, names)
      end
  end.

(** [if sft, err := src.CHF.SrcFlowTags(); err != nil { dst.SrcFlowTags = sft }]. *)
Definition on_err (t : text) (set : string → JCHF → JCHF) (dst : JCHF) : JCHF :=
  match t.2 with Some _ => set t.1 dst | None => dst end.

Definition string_fields (c : CHF) (dst : JCHF) : JCHF :=
  let dst := dst <| SrcEthMac := mac_string (c_SrcEthMac c) |> <| DstEthMac := mac_string (c_DstEthMac c) |> in
  let dst := on_err (c_SrcFlowTags c) (λ s j, j <| SrcFlowTags := s |>) dst in
  let dst := on_err (c_DstFlowTags c) (λ s j, j <| DstFlowTags := s |>) dst in
  let dst := on_err (c_SrcBgpAsPath c) (λ s j, j <| SrcBgpAsPath := s |>) dst in
  let dst := on_err (c_DstBgpAsPath c) (λ s j, j <| DstBgpAsPath := s |>) dst in
  let dst := on_err (c_SrcBgpCommunity c) (λ s j, j <| SrcBgpCommunity := s |>) dst in
  on_err (c_DstBgpCommunity c) (λ s j, j <| DstBgpCommunity := s |>) dst.

Definition resolve (k addr : string) (dst : JCHF) : JCHF :=
  match resolver kc with Some r => put_str k (r addr) dst | None => dst end.

Definition address_fields (c : CHF) (dst : JCHF) : JCHF :=
  let dst := dst <| DstAddr := addr_string (c_Ipv4DstAddr c) (c_Ipv6DstAddr c) |> in
  let dst := resolve "dst_host" (DstAddr dst) dst in
  let dst := dst <| SrcAddr := addr_string (c_Ipv4SrcAddr c) (c_Ipv6SrcAddr c) |>
    <| SrcRoutePrefix := IP_String (Int2ip (c_SrcRoutePrefix c)) |>
    <| DstRoutePrefix := IP_String (Int2ip (c_DstRoutePrefix c)) |> in
  let dst := resolve "src_host" (SrcAddr dst) dst in
  dst <| SrcNextHop := addr_string (c_Ipv4SrcNextHop c) (c_Ipv6SrcNextHop c) |>
    <| DstNextHop := addr_string (c_Ipv4DstNextHop c) (c_Ipv6DstNextHop c) |>.

(** The name of a custom column, and whether it is only its number. *)
Definition custom_name (names : gmap Z string) (id : Z) : string * bool :=
  match mapr kc !! id with
  | Some name => (name, false)
  | None => match names !! id with Some name => (name, false) | None => (Itoa id, true) end
  end.

Definition rpki_fields (v : Z) (dst : JCHF) : JCHF :=
  if (RPKI_MAX_NUM <? v) || (v =? RPKI_INVALID) then
    put_str "i_dst_rpki_min_name" RPKI_INVALID_MIN_NAME
      (put_str "i_dst_rpki_name" (String.append "RPKI Invalid: incorrect Origin ASN (should be AS" (String.append (Itoa v) ")")) dst)
  else
    put_str "i_dst_rpki_min_name" (default "" ((list_to_map RPKI_INT_TO_MIN_NAME_list : gmap Z string) !! v))
      (put_str "i_dst_rpki_name" (default "" ((list_to_map RPKI_INT_TO_NAME_list : gmap Z string) !! v)) dst).

Definition exit_device (name : string) (v : Z) (dst : JCHF) : JCHF :=
  let dst := put_int name (wraps 32 v) dst in
  match @GetDevice (apic kc) (CompanyId dst) v with
  | Some d =>
      let dst := put_str "ult_exit_device" (D_Name d) dst in
      match Site d with Some s => put_str "ult_exit_site" s dst | None => dst end
  | None => dst
  end.

Definition is_one_of (name : string) (l : list string) : bool := existsb (String.eqb name) l.

(** The case of a 32-bit value. *)
Definition uint32_custom (name : string) (isInt : bool) (v : Z) (dst : JCHF) : JCHF :=
  if is_one_of name ["src_cdn_int"; "dst_cdn_int"] then put_str name (NameByCDN v) dst
  else if is_one_of name ["trf_origination"; "trf_termination"; "host_direction"] then
    put_str name (default "" ((list_to_map NETWORK_CLASS_INT_TO_NAME_list : gmap Z string) !! v)) dst
  else if is_one_of name ["src_network_bndry"; "dst_network_bndry"; "ult_exit_network_bndry"] then
    put_str name (NameFromNBInt v) dst
  else if is_one_of name ["src_connect_type"; "dst_connect_type"; "ult_exit_connect_type"] then
    put_str name (NameFromCTInt v (ic_tables kc)) dst
  else if is_one_of name ["dst_rpki"] then rpki_fields v dst
  else if is_one_of name ["ult_exit_device_id"] then exit_device name v dst
  else match @LookupTagValue (tagMap kc) (CompanyId dst) v name with
       | Some (tk, tv) => put_str tk tv dst
       | None => if isInt then dst else put_int name (wraps 32 v) dst
       end.

(** One custom column. *)
Definition custom_field (names : gmap Z string) (dst : JCHF) (cust : Custom) : JCHF :=
  let '(name, isInt) := custom_name names (Custom_Id cust) in
  match Custom_Value cust with
  | Uint16Val v => put_int name (wraps 32 v) dst
  | Uint32Val v => uint32_custom name isInt v dst
  | Uint64Val v =>
      let iv := wraps 64 v in
      match @LookupTagValueBig (tagMap kc) (CompanyId dst) iv name with
      | Some (tk, tv) => put_str tk tv dst
      | None => put_big name iv dst
      end
  | StrVal sv => put_str name sv dst
  | AddrVal sv =>
      match sv with
      | v :: (_ :: _) as rest =>
          (* [sv[1:5]] is [sv[1:]] when there are five bytes *)
          put_str name (IP_String rest) dst
      | _ => dst
      end
  | Float32Val fv => put_float name fv dst
  | OtherVal => dst
  end.

Definition custom_fields (names : gmap Z string) (customs : list Custom) (dst : JCHF) : JCHF :=
  foldl (custom_field names) dst customs.

(** ** Columns of the application types *)

Definition synResultTypes_list : list (Z * string) :=
  [ (0, "error"); (1, "timeout"); (2, "ping"); (3, "fetch"); (4, "trace"); (5, "knock"); (6, "query"); (7, "shake");
    (8, "pageload"); (9, "transaction"); (10, "dnssec") ].

Definition agent_fields (dst : JCHF) : JCHF :=
  match @GetAgent (apic kc) (wrapu 64 (big_at "agent_id" dst)) with
  | None => put_str "agent_name" "" dst
  | Some a =>
      let dst := put_str "agent_name" (Ag_Alias a) dst in
      let dst :=
        if String.eqb (SrcAddr dst) "" || String.eqb (SrcAddr dst) "<nil>" then
          let dst := dst <| SrcAddr := if String.eqb (Ag_LocalIp a) "" then Ag_Ip a else Ag_LocalIp a |> in
          resolve "src_host" (SrcAddr dst) dst
        else dst in
      let dst := dst <| SrcAs := Ag_Asn a |> <| SrcGeoRegion := Ag_Region a |> <| SrcGeoCity := Ag_City a |>
        <| SrcGeo := Ag_Country a |> in
      let dst := put_str "src_site" (Ag_SiteName a) (put_str "src_cloud_provider" (Ag_CloudProvider a)
        (put_str "src_cloud_region" (Ag_CloudRegion a) dst)) in
      if negb (String.eqb (DstAddr dst) "") && negb (String.eqb (DstAddr dst) "<nil>") then
        match @GetAgentByIP (apic kc) (DstAddr dst) with
        | None => dst
        | Some da =>
            let dst := put_str "dst_agent_id" (Ag_Id da) (put_str "dst_agent_name" (Ag_Alias da) dst) in
            let dst := dst <| DstAs := Ag_Asn da |> <| DstGeoRegion := Ag_Region da |> <| DstGeoCity := Ag_City da |>
              <| DstGeo := Ag_Country da |> in
            put_str "dst_site" (Ag_SiteName da) (put_str "dst_cloud_provider" (Ag_CloudProvider da)
              (put_str "dst_cloud_region" (Ag_CloudRegion da) dst))
        end
      else dst
  end.

Definition rename_int (col : string) (udr : UDR) (dst : JCHF) : JCHF :=
  match map_range (CustomInt dst) !! col with
  | Some val => del_int col (put_int (ColumnName udr) val dst)
  | None => dst
  end.

(** A column under its name, by the type it is said to have. *)
Definition rename_column (col : string) (udr : UDR) (dst : JCHF) : JCHF :=
  if String.eqb (UDR_Type udr) UDR_TYPE_INT then rename_int col udr dst
  else if String.eqb (UDR_Type udr) UDR_TYPE_STRING then
    match map_range (CustomStr dst) !! col with
    | Some val => del_str col (put_str (ColumnName udr) val dst)
    | None => dst
    end
  else if String.eqb (UDR_Type udr) UDR_TYPE_BIGINT then
    match map_range (CustomBigInt dst) !! col with
    | Some val => del_big col (put_big (ColumnName udr) val dst)
    | None => rename_int col udr dst
    end
  else dst.

Definition test_fields (dst : JCHF) : JCHF :=
  let tid := big_at "test_id" dst in
  let dst := put_str "test_url" (String.append "https://portal.kentik.com/v4/synthetics/tests/" (String.append (Itoa tid) "/results")) dst in
  match @GetTest (apic kc) (wrapu 64 tid) with
  | Some t => put_str "test_type" (T_Type t) (put_str "test_name" (T_Name t) dst)
  | None => put_str "test_type" "" (put_str "test_name" "" dst)
  end.

(** One round of the loop over the columns of the application type. *)
Definition udr_round (dst : JCHF) (cu : string * UDR) : JCHF :=
  let '(col, udr) := cu in
  let dst := rename_column col udr dst in
  let dst := match map_range (CustomStr dst) !! UDR_TYPE with
             | Some _ => dst
             | None => put_str UDR_TYPE (ApplicationName udr) dst
             end in
  if String.eqb (ColumnName udr) "result_type" then
    put_str "result_type_str" (default "" ((list_to_map synResultTypes_list : gmap Z string) !! int_at "result_type" dst)) dst
  else if String.eqb (ColumnName udr) "test_id" then test_fields dst
  else if String.eqb (ColumnName udr) "agent_id" then agent_fields dst
  else dst.

(** The columns the loop ranges over. *)
Definition udr_columns (dst : JCHF) : gmap string UDR :=
  match udrMapr kc with
  | None => ∅
  | Some um =>
      let udr_type := str_at UDR_TYPE dst in
      match (if String.eqb udr_type "" then None else Subtypes um !! udr_type) with
      | Some mapr => mapr
      | None => default ∅ (ap ← map_range (CustomInt dst) !! APP_PROTOCOL_COL; UDRs um !! ap)
      end
  end.

(** ** Remapped strings *)

Definition remapCustomStrings : gmap string string := list_to_map remap_list.

(** A column of another cloud than the flow's. *)
Definition contaminated (app_type k : string) : bool :=
  let aws := HasPrefix k "kt_aws" in
  let az := HasPrefix k "kt_az" in
  if String.eqb app_type "gcp_subnet" then aws || az
  else if String.eqb app_type "aws_subnet" then az
  else if String.eqb app_type "azure_subnet" then aws
  else if String.eqb app_type "ibm_subnet" then aws || az
  else false.

(** One round of the loop over the custom strings. *)
Definition remap_body (k v : string) (m : gmap string string) : gmap string string :=
  if contaminated (default "" (m !! UDR_TYPE)) k then delete k m
  else match remapCustomStrings !! k with
       | Some n => delete k (<[n := v]> m)
       | None => m
       end.

Definition finish (dst : JCHF) : JCHF :=
  let dst := match map_range (CustomStr dst) !! "Type" with Some _ => dst | None => put_str "Type" "kflow" dst end in
  let dst := put_str "src_endpoint" (String.append (SrcAddr dst) (String.append ":" (Itoa (L4SrcPort dst)))) dst in
  let dst := put_str "dst_endpoint" (String.append (DstAddr dst) (String.append ":" (Itoa (L4DstPort dst)))) dst in
  let dst := dst <| EventType := getEventType dst |> in
  dst <| Provider := getProviderType dst |>.

(** The flow before the loops over maps. *)
Definition before_loops (dst : JCHF) (src : Flow) (currentTS : Z) : JCHF :=
  let '(dst, names) := device_fields (base_fields dst src currentTS) in
  custom_fields names (c_Custom (f_CHF src)) (address_fields (f_CHF src) (string_fields (f_CHF src) dst)).

(** [kc.flowToJCHF(ctx, dst, src, currentTS, tagcache)], which returns no error. *)
Definition flowToJCHF (dst : JCHF) (src : Flow) (currentTS : Z) (dst' : JCHF) : Prop :=
  let d0 := before_loops dst src currentTS in
  ∃ order m, order ≡ₚ map_to_list (udr_columns d0) ∧
    let d1 := foldl udr_round d0 order in
    range id remap_body (map_range (CustomStr d1)) m ∧
    dst' = finish (d1 <| CustomStr := Some m |>).
End conversion.

(** ** The remapping loop *)

Lemma remapCustomStrings_in k n : remapCustomStrings !! k = Some n → (k, n) ∈ remap_list.
Proof. apply elem_of_list_to_map_2. Qed.

(** The names the columns are given; only one of them is a column to remap. *)
Definition targets : list string := ["dest_account"; "source_account"; "source_region"; "dest_region"; "source_vpc"; "dest_vpc"].
Lemma target_in k n : remapCustomStrings !! k = Some n → n ∈ targets.
Proof.
  intros H%remapCustomStrings_in. assert (Forall (λ kn, kn.2 ∈ targets) remap_list) as Hf by (apply (bool_decide_unpack _); vm_compute; exact I).
  rewrite Forall_forall in Hf. by apply (Hf (k, n)).
Qed.
Lemma app_type_key : remapCustomStrings !! UDR_TYPE = None ∧ UDR_TYPE ∉ targets.
Proof. split; [vm_compute; done|]. apply (bool_decide_unpack _). vm_compute. exact I. Qed.
Lemma target_key n : n ∈ targets → n ≠ "source_region" → remapCustomStrings !! n = None.
Proof.
  intros H Hne. unfold targets in H. repeat (apply elem_of_cons in H as [->|H]; [vm_compute; done|]). by apply elem_of_nil in H.
Qed.
Lemma contaminated_prefix a k : contaminated a k = true → HasPrefix k "kt_a" = true.
Proof.
  assert (∀ s, HasPrefix s "kt_aws" || HasPrefix s "kt_az" = true → HasPrefix s "kt_a" = true) as H.
  { intros s. destruct (HasPrefix s "kt_a") eqn:E; [done|]. intros [H|H]%orb_true_iff; revert E H;
      do 4 (destruct s as [|? s]; [done|cbn [HasPrefix]; destruct (Ascii.eqb _ _); [|done]]); by destruct s. }
  unfold contaminated. intros Hc. apply H. destruct (String.eqb a "gcp_subnet"); [done|].
  destruct (String.eqb a "aws_subnet"); [by rewrite Hc, orb_true_r|]. destruct (String.eqb a "azure_subnet"); [by rewrite Hc|].
  by destruct (String.eqb a "ibm_subnet").
Qed.
Lemma contaminated_target a n : n ∈ targets → contaminated a n = false.
Proof.
  intros H. destruct (contaminated a n) eqn:E; [|done]. apply contaminated_prefix in E.
  unfold targets in H. repeat (apply elem_of_cons in H as [->|H]; [done|]). by apply elem_of_nil in H.
Qed.
Lemma contaminated_app a : contaminated a UDR_TYPE = false.
Proof. destruct (contaminated a UDR_TYPE) eqn:E; [|done]. by apply contaminated_prefix in E. Qed.

Section remap.
Context (m0 : gmap string string).
Let app_type : string := default "" (m0 !! UDR_TYPE).

(** The columns that go: those of another cloud, and those that get another name. *)
Definition goes (k : string) : Prop := contaminated app_type k = true ∨ is_Some (remapCustomStrings !! k).
Definition moves (k n : string) : Prop := contaminated app_type k = false ∧ remapCustomStrings !! k = Some n.

#[export] Instance goes_dec k : Decision (goes k).
Proof. unfold goes. apply _. Defined.
#[export] Instance moves_dec k n : Decision (moves k n).
Proof. unfold moves. apply _. Defined.

Record remapping (must seen : gset string) (m : gmap string string) : Prop := {
  rm_app : m !! UDR_TYPE = m0 !! UDR_TYPE;
  rm_keep k : ¬ goes k → k ∉ targets → m !! k = m0 !! k;
  rm_go k : goes k → k ≠ "source_region" → m !! k = if decide (k ∈ must) then m0 !! k else None;
  rm_owed k : goes k → k ≠ "source_region" → k ∈ must → is_Some (m0 !! k);
  rm_new n k v : n ≠ "source_region" → moves k n → m0 !! k = Some v → (∀ k', is_Some (m0 !! k') → moves k' n → k' = k) →
    k ∉ must → m !! n = Some v;
  rm_old n : n ∈ targets → n ≠ "source_region" → (∀ k, is_Some (m0 !! k) → moves k n → k ∈ must) → m !! n = m0 !! n }.

Lemma remapping_start : remapping (dom m0) ∅ m0.
Proof.
  split; try done.
  - intros k _ _. case_decide as H; [done|]. by apply not_elem_of_dom in H.
  - intros k _ _ H. by apply elem_of_dom.
  - intros n k v _ _ H _ Hk. apply not_elem_of_dom in Hk. congruence.
Qed.

Lemma remapping_step must seen m k v : remapping must seen m → m !! k = Some v →
  remapping ((must ∖ {[k]}) ∩ dom (remap_body k v m)) ((seen ∪ {[k]}) ∩ dom (remap_body k v m)) (remap_body k v m).
Proof.
  intros [Ha Hk0 Hg Ho Hn Hold] Hk.
  (* what a round does to one key *)
  assert (∀ x, remap_body k v m !! x =
    if decide (x = k) then (if decide (goes k) then None else Some v)
    else if decide (moves k x) then Some v else m !! x) as Hbody.
  { intros x. unfold remap_body. rewrite Ha. fold app_type. destruct (contaminated app_type k) eqn:Ec.
    - destruct (decide (x = k)) as [->|Hx].
      + rewrite lookup_delete_eq, decide_True by by left. done.
      + rewrite lookup_delete_ne, decide_False; [done| |done]. intros [? _]. congruence.
    - destruct (remapCustomStrings !! k) as [n|] eqn:En.
      + destruct (decide (x = k)) as [->|Hx].
        * rewrite lookup_delete_eq, decide_True by (right; by eexists). done.
        * rewrite lookup_delete_ne by done. destruct (decide (x = n)) as [->|Hxn].
          -- rewrite lookup_insert_eq, decide_True by done. done.
          -- rewrite lookup_insert_ne by done. rewrite decide_False; [done|]. intros [_ ?]. congruence.
      + destruct (decide (x = k)) as [->|Hx].
        * rewrite decide_False; [done|]. intros [?|[? ?]]; congruence.
        * rewrite decide_False; [done|]. intros [_ ?]. congruence. }
  assert (∀ x, moves k x → x ∈ targets) as Ht by (intros x [_ ?]; by eapply target_in).
  set (m' := remap_body k v m) in *.
  assert (∀ x, goes x → x ≠ "source_region" → x ∈ (must ∖ {[k]}) ∩ dom m' ↔ x ∈ must ∧ x ≠ k) as Hmust.
  { intros x Hx Hxs. rewrite elem_of_intersection, elem_of_difference, not_elem_of_singleton. split; [tauto|].
    intros [Hin Hxk]. split; [done|]. apply elem_of_dom. rewrite Hbody, decide_False by done.
    destruct (decide (moves k x)); [by eexists|]. rewrite (Hg x Hx Hxs), decide_True by done. by apply Ho. }
  assert (∀ x y, moves x y → y ≠ "source_region" → goes x ∧ x ≠ "source_region") as Hmoves.
  { intros x y [Hc Hm] Hy. split; [right; by eexists|]. intros ->. apply Hy. revert Hm. vm_compute. congruence. }
  split.
  - rewrite Hbody. destruct (decide (UDR_TYPE = k)) as [<-|].
    + rewrite decide_False; [congruence|]. unfold goes. rewrite contaminated_app. destruct app_type_key as [-> _]. by intros [?|[? ?]].
    + rewrite decide_False; [done|]. intros H%Ht. by apply app_type_key.
  - intros x Hx Hxt. rewrite Hbody. destruct (decide (x = k)) as [<-|].
    + rewrite decide_False by done. rewrite <-Hk. by apply Hk0.
    + rewrite decide_False; [by apply Hk0|]. intros H%Ht. done.
  - intros x Hx Hxs. rewrite Hbody. destruct (decide (x = k)) as [->|Hxk].
    + rewrite decide_True by done. rewrite decide_False; [done|]. rewrite Hmust by done. tauto.
    + rewrite decide_False.
      * rewrite (Hg x Hx Hxs). apply decide_ext. rewrite Hmust by done. tauto.
      * intros H. pose proof (Ht x H) as Hin. destruct Hx as [Hx|[? Hx]]; [by rewrite contaminated_target in Hx|].
        rewrite target_key in Hx by done. done.
  - intros x Hx Hxs Hin. apply (Hmust x Hx Hxs) in Hin as [Hin _]. by apply Ho.
  - intros n x w Hns Hmv Hw Huniq Hin. destruct (Hmoves x n Hmv Hns) as [Hgx Hxs]. rewrite Hmust in Hin by done.
    assert (n ∈ targets) as Hnt by (eapply target_in; apply Hmv).
    rewrite Hbody. destruct (decide (x = k)) as [->|Hxk].
    + assert (w = v) as ->. { rewrite (Hg k Hgx Hxs) in Hk. destruct (decide (k ∈ must)); congruence. }
      destruct (decide (n = k)) as [->|Hnk].
      * destruct Hgx as [Hgx|[? Hgx]]; [by rewrite contaminated_target in Hgx|]. by rewrite target_key in Hgx.
      * by rewrite decide_True.
    + assert (m !! n = Some w) as Emn. { apply (Hn n x w); try done. intros Hm. by apply Hin. }
      destruct (decide (n = k)) as [->|Hnk].
      * rewrite decide_False; [congruence|]. unfold goes. rewrite contaminated_target, target_key by done. by intros [?|[? ?]].
      * rewrite decide_False; [done|]. intros H. destruct (Hmoves k n H Hns) as [Hgk Hks]. apply Hxk. symmetry. apply Huniq; [|done].
        rewrite (Hg k Hgk Hks) in Hk. destruct (decide (k ∈ must)); [by eexists|done].
  - intros n Hnt Hns Hsrc. rewrite Hbody. destruct (decide (n = k)) as [->|Hnk].
    + rewrite decide_False by (unfold goes; rewrite contaminated_target, target_key by done; by intros [?|[? ?]]).
      rewrite <-Hk. apply Hold; [done|done|]. intros x Hx Hm. destruct (Hmoves x k Hm Hns) as [Hgx Hxs].
      specialize (Hsrc x Hx Hm). apply (Hmust x Hgx Hxs) in Hsrc. by apply Hsrc.
    + rewrite decide_False.
      * apply Hold; [done|done|]. intros x Hx Hm. destruct (Hmoves x n Hm Hns) as [Hgx Hxs].
        specialize (Hsrc x Hx Hm). apply (Hmust x Hgx Hxs) in Hsrc. by apply Hsrc.
      * intros H. destruct (Hmoves k n H Hns) as [Hgk Hks].
        assert (is_Some (m0 !! k)) as Hs. { rewrite (Hg k Hgk Hks) in Hk. destruct (decide (k ∈ must)); [by eexists|done]. }
        specialize (Hsrc k Hs H). rewrite Hmust in Hsrc by done. tauto.
Qed.

Lemma remap_done m : range id remap_body m0 m → ∃ seen, remapping ∅ seen m.
Proof.
  intros Hr. eapply (range_inv id remap_body remapping); [|exact Hr|exact remapping_start].
  intros; by apply remapping_step.
Qed.
End remap.

(** What the remapping loop leaves in the custom strings, whatever the order of the
    range: columns of another cloud and columns with a common name are gone, the
    common name (other than source_region) has the value of its only column, and every
    other key is as it was. *)
Theorem remap_columns m0 m : range id remap_body m0 m →
  (∀ k, goes m0 k → k ≠ "source_region" → m !! k = None) ∧
  (∀ k, ¬ goes m0 k → k ∉ targets → m !! k = m0 !! k) ∧
  (∀ n k v, n ≠ "source_region" → moves m0 k n → m0 !! k = Some v →
     (∀ k', is_Some (m0 !! k') → moves m0 k' n → k' = k) → m !! n = Some v) ∧
  (∀ n, n ∈ targets → n ≠ "source_region" → (∀ k, is_Some (m0 !! k) → ¬ moves m0 k n) → m !! n = m0 !! n).
Proof.
  intros Hr. destruct (remap_done m0 m Hr) as (seen & [_ Hk Hg _ Hn Ho]). repeat split.
  - intros k H Hs. rewrite (Hg k H Hs). by rewrite decide_False by set_solver.
  - apply Hk.
  - intros n k v Hs Hm Hv Hu. by apply (Hn n k v).
  - intros n Hn' Hs Hno. apply Ho; [done|done|]. intros k H Hm. by destruct (Hno k H).
Qed.

Lemma range_stop_empty (m : gmap string string) : range_from id remap_body ∅ ∅ (∅ : gmap string string) m → m = ∅.
Proof. inversion 1 as [|? ? ? ? ? ? Hk]; [done|]. unfold id in Hk. by apply lookup_empty_Some in Hk. Qed.

Lemma remap_src_region v : remap_body "src_region" v {["src_region" := v]} = {["source_region" := v]}.
Proof.
  unfold remap_body. rewrite (lookup_singleton_ne "src_region" UDR_TYPE) by done.
  assert (contaminated (default "" None) "src_region" = false) as -> by done.
  assert (remapCustomStrings !! "src_region" = Some "source_region") as -> by (vm_compute; done).
  apply map_eq. intros k. destruct (decide (k = "source_region")) as [->|H1].
  - by rewrite lookup_delete_ne, lookup_insert_eq, lookup_singleton_eq.
  - rewrite (lookup_singleton_ne "source_region") by done. destruct (decide (k = "src_region")) as [->|H2]; [by rewrite lookup_delete_eq|].
    rewrite lookup_delete_ne, lookup_insert_ne by done. by apply lookup_singleton_ne.
Qed.
Lemma remap_source_region v : remap_body "source_region" v {["source_region" := v]} = ∅.
Proof.
  unfold remap_body. rewrite (lookup_singleton_ne "source_region" UDR_TYPE) by done.
  assert (contaminated (default "" None) "source_region" = false) as -> by done.
  assert (remapCustomStrings !! "source_region" = Some "source_region") as -> by (vm_compute; done).
  apply map_eq. intros k. rewrite lookup_empty. destruct (decide (k = "source_region")) as [->|H1]; [by rewrite lookup_delete_eq|].
  rewrite lookup_delete_ne, lookup_insert_ne by done. by apply lookup_singleton_ne.
Qed.

(** The source region is not safe in the loop: a flow that has it under its common
    name loses it in every order, and one that has it as src_region keeps it or loses
    it, as the order has it. *)
Theorem source_region_lost v :
  (∀ m, range id remap_body {["source_region" := v]} m → m = ∅) ∧
  range id remap_body {["src_region" := v]} {["source_region" := v]} ∧
  range id remap_body {["src_region" := v]} ∅.
Proof.
  assert (∀ k (m : gmap string string), (dom ({[k := v]} : gmap string string) ∖ {[k]}) ∩ dom m = ∅) as Hno
    by (intros k m; rewrite dom_singleton_L; set_solver).
  split; [|split].
  - intros m Hr. unfold range in Hr. inversion Hr as [|must seen s k w s' Hk _ Hstep]; subst.
    unfold id in *. apply lookup_singleton_Some in Hk as [<- <-]. rewrite remap_source_region in Hstep.
    rewrite dom_empty_L, !intersection_empty_r_L in Hstep. by apply range_stop_empty.
  - eapply range_step; [apply lookup_singleton_eq|set_solver|]. unfold id. rewrite remap_src_region, Hno. constructor.
  - eapply range_step; [apply lookup_singleton_eq|set_solver|]. unfold id. rewrite remap_src_region, Hno.
    eapply range_step; [apply lookup_singleton_eq|rewrite dom_singleton_L; set_solver|]. unfold id. rewrite remap_source_region.
    rewrite dom_empty_L, !intersection_empty_r_L. constructor.
Qed.

(** ** What the parts leave alone *)

(** The integer fields with their widths. *)
Definition unsigned_fields (j : JCHF) : list (Z * Z) :=
  [ (32, DstAs j); (32, HeaderLen j); (64, InBytes j); (64, InPkts j); (64, InputPort j); (32, IpSize j); (32, L4DstPort j);
    (32, L4SrcPort j); (64, OutputPort j); (32, SampledPacketSize j); (32, SrcAs j); (32, TcpFlags j); (32, Tos j);
    (32, VlanIn j); (32, VlanOut j); (32, MplsType j); (64, OutBytes j); (64, OutPkts j); (32, TcpRetransmit j);
    (32, SampleRate j); (64, DeviceId j); (64, CompanyId j); (32, SrcNextHopAs j); (32, DstNextHopAs j);
    (32, SrcSecondAsn j); (32, DstSecondAsn j); (32, SrcThirdAsn j); (32, DstThirdAsn j) ].
Definition signed_fields (j : JCHF) : list (Z * Z) :=
  [ (64, Timestamp j); (64, InputInterfaceCapacity j); (64, OutputInterfaceCapacity j) ].

(** A record whose integers fit their Go types. *)
Record typed (j : JCHF) : Prop := {
  ty_unsigned : Forall (λ wv, in_u wv.1 wv.2) (unsigned_fields j);
  ty_signed : Forall (λ wv, in_s wv.1 wv.2) (signed_fields j);
  ty_int : map_Forall (λ _ v, in_s 32 v) (map_range (CustomInt j));
  ty_big : map_Forall (λ _ v, in_s 64 v) (map_range (CustomBigInt j)) }.

Record typed_flow (src : Flow) : Prop := {
  tf_company : in_s 64 (f_CompanyId src);
  tf_32 : Forall (in_u 32) (let c := f_CHF src in
    [ c_DstAs c; c_HeaderLen c; c_InputPort c; c_IpSize c; c_L4DstPort c; c_L4SrcPort c; c_OutputPort c; c_SampledPacketSize c;
      c_SrcAs c; c_TcpFlags c; c_Tos c; c_VlanIn c; c_VlanOut c; c_MplsType c; c_TcpRetransmit c; c_SampleRate c; c_DeviceId c;
      c_SrcNextHopAs c; c_DstNextHopAs c; c_SrcSecondAsn c; c_DstSecondAsn c; c_SrcThirdAsn c; c_DstThirdAsn c ]);
  tf_64 : Forall (in_u 64) (let c := f_CHF src in [ c_InBytes c; c_InPkts c; c_OutBytes c; c_OutPkts c ]) }.

(** What the API gives has its Go type. *)
Record typed_api (kc : KT) : Prop := {
  ta_speed d p i : @GetInterface (apic kc) d p = Some i → in_s 64 (SnmpSpeedMbps i);
  ta_agent n a : @GetAgent (apic kc) n = Some a → in_u 32 (Ag_Asn a);
  ta_agent_ip s a : @GetAgentByIP (apic kc) s = Some a → in_u 32 (Ag_Asn a) }.

(** The text fields of the message. *)
Definition texts (j : JCHF) : list string :=
  [ SrcFlowTags j; DstFlowTags j; SrcBgpAsPath j; DstBgpAsPath j; SrcBgpCommunity j; DstBgpCommunity j ].

Definition geos (j : JCHF) : list string := [DstGeo j; SrcGeo j].

(** Two records that agree outside the custom strings and the fields no integer or
    text field comes from. *)
Definition alike (j j' : JCHF) : Prop :=
  unsigned_fields j' = unsigned_fields j ∧ signed_fields j' = signed_fields j ∧
  CustomInt j' = CustomInt j ∧ CustomBigInt j' = CustomBigInt j ∧ texts j' = texts j ∧ geos j' = geos j.
#[export] Instance alike_preorder : PreOrder alike.
Proof.
  split; [by intros j|]. intros j1 j2 j3 (A1 & A2 & A3 & A4 & A5 & A6) (B1 & B2 & B3 & B4 & B5 & B6). unfold alike. split_and!; congruence.
Qed.
Lemma alike_typed j j' : alike j j' → typed j → typed j'.
Proof. intros (A1 & A2 & A3 & A4 & _ & _) [T1 T2 T3 T4]. split; by rewrite ?A1, ?A2, ?A3, ?A4. Qed.
Lemma alike_texts j j' : alike j j' → texts j' = texts j ∧ geos j' = geos j.
Proof. by intros (_ & _ & _ & _ & ? & ?). Qed.
Lemma alike_str k v j : alike j (put_str k v j).
Proof. repeat split. Qed.
Lemma alike_del k j : alike j (del_str k j).
Proof. repeat split. Qed.
Lemma alike_float k v j : alike j (put_float k v j).
Proof. repeat split. Qed.
Lemma alike_resolve kc k a j : alike j (resolve kc k a j).
Proof. unfold resolve. destruct (resolver kc); [apply alike_str|done]. Qed.
Create HintDb flow_db.
#[export] Hint Resolve alike_str alike_del alike_float alike_resolve : flow_db.

Lemma typed_str k v j : typed (put_str k v j) ↔ typed j.
Proof. split; [|by apply alike_typed, alike_str]. intros [? ? ? ?]. by split. Qed.
Lemma typed_int k v j : in_s 32 v → typed j → typed (put_int k v j).
Proof. intros Hv [? ? ? ?]. split; try done. change (map_Forall (λ _ v, in_s 32 v) (<[k:=v]> (map_range (CustomInt j)))). by apply map_Forall_insert_2. Qed.
Lemma typed_big k v j : in_s 64 v → typed j → typed (put_big k v j).
Proof. intros Hv [? ? ? ?]. split; try done. change (map_Forall (λ _ v, in_s 64 v) (<[k:=v]> (map_range (CustomBigInt j)))). by apply map_Forall_insert_2. Qed.
Lemma typed_del_int k j : typed j → typed (del_int k j).
Proof. intros [? ? ? ?]. split; try done. change (map_Forall (λ _ v, in_s 32 v) (delete k (map_range (CustomInt j)))). by apply map_Forall_delete. Qed.
Lemma typed_del_big k j : typed j → typed (del_big k j).
Proof. intros [? ? ? ?]. split; try done. change (map_Forall (λ _ v, in_s 64 v) (delete k (map_range (CustomBigInt j)))). by apply map_Forall_delete. Qed.

(** Under [P] the integers fit, under [G] the countries are [g], and in any case the
    text fields are [t]. *)
Definition sound (P G : Prop) (g t : list string) (j : JCHF) : Prop := (P → typed j) ∧ texts j = t ∧ (G → geos j = g).

Lemma sound_alike P G g t j j' : alike j j' → sound P G g t j → sound P G g t j'.
Proof.
  intros Ha (H1 & H2 & H3). destruct (alike_texts j j' Ha) as [E1 E2].
  split; [intros HP; eapply alike_typed; eauto|]. by rewrite E1, E2.
Qed.
Lemma sound_str P G g t k v j : sound P G g t j → sound P G g t (put_str k v j).
Proof. apply sound_alike, alike_str. Qed.
Lemma sound_del P G g t k j : sound P G g t j → sound P G g t (del_str k j).
Proof. apply sound_alike, alike_del. Qed.
Lemma sound_float P G g t k v j : sound P G g t j → sound P G g t (put_float k v j).
Proof. apply sound_alike, alike_float. Qed.
Lemma sound_resolve P G g t kc k a j : sound P G g t j → sound P G g t (resolve kc k a j).
Proof. apply sound_alike, alike_resolve. Qed.
Lemma sound_int P G g t k v j : in_s 32 v → sound P G g t j → sound P G g t (put_int k v j).
Proof. intros Hv (H1 & H2). split; [intros HP; by apply typed_int; [|apply H1]|exact H2]. Qed.
Lemma sound_big P G g t k v j : in_s 64 v → sound P G g t j → sound P G g t (put_big k v j).
Proof. intros Hv (H1 & H2). split; [intros HP; by apply typed_big; [|apply H1]|exact H2]. Qed.
Lemma sound_rename_int P G g t col udr j : sound P G g t j → sound P G g t (rename_int col udr j).
Proof.
  unfold rename_int. destruct (map_range (CustomInt j) !! col) as [v|] eqn:E; [|done]. intros [H1 H2]. split; [|exact H2].
  intros HP. pose proof (H1 HP) as Ht. apply typed_del_int, typed_int; [|done]. by apply (ty_int j Ht col).
Qed.
Lemma sound_rename_big P G g t col udr v j : map_range (CustomBigInt j) !! col = Some v → sound P G g t j →
  sound P G g t (del_big col (put_big (ColumnName udr) v j)).
Proof.
  intros E [H1 H2]. split; [|exact H2]. intros HP. pose proof (H1 HP) as Ht. apply typed_del_big, typed_big; [|done].
  by apply (ty_big j Ht col).
Qed.
#[export] Hint Resolve sound_str sound_del sound_float sound_resolve sound_int sound_big sound_rename_int : flow_db.
#[export] Hint Extern 1 (in_s _ (wraps _ _)) => apply wraps_range; lia : flow_db.

Lemma in_u_widen v w x : 0 ≤ w ≤ v → in_u w x → in_u v x.
Proof. intros Hw [H1 H2]. split; [done|]. eapply Z.lt_le_trans; [exact H2|]. apply Z.pow_le_mono_r; lia. Qed.

Section stages.
Context (kc : KT) (P : Prop) (HP : P → typed_api kc) (G : Prop) (g t : list string).
Abbreviation steady := (sound P G g t).
Abbreviation sound' := (sound P False g t).

Lemma sound_input i j d p : @GetInterface (apic kc) d p = Some i → steady j → steady (input_interface i j).
Proof using HP.
  intros Hi [H1 H2]. unfold input_interface. do 3 apply sound_str. split; [|exact H2]. intros Hp. destruct (H1 Hp) as [T1 T2 T3 T4].
  split; try done. change (signed_fields _) with (<[1%nat := (64, SnmpSpeedMbps i)]> (signed_fields j)).
  apply Forall_insert; [done|]. by apply (ta_speed kc (HP Hp) d p).
Qed.
Lemma sound_output i j d p : @GetInterface (apic kc) d p = Some i → steady j → steady (output_interface i j).
Proof using HP.
  intros Hi [H1 H2]. unfold output_interface. do 3 apply sound_str. split; [|exact H2]. intros Hp. destruct (H1 Hp) as [T1 T2 T3 T4].
  split; try done. change (signed_fields _) with (<[2%nat := (64, SnmpSpeedMbps i)]> (signed_fields j)).
  apply Forall_insert; [done|]. by apply (ta_speed kc (HP Hp) d p).
Qed.

Lemma sound_device j : steady j → steady (device_fields kc j).1.
Proof using HP.
  intros Hj. unfold device_fields. destruct (@GetDevice (apic kc) (CompanyId j) (DeviceId j)) as [d|]; [|done].
  assert (steady (put_str UDR_TYPE (DeviceSubtype d) j <| DeviceName := D_Name d |>)) as H1
    by (apply sound_str; revert Hj; by apply sound_alike).
  revert H1. generalize (put_str UDR_TYPE (DeviceSubtype d) j <| DeviceName := D_Name d |>) as j1. intros j1 H1. cbv zeta.
  set (j2 := match SendingIps d with ip :: _ => _ | [] => j1 end).
  assert (steady j2) as H2 by (unfold j2; destruct (SendingIps d); auto with flow_db). clearbody j2.
  set (j3 := match Site d with Some s => _ | None => j2 end).
  assert (steady j3) as H3 by (unfold j3; destruct (Site d); auto with flow_db). clearbody j3.
  set (j4 := match @GetInterface (apic kc) d (InputPort j3) with Some i => _ | None => j3 end).
  assert (steady j4) as H4 by (unfold j4; destruct (@GetInterface _ d (InputPort j3)) eqn:E; [by eapply sound_input|done]).
  clearbody j4.
  set (j5 := match @GetInterface (apic kc) d (OutputPort j4) with Some i => _ | None => j4 end).
  assert (steady j5) as H5 by (unfold j5; destruct (@GetInterface _ d (OutputPort j4)) eqn:E; [by eapply sound_output|done]).
  clearbody j5. destruct (FullSite d) as [[market country]|]; cbn [fst]; auto with flow_db.
Qed.

Lemma sound_address c j : steady j → steady (address_fields kc c j).
Proof.
  intros Hj. unfold address_fields. cbv zeta. eapply sound_alike; [|apply sound_resolve; eapply sound_alike; [|apply sound_resolve; eapply sound_alike; [|exact Hj]]]; by repeat split.
Qed.

Lemma sound_exit name v j : steady j → steady (exit_device kc name v j).
Proof.
  intros Hj. unfold exit_device. assert (steady (put_int name (wraps 32 v) j)) as H by auto with flow_db. revert H.
  generalize (put_int name (wraps 32 v) j). intros j' H. destruct (@GetDevice _ (CompanyId j') v) as [d|]; [|done].
  destruct (Site d); auto with flow_db.
Qed.
Lemma sound_uint32 name isInt v j : steady j → steady (uint32_custom kc name isInt v j).
Proof.
  intros Hj. unfold uint32_custom. do 4 (destruct (is_one_of name _); [auto with flow_db|]).
  destruct (is_one_of name _); [unfold rpki_fields; destruct (_ || _); auto with flow_db|].
  destruct (is_one_of name _); [by apply sound_exit|].
  destruct (@LookupTagValue _ _ _ _) as [[tk tv]|]; [auto with flow_db|]. destruct isInt; auto with flow_db.
Qed.
Lemma sound_custom names j cust : steady j → steady (custom_field kc names j cust).
Proof.
  intros Hj. unfold custom_field. destruct (custom_name kc names (Custom_Id cust)) as [name isInt].
  destruct (Custom_Value cust) as [v|v|v|v|v|[|b [|b' bs]]|]; auto with flow_db; [by apply sound_uint32|].
  destruct (@LookupTagValueBig _ _ _ _) as [[tk tv]|]; auto with flow_db.
Qed.
Lemma sound_customs names l j : steady j → steady (custom_fields kc names l j).
Proof. unfold custom_fields. revert j. induction l as [|c l IH]; intros j Hj; [done|]. apply IH. by apply sound_custom. Qed.

Lemma sound_agent j : sound' j → sound' (agent_fields kc j).
Proof using HP.
  intros Hj. unfold agent_fields. destruct (@GetAgent (apic kc) _) as [a|] eqn:Ea; [|auto with flow_db].
  assert (sound' (put_str "agent_name" (Ag_Alias a) j)) as H1 by auto with flow_db. revert H1.
  generalize (put_str "agent_name" (Ag_Alias a) j) as j1. intros j1 H1. cbv zeta.
  set (j2 := if _ || _ then _ else j1). assert (sound' j2) as H2.
  { unfold j2. destruct (_ || _); [|done]. apply sound_resolve. revert H1. by apply sound_alike. }
  clearbody j2. clear H1. set (j3 := j2 <| SrcAs := Ag_Asn a |> <| SrcGeoRegion := Ag_Region a |> <| SrcGeoCity := Ag_City a |> <| SrcGeo := Ag_Country a |>).
  assert (sound' j3) as H3.
  { destruct H2 as [H1 H2]. split; [|split; [apply H2|done]]. intros Hp. destruct (H1 Hp) as [T1 T2 T3 T4]. split; try done.
    change (unsigned_fields j3) with (<[10%nat := (32, Ag_Asn a)]> (unsigned_fields j2)). apply Forall_insert; [done|].
    by eapply ta_agent, Ea; apply HP. }
  clearbody j3. set (j4 := put_str "src_site" _ _). assert (sound' j4) as H4 by (unfold j4; auto with flow_db). clearbody j4.
  destruct (_ && _); [|done]. destruct (@GetAgentByIP (apic kc) (DstAddr j4)) as [da|] eqn:Ed; [|done].
  do 3 apply sound_str. assert (sound' (put_str "dst_agent_id" (Ag_Id da) (put_str "dst_agent_name" (Ag_Alias da) j4))) as [H5 H6] by auto with flow_db.
  split; [|split; [apply H6|done]]. intros Hp. destruct (H5 Hp) as [T1 T2 T3 T4]. split; try done.
  change (unsigned_fields _) with (<[0%nat := (32, Ag_Asn da)]> (unsigned_fields j4)). apply Forall_insert; [done|].
  by eapply ta_agent_ip, Ed; apply HP.
Qed.

Lemma sound_rename_column col udr j : sound' j → sound' (rename_column col udr j).
Proof.
  intros Hj. unfold rename_column. destruct (String.eqb _ _); [by apply sound_rename_int|].
  destruct (String.eqb _ _); [destruct (map_range (CustomStr j) !! col); auto with flow_db|].
  destruct (String.eqb _ _); [|done].
  destruct (map_range (CustomBigInt j) !! col) as [v|] eqn:E; [by apply sound_rename_big|by apply sound_rename_int].
Qed.

Lemma sound_udr j cu : sound' j → sound' (udr_round kc j cu).
Proof using HP.
  intros Hj. destruct cu as [col udr]. unfold udr_round. apply (sound_rename_column col udr) in Hj. revert Hj.
  generalize (rename_column col udr j) as j1. intros j1 H1. cbv zeta.
  set (j2 := match map_range (CustomStr j1) !! UDR_TYPE with Some _ => _ | None => _ end).
  assert (sound' j2) as H2 by (unfold j2; destruct (map_range (CustomStr j1) !! UDR_TYPE); auto with flow_db). clearbody j2.
  destruct (String.eqb _ _); [auto with flow_db|]. destruct (String.eqb _ _).
  - unfold test_fields. cbv zeta. destruct (@GetTest _ _); auto with flow_db.
  - destruct (String.eqb _ _); [by apply sound_agent|done].
Qed.
Lemma sound_udrs order j : (G → order = []) → steady j → steady (foldl (udr_round kc) j order).
Proof using HP.
  intros HG (H1 & H2 & H3). assert (∀ j, sound' j → sound' (foldl (udr_round kc) j order)) as Hf.
  { clear HG H1 H2 H3 j. induction order as [|cu l IH]; intros j Hj; [done|]. apply IH. by apply sound_udr. }
  destruct (Hf j) as (H4 & H5 & _); [by split|]. split; [done|]. split; [done|]. intros Hg. rewrite (HG Hg). by apply H3.
Qed.

Lemma sound_finish m j : steady j → steady (finish (j <| CustomStr := Some m |>)).
Proof.
  intros Hj. assert (steady (j <| CustomStr := Some m |>)) as H by (revert Hj; by apply sound_alike). revert H.
  generalize (j <| CustomStr := Some m |>) as j1. intros j1 H1. unfold finish. cbv zeta.
  set (j2 := match map_range (CustomStr j1) !! "Type" with Some _ => j1 | None => _ end).
  assert (steady j2) as H2 by (unfold j2; destruct (map_range (CustomStr j1) !! "Type"); auto with flow_db). clearbody j2.
  set (j3 := put_str "src_endpoint" _ j2). assert (steady j3) as H3 by (by apply sound_str). clearbody j3.
  set (j4 := put_str "dst_endpoint" _ j3). assert (steady j4) as H4 by (by apply sound_str). clearbody j4.
  revert H4. apply sound_alike. by repeat split.
Qed.
End stages.

Lemma in_u_div w d x : 0 < d → in_u w x → in_u w (x / d).
Proof. intros Hd [H1 H2]. split; [by apply Z.div_pos|]. eapply Z.le_lt_trans; [|exact H2]. apply Z.div_le_upper_bound; nia. Qed.

Lemma base_unsigned kc dst src ts : let c := f_CHF src in
  unsigned_fields (base_fields kc dst src ts) =
  [ (32, c_DstAs c); (32, c_HeaderLen c); (64, c_InBytes c); (64, c_InPkts c); (64, c_InputPort c); (32, c_IpSize c);
    (32, c_L4DstPort c); (32, c_L4SrcPort c); (64, c_OutputPort c); (32, c_SampledPacketSize c); (32, c_SrcAs c);
    (32, c_TcpFlags c); (32, c_Tos c); (32, c_VlanIn c); (32, c_VlanOut c); (32, c_MplsType c); (64, c_OutBytes c);
    (64, c_OutPkts c); (32, c_TcpRetransmit c); (32, c_SampleRate c / 100); (64, c_DeviceId c); (64, wrapu 64 (f_CompanyId src));
    (32, c_SrcNextHopAs c); (32, c_DstNextHopAs c); (32, c_SrcSecondAsn c); (32, c_DstSecondAsn c); (32, c_SrcThirdAsn c);
    (32, c_DstThirdAsn c) ].
Proof. cbv zeta. unfold base_fields. cbv zeta. by destruct (0 <? c_DstGeo (f_CHF src)), (0 <? c_SrcGeo (f_CHF src)). Qed.
Lemma base_rest kc dst src ts :
  signed_fields (base_fields kc dst src ts) = [(64, ts); (64, InputInterfaceCapacity dst); (64, OutputInterfaceCapacity dst)] ∧
  CustomInt (base_fields kc dst src ts) = Some ∅ ∧ CustomBigInt (base_fields kc dst src ts) = Some ∅ ∧
  texts (base_fields kc dst src ts) = texts dst ∧
  (c_DstGeo (f_CHF src) = 0 → c_SrcGeo (f_CHF src) = 0 → geos (base_fields kc dst src ts) = geos dst).
Proof.
  unfold base_fields. cbv zeta. repeat split; try by destruct (0 <? c_DstGeo (f_CHF src)), (0 <? c_SrcGeo (f_CHF src)).
  by intros -> ->.
Qed.

Lemma typed_base kc dst src ts : typed dst → typed_flow src → in_s 64 ts → typed (base_fields kc dst src ts).
Proof.
  intros [_ T2 _ _] [F0 F1 F2] Hts. destruct (base_rest kc dst src ts) as (E2 & E3 & E4 & _). split.
  - rewrite base_unsigned. cbv zeta in F1, F2. repeat (apply Forall_cons in F1 as [? F1]). repeat (apply Forall_cons in F2 as [? F2]).
    repeat (apply Forall_cons_2; [cbn [fst snd]|]); try done; try (by eapply (in_u_widen 64 32)).
    + by apply in_u_div.
    + by apply wrapu_range.
  - rewrite E2. unfold signed_fields in T2. apply Forall_cons in T2 as [_ T2]. by apply Forall_cons_2.
  - by rewrite E3.
  - by rewrite E4.
Qed.

Lemma string_texts c j : Forall (λ t : text, t.2 = None)
    [c_SrcFlowTags c; c_DstFlowTags c; c_SrcBgpAsPath c; c_DstBgpAsPath c; c_SrcBgpCommunity c; c_DstBgpCommunity c] →
  texts (string_fields c j) = texts j ∧ geos (string_fields c j) = geos j.
Proof.
  intros Hf. repeat (apply Forall_cons in Hf as [? Hf]). unfold string_fields, on_err. cbv zeta.
  repeat match goal with H : _.2 = None |- _ => rewrite H; clear H end. done.
Qed.
Lemma string_typed c j : typed j → typed (string_fields c j).
Proof.
  intros [? ? ? ?]. unfold string_fields, on_err. cbv zeta.
  by destruct ((c_SrcFlowTags c).2), ((c_DstFlowTags c).2), ((c_SrcBgpAsPath c).2), ((c_DstBgpAsPath c).2), ((c_SrcBgpCommunity c).2), ((c_DstBgpCommunity c).2).
Qed.

(** From the strings on. *)
Lemma sound_flow (P G : Prop) g t kc dst src ts dst' : (P → typed_api kc) → (G → udrMapr kc = None) →
  sound P G g t (string_fields (f_CHF src) (device_fields kc (base_fields kc dst src ts)).1) →
  flowToJCHF kc dst src ts dst' → sound P G g t dst'.
Proof.
  intros HP HG Hs (order & m & Ho & _ & ->). apply sound_finish, (sound_udrs kc P HP).
  - intros Hg. unfold udr_columns in Ho. rewrite (HG Hg), map_to_list_empty in Ho. by apply Permutation_nil_r.
  - clear Ho. unfold before_loops. destruct (device_fields kc (base_fields kc dst src ts)) as [j names].
    apply sound_customs. by apply sound_address.
Qed.

(** A flow's integers, and the values of its integer columns, fit their Go types
    after the conversion: columns of 16, 32 and 64 bits are converted with wrap-around,
    and whatever the loops over maps do keeps the widths. *)
Theorem flowToJCHF_typed kc dst src ts dst' :
  typed dst → typed_flow src → in_s 64 ts → typed_api kc → flowToJCHF kc dst src ts dst' → typed dst'.
Proof.
  intros Hd Hs Hts Ha Hf. set (j := string_fields (f_CHF src) (device_fields kc (base_fields kc dst src ts)).1).
  apply (sound_flow True False [] (texts j) kc dst src ts dst'); try done. split; [|done]. intros _. apply string_typed.
  by apply (sound_device kc True (λ _, Ha) False [] (texts (base_fields kc dst src ts))); [split; [intros _; by apply typed_base|]|].
Qed.

(** What a message does not set stays from the flow the record was last used for:
    with getters that succeed, flow tags, AS paths and communities are always the old
    ones, and so are the countries when the message has none (and no application
    column looks up an agent). *)
Theorem flowToJCHF_stale kc dst src ts dst' :
  (let c := f_CHF src in Forall (λ t : text, t.2 = None)
    [c_SrcFlowTags c; c_DstFlowTags c; c_SrcBgpAsPath c; c_DstBgpAsPath c; c_SrcBgpCommunity c; c_DstBgpCommunity c]) →
  flowToJCHF kc dst src ts dst' →
  texts dst' = texts dst ∧
  (c_DstGeo (f_CHF src) = 0 → c_SrcGeo (f_CHF src) = 0 → udrMapr kc = None → geos dst' = geos dst).
Proof.
  intros Hn Hf. set (G := c_DstGeo (f_CHF src) = 0 ∧ c_SrcGeo (f_CHF src) = 0 ∧ udrMapr kc = None).
  assert (sound False G (geos dst) (texts dst) dst') as (_ & Ht & Hg); [|split; [done|]; intros; by apply Hg].
  apply (sound_flow False G (geos dst) (texts dst) kc dst src ts); [done|by intros (_ & _ & ?)| |done].
  assert (sound False G (geos dst) (texts dst) (device_fields kc (base_fields kc dst src ts)).1) as (_ & H2 & H3).
  { apply (sound_device kc False (λ H, False_ind _ H)). destruct (base_rest kc dst src ts) as (_ & _ & _ & Et & Eg).
    split; [done|]. split; [done|]. intros (? & ? & _). by apply Eg. }
  destruct (string_texts (f_CHF src) (device_fields kc (base_fields kc dst src ts)).1) as [E1 E2]; [done|].
  split; [done|]. by rewrite E1, E2.
Qed.

(** *** What a record has of its message *)

(** The counters, and the texts that are always set. The two numbers of autonomous
    systems and the source address are apart, since an agent of a test may set them. *)
Definition numbers (j : JCHF) : list Z :=
  [ Timestamp j; HeaderLen j; InBytes j; InPkts j; InputPort j; IpSize j; L4DstPort j; L4SrcPort j; OutputPort j;
    SampledPacketSize j; TcpFlags j; Tos j; VlanIn j; VlanOut j; MplsType j; OutBytes j; OutPkts j; TcpRetransmit j;
    SampleRate j; DeviceId j; CompanyId j; SrcNextHopAs j; DstNextHopAs j; SrcSecondAsn j; DstSecondAsn j;
    SrcThirdAsn j; DstThirdAsn j ].
Definition words (j : JCHF) : list string :=
  [ Protocol j; SrcEthMac j; DstEthMac j; DstAddr j; SrcRoutePrefix j; DstRoutePrefix j; SrcNextHop j; DstNextHop j ].
Definition ends (j : JCHF) : Z * Z * string := (SrcAs j, DstAs j, SrcAddr j).
Definition rendering (j : JCHF) : bool * gomap avro := (hasSetAvro j, avroSet j).
Definition frame (j : JCHF) : list Z * list string * (bool * gomap avro) := (numbers j, words j, rendering j).

Definition same (E : Prop) (j j' : JCHF) : Prop := frame j' = frame j ∧ (E → ends j' = ends j).
#[export] Instance same_preorder E : PreOrder (same E).
Proof. split; [by intros j|]. intros j1 j2 j3 [A1 A2] [B1 B2]. split; [congruence|]. intros e. rewrite B2, A2; done. Qed.
Lemma same_parts E j j' : same E j j' →
  numbers j' = numbers j ∧ words j' = words j ∧ rendering j' = rendering j ∧ (E → ends j' = ends j).
Proof. intros [Hf He]. split_and!; [exact (f_equal (λ x, x.1.1) Hf)|exact (f_equal (λ x, x.1.2) Hf)|exact (f_equal snd Hf)|exact He]. Qed.

Lemma same_put_str E k v j : same E j (put_str k v j).
Proof. by split. Qed.
Lemma same_put_int E k v j : same E j (put_int k v j).
Proof. by split. Qed.
Lemma same_put_big E k v j : same E j (put_big k v j).
Proof. by split. Qed.
Lemma same_put_float E k v j : same E j (put_float k v j).
Proof. by split. Qed.
Lemma same_resolve E kc k a j : same E j (resolve kc k a j).
Proof. unfold resolve. by destruct (resolver kc). Qed.
Lemma same_device E kc j : same E j (device_fields kc j).1.
Proof. unfold device_fields, input_interface, output_interface. cbv zeta. repeat case_match; by split. Qed.
Lemma same_custom E kc names j cust : same E j (custom_field kc names j cust).
Proof.
  unfold custom_field, uint32_custom, exit_device, rpki_fields. cbv zeta. destruct (custom_name kc names (Custom_Id cust)) as [name isInt].
  repeat case_match; by split.
Qed.
Lemma same_customs E kc names l j : same E j (custom_fields kc names l j).
Proof. unfold custom_fields. revert j. induction l as [|c l IH]; intros j; [done|]. cbn [foldl]. etrans; [apply same_custom|apply IH]. Qed.
Lemma same_agent kc j : same False j (agent_fields kc j).
Proof.
  unfold agent_fields, resolve. cbv zeta. repeat case_match; by split.
Qed.
Lemma same_udr kc j cu : same False j (udr_round kc j cu).
Proof.
  destruct cu as [col udr]. unfold udr_round. cbv zeta. trans (rename_column col udr j).
  { unfold rename_column, rename_int. repeat case_match; by split. }
  generalize (rename_column col udr j) as j1. intros j1. set (j2 := match _ with Some _ => _ | None => _ end).
  trans j2; [unfold j2; case_match; by split|]. clearbody j2. clear j1.
  repeat case_match; try apply same_put_str; [|apply same_agent|done]. unfold test_fields. cbv zeta. case_match; by split.
Qed.
Lemma same_udrs kc order j : same (order = []) j (foldl (udr_round kc) j order).
Proof.
  assert (same False j (foldl (udr_round kc) j order)) as [H _].
  { revert j. induction order as [|cu l IH]; intros j; [done|]. cbn [foldl]. etrans; [apply same_udr|apply IH]. }
  split; [done|by intros ->].
Qed.
Lemma same_finish E m j : same E j (finish (j <| CustomStr := m |>)).
Proof. unfold finish. cbv zeta. case_match; by split. Qed.

Lemma base_frame kc dst src ts : let c := f_CHF src in let j := base_fields kc dst src ts in
  numbers j =
  [ ts; c_HeaderLen c; c_InBytes c; c_InPkts c; c_InputPort c; c_IpSize c; c_L4DstPort c; c_L4SrcPort c; c_OutputPort c;
    c_SampledPacketSize c; c_TcpFlags c; c_Tos c; c_VlanIn c; c_VlanOut c; c_MplsType c; c_OutBytes c; c_OutPkts c; c_TcpRetransmit c;
    c_SampleRate c / 100; c_DeviceId c; wrapu 64 (f_CompanyId src); c_SrcNextHopAs c; c_DstNextHopAs c; c_SrcSecondAsn c;
    c_DstSecondAsn c; c_SrcThirdAsn c; c_DstThirdAsn c ] ∧
  Protocol j = proto_name (wrapu 16 (c_Protocol c)) ∧ SrcAs j = c_SrcAs c ∧ DstAs j = c_DstAs c ∧ rendering j = rendering dst.
Proof. cbv zeta. unfold base_fields. cbv zeta. by destruct (0 <? c_DstGeo (f_CHF src)), (0 <? c_SrcGeo (f_CHF src)). Qed.

(** What the strings and the addresses of a message put over the fields before. *)
Lemma string_frame c j : let j' := string_fields c j in
  numbers j' = numbers j ∧ Protocol j' = Protocol j ∧ SrcAs j' = SrcAs j ∧ DstAs j' = DstAs j ∧ rendering j' = rendering j ∧
  SrcEthMac j' = mac_string (c_SrcEthMac c) ∧ DstEthMac j' = mac_string (c_DstEthMac c).
Proof. unfold string_fields, on_err. cbv zeta. repeat case_match; by split_and!. Qed.
Lemma address_frame kc c j : let j' := address_fields kc c j in
  numbers j' = numbers j ∧ rendering j' = rendering j ∧
  words j' = [ Protocol j; SrcEthMac j; DstEthMac j; addr_string (c_Ipv4DstAddr c) (c_Ipv6DstAddr c); IP_String (Int2ip (c_SrcRoutePrefix c));
    IP_String (Int2ip (c_DstRoutePrefix c)); addr_string (c_Ipv4SrcNextHop c) (c_Ipv6SrcNextHop c); addr_string (c_Ipv4DstNextHop c) (c_Ipv6DstNextHop c) ] ∧
  ends j' = (SrcAs j, DstAs j, addr_string (c_Ipv4SrcAddr c) (c_Ipv6SrcAddr c)).
Proof. unfold address_fields, resolve. cbv zeta. destruct (resolver kc); by split_and!. Qed.

Lemma finish_endpoints j : let j' := finish j in
  map_range (CustomStr j') !! "src_endpoint" = Some (String.append (SrcAddr j') (String.append ":" (Itoa (L4SrcPort j')))) ∧
  map_range (CustomStr j') !! "dst_endpoint" = Some (String.append (DstAddr j') (String.append ":" (Itoa (L4DstPort j')))).
Proof.
  unfold finish. cbv zeta. generalize (match map_range (CustomStr j) !! "Type" with Some _ => j | None => put_str "Type" "kflow" j end) as j1.
  intros j1. cbn. split; [rewrite lookup_insert_ne by done|]; by rewrite lookup_insert_eq.
Qed.

(** The rendering that a record has cached is not touched. *)
Lemma flowToJCHF_rendering kc dst src ts dst' : flowToJCHF kc dst src ts dst' → rendering dst' = rendering dst.
Proof.
  intros (order & m & _ & _ & ->). set (d1 := foldl (udr_round kc) _ order).
  assert (same False (before_loops kc dst src ts) (finish (d1 <| CustomStr := Some m |>))) as Hs.
  { trans d1; [|apply same_finish]. destruct (same_udrs kc order (before_loops kc dst src ts)) as [H1 _]. by split. }
  destruct (same_parts _ _ _ Hs) as (_ & _ & -> & _). unfold before_loops.
  destruct (same_parts _ _ _ (same_device False kc (base_fields kc dst src ts))) as (_ & _ & D3 & _).
  destruct (device_fields kc (base_fields kc dst src ts)) as [jd names].
  destruct (same_parts _ _ _ (same_customs False kc names (c_Custom (f_CHF src)) (address_fields kc (f_CHF src) (string_fields (f_CHF src) jd))))
    as (_ & _ & -> & _).
  destruct (address_frame kc (f_CHF src) (string_fields (f_CHF src) jd)) as (_ & -> & _).
  destruct (string_frame (f_CHF src) jd) as (_ & _ & _ & _ & -> & _). cbn [fst] in D3. rewrite D3.
  by destruct (base_frame kc dst src ts) as (_ & _ & _ & _ & ->).
Qed.

(** C9: Whatever record a flow is converted into, and whatever the tags, interfaces and
    custom columns that are written around it, the counters, ports, addresses and other
    fixed fields of the record are those of the message, each in its place; so are the
    source address and the two numbers of autonomous systems when no application has
    columns of its own; the endpoints name the addresses and ports; and the rendering
    that is kept of the record before is not touched. *)
Theorem flowToJCHF_message kc dst src ts dst' : flowToJCHF kc dst src ts dst' → let c := f_CHF src in
  numbers dst' =
  [ ts; c_HeaderLen c; c_InBytes c; c_InPkts c; c_InputPort c; c_IpSize c; c_L4DstPort c; c_L4SrcPort c; c_OutputPort c;
    c_SampledPacketSize c; c_TcpFlags c; c_Tos c; c_VlanIn c; c_VlanOut c; c_MplsType c; c_OutBytes c; c_OutPkts c; c_TcpRetransmit c;
    c_SampleRate c / 100; c_DeviceId c; wrapu 64 (f_CompanyId src); c_SrcNextHopAs c; c_DstNextHopAs c; c_SrcSecondAsn c;
    c_DstSecondAsn c; c_SrcThirdAsn c; c_DstThirdAsn c ] ∧
  words dst' =
  [ proto_name (wrapu 16 (c_Protocol c)); mac_string (c_SrcEthMac c); mac_string (c_DstEthMac c);
    addr_string (c_Ipv4DstAddr c) (c_Ipv6DstAddr c); IP_String (Int2ip (c_SrcRoutePrefix c)); IP_String (Int2ip (c_DstRoutePrefix c));
    addr_string (c_Ipv4SrcNextHop c) (c_Ipv6SrcNextHop c); addr_string (c_Ipv4DstNextHop c) (c_Ipv6DstNextHop c) ] ∧
  (udrMapr kc = None → ends dst' = (c_SrcAs c, c_DstAs c, addr_string (c_Ipv4SrcAddr c) (c_Ipv6SrcAddr c))) ∧
  map_range (CustomStr dst') !! "src_endpoint" = Some (String.append (SrcAddr dst') (String.append ":" (Itoa (c_L4SrcPort c)))) ∧
  map_range (CustomStr dst') !! "dst_endpoint" = Some (String.append (DstAddr dst') (String.append ":" (Itoa (c_L4DstPort c)))) ∧
  rendering dst' = rendering dst.
Proof.
  intros (order & m & Ho & _ & ->). cbv zeta. set (d1 := foldl (udr_round kc) _ order).
  assert (same (udrMapr kc = None) (before_loops kc dst src ts) (finish (d1 <| CustomStr := Some m |>))) as [Hf He].
  { trans d1; [|apply same_finish]. destruct (same_udrs kc order (before_loops kc dst src ts)) as [H1 H2].
    split; [exact H1|]. intros Hu. apply H2. unfold udr_columns in Ho. rewrite Hu, map_to_list_empty in Ho. by apply Permutation_nil_r. }
  destruct (finish_endpoints (d1 <| CustomStr := Some m |>)) as [-> ->]. revert Hf He. generalize (finish (d1 <| CustomStr := Some m |>)) as j'.
  clear. intros j' Hf He.
  destruct (base_frame kc dst src ts) as (B1 & B2 & B3 & B4 & B5). unfold before_loops in *.
  destruct (same_parts _ _ _ (same_device True kc (base_fields kc dst src ts))) as (D1 & D2 & D3 & D4). specialize (D4 I).
  destruct (device_fields kc (base_fields kc dst src ts)) as [jd names]. cbn [fst] in D1, D2, D3, D4.
  destruct (string_frame (f_CHF src) jd) as (S1 & S2 & S3 & S4 & S5 & S6 & S7).
  destruct (address_frame kc (f_CHF src) (string_fields (f_CHF src) jd)) as (A1 & A2 & A3 & A4).
  destruct (same_parts _ _ _ (same_customs True kc names (c_Custom (f_CHF src)) (address_fields kc (f_CHF src) (string_fields (f_CHF src) jd))))
    as (C1 & C2 & C3 & C4). specialize (C4 I).
  destruct (same_parts _ _ _ (conj Hf He)) as (F1 & F2 & F3 & F4).
  assert (Protocol jd = Protocol (base_fields kc dst src ts)) as P1 by exact (f_equal (λ l, nth 0 l "") D2).
  assert (SrcAs jd = SrcAs (base_fields kc dst src ts)) as P2 by exact (f_equal (λ e, e.1.1) D4).
  assert (DstAs jd = DstAs (base_fields kc dst src ts)) as P3 by exact (f_equal (λ e, e.1.2) D4).
  assert (numbers j' = numbers (base_fields kc dst src ts)) as Hn by congruence. rewrite B1 in Hn.
  split; [exact Hn|]. split; [by rewrite F2, C2, A3, S2, S6, S7, P1, B2|].
  split; [intros Hu; by rewrite (F4 Hu), C4, A4, S3, S4, P2, P3, B3, B4|].
  assert (L4SrcPort j' = c_L4SrcPort (f_CHF src)) as -> by exact (f_equal (λ l, nth 7 l 0) Hn).
  assert (L4DstPort j' = c_L4DstPort (f_CHF src)) as -> by exact (f_equal (λ l, nth 6 l 0) Hn).
  split; [done|]. split; [done|]. congruence.
Qed.

(** The conversion always gives a record. *)
Lemma flowToJCHF_total kc dst src ts : ∃ dst', flowToJCHF kc dst src ts dst'.
Proof.
  set (d0 := before_loops kc dst src ts). set (order := map_to_list (udr_columns kc d0)).
  destruct (range_total id remap_body (map_range (CustomStr (foldl (udr_round kc) d0 order)))) as (m & Hm).
  exists (finish ((foldl (udr_round kc) d0 order) <| CustomStr := Some m |>)), order, m. by split.
Qed.

(** ** Custom columns *)

(** The mapper of a service without tags (src/pkg/maps/maps.go). *)
Definition NullType : TagMapper := {|
  LookupTagValue _ _ _ := None;
  LookupTagValueBig _ _ _ := None;
  LookupKV _ := "" |}.

Definition special_names : list string :=
  [ "src_cdn_int"; "dst_cdn_int"; "trf_origination"; "trf_termination"; "host_direction"; "src_network_bndry";
    "dst_network_bndry"; "ult_exit_network_bndry"; "src_connect_type"; "dst_connect_type"; "ult_exit_connect_type";
    "dst_rpki"; "ult_exit_device_id" ].

(** The name, type and value of a column. *)
Inductive column := ColInt (v : Z) | ColBig (v : Z) | ColFloat (f : float32) | ColStr (s : string) | ColNone.
Definition column_of (isInt : bool) (v : Custom_value) : column :=
  match v with
  | Uint16Val v => ColInt (wraps 32 v)
  | Uint32Val v => if isInt then ColNone else ColInt (wraps 32 v)
  | Uint64Val v => ColBig (wraps 64 v)
  | Float32Val f => ColFloat f
  | StrVal s => ColStr s
  | AddrVal (_ :: (_ :: _) as rest) => ColStr (IP_String rest)
  | AddrVal _ | OtherVal => ColNone
  end.
Definition columns {A} (pick : column → option A) (kc : KT) (names : gmap Z string) (l : list Custom) : list (string * A) :=
  omap (λ c, let '(name, isInt) := custom_name kc names (Custom_Id c) in (name,.) <$> pick (column_of isInt (Custom_Value c))) l.
Definition as_int (c : column) := match c with ColInt v => Some v | _ => None end.
Definition as_big (c : column) := match c with ColBig v => Some v | _ => None end.
Definition as_float (c : column) := match c with ColFloat v => Some v | _ => None end.
Definition as_str (c : column) := match c with ColStr v => Some v | _ => None end.

(** The last column of a name wins. *)
Definition with_columns {A} (l : list (string * A)) (m : gomap A) : gmap string A := list_to_map (reverse l) ∪ map_range m.

Lemma with_columns_nil {A} (m : gomap A) : with_columns [] m = map_range m.
Proof. unfold with_columns. cbn. apply (left_id_L ∅ (∪)). Qed.
Lemma with_columns_cons {A} k v (l : list (string * A)) (m : gomap A) :
  with_columns ((k, v) :: l) m = with_columns l (Some (<[k := v]> (map_range m))).
Proof.
  unfold with_columns. rewrite reverse_cons, list_to_map_app, <-(assoc_L (∪)). f_equal. cbn. rewrite insert_empty.
  by rewrite <-insert_union_singleton_l.
Qed.

Section columns.
Context (kc : KT) (Hnull : tagMap kc = NullType) (names : gmap Z string).

Lemma ordinary_uint32 name isInt v j : is_one_of name special_names = false →
  uint32_custom kc name isInt v j = if isInt then j else put_int name (wraps 32 v) j.
Proof using Hnull.
  intros Hs. unfold special_names, is_one_of in Hs. cbn [existsb] in Hs.
  repeat (apply orb_false_iff in Hs as [? Hs]). unfold uint32_custom, is_one_of. cbn [existsb].
  repeat match goal with H : String.eqb name _ = false |- _ => rewrite H; clear H end. cbn [orb]. by rewrite Hnull.
Qed.

(** What one column does. *)
Lemma custom_field_column j c : let '(name, isInt) := custom_name kc names (Custom_Id c) in
  is_one_of name special_names = false →
  custom_field kc names j c =
    match column_of isInt (Custom_Value c) with
    | ColInt v => put_int name v j
    | ColBig v => put_big name v j
    | ColFloat f => put_float name f j
    | ColStr s => put_str name s j
    | ColNone => j
    end.
Proof using Hnull.
  destruct (custom_name kc names (Custom_Id c)) as [name isInt] eqn:E. intros Hs. unfold custom_field. rewrite E.
  destruct (Custom_Value c) as [v|v|v|v|v|[|b [|b' bs]]|]; try done.
  - rewrite ordinary_uint32 by done. by destruct isInt.
  - by rewrite Hnull.
Qed.

(** Without tags and special names, the custom columns of a message are in the map
    of their type under their names, each with the value of the last column of that
    name and type; a 32-bit column known only by number is dropped. *)
Theorem custom_columns l j :
  Forall (λ c, is_one_of (custom_name kc names (Custom_Id c)).1 special_names = false) l →
  let j' := custom_fields kc names l j in
  map_range (CustomInt j') = with_columns (columns as_int kc names l) (CustomInt j) ∧
  map_range (CustomBigInt j') = with_columns (columns as_big kc names l) (CustomBigInt j) ∧
  map_range (CustomFloat j') = with_columns (columns as_float kc names l) (CustomFloat j) ∧
  map_range (CustomStr j') = with_columns (columns as_str kc names l) (CustomStr j).
Proof using Hnull.
  intros Hf. unfold custom_fields. cbv zeta. revert j. induction Hf as [|c l Hc Hf IH]; intros j.
  { unfold columns. cbn [omap list_omap foldl]. by rewrite !with_columns_nil. }
  cbn [foldl]. destruct (IH (custom_field kc names j c)) as (E1 & E2 & E3 & E4). rewrite E1, E2, E3, E4. clear IH E1 E2 E3 E4.
  pose proof (custom_field_column j c) as Hone. unfold columns. cbn [omap list_omap].
  destruct (custom_name kc names (Custom_Id c)) as [name isInt]. rewrite (Hone Hc). clear Hone.
  destruct (column_of isInt (Custom_Value c)); cbn [as_int as_big as_float as_str fmap option_fmap option_map];
    rewrite ?with_columns_cons; done.
Qed.
End columns.

(** ** A flow from AWS *)

Definition ex_dev : Device :=
  {| D_Name := "edge1"; DeviceSubtype := "aws_subnet"; SendingIps := [Int2ip 167772161]; Site := Some "dc1";
     D_Customs := [mkColumn 301 "kt_aws_src_vpc_id"; mkColumn 302 "retries"; mkColumn 303 "kt_az_src_region"]; FullSite := None |}.
Definition ex_if : Interface :=
  {| Description := "eth0"; Alias := "uplink"; SnmpSpeedMbps := 1000; Address := "10.0.0.9"; I_Provider := ""; NetworkBoundary := "external";
     ConnectivityType := "transit" |}.
Definition ex_api : KentikApi := {|
  GetDevice cid did := if did =? 7 then Some ex_dev else None;
  GetInterface d p := if p =? 3 then Some ex_if else None;
  GetTest _ := None; GetAgent _ := None; GetAgentByIP _ := None |}.
Definition ex_kt : KT :=
  {| mapr := ∅; udrMapr := None; tagMap := NullType; tagMapCity := NullType; tagMapRegion := NullType; apic := ex_api;
     resolver := None; ic_tables := ic_init |}.
Definition ok_text (s : string) : text := (s, None).
Definition ex_chf (geo : Z) (customs : list Custom) : CHF :=
  {| c_DstAs := 64496; c_DstGeo := geo; c_DstGeoRegion := 0; c_DstGeoCity := 0; c_HeaderLen := 0; c_InBytes := 1500; c_InPkts := 1;
     c_InputPort := 3; c_IpSize := 0; c_L4DstPort := 443; c_L4SrcPort := 51000; c_OutputPort := 4; c_Protocol := 6;
     c_SampledPacketSize := 0; c_SrcAs := 64500; c_SrcGeo := 0; c_SrcGeoRegion := 0; c_SrcGeoCity := 0; c_TcpFlags := 2;
     c_Tos := 0; c_VlanIn := 0; c_VlanOut := 0; c_MplsType := 0; c_OutBytes := 0; c_OutPkts := 0; c_TcpRetransmit := 0;
     c_SampleRate := 10000; c_DeviceId := 7; c_SrcNextHopAs := 0; c_DstNextHopAs := 0; c_SrcSecondAsn := 0; c_DstSecondAsn := 0;
     c_SrcThirdAsn := 0; c_DstThirdAsn := 0; c_SrcEthMac := 0; c_DstEthMac := 0;
     c_SrcFlowTags := ok_text "prod"; c_DstFlowTags := ok_text ""; c_SrcBgpAsPath := ok_text "64500 3356";
     c_DstBgpAsPath := ok_text ""; c_SrcBgpCommunity := ok_text ""; c_DstBgpCommunity := ok_text "";
     c_Ipv4DstAddr := 167772162; c_Ipv4SrcAddr := 167772163; c_Ipv6DstAddr := []; c_Ipv6SrcAddr := [];
     c_SrcRoutePrefix := 0; c_DstRoutePrefix := 0; c_Ipv4SrcNextHop := 0; c_Ipv4DstNextHop := 0;
     c_Ipv6SrcNextHop := []; c_Ipv6DstNextHop := []; c_Custom := customs |}.
Definition ex_customs : list Custom :=
  [mkCustom 301 (StrVal "vpc-1"); mkCustom 302 (Uint32Val 4294967295); mkCustom 303 (StrVal "west"); mkCustom 9 (Uint16Val 5)].
Definition ex_src (geo : Z) : Flow := {| f_CompanyId := 10; f_CHF := ex_chf geo ex_customs; f_DeviceName := "d" |}.

#[export] Instance typed_dec j : Decision (typed j).
Proof.
  refine (cast_if (decide (Forall (λ wv, in_u wv.1 wv.2) (unsigned_fields j) ∧ Forall (λ wv, in_s wv.1 wv.2) (signed_fields j) ∧
    map_Forall (λ _ v, in_s 32 v) (map_range (CustomInt j)) ∧ map_Forall (λ _ v, in_s 64 v) (map_range (CustomBigInt j))))).
  - abstract (destruct_and?; by split).
  - abstract (intros [? ? ? ?]; tauto).
Defined.

Lemma ex_typed_api : typed_api ex_kt.
Proof. split; [|done|done]. intros d p i. cbn. destruct (p =? 3); [|done]. intros [= <-]. apply (bool_decide_unpack _). vm_compute. exact I. Qed.
Lemma ex_typed_flow geo : typed_flow (ex_src geo).
Proof. split; cbv zeta; apply (bool_decide_unpack _); vm_compute; exact I. Qed.

Lemma flowToJCHF_typed_witness : ∃ dst', flowToJCHF ex_kt NewJCHF (ex_src 21843) 1700000000 dst' ∧ typed dst'.
Proof.
  destruct (flowToJCHF_total ex_kt NewJCHF (ex_src 21843) 1700000000) as [dst' H]. exists dst'. split; [exact H|].
  refine (flowToJCHF_typed ex_kt NewJCHF (ex_src 21843) 1700000000 dst' _ (ex_typed_flow _) _ ex_typed_api H);
    apply (bool_decide_unpack _); vm_compute; exact I.
Defined.

Lemma flowToJCHF_message_witness : ∃ dst', flowToJCHF ex_kt (NewJCHF <| InBytes := 7 |> <| SrcAs := 1 |>) (ex_src 21843) 1700000000 dst' ∧
  InBytes dst' = 1500 ∧ SrcAs dst' = 64500 ∧ SrcAddr dst' = "10.0.0.3" ∧
  map_range (CustomStr dst') !! "dst_endpoint" = Some "10.0.0.2:443".
Proof.
  destruct (flowToJCHF_total ex_kt (NewJCHF <| InBytes := 7 |> <| SrcAs := 1 |>) (ex_src 21843) 1700000000) as [dst' H].
  exists dst'. split; [exact H|].
  destruct (flowToJCHF_message ex_kt (NewJCHF <| InBytes := 7 |> <| SrcAs := 1 |>) (ex_src 21843) 1700000000 dst' H) as (Hn & Hw & He & _ & Hd & _).
  specialize (He eq_refl). assert (DstAddr dst' = "10.0.0.2") as Ha by exact (f_equal (λ l, nth 3 l "") Hw). rewrite Hd, Ha.
  split_and!; [exact (f_equal (λ l, nth 2 l 0) Hn)|exact (f_equal (λ e, e.1.1) He)|exact (f_equal snd He)|reflexivity].
Defined.

(** The second flow has no country; it keeps that of the first one, and neither has the
    tags and paths of its message. *)
Lemma flowToJCHF_stale_witness : ∃ d1 d2, flowToJCHF ex_kt NewJCHF (ex_src 21843) 1700000000 d1 ∧
  flowToJCHF ex_kt (Reset d1) (ex_src 0) 1700000001 d2 ∧ texts d2 = texts NewJCHF ∧ DstGeo d2 = DstGeo d1.
Proof.
  destruct (flowToJCHF_total ex_kt NewJCHF (ex_src 21843) 1700000000) as [d1 H1].
  destruct (flowToJCHF_total ex_kt (Reset d1) (ex_src 0) 1700000001) as [d2 H2]. exists d1, d2.
  destruct (flowToJCHF_stale ex_kt NewJCHF (ex_src 21843) 1700000000 d1) as [E1 _]; [cbv zeta; repeat constructor|exact H1|].
  destruct (flowToJCHF_stale ex_kt (Reset d1) (ex_src 0) 1700000001 d2) as [E2 E3]; [cbv zeta; repeat constructor|exact H2|].
  specialize (E3 eq_refl eq_refl eq_refl). injection E3 as E3 _. rewrite E2. split_and!; [exact H1|exact H2|exact E1|exact E3].
Defined.

(** The columns of the example, and the one known only by number. *)
Lemma custom_columns_witness :
  let j := (address_fields ex_kt (ex_chf 0 []) (device_fields ex_kt (base_fields ex_kt NewJCHF (ex_src 0) 0)).1) in
  let names := (device_fields ex_kt (base_fields ex_kt NewJCHF (ex_src 0) 0)).2 in
  let j' := custom_fields ex_kt names ex_customs j in
  map_range (CustomInt j') = {["retries" := -1; "9" := 5]} ∧ map_range (CustomBigInt j') = ∅ ∧
  map_range (CustomStr j') !! "kt_aws_src_vpc_id" = Some "vpc-1".
Proof.
  cbv zeta. edestruct (custom_columns ex_kt eq_refl (device_fields ex_kt (base_fields ex_kt NewJCHF (ex_src 0) 0)).2 ex_customs
    (address_fields ex_kt (ex_chf 0 []) (device_fields ex_kt (base_fields ex_kt NewJCHF (ex_src 0) 0)).1)) as (E1 & E2 & _ & E4).
  - apply (bool_decide_unpack _). vm_compute. exact I.
  - rewrite E1, E2, E4. vm_compute. split_and!; reflexivity.
Defined.

(** The columns of AWS are remapped, those of Azure are dropped. *)
Definition ex_strings : gmap string string :=
  {["application_type" := "aws_subnet"; "kt_aws_src_vpc_id" := "vpc-1"; "kt_az_src_region" := "west"; "app" := "dns"]}.
Lemma remap_columns_witness : ∃ m, range id remap_body ex_strings m ∧
  m !! "source_vpc" = Some "vpc-1" ∧ m !! "kt_aws_src_vpc_id" = None ∧ m !! "kt_az_src_region" = None ∧ m !! "app" = Some "dns".
Proof.
  destruct (range_total id remap_body ex_strings) as [m H]. exists m. split; [exact H|].
  destruct (remap_columns ex_strings m H) as (H1 & H2 & H3 & _). split_and!.
  - apply (H3 "source_vpc" "kt_aws_src_vpc_id"); [done| |done|].
    + split; vm_compute; reflexivity.
    + intros k' Hs [_ Hm]. apply elem_of_dom in Hs. revert Hm.
      assert (k' = "application_type" ∨ k' = "kt_aws_src_vpc_id" ∨ k' = "kt_az_src_region" ∨ k' = "app") as [-> | [-> | [-> | ->]]]
        by (unfold ex_strings in Hs; rewrite !dom_insert_L, dom_singleton_L in Hs; set_solver); vm_compute; congruence.
  - apply H1; [|done]. apply (bool_decide_unpack _). vm_compute. exact I.
  - apply H1; [|done]. apply (bool_decide_unpack _). vm_compute. exact I.
  - rewrite H2; [done| |]; apply (bool_decide_unpack _); vm_compute; exact I.
Defined.
