(* ===== verification/Answers.v ===== *)
(** Filters and rollups that answer every flow of the service: no filter looks for a key
    in a map of a flow without naming one, no rollup sums more metrics than it has names.
    The rendering of a record that the service has used for nothing but flows has text
    and numbers in all other columns, whatever flows it was rendered from. *)
From S2P Require Import Prelude GoStrings Jchf Pipeline.
From S2P Require Filter Rollup.
Local Open Scope Z_scope.

(** ** Renderings *)

Definition map_columns : list string := ["custom_str"; "custom_int"; "custom_bigint"; "custom_float"].
Definition is_map (v : avro) : bool :=
  match v with AInt64 _ | AInt32 _ | AFloat32 _ | AString _ | AProvider _ => false | _ => true end.

(** Maps are in the columns of maps only. *)
Definition plain (m : gmap string avro) : Prop := map_Forall (λ k v, is_map v = true → k ∈ map_columns) m.
(** A rendering of a flow. *)
Record whole (m : gmap string avro) : Prop := {
  wh_plain : plain m;
  wh_rate : is_ok (Rollup.sample_rate m) = true;
  wh_provider : is_ok (Rollup.provider m) = true }.

(** A record of the pool that is in use. *)
Definition usable (j : JCHF) : Prop := ∃ m, avroSet j = Some m ∧ plain m ∧ (hasSetAvro j = true → whole m).
Definition clean (j : JCHF) : Prop := usable j ∧ hasSetAvro j = false.

Lemma rows_plain j m : plain m → plain (foldl (λ m kv, <[kv.1 := kv.2]> m) m (avro_rows j)).
Proof.
  assert (Forall (λ kv : string * avro, is_map kv.2 = true → kv.1 ∈ map_columns) (avro_rows j)) as Hr.
  { unfold avro_rows. repeat (apply Forall_cons; split); try (by intros [=]); [..|by apply Forall_nil];
      intros _; apply (bool_decide_unpack _); vm_compute; exact I. }
  revert m. induction Hr as [|[k v] l Hkv _ IH]; intros m Hm; [done|]. cbn [foldl]. apply IH. by apply map_Forall_insert_2.
Qed.

Lemma ToMap_usable j : usable j → ∃ j' m, ToMap j = Ok (j', m) ∧ whole m ∧ usable j'.
Proof.
  intros (m0 & Ha & Hp & Hw). destruct (hasSetAvro j) eqn:Es.
  - exists j, m0. unfold ToMap. rewrite Es, Ha. split_and!; [done|by apply Hw|]. exists m0. rewrite Es. by split_and!.
  - destruct (ToMap_lookup j m0 Es Ha) as (j' & m & E & Hm & _). exists j', m. split; [done|].
    assert (whole m) as Hwm.
    { split.
      - unfold ToMap in E. rewrite Es, Ha in E. revert E. pose proof (rows_plain j m0 Hp) as H. revert H.
        generalize (foldl (λ m kv, <[kv.1 := kv.2]> m) m0 (avro_rows j)). by intros m' H [= _ <-].
      - unfold Rollup.sample_rate. by rewrite (Hm "sample_rate" (AInt64 (wraps 64 (SampleRate j)))) by (unfold avro_rows; solve_row).
      - unfold Rollup.provider. by rewrite (Hm "provider" (AProvider (Provider j))) by (unfold avro_rows; solve_row). }
    split; [done|]. exists m. unfold ToMap in E. rewrite Es, Ha in E. revert E.
    generalize (foldl (λ m kv, <[kv.1 := kv.2]> m) m0 (avro_rows j)). intros m' [= <- <-]. split_and!; [done|apply Hwm|done].
Qed.

(** ** Filters *)

(** A filter that names a column, or an entry of one. *)
Definition filter_answers (f : Filter.Filter) : Prop :=
  match Filter.dims f with [] => False | [d] => d ∉ map_columns | _ => True end.
Definition wrappers_answer (fs : list Filter.FilterWrapper) : Prop := Forall (Forall filter_answers) fs.
#[export] Instance filter_answers_dec f : Decision (filter_answers f).
Proof. unfold filter_answers. destruct (Filter.dims f) as [|d [|]]; apply _. Defined.
#[export] Instance wrappers_answer_dec fs : Decision (wrappers_answer fs).
Proof. unfold wrappers_answer. apply _. Defined.

Lemma FilterMap_answers f m : filter_answers f → plain m → ∃ b, Filter.FilterMap f m = Ok b.
Proof.
  unfold filter_answers. intros Hf Hm. destruct (Filter.dims f) as [|d ds] eqn:Hd; [done|]. apply (Filter.FilterMap_total f m d ds Hd).
  intros (-> & v & Hv & Hk). apply Hf, (Hm d v Hv). by destruct f, v.
Qed.

Lemma Wrapper_Filter_usable w j : Forall filter_answers w → usable j → ∃ j' b, Filter.Wrapper_Filter w j = Ok (j', b) ∧ usable j'.
Proof.
  intros Hw. revert j. induction Hw as [|f w Hf _ IH]; intros j Hj; [by exists j, false|]. cbn [Filter.Wrapper_Filter].
  unfold Filter.Filter_JCHF. destruct (ToMap_usable j Hj) as (j1 & m & -> & Hm & Hj1). cbn [mbind res_bind].
  destruct (FilterMap_answers f m Hf (wh_plain m Hm)) as [[|] ->]; cbn [mbind res_bind]; [by exists j1, true|by apply IH].
Qed.
Lemma msg_passes_usable fs j : wrappers_answer fs → usable j → ∃ j' b, msg_passes fs j = Ok (j', b) ∧ usable j'.
Proof.
  intros Hf. revert j. induction Hf as [|w fs Hw _ IH]; intros j Hj; [by exists j, true|]. cbn [msg_passes].
  destruct (Wrapper_Filter_usable w j Hw Hj) as (j1 & [|] & -> & Hj1); cbn [mbind res_bind]; [by apply IH|by exists j1, false].
Qed.

Lemma Wrapper_FilterMap_answers w m : Forall filter_answers w → plain m → ∃ b, Filter.Wrapper_FilterMap w m = Ok b.
Proof.
  intros Hw Hm. induction Hw as [|f w Hf _ IH]; [by exists false|]. cbn [Filter.Wrapper_FilterMap].
  destruct (FilterMap_answers f m Hf Hm) as [[|] ->]; cbn [mbind res_bind]; [by exists true|exact IH].
Qed.

(** ** Rollups *)

(** The filters of a rollup answer, and it has a name for each sum. *)
Record rollup_answers (b : Rollup.rollupBase) : Prop := {
  ra_filters : wrappers_answer (Rollup.filters b);
  ra_names : if Rollup.splitMetrics b then (length (Rollup.metrics b) ≤ length (Rollup.nameSet b))%nat
             else (0 < length (Rollup.nameSet b))%nat }.

Section rollups.
Context (keepUndefined : bool).

Lemma base_filter_answers b l : wrappers_answer (Rollup.filters b) → Forall whole l →
  ∃ l', Rollup.base_filter b l = Ok l' ∧ Forall whole l'.
Proof.
  intros Hf. induction 1 as [|m l Hm _ (l' & E & IH)]; [by exists []|]. cbn [Rollup.base_filter].
  assert (∃ k, Rollup.passes (Rollup.filters b) m = Ok k) as [k ->].
  { clear E. induction Hf as [|w fs Hw _ IHf]; [by exists true|]. cbn [Rollup.passes].
    destruct (Wrapper_FilterMap_answers w m Hw (wh_plain m Hm)) as [[|] ->]; cbn [mbind res_bind]; [exact IHf|by exists false]. }
  cbn [mbind res_bind]. rewrite E. cbn [mbind res_bind]. destruct k; [exists (m :: l')|exists l']; split; try done. by constructor.
Qed.

Lemma add_at_ok i v row : (i < length row)%nat → ∃ row', Rollup.add_at i v row = Ok row' ∧ length row' = length row.
Proof.
  intros Hi. destruct (lookup_lt_is_Some_2 row i Hi) as [old E]. unfold Rollup.add_at, slice_get, slice_set. rewrite E. cbn [mbind res_bind].
  rewrite (proj2 (Nat.ltb_lt _ _) Hi). eexists. split; [done|]. apply length_insert.
Qed.
Lemma split_loop_ok r m sr i ms row value : (i + length ms ≤ length row)%nat → is_ok (Rollup.split_loop r m sr i ms row value) = true.
Proof.
  revert i row value. induction ms as [|x ms IH]; intros i row value; [done|]. cbn [length Rollup.split_loop]. intros Hl.
  destruct (add_at_ok i (Rollup.adjust r sr (Rollup.metric_value m x)) row) as (row' & -> & Hr); [lia|]. cbn [mbind res_bind]. apply IH. lia.
Qed.

Lemma addSum_flow_ok b acc m : rollup_answers b → whole m → Rollup.rows_ok b acc → is_ok (Rollup.addSum_flow keepUndefined b acc m) = true.
Proof.
  intros [_ Hn] [_ Hr Hp] Hok. unfold Rollup.addSum_flow. destruct (Rollup.sample_rate m) as [sr| | |]; try done. cbn [mbind res_bind].
  set (row := default _ _). assert (length row = length (Rollup.nameSet b)) as Hlen.
  { unfold row. destruct (Rollup.ss_sum acc !! _) eqn:E; cbn [default]; [by apply (Hok _ _ E)|by rewrite length_replicate]. }
  assert (is_ok (Rollup.add_row b m sr row) = true) as Ha.
  { unfold Rollup.add_row. destruct (Rollup.splitMetrics b); [apply split_loop_ok; lia|].
    destruct (add_at_ok 0 (Rollup.adjust b sr (Rollup.plain_value b m)) row) as (row' & -> & _); [lia|done]. }
  destruct (Rollup.add_row b m sr row) as [[row' value]| | |]; try done. cbn [mbind res_bind]. by destruct (Rollup.provider m).
Qed.

Lemma Add_answers l s : rollup_answers (Rollup.base s) → Forall whole l →
  ∃ s', Rollup.Add keepUndefined l s = Ok s' ∧ Rollup.base s' = Rollup.base s.
Proof.
  intros Hb Hl. unfold Rollup.Add, Rollup.filtered.
  assert (∃ l', (if Rollup.hasFilters (Rollup.base s) then Rollup.base_filter (Rollup.base s) l else Ok l) = Ok l' ∧ Forall whole l') as (l' & -> & Hl').
  { destruct (Rollup.hasFilters _); [by apply base_filter_answers; [apply Hb|]|by exists l]. }
  cbn [mbind res_bind]. assert (is_ok (Rollup.addSum keepUndefined (Rollup.base s) l') = true) as Ha.
  { unfold Rollup.addSum. assert (Rollup.rows_ok (Rollup.base s) Rollup.sumset_zero) as H0 by apply map_Forall_empty. revert H0.
    generalize Rollup.sumset_zero. induction Hl' as [|m l' Hm _ IH]; intros acc Hok; [done|]. cbn [Rollup.addSum_loop].
    pose proof (addSum_flow_ok _ acc m Hb Hm Hok) as Hf. destruct (Rollup.addSum_flow _ _ acc m) as [acc'| | |] eqn:E; try done. cbn [mbind res_bind].
    apply IH. by eapply Rollup.addSum_flow_inv. }
  destruct (Rollup.addSum _ _ l'); try done. by eexists.
Qed.

Lemma rollups_answer rv rolls : Forall (rollup_answers ∘ Rollup.base) rolls → Forall whole rv →
  ∃ rolls', res_mapM (Rollup.Add keepUndefined rv) rolls = Ok rolls' ∧ Rollup.base <$> rolls' = Rollup.base <$> rolls.
Proof.
  intros Hr Hv. induction Hr as [|s rolls Hs _ (rolls' & E & IH)]; [by exists []|]. cbn [res_mapM].
  destruct (Add_answers rv s Hs Hv) as (s' & -> & Hb). cbn [mbind res_bind]. rewrite E. cbn [mbind res_bind]. eexists. split; [done|].
  cbn [fmap list_fmap]. by rewrite Hb, IH.
Qed.
End rollups.

Lemma to_maps_usable l : Forall usable l → ∃ l' rv, to_maps l = Ok (l', rv) ∧ Forall usable l' ∧ Forall whole rv.
Proof.
  induction 1 as [|j l Hj _ (l' & rv & E & H1 & H2)]; [by exists [], []|]. cbn [to_maps].
  destruct (ToMap_usable j Hj) as (j' & m & -> & Hm & Hj'). cbn [mbind res_bind]. rewrite E. cbn [mbind res_bind].
  eexists _, _. split; [done|]. split; by constructor.
Qed.

(** ** Records given back *)

Lemma usable_rate rate j : usable j → usable (scale_rate rate j).
Proof. intros (m & H). by exists m. Qed.
Lemma Reset_clean j : usable j → clean (Reset j).
Proof. intros (m & Ha & Hp & _). split; [|done]. exists m. by split_and!. Qed.
Lemma New_clean : clean NewJCHF.
Proof. split; [|done]. exists ∅. split_and!; [done|apply map_Forall_empty|done]. Qed.
