(* ===== verification/AlphaChan.v ===== *)
(** The workers that convert Kentik flows (src/pkg/cat/kentik.go).

    A worker owns two bounded channels: the flows that arrived and a pool of flow
    records that are used again and again.  The steps below are what happens to one
    worker; arrivals come from any number of HTTP handlers, so they interleave freely
    with the worker's own steps.  Nothing enriches flows in the service modelled. *)
From S2P Require Import Prelude GoStrings Jchf GoMap FlowToJCHF Pipeline Answers.
From S2P Require Filter Rollup.
Local Open Scope Z_scope.

Definition CHAN_SLACK : nat := Z.to_nat 8000.

Record worker := mkWorker {
  alpha : list Flow;              (* [kc.alphaChans[i]] *)
  pool : list JCHF;               (* [kc.jchfChans[i]] *)
  msgs : list JCHF;               (* the batch *)
  sent : list (list JCHF);        (* what the encoder was given, in order *)
  rolls : list Rollup.StatsRollup;
  clock : Z;                      (* [currentTime] *)
  arrived : nat;                  (* flows decoded from requests *)
  dropped : nat;                  (* flows counted as dropped *)
  tossed : nat;                   (* flows a filter refused *)
  json_sent : nat;                (* JSON bodies encoded *)
  json_dropped : nat;             (* JSON bodies counted as dropped *)
  FlowsOut : list nat;            (* what the meter of that name is told: the sizes of the batches *)
  json_lost : nat }.              (* records that JSON bodies took out of the pool for good *)

(** The worker [NewKTranslate] makes. *)
Definition new_worker (kc : KTranslate) (now : Z) : worker :=
  {| alpha := []; pool := replicate CHAN_SLACK NewJCHF; msgs := []; sent := []; rolls := rollups kc; clock := now;
     arrived := 0; dropped := 0; tossed := 0; json_sent := 0; json_dropped := 0; FlowsOut := []; json_lost := 0 |}.

Definition set_queues (a : list Flow) (p m : list JCHF) (w : worker) : worker :=
  {| alpha := a; pool := p; msgs := m; sent := sent w; rolls := rolls w; clock := clock w; arrived := arrived w;
     dropped := dropped w; tossed := tossed w; json_sent := json_sent w;
     json_dropped := json_dropped w; FlowsOut := FlowsOut w; json_lost := json_lost w |}.
Definition set_sent (s : list (list JCHF)) (r : list Rollup.StatsRollup) (w : worker) : worker :=
  {| alpha := alpha w; pool := pool w; msgs := msgs w; sent := s; rolls := r; clock := clock w; arrived := arrived w;
     dropped := dropped w; tossed := tossed w; json_sent := json_sent w;
     json_dropped := json_dropped w; FlowsOut := FlowsOut w; json_lost := json_lost w |}.
Definition set_clock (now : Z) (w : worker) : worker :=
  {| alpha := alpha w; pool := pool w; msgs := msgs w; sent := sent w; rolls := rolls w; clock := now; arrived := arrived w;
     dropped := dropped w; tossed := tossed w; json_sent := json_sent w;
     json_dropped := json_dropped w; FlowsOut := FlowsOut w; json_lost := json_lost w |}.
Definition mark_out (n : nat) (w : worker) : worker :=
  {| alpha := alpha w; pool := pool w; msgs := msgs w; sent := sent w; rolls := rolls w; clock := clock w; arrived := arrived w;
     dropped := dropped w; tossed := tossed w; json_sent := json_sent w;
     json_dropped := json_dropped w; FlowsOut := FlowsOut w ++ [n]; json_lost := json_lost w |}.
(** Counters: [a] more arrived, [d] dropped, [t] tossed; [j] JSON bodies sent, [jd]
    dropped, [l] records lost. *)
Definition tally (a d t j jd l : nat) (w : worker) : worker :=
  {| alpha := alpha w; pool := pool w; msgs := msgs w; sent := sent w; rolls := rolls w; clock := clock w;
     arrived := arrived w + a; dropped := dropped w + d; tossed := tossed w + t; json_sent := json_sent w + j;
     json_dropped := json_dropped w + jd; FlowsOut := FlowsOut w; json_lost := json_lost w + l |}.

(** Kept flows by company; the map's order is left open. *)
Definition split_step (splits : gmap Z (list JCHF)) (msg : JCHF) : gmap Z (list JCHF) :=
  <[CompanyId msg := default [] (splits !! CompanyId msg) ++ [msg]]> splits.
Definition splits (kept : list JCHF) : gmap Z (list JCHF) := foldl split_step ∅ kept.

(** The flows of the batch and how many of them are kept. *)
Definition alpha_sample (shuffle : list JCHF → list JCHF) (kc : KTranslate) (l : list JCHF) : list JCHF * Z :=
  let keep := Z.of_nat (length l) in
  if (1 <? SampleRate_ kc) && (SampleMin kc <? keep)
  then (scale_rate (SampleRate_ kc) <$> shuffle l, Z.max (keep / SampleRate_ kc) 1)
  else (l, keep).

Section worker.
Context (kt : KT) (kc : KTranslate) (keepUndefined : bool).

(** [sendBytesOn()]. *)
Definition sendBytesOn (w w' : worker) : Prop :=
  if decide (msgs w = []) then w' = w
  else ∃ l1 rolls' l2 out shuffle,
    (∀ l, shuffle l ≡ₚ l) ∧
    (if doRollups kc then
       '(l, rv) ← to_maps (msgs w); r ← res_mapM (Rollup.Add keepUndefined rv) (rolls w); Ok (l, r)
     else Ok (msgs w, rolls w)) = Ok (l1, rolls') ∧
    (if negb (doRollups kc) || RollupAndAlpha kc then
       ∃ keep order, alpha_sample shuffle kc l1 = (l2, keep) ∧
         order ≡ₚ map_to_list (splits (take (Z.to_nat keep) l2)) ∧ out = order.*2
     else l2 = l1 ∧ out = []) ∧
    w' = mark_out (length l2) (set_queues (alpha w) (pool w ++ (Reset <$> l2)) [] (set_sent (sent w ++ out) rolls' w)).

(** What the worker does: it takes a flow, or its timer fires. *)
Inductive work : worker → worker → Prop :=
| work_keep w f a j p j1 j2 w' :
    alpha w = f :: a → pool w = j :: p → flowToJCHF kt j f (clock w) j1 → msg_passes (filters kc) j1 = Ok (j2, true) →
    (let w1 := set_queues a p (msgs w ++ [j2]) w in
     if MaxFlowsPerMessage kc <=? Z.of_nat (length (msgs w1)) then sendBytesOn w1 w' else w' = w1) →
    work w w'
| work_toss w f a j p j1 j2 :
    alpha w = f :: a → pool w = j :: p → flowToJCHF kt j f (clock w) j1 → msg_passes (filters kc) j1 = Ok (j2, false) →
    work w (tally 0 0 1 0 0 0 (set_queues a (p ++ [Reset j2]) (msgs w) w))
| work_empty w f a w1 :
    alpha w = f :: a → pool w = [] → sendBytesOn (set_queues a [] (msgs w) w) w1 →
    work w (if (length (alpha w1) <? CHAN_SLACK)%nat then set_queues (alpha w1 ++ [f]) (pool w1) (msgs w1) w1
            else tally 0 1 0 0 0 0 w1).

Inductive tick : worker → worker → Prop :=
| tick_send w now w' : sendBytesOn w w' → tick w (set_clock now w').

(** What happens around it: requests with flows, and with JSON ([handleJson], which
    uses the pool of the first worker). *)
Inductive request : worker → worker → Prop :=
| request_flow w f :
    request w (tally 1 (if (length (alpha w) <? CHAN_SLACK)%nat then 0 else 1) 0 0 0 0
      (if (length (alpha w) <? CHAN_SLACK)%nat then set_queues (alpha w ++ [f]) (pool w) (msgs w) w else w))
| request_json w j p fill :
    (* only the exported fields of the record are written *)
    pool w = j :: p → rendering (fill j) = rendering j →
    request w (tally 0 0 0 1 0 0 (set_queues (alpha w) (p ++ [Reset (fill j)]) (msgs w) (set_sent (sent w ++ [[fill j]]) (rolls w) w)))
| request_bad_json w j p :
    pool w = j :: p → request w (tally 0 0 0 0 0 1 (set_queues (alpha w) p (msgs w) w))
| request_json_dropped w : pool w = [] → request w (tally 0 0 0 0 1 0 w).

Inductive reach (now : Z) : worker → Prop :=
| reach_new : reach now (new_worker kc now)
| reach_work w w' : reach now w → work w w' → reach now w'
| reach_tick w w' : reach now w → tick w w' → reach now w'
| reach_request w w' : reach now w → request w w' → reach now w'.
End worker.

(** Fields of a worker after assignments. *)
Tactic Notation "worker_simpl" :=
  cbn [tally set_queues set_sent set_clock mark_out alpha pool msgs sent rolls clock arrived dropped tossed json_sent json_dropped FlowsOut json_lost length].
Tactic Notation "worker_simpl" "in" "*" :=
  cbn [tally set_queues set_sent set_clock mark_out alpha pool msgs sent rolls clock arrived dropped tossed json_sent json_dropped FlowsOut json_lost length] in *.

(** ** Batches by company *)

Definition flat (s : gmap Z (list JCHF)) : list JCHF := concat (map_to_list s).*2.

Lemma flat_step s m : flat (split_step s m) ≡ₚ m :: flat s.
Proof.
  unfold flat, split_step. destruct (s !! CompanyId m) as [l|] eqn:E; cbn [default from_option].
  - rewrite <-insert_delete_eq, map_to_list_insert by apply lookup_delete_eq. rewrite <-(map_to_list_delete s _ _ E).
    cbn [fmap list_fmap snd concat]. rewrite <-!app_assoc. cbn [app]. by rewrite Permutation_middle.
  - rewrite map_to_list_insert by done. done.
Qed.

Lemma splits_perm l : flat (splits l) ≡ₚ l.
Proof.
  unfold splits. assert (∀ s, flat (foldl split_step s l) ≡ₚ l ++ flat s) as H.
  { induction l as [|m l IH]; intros s; [done|]. cbn [foldl app]. rewrite IH, flat_step. symmetry. apply Permutation_middle. }
  rewrite H. unfold flat at 1. by rewrite map_to_list_empty, app_nil_r.
Qed.

(** A batch has flows, and all of one company. *)
Definition one_company (l : list JCHF) : Prop := l ≠ [] ∧ ∃ c, Forall (λ m, CompanyId m = c) l.

Lemma splits_company l : map_Forall (λ c k, k ≠ [] ∧ Forall (λ m, CompanyId m = c) k) (splits l).
Proof.
  unfold splits. assert (map_Forall (λ c k, k ≠ [] ∧ Forall (λ m, CompanyId m = c) k) (∅ : gmap Z (list JCHF))) as H0 by apply map_Forall_empty.
  revert H0. generalize (∅ : gmap Z (list JCHF)). induction l as [|m l IH]; intros s Hs; [done|]. cbn [foldl]. apply IH.
  apply map_Forall_insert_2; [|done]. split; [by destruct (default [] _)|]. apply Forall_app. split; [|by constructor].
  destruct (s !! CompanyId m) as [k|] eqn:E; cbn [default from_option]; [by apply (Hs _ _ E)|constructor].
Qed.

Lemma split_lists l order : order ≡ₚ map_to_list (splits l) → concat order.*2 ≡ₚ l ∧ Forall one_company order.*2.
Proof.
  intros Ho. split.
  - rewrite <-(splits_perm l). unfold flat. by rewrite Ho.
  - apply Forall_forall. intros k ((c & k') & -> & Hin)%list_elem_of_fmap. rewrite Ho, elem_of_map_to_list in Hin.
    destruct (splits_company l c k' Hin). split; [done|]. by exists c.
Qed.

(** ** Sending a batch *)

Lemma to_maps_length l l' rv : to_maps l = Ok (l', rv) → length l' = length l.
Proof.
  revert l' rv. induction l as [|m l IH]; intros l' rv; [by intros [= <- _]|]. cbn [to_maps].
  destruct (ToMap m) as [[m' mm]| | |]; try done. cbn [mbind res_bind]. destruct (to_maps l) as [[k rv']| | |]; try done.
  cbn [mbind res_bind]. intros [= <- <-]. cbn. f_equal. by eapply IH.
Qed.

Lemma alpha_sample_length shuffle kc l : (∀ l, shuffle l ≡ₚ l) → length (alpha_sample shuffle kc l).1 = length l.
Proof. intros Hs. unfold alpha_sample. destruct (_ && _); [|done]. cbn [fst]. by rewrite length_fmap, Hs. Qed.

Lemma total_perm (k l : list JCHF) : k ≡ₚ l → length k = length l.
Proof. by intros ->. Qed.

Section laws.
Context (kt : KT) (kc : KTranslate) (keepUndefined : bool).
Abbreviation send := (sendBytesOn kc keepUndefined).

(** How many flows of a batch of [n] are encoded. *)
Definition encoded (n : nat) : nat :=
  if doRollups kc && negb (RollupAndAlpha kc) then 0
  else if (1 <? SampleRate_ kc) && (SampleMin kc <? Z.of_nat n) then Z.to_nat (Z.max (Z.of_nat n / SampleRate_ kc) 1) else n.

Lemma sampled_length shuffle l1 l2 out : (∀ l, shuffle l ≡ₚ l) → l1 ≠ [] →
  (∃ keep order, alpha_sample shuffle kc l1 = (l2, keep) ∧ order ≡ₚ map_to_list (splits (take (Z.to_nat keep) l2)) ∧ out = order.*2) →
  length (concat out) =
    if (1 <? SampleRate_ kc) && (SampleMin kc <? Z.of_nat (length l1)) then Z.to_nat (Z.max (Z.of_nat (length l1) / SampleRate_ kc) 1) else length l1.
Proof.
  intros Hs Hne (keep & order & Hk & Ho & ->). apply split_lists in Ho as [Hp _]. rewrite (total_perm _ _ Hp). unfold alpha_sample in Hk.
  assert (0 < length l1)%nat as Hl by (destruct l1; [done|cbn; lia]).
  destruct (Z.ltb_spec 1 (SampleRate_ kc)) as [Hr|_]; cbn [andb] in *; [|injection Hk as <- <-; by rewrite Nat2Z.id, firstn_all].
  destruct (_ <? _); injection Hk as <- <-; [|by rewrite Nat2Z.id, firstn_all].
  rewrite length_take, length_fmap, Hs.
  pose proof (Z.div_le_upper_bound (Z.of_nat (length l1)) (SampleRate_ kc) (Z.of_nat (length l1)) ltac:(lia) ltac:(nia)). lia.
Qed.

(** What a send leaves as it was, the records it gives back, the batches it hands out. *)
Record sends (w w' : worker) (out : list (list JCHF)) : Prop := {
  se_alpha : alpha w' = alpha w;
  se_msgs : msgs w' = [];
  se_pool : length (pool w') = (length (pool w) + length (msgs w))%nat;
  se_arrived : arrived w' = arrived w;
  se_dropped : dropped w' = dropped w;
  se_tossed : tossed w' = tossed w;
  se_json : json_sent w' = json_sent w;
  se_lost : json_lost w' = json_lost w;
  se_sent : sent w' = sent w ++ out;
  se_company : Forall one_company out;
  se_out : FlowsOut w' = FlowsOut w ++ (if decide (msgs w = []) then [] else [length (msgs w)]);
  se_all : length (concat out) = if decide (msgs w = []) then 0%nat else encoded (length (msgs w)) }.

Lemma send_effect w w' : send w w' → ∃ out, sends w w' out.
Proof.
  unfold sendBytesOn. destruct (decide (msgs w = [])) as [Hm|Hm].
  { intros ->. exists []. split; by rewrite ?decide_True, ?Hm, ?app_nil_r by done. }
  intros (l1 & rolls' & l2 & out & shuffle & Hs & H1 & H2 & ->).
  assert (length l1 = length (msgs w)) as E1.
  { destruct (doRollups kc); [|by injection H1 as <- _]. destruct (to_maps (msgs w)) as [[l rv]| | |] eqn:E; try done.
    cbn [mbind res_bind] in H1. destruct (res_mapM _ _); try done. injection H1 as <- _. by eapply to_maps_length. }
  assert (length l2 = length l1) as E2.
  { destruct (_ || _); [|by destruct H2 as [-> _]]. destruct H2 as (keep & order & Hk & _).
    by rewrite <-(alpha_sample_length shuffle kc l1 Hs), Hk. }
  exists out. split; try done; worker_simpl.
  - rewrite length_app, length_fmap. lia.
  - destruct (_ || _); [|destruct H2 as [_ ->]; done]. destruct H2 as (keep & order & _ & Ho & ->). by apply split_lists in Ho as [_ ?].
  - by rewrite decide_False, E2, E1 by done.
  - rewrite decide_False by done. unfold encoded. destruct (doRollups kc), (RollupAndAlpha kc); cbn [negb orb andb] in *;
      try (destruct H2 as [_ ->]; done); (rewrite <-E1; apply (sampled_length shuffle l1 l2); [done| |done]; intros ->; cbn [length] in E1; by destruct (msgs w)).
Qed.

(** The filters and rollups of the service answer every flow. *)
Record serviceable : Prop := {
  sv_filters : wrappers_answer (filters kc);
  sv_rollups : Forall (rollup_answers ∘ Rollup.base) (rollups kc) }.
(** The records of a worker that has rendered only flows. *)
Record ready (w : worker) : Prop := {
  re_pool : Forall clean (pool w);
  re_msgs : Forall usable (msgs w);
  re_rolls : Forall (rollup_answers ∘ Rollup.base) (rolls w) }.

(** What is added to the rollups of a batch. *)
Lemma roll_stage w : ready w → ∃ l r,
  (if doRollups kc then
     '(l, rv) ← to_maps (msgs w); r ← res_mapM (Rollup.Add keepUndefined rv) (rolls w); Ok (l, r)
   else Ok (msgs w, rolls w)) = Ok (l, r) ∧ Forall usable l ∧ Rollup.base <$> r = Rollup.base <$> rolls w.
Proof.
  intros [_ Hm Hr]. destruct (doRollups kc); [|by exists (msgs w), (rolls w)].
  destruct (to_maps_usable _ Hm) as (l & rv & -> & Hl & Hv). cbn [mbind res_bind].
  destruct (rollups_answer keepUndefined rv _ Hr Hv) as (r & -> & Hb). by exists l, r.
Qed.

Lemma sample_usable shuffle l : (∀ l, shuffle l ≡ₚ l) → Forall usable l → Forall usable (alpha_sample shuffle kc l).1.
Proof.
  intros Hs Hl. unfold alpha_sample. destruct (_ && _); [|done]. cbn [fst]. apply Forall_fmap. rewrite Hs. eapply Forall_impl; [exact Hl|].
  intros j. apply usable_rate.
Qed.

Lemma ready_send w w' : ready w → send w w' → ready w'.
Proof.
  intros Hw. unfold sendBytesOn. destruct (decide (msgs w = [])) as [|_]; [by intros ->|].
  intros (l1 & rolls' & l2 & out & shuffle & Hs & H1 & H2 & ->). destruct (roll_stage w Hw) as (l & r & E & Hl & Hb). rewrite E in H1. simplify_eq.
  assert (Forall usable l2) as Hl2.
  { destruct (_ || _); [|by destruct H2 as [-> _]]. destruct H2 as (keep & order & Hk & _). pose proof (sample_usable shuffle l1 Hs Hl) as H. by rewrite Hk in H. }
  destruct Hw as [Hp _ Hr]. split; worker_simpl; [|done|].
  - apply Forall_app. split; [done|]. apply Forall_fmap. eapply Forall_impl; [exact Hl2|]. apply Reset_clean.
  - apply Forall_fmap. rewrite Hb. by apply Forall_fmap.
Qed.

(** A send is always possible. *)
Lemma send_total w : ready w → ∃ w', send w w'.
Proof.
  intros Hw. unfold sendBytesOn. destruct (decide (msgs w = [])); [by exists w|]. destruct (roll_stage w Hw) as (l & r & E & _).
  destruct (negb (doRollups kc) || RollupAndAlpha kc); [destruct (alpha_sample id kc l) as [l2 keep] eqn:Ek; eexists _, l, r, l2, _, id|
    eexists _, l, r, l, _, id]; (split; [done|]); (split; [exact E|]); (split; [|done]); [|done].
  by exists keep, (map_to_list (splits (take (Z.to_nat keep) l2))).
Qed.

Abbreviation works := (work kt kc keepUndefined).
Abbreviation ticks := (tick kc keepUndefined).
Definition step (w w' : worker) : Prop := works w w' ∨ ticks w w' ∨ request w w'.

Lemma reach_step now w w' : reach kt kc keepUndefined now w → step w w' → reach kt kc keepUndefined now w'.
Proof. intros Hr [H|[H|H]]; [by eapply reach_work|by eapply reach_tick|by eapply reach_request]. Qed.

(** An invariant of new workers and steps. *)
Lemma reach_inv (I : worker → Prop) now : I (new_worker kc now) → (∀ w w', I w → step w w' → I w') →
  ∀ w, reach kt kc keepUndefined now w → I w.
Proof. intros H0 Hs w. unfold step in Hs. induction 1; eauto. Qed.

Lemma flow_ready j f now j1 : clean j → flowToJCHF kt j f now j1 → usable j1.
Proof. intros [(m & Ha & Hp & _) Hs] Hf. injection (flowToJCHF_rendering _ _ _ _ _ Hf) as E1 E2. exists m. rewrite E1, E2, Hs. by split_and!. Qed.

Lemma ready_step w w' : serviceable → ready w → step w w' → ready w'.
Proof.
  intros [Hf _] Hw H. assert (∀ j j1 j2 b f p, pool w = j :: p → flowToJCHF kt j f (clock w) j1 → msg_passes (filters kc) j1 = Ok (j2, b) →
    Forall clean p ∧ usable j2) as Hflow.
  { intros j j1 j2 b f p Ep Hj Hp. destruct Hw as [Hc _ _]. rewrite Ep in Hc. apply Forall_cons in Hc as [Hc ?].
    destruct (msg_passes_usable (filters kc) j1 Hf (flow_ready _ _ _ _ Hc Hj)) as (j' & b' & E & Hu). rewrite E in Hp. by simplify_eq. }
  destruct H as [H|[H|H]].
  - destruct H as [w f a j p j1 j2 w' Ea Ep Hj Hp Hs|w f a j p j1 j2 Ea Ep Hj Hp|w f a w1 Ea Ep Hs].
    + destruct (Hflow _ _ _ _ _ _ Ep Hj Hp) as [Hc Hu]. destruct Hw as [_ Hm Hr]. cbv zeta in Hs.
      assert (ready (set_queues a p (msgs w ++ [j2]) w)) as Hw by (split; worker_simpl; [done|by apply Forall_app; split; [|constructor]|done]).
      destruct (_ <=? _); [by eapply ready_send|by rewrite Hs].
    + destruct (Hflow _ _ _ _ _ _ Ep Hj Hp) as [Hc Hu]. destruct Hw as [_ Hm Hr]. split; worker_simpl; [|done|done].
      apply Forall_app. split; [done|]. constructor; [by apply Reset_clean|done].
    + assert (ready (set_queues a [] (msgs w) w)) as Hw1 by (destruct Hw; by split).
      destruct (ready_send _ _ Hw1 Hs). destruct (Nat.ltb _ _); by split.
  - destruct H as [w now w' Hs]. destruct (ready_send _ _ Hw Hs). by split.
  - destruct Hw as [Hc Hm Hr]. destruct H as [w f|w j p fill Ep Hfill|w j p Ep|w Ep]; [destruct (Nat.ltb _ _); by split| | |by split].
    + rewrite Ep in Hc. apply Forall_cons in Hc as [[(m & Ha & Hp & _) Hs] Hc]. split; worker_simpl; [|done|done]. apply Forall_app. split; [done|].
      constructor; [|done]. apply Reset_clean. injection Hfill as E1 E2. exists m. rewrite E1, E2, Hs. by split_and!.
    + rewrite Ep in Hc. apply Forall_cons in Hc as [_ Hc]. by split.
Qed.

Lemma reach_ready now w : serviceable → reach kt kc keepUndefined now w → ready w.
Proof.
  intros Hs. apply (reach_inv ready); [|by intros; eapply ready_step]. split; cbn [new_worker pool msgs rolls]; [|done|apply Hs].
  apply Forall_replicate, New_clean.
Qed.

(** *** The pool *)

Record balanced (w : worker) : Prop := {
  ba_pool : (length (pool w) + length (msgs w) + json_lost w = CHAN_SLACK)%nat;
  ba_alpha : (length (alpha w) ≤ CHAN_SLACK)%nat }.

Lemma balanced_send w w' : balanced w → send w w' → balanced w'.
Proof. intros [H1 H2] (out & Hs)%send_effect. destruct Hs. split; rewrite ?se_alpha0, ?se_msgs0; cbn [length]; lia. Qed.

Lemma balanced_step w w' : balanced w → step w w' → balanced w'.
Proof.
  intros Hb [H|[H|H]].
  - destruct H as [w f a j p j1 j2 w' Ea Ep _ _ Hs|w f a j p j1 j2 Ea Ep _ _|w f a w1 Ea Ep Hs]; destruct Hb as [H1 H2];
      rewrite Ea, Ep in *; cbn [length] in *.
    + assert (balanced (set_queues a p (msgs w ++ [j2]) w)) as Hb by (split; worker_simpl; rewrite ?length_app; cbn [length]; lia).
      cbv zeta in Hs. destruct (_ <=? _); [by eapply balanced_send|by rewrite Hs].
    + split; worker_simpl; rewrite ?length_app; cbn [length]; lia.
    + assert (balanced w1) as [H3 H4].
      { eapply balanced_send; [|exact Hs]. split; worker_simpl; lia. }
      destruct (Nat.ltb_spec (length (alpha w1)) CHAN_SLACK).
      * split; worker_simpl; rewrite ?length_app; cbn [length]; lia.
      * split; worker_simpl; lia.
  - destruct H as [w now w' Hs]. destruct (balanced_send w w' Hb Hs). by split.
  - destruct Hb as [H1 H2]. destruct H as [w f|w j p fill Ep _|w j p Ep|w Ep]; rewrite ?Ep in *; cbn [length] in *.
    + destruct (Nat.ltb_spec (length (alpha w)) CHAN_SLACK); split; worker_simpl;
        rewrite ?length_app; cbn [length]; lia.
    + split; worker_simpl; rewrite ?length_app; cbn [length]; lia.
    + split; worker_simpl; lia.
    + split; worker_simpl; rewrite ?Ep; cbn [length]; lia.
Qed.

Lemma new_balanced now : balanced (new_worker kc now).
Proof. split; cbn [new_worker pool msgs json_lost alpha]; rewrite ?length_replicate; cbn [length]; lia. Qed.

(** C8: Records of the pool are neither lost nor duplicated by the worker: in any state
    the pool, the batch and the records lost to unparsable JSON add up to the size of
    the pool, so giving records back never blocks, and the queue of flows stays within
    its channel. *)
Theorem pool_conserved now w : reach kt kc keepUndefined now w →
  (length (pool w) + length (msgs w) + json_lost w = CHAN_SLACK)%nat ∧ (length (alpha w) ≤ CHAN_SLACK)%nat.
Proof.
  intros Hr. destruct (reach_inv balanced now) with (w := w) as [H1 H2]; [apply new_balanced|exact balanced_step|exact Hr|done].
Qed.

(** *** What is sent *)

(** Every flow that arrived is somewhere, batches have one company, and of the batches
    that went out as many flows are encoded as sampling keeps. *)
Record accounted (w : worker) : Prop := {
  ac_company : Forall one_company (sent w);
  ac_flows : (arrived w = length (alpha w) + length (msgs w) + dropped w + tossed w + sum_list (FlowsOut w))%nat;
  ac_sent : (length (concat (sent w)) = json_sent w + sum_list (encoded <$> FlowsOut w))%nat }.

Lemma accounted_send w w' : accounted w → send w w' → accounted w'.
Proof.
  intros [H1 H2 H3] (out & Hs)%send_effect. destruct Hs. split.
  - rewrite se_sent0. by apply Forall_app.
  - rewrite se_alpha0, se_msgs0, se_arrived0, se_dropped0, se_tossed0, se_out0, sum_list_with_app.
    destruct (decide _) as [Em|_]; [rewrite Em in H2|]; cbn [length sum_list_with id] in *; lia.
  - rewrite se_sent0, se_json0, se_out0, concat_app, length_app, fmap_app, sum_list_with_app, se_all0.
    destruct (decide _); cbn [fmap list_fmap sum_list_with id]; lia.
Qed.

Lemma accounted_step w w' : accounted w → step w w' → accounted w'.
Proof.
  intros Ha [H|[H|H]].
  - destruct H as [w f a j p j1 j2 w' Ea Ep _ _ Hs|w f a j p j1 j2 Ea Ep _ _|w f a w1 Ea Ep Hs].
    + assert (accounted (set_queues a p (msgs w ++ [j2]) w)) as Ha'.
      { destruct Ha as [H1 H2 H3]. rewrite Ea in H2. split; worker_simpl; [done| |done]. rewrite length_app. cbn [length] in *. lia. }
      cbv zeta in Hs. destruct (_ <=? _); [by eapply accounted_send|by rewrite Hs].
    + destruct Ha as [H1 H2 H3]. rewrite Ea in H2. split; worker_simpl; [done|cbn [length] in *; lia|lia].
    + (* the flow in hand is as good as dropped until it is back *)
      assert (accounted (tally 0 1 0 0 0 0 w1)) as [H1 H2 H3].
      { apply (accounted_send (tally 0 1 0 0 0 0 (set_queues a [] (msgs w) w))).
        - destruct Ha as [H1 H2 H3]. rewrite Ea in H2. split; worker_simpl; [done|cbn [length] in *; lia|lia].
        - revert Hs. unfold sendBytesOn. worker_simpl. destruct (decide _); [by intros ->|].
          intros (l1 & r & l2 & out & sh & Hp & E1 & E2 & ->). exists l1, r, l2, out, sh. by split_and!. }
      revert H1 H2 H3. worker_simpl. intros H1 H2 H3. destruct (Nat.ltb _ _); split; worker_simpl; rewrite ?length_app; cbn [length]; done || lia.
  - destruct H as [w now w' Hs]. destruct (accounted_send w w' Ha Hs). by split.
  - destruct Ha as [H1 H2 H3]. destruct H as [w f|w j p fill Ep _|w j p Ep|w Ep].
    + destruct (Nat.ltb_spec (length (alpha w)) CHAN_SLACK); split; worker_simpl; rewrite ?length_app; cbn [length]; done || lia.
    + split; worker_simpl; [|lia|rewrite concat_app, length_app; cbn [concat app length]; lia].
      apply Forall_app. split; [done|]. constructor; [|done]. split; [done|]. exists (CompanyId (fill j)). by constructor.
    + split; worker_simpl; done || lia.
    + split; worker_simpl; done || lia.
Qed.

(** C6: In every configuration of a worker that does not enrich, no message mixes companies
    or is empty, and each flow that arrived is queued, in the batch, counted as dropped,
    refused by a filter, or in a batch that was sent and that the meter of outgoing
    flows was told of. Of such a batch none are encoded when rollups are made and the
    flows are not wanted too, as many as sampling keeps when it is larger than the
    minimum, and all otherwise; so without sampling and rollups nothing else becomes of
    a flow than to be queued, batched, dropped, refused or encoded. *)
Theorem flows_accounted now w : reach kt kc keepUndefined now w →
  Forall one_company (sent w) ∧
  (arrived w = length (alpha w) + length (msgs w) + dropped w + tossed w + sum_list (FlowsOut w))%nat ∧
  (length (concat (sent w)) = json_sent w + sum_list (encoded <$> FlowsOut w))%nat ∧
  (doRollups kc = false → SampleRate_ kc ≤ 1 →
   (arrived w + json_sent w = length (alpha w) + length (msgs w) + dropped w + tossed w + length (concat (sent w)))%nat).
Proof.
  intros Hr. destruct (reach_inv accounted now) with (w := w) as [H1 H2 H3]; [by split|exact accounted_step|exact Hr|].
  split_and!; [done..|]. intros Hd Hs. assert (encoded <$> FlowsOut w = FlowsOut w) as E; [|rewrite E in H3; lia].
  rewrite <-(list_fmap_id (FlowsOut w)) at 2. apply list_fmap_ext. intros _ n _. unfold encoded. rewrite Hd. cbn [andb].
  by rewrite (proj2 (Z.ltb_ge _ _)).
Qed.

(** *** The worker keeps going *)

(** The flows to take, and whether records must be given back first. *)
Definition to_do (w : worker) : nat := 2 * length (alpha w) + (if decide (pool w = []) then 1 else 0).

Lemma work_decreases w w' : balanced w → (json_lost w < CHAN_SLACK)%nat → works w w' →
  (to_do w' < to_do w)%nat ∧ json_lost w' = json_lost w.
Proof.
  intros [H1 H2] Hl. unfold to_do. intros H.
  destruct H as [w f a j p j1 j2 w' Ea Ep _ _ Hs|w f a j p j1 j2 Ea Ep _ _|w f a w1 Ea Ep Hs]; rewrite Ea, Ep in *; cbn [length] in *.
  - assert (alpha w' = a ∧ json_lost w' = json_lost w) as [E1 E2].
    { cbv zeta in Hs. destruct (_ <=? _); [|by rewrite Hs]. apply send_effect in Hs as (out & Hse). destruct Hse. by split. }
    split; [|done]. rewrite E1. destruct (decide (pool w' = [])), (decide (j :: p = [])); done || lia.
  - split; [|done]. worker_simpl. destruct (decide (p ++ _ = [])), (decide (j :: p = [])); done || lia.
  - apply send_effect in Hs as (out & Hse). destruct Hse. worker_simpl in *.
    rewrite se_alpha0. destruct (Nat.ltb_spec (length a) CHAN_SLACK); [|lia].
    worker_simpl. split; [|done]. rewrite length_app. cbn [length].
    destruct (decide (pool w1 = [])) as [E|]; [rewrite E in se_pool0; cbn [length] in se_pool0; lia|].
    destruct (decide ([] = [])); [lia|done].
Qed.

Lemma work_possible w : balanced w → serviceable → ready w → alpha w ≠ [] → ∃ w', works w w'.
Proof.
  intros Hb Hsv Hw Ha. destruct (alpha w) as [|f a] eqn:Ea; [done|]. destruct (pool w) as [|j p] eqn:Ep.
  - destruct (send_total (set_queues a [] (msgs w) w)) as [w1 H1]; [destruct Hw; by split|]. eexists. by eapply work_empty.
  - destruct (flowToJCHF_total kt j f (clock w)) as [j1 Hj]. destruct Hw as [Hc Hm Hr]. rewrite Ep in Hc. apply Forall_cons in Hc as [Hc Hp].
    destruct (msg_passes_usable (filters kc) j1 (sv_filters Hsv) (flow_ready _ _ _ _ Hc Hj)) as (j2 & [|] & E & Hu).
    + destruct (send_total (set_queues a p (msgs w ++ [j2]) w)) as [w1 H1].
      { split; worker_simpl; [done|by apply Forall_app; split; [|constructor]|done]. }
      destruct (MaxFlowsPerMessage kc <=? Z.of_nat (length (msgs w ++ [j2]))) eqn:Hle.
      * exists w1. eapply work_keep; try done. cbv zeta. worker_simpl. by rewrite Hle.
      * exists (set_queues a p (msgs w ++ [j2]) w). eapply work_keep; try done. cbv zeta. worker_simpl. by rewrite Hle.
    + eexists. by eapply work_toss.
Qed.

(** C17: With filters that do not ask for a map without a key, and rollups with a name for
    each of their sums, every flow that arrived is dealt with as long as a record is left:
    a worker that does not enrich, and whose channels for messages and rollups are
    read, can take a step while a flow is queued, can take no more than twice as many
    steps as flows are queued (and one), and then its timer leaves neither a queue nor
    a batch. *)
Theorem alpha_drains now w : reach kt kc keepUndefined now w → (json_lost w < CHAN_SLACK)%nat → serviceable →
  (∀ n w', nsteps works n w w' → (n ≤ 2 * length (alpha w) + 1)%nat ∧ ((∃ w'', works w' w'') ∨ alpha w' = [])) ∧
  (∀ w', rtc works w w' → ∃ w'', ticks w' w'' ∧ msgs w'' = [] ∧ alpha w'' = alpha w').
Proof.
  intros Hr Hl Hsv. pose proof (reach_ready now w Hsv Hr) as Hw.
  assert (∀ n w', nsteps works n w w' → balanced w' ∧ ready w' ∧ (n + to_do w' ≤ to_do w)%nat) as Hn.
  { assert (balanced w) as Hb by (destruct (reach_inv balanced now) with (w := w); [by apply new_balanced|exact balanced_step|exact Hr|done]).
    clear Hr. intros n w' Hs. revert Hb Hl Hw.
    induction Hs as [w|n w1 w2 w3 H12 _ IH]; intros Hb Hl Hw; [by split_and!|].
    destruct (work_decreases w1 w2 Hb Hl H12) as [Hlt El]. destruct IH as (H1 & H2 & H3);
      [eapply balanced_step; [exact Hb|by left]|lia|eapply ready_step; [done|exact Hw|by left]|]. split_and!; [done|done|lia]. }
  split.
  - intros n w' Hs. destruct (Hn n w' Hs) as (Hb & Hw' & Hle). split.
    + unfold to_do in Hle. destruct (decide (pool w = [])), (decide (pool w' = [])); lia.
    + destruct (decide (alpha w' = [])); [by right|left]. by apply work_possible.
  - intros w' [n Hs]%rtc_nsteps. destruct (Hn n w' Hs) as (_ & Hw' & _). destruct (send_total w' Hw') as [w1 H1]. exists (set_clock (clock w1) w1).
    split; [by constructor|]. apply send_effect in H1 as (out & Hse). destruct Hse. by split.
Qed.

(** *** Without records *)

Definition spent (w0 w : worker) : Prop :=
  pool w = [] ∧ msgs w = [] ∧ json_lost w = CHAN_SLACK ∧ sent w = sent w0 ∧ tossed w = tossed w0.

Lemma spent_step w0 w w' : spent w0 w → step w w' → spent w0 w'.
Proof.
  intros (Hp & Hm & Hl & Hs & Ht) H.
  assert (∀ w w', msgs w = [] → send w w' → w' = w) as Hsend by (unfold sendBytesOn; intros v v' ->; by rewrite decide_True).
  destruct H as [H|[H|H]].
  - destruct H as [w f a j p j1 j2 w' _ Ep _ _ _|w f a j p j1 j2 _ Ep _ _|w f a w1 _ _ H1]; [congruence|congruence|].
    apply Hsend in H1 as ->; [|done]. destruct (Nat.ltb _ _); split_and!; worker_simpl; done || lia.
  - destruct H as [w now w' H1]. apply Hsend in H1 as ->; [by split_and!|done].
  - destruct H as [w f|w j p fill Ep _|w j p Ep|w _]; [|congruence|congruence|split_and!; worker_simpl; done || lia]. destruct (Nat.ltb _ _); split_and!; worker_simpl; done || lia.
Qed.

(** Bodies that are not JSON use up the records: once as many as the pool has have
    come in, no flow and no JSON body is ever encoded or even filtered again, whatever
    happens next. *)
Theorem bad_json_starves now w : reach kt kc keepUndefined now w → json_lost w = CHAN_SLACK →
  ∀ w', rtc step w w' → sent w' = sent w ∧ tossed w' = tossed w ∧ pool w' = [].
Proof.
  intros Hr Hl w' Hs. destruct (reach_inv balanced now) with (w := w) as [H1 _]; [apply new_balanced|exact balanced_step|exact Hr|]. rewrite Hl in H1.
  assert (spent w w) as Hsp by (split_and!; try done; apply length_zero_iff_nil; lia).
  assert (∀ v v', rtc step v v' → spent w v → spent w v') as Hrtc.
  { intros v v'. induction 1 as [|v1 v2 v3 H12 _ IH]; [done|]. intros Hv. apply IH. by eapply spent_step. }
  destruct (Hrtc w w' Hs Hsp) as (? & _ & _ & ? & ?). done.
Qed.
End laws.

(** ** A worker without filters *)

Definition ex_kc : KTranslate :=
  {| filters := []; doFilter := false; rollups := []; doRollups := false; RollupAndAlpha := false; SampleRate_ := 1; SampleMin := 0;
     MaxFlowsPerMessage := 1 |}.

(** Filters, and a rollup besides the flows, of which one in ten is sampled. *)
Definition ex_all : KTranslate :=
  {| filters := [[Filter.StringFilter Filter.stringEquals ["protocol"] "TCP" ""; Filter.StringFilter Filter.stringHas ["custom_str"; "app"] "" ""]];
     doFilter := true; rollups := [Rollup.mkStats (Rollup.ex_base ["total"] ["in_bytes"] false) [] Rollup.sumset_zero];
     doRollups := true; RollupAndAlpha := true; SampleRate_ := 10; SampleMin := 0; MaxFlowsPerMessage := 100 |}.
Lemma ex_all_serviceable : serviceable ex_all.
Proof.
  split; [apply (bool_decide_unpack _); vm_compute; exact I|]. apply Forall_singleton. split; [apply Forall_nil; exact I|cbn; lia].
Qed.

(** The worker with one queued flow. *)
Definition queued (kc : KTranslate) : worker := tally 1 0 0 0 0 0 (set_queues [ex_src 0] (replicate CHAN_SLACK NewJCHF) [] (new_worker kc 5)).
Lemma queued_reach kc : reach ex_kt kc true 5 (queued kc).
Proof.
  pose proof (request_flow (new_worker kc 5) (ex_src 0)) as H. cbn [new_worker alpha length] in H.
  rewrite (proj2 (Nat.ltb_lt 0 CHAN_SLACK)) in H by (unfold CHAN_SLACK; lia). eapply reach_request; [apply reach_new|exact H].
Qed.
Definition ex_queued : worker := queued ex_kc.
Lemma ex_queued_reach : reach ex_kt ex_kc true 5 ex_queued.
Proof. apply queued_reach. Qed.

Lemma pool_conserved_witness : (length (pool ex_queued) + length (msgs ex_queued) + json_lost ex_queued = CHAN_SLACK)%nat.
Proof. destruct (pool_conserved ex_kt ex_kc true 5 ex_queued ex_queued_reach) as [H _]. exact H. Defined.

Lemma flows_accounted_witness : (arrived ex_queued + 0 = 1 + 0 + 0 + 0 + 0)%nat ∧
  (arrived (queued ex_all) = 1 + 0 + 0 + 0 + sum_list (FlowsOut (queued ex_all)))%nat.
Proof.
  destruct (flows_accounted ex_kt ex_kc true 5 ex_queued ex_queued_reach) as (_ & _ & _ & H).
  destruct (flows_accounted ex_kt ex_all true 5 (queued ex_all) (queued_reach ex_all)) as (_ & H' & _). split; [|exact H'].
  exact (H eq_refl ltac:(cbn; lia)).
Defined.

(** Of a batch of 25 two are encoded, of one of three one. *)
Example ex_encoded : encoded ex_all <$> [25; 3]%nat = [2; 1]%nat ∧ encoded ex_kc <$> [25; 3]%nat = [25; 3]%nat.
Proof. split; reflexivity. Qed.

(** At most three steps. *)
Lemma alpha_drains_witness : (∃ w', work ex_kt ex_all true (queued ex_all) w') ∧
  ∀ n w', nsteps (work ex_kt ex_all true) n (queued ex_all) w' → (n ≤ 3)%nat.
Proof.
  destruct (alpha_drains ex_kt ex_all true 5 (queued ex_all) (queued_reach ex_all)) as [H _]; [unfold CHAN_SLACK; cbn; lia|exact ex_all_serviceable|]. split.
  - destruct (H 0%nat (queued ex_all) (nsteps_O _ _)) as [_ [Hw|Hw]]; [exact Hw|discriminate].
  - intros n w' Hs. exact (proj1 (H n w' Hs)).
Defined.

(** A new worker after [n] bodies that are not JSON. *)
Definition ex_starved (n : nat) : worker :=
  tally 0 0 0 0 0 n (set_queues [] (drop n (pool (new_worker ex_kc 5))) [] (new_worker ex_kc 5)).
Lemma ex_starved_reach n : (n ≤ CHAN_SLACK)%nat → reach ex_kt ex_kc true 5 (ex_starved n).
Proof.
  induction n as [|n IH]; intros Hn; [apply reach_new|]. specialize (IH ltac:(lia)). eapply reach_request; [exact IH|].
  destruct (drop n (pool (new_worker ex_kc 5))) as [|j p] eqn:E.
  { apply (f_equal length) in E. rewrite length_drop in E. cbn [new_worker pool] in E. rewrite length_replicate in E. cbn [length] in E. lia. }
  assert (drop (S n) (pool (new_worker ex_kc 5)) = p) as Ep by (by rewrite <-Nat.add_1_r, <-drop_drop, E).
  pose proof (request_bad_json (ex_starved n) j p E) as H.
  assert (ex_starved (S n) = tally 0 0 0 0 0 1 (set_queues [] p [] (ex_starved n))) as ->; [|exact H].
  unfold ex_starved. rewrite Ep. unfold tally, set_queues. cbn [new_worker alpha pool msgs sent rolls clock arrived dropped tossed json_sent json_dropped json_lost].
  f_equal; lia.
Qed.

(** Thereafter a flow that arrives is never encoded. *)
Lemma bad_json_starves_witness : json_lost (ex_starved CHAN_SLACK) = CHAN_SLACK ∧
  ∀ w', rtc (step ex_kt ex_kc true) (ex_starved CHAN_SLACK) w' → sent w' = [] ∧ pool w' = [].
Proof.
  split; [reflexivity|]. intros w' H. destruct (bad_json_starves ex_kt ex_kc true 5 (ex_starved CHAN_SLACK)
    (ex_starved_reach CHAN_SLACK (Nat.le_refl _)) eq_refl w' H) as (H1 & _ & H2). split; [exact H1|exact H2].
Defined.
