(* ===== verification/FormatsUtil.v ===== *)
(** Attributes of metrics (src/pkg/formats/util/util.go) and the metadata of devices
    they are joined with (src/pkg/kt/snmp.go).

    Regular expressions are matched by an oracle; metadata has no scripts.  A range
    loop that does not change its map is a fold over its entries in an order left
    open, or over the map where the order cannot matter. *)
From S2P Require Import Prelude GoStrings Jchf.
From S2P Require FlowToJCHF.
Local Open Scope Z_scope.

(** ** Metadata *)

(** What an [interface{}] holds.  [VSeconds d n] is the float64 of [d] nanoseconds in
    seconds plus [n]. *)
Inductive value :=
| VString (s : string)
| VProvider (s : Provider_)
| VInt (z : Z)
| VInt32 (z : Z)
| VInt64 (z : Z)
| VFloat32 (f : float32)
| VSeconds (d n : Z)
| VHar (h : HarFile).

Record LastMetadata := mkLastMetadata {
  DeviceInfo : gomap value;
  InterfaceInfo : gmap Z (gmap string value);
  lm_Tables : gomap DeviceTableMetadata;
  lm_MatchAttr : gomap Regexp;
  XtraInfo : gomap MetricInfo }.

Definition DeviceTagTable : string := "KT_Device_Tag".
Definition StringPrefix : string := "ks_".
Definition IndexVar : string := "Index".
Definition AdminStatus : string := "if_AdminStatus".
Definition PollAdjustTime : Z := 5.

Definition MetaValue_GetValue (mv : MetaValue) : value :=
  if negb (IntVal mv =? 0) then VInt64 (IntVal mv) else VString (StringVal mv).

Definition Size (lm : option LastMetadata) : nat :=
  match lm with None => 0 | Some lm => size (map_range (DeviceInfo lm)) + size (InterfaceInfo lm) end.

(** The names [Missing] collects, in some order. *)
Definition Missing (lm new : LastMetadata) : list string :=
  elements (dom (map_range (DeviceInfo lm)) ∖ dom (map_range (DeviceInfo new))) ++
  (Itoa ∘ wraps 64 <$> elements (dom (InterfaceInfo lm) ∖ dom (InterfaceInfo new))).

Definition GetTableName (lm : option LastMetadata) (key : string) : string * gomap bool * bool :=
  match lm with
  | None => ("", None, false)
  | Some lm =>
      match map_range (XtraInfo lm) !! key with
      | Some i => (MI_Table i, Tables i, true)
      | None => ("", None, false)
      end
  end.

(** ** [SetAttr] *)

Definition DroppedAttrs : list string :=
  [ "result_type"; "timestamp"; "sampled_packet_size"; "lat/long_dest"; "member_id"; "dst_eth_mac"; "src_eth_mac";
    "Manufacturer"; "error_cause/trace_route"; "hop_data"; "str01"; "ult_exit_port"; "app_protocol";
    "kt_functional_testing"; "client_nw_latency_ms"; "appl_latency_ms"; "server_nw_latency_ms"; "connection_id";
    "service_name" ].
Definition dropped_attr (k : string) : bool := existsb (String.eqb k) DroppedAttrs.

(** [vt > 0] on the bits of a float32: neither a negative nor NaN. *)
Definition float32_pos (f : float32) : bool := (0 <? f) && (f <=? 2139095040).

Definition is_metric (metrics : gomap MetricInfo) (stripMetrics : bool) (k : string) : bool :=
  bool_decide (is_Some (map_range metrics !! k)) ||
  (stripMetrics && HasPrefix k StringPrefix &&
   bool_decide (is_Some (map_range metrics !! drop_string (String.length StringPrefix) k))).

(** The attribute a flattened value becomes.  An [interface{}] holding an empty
    provider is not equal to the empty string. *)
Definition attr_value (v : avro) : res (option value) :=
  match v with
  | AString s => Ok (if existsb (String.eqb s) [""; "-"; "--"] then None else Some (VString s))
  | AProvider p => Ok (Some (VProvider p))
  | AInt64 z => Ok (if 0 <? z then Some (VInt z) else None)
  | AInt32 z => Ok (if 0 <? z then Some (VInt z) else None)
  | AFloat32 f => Ok (if float32_pos f then Some (VFloat32 f) else None)
  | _ => Panic "Unknown type for key"
  end.

Definition set_flat (metrics : gomap MetricInfo) (stripMetrics : bool) (k : string) (v : avro)
    (attr : res (gmap string value)) : res (gmap string value) :=
  attr ← attr;
  if dropped_attr k || is_metric metrics stripMetrics k then Ok attr
  else o ← attr_value v; Ok (match o with Some v => <[k := v]> attr | None => attr end).

Definition put_all {A} (f : string → A → option (string * value)) (m : gmap string A) (attr : gmap string value) : gmap string value :=
  map_fold (λ k v attr, match f k v with Some (k, v) => <[k := v]> attr | None => attr end) attr m.

Definition table_attrs (tables : gomap DeviceTableMetadata) (idx : string) (attr : gmap string value) : gmap string value :=
  match map_range tables !! idx with
  | Some table => put_all (λ k v, Some (k, MetaValue_GetValue v)) (map_range (Customs table)) attr
  | None => attr
  end.

Definition interface_attrs (lm : LastMetadata) (port : Z) (prefix : string) (attr : gmap string value) : gmap string value :=
  match InterfaceInfo lm !! port with
  | Some ii => put_all (λ k v, match v with VString "" => None | _ => Some (String.append prefix k, v) end) ii attr
  | None => attr
  end.

(** All but the last part of a dotted index, when there are several. *)
Definition parent_index (idx : string) : option string :=
  let pts := Split idx "." in
  if (1 <? length pts)%nat then Some (Join (take (length pts - 1) pts) ".") else None.

Definition metadata_attrs (lm : LastMetadata) (jin : JCHF) (attr : gmap string value) : gmap string value :=
  let attr := put_all (λ k v, Some (k, v)) (map_range (DeviceInfo lm)) attr in
  let idx := map_get "" (CustomStr jin) IndexVar in
  let attr :=
    if String.eqb idx "" then attr
    else
      let idx := if String.eqb (take_string 1 idx) "." then drop_string 1 idx else idx in
      let attr := table_attrs (lm_Tables lm) idx attr in
      match parent_index idx with Some parent => table_attrs (lm_Tables lm) parent attr | None => attr end in
  if negb (OutputPort jin =? InputPort jin) then
    interface_attrs lm (OutputPort jin) "output_if_" (interface_attrs lm (InputPort jin) "input_if_" attr)
  else interface_attrs lm (OutputPort jin) "if_" attr.

Definition SetAttr (visit : list string) (attr : gmap string value) (jin : JCHF) (metrics : gomap MetricInfo)
    (lastMetadata : option LastMetadata) (stripMetrics : bool) : res (JCHF * gmap string value) :=
  '(jin, mapr) ← Flatten visit jin;
  attr ← map_fold (set_flat metrics stripMetrics) (Ok attr) mapr;
  let attr := match Har jin with Some h => <["har_file" := VHar h]> attr | None => attr end in
  Ok (jin, match lastMetadata with Some lm => metadata_attrs lm jin attr | None => attr end).

(** ** [DropOnFilter] *)

Definition FORCE_MATCH_TOKEN : string := "!".
Definition OR_TOKEN : string := "||".
Definition MAX_ATTR_FOR_SNMP : nat := 64.
Definition NEGATE_MATCH_TOKEN : string := "DOES_NOT_MATCH".

(** [re.MatchString(s)]. *)
Class RegexpEngine := MatchString : Regexp → string → bool.

Record filter_state := mkFilterState {
  dropOnAdminStatus : bool; keepForOtherMatch : bool; seenNonAdmin : nat; negateMatch : bool }.
Definition filter_start : filter_state := mkFilterState false false 0 false.

Definition interface_key (k : string) : bool :=
  String.eqb k AdminStatus || HasPrefix k "if_" || HasPrefix k "input_if_" || HasPrefix k "output_if_".

(** What comes of a key: the state, and whether to go on or to stop. *)
Inductive verdict := Continue | Break | Nothing.

Section filter.
Context `{RegexpEngine}.

Definition checkFilter (attr : gmap string value) (k : string) (re : Regexp) (forceMatch seenAny isIfMetric : bool)
    (st : filter_state) : filter_state * verdict :=
  let '(mkFilterState drop keep seen neg) := st in
  if negb isIfMetric && interface_key k then (st, Continue)
  else
    match attr !! k with
    | Some (VString strv) =>
        if String.eqb k AdminStatus then
          let drop := negb (MatchString re strv) in
          (mkFilterState drop keep seen neg, if drop then Break else Nothing)
        else if keep then (mkFilterState drop keep (S seen) neg, Nothing)
        else
          let keep := MatchString re strv in
          (mkFilterState drop keep (S seen) neg, if negb keep && (forceMatch && negb seenAny) then Break else Nothing)
    | Some _ => (st, Nothing)
    | None =>
        if forceMatch && negb seenAny then (mkFilterState drop false (S seen) neg, Break) else (st, Nothing)
    end.

(** The keys of a group; the last one says how to go on. *)
Fixpoint check_keys (attr : gmap string value) (keys : list string) (re : Regexp) (forceMatch seenAny isIfMetric : bool)
    (st : filter_state) (last : verdict) : filter_state * verdict :=
  match keys with
  | [] => (st, last)
  | key :: keys =>
      let '(st, last) := checkFilter attr key re forceMatch seenAny isIfMetric st in
      check_keys attr keys re forceMatch seenAny isIfMetric st last
  end.

Definition HasSuffix := FlowToJCHF.HasSuffix.
(** [k[1 : len(k)-1]] of a key in parentheses. *)
Definition strip_parens (k : string) : string :=
  if HasPrefix k "(" && HasSuffix k ")" then take_string (String.length k - 2) (drop_string 1 k) else k.

Fixpoint filter_loop (attr : gmap string value) (isIfMetric : bool) (entries : list (string * Regexp)) (st : filter_state) : filter_state :=
  match entries with
  | [] => st
  | (k, re) :: entries =>
      let forceMatch := HasPrefix k FORCE_MATCH_TOKEN in
      let k := if forceMatch then drop_string 1 k else k in
      if String.eqb k NEGATE_MATCH_TOKEN
      then filter_loop attr isIfMetric entries (mkFilterState (dropOnAdminStatus st) (keepForOtherMatch st) (seenNonAdmin st) true)
      else
        let keyCheck := Split (strip_parens k) OR_TOKEN in
        let seenAny := forceMatch && existsb (λ key, bool_decide (is_Some (attr !! key))) keyCheck in
        match check_keys attr keyCheck re forceMatch seenAny isIfMetric st Nothing with
        | (st, Break) => st
        | (st, _) => filter_loop attr isIfMetric entries st
        end
  end.

Definition filter_result (st : filter_state) : bool :=
  if dropOnAdminStatus st then true
  else if (0 <? seenNonAdmin st)%nat then (if negateMatch st then keepForOtherMatch st else negb (keepForOtherMatch st))
  else negateMatch st.

(** [order]: the entries in the order of the range. *)
Definition DropOnFilter (attr : gmap string value) (lastMetadata : option LastMetadata) (isIfMetric : bool)
    (order : list (string * Regexp)) : bool :=
  match lastMetadata ≫= lm_MatchAttr with
  | Some _ => filter_result (filter_loop attr isIfMetric order filter_start)
  | None => false
  end.
Definition match_order (lm : LastMetadata) (order : list (string * Regexp)) : Prop :=
  order ≡ₚ map_to_list (map_range (lm_MatchAttr lm)).
End filter.

(** ** [SetMetadata] *)

(** The interface and the name in a key "if.<n>.<name>", when it has a number. *)
Definition if_key (k : string) : option (Z * string) :=
  match SplitN 2 k "." with
  | [_; n; name] => match Atoi n with Some ifint => Some (wrapu 64 ifint, name) | None => None end
  | _ => None
  end.

(** One entry of [CustomStr] or [CustomInt]; an empty string makes the interface known
    but sets nothing. *)
Definition set_metadata (set : bool) (k : string) (v : value) (lm : LastMetadata) : LastMetadata :=
  if dropped_attr k then lm
  else if HasPrefix k "if." then
    match if_key k with
    | Some (n, name) =>
        let ii := default ∅ (InterfaceInfo lm !! n) in
        {| DeviceInfo := DeviceInfo lm; InterfaceInfo := <[n := if set then <[name := v]> ii else ii]> (InterfaceInfo lm);
           lm_Tables := lm_Tables lm; lm_MatchAttr := lm_MatchAttr lm; XtraInfo := XtraInfo lm |}
    | None => lm
    end
  else if set then
    {| DeviceInfo := Some (<[k := v]> (map_range (DeviceInfo lm))); InterfaceInfo := InterfaceInfo lm;
       lm_Tables := lm_Tables lm; lm_MatchAttr := lm_MatchAttr lm; XtraInfo := XtraInfo lm |}
  else lm.

Definition SetMetadata (jin : JCHF) (strs : list (string * string)) (ints : list (string * Z)) : LastMetadata :=
  let lm := {| DeviceInfo := Some ∅; InterfaceInfo := ∅; lm_Tables := Some ∅; lm_MatchAttr := None; XtraInfo := None |} in
  let lm := foldl (λ lm kv, set_metadata (negb (String.eqb kv.2 "")) kv.1 (VString kv.2) lm) lm strs in
  let lm := foldl (λ lm kv, set_metadata true kv.1 (VInt32 kv.2) lm) lm ints in
  {| DeviceInfo := DeviceInfo lm; InterfaceInfo := InterfaceInfo lm; lm_Tables := CustomTables jin; lm_MatchAttr := MatchAttr jin;
     XtraInfo := CustomMetrics jin |}.
Definition metadata_order (jin : JCHF) (strs : list (string * string)) (ints : list (string * Z)) : Prop :=
  strs ≡ₚ map_to_list (map_range (CustomStr jin)) ∧ ints ≡ₚ map_to_list (map_range (CustomInt jin)).

(** ** [CopyAttrForSnmp] *)

Definition removeAttrForSnmp : list string :=
  [ "Uptime"; "if_LastChange"; "SysServices"; "if_Mtu"; "if_ConnectorPresent"; "output_port"; "input_port"; "DropMetric";
    "sysoid_vendor" ].
Definition keepAcrossTables : list string :=
  [ "device_name"; "eventType"; "provider"; "sysoid_profile"; IndexVar; "if_Index"; "src_addr" ].
Definition allowSysAttr : list string :=
  [ "Uptime"; "MinRttMs"; "MaxRttMs"; "AvgRttMs"; "StdDevRtt"; "PacketsSent"; "PacketsRecv"; "PacketLossPct" ].
Definition one_of (k : string) (l : list string) : bool := existsb (String.eqb k) l.
Definition in_table (names : gomap bool) (table : string) : bool := default false (map_range names !! table).

(** Whether the metric's table lets an attribute through, and whether the table is
    named. *)
Definition table_keeps (lm : option LastMetadata) (table metricName newKey : string) : bool * bool :=
  if negb (String.eqb table "") then
    if negb (String.eqb metricName newKey) && negb (one_of newKey keepAcrossTables) then
      let '(tableName, allNames, ok) := GetTableName lm newKey in
      let other := negb (in_table allNames table) && negb (String.eqb tableName DeviceTagTable) in
      if (ok : bool) && (0 <? size (map_range allNames))%nat then (negb other, true)
      else (HasPrefix newKey table || negb other, true)
    else (true, false)
  else
    let '(tableName, _, ok) := GetTableName lm newKey in
    (negb ((ok : bool) && negb (String.eqb tableName "") && negb (String.eqb tableName DeviceTagTable)), false).

Definition copy_attr (metricName : string) (name : MetricInfo) (lm : option LastMetadata) (dropSrcAddr : bool)
    (attrNew : gmap string value) (kv : string * value) : gmap string value :=
  let '(k, v) := kv in
  if negb (one_of metricName allowSysAttr) && (HasPrefix k "Sys" || (dropSrcAddr && String.eqb k "src_addr")) then attrNew
  else
    let newKey := if HasPrefix k StringPrefix then drop_string (String.length StringPrefix) k else k in
    let '(keep, named) := table_keeps lm (MI_Table name) metricName newKey in
    let attrNew := if named : bool then <["mib-table" := VString (MI_Table name)]> attrNew else attrNew in
    if keep : bool then <[newKey := v]> attrNew else attrNew.

#[export] Instance string_leb_dec : RelDecision (λ a b : string, String.leb a b = true).
Proof. intros a b. apply _. Defined.
Definition sort_strings (l : list string) : list string := merge_sort (λ a b : string, String.leb a b = true) l.

Definition forced (name : MetricInfo) : gmap string value :=
  <["objectIdentifier" := VString (Oid name)]> (<["mib-name" := VString (Mib name)]> {["instrumentation.name" := VString (Profile name)]}).

(** The attributes New Relic can take. *)
Definition prune_attrs (name : MetricInfo) (attrNew : gmap string value) : gmap string value :=
  let attrNew := foldl (λ m k, delete k m) attrNew removeAttrForSnmp in
  if (MAX_ATTR_FOR_SNMP <? size attrNew)%nat then
    let keys := sort_strings (map_to_list attrNew).*1 in
    forced name ∪ foldl (λ m k, delete k m) attrNew (drop (MAX_ATTR_FOR_SNMP - 3) keys)
  else attrNew.

Definition CopyAttrForSnmp (order : list (string * value)) (metricName : string) (name : MetricInfo) (lm : option LastMetadata)
    (gentleCardinality dropSrcAddr : bool) : gmap string value :=
  let attrNew := forced name in
  let attrNew := if 0 <? PollDur name then <["poll_duration_sec" := VSeconds (PollDur name) PollAdjustTime]> attrNew else attrNew in
  let attrNew := foldl (copy_attr metricName name lm dropSrcAddr) attrNew order in
  let attrNew := if gentleCardinality then prune_attrs name attrNew else attrNew in
  match attrNew !! "mib-name" with Some (VString "") => delete "mib-name" attrNew | _ => attrNew end.

(** ** The metrics of synthetic tests

    For each result type, the fields that are metrics and their names. *)

Definition synMetrics_list : list (Z * list (string * string)) :=
  [ (0, [("error", "error"); ("fetch_status_|_ping_sent_|_trace_time", "sent");
       ("fetch_ttlb_|_ping_lost", "lost"); ("fetch_size_|_ping_min_rtt", "min_rtt");
       ("ping_max_rtt", "max_rtt"); ("ping_avg_rtt", "avg_rtt"); ("ping_std_rtt", "std_rtt");
       ("ping_jit_rtt", "jit_rtt")]);
    (1, [("timeout", "timeout"); ("fetch_status_|_ping_sent_|_trace_time", "sent");
       ("fetch_ttlb_|_ping_lost", "lost"); ("fetch_size_|_ping_min_rtt", "min_rtt");
       ("ping_max_rtt", "max_rtt"); ("ping_avg_rtt", "avg_rtt"); ("ping_std_rtt", "std_rtt");
       ("ping_jit_rtt", "jit_rtt")]);
    (2, [("fetch_status_|_ping_sent_|_trace_time", "sent"); ("fetch_ttlb_|_ping_lost", "lost");
       ("fetch_size_|_ping_min_rtt", "min_rtt"); ("ping_max_rtt", "max_rtt"); ("ping_avg_rtt", "avg_rtt");
       ("ping_std_rtt", "std_rtt"); ("ping_jit_rtt", "jit_rtt")]);
    (3, [("fetch_status_|_ping_sent_|_trace_time", "status"); ("fetch_ttlb_|_ping_lost", "ttlb");
       ("fetch_size_|_ping_min_rtt", "size")]);
    (4, [("fetch_status_|_ping_sent_|_trace_time", "time")]);
    (5, [("fetch_status_|_ping_sent_|_trace_time", "sent"); ("fetch_ttlb_|_ping_lost", "lost");
       ("fetch_size_|_ping_min_rtt", "min_rtt"); ("ping_max_rtt", "max_rtt"); ("ping_avg_rtt", "avg_rtt");
       ("ping_std_rtt", "std_rtt"); ("ping_jit_rtt", "jit_rtt")]);
    (6, [("fetch_status_|_ping_sent_|_trace_time", "time"); ("fetch_ttlb_|_ping_lost", "code")]);
    (7, [("fetch_status_|_ping_sent_|_trace_time", "time"); ("lat/long_dest", "port")]);
    (8, [("fetch_status_|_ping_sent_|_trace_time", "status"); ("fetch_size_|_ping_min_rtt", "size");
       ("fetch_ttlb_|_ping_lost", "ttlb")]);
    (9, [("fetch_status_|_ping_sent_|_trace_time", "status"); ("fetch_ttlb_|_ping_lost", "trx_time")]);
    (10, [("fetch_status_|_ping_sent_|_trace_time", "time"); ("fetch_ttlb_|_ping_lost", "validation")]) ].
Definition name_only (n : string) : MetricInfo := mkMetricInfo "" "" n "" "" "" "" 0 None.
Definition GetSynMetricNameSet (rt : Z) : gomap MetricInfo :=
  (λ l, list_to_map ((λ p, (p.1, name_only p.2)) <$> l)) <$> (list_to_map synMetrics_list : gmap Z _) !! rt.
Definition GetSyngestMetricNameSet : gomap MetricInfo :=
  Some (list_to_map ((λ k, (k, name_only k)) <$>
    [ "avg_jitter"; "avg_latency"; "rolling_avg_jitter"; "rolling_avg_latency"; "rolling_stddev_jitter";
      "rolling_stddev_latency"; "size"; "status" ])).

(** ** Laws of [DropOnFilter] *)

Section filter_laws.
Context `{RegexpEngine} (attr : gmap string value) (isIfMetric : bool).

Definition unforced (k : string) : string := if HasPrefix k FORCE_MATCH_TOKEN then drop_string 1 k else k.
(** An entry for one key. *)
Definition plain_entry (k : string) : Prop :=
  unforced k ≠ NEGATE_MATCH_TOKEN ∧ Split (strip_parens (unforced k)) OR_TOKEN = [unforced k].

Definition skipped (k : string) : bool := negb isIfMetric && interface_key k.
Definition text_at (k : string) : option string := match attr !! k with Some (VString s) => Some s | _ => None end.

(** The entries that count, and what they say. *)
Definition admin_fails (e : string * Regexp) : bool :=
  let k := unforced e.1 in
  negb (skipped k) && String.eqb k AdminStatus && match text_at k with Some s => negb (MatchString e.2 s) | None => false end.
Definition missing (e : string * Regexp) : bool :=
  let k := unforced e.1 in negb (skipped k) && HasPrefix e.1 FORCE_MATCH_TOKEN && bool_decide (attr !! k = None).
Definition seen (e : string * Regexp) : bool :=
  let k := unforced e.1 in negb (skipped k) && negb (String.eqb k AdminStatus) && bool_decide (is_Some (text_at k)).
Definition matched (e : string * Regexp) : bool :=
  let k := unforced e.1 in
  negb (skipped k) && negb (String.eqb k AdminStatus) && match text_at k with Some s => MatchString e.2 s | None => false end.

Definition drops (entries : list (string * Regexp)) : bool :=
  existsb admin_fails entries || existsb missing entries || (existsb seen entries && negb (existsb matched entries)).

(** One key does what its entry says. *)
Lemma checkFilter_entry k re keep n :
  let e := (k, re) in
  checkFilter attr (unforced k) re (HasPrefix k FORCE_MATCH_TOKEN)
    (HasPrefix k FORCE_MATCH_TOKEN && bool_decide (is_Some (attr !! unforced k))) isIfMetric (mkFilterState false keep n false) =
  if admin_fails e then (mkFilterState true keep n false, Break)
  else if missing e then (mkFilterState false false (S n) false, Break)
  else (mkFilterState false (keep || matched e) (if seen e then S n else n) false, if skipped (unforced k) then Continue else Nothing).
Proof.
  cbv zeta. unfold admin_fails, missing, seen, matched, text_at, checkFilter, skipped. cbn [fst snd].
  destruct (negb isIfMetric && interface_key (unforced k)) eqn:Es; cbn [negb andb]; [by rewrite orb_false_r|].
  destruct (attr !! unforced k) as [v|] eqn:Ev; cbn [is_Some].
  - rewrite (bool_decide_eq_true_2 (is_Some (Some v))) by (by eexists). rewrite (bool_decide_eq_false_2 (Some v = None)) by done.
    rewrite !andb_false_r. assert (∀ b, HasPrefix k FORCE_MATCH_TOKEN && negb (HasPrefix k FORCE_MATCH_TOKEN && true) = b → b = false) as Hf
      by (by destruct (HasPrefix k FORCE_MATCH_TOKEN); intros ? <-).
    destruct v as [s| | | | | | |]; try (destruct (String.eqb (unforced k) AdminStatus); cbn [andb negb]; by rewrite orb_false_r).
    destruct (String.eqb (unforced k) AdminStatus); cbn [andb negb].
    + destruct (MatchString re s); cbn [negb]; [by rewrite orb_false_r|done].
    + rewrite bool_decide_eq_true_2 by by eexists. destruct keep; cbn [orb]; [done|].
      rewrite (Hf _ eq_refl), andb_false_r. done.
  - rewrite (bool_decide_eq_false_2 (is_Some None)) by by intros [? ?]. rewrite (bool_decide_eq_true_2 (None = None)) by done.
    rewrite (bool_decide_eq_false_2 (is_Some None)) by (by intros [? ?]). rewrite !andb_false_r, orb_false_r.
    by destruct (HasPrefix k FORCE_MATCH_TOKEN).
Qed.

Lemma filter_loop_plain entries keep n : Forall (λ e, plain_entry e.1) entries →
  filter_result (filter_loop attr isIfMetric entries (mkFilterState false keep n false)) =
  existsb admin_fails entries || existsb missing entries ||
  (((0 <? n)%nat || existsb seen entries) && negb (keep || existsb matched entries)).
Proof.
  intros Hp. revert keep n. induction Hp as [|[k re] entries [Hn Hs] Hp IH]; intros keep n.
  - unfold filter_result. cbn. rewrite !orb_false_r. by destruct (0 <? n)%nat.
  - cbn [filter_loop fst] in *. fold (unforced k). rewrite (proj2 (String.eqb_neq _ _) Hn), Hs. cbn [existsb check_keys].
    rewrite orb_false_r. rewrite (checkFilter_entry k re keep n). cbv zeta.
    destruct (admin_fails (k, re)); [done|]. cbn [orb]. destruct (missing (k, re)); [by rewrite orb_true_r|]. cbn [orb].
    transitivity (filter_result (filter_loop attr isIfMetric entries
      (mkFilterState false (keep || matched (k, re)) (if seen (k, re) then S n else n) false))); [by destruct (skipped (unforced k))|].
    rewrite IH. f_equal. f_equal; [|by rewrite orb_assoc].
    by destruct (seen (k, re)); [rewrite !orb_true_r|].
Qed.
End filter_laws.

Lemma existsb_perm {A} (f : A → bool) l k : l ≡ₚ k → existsb f l = existsb f k.
Proof.
  induction 1 as [|x l k _ IH|x y l|l k m _ IH1 _ IH2]; cbn [existsb]; [done|by rewrite IH| |congruence].
  rewrite !orb_assoc. f_equal. apply orb_comm.
Qed.

(** With match attributes for single keys and no negation, whatever the order of the
    map, a metric is dropped exactly when the admin status is there and does not match,
    or a forced attribute is missing, or some attribute is there and none matches. *)
Theorem DropOnFilter_plain `{RegexpEngine} attr lm isIfMetric order :
  match_order lm order → is_Some (lm_MatchAttr lm) →
  map_Forall (λ k _, plain_entry k) (map_range (lm_MatchAttr lm)) →
  DropOnFilter attr (Some lm) isIfMetric order = drops attr isIfMetric (map_to_list (map_range (lm_MatchAttr lm))).
Proof.
  unfold match_order, DropOnFilter. cbn [mbind option_bind]. intros Ho [m Hm] Hp. rewrite Hm in Ho, Hp |- *.
  unfold filter_start. rewrite filter_loop_plain.
  - cbn [Nat.ltb Nat.leb orb]. unfold drops. by rewrite !(existsb_perm _ _ _ Ho).
  - apply Forall_forall. intros [k re] Hin. rewrite Ho, elem_of_map_to_list in Hin. by apply (Hp k re).
Qed.

(** With the negation the order decides: when a forced attribute is missing, the
    metric is kept if the negation comes first and dropped if it comes second. *)
Theorem negation_order `{RegexpEngine} attr lm isIfMetric k re re' :
  is_Some (lm_MatchAttr lm) → attr !! k = None → k ≠ NEGATE_MATCH_TOKEN → Split (strip_parens k) OR_TOKEN = [k] →
  skipped isIfMetric k = false →
  DropOnFilter attr (Some lm) isIfMetric [(NEGATE_MATCH_TOKEN, re'); (String.append FORCE_MATCH_TOKEN k, re)] = false ∧
  DropOnFilter attr (Some lm) isIfMetric [(String.append FORCE_MATCH_TOKEN k, re); (NEGATE_MATCH_TOKEN, re')] = true.
Proof.
  intros [m Hm] Ha Hn Hs Hk. unfold DropOnFilter. cbn [mbind option_bind]. rewrite Hm.
  assert (HasPrefix (String.append FORCE_MATCH_TOKEN k) FORCE_MATCH_TOKEN = true ∧ drop_string 1 (String.append FORCE_MATCH_TOKEN k) = k) as [E1 E2]
    by (split; [apply HasPrefix_append|apply (drop_string_append "!" k)]).
  assert (HasPrefix NEGATE_MATCH_TOKEN FORCE_MATCH_TOKEN = false) as E3 by done.
  unfold skipped in Hk. unfold filter_start. cbn [filter_loop]. rewrite E1, E2, E3, String.eqb_refl, (proj2 (String.eqb_neq _ _) Hn), Hs.
  cbn [check_keys existsb checkFilter dropOnAdminStatus keepForOtherMatch seenNonAdmin negateMatch]. rewrite Hk, Ha.
  rewrite (bool_decide_eq_false_2 (is_Some None)) by (by intros [? ?]). done.
Qed.

(** ** Laws of [CopyAttrForSnmp] *)

Lemma foldl_delete {A} (m : gmap string A) l k : foldl (λ m k, delete k m) m l !! k = if decide (k ∈ l) then None else m !! k.
Proof.
  revert m. induction l as [|x l IH]; intros m; cbn [foldl]; [by rewrite decide_False by apply not_elem_of_nil|].
  rewrite IH. destruct (decide (k ∈ l)) as [Hin|Hin]; [by rewrite decide_True by by right|].
  destruct (decide (k = x)) as [->|Hne]; [rewrite lookup_delete_eq; by rewrite decide_True by left|].
  rewrite lookup_delete_ne by done. rewrite decide_False; [done|]. by intros [?|?]%elem_of_cons.
Qed.

Lemma size_keys (m : gmap string value) (l : list string) : (∀ k, is_Some (m !! k) → k ∈ l) → (size m ≤ length l)%nat.
Proof.
  intros Hk. rewrite <-length_map_to_list, <-(length_fmap fst). apply submseteq_length, NoDup_submseteq; [apply NoDup_fst_map_to_list|].
  intros k ([k' v] & -> & Hin)%list_elem_of_fmap. apply Hk. exists v. by apply elem_of_map_to_list.
Qed.

Lemma forced_names name k : is_Some (forced name !! k) → k ∈ ["objectIdentifier"; "mib-name"; "instrumentation.name"].
Proof. intros H%elem_of_dom. unfold forced in H. rewrite !dom_insert_L, dom_singleton_L in H. set_solver. Qed.

Lemma prune_size name m : (size (prune_attrs name m) ≤ MAX_ATTR_FOR_SNMP)%nat.
Proof.
  unfold prune_attrs. set (m1 := foldl _ m removeAttrForSnmp). destruct (Nat.ltb_spec MAX_ATTR_FOR_SNMP (size m1)) as [Hlt|]; [|done].
  set (keys := sort_strings (map_to_list m1).*1).
  transitivity (length (["objectIdentifier"; "mib-name"; "instrumentation.name"] ++ take (MAX_ATTR_FOR_SNMP - 3) keys)).
  - apply size_keys. intros k [v Hv]. apply elem_of_app. apply lookup_union_Some_raw in Hv as [Hv|[_ Hv]].
    + left. apply (forced_names name). by exists v.
    + right. rewrite foldl_delete in Hv. destruct (decide _) as [|Hin]; [done|].
      assert (k ∈ keys) as Hk.
      { unfold keys, sort_strings. rewrite merge_sort_Permutation. apply (list_elem_of_fmap_2 fst _ (k, v)). by apply elem_of_map_to_list. }
      rewrite <-(take_drop (MAX_ATTR_FOR_SNMP - 3) keys), elem_of_app in Hk. by destruct Hk.
  - rewrite length_app, length_take. cbn [length]. unfold MAX_ATTR_FOR_SNMP. lia.
Qed.

Lemma prune_removes name m k : k ∈ removeAttrForSnmp → prune_attrs name m !! k = None.
Proof.
  intros Hk. unfold prune_attrs. set (m1 := foldl _ m removeAttrForSnmp).
  assert (m1 !! k = None) as E by (unfold m1; rewrite foldl_delete; by rewrite decide_True).
  destruct (_ <? _)%nat; [|done]. apply lookup_union_None. split; [|by rewrite foldl_delete, E; destruct (decide _)].
  destruct (forced name !! k) eqn:Ef; [|done]. exfalso. assert (k ∈ ["objectIdentifier"; "mib-name"; "instrumentation.name"]) as Hin by (apply (forced_names name); by eexists).
  unfold removeAttrForSnmp in Hk. set_solver.
Qed.

(** With gentle cardinality a metric has at most 64 attributes, for every order of
    the map they come from, and none of those that are always left out. *)
Theorem CopyAttrForSnmp_bounded order metricName name lm dropSrcAddr :
  let res := CopyAttrForSnmp order metricName name lm true dropSrcAddr in
  (size res ≤ MAX_ATTR_FOR_SNMP)%nat ∧ ∀ k, k ∈ removeAttrForSnmp → res !! k = None.
Proof.
  cbv zeta. unfold CopyAttrForSnmp. cbv zeta.
  match goal with |- context [prune_attrs name ?m] => set (m0 := m) end.
  pose proof (prune_size name m0) as Hs. pose proof (prune_removes name m0) as Hr.
  assert ((size (delete "mib-name" (prune_attrs name m0)) ≤ size (prune_attrs name m0))%nat) as Hd.
  { rewrite map_size_delete. destruct (prune_attrs name m0 !! "mib-name"); unfold id; lia. }
  destruct (prune_attrs name m0 !! "mib-name") as [[[|c s]| | | | | | |]|]; try (by split).
  split; [lia|]. intros k Hk. destruct (decide (k = "mib-name")) as [->|Hne]; [by rewrite lookup_delete_eq|].
  rewrite lookup_delete_ne by done. by apply Hr.
Qed.

(** ** Laws of [SetAttr] *)

Lemma put_all_same (f : string → value → option value) (m : gmap string value) attr k :
  put_all (λ k v, (k,.) <$> f k v) m attr !! k = match m !! k ≫= f k with Some w => Some w | None => attr !! k end.
Proof.
  unfold put_all. revert k. refine (map_fold_weak_ind (λ r m, ∀ k, r !! k = match m !! k ≫= f k with Some w => Some w | None => attr !! k end)
    _ _ _ _ m); [intros k; by rewrite lookup_empty|].
  intros i v m' r Hi IH k. destruct (f i v) as [w|] eqn:Ef; cbn [fmap option_fmap option_map].
  - destruct (decide (i = k)) as [->|Hne]; [rewrite !lookup_insert_eq; cbn [mbind option_bind]; by rewrite Ef|].
    rewrite !lookup_insert_ne by done. apply IH.
  - destruct (decide (i = k)) as [->|Hne]; [|rewrite lookup_insert_ne by done; apply IH].
    rewrite lookup_insert_eq, IH, Hi. cbn [mbind option_bind]. by rewrite Ef.
Qed.

(** [k] without the prefix [p], when it has it. *)
Definition strip (p k : string) : option string := if HasPrefix k p then Some (drop_string (String.length p) k) else None.
Lemma strip_Some p k s : strip p k = Some s ↔ k = String.append p s.
Proof.
  unfold strip. split.
  - destruct (HasPrefix k p) eqn:E; [|done]. intros [= <-]. apply HasPrefix_spec in E as [s ->]. by rewrite drop_string_append.
  - intros ->. by rewrite HasPrefix_append, drop_string_append.
Qed.

(** What an interface says of an attribute. *)
Definition interface_layer (lm : LastMetadata) (port : Z) (p k : string) : option value :=
  s ← strip p k; ii ← InterfaceInfo lm !! port; v ← ii !! s; match v with VString "" => None | _ => Some v end.

Lemma interface_attrs_at lm port p attr k :
  interface_attrs lm port p attr !! k = match interface_layer lm port p k with Some v => Some v | None => attr !! k end.
Proof.
  unfold interface_attrs, interface_layer. destruct (InterfaceInfo lm !! port) as [ii|]; [|by destruct (strip p k)].
  unfold put_all. refine (map_fold_weak_ind (λ r m, r !! k = match (s ← strip p k; v ← m !! s; match v with VString "" => None | _ => Some v end)
    with Some v => Some v | None => attr !! k end) _ _ _ _ ii).
  - destruct (strip p k) as [s|]; [|done]. cbn [mbind option_bind]. by rewrite lookup_empty.
  - intros i v m' r Hi IH. destruct (strip p k) as [s|] eqn:Es; cbn [mbind option_bind] in *.
    + apply strip_Some in Es as ->. destruct (decide (i = s)) as [->|Hne].
      * rewrite lookup_insert_eq, Hi in *. cbn [mbind option_bind] in *. destruct v as [[|c t]| | | | | | |]; by rewrite ?lookup_insert_eq.
      * rewrite (lookup_insert_ne m') by done. rewrite <-IH.
        assert (String.append p i ≠ String.append p s) as Hpi.
        { intros E. apply Hne. apply (f_equal (drop_string (String.length p))) in E. by rewrite !drop_string_append in E. }
        destruct v as [[|c t]| | | | | | |]; by rewrite ?lookup_insert_ne.
    + rewrite <-IH. assert (String.append p i ≠ k) as Hpi by (intros <-; by rewrite (proj2 (strip_Some p _ i) eq_refl) in Es).
      destruct v as [[|c t]| | | | | | |]; by rewrite ?lookup_insert_ne.
Qed.

Definition table_layer (tables : gomap DeviceTableMetadata) (idx k : string) : option value :=
  table ← map_range tables !! idx; mv ← map_range (Customs table) !! k; Some (MetaValue_GetValue mv).
Lemma table_attrs_at tables idx attr k :
  table_attrs tables idx attr !! k = match table_layer tables idx k with Some v => Some v | None => attr !! k end.
Proof.
  unfold table_attrs, table_layer. destruct (map_range tables !! idx) as [table|]; [|done]. cbn [mbind option_bind].
  generalize (map_range (Customs table)). intros m. unfold put_all. revert k.
  refine (map_fold_weak_ind (λ r m, ∀ k, r !! k = match (mv ← m !! k; Some (MetaValue_GetValue mv)) with Some v => Some v | None => attr !! k end)
    _ _ _ _ m); [intros k; by rewrite lookup_empty|].
  intros i v m' r Hi IH k. destruct (decide (i = k)) as [->|Hne]; [by rewrite !lookup_insert_eq|]. rewrite !lookup_insert_ne by done. apply IH.
Qed.

(** The attribute of a flattened field. *)
Definition flat_layer (metrics : gomap MetricInfo) (stripMetrics : bool) (flat : gmap string avro) (k : string) : option value :=
  if dropped_attr k || is_metric metrics stripMetrics k then None
  else v ← flat !! k; match attr_value v with Ok o => o | _ => None end.

Lemma set_flat_at metrics stripMetrics flat attr : map_Forall (λ _ v, custom_of v = None) flat →
  ∃ attr', map_fold (set_flat metrics stripMetrics) (Ok attr) flat = Ok attr' ∧
    ∀ k, attr' !! k = match flat_layer metrics stripMetrics flat k with Some v => Some v | None => attr !! k end.
Proof.
  refine (map_fold_weak_ind (λ r flat, map_Forall (λ _ v, custom_of v = None) flat → ∃ attr', r = Ok attr' ∧
    ∀ k, attr' !! k = match flat_layer metrics stripMetrics flat k with Some v => Some v | None => attr !! k end) _ _ _ _ flat).
  - intros _. exists attr. split; [done|]. intros k. unfold flat_layer. rewrite lookup_empty. by destruct (_ || _).
  - intros i v m r Hi IH Hf. apply map_Forall_insert in Hf as [Hv Hf]; [|done]. destruct (IH Hf) as (a & -> & Ha). clear IH.
    unfold set_flat at 1. cbn [mbind res_bind].
    assert (∀ k, i ≠ k → flat_layer metrics stripMetrics (<[i:=v]> m) k = flat_layer metrics stripMetrics m k) as Hne
      by (intros k Hk; unfold flat_layer; by rewrite lookup_insert_ne).
    assert (flat_layer metrics stripMetrics m i = None) as Hno by (unfold flat_layer; rewrite Hi; by destruct (_ || _)).
    assert (flat_layer metrics stripMetrics (<[i:=v]> m) i =
      if dropped_attr i || is_metric metrics stripMetrics i then None else match attr_value v with Ok o => o | _ => None end) as Hnew
      by (unfold flat_layer; by rewrite lookup_insert_eq).
    destruct (dropped_attr i || is_metric metrics stripMetrics i).
    + exists a. split; [done|]. intros k. destruct (decide (i = k)) as [<-|Hk]; [by rewrite Hnew, Ha, Hno|by rewrite Hne, Ha].
    + assert (∃ o, attr_value v = Ok o) as [o Eo] by (destruct v; try done; by eexists). rewrite Eo in Hnew |- *. cbn [mbind res_bind].
      eexists. split; [done|]. intros k. destruct (decide (i = k)) as [<-|Hk].
      * rewrite Hnew. destruct o; [apply lookup_insert_eq|by rewrite Ha, Hno].
      * rewrite Hne, <-Ha by done. destruct o; [by apply lookup_insert_ne|done].
Qed.

(** The first of the layers that knows an attribute. *)
Definition first_layer (l : list (option value)) : option value :=
  foldr (λ o r, match o with Some v => Some v | None => r end) None l.

(** The index of the metric, without a leading dot. *)
Definition metric_index (jin : JCHF) : string :=
  let idx := map_get "" (CustomStr jin) IndexVar in if String.eqb (take_string 1 idx) "." then drop_string 1 idx else idx.

(** An attribute of a metric comes from the first that has it of: the interfaces of
    its ports, the table of the parent of its index, the table of its index, the
    device, the flow itself, and what was set before; and [SetAttr] does not panic on a
    flow whose flattened values are no maps. *)
Theorem SetAttr_layers visit attr jin jin' flat metrics lm stripMetrics :
  Flatten visit jin = Ok (jin', flat) → map_Forall (λ _ v, custom_of v = None) flat → Har jin' = None →
  map_get "" (CustomStr jin') IndexVar ≠ "" →
  ∃ attr', SetAttr visit attr jin metrics (Some lm) stripMetrics = Ok (jin', attr') ∧ ∀ k, attr' !! k = first_layer
    [ (if OutputPort jin' =? InputPort jin' then interface_layer lm (OutputPort jin') "if_" k
       else first_layer [interface_layer lm (OutputPort jin') "output_if_" k; interface_layer lm (InputPort jin') "input_if_" k]);
      parent_index (metric_index jin') ≫= (λ p, table_layer (lm_Tables lm) p k);
      table_layer (lm_Tables lm) (metric_index jin') k;
      map_range (DeviceInfo lm) !! k;
      flat_layer metrics stripMetrics flat k;
      attr !! k ].
Proof.
  intros Hf Hs Hh Hi. unfold SetAttr. rewrite Hf. cbn [mbind res_bind].
  destruct (set_flat_at metrics stripMetrics flat attr Hs) as (a & E & Ha). rewrite E. cbn [mbind res_bind]. rewrite Hh.
  eexists. split; [done|]. intros k. unfold metadata_attrs. rewrite (proj2 (String.eqb_neq _ _) Hi). fold (metric_index jin').
  set (dev := put_all _ _ a). assert (dev !! k = match map_range (DeviceInfo lm) !! k with Some v => Some v | None => a !! k end) as Ed.
  { unfold dev. change (λ k v, Some (k, v)) with (λ (k : string) (v : value), (k,.) <$> Some v). rewrite (put_all_same (λ _ v, Some v)).
    by destruct (map_range (DeviceInfo lm) !! k). }
  clearbody dev. set (tab := match parent_index (metric_index jin') with Some _ => _ | None => _ end).
  assert (tab !! k = first_layer [parent_index (metric_index jin') ≫= (λ p, table_layer (lm_Tables lm) p k);
    table_layer (lm_Tables lm) (metric_index jin') k; dev !! k]) as Et.
  { unfold tab. destruct (parent_index (metric_index jin')) as [p|]; cbn [mbind option_bind first_layer foldr]; rewrite ?table_attrs_at;
      repeat (case_match; try done). }
  clearbody tab. destruct (OutputPort jin' =? InputPort jin'); cbn [negb]; rewrite !interface_attrs_at, Et, Ed, Ha;
    cbn [first_layer foldr]; repeat (case_match; try done).
Qed.

(** ** Examples *)

(** An engine that looks for the pattern at the start. *)
#[export] Instance prefix_engine : RegexpEngine := λ re s, HasPrefix s (pattern re).

Definition ex_meta : LastMetadata :=
  {| DeviceInfo := Some {["site" := VString "a"; "if_Alias" := VString "device"]};
     InterfaceInfo := {[7 := {["Alias" := VString "uplink"; "Speed" := VString ""]}]};
     lm_Tables := Some {["3.1" := {| Customs := Some {["temp" := {| TableName := "t"; TableNames := None; StringVal := ""; IntVal := 40 |}]} |};
                         "3" := {| Customs := Some {["site" := {| TableName := "t"; TableNames := None; StringVal := "rack"; IntVal := 0 |}]} |}]};
     lm_MatchAttr := Some {["!if_Alias" := mkRegexp "up"; AdminStatus := mkRegexp "up"; "site" := mkRegexp "b"]};
     XtraInfo := None |}.
Definition ex_in : JCHF := NewJCHF <| CustomStr := Some {["Index" := ".3.1"; "app" := "dns"; "hop_data" := "x"]} |> <| InputPort := 7 |> <| OutputPort := 7 |>.
Definition ex_visit : list string := (avro_rows ex_in).*1.
Definition ex_flat : gmap string avro := match Flatten ex_visit ex_in with Ok (_, m) => m | _ => ∅ end.
Definition ex_in' : JCHF := match Flatten ex_visit ex_in with Ok (j, _) => j | _ => ex_in end.
Lemma ex_flatten : Flatten ex_visit ex_in = Ok (ex_in', ex_flat).
Proof. unfold ex_in', ex_flat. assert (is_ok (Flatten ex_visit ex_in) = true) as H by (vm_compute; reflexivity). by destruct (Flatten ex_visit ex_in) as [[j m]| | |]. Qed.

Lemma SetAttr_layers_witness : ∃ attr', SetAttr ex_visit ∅ ex_in None (Some ex_meta) false = Ok (ex_in', attr') ∧
  attr' !! "if_Alias" = Some (VString "uplink") ∧ attr' !! "site" = Some (VString "rack") ∧ attr' !! "temp" = Some (VInt64 40) ∧
  attr' !! "app" = Some (VString "dns") ∧ attr' !! "hop_data" = None ∧ attr' !! "if_Speed" = None.
Proof.
  destruct (SetAttr_layers ex_visit ∅ ex_in ex_in' ex_flat None ex_meta false ex_flatten) as (attr' & E & H).
  - apply (bool_decide_unpack _). vm_compute. exact I.
  - vm_compute. reflexivity.
  - vm_compute. discriminate.
  - exists attr'. split; [exact E|]. rewrite !H. split_and!; vm_compute; reflexivity.
Defined.

(** The alias matches, the site does not; the metric stays.  Without an alias it goes. *)
Lemma DropOnFilter_plain_witness :
  DropOnFilter {["if_Alias" := VString "uplink"; AdminStatus := VString "up"; "site" := VString "a"]} (Some ex_meta) true
    (map_to_list (map_range (lm_MatchAttr ex_meta))) = false ∧
  DropOnFilter {[AdminStatus := VString "up"; "site" := VString "b"]} (Some ex_meta) true
    (map_to_list (map_range (lm_MatchAttr ex_meta))) = true.
Proof.
  assert (∀ e, e ∈ map_to_list (map_range (lm_MatchAttr ex_meta)) → e.1 ∈ ["!if_Alias"; AdminStatus; "site"]) as Hin.
  { assert (Forall (λ e : string * Regexp, e.1 ∈ ["!if_Alias"; AdminStatus; "site"]) (map_to_list (map_range (lm_MatchAttr ex_meta)))) as Hf
      by (apply (bool_decide_unpack _); vm_compute; exact I). rewrite Forall_forall in Hf. exact Hf. }
  assert (map_Forall (λ k (_ : Regexp), plain_entry k) (map_range (lm_MatchAttr ex_meta))) as Hp.
  { intros k re Hk. apply elem_of_map_to_list in Hk. specialize (Hin _ Hk). cbn [fst] in Hin.
    repeat (apply elem_of_cons in Hin as [->|Hin]; [split; [discriminate|vm_compute; reflexivity]|]). by apply elem_of_nil in Hin. }
  split; (rewrite (DropOnFilter_plain _ ex_meta true _ (Permutation_refl _) ltac:(by eexists) Hp); vm_compute; reflexivity).
Defined.

Lemma negation_order_witness :
  DropOnFilter ∅ (Some ex_meta) true [(NEGATE_MATCH_TOKEN, mkRegexp "true"); ("!if_Alias", mkRegexp "up")] = false ∧
  DropOnFilter ∅ (Some ex_meta) true [("!if_Alias", mkRegexp "up"); (NEGATE_MATCH_TOKEN, mkRegexp "true")] = true.
Proof.
  apply (negation_order ∅ ex_meta true "if_Alias" (mkRegexp "up") (mkRegexp "true")); [by eexists|reflexivity|discriminate|vm_compute; reflexivity|reflexivity].
Defined.
