(* ===== verification/FlowInput.v ===== *)
(** Flows from routers (src/pkg/inputs/flow): from the messages of the packet decoder to
    flow records, in batches.

    The decoder is goflow2; its messages, and the protobuf functions that take their
    extra fields apart, are parameters. *)
From S2P Require Import Prelude GoStrings GoNet Jchf Ic.
From S2P Require Import FlowToJCHF.
Local Open Scope Z_scope.

(** ** Messages of the decoder *)

Inductive wire_type := VarintType | BytesType | OtherType.

(** google.golang.org/protobuf/encoding/protowire. *)
Class Protowire := {
  ConsumeTag : list byte → Z * wire_type * Z;
  ConsumeFieldValue : Z → wire_type → list byte → Z;
  ConsumeVarint : list byte → Z;
  ConsumeBytes : list byte → list byte;
  ConsumeString : list byte → string }.

(** The fields of goflow2's [ProtoProducerMessage] that are read.  [m_Type] is the name
    of the type, [m_MplsTtl] the length of that list, [m_Unknown] the bytes of the
    fields that the message does not declare. *)
Record ProtoProducerMessage := mkMessage {
  m_Type : string; m_TimeReceivedNs : Z; m_SequenceNum : Z; m_SamplingRate : Z; m_SamplerAddress : IP;
  m_TimeFlowStartNs : Z; m_TimeFlowEndNs : Z; m_Bytes : Z; m_Packets : Z; m_SrcAddr : IP; m_DstAddr : IP;
  m_Etype : Z; m_Proto : Z; m_SrcPort : Z; m_DstPort : Z; m_InIf : Z; m_OutIf : Z; m_SrcMac : Z; m_DstMac : Z;
  m_SrcVlan : Z; m_DstVlan : Z; m_VlanId : Z; m_IpTos : Z; m_ForwardingStatus : Z; m_IpTtl : Z; m_TcpFlags : Z;
  m_IcmpType : Z; m_IcmpCode : Z; m_Ipv6FlowLabel : Z; m_FragmentId : Z; m_FragmentOffset : Z; m_SrcAs : Z;
  m_DstAs : Z; m_NextHop : IP; m_NextHopAs : Z; m_SrcNet : Z; m_DstNet : Z; m_MplsTtl : Z; m_Unknown : list byte }.

(** ** The driver *)

(** What is read of a device of the API here. *)
Record SourceDevice := mkSourceDevice {
  Dev_Name : string; Dev_ID : DeviceID; Dev_CompanyID : Cid; Dev_SampleRate : Z; allUserTags : gomap string }.

Record pbInfo := mkPbInfo { pb_Name : string; pb_Type : string }.
#[export] Instance pbInfo_eq_dec : EqDecision pbInfo.
Proof. solve_decision. Defined.

(** [metrics] counts the flows of a device; [resolv] is a lookup of names. *)
Record KentikDriver := mkDriver {
  metrics : gmap string Z;
  fields : list string;
  devices : gmap string SourceDevice;
  maxBatchSize : Z;
  resolv : option (string → string);
  pb2ixd : option (gmap Z pbInfo) }.

Definition MissingDeviceIP : string := "1.1.1.255".

(** [GetDevicesAsMap] is the map of devices by address. *)
Definition NewKentikDriver (maxBatch : Z) (devs : gmap string SourceDevice) (flds : string) (resolver : option (string → string)) : res KentikDriver :=
  if maxBatch <? 0 then Panic "makechan: size out of range"
  else Ok {| metrics := ∅; fields := Split flds ","; devices := devs; maxBatchSize := maxBatch; resolv := resolver; pb2ixd := None |}.

(** ** Configurations for special sources (specials.go) *)

Record ProtobufFormatterConfig := mkFormatter { PF_Name : string; PF_Index : Z; PF_Type : string }.
Record NetFlowMapField := mkMapField { MF_Type : Z; MF_Destination : string; PenProvided : bool; Pen : Z }.
Record ProducerConfig := mkProducer {
  Protobuf : list ProtobufFormatterConfig; IPFIX_Mapping : list NetFlowMapField; NetFlowV9_Mapping : list NetFlowMapField }.

Definition element (type : Z) (destination : string) : NetFlowMapField := mkMapField type destination false 0.
Definition cisco (type : Z) (destination : string) : NetFlowMapField := mkMapField type destination true 9.

Definition loadDefault : ProducerConfig :=
  {| Protobuf := [mkFormatter "flow_direction" 99 "varint"; mkFormatter "ingressVRFID" 100 "varint"; mkFormatter "egressVRFID" 101 "varint"];
     IPFIX_Mapping := [element 61 "flow_direction"; element 234 "ingressVRFID"; element 235 "egressVRFID"];
     NetFlowV9_Mapping := [element 61 "flow_direction"] |}.

Definition loadASA : ProducerConfig :=
  {| Protobuf := [mkFormatter "flow_direction" 99 "varint"; mkFormatter "in_bytes" 100 "varint"; mkFormatter "out_bytes" 101 "varint";
       mkFormatter "in_pkts" 102 "varint"; mkFormatter "put_pkts" 103 "varint"; mkFormatter "firewall_event" 104 "bytes"];
     IPFIX_Mapping := [element 61 "flow_direction"; element 231 "in_bytes"; element 232 "out_bytes"; element 298 "in_pkts";
       element 299 "out_pkts"; element 233 "firewall_event"];
     NetFlowV9_Mapping := [element 61 "flow_direction"; element 231 "in_bytes"; element 232 "out_bytes"; element 298 "in_pkts";
       element 299 "out_pkts"; element 233 "firewall_event"] |}.

Definition loadNBar : ProducerConfig :=
  {| Protobuf := [mkFormatter "flow_direction" 99 "varint"; mkFormatter "application" 100 "bytes"; mkFormatter "application_category" 101 "bytes";
       mkFormatter "application_subcategory" 102 "bytes"; mkFormatter "application_group" 103 "bytes";
       mkFormatter "application_traffic_class" 104 "bytes"];
     IPFIX_Mapping := [element 61 "flow_direction"; element 96 "application"; cisco 12232 "application_category";
       cisco 12233 "application_subcategory"; cisco 12234 "application_group"; cisco 12243 "application_traffic_class"];
     NetFlowV9_Mapping := [element 61 "flow_direction"; element 96 "application"] |}.

Definition loadPAN : ProducerConfig :=
  {| Protobuf := [mkFormatter "flow_direction" 99 "varint"; mkFormatter "icmp_type" 100 "varint"; mkFormatter "flow_id" 101 "varint";
       mkFormatter "firewall_event" 102 "varint"; mkFormatter "direction" 103 "varint"; mkFormatter "application_id" 104 "bytes";
       mkFormatter "user_id" 105 "bytes"];
     IPFIX_Mapping := [element 61 "flow_direction"; element 32 "icmp_type"; element 148 "flow_id"; element 233 "firewall_event";
       element 61 "direction"; element 56701 "application_id"; element 56702 "user_id"];
     NetFlowV9_Mapping := [] |}.

Definition FlowSource := string.
Definition ASA : FlowSource := "asa".
Definition NBar : FlowSource := "nbar".
Definition PAN : FlowSource := "pan".

(** The configuration of a source without a mapping file. *)
Definition source_config (proto : FlowSource) : ProducerConfig :=
  if String.eqb proto ASA then loadASA else if String.eqb proto NBar then loadNBar else if String.eqb proto PAN then loadPAN else loadDefault.

(** A source in [NewFlowSource]'s list is accepted. *)
Definition known_sources : list FlowSource :=
  ["ipfix"; "netflow9"; ASA; NBar; PAN; "netflow5"; "jflow"; "cflow"; "sflow"; "auto"].

Definition SetConfig (c : ProducerConfig) (t : KentikDriver) : KentikDriver :=
  {| metrics := metrics t; fields := fields t; devices := devices t; maxBatchSize := maxBatchSize t; resolv := resolv t;
     pb2ixd := Some (foldl (λ m pf, <[wraps 32 (PF_Index pf) := mkPbInfo (PF_Name pf) (PF_Type pf)]> m) ∅ (Protobuf c)) |}.

Definition FlowDefaultFields : string :=
  "TimeReceived,SamplingRate,Bytes,Packets,SrcAddr,DstAddr,Proto,SrcPort,DstPort,InIf,OutIf,SrcVlan,DstVlan,TCPFlags,SrcAS,DstAS,Type,SamplerAddress,FlowDirection".

(** ** [mapCustoms] *)

Section convert.
Context `{Protowire}.

(** [l[lo:hi]]. *)
Definition slice (l : list byte) (lo hi : Z) : res (list byte) :=
  if (0 <=? lo) && (lo <=? hi) && (hi <=? Z.of_nat (length l)) then Ok (take (Z.to_nat (hi - lo)) (drop (Z.to_nat lo) l))
  else Panic "slice bounds out of range".

Definition ip_field (name : string) : bool := HasPrefix name "ip_".

(** A field of the configuration, with the bytes of its value. *)
Definition map_custom (name : string) (dataType : wire_type) (data : list byte) (i : JCHF) : JCHF :=
  match dataType with
  | VarintType =>
      let v := ConsumeVarint data in
      if ip_field name then put_str name (IP_String (Int2ip (wrapu 32 v))) i else put_big name (wraps 64 v) i
  | BytesType =>
      if ip_field name then
        let v := ConsumeBytes data in
        put_str name (IP_String (if (length v =? 4)%nat then v4InV6Prefix ++ rev v else v)) i
      else put_str name (ConsumeString data) i
  | OtherType => i
  end.

Fixpoint mapCustoms_loop (fuel : nat) (pb : gmap Z pbInfo) (unk : list byte) (offset : Z) (i : JCHF) : res JCHF :=
  match fuel with
  | O => OutOfFuel
  | S fuel =>
      if offset <? Z.of_nat (length unk) then
        rest ← slice unk offset (Z.of_nat (length unk));
        let '(num, dataType, len) := ConsumeTag rest in
        let offset := wraps 64 (offset + len) in
        rest ← slice unk offset (Z.of_nat (length unk));
        let len := ConsumeFieldValue num dataType rest in
        data ← slice unk offset (wraps 64 (offset + len));
        mapCustoms_loop fuel pb unk (wraps 64 (offset + len))
          match pb !! wraps 32 num with Some pbField => map_custom (pb_Name pbField) dataType data i | None => i end
      else Ok i
  end.

Definition mapCustoms (fuel : nat) (pb : option (gmap Z pbInfo)) (m : ProtoProducerMessage) (i : JCHF) : res JCHF :=
  match pb with None => Ok i | Some pb => mapCustoms_loop fuel pb (m_Unknown m) 0 i end.

(** ** [toJCHF] *)

Definition SetUserTags (d : SourceDevice) (i : JCHF) : JCHF :=
  i <| CustomStr := Some (map_range (allUserTags d) ∪ map_range (CustomStr i)) |>.

(** The device part. *)
Definition source_fields (t : KentikDriver) (fmsg : ProtoProducerMessage) : JCHF :=
  let i := NewJCHF <| CustomStr := Some ∅ |> <| CustomInt := Some ∅ |> <| CustomBigInt := Some ∅ |>
    <| EventType := KENTIK_EVENT_TYPE |> <| Provider := ProviderFlowDevice |> <| ApplySample := true |> in
  let addr := IP_String (m_SamplerAddress fmsg) in
  match devices t !! addr with
  | Some dev =>
      SetUserTags dev (i <| DeviceName := Dev_Name dev |> <| DeviceId := Dev_ID dev |> <| CompanyId := Dev_CompanyID dev |>
        <| SampleRate := Dev_SampleRate dev |>)
  | None =>
      let i := i <| DeviceName := match resolv t with
        | Some f => if String.eqb (f addr) "" then addr else f addr | None => addr end |> in
      match devices t !! MissingDeviceIP with Some mdev => SetUserTags mdev i | None => i end
  end.

(** [srcmac[2:8]]. *)
Definition mac_address (mac : Z) : string := HardwareAddr_String (drop 2 (be_encode 8 mac)).

Definition set_direction (i : JCHF) : JCHF :=
  match map_range (CustomBigInt i) !! "flow_direction" with
  | Some v => put_str "FlowDirection" (if v =? 1 then "egress" else "ingress") (del_big "flow_direction" i)
  | None => i
  end.

(** The cases of the switch, in their order; [ocflowDir] is the direction at the start. *)
Definition field_cases (fmsg : ProtoProducerMessage) (ocflowDir : Z) : list (string * (JCHF → JCHF)) :=
  let big name v := (name, put_big name (wraps 64 v)) in
  [ ("Type", put_str "Type" (m_Type fmsg));
    ("TimeReceived", λ i, i <| Timestamp := wraps 64 (m_TimeReceivedNs fmsg) |>);
    big "SequenceNum" (m_SequenceNum fmsg);
    ("SamplingRate", λ i, if 0 <? m_SamplingRate fmsg then i <| SampleRate := wrapu 32 (m_SamplingRate fmsg) |> else i);
    ("FlowDirection", set_direction);
    ("SamplerAddress", put_str "SamplerAddress" (IP_String (m_SamplerAddress fmsg)));
    big "TimeFlowStart" (m_TimeFlowStartNs fmsg);
    big "TimeFlowEnd" (m_TimeFlowEndNs fmsg);
    ("Bytes", λ i, if ocflowDir =? 1 then i <| OutBytes := m_Bytes fmsg |> else i <| InBytes := m_Bytes fmsg |>);
    ("Packets", λ i, if ocflowDir =? 1 then i <| OutPkts := m_Packets fmsg |> else i <| InPkts := m_Packets fmsg |>);
    ("SrcAddr", λ i, i <| SrcAddr := IP_String (m_SrcAddr fmsg) |>);
    ("DstAddr", λ i, i <| DstAddr := IP_String (m_DstAddr fmsg) |>);
    big "Etype" (m_Etype fmsg);
    ("Proto", λ i, i <| Protocol := proto_name (wrapu 16 (m_Proto fmsg)) |>);
    ("SrcPort", λ i, i <| L4SrcPort := m_SrcPort fmsg |>);
    ("DstPort", λ i, i <| L4DstPort := m_DstPort fmsg |>);
    ("InIf", λ i, i <| InputPort := m_InIf fmsg |>);
    ("OutIf", λ i, i <| OutputPort := m_OutIf fmsg |>);
    ("SrcMac", λ i, if 0 <? m_SrcMac fmsg then i <| SrcEthMac := mac_address (m_SrcMac fmsg) |> else i);
    ("DstMac", λ i, if 0 <? m_DstMac fmsg then i <| DstEthMac := mac_address (m_DstMac fmsg) |> else i);
    ("SrcVlan", λ i, i <| VlanIn := m_SrcVlan fmsg |>);
    ("DstVlan", λ i, i <| VlanOut := m_DstVlan fmsg |>);
    big "VlanId" (m_VlanId fmsg);
    ("IPTos", λ i, i <| Tos := m_IpTos fmsg |>);
    big "ForwardingStatus" (m_ForwardingStatus fmsg);
    big "IPTTL" (m_IpTtl fmsg);
    ("TCPFlags", λ i, i <| TcpFlags := m_TcpFlags fmsg |>);
    big "IcmpType" (m_IcmpType fmsg);
    big "IcmpCode" (m_IcmpCode fmsg);
    big "IPv6FlowLabel" (m_Ipv6FlowLabel fmsg);
    big "FragmentId" (m_FragmentId fmsg);
    big "FragmentOffset" (m_FragmentOffset fmsg);
    ("SrcAS", λ i, i <| SrcAs := m_SrcAs fmsg |>);
    ("DstAS", λ i, i <| DstAs := m_DstAs fmsg |>);
    ("NextHop", λ i, i <| NextHop := IP_String (m_NextHop fmsg) |>);
    ("NextHopAS", λ i, i <| DstNextHopAs := m_NextHopAs fmsg |>);
    big "SrcNet" (m_SrcNet fmsg);
    big "DstNet" (m_DstNet fmsg);
    big "MPLSCount" (m_MplsTtl fmsg) ].

Fixpoint switch {A} (cases : list (string * (A → A))) (field : string) (i : A) : A :=
  match cases with
  | [] => i
  | (name, f) :: cases => if String.eqb field name then f i else switch cases field i
  end.

Definition set_fields (fmsg : ProtoProducerMessage) (flds : list string) (i : JCHF) : JCHF :=
  let cases := field_cases fmsg (big_at "flow_direction" i) in foldl (λ i field, switch cases field i) i flds.

(** The default direction and the combined fields. *)
Definition finish_fields (i : JCHF) : JCHF :=
  let i := match map_range (CustomStr i) !! "FlowDirection" with Some _ => i | None => put_str "FlowDirection" "ingress" i end in
  let i := put_str "src_endpoint" (String.append (SrcAddr i) (String.append ":" (Itoa (L4SrcPort i)))) i in
  put_str "dst_endpoint" (String.append (DstAddr i) (String.append ":" (Itoa (L4DstPort i)))) i.

Definition mark (name : string) (t : KentikDriver) : KentikDriver :=
  {| metrics := <[name := default 0 (metrics t !! name) + 1]> (metrics t); fields := fields t; devices := devices t;
     maxBatchSize := maxBatchSize t; resolv := resolv t; pb2ixd := pb2ixd t |}.

Definition toJCHF (fuel : nat) (fmsg : ProtoProducerMessage) (t : KentikDriver) : res (KentikDriver * JCHF) :=
  let i := source_fields t fmsg in
  let t := mark (DeviceName i) t in
  let i := if SampleRate i =? 0 then i <| SampleRate := 1 |> else i in
  i ← mapCustoms fuel (pb2ixd t) fmsg i;
  Ok (t, finish_fields (set_fields fmsg (fields t) i)).
End convert.

(** ** Batches ([run]) *)

(** What the loop is woken by: a converted flow or the ticker.  The channel of inputs has
    room for a batch; the one of batches takes them in order. *)
Inductive wake := Input (j : JCHF) | SendTicker.

Record batcher := mkBatcher { batch : list JCHF; jchfChan : list (list JCHF) }.
Definition batcher_start : batcher := mkBatcher [] [].

Definition run_step (maxBatch : Z) (w : wake) (s : batcher) : batcher :=
  match w with
  | Input local =>
      let batch := batch s ++ [local] in
      if maxBatch <=? Z.of_nat (length batch) then mkBatcher [] (jchfChan s ++ [batch]) else mkBatcher batch (jchfChan s)
  | SendTicker =>
      if (0 <? length (batch s))%nat then mkBatcher [] (jchfChan s ++ [batch s]) else s
  end.
Definition run (maxBatch : Z) (ws : list wake) : batcher := foldl (λ s w, run_step maxBatch w s) batcher_start ws.

(** ** What the fields set *)

(** The entries of [l] with a wanted name, on top of [m]. *)
Definition wanted {A} (w : string → bool) (l : list (string * A)) (m : gmap string A) : gmap string A :=
  foldr (λ kv m, if w kv.1 then <[kv.1 := kv.2]> m else m) m l.

Lemma wanted_ext {A} w w' (l : list (string * A)) m : (∀ k, k ∈ l.*1 → w k = w' k) → wanted w l m = wanted w' l m.
Proof.
  induction l as [|[k v] l IH]; intros H; [done|]. cbn [wanted foldr fst snd]. rewrite (H k) by left.
  fold (wanted w l m) (wanted w' l m). rewrite IH; [done|]. intros k' Hk. apply H. by right.
Qed.
Lemma wanted_other {A} w (l : list (string * A)) m k : k ∉ l.*1 → wanted w l m !! k = m !! k.
Proof.
  induction l as [|[k' v] l IH]; intros H; [done|]. cbn [wanted foldr fst snd]. fold (wanted w l m).
  cbn in H. apply not_elem_of_cons in H as [Hne H]. destruct (w k'); [rewrite lookup_insert_ne by done|]; by apply IH.
Qed.
Definition also (w : string → bool) (x : string) : string → bool := λ f, w f || String.eqb f x.

Lemma wanted_insert {A} w (l : list (string * A)) m x v : NoDup l.*1 → (x, v) ∈ l →
  <[x := v]> (wanted w l m) = wanted (also w x) l m.
Proof.
  induction l as [|[k u] l IH]; intros Hn Hin; [by apply elem_of_nil in Hin|]. cbn in Hn. apply NoDup_cons in Hn as [Hk Hn].
  cbn [wanted foldr fst snd]. fold (wanted w l m) (wanted (also w x) l m).
  apply elem_of_cons in Hin as [[= -> ->]|Hin].
  - unfold also at 1. rewrite String.eqb_refl, orb_true_r. rewrite (wanted_ext (also w k) w l m).
    + destruct (w k); [by rewrite insert_insert_eq|done].
    + intros k' Hk'. unfold also. rewrite (proj2 (String.eqb_neq k' k)); [apply orb_false_r|]. by intros ->.
  - assert (k ≠ x) as Hne by (intros ->; apply Hk; by apply (list_elem_of_fmap_2 fst l (x, v))).
    unfold also at 1. rewrite (proj2 (String.eqb_neq k x) Hne), orb_false_r.
    destruct (w k); [rewrite insert_insert_ne by done|]; by rewrite IH.
Qed.
Lemma wanted_insert_base {A} w (l : list (string * A)) m x v : x ∉ l.*1 → <[x := v]> (wanted w l m) = wanted w l (<[x := v]> m).
Proof.
  induction l as [|[k u] l IH]; intros H; [done|]. cbn [wanted foldr fst snd]. fold (wanted w l m) (wanted w l (<[x:=v]> m)).
  cbn in H. apply not_elem_of_cons in H as [Hne H]. rewrite <-IH by done. destruct (w k); [by rewrite insert_insert_ne|done].
Qed.
Lemma wanted_delete_base {A} w (l : list (string * A)) m x : x ∉ l.*1 → delete x (wanted w l m) = wanted w l (delete x m).
Proof.
  induction l as [|[k u] l IH]; intros H; [done|]. cbn [wanted foldr fst snd]. fold (wanted w l m) (wanted w l (delete x m)).
  cbn in H. apply not_elem_of_cons in H as [Hne H]. rewrite <-IH by done. destruct (w k); [by rewrite delete_insert_ne|done].
Qed.

Lemma in_left {A} (x y : A) l k : x ∈ y :: l → x ∈ y :: l ++ k.
Proof. set_solver. Qed.
Lemma in_right {A} (x y : A) l k : x ∈ y :: k → x ∈ y :: l ++ k.
Proof. set_solver. Qed.
Lemma in_left' {A} (x y : A) l k : x ∈ l → x ∈ y :: l ++ k.
Proof. set_solver. Qed.
Lemma in_right' {A} (x y : A) l k : x ∈ k → x ∈ y :: l ++ k.
Proof. set_solver. Qed.
Lemma head_differs {A} (x y : A) l : x ∉ y :: l → y ≠ x.
Proof. set_solver. Qed.

Section fields.
Context (fmsg : ProtoProducerMessage) (i : JCHF) (s : gmap string string) (b : gmap string Z).

Definition field_strs : list (string * string) := [("Type", m_Type fmsg); ("SamplerAddress", IP_String (m_SamplerAddress fmsg))].
Definition field_bigs : list (string * Z) := (λ kv, (kv.1, wraps 64 kv.2)) <$>
  [ ("SequenceNum", m_SequenceNum fmsg); ("TimeFlowStart", m_TimeFlowStartNs fmsg); ("TimeFlowEnd", m_TimeFlowEndNs fmsg);
    ("Etype", m_Etype fmsg); ("VlanId", m_VlanId fmsg); ("ForwardingStatus", m_ForwardingStatus fmsg); ("IPTTL", m_IpTtl fmsg);
    ("IcmpType", m_IcmpType fmsg); ("IcmpCode", m_IcmpCode fmsg); ("IPv6FlowLabel", m_Ipv6FlowLabel fmsg);
    ("FragmentId", m_FragmentId fmsg); ("FragmentOffset", m_FragmentOffset fmsg); ("SrcNet", m_SrcNet fmsg);
    ("DstNet", m_DstNet fmsg); ("MPLSCount", m_MplsTtl fmsg) ].
Definition direction_str : gmap string string :=
  match b !! "flow_direction" with Some v => <["FlowDirection" := if v =? 1 then "egress" else "ingress"]> s | None => s end.
Definition egress : bool := default 0 (b !! "flow_direction") =? 1.

Definition strs_with (w : string → bool) : gmap string string := wanted w field_strs (if w "FlowDirection" then direction_str else s).
Definition bigs_with (w : string → bool) : gmap string Z := wanted w field_bigs (if w "FlowDirection" then delete "flow_direction" b else b).

(** The record with the wanted fields. *)
Definition plain_fields (w : string → bool) : JCHF :=
  {| Timestamp := if w "TimeReceived" then (wraps 64 (m_TimeReceivedNs fmsg)) else Timestamp i;
     DstAs := if w "DstAS" then m_DstAs fmsg else DstAs i; DstGeo := DstGeo i; HeaderLen := HeaderLen i;
     InBytes := if w "Bytes" && negb egress then m_Bytes fmsg else InBytes i;
     InPkts := if w "Packets" && negb egress then m_Packets fmsg else InPkts i;
     InputPort := if w "InIf" then m_InIf fmsg else InputPort i; IpSize := IpSize i;
     DstAddr := if w "DstAddr" then (IP_String (m_DstAddr fmsg)) else DstAddr i;
     SrcAddr := if w "SrcAddr" then (IP_String (m_SrcAddr fmsg)) else SrcAddr i;
     L4DstPort := if w "DstPort" then m_DstPort fmsg else L4DstPort i;
     L4SrcPort := if w "SrcPort" then m_SrcPort fmsg else L4SrcPort i;
     OutputPort := if w "OutIf" then m_OutIf fmsg else OutputPort i;
     Protocol := if w "Proto" then (proto_name (wrapu 16 (m_Proto fmsg))) else Protocol i;
     SampledPacketSize := SampledPacketSize i; SrcAs := if w "SrcAS" then m_SrcAs fmsg else SrcAs i;
     SrcGeo := SrcGeo i; TcpFlags := if w "TCPFlags" then m_TcpFlags fmsg else TcpFlags i;
     Tos := if w "IPTos" then m_IpTos fmsg else Tos i; VlanIn := if w "SrcVlan" then m_SrcVlan fmsg else VlanIn i;
     VlanOut := if w "DstVlan" then m_DstVlan fmsg else VlanOut i;
     NextHop := if w "NextHop" then (IP_String (m_NextHop fmsg)) else NextHop i; MplsType := MplsType i;
     OutBytes := if w "Bytes" && egress then m_Bytes fmsg else OutBytes i;
     OutPkts := if w "Packets" && egress then m_Packets fmsg else OutPkts i; TcpRetransmit := TcpRetransmit i;
     SrcFlowTags := SrcFlowTags i; DstFlowTags := DstFlowTags i;
     SampleRate := if w "SamplingRate" && (0 <? m_SamplingRate fmsg) then wrapu 32 (m_SamplingRate fmsg) else SampleRate i;
     DeviceId := DeviceId i; DeviceName := DeviceName i; CompanyId := CompanyId i; DstBgpAsPath := DstBgpAsPath i;
     DstBgpCommunity := DstBgpCommunity i; SrcBgpAsPath := SrcBgpAsPath i; SrcBgpCommunity := SrcBgpCommunity i;
     SrcNextHopAs := SrcNextHopAs i; DstNextHopAs := if w "NextHopAS" then m_NextHopAs fmsg else DstNextHopAs i;
     SrcGeoRegion := SrcGeoRegion i; DstGeoRegion := DstGeoRegion i; SrcGeoCity := SrcGeoCity i;
     DstGeoCity := DstGeoCity i; DstNextHop := DstNextHop i; SrcNextHop := SrcNextHop i;
     SrcRoutePrefix := SrcRoutePrefix i; DstRoutePrefix := DstRoutePrefix i; SrcSecondAsn := SrcSecondAsn i;
     DstSecondAsn := DstSecondAsn i; SrcThirdAsn := SrcThirdAsn i; DstThirdAsn := DstThirdAsn i;
     SrcEthMac := if w "SrcMac" && (0 <? m_SrcMac fmsg) then mac_address (m_SrcMac fmsg) else SrcEthMac i;
     DstEthMac := if w "DstMac" && (0 <? m_DstMac fmsg) then mac_address (m_DstMac fmsg) else DstEthMac i;
     InputIntDesc := InputIntDesc i; OutputIntDesc := OutputIntDesc i; InputIntAlias := InputIntAlias i;
     OutputIntAlias := OutputIntAlias i; InputInterfaceCapacity := InputInterfaceCapacity i;
     OutputInterfaceCapacity := OutputInterfaceCapacity i; InputInterfaceIP := InputInterfaceIP i;
     OutputInterfaceIP := OutputInterfaceIP i; CustomStr := CustomStr i; CustomInt := CustomInt i;
     CustomBigInt := CustomBigInt i; CustomFloat := CustomFloat i; EventType := EventType i; Provider := Provider i;
     avroSet := avroSet i; hasSetAvro := hasSetAvro i; CustomMetrics := CustomMetrics i;
     CustomTables := CustomTables i; MatchAttr := MatchAttr i; ApplySample := ApplySample i; Har := Har i |}.
Definition with_maps (j : JCHF) (strs : gmap string string) (bigs : gmap string Z) : JCHF :=
  j <| CustomStr := Some strs |> <| CustomBigInt := Some bigs |>.
Definition with_fields (w : string → bool) : JCHF := with_maps (plain_fields w) (strs_with w) (bigs_with w).

Definition field_names : list string := (field_cases fmsg (default 0 (b !! "flow_direction"))).*1.

Lemma plain_fields_ext w w' : (∀ f, f ∈ field_names → f ∉ field_strs.*1 ++ field_bigs.*1 → w f = w' f) → plain_fields w = plain_fields w'.
Proof.
  intros H. assert (∀ f, bool_decide (f ∈ field_names) && bool_decide (f ∉ field_strs.*1 ++ field_bigs.*1) = true → w f = w' f) as Hw
    by (intros f [Hf Hg]%andb_true_iff; apply bool_decide_eq_true in Hf, Hg; by apply H).
  unfold plain_fields. repeat match goal with |- context [w ?x] => rewrite (Hw x eq_refl) end. reflexivity.
Qed.
Lemma strs_with_ext w w' : (∀ f, f ∈ "FlowDirection" :: field_strs.*1 → w f = w' f) → strs_with w = strs_with w'.
Proof. intros H. unfold strs_with. rewrite (H "FlowDirection") by left. apply wanted_ext. intros k Hk. apply H. by right. Qed.
Lemma bigs_with_ext w w' : (∀ f, f ∈ "FlowDirection" :: field_bigs.*1 → w f = w' f) → bigs_with w = bigs_with w'.
Proof. intros H. unfold bigs_with. rewrite (H "FlowDirection") by left. apply wanted_ext. intros k Hk. apply H. by right. Qed.

Lemma strs_names k : k ∈ "FlowDirection" :: field_strs.*1 → k ∈ field_names.
Proof. revert k. apply Forall_forall. apply (bool_decide_unpack _). vm_compute. exact I. Qed.
Lemma bigs_names k : k ∈ "FlowDirection" :: field_bigs.*1 → k ∈ field_names.
Proof. revert k. apply Forall_forall. apply (bool_decide_unpack _). vm_compute. exact I. Qed.

Lemma with_fields_ext w w' : (∀ f, f ∈ field_names → w f = w' f) → with_fields w = with_fields w'.
Proof.
  intros H. unfold with_fields. rewrite (plain_fields_ext w w') by auto.
  rewrite (strs_with_ext w w') by (intros f Hf; by apply H, strs_names). by rewrite (bigs_with_ext w w') by (intros f Hf; by apply H, bigs_names).
Qed.

Lemma with_fields_other w x : x ∉ field_names → with_fields (also w x) = with_fields w.
Proof.
  intros Hx. apply with_fields_ext. intros f Hf. unfold also. rewrite (proj2 (String.eqb_neq f x)); [apply orb_false_r|]. by intros ->.
Qed.

Lemma field_strs_nodup : NoDup field_strs.*1.
Proof. apply (bool_decide_unpack _). vm_compute. exact I. Qed.
Lemma field_bigs_nodup : NoDup field_bigs.*1.
Proof. apply (bool_decide_unpack _). vm_compute. exact I. Qed.

Lemma also_at w x f : also w x f = w f || String.eqb f x.
Proof. done. Qed.
Lemma wanted_also {A} w x (l : list (string * A)) m : x ∉ l.*1 → wanted (also w x) l m = wanted w l m.
Proof.
  intros Hx. apply wanted_ext. intros k Hk. unfold also. rewrite (proj2 (String.eqb_neq k x)); [apply orb_false_r|]. by intros ->.
Qed.

Lemma switch_other {A} (cases : list (string * (A → A))) x j : x ∉ cases.*1 → switch cases x j = j.
Proof.
  induction cases as [|[k f] cases IH]; intros H; [done|]. cbn in H. apply not_elem_of_cons in H as [Hne H].
  cbn [switch]. rewrite (proj2 (String.eqb_neq x k) Hne). by apply IH.
Qed.
Lemma switch_in {A} (cases : list (string * (A → A))) (P : string → (A → A) → Prop) x j : NoDup cases.*1 →
  Forall (λ c, P c.1 c.2) cases → x ∈ cases.*1 → ∃ f, P x f ∧ switch cases x j = f j.
Proof.
  induction cases as [|[k f] cases IH]; intros Hn Hf H; [by apply elem_of_nil in H|]. cbn in H, Hn. apply NoDup_cons in Hn as [_ Hn].
  apply Forall_cons in Hf as [Hk Hf]. cbn [switch fst snd] in *. destruct (String.eqb_spec x k) as [->|Hne]; [by exists f|].
  apply IH; [done..|]. by apply elem_of_cons in H as [?|H].
Qed.

Lemma also_other w x f : f ≠ x → also w x f = w f.
Proof. intros Hne. unfold also. rewrite (proj2 (String.eqb_neq f x) Hne). apply orb_false_r. Qed.
Lemma strs_same w x : x ∉ "FlowDirection" :: field_strs.*1 → strs_with (also w x) = strs_with w.
Proof. intros H. apply strs_with_ext. intros f Hf. apply also_other. by intros ->. Qed.
Lemma bigs_same w x : x ∉ "FlowDirection" :: field_bigs.*1 → bigs_with (also w x) = bigs_with w.
Proof. intros H. apply bigs_with_ext. intros f Hf. apply also_other. by intros ->. Qed.
Lemma plain_same w x : x ∈ "FlowDirection" :: field_strs.*1 ++ field_bigs.*1 → plain_fields (also w x) = plain_fields w.
Proof.
  intros H. unfold plain_fields. rewrite !also_other; [reflexivity|..].
  all: intros <-; revert H; apply (bool_decide_unpack (_ ∉ _)); vm_compute; exact I.
Qed.

Lemma put_str_maps x v j strs bigs : put_str x v (with_maps j strs bigs) = with_maps j (<[x := v]> strs) bigs.
Proof. reflexivity. Qed.
Lemma put_big_maps x v j strs bigs : put_big x v (with_maps j strs bigs) = with_maps j strs (<[x := v]> bigs).
Proof. reflexivity. Qed.
Lemma del_big_maps x j strs bigs : del_big x (with_maps j strs bigs) = with_maps j strs (delete x bigs).
Proof. reflexivity. Qed.
Lemma set_direction_maps j strs bigs : set_direction (with_maps j strs bigs) =
  match bigs !! "flow_direction" with
  | Some v => with_maps j (<["FlowDirection" := if v =? 1 then "egress" else "ingress"]> strs) (delete "flow_direction" bigs)
  | None => with_maps j strs bigs
  end.
Proof. reflexivity. Qed.

(** One more field of each kind. *)
Lemma with_str w x v : (x, v) ∈ field_strs → put_str x v (with_fields w) = with_fields (also w x).
Proof.
  intros Hin. assert (x ∈ field_strs.*1) as Hx by (by apply (list_elem_of_fmap_2 fst _ (x, v))).
  assert (x ∉ "FlowDirection" :: field_bigs.*1) as Hno.
  { clear Hin. revert x Hx. apply Forall_forall. apply (bool_decide_unpack _). vm_compute. exact I. }
  unfold with_fields. rewrite plain_same, bigs_same; [|done|by apply in_left'].
  rewrite put_str_maps. f_equal. unfold strs_with. rewrite (wanted_insert w field_strs _ x v field_strs_nodup Hin), also_other; [done|by apply head_differs in Hno].
Qed.
Lemma with_big w x v : (x, v) ∈ field_bigs → put_big x v (with_fields w) = with_fields (also w x).
Proof.
  intros Hin. assert (x ∈ field_bigs.*1) as Hx by (by apply (list_elem_of_fmap_2 fst _ (x, v))).
  assert (x ∉ "FlowDirection" :: field_strs.*1) as Hno.
  { clear Hin. revert x Hx. apply Forall_forall. apply (bool_decide_unpack _). vm_compute. exact I. }
  unfold with_fields. rewrite plain_same, strs_same; [|done|by apply in_right'].
  rewrite put_big_maps. f_equal. unfold bigs_with. rewrite (wanted_insert w field_bigs _ x v field_bigs_nodup Hin), also_other; [done|by apply head_differs in Hno].
Qed.
Lemma with_plain w x (f : JCHF → JCHF) : (∀ j strs bigs, f (with_maps j strs bigs) = with_maps (f j) strs bigs) →
  bool_decide (x ∉ "FlowDirection" :: field_strs.*1 ++ field_bigs.*1) = true →
  f (plain_fields w) = plain_fields (also w x) → f (with_fields w) = with_fields (also w x).
Proof.
  intros Hf Hx E. apply bool_decide_eq_true in Hx.
  assert (x ∉ "FlowDirection" :: field_strs.*1) as Hs by (intros H; apply Hx; apply in_left; exact H).
  assert (x ∉ "FlowDirection" :: field_bigs.*1) as Hb by (intros H; apply Hx; apply in_right; exact H).
  unfold with_fields. rewrite Hf, E, (strs_same w x Hs), (bigs_same w x Hb). reflexivity.
Qed.
Lemma with_direction w : set_direction (with_fields w) = with_fields (also w "FlowDirection").
Proof.
  unfold with_fields. rewrite plain_same by left. rewrite set_direction_maps.
  assert ("flow_direction" ∉ field_bigs.*1) as Hf by (apply (bool_decide_unpack _); vm_compute; exact I).
  assert ("FlowDirection" ∉ field_strs.*1) as Hs by (apply (bool_decide_unpack _); vm_compute; exact I).
  assert ("FlowDirection" ∉ field_bigs.*1) as Hb by (apply (bool_decide_unpack _); vm_compute; exact I).
  assert (bigs_with w !! "flow_direction" = if w "FlowDirection" then None else b !! "flow_direction") as ->.
  { unfold bigs_with. rewrite (wanted_other _ _ _ _ Hf). destruct (w "FlowDirection"); [apply lookup_delete_eq|reflexivity]. }
  assert (∀ m : gmap string string, wanted (also w "FlowDirection") field_strs m = wanted w field_strs m) as Es by (intros m; apply wanted_also; assumption).
  assert (∀ m : gmap string Z, wanted (also w "FlowDirection") field_bigs m = wanted w field_bigs m) as Eb by (intros m; apply wanted_also; assumption).
  assert (also w "FlowDirection" "FlowDirection" = true) as Ea by apply orb_true_r.
  unfold strs_with, bigs_with. rewrite Es, Eb, Ea. unfold direction_str.
  destruct (w "FlowDirection"); [reflexivity|].
  destruct (b !! "flow_direction") as [v|] eqn:E; [|rewrite (delete_id b _ E); reflexivity].
  rewrite <-(wanted_delete_base _ _ _ _ Hf), <-(wanted_insert_base _ _ _ _ _ Hs). reflexivity.
Qed.

Ltac also_literals :=
  repeat match goal with
  | |- context [also ?w ?x ?f] => let b := eval vm_compute in (String.eqb f x) in change (also w x f) with (w f || b) end.
Ltac extra_field :=
  unfold plain_fields, egress; cbv zeta; also_literals; rewrite ?orb_false_r, ?orb_true_r;
  try lazymatch goal with |- (if ?c then _ else _) = _ => destruct c; cbn [negb]; rewrite ?andb_true_r, ?andb_false_r end;
  reflexivity.
Ltac plain_case :=
  lazymatch goal with |- _ = with_fields (also ?w ?x) =>
    pattern (with_fields w); lazymatch goal with |- (λ j, @?f j = _) _ => apply (with_plain w x f); [intros j strs bigs|reflexivity|]; cbv beta end end.

Lemma with_fields_step w :
  Forall (λ c, c.2 (with_fields w) = with_fields (also w c.1)) (field_cases fmsg (default 0 (b !! "flow_direction"))).
Proof.
  unfold field_cases. repeat (apply Forall_cons; split). all: cbn [fst snd]; try apply Forall_nil_2.
  all: try (apply with_str; unfold field_strs; rewrite !elem_of_cons; by tauto).
  all: try (apply with_big; cbv [field_bigs fmap list_fmap]; cbn [fst snd]; rewrite !elem_of_cons; by tauto).
  all: try apply with_direction.
  all: plain_case.
  all: lazymatch goal with |- _ = with_maps _ _ _ => repeat case_match; reflexivity | _ => extra_field end.
Qed.
End fields.

Lemma with_no_field fmsg i s b : CustomStr i = Some s → CustomBigInt i = Some b → with_fields fmsg i s b (λ _, false) = i.
Proof. destruct i. intros [= ->] [= ->]. reflexivity. Qed.

(** The fields of a flow are set whatever their order and however often they are listed. *)
Lemma set_fields_listed fmsg flds i s b : CustomStr i = Some s → CustomBigInt i = Some b →
  set_fields fmsg flds i = with_fields fmsg i s b (λ f, existsb (String.eqb f) flds).
Proof.
  intros Hs Hb. unfold set_fields, big_at, map_get. rewrite Hb. rewrite <-(with_no_field fmsg i s b Hs Hb) at 1.
  change (map_range (Some b)) with b.
  assert (∀ w, foldl (λ i field, switch (field_cases fmsg (default 0 (b !! "flow_direction"))) field i) (with_fields fmsg i s b w) flds =
    with_fields fmsg i s b (λ f, w f || existsb (String.eqb f) flds)) as H; [|apply H].
  induction flds as [|x flds IH]; intros w; cbn [foldl].
  - apply with_fields_ext. intros f _. cbn [existsb]. by rewrite orb_false_r.
  - transitivity (foldl (λ i field, switch (field_cases fmsg (default 0 (b !! "flow_direction"))) field i) (with_fields fmsg i s b (also w x)) flds).
    + f_equal. destruct (decide (x ∈ field_names fmsg b)) as [Hx|Hx].
      * destruct (switch_in (field_cases fmsg (default 0 (b !! "flow_direction"))) (λ n f, f (with_fields fmsg i s b w) = with_fields fmsg i s b (also w n)) x (with_fields fmsg i s b w))
          as (f & E & ->); [|apply with_fields_step|exact Hx|exact E].
        apply (bool_decide_unpack _). vm_compute. exact I.
      * rewrite switch_other by exact Hx. symmetry. by apply with_fields_other.
    + rewrite IH. apply with_fields_ext. intros f _. cbn [existsb]. unfold also. by rewrite orb_assoc.
Qed.

(** ** Unknown fields *)

Section wire.
Context `{Protowire}.

Inductive wire_value := Varint (v : Z) | Bytes (bs : list byte) | OtherValue.
Definition wire_type_of (v : wire_value) : wire_type :=
  match v with Varint _ => VarintType | Bytes _ => BytesType | OtherValue => OtherType end.

(** A field and the bytes it is sent as. *)
Record wire_field := mkWireField { wf_num : Z; wf_tag : list byte; wf_data : list byte; wf_value : wire_value }.

(** The protobuf functions take an encoded field apart, whatever follows it. *)
Record well_formed (f : wire_field) : Prop := {
  wf_num_ok : in_s 32 (wf_num f);
  wf_tag_ok : (0 < length (wf_tag f))%nat;
  wf_tag_parse rest : ConsumeTag (wf_tag f ++ rest) = (wf_num f, wire_type_of (wf_value f), Z.of_nat (length (wf_tag f)));
  wf_data_parse rest : ConsumeFieldValue (wf_num f) (wire_type_of (wf_value f)) (wf_data f ++ rest) = Z.of_nat (length (wf_data f));
  wf_value_parse : match wf_value f with
    | Varint v => ConsumeVarint (wf_data f) = v
    | Bytes bs => ConsumeBytes (wf_data f) = bs ∧ ConsumeString (wf_data f) = String.string_of_list_byte bs
    | OtherValue => True end }.

Definition wire_bytes (fs : list wire_field) : list byte := concat ((λ f, wf_tag f ++ wf_data f) <$> fs).

(** What a field of the configuration becomes. *)
Definition custom_value (name : string) (v : wire_value) (i : JCHF) : JCHF :=
  match v with
  | Varint v => if ip_field name then put_str name (IP_String (Int2ip (wrapu 32 v))) i else put_big name (wraps 64 v) i
  | Bytes bs =>
      put_str name (if ip_field name then IP_String (if (length bs =? 4)%nat then v4InV6Prefix ++ rev bs else bs)
                    else String.string_of_list_byte bs) i
  | OtherValue => i
  end.
Definition custom_values (pb : gmap Z pbInfo) (fs : list wire_field) (i : JCHF) : JCHF :=
  foldl (λ i f, match pb !! wf_num f with Some p => custom_value (pb_Name p) (wf_value f) i | None => i end) i fs.

Lemma slice_mid (l m r : list byte) : slice (l ++ m ++ r) (Z.of_nat (length l)) (Z.of_nat (length l) + Z.of_nat (length m)) = Ok m.
Proof.
  unfold slice. rewrite !length_app, (proj2 (Z.leb_le _ _)), (proj2 (Z.leb_le _ _)), (proj2 (Z.leb_le _ _)) by lia. cbn [andb].
  f_equal. rewrite Nat2Z.id, drop_app_length.
  replace (Z.to_nat (Z.of_nat (length l) + Z.of_nat (length m) - Z.of_nat (length l))) with (length m) by lia. apply take_app_length.
Qed.
Lemma slice_end (l m : list byte) : slice (l ++ m) (Z.of_nat (length l)) (Z.of_nat (length (l ++ m))) = Ok m.
Proof. pose proof (slice_mid l m []) as E. rewrite app_nil_r in E. rewrite length_app, Nat2Z.inj_add. exact E. Qed.

Lemma map_custom_value f name i : well_formed f → map_custom name (wire_type_of (wf_value f)) (wf_data f) i = custom_value name (wf_value f) i.
Proof.
  intros [_ _ _ _ Hv]. destruct (wf_value f) as [v|bs|]; cbn [wire_type_of map_custom custom_value]; [by rewrite Hv| |done].
  destruct Hv as [-> ->]. by destruct (ip_field name).
Qed.

(** The loop reads well-formed fields to the end. *)
Lemma mapCustoms_fields fuel pb fs pre i : Forall well_formed fs → (length fs < fuel)%nat →
  Z.of_nat (length (pre ++ wire_bytes fs)) < 2 ^ 63 →
  mapCustoms_loop fuel pb (pre ++ wire_bytes fs) (Z.of_nat (length pre)) i = Ok (custom_values pb fs i).
Proof.
  revert fuel pre i. induction fs as [|f fs IH]; intros fuel pre i Hf Hfuel Hlen; (destruct fuel as [|fuel]; [cbn in Hfuel; lia|]).
  - cbn [wire_bytes concat fmap list_fmap mapCustoms_loop]. by rewrite app_nil_r, (proj2 (Z.ltb_ge _ _)) by lia.
  - apply Forall_cons in Hf as [Hf Hfs]. pose proof (wf_tag_ok f Hf) as Ht. pose proof (wf_num_ok f Hf) as Hn.
    change (wire_bytes (f :: fs)) with ((wf_tag f ++ wf_data f) ++ wire_bytes fs) in *. rewrite <-!app_assoc in *.
    cbn [mapCustoms_loop]. rewrite !length_app in Hlen.
    rewrite (proj2 (Z.ltb_lt _ _)) by (rewrite !length_app; lia). rewrite slice_end. cbn [mbind res_bind].
    rewrite (wf_tag_parse f Hf).
    rewrite (wraps_id 64 (_ + _)) by (unfold in_s; lia). rewrite <-Nat2Z.inj_add, <-length_app.
    rewrite (app_assoc pre), slice_end. cbn [mbind res_bind]. rewrite (wf_data_parse f Hf).
    rewrite !(wraps_id 64 (_ + _)) by (unfold in_s; rewrite ?length_app; lia). rewrite slice_mid. cbn [mbind res_bind].
    rewrite (wraps_id 32 _ eq_refl Hn). rewrite <-Nat2Z.inj_add, <-length_app, app_assoc.
    rewrite IH; [|exact Hfs|cbn in Hfuel; lia|rewrite !length_app; lia]. cbn [custom_values foldl]. f_equal.
    unfold custom_values. f_equal. destruct (pb !! wf_num f); [by apply map_custom_value|done].
Qed.
End wire.

(** ** The conversion *)

Section conversion.
Context `{Protowire}.

(** The configured columns of a flow. *)
Definition columns_of (t : KentikDriver) (fs : list wire_field) (i : JCHF) : JCHF :=
  match pb2ixd t with Some pb => custom_values pb fs i | None => i end.
Definition start_record (t : KentikDriver) (fmsg : ProtoProducerMessage) : JCHF :=
  let i := source_fields t fmsg in if SampleRate i =? 0 then i <| SampleRate := 1 |> else i.

(** [i] has its maps. *)
Definition has_maps (i : JCHF) : Prop := is_Some (CustomStr i) ∧ is_Some (CustomBigInt i).
Lemma has_maps_start t fmsg : has_maps (start_record t fmsg).
Proof.
  unfold start_record, source_fields. cbv zeta. unfold has_maps.
  destruct (devices t !! IP_String (m_SamplerAddress fmsg)); [|destruct (devices t !! MissingDeviceIP)]; case_match; split; by eexists.
Qed.
Lemma has_maps_custom name v i : has_maps i → has_maps (custom_value name v i).
Proof. unfold has_maps. intros [? ?]. destruct v; cbn [custom_value]; [destruct (ip_field name)| |]; split; try done; by eexists. Qed.
Lemma has_maps_columns t fs i : has_maps i → has_maps (columns_of t fs i).
Proof.
  unfold columns_of, custom_values. destruct (pb2ixd t) as [pb|]; [|done]. revert i. induction fs as [|f fs IH]; intros i Hi; [done|].
  cbn [foldl]. apply IH. destruct (pb !! wf_num f); [by apply has_maps_custom|done].
Qed.

(** The message's unknown fields are those of [fs]. *)
Definition unknown_fields (fmsg : ProtoProducerMessage) (fs : list wire_field) : Prop :=
  m_Unknown fmsg = wire_bytes fs ∧ Forall well_formed fs ∧ Z.of_nat (length (m_Unknown fmsg)) < 2 ^ 63.

(** The flow a message becomes, with the listed fields. *)
Definition flow_record (t : KentikDriver) (fmsg : ProtoProducerMessage) (fs : list wire_field) (listed : string → bool) : JCHF :=
  let i := columns_of t fs (start_record t fmsg) in
  finish_fields (with_fields fmsg i (map_range (CustomStr i)) (map_range (CustomBigInt i)) listed).

Lemma toJCHF_record fuel fmsg t fs : unknown_fields fmsg fs → (length fs < fuel)%nat →
  toJCHF fuel fmsg t =
    Ok (mark (DeviceName (source_fields t fmsg)) t, flow_record t fmsg fs (λ f, existsb (String.eqb f) (fields t))).
Proof.
  intros (Hu & Hw & Hl) Hfuel. unfold toJCHF. cbv zeta. fold (start_record t fmsg).
  assert (mapCustoms fuel (pb2ixd (mark (DeviceName (source_fields t fmsg)) t)) fmsg (start_record t fmsg) =
    Ok (columns_of t fs (start_record t fmsg))) as ->.
  { unfold mapCustoms, columns_of. cbn [mark pb2ixd]. destruct (pb2ixd t) as [pb|]; [|done].
    rewrite Hu in *. apply (mapCustoms_fields fuel pb fs []); [done|done|exact Hl]. }
  cbn [mbind res_bind]. f_equal. f_equal. unfold flow_record. cbv zeta. f_equal.
  destruct (has_maps_columns t fs _ (has_maps_start t fmsg)) as [[s Hs] [b Hb]].
  rewrite (set_fields_listed fmsg _ _ s b Hs Hb). by rewrite Hs, Hb.
Qed.

(** What the columns and the last step leave alone. *)
Lemma columns_keep {A} (f : JCHF → A) t fs i : (∀ k v i, f (put_str k v i) = f i) → (∀ k v i, f (put_big k v i) = f i) →
  f (columns_of t fs i) = f i.
Proof.
  intros Hs Hb. unfold columns_of, custom_values. destruct (pb2ixd t) as [pb|]; [|done]. revert i. induction fs as [|w fs IH]; intros i; [done|].
  cbn [foldl]. rewrite IH. destruct (pb !! wf_num w) as [p|]; [|done]. destruct (wf_value w); cbn [custom_value]; [|by rewrite Hs|done].
  destruct (ip_field _); [by rewrite Hs|by rewrite Hb].
Qed.
Lemma finish_keep {A} (f : JCHF → A) i : (∀ k v i, f (put_str k v i) = f i) → f (finish_fields i) = f i.
Proof. intros Hs. unfold finish_fields. cbv zeta. rewrite !Hs. by destruct (map_range (CustomStr i) !! "FlowDirection"). Qed.
Definition counters (i : JCHF) : list Z := [OutBytes i; OutPkts i; InBytes i; InPkts i].
Lemma counters_at i a b c d : counters i = [a; b; c; d] → OutBytes i = a ∧ OutPkts i = b ∧ InBytes i = c ∧ InPkts i = d.
Proof. unfold counters. by intros [= <- <- <- <-]. Qed.
Lemma counters_start t fmsg : counters (start_record t fmsg) = [0; 0; 0; 0].
Proof.
  unfold start_record, source_fields. cbv zeta.
  destruct (devices t !! IP_String (m_SamplerAddress fmsg)); [|destruct (devices t !! MissingDeviceIP)]; by case_match.
Qed.
Lemma finish_direction i : map_range (CustomStr (finish_fields i)) !! "FlowDirection" =
  Some (default "ingress" (map_range (CustomStr i) !! "FlowDirection")).
Proof.
  unfold finish_fields. cbv zeta. set (i0 := match map_range (CustomStr i) !! "FlowDirection" with Some _ => i | None => _ end).
  change (<["dst_endpoint" := String.append (DstAddr i0) (String.append ":" (Itoa (L4DstPort i0)))]>
    (<["src_endpoint" := String.append (SrcAddr i0) (String.append ":" (Itoa (L4SrcPort i0)))]> (map_range (CustomStr i0))) !! "FlowDirection" = Some (default "ingress" (map_range (CustomStr i) !! "FlowDirection"))).
  rewrite !lookup_insert_ne by done. unfold i0. destruct (map_range (CustomStr i) !! "FlowDirection") as [d|] eqn:E; [exact E|].
  change (<["FlowDirection" := "ingress"]> (map_range (CustomStr i)) !! "FlowDirection" = Some "ingress"). apply lookup_insert_eq.
Qed.
Lemma listed_in f l : f ∈ l → existsb (String.eqb f) l = true.
Proof. intros Hin. apply existsb_exists. exists f. split; [by apply list_elem_of_In|apply String.eqb_refl]. Qed.
End conversion.

(** A message whose extra fields are well formed becomes a flow, and the flow depends
    only on which field names are configured, not on their order or repetition. *)
Theorem toJCHF_listed `{Protowire} fuel fmsg t t' fs :
  unknown_fields fmsg fs → (length fs < fuel)%nat → (∀ f, f ∈ fields t ↔ f ∈ fields t') →
  devices t' = devices t → resolv t' = resolv t → pb2ixd t' = pb2ixd t →
  ∃ k k' j, toJCHF fuel fmsg t = Ok (k, j) ∧ toJCHF fuel fmsg t' = Ok (k', j).
Proof.
  intros Hu Hf He Ed Er Ep. eexists _, _, (flow_record t fmsg fs (λ f, existsb (String.eqb f) (fields t))).
  rewrite !(toJCHF_record fuel fmsg _ fs Hu Hf). split; [reflexivity|].
  assert (flow_record t' fmsg fs = flow_record t fmsg fs) as -> by (unfold flow_record, columns_of, start_record, source_fields; by rewrite Ed, Er, Ep).
  do 2 f_equal. unfold flow_record. cbv zeta. f_equal. apply with_fields_ext. intros f _.
  apply eq_bool_prop_intro. rewrite !Is_true_true, !existsb_exists. split; intros (x & Hx & E); exists x; (split; [|exact E]);
    rewrite <-list_elem_of_In in *; by apply He.
Qed.

(** The direction a router reports decides which pair of counters a flow has: the
    other pair stays 0, and the direction is written out when that field is listed. *)
Theorem flow_direction `{Protowire} fuel fmsg t fs :
  let b := map_range (CustomBigInt (columns_of t fs (start_record t fmsg))) in
  unknown_fields fmsg fs → (length fs < fuel)%nat → "Bytes" ∈ fields t → "Packets" ∈ fields t →
  ∃ t' j, toJCHF fuel fmsg t = Ok (t', j) ∧
    (if egress b then OutBytes j = m_Bytes fmsg ∧ OutPkts j = m_Packets fmsg ∧ InBytes j = 0 ∧ InPkts j = 0
     else InBytes j = m_Bytes fmsg ∧ InPkts j = m_Packets fmsg ∧ OutBytes j = 0 ∧ OutPkts j = 0) ∧
    ("FlowDirection" ∈ fields t → is_Some (b !! "flow_direction") →
     map_range (CustomStr j) !! "FlowDirection" = Some (if egress b then "egress" else "ingress")).
Proof.
  intros b Hu Hf Hb Hp. eexists _, _. split; [apply (toJCHF_record fuel fmsg t fs Hu Hf)|]. unfold flow_record. cbv zeta. fold b.
  set (i := columns_of t fs (start_record t fmsg)) in *. set (w := λ f, existsb (String.eqb f) (fields t)).
  assert (counters i = [0; 0; 0; 0]) as Hc by (unfold i; rewrite (columns_keep counters); [apply counters_start|done..]).
  set (j := with_fields fmsg i (map_range (CustomStr i)) b w).
  assert (counters j = if egress b then [m_Bytes fmsg; m_Packets fmsg; 0; 0] else [0; 0; m_Bytes fmsg; m_Packets fmsg]) as Ej.
  { injection Hc as C1 C2 C3 C4.
    change (counters j) with [if w "Bytes" && egress b then m_Bytes fmsg else OutBytes i; if w "Packets" && egress b then m_Packets fmsg else OutPkts i;
      if w "Bytes" && negb (egress b) then m_Bytes fmsg else InBytes i; if w "Packets" && negb (egress b) then m_Packets fmsg else InPkts i].
    rewrite C1, C2, C3, C4. unfold w. rewrite !listed_in by done. by destruct (egress b). }
  rewrite <-(finish_keep counters j) in Ej by done. split; [destruct (egress b); apply counters_at in Ej; tauto|].
  intros Hd [v Hv]. rewrite finish_direction. change (map_range (CustomStr j)) with (strs_with fmsg (map_range (CustomStr i)) b w).
  unfold strs_with. replace (w "FlowDirection") with true by (symmetry; by apply listed_in).
  rewrite wanted_other by (apply (bool_decide_unpack _); vm_compute; exact I). unfold direction_str, egress. rewrite Hv. cbn [default].
  by rewrite lookup_insert_eq.
Qed.

(** ** Integers *)

Record typed_message (m : ProtoProducerMessage) : Prop := {
  tm_32 : Forall (in_u 32) [ m_SrcPort m; m_DstPort m; m_InIf m; m_OutIf m; m_SrcVlan m; m_DstVlan m; m_IpTos m; m_TcpFlags m;
    m_SrcAs m; m_DstAs m; m_NextHopAs m ];
  tm_64 : Forall (in_u 64) [ m_Bytes m; m_Packets m ] }.
Record typed_device (d : SourceDevice) : Prop := {
  td_id : in_u 64 (Dev_ID d); td_company : in_u 64 (Dev_CompanyID d); td_rate : in_u 32 (Dev_SampleRate d) }.

(** Setting one integer field. *)
Lemma typed_fields i j : typed i → Forall (λ wv, in_u wv.1 wv.2) (unsigned_fields j) → signed_fields j = signed_fields i →
  CustomInt j = CustomInt i → CustomBigInt j = CustomBigInt i → typed j.
Proof. intros [_ T2 T3 T4] H1 H2 H3 H4. split; [done|by rewrite H2|by rewrite H3|by rewrite H4]. Qed.

Lemma typed_timestamp ts i : in_s 64 ts → typed i → typed (i <| Timestamp := ts |>).
Proof.
  intros Hts [T1 T2 T3 T4]. split; [exact T1| |exact T3|exact T4]. unfold signed_fields in T2. apply Forall_cons in T2 as [_ T2]. by apply Forall_cons_2.
Qed.
Lemma typed_direction i : typed i → typed (set_direction i).
Proof. intros T. unfold set_direction. destruct (_ !! _); [|done]. by apply typed_str, typed_del_big. Qed.

Ltac typed_field i T :=
  let U := fresh "U" in apply (typed_fields i _ T); [|reflexivity..]; pose proof (ty_unsigned i T) as U; unfold unsigned_fields in U;
  repeat (apply Forall_cons in U as [? U]); cbn [fst snd] in *;
  repeat (apply Forall_cons_2; [try assumption|]); try apply Forall_nil_2; cbn [fst snd];
  try assumption; try (by apply wrapu_range); try (by eapply (in_u_widen 64 32)).

Section integers.
Context `{Protowire}.

Lemma typed_cases fmsg dir : typed_message fmsg → Forall (λ c, ∀ i, typed i → typed (c.2 i)) (field_cases fmsg dir).
Proof.
  intros [F1 F2]. repeat (apply Forall_cons in F1 as [? F1]). repeat (apply Forall_cons in F2 as [? F2]).
  unfold field_cases. repeat (apply Forall_cons; split); try apply Forall_nil_2; cbn [fst snd].
  all: try (intros i T; apply typed_str; exact T).
  all: try (intros i T; apply typed_big; [by apply wraps_range|exact T]).
  all: try (intros i T; apply typed_timestamp; [by apply wraps_range|exact T]).
  all: try exact typed_direction.
  all: intros i T; repeat case_match; try exact T; typed_field i T.
Qed.
Lemma typed_switch cases x i : Forall (λ c : string * (JCHF → JCHF), ∀ i, typed i → typed (c.2 i)) cases → typed i → typed (switch cases x i).
Proof. intros Hf Hi. induction Hf as [|[n f] cases Hc _ IH]; [done|]. cbn [switch]. destruct (String.eqb x n); [by apply Hc|done]. Qed.
Lemma typed_set_fields fmsg flds i : typed_message fmsg → typed i → typed (set_fields fmsg flds i).
Proof.
  intros Hm. unfold set_fields. cbv zeta. generalize (big_at "flow_direction" i) as d. intros d. revert i.
  induction flds as [|x flds IH]; intros i Hi; [done|]. cbn [foldl]. apply IH. apply typed_switch; [by apply typed_cases|done].
Qed.
Lemma typed_finish_fields i : typed i → typed (finish_fields i).
Proof. intros Hi. unfold finish_fields. cbv zeta. rewrite !typed_str. case_match; [done|by rewrite typed_str]. Qed.
Lemma typed_columns t fs i : typed i → typed (columns_of t fs i).
Proof.
  unfold columns_of, custom_values. destruct (pb2ixd t) as [pb|]; [|done]. revert i. induction fs as [|f fs IH]; intros i Hi; [done|].
  cbn [foldl]. apply IH. destruct (pb !! wf_num f); [|done]. destruct (wf_value f); cbn [custom_value]; [destruct (ip_field _)|by apply typed_str|done].
  - by apply typed_str.
  - apply typed_big; [by apply wraps_range|done].
Qed.
Lemma in_u_0 w : 0 ≤ w → in_u w 0.
Proof. intros Hw. split; [done|]. by apply Z.pow_pos_nonneg. Qed.
Lemma in_s_0 : in_s 64 0.
Proof. by split. Qed.
Lemma typed_source t fmsg : map_Forall (λ _ d, typed_device d) (devices t) → typed (source_fields t fmsg).
Proof.
  intros Hd. unfold source_fields. cbv zeta.
  destruct (devices t !! IP_String (m_SamplerAddress fmsg)) as [dev|] eqn:E; [destruct (Hd _ _ E)|destruct (devices t !! MissingDeviceIP)].
  all: split; [| |exact (map_Forall_empty (M := gmap string) _)..].
  all: repeat (apply Forall_cons_2; [cbn [fst snd]; first [assumption | by apply in_u_0 | by apply in_s_0]|]); apply Forall_nil_2.
Qed.
Lemma typed_start t fmsg : map_Forall (λ _ d, typed_device d) (devices t) → typed (start_record t fmsg).
Proof.
  intros Hd%(typed_source t fmsg). unfold start_record. cbv zeta. case_match; [|done]. typed_field (source_fields t fmsg) Hd.
Qed.

Lemma rate_start t fmsg : SampleRate (start_record t fmsg) ≠ 0.
Proof. unfold start_record. cbv zeta. destruct (Z.eqb_spec (SampleRate (source_fields t fmsg)) 0); [done|done]. Qed.
End integers.

(** A flow's integers fit their Go types, given a message and devices whose integers
    do; counters and ports are taken as they are, numbers for the custom columns wrap
    to 64 bits signed. *)
Theorem toJCHF_typed `{Protowire} fuel fmsg t fs : unknown_fields fmsg fs → (length fs < fuel)%nat →
  typed_message fmsg → map_Forall (λ _ d, typed_device d) (devices t) →
  ∃ t' j, toJCHF fuel fmsg t = Ok (t', j) ∧ typed j.
Proof.
  intros Hu Hf Hm Hd. eexists _, _. split; [by apply toJCHF_record|]. unfold flow_record. cbv zeta. apply typed_finish_fields.
  assert (typed (columns_of t fs (start_record t fmsg))) as Ht by by apply typed_columns, typed_start.
  destruct (has_maps_columns t fs _ (has_maps_start t fmsg)) as [[s Hs] [b Hb]]. rewrite Hs, Hb.
  change (map_range (Some s)) with s. change (map_range (Some b)) with b.
  rewrite <-(set_fields_listed fmsg (fields t) _ s b Hs Hb). by apply typed_set_fields.
Qed.

(** The sample rate of a flow is 0 exactly when the rate a router reports is a
    positive multiple of 2^32; without a reported rate it is the device's, or 1. *)
Theorem sample_rate_zero `{Protowire} fuel fmsg t fs : unknown_fields fmsg fs → (length fs < fuel)%nat →
  ∃ t' j, toJCHF fuel fmsg t = Ok (t', j) ∧
    (SampleRate j = 0 ↔ "SamplingRate" ∈ fields t ∧ 0 < m_SamplingRate fmsg ∧ (2 ^ 32 | m_SamplingRate fmsg)).
Proof.
  intros Hu Hf. eexists _, _. split; [by apply toJCHF_record|]. unfold flow_record. cbv zeta.
  rewrite (finish_keep SampleRate) by done. set (i := columns_of t fs (start_record t fmsg)).
  assert (SampleRate i ≠ 0) as Hi by (unfold i; rewrite (columns_keep SampleRate) by done; apply rate_start).
  match goal with |- context [with_fields fmsg i ?s ?b ?w] => change (SampleRate (with_fields fmsg i s b w)) with
    (if w "SamplingRate" && (0 <? m_SamplingRate fmsg) then wrapu 32 (m_SamplingRate fmsg) else SampleRate i) end. cbv beta.
  destruct (decide ("SamplingRate" ∈ fields t)) as [Hin|Hin].
  - rewrite (listed_in _ _ Hin). cbn [andb]. destruct (Z.ltb_spec 0 (m_SamplingRate fmsg)) as [Hp|Hp]; [|split; [done|lia]].
    unfold wrapu. rewrite Z.mod_divide by done. tauto.
  - replace (existsb _ (fields t)) with false; [by split; [|tauto]|]. symmetry. apply not_true_iff_false. rewrite existsb_exists.
    intros (x & Hx & <-%String.eqb_eq). apply Hin. by apply list_elem_of_In.
Qed.

(** A listed receive time is kept in nanoseconds. *)
Lemma received_nanoseconds `{Protowire} fuel fmsg t fs : unknown_fields fmsg fs → (length fs < fuel)%nat → "TimeReceived" ∈ fields t →
  ∃ t' j, toJCHF fuel fmsg t = Ok (t', j) ∧ Timestamp j = wraps 64 (m_TimeReceivedNs fmsg).
Proof.
  intros Hu Hf Hin. eexists _, _. split; [by apply toJCHF_record|]. unfold flow_record. cbv zeta. rewrite (finish_keep Timestamp) by done.
  match goal with |- Timestamp (with_fields fmsg ?i ?s ?b ?w) = _ => change (Timestamp (with_fields fmsg i s b w)) with
    (if w "TimeReceived" then wraps 64 (m_TimeReceivedNs fmsg) else Timestamp i) end. cbv beta. by rewrite (listed_in _ _ Hin).
Qed.

(** ** Batches *)

Definition inputs_of (ws : list wake) : list JCHF := omap (λ w, match w with Input j => Some j | SendTicker => None end) ws.

Lemma run_step_batches maxBatch w s seen :
  concat (jchfChan s) ++ batch s = seen → Forall (λ l, 1 ≤ Z.of_nat (length l) ≤ Z.max 1 maxBatch) (jchfChan s) →
  Z.of_nat (length (batch s)) < Z.max 1 maxBatch →
  let s' := run_step maxBatch w s in
  concat (jchfChan s') ++ batch s' = seen ++ inputs_of [w] ∧
  Forall (λ l, 1 ≤ Z.of_nat (length l) ≤ Z.max 1 maxBatch) (jchfChan s') ∧ Z.of_nat (length (batch s')) < Z.max 1 maxBatch.
Proof.
  destruct s as [bt ch]. cbn [batch jchfChan]. intros <- Hf Hl. cbv zeta. destruct w as [j|]; cbn [run_step batch jchfChan inputs_of omap list_omap].
  - pose proof (length_app bt [j]) as El. cbn [length] in El. destruct (Z.leb_spec maxBatch (Z.of_nat (length (bt ++ [j])))); cbn [batch jchfChan].
    + rewrite concat_app, Forall_app, Forall_singleton. cbn [concat length]. rewrite !app_nil_r, app_assoc. split_and!; [done|done|lia..].
    + rewrite app_assoc. split_and!; [done|done|lia].
  - rewrite app_nil_r. destruct (Nat.ltb_spec 0 (length bt)); cbn [batch jchfChan]; [|done].
    rewrite concat_app, Forall_app, Forall_singleton. cbn [concat length]. rewrite !app_nil_r. split_and!; [done|done|lia..].
Qed.

(** The batches a driver sends are, in order, the flows it was given, less those it
    still holds; none is empty or longer than the limit, and the ticker leaves none. *)
Theorem run_batches maxBatch ws :
  let s := run maxBatch ws in
  concat (jchfChan s) ++ batch s = inputs_of ws ∧
  Forall (λ l, 1 ≤ Z.of_nat (length l) ≤ Z.max 1 maxBatch) (jchfChan s) ∧
  Z.of_nat (length (batch s)) < Z.max 1 maxBatch ∧
  batch (run maxBatch (ws ++ [SendTicker])) = [].
Proof.
  cbv zeta. assert (∀ (A B C D : Prop), A ∧ B ∧ C → D → A ∧ B ∧ C ∧ D) as Hsplit by tauto. apply Hsplit; clear Hsplit.
  - induction ws as [|w ws (E & Hf & Hl)] using rev_ind; [repeat split; [apply Forall_nil_2|cbn; lia]|].
    unfold run. rewrite foldl_app. fold (run maxBatch ws). unfold inputs_of. rewrite omap_app. by apply run_step_batches.
  - unfold run. rewrite foldl_app. fold (run maxBatch ws). by destruct (run maxBatch ws) as [[|j bt] ch].
Qed.

(** ** Special sources *)

(** An element that is mapped arrives: its destination is a formatter's name, and the
    driver knows that formatter's number. *)
Definition arrives (c : ProducerConfig) (m : NetFlowMapField) : bool :=
  existsb (λ pf, String.eqb (PF_Name pf) (MF_Destination m) &&
    bool_decide (pb2ixd (SetConfig c (mkDriver ∅ [] ∅ 0 None None)) ≫= (λ pb, pb !! PF_Index pf) = Some (mkPbInfo (PF_Name pf) (PF_Type pf)))) (Protobuf c).

(** Every element that a source's configuration maps has a column to arrive in,
    except that an ASA's count of packets sent is mapped to a name without one. *)
Theorem sources_mapped proto :
  let c := source_config proto in
  filter (λ m, arrives c m = false) (IPFIX_Mapping c ++ NetFlowV9_Mapping c) =
    if String.eqb proto ASA then [element 299 "out_pkts"; element 299 "out_pkts"] else [].
Proof.
  cbv zeta. unfold source_config. destruct (String.eqb proto ASA); [by vm_compute|].
  destruct (String.eqb proto NBar); [by vm_compute|]. destruct (String.eqb proto PAN); by vm_compute.
Qed.

(** ** Examples *)

(** Protobuf's numbers: seven bits a byte, the low ones first. *)
Fixpoint varint (l : list byte) : Z * Z :=
  match l with
  | [] => (0, 0)
  | b :: l => if b2z b <? 128 then (b2z b, 1) else let '(v, n) := varint l in (b2z b - 128 + 128 * v, n + 1)
  end.
#[export] Instance ex_protowire : Protowire := {
  ConsumeTag l := let '(v, n) := varint l in
    (v / 8, match v mod 8 with 0 => VarintType | 2 => BytesType | _ => OtherType end, n);
  ConsumeFieldValue _ ty l := match ty with
    | VarintType => (varint l).2 | BytesType => (varint l).2 + (varint l).1 | OtherType => 0 end;
  ConsumeVarint l := (varint l).1;
  ConsumeBytes l := drop (Z.to_nat (varint l).2) l;
  ConsumeString l := String.string_of_list_byte (drop (Z.to_nat (varint l).2) l) }.

Definition ex_direction : wire_field := mkWireField 99 [Byte.x98; Byte.x06] [Byte.x01] (Varint 1).
Definition ex_application : wire_field :=
  mkWireField 100 [Byte.xa2; Byte.x06] [Byte.x03; Byte.x64; Byte.x6e; Byte.x73] (Bytes [Byte.x64; Byte.x6e; Byte.x73]).
Lemma ex_well_formed : Forall well_formed [ex_direction; ex_application].
Proof. repeat (apply Forall_cons_2; [split; [by split|cbn; lia|reflexivity|reflexivity|by repeat split]|]). apply Forall_nil_2. Qed.

Definition ex_message (rate : Z) : ProtoProducerMessage :=
  mkMessage "NETFLOW_V9" 1700000000000000000 7 rate (be_encode 4 167772161) 0 0 1500 3 (be_encode 4 167772162) (be_encode 4 134744072)
    2048 17 53 4242 1 2 0 0 10 20 0 0 0 64 0 0 0 0 0 0 64512 15169 [] 0 24 24 0 (wire_bytes [ex_direction; ex_application]).
Definition ex_device : SourceDevice := mkSourceDevice "edge" 17 3 100 (Some {["site" := "a"]}).
Definition ex_driver (flds : string) : KentikDriver :=
  match NewKentikDriver 2 {["10.0.0.1" := ex_device]} flds None with
  | Ok t => SetConfig (source_config NBar) t | _ => mkDriver ∅ [] ∅ 0 None None end.

Lemma ex_unknown rate : unknown_fields (ex_message rate) [ex_direction; ex_application].
Proof. split; [reflexivity|]. split; [exact ex_well_formed|]. vm_compute. reflexivity. Qed.

Lemma toJCHF_listed_witness : ∃ k k' j,
  toJCHF 3 (ex_message 1) (ex_driver "Bytes,SrcAddr,FlowDirection") = Ok (k, j) ∧
  toJCHF 3 (ex_message 1) (ex_driver "FlowDirection,SrcAddr,Bytes,SrcAddr") = Ok (k', j).
Proof.
  apply (toJCHF_listed 3 (ex_message 1) (ex_driver "Bytes,SrcAddr,FlowDirection") (ex_driver "FlowDirection,SrcAddr,Bytes,SrcAddr")
    [ex_direction; ex_application] (ex_unknown 1)); [cbn; lia| |reflexivity..].
  assert (fields (ex_driver "Bytes,SrcAddr,FlowDirection") = ["Bytes"; "SrcAddr"; "FlowDirection"]) as -> by (vm_compute; reflexivity).
  assert (fields (ex_driver "FlowDirection,SrcAddr,Bytes,SrcAddr") = ["FlowDirection"; "SrcAddr"; "Bytes"; "SrcAddr"]) as -> by (vm_compute; reflexivity).
  set_solver.
Defined.

Lemma ex_listed f : bool_decide (f ∈ fields (ex_driver FlowDefaultFields)) = true → f ∈ fields (ex_driver FlowDefaultFields).
Proof. apply bool_decide_eq_true. Qed.

Lemma flow_direction_witness : ∃ t' j, toJCHF 3 (ex_message 1) (ex_driver FlowDefaultFields) = Ok (t', j) ∧
  OutBytes j = 1500 ∧ InBytes j = 0 ∧ map_range (CustomStr j) !! "FlowDirection" = Some "egress".
Proof.
  destruct (flow_direction 3 (ex_message 1) (ex_driver FlowDefaultFields) [ex_direction; ex_application] (ex_unknown 1)) as (t' & j & E & Hc & Hd);
    [cbn; lia|apply ex_listed; vm_compute; reflexivity..|].
  exists t', j. split; [exact E|].
  match type of Hc with context [egress ?b] => assert (b !! "flow_direction" = Some 1) as Eb by (vm_compute; reflexivity);
    assert (egress b = true) as Ee by (unfold egress; rewrite Eb; reflexivity) end.
  rewrite Ee in Hc, Hd. destruct Hc as (H1 & _ & H3 & _). split; [exact H1|]. split; [exact H3|].
  apply Hd; [apply ex_listed; vm_compute; reflexivity|]. rewrite Eb. by eexists.
Defined.

Lemma toJCHF_typed_witness : ∃ t' j, toJCHF 3 (ex_message 1) (ex_driver FlowDefaultFields) = Ok (t', j) ∧ typed j.
Proof.
  apply (toJCHF_typed 3 (ex_message 1) (ex_driver FlowDefaultFields) [ex_direction; ex_application] (ex_unknown 1)); [cbn; lia| |].
  - split; apply (bool_decide_unpack _); vm_compute; exact I.
  - change (devices (ex_driver FlowDefaultFields)) with ({["10.0.0.1" := ex_device]} : gmap string SourceDevice).
    apply map_Forall_singleton. split; by split.
Defined.

Lemma sample_rate_zero_witness : ∃ t' j, toJCHF 3 (ex_message (2 ^ 33)) (ex_driver FlowDefaultFields) = Ok (t', j) ∧ SampleRate j = 0.
Proof.
  destruct (sample_rate_zero 3 (ex_message (2 ^ 33)) (ex_driver FlowDefaultFields) [ex_direction; ex_application] (ex_unknown _)) as (t' & j & E & H);
    [cbn; lia|]. exists t', j. split; [exact E|]. apply H. split_and!; [apply ex_listed; vm_compute; reflexivity|by vm_compute|by exists 2].
Defined.
