(* ===== verification/MibProfile.v ===== *)
(** SNMP profiles (src/pkg/inputs/snmp/mibs/profile.go): how profiles extend each other,
    how a device finds its profile, and which objects of it are polled.

    Profiles are the values the YAML parser gives; scripts are left out.  Regular
    expressions are compiled by an oracle. *)
From S2P Require Import Prelude GoStrings Jchf.
From S2P Require FlowToJCHF.
Local Open Scope Z_scope.

(** ** Data *)

Record OID := mkOID {
  o_Oid : string; o_Name : string; o_Enum : gomap Z; o_Tag : string; o_Conversion : string; o_PollTime : Z;
  o_MatchAttr : list string; o_Format : string; o_AllowDup : bool; o_Condition : string }.
Record Tag := mkTag { Column : OID; t_Tag : string }.
Record MIB := mkMIB {
  m_Mib : string; m_Table : OID; m_Symbols : list OID; m_MetricTags : list Tag; m_ForcedType : string; m_Symbol : OID;
  m_IsInterface : bool; m_WalkTable : bool; m_fromExtended : bool }.
Record Match := mkMatch { Regex : string; Target : string }.
Record Profile := mkProfile {
  Metrics : list MIB; Extends : list string; MetricTags : list Tag; From : string; Matches : gomap string;
  MatchesList : list Match; SysMap : gomap string; extended : bool; cMib : string; cOid : string }.

(** src/pkg/kt/snmp.go; the time of the last poll is in nanoseconds. *)
Definition Oidtype := Z.
Definition String_t : Oidtype := 2.
Definition Counter : Oidtype := 6.
Record MibCondition := mkCondition { TargetName : string; TargetValue : Z; TargetString : string }.
Record Mib := mkMib {
  mb_Oid : string; mb_Name : string; mb_Type : Oidtype; mb_Extra : string; mb_Tag : string; mb_Enum : gomap Z;
  mb_EnumRev : option (gmap Z string); mb_Conversion : string; mb_Mib : string; mb_Table : string; mb_PollDur : Z;
  mb_MatchAttr : gomap Regexp; mb_lastPoll : Z; mb_FromExtended : bool; mb_OtherTables : gomap bool; mb_Format : string;
  mb_AllowDup : bool; mb_Condition : option MibCondition; mb_VarSet : gomap (list Z); mb_XAttr : gomap string;
  mb_WalkTable : bool; mb_TableOid : string }.
Definition Mib_zero : Mib :=
  mkMib "" "" 0 "" "" None None "" "" "" 0 None 0 false None "" false None None None false "".

Definition EnableAllMibs : string := "USE_ALL_MIBS".
Definition PollAdjustTime : Z := 5.

(** [mb.GetName()]. *)
Definition GetName (mb : option Mib) : string :=
  match mb with
  | None => "missing_mib"
  | Some mb => if negb (String.eqb (mb_Tag mb) "") then mb_Tag mb else mb_Name mb
  end.

(** [mb.IsPollReady()] at the time [now]: the answer, and the object after it. *)
Definition set_lastPoll (t : Z) (mb : Mib) : Mib :=
  mkMib (mb_Oid mb) (mb_Name mb) (mb_Type mb) (mb_Extra mb) (mb_Tag mb) (mb_Enum mb) (mb_EnumRev mb) (mb_Conversion mb)
    (mb_Mib mb) (mb_Table mb) (mb_PollDur mb) (mb_MatchAttr mb) t (mb_FromExtended mb) (mb_OtherTables mb) (mb_Format mb)
    (mb_AllowDup mb) (mb_Condition mb) (mb_VarSet mb) (mb_XAttr mb) (mb_WalkTable mb) (mb_TableOid mb).
Definition IsPollReady (now : Z) (mb : Mib) : bool * Mib :=
  if mb_PollDur mb =? 0 then (true, mb)
  else if mb_lastPoll mb + mb_PollDur mb <? now then (true, set_lastPoll now mb) else (false, mb).

Definition set_OtherTables (o : gomap bool) (mb : Mib) : Mib :=
  mkMib (mb_Oid mb) (mb_Name mb) (mb_Type mb) (mb_Extra mb) (mb_Tag mb) (mb_Enum mb) (mb_EnumRev mb) (mb_Conversion mb)
    (mb_Mib mb) (mb_Table mb) (mb_PollDur mb) (mb_MatchAttr mb) (mb_lastPoll mb) (mb_FromExtended mb) o (mb_Format mb)
    (mb_AllowDup mb) (mb_Condition mb) (mb_VarSet mb) (mb_XAttr mb) (mb_WalkTable mb) (mb_TableOid mb).
Definition Extend (mb nm : Mib) : Mib :=
  set_OtherTables (Some (<[mb_Table nm := true]> (match mb_OtherTables mb with Some o => o | None => {[mb_Table mb := true]} end))) mb.

(** [mc.Check(input)] for a number, a string, or something else. *)
Inductive checked := CInt (z : Z) | CString (s : string) | COther.
Definition Check_condition (mc : option MibCondition) (input : checked) : bool :=
  match mc with
  | None => false
  | Some mc => match input with CInt z => wraps 64 z =? TargetValue mc | CString s => String.eqb s (TargetString mc) | COther => false end
  end.

Definition PollDur_of (sec : Z) : Z := Duration_mul (wraps 64 (sec - PollAdjustTime)) Second.

(** ** Names *)

Definition GetTableName (o : OID) : string :=
  if String.eqb (o_Name o) "" then ""
  else
    let name := ToLower (o_Name o) in
    if FlowToJCHF.HasSuffix name "xtable" then take_string (String.length (o_Name o) - 6) (o_Name o)
    else if FlowToJCHF.HasSuffix name "table" then take_string (String.length (o_Name o) - 5) (o_Name o)
    else o_Name o.

(** [strings.Trim] with spaces and double quotes. *)
Definition quote_or_space (c : ascii) : bool := Ascii.eqb c " " || Ascii.eqb c (Ascii.ascii_of_nat 34).
Fixpoint trim_while (f : ascii → bool) (s : string) : string :=
  match s with String c t => if f c then trim_while f t else s | EmptyString => s end.
Fixpoint rev_string (s acc : string) : string := match s with EmptyString => acc | String c t => rev_string t (String c acc) end.
Definition Trim_quotes (s : string) : string :=
  rev_string (trim_while quote_or_space (rev_string (trim_while quote_or_space s) "")) "".

Definition GetCondition (o : OID) : option MibCondition :=
  if String.eqb (o_Condition o) "" then None
  else match Split (o_Condition o) "=" with
  | [target; value] =>
      match Atoi value with
      | Some val => Some (mkCondition target val "")
      | None => Some (mkCondition target 0 (Trim_quotes value))
      end
  | _ => None
  end.

(** [GetMibAndOid]: the answer, and the profile, which keeps it. *)
Definition set_cache (mib oid : string) (p : Profile) : Profile :=
  mkProfile (Metrics p) (Extends p) (MetricTags p) (From p) (Matches p) (MatchesList p) (SysMap p) (extended p) mib oid.
Definition GetMibAndOid (p : option Profile) : string * string * option Profile :=
  match p with
  | None => ("computed", "computed", None)
  | Some p =>
      if negb (String.eqb (cMib p) "") then (cMib p, cOid p, Some p)
      else match List.find (λ m, String.eqb (o_Oid (m_Table m)) ".1.2.3.3") (Metrics p) with
      | Some m => (o_Name (m_Table m), o_Oid (m_Table m), Some (set_cache (o_Name (m_Table m)) (o_Oid (m_Table m)) p))
      | None => ("computed", "computed", Some p)
      end
  end.

Definition GetProfileName (p : option Profile) (override : string) : string :=
  if negb (String.eqb override "") then override
  else match p with
  | None => "snmp"
  | Some p => match Split (From p) "." with pt :: _ => if negb (String.eqb pt "") then pt else "snmp" | [] => "snmp" end
  end.

Definition GetMibs (p : Profile) : gmap string bool := foldl (λ mibs m, <[m_Mib m := true]> mibs) ∅ (Metrics p).

(** ** Extending *)

(** Profiles are shared by pointer: a heap of them, and maps from names to pointers. *)
Definition ptr := positive.
Abbreviation heap := (gmap ptr Profile).

Definition mark_extended (m : MIB) : MIB :=
  mkMIB (m_Mib m) (m_Table m) (m_Symbols m) (m_MetricTags m) (m_ForcedType m) (m_Symbol m) (m_IsInterface m) (m_WalkTable m) true.
(** [p.merge(ep)]; storing into a nil [SysMap] panics. *)
Definition merge (p ep : Profile) : res Profile :=
  sys ← match SysMap p with
    | Some m => Ok (Some (map_range (SysMap ep) ∪ m))
    | None => if decide (map_range (SysMap ep) = ∅) then Ok None else Panic "assignment to entry in nil map"
    end;
  Ok (mkProfile (Metrics p ++ (mark_extended <$> Metrics ep)) (Extends p) (MetricTags p ++ MetricTags ep) (From p) (Matches p)
    (MatchesList p) sys (extended p) (cMib p) (cOid p)).
Definition set_extended (p : Profile) : Profile :=
  mkProfile (Metrics p) (Extends p) (MetricTags p) (From p) (Matches p) (MatchesList p) (SysMap p) true (cMib p) (cOid p).

Definition deref (h : heap) (l : ptr) : res Profile :=
  match h !! l with Some p => Ok p | None => Panic "invalid memory address or nil pointer dereference" end.
Definition no_profile (name : string) : error := Errorf "You must set the %s extended profile." [FStr name].

Section extend.
Context (extends : gmap string ptr) (validate : bool).

(** The loop over [p.Extends]; [ext] extends a profile. *)
Fixpoint extend_loop (ext : ptr → heap → res (heap * option error)) (l : ptr) (names : list string) (h : heap) :
    res (heap * option error) :=
  match names with
  | [] => Ok (h, None)
  | name :: names =>
      match extends !! name with
      | None => if validate then Ok (h, Some (no_profile name)) else extend_loop ext l names h
      | Some el =>
          '(h, err) ← ext el h;
          match err with
          | Some e => if validate then Ok (h, Some e) else extend_loop ext l names h
          | None =>
              p ← deref h l; ep ← deref h el; p ← merge p ep;
              extend_loop ext l names (<[l := p]> h)
          end
      end
  end.

(** [p.extend(extends, validate)]. *)
Fixpoint extend (fuel : nat) (l : ptr) (h : heap) : res (heap * option error) :=
  match fuel with
  | O => OutOfFuel
  | S fuel =>
      p ← deref h l;
      if extended p then Ok (h, None)
      else extend_loop (extend fuel) l (Extends p) (<[l := set_extended p]> h)
  end.

Definition bad_symbol (o : OID) : bool := negb (String.eqb (o_Oid o) "") && String.eqb (o_Name o) "".
(** [p.validate()]: whether there is an error. *)
Definition validate_profile (p : Profile) : bool :=
  existsb (λ m, (String.eqb (o_Oid (m_Symbol m)) "" && (length (m_Symbols m) =? 0)%nat) || bad_symbol (m_Symbol m) ||
    existsb bad_symbol (m_Symbols m)) (Metrics p) ||
  existsb (λ t, String.eqb (o_Oid (Column t)) "" || bad_symbol (Column t)) (MetricTags p) ||
  existsb (λ m, existsb (λ t, bad_symbol (Column t)) (m_MetricTags m)) (Metrics p).

(** The loop of [LoadProfiles] over the profiles, in the order of the range. *)
Fixpoint extend_profiles (fuel : nat) (order : list ptr) (h : heap) : res heap :=
  match order with
  | [] => Ok h
  | l :: order =>
      '(h, err) ← extend fuel l h;
      match err with
      | Some e => if validate then Err e else
          p ← deref h l; extend_profiles fuel order h
      | None =>
          p ← deref h l;
          if validate_profile p && validate then Err (Errorf "Error in %s profile" [FStr (From p)]) else extend_profiles fuel order h
      end
  end.
End extend.

(** ** Finding a profile *)

(** What a name may stand for: itself, then ever shorter prefixes with a wildcard. *)
Fixpoint wildcards (i : nat) (pts : list string) : list string :=
  match i with O => [] | S i => String.append (Join (take (S i) pts) ".") ".*" :: wildcards i pts end.
Fixpoint first_key {A} (m : gmap string A) (keys : list string) : option A :=
  match keys with [] => None | k :: keys => match m !! k with Some a => Some a | None => first_key m keys end end.
(** The search that [FindProfile], [GetDeviceSysComment], [GetTrap] and [GetForKey] make. *)
Definition find_oid {A} (m : gmap string A) (oid : string) : option A :=
  match m !! oid with
  | Some a => Some a
  | None => let pts := Split oid "." in first_key m (wildcards (length pts) pts)
  end.
Definition strip_dot (sysid : string) : string := if HasPrefix sysid "." then drop_string 1 sysid else sysid.

Class RegexpCompiler := {
  Compile : string → option Regexp;
  MatchString : Regexp → string → bool }.

Section find.
Context `{RegexpCompiler} (h : heap) (profiles : gmap string ptr).
(** [range_p], [range_m]: the orders of the ranges over the profiles and over a profile's matches. *)
Context (range_p : list ptr) (range_m : ptr → list (string * string)).

Definition from_name (name : string) (l : ptr) : bool :=
  match h !! l with Some p => String.eqb (From p) name | None => false end.
Definition profile_from (name : string) : option ptr := List.find (from_name name) range_p.

Inductive match_result := Found (l : ptr) | Failed | NoMatch.
Fixpoint check_matches (matches : list (string * string)) (sysdesc : string) : match_result :=
  match matches with
  | [] => NoMatch
  | (m, target) :: matches =>
      match Compile m with
      | None => Failed
      | Some r =>
          if MatchString r (ToLower sysdesc)
          then match profile_from target with Some l => Found l | None => check_matches matches sysdesc end
          else check_matches matches sysdesc
      end
  end.

Definition checkMatch (pro : ptr) (sysdesc : string) : option ptr :=
  let lst := match h !! pro with Some p => (λ m, (Regex m, Target m)) <$> MatchesList p | None => [] end in
  match check_matches lst sysdesc with
  | Found l => Some l
  | Failed => None
  | NoMatch =>
      match check_matches (range_m pro) sysdesc with
      | Found l => Some l
      | Failed => None
      | NoMatch => Some pro
      end
  end.

Definition FindProfile (sysid sysdesc mibProfile : string) : option ptr :=
  match (if HasPrefix mibProfile "!" then profile_from (drop_string 1 mibProfile) else None) with
  | Some l => Some l
  | None => find_oid profiles (strip_dot sysid) ≫= λ p, checkMatch p sysdesc
  end.
End find.

Definition GetDeviceSysComment (p : Profile) (sysid : string) : string :=
  default "" (find_oid (map_range (SysMap p)) (strip_dot sysid)).

(** ** The objects of a profile *)

Definition set_PollDur (d : Z) (mb : Mib) : Mib :=
  mkMib (mb_Oid mb) (mb_Name mb) (mb_Type mb) (mb_Extra mb) (mb_Tag mb) (mb_Enum mb) (mb_EnumRev mb) (mb_Conversion mb)
    (mb_Mib mb) (mb_Table mb) d (mb_MatchAttr mb) (mb_lastPoll mb) (mb_FromExtended mb) (mb_OtherTables mb) (mb_Format mb)
    (mb_AllowDup mb) (mb_Condition mb) (mb_VarSet mb) (mb_XAttr mb) (mb_WalkTable mb) (mb_TableOid mb).
Definition set_Enum (e : gomap Z) (r : option (gmap Z string)) (mb : Mib) : Mib :=
  mkMib (mb_Oid mb) (mb_Name mb) (mb_Type mb) (mb_Extra mb) (mb_Tag mb) e r (mb_Conversion mb)
    (mb_Mib mb) (mb_Table mb) (mb_PollDur mb) (mb_MatchAttr mb) (mb_lastPoll mb) (mb_FromExtended mb) (mb_OtherTables mb) (mb_Format mb)
    (mb_AllowDup mb) (mb_Condition mb) (mb_VarSet mb) (mb_XAttr mb) (mb_WalkTable mb) (mb_TableOid mb).

(** How Go ranges over a map of numbers. *)
Class EnumOrder := {
  enum_order : gmap string Z → list (string * Z);
  enum_order_perm m : enum_order m ≡ₚ map_to_list m }.

Definition index_entry (st : gmap string Z * gmap Z string) (kv : string * Z) : gmap string Z * gmap Z string :=
  (<[ToLower kv.1 := kv.2]> (<[kv.1 := kv.2]> st.1), <[kv.2 := kv.1]> st.2).
Definition indexEnum `{EnumOrder} (mb : Mib) : Mib :=
  let '(e, r) := foldl index_entry (∅, ∅) (enum_order (map_range (mb_Enum mb))) in set_Enum (Some e) (Some r) mb.
Definition index_if_any `{EnumOrder} (mb : Mib) : Mib :=
  if (0 <? size (map_range (mb_Enum mb)))%nat then indexEnum mb else mb.

(** [enabledMibs], each the name of a MIB or a MIB and a table. *)
Record enabled_mibs := mkEnabled { enabled : gset string; enabledTables : gmap string (gset string); allMibsEnabled : bool }.
Definition enable (st : enabled_mibs) (mib : string) : enabled_mibs :=
  let pts := Split mib "." in
  let pt0 := default "" (pts !! 0%nat) in
  mkEnabled ({[pt0]} ∪ enabled st)
    (if (length pts =? 1)%nat then enabledTables st
     else <[pt0 := {[default "" (pts !! 1%nat)]} ∪ default ∅ (enabledTables st !! pt0)]> (enabledTables st))
    (allMibsEnabled st || String.eqb mib EnableAllMibs).
Definition enable_all (mibs : list string) : enabled_mibs := foldl enable (mkEnabled ∅ ∅ false) mibs.
Definition metric_enabled (st : enabled_mibs) (metric : MIB) : bool :=
  (allMibsEnabled st || bool_decide (m_Mib metric ∈ enabled st)) &&
  match enabledTables st !! m_Mib metric with Some tables => bool_decide (o_Name (m_Table metric) ∈ tables) | None => true end.

(** ** [prune] *)

(** The first loop: for each name, the key kept so far and whether it comes from an extended profile. *)
Definition prune_see (seen : gmap string (string * bool)) (e : string * Mib) : gmap string (string * bool) :=
  let '(oid, mib) := e in
  let name := GetName (Some mib) in
  match seen !! name with
  | None => <[name := (oid, mb_FromExtended mib)]> seen
  | Some (oid', ext) =>
      if (ext : bool) && negb (mb_FromExtended mib) then <[name := (oid, mb_FromExtended mib)]> seen
      else if mb_FromExtended mib && negb ext then seen
      else if (String.length oid' <? String.length oid)%nat then <[name := (oid, ext)]> seen
      else seen
  end.
Definition keep_names (seen : gmap string (string * bool)) : list string := (λ e, e.2.1) <$> map_to_list seen.

(** [prune(mibs, counterTimeSec, minCounterTime)], the map ranged over in the order of [order]. *)
Definition prune (order : list (string * Mib)) (counterTimeSec minCounterTime : Z) (mibs : gmap string Mib) : gmap string Mib :=
  let keep := keep_names (foldl prune_see ∅ order) in
  map_imap (λ oid mib,
    if bool_decide (oid ∉ keep) && negb (mb_AllowDup mib) then None
    else Some (if (mb_PollDur mib =? 0) && negb (counterTimeSec =? minCounterTime)
               then set_PollDur (PollDur_of counterTimeSec) mib else mib)) mibs.

(** How Go ranges over the maps of objects. *)
Class MibOrder := {
  mib_order : gmap string Mib → list (string * Mib);
  mib_order_perm m : mib_order m ≡ₚ map_to_list m }.

(** ** [GetMetrics] *)

Record metric_sets := mkSets { deviceMetrics : gmap string Mib; interfaceMetrics : gmap string Mib; minCounterTime : Z }.

Section objects.
Context `{EnumOrder, MibOrder}.

(** What the poll time of a symbol does: the duration of the object and the minimum. *)
Definition poll_time (counterTimeSec : Z) (s : OID) (min : Z) : Z * Z :=
  if 0 <? o_PollTime s then
    if o_PollTime s <? counterTimeSec then (PollDur_of (o_PollTime s), o_PollTime s)
    else if counterTimeSec <? o_PollTime s then (PollDur_of (o_PollTime s), min)
    else (0, min)
  else (0, min).

Definition metric_mib (metric : MIB) (s : OID) (pollDur : Z) : Mib :=
  set_PollDur pollDur (index_if_any
    (mkMib (o_Oid s) (o_Name s) Counter "" (o_Tag s) (o_Enum s) None (o_Conversion s) (m_Mib metric) (GetTableName (m_Table metric)) 0
       None 0 (m_fromExtended metric) None (o_Format s) (o_AllowDup s) (GetCondition s) None None (m_WalkTable metric) (o_Oid (m_Table metric)))).

(** A symbol: the sets after it, and whether it had a name. *)
Definition add_symbol (counterTimeSec : Z) (metric : MIB) (s : OID) (st : metric_sets) : metric_sets * bool :=
  let '(dur, min) := poll_time counterTimeSec s (minCounterTime st) in
  let mib := metric_mib metric s dur in
  if String.eqb (o_Name s) "" then (mkSets (deviceMetrics st) (interfaceMetrics st) min, false)
  else if m_IsInterface metric || HasPrefix (o_Name s) "if"
  then (mkSets (deviceMetrics st) (<[o_Oid s := mib]> (interfaceMetrics st)) min, true)
  else (mkSets (<[o_Oid s := mib]> (deviceMetrics st)) (interfaceMetrics st) min, true).

Definition is_counter (metric : MIB) : bool :=
  existsb (String.eqb (m_ForcedType metric)) [""; "monotonic_count"; "monotonic_count_and_rate"].

Definition add_metric (en : enabled_mibs) (counterTimeSec : Z) (st : metric_sets) (metric : MIB) : metric_sets :=
  if metric_enabled en metric && is_counter metric then
    let '(st, go_on) :=
      if String.eqb (o_Oid (m_Symbol metric)) "" then (st, true) else add_symbol counterTimeSec metric (m_Symbol metric) st in
    if go_on : bool then foldl (λ st s, (add_symbol counterTimeSec metric s st).1) st (m_Symbols metric) else st
  else st.

Definition GetMetrics (p : Profile) (enabledMibs : list string) (counterTimeSec : Z) : gmap string Mib * gmap string Mib * Z :=
  let st := foldl (add_metric (enable_all enabledMibs) counterTimeSec) (mkSets ∅ ∅ counterTimeSec) (Metrics p) in
  let min := minCounterTime st in
  (prune (mib_order (deviceMetrics st)) counterTimeSec min (deviceMetrics st),
   prune (mib_order (interfaceMetrics st)) counterTimeSec min (interfaceMetrics st), min).

(** ** [GetMetadata] *)

Context `{RegexpCompiler}.

Definition match_attr (mb : Mib) (res : list string) : gomap Regexp :=
  match res with
  | [] => None
  | _ => Some (foldl (λ m restr, match Compile restr with Some re => <[GetName (Some mb) := re]> m | None => m end) ∅ res)
  end.
Definition set_MatchAttr (m : gomap Regexp) (mb : Mib) : Mib :=
  mkMib (mb_Oid mb) (mb_Name mb) (mb_Type mb) (mb_Extra mb) (mb_Tag mb) (mb_Enum mb) (mb_EnumRev mb) (mb_Conversion mb)
    (mb_Mib mb) (mb_Table mb) (mb_PollDur mb) m (mb_lastPoll mb) (mb_FromExtended mb) (mb_OtherTables mb) (mb_Format mb)
    (mb_AllowDup mb) (mb_Condition mb) (mb_VarSet mb) (mb_XAttr mb) (mb_WalkTable mb) (mb_TableOid mb).

Definition tag_mib (t : Tag) : Mib :=
  let mb := index_if_any
    (mkMib (o_Oid (Column t)) (o_Name (Column t)) String_t "" (t_Tag t) (o_Enum (Column t)) None (o_Conversion (Column t)) "" "" 0
       None 0 false None "" (o_AllowDup (Column t)) None None None false "") in
  set_MatchAttr (match_attr mb (o_MatchAttr (Column t))) mb.
Definition metric_tag_mib (metric : MIB) (t : Tag) : Mib :=
  let table := GetTableName (m_Table metric) in
  let mb := index_if_any
    (mkMib (o_Oid (Column t)) (o_Name (Column t)) String_t "" (t_Tag t) (o_Enum (Column t)) None (o_Conversion (Column t)) (m_Mib metric) table 0
       None 0 false (if String.eqb table "" then None else Some {[table := true]}) "" (o_AllowDup (Column t)) None None None
       (m_WalkTable metric) (o_Oid (m_Table metric))) in
  set_MatchAttr (match_attr mb (o_MatchAttr (Column t))) mb.

Definition extend_or_add (oid : string) (mb : Mib) (m : gmap string Mib) : gmap string Mib :=
  <[oid := match m !! oid with Some em => Extend em mb | None => mb end]> m.

Definition add_tag (metric : MIB) (st : gmap string Mib * gmap string Mib) (t : Tag) : gmap string Mib * gmap string Mib :=
  if String.eqb (o_Oid (Column t)) "" then st
  else
    let mb := metric_tag_mib metric t in
    if m_IsInterface metric || HasPrefix (o_Name (Column t)) "if"
    then (st.1, extend_or_add (o_Oid (Column t)) mb st.2) else (extend_or_add (o_Oid (Column t)) mb st.1, st.2).

Definition GetMetadata (p : Profile) (enabledMibs : list string) : gmap string Mib * gmap string Mib :=
  let en := enable_all enabledMibs in
  let device := foldl (λ m t, if String.eqb (o_Oid (Column t)) "" then m else <[o_Oid (Column t) := tag_mib t]> m) ∅ (MetricTags p) in
  let '(device, interface) := foldl (λ st metric, if metric_enabled en metric then foldl (add_tag metric) st (m_MetricTags metric) else st)
    (device, ∅) (Metrics p) in
  (prune (mib_order device) 0 0 device, prune (mib_order interface) 0 0 interface).
End objects.

(** ** Laws of the search *)

Definition wildcard (pts : list string) (i : nat) : string := String.append (Join (take i pts) ".") ".*".

Lemma first_key_spec {A} (m : gmap string A) pts n :
  match first_key m (wildcards n pts) with
  | Some a => ∃ i, (0 < i ≤ n)%nat ∧ m !! wildcard pts i = Some a ∧ ∀ j, (i < j ≤ n)%nat → m !! wildcard pts j = None
  | None => ∀ j, (0 < j ≤ n)%nat → m !! wildcard pts j = None
  end.
Proof.
  induction n as [|n IH]; [intros j Hj; lia|]. cbn [wildcards first_key]. fold (wildcard pts (S n)).
  destruct (m !! wildcard pts (S n)) as [a|] eqn:E; [exists (S n); split_and!; [lia|lia|done|intros j Hj; lia]|].
  destruct (first_key m (wildcards n pts)) as [a|].
  - destruct IH as (i & Hi & Ha & Hj). exists i. split_and!; [lia|lia|done|]. intros j Hij. destruct (decide (j = S n)) as [->|]; [done|]. apply Hj. lia.
  - intros j Hj. destruct (decide (j = S n)) as [->|]; [done|]. apply IH. lia.
Qed.

(** A device without a forced profile gets the profile of its own object id, or else
    of the longest prefix of it that has a wildcard profile, or none when there is no
    such prefix; what that profile matches on decides the rest. *)
Theorem FindProfile_longest `{RegexpCompiler} h profiles range_p range_m sysid sysdesc mibProfile :
  HasPrefix mibProfile "!" = false →
  let pts := Split (strip_dot sysid) "." in
  ∃ o, FindProfile h profiles range_p range_m sysid sysdesc mibProfile = o ≫= (λ p, checkMatch h range_p range_m p sysdesc) ∧
    match profiles !! strip_dot sysid, o with
    | Some p, _ => o = Some p
    | None, Some p => ∃ i, (0 < i ≤ length pts)%nat ∧ profiles !! wildcard pts i = Some p ∧
        ∀ j, (i < j ≤ length pts)%nat → profiles !! wildcard pts j = None
    | None, None => ∀ j, (0 < j ≤ length pts)%nat → profiles !! wildcard pts j = None
    end.
Proof.
  intros Hm. cbv zeta. unfold FindProfile. rewrite Hm. exists (find_oid profiles (strip_dot sysid)). split; [done|].
  unfold find_oid. destruct (profiles !! strip_dot sysid); [done|]. cbv zeta. apply first_key_spec.
Qed.

(** ** Laws of [prune] *)

(** [a] is kept rather than [b]: not from an extended profile, or as much so and with an id at least as long. *)
Definition better (a b : bool * nat) : Prop := (a.1 = false ∧ b.1 = true) ∨ (a.1 = b.1 ∧ (b.2 ≤ a.2)%nat).
#[export] Instance better_trans : Transitive better.
Proof. intros [x n] [y m] [z k]. unfold better. cbn. intuition (subst; try congruence; try lia). Qed.
Lemma better_refl a : better a a.
Proof. right. done. Qed.
Definition standing (oid : string) (mib : Mib) : bool * nat := (mb_FromExtended mib, String.length oid).

(** What the first loop knows after a part [l] of the map. *)
Record prune_inv (l : list (string * Mib)) (seen : gmap string (string * bool)) : Prop := {
  pi_in n oid ext : seen !! n = Some (oid, ext) → ∃ mib, (oid, mib) ∈ l ∧ GetName (Some mib) = n ∧ mb_FromExtended mib = ext;
  pi_best oid mib : (oid, mib) ∈ l → ∃ oid' ext, seen !! GetName (Some mib) = Some (oid', ext) ∧ better (ext, String.length oid') (standing oid mib) }.

Lemma prune_inv_step l seen e : prune_inv l seen → prune_inv (l ++ [e]) (prune_see seen e).
Proof.
  destruct e as [oid mib]. intros [Hin Hbest]. set (n := GetName (Some mib)).
  assert (∀ o x, seen !! n = Some (o, x) → better (x, String.length o) (standing oid mib) → prune_inv (l ++ [(oid, mib)]) seen) as Hkeep.
  { intros o x Eo Hb. split.
    - intros n' o' x' E. destruct (Hin _ _ _ E) as (m & Hm & ?). exists m. rewrite elem_of_app. tauto.
    - intros o' m' [Hm|Hm]%elem_of_app; [by apply Hbest|]. apply list_elem_of_singleton in Hm as [= -> ->]. by exists o, x. }
  assert (∀ x, x = mb_FromExtended mib → (∀ o' x', seen !! n = Some (o', x') → better (standing oid mib) (x', String.length o')) →
    prune_inv (l ++ [(oid, mib)]) (<[n := (oid, x)]> seen)) as Hput.
  { intros x -> Hb. split.
    - intros n' o' x' E. destruct (decide (n = n')) as [<-|Hne].
      + rewrite lookup_insert_eq in E. injection E as <- <-. exists mib. split_and!; [apply elem_of_app; right; by left|done|done].
      + rewrite lookup_insert_ne in E by done. destruct (Hin _ _ _ E) as (m & Hm & ?). exists m. rewrite elem_of_app. tauto.
    - intros o' m' Hm. destruct (decide (GetName (Some m') = n)) as [En|Hne].
      + rewrite En, lookup_insert_eq. eexists _, _. split; [done|]. apply elem_of_app in Hm as [Hm|Hm].
        * destruct (Hbest _ _ Hm) as (o'' & x'' & E & Hbet). rewrite En in E. etrans; [by apply Hb|exact Hbet].
        * apply list_elem_of_singleton in Hm as [= -> ->]. apply better_refl.
      + rewrite lookup_insert_ne by done. apply elem_of_app in Hm as [Hm|Hm]; [by apply Hbest|].
        apply list_elem_of_singleton in Hm as [= -> ->]. done. }
  unfold prune_see. fold n. destruct (seen !! n) as [[o x]|] eqn:E; [|by apply Hput].
  destruct x, (mb_FromExtended mib) eqn:Ef; cbn [andb negb].
  - destruct (Nat.ltb_spec (String.length o) (String.length oid)); [apply Hput; [done|]|eapply Hkeep; [done|]].
    + intros o' x' [= <- <-]. right. cbn. rewrite Ef. split; [done|lia].
    + right. cbn. rewrite Ef. split; [done|lia].
  - apply Hput; [done|]. intros o' x' [= <- <-]. left. cbn. by rewrite Ef.
  - eapply Hkeep; [done|]. left. cbn. by rewrite Ef.
  - destruct (Nat.ltb_spec (String.length o) (String.length oid)); [apply Hput; [done|]|eapply Hkeep; [done|]].
    + intros o' x' [= <- <-]. right. cbn. rewrite Ef. split; [done|lia].
    + right. cbn. rewrite Ef. split; [done|lia].
Qed.

Lemma prune_inv_all l : prune_inv l (foldl prune_see ∅ l).
Proof.
  induction l as [|e l IH] using rev_ind.
  - cbn [foldl]. split; [intros n oid ext; by rewrite lookup_empty|]. intros oid mib H. by apply elem_of_nil in H.
  - rewrite foldl_app. by apply prune_inv_step.
Qed.

(** [prune] leaves, whatever the order of the map, for each name exactly one of the
    objects that may not be duplicated: one that is not from an extended profile if
    there is such a one, and of those the one with the longest id. *)
Theorem prune_keeps_best order counterTimeSec minCounterTime mibs :
  order ≡ₚ map_to_list mibs →
  let left := prune order counterTimeSec minCounterTime mibs in
  (∀ oid mib, left !! oid = Some mib → ∃ mib0, mibs !! oid = Some mib0 ∧ (mib = mib0 ∨ mib = set_PollDur (PollDur_of counterTimeSec) mib0)) ∧
  (∀ oid mib, mibs !! oid = Some mib → ∃ oid' mib', left !! oid' = Some mib' ∧ GetName (Some mib') = GetName (Some mib) ∧
     better (standing oid' mib') (standing oid mib)) ∧
  (∀ o1 m1 o2 m2, left !! o1 = Some m1 → left !! o2 = Some m2 → GetName (Some m1) = GetName (Some m2) →
     mb_AllowDup m1 = false → mb_AllowDup m2 = false → o1 = o2).
Proof.
  intros Hp. cbv zeta. unfold prune. set (seen := foldl prune_see ∅ order). destruct (prune_inv_all order) as [Hin Hbest]. fold seen in Hin, Hbest.
  set (body := λ oid mib, if bool_decide (oid ∉ keep_names seen) && negb (mb_AllowDup mib) then None else _).
  assert (∀ e, e ∈ order ↔ mibs !! e.1 = Some e.2) as Ho by (intros [o m]; by rewrite Hp, elem_of_map_to_list).
  assert (∀ oid mib mib', body oid mib = Some mib' → (mib' = mib ∨ mib' = set_PollDur (PollDur_of counterTimeSec) mib) ∧
    (oid ∈ keep_names seen ∨ mb_AllowDup mib = true)) as Hbody.
  { intros oid mib mib'. unfold body. case_bool_decide as Hk; destruct (mb_AllowDup mib); cbn [andb negb]; try done;
      destruct (_ && _); intros [= <-]; split; try tauto; left; destruct (decide (oid ∈ keep_names seen)); tauto. }
  assert (∀ oid mib mib', body oid mib = Some mib' → GetName (Some mib') = GetName (Some mib) ∧ standing oid mib' = standing oid mib ∧
    mb_AllowDup mib' = mb_AllowDup mib) as Hsame by (intros oid mib mib' [[-> | ->] _]%Hbody; done).
  assert (∀ oid, oid ∈ keep_names seen → ∃ n ext, seen !! n = Some (oid, ext)) as Hkeep.
  { intros oid ([n [o x]] & -> & H%elem_of_map_to_list)%list_elem_of_fmap. by exists n, x. }
  split_and!.
  - intros oid mib H. rewrite map_lookup_imap in H. destruct (mibs !! oid) as [mib0|]; [|done]. exists mib0. split; [done|]. by apply (Hbody oid).
  - intros oid mib H. destruct (Hbest oid mib) as (oid' & ext & E & Hb); [by apply (Ho (oid, mib))|].
    destruct (Hin _ _ _ E) as (mib0 & Hm%Ho & Hn & Hx). cbn [fst snd] in Hm.
    assert (oid' ∈ keep_names seen) as Hk.
    { unfold keep_names. apply (list_elem_of_fmap_2 (λ e : string * (string * bool), e.2.1) _ (GetName (Some mib), (oid', ext))). by apply elem_of_map_to_list. }
    destruct (body oid' mib0) as [mib'|] eqn:Eb.
    + exists oid', mib'. destruct (Hsame _ _ _ Eb) as (Hn' & Hs & _). split_and!; [|by rewrite Hn'|by rewrite Hs; unfold standing at 1; rewrite Hx].
      rewrite map_lookup_imap, Hm. exact Eb.
    + unfold body in Eb. rewrite (bool_decide_eq_false_2 (oid' ∉ _)) in Eb by tauto. done.
  - intros o1 m1 o2 m2 H1 H2 En A1 A2. rewrite map_lookup_imap in H1, H2.
    destruct (mibs !! o1) as [b1|] eqn:E1; [|done]. destruct (mibs !! o2) as [b2|] eqn:E2; [|done]. cbn [mbind option_bind] in H1, H2.
    destruct (Hsame _ _ _ H1) as (N1 & _ & D1), (Hsame _ _ _ H2) as (N2 & _ & D2).
    apply Hbody in H1 as [_ [K1|K1]]; [|congruence]. apply Hbody in H2 as [_ [K2|K2]]; [|congruence].
    apply Hkeep in K1 as (n1 & x1 & S1). apply Hkeep in K2 as (n2 & x2 & S2).
    destruct (Hin _ _ _ S1) as (c1 & C1%Ho & M1 & _), (Hin _ _ _ S2) as (c2 & C2%Ho & M2 & _). cbn [fst snd] in C1, C2.
    assert (c1 = b1) as -> by congruence. assert (c2 = b2) as -> by congruence.
    assert (n1 = n2) as -> by congruence. congruence.
Qed.

(** ** Laws of extending *)

Section extend_laws.
Context (extends : gmap string ptr) (h0 : heap).

(** All metrics of a profile: its own, then for each profile it extends all of that one's. *)
Fixpoint full_metrics (n : nat) (l : ptr) : list MIB :=
  match n with
  | O => []
  | S n =>
      match h0 !! l with
      | Some p => Metrics p ++ concat ((λ name, match extends !! name with Some el => mark_extended <$> full_metrics n el | None => [] end) <$> Extends p)
      | None => []
      end
  end.

(** The profiles as the parser leaves them: nothing extended yet, every extended profile
    loaded, comments kept wherever something is extended, and no cycles. *)
Record loaded (rank : ptr → nat) : Prop := {
  ld_fresh l p : h0 !! l = Some p → extended p = false;
  ld_comments l p : h0 !! l = Some p → Extends p ≠ [] → is_Some (SysMap p);
  ld_order l p name el : h0 !! l = Some p → name ∈ Extends p → extends !! name = Some el → (rank el < rank l)%nat ∧ is_Some (h0 !! el) }.

Context (rank : ptr → nat) (Hl : loaded rank) (validate : bool).
Context (Hv : validate = true → ∀ l p name, h0 !! l = Some p → name ∈ Extends p → is_Some (extends !! name)).
Definition all_metrics (l : ptr) : list MIB := full_metrics (S (rank l)) l.

Lemma full_metrics_enough n m l : (rank l < n)%nat → (rank l < m)%nat → full_metrics n l = full_metrics m l.
Proof.
  revert m l. induction n as [|n IH]; intros m l Hn Hm; [lia|]. destruct m as [|m]; [lia|]. cbn [full_metrics].
  destruct (h0 !! l) as [p|] eqn:E; [|done]. do 2 f_equal. apply list_fmap_ext. intros i name Hi.
  destruct (extends !! name) as [el|] eqn:Ee; [|done]. f_equal.
  destruct (ld_order rank Hl l p name el E (list_elem_of_lookup_2 _ _ _ Hi) Ee) as [Hr _]. apply IH; lia.
Qed.
Definition inherited (names : list string) : list MIB :=
  concat ((λ name, match extends !! name with Some el => mark_extended <$> all_metrics el | None => [] end) <$> names).
Lemma all_metrics_eq l p : h0 !! l = Some p → all_metrics l = Metrics p ++ inherited (Extends p).
Proof.
  intros E. unfold all_metrics. cbn [full_metrics]. rewrite E. f_equal. unfold inherited. f_equal. apply list_fmap_ext. intros i name Hi.
  destruct (extends !! name) as [el|] eqn:Ee; [|done]. f_equal.
  destruct (ld_order rank Hl l p name el E (list_elem_of_lookup_2 _ _ _ Hi) Ee) as [Hr _]. apply full_metrics_enough; lia.
Qed.

(** Each profile outside [S], where the work is under way, is untouched or done. *)
Definition kept_shape (p0 p : Profile) : Prop := Extends p = Extends p0 ∧ (is_Some (SysMap p0) → is_Some (SysMap p)).
Definition progress (S : list ptr) (h : heap) : Prop :=
  ∀ l p0, h0 !! l = Some p0 → ∃ p, h !! l = Some p ∧ kept_shape p0 p ∧
    (l ∉ S → if extended p then Metrics p = all_metrics l else p = p0).
Definition finished (l : ptr) (h : heap) : Prop := ∃ p, h !! l = Some p ∧ extended p = true ∧ Metrics p = all_metrics l.

Lemma progress_start : progress [] h0.
Proof. intros l p0 E. exists p0. split_and!; [done|done|]. intros _. by rewrite (ld_fresh rank Hl l p0 E). Qed.

Lemma merge_metrics p ep : is_Some (SysMap p) → ∃ p', merge p ep = Ok p' ∧ Metrics p' = Metrics p ++ (mark_extended <$> Metrics ep) ∧
  kept_shape p p' ∧ extended p' = extended p.
Proof. intros [m E]. unfold merge. rewrite E. eexists. split; [reflexivity|]. split; [done|]. split; [|done]. split; [done|]. intros _. by eexists. Qed.

Definition extends_well (ext : ptr → heap → res (heap * option error)) (R : nat) : Prop :=
  ∀ l S h, (rank l < R)%nat → is_Some (h0 !! l) → progress S h → (∀ l', l' ∈ S → rank l < rank l')%nat →
    ∃ h', ext l h = Ok (h', None) ∧ progress S h' ∧ finished l h' ∧ (∀ l', l' ∈ S → h' !! l' = h !! l') ∧ ∀ l', finished l' h → finished l' h'.

Lemma extend_loop_well ext l p0 S names pre h p : extends_well ext (rank l) →
  h0 !! l = Some p0 → (∀ name, name ∈ names → name ∈ Extends p0) → is_Some (SysMap p) →
  progress (l :: S) h → (∀ l', l' ∈ S → rank l < rank l')%nat → h !! l = Some p → kept_shape p0 p → extended p = true → Metrics p = pre →
  ∃ h' p', extend_loop extends validate ext l names h = Ok (h', None) ∧ progress (l :: S) h' ∧ h' !! l = Some p' ∧ kept_shape p0 p' ∧
    extended p' = true ∧ Metrics p' = pre ++ inherited names ∧ (∀ l', l' ∈ S → h' !! l' = h !! l') ∧
    ∀ l', l' ≠ l → finished l' h → finished l' h'.
Proof.
  intros Hext E0. revert pre h p. induction names as [|name names IH]; intros pre h p Hnames Hsys Hp Hr Eh Hk Hx Hm.
  - exists h, p. unfold inherited. cbn. rewrite app_nil_r. done.
  - cbn [extend_loop]. assert (name ∈ Extends p0) as Hin by (apply Hnames; by left).
    assert (∀ n, n ∈ names → n ∈ Extends p0) as Hrest by (intros n Hn; apply Hnames; by right).
    destruct (extends !! name) as [el|] eqn:Ee.
    + destruct (ld_order rank Hl l p0 name el E0 Hin Ee) as [Hrank Hel].
      destruct (Hext el (l :: S) h Hrank Hel Hp) as (h1 & E1 & Hp1 & (ep & Ep & _ & Hep) & Hsame & Hdone).
      { intros l' [->|H]%elem_of_cons; [done|]. specialize (Hr l' H). lia. }
      rewrite E1. cbn [mbind res_bind]. assert (h1 !! l = Some p) as E1l by (rewrite Hsame by left; done).
      unfold deref. rewrite E1l, Ep. cbn [mbind res_bind].
      destruct (merge_metrics p ep Hsys) as (p' & -> & Hm' & [He' Hs'] & Hx'). cbn [mbind res_bind].
      assert (kept_shape p0 p') as Hk' by (destruct Hk as [Hk1 Hk2]; split; [congruence|auto]).
      destruct (IH (pre ++ (mark_extended <$> all_metrics el)) (<[l := p']> h1) p') as (h2 & p2 & E2 & Hp2 & Eh2 & Hk2 & Hx2 & Hm2 & Hsame2 & Hdone2).
      * done.
      * by apply Hs'.
      * intros l' q0 Eq. destruct (decide (l' = l)) as [->|Hne].
        -- exists p'. rewrite lookup_insert_eq. split_and!; [done| |intros H; exfalso; apply H; by left].
           congruence.
        -- rewrite lookup_insert_ne by done. by apply Hp1.
      * done.
      * apply lookup_insert_eq.
      * done.
      * congruence.
      * by rewrite Hm', Hm, Hep.
      * exists h2, p2. split_and!; [done..| | |].
        -- rewrite Hm2. unfold inherited. rewrite fmap_cons. cbn [concat]. by rewrite Ee, <-app_assoc.
        -- intros l' Hl'. rewrite Hsame2 by done. rewrite lookup_insert_ne; [by apply Hsame; right|].
           intros ->. specialize (Hr l' Hl'). lia.
        -- intros l' Hne Hf. apply Hdone2; [done|]. destruct (Hdone l' Hf) as (q & Eq & ?). exists q. by rewrite lookup_insert_ne.
    + destruct validate eqn:Ev; [exfalso; destruct (Hv eq_refl l p0 name E0 Hin); congruence|].
      destruct (IH pre h p Hrest Hsys Hp Hr Eh Hk Hx Hm) as (h2 & p2 & E2 & Hp2 & Eh2 & Hk2 & Hx2 & Hm2 & Hsame2 & Hdone2).
      exists h2, p2. split_and!; [done..| |done|done]. rewrite Hm2. unfold inherited. rewrite fmap_cons. cbn [concat]. by rewrite Ee.
Qed.

Lemma extend_well fuel : extends_well (extend extends validate fuel) fuel.
Proof.
  induction fuel as [|fuel IH]; intros l S h Hf [p0 E0] Hp Hr; [lia|]. cbn [extend].
  destruct (Hp l p0 E0) as (p & Eh & Hk & Hd). assert (l ∉ S) as Hnot by (intros H; specialize (Hr l H); lia).
  specialize (Hd Hnot). unfold deref. rewrite Eh. cbn [mbind res_bind]. destruct (extended p) eqn:Ex.
  { exists h. split_and!; [done|done|by exists p|done|done]. }
  assert (∀ l', finished l' h → l' ≠ l) as Hnl by (intros l' (q & Eq & Hq & _) ->; congruence).
  subst p. destruct (decide (Extends p0 = [])) as [Enil|Hne].
  - rewrite Enil. cbn [extend_loop]. eexists. split; [done|]. split_and!.
    + intros l' q0 Eq. destruct (decide (l' = l)) as [->|Hne]; [|rewrite lookup_insert_ne by done; by apply Hp].
      rewrite lookup_insert_eq. assert (q0 = p0) as -> by congruence. exists (set_extended p0). split_and!; [done|done|].
      intros _. cbn [extended set_extended]. rewrite (all_metrics_eq l p0 E0), Enil. cbn. by rewrite app_nil_r.
    + exists (set_extended p0). rewrite lookup_insert_eq. split_and!; [done|done|]. rewrite (all_metrics_eq l p0 E0), Enil. cbn. by rewrite app_nil_r.
    + intros l' Hl'. rewrite lookup_insert_ne; [done|]. intros ->. done.
    + intros l' Hf'. pose proof (Hnl l' Hf'). destruct Hf' as (q & Eq & ?). exists q. by rewrite lookup_insert_ne.
  - destruct (extend_loop_well (extend extends validate fuel) l p0 S (Extends p0) (Metrics p0) (<[l := set_extended p0]> h) (set_extended p0))
      as (h' & p' & E' & Hp' & Eh' & Hk' & Hx' & Hm' & Hsame & Hdone).
    + intros l' S' h' Hr' Hl' Hpr Hs'. apply IH; [lia|done..].
    + done.
    + done.
    + by apply (ld_comments rank Hl l p0 E0).
    + intros l' q0 Eq. destruct (decide (l' = l)) as [->|Hne'].
      * rewrite lookup_insert_eq. assert (q0 = p0) as -> by congruence. exists (set_extended p0). split_and!; [done|done|]. intros H. exfalso. apply H. by left.
      * rewrite lookup_insert_ne by done. destruct (Hp l' q0 Eq) as (q & Eq' & Hkq & Hq). exists q. split_and!; [done|done|].
        intros H. apply Hq. intros Hin. apply H. by right.
    + done.
    + apply lookup_insert_eq.
    + done.
    + done.
    + done.
    + assert (Metrics p' = all_metrics l) as Hall by (by rewrite Hm', (all_metrics_eq l p0 E0)).
      exists h'. split_and!; [exact E'| |by exists p'| |].
      * intros l' q0 Eq. destruct (decide (l' = l)) as [->|Hne'].
        -- exists p'. assert (q0 = p0) as -> by congruence. split_and!; [done|done|]. intros _. by rewrite Hx'.
        -- destruct (Hp' l' q0 Eq) as (q & Eq' & Hkq & Hq). exists q. split_and!; [done|done|]. intros H. apply Hq.
           intros [->|Hin]%elem_of_cons; done.
      * intros l' Hl'. rewrite Hsame by done. rewrite lookup_insert_ne; [done|]. intros ->. done.
      * intros l' Hf'. pose proof (Hnl l' Hf'). apply Hdone; [done|]. destruct Hf' as (q & Eq & ?). exists q. by rewrite lookup_insert_ne.
Qed.

Lemma extend_profiles_well fuel order h : validate = false → (∀ l, l ∈ order → rank l < fuel)%nat → (∀ l, l ∈ order → is_Some (h0 !! l)) →
  progress [] h →
  ∃ h', extend_profiles extends validate fuel order h = Ok h' ∧ (∀ l, l ∈ order → finished l h') ∧ ∀ l, finished l h → finished l h'.
Proof.
  intros Hval. revert h. induction order as [|l order IH]; intros h Hfuel Ho Hp.
  - exists h. split_and!; [done| |done]. intros l Hin. by apply elem_of_nil in Hin.
  - cbn [extend_profiles]. destruct (extend_well fuel l [] h) as (h1 & E1 & Hp1 & Hf1 & _ & Hd1);
      [apply Hfuel; by left|apply Ho; by left|done|intros l' H; by apply elem_of_nil in H|].
    rewrite E1. cbn [mbind res_bind]. pose proof Hf1 as (p & Ep & _). unfold deref. rewrite Ep. cbn [mbind res_bind]. rewrite Hval, andb_false_r.
    destruct (IH h1) as (h2 & E2 & Hf2 & Hd2); [intros l' H; apply Hfuel; by right|intros l' H; apply Ho; by right|done|].
    rewrite Hval in E2. exists h2. split_and!; [exact E2| |auto]. intros l' [->|H]%elem_of_cons; auto.
Qed.
End extend_laws.

(** Without cycles, extending ends, and every profile has its own metrics followed by
    those of the profiles it extends, in their order, however the map of profiles is
    ranged over; a missing profile is left out. *)
Theorem extend_profiles_all extends h0 rank fuel order :
  loaded extends h0 rank → (∀ l, l ∈ order → is_Some (h0 !! l) ∧ rank l < fuel)%nat →
  ∃ h, extend_profiles extends false fuel order h0 = Ok h ∧
    ∀ l, l ∈ order → ∃ p, h !! l = Some p ∧ Metrics p = full_metrics extends h0 fuel l.
Proof.
  intros Hl Ho. destruct (extend_profiles_well extends h0 rank Hl false ltac:(done) fuel order h0) as (h & E & Hf & _).
  - done.
  - intros l H. by apply Ho.
  - intros l H. by apply Ho.
  - by apply (progress_start extends h0 rank).
  - exists h. split; [done|]. intros l H. destruct (Hf l H) as (p & Ep & _ & Hm). exists p. split; [done|]. rewrite Hm. unfold all_metrics.
    apply (full_metrics_enough extends h0 rank Hl); [lia|by apply Ho].
Qed.

(** ** Extending ends *)

Section extend_ends.
Context (extends : gmap string ptr) (validate : bool).

(** Every profile that may be extended is there, and profiles that extend others keep
    comments. *)
Definition heap_ok (h : heap) : Prop :=
  (∀ name l, extends !! name = Some l → is_Some (h !! l)) ∧ ∀ l p, h !! l = Some p → Extends p ≠ [] → is_Some (SysMap p).
Definition open_profiles (h : heap) : nat := size (filter (λ e : ptr * Profile, extended e.2 = false) h).

Lemma heap_ok_insert h l p : heap_ok h → (Extends p ≠ [] → is_Some (SysMap p)) → heap_ok (<[l := p]> h).
Proof.
  intros [H1 H2] Hp. split.
  - intros name l' E. destruct (decide (l = l')) as [->|]; [rewrite lookup_insert_eq; by eexists|rewrite lookup_insert_ne by done; by apply (H1 name)].
  - intros l' p' E. destruct (decide (l = l')) as [->|]; [rewrite lookup_insert_eq in E; by injection E as <-|rewrite lookup_insert_ne in E by done; by apply (H2 l')].
Qed.
Lemma open_insert_extended h l p p' : h !! l = Some p → extended p' = true →
  open_profiles (<[l := p']> h) = (if extended p then open_profiles h else pred (open_profiles h)).
Proof.
  intros E Ex. unfold open_profiles. rewrite map_filter_insert_False by (cbn; congruence). rewrite map_filter_delete.
  destruct (extended p) eqn:Ep.
  - rewrite delete_id; [done|]. apply map_lookup_filter_None. right. intros p0 E0. cbn. congruence.
  - rewrite map_size_delete. replace (filter _ h !! l) with (Some p); [done|]. symmetry. by apply map_lookup_filter_Some.
Qed.
Lemma open_pos h l p : h !! l = Some p → extended p = false → (0 < open_profiles h)%nat.
Proof.
  intros E Ex. unfold open_profiles. destruct (size _) eqn:Es; [|lia]. apply map_size_empty_inv in Es. exfalso.
  assert (filter (λ e : ptr * Profile, extended e.2 = false) h !! l = Some p) as H by by apply map_lookup_filter_Some.
  by rewrite Es, lookup_empty in H.
Qed.

Definition ext_ends (ext : ptr → heap → res (heap * option error)) (n : nat) : Prop :=
  ∀ l h, is_Some (h !! l) → heap_ok h → (open_profiles h < n)%nat →
    ∃ h' err, ext l h = Ok (h', err) ∧ heap_ok h' ∧ (∀ l p, h !! l = Some p → ∃ p', h' !! l = Some p' ∧ (extended p = true → extended p' = true) ∧
      Extends p' = Extends p) ∧ (open_profiles h' ≤ open_profiles h)%nat.

Lemma extend_loop_ends ext n l names h p : ext_ends ext n → h !! l = Some p → extended p = true → heap_ok h → (open_profiles h < n)%nat →
  (names ≠ [] → Extends p ≠ []) →
  ∃ h' err, extend_loop extends validate ext l names h = Ok (h', err) ∧ heap_ok h' ∧
    (∀ l p, h !! l = Some p → ∃ p', h' !! l = Some p' ∧ (extended p = true → extended p' = true) ∧ Extends p' = Extends p) ∧
    (open_profiles h' ≤ open_profiles h)%nat.
Proof.
  intros Hext. revert h p. induction names as [|name names IH]; intros h p Ep Hx Hok Hn Hne; cbn [extend_loop].
  { exists h, None. split_and!; [done|done| |done]. intros l' p' E. by exists p'. }
  assert (names ≠ [] → Extends p ≠ []) as Hne' by (intros _; by apply Hne).
  destruct (extends !! name) as [el|] eqn:Ee.
  2: { destruct validate; [|by apply (IH h p)]. exists h, (Some (no_profile name)). split_and!; [done|done| |done]. intros l' p' E. by exists p'. }
  destruct (Hext el h) as (h1 & err & -> & Hok1 & Hkeep1 & Hle1); [by apply (proj1 Hok name)|done|done|]. cbn [mbind res_bind].
  destruct (Hkeep1 l p Ep) as (p1 & E1 & Hx1 & Hs1). specialize (Hx1 Hx).
  destruct err as [e|].
  - destruct validate.
    + exists h1, (Some e). split_and!; [done|done|exact Hkeep1|done].
    + destruct (IH h1 p1) as (h2 & err & E2 & Hok2 & Hkeep2 & Hle2); [done..|lia|rewrite Hs1; auto|]. exists h2, err. split_and!; [done|done| |lia].
      intros l' p' E. destruct (Hkeep1 l' p' E) as (q & Eq & Hq & Hs). destruct (Hkeep2 l' q Eq) as (r & Er & Hr & Hs'). exists r. split_and!; [done|auto|congruence].
  - destruct (proj1 Hok name el Ee) as [ep0 Eep0]. destruct (Hkeep1 el ep0 Eep0) as (ep & Eep & _).
    unfold deref. rewrite E1, Eep. cbn [mbind res_bind].
    destruct (merge_metrics p1 ep) as (p2 & -> & _ & [Hs2 Hc2] & Hx2).
    { apply (proj2 Hok1 l); [done|]. rewrite Hs1. by apply Hne. }
    cbn [mbind res_bind].
    assert (is_Some (SysMap p1)) as Hc1 by (apply (proj2 Hok1 l); [done|]; rewrite Hs1; by apply Hne).
    destruct (IH (<[l := p2]> h1) p2) as (h2 & err & E2 & Hok2 & Hkeep2 & Hle2).
    + apply lookup_insert_eq.
    + congruence.
    + apply heap_ok_insert; [done|]. intros _. by apply Hc2.
    + rewrite (open_insert_extended h1 l p1) by congruence. rewrite Hx1. lia.
    + rewrite Hs2, Hs1. done.
    + exists h2, err. split_and!; [done|done| |rewrite (open_insert_extended h1 l p1), Hx1 in Hle2 by congruence; lia].
      intros l' p' E. destruct (Hkeep1 l' p' E) as (q & Eq & Hq & Hs). destruct (decide (l = l')) as [->|Hd].
      * destruct (Hkeep2 l' p2) as (r & Er & Hr & Hs'); [apply lookup_insert_eq|]. exists r. split_and!; [done|intros _; apply Hr; congruence|congruence].
      * destruct (Hkeep2 l' q) as (r & Er & Hr & Hs'); [by rewrite lookup_insert_ne|]. exists r. split_and!; [done|auto|congruence].
Qed.

Lemma extend_ends_all fuel : ext_ends (extend extends validate fuel) fuel.
Proof.
  induction fuel as [|fuel IH]; intros l h [p Ep] Hok Hn; [lia|]. cbn [extend]. unfold deref. rewrite Ep. cbn [mbind res_bind].
  destruct (extended p) eqn:Ex.
  { exists h, None. split_and!; [done|done| |done]. intros l' p' E. by exists p'. }
  pose proof (open_pos h l p Ep Ex) as Hpos. pose proof (open_insert_extended h l p (set_extended p) Ep eq_refl) as Ho. rewrite Ex in Ho.
  destruct (extend_loop_ends (extend extends validate fuel) fuel l (Extends p) (<[l := set_extended p]> h) (set_extended p) IH)
    as (h' & err & E' & Hok' & Hkeep & Hle); [apply lookup_insert_eq|done|apply heap_ok_insert; [done|exact (proj2 Hok l p Ep)]|lia|done|].
  exists h', err. split_and!; [done|done| |lia]. intros l' p' E. destruct (decide (l = l')) as [<-|Hd].
  - destruct (Hkeep l (set_extended p)) as (q & Eq & Hq & Hs); [apply lookup_insert_eq|]. exists q. assert (p' = p) as -> by congruence. split_and!; [done|auto|done].
  - destruct (Hkeep l' p') as (q & Eq & Hq & Hs); [by rewrite lookup_insert_ne|]. by exists q.
Qed.
End extend_ends.

(** Extending a profile ends without a panic, whatever cycles there are: fuel for one
    more than the profiles that are not yet extended is enough. *)
Theorem extend_terminates extends validate fuel l h :
  is_Some (h !! l) → heap_ok extends h → (open_profiles h < fuel)%nat →
  ∃ h' err, extend extends validate fuel l h = Ok (h', err) ∧ (open_profiles h' ≤ open_profiles h)%nat.
Proof.
  intros Hl Hok Hn. destruct (extend_ends_all extends validate fuel l h Hl Hok Hn) as (h' & err & E & _ & _ & Hle). by exists h', err.
Qed.

(** ** Enums and poll times *)

Lemma lower_ascii_idem c : lower_ascii (lower_ascii c) = lower_ascii c.
Proof. destruct c as [[] [] [] [] [] [] [] []]; reflexivity. Qed.
Lemma ToLower_idem s : ToLower (ToLower s) = ToLower s.
Proof. induction s as [|c s IH]; [done|]. cbn [ToLower]. by rewrite lower_ascii_idem, IH. Qed.

Lemma index_entries_enum l st k v : (∀ kv, kv ∈ l → kv.1 = k ∨ ToLower kv.1 = k → kv.2 = v) →
  (∃ kv, kv ∈ l ∧ ToLower kv.1 = k) ∨ st.1 !! k = Some v → (foldl index_entry st l).1 !! k = Some v.
Proof.
  revert st. induction l as [|kv l IH]; intros st Hv Hk; cbn [foldl].
  - destruct Hk as [(kv & H & _)|Hk]; [by apply elem_of_nil in H|done].
  - apply IH; [intros kv' H; apply Hv; by right|]. destruct Hk as [(kv' & [->|H]%elem_of_cons & E)|Hk]; [right|left; by eauto|right];
      unfold index_entry; cbn [fst]; destruct (decide (ToLower kv.1 = k)) as [El|Hl]; try done;
      try (rewrite El, lookup_insert_eq; f_equal; apply Hv; [by left|by right]).
    rewrite lookup_insert_ne by done. destruct (decide (kv.1 = k)) as [Ek|Hk1]; [rewrite Ek, lookup_insert_eq; f_equal; apply Hv; [by left|by left]|].
    by rewrite lookup_insert_ne.
Qed.
Lemma index_entries_rev l st k v : (∀ kv, kv ∈ l → kv.2 = v → kv.1 = k) →
  (∃ kv, kv ∈ l ∧ kv.2 = v) ∨ st.2 !! v = Some k → (foldl index_entry st l).2 !! v = Some k.
Proof.
  revert st. induction l as [|kv l IH]; intros st Hv Hk; cbn [foldl].
  - destruct Hk as [(kv & H & _)|Hk]; [by apply elem_of_nil in H|done].
  - apply IH; [intros kv' H; apply Hv; by right|]. destruct Hk as [(kv' & [->|H]%elem_of_cons & E)|Hk]; [right|left; by eauto|right];
      unfold index_entry; cbn [snd]; destruct (decide (kv.2 = v)) as [El|Hl]; try done;
      try (rewrite El, lookup_insert_eq; f_equal; apply Hv; [by left|done]).
    by rewrite lookup_insert_ne.
Qed.

(** An object with an enum maps each name, as written and in lower case, to its
    number and each number back to its name, in any order of the map, as long as the
    lower-case names and the numbers are distinct. *)
Theorem indexEnum_roundtrip `{EnumOrder} mb name v :
  map_range (mb_Enum mb) !! name = Some v →
  (∀ n1 v1 n2 v2, map_range (mb_Enum mb) !! n1 = Some v1 → map_range (mb_Enum mb) !! n2 = Some v2 → ToLower n1 = ToLower n2 ∨ v1 = v2 → n1 = n2) →
  ∃ e r, mb_Enum (indexEnum mb) = Some e ∧ mb_EnumRev (indexEnum mb) = Some r ∧
    e !! ToLower name = Some v ∧ r !! v = Some name.
Proof.
  intros Hn Hd. unfold indexEnum. set (l := enum_order (map_range (mb_Enum mb))).
  assert (∀ kv, kv ∈ l ↔ map_range (mb_Enum mb) !! kv.1 = Some kv.2) as Hl by (intros [k x]; unfold l; by rewrite enum_order_perm, elem_of_map_to_list).
  assert ((name, v) ∈ l) as Hin by by apply Hl.
  assert (∀ kv, kv ∈ l → ToLower kv.1 = ToLower name ∨ kv.2 = v → kv = (name, v)) as Hsame.
  { intros [k x] Hkv%Hl Hor. cbn [fst snd] in *. assert (k = name) as -> by (eapply Hd; eauto). congruence. }
  pose proof (index_entries_enum l (∅, ∅) (ToLower name) v) as H1. pose proof (index_entries_rev l (∅, ∅) name v) as H2.
  destruct (foldl index_entry (∅, ∅) l) as [e r]. exists e, r. split_and!; [done|done|apply H1|apply H2].
  - intros kv Hkv Hor. assert (kv = (name, v)) as ->; [|done]. apply Hsame; [done|]. left. destruct Hor as [->|E]; [apply ToLower_idem|exact E].
  - left. by exists (name, v).
  - intros kv Hkv Hv. assert (kv = (name, v)) as ->; [|done]. apply Hsame; [done|]. by right.
  - left. by exists (name, v).
Qed.

(** The symbols of a profile that are looked at, in order. *)
Definition visited (en : enabled_mibs) (metric : MIB) : list OID :=
  if metric_enabled en metric && is_counter metric then
    if String.eqb (o_Oid (m_Symbol metric)) "" then m_Symbols metric
    else m_Symbol metric :: (if String.eqb (o_Name (m_Symbol metric)) "" then [] else m_Symbols metric)
  else [].
Definition faster (counterTimeSec : Z) (s : OID) : bool := (0 <? o_PollTime s) && (o_PollTime s <? counterTimeSec).

Section min_time.
Context `{EnumOrder} (counterTimeSec : Z).

Definition last_faster (l : list OID) (min : Z) : Z := foldl (λ min s, if faster counterTimeSec s then o_PollTime s else min) min l.
Lemma add_symbol_min metric s st : minCounterTime (add_symbol counterTimeSec metric s st).1 = last_faster [s] (minCounterTime st).
Proof.
  unfold add_symbol, poll_time, last_faster, faster. cbn [foldl]. destruct (0 <? o_PollTime s); cbn [andb].
  - destruct (o_PollTime s <? counterTimeSec); [|destruct (counterTimeSec <? o_PollTime s)];
      destruct (String.eqb (o_Name s) ""); try done; by destruct (m_IsInterface metric || _).
  - destruct (String.eqb (o_Name s) ""); [done|]. by destruct (m_IsInterface metric || _).
Qed.
Lemma add_symbol_named metric s st : (add_symbol counterTimeSec metric s st).2 = negb (String.eqb (o_Name s) "").
Proof.
  unfold add_symbol. destruct (poll_time _ _ _). destruct (String.eqb (o_Name s) ""); [done|]. by destruct (m_IsInterface metric || _).
Qed.
Lemma add_metric_min en metric st : minCounterTime (add_metric en counterTimeSec st metric) = last_faster (visited en metric) (minCounterTime st).
Proof.
  unfold add_metric, visited. destruct (_ && _); [|done].
  assert (∀ l st, minCounterTime (foldl (λ st s, (add_symbol counterTimeSec metric s st).1) st l) = last_faster l (minCounterTime st)) as Hl.
  { intros l. induction l as [|s l IH]; intros st'; [done|]. cbn [foldl]. by rewrite IH, add_symbol_min. }
  destruct (String.eqb (o_Oid (m_Symbol metric)) ""); [apply Hl|].
  pose proof (add_symbol_min metric (m_Symbol metric) st) as E1. pose proof (add_symbol_named metric (m_Symbol metric) st) as E2.
  destruct (add_symbol counterTimeSec metric (m_Symbol metric) st) as [st' go_on]. cbn [fst snd] in *. subst go_on.
  destruct (String.eqb (o_Name (m_Symbol metric)) ""); cbn [negb]; [done|]. by rewrite Hl, E1.
Qed.
End min_time.

(** The poll time of a device is that of the last enabled symbol that wants to be
    polled more often, which need not be the least, and the configured one without such
    a symbol. *)
Theorem GetMetrics_poll_time `{EnumOrder, MibOrder} p enabledMibs counterTimeSec :
  (GetMetrics p enabledMibs counterTimeSec).2 =
    default counterTimeSec (last (o_PollTime <$> List.filter (faster counterTimeSec) (concat (visited (enable_all enabledMibs) <$> Metrics p)))).
Proof.
  unfold GetMetrics. cbn [snd]. set (en := enable_all enabledMibs).
  transitivity (last_faster counterTimeSec (concat (visited en <$> Metrics p)) counterTimeSec).
  - assert (∀ st, minCounterTime (foldl (add_metric en counterTimeSec) st (Metrics p)) =
      last_faster counterTimeSec (concat (visited en <$> Metrics p)) (minCounterTime st)) as H2; [|apply H2].
    induction (Metrics p) as [|metric l IH]; intros st; [done|]. cbn [foldl]. rewrite IH, add_metric_min. cbn [fmap list_fmap concat].
    unfold last_faster. by rewrite foldl_app.
  - induction (concat _) as [|s l IH] using rev_ind; [done|]. unfold last_faster in *. rewrite foldl_app. cbn [foldl].
    rewrite List.filter_app, fmap_app. cbn [List.filter]. destruct (faster counterTimeSec s); cbn [fmap list_fmap]; [by rewrite last_snoc|by rewrite app_nil_r].
Qed.

(** ** Examples *)

#[export] Instance ex_enum_order : EnumOrder := {| enum_order := map_to_list; enum_order_perm m := Permutation_refl _ |}.
#[export] Instance ex_mib_order : MibOrder := {| mib_order := map_to_list; mib_order_perm m := Permutation_refl _ |}.
#[export] Instance ex_compiler : RegexpCompiler := {| Compile s := Some (mkRegexp s); MatchString re s := Contains s (pattern re) |}.

Definition ex_oid (oid name : string) (poll : Z) : OID := mkOID oid name None "" "" poll [] "" false "".
Definition no_oid : OID := ex_oid "" "" 0.
Definition ex_metric (mib : string) (syms : list OID) : MIB := mkMIB mib (ex_oid "" "ifXTable" 0) syms [] "" no_oid false false false.
Definition ex_profile (from : string) (exts : list string) (ms : list MIB) : Profile :=
  mkProfile ms exts [] from None [] (Some ∅) false "" "".

Definition ex_base : Profile := ex_profile "base.yml" [] [ex_metric "IF-MIB" [ex_oid "1.3.6.1.2.1.31.1.1.1.6" "ifHCInOctets" 0]].
Definition ex_router : Profile := ex_profile "router.yml" ["base.yml"] [ex_metric "CPU-MIB" [ex_oid "1.3.6.1.4.1.9.1" "cpu" 30; ex_oid "1.3.6.1.4.1.9.2" "memory" 60]].
Definition ex_heap : heap := {[1%positive := ex_base; 2%positive := ex_router]}.
Definition ex_extends : gmap string ptr := {["base.yml" := 1%positive; "router.yml" := 2%positive]}.

Lemma FindProfile_longest_witness :
  FindProfile ex_heap {["1.3.6.1.4.1.9.*" := 1%positive; "1.3.6.1.4.1.9.1.*" := 2%positive]} [1%positive; 2%positive] (λ _, [])
    ".1.3.6.1.4.1.9.1.5" "a router" "" = Some 2%positive ∧ HasPrefix "" "!" = false.
Proof.
  assert (HasPrefix "" "!" = false) as H by reflexivity. split; [|exact H].
  destruct (FindProfile_longest ex_heap {["1.3.6.1.4.1.9.*" := 1%positive; "1.3.6.1.4.1.9.1.*" := 2%positive]} [1%positive; 2%positive] (λ _, [])
    ".1.3.6.1.4.1.9.1.5" "a router" "" H) as (o & E & _). vm_compute. reflexivity.
Defined.

Lemma ex_loaded : loaded ex_extends ex_heap Pos.to_nat.
Proof.
  split.
  - intros l p H. assert (map_Forall (λ _ p, extended p = false) ex_heap) as Hf by (apply (bool_decide_unpack _); vm_compute; exact I). by apply (Hf l p).
  - intros l p H. assert (map_Forall (λ _ p, SysMap p = Some ∅) ex_heap) as Hf.
    { unfold ex_heap. apply map_Forall_insert_2; [done|]. by apply map_Forall_singleton. }
    intros _. rewrite (Hf l p H). by eexists.
  - intros l p name el H Hn He. unfold ex_heap in H. apply lookup_insert_Some in H as [[<- <-]|[_ H]]; [by apply elem_of_nil in Hn|].
    apply lookup_singleton_Some in H as [<- <-]. apply list_elem_of_singleton in Hn as ->. vm_compute in He. injection He as <-.
    split; [cbn; lia|]. by eexists.
Qed.

Lemma extend_profiles_all_witness : ∃ h, extend_profiles ex_extends false 3 [2%positive; 1%positive] ex_heap = Ok h ∧
  (λ p, m_Mib <$> Metrics p) <$> h !! (2%positive : ptr) = Some ["CPU-MIB"; "IF-MIB"].
Proof.
  destruct (extend_profiles_all ex_extends ex_heap Pos.to_nat 3 [2%positive; 1%positive] ex_loaded) as (h & E & Hm).
  - intros l H. repeat (apply elem_of_cons in H as [->|H]; [split; [by eexists|cbn; lia]|]). by apply elem_of_nil in H.
  - exists h. split; [exact E|]. destruct (Hm (2%positive : ptr)) as (p & -> & Hp); [by left|]. cbn [fmap option_fmap option_map]. rewrite Hp. vm_compute. reflexivity.
Defined.

(** Two profiles that extend each other. *)
Definition ex_cycle : heap := {[1%positive := ex_profile "a" ["b"] []; 2%positive := ex_profile "b" ["a"] []]}.
Lemma extend_terminates_witness : ∃ h' err, extend {["a" := 1%positive; "b" := 2%positive]} true 3 1%positive ex_cycle = Ok (h', err).
Proof.
  destruct (extend_terminates {["a" := 1%positive; "b" := 2%positive]} true 3 1%positive ex_cycle) as (h' & err & E & _).
  - by eexists.
  - split.
    + intros name l H. apply lookup_insert_Some in H as [[_ <-]|[_ H]]; [by eexists|]. apply lookup_singleton_Some in H as [_ <-]. by eexists.
    + assert (map_Forall (λ _ p, SysMap p = Some ∅) ex_cycle) as Hf by (unfold ex_cycle; apply map_Forall_insert_2; [done|]; by apply map_Forall_singleton).
      intros l p H _. rewrite (Hf l p H). by eexists.
  - vm_compute. lia.
  - by exists h', err.
Defined.

Definition ex_mib (oid name : string) (ext : bool) : Mib :=
  mkMib oid name Counter "" "" None None "" "" "" 0 None 0 ext None "" false None None None false "".
Lemma prune_keeps_best_witness :
  let mibs : gmap string Mib := {["1.1" := ex_mib "1.1" "cpu" false; "1.1.1.1" := ex_mib "1.1.1.1" "cpu" true; "1.2" := ex_mib "1.2" "mem" true]} in
  mib_order mibs ≡ₚ map_to_list mibs ∧ dom (prune (mib_order mibs) 300 300 mibs) = {["1.1"; "1.2"]}.
Proof.
  cbv zeta. set (mibs := _ : gmap string Mib). assert (mib_order mibs ≡ₚ map_to_list mibs) as H by apply mib_order_perm. split; [exact H|].
  destruct (prune_keeps_best (mib_order mibs) 300 300 mibs H) as (_ & _ & _). vm_compute. reflexivity.
Defined.

Definition ex_enum : Mib := set_Enum (Some {["up" := 1; "Down" := 2]}) None Mib_zero.
Lemma indexEnum_roundtrip_witness : ∃ e r, mb_Enum (indexEnum ex_enum) = Some e ∧ mb_EnumRev (indexEnum ex_enum) = Some r ∧
  e !! ToLower "Down" = Some 2 ∧ r !! 2 = Some "Down".
Proof.
  apply (indexEnum_roundtrip ex_enum "Down" 2); [reflexivity|].
  change (map_range (mb_Enum ex_enum)) with ({["up" := 1; "Down" := 2]} : gmap string Z).
  assert (∀ n v, ({["up" := 1; "Down" := 2]} : gmap string Z) !! n = Some v → (n = "up" ∧ v = 1) ∨ (n = "Down" ∧ v = 2)) as Hc.
  { intros n v H. apply lookup_insert_Some in H as [[<- <-]|[_ H]]; [by left|]. apply lookup_singleton_Some in H as [<- <-]. by right. }
  intros n1 v1 n2 v2 [[-> ->]|[-> ->]]%Hc [[-> ->]|[-> ->]]%Hc [H|H]; try done.
Defined.

(** The slower of two fast symbols decides when it comes last. *)
Lemma ex_poll_time : (GetMetrics ex_router ["CPU-MIB"] 300).2 = 60.
Proof. vm_compute. reflexivity. Qed.
