(* ===== verification/MibTraps.v ===== *)
(** SNMP traps (src/pkg/inputs/snmp/mibs/trap.go and load.go): the objects a trap may
    carry, with variables in their ids, and how a received object is found again.

    There is no compiled MIB database. *)
From S2P Require Import Prelude GoStrings GoMap Jchf.
From S2P Require Import MibProfile.
From S2P Require FlowToJCHF.
Local Open Scope Z_scope.

Record Trap := mkTrap { tr_Oid : string; tr_Name : string; tr_DropUndefined : bool; tr_Events : list OID; tr_Attributes : gomap string }.
Record MibDB := mkMibDB { trapMibs : gmap string Mib; traps : gmap string Trap }.

Definition DropUndefinedVars (t : option Trap) : bool := match t with None => false | Some t => tr_DropUndefined t end.
Definition normalizeOid (oid : string) : string := if HasPrefix oid "." then oid else String.append "." oid.

(** ** Parsing the id of an event *)

Record oid_state := mkOidState { kvs : gmap string (list Z); newOid : list string; nextWildcard : Z }.

Definition is_variable (last : string) : bool :=
  (2 <? String.length last)%nat && HasPrefix last "{" && FlowToJCHF.HasSuffix last "}".
Definition inside (last : string) : string := take_string (String.length last - 2) (drop_string 1 last).

Fixpoint parse_parts (pts : list string) (st : oid_state) : oid_state :=
  match pts with
  | [] => st
  | last :: pts =>
      if is_variable last then
        match Split (inside last) ":" with
        | [name; len] =>
            match Atoi len with
            | Some vlen => parse_parts pts (mkOidState (<[name := [wraps 64 (nextWildcard st + 1); vlen]]> (kvs st)) (newOid st)
                (wraps 64 (nextWildcard st + vlen)))
            | None =>
                if String.eqb len "*" then mkOidState (<[name := [wraps 64 (nextWildcard st + 1); 0]]> (kvs st)) (newOid st) (nextWildcard st)
                else parse_parts pts st
            end
        | _ => parse_parts pts st
        end
      else parse_parts pts (mkOidState (kvs st) (newOid st ++ [last]) (wraps 64 (nextWildcard st + 1)))
  end.

Definition event_oid (st : oid_state) : string :=
  Join (if (0 <? size (kvs st))%nat then newOid st ++ ["*"] else newOid st) ".".

(** The enum of an event, which is added to while it is ranged over: [e] and [r] are the
    maps after the loop. *)
Definition enum_body (k : string) (v : Z) (st : gmap string Z * gmap Z string) : gmap string Z * gmap Z string :=
  (<[ToLower k := v]> st.1, <[v := k]> st.2).
Definition event_enum (o : OID) (e : gomap Z) (r : option (gmap Z string)) : Prop :=
  match o_Enum o with
  | None => e = None ∧ r = None
  | Some m =>
      if (0 <? size m)%nat then ∃ e' r', e = Some e' ∧ r = Some r' ∧ range fst enum_body (m, ∅) (e', r')
      else e = Some m ∧ r = None
  end.

Definition event_mib (trap : Trap) (event : OID) (e : gomap Z) (r : option (gmap Z string)) : Mib :=
  let st := parse_parts (Split (o_Oid event) ".") (mkOidState ∅ [] 0) in
  mkMib (event_oid st) (o_Name event) 0 (tr_Name trap) (o_Tag event) e r (o_Conversion event) (tr_Oid trap) "" 0
    None 0 false None "" false None (Some (kvs st)) (tr_Attributes trap) false "".

(** An event of [parseTrapsFromYml], and a trap once its events are in. *)
Definition add_event (trap : Trap) (event : OID) (db db' : MibDB) : Prop :=
  ∃ e r, event_enum event e r ∧
    let mib := event_mib trap event e r in
    db' = mkMibDB (<[normalizeOid (mb_Oid mib) := mib]> (trapMibs db)) (traps db).
Inductive add_events (trap : Trap) : list OID → MibDB → MibDB → Prop :=
| no_events db : add_events trap [] db db
| more_events event events db db1 db2 : add_event trap event db db1 → add_events trap events db1 db2 → add_events trap (event :: events) db db2.
Inductive add_traps : list Trap → MibDB → MibDB → Prop :=
| no_traps db : add_traps [] db db
| more_traps trap ts db db1 db2 : add_events trap (tr_Events trap) db db1 →
    add_traps ts (mkMibDB (trapMibs db1) (<[normalizeOid (tr_Oid trap) := trap]> (traps db1))) db2 → add_traps (trap :: ts) db db2.

(** ** Looking up *)

Definition GetTrap (db : MibDB) (oid : string) : option Trap := find_oid (traps db) oid.

(** [l[lo:hi]]. *)
Definition slice_parts (l : list string) (lo hi : Z) : res (list string) :=
  if (0 <=? lo) && (lo <=? hi) && (hi <=? Z.of_nat (length l)) then Ok (take (Z.to_nat (hi - lo)) (drop (Z.to_nat lo) l))
  else Panic "slice bounds out of range".

(** The attribute of a variable, if the id is long enough for it. *)
Definition variable_value (pts : list string) (posits : list Z) : res (option string) :=
  p0 ← slice_get posits 0; p1 ← slice_get posits 1;
  if Z.of_nat (length pts) <? wraps 64 (p0 + p1) then Ok None
  else if p1 =? 0 then parts ← slice_parts pts p0 (Z.of_nat (length pts)); Ok (Some (Join parts "."))
  else parts ← slice_parts pts p0 (wraps 64 (p0 + p1)); Ok (Some (Join parts ".")).

Definition put_attr (pts : list string) (name : string) (posits : list Z) (acc : res (gmap string string)) : res (gmap string string) :=
  attrs ← acc; v ← variable_value pts posits; Ok (match v with Some v => <[name := v]> attrs | None => attrs end).

(** The first wildcard that is known, with the parts of the id. *)
Definition GetForKey (db : MibDB) (oid : string) : res (option (Mib * gomap string)) :=
  match trapMibs db !! oid with
  | Some m => Ok (Some (m, mb_XAttr m))
  | None =>
      let pts := Split oid "." in
      match first_key (trapMibs db) (wildcards (length pts) pts) with
      | Some t =>
          attrs ← map_fold (put_attr pts) (Ok ∅) (map_range (mb_VarSet t));
          Ok (Some (t, Some (attrs ∪ map_range (mb_XAttr t))))
      | None => Ok None
      end
  end.

(** ** Strings of an id *)

Lemma digits_no_char d s acc v : digits_value s acc = Some v → digit_value d = None → Contains s (String d "") = false.
Proof.
  intros Hs Hd. revert acc Hs. induction s as [|c s IH]; intros acc Hs; [done|]. cbn [digits_value] in Hs. cbn [Contains].
  destruct (digit_value c) as [x|] eqn:Ec; [|done]. cbn [mbind option_bind] in Hs. rewrite HasPrefix_char, (IH _ Hs), orb_false_r.
  apply Ascii.eqb_neq. intros ->. congruence.
Qed.
Lemma Itoa_no_char z d : 0 ≤ z < 2 ^ 63 → digit_value d = None → Contains (Itoa z) (String d "") = false.
Proof.
  intros Hz Hd. unfold Itoa. rewrite (proj2 (Z.ltb_ge _ _)) by lia. eapply digits_no_char; [|exact Hd]. apply decimal_value0.
  split; [lia|]. apply (Z.lt_trans _ (2 ^ 63)); [lia|done].
Qed.

Lemma take_string_append a b : take_string (String.length a) (String.append a b) = a.
Proof. induction a as [|c a IH]; [by destruct b|]. rewrite append_cons. cbn [String.length take_string]. by rewrite IH. Qed.
Lemma HasSuffix_append a b : FlowToJCHF.HasSuffix (String.append a b) b = true.
Proof.
  unfold FlowToJCHF.HasSuffix. rewrite length_append. rewrite (proj2 (Nat.leb_le _ _)) by lia. cbn [andb].
  replace (String.length a + String.length b - String.length b)%nat with (String.length a) by lia. rewrite drop_string_append. apply String.eqb_refl.
Qed.

(** A variable as it is written in an id. *)
Definition variable_part (name len : string) : string := String.append "{" (String.append (String.append name (String.append ":" len)) "}").
Lemma variable_part_is name len : name ≠ "" ∨ len ≠ "" → is_variable (variable_part name len) = true.
Proof.
  intros Hne. unfold is_variable, variable_part. rewrite HasPrefix_append. rewrite <-append_assoc, HasSuffix_append, andb_true_r, andb_true_r.
  apply Nat.ltb_lt. rewrite !length_append. cbn [String.length]. destruct Hne as [H|H]; [destruct name|destruct len]; cbn [String.length]; try done; lia.
Qed.
Lemma variable_inside name len : inside (variable_part name len) = String.append name (String.append ":" len).
Proof.
  unfold inside, variable_part. rewrite (drop_string_append "{" _ : drop_string 1 _ = _). rewrite length_append.
  set (m := String.append name _). rewrite length_append. cbn [String.length].
  replace (1 + (String.length m + 1) - 2)%nat with (String.length m) by lia. apply take_string_append.
Qed.

(** The parts of an id of objects: no dots, and none is a variable. *)
Definition plain_part (p : string) : Prop := Contains p "." = false ∧ is_variable p = false.
Record named (v : string * list string) : Prop := {
  nm_name : v.1 ≠ "" ∧ Contains v.1 "." = false ∧ Contains v.1 ":" = false;
  nm_some : v.2 ≠ [];
  nm_parts : Forall (λ p, Contains p "." = false ∧ p ≠ "*") v.2 }.
Definition written (v : string * list string) : string := variable_part v.1 (Itoa (Z.of_nat (length v.2))).

Lemma parse_plain B pts st : Forall plain_part B → 0 ≤ nextWildcard st → nextWildcard st + Z.of_nat (length B) < 2 ^ 62 →
  parse_parts (B ++ pts) st = parse_parts pts (mkOidState (kvs st) (newOid st ++ B) (nextWildcard st + Z.of_nat (length B))).
Proof.
  intros HB. revert st. induction HB as [|p B [_ Hp] _ IH]; intros st H0 Hn.
  - cbn [app length]. rewrite app_nil_r, Z.add_0_r. by destruct st.
  - cbn [app parse_parts]. rewrite Hp. cbn [length] in Hn. rewrite wraps_id by (unfold in_s; lia).
    rewrite IH by (cbn [nextWildcard]; lia). cbn [kvs newOid nextWildcard]. rewrite <-app_assoc. cbn [app length]. do 2 f_equal. lia.
Qed.

Definition width (V : list (string * list string)) : Z := Z.of_nat (length (concat V.*2)).
Lemma width_cons v V : width (v :: V) = Z.of_nat (length v.2) + width V.
Proof. unfold width. cbn [fmap list_fmap concat]. rewrite length_app. lia. Qed.

Lemma width_in v V : v ∈ V → Z.of_nat (length v.2) ≤ width V.
Proof.
  induction V as [|u V IH]; intros H; [by apply elem_of_nil in H|]. rewrite width_cons. assert (0 ≤ width V) by (unfold width; lia).
  apply elem_of_cons in H as [->|H]; [lia|]. specialize (IH H). lia.
Qed.

(** Where the values of the variables start. *)
Fixpoint positions (start : Z) (V : list (string * list string)) (m : gmap string (list Z)) : gmap string (list Z) :=
  match V with
  | [] => m
  | v :: V => positions (start + Z.of_nat (length v.2)) V (<[v.1 := [start + 1; Z.of_nat (length v.2)]]> m)
  end.
Lemma parse_variables V st : Forall named V → 0 ≤ nextWildcard st → nextWildcard st + width V < 2 ^ 62 →
  parse_parts (written <$> V) st = mkOidState (positions (nextWildcard st) V (kvs st)) (newOid st) (nextWildcard st + width V).
Proof.
  intros HV. revert st. induction HV as [|v V Hv _ IH]; intros st H0 Hn.
  - cbn. unfold width. cbn. rewrite Z.add_0_r. by destruct st.
  - rewrite width_cons in Hn. assert (0 ≤ width V) by (unfold width; lia). destruct (nm_name v Hv) as (Hne & Hdot & Hcol).
    cbn [fmap list_fmap parse_parts]. unfold written at 1 2.
    rewrite (variable_part_is v.1) by by left. rewrite variable_inside.
    assert (Split (String.append v.1 (String.append ":" (Itoa (Z.of_nat (length v.2))))) ":" = [v.1; Itoa (Z.of_nat (length v.2))]) as ->.
    { apply (Split_char ":"); [exact Hcol|]. apply Itoa_no_char; [lia|done]. }
    rewrite Atoi_Itoa by (unfold in_s; lia). rewrite !wraps_id by (unfold in_s; lia).
    rewrite IH by (cbn [nextWildcard]; lia). cbn [kvs newOid nextWildcard positions]. rewrite width_cons. f_equal. lia.
Qed.

Lemma positions_other start V m n : n ∉ V.*1 → positions start V m !! n = m !! n.
Proof.
  revert start m. induction V as [|v V IH]; intros start m Hn; [done|]. cbn in Hn. apply not_elem_of_cons in Hn as [Hne Hn].
  cbn [positions]. rewrite IH by done. by rewrite lookup_insert_ne.
Qed.
Lemma positions_at start V1 v V2 m : NoDup (V1 ++ v :: V2).*1 →
  positions start (V1 ++ v :: V2) m !! v.1 = Some [start + width V1 + 1; Z.of_nat (length v.2)].
Proof.
  revert start m. induction V1 as [|u V1 IH]; intros start m Hn.
  - cbn [app positions] in *. cbn in Hn. apply NoDup_cons in Hn as [Hv _]. rewrite positions_other by done.
    rewrite lookup_insert_eq. unfold width. cbn. do 3 f_equal. lia.
  - cbn [app positions] in *. cbn in Hn. apply NoDup_cons in Hn as [_ Hn]. rewrite IH by done. rewrite width_cons. do 3 f_equal. lia.
Qed.
Lemma positions_in start V m n ps : NoDup V.*1 → positions start V m !! n = Some ps → m !! n = None →
  ∃ V1 v V2, V = V1 ++ v :: V2 ∧ v.1 = n ∧ ps = [start + width V1 + 1; Z.of_nat (length v.2)].
Proof.
  revert start m. induction V as [|v V IH]; intros start m Hn E Hm; [cbn in E; congruence|]. cbn [positions] in E.
  cbn in Hn. apply NoDup_cons in Hn as [Hv Hn]. destruct (decide (v.1 = n)) as [<-|Hne].
  - rewrite positions_other, lookup_insert_eq in E by done. injection E as <-. exists [], v, V. split_and!; [done|done|]. unfold width. cbn. do 2 f_equal. lia.
  - destruct (IH _ _ Hn E) as (V1 & u & V2 & -> & Hu & ->); [by rewrite lookup_insert_ne|].
    exists (v :: V1), u, V2. split_and!; [done|done|]. rewrite width_cons. do 2 f_equal. lia.
Qed.

(** ** What a trap's object is found as *)

Lemma Join_dot l : l ≠ [] → String.append "." (Join l ".") = Join ("" :: l) ".".
Proof. by destruct l. Qed.
Lemma Join_snoc l x : l ≠ [] → Join (l ++ [x]) "." = String.append (Join l ".") (String.append "." x).
Proof.
  intros Hl. induction l as [|a [|b l] IH]; [done|done|]. change ((a :: b :: l) ++ [x]) with (a :: b :: (l ++ [x])).
  rewrite !Join_cons. change (b :: l ++ [x]) with ((b :: l) ++ [x]). rewrite IH by done. by rewrite !append_assoc.
Qed.
Lemma wildcard_inj pts i j : Forall (λ p, Contains p "." = false) pts → (0 < i ≤ length pts)%nat → (0 < j ≤ length pts)%nat →
  wildcard pts i = wildcard pts j → i = j.
Proof.
  intros Hp Hi Hj E%append_inj_r.
  assert (∀ k, (0 < k ≤ length pts)%nat → Split (Join (take k pts) ".") "." = take k pts) as Hs.
  { intros k Hk. apply Split_Join_char; [|by apply Forall_take]. destruct pts; [cbn in Hk; lia|]. destruct k; [lia|done]. }
  apply (f_equal (λ s, length (Split s "."))) in E. rewrite !Hs, !length_take in E by done. lia.
Qed.

Lemma slice_parts_mid (A M R : list string) lo hi : lo = Z.of_nat (length A) → hi = lo + Z.of_nat (length M) →
  slice_parts (A ++ M ++ R) lo hi = Ok M.
Proof.
  intros -> ->. unfold slice_parts. rewrite !length_app. rewrite !(proj2 (Z.leb_le _ _)) by lia. cbn [andb]. f_equal.
  rewrite Nat2Z.id, drop_app_length. replace (Z.to_nat _) with (length M) by lia. apply take_app_length.
Qed.

(** The variables whose values are there, on top of what else is set. *)
Lemma put_attrs pts (ps : gmap string (list Z)) : (∀ n p, ps !! n = Some p → ∃ o, variable_value pts p = Ok o) →
  ∃ attrs, map_fold (put_attr pts) (Ok ∅) ps = Ok attrs ∧
    ∀ n, attrs !! n = ps !! n ≫= λ p, match variable_value pts p with Ok o => o | _ => None end.
Proof.
  refine (map_fold_weak_ind (λ r ps, (∀ n p, ps !! n = Some p → ∃ o, variable_value pts p = Ok o) → ∃ attrs, r = Ok attrs ∧
    ∀ n, attrs !! n = ps !! n ≫= λ p, match variable_value pts p with Ok o => o | _ => None end) _ _ _ _ ps).
  - intros _. exists ∅. split; [done|]. intros n. by rewrite !lookup_empty.
  - intros n p m r Hn IH H. destruct IH as (attrs & -> & Ha).
    { intros n' p' E. apply (H n'). rewrite lookup_insert_ne; [done|congruence]. }
    destruct (H n p) as [o Eo]; [apply lookup_insert_eq|]. unfold put_attr. cbn [mbind res_bind]. rewrite Eo. eexists. split; [reflexivity|].
    intros n'. destruct (decide (n = n')) as [<-|Hne].
    + rewrite lookup_insert_eq. cbn [mbind option_bind]. rewrite Eo. destruct o; [apply lookup_insert_eq|]. by rewrite Ha, Hn.
    + rewrite lookup_insert_ne, <-Ha by done. destruct o; [by rewrite lookup_insert_ne|done].
Qed.

(** The objects after one event with the parts [B] and the variables [V]. *)
Lemma event_found trap event B V db : Forall plain_part B → Forall named V → V ≠ [] → B ≠ [] → NoDup V.*1 →
  o_Oid event = Join (B ++ (written <$> V)) "." → Z.of_nat (length B) + width V < 2 ^ 62 →
  add_event trap event (mkMibDB ∅ ∅) db →
  ∃ mib, trapMibs db = {[normalizeOid (String.append (Join B ".") ".*") := mib]} ∧ mb_Name mib = o_Name event ∧ mb_XAttr mib = tr_Attributes trap ∧
    mb_VarSet mib = Some (positions (Z.of_nat (length B)) V ∅).
Proof.
  intros HB HV HVne HBne Hnd Ho Hlen (e & r & _ & ->). unfold event_mib. rewrite Ho.
  assert (Split (Join (B ++ (written <$> V)) ".") "." = B ++ (written <$> V)) as ->.
  { apply Split_Join_char; [by destruct B|]. apply Forall_app. split; [eapply Forall_impl; [exact HB|]; by intros p [? _]|].
    apply Forall_fmap, Forall_forall. intros v Hin. pose proof (width_in v V Hin). rewrite Forall_forall in HV. cbn.
    unfold written, variable_part. destruct (nm_name v (HV v Hin)) as (_ & Hd & _).
    assert (Contains (Itoa (Z.of_nat (length v.2))) "." = false) as Hi.
    { apply Itoa_no_char; [|done]. unfold width in *; lia. }
    rewrite !Contains_char_append, Hd, Hi. done. }
  assert (0 ≤ width V) by (unfold width; lia).
  rewrite parse_plain by (cbn; try done; lia). cbn [kvs newOid nextWildcard app]. rewrite Z.add_0_l.
  rewrite parse_variables by (cbn; try done; lia). cbn [kvs newOid nextWildcard].
  assert (0 < size (positions (Z.of_nat (length B)) V ∅))%nat as Hs.
  { destruct (size _) eqn:Es; [|lia]. apply map_size_empty_inv in Es. destruct V as [|v V]; [done|].
    pose proof (positions_at (Z.of_nat (length B)) [] v V ∅ Hnd) as E. cbn [app] in E. by rewrite Es, lookup_empty in E. }
  match goal with |- context [<[normalizeOid (mb_Oid ?M) := _]> _] => exists M end. split; [|done].
  cbn [trapMibs mb_Oid]. unfold event_oid. cbn [kvs newOid]. rewrite (proj2 (Nat.ltb_lt _ _) Hs), Join_snoc by done. by rewrite insert_empty.
Qed.

(** Looking the object up under an id that starts with the parts of its own. *)
Lemma GetForKey_event db B W mib ps : B ≠ [] → Forall (λ p, Contains p "." = false) (B ++ W) → "*" ∉ W → W ≠ [] →
  trapMibs db = {[String.append "." (String.append (Join B ".") ".*") := mib]} → mb_VarSet mib = Some ps →
  GetForKey db (String.append "." (Join (B ++ W) ".")) =
    attrs ← map_fold (put_attr ("" :: B ++ W)) (Ok ∅) ps; Ok (Some (mib, Some (attrs ∪ map_range (mb_XAttr mib)))).
Proof.
  intros HB Hp Hstar HW Hdb Hps. unfold GetForKey. set (pts := "" :: B ++ W).
  assert (Forall (λ p, Contains p "." = false) pts) as Hpts by (by constructor).
  assert (String.append "." (Join (B ++ W) ".") = Join pts ".") as -> by (apply Join_dot; by destruct B).
  assert (String.append "." (String.append (Join B ".") ".*") = wildcard pts (S (length B))) as Ek.
  { unfold wildcard, pts. cbn [take]. rewrite take_app_length. by rewrite <-Join_dot, append_assoc. }
  rewrite Hdb, Ek.
  assert (Split (Join pts ".") "." = pts) as Es by by apply Split_Join_char.
  assert (wildcard pts (S (length B)) ≠ Join pts ".") as Hne.
  { intros E. rewrite <-Es in E at 2. unfold wildcard in E. change ".*" with (String.append "." "*") in E. rewrite <-Join_snoc in E by done.
    rewrite Es in E. apply (f_equal (λ s, Split s ".")) in E. rewrite Es in E. rewrite Split_Join_char in E.
    - unfold pts in E. cbn [take] in E. rewrite take_app_length in E. injection E as E. apply app_inv_head in E. apply Hstar. rewrite <-E. by left.
    - by destruct B.
    - apply Forall_app. split; [by apply Forall_take|]. by repeat constructor. }
  rewrite lookup_singleton_ne by done. cbv zeta. rewrite Es.
  pose proof (first_key_spec {[wildcard pts (S (length B)) := mib]} pts (length pts)) as Hf.
  assert (0 < S (length B) ≤ length pts)%nat as Hlen by (unfold pts; cbn [length]; rewrite length_app; lia).
  destruct (first_key _ _) as [t|].
  - destruct Hf as (i & Hi & E & _). apply lookup_singleton_Some in E as [E ->]. by rewrite Hps.
  - specialize (Hf (S (length B)) Hlen). by rewrite lookup_singleton_eq in Hf.
Qed.

Lemma variable_at (B W : list string) V1 v V2 : W = concat (V1 ++ v :: V2).*2 → named v → Z.of_nat (length B) + width (V1 ++ v :: V2) < 2 ^ 62 →
  variable_value ("" :: B ++ W) [Z.of_nat (length B) + width V1 + 1; Z.of_nat (length v.2)] = Ok (Some (Join v.2 ".")).
Proof.
  intros -> Hv Hlen. unfold variable_value, slice_get. cbn [lookup list_lookup mbind res_bind].
  assert (width (V1 ++ v :: V2) = width V1 + Z.of_nat (length v.2) + width V2) as Ew.
  { unfold width. rewrite fmap_app, concat_app, length_app. cbn [fmap list_fmap concat]. rewrite length_app. lia. }
  assert (0 ≤ width V1 ∧ 0 ≤ width V2) as [? ?] by (unfold width; lia).
  assert (0 < length v.2)%nat as Hpos by (pose proof (nm_some v Hv); destruct (v.2); [done|cbn; lia]).
  rewrite !wraps_id by (unfold in_s; lia). rewrite fmap_app, concat_app. cbn [fmap list_fmap concat].
  set (pts := "" :: B ++ _). assert (Z.of_nat (length pts) = 1 + Z.of_nat (length B) + width (V1 ++ v :: V2)) as El.
  { unfold pts, width. cbn [length]. rewrite fmap_app, concat_app, !length_app. cbn [fmap list_fmap concat]. rewrite length_app. lia. }
  rewrite (proj2 (Z.ltb_ge _ _)) by lia. rewrite (proj2 (Z.eqb_neq _ _)) by lia.
  assert (pts = ("" :: B ++ concat V1.*2) ++ v.2 ++ concat V2.*2) as -> by (unfold pts; cbn [app]; by rewrite <-app_assoc).
  rewrite (slice_parts_mid _ (v.2)); [done| |done]. cbn [length]. rewrite length_app. unfold width. lia.
Qed.

(** An object whose id ends in variables is found for every id that gives them
    values, and each variable has the parts of its value. *)
Theorem trap_variables trap event B V db :
  Forall plain_part B → Forall named V → V ≠ [] → B ≠ [] → Join B "." ≠ "" → HasPrefix (Join B ".") "." = false → NoDup V.*1 →
  o_Oid event = Join (B ++ (written <$> V)) "." → Z.of_nat (length B) + width V < 2 ^ 62 →
  add_event trap event (mkMibDB ∅ ∅) db →
  ∃ mib attrs, GetForKey db (String.append "." (Join (B ++ concat V.*2) ".")) = Ok (Some (mib, Some attrs)) ∧
    mb_Name mib = o_Name event ∧ ∀ v, v ∈ V → attrs !! v.1 = Some (Join v.2 ".").
Proof.
  intros HB HV HVne HBne Hemp Hpre Hnd Ho Hlen Hadd.
  destruct (event_found trap event B V db HB HV HVne HBne Hnd Ho Hlen Hadd) as (mib & Hdb & Hname & _ & Hvars).
  assert (normalizeOid (String.append (Join B ".") ".*") = String.append "." (String.append (Join B ".") ".*")) as Hnorm.
  { unfold normalizeOid. destruct (Join B ".") as [|c t] eqn:E; [done|]. rewrite append_cons in *. rewrite HasPrefix_char in *. by rewrite Hpre. }
  rewrite Hnorm in Hdb. exists mib.
  assert (Forall (λ p, Contains p "." = false ∧ p ≠ "*") (concat V.*2)) as HW.
  { apply Forall_concat, Forall_fmap. eapply Forall_impl; [exact HV|]. intros v Hv. apply Hv. }
  rewrite (GetForKey_event db B (concat V.*2) mib (positions (Z.of_nat (length B)) V ∅)); [|done|..|done|done].
  - destruct (put_attrs ("" :: B ++ concat V.*2) (positions (Z.of_nat (length B)) V ∅)) as (attrs & -> & Ha).
    { intros n p E. apply positions_in in E as (V1 & v & V2 & -> & <- & ->); [|done|by rewrite lookup_empty].
      eexists. apply (variable_at B _ V1 v V2); [done| |done]. rewrite Forall_forall in HV. apply HV. rewrite elem_of_app. right. by left. }
    cbn [mbind res_bind]. eexists. split; [reflexivity|]. split; [done|]. intros v Hv. pose proof Hv as (V1 & V2 & ->)%list_elem_of_split.
    apply lookup_union_Some_l. rewrite Ha, positions_at by done. cbn [mbind option_bind].
    rewrite (variable_at B _ V1 v V2); [done|done| |done]. rewrite Forall_forall in HV. by apply HV.
  - apply Forall_app. split; [eapply Forall_impl; [exact HB|]; by intros p [? _]|]. eapply Forall_impl; [exact HW|]. by intros p [? _].
  - intros H. rewrite Forall_forall in HW. by destruct (HW "*" H) as [_ ?].
  - destruct V as [|v V]; [done|]. apply Forall_cons in HV as [Hv _]. pose proof (nm_some v Hv). cbn [fmap list_fmap concat]. by destruct (v.2).
Qed.

Definition a_trap : Trap := mkTrap "1.3.6.9" "aTrap" false [] (Some {["team" := "vmware"]}).
Definition an_event (oid : string) : OID := mkOID oid "obj" None "" "" 0 [] "" false "".
Definition an_object (key : string) (event : OID) : MibDB := mkMibDB {[key := event_mib a_trap event None None]} ∅.
Lemma add_an_event key oid : normalizeOid (event_oid (parse_parts (Split oid ".") (mkOidState ∅ [] 0))) = key →
  add_event a_trap (an_event oid) (mkMibDB ∅ ∅) (an_object key (an_event oid)).
Proof. intros <-. exists None, None. split; [done|]. cbv zeta. unfold an_object. cbn [trapMibs]. by rewrite insert_empty. Qed.

Lemma trap_variables_witness :
  add_event a_trap (an_event "1.3.{peer:2}.{if:1}") (mkMibDB ∅ ∅) (an_object ".1.3.*" (an_event "1.3.{peer:2}.{if:1}")) ∧
  ∃ mib attrs, GetForKey (an_object ".1.3.*" (an_event "1.3.{peer:2}.{if:1}")) ".1.3.66.99.333" = Ok (Some (mib, Some attrs)) ∧
    mb_Name mib = "obj" ∧ attrs !! "peer" = Some "66.99" ∧ attrs !! "if" = Some "333".
Proof.
  assert (add_event a_trap (an_event "1.3.{peer:2}.{if:1}") (mkMibDB ∅ ∅) (an_object ".1.3.*" (an_event "1.3.{peer:2}.{if:1}"))) as H
    by by apply add_an_event.
  split; [exact H|].
  destruct (trap_variables a_trap (an_event "1.3.{peer:2}.{if:1}") ["1"; "3"] [("peer", ["66"; "99"]); ("if", ["333"])] (an_object ".1.3.*" (an_event "1.3.{peer:2}.{if:1}"))) as (mib & attrs & E & Hn & Hv); try exact H.
  - by repeat constructor.
  - by repeat constructor.
  - done.
  - done.
  - done.
  - done.
  - apply (bool_decide_unpack _). by vm_compute.
  - done.
  - done.
  - exists mib, attrs. split; [exact E|]. split; [exact Hn|]. split; [apply (Hv ("peer", ["66"; "99"])); by left|apply (Hv ("if", ["333"])); right; by left].
Defined.

(** When the id of the object is written with the leading dot that ids of objects
    have elsewhere, the object is found as before but the value of its last variable is
    not: the positions count the part before the dot twice. *)
Theorem trap_leading_dot trap event B V v db :
  Forall plain_part B → Forall named (V ++ [v]) → B ≠ [] → NoDup (V ++ [v]).*1 →
  o_Oid event = String.append "." (Join (B ++ (written <$> V ++ [v])) ".") → Z.of_nat (length B) + width (V ++ [v]) < 2 ^ 61 →
  add_event trap event (mkMibDB ∅ ∅) db →
  ∃ mib attrs, GetForKey db (String.append "." (Join (B ++ concat (V ++ [v]).*2) ".")) = Ok (Some (mib, Some attrs)) ∧
    mb_Name mib = o_Name event ∧ attrs !! v.1 = map_range (tr_Attributes trap) !! v.1.
Proof.
  intros HB HV HBne Hnd Ho Hlen Hadd.
  assert (V ++ [v] ≠ []) as HVne by by destruct V.
  destruct (event_found trap event ("" :: B) (V ++ [v]) db) as (mib & Hdb & Hname & Hattr & Hvars); try done.
  { by constructor. }
  { rewrite Ho. apply Join_dot. by destruct B. }
  { cbn [length]. lia. }
  assert (normalizeOid (String.append (Join ("" :: B) ".") ".*") = String.append "." (String.append (Join B ".") ".*")) as Hnorm.
  { rewrite <-Join_dot by done. unfold normalizeOid. rewrite append_assoc, HasPrefix_append. done. }
  rewrite Hnorm in Hdb. exists mib.
  assert (Forall (λ p, Contains p "." = false ∧ p ≠ "*") (concat (V ++ [v]).*2)) as HW.
  { apply Forall_concat, Forall_fmap. eapply Forall_impl; [exact HV|]. intros u Hu. apply Hu. }
  set (W := concat (V ++ [v]).*2) in *.
  assert (Z.of_nat (length W) = width (V ++ [v])) as HWlen by done.
  assert (W ≠ []) as HWne.
  { intros E. rewrite E in HWlen. pose proof (width_in v (V ++ [v]) ltac:(rewrite elem_of_app; right; by left)).
    apply Forall_app in HV as [_ Hv]. apply Forall_cons in Hv as [Hv _]. pose proof (nm_some v Hv). destruct (v.2); [done|]. cbn [length] in *. lia. }
  set (pts := "" :: B ++ W).
  assert (∀ n p, positions (Z.of_nat (length ("" :: B))) (V ++ [v]) ∅ !! n = Some p → ∃ o, variable_value pts p = Ok o) as Htot.
  { intros n p E. apply positions_in in E as (V1 & u & V2 & Esplit & _ & ->); [|done|by rewrite lookup_empty].
    unfold variable_value, slice_get. cbn [lookup list_lookup mbind res_bind].
    assert (width (V ++ [v]) = width V1 + Z.of_nat (length u.2) + width V2) as Ew.
    { rewrite Esplit. unfold width. rewrite fmap_app, concat_app, length_app. cbn [fmap list_fmap concat]. rewrite length_app. lia. }
    assert (0 ≤ width V1 ∧ 0 ≤ width V2) as [? ?] by (unfold width; lia).
    assert (0 < length u.2)%nat as Hpos.
    { rewrite Forall_forall in HV. pose proof (nm_some u (HV u ltac:(rewrite Esplit, elem_of_app; right; by left))). destruct (u.2); [done|cbn; lia]. }
    cbn [length]. rewrite !wraps_id by (unfold in_s; lia). case_match eqn:Ec; [by eexists|]. apply Z.ltb_ge in Ec.
    rewrite (proj2 (Z.eqb_neq _ _)) by lia. unfold slice_parts. rewrite !(proj2 (Z.leb_le _ _)) by lia. by eexists. }
  rewrite (GetForKey_event db B W mib (positions (Z.of_nat (length ("" :: B))) (V ++ [v]) ∅)); [|done|..|done|done|done].
  - fold pts. destruct (put_attrs pts _ Htot) as (attrs & -> & Ha).
    cbn [mbind res_bind]. eexists. split; [reflexivity|]. split; [done|]. rewrite Hattr, lookup_union, Ha, (positions_at _ V v []) by done.
    cbn [mbind option_bind]. unfold variable_value, slice_get. cbn [lookup list_lookup mbind res_bind].
    assert (width (V ++ [v]) = width V + Z.of_nat (length v.2)) as Ew.
    { unfold width. rewrite fmap_app, concat_app, length_app. cbn [fmap list_fmap concat]. rewrite app_nil_r. lia. }
    assert (0 ≤ width V) by (unfold width; lia). cbn [length]. rewrite !wraps_id by (unfold in_s; lia).
    rewrite (proj2 (Z.ltb_lt _ _)); [by rewrite (left_id_L None (∪))|]. unfold pts. cbn [length]. rewrite length_app. lia.
  - apply Forall_app. split; [eapply Forall_impl; [exact HB|]; by intros p [? _]|]. eapply Forall_impl; [exact HW|]. by intros p [? _].
  - intros H. rewrite Forall_forall in HW. by destruct (HW "*" H) as [_ ?].
Qed.

Lemma trap_leading_dot_witness :
  add_event a_trap (an_event ".1.3.{if:1}") (mkMibDB ∅ ∅) (an_object ".1.3.*" (an_event ".1.3.{if:1}")) ∧
  ∃ mib attrs, GetForKey (an_object ".1.3.*" (an_event ".1.3.{if:1}")) ".1.3.333" = Ok (Some (mib, Some attrs)) ∧
    mb_Name mib = "obj" ∧ attrs !! "if" = None.
Proof.
  assert (add_event a_trap (an_event ".1.3.{if:1}") (mkMibDB ∅ ∅) (an_object ".1.3.*" (an_event ".1.3.{if:1}"))) as H by by apply add_an_event.
  split; [exact H|].
  destruct (trap_leading_dot a_trap (an_event ".1.3.{if:1}") ["1"; "3"] [] ("if", ["333"]) (an_object ".1.3.*" (an_event ".1.3.{if:1}"))) as (mib & attrs & E & Hn & Hv); try exact H.
  - by repeat constructor.
  - by repeat constructor.
  - done.
  - by apply NoDup_singleton.
  - done.
  - done.
  - exists mib, attrs. split; [exact E|]. split; [exact Hn|]. exact Hv.
Defined.

(** ** The enum of an object *)

Section enum.
Context (m : gmap string Z).
Hypothesis Hagree : ∀ k1 k2 v1 v2, m !! k1 = Some v1 → m !! k2 = Some v2 → ToLower k1 = ToLower k2 → v1 = v2.

(** A name of the value, as it is written or in lower case. *)
Definition name_of (k : string) (v : Z) : Prop := m !! k = Some v ∨ ∃ k0, m !! k0 = Some v ∧ ToLower k0 = k.
Lemma name_lower k v : name_of k v → ∃ k0, m !! k0 = Some v ∧ ToLower k0 = ToLower k.
Proof. intros [H|(k0 & H & <-)]; [by exists k|]. exists k0. by rewrite ToLower_idem. Qed.

Record enumerated (must seen : gset string) (st : gmap string Z * gmap Z string) : Prop := {
  en_names k v : st.1 !! k = Some v → name_of k v;
  en_kept k v : m !! k = Some v → st.1 !! k = Some v ∧ (k ∈ must ∨ st.1 !! ToLower k = Some v ∧ is_Some (st.2 !! v));
  en_back k v : st.2 !! v = Some k → name_of k v }.
Lemma enumerated_start : enumerated (dom m) ∅ (m, ∅).
Proof. split; [by left|intros k v H; split; [done|left; by apply elem_of_dom]|intros k v H; cbn [snd] in H; by rewrite lookup_empty in H]. Qed.
Lemma enumerated_step must seen st k v : enumerated must seen st → st.1 !! k = Some v → k ∉ seen →
  enumerated ((must ∖ {[k]}) ∩ dom (enum_body k v st).1) ((seen ∪ {[k]}) ∩ dom (enum_body k v st).1) (enum_body k v st).
Proof.
  intros [Hn Hk Hb] Hin _. pose proof (Hn _ _ Hin) as Hname. pose proof (name_lower _ _ Hname) as (k0 & Hk0 & Elow). cbn [enum_body fst snd].
  assert (∀ k1 v1, st.1 !! k1 = Some v1 → <[ToLower k:=v]> st.1 !! k1 = Some v1) as Hkeep.
  { intros k1 v1 H1. destruct (decide (ToLower k = k1)) as [<-|Hne]; [|by rewrite lookup_insert_ne].
    rewrite lookup_insert_eq. f_equal. destruct (name_lower _ _ (Hn _ _ H1)) as (k2 & Hk2 & E2). apply (Hagree k0 k2); [done|done|].
    by rewrite Elow, E2, ToLower_idem. }
  split; unfold enum_body; cbn [fst snd].
  - intros k1 v1 H1. destruct (decide (ToLower k = k1)) as [<-|Hne]; [|rewrite lookup_insert_ne in H1 by done; by apply Hn].
    rewrite lookup_insert_eq in H1. injection H1 as <-. right. by exists k0.
  - intros k1 v1 H1. destruct (Hk _ _ H1) as [H2 H3]. split; [by apply Hkeep|]. destruct (decide (k1 = k)) as [->|Hne].
    + right. assert (v1 = v) as -> by congruence. by rewrite !lookup_insert_eq.
    + destruct H3 as [H3|[H3 H4]].
      * left. rewrite elem_of_intersection, elem_of_difference, not_elem_of_singleton. split; [done|]. apply elem_of_dom. by rewrite (Hkeep _ _ H2).
      * right. split; [by apply Hkeep|]. destruct (decide (v1 = v)) as [->|]; [by rewrite lookup_insert_eq|by rewrite lookup_insert_ne].
  - intros k1 v1 H1. destruct (decide (v = v1)) as [<-|Hne]; [|rewrite lookup_insert_ne in H1 by done; by apply Hb].
    rewrite lookup_insert_eq in H1. by injection H1 as <-.
Qed.
End enum.

(** When names that differ in case alone stand for the same value, an object's enum
    has, whatever order the map is ranged in, exactly its names and their lower-case
    forms, and every value has one of its names on the way back. *)
Theorem event_enum_names event m e r :
  o_Enum event = Some m → m ≠ ∅ →
  (∀ k1 k2 v1 v2, m !! k1 = Some v1 → m !! k2 = Some v2 → ToLower k1 = ToLower k2 → v1 = v2) →
  event_enum event e r →
  ∃ e' r', e = Some e' ∧ r = Some r' ∧ (∀ k v, e' !! k = Some v ↔ name_of m k v) ∧
    (∀ k v, r' !! v = Some k → name_of m k v) ∧ (∀ k v, m !! k = Some v → is_Some (r' !! v)).
Proof.
  intros Em Hne Hagree. unfold event_enum. rewrite Em. rewrite (proj2 (Nat.ltb_lt _ _)).
  2: { destruct (size m) eqn:Es; [|lia]. by apply map_size_empty_inv in Es. }
  intros (e' & r' & -> & -> & Hr). exists e', r'. split; [done|]. split; [done|].
  destruct (range_inv fst enum_body (enumerated m) _ _ _ _ ltac:(intros; by apply enumerated_step) Hr (enumerated_start m)) as (seen & [Hn Hk Hb]).
  cbn [fst snd] in *. split_and!; [intros k v; split; [apply Hn|]|exact Hb|].
  - intros [H|(k0 & H & <-)]; [by apply Hk|]. destruct (Hk _ _ H) as [_ [Hin|[? _]]]; [set_solver|done].
  - intros k v H. destruct (Hk _ _ H) as [_ [Hin|[_ ?]]]; [set_solver|done].
Qed.

Definition up_event : OID := mkOID "1.3" "state" (Some {["Up" := 1%Z]}) "" "" 0 [] "" false "".

(** The way back to a name is not always the name as it is written: the lower-case form
    may be visited too. *)
Lemma up_event_upper : event_enum up_event (Some {["Up" := 1; "up" := 1]}) (Some {[1 := "Up"]}).
Proof.
  exists {["Up" := 1; "up" := 1]}, {[1 := "Up"]}. split; [done|]. split; [done|].
  eapply range_step with (k := "Up") (v := 1); [done|set_solver|].
  match goal with |- range_from _ _ ?must ?seen ?s ?s' => replace must with (∅ : gset string) by (vm_compute; done); replace s with s' by (vm_compute; done) end.
  apply range_done.
Qed.
Lemma up_event_lower : event_enum up_event (Some {["Up" := 1; "up" := 1]}) (Some {[1 := "up"]}).
Proof.
  exists {["Up" := 1; "up" := 1]}, {[1 := "up"]}. split; [done|]. split; [done|].
  eapply range_step with (k := "Up") (v := 1); [done|set_solver|].
  eapply range_step with (k := "up") (v := 1); [done|by vm_compute|].
  match goal with |- range_from _ _ ?must ?seen ?s ?s' => replace must with (∅ : gset string) by (vm_compute; done); replace s with s' by (vm_compute; done) end.
  apply range_done.
Qed.
Lemma event_enum_names_witness :
  ∃ e r, event_enum up_event e r ∧ ∃ e' r', e = Some e' ∧ r = Some r' ∧ (∀ k v, e' !! k = Some v ↔ name_of {["Up" := 1]} k v) ∧ is_Some (r' !! 1).
Proof.
  exists (Some {["Up" := 1; "up" := 1]}), (Some {[1 := "up"]}). split; [apply up_event_lower|].
  destruct (event_enum_names up_event {["Up" := 1]} (Some {["Up" := 1; "up" := 1]}) (Some {[1 := "up"]})) as (e' & r' & He & Hr & Hn & _ & Hv).
  - done.
  - done.
  - intros k1 k2 v1 v2 [_ <-]%lookup_singleton_Some [_ <-]%lookup_singleton_Some _. done.
  - apply up_event_lower.
  - exists e', r'. split_and!; [done|done|done|]. by apply (Hv "Up").
Defined.

(** An object whose variable has a negative length ends the lookup. *)
Example negative_length : GetForKey (an_object ".1.3.*" (an_event "1.3.{if:-2}")) ".1.3.4" = Panic "slice bounds out of range".
Proof. by vm_compute. Qed.
