(* ===== verification/SnmpCounters.v ===== *)
(** SNMP counters of interfaces: the last values kept to report differences
    (src/pkg/kt/counters/counters.go), the walk of the counters and the flows made of
    them (src/pkg/inputs/snmp/metrics/interface_metrics.go), and the loop that polls,
    skips and discards (poll.go).

    What a device answers is an argument, as is the order in which Go ranges over a map.
    Scripts attached to objects are not modelled. *)
From S2P Require Import Prelude GoStrings Jchf.
From S2P Require Import MibProfile.
From S2P Require FlowToJCHF.
From S2P Require MibTraps.
From S2P Require FormatsUtil.
From S2P Require Rollup.
From Stdlib Require Import Floats.SpecFloat.
Local Open Scope Z_scope.

(** ** Variables of an answer (gosnmp) *)

Inductive Asn1BER := Integer | BitString | OctetString | Null | ObjectIdentifier | IPAddress | Counter32 | Gauge32 | TimeTicks | Opaque | Counter64 | Uinteger32 | OtherType.
#[export] Instance Asn1BER_eq_dec : EqDecision Asn1BER.
Proof. solve_decision. Defined.
(** A value: a number of one of Go's integer types, bytes, a string, nil, or something else. *)
Inductive snmp_value := VNum (w : Z) (signed : bool) (z : Z) | VBytes (b : list byte) | VString (s : string) | VNil | VOther.
Record SnmpPDU := mkPDU { pdu_Name : string; pdu_Type : Asn1BER; pdu_Value : snmp_value }.

(** [gosnmp.ToBigInt]; [big.Int]'s [Uint64] are the low 64 bits of the absolute value. *)
Class Gosnmp := { ToBigInt : snmp_value → Z }.
Definition Uint64_of (x : Z) : Z := wrapu 64 (Z.abs x).

(** [ToInt64] (src/pkg/inputs/snmp/util/util.go). *)
Definition ToInt64 (v : snmp_value) : Z := match v with VNum _ _ z => wraps 64 z | _ => 0 end.
Definition GetIndex (value prefix : string) : string :=
  let at_ := match Cut value prefix with Some (a, _) => Z.of_nat (String.length a) | None => -1 end in
  let posit := at_ + Z.of_nat (String.length prefix) in
  if posit <? Z.of_nat (String.length value) then drop_string (Z.to_nat posit) value else "".

(** ** Differences (counters.go) *)

Record CounterSet := mkCounterSet { Values : gmap string Z; IntId : string }.
Definition NewCounterSet : CounterSet := mkCounterSet ∅ "".
Definition NewCounterSetWithId (id : string) : CounterSet := mkCounterSet ∅ id.
Definition GetDelta (cs : option CounterSet) (counterName : string) (cur : Z) : Z :=
  match cs with
  | None => 0
  | Some cs =>
      match Values cs !! counterName with
      | None => 0
      | Some prev => if prev <=? cur then wrapu 64 (cur - prev) else 0
      end
  end.
Definition SetValueAndReturnDelta (cs : CounterSet) (counterName : string) (cur : Z) : Z * CounterSet :=
  (GetDelta (Some cs) counterName cur, mkCounterSet (<[counterName := cur]> (Values cs)) (IntId cs)).
Definition SetValue (validate : gmap string string) (oid : string) (val : Z) (cs : CounterSet) : CounterSet :=
  match validate !! oid with Some vName => mkCounterSet (<[vName := val]> (Values cs)) (IntId cs) | None => cs end.

(** ** The walk of an object (util.go) *)

Definition ConstantOidPrefix : string := "1.3.6.1.6.3.1135.6169.".
Definition ConstantOidMetricPrefix : string := ".1.3.6.1.6.3.1136.6169.".

(** What the device says: the answers of a test walker, of the cache and of the two kinds
    of walks; [cancelled i] tells whether the context is done before try [i]. *)
Record device_answers := mkAnswers {
  test_walker : option (string → list SnmpPDU + error); use_cache : bool; cached_walk : string → list SnmpPDU + error;
  BulkWalkAll : string → list SnmpPDU + error; WalkAll : nat → string → list SnmpPDU + error;
  NoUseBulkWalkAll : bool; cancelled : nat → option error }.

Definition walk_tries (d : device_answers) : list (string → list SnmpPDU + error) :=
  match test_walker d with
  | Some w => [w]
  | None =>
      if NoUseBulkWalkAll d then [WalkAll d 1; WalkAll d 2]
      else if use_cache d then [cached_walk d; BulkWalkAll d; WalkAll d 2]
      else [BulkWalkAll d; WalkAll d 1; WalkAll d 2]
  end.
Fixpoint walk_loop (d : device_answers) (i : nat) (oid : string) (last : list SnmpPDU + error) (tries : list (string → list SnmpPDU + error)) :
    list SnmpPDU + error :=
  match tries with
  | [] => last
  | try :: tries =>
      match cancelled d i with
      | Some e => inr e
      | None => match try oid with inl results => inl results | inr e => walk_loop d (S i) oid (inr e) tries end
      end
  end.
Definition WalkOID (d : device_answers) (oid : string) : list SnmpPDU + error :=
  match cancelled d 0 with
  | Some e => inr e
  | None =>
      if HasPrefix oid ConstantOidPrefix then inl [mkPDU oid OtherType (VString (drop_string (String.length ConstantOidPrefix) oid))]
      else if HasPrefix oid ConstantOidMetricPrefix then
        inl [mkPDU oid OtherType (VNum 64 true (Atoi_value (drop_string (String.length ConstantOidMetricPrefix) oid)).1)]
      else walk_loop d 0 oid (inl []) (walk_tries d)
  end.

(** ** The counters of a device's interfaces (interface_metrics.go) *)

Definition SNMP_ifHCInUcastPkts : string := "ifHCInUcastPkts".
Definition SNMP_ifHCOutUcastPkts : string := "ifHCOutUcastPkts".
Definition SNMP_ifInErrors : string := "ifInErrors".
Definition SNMP_ifOutErrors : string := "ifOutErrors".
Definition SNMP_ifInErrorsPercent : string := "ifInErrorPercent".
Definition SNMP_ifOutErrorsPercent : string := "ifOutErrorPercent".
Definition AllDeviceInterface : string := "device".
Definition Uptime : string := "Uptime".
Definition GaugeMetric : string := "gauge".
Definition CountMetric : string := "count".
Definition InvalidEnum : string := "invalid enum".
Definition DefaultProfileMessage : string := "Missing matched profile. See overview page for details.".
Definition ProviderDefault : string := "kentik-default".

(** The part of a device's configuration that is used here. *)
Record device_conf := mkConf { dc_Provider : string; dc_DeviceName : string; dc_DeviceIP : string; dc_InstrumentationName : string }.
Record InterfaceMetrics := mkIM {
  im_conf : device_conf; intValues : gmap string CounterSet; oidMap : gmap string string; nameOidMap : gmap string string;
  oidMibMap : gmap string Mib; profileName : string; tickDuration : Z }.

Definition noid (oid : string) : string := if HasPrefix oid "." then oid else String.append "." oid.
(** [order]: the order of the ranges, over the objects and over [oidMap]. *)
Definition NewInterfaceMetrics (conf : device_conf) (profileMetrics : gmap string Mib) (profile : option Profile) (tickDurationSec : Z)
    (order : list (string * Mib)) (order' : gmap string string → list (string * string)) : InterfaceMetrics :=
  let oidMap := foldl (λ m kv, <[noid kv.1 := GetName (Some kv.2)]> m) ∅ order in
  mkIM conf ∅ oidMap (foldl (λ m kv, <[kv.2 := kv.1]> m) ∅ (order' oidMap)) profileMetrics
    (GetProfileName profile (dc_InstrumentationName conf)) (wraps 64 (tickDurationSec * 100)).
Definition set_intValues (v : gmap string CounterSet) (im : InterfaceMetrics) : InterfaceMetrics :=
  mkIM (im_conf im) v (oidMap im) (nameOidMap im) (oidMibMap im) (profileName im) (tickDuration im).
Definition set_oidMibMap (m : gmap string Mib) (im : InterfaceMetrics) : InterfaceMetrics :=
  mkIM (im_conf im) (intValues im) (oidMap im) (nameOidMap im) m (profileName im) (tickDuration im).
Definition DiscardDeltaState (im : InterfaceMetrics) : InterfaceMetrics := set_intValues ∅ im.
Definition GetNumberMibsTotal (im : InterfaceMetrics) : Z := Z.of_nat (size (oidMap im)).

(** *** [Poll] *)

Abbreviation all_deltas := (gmap string (gmap string Z)).
Definition counter_name (varName : string) : string := String.append varName "_counter".

(** The interface a variable is for. *)
Definition interface_of (oid name : string) : option string :=
  match Split name oid with
  | [_; part] => if (String.length part =? 0)%nat then None else Some (drop_string 1 part)
  | _ => None
  end.

Section poll.
Context `{Gosnmp}.

Definition counter_set (values : gmap string CounterSet) (intId : string) : CounterSet := default (NewCounterSetWithId intId) (values !! intId).
Definition is_gauge (omib : option Mib) : bool := match omib with Some mib => String.eqb (mb_Format mib) GaugeMetric | None => false end.

Definition add_variable (oid varName : string) (omib : option Mib) (st : gmap string CounterSet * all_deltas) (v : SnmpPDU) :
    gmap string CounterSet * all_deltas :=
  match interface_of oid (pdu_Name v) with
  | None => st
  | Some intId =>
      let cs := counter_set st.1 intId in
      let value := Uint64_of (ToBigInt (pdu_Value v)) in
      let delta := default ∅ (st.2 !! intId) in
      if is_gauge omib || bool_decide (pdu_Type v = Integer)
      then (<[intId := cs]> st.1, <[intId := <[varName := value]> delta]> st.2)
      else
        let '(d, cs') := SetValueAndReturnDelta cs varName value in
        (<[intId := cs']> st.1, <[intId := <[varName := d]> (<[counter_name varName := value]> delta)]> st.2)
  end.

(** The objects, in the order of the range: the state after them, and the error that
    ended the walk. *)
Record poll_state := mkPoll { ps_values : gmap string CounterSet; ps_mibs : gmap string Mib; ps_deltas : all_deltas }.
Definition mib_ready (now : Z) (mibs : gmap string Mib) (oid : string) : bool * option Mib * gmap string Mib :=
  match mibs !! drop_string 1 oid with
  | Some mib => let '(ready, mib) := IsPollReady now mib in (ready, Some mib, <[drop_string 1 oid := mib]> mibs)
  | None => (true, None, mibs)
  end.
Fixpoint poll_oids (now : string → Z) (walk : string → list SnmpPDU + error) (order : list (string * string)) (st : poll_state) :
    poll_state * option error :=
  match order with
  | [] => (st, None)
  | (oid, varName) :: order =>
      let '(ready, omib, mibs) := mib_ready (now oid) (ps_mibs st) oid in
      if negb ready then poll_oids now walk order (mkPoll (ps_values st) mibs (ps_deltas st))
      else
        match walk oid with
        | inr e => (mkPoll (ps_values st) mibs (ps_deltas st), Some e)
        | inl results =>
            let '(values, deltas) := foldl (add_variable oid varName omib) (ps_values st, ps_deltas st) results in
            poll_oids now walk order (mkPoll values mibs deltas)
        end
  end.

(** The uptime, from the first flow of the device that has one. *)
Fixpoint add_uptime (dms : list JCHF) (st : gmap string CounterSet * all_deltas) : gmap string CounterSet * all_deltas :=
  match dms with
  | [] => st
  | dm :: dms =>
      let cs := counter_set st.1 AllDeviceInterface in
      let delta := default ∅ (st.2 !! AllDeviceInterface) in
      let up := default 0 (map_range (CustomBigInt dm) !! Uptime) in
      if 0 <? up then
        let '(d, cs') := SetValueAndReturnDelta cs Uptime (wrapu 64 up) in
        (<[AllDeviceInterface := cs']> st.1, <[AllDeviceInterface := <[Uptime := d]> delta]> st.2)
      else add_uptime dms (<[AllDeviceInterface := cs]> st.1, <[AllDeviceInterface := delta]> st.2)
  end.
End poll.

(** *** [convertToCHF] *)

Definition baseMetricName (n : string) : string :=
  if FlowToJCHF.HasSuffix n "_counter" then take_string (String.length n - String.length "_counter") n else n.
(** [oid[1:]]. *)
Definition tail_of (oid : string) : res string := match oid with EmptyString => Panic "slice bounds out of range" | String _ t => Ok t end.

(** [int64(float64(a) / float64(b) * 100.)]; a float out of range becomes the least
    integer (amd64). *)
Definition int64_of_float (f : spec_float) : Z :=
  match f with
  | S754_zero _ => 0
  | S754_finite s m e =>
      let a := if 0 <=? e then Zpos m * 2 ^ e else Zpos m / 2 ^ (- e) in
      let z := if s : bool then - a else a in
      if (- 2 ^ 63 <=? z) && (z <? 2 ^ 63) then z else - 2 ^ 63
  | _ => - 2 ^ 63
  end.
Definition percent (a b : Z) : Z :=
  int64_of_float (SFmul 53 1024 (SFdiv 53 1024 (binary_normalize 53 1024 a 0 false) (binary_normalize 53 1024 b 0 false))
    (binary_normalize 53 1024 100 0 false)).

(** The maps of a flow that are filled. *)
Record flow_maps := mkMaps { fm_str : gmap string string; fm_big : gmap string Z; fm_metrics : gmap string MetricInfo }.

Definition int_metric_info (im : InterfaceMetrics) (oid : string) (mib : option Mib) : MetricInfo :=
  match mib with
  | Some mib =>
      mkMetricInfo oid (mb_Mib mib) "" (profileName im) (mb_Table mib) (if String.eqb (mb_Format mib) "" then CountMetric else mb_Format mib)
        "" (mb_PollDur mib) None
  | None => mkMetricInfo oid "" "" (profileName im) "" CountMetric "" 0 None
  end.
Definition convert_metric (im : InterfaceMetrics) (k : string) (v : Z) (acc : res flow_maps) : res flow_maps :=
  fm ← acc;
  let oid := default "" (nameOidMap im !! baseMetricName k) in
  key ← tail_of oid;
  let mib := oidMibMap im !! key in
  let str := match mib ≫= mb_EnumRev with
             | Some rev => <[String.append FormatsUtil.StringPrefix k := default InvalidEnum (rev !! wraps 64 v)]> (fm_str fm)
             | None => fm_str fm
             end in
  Ok (mkMaps str (<[k := wraps 64 v]> (fm_big fm)) (<[k := int_metric_info im oid mib]> (fm_metrics fm))).

Definition error_percent (im : InterfaceMetrics) (pkts errors name : string) (fm : flow_maps) : res flow_maps :=
  if 0 <? default 0 (fm_big fm !! pkts) then
    match nameOidMap im !! errors with
    | Some idi =>
        key ← tail_of idi;
        Ok (match oidMibMap im !! key with
            | Some mib => mkMaps (fm_str fm)
                (<[name := percent (default 0 (fm_big fm !! errors)) (default 0 (fm_big fm !! pkts))]> (fm_big fm))
                (<[name := mkMetricInfo "" (mb_Mib mib) "" (profileName im) (mb_Table mib) GaugeMetric "" (mb_PollDur mib) None]> (fm_metrics fm))
            | None => fm
            end)
    | None => Ok fm
    end
  else Ok fm.

(** The metrics of an interface: the order in which they are visited has no effect. *)
Definition convert_maps (im : InterfaceMetrics) (uptimeDelta : Z) (cs : gmap string Z) : res flow_maps :=
  let str : gmap string string := if String.eqb (dc_Provider (im_conf im)) ProviderDefault then {["profile_message" := DefaultProfileMessage]} else ∅ in
  fm ← map_fold (convert_metric im) (Ok (mkMaps str ∅ ∅)) cs;
  fm ← error_percent im SNMP_ifHCInUcastPkts SNMP_ifInErrors SNMP_ifInErrorsPercent fm;
  fm ← error_percent im SNMP_ifHCOutUcastPkts SNMP_ifOutErrors SNMP_ifOutErrorsPercent fm;
  Ok (mkMaps (fm_str fm) (<[Uptime := if 0 <? uptimeDelta then wraps 64 uptimeDelta else wraps 64 (tickDuration im)]> (fm_big fm)) (fm_metrics fm)).

Definition interface_flow (im : InterfaceMetrics) (stamp : string → Z) (uptimeDelta : Z) (strint : string) (cs : gmap string Z) : res JCHF :=
  fm ← convert_maps im uptimeDelta cs;
  let intr := wrapu 64 (Atoi_value strint).1 in
  Ok (NewJCHF <| CustomStr := Some (fm_str fm) |> <| CustomInt := Some ∅ |> <| CustomBigInt := Some (fm_big fm) |>
    <| EventType := "KSnmpInterfaceMetric" |> <| Provider := dc_Provider (im_conf im) |> <| InputPort := intr |> <| OutputPort := intr |>
    <| DeviceName := dc_DeviceName (im_conf im) |> <| SrcAddr := dc_DeviceIP (im_conf im) |> <| Timestamp := stamp strint |>
    <| CustomMetrics := Some (fm_metrics fm) |>).

(** [order]: the order of the range over the differences. *)
Fixpoint convert_loop (im : InterfaceMetrics) (stamp : string → Z) (uptimeDelta : Z) (order : list (string * gmap string Z)) : res (list JCHF) :=
  match order with
  | [] => Ok []
  | (strint, cs) :: order =>
      if String.eqb strint AllDeviceInterface then convert_loop im stamp uptimeDelta order
      else
        dst ← interface_flow im stamp uptimeDelta strint cs;
        flows ← convert_loop im stamp uptimeDelta order;
        Ok (dst :: flows)
  end.
Definition convertToCHF (im : InterfaceMetrics) (stamp : string → Z) (deltas : all_deltas) (order : list (string * gmap string Z)) : res (list JCHF) :=
  let uptimeDelta := default 0 (deltas !! AllDeviceInterface ≫= (.!! Uptime)) in
  convert_loop im stamp uptimeDelta order.

(** What a poll depends on besides the state: the clock, the device, and the orders of
    the two ranges. *)
Record poll_env := mkEnv {
  env_now : string → Z; env_stamp : string → Z; env_device : device_answers;
  env_oids : gmap string string → list (string * string); env_oids_perm m : env_oids m ≡ₚ map_to_list m;
  env_deltas : all_deltas → list (string * gmap string Z); env_deltas_perm m : env_deltas m ≡ₚ map_to_list m }.

Section poll_all.
Context `{Gosnmp}.

(** The first half of [Poll]: the state and the differences, or an error. *)
Definition poll_walks (env : poll_env) (im : InterfaceMetrics) (lastDeviceMetrics : list JCHF) : InterfaceMetrics * (all_deltas + error) :=
  match poll_oids (env_now env) (WalkOID (env_device env)) (env_oids env (oidMap im)) (mkPoll (intValues im) (oidMibMap im) ∅) with
  | (st, Some e) => (set_oidMibMap (ps_mibs st) (set_intValues (ps_values st) im), inr e)
  | (st, None) =>
      let '(values, deltas) := add_uptime lastDeviceMetrics (ps_values st, ps_deltas st) in
      (set_oidMibMap (ps_mibs st) (set_intValues values im), inl deltas)
  end.
Definition Poll (env : poll_env) (im : InterfaceMetrics) (lastDeviceMetrics : list JCHF) : res (InterfaceMetrics * (all_deltas * list JCHF + error)) :=
  match poll_walks env im lastDeviceMetrics with
  | (im, inr e) => Ok (im, inr e)
  | (im, inl deltas) => flows ← convertToCHF im (env_stamp env) deltas (env_deltas env deltas); Ok (im, inl (deltas, flows))
  end.

(** ** The loop (poll.go) *)

Definition SNMP_GOOD : Z := 1.
Definition SNMP_BAD_POLL_TIMEOUT : Z := 6.
(** [t.Truncate(d)], for a time since the zero time. *)
Definition Truncate (t d : Z) : Z := if d <=? 0 then t else t - t `mod` d.

Record Poller := mkPoller { interfaceMetrics : InterfaceMetrics; fail : Z; counterTimeSec : Z; dropIfOutside : bool }.
Definition set_interfaceMetrics (im : InterfaceMetrics) (p : Poller) : Poller := mkPoller im (fail p) (counterTimeSec p) (dropIfOutside p).
Definition set_fail (z : Z) (p : Poller) : Poller := mkPoller (interfaceMetrics p) z (counterTimeSec p) (dropIfOutside p).
Definition counterAlignment (p : Poller) : Z := Duration_mul (counterTimeSec p) Second.

(** A tick of the poll timer: when it was due, when it was picked up and when the poll
    ended, what the poll met, and the flows of the device itself. *)
Record tick := mkTick { scheduledTime : Z; startTime : Z; endTime : Z; tk_env : poll_env; deviceFlows : list JCHF }.
Inductive outcome := Skipped | Failed (e : error) | Missed | Sent (deltas : all_deltas) (flows : list JCHF).

Definition poll_device (env : poll_env) (p : Poller) (deviceFlows : list JCHF) : res (Poller * (all_deltas * list JCHF + error)) :=
  '(im, r) ← Poll env (interfaceMetrics p) deviceFlows;
  let p := set_interfaceMetrics im p in
  match r with
  | inr e => Ok (set_fail SNMP_BAD_POLL_TIMEOUT p, inr e)
  | inl (deltas, flows) =>
      let flows := flows ++ deviceFlows in
      Ok (set_fail (if (0 <? length flows)%nat then SNMP_GOOD else SNMP_BAD_POLL_TIMEOUT) p, inl (deltas, flows))
  end.
Definition discard (p : Poller) : Poller := set_interfaceMetrics (DiscardDeltaState (interfaceMetrics p)) p.

Definition on_tick (p : Poller) (t : tick) : res (Poller * outcome) :=
  let block x := Truncate x (counterAlignment p) in
  if negb (block (startTime t) =? block (scheduledTime t)) then Ok (set_fail SNMP_BAD_POLL_TIMEOUT (discard p), Skipped)
  else
    '(p, r) ← poll_device (tk_env t) p (deviceFlows t);
    match r with
    | inr e => Ok (discard p, Failed e)
    | inl (deltas, flows) =>
        if dropIfOutside p && negb (block (endTime t) =? block (scheduledTime t)) then Ok (discard p, Missed)
        else Ok (p, Sent deltas flows)
    end.

Fixpoint StartLoop (p : Poller) (ticks : list tick) : res (Poller * list outcome) :=
  match ticks with
  | [] => Ok (p, [])
  | t :: ticks =>
      '(p, o) ← on_tick p t;
      '(p, os) ← StartLoop p ticks;
      Ok (p, o :: os)
  end.
End poll_all.

(** [GetPollRate]: the time between polls, in seconds. *)
Definition GetPollRate (gconf conf : option Z) : Z :=
  let counterTimeSec :=
    match conf, gconf with
    | Some c, _ => if 0 <? c then c else match gconf with Some g => if 0 <? g then g else 5 * 60 | None => 5 * 60 end
    | None, Some g => if 0 <? g then g else 5 * 60
    | None, None => 5 * 60
    end in
  if counterTimeSec <? 30 then 30 else counterTimeSec.

(** ** Laws of the differences *)

Lemma GetDelta_exact cs n v u : in_u 64 v → in_u 64 u → Values cs !! n = Some u → GetDelta (Some cs) n v = Z.max 0 (v - u).
Proof.
  intros Hv Hu E. unfold GetDelta. rewrite E. destruct (Z.leb_spec u v); [|lia]. rewrite wrapu_id; [lia|]. unfold in_u in *. lia.
Qed.

(** What is reported and kept for a metric of an interface. *)
Definition delta_at (deltas : all_deltas) (id k : string) : option Z := deltas !! id ≫= (.!! k).
Definition value_at (values : gmap string CounterSet) (id n : string) : option Z := values !! id ≫= λ cs, Values cs !! n.
Definition diff (prev : option Z) (cur : Z) : Z := match prev with Some u => if u <=? cur then wrapu 64 (cur - u) else 0 | None => 0 end.
Lemma diff_exact u v : in_u 64 v → in_u 64 u → diff (Some u) v = Z.max 0 (v - u).
Proof. intros Hv Hu. unfold diff. destruct (Z.leb_spec u v); [|lia]. rewrite wrapu_id; [lia|]. unfold in_u in *. lia. Qed.

Lemma counter_name_ne n : counter_name n ≠ n.
Proof. intros E%(f_equal String.length). unfold counter_name in E. rewrite length_append in E. cbn [String.length] in E. lia. Qed.

Lemma delta_at_insert deltas id id' m k : delta_at (<[id' := m]> deltas) id k = if decide (id = id') then m !! k else delta_at deltas id k.
Proof. unfold delta_at. case_decide as E; [subst; by rewrite lookup_insert_eq|by rewrite lookup_insert_ne by congruence]. Qed.
Lemma value_at_insert values id id' cs n : value_at (<[id' := cs]> values) id n = if decide (id = id') then Values cs !! n else value_at values id n.
Proof. unfold value_at. case_decide as E; [subst; by rewrite lookup_insert_eq|by rewrite lookup_insert_ne by congruence]. Qed.
Lemma delta_default deltas id k : default ∅ (deltas !! id) !! k = delta_at deltas id k.
Proof. unfold delta_at. by destruct (deltas !! id). Qed.
Lemma value_default values id n : Values (counter_set values id) !! n = value_at values id n.
Proof. unfold counter_set, value_at. by destruct (values !! id). Qed.

Section laws.
Context `{Gosnmp}.

(** What a variable says: its value, as it is or as a counter. *)
Definition read_value (v : SnmpPDU) : Z := Uint64_of (ToBigInt (pdu_Value v)).
Definition as_is (omib : option Mib) (v : SnmpPDU) : bool := is_gauge omib || bool_decide (pdu_Type v = Integer).
Definition is_for (oid id : string) (v : SnmpPDU) : Prop := interface_of oid (pdu_Name v) = Some id.
#[export] Instance is_for_dec oid id v : Decision (is_for oid id v).
Proof. unfold is_for. apply _. Defined.

Lemma add_variable_delta oid varName omib st v id k :
  delta_at (add_variable oid varName omib st v).2 id k =
    if decide (is_for oid id v) then
      if decide (k = varName) then Some (if as_is omib v then read_value v else diff (value_at st.1 id varName) (read_value v))
      else if decide (k = counter_name varName) then (if as_is omib v then delta_at st.2 id k else Some (read_value v))
      else delta_at st.2 id k
    else delta_at st.2 id k.
Proof.
  destruct (decide (is_for oid id v)) as [E|E]; unfold is_for in E; unfold add_variable.
  - rewrite E. unfold as_is. fold (read_value v). destruct (is_gauge omib || bool_decide (pdu_Type v = Integer)); cbn [fst snd SetValueAndReturnDelta];
      rewrite delta_at_insert, decide_True by done; destruct (decide (k = varName)) as [->|Hk].
    + by rewrite lookup_insert_eq.
    + rewrite lookup_insert_ne, delta_default by done. by destruct (decide _).
    + rewrite lookup_insert_eq. unfold GetDelta, diff. by rewrite value_default.
    + rewrite lookup_insert_ne by done. destruct (decide (k = counter_name varName)) as [->|Hc]; [by rewrite lookup_insert_eq|].
      by rewrite lookup_insert_ne, delta_default.
  - destruct (interface_of oid (pdu_Name v)) as [intId|]; [|done]. fold (read_value v).
    destruct (is_gauge omib || bool_decide (pdu_Type v = Integer)); cbn [fst snd SetValueAndReturnDelta];
      by rewrite delta_at_insert, decide_False by congruence.
Qed.
Lemma add_variable_value oid varName omib st v id n :
  value_at (add_variable oid varName omib st v).1 id n =
    if decide (is_for oid id v) then if decide (n = varName) then if as_is omib v then value_at st.1 id n else Some (read_value v) else value_at st.1 id n
    else value_at st.1 id n.
Proof.
  destruct (decide (is_for oid id v)) as [E|E]; unfold is_for in E; unfold add_variable.
  - rewrite E. unfold as_is. fold (read_value v). destruct (is_gauge omib || bool_decide (pdu_Type v = Integer)); cbn [fst snd SetValueAndReturnDelta];
      rewrite value_at_insert, decide_True by done.
    + rewrite value_default. by destruct (decide _).
    + cbn [Values]. destruct (decide (n = varName)) as [->|Hn]; [by rewrite lookup_insert_eq|]. by rewrite lookup_insert_ne, value_default.
  - destruct (interface_of oid (pdu_Name v)) as [intId|]; [|done]. fold (read_value v).
    destruct (is_gauge omib || bool_decide (pdu_Type v = Integer)); cbn [fst snd SetValueAndReturnDelta];
      by rewrite value_at_insert, decide_False by congruence.
Qed.

(** The variables of one object. *)
Lemma add_none oid varName omib results st id : Forall (λ v, ¬ is_for oid id v) results →
  let st' := foldl (add_variable oid varName omib) st results in
  (∀ k, delta_at st'.2 id k = delta_at st.2 id k) ∧ (∀ n, value_at st'.1 id n = value_at st.1 id n).
Proof.
  intros HF. revert st. induction HF as [|v results Hv _ IH]; intros st; [done|]. cbn [foldl]. destruct (IH (add_variable oid varName omib st v)) as [Hd Hn].
  split; [intros k; rewrite Hd, add_variable_delta, decide_False by done; done|].
  intros n. rewrite Hn, add_variable_value, decide_False by done. done.
Qed.
Lemma filter_one oid id results v : filter (is_for oid id) results = [v] →
  ∃ l1 l2, results = l1 ++ v :: l2 ∧ is_for oid id v ∧ Forall (λ v, ¬ is_for oid id v) l1 ∧ Forall (λ v, ¬ is_for oid id v) l2.
Proof.
  induction results as [|x results IH]; intros E; [done|]. rewrite filter_cons in E. case_decide as Hx.
  - injection E as -> E. exists [], results. split_and!; [done|done|constructor|]. apply Forall_forall. intros y Hy Hf.
    assert (y ∈ filter (is_for oid id) results) as Hin by by apply list_elem_of_filter. rewrite E in Hin. by apply elem_of_nil in Hin.
  - destruct (IH E) as (l1 & l2 & -> & Hv & H1 & H2). exists (x :: l1), l2. split_and!; [done|done|by constructor|done].
Qed.
Lemma filter_none oid id results : filter (is_for oid id) results = [] → Forall (λ v, ¬ is_for oid id v) results.
Proof.
  intros E. apply Forall_forall. intros y Hy Hf.
  assert (y ∈ filter (is_for oid id) results) as Hin by by apply list_elem_of_filter. rewrite E in Hin. by apply elem_of_nil in Hin.
Qed.

(** The names of two objects are apart when neither they nor their counters collide. *)
Definition apart (n n' : string) : Prop := n ≠ n' ∧ counter_name n ≠ n' ∧ n ≠ counter_name n'.
Lemma counter_name_inj n n' : counter_name n = counter_name n' → n = n'.
Proof. apply append_inj_r. Qed.
Lemma add_apart oid varName omib results st id n : apart varName n →
  let st' := foldl (add_variable oid varName omib) st results in
  delta_at st'.2 id n = delta_at st.2 id n ∧ delta_at st'.2 id (counter_name n) = delta_at st.2 id (counter_name n) ∧
  value_at st'.1 id n = value_at st.1 id n.
Proof.
  intros (Hn & Hc & Hc'). revert st. induction results as [|v results IH]; intros st; [done|]. cbn [foldl].
  destruct (IH (add_variable oid varName omib st v)) as (Hd & Hdc & Hv). rewrite Hd, Hdc, Hv, !add_variable_delta, add_variable_value.
  rewrite (decide_False (P := n = varName)), (decide_False (P := n = counter_name varName)) by congruence.
  rewrite (decide_False (P := counter_name n = varName)) by congruence.
  rewrite (decide_False (P := counter_name n = counter_name varName)) by (intros ?%counter_name_inj; congruence).
  split_and!; by repeat case_decide.
Qed.
End laws.

(** ** What a poll reports *)

Section reports.
Context `{Gosnmp} (now : string → Z) (walk : string → list SnmpPDU + error).

(** What the walk of an object says of an interface, when the object is due. *)
Definition reading (mibs : gmap string Mib) (oid id : string) : option (bool * Z) :=
  match mib_ready (now oid) mibs oid with
  | (true, omib, _) =>
      match walk oid with
      | inl results => match filter (is_for oid id) results with [v] => Some (as_is omib v, read_value v) | _ => None end
      | inr _ => None
      end
  | _ => None
  end.
(** An answer has at most one variable of an object for an interface. *)
Definition single_rows (oid id : string) : Prop :=
  ∀ results, walk oid = inl results → (length (filter (is_for oid id) results) ≤ 1)%nat.

Definition reported (prev : option Z) (r : option (bool * Z)) (old : option Z) : option Z :=
  match r with Some (true, v) => Some v | Some (false, v) => Some (diff prev v) | None => old end.
Definition raw (r : option (bool * Z)) (old : option Z) : option Z := match r with Some (false, v) => Some v | _ => old end.
Lemma poll_one oid varName omib results st id : (length (filter (is_for oid id) results) ≤ 1)%nat →
  let r := match filter (is_for oid id) results with [v] => Some (as_is omib v, read_value v) | _ => None end in
  let st' := foldl (add_variable oid varName omib) st results in
  delta_at st'.2 id varName = reported (value_at st.1 id varName) r (delta_at st.2 id varName) ∧
  delta_at st'.2 id (counter_name varName) = raw r (delta_at st.2 id (counter_name varName)) ∧
  value_at st'.1 id varName = raw r (value_at st.1 id varName).
Proof.
  intros Hlen. destruct (filter (is_for oid id) results) as [|v [|? ?]] eqn:E; [| |cbn in Hlen; lia]; cbv zeta.
  - destruct (add_none oid varName omib results st id (filter_none _ _ _ E)) as [Hd Hv]. cbn [reported raw]. by rewrite !Hd, Hv.
  - apply filter_one in E as (l1 & l2 & -> & Hv & H1 & H2). rewrite foldl_app. cbn [foldl].
    destruct (add_none oid varName omib l1 st id H1) as [Hd1 Hn1]. set (st1 := foldl _ _ l1) in *.
    destruct (add_none oid varName omib l2 (add_variable oid varName omib st1 v) id H2) as [Hd2 Hn2]. rewrite !Hd2, Hn2.
    rewrite !add_variable_delta, add_variable_value, !(decide_True (P := is_for oid id v)) by done.
    rewrite !(decide_True (P := varName = varName)), (decide_False (P := counter_name varName = varName)), (decide_True (P := _ = _)) by (done || apply counter_name_ne).
    rewrite !Hd1, Hn1. by destruct (as_is omib v).
Qed.

(** The objects have names that are apart, and keys with a leading dot. *)
Record objects_apart (order : list (string * string)) : Prop := {
  oa_keys : NoDup order.*1;
  oa_dots o n : (o, n) ∈ order → HasPrefix o "." = true;
  oa_names o1 n1 o2 n2 : (o1, n1) ∈ order → (o2, n2) ∈ order → o1 ≠ o2 → apart n1 n2 }.
Lemma objects_apart_cons x order : objects_apart (x :: order) → objects_apart order.
Proof.
  intros [Hk Hd Hn]. split; [by apply NoDup_cons in Hk as [_ ?]|intros o n Hin; eapply Hd; right; exact Hin|].
  intros o1 n1 o2 n2 H1 H2. apply Hn; by right.
Qed.

Lemma mib_ready_other t mibs o ready omib mibs' o' : mib_ready t mibs o = (ready, omib, mibs') →
  HasPrefix o "." = true → HasPrefix o' "." = true → o ≠ o' → mibs' !! drop_string 1 o' = mibs !! drop_string 1 o'.
Proof.
  unfold mib_ready. intros E Ho Ho' Hne. destruct (mibs !! drop_string 1 o) as [mib|]; [|by injection E as <- <- <-].
  destruct (IsPollReady t mib) as [rd mib']. injection E as <- <- <-. apply lookup_insert_ne. intros Ed. apply Hne.
  apply HasPrefix_spec in Ho as [t1 ->], Ho' as [t2 ->]. assert (t1 = t2) as -> by exact Ed. done.
Qed.

(** An object that is not walked is not touched. *)
Lemma poll_oids_other order st o n id : objects_apart ((o, n) :: order) →
  let r := poll_oids now walk order st in
  delta_at (ps_deltas r.1) id n = delta_at (ps_deltas st) id n ∧
  delta_at (ps_deltas r.1) id (counter_name n) = delta_at (ps_deltas st) id (counter_name n) ∧
  value_at (ps_values r.1) id n = value_at (ps_values st) id n.
Proof.
  revert st. induction order as [|[o' n'] order IH]; intros st Hoa; [done|]. cbn [poll_oids].
  assert (objects_apart ((o, n) :: order)) as Hrest.
  { destruct Hoa as [Hk Hd Hn]. cbn in Hk. apply NoDup_cons in Hk as [Hni [_ Hk]%NoDup_cons]. split.
    - cbn. apply NoDup_cons. split; [set_solver|done].
    - intros a b Hin. eapply (Hd a b). set_solver.
    - intros o1 n1 o2 n2 H1 H2. apply Hn; set_solver. }
  assert (apart n' n) as Hap.
  { apply (oa_names _ Hoa o' n' o n); [right; left|left|]. pose proof (oa_keys _ Hoa) as Hk. cbn in Hk. apply NoDup_cons in Hk as [Hk _]. set_solver. }
  destruct (mib_ready (now o') (ps_mibs st) o') as [[ready omib] mibs]. destruct ready; cbn [negb].
  - destruct (walk o') as [results|e]; [|done].
    pose proof (add_apart o' n' omib results (ps_values st, ps_deltas st) id n Hap) as Hadd. cbv zeta in Hadd.
    destruct (foldl _ _ results) as [values deltas]. destruct (IH (mkPoll values mibs deltas) Hrest) as (-> & -> & ->). exact Hadd.
  - apply (IH (mkPoll (ps_values st) mibs (ps_deltas st)) Hrest).
Qed.
Lemma poll_oids_mibs_head order st o n : objects_apart ((o, n) :: order) →
  ∀ o' n', (o', n') ∈ order → ∀ ready omib mibs, mib_ready (now o) (ps_mibs st) o = (ready, omib, mibs) →
  mibs !! drop_string 1 o' = ps_mibs st !! drop_string 1 o'.
Proof.
  intros Hoa o' n' Hin ready omib mibs E. apply (mib_ready_other _ _ _ _ _ _ _ E).
  - by apply (oa_dots _ Hoa o n); left.
  - by apply (oa_dots _ Hoa o' n'); right.
  - intros ->. pose proof (oa_keys _ Hoa) as Hk. cbn in Hk. apply NoDup_cons in Hk as [Hk _]. apply Hk, list_elem_of_fmap. by exists (o', n').
Qed.

Lemma reading_ext mibs mibs' o id : mibs !! drop_string 1 o = mibs' !! drop_string 1 o → reading mibs o id = reading mibs' o id.
Proof. unfold reading, mib_ready. intros ->. destruct (mibs' !! drop_string 1 o) as [mib|]; [|done]. by destruct (IsPollReady (now o) mib). Qed.

(** What one object of a walk that succeeds gives an interface. *)
Lemma poll_oids_read order st st' o n id : objects_apart order → poll_oids now walk order st = (st', None) → (o, n) ∈ order → single_rows o id →
  let r := reading (ps_mibs st) o id in
  delta_at (ps_deltas st') id n = reported (value_at (ps_values st) id n) r (delta_at (ps_deltas st) id n) ∧
  delta_at (ps_deltas st') id (counter_name n) = raw r (delta_at (ps_deltas st) id (counter_name n)) ∧
  value_at (ps_values st') id n = raw r (value_at (ps_values st) id n).
Proof.
  revert st. induction order as [|[o' n'] order IH]; intros st Hoa E Hin Hs; [by apply elem_of_nil in Hin|]. cbn [poll_oids] in E.
  pose proof (poll_oids_mibs_head order st o' n' Hoa) as Hmibs.
  apply elem_of_cons in Hin as [[= <- <-]|Hin].
  - unfold reading. destruct (mib_ready (now o) (ps_mibs st) o) as [[ready omib] mibs]. destruct ready; cbn [negb] in E.
    + destruct (walk o) as [results|e] eqn:Ew; [|done].
      pose proof (poll_one o n omib results (ps_values st, ps_deltas st) id (Hs _ Ew)) as Hone. cbv zeta in Hone.
      destruct (foldl _ _ results) as [values deltas].
      pose proof (poll_oids_other order (mkPoll values mibs deltas) o n id Hoa) as Hother. rewrite E in Hother. cbv zeta in Hother. cbn [fst ps_deltas ps_values] in Hother.
      destruct Hother as (-> & -> & ->). exact Hone.
    + pose proof (poll_oids_other order (mkPoll (ps_values st) mibs (ps_deltas st)) o n id Hoa) as Hother. rewrite E in Hother. exact Hother.
  - assert (o' ≠ o) as Hoo.
    { intros ->. pose proof (oa_keys _ Hoa) as Hk. cbn in Hk. apply NoDup_cons in Hk as [Hk _]. apply Hk, list_elem_of_fmap. by exists (o, n). }
    assert (apart n' n) as Hap by (apply (oa_names _ Hoa o' n' o n); [by left|by right|done]).
    destruct (mib_ready (now o') (ps_mibs st) o') as [[ready omib] mibs] eqn:Er. specialize (Hmibs o n Hin _ _ _ eq_refl).
    destruct ready; cbn [negb] in E.
    + destruct (walk o') as [results|e]; [|done].
      pose proof (add_apart o' n' omib results (ps_values st, ps_deltas st) id n Hap) as Hadd. cbv zeta in Hadd.
      destruct (foldl _ _ results) as [values deltas].
      destruct (IH (mkPoll values mibs deltas) (objects_apart_cons _ _ Hoa) E Hin Hs) as (-> & -> & ->).
      cbn [ps_mibs ps_values ps_deltas fst snd] in *. rewrite (reading_ext _ _ _ id Hmibs). destruct Hadd as (-> & -> & ->). done.
    + destruct (IH (mkPoll (ps_values st) mibs (ps_deltas st)) (objects_apart_cons _ _ Hoa) E Hin Hs) as (-> & -> & ->).
      cbn [ps_mibs ps_values ps_deltas] in *. by rewrite (reading_ext _ _ _ id Hmibs).
Qed.
End reports.

(** ** [Poll] *)

(** The maps of the object ids and names are the inverses of each other, the ids have a
    leading dot, and the names are apart and are not those of counters. *)
Record wf_im (im : InterfaceMetrics) : Prop := {
  wf_dots o n : oidMap im !! o = Some n → HasPrefix o "." = true;
  wf_names o1 n1 o2 n2 : oidMap im !! o1 = Some n1 → oidMap im !! o2 = Some n2 → o1 ≠ o2 → apart n1 n2;
  wf_back o n : nameOidMap im !! n = Some o ↔ oidMap im !! o = Some n;
  wf_plain o n : oidMap im !! o = Some n → FlowToJCHF.HasSuffix n "_counter" = false }.

Lemma env_objects env im o n : (o, n) ∈ env_oids env (oidMap im) ↔ oidMap im !! o = Some n.
Proof. rewrite (env_oids_perm env). apply elem_of_map_to_list. Qed.
Lemma env_apart env im : wf_im im → objects_apart (env_oids env (oidMap im)).
Proof.
  intros [Hd Hn _ _]. split.
  - rewrite (env_oids_perm env). apply NoDup_fst_map_to_list.
  - intros o n Hin. apply (Hd o n). by apply (env_objects env).
  - intros o1 n1 o2 n2 H1 H2. apply Hn; by apply (env_objects env).
Qed.

Section uptime.
Lemma add_uptime_other dms st id k : id ≠ AllDeviceInterface →
  delta_at (add_uptime dms st).2 id k = delta_at st.2 id k ∧ value_at (add_uptime dms st).1 id k = value_at st.1 id k.
Proof.
  intros Hid. revert st. induction dms as [|dm dms IH]; intros st; [done|]. cbn [add_uptime].
  set (up := default 0 _). destruct (0 <? up); cbn [SetValueAndReturnDelta].
  - cbn [fst snd]. rewrite delta_at_insert, value_at_insert. by rewrite !decide_False by done.
  - destruct (IH (<[AllDeviceInterface := counter_set st.1 AllDeviceInterface]> st.1,
      <[AllDeviceInterface := default ∅ (st.2 !! AllDeviceInterface)]> st.2)) as [-> ->]. cbn [fst snd].
    rewrite delta_at_insert, value_at_insert. by rewrite !decide_False by done.
Qed.
End uptime.

Section poll_laws.
Context `{Gosnmp}.

Lemma poll_walks_inl env im dms im' deltas : poll_walks env im dms = (im', inl deltas) →
  ∃ st, poll_oids (env_now env) (WalkOID (env_device env)) (env_oids env (oidMap im)) (mkPoll (intValues im) (oidMibMap im) ∅) = (st, None) ∧
    deltas = (add_uptime dms (ps_values st, ps_deltas st)).2 ∧ intValues im' = (add_uptime dms (ps_values st, ps_deltas st)).1.
Proof.
  unfold poll_walks. destruct (poll_oids _ _ _ _) as [st [e|]]; [done|]. destruct (add_uptime _ _) as [values ds] eqn:E. intros [= <- <-]. exists st. by rewrite E.
Qed.
Lemma Poll_inl env im dms im' deltas flows : Poll env im dms = Ok (im', inl (deltas, flows)) →
  poll_walks env im dms = (im', inl deltas) ∧ convertToCHF im' (env_stamp env) deltas (env_deltas env deltas) = Ok flows.
Proof.
  unfold Poll. destruct (poll_walks env im dms) as [im2 [ds|e]]; [|done].
  destruct (convertToCHF _ _ _ _) as [fl| | |] eqn:E; cbn [mbind res_bind]; try done. intros [= <- <- <-]. done.
Qed.

Lemma poll_walks_reports env im dms im' deltas o n id : wf_im im → poll_walks env im dms = (im', inl deltas) → oidMap im !! o = Some n →
  id ≠ AllDeviceInterface → single_rows (WalkOID (env_device env)) o id →
  let r := reading (env_now env) (WalkOID (env_device env)) (oidMibMap im) o id in
  delta_at deltas id n = reported (value_at (intValues im) id n) r None ∧
  delta_at deltas id (counter_name n) = raw r None ∧
  value_at (intValues im') id n = raw r (value_at (intValues im) id n).
Proof.
  intros Hwf E Ho Hid Hs. apply poll_walks_inl in E as (st & E & -> & ->).
  destruct (add_uptime_other dms (ps_values st, ps_deltas st) id n Hid) as [-> ->].
  destruct (add_uptime_other dms (ps_values st, ps_deltas st) id (counter_name n) Hid) as [-> _]. cbn [fst snd].
  exact (poll_oids_read _ _ _ _ _ o n id (env_apart env im Hwf) E (proj2 (env_objects env im o n) Ho) Hs).
Qed.

(** A poll that succeeds reports, for each object and interface, what the walk of
    the object says of it: a gauge or an integer as it is, a counter as its difference
    from the value kept and as it is; it keeps the values of the counters it has read and
    no other, whatever order the objects are walked in. *)
Theorem Poll_reports env im dms im' deltas flows o n id :
  wf_im im → Poll env im dms = Ok (im', inl (deltas, flows)) → oidMap im !! o = Some n →
  id ≠ AllDeviceInterface → single_rows (WalkOID (env_device env)) o id →
  let r := reading (env_now env) (WalkOID (env_device env)) (oidMibMap im) o id in
  delta_at deltas id n = reported (value_at (intValues im) id n) r None ∧
  delta_at deltas id (counter_name n) = raw r None ∧
  value_at (intValues im') id n = raw r (value_at (intValues im) id n).
Proof. intros Hwf [E _]%Poll_inl. by apply (poll_walks_reports env im dms). Qed.

(** *** The flows *)

Definition known (im : InterfaceMetrics) (k : string) : Prop := ∃ o n, oidMap im !! o = Some n ∧ (k = n ∨ k = counter_name n).
Definition known_deltas (im : InterfaceMetrics) (deltas : all_deltas) : Prop :=
  ∀ id k, id ≠ AllDeviceInterface → is_Some (delta_at deltas id k) → known im k.

Lemma add_variables_known im oid n omib results st : oidMap im !! oid = Some n → known_deltas im st.2 →
  known_deltas im (foldl (add_variable oid n omib) st results).2.
Proof.
  intros Ho. revert st. induction results as [|v results IH]; intros st Hk; [done|]. cbn [foldl]. apply IH. intros id k Hid. rewrite add_variable_delta.
  destruct (decide (is_for oid id v)); [|by apply Hk]. destruct (decide (k = n)) as [->|]; [intros _; exists oid, n; eauto|].
  destruct (decide (k = counter_name n)) as [->|]; [intros _; exists oid, n; eauto|by apply Hk].
Qed.
Lemma poll_oids_known im now walk order st st' e : (∀ o n, (o, n) ∈ order → oidMap im !! o = Some n) → known_deltas im (ps_deltas st) →
  poll_oids now walk order st = (st', e) → known_deltas im (ps_deltas st').
Proof.
  revert st. induction order as [|[o n] order IH]; intros st Hin Hk E; [cbn in E; by injection E as <- <-|]. cbn [poll_oids] in E.
  assert (∀ o n, (o, n) ∈ order → oidMap im !! o = Some n) as Hin' by (intros o' n' ?; apply Hin; by right).
  destruct (mib_ready _ _ _) as [[ready omib] mibs]. destruct ready; cbn [negb] in E.
  - destruct (walk o) as [results|e']; [|by injection E as <- <-].
    pose proof (add_variables_known im o n omib results (ps_values st, ps_deltas st) (Hin o n ltac:(by left)) Hk) as Hadd.
    destruct (foldl _ _ results) as [values deltas]. by eapply IH; [exact Hin'| |exact E].
  - by eapply IH; [exact Hin'| |exact E].
Qed.
Lemma known_none im : known_deltas im ∅.
Proof. intros id k _ [? E]. unfold delta_at in E. by rewrite lookup_empty in E. Qed.
Lemma poll_walks_known env im dms im' deltas : poll_walks env im dms = (im', inl deltas) → known_deltas im deltas.
Proof.
  intros (st & E & -> & _)%poll_walks_inl. intros id k Hid. destruct (add_uptime_other dms (ps_values st, ps_deltas st) id k Hid) as [-> _].
  apply (poll_oids_known _ _ _ _ (mkPoll (intValues im) (oidMibMap im) ∅) _ _ (λ o n, proj1 (env_objects env im o n)) (known_none im) E id k Hid).
Qed.

Lemma base_counter n : baseMetricName (counter_name n) = n.
Proof.
  unfold baseMetricName, counter_name. rewrite MibTraps.HasSuffix_append, length_append.
  replace (_ + _ - _)%nat with (String.length n) by lia. apply MibTraps.take_string_append.
Qed.
Lemma known_oid im k : wf_im im → known im k → ∃ o, nameOidMap im !! baseMetricName k = Some o ∧ HasPrefix o "." = true.
Proof.
  intros [Hd _ Hb Hp] (o & n & Ho & [-> | ->]); exists o; (split; [|by eapply Hd]); apply Hb; [|by rewrite base_counter].
  unfold baseMetricName. by rewrite (Hp _ _ Ho).
Qed.
Lemma tail_dot o : HasPrefix o "." = true → ∃ t, tail_of o = Ok t.
Proof. destruct o as [|c o]; [done|]. eauto. Qed.
End poll_laws.

Section poll_flows.
Context `{Gosnmp}.

(** The maps of a flow hold the differences, unless a percentage takes their name. *)
Definition percent_names : list string := [SNMP_ifInErrorsPercent; SNMP_ifOutErrorsPercent].
Lemma convert_metrics_ok im fm0 cs : wf_im im → (∀ k, is_Some (cs !! k) → known im k) →
  ∃ fm, map_fold (convert_metric im) (Ok fm0) cs = Ok fm ∧
    ∀ k, fm_big fm !! k = match cs !! k with Some v => Some (wraps 64 v) | None => fm_big fm0 !! k end.
Proof.
  intros Hwf.
  refine (map_fold_weak_ind (λ r cs, (∀ k, is_Some (cs !! k) → known im k) → ∃ fm, r = Ok fm ∧
    ∀ k, fm_big fm !! k = match cs !! k with Some v => Some (wraps 64 v) | None => fm_big fm0 !! k end) _ _ _ _ cs).
  - intros _. exists fm0. split; [done|]. intros k. by rewrite lookup_empty.
  - intros k v m r Hn IH Hk. destruct IH as (fm & -> & Hf).
    { intros k' [v' E]. apply Hk. exists v'. rewrite lookup_insert_ne; [done|congruence]. }
    destruct (known_oid im k Hwf) as (o & Eo & Hdot); [apply Hk; by rewrite lookup_insert_eq|]. apply tail_dot in Hdot as [t Et].
    unfold convert_metric. cbn [mbind res_bind]. rewrite Eo. cbn [from_option id]. rewrite Et. cbn [mbind res_bind]. eexists. split; [reflexivity|].
    intros k'. cbn [fm_big]. destruct (decide (k = k')) as [<-|Hne]; [by rewrite !lookup_insert_eq|]. by rewrite !lookup_insert_ne.
Qed.
Lemma error_percent_ok im pkts errors name fm : wf_im im →
  ∃ fm', error_percent im pkts errors name fm = Ok fm' ∧ ∀ k, k ≠ name → fm_big fm' !! k = fm_big fm !! k.
Proof.
  intros Hwf. unfold error_percent. destruct (0 <? _); [|by exists fm]. destruct (nameOidMap im !! errors) as [idi|] eqn:E; [|by exists fm].
  apply (wf_back _ Hwf) in E. apply (wf_dots _ Hwf) in E. apply tail_dot in E as [t ->]. cbn [mbind res_bind].
  destruct (oidMibMap im !! t); eexists; (split; [reflexivity|]); [|done]. intros k Hk. cbn [fm_big]. by rewrite lookup_insert_ne.
Qed.
Lemma convert_maps_ok im up cs : wf_im im → (∀ k, is_Some (cs !! k) → known im k) →
  ∃ fm, convert_maps im up cs = Ok fm ∧ ∀ k v, cs !! k = Some v → k ∉ percent_names → k ≠ Uptime → fm_big fm !! k = Some (wraps 64 v).
Proof.
  intros Hwf Hk. unfold convert_maps.
  match goal with |- context [map_fold _ (Ok ?fm0) cs] => destruct (convert_metrics_ok im fm0 cs Hwf Hk) as (fm & -> & Hf) end. cbn [mbind res_bind].
  destruct (error_percent_ok im SNMP_ifHCInUcastPkts SNMP_ifInErrors SNMP_ifInErrorsPercent fm Hwf) as (fm1 & -> & H1). cbn [mbind res_bind].
  destruct (error_percent_ok im SNMP_ifHCOutUcastPkts SNMP_ifOutErrors SNMP_ifOutErrorsPercent fm1 Hwf) as (fm2 & -> & H2). cbn [mbind res_bind].
  eexists. split; [reflexivity|]. intros k v E Hn Hu. unfold percent_names in Hn. rewrite !not_elem_of_cons in Hn. destruct Hn as (Hn1 & Hn2 & _).
  cbn [fm_big]. rewrite lookup_insert_ne by done. by rewrite H2, H1, Hf, E.
Qed.

(** The flow of an interface carries its differences. *)
Definition flow_of (kv : string * gmap string Z) (f : JCHF) : Prop :=
  InputPort f = wrapu 64 (Atoi_value kv.1).1 ∧ OutputPort f = InputPort f ∧
  ∀ k v, kv.2 !! k = Some v → k ∉ percent_names → k ≠ Uptime → map_range (CustomBigInt f) !! k = Some (wraps 64 v).
Lemma convert_loop_ok im stamp up order : wf_im im →
  (∀ id cs k, (id, cs) ∈ order → id ≠ AllDeviceInterface → is_Some (cs !! k) → known im k) →
  ∃ flows, convert_loop im stamp up order = Ok flows ∧ Forall2 flow_of (filter (λ kv, kv.1 ≠ AllDeviceInterface) order) flows.
Proof.
  intros Hwf. induction order as [|[id cs] order IH]; intros Hk; [exists []; by split|]. cbn [convert_loop].
  destruct IH as (flows & E & HF); [intros id' cs' k Hin; apply (Hk id' cs' k); by right|]. rewrite filter_cons. cbn [fst].
  destruct (String.eqb_spec id AllDeviceInterface) as [->|Hne]; [exists flows; rewrite decide_False by tauto; done|].
  destruct (convert_maps_ok im up cs Hwf) as (fm & Em & Hm); [intros k; apply (Hk id cs k); [by left|done]|].
  unfold interface_flow. rewrite Em. cbn [mbind res_bind]. rewrite E. cbn [mbind res_bind]. eexists. split; [reflexivity|].
  rewrite decide_True by done. constructor; [|done]. split_and!; [done|done|]. intros k v E' Hp Hu. by apply Hm.
Qed.

Lemma poll_walks_shape env im dms im' r : poll_walks env im dms = (im', r) →
  oidMap im' = oidMap im ∧ nameOidMap im' = nameOidMap im ∧
  match r with inl _ => True | inr e => ∃ o n, oidMap im !! o = Some n ∧ WalkOID (env_device env) o = inr e end.
Proof.
  unfold poll_walks. pose proof (λ o n, proj1 (env_objects env im o n)) as Hin. revert Hin.
  generalize (env_oids env (oidMap im)) as order. generalize (mkPoll (intValues im) (oidMibMap im) ∅) as st. intros st order Hin.
  destruct (poll_oids _ _ order st) as [st' [e|]] eqn:E.
  - intros [= <- <-]. split_and!; [done|done|]. revert st E. induction order as [|[o n] order IH]; intros st E; [done|]. cbn [poll_oids] in E.
    destruct (mib_ready _ _ _) as [[ready omib] mibs]. destruct ready; cbn [negb] in E.
    + destruct (WalkOID (env_device env) o) as [results|e'] eqn:Ew; [|injection E as <- <-; exists o, n; split; [apply Hin; by left|done]].
      destruct (foldl _ _ _) as [values deltas]. eapply IH; [intros o' n' ?; apply Hin; by right|exact E].
    + eapply IH; [intros o' n' ?; apply Hin; by right|exact E].
  - destruct (add_uptime _ _). by intros [= <- <-].
Qed.
Lemma wf_im_shape im im' : oidMap im' = oidMap im → nameOidMap im' = nameOidMap im → wf_im im → wf_im im'.
Proof. intros E1 E2 [Hd Hn Hb Hp]. split; intros *; rewrite ?E1, ?E2; eauto. Qed.

(** A poll does not fail to make flows of what it has read: there is one for each
    interface with a metric, and it carries what is reported for the interface. When it
    ends with an error, that is the error of the walk of one of the objects. *)
Theorem Poll_flows env im dms : wf_im im →
  ∃ im' r, Poll env im dms = Ok (im', r) ∧ wf_im im' ∧
    match r with
    | inl (deltas, flows) => Forall2 flow_of (filter (λ kv, kv.1 ≠ AllDeviceInterface) (env_deltas env deltas)) flows
    | inr e => ∃ o n, oidMap im !! o = Some n ∧ WalkOID (env_device env) o = inr e
    end.
Proof.
  intros Hwf. unfold Poll. destruct (poll_walks env im dms) as [im' r] eqn:E.
  destruct (poll_walks_shape _ _ _ _ _ E) as (E1 & E2 & Er). pose proof (wf_im_shape _ _ E1 E2 Hwf) as Hwf'.
  destruct r as [deltas|e]; [|by exists im', (inr e)]. pose proof (poll_walks_known _ _ _ _ _ E) as Hk.
  destruct (convert_loop_ok im' (env_stamp env) (default 0 (deltas !! AllDeviceInterface ≫= (.!! Uptime))) (env_deltas env deltas) Hwf') as (flows & Ef & HF).
  { intros id cs k Hin Hid Hs. rewrite (env_deltas_perm env) in Hin. apply elem_of_map_to_list in Hin.
    assert (known im k) as (o & n & Ho & Hkn) by (apply (Hk id k Hid); unfold delta_at; by rewrite Hin). exists o, n. by rewrite E1. }
  unfold convertToCHF. rewrite Ef. cbn [mbind res_bind]. by exists im', (inl (deltas, flows)).
Qed.
End poll_flows.

(** ** The loop *)

(** What is sent of a counter of an interface, over the outcomes of the ticks. *)
Definition sent_delta (id n : string) (o : outcome) : Z := match o with Sent d _ => default 0 (delta_at d id n) | _ => 0 end.
Definition total_sent (id n : string) (os : list outcome) : Z := foldr (λ o z, sent_delta id n o + z) 0 os.
Definition is_sent (o : outcome) : Prop := match o with Sent _ _ => True | _ => False end.

Section loop_laws.
Context `{Gosnmp} (o n id : string).

(** The value of the counter that the device gives at a tick, whether it is asked or
    not. *)
Definition counter_now (t : tick) : option Z :=
  match WalkOID (env_device (tk_env t)) o with
  | inl results => match filter (is_for o id) results with [v] => Some (read_value v) | _ => None end
  | inr _ => None
  end.
Record counter_tick (t : tick) : Prop := {
  ct_single : single_rows (WalkOID (env_device (tk_env t))) o id;
  ct_counter results v : WalkOID (env_device (tk_env t)) o = inl results → v ∈ results → pdu_Type v ≠ Integer }.
(** The object is a counter, known under its id. *)
Record counter_object (im : InterfaceMetrics) : Prop := {
  co_wf : wf_im im;
  co_oid : oidMap im !! o = Some n;
  co_format mib : oidMibMap im !! drop_string 1 o = Some mib → mb_Format mib ≠ GaugeMetric }.
Definition always_due (im : InterfaceMetrics) : Prop := ∀ mib, oidMibMap im !! drop_string 1 o = Some mib → mb_PollDur mib = 0.

Lemma read_value_range v : in_u 64 (read_value v).
Proof. unfold read_value, Uint64_of. apply wrapu_range. lia. Qed.

(** Polling changes when an object was last polled, and nothing else of it. *)
Lemma mib_ready_kept t mibs k ready omib mibs' key mib' : mib_ready t mibs k = (ready, omib, mibs') → mibs' !! key = Some mib' →
  ∃ mib, mibs !! key = Some mib ∧ mb_Format mib' = mb_Format mib ∧ mb_PollDur mib' = mb_PollDur mib.
Proof.
  unfold mib_ready. destruct (mibs !! drop_string 1 k) as [mib|] eqn:E; [|intros [= <- <- <-]; eauto].
  destruct (IsPollReady t mib) as [rd mib2] eqn:Er. intros [= <- <- <-] E'. destruct (decide (drop_string 1 k = key)) as [<-|Hne].
  - rewrite lookup_insert_eq in E'. injection E' as <-. exists mib. split; [done|]. unfold IsPollReady in Er.
    destruct (mb_PollDur mib =? 0); [by injection Er as <- <-|]. destruct (_ <? t); by injection Er as <- <-.
  - rewrite lookup_insert_ne in E' by done. eauto.
Qed.
Lemma poll_oids_kept now walk order st key mib' : ps_mibs (poll_oids now walk order st).1 !! key = Some mib' →
  ∃ mib, ps_mibs st !! key = Some mib ∧ mb_Format mib' = mb_Format mib ∧ mb_PollDur mib' = mb_PollDur mib.
Proof.
  revert st. induction order as [|[k m] order IH]; intros st E; [eauto|]. cbn [poll_oids] in E.
  destruct (mib_ready (now k) (ps_mibs st) k) as [[ready omib] mibs] eqn:Er.
  assert (∀ mib, mibs !! key = Some mib → mb_Format mib' = mb_Format mib → mb_PollDur mib' = mb_PollDur mib →
    ∃ mib, ps_mibs st !! key = Some mib ∧ mb_Format mib' = mb_Format mib ∧ mb_PollDur mib' = mb_PollDur mib) as Hstep.
  { intros mib Em -> ->. eapply mib_ready_kept; [exact Er|exact Em]. }
  destruct ready; cbn [negb] in E.
  - destruct (walk k) as [results|e]; [|cbn [fst ps_mibs] in E; by eapply Hstep].
    destruct (foldl _ _ results) as [values deltas]. apply IH in E as (mib & Em & E1 & E2). by eapply Hstep.
  - apply IH in E as (mib & Em & E1 & E2). by eapply Hstep.
Qed.
Lemma poll_walks_kept env im dms im' r key mib' : poll_walks env im dms = (im', r) → oidMibMap im' !! key = Some mib' →
  ∃ mib, oidMibMap im !! key = Some mib ∧ mb_Format mib' = mb_Format mib ∧ mb_PollDur mib' = mb_PollDur mib.
Proof.
  unfold poll_walks. set (st0 := mkPoll _ _ _).
  pose proof (poll_oids_kept (env_now env) (WalkOID (env_device env)) (env_oids env (oidMap im)) st0 key mib') as Hk.
  destruct (poll_oids _ _ _ st0) as [st [e|]].
  - intros [= <- <-]. exact Hk.
  - destruct (add_uptime _ _). intros [= <- <-]. exact Hk.
Qed.
Lemma counter_object_poll env im dms im' r : counter_object im → poll_walks env im dms = (im', r) →
  counter_object im' ∧ (always_due im → always_due im').
Proof.
  intros [Hwf Ho Hf] E. destruct (poll_walks_shape _ _ _ _ _ E) as (E1 & E2 & _). split; [split|].
  - by apply (wf_im_shape im).
  - by rewrite E1.
  - intros mib Em. destruct (poll_walks_kept _ _ _ _ _ _ _ E Em) as (mib0 & Em0 & -> & _). by apply Hf.
  - intros Hd mib Em. destruct (poll_walks_kept _ _ _ _ _ _ _ E Em) as (mib0 & Em0 & _ & ->). by apply Hd.
Qed.
Lemma counter_object_discard im : counter_object im → counter_object (DiscardDeltaState im).
Proof. intros [[H1 H2 H3 H4] Ho Hf]. by split; [split|..]. Qed.

(** What a poll reads of the counter: nothing, or what the device gives. *)
Lemma counter_reading t im : counter_object im → counter_tick t →
  let r := reading (env_now (tk_env t)) (WalkOID (env_device (tk_env t))) (oidMibMap im) o id in
  (r = None ∨ ∃ v, r = Some (false, v) ∧ counter_now t = Some v ∧ in_u 64 v) ∧
  (always_due im → ∀ v, counter_now t = Some v → r = Some (false, v)).
Proof.
  intros Hc [_ Ht]. cbv zeta. unfold reading, counter_now.
  assert (∀ ready omib mibs, mib_ready (env_now (tk_env t) o) (oidMibMap im) o = (ready, omib, mibs) → is_gauge omib = false) as Hg.
  { intros ready omib mibs E. unfold mib_ready in E. destruct (oidMibMap im !! drop_string 1 o) as [mib|] eqn:Em; [|by injection E as <- <- <-].
    destruct (IsPollReady _ mib) as [rd mib2] eqn:Er. injection E as <- <- <-. unfold is_gauge. apply String.eqb_neq.
    replace (mb_Format mib2) with (mb_Format mib); [by apply (co_format im Hc)|]. unfold IsPollReady in Er.
    destruct (mb_PollDur mib =? 0); [by injection Er as <- <-|]. destruct (_ <? _); by injection Er as <- <-. }
  assert (always_due im → ∃ omib mibs, mib_ready (env_now (tk_env t) o) (oidMibMap im) o = (true, omib, mibs)) as Hdue.
  { intros Hd. unfold mib_ready. destruct (oidMibMap im !! drop_string 1 o) as [mib|] eqn:Em; [|eauto].
    unfold IsPollReady. rewrite (Hd mib Em). cbn [Z.eqb]. eauto. }
  destruct (mib_ready _ _ o) as [[ready omib] mibs]. specialize (Hg _ _ _ eq_refl).
  split.
  - destruct ready; [|by left]. destruct (WalkOID _ o) as [results|e] eqn:Ew; [|by left].
    destruct (filter (is_for o id) results) as [|v [|? ?]] eqn:Ef; [by left| |by left]. right. exists (read_value v).
    split_and!; [|done|apply read_value_range]. unfold as_is. rewrite Hg. cbn [orb]. rewrite bool_decide_false; [done|].
    apply (Ht _ _ eq_refl). apply filter_one in Ef as (l1 & l2 & -> & _). rewrite elem_of_app. right. by left.
  - intros (omib' & mibs' & [= -> -> ->])%Hdue v E. destruct (WalkOID _ o) as [results|e] eqn:Ew; [|done].
    destruct (filter (is_for o id) results) as [|x [|? ?]] eqn:Ef; [done| |done]. injection E as <-. unfold as_is. rewrite Hg. cbn [orb].
    rewrite bool_decide_false; [done|]. apply (Ht _ _ eq_refl). apply filter_one in Ef as (l1 & l2 & -> & _). rewrite elem_of_app. right. by left.
Qed.

(** The value kept after a tick, and what is sent of it. *)
Lemma on_tick_counter p t p' out : id ≠ AllDeviceInterface → counter_object (interfaceMetrics p) → counter_tick t → on_tick p t = Ok (p', out) →
  let prev := value_at (intValues (interfaceMetrics p)) id n in
  let next := value_at (intValues (interfaceMetrics p')) id n in
  counter_object (interfaceMetrics p') ∧ (always_due (interfaceMetrics p) → always_due (interfaceMetrics p')) ∧
  (sent_delta id n out = 0 ∧ (next = None ∨ next = prev) ∧ (is_sent out → always_due (interfaceMetrics p) → counter_now t = None) ∨
   ∃ v, counter_now t = Some v ∧ in_u 64 v ∧ is_sent out ∧ next = Some v ∧ sent_delta id n out = diff prev v).
Proof.
  intros Hid Hc Ht. unfold on_tick. destruct (negb _).
  { intros [= <- <-]. cbn. split; [by apply counter_object_discard|]. split; [done|]. left. split; [done|]. split; [by left|done]. }
  unfold poll_device, Poll. destruct (poll_walks (tk_env t) (interfaceMetrics p) (deviceFlows t)) as [im [deltas|e]] eqn:Ep; cbn [mbind res_bind].
  2: { intros [= <- <-]. cbn. destruct (counter_object_poll _ _ _ _ _ Hc Ep) as [Hc' Hd']. split; [by apply counter_object_discard|]. split; [done|].
       left. split; [done|]. split; [by left|done]. }
  destruct (convertToCHF _ _ _ _) as [flows| | |]; cbn [mbind res_bind]; [|done..].
  destruct (counter_object_poll _ _ _ _ _ Hc Ep) as [Hc' Hd'].
  pose proof (poll_walks_reports _ _ _ _ _ o n id (co_wf _ Hc) Ep (co_oid _ Hc) Hid (ct_single _ Ht)) as Hr. cbv zeta in Hr.
  destruct (counter_reading t _ Hc Ht) as [Hread Hall]. cbv zeta in Hread, Hall.
  set (r := reading _ _ _ _ _) in *. destruct Hr as (Hdelta & _ & Hvalue).
  destruct (_ && _); intros [= <- <-]; cbn [interfaceMetrics set_fail set_interfaceMetrics discard DiscardDeltaState].
  - split; [by apply counter_object_discard|]. split; [done|]. left. split; [done|]. split; [by left|done].
  - split; [done|]. split; [done|]. cbn [sent_delta]. rewrite Hdelta, Hvalue. destruct Hread as [Er|(v & Er & Ev & Hv)]; rewrite Er.
    + left. split; [done|]. split; [by right|]. intros _ Hd. destruct (counter_now t) as [v|] eqn:Ev; [|done]. specialize (Hall Hd v eq_refl). congruence.
    + right. by exists v.
Qed.
End loop_laws.

Section loop_totals.
Context `{Gosnmp} (o n id : string).
Hypothesis Hid : id ≠ AllDeviceInterface.

Abbreviation kept p := (value_at (intValues (interfaceMetrics p)) id n).
Abbreviation now_of := (counter_now o id).
Definition final (m : Z) (l : list Z) : Z := foldl (λ _ x, x) m l.
Lemma final_ge m l : StronglySorted Z.le (m :: l) → m ≤ final m l.
Proof.
  revert m. induction l as [|x l IH]; intros m Hs; [done|]. apply StronglySorted_inv in Hs as [Hs Hf]. cbn. apply Forall_cons in Hf as [Hx _].
  specialize (IH x Hs). unfold final in IH. lia.
Qed.
Lemma sorted_skip m x l : StronglySorted Z.le (m :: x :: l) → StronglySorted Z.le (m :: l) ∧ final m l ≤ final m (x :: l).
Proof.
  intros Hs. apply StronglySorted_inv in Hs as [Hs Hf]. apply Forall_cons in Hf as [Hx Hf]. apply StronglySorted_inv in Hs as [Hs Hl].
  split; [by constructor|]. destruct l as [|y l]; [done|]. done.
Qed.

Lemma StartLoop_cons p t ticks p' os : StartLoop p (t :: ticks) = Ok (p', os) →
  ∃ p1 out os', on_tick p t = Ok (p1, out) ∧ StartLoop p1 ticks = Ok (p', os') ∧ os = out :: os'.
Proof.
  cbn [StartLoop]. destruct (on_tick p t) as [[p1 out]| | |]; cbn [mbind res_bind]; try done.
  destruct (StartLoop p1 ticks) as [[p2 os']| | |] eqn:E; cbn [mbind res_bind]; try done. intros [= <- <-]. by exists p1, out, os'.
Qed.

Lemma loop_bound ticks p p' os m : counter_object o n (interfaceMetrics p) → Forall (counter_tick o id) ticks → StartLoop p ticks = Ok (p', os) →
  StronglySorted Z.le (m :: omap now_of ticks) → (∀ u, kept p = Some u → in_u 64 u ∧ u ≤ m) →
  total_sent id n os ≤ final m (omap now_of ticks) - default m (kept p).
Proof.
  revert p os m. induction ticks as [|t ticks IH]; intros p os m Hc Ht E Hs Hk.
  { cbn in E. injection E as <- <-. cbn. destruct (kept p) as [u|] eqn:Eu; cbn; [destruct (Hk u eq_refl)|]; lia. }
  apply StartLoop_cons in E as (p1 & out & os' & Et & E & ->). apply Forall_cons in Ht as [Ht Hts].
  destruct (on_tick_counter o n id p t p1 out Hid Hc Ht Et) as (Hc1 & _ & Hstep). cbn [total_sent foldr]. fold (total_sent id n os').
  assert (StronglySorted Z.le (m :: omap now_of ticks) ∧ final m (omap now_of ticks) ≤ final m (omap now_of (t :: ticks))) as [Hs' Hfin].
  { cbn [omap list_omap]. cbn [omap list_omap] in Hs. destruct (counter_now o id t); [by apply sorted_skip|done]. }
  destruct Hstep as [(-> & Hnext & _)|(v & Ev & Hv & _ & Hnext & Hd)].
  - assert (∀ u, kept p1 = Some u → in_u 64 u ∧ u ≤ m) as Hk1 by (intros u Eu; destruct Hnext as [Hn|Hn]; rewrite Hn in Eu; [done|by apply Hk]).
    specialize (IH p1 os' m Hc1 Hts E Hs' Hk1). assert (default m (kept p) ≤ default m (kept p1)).
    { destruct Hnext as [-> | ->]; [|lia]. destruct (kept p) as [u|] eqn:Eu; cbn; [destruct (Hk u eq_refl)|]; lia. }
    lia.
  - cbn [omap list_omap] in *. rewrite Ev in *. cbn [final foldl]. fold (final v (omap now_of ticks)).
    apply StronglySorted_inv in Hs as [Hs Hm]. apply Forall_cons in Hm as [Hm _].
    assert (∀ u, kept p1 = Some u → in_u 64 u ∧ u ≤ v) as Hk1 by (intros u Eu; rewrite Hnext in Eu; injection Eu as <-; split; [done|lia]).
    specialize (IH p1 os' v Hc1 Hts E Hs Hk1). rewrite Hnext in IH. cbn [from_option Datatypes.id] in IH. rewrite Hd.
    destruct (kept p) as [u|] eqn:Eu; cbn [from_option Datatypes.id]; [|cbn [diff]; lia]. destruct (Hk u eq_refl). rewrite diff_exact by done. lia.
Qed.
Lemma loop_exact ticks p p' os u : counter_object o n (interfaceMetrics p) → always_due o (interfaceMetrics p) → Forall (counter_tick o id) ticks →
  StartLoop p ticks = Ok (p', os) → Forall is_sent os → Forall (λ t, is_Some (now_of t)) ticks →
  StronglySorted Z.le (u :: omap now_of ticks) → kept p = Some u → in_u 64 u →
  total_sent id n os = final u (omap now_of ticks) - u.
Proof.
  revert p os u. induction ticks as [|t ticks IH]; intros p os u Hc Hd Ht E Hsent Hread Hs Hu Hr.
  { cbn in E. injection E as <- <-. cbn. lia. }
  apply StartLoop_cons in E as (p1 & out & os' & Et & E & ->). apply Forall_cons in Ht as [Ht Hts]. apply Forall_cons in Hsent as [Hout Hsent].
  apply Forall_cons in Hread as [[v Ev] Hread].
  destruct (on_tick_counter o n id p t p1 out Hid Hc Ht Et) as (Hc1 & Hd1 & [(_ & _ & Hno)|(v' & Ev' & Hv & _ & Hnext & Hdelta)]).
  { specialize (Hno Hout Hd). congruence. }
  assert (v' = v) as -> by congruence. cbn [omap list_omap] in *. rewrite Ev in *. cbn [final foldl]. fold (final v (omap now_of ticks)).
  apply StronglySorted_inv in Hs as [Hs Hm]. apply Forall_cons in Hm as [Hm _]. cbn [total_sent foldr]. fold (total_sent id n os').
  rewrite (IH p1 os' v Hc1 (Hd1 Hd) Hts E Hsent Hread Hs Hnext Hv), Hdelta, Hu, diff_exact by done. lia.
Qed.

(** C7: Whatever ticks are skipped, fail or are missed, the differences sent of a counter
    that does not decrease never add up to more than it has grown since the loop began;
    they add up to just that when every poll is sent. *)
Theorem loop_never_over_reports ticks p p' os f rest :
  counter_object o n (interfaceMetrics p) → intValues (interfaceMetrics p) = ∅ → Forall (counter_tick o id) ticks →
  StartLoop p ticks = Ok (p', os) → omap now_of ticks = f :: rest → StronglySorted Z.le (f :: rest) →
  total_sent id n os ≤ final f rest - f ∧
  (always_due o (interfaceMetrics p) → Forall is_sent os → Forall (λ t, is_Some (now_of t)) ticks → total_sent id n os = final f rest - f).
Proof.
  intros Hc H0 Ht E Ef Hs. assert (kept p = None) as Hk by (rewrite H0; done). split.
  - assert (StronglySorted Z.le (f :: omap now_of ticks)) as Hs'.
    { rewrite Ef. constructor; [done|]. constructor; [lia|]. by apply StronglySorted_inv in Hs as [_ ?]. }
    pose proof (loop_bound ticks p p' os f Hc Ht E Hs' ltac:(intros u Eu; congruence)) as Hb. rewrite Hk, Ef in Hb. exact Hb.
  - intros Hd Hsent Hread. destruct ticks as [|t ticks]; [done|].
    apply StartLoop_cons in E as (p1 & out & os' & Et & E & ->). apply Forall_cons in Ht as [Ht Hts]. apply Forall_cons in Hsent as [Hout Hsent].
    apply Forall_cons in Hread as [[v Ev] Hread]. cbn [omap list_omap] in Ef. rewrite Ev in Ef. injection Ef as -> Ef.
    destruct (on_tick_counter o n id p t p1 out Hid Hc Ht Et) as (Hc1 & Hd1 & [(_ & _ & Hno)|(v' & Ev' & Hv & _ & Hnext & Hdelta)]).
    { specialize (Hno Hout Hd). congruence. }
    assert (v' = f) as -> by congruence. cbn [total_sent foldr]. fold (total_sent id n os'). rewrite Hdelta, Hk. cbn [diff].
    rewrite <-Ef in *. by rewrite (loop_exact ticks p1 p' os' f Hc1 (Hd1 Hd) Hts E Hsent Hread Hs Hnext Hv).
Qed.
End loop_totals.

(** ** Examples *)

Definition ex_gosnmp : Gosnmp := {| ToBigInt v := match v with VNum _ _ z => z | _ => 0 end |}.
Definition ex_answers (walk : string → list SnmpPDU + error) : device_answers :=
  mkAnswers None false (λ _, inl []) walk (λ _ _, inl []) false (λ _, None).
Definition ex_env (walk : string → list SnmpPDU + error) : poll_env :=
  mkEnv (λ _, 0) (λ _, 1700000000) (ex_answers walk) map_to_list (λ m, Permutation_refl _) map_to_list (λ m, Permutation_refl _).
Definition ex_row (o id : string) (z : Z) : SnmpPDU := mkPDU (String.append o (String.append "." id)) Counter64 (VNum 64 false z).
Definition ex_counter_mib (oid name : string) : Mib :=
  mkMib oid name Counter "" "" None None "" "IF-MIB" "if" 0 None 0 false None "" false None None None false "".
Definition ex_conf : device_conf := mkConf "kentik-switch" "sw1" "10.0.0.1" "".
Definition ex_im (mibs : list (string * string)) : InterfaceMetrics :=
  let m := list_to_map ((λ kv, (kv.1, ex_counter_mib kv.1 kv.2)) <$> mibs) in
  NewInterfaceMetrics ex_conf m None 60 (map_to_list m) map_to_list.
Definition octets_oid : string := "1.3.6.1.2.1.31.1.1.1.6".
Definition octets_im : InterfaceMetrics := ex_im [(octets_oid, "ifHCInOctets")].
Definition octets_key : string := String.append "." octets_oid.
Definition octets_walk (z : Z) : string → list SnmpPDU + error := λ o, if String.eqb o octets_key then inl [ex_row o "7" z] else inr (Errorf "timeout" []).
Definition ex_tick (sched start stop z : Z) : tick :=
  mkTick (sched * 1000000000) (start * 1000000000) (stop * 1000000000) (ex_env (octets_walk z)) [].
Definition ex_poller : Poller := mkPoller octets_im SNMP_GOOD 60 true.

Lemma octets_maps : oidMap octets_im = {[octets_key := "ifHCInOctets"]} ∧ nameOidMap octets_im = {["ifHCInOctets" := octets_key]} ∧
  oidMibMap octets_im = {[octets_oid := ex_counter_mib octets_oid "ifHCInOctets"]}.
Proof. split; [|split]; vm_compute; reflexivity. Qed.
Lemma octets_wf : wf_im octets_im.
Proof.
  destruct octets_maps as (E1 & E2 & _). split.
  - intros o n. rewrite E1. intros [<- <-]%lookup_singleton_Some. reflexivity.
  - intros o1 n1 o2 n2. rewrite E1. intros [<- <-]%lookup_singleton_Some [<- <-]%lookup_singleton_Some []. reflexivity.
  - intros o n. rewrite E1, E2, !lookup_singleton_Some. split; intros [<- <-]; split; reflexivity.
  - intros o n. rewrite E1. intros [<- <-]%lookup_singleton_Some. reflexivity.
Qed.
Lemma octets_counter : counter_object octets_key "ifHCInOctets" octets_im.
Proof.
  split; [apply octets_wf|by vm_compute|]. destruct octets_maps as (_ & _ & ->). by intros mib [_ <-]%lookup_singleton_Some.
Qed.
Lemma octets_results z results : WalkOID (env_device (ex_env (octets_walk z))) octets_key = inl results → results = [ex_row octets_key "7" z].
Proof. by intros [= <-]. Qed.
Lemma octets_single z : single_rows (WalkOID (env_device (ex_env (octets_walk z)))) octets_key "7".
Proof. intros results ->%octets_results. rewrite filter_cons. case_decide; cbn; lia. Qed.
Lemma octets_tick sched start stop z : counter_tick octets_key "7" (ex_tick sched start stop z).
Proof. split; [apply octets_single|]. intros results v ->%octets_results Hv. by apply list_elem_of_singleton in Hv as ->. Qed.

(** The first poll of a counter has no difference, the second one has it. *)
Lemma Poll_reports_witness :
  ∃ im' deltas flows, Poll (H := ex_gosnmp) (ex_env (octets_walk 500)) octets_im [] = Ok (im', inl (deltas, flows)) ∧
    delta_at deltas "7" "ifHCInOctets" = Some 0 ∧ value_at (intValues im') "7" "ifHCInOctets" = Some 500.
Proof.
  assert (∃ im' deltas flows, Poll (H := ex_gosnmp) (ex_env (octets_walk 500)) octets_im [] = Ok (im', inl (deltas, flows))) as (im' & deltas & flows & E)
    by (eexists _, _, _; vm_compute; reflexivity).
  exists im', deltas, flows. split; [exact E|].
  destruct (Poll_reports (H := ex_gosnmp) (ex_env (octets_walk 500)) octets_im [] im' deltas flows octets_key "ifHCInOctets" "7" octets_wf E) as (Hd & _ & Hv).
  - vm_compute. reflexivity.
  - done.
  - apply octets_single.
  - rewrite Hd, Hv. split; vm_compute; reflexivity.
Defined.
Lemma Poll_flows_witness : wf_im octets_im ∧
  ∃ im' deltas flows, Poll (H := ex_gosnmp) (ex_env (octets_walk 500)) octets_im [] = Ok (im', inl (deltas, flows)) ∧
    Forall2 flow_of (filter (λ kv, kv.1 ≠ AllDeviceInterface) (map_to_list deltas)) flows.
Proof.
  split; [apply octets_wf|].
  assert (∃ im' deltas flows, Poll (H := ex_gosnmp) (ex_env (octets_walk 500)) octets_im [] = Ok (im', inl (deltas, flows))) as (im' & deltas & flows & E)
    by (eexists _, _, _; vm_compute; reflexivity).
  exists im', deltas, flows. split; [exact E|].
  destruct (Poll_flows (H := ex_gosnmp) (ex_env (octets_walk 500)) octets_im [] octets_wf) as (im2 & r & E2 & _ & Hr).
  rewrite E in E2. injection E2 as <- <-. exact Hr.
Defined.

Definition ex_ticks : list tick := [ex_tick 120 120 125 100; ex_tick 180 180 185 150; ex_tick 240 301 302 200; ex_tick 300 302 310 220; ex_tick 360 360 365 300].
Lemma loop_never_over_reports_witness :
  ∃ p' os, StartLoop (H := ex_gosnmp) ex_poller ex_ticks = Ok (p', os) ∧ total_sent "7" "ifHCInOctets" os ≤ 300 - 100.
Proof.
  assert (∃ p' os, StartLoop (H := ex_gosnmp) ex_poller ex_ticks = Ok (p', os)) as (p' & os & E) by (eexists _, _; vm_compute; reflexivity).
  exists p', os. split; [exact E|].
  destruct (loop_never_over_reports (H := ex_gosnmp) octets_key "ifHCInOctets" "7" ltac:(done) ex_ticks ex_poller p' os 100 [150; 200; 220; 300]
    octets_counter) as [Hle _].
  - vm_compute. reflexivity.
  - repeat (constructor; [apply octets_tick|]). constructor.
  - exact E.
  - vm_compute. reflexivity.
  - repeat constructor; lia.
  - exact Hle.
Defined.

(** The skipped tick costs the growth up to the next one. *)
Example ex_ticks_sent : (λ r, (total_sent "7" "ifHCInOctets" r.2, (λ o, sent_delta "7" "ifHCInOctets" o) <$> r.2)) <$>
  (match StartLoop (H := ex_gosnmp) ex_poller ex_ticks with Ok r => Some r | _ => None end) = Some (130, [0; 50; 0; 0; 80]).
Proof. by vm_compute. Qed.

(** A metric whose own name ends in _counter makes the poll panic. *)
Example counter_suffix_panics :
  Poll (H := ex_gosnmp) (ex_env (octets_walk 500)) (ex_im [(octets_oid, "drop_counter")]) [] = Panic "slice bounds out of range".
Proof. by vm_compute. Qed.

(** Two objects that share a name share its value: neither changes, and yet a difference
    is reported. *)
Definition two_walk : string → list SnmpPDU + error :=
  λ o, if String.eqb o ".1.3.1" then inl [ex_row o "7" 100] else if String.eqb o ".1.3.2" then inl [ex_row o "7" 5000] else inr (Errorf "timeout" []).
Example shared_name :
  (λ o, sent_delta "7" "ifErrors" o) <$>
  match StartLoop (H := ex_gosnmp) (mkPoller (ex_im [("1.3.1", "ifErrors"); ("1.3.2", "ifErrors")]) SNMP_GOOD 60 true)
    [mkTick 120000000000 120000000000 120000000000 (ex_env two_walk) []; mkTick 180000000000 180000000000 180000000000 (ex_env two_walk) []]
  with Ok (_, os) => os | _ => [] end = [4900; 4900].
Proof. by vm_compute. Qed.
