(* ===== verification/SnmpConv.v ===== *)
(** Conversions of SNMP values (src/pkg/inputs/snmp/util/util.go and
    util/vendor/powerset.go): from the bytes of an answer to a number, a text, or a map
    of texts.

    Bytes of text are byte strings. Regular expressions are compiled and matched by an
    oracle; the cache of compiled ones is a state that is passed along. *)
From S2P Require Import Prelude GoStrings GoNet Jchf.
From S2P Require Import SnmpCounters.
Local Open Scope Z_scope.

(** What a conversion gives: a number, a text, a map. *)
Abbreviation conversion := (Z * string * gomap string)%type.
Definition text_only (s : string) : conversion := (0, s, None).

(** ** Power supplies (powerset.go) *)

Record UpsCode := mkUps { Severity : Z; Index : nat; Dependancy : nat; Ups_Status : string }.
Definition severities : list string := ["Informational"; "Warning"; "High"; "Disaster"].
Definition upsCodes : list UpsCode := [
  mkUps 2 0 0 "Abnormal Condition Present";
  mkUps 3 1 28 "On Battery";
  mkUps 3 2 0 "Low Battery";
  mkUps 1 3 0 "On Line";
  mkUps 3 4 0 "Replace Battery";
  mkUps 1 5 0 "Serial Communication Established";
  mkUps 1 6 0 "AVR Boost Active";
  mkUps 1 7 0 "AVR Trim Active";
  mkUps 3 8 28 "Overload";
  mkUps 1 9 0 "Runtime Calibration ";
  mkUps 3 10 28 "Batteries Discharged";
  mkUps 2 11 0 "Manual Bypass";
  mkUps 2 12 0 "Software Bypass";
  mkUps 3 13 0 "In Bypass due to Internal Fault";
  mkUps 3 14 0 "In Bypass due to Supply Failure";
  mkUps 3 15 0 "In Bypass due to Fan Failure";
  mkUps 1 16 0 "Sleeping on a Timer";
  mkUps 2 17 0 "Sleeping until Utility Power Returns";
  mkUps 1 18 0 "Powered On";
  mkUps 2 19 0 "Rebooting";
  mkUps 2 20 0 "Battery Communication Lost";
  mkUps 1 21 0 "Graceful Shutdown Initiated";
  mkUps 1 22 0 "Smart Boost or Smart Trim Fault";
  mkUps 3 23 28 "Bad Output Voltage";
  mkUps 3 24 0 "Battery Charger Failure";
  mkUps 2 25 28 "High Battery Temperature";
  mkUps 3 26 0 "Warning Battery Temperature";
  mkUps 4 27 0 "Critical Battery Temperature";
  mkUps 2 28 0 "Self Test In Progress";
  mkUps 3 29 28 "Low Battery / On Battery";
  mkUps 1 30 0 "Graceful Shutdown Issued by Upstream Device";
  mkUps 1 31 0 "Graceful Shutdown Issued by Downstream Device";
  mkUps 4 32 0 "No Batteries Attached";
  mkUps 1 33 0 "Synchronized Command is in Progress";
  mkUps 1 34 0 "Synchronized Sleeping Command is in Progress";
  mkUps 1 35 0 "Synchronized Rebooting Command is in Progress ";
  mkUps 2 36 0 "Inverter DC Imbalance ";
  mkUps 3 37 0 "Transfer Relay Failure";
  mkUps 3 38 0 "Shutdown or Unable to Transfer";
  mkUps 3 39 0 "Low Battery Shutdown";
  mkUps 3 40 0 "Electronic Unit Fan Failure";
  mkUps 3 41 0 "Main Relay Failure";
  mkUps 3 42 0 "Bypass Relay Failure";
  mkUps 2 43 0 "Temporary Bypass";
  mkUps 3 44 0 "High Internal Temperature";
  mkUps 3 45 0 "Battery Temperature Sensor Fault";
  mkUps 2 46 0 "Input Out of Range for Bypass";
  mkUps 3 47 0 "DC Bus Overvoltage";
  mkUps 2 48 0 "PFC Failure";
  mkUps 3 49 0 "Critical Hardware Fault";
  mkUps 1 50 0 "Green Mode/ECO Mode";
  mkUps 1 51 0 "Hot Standby";
  mkUps 3 52 0 "Emergency Power Off (EPO) Activated";
  mkUps 2 53 0 "Load Alarm Violation";
  mkUps 3 54 0 "Bypass Phase Fault";
  mkUps 2 55 0 "UPS Internal Communication Failure";
  mkUps 1 56 0 "Efficiency Booster Mode";
  mkUps 2 57 0 "Off";
  mkUps 2 58 0 "Standby";
  mkUps 1 59 0 "Not Used";
  mkUps 1 60 0 "Not Used";
  mkUps 1 61 0 "Not Used";
  mkUps 1 62 0 "Not Used";
  mkUps 1 63 0 "Not Used"].

(** The first loop: the codes that are set; a byte beyond the table panics. *)
Fixpoint set_actives (i : nat) (bv : list byte) (actives : list (option UpsCode)) : res (list (option UpsCode)) :=
  match bv with
  | [] => Ok actives
  | v :: bv =>
      if b2z v =? 49 then
        if (i <? length upsCodes)%nat then set_actives (S i) bv (<[i := upsCodes !! i]> actives) else Panic "index out of range"
      else set_actives (S i) bv actives
  end.
(** Whether an active code counts: one that another depends on hides it. *)
Definition counts (actives : list (option UpsCode)) (c : UpsCode) : bool :=
  if (0 <? Dependancy c)%nat then negb (bool_decide (is_Some (mjoin (actives !! Dependancy c)))) else true.
Definition statuses (actives : list (option UpsCode)) (i : Z) : list string :=
  omap (λ a, match a with Some c => if counts actives c && (Severity c =? i) then Some (Ups_Status c) else None | None => None end) actives.
(** The last loop, down from the highest severity. *)
Fixpoint highest (actives : list (option UpsCode)) (i : nat) : conversion :=
  match i with
  | O => (0, "", None)
  | S n =>
      match statuses actives (Z.of_nat i) with
      | [] => highest actives n
      | l => (Z.of_nat i, String.append (default "" (severities !! n)) (String.append ": " (Join l ",")), None)
      end
  end.
Definition HandlePowersetStatus (bv : list byte) : res conversion :=
  actives ← set_actives 0 bv (replicate (length upsCodes) None);
  Ok (highest actives (length severities)).

(** ** Numbers and addresses *)

(** [binary.BigEndian] and [binary.LittleEndian]: the first [n] bytes; fewer panic. *)
Definition BigEndian (n : nat) (bv : list byte) : res Z :=
  if (n <=? length bv)%nat then Ok (be_decode (take n bv)) else Panic "index out of range".
Definition LittleEndian (n : nat) (bv : list byte) : res Z :=
  if (n <=? length bv)%nat then Ok (be_decode (rev (take n bv))) else Panic "index out of range".
Definition int_bytes (bit : string) : option nat :=
  if String.eqb bit "uint64" then Some 8%nat else if String.eqb bit "uint32" then Some 4%nat else if String.eqb bit "uint16" then Some 2%nat else None.

Definition dots (l : list Z) : string := Join (Itoa <$> l) ".".
Definition hexToIP (bv : list byte) : res conversion :=
  match bv with
  | [_;_;_;_;_;_;_;_;_;_;_;_;_;_;_;_] => Ok (text_only (IP_String bv))
  | [a;b;c;d;e;f;g;h] => Ok (text_only (dots [be_decode [a;b]; be_decode [c;d]; be_decode [e;f]; be_decode [g;h]]))
  | [a;b;c;d] => Ok (text_only (dots [be_decode [Byte.x00;a]; be_decode [Byte.x00;b]; be_decode [Byte.x00;c]; be_decode [Byte.x00;d]]))
  | _ => Ok (text_only "")
  end.

(** [EngineID]: the bytes are written in hexadecimal at the end of a buffer of three
    times their number, then copied to its front in pairs with a colon after each. *)
Definition hex_encode (bv : list byte) : list byte := String.list_byte_of_string (hex_bytes bv).
Fixpoint write_at (buf : list byte) (i : nat) (bs : list byte) : list byte :=
  match bs with [] => buf | b :: bs => write_at (<[i := b]> buf) (S i) bs end.
Fixpoint copy_pairs (n : nat) (rounds : nat) (i : nat) (buf : list byte) : list byte :=
  match rounds with
  | O => buf
  | S rounds =>
      let x0 := default Byte.x00 (buf !! (n + 2 * i)%nat) in
      let x1 := default Byte.x00 (buf !! (n + 2 * i + 1)%nat) in
      copy_pairs n rounds (S i) (write_at buf (3 * i) [x0; x1; Byte.x3a])
  end.
Definition EngineID (bv : list byte) : res conversion :=
  let n := length bv in
  let buf := write_at (replicate (3 * n) Byte.x00) n (hex_encode bv) in
  let buf := copy_pairs n n 0 buf in
  if (n =? 0)%nat then Panic "slice bounds out of range" else Ok (text_only (String.string_of_list_byte (take (3 * n - 1) buf))).

Definition toOne (bv : list byte) : res conversion := Ok (1, String.string_of_list_byte bv, None).
Definition byte_text (b : byte) : string := Itoa (b2z b).
Definition hexToDateTime (bv : list byte) : res conversion :=
  let base y1 y2 mo d h mi s ds :=
    String.append (Join [Itoa (be_decode [y1; y2]); byte_text mo; byte_text d] "-")
      (String.append "," (String.append (Join [byte_text h; byte_text mi; byte_text s] ":") (String.append "." (byte_text ds)))) in
  match bv with
  | [y1; y2; mo; d; h; mi; s; ds] => Ok (text_only (base y1 y2 mo d h mi s ds))
  | [y1; y2; mo; d; h; mi; s; ds; dir; hrs; min] =>
      Ok (text_only (String.append (base y1 y2 mo d h mi s ds) (String.append ","
        (String.append (String.string_of_list_byte [dir]) (Join [byte_text hrs; byte_text min] ":")))))
  | _ => Ok (text_only "")
  end.

(** ** Regular expressions *)

Class Submatcher := {
  re_Compile : string → Regexp + string;
  SubexpNames : Regexp → list string;
  FindSubmatch : Regexp → list byte → option (list (list byte)) }.

Section conv.
Context `{Submatcher}.

Abbreviation cache := (gmap string Regexp).
Definition cached (reg : string) (reCache : cache) : (Regexp + string) * cache :=
  match reCache !! reg with
  | Some r => (inl r, reCache)
  | None => match re_Compile reg with inl r => (inl r, <[reg := r]> reCache) | inr e => (inr e, reCache) end
  end.
(** The loop over the matches, the whole one left out; [i] counts them. *)
Fixpoint first_unnamed (named : list string) (i : nat) (found : list (list byte)) (matches : gmap string string) : res conversion :=
  match found with
  | [] => Ok (0, "", Some matches)
  | m :: found =>
      name ← slice_get named i;
      let text := String.string_of_list_byte m in
      if negb (String.eqb name "") then first_unnamed named (S i) found (<[name := text]> matches)
      else match Atoi text with Some ival => Ok (ival, text, None) | None => Ok (0, text, None) end
  end.
Definition fromRegexp (bv : list byte) (reg : string) (reCache : cache) : res (conversion * cache) :=
  let '(r, reCache) := cached reg reCache in
  match r with
  | inr e => Ok (text_only e, reCache)
  | inl r =>
      match FindSubmatch r bv with
      | Some (_ :: ((_ :: _) as groups)) => c ← first_unnamed (SubexpNames r) 1 groups ∅; Ok (c, reCache)
      | _ => Ok (text_only "", reCache)
      end
  end.

(** ** [GetFromConv] *)

Definition no_cache (reCache : cache) (c : res conversion) : res (conversion * cache) := c ← c; Ok (c, reCache).
Definition convert (bv : list byte) (conv : string) (reCache : cache) : res (conversion * cache) :=
  if String.eqb conv "hwaddr" then Ok (text_only (HardwareAddr_String bv), reCache)
  else if String.eqb conv "powerset_status" then no_cache reCache (HandlePowersetStatus bv)
  else if String.eqb conv "hextoip" then no_cache reCache (hexToIP bv)
  else if String.eqb conv "engine_id" then no_cache reCache (EngineID bv)
  else if String.eqb conv "to_one" then no_cache reCache (toOne bv)
  else if String.eqb conv "hextodatetime" then no_cache reCache (hexToDateTime bv)
  else
    match Split conv ":" with
    | [k; endian; bit] =>
        if String.eqb k "hextoint" then
          match (if String.eqb endian "LittleEndian" then Some LittleEndian else if String.eqb endian "BigEndian" then Some BigEndian else None), int_bytes bit with
          | Some read, Some n => z ← read n bv; Ok (text_only (Itoa z), reCache)
          | _, _ => Ok (text_only "", reCache)
          end
        else if String.eqb k "regexp" then fromRegexp bv (Join [endian; bit] ":") reCache
        else Ok (text_only (String.string_of_list_byte bv), reCache)
    | k :: ((_ :: _) as rest) =>
        if String.eqb k "regexp" then fromRegexp bv (Join rest ":") reCache
        else Ok (text_only (String.string_of_list_byte bv), reCache)
    | _ => Ok (text_only (String.string_of_list_byte bv), reCache)
    end.
(** A panic is recovered and the results are the zero values. *)
Definition GetFromConv (value : snmp_value) (conv : string) (reCache : cache) : conversion * cache :=
  match value with
  | VBytes (b :: bv) => match convert (b :: bv) conv reCache with Ok r => r | _ => (text_only "", reCache) end
  | _ => (text_only "", reCache)
  end.
End conv.

(** ** Laws *)

Lemma list_byte_append a b : String.list_byte_of_string (String.append a b) = String.list_byte_of_string a ++ String.list_byte_of_string b.
Proof. induction a as [|c a IH]; [done|]. rewrite append_cons. unfold String.list_byte_of_string in *. cbn. by rewrite <-IH. Qed.

(** The two digits of a byte. *)
Definition pair_of (b : byte) : list byte := String.list_byte_of_string (hex_byte b).
Lemma pair_of_two b : ∃ x y, pair_of b = [x; y].
Proof. unfold pair_of, hex_byte. by eexists _, _. Qed.
Lemma hex_encode_pairs bv : hex_encode bv = concat (pair_of <$> bv).
Proof.
  unfold hex_encode, hex_bytes. induction bv as [|b bv IH]; [done|]. cbn [fmap list_fmap foldr concat]. rewrite list_byte_append.
  unfold pair_of at 1. by rewrite <-IH.
Qed.
Lemma length_pairs bv : length (concat (pair_of <$> bv)) = (2 * length bv)%nat.
Proof. induction bv as [|b bv IH]; [done|]. cbn [fmap list_fmap concat length]. rewrite length_app, IH. destruct (pair_of_two b) as (x & y & ->). cbn. lia. Qed.
Lemma pairs_at bv i b : bv !! i = Some b → ∃ x y, pair_of b = [x; y] ∧
  concat (pair_of <$> bv) !! (2 * i)%nat = Some x ∧ concat (pair_of <$> bv) !! (2 * i + 1)%nat = Some y.
Proof.
  revert i. induction bv as [|b' bv IH]; intros i E; [done|]. cbn [fmap list_fmap concat]. destruct (pair_of_two b') as (x' & y' & E').
  destruct i as [|i]; cbn in E.
  - injection E as ->. exists x', y'. by rewrite E'.
  - destruct (IH i E) as (x & y & Ep & Ex & Ey). exists x, y. split; [done|]. rewrite E'.
    replace (2 * S i)%nat with (S (S (2 * i)))%nat by lia. replace (S (S (2 * i)) + 1)%nat with (S (S (2 * i + 1)))%nat by lia. done.
Qed.

(** Writing in place. *)
Lemma length_write_at buf i bs : length (write_at buf i bs) = length buf.
Proof. revert buf i. induction bs as [|b bs IH]; intros buf i; cbn [write_at]; [done|]. by rewrite IH, length_insert. Qed.
Lemma write_at_split bs A M R : length M = length bs → write_at (A ++ M ++ R) (length A) bs = A ++ bs ++ R.
Proof.
  revert A M. induction bs as [|b bs IH]; intros A M E; [by destruct M|]. destruct M as [|m M]; [done|]. cbn [write_at app].
  replace (length A) with (length A + 0)%nat at 1 by lia. rewrite insert_app_r. cbn.
  change (A ++ b :: M ++ R) with (A ++ [b] ++ M ++ R). rewrite (assoc_L (++) A). replace (S (length A)) with (length (A ++ [b])) by (rewrite length_app; cbn; lia).
  rewrite IH by (cbn in E; lia). by rewrite <-(assoc_L (++)).
Qed.

(** After [i] rounds the front of the buffer is what is meant, and the digits still to be
    read are in place. *)
Definition with_colons (bv : list byte) : list byte := concat ((λ b, pair_of b ++ [Byte.x3a]) <$> bv).
Lemma length_colons bv : length (with_colons bv) = (3 * length bv)%nat.
Proof.
  unfold with_colons. induction bv as [|b bv IH]; [done|]. cbn [fmap list_fmap concat length]. rewrite length_app, IH, length_app.
  destruct (pair_of_two b) as (x & y & ->). cbn. lia.
Qed.
Lemma copy_pairs_ok done_ rest rounds buf : rounds = length rest →
  let n := (length done_ + length rest)%nat in
  (∃ M, buf = with_colons done_ ++ M ++ concat (pair_of <$> rest) ∧ (length M = length rest)%nat) →
  copy_pairs n rounds (length done_) buf = with_colons (done_ ++ rest).
Proof.
  intros ->. cbv zeta. revert done_ buf. induction rest as [|b rest IH]; intros done_ buf (M & -> & HM).
  - destruct M; [|done]. cbn. by rewrite !app_nil_r.
  - cbn [copy_pairs length]. set (buf := _ ++ _ ++ _). destruct (pair_of_two b) as (x & y & Exy).
    assert (buf = (with_colons done_ ++ M) ++ x :: y :: concat (pair_of <$> rest)) as Ebuf.
    { unfold buf. cbn [fmap list_fmap concat]. by rewrite Exy, (assoc_L (++)). }
    assert (length (with_colons done_ ++ M) = (length done_ + S (length rest) + 2 * length done_)%nat) as Elen.
    { rewrite length_app, length_colons, HM. cbn [length]. lia. }
    assert (buf !! (length done_ + S (length rest) + 2 * length done_)%nat = Some x) as -> by (rewrite Ebuf, <-Elen; by apply list_lookup_middle).
    assert (buf !! (length done_ + S (length rest) + 2 * length done_ + 1)%nat = Some y) as ->.
    { rewrite Ebuf, <-Elen. rewrite lookup_app_r by lia. replace (_ + 1 - _)%nat with 1%nat by lia. done. }
    cbn [from_option id]. destruct M as [|m0 M]; [done|].
    assert (∃ M1 M2, (m0 :: M) ++ x :: y :: concat (pair_of <$> rest) = M1 ++ M2 ++ concat (pair_of <$> rest) ∧ length M1 = 3%nat ∧ length M2 = length rest) as (M1 & M2 & EM & HM1 & HM2).
    { exists (take 3 ((m0 :: M) ++ [x; y])), (drop 3 ((m0 :: M) ++ [x; y])). rewrite (assoc_L (++)), take_drop. split; [by rewrite <-(assoc_L (++))|].
      rewrite length_take, length_drop, length_app. cbn [length] in *. lia. }
    replace (3 * length done_)%nat with (length (with_colons done_)) by apply length_colons.
    assert (buf = with_colons done_ ++ M1 ++ M2 ++ concat (pair_of <$> rest)) as -> by (rewrite Ebuf, <-(assoc_L (++)); by rewrite EM).
    rewrite write_at_split by done.
    replace (S (length done_)) with (length (done_ ++ [b])) by (rewrite length_app; cbn; lia).
    replace (length done_ + S (length rest))%nat with (length (done_ ++ [b]) + length rest)%nat by (rewrite length_app; cbn; lia).
    rewrite IH; [by rewrite <-(assoc_L (++))|]. exists M2. split; [|done]. unfold with_colons. rewrite fmap_app, concat_app. cbn [fmap list_fmap concat].
    by rewrite Exy, app_nil_r, <-!(assoc_L (++)).
Qed.
Lemma colons_join bv : bv ≠ [] → take (3 * length bv - 1) (with_colons bv) = String.list_byte_of_string (Join (hex_byte <$> bv) ":").
Proof.
  induction bv as [|b bv IH]; intros Hne; [done|]. unfold with_colons in *. destruct bv as [|b' bv].
  - cbn [fmap list_fmap concat length Join]. destruct (pair_of_two b) as (x & y & E). fold (pair_of b). by rewrite E.
  - specialize (IH ltac:(done)). cbn [fmap list_fmap] in *. rewrite Join_cons, !list_byte_append, <-IH. fold (pair_of b).
    rewrite List.concat_cons. destruct (pair_of_two b) as (x & y & ->). cbn [length app].
    replace (3 * S (S (length bv)) - 1)%nat with (S (S (S (3 * S (length bv) - 1)))) by lia. done.
Qed.

(** The text of an engine id is that of the bytes in pairs of hexadecimal digits with
    colons between them, although it is put together in place, over the digits it is made
    from. *)
Theorem EngineID_text bv : EngineID bv = if (length bv =? 0)%nat then Panic "slice bounds out of range" else Ok (text_only (HardwareAddr_String bv)).
Proof.
  unfold EngineID. destruct (Nat.eqb_spec (length bv) 0) as [|Hne]; [done|]. do 2 f_equal. unfold HardwareAddr_String.
  assert (write_at (replicate (3 * length bv) Byte.x00) (length bv) (hex_encode bv) = replicate (length bv) Byte.x00 ++ concat (pair_of <$> bv)) as ->.
  { rewrite hex_encode_pairs. replace (3 * length bv)%nat with (length bv + 2 * length bv)%nat by lia. rewrite replicate_add.
    replace (length bv) with (length (replicate (length bv) Byte.x00)) at 3 by apply length_replicate.
    rewrite <-(app_nil_r (replicate (2 * length bv) Byte.x00)), write_at_split; [by rewrite app_nil_r|]. by rewrite length_replicate, length_pairs. }
  rewrite (copy_pairs_ok [] bv (length bv) _ eq_refl).
  - cbn [app]. rewrite colons_join by by destruct bv. by rewrite String.string_of_list_byte_of_string.
  - exists (replicate (length bv) Byte.x00). split; [done|]. by rewrite length_replicate.
Qed.

Section conv_laws.
Context `{Submatcher}.

Definition endian_name (little : bool) : string := if little then "LittleEndian" else "BigEndian".
Definition int_conv (little : bool) (bit : string) : string := Join ["hextoint"; endian_name little; bit] ":".
Lemma int_conv_split little bit n : int_bytes bit = Some n → Split (int_conv little bit) ":" = ["hextoint"; endian_name little; bit].
Proof.
  intros Hb. apply Split_Join_char; [done|]. constructor; [done|]. constructor; [by destruct little|]. constructor; [|done].
  unfold int_bytes in Hb. destruct (String.eqb_spec bit "uint64") as [->|]; [done|]. destruct (String.eqb_spec bit "uint32") as [->|]; [done|].
  by destruct (String.eqb_spec bit "uint16") as [->|].
Qed.
Lemma int_convert little bit n bv c : int_bytes bit = Some n →
  convert bv (int_conv little bit) c = (z ← (if little then LittleEndian else BigEndian) n bv; Ok (text_only (Itoa z), c)).
Proof.
  intros Hb. pose proof (int_conv_split little bit n Hb) as Hs.
  assert (∀ s, Split s ":" = [s] → String.eqb (int_conv little bit) s = false) as Hne.
  { intros s E. apply String.eqb_neq. intros E'. rewrite <-E', Hs in E. done. }
  unfold convert. rewrite !Hne by done. rewrite Hs. rewrite String.eqb_refl. unfold endian_name. destruct little.
  - by rewrite String.eqb_refl, Hb.
  - change (String.eqb "BigEndian" "LittleEndian") with false. by rewrite String.eqb_refl, Hb.
Qed.

(** A number sent as bytes of either order comes out of the conversion as its
    decimal digits, whatever follows it; a value with too few bytes gives no text. *)
Theorem hextoint_roundtrip (little : bool) bit n x rest c : int_bytes bit = Some n → 0 ≤ x < 256 ^ Z.of_nat n →
  GetFromConv (VBytes ((if little then rev (be_encode n x) else be_encode n x) ++ rest)) (int_conv little bit) c = (text_only (Itoa x), c) ∧
  ∀ bv, (length bv < n)%nat → GetFromConv (VBytes bv) (int_conv little bit) c = (text_only "", c).
Proof.
  intros Hb Hx. assert (0 < n)%nat as Hn.
  { unfold int_bytes in Hb. repeat (destruct (String.eqb _ _); [injection Hb as <-; lia|]). done. }
  set (enc := if little then rev (be_encode n x) else be_encode n x).
  assert (length enc = n) as Hlen by (unfold enc; destruct little; rewrite ?length_rev; apply length_be_encode).
  split.
  - unfold GetFromConv. destruct (enc ++ rest) as [|b bv] eqn:E; [apply (f_equal length) in E; rewrite length_app in E; cbn in E; lia|].
    rewrite <-E, (int_convert little bit n) by done.
    assert ((n <=? length (enc ++ rest))%nat = true ∧ take n (enc ++ rest) = enc) as [Hle Htake].
    { split; [apply Nat.leb_le; rewrite length_app; lia|]. by rewrite <-Hlen, take_app_length. }
    destruct little; unfold LittleEndian, BigEndian; rewrite Hle, Htake; unfold enc; cbn [mbind res_bind];
      rewrite ?rev_involutive, be_decode_encode, Z.mod_small by done; done.
  - intros bv Hlt. unfold GetFromConv. destruct bv as [|b bv]; [done|]. rewrite (int_convert little bit n) by done. destruct little; unfold LittleEndian, BigEndian;
      by rewrite (proj2 (Nat.leb_gt n (length (b :: bv)))) by done.
Qed.

(** The cache holds nothing but what the compiler gives. *)
Definition coherent (c : gmap string Regexp) : Prop := ∀ k r, c !! k = Some r → re_Compile k = inl r.
Lemma cached_coherent reg c : coherent c → (cached reg c).1 = re_Compile reg ∧ coherent (cached reg c).2.
Proof.
  intros Hc. unfold cached. destruct (c !! reg) as [r|] eqn:E; [by rewrite (Hc _ _ E)|]. destruct (re_Compile reg) as [r|e] eqn:Er; [|done].
  split; [done|]. intros k r' Hk. cbn [snd] in Hk. destruct (decide (reg = k)) as [<-|Hne]; [rewrite lookup_insert_eq in Hk; congruence|].
  rewrite lookup_insert_ne in Hk by done. by apply Hc.
Qed.
Lemma fromRegexp_cache bv reg c : coherent c →
  match fromRegexp bv reg c, fromRegexp bv reg ∅ with
  | Ok (v, c1), Ok (v', _) => v = v' ∧ coherent c1
  | Panic s, Panic s' => s = s'
  | _, _ => False
  end.
Proof.
  intros Hc. assert (coherent ∅) as H0 by (intros k r E; by rewrite lookup_empty in E).
  unfold fromRegexp. destruct (cached_coherent reg c Hc) as [E1 Hc1], (cached_coherent reg ∅ H0) as [E0 _].
  destruct (cached reg c) as [r1 c1], (cached reg ∅) as [r0 c0]. cbn [fst snd] in *. subst r1 r0. destruct (re_Compile reg) as [r|e]; [|done].
  destruct (FindSubmatch r bv) as [[|m [|m' found]]|]; try done.
  assert (∀ named i l ms, match first_unnamed named i l ms with Ok _ | Panic _ => True | _ => False end) as Hend.
  { intros named i l. revert i. induction l as [|x l IH]; intros i ms; [done|]. cbn [first_unnamed]. unfold slice_get.
    destruct (named !! i) as [name|]; [|done]. cbn [mbind res_bind]. destruct (negb _); [apply IH|]. by destruct (Atoi _). }
  specialize (Hend (SubexpNames r) 1%nat (m' :: found) ∅). by destruct (first_unnamed _ _ _ _).
Qed.

(** A conversion does not depend on what was converted before: the cache of compiled
    expressions changes no result, and stays coherent. *)
Theorem GetFromConv_cache v conv c : coherent c → (GetFromConv v conv c).1 = (GetFromConv v conv ∅).1 ∧ coherent (GetFromConv v conv c).2.
Proof.
  intros Hc. unfold GetFromConv. destruct v as [| [|b bv]| | |]; try done.
  assert (match convert (b :: bv) conv c, convert (b :: bv) conv ∅ with
    | Ok (v, c1), Ok (v', _) => v = v' ∧ coherent c1 | Panic s, Panic s' => s = s' | Err _, Err _ => True | OutOfFuel, OutOfFuel => True | _, _ => False end) as Hconv.
  { unfold convert, no_cache. repeat (destruct (String.eqb conv _); [try done; match goal with |- context [mbind _ ?x] => by destruct x as [?| | |] end|]).
    pose proof (λ reg, fromRegexp_cache (b :: bv) reg c Hc) as Hr.
    destruct (Split conv ":") as [|k [|endian [|bit [|x rest]]]]; try done.
    - destruct (String.eqb k "regexp"); [|done]. specialize (Hr (Join [endian] ":")).
      by destruct (fromRegexp (b :: bv) _ c) as [[? ?]| | |], (fromRegexp (b :: bv) _ ∅) as [[? ?]| | |].
    - destruct (String.eqb k "hextoint").
      + destruct (if String.eqb endian _ then _ else _) as [rd|], (int_bytes bit) as [n|]; try done. by destruct (rd n (b :: bv)).
      + destruct (String.eqb k "regexp"); [|done]. specialize (Hr (Join [endian; bit] ":")).
        by destruct (fromRegexp (b :: bv) _ c) as [[? ?]| | |], (fromRegexp (b :: bv) _ ∅) as [[? ?]| | |].
    - destruct (String.eqb k "regexp"); [|done]. specialize (Hr (Join (endian :: bit :: x :: rest) ":")).
      by destruct (fromRegexp (b :: bv) _ c) as [[? ?]| | |], (fromRegexp (b :: bv) _ ∅) as [[? ?]| | |]. }
  destruct (convert (b :: bv) conv c) as [[? ?]| | |], (convert (b :: bv) conv ∅) as [[? ?]| | |]; try done.
Qed.
End conv_laws.

(** The codes that are set and not hidden. *)
Definition shown (bv : list byte) (j : nat) (c : UpsCode) : Prop :=
  upsCodes !! j = Some c ∧ bv !! j = Some Byte.x31 ∧ ((0 < Dependancy c)%nat → bv !! Dependancy c ≠ Some Byte.x31).

Lemma set_actives_ok bv : ∀ i actives, (i + length bv ≤ length upsCodes)%nat → length actives = length upsCodes →
  ∃ a, set_actives i bv actives = Ok a ∧ length a = length upsCodes ∧
    ∀ j, a !! j = if decide (i ≤ j ∧ bv !! (j - i)%nat = Some Byte.x31)%nat then Some (upsCodes !! j) else actives !! j.
Proof.
  induction bv as [|v bv IH]; intros i actives Hi Hl.
  - exists actives. split; [done|]. split; [done|]. intros j. rewrite decide_False; [done|]. by intros [_ ?].
  - cbn [length] in Hi. cbn [set_actives].
    assert (∀ j b, (i ≤ j)%nat → (v :: bv) !! (j - i)%nat = Some b → (j = i ∧ v = b) ∨ (S i ≤ j ∧ bv !! (j - S i)%nat = Some b)%nat) as Hfront.
    { intros j b Hj E. destruct (decide (j = i)) as [->|]; [rewrite Nat.sub_diag in E; injection E as ->; by left|].
      right. split; [lia|]. replace (j - i)%nat with (S (j - S i)) in E by lia. exact E. }
    assert (∀ j b, (S i ≤ j)%nat → bv !! (j - S i)%nat = Some b → (v :: bv) !! (j - i)%nat = Some b) as Hback.
    { intros j b Hj E. by replace (j - i)%nat with (S (j - S i)) by lia. }
    destruct (Z.eqb_spec (b2z v) 49) as [Ev|Ev].
    + assert (v = Byte.x31) as -> by (rewrite <-(z2b_b2z v), Ev; done). rewrite (proj2 (Nat.ltb_lt _ _)) by lia.
      destruct (IH (S i) (<[i := upsCodes !! i]> actives)) as (a & -> & Ha & Hj); [lia|by rewrite length_insert|].
      exists a. split; [done|]. split; [done|]. intros j. rewrite Hj. destruct (decide (S i ≤ j ∧ _)%nat) as [[H1 H2]|Hno].
      * rewrite decide_True; [done|]. split; [lia|]. by apply Hback.
      * destruct (decide (i ≤ j ∧ _)%nat) as [[H1 H2]|Hno']; [destruct (Hfront j _ H1 H2) as [[-> _]|?]; [|tauto]; rewrite list_lookup_insert_eq by lia; done|].
        rewrite list_lookup_insert_ne; [done|]. intros ->. apply Hno'. split; [lia|]. by rewrite Nat.sub_diag.
    + destruct (IH (S i) actives) as (a & -> & Ha & Hj); [lia|done|]. exists a. split; [done|]. split; [done|]. intros j. rewrite Hj.
      destruct (decide (S i ≤ j ∧ _)%nat) as [[H1 H2]|Hno]; [rewrite decide_True; [done|]; split; [lia|]; by apply Hback|].
      rewrite decide_False; [done|]. intros [H1 H2]. destruct (Hfront j _ H1 H2) as [[_ ->]|?]; [|tauto]. by vm_compute in Ev.
Qed.

Lemma upsCodes_severity : Forall (λ c, 1 ≤ Severity c ≤ 4 ∧ (Dependancy c < length upsCodes)%nat) upsCodes.
Proof. unfold upsCodes. repeat (constructor; [cbn; lia|]). constructor. Qed.

Lemma statuses_shown bv actives i : (length bv ≤ length upsCodes)%nat → set_actives 0 bv (replicate (length upsCodes) None) = Ok actives →
  ∀ s, s ∈ statuses actives i ↔ ∃ j c, shown bv j c ∧ Severity c = i ∧ Ups_Status c = s.
Proof.
  intros Hlen E. destruct (set_actives_ok bv 0 (replicate (length upsCodes) None)) as (a & Ea & Hl & Hj); [lia|by rewrite length_replicate|].
  assert (a = actives) as -> by congruence.
  assert (∀ j c, actives !! j = Some (Some c) ↔ upsCodes !! j = Some c ∧ bv !! j = Some Byte.x31) as Hact.
  { intros j c. rewrite Hj, Nat.sub_0_r. destruct (decide (0 ≤ j ∧ bv !! j = Some Byte.x31)%nat) as [[_ H1]|Hno].
    - split; [intros [= H2]; done|]. intros [-> _]. done.
    - split; [intros [? _]%lookup_replicate; done|]. intros [_ H]. exfalso. apply Hno. split; [lia|done]. }
  assert (∀ c, c ∈ upsCodes → counts actives c = true ↔ ((0 < Dependancy c)%nat → bv !! Dependancy c ≠ Some Byte.x31)) as Hcounts.
  { intros c Hc. unfold counts. destruct (Nat.ltb_spec 0 (Dependancy c)) as [Hd|Hd]; [|split; [intros _ ?; lia|done]]. rewrite negb_true_iff, bool_decide_eq_false.
    destruct (proj1 (Forall_forall _ _) upsCodes_severity c Hc) as [_ Hdep].
    assert (is_Some (upsCodes !! Dependancy c)) as [d Ed] by by apply lookup_lt_is_Some.
    split.
    - intros Hno _ Hb. apply Hno. assert (actives !! Dependancy c = Some (Some d)) as -> by by apply Hact. by exists d.
    - intros Hb [d' Ed']. apply (Hb Hd). destruct (actives !! Dependancy c) as [[d''|]|] eqn:Ea'; [|done|done].
      by apply Hact in Ea' as [_ ?]. }
  intros s. unfold statuses. rewrite list_elem_of_omap. split.
  - intros ([c|] & Hin & Es); [|done]. apply list_elem_of_lookup in Hin as [j Ej]. apply Hact in Ej as [Ec Eb].
    destruct (counts actives c) eqn:Ecount; [|done]. destruct (Z.eqb_spec (Severity c) i) as [Hs|]; [|done]. injection Es as <-.
    exists j, c. split; [|done]. split; [done|]. split; [done|]. apply Hcounts; [by eapply list_elem_of_lookup_2|done].
  - intros (j & c & (Ec & Eb & Hd) & <- & <-). exists (Some c). split; [by apply list_elem_of_lookup; exists j; apply Hact|].
    rewrite (proj2 (Hcounts c (list_elem_of_lookup_2 _ _ _ Ec)) Hd), Z.eqb_refl. done.
Qed.
Lemma highest_spec actives n : let '(i, s, m) := highest actives n in
  (∀ k : nat, (Z.to_nat i < k ≤ n)%nat → statuses actives (Z.of_nat k) = []) ∧ (i = 0 ∨ (0 < i ≤ Z.of_nat n ∧ statuses actives i ≠ [])).
Proof.
  induction n as [|n IH]; cbn [highest]; [split; [intros k Hk; lia|by left]|].
  destruct (statuses actives (Z.of_nat (S n))) as [|s l] eqn:E.
  - destruct (highest actives n) as [[i s] m]. destruct IH as [H1 H2]. split; [|destruct H2; [by left|right; split; [lia|tauto]]].
    intros k Hk. destruct (decide (k = S n)) as [->|]; [done|]. apply H1. lia.
  - split; [intros k Hk; lia|]. right. split; [lia|]. by rewrite E.
Qed.

Lemma highest_none actives n : (highest actives n).2 = None.
Proof. induction n as [|n IH]; cbn [highest]; [done|]. by destruct (statuses actives (Z.of_nat (S n))). Qed.

(** A status of up to 64 flags never panics; what it gives is the highest severity of
    the conditions that are set and not hidden by a self test, or 0 when there is none. *)
Theorem powerset_highest bv : (length bv ≤ 64)%nat → ∃ i s, HandlePowersetStatus bv = Ok (i, s, None) ∧
  (∀ j c, shown bv j c → Severity c ≤ i) ∧ (i ≠ 0 → ∃ j c, shown bv j c ∧ Severity c = i).
Proof.
  intros Hlen. destruct (set_actives_ok bv 0 (replicate (length upsCodes) None)) as (actives & Ea & _); [exact Hlen|by rewrite length_replicate|].
  unfold HandlePowersetStatus. rewrite Ea. cbn [mbind res_bind]. pose proof (highest_spec actives (length severities)) as Hh.
  destruct (highest actives (length severities)) as [[i s] m] eqn:Eh.
  pose proof (highest_none actives (length severities)) as Hm. rewrite Eh in Hm. cbn [snd] in Hm. subst m.
  exists i, s. split; [done|]. destruct Hh as [Hmax Hi]. split.
  - intros j c Hs. destruct (Z.le_gt_cases (Severity c) i) as [|Hgt]; [done|]. exfalso.
    pose proof Hs as (Ec & _ & _). destruct (proj1 (Forall_forall _ _) upsCodes_severity c (list_elem_of_lookup_2 _ _ _ Ec)) as [Hsev _].
    assert (statuses actives (Z.of_nat (Z.to_nat (Severity c))) = []) as E0 by (apply Hmax; cbn; destruct Hi as [->|[? _]]; lia).
    rewrite Z2Nat.id in E0 by lia.
    assert (Ups_Status c ∈ statuses actives (Severity c)) as Hin by (apply (statuses_shown bv actives); [exact Hlen|done|by exists j, c]).
    rewrite E0 in Hin. by apply elem_of_nil in Hin.
  - intros Hne. destruct Hi as [|[_ Hst]]; [done|]. destruct (statuses actives i) as [|s' l] eqn:E; [done|].
    assert (s' ∈ statuses actives i) as Hin by (rewrite E; by left). apply (statuses_shown bv actives) in Hin as (j & c & Hs & Hsev & _); [by exists j, c|exact Hlen|done].
Qed.

(** ** Examples *)

Definition no_regexps : Submatcher := {| re_Compile s := inr "error"; SubexpNames r := []; FindSubmatch r b := None |}.
Lemma hextoint_roundtrip_witness : int_bytes "uint64" = Some 8%nat ∧ 0 ≤ 7090466131453292601 < 256 ^ 8 ∧
  GetFromConv (H := no_regexps) (VBytes (rev (be_encode 8 7090466131453292601) ++ String.list_byte_of_string "c219")) (int_conv true "uint64") ∅ =
    (text_only "7090466131453292601", ∅).
Proof.
  split; [done|]. split; [done|].
  apply (proj1 (hextoint_roundtrip (H := no_regexps) true "uint64" 8 7090466131453292601 (String.list_byte_of_string "c219") ∅ eq_refl ltac:(done))).
Defined.
Lemma GetFromConv_cache_witness : coherent (H := no_regexps) ∅ ∧ coherent (H := no_regexps) (GetFromConv (H := no_regexps) (VBytes [Byte.x31]) "regexp:(" ∅).2.
Proof.
  assert (coherent (H := no_regexps) ∅) as H0 by (intros k r E; by rewrite lookup_empty in E).
  split; [exact H0|]. apply (proj2 (GetFromConv_cache (H := no_regexps) (VBytes [Byte.x31]) "regexp:(" ∅ H0)).
Defined.
Definition on_battery : list byte := String.list_byte_of_string "0101010000000000001000000000010000000000000000000000000000000000".
Lemma powerset_highest_witness : (length on_battery ≤ 64)%nat ∧ ∃ i s, HandlePowersetStatus on_battery = Ok (i, s, None) ∧ 3 ≤ i.
Proof.
  split; [by vm_compute|]. destruct (powerset_highest on_battery ltac:(by vm_compute)) as (i & s & E & Hmax & _). exists i, s. split; [exact E|].
  apply (Hmax 1%nat (mkUps 3 1 28 "On Battery")). by vm_compute.
Defined.
Example on_battery_text : HandlePowersetStatus on_battery = Ok (3, "High: On Battery,Low Battery / On Battery", None).
Proof. by vm_compute. Qed.
Example engine_id : EngineID (String.list_byte_of_string "80:7") = Ok (text_only "38:30:3a:37").
Proof. by vm_compute. Qed.
Example date_and_time : hexToDateTime [Byte.x07; Byte.xe7; Byte.x0a; Byte.x1c; Byte.x15; Byte.x35; Byte.x34; Byte.x00; Byte.x2b; Byte.x00; Byte.x00] =
  Ok (text_only "2023-10-28,21:53:52.0,+0:0").
Proof. by vm_compute. Qed.
