(* ===== verification/ServiceTypes.v ===== *)
(** The entries of the table of registered services (src/pkg/util/service/service.go). *)
From S2P Require Import Prelude.
Local Open Scope Z_scope.

Record Port := mkPort { Number : Z; Protocol : Z }.
#[export] Instance Port_eq_dec : EqDecision Port.
Proof. solve_decision. Defined.
#[export] Instance Port_countable : Countable Port :=
  inj_countable' (λ p, (Number p, Protocol p)) (λ '(n, p), mkPort n p) ltac:(by intros []).

(** The assignment [Port{n, p}: name]. *)
Record service := P { sv_Number : Z; sv_Protocol : Z; sv_Name : string }.
Definition sv_Port (s : service) : Port := mkPort (sv_Number s) (sv_Protocol s).
