(* ===== verification/ServiceTable1.v ===== *)
(** The registered services of src/pkg/util/service/service.go, lines 9 to 3158: a port, a
    protocol number and a name. *)
From S2P Require Import Prelude.
From S2P Require Import ServiceTypes.
Local Open Scope Z_scope.

Definition services_1 : list service := [
  P 1 6 "tcpmux";
  P 1 17 "tcpmux";
  P 2 6 "compressnet";
  P 2 17 "compressnet";
  P 3 6 "compressnet";
  P 3 17 "compressnet";
  P 5 6 "rje";
  P 5 17 "rje";
  P 7 132 "echo";
  P 7 6 "echo";
  P 7 17 "echo";
  P 9 132 "discard";
  P 9 6 "discard";
  P 9 17 "discard";
  P 11 6 "systat";
  P 11 17 "systat";
  P 13 6 "daytime";
  P 13 17 "daytime";
  P 15 6 "netstat";
  P 17 6 "qotd";
  P 17 17 "qotd";
  P 18 6 "msp";
  P 18 17 "msp";
  P 19 6 "chargen";
  P 19 17 "chargen";
  P 20 132 "ftp-data";
  P 20 6 "ftp-data";
  P 20 17 "ftp-data";
  P 21 132 "ftp";
  P 21 6 "ftp";
  P 21 17 "ftp";
  P 22 132 "ssh";
  P 22 6 "ssh";
  P 22 17 "ssh";
  P 23 6 "telnet";
  P 23 17 "telnet";
  P 24 6 "priv-mail";
  P 24 17 "priv-mail";
  P 25 6 "smtp";
  P 25 17 "smtp";
  P 26 6 "rsftp";
  P 27 6 "nsw-fe";
  P 27 17 "nsw-fe";
  P 29 6 "msg-icp";
  P 29 17 "msg-icp";
  P 31 6 "msg-auth";
  P 31 17 "msg-auth";
  P 33 6 "dsp";
  P 33 17 "dsp";
  P 35 6 "priv-print";
  P 35 17 "priv-print";
  P 37 6 "time";
  P 37 17 "time";
  P 38 6 "rap";
  P 38 17 "rap";
  P 39 6 "rlp";
  P 39 17 "rlp";
  P 41 6 "graphics";
  P 41 17 "graphics";
  P 42 6 "nameserver";
  P 42 17 "nameserver";
  P 43 6 "whois";
  P 43 17 "whois";
  P 44 6 "mpm-flags";
  P 44 17 "mpm-flags";
  P 45 6 "mpm";
  P 45 17 "mpm";
  P 46 6 "mpm-snd";
  P 46 17 "mpm-snd";
  P 47 6 "ni-ftp";
  P 47 17 "ni-ftp";
  P 48 6 "auditd";
  P 48 17 "auditd";
  P 49 6 "tacacs";
  P 49 17 "tacacs";
  P 50 6 "re-mail-ck";
  P 50 17 "re-mail-ck";
  P 51 6 "la-maint";
  P 51 17 "la-maint";
  P 52 6 "xns-time";
  P 52 17 "xns-time";
  P 53 6 "domain";
  P 53 17 "domain";
  P 54 6 "xns-ch";
  P 54 17 "xns-ch";
  P 55 6 "isi-gl";
  P 55 17 "isi-gl";
  P 56 6 "xns-auth";
  P 56 17 "xns-auth";
  P 57 6 "priv-term";
  P 57 17 "priv-term";
  P 58 6 "xns-mail";
  P 58 17 "xns-mail";
  P 59 6 "priv-file";
  P 59 17 "priv-file";
  P 61 6 "ni-mail";
  P 61 17 "ni-mail";
  P 62 6 "acas";
  P 62 17 "acas";
  P 63 6 "via-ftp";
  P 63 17 "via-ftp";
  P 64 6 "covia";
  P 64 17 "covia";
  P 65 6 "tacacs-ds";
  P 65 17 "tacacs-ds";
  P 66 6 "sqlnet";
  P 66 17 "sqlnet";
  P 67 6 "dhcps";
  P 67 17 "dhcps";
  P 68 6 "dhcpc";
  P 68 17 "dhcpc";
  P 69 6 "tftp";
  P 69 17 "tftp";
  P 70 6 "gopher";
  P 70 17 "gopher";
  P 71 6 "netrjs-1";
  P 71 17 "netrjs-1";
  P 72 6 "netrjs-2";
  P 72 17 "netrjs-2";
  P 73 6 "netrjs-3";
  P 73 17 "netrjs-3";
  P 74 6 "netrjs-4";
  P 74 17 "netrjs-4";
  P 75 6 "priv-dial";
  P 75 17 "priv-dial";
  P 76 6 "deos";
  P 76 17 "deos";
  P 77 6 "priv-rje";
  P 77 17 "priv-rje";
  P 78 6 "vettcp";
  P 78 17 "vettcp";
  P 79 6 "finger";
  P 79 17 "finger";
  P 80 132 "http";
  P 80 6 "http";
  P 80 17 "http";
  P 81 6 "hosts2-ns";
  P 81 17 "hosts2-ns";
  P 82 6 "xfer";
  P 82 17 "xfer";
  P 83 6 "mit-ml-dev";
  P 83 17 "mit-ml-dev";
  P 84 6 "ctf";
  P 84 17 "ctf";
  P 85 6 "mit-ml-dev";
  P 85 17 "mit-ml-dev";
  P 86 6 "mfcobol";
  P 86 17 "mfcobol";
  P 87 6 "priv-term-l";
  P 88 6 "kerberos-sec"].
Definition services_2 : list service := [
  P 88 17 "kerberos-sec";
  P 89 6 "su-mit-tg";
  P 89 17 "su-mit-tg";
  P 90 6 "dnsix";
  P 90 17 "dnsix";
  P 91 6 "mit-dov";
  P 91 17 "mit-dov";
  P 92 6 "npp";
  P 92 17 "npp";
  P 93 6 "dcp";
  P 93 17 "dcp";
  P 94 6 "objcall";
  P 94 17 "objcall";
  P 95 6 "supdup";
  P 95 17 "supdup";
  P 96 6 "dixie";
  P 96 17 "dixie";
  P 97 6 "swift-rvf";
  P 97 17 "swift-rvf";
  P 98 6 "linuxconf";
  P 98 17 "tacnews";
  P 99 6 "metagram";
  P 99 17 "metagram";
  P 100 6 "newacct";
  P 101 6 "hostname";
  P 101 17 "hostname";
  P 102 6 "iso-tsap";
  P 102 17 "iso-tsap";
  P 103 6 "gppitnp";
  P 103 17 "gppitnp";
  P 104 6 "acr-nema";
  P 104 17 "acr-nema";
  P 105 6 "csnet-ns";
  P 105 17 "csnet-ns";
  P 106 6 "pop3pw";
  P 106 17 "3com-tsmux";
  P 107 6 "rtelnet";
  P 107 17 "rtelnet";
  P 108 6 "snagas";
  P 108 17 "snagas";
  P 109 6 "pop2";
  P 109 17 "pop2";
  P 110 6 "pop3";
  P 110 17 "pop3";
  P 111 6 "rpcbind";
  P 111 17 "rpcbind";
  P 112 6 "mcidas";
  P 112 17 "mcidas";
  P 113 6 "ident";
  P 113 17 "auth";
  P 114 6 "audionews";
  P 114 17 "audionews";
  P 115 6 "sftp";
  P 115 17 "sftp";
  P 116 6 "ansanotify";
  P 116 17 "ansanotify";
  P 117 6 "uucp-path";
  P 117 17 "uucp-path";
  P 118 6 "sqlserv";
  P 118 17 "sqlserv";
  P 119 6 "nntp";
  P 119 17 "nntp";
  P 120 6 "cfdptkt";
  P 120 17 "cfdptkt";
  P 121 6 "erpc";
  P 121 17 "erpc";
  P 122 6 "smakynet";
  P 122 17 "smakynet";
  P 123 6 "ntp";
  P 123 17 "ntp";
  P 124 6 "ansatrader";
  P 124 17 "ansatrader";
  P 125 6 "locus-map";
  P 125 17 "locus-map";
  P 126 6 "unitary";
  P 126 17 "unitary";
  P 127 6 "locus-con";
  P 127 17 "locus-con";
  P 128 6 "gss-xlicen";
  P 128 17 "gss-xlicen";
  P 129 6 "pwdgen";
  P 129 17 "pwdgen";
  P 130 6 "cisco-fna";
  P 130 17 "cisco-fna";
  P 131 6 "cisco-tna";
  P 131 17 "cisco-tna";
  P 132 6 "cisco-sys";
  P 132 17 "cisco-sys";
  P 133 6 "statsrv";
  P 133 17 "statsrv";
  P 134 6 "ingres-net";
  P 134 17 "ingres-net";
  P 135 6 "msrpc";
  P 135 17 "msrpc";
  P 136 6 "profile";
  P 136 17 "profile";
  P 137 6 "netbios-ns";
  P 137 17 "netbios-ns";
  P 138 6 "netbios-dgm";
  P 138 17 "netbios-dgm";
  P 139 6 "netbios-ssn";
  P 139 17 "netbios-ssn";
  P 140 6 "emfis-data";
  P 140 17 "emfis-data";
  P 141 6 "emfis-cntl";
  P 141 17 "emfis-cntl";
  P 142 6 "bl-idm";
  P 142 17 "bl-idm";
  P 143 6 "imap";
  P 143 17 "imap";
  P 144 6 "news";
  P 144 17 "news";
  P 145 6 "uaac";
  P 145 17 "uaac";
  P 146 6 "iso-tp0";
  P 146 17 "iso-tp0";
  P 147 6 "iso-ip";
  P 147 17 "iso-ip";
  P 148 6 "cronus";
  P 148 17 "cronus";
  P 149 6 "aed-512";
  P 149 17 "aed-512";
  P 150 6 "sql-net";
  P 150 17 "sql-net";
  P 151 6 "hems";
  P 151 17 "hems";
  P 152 6 "bftp";
  P 152 17 "bftp";
  P 153 6 "sgmp";
  P 153 17 "sgmp";
  P 154 6 "netsc-prod";
  P 154 17 "netsc-prod";
  P 155 6 "netsc-dev";
  P 155 17 "netsc-dev";
  P 156 6 "sqlsrv";
  P 156 17 "sqlsrv";
  P 157 6 "knet-cmp";
  P 157 17 "knet-cmp";
  P 158 6 "pcmail-srv";
  P 158 17 "pcmail-srv";
  P 159 6 "nss-routing";
  P 159 17 "nss-routing";
  P 160 6 "sgmp-traps";
  P 160 17 "sgmp-traps";
  P 161 6 "snmp";
  P 161 17 "snmp";
  P 162 6 "snmptrap";
  P 162 17 "snmptrap";
  P 163 6 "cmip-man";
  P 163 17 "cmip-man"].
Definition services_3 : list service := [
  P 164 6 "cmip-agent";
  P 164 17 "smip-agent";
  P 165 6 "xns-courier";
  P 165 17 "xns-courier";
  P 166 6 "s-net";
  P 166 17 "s-net";
  P 167 6 "namp";
  P 167 17 "namp";
  P 168 6 "rsvd";
  P 168 17 "rsvd";
  P 169 6 "send";
  P 169 17 "send";
  P 170 6 "print-srv";
  P 170 17 "print-srv";
  P 171 6 "multiplex";
  P 171 17 "multiplex";
  P 172 6 "cl-1";
  P 172 17 "cl-1";
  P 173 6 "xyplex-mux";
  P 173 17 "xyplex-mux";
  P 174 6 "mailq";
  P 174 17 "mailq";
  P 175 6 "vmnet";
  P 175 17 "vmnet";
  P 176 6 "genrad-mux";
  P 176 17 "genrad-mux";
  P 177 6 "xdmcp";
  P 177 17 "xdmcp";
  P 178 6 "nextstep";
  P 178 17 "nextstep";
  P 179 132 "bgp";
  P 179 6 "bgp";
  P 179 17 "bgp";
  P 180 6 "ris";
  P 180 17 "ris";
  P 181 6 "unify";
  P 181 17 "unify";
  P 182 6 "audit";
  P 182 17 "audit";
  P 183 6 "ocbinder";
  P 183 17 "ocbinder";
  P 184 6 "ocserver";
  P 184 17 "ocserver";
  P 185 6 "remote-kis";
  P 185 17 "remote-kis";
  P 186 6 "kis";
  P 186 17 "kis";
  P 187 6 "aci";
  P 187 17 "aci";
  P 188 6 "mumps";
  P 188 17 "mumps";
  P 189 6 "qft";
  P 189 17 "qft";
  P 190 6 "gacp";
  P 190 17 "cacp";
  P 191 6 "prospero";
  P 191 17 "prospero";
  P 192 6 "osu-nms";
  P 192 17 "osu-nms";
  P 193 6 "srmp";
  P 193 17 "srmp";
  P 194 6 "irc";
  P 194 17 "irc";
  P 195 6 "dn6-nlm-aud";
  P 195 17 "dn6-nlm-aud";
  P 196 6 "dn6-smm-red";
  P 196 17 "dn6-smm-red";
  P 197 6 "dls";
  P 197 17 "dls";
  P 198 6 "dls-mon";
  P 198 17 "dls-mon";
  P 199 6 "smux";
  P 199 17 "smux";
  P 200 6 "src";
  P 200 17 "src";
  P 201 6 "at-rtmp";
  P 201 17 "at-rtmp";
  P 202 6 "at-nbp";
  P 202 17 "at-nbp";
  P 203 6 "at-3";
  P 203 17 "at-3";
  P 204 6 "at-echo";
  P 204 17 "at-echo";
  P 205 6 "at-5";
  P 205 17 "at-5";
  P 206 6 "at-zis";
  P 206 17 "at-zis";
  P 207 6 "at-7";
  P 207 17 "at-7";
  P 208 6 "at-8";
  P 208 17 "at-8";
  P 209 6 "tam";
  P 209 17 "tam";
  P 210 6 "z39.50";
  P 210 17 "z39.50";
  P 211 6 "914c-g";
  P 211 17 "914c-g";
  P 212 6 "anet";
  P 212 17 "anet";
  P 213 6 "ipx";
  P 213 17 "ipx";
  P 214 6 "vmpwscs";
  P 214 17 "vmpwscs";
  P 215 6 "softpc";
  P 215 17 "softpc";
  P 216 6 "atls";
  P 216 17 "atls";
  P 217 6 "dbase";
  P 217 17 "dbase";
  P 218 6 "mpp";
  P 218 17 "mpp";
  P 219 6 "uarps";
  P 219 17 "uarps";
  P 220 6 "imap3";
  P 220 17 "imap3";
  P 221 6 "fln-spx";
  P 221 17 "fln-spx";
  P 222 6 "rsh-spx";
  P 222 17 "rsh-spx";
  P 223 6 "cdc";
  P 223 17 "cdc";
  P 224 6 "masqdialer";
  P 224 17 "masqdialer";
  P 242 6 "direct";
  P 242 17 "direct";
  P 243 6 "sur-meas";
  P 243 17 "sur-meas";
  P 244 6 "dayna";
  P 244 17 "dayna";
  P 245 6 "link";
  P 245 17 "link";
  P 246 6 "dsp3270";
  P 246 17 "dsp3270";
  P 247 6 "subntbcst_tftp";
  P 247 17 "subntbcst_tftp";
  P 248 6 "bhfhs";
  P 248 17 "bhfhs";
  P 256 6 "fw1-secureremote";
  P 256 17 "rap";
  P 257 6 "fw1-mc-fwmodule";
  P 257 17 "set";
  P 258 6 "fw1-mc-gui";
  P 258 17 "yak-chat";
  P 259 6 "esro-gen";
  P 259 17 "firewall1-rdp";
  P 260 6 "openport";
  P 260 17 "openport";
  P 261 6 "nsiiops";
  P 261 17 "nsiiops";
  P 262 6 "arcisdms"].
Definition services_4 : list service := [
  P 262 17 "arcisdms";
  P 263 6 "hdap";
  P 263 17 "hdap";
  P 264 6 "bgmp";
  P 264 17 "fw1-or-bgmp";
  P 265 6 "maybe-fw1";
  P 265 17 "x-bone-ctl";
  P 266 6 "sst";
  P 266 17 "sst";
  P 267 6 "td-service";
  P 267 17 "td-service";
  P 268 6 "td-replica";
  P 268 17 "td-replica";
  P 269 6 "manet";
  P 269 17 "manet";
  P 270 6 "gist";
  P 270 17 "gist";
  P 271 6 "pt-tls";
  P 280 6 "http-mgmt";
  P 280 17 "http-mgmt";
  P 281 6 "personal-link";
  P 281 17 "personal-link";
  P 282 6 "cableport-ax";
  P 282 17 "cableport-ax";
  P 283 6 "rescap";
  P 283 17 "rescap";
  P 284 6 "corerjd";
  P 284 17 "corerjd";
  P 286 6 "fxp";
  P 286 17 "fxp";
  P 287 6 "k-block";
  P 287 17 "k-block";
  P 308 6 "novastorbakcup";
  P 308 17 "novastorbakcup";
  P 309 6 "entrusttime";
  P 309 17 "entrusttime";
  P 310 6 "bhmds";
  P 310 17 "bhmds";
  P 311 6 "asip-webadmin";
  P 311 17 "asip-webadmin";
  P 312 6 "vslmp";
  P 312 17 "vslmp";
  P 313 6 "magenta-logic";
  P 313 17 "magenta-logic";
  P 314 6 "opalis-robot";
  P 314 17 "opalis-robot";
  P 315 6 "dpsi";
  P 315 17 "dpsi";
  P 316 6 "decauth";
  P 316 17 "decauth";
  P 317 6 "zannet";
  P 317 17 "zannet";
  P 318 6 "pkix-timestamp";
  P 318 17 "pkix-timestamp";
  P 319 6 "ptp-event";
  P 319 17 "ptp-event";
  P 320 6 "ptp-general";
  P 320 17 "ptp-general";
  P 321 6 "pip";
  P 321 17 "pip";
  P 322 6 "rtsps";
  P 322 17 "rtsps";
  P 323 6 "rpki-rtr";
  P 324 6 "rpki-rtr-tls";
  P 333 6 "texar";
  P 333 17 "texar";
  P 344 6 "pdap";
  P 344 17 "pdap";
  P 345 6 "pawserv";
  P 345 17 "pawserv";
  P 346 6 "zserv";
  P 346 17 "zserv";
  P 347 6 "fatserv";
  P 347 17 "fatserv";
  P 348 6 "csi-sgwp";
  P 348 17 "csi-sgwp";
  P 349 6 "mftp";
  P 349 17 "mftp";
  P 350 6 "matip-type-a";
  P 350 17 "matip-type-a";
  P 351 6 "matip-type-b";
  P 351 17 "matip-type-b";
  P 352 6 "dtag-ste-sb";
  P 352 17 "dtag-ste-sb";
  P 353 6 "ndsauth";
  P 353 17 "ndsauth";
  P 354 6 "bh611";
  P 354 17 "bh611";
  P 355 6 "datex-asn";
  P 355 17 "datex-asn";
  P 356 6 "cloanto-net-1";
  P 356 17 "cloanto-net-1";
  P 357 6 "bhevent";
  P 357 17 "bhevent";
  P 358 6 "shrinkwrap";
  P 358 17 "shrinkwrap";
  P 359 6 "tenebris_nts";
  P 359 17 "tenebris_nts";
  P 360 6 "scoi2odialog";
  P 360 17 "scoi2odialog";
  P 361 6 "semantix";
  P 361 17 "semantix";
  P 362 6 "srssend";
  P 362 17 "srssend";
  P 363 6 "rsvp_tunnel";
  P 363 17 "rsvp_tunnel";
  P 364 6 "aurora-cmgr";
  P 364 17 "aurora-cmgr";
  P 365 6 "dtk";
  P 365 17 "dtk";
  P 366 6 "odmr";
  P 366 17 "odmr";
  P 367 6 "mortgageware";
  P 367 17 "mortgageware";
  P 368 6 "qbikgdp";
  P 368 17 "qbikgdp";
  P 369 6 "rpc2portmap";
  P 369 17 "rpc2portmap";
  P 370 6 "codaauth2";
  P 370 17 "codaauth2";
  P 371 6 "clearcase";
  P 371 17 "clearcase";
  P 372 6 "ulistserv";
  P 372 17 "ulistserv";
  P 373 6 "legent-1";
  P 373 17 "legent-1";
  P 374 6 "legent-2";
  P 374 17 "legent-2";
  P 375 6 "hassle";
  P 375 17 "hassle";
  P 376 6 "nip";
  P 376 17 "nip";
  P 377 6 "tnETOS";
  P 377 17 "tnETOS";
  P 378 6 "dsETOS";
  P 378 17 "dsETOS";
  P 379 6 "is99c";
  P 379 17 "is99c";
  P 380 6 "is99s";
  P 380 17 "is99s";
  P 381 6 "hp-collector";
  P 381 17 "hp-collector";
  P 382 6 "hp-managed-node";
  P 382 17 "hp-managed-node";
  P 383 6 "hp-alarm-mgr";
  P 383 17 "hp-alarm-mgr";
  P 384 6 "arns";
  P 384 17 "arns";
  P 385 6 "ibm-app";
  P 385 17 "ibm-app"].
Definition services_5 : list service := [
  P 386 6 "asa";
  P 386 17 "asa";
  P 387 6 "aurp";
  P 387 17 "aurp";
  P 388 6 "unidata-ldm";
  P 388 17 "unidata-ldm";
  P 389 6 "ldap";
  P 389 17 "ldap";
  P 390 6 "uis";
  P 390 17 "uis";
  P 391 6 "synotics-relay";
  P 391 17 "synotics-relay";
  P 392 6 "synotics-broker";
  P 392 17 "synotics-broker";
  P 393 6 "dis";
  P 393 17 "dis";
  P 394 6 "embl-ndt";
  P 394 17 "embl-ndt";
  P 395 6 "netcp";
  P 395 17 "netcp";
  P 396 6 "netware-ip";
  P 396 17 "netware-ip";
  P 397 6 "mptn";
  P 397 17 "mptn";
  P 398 6 "kryptolan";
  P 398 17 "kryptolan";
  P 399 6 "iso-tsap-c2";
  P 399 17 "iso-tsap-c2";
  P 400 6 "work-sol";
  P 400 17 "work-sol";
  P 401 6 "ups";
  P 401 17 "ups";
  P 402 6 "genie";
  P 402 17 "genie";
  P 403 6 "decap";
  P 403 17 "decap";
  P 404 6 "nced";
  P 404 17 "nced";
  P 405 6 "ncld";
  P 405 17 "ncld";
  P 406 6 "imsp";
  P 406 17 "imsp";
  P 407 6 "timbuktu";
  P 407 17 "timbuktu";
  P 408 6 "prm-sm";
  P 408 17 "prm-sm";
  P 409 6 "prm-nm";
  P 409 17 "prm-nm";
  P 410 6 "decladebug";
  P 410 17 "decladebug";
  P 411 6 "rmt";
  P 411 17 "rmt";
  P 412 6 "synoptics-trap";
  P 412 17 "synoptics-trap";
  P 413 6 "smsp";
  P 413 17 "smsp";
  P 414 6 "infoseek";
  P 414 17 "infoseek";
  P 415 6 "bnet";
  P 415 17 "bnet";
  P 416 6 "silverplatter";
  P 416 17 "silverplatter";
  P 417 6 "onmux";
  P 417 17 "onmux";
  P 418 6 "hyper-g";
  P 418 17 "hyper-g";
  P 419 6 "ariel1";
  P 419 17 "ariel1";
  P 420 6 "smpte";
  P 420 17 "smpte";
  P 421 6 "ariel2";
  P 421 17 "ariel2";
  P 422 6 "ariel3";
  P 422 17 "ariel3";
  P 423 6 "opc-job-start";
  P 423 17 "opc-job-start";
  P 424 6 "opc-job-track";
  P 424 17 "opc-job-track";
  P 425 6 "icad-el";
  P 425 17 "icad-el";
  P 426 6 "smartsdp";
  P 426 17 "smartsdp";
  P 427 6 "svrloc";
  P 427 17 "svrloc";
  P 428 6 "ocs_cmu";
  P 428 17 "ocs_cmu";
  P 429 6 "ocs_amu";
  P 429 17 "ocs_amu";
  P 430 6 "utmpsd";
  P 430 17 "utmpsd";
  P 431 6 "utmpcd";
  P 431 17 "utmpcd";
  P 432 6 "iasd";
  P 432 17 "iasd";
  P 433 6 "nnsp";
  P 433 17 "nnsp";
  P 434 6 "mobileip-agent";
  P 434 17 "mobileip-agent";
  P 435 6 "mobilip-mn";
  P 435 17 "mobilip-mn";
  P 436 6 "dna-cml";
  P 436 17 "dna-cml";
  P 437 6 "comscm";
  P 437 17 "comscm";
  P 438 6 "dsfgw";
  P 438 17 "dsfgw";
  P 439 6 "dasp";
  P 439 17 "dasp";
  P 440 6 "sgcp";
  P 440 17 "sgcp";
  P 441 6 "decvms-sysmgt";
  P 441 17 "decvms-sysmgt";
  P 442 6 "cvc_hostd";
  P 442 17 "cvc_hostd";
  P 443 132 "https";
  P 443 6 "https";
  P 443 17 "https";
  P 444 6 "snpp";
  P 444 17 "snpp";
  P 445 6 "microsoft-ds";
  P 445 17 "microsoft-ds";
  P 446 6 "ddm-rdb";
  P 446 17 "ddm-rdb";
  P 447 6 "ddm-dfm";
  P 447 17 "ddm-dfm";
  P 448 6 "ddm-ssl";
  P 448 17 "ddm-ssl";
  P 449 6 "as-servermap";
  P 449 17 "as-servermap";
  P 450 6 "tserver";
  P 450 17 "tserver";
  P 451 6 "sfs-smp-net";
  P 451 17 "sfs-smp-net";
  P 452 6 "sfs-config";
  P 452 17 "sfs-config";
  P 453 6 "creativeserver";
  P 453 17 "creativeserver";
  P 454 6 "contentserver";
  P 454 17 "contentserver";
  P 455 6 "creativepartnr";
  P 455 17 "creativepartnr";
  P 456 6 "macon";
  P 456 17 "macon";
  P 457 6 "scohelp";
  P 457 17 "scohelp";
  P 458 6 "appleqtc";
  P 458 17 "appleqtc";
  P 459 6 "ampr-rcmd";
  P 459 17 "ampr-rcmd";
  P 460 6 "skronk"].
Definition services_6 : list service := [
  P 460 17 "skronk";
  P 461 6 "datasurfsrv";
  P 461 17 "datasurfsrv";
  P 462 6 "datasurfsrvsec";
  P 462 17 "datasurfsrvsec";
  P 463 6 "alpes";
  P 463 17 "alpes";
  P 464 6 "kpasswd5";
  P 464 17 "kpasswd5";
  P 465 6 "smtps";
  P 465 17 "smtps";
  P 466 6 "digital-vrc";
  P 466 17 "digital-vrc";
  P 467 6 "mylex-mapd";
  P 467 17 "mylex-mapd";
  P 468 6 "photuris";
  P 468 17 "photuris";
  P 469 6 "rcp";
  P 469 17 "rcp";
  P 470 6 "scx-proxy";
  P 470 17 "scx-proxy";
  P 471 6 "mondex";
  P 471 17 "mondex";
  P 472 6 "ljk-login";
  P 472 17 "ljk-login";
  P 473 6 "hybrid-pop";
  P 473 17 "hybrid-pop";
  P 474 6 "tn-tl-w1";
  P 474 17 "tn-tl-w2";
  P 475 6 "tcpnethaspsrv";
  P 475 17 "tcpnethaspsrv";
  P 476 6 "tn-tl-fd1";
  P 476 17 "tn-tl-fd1";
  P 477 6 "ss7ns";
  P 477 17 "ss7ns";
  P 478 6 "spsc";
  P 478 17 "spsc";
  P 479 6 "iafserver";
  P 479 17 "iafserver";
  P 480 6 "loadsrv";
  P 480 17 "iafdbase";
  P 481 6 "dvs";
  P 481 17 "ph";
  P 482 6 "bgs-nsi";
  P 482 17 "xlog";
  P 483 6 "ulpnet";
  P 483 17 "ulpnet";
  P 484 6 "integra-sme";
  P 484 17 "integra-sme";
  P 485 6 "powerburst";
  P 485 17 "powerburst";
  P 486 6 "sstats";
  P 486 17 "avian";
  P 487 6 "saft";
  P 487 17 "saft";
  P 488 6 "gss-http";
  P 488 17 "gss-http";
  P 489 6 "nest-protocol";
  P 489 17 "nest-protocol";
  P 490 6 "micom-pfs";
  P 490 17 "micom-pfs";
  P 491 6 "go-login";
  P 491 17 "go-login";
  P 492 6 "ticf-1";
  P 492 17 "ticf-1";
  P 493 6 "ticf-2";
  P 493 17 "ticf-2";
  P 494 6 "pov-ray";
  P 494 17 "pov-ray";
  P 495 6 "intecourier";
  P 495 17 "intecourier";
  P 496 6 "pim-rp-disc";
  P 496 17 "pim-rp-disc";
  P 497 6 "retrospect";
  P 497 17 "retrospect";
  P 498 6 "siam";
  P 498 17 "siam";
  P 499 6 "iso-ill";
  P 499 17 "iso-ill";
  P 500 6 "isakmp";
  P 500 17 "isakmp";
  P 501 6 "stmf";
  P 501 17 "stmf";
  P 502 6 "mbap";
  P 502 17 "mbap";
  P 503 6 "intrinsa";
  P 503 17 "intrinsa";
  P 504 6 "citadel";
  P 504 17 "citadel";
  P 505 6 "mailbox-lm";
  P 505 17 "mailbox-lm";
  P 506 6 "ohimsrv";
  P 506 17 "ohimsrv";
  P 507 6 "crs";
  P 507 17 "crs";
  P 508 6 "xvttp";
  P 508 17 "xvttp";
  P 509 6 "snare";
  P 509 17 "snare";
  P 510 6 "fcp";
  P 510 17 "fcp";
  P 511 6 "passgo";
  P 511 17 "passgo";
  P 512 6 "exec";
  P 512 17 "biff";
  P 513 6 "login";
  P 513 17 "who";
  P 514 6 "shell";
  P 514 17 "syslog";
  P 515 6 "printer";
  P 515 17 "printer";
  P 516 6 "videotex";
  P 516 17 "videotex";
  P 517 6 "talk";
  P 517 17 "talk";
  P 518 6 "ntalk";
  P 518 17 "ntalk";
  P 519 6 "utime";
  P 519 17 "utime";
  P 520 6 "efs";
  P 520 17 "route";
  P 521 6 "ripng";
  P 521 17 "ripng";
  P 522 6 "ulp";
  P 522 17 "ulp";
  P 523 6 "ibm-db2";
  P 523 17 "ibm-db2";
  P 524 6 "ncp";
  P 524 17 "ncp";
  P 525 6 "timed";
  P 525 17 "timed";
  P 526 6 "tempo";
  P 526 17 "tempo";
  P 527 6 "stx";
  P 527 17 "stx";
  P 528 6 "custix";
  P 528 17 "custix";
  P 529 6 "irc";
  P 529 17 "irc";
  P 530 6 "courier";
  P 530 17 "courier";
  P 531 6 "conference";
  P 531 17 "conference";
  P 532 6 "netnews";
  P 532 17 "netnews";
  P 533 6 "netwall";
  P 533 17 "netwall";
  P 534 6 "mm-admin";
  P 534 17 "mm-admin";
  P 535 6 "iiop"].
Definition services_7 : list service := [
  P 535 17 "iiop";
  P 536 6 "opalis-rdv";
  P 536 17 "opalis-rdv";
  P 537 6 "nmsp";
  P 537 17 "nmsp";
  P 538 6 "gdomap";
  P 538 17 "gdomap";
  P 539 6 "apertus-ldp";
  P 539 17 "apertus-ldp";
  P 540 6 "uucp";
  P 540 17 "uucp";
  P 541 6 "uucp-rlogin";
  P 541 17 "uucp-rlogin";
  P 542 6 "commerce";
  P 542 17 "commerce";
  P 543 6 "klogin";
  P 543 17 "klogin";
  P 544 6 "kshell";
  P 544 17 "kshell";
  P 545 6 "ekshell";
  P 545 17 "appleqtcsrvr";
  P 546 6 "dhcpv6-client";
  P 546 17 "dhcpv6-client";
  P 547 6 "dhcpv6-server";
  P 547 17 "dhcpv6-server";
  P 548 6 "afp";
  P 548 17 "afp";
  P 549 6 "idfp";
  P 549 17 "idfp";
  P 550 6 "new-rwho";
  P 550 17 "new-rwho";
  P 551 6 "cybercash";
  P 551 17 "cybercash";
  P 552 6 "deviceshare";
  P 552 17 "deviceshare";
  P 553 6 "pirp";
  P 553 17 "pirp";
  P 554 6 "rtsp";
  P 554 17 "rtsp";
  P 555 6 "dsf";
  P 555 17 "dsf";
  P 556 6 "remotefs";
  P 556 17 "remotefs";
  P 557 6 "openvms-sysipc";
  P 557 17 "openvms-sysipc";
  P 558 6 "sdnskmp";
  P 558 17 "sdnskmp";
  P 559 6 "teedtap";
  P 559 17 "teedtap";
  P 560 6 "rmonitor";
  P 560 17 "rmonitor";
  P 561 6 "monitor";
  P 561 17 "monitor";
  P 562 6 "chshell";
  P 562 17 "chshell";
  P 563 6 "snews";
  P 563 17 "snews";
  P 564 6 "9pfs";
  P 564 17 "9pfs";
  P 565 6 "whoami";
  P 565 17 "whoami";
  P 566 6 "streettalk";
  P 566 17 "streettalk";
  P 567 6 "banyan-rpc";
  P 567 17 "banyan-rpc";
  P 568 6 "ms-shuttle";
  P 568 17 "ms-shuttle";
  P 569 6 "ms-rome";
  P 569 17 "ms-rome";
  P 570 6 "meter";
  P 570 17 "meter";
  P 571 6 "umeter";
  P 571 17 "umeter";
  P 572 6 "sonar";
  P 572 17 "sonar";
  P 573 6 "banyan-vip";
  P 573 17 "banyan-vip";
  P 574 6 "ftp-agent";
  P 574 17 "ftp-agent";
  P 575 6 "vemmi";
  P 575 17 "vemmi";
  P 576 6 "ipcd";
  P 576 17 "ipcd";
  P 577 6 "vnas";
  P 577 17 "vnas";
  P 578 6 "ipdd";
  P 578 17 "ipdd";
  P 579 6 "decbsrv";
  P 579 17 "decbsrv";
  P 580 6 "sntp-heartbeat";
  P 580 17 "sntp-heartbeat";
  P 581 6 "bdp";
  P 581 17 "bdp";
  P 582 6 "scc-security";
  P 582 17 "scc-security";
  P 583 6 "philips-vc";
  P 583 17 "philips-vc";
  P 584 6 "keyserver";
  P 584 17 "keyserver";
  P 585 6 "imap4-ssl";
  P 585 17 "imap4-ssl";
  P 586 6 "password-chg";
  P 586 17 "password-chg";
  P 587 6 "submission";
  P 587 17 "submission";
  P 588 6 "cal";
  P 588 17 "cal";
  P 589 6 "eyelink";
  P 589 17 "eyelink";
  P 590 6 "tns-cml";
  P 590 17 "tns-cml";
  P 591 6 "http-alt";
  P 591 17 "http-alt";
  P 592 6 "eudora-set";
  P 592 17 "eudora-set";
  P 593 6 "http-rpc-epmap";
  P 593 17 "http-rpc-epmap";
  P 594 6 "tpip";
  P 594 17 "tpip";
  P 595 6 "cab-protocol";
  P 595 17 "cab-protocol";
  P 596 6 "smsd";
  P 596 17 "smsd";
  P 597 6 "ptcnameservice";
  P 597 17 "ptcnameservice";
  P 598 6 "sco-websrvrmg3";
  P 598 17 "sco-websrvrmg3";
  P 599 6 "acp";
  P 599 17 "acp";
  P 600 6 "ipcserver";
  P 600 17 "ipcserver";
  P 601 6 "syslog-conn";
  P 601 17 "syslog-conn";
  P 602 6 "xmlrpc-beep";
  P 602 17 "xmlrpc-beep";
  P 603 6 "mnotes";
  P 603 17 "idxp";
  P 604 6 "tunnel";
  P 604 17 "tunnel";
  P 605 6 "soap-beep";
  P 605 17 "soap-beep";
  P 606 6 "urm";
  P 606 17 "urm";
  P 607 6 "nqs";
  P 607 17 "nqs";
  P 608 6 "sift-uft";
  P 608 17 "sift-uft";
  P 609 6 "npmp-trap";
  P 609 17 "npmp-trap";
  P 610 6 "npmp-local"].
Definition services_8 : list service := [
  P 610 17 "npmp-local";
  P 611 6 "npmp-gui";
  P 611 17 "npmp-gui";
  P 612 6 "hmmp-ind";
  P 612 17 "hmmp-ind";
  P 613 6 "hmmp-op";
  P 613 17 "hmmp-op";
  P 614 6 "sshell";
  P 614 17 "sshell";
  P 615 6 "sco-inetmgr";
  P 615 17 "sco-inetmgr";
  P 616 6 "sco-sysmgr";
  P 616 17 "sco-sysmgr";
  P 617 6 "sco-dtmgr";
  P 617 17 "sco-dtmgr";
  P 618 6 "dei-icda";
  P 618 17 "dei-icda";
  P 619 6 "compaq-evm";
  P 619 17 "compaq-evm";
  P 620 6 "sco-websrvrmgr";
  P 620 17 "sco-websrvrmgr";
  P 621 6 "escp-ip";
  P 621 17 "escp-ip";
  P 622 6 "collaborator";
  P 622 17 "collaborator";
  P 623 6 "oob-ws-http";
  P 623 17 "asf-rmcp";
  P 624 6 "cryptoadmin";
  P 624 17 "cryptoadmin";
  P 625 6 "apple-xsrvr-admin";
  P 625 17 "dec_dlm";
  P 626 6 "apple-imap-admin";
  P 626 17 "serialnumberd";
  P 627 6 "passgo-tivoli";
  P 627 17 "passgo-tivoli";
  P 628 6 "qmqp";
  P 628 17 "qmqp";
  P 629 6 "3com-amp3";
  P 629 17 "3com-amp3";
  P 630 6 "rda";
  P 630 17 "rda";
  P 631 6 "ipp";
  P 631 17 "ipp";
  P 632 6 "bmpp";
  P 632 17 "bmpp";
  P 633 6 "servstat";
  P 633 17 "servstat";
  P 634 6 "ginad";
  P 634 17 "ginad";
  P 635 6 "rlzdbase";
  P 635 17 "mount";
  P 636 6 "ldapssl";
  P 636 17 "ldaps";
  P 637 6 "lanserver";
  P 637 17 "lanserver";
  P 638 6 "mcns-sec";
  P 638 17 "mcns-sec";
  P 639 6 "msdp";
  P 639 17 "msdp";
  P 640 6 "entrust-sps";
  P 640 17 "pcnfs";
  P 641 6 "repcmd";
  P 641 17 "repcmd";
  P 642 6 "esro-emsdp";
  P 642 17 "esro-emsdp";
  P 643 6 "sanity";
  P 643 17 "sanity";
  P 644 6 "dwr";
  P 644 17 "dwr";
  P 645 6 "pssc";
  P 645 17 "pssc";
  P 646 6 "ldp";
  P 646 17 "ldp";
  P 647 6 "dhcp-failover";
  P 647 17 "dhcp-failover";
  P 648 6 "rrp";
  P 648 17 "rrp";
  P 649 6 "cadview-3d";
  P 649 17 "cadview-3d";
  P 650 6 "obex";
  P 650 17 "bwnfs";
  P 651 6 "ieee-mms";
  P 651 17 "ieee-mms";
  P 652 6 "hello-port";
  P 652 17 "hello-port";
  P 653 6 "repscmd";
  P 653 17 "repscmd";
  P 654 6 "aodv";
  P 654 17 "aodv";
  P 655 6 "tinc";
  P 655 17 "tinc";
  P 656 6 "spmp";
  P 656 17 "spmp";
  P 657 6 "rmc";
  P 657 17 "rmc";
  P 658 6 "tenfold";
  P 658 17 "tenfold";
  P 660 6 "mac-srvr-admin";
  P 660 17 "mac-srvr-admin";
  P 661 6 "hap";
  P 661 17 "hap";
  P 662 6 "pftp";
  P 662 17 "pftp";
  P 663 6 "purenoise";
  P 663 17 "purenoise";
  P 664 6 "secure-aux-bus";
  P 664 17 "secure-aux-bus";
  P 665 6 "sun-dr";
  P 665 17 "sun-dr";
  P 666 6 "doom";
  P 666 17 "doom";
  P 667 6 "disclose";
  P 667 17 "disclose";
  P 668 6 "mecomm";
  P 668 17 "mecomm";
  P 669 6 "meregister";
  P 669 17 "meregister";
  P 670 6 "vacdsm-sws";
  P 670 17 "vacdsm-sws";
  P 671 6 "vacdsm-app";
  P 671 17 "vacdsm-app";
  P 672 6 "vpps-qua";
  P 672 17 "vpps-qua";
  P 673 6 "cimplex";
  P 673 17 "cimplex";
  P 674 6 "acap";
  P 674 17 "acap";
  P 675 6 "dctp";
  P 675 17 "dctp";
  P 676 6 "vpps-via";
  P 676 17 "vpps-via";
  P 677 6 "vpp";
  P 677 17 "vpp";
  P 678 6 "ggf-ncp";
  P 678 17 "ggf-ncp";
  P 679 6 "mrm";
  P 679 17 "mrm";
  P 680 6 "entrust-aaas";
  P 680 17 "entrust-aaas";
  P 681 6 "entrust-aams";
  P 681 17 "entrust-aams";
  P 682 6 "xfr";
  P 682 17 "xfr";
  P 683 6 "corba-iiop";
  P 683 17 "corba-iiop";
  P 684 6 "corba-iiop-ssl";
  P 684 17 "corba-iiop-ssl";
  P 685 6 "mdc-portmapper";
  P 685 17 "mdc-portmapper";
  P 686 6 "hcp-wismar"].
Definition services_9 : list service := [
  P 686 17 "hcp-wismar";
  P 687 6 "asipregistry";
  P 687 17 "asipregistry";
  P 688 6 "realm-rusd";
  P 688 17 "realm-rusd";
  P 689 6 "nmap";
  P 689 17 "nmap";
  P 690 6 "vatp";
  P 690 17 "vatp";
  P 691 6 "resvc";
  P 691 17 "msexch-routing";
  P 692 6 "hyperwave-isp";
  P 692 17 "hyperwave-isp";
  P 693 6 "connendp";
  P 693 17 "connendp";
  P 694 6 "ha-cluster";
  P 694 17 "ha-cluster";
  P 695 6 "ieee-mms-ssl";
  P 695 17 "ieee-mms-ssl";
  P 696 6 "rushd";
  P 696 17 "rushd";
  P 697 6 "uuidgen";
  P 697 17 "uuidgen";
  P 698 6 "olsr";
  P 698 17 "olsr";
  P 699 6 "accessnetwork";
  P 699 17 "accessnetwork";
  P 700 6 "epp";
  P 700 17 "epp";
  P 701 6 "lmp";
  P 701 17 "lmp";
  P 702 6 "iris-beep";
  P 702 17 "iris-beep";
  P 704 6 "elcsd";
  P 704 17 "elcsd";
  P 705 6 "agentx";
  P 705 17 "agentx";
  P 706 6 "silc";
  P 706 17 "silc";
  P 707 6 "borland-dsj";
  P 707 17 "borland-dsj";
  P 709 6 "entrustmanager";
  P 709 17 "entrustmanager";
  P 710 6 "entrust-ash";
  P 710 17 "entrust-ash";
  P 711 6 "cisco-tdp";
  P 711 17 "cisco-tdp";
  P 712 6 "tbrpf";
  P 712 17 "tbrpf";
  P 713 6 "iris-xpc";
  P 713 17 "iris-xpc";
  P 714 6 "iris-xpcs";
  P 714 17 "iris-xpcs";
  P 715 6 "iris-lwz";
  P 715 17 "iris-lwz";
  P 716 6 "pana";
  P 716 17 "pana";
  P 723 6 "omfs";
  P 729 6 "netviewdm1";
  P 729 17 "netviewdm1";
  P 730 6 "netviewdm2";
  P 730 17 "netviewdm2";
  P 731 6 "netviewdm3";
  P 731 17 "netviewdm3";
  P 737 17 "sometimes-rpc2";
  P 740 6 "netcp";
  P 740 17 "netcp";
  P 741 6 "netgw";
  P 741 17 "netgw";
  P 742 6 "netrcs";
  P 742 17 "netrcs";
  P 744 6 "flexlm";
  P 744 17 "flexlm";
  P 747 6 "fujitsu-dev";
  P 747 17 "fujitsu-dev";
  P 748 6 "ris-cm";
  P 748 17 "ris-cm";
  P 749 6 "kerberos-adm";
  P 749 17 "kerberos-adm";
  P 750 6 "kerberos";
  P 750 17 "kerberos";
  P 751 6 "kerberos_master";
  P 751 17 "kerberos_master";
  P 752 6 "qrh";
  P 752 17 "qrh";
  P 753 6 "rrh";
  P 753 17 "rrh";
  P 754 6 "krb_prop";
  P 754 17 "tell";
  P 758 6 "nlogin";
  P 758 17 "nlogin";
  P 759 6 "con";
  P 759 17 "con";
  P 760 6 "krbupdate";
  P 760 17 "ns";
  P 761 6 "kpasswd";
  P 761 17 "rxe";
  P 762 6 "quotad";
  P 762 17 "quotad";
  P 763 6 "cycleserv";
  P 763 17 "cycleserv";
  P 764 6 "omserv";
  P 764 17 "omserv";
  P 765 6 "webster";
  P 765 17 "webster";
  P 767 6 "phonebook";
  P 767 17 "phonebook";
  P 769 6 "vid";
  P 769 17 "vid";
  P 770 6 "cadlock";
  P 770 17 "cadlock";
  P 771 6 "rtip";
  P 771 17 "rtip";
  P 772 6 "cycleserv2";
  P 772 17 "cycleserv2";
  P 773 6 "submit";
  P 773 17 "notify";
  P 774 6 "rpasswd";
  P 774 17 "acmaint_dbd";
  P 775 6 "entomb";
  P 775 17 "acmaint_transd";
  P 776 6 "wpages";
  P 776 17 "wpages";
  P 777 6 "multiling-http";
  P 777 17 "multiling-http";
  P 780 6 "wpgs";
  P 780 17 "wpgs";
  P 781 6 "hp-collector";
  P 781 17 "hp-collector";
  P 782 6 "hp-managed-node";
  P 782 17 "hp-managed-node";
  P 783 6 "spamassassin";
  P 786 6 "concert";
  P 786 17 "concert";
  P 787 6 "qsc";
  P 799 6 "controlit";
  P 800 6 "mdbs_daemon";
  P 800 17 "mdbs_daemon";
  P 801 6 "device";
  P 801 17 "device";
  P 802 6 "mbap-s";
  P 808 6 "ccproxy-http";
  P 810 6 "fcp-udp";
  P 810 17 "fcp-udp";
  P 828 6 "itm-mcell-s";
  P 828 17 "itm-mcell-s";
  P 829 6 "pkix-3-ca-ra";
  P 829 17 "pkix-3-ca-ra";
  P 830 6 "netconf-ssh";
  P 830 17 "netconf-ssh"].
Definition services_10 : list service := [
  P 831 6 "netconf-beep";
  P 831 17 "netconf-beep";
  P 832 6 "netconfsoaphttp";
  P 832 17 "netconfsoaphttp";
  P 833 6 "netconfsoapbeep";
  P 833 17 "netconfsoapbeep";
  P 847 6 "dhcp-failover2";
  P 847 17 "dhcp-failover2";
  P 848 6 "gdoi";
  P 848 17 "gdoi";
  P 853 6 "domain-s";
  P 854 6 "dlep";
  P 860 6 "iscsi";
  P 860 17 "iscsi";
  P 861 6 "owamp-control";
  P 861 17 "owamp-control";
  P 862 6 "twamp-control";
  P 862 17 "twamp-control";
  P 871 6 "supfilesrv";
  P 873 6 "rsync";
  P 873 17 "rsync";
  P 886 6 "iclcnet-locate";
  P 886 17 "iclcnet-locate";
  P 887 6 "iclcnet_svinfo";
  P 887 17 "iclcnet_svinfo";
  P 888 6 "accessbuilder";
  P 888 17 "accessbuilder";
  P 898 6 "sun-manageconsole";
  P 900 6 "omginitialrefs";
  P 900 17 "omginitialrefs";
  P 901 6 "samba-swat";
  P 901 17 "smpnameres";
  P 902 6 "iss-realsecure";
  P 902 17 "ideafarm-door";
  P 903 6 "iss-console-mgr";
  P 903 17 "ideafarm-panic";
  P 910 6 "kink";
  P 910 17 "kink";
  P 911 6 "xact-backup";
  P 911 17 "xact-backup";
  P 912 6 "apex-mesh";
  P 912 17 "apex-mesh";
  P 913 6 "apex-edge";
  P 913 17 "apex-edge";
  P 950 6 "oftep-rpc";
  P 953 6 "rndc";
  P 975 6 "securenetpro-sensor";
  P 989 6 "ftps-data";
  P 989 17 "ftps-data";
  P 990 6 "ftps";
  P 990 17 "ftps";
  P 991 6 "nas";
  P 991 17 "nas";
  P 992 6 "telnets";
  P 992 17 "telnets";
  P 993 6 "imaps";
  P 993 17 "imaps";
  P 994 6 "ircs";
  P 994 17 "ircs";
  P 995 6 "pop3s";
  P 995 17 "pop3s";
  P 996 6 "xtreelic";
  P 996 17 "vsinet";
  P 997 6 "maitrd";
  P 997 17 "maitrd";
  P 998 6 "busboy";
  P 998 17 "puparp";
  P 999 6 "garcon";
  P 999 17 "applix";
  P 1000 6 "cadlock";
  P 1000 17 "ock";
  P 1001 6 "webpush";
  P 1002 6 "windows-icfw";
  P 1008 6 "ufsd";
  P 1008 17 "ufsd";
  P 1010 6 "surf";
  P 1010 17 "surf";
  P 1012 17 "sometimes-rpc1";
  P 1021 6 "exp1";
  P 1021 17 "exp1";
  P 1022 6 "exp2";
  P 1022 17 "exp2";
  P 1023 6 "netvenuechat";
  P 1024 6 "kdm";
  P 1025 6 "NFS-or-IIS";
  P 1025 17 "blackjack";
  P 1026 6 "LSA-or-nterm";
  P 1026 17 "win-rpc";
  P 1027 6 "IIS";
  P 1028 17 "ms-lsa";
  P 1029 6 "ms-lsa";
  P 1029 17 "solid-mux";
  P 1030 6 "iad1";
  P 1030 17 "iad1";
  P 1031 6 "iad2";
  P 1031 17 "iad2";
  P 1032 6 "iad3";
  P 1032 17 "iad3";
  P 1033 6 "netinfo";
  P 1033 17 "netinfo-local";
  P 1034 6 "zincite-a";
  P 1034 17 "activesync-notify";
  P 1035 6 "multidropper";
  P 1035 17 "mxxrlogin";
  P 1036 6 "nsstp";
  P 1036 17 "nsstp";
  P 1037 6 "ams";
  P 1037 17 "ams";
  P 1038 6 "mtqp";
  P 1038 17 "mtqp";
  P 1039 6 "sbl";
  P 1039 17 "sbl";
  P 1040 6 "netsaint";
  P 1040 17 "netarx";
  P 1041 6 "danf-ak2";
  P 1041 17 "danf-ak2";
  P 1042 6 "afrog";
  P 1042 17 "afrog";
  P 1043 6 "boinc";
  P 1043 17 "boinc";
  P 1044 6 "dcutility";
  P 1044 17 "dcutility";
  P 1045 6 "fpitp";
  P 1045 17 "fpitp";
  P 1046 6 "wfremotertm";
  P 1046 17 "wfremotertm";
  P 1047 6 "neod1";
  P 1047 17 "neod1";
  P 1048 6 "neod2";
  P 1048 17 "neod2";
  P 1049 6 "td-postman";
  P 1049 17 "td-postman";
  P 1050 6 "java-or-OTGfileshare";
  P 1050 17 "cma";
  P 1051 6 "optima-vnet";
  P 1051 17 "optima-vnet";
  P 1052 6 "ddt";
  P 1052 17 "ddt";
  P 1053 6 "remote-as";
  P 1053 17 "remote-as";
  P 1054 6 "brvread";
  P 1054 17 "brvread";
  P 1055 6 "ansyslmd";
  P 1055 17 "ansyslmd";
  P 1056 6 "vfo";
  P 1056 17 "vfo";
  P 1057 6 "startron";
  P 1057 17 "startron";
  P 1058 6 "nim";
  P 1058 17 "nim"].
Definition services_11 : list service := [
  P 1059 6 "nimreg";
  P 1059 17 "nimreg";
  P 1060 6 "polestar";
  P 1060 17 "polestar";
  P 1061 6 "kiosk";
  P 1061 17 "kiosk";
  P 1062 6 "veracity";
  P 1062 17 "veracity";
  P 1063 6 "kyoceranetdev";
  P 1063 17 "kyoceranetdev";
  P 1064 6 "jstel";
  P 1064 17 "jstel";
  P 1065 6 "syscomlan";
  P 1065 17 "syscomlan";
  P 1066 6 "fpo-fns";
  P 1066 17 "fpo-fns";
  P 1067 6 "instl_boots";
  P 1067 17 "instl_boots";
  P 1068 6 "instl_bootc";
  P 1068 17 "instl_bootc";
  P 1069 6 "cognex-insight";
  P 1069 17 "cognex-insight";
  P 1070 6 "gmrupdateserv";
  P 1070 17 "gmrupdateserv";
  P 1071 6 "bsquare-voip";
  P 1071 17 "bsquare-voip";
  P 1072 6 "cardax";
  P 1072 17 "cardax";
  P 1073 6 "bridgecontrol";
  P 1073 17 "bridgecontrol";
  P 1074 6 "warmspotMgmt";
  P 1074 17 "warmspotMgmt";
  P 1075 6 "rdrmshc";
  P 1075 17 "rdrmshc";
  P 1076 6 "sns_credit";
  P 1076 17 "dab-sti-c";
  P 1077 6 "imgames";
  P 1077 17 "imgames";
  P 1078 6 "avocent-proxy";
  P 1078 17 "avocent-proxy";
  P 1079 6 "asprovatalk";
  P 1079 17 "asprovatalk";
  P 1080 6 "socks";
  P 1080 17 "socks";
  P 1081 6 "pvuniwien";
  P 1081 17 "pvuniwien";
  P 1082 6 "amt-esd-prot";
  P 1082 17 "amt-esd-prot";
  P 1083 6 "ansoft-lm-1";
  P 1083 17 "ansoft-lm-1";
  P 1084 6 "ansoft-lm-2";
  P 1084 17 "ansoft-lm-2";
  P 1085 6 "webobjects";
  P 1085 17 "webobjects";
  P 1086 6 "cplscrambler-lg";
  P 1086 17 "cplscrambler-lg";
  P 1087 6 "cplscrambler-in";
  P 1087 17 "cplscrambler-in";
  P 1088 6 "cplscrambler-al";
  P 1088 17 "cplscrambler-al";
  P 1089 6 "ff-annunc";
  P 1089 17 "ff-annunc";
  P 1090 6 "ff-fms";
  P 1090 17 "ff-fms";
  P 1091 6 "ff-sm";
  P 1091 17 "ff-sm";
  P 1092 6 "obrpd";
  P 1092 17 "obrpd";
  P 1093 6 "proofd";
  P 1093 17 "proofd";
  P 1094 6 "rootd";
  P 1094 17 "rootd";
  P 1095 6 "nicelink";
  P 1095 17 "nicelink";
  P 1096 6 "cnrprotocol";
  P 1096 17 "cnrprotocol";
  P 1097 6 "sunclustermgr";
  P 1097 17 "sunclustermgr";
  P 1098 6 "rmiactivation";
  P 1098 17 "rmiactivation";
  P 1099 6 "rmiregistry";
  P 1099 17 "rmiregistry";
  P 1100 6 "mctp";
  P 1100 17 "mctp";
  P 1101 6 "pt2-discover";
  P 1101 17 "pt2-discover";
  P 1102 6 "adobeserver-1";
  P 1102 17 "adobeserver-1";
  P 1103 6 "xaudio";
  P 1103 17 "adobeserver-2";
  P 1104 6 "xrl";
  P 1104 17 "xrl";
  P 1105 6 "ftranhc";
  P 1105 17 "ftranhc";
  P 1106 6 "isoipsigport-1";
  P 1106 17 "isoipsigport-1";
  P 1107 6 "isoipsigport-2";
  P 1107 17 "isoipsigport-2";
  P 1108 6 "ratio-adp";
  P 1108 17 "ratio-adp";
  P 1109 6 "kpop";
  P 1110 6 "nfsd-status";
  P 1110 17 "nfsd-keepalive";
  P 1111 6 "lmsocialserver";
  P 1111 17 "lmsocialserver";
  P 1112 6 "msql";
  P 1112 17 "icp";
  P 1113 6 "ltp-deepspace";
  P 1113 17 "ltp-deepspace";
  P 1114 6 "mini-sql";
  P 1114 17 "mini-sql";
  P 1115 6 "ardus-trns";
  P 1115 17 "ardus-trns";
  P 1116 6 "ardus-cntl";
  P 1116 17 "ardus-cntl";
  P 1117 6 "ardus-mtrns";
  P 1117 17 "ardus-mtrns";
  P 1118 6 "sacred";
  P 1118 17 "sacred";
  P 1119 6 "bnetgame";
  P 1119 17 "bnetgame";
  P 1120 6 "bnetfile";
  P 1120 17 "bnetfile";
  P 1121 6 "rmpp";
  P 1121 17 "rmpp";
  P 1122 6 "availant-mgr";
  P 1122 17 "availant-mgr";
  P 1123 6 "murray";
  P 1123 17 "murray";
  P 1124 6 "hpvmmcontrol";
  P 1124 17 "hpvmmcontrol";
  P 1125 6 "hpvmmagent";
  P 1125 17 "hpvmmagent";
  P 1126 6 "hpvmmdata";
  P 1126 17 "hpvmmdata";
  P 1127 6 "supfiledbg";
  P 1127 17 "kwdb-commn";
  P 1128 6 "saphostctrl";
  P 1128 17 "saphostctrl";
  P 1129 6 "saphostctrls";
  P 1129 17 "saphostctrls";
  P 1130 6 "casp";
  P 1130 17 "casp";
  P 1131 6 "caspssl";
  P 1131 17 "caspssl";
  P 1132 6 "kvm-via-ip";
  P 1132 17 "kvm-via-ip";
  P 1133 6 "dfn";
  P 1133 17 "dfn";
  P 1134 6 "aplx"].
Definition services_12 : list service := [
  P 1134 17 "aplx";
  P 1135 6 "omnivision";
  P 1135 17 "omnivision";
  P 1136 6 "hhb-gateway";
  P 1136 17 "hhb-gateway";
  P 1137 6 "trim";
  P 1137 17 "trim";
  P 1138 6 "encrypted_admin";
  P 1138 17 "encrypted_admin";
  P 1139 6 "cce3x";
  P 1139 17 "evm";
  P 1140 6 "autonoc";
  P 1140 17 "autonoc";
  P 1141 6 "mxomss";
  P 1141 17 "mxomss";
  P 1142 6 "edtools";
  P 1142 17 "edtools";
  P 1143 6 "imyx";
  P 1143 17 "imyx";
  P 1144 6 "fuscript";
  P 1144 17 "fuscript";
  P 1145 6 "x9-icue";
  P 1145 17 "x9-icue";
  P 1146 6 "audit-transfer";
  P 1146 17 "audit-transfer";
  P 1147 6 "capioverlan";
  P 1147 17 "capioverlan";
  P 1148 6 "elfiq-repl";
  P 1148 17 "elfiq-repl";
  P 1149 6 "bvtsonar";
  P 1149 17 "bvtsonar";
  P 1150 6 "blaze";
  P 1150 17 "blaze";
  P 1151 6 "unizensus";
  P 1151 17 "unizensus";
  P 1152 6 "winpoplanmess";
  P 1152 17 "winpoplanmess";
  P 1153 6 "c1222-acse";
  P 1153 17 "c1222-acse";
  P 1154 6 "resacommunity";
  P 1154 17 "resacommunity";
  P 1155 6 "nfa";
  P 1155 17 "nfa";
  P 1156 6 "iascontrol-oms";
  P 1156 17 "iascontrol-oms";
  P 1157 6 "iascontrol";
  P 1157 17 "iascontrol";
  P 1158 6 "lsnr";
  P 1158 17 "dbcontrol-oms";
  P 1159 6 "oracle-oms";
  P 1159 17 "oracle-oms";
  P 1160 6 "olsv";
  P 1160 17 "olsv";
  P 1161 6 "health-polling";
  P 1161 17 "health-polling";
  P 1162 6 "health-trap";
  P 1162 17 "health-trap";
  P 1163 6 "sddp";
  P 1163 17 "sddp";
  P 1164 6 "qsm-proxy";
  P 1164 17 "qsm-proxy";
  P 1165 6 "qsm-gui";
  P 1165 17 "qsm-gui";
  P 1166 6 "qsm-remote";
  P 1166 17 "qsm-remote";
  P 1167 132 "cisco-ipsla";
  P 1167 6 "cisco-ipsla";
  P 1167 17 "cisco-ipsla";
  P 1168 6 "vchat";
  P 1168 17 "vchat";
  P 1169 6 "tripwire";
  P 1169 17 "tripwire";
  P 1170 6 "atc-lm";
  P 1170 17 "atc-lm";
  P 1171 6 "atc-appserver";
  P 1171 17 "atc-appserver";
  P 1172 6 "dnap";
  P 1172 17 "dnap";
  P 1173 6 "d-cinema-rrp";
  P 1173 17 "d-cinema-rrp";
  P 1174 6 "fnet-remote-ui";
  P 1174 17 "fnet-remote-ui";
  P 1175 6 "dossier";
  P 1175 17 "dossier";
  P 1176 6 "indigo-server";
  P 1176 17 "indigo-server";
  P 1177 6 "dkmessenger";
  P 1177 17 "dkmessenger";
  P 1178 6 "skkserv";
  P 1178 17 "sgi-storman";
  P 1179 6 "b2n";
  P 1179 17 "b2n";
  P 1180 6 "mc-client";
  P 1180 17 "mc-client";
  P 1181 6 "3comnetman";
  P 1181 17 "3comnetman";
  P 1182 6 "accelenet";
  P 1182 17 "accelenet-data";
  P 1183 6 "llsurfup-http";
  P 1183 17 "llsurfup-http";
  P 1184 6 "llsurfup-https";
  P 1184 17 "llsurfup-https";
  P 1185 6 "catchpole";
  P 1185 17 "catchpole";
  P 1186 6 "mysql-cluster";
  P 1186 17 "mysql-cluster";
  P 1187 6 "alias";
  P 1187 17 "alias";
  P 1188 6 "hp-webadmin";
  P 1188 17 "hp-webadmin";
  P 1189 6 "unet";
  P 1189 17 "unet";
  P 1190 6 "commlinx-avl";
  P 1190 17 "commlinx-avl";
  P 1191 6 "gpfs";
  P 1191 17 "gpfs";
  P 1192 6 "caids-sensor";
  P 1192 17 "caids-sensor";
  P 1193 6 "fiveacross";
  P 1193 17 "fiveacross";
  P 1194 6 "openvpn";
  P 1194 17 "openvpn";
  P 1195 6 "rsf-1";
  P 1195 17 "rsf-1";
  P 1196 6 "netmagic";
  P 1196 17 "netmagic";
  P 1197 6 "carrius-rshell";
  P 1197 17 "carrius-rshell";
  P 1198 6 "cajo-discovery";
  P 1198 17 "cajo-discovery";
  P 1199 6 "dmidi";
  P 1199 17 "dmidi";
  P 1200 6 "scol";
  P 1200 17 "scol";
  P 1201 6 "nucleus-sand";
  P 1201 17 "nucleus-sand";
  P 1202 6 "caiccipc";
  P 1202 17 "caiccipc";
  P 1203 6 "ssslic-mgr";
  P 1203 17 "ssslic-mgr";
  P 1204 6 "ssslog-mgr";
  P 1204 17 "ssslog-mgr";
  P 1205 6 "accord-mgc";
  P 1205 17 "accord-mgc";
  P 1206 6 "anthony-data";
  P 1206 17 "anthony-data";
  P 1207 6 "metasage";
  P 1207 17 "metasage";
  P 1208 6 "seagull-ais";
  P 1208 17 "seagull-ais"].
Definition services_13 : list service := [
  P 1209 6 "ipcd3";
  P 1209 17 "ipcd3";
  P 1210 6 "eoss";
  P 1210 17 "eoss";
  P 1211 6 "groove-dpp";
  P 1211 17 "groove-dpp";
  P 1212 6 "lupa";
  P 1212 17 "lupa";
  P 1213 6 "mpc-lifenet";
  P 1213 17 "mpc-lifenet";
  P 1214 6 "fasttrack";
  P 1214 17 "fasttrack";
  P 1215 6 "scanstat-1";
  P 1215 17 "scanstat-1";
  P 1216 6 "etebac5";
  P 1216 17 "etebac5";
  P 1217 6 "hpss-ndapi";
  P 1217 17 "hpss-ndapi";
  P 1218 6 "aeroflight-ads";
  P 1218 17 "aeroflight-ads";
  P 1219 6 "aeroflight-ret";
  P 1219 17 "aeroflight-ret";
  P 1220 6 "quicktime";
  P 1220 17 "qt-serveradmin";
  P 1221 6 "sweetware-apps";
  P 1221 17 "sweetware-apps";
  P 1222 6 "nerv";
  P 1222 17 "nerv";
  P 1223 6 "tgp";
  P 1223 17 "tgp";
  P 1224 6 "vpnz";
  P 1224 17 "vpnz";
  P 1225 6 "slinkysearch";
  P 1225 17 "slinkysearch";
  P 1226 6 "stgxfws";
  P 1226 17 "stgxfws";
  P 1227 6 "dns2go";
  P 1227 17 "dns2go";
  P 1228 6 "florence";
  P 1228 17 "florence";
  P 1229 6 "zented";
  P 1229 17 "zented";
  P 1230 6 "periscope";
  P 1230 17 "periscope";
  P 1231 6 "menandmice-lpm";
  P 1231 17 "menandmice-lpm";
  P 1232 6 "first-defense";
  P 1233 6 "univ-appserver";
  P 1233 17 "univ-appserver";
  P 1234 6 "hotline";
  P 1234 17 "search-agent";
  P 1235 6 "mosaicsyssvc1";
  P 1235 17 "mosaicsyssvc1";
  P 1236 6 "bvcontrol";
  P 1236 17 "bvcontrol";
  P 1237 6 "tsdos390";
  P 1237 17 "tsdos390";
  P 1238 6 "hacl-qs";
  P 1238 17 "hacl-qs";
  P 1239 6 "nmsd";
  P 1239 17 "nmsd";
  P 1240 6 "instantia";
  P 1240 17 "instantia";
  P 1241 6 "nessus";
  P 1241 17 "nessus";
  P 1242 6 "nmasoverip";
  P 1242 17 "nmasoverip";
  P 1243 6 "serialgateway";
  P 1243 17 "serialgateway";
  P 1244 6 "isbconference1";
  P 1244 17 "isbconference1";
  P 1245 6 "isbconference2";
  P 1245 17 "isbconference2";
  P 1246 6 "payrouter";
  P 1246 17 "payrouter";
  P 1247 6 "visionpyramid";
  P 1247 17 "visionpyramid";
  P 1248 6 "hermes";
  P 1248 17 "hermes";
  P 1249 6 "mesavistaco";
  P 1249 17 "mesavistaco";
  P 1250 6 "swldy-sias";
  P 1250 17 "swldy-sias";
  P 1251 6 "servergraph";
  P 1251 17 "servergraph";
  P 1252 6 "bspne-pcc";
  P 1252 17 "bspne-pcc";
  P 1253 6 "q55-pcc";
  P 1253 17 "q55-pcc";
  P 1254 6 "de-noc";
  P 1254 17 "de-noc";
  P 1255 6 "de-cache-query";
  P 1255 17 "de-cache-query";
  P 1256 6 "de-server";
  P 1256 17 "de-server";
  P 1257 6 "shockwave2";
  P 1257 17 "shockwave2";
  P 1258 6 "opennl";
  P 1258 17 "opennl";
  P 1259 6 "opennl-voice";
  P 1259 17 "opennl-voice";
  P 1260 6 "ibm-ssd";
  P 1260 17 "ibm-ssd";
  P 1261 6 "mpshrsv";
  P 1261 17 "mpshrsv";
  P 1262 6 "qnts-orb";
  P 1262 17 "qnts-orb";
  P 1263 6 "dka";
  P 1263 17 "dka";
  P 1264 6 "prat";
  P 1264 17 "prat";
  P 1265 6 "dssiapi";
  P 1265 17 "dssiapi";
  P 1266 6 "dellpwrappks";
  P 1266 17 "dellpwrappks";
  P 1267 6 "epc";
  P 1267 17 "epc";
  P 1268 6 "propel-msgsys";
  P 1268 17 "propel-msgsys";
  P 1269 6 "watilapp";
  P 1269 17 "watilapp";
  P 1270 6 "ssserver";
  P 1270 17 "opsmgr";
  P 1271 6 "excw";
  P 1271 17 "excw";
  P 1272 6 "cspmlockmgr";
  P 1272 17 "cspmlockmgr";
  P 1273 6 "emc-gateway";
  P 1273 17 "emc-gateway";
  P 1274 6 "t1distproc";
  P 1274 17 "t1distproc";
  P 1275 6 "ivcollector";
  P 1275 17 "ivcollector";
  P 1276 6 "ivmanager";
  P 1276 17 "ivmanager";
  P 1277 6 "miva-mqs";
  P 1277 17 "miva-mqs";
  P 1278 6 "dellwebadmin-1";
  P 1278 17 "dellwebadmin-1";
  P 1279 6 "dellwebadmin-2";
  P 1279 17 "dellwebadmin-2";
  P 1280 6 "pictrography";
  P 1280 17 "pictrography";
  P 1281 6 "healthd";
  P 1281 17 "healthd";
  P 1282 6 "emperion";
  P 1282 17 "emperion";
  P 1283 6 "productinfo";
  P 1283 17 "productinfo";
  P 1284 6 "iee-qfx"].
Definition services_14 : list service := [
  P 1284 17 "iee-qfx";
  P 1285 6 "neoiface";
  P 1285 17 "neoiface";
  P 1286 6 "netuitive";
  P 1286 17 "netuitive";
  P 1287 6 "routematch";
  P 1287 17 "routematch";
  P 1288 6 "navbuddy";
  P 1288 17 "navbuddy";
  P 1289 6 "jwalkserver";
  P 1289 17 "jwalkserver";
  P 1290 6 "winjaserver";
  P 1290 17 "winjaserver";
  P 1291 6 "seagulllms";
  P 1291 17 "seagulllms";
  P 1292 6 "dsdn";
  P 1292 17 "dsdn";
  P 1293 6 "pkt-krb-ipsec";
  P 1293 17 "pkt-krb-ipsec";
  P 1294 6 "cmmdriver";
  P 1294 17 "cmmdriver";
  P 1295 6 "ehtp";
  P 1295 17 "ehtp";
  P 1296 6 "dproxy";
  P 1296 17 "dproxy";
  P 1297 6 "sdproxy";
  P 1297 17 "sdproxy";
  P 1298 6 "lpcp";
  P 1298 17 "lpcp";
  P 1299 6 "hp-sci";
  P 1299 17 "hp-sci";
  P 1300 6 "h323hostcallsc";
  P 1300 17 "h323hostcallsc";
  P 1301 6 "ci3-software-1";
  P 1301 17 "ci3-software-1";
  P 1302 6 "ci3-software-2";
  P 1302 17 "ci3-software-2";
  P 1303 6 "sftsrv";
  P 1303 17 "sftsrv";
  P 1304 6 "boomerang";
  P 1304 17 "boomerang";
  P 1305 6 "pe-mike";
  P 1305 17 "pe-mike";
  P 1306 6 "re-conn-proto";
  P 1306 17 "re-conn-proto";
  P 1307 6 "pacmand";
  P 1307 17 "pacmand";
  P 1308 6 "odsi";
  P 1308 17 "odsi";
  P 1309 6 "jtag-server";
  P 1309 17 "jtag-server";
  P 1310 6 "husky";
  P 1310 17 "husky";
  P 1311 6 "rxmon";
  P 1311 17 "rxmon";
  P 1312 6 "sti-envision";
  P 1312 17 "sti-envision";
  P 1313 6 "bmc_patroldb";
  P 1313 17 "bmc_patroldb";
  P 1314 6 "pdps";
  P 1314 17 "pdps";
  P 1315 6 "els";
  P 1315 17 "els";
  P 1316 6 "exbit-escp";
  P 1316 17 "exbit-escp";
  P 1317 6 "vrts-ipcserver";
  P 1317 17 "vrts-ipcserver";
  P 1318 6 "krb5gatekeeper";
  P 1318 17 "krb5gatekeeper";
  P 1319 6 "amx-icsp";
  P 1319 17 "amx-icsp";
  P 1320 6 "amx-axbnet";
  P 1320 17 "amx-axbnet";
  P 1321 6 "pip";
  P 1321 17 "pip";
  P 1322 6 "novation";
  P 1322 17 "novation";
  P 1323 6 "brcd";
  P 1323 17 "brcd";
  P 1324 6 "delta-mcp";
  P 1324 17 "delta-mcp";
  P 1325 6 "dx-instrument";
  P 1325 17 "dx-instrument";
  P 1326 6 "wimsic";
  P 1326 17 "wimsic";
  P 1327 6 "ultrex";
  P 1327 17 "ultrex";
  P 1328 6 "ewall";
  P 1328 17 "ewall";
  P 1329 6 "netdb-export";
  P 1329 17 "netdb-export";
  P 1330 6 "streetperfect";
  P 1330 17 "streetperfect";
  P 1331 6 "intersan";
  P 1331 17 "intersan";
  P 1332 6 "pcia-rxp-b";
  P 1332 17 "pcia-rxp-b";
  P 1333 6 "passwrd-policy";
  P 1333 17 "passwrd-policy";
  P 1334 6 "writesrv";
  P 1334 17 "writesrv";
  P 1335 6 "digital-notary";
  P 1335 17 "digital-notary";
  P 1336 6 "ischat";
  P 1336 17 "ischat";
  P 1337 6 "waste";
  P 1337 17 "menandmice-dns";
  P 1338 6 "wmc-log-svc";
  P 1338 17 "wmc-log-svc";
  P 1339 6 "kjtsiteserver";
  P 1339 17 "kjtsiteserver";
  P 1340 6 "naap";
  P 1340 17 "naap";
  P 1341 6 "qubes";
  P 1341 17 "qubes";
  P 1342 6 "esbroker";
  P 1342 17 "esbroker";
  P 1343 6 "re101";
  P 1343 17 "re101";
  P 1344 6 "icap";
  P 1344 17 "icap";
  P 1345 6 "vpjp";
  P 1345 17 "vpjp";
  P 1346 6 "alta-ana-lm";
  P 1346 17 "alta-ana-lm";
  P 1347 6 "bbn-mmc";
  P 1347 17 "bbn-mmc";
  P 1348 6 "bbn-mmx";
  P 1348 17 "bbn-mmx";
  P 1349 6 "sbook";
  P 1349 17 "sbook";
  P 1350 6 "editbench";
  P 1350 17 "editbench";
  P 1351 6 "equationbuilder";
  P 1351 17 "equationbuilder";
  P 1352 6 "lotusnotes";
  P 1352 17 "lotusnotes";
  P 1353 6 "relief";
  P 1353 17 "relief";
  P 1354 6 "rightbrain";
  P 1354 17 "rightbrain";
  P 1355 6 "intuitive-edge";
  P 1355 17 "intuitive-edge";
  P 1356 6 "cuillamartin";
  P 1356 17 "cuillamartin";
  P 1357 6 "pegboard";
  P 1357 17 "pegboard";
  P 1358 6 "connlcli";
  P 1358 17 "connlcli";
  P 1359 6 "ftsrv"].
Definition services_15 : list service := [
  P 1359 17 "ftsrv";
  P 1360 6 "mimer";
  P 1360 17 "mimer";
  P 1361 6 "linx";
  P 1361 17 "linx";
  P 1362 6 "timeflies";
  P 1362 17 "timeflies";
  P 1363 6 "ndm-requester";
  P 1363 17 "ndm-requester";
  P 1364 6 "ndm-server";
  P 1364 17 "ndm-server";
  P 1365 6 "adapt-sna";
  P 1365 17 "adapt-sna";
  P 1366 6 "netware-csp";
  P 1366 17 "netware-csp";
  P 1367 6 "dcs";
  P 1367 17 "dcs";
  P 1368 6 "screencast";
  P 1368 17 "screencast";
  P 1369 6 "gv-us";
  P 1369 17 "gv-us";
  P 1370 6 "us-gv";
  P 1370 17 "us-gv";
  P 1371 6 "fc-cli";
  P 1371 17 "fc-cli";
  P 1372 6 "fc-ser";
  P 1372 17 "fc-ser";
  P 1373 6 "chromagrafx";
  P 1373 17 "chromagrafx";
  P 1374 6 "molly";
  P 1374 17 "molly";
  P 1375 6 "bytex";
  P 1375 17 "bytex";
  P 1376 6 "ibm-pps";
  P 1376 17 "ibm-pps";
  P 1377 6 "cichlid";
  P 1377 17 "cichlid";
  P 1378 6 "elan";
  P 1378 17 "elan";
  P 1379 6 "dbreporter";
  P 1379 17 "dbreporter";
  P 1380 6 "telesis-licman";
  P 1380 17 "telesis-licman";
  P 1381 6 "apple-licman";
  P 1381 17 "apple-licman";
  P 1382 6 "udt_os";
  P 1382 17 "udt_os";
  P 1383 6 "gwha";
  P 1383 17 "gwha";
  P 1384 6 "os-licman";
  P 1384 17 "os-licman";
  P 1385 6 "atex_elmd";
  P 1385 17 "atex_elmd";
  P 1386 6 "checksum";
  P 1386 17 "checksum";
  P 1387 6 "cadsi-lm";
  P 1387 17 "cadsi-lm";
  P 1388 6 "objective-dbc";
  P 1388 17 "objective-dbc";
  P 1389 6 "iclpv-dm";
  P 1389 17 "iclpv-dm";
  P 1390 6 "iclpv-sc";
  P 1390 17 "iclpv-sc";
  P 1391 6 "iclpv-sas";
  P 1391 17 "iclpv-sas";
  P 1392 6 "iclpv-pm";
  P 1392 17 "iclpv-pm";
  P 1393 6 "iclpv-nls";
  P 1393 17 "iclpv-nls";
  P 1394 6 "iclpv-nlc";
  P 1394 17 "iclpv-nlc";
  P 1395 6 "iclpv-wsm";
  P 1395 17 "iclpv-wsm";
  P 1396 6 "dvl-activemail";
  P 1396 17 "dvl-activemail";
  P 1397 6 "audio-activmail";
  P 1397 17 "audio-activmail";
  P 1398 6 "video-activmail";
  P 1398 17 "video-activmail";
  P 1399 6 "cadkey-licman";
  P 1399 17 "cadkey-licman";
  P 1400 6 "cadkey-tablet";
  P 1400 17 "cadkey-tablet";
  P 1401 6 "goldleaf-licman";
  P 1401 17 "goldleaf-licman";
  P 1402 6 "prm-sm-np";
  P 1402 17 "prm-sm-np";
  P 1403 6 "prm-nm-np";
  P 1403 17 "prm-nm-np";
  P 1404 6 "igi-lm";
  P 1404 17 "igi-lm";
  P 1405 6 "ibm-res";
  P 1405 17 "ibm-res";
  P 1406 6 "netlabs-lm";
  P 1406 17 "netlabs-lm";
  P 1407 6 "dbsa-lm";
  P 1407 17 "dbsa-lm";
  P 1408 6 "sophia-lm";
  P 1408 17 "sophia-lm";
  P 1409 6 "here-lm";
  P 1409 17 "here-lm";
  P 1410 6 "hiq";
  P 1410 17 "hiq";
  P 1411 6 "af";
  P 1411 17 "af";
  P 1412 6 "innosys";
  P 1412 17 "innosys";
  P 1413 6 "innosys-acl";
  P 1413 17 "innosys-acl";
  P 1414 6 "ibm-mqseries";
  P 1414 17 "ibm-mqseries";
  P 1415 6 "dbstar";
  P 1415 17 "dbstar";
  P 1416 6 "novell-lu6.2";
  P 1416 17 "novell-lu6.2";
  P 1417 6 "timbuktu-srv1";
  P 1417 17 "timbuktu-srv1";
  P 1418 6 "timbuktu-srv2";
  P 1418 17 "timbuktu-srv2";
  P 1419 6 "timbuktu-srv3";
  P 1419 17 "timbuktu-srv3";
  P 1420 6 "timbuktu-srv4";
  P 1420 17 "timbuktu-srv4";
  P 1421 6 "gandalf-lm";
  P 1421 17 "gandalf-lm";
  P 1422 6 "autodesk-lm";
  P 1422 17 "autodesk-lm";
  P 1423 6 "essbase";
  P 1423 17 "essbase";
  P 1424 6 "hybrid";
  P 1424 17 "hybrid";
  P 1425 6 "zion-lm";
  P 1425 17 "zion-lm";
  P 1426 6 "sas-1";
  P 1426 17 "sas-1";
  P 1427 6 "mloadd";
  P 1427 17 "mloadd";
  P 1428 6 "informatik-lm";
  P 1428 17 "informatik-lm";
  P 1429 6 "nms";
  P 1429 17 "nms";
  P 1430 6 "tpdu";
  P 1430 17 "tpdu";
  P 1431 6 "rgtp";
  P 1431 17 "rgtp";
  P 1432 6 "blueberry-lm";
  P 1432 17 "blueberry-lm";
  P 1433 6 "ms-sql-s";
  P 1433 17 "ms-sql-s";
  P 1434 6 "ms-sql-m"].
Definition services_16 : list service := [
  P 1434 17 "ms-sql-m";
  P 1435 6 "ibm-cics";
  P 1435 17 "ibm-cics";
  P 1436 6 "sas-2";
  P 1436 17 "sas-2";
  P 1437 6 "tabula";
  P 1437 17 "tabula";
  P 1438 6 "eicon-server";
  P 1438 17 "eicon-server";
  P 1439 6 "eicon-x25";
  P 1439 17 "eicon-x25";
  P 1440 6 "eicon-slp";
  P 1440 17 "eicon-slp";
  P 1441 6 "cadis-1";
  P 1441 17 "cadis-1";
  P 1442 6 "cadis-2";
  P 1442 17 "cadis-2";
  P 1443 6 "ies-lm";
  P 1443 17 "ies-lm";
  P 1444 6 "marcam-lm";
  P 1444 17 "marcam-lm";
  P 1445 6 "proxima-lm";
  P 1445 17 "proxima-lm";
  P 1446 6 "ora-lm";
  P 1446 17 "ora-lm";
  P 1447 6 "apri-lm";
  P 1447 17 "apri-lm";
  P 1448 6 "oc-lm";
  P 1448 17 "oc-lm";
  P 1449 6 "peport";
  P 1449 17 "peport";
  P 1450 6 "dwf";
  P 1450 17 "dwf";
  P 1451 6 "infoman";
  P 1451 17 "infoman";
  P 1452 6 "gtegsc-lm";
  P 1452 17 "gtegsc-lm";
  P 1453 6 "genie-lm";
  P 1453 17 "genie-lm";
  P 1454 6 "interhdl_elmd";
  P 1454 17 "interhdl_elmd";
  P 1455 6 "esl-lm";
  P 1455 17 "esl-lm";
  P 1456 6 "dca";
  P 1456 17 "dca";
  P 1457 6 "valisys-lm";
  P 1457 17 "valisys-lm";
  P 1458 6 "nrcabq-lm";
  P 1458 17 "nrcabq-lm";
  P 1459 6 "proshare1";
  P 1459 17 "proshare1";
  P 1460 6 "proshare2";
  P 1460 17 "proshare2";
  P 1461 6 "ibm_wrless_lan";
  P 1461 17 "ibm_wrless_lan";
  P 1462 6 "world-lm";
  P 1462 17 "world-lm";
  P 1463 6 "nucleus";
  P 1463 17 "nucleus";
  P 1464 6 "msl_lmd";
  P 1464 17 "msl_lmd";
  P 1465 6 "pipes";
  P 1465 17 "pipes";
  P 1466 6 "oceansoft-lm";
  P 1466 17 "oceansoft-lm";
  P 1467 6 "csdmbase";
  P 1467 17 "csdmbase";
  P 1468 6 "csdm";
  P 1468 17 "csdm";
  P 1469 6 "aal-lm";
  P 1469 17 "aal-lm";
  P 1470 6 "uaiact";
  P 1470 17 "uaiact";
  P 1471 6 "csdmbase";
  P 1471 17 "csdmbase";
  P 1472 6 "csdm";
  P 1472 17 "csdm";
  P 1473 6 "openmath";
  P 1473 17 "openmath";
  P 1474 6 "telefinder";
  P 1474 17 "telefinder";
  P 1475 6 "taligent-lm";
  P 1475 17 "taligent-lm";
  P 1476 6 "clvm-cfg";
  P 1476 17 "clvm-cfg";
  P 1477 6 "ms-sna-server";
  P 1477 17 "ms-sna-server";
  P 1478 6 "ms-sna-base";
  P 1478 17 "ms-sna-base";
  P 1479 6 "dberegister";
  P 1479 17 "dberegister";
  P 1480 6 "pacerforum";
  P 1480 17 "pacerforum";
  P 1481 6 "airs";
  P 1481 17 "airs";
  P 1482 6 "miteksys-lm";
  P 1482 17 "miteksys-lm";
  P 1483 6 "afs";
  P 1483 17 "afs";
  P 1484 6 "confluent";
  P 1484 17 "confluent";
  P 1485 6 "lansource";
  P 1485 17 "lansource";
  P 1486 6 "nms_topo_serv";
  P 1486 17 "nms_topo_serv";
  P 1487 6 "localinfosrvr";
  P 1487 17 "localinfosrvr";
  P 1488 6 "docstor";
  P 1488 17 "docstor";
  P 1489 6 "dmdocbroker";
  P 1489 17 "dmdocbroker";
  P 1490 6 "insitu-conf";
  P 1490 17 "insitu-conf";
  P 1491 6 "anynetgateway";
  P 1491 17 "anynetgateway";
  P 1492 6 "stone-design-1";
  P 1492 17 "stone-design-1";
  P 1493 6 "netmap_lm";
  P 1493 17 "netmap_lm";
  P 1494 6 "citrix-ica";
  P 1494 17 "citrix-ica";
  P 1495 6 "cvc";
  P 1495 17 "cvc";
  P 1496 6 "liberty-lm";
  P 1496 17 "liberty-lm";
  P 1497 6 "rfx-lm";
  P 1497 17 "rfx-lm";
  P 1498 6 "watcom-sql";
  P 1498 17 "watcom-sql";
  P 1499 6 "fhc";
  P 1499 17 "fhc";
  P 1500 6 "vlsi-lm";
  P 1500 17 "vlsi-lm";
  P 1501 6 "sas-3";
  P 1501 17 "sas-3";
  P 1502 6 "shivadiscovery";
  P 1502 17 "shivadiscovery";
  P 1503 6 "imtc-mcs";
  P 1503 17 "imtc-mcs";
  P 1504 6 "evb-elm";
  P 1504 17 "evb-elm";
  P 1505 6 "funkproxy";
  P 1505 17 "funkproxy";
  P 1506 6 "utcd";
  P 1506 17 "utcd";
  P 1507 6 "symplex";
  P 1507 17 "symplex";
  P 1508 6 "diagmond";
  P 1508 17 "diagmond";
  P 1509 6 "robcad-lm"].
Definition services_17 : list service := [
  P 1509 17 "robcad-lm";
  P 1510 6 "mvx-lm";
  P 1510 17 "mvx-lm";
  P 1511 6 "3l-l1";
  P 1511 17 "3l-l1";
  P 1512 6 "wins";
  P 1512 17 "wins";
  P 1513 6 "fujitsu-dtc";
  P 1513 17 "fujitsu-dtc";
  P 1514 6 "fujitsu-dtcns";
  P 1514 17 "fujitsu-dtcns";
  P 1515 6 "ifor-protocol";
  P 1515 17 "ifor-protocol";
  P 1516 6 "vpad";
  P 1516 17 "vpad";
  P 1517 6 "vpac";
  P 1517 17 "vpac";
  P 1518 6 "vpvd";
  P 1518 17 "vpvd";
  P 1519 6 "vpvc";
  P 1519 17 "vpvc";
  P 1520 6 "atm-zip-office";
  P 1520 17 "atm-zip-office";
  P 1521 6 "oracle";
  P 1521 17 "ncube-lm";
  P 1522 6 "rna-lm";
  P 1522 17 "rna-lm";
  P 1523 6 "cichild-lm";
  P 1523 17 "cichild-lm";
  P 1524 6 "ingreslock";
  P 1524 17 "ingreslock";
  P 1525 6 "orasrv";
  P 1525 17 "oracle";
  P 1526 6 "pdap-np";
  P 1526 17 "pdap-np";
  P 1527 6 "tlisrv";
  P 1527 17 "tlisrv";
  P 1528 6 "mciautoreg";
  P 1528 17 "mciautoreg";
  P 1529 6 "support";
  P 1529 17 "coauthor";
  P 1530 6 "rap-service";
  P 1530 17 "rap-service";
  P 1531 6 "rap-listen";
  P 1531 17 "rap-listen";
  P 1532 6 "miroconnect";
  P 1532 17 "miroconnect";
  P 1533 6 "virtual-places";
  P 1533 17 "virtual-places";
  P 1534 6 "micromuse-lm";
  P 1534 17 "micromuse-lm";
  P 1535 6 "ampr-info";
  P 1535 17 "ampr-info";
  P 1536 6 "ampr-inter";
  P 1536 17 "ampr-inter";
  P 1537 6 "sdsc-lm";
  P 1537 17 "sdsc-lm";
  P 1538 6 "3ds-lm";
  P 1538 17 "3ds-lm";
  P 1539 6 "intellistor-lm";
  P 1539 17 "intellistor-lm";
  P 1540 6 "rds";
  P 1540 17 "rds";
  P 1541 6 "rds2";
  P 1541 17 "rds2";
  P 1542 6 "gridgen-elmd";
  P 1542 17 "gridgen-elmd";
  P 1543 6 "simba-cs";
  P 1543 17 "simba-cs";
  P 1544 6 "aspeclmd";
  P 1544 17 "aspeclmd";
  P 1545 6 "vistium-share";
  P 1545 17 "vistium-share";
  P 1546 6 "abbaccuray";
  P 1546 17 "abbaccuray";
  P 1547 6 "laplink";
  P 1547 17 "laplink";
  P 1548 6 "axon-lm";
  P 1548 17 "axon-lm";
  P 1549 6 "shivahose";
  P 1549 17 "shivasound";
  P 1550 6 "3m-image-lm";
  P 1550 17 "3m-image-lm";
  P 1551 6 "hecmtl-db";
  P 1551 17 "hecmtl-db";
  P 1552 6 "pciarray";
  P 1552 17 "pciarray";
  P 1553 6 "sna-cs";
  P 1553 17 "sna-cs";
  P 1554 6 "caci-lm";
  P 1554 17 "caci-lm";
  P 1555 6 "livelan";
  P 1555 17 "livelan";
  P 1556 6 "veritas_pbx";
  P 1556 17 "veritas_pbx";
  P 1557 6 "arbortext-lm";
  P 1557 17 "arbortext-lm";
  P 1558 6 "xingmpeg";
  P 1558 17 "xingmpeg";
  P 1559 6 "web2host";
  P 1559 17 "web2host";
  P 1560 6 "asci-val";
  P 1560 17 "asci-val";
  P 1561 6 "facilityview";
  P 1561 17 "facilityview";
  P 1562 6 "pconnectmgr";
  P 1562 17 "pconnectmgr";
  P 1563 6 "cadabra-lm";
  P 1563 17 "cadabra-lm";
  P 1564 6 "pay-per-view";
  P 1564 17 "pay-per-view";
  P 1565 6 "winddlb";
  P 1565 17 "winddlb";
  P 1566 6 "corelvideo";
  P 1566 17 "corelvideo";
  P 1567 6 "jlicelmd";
  P 1567 17 "jlicelmd";
  P 1568 6 "tsspmap";
  P 1568 17 "tsspmap";
  P 1569 6 "ets";
  P 1569 17 "ets";
  P 1570 6 "orbixd";
  P 1570 17 "orbixd";
  P 1571 6 "rdb-dbs-disp";
  P 1571 17 "rdb-dbs-disp";
  P 1572 6 "chip-lm";
  P 1572 17 "chip-lm";
  P 1573 6 "itscomm-ns";
  P 1573 17 "itscomm-ns";
  P 1574 6 "mvel-lm";
  P 1574 17 "mvel-lm";
  P 1575 6 "oraclenames";
  P 1575 17 "oraclenames";
  P 1576 6 "moldflow-lm";
  P 1576 17 "moldflow-lm";
  P 1577 6 "hypercube-lm";
  P 1577 17 "hypercube-lm";
  P 1578 6 "jacobus-lm";
  P 1578 17 "jacobus-lm";
  P 1579 6 "ioc-sea-lm";
  P 1579 17 "ioc-sea-lm";
  P 1580 6 "tn-tl-r1";
  P 1580 17 "tn-tl-r2";
  P 1581 6 "mil-2045-47001";
  P 1581 17 "mil-2045-47001";
  P 1582 6 "msims";
  P 1582 17 "msims";
  P 1583 6 "simbaexpress";
  P 1583 17 "simbaexpress";
  P 1584 6 "tn-tl-fd2"].
Definition services_18 : list service := [
  P 1584 17 "tn-tl-fd2";
  P 1585 6 "intv";
  P 1585 17 "intv";
  P 1586 6 "ibm-abtact";
  P 1586 17 "ibm-abtact";
  P 1587 6 "pra_elmd";
  P 1587 17 "pra_elmd";
  P 1588 6 "triquest-lm";
  P 1588 17 "triquest-lm";
  P 1589 6 "vqp";
  P 1589 17 "vqp";
  P 1590 6 "gemini-lm";
  P 1590 17 "gemini-lm";
  P 1591 6 "ncpm-pm";
  P 1591 17 "ncpm-pm";
  P 1592 6 "commonspace";
  P 1592 17 "commonspace";
  P 1593 6 "mainsoft-lm";
  P 1593 17 "mainsoft-lm";
  P 1594 6 "sixtrak";
  P 1594 17 "sixtrak";
  P 1595 6 "radio";
  P 1595 17 "radio";
  P 1596 6 "radio-sm";
  P 1596 17 "radio-bc";
  P 1597 6 "orbplus-iiop";
  P 1597 17 "orbplus-iiop";
  P 1598 6 "picknfs";
  P 1598 17 "picknfs";
  P 1599 6 "simbaservices";
  P 1599 17 "simbaservices";
  P 1600 6 "issd";
  P 1600 17 "issd";
  P 1601 6 "aas";
  P 1601 17 "aas";
  P 1602 6 "inspect";
  P 1602 17 "inspect";
  P 1603 6 "picodbc";
  P 1603 17 "picodbc";
  P 1604 6 "icabrowser";
  P 1604 17 "icabrowser";
  P 1605 6 "slp";
  P 1605 17 "slp";
  P 1606 6 "slm-api";
  P 1606 17 "slm-api";
  P 1607 6 "stt";
  P 1607 17 "stt";
  P 1608 6 "smart-lm";
  P 1608 17 "smart-lm";
  P 1609 6 "isysg-lm";
  P 1609 17 "isysg-lm";
  P 1610 6 "taurus-wh";
  P 1610 17 "taurus-wh";
  P 1611 6 "ill";
  P 1611 17 "ill";
  P 1612 6 "netbill-trans";
  P 1612 17 "netbill-trans";
  P 1613 6 "netbill-keyrep";
  P 1613 17 "netbill-keyrep";
  P 1614 6 "netbill-cred";
  P 1614 17 "netbill-cred";
  P 1615 6 "netbill-auth";
  P 1615 17 "netbill-auth";
  P 1616 6 "netbill-prod";
  P 1616 17 "netbill-prod";
  P 1617 6 "nimrod-agent";
  P 1617 17 "nimrod-agent";
  P 1618 6 "skytelnet";
  P 1618 17 "skytelnet";
  P 1619 6 "xs-openstorage";
  P 1619 17 "xs-openstorage";
  P 1620 6 "faxportwinport";
  P 1620 17 "faxportwinport";
  P 1621 6 "softdataphone";
  P 1621 17 "softdataphone";
  P 1622 6 "ontime";
  P 1622 17 "ontime";
  P 1623 6 "jaleosnd";
  P 1623 17 "jaleosnd";
  P 1624 6 "udp-sr-port";
  P 1624 17 "udp-sr-port";
  P 1625 6 "svs-omagent";
  P 1625 17 "svs-omagent";
  P 1626 6 "shockwave";
  P 1626 17 "shockwave";
  P 1627 6 "t128-gateway";
  P 1627 17 "t128-gateway";
  P 1628 6 "lontalk-norm";
  P 1628 17 "lontalk-norm";
  P 1629 6 "lontalk-urgnt";
  P 1629 17 "lontalk-urgnt";
  P 1630 6 "oraclenet8cman";
  P 1630 17 "oraclenet8cman";
  P 1631 6 "visitview";
  P 1631 17 "visitview";
  P 1632 6 "pammratc";
  P 1632 17 "pammratc";
  P 1633 6 "pammrpc";
  P 1633 17 "pammrpc";
  P 1634 6 "loaprobe";
  P 1634 17 "loaprobe";
  P 1635 6 "edb-server1";
  P 1635 17 "edb-server1";
  P 1636 6 "isdc";
  P 1636 17 "isdc";
  P 1637 6 "islc";
  P 1637 17 "islc";
  P 1638 6 "ismc";
  P 1638 17 "ismc";
  P 1639 6 "cert-initiator";
  P 1639 17 "cert-initiator";
  P 1640 6 "cert-responder";
  P 1640 17 "cert-responder";
  P 1641 6 "invision";
  P 1641 17 "invision";
  P 1642 6 "isis-am";
  P 1642 17 "isis-am";
  P 1643 6 "isis-ambc";
  P 1643 17 "isis-ambc";
  P 1644 6 "saiseh";
  P 1645 6 "sightline";
  P 1645 17 "radius";
  P 1646 6 "sa-msg-port";
  P 1646 17 "radacct";
  P 1647 6 "rsap";
  P 1647 17 "rsap";
  P 1648 6 "concurrent-lm";
  P 1648 17 "concurrent-lm";
  P 1649 6 "kermit";
  P 1649 17 "kermit";
  P 1650 6 "nkd";
  P 1650 17 "nkd";
  P 1651 6 "shiva_confsrvr";
  P 1651 17 "shiva_confsrvr";
  P 1652 6 "xnmp";
  P 1652 17 "xnmp";
  P 1653 6 "alphatech-lm";
  P 1653 17 "alphatech-lm";
  P 1654 6 "stargatealerts";
  P 1654 17 "stargatealerts";
  P 1655 6 "dec-mbadmin";
  P 1655 17 "dec-mbadmin";
  P 1656 6 "dec-mbadmin-h";
  P 1656 17 "dec-mbadmin-h";
  P 1657 6 "fujitsu-mmpdc";
  P 1657 17 "fujitsu-mmpdc";
  P 1658 6 "sixnetudr";
  P 1658 17 "sixnetudr";
  P 1659 6 "sg-lm";
  P 1659 17 "sg-lm"].
Definition services_19 : list service := [
  P 1660 6 "skip-mc-gikreq";
  P 1660 17 "skip-mc-gikreq";
  P 1661 6 "netview-aix-1";
  P 1661 17 "netview-aix-1";
  P 1662 6 "netview-aix-2";
  P 1662 17 "netview-aix-2";
  P 1663 6 "netview-aix-3";
  P 1663 17 "netview-aix-3";
  P 1664 6 "netview-aix-4";
  P 1664 17 "netview-aix-4";
  P 1665 6 "netview-aix-5";
  P 1665 17 "netview-aix-5";
  P 1666 6 "netview-aix-6";
  P 1666 17 "netview-aix-6";
  P 1667 6 "netview-aix-7";
  P 1667 17 "netview-aix-7";
  P 1668 6 "netview-aix-8";
  P 1668 17 "netview-aix-8";
  P 1669 6 "netview-aix-9";
  P 1669 17 "netview-aix-9";
  P 1670 6 "netview-aix-10";
  P 1670 17 "netview-aix-10";
  P 1671 6 "netview-aix-11";
  P 1671 17 "netview-aix-11";
  P 1672 6 "netview-aix-12";
  P 1672 17 "netview-aix-12";
  P 1673 6 "proshare-mc-1";
  P 1673 17 "proshare-mc-1";
  P 1674 6 "proshare-mc-2";
  P 1674 17 "proshare-mc-2";
  P 1675 6 "pdp";
  P 1675 17 "pdp";
  P 1676 6 "netcomm1";
  P 1676 17 "netcomm2";
  P 1677 6 "groupwise";
  P 1677 17 "groupwise";
  P 1678 6 "prolink";
  P 1678 17 "prolink";
  P 1679 6 "darcorp-lm";
  P 1679 17 "darcorp-lm";
  P 1680 6 "CarbonCopy";
  P 1680 17 "microcom-sbp";
  P 1681 6 "sd-elmd";
  P 1681 17 "sd-elmd";
  P 1682 6 "lanyon-lantern";
  P 1682 17 "lanyon-lantern";
  P 1683 6 "ncpm-hip";
  P 1683 17 "ncpm-hip";
  P 1684 6 "snaresecure";
  P 1684 17 "snaresecure";
  P 1685 6 "n2nremote";
  P 1685 17 "n2nremote";
  P 1686 6 "cvmon";
  P 1686 17 "cvmon";
  P 1687 6 "nsjtp-ctrl";
  P 1687 17 "nsjtp-ctrl";
  P 1688 6 "nsjtp-data";
  P 1688 17 "nsjtp-data";
  P 1689 6 "firefox";
  P 1689 17 "firefox";
  P 1690 6 "ng-umds";
  P 1690 17 "ng-umds";
  P 1691 6 "empire-empuma";
  P 1691 17 "empire-empuma";
  P 1692 6 "sstsys-lm";
  P 1692 17 "sstsys-lm";
  P 1693 6 "rrirtr";
  P 1693 17 "rrirtr";
  P 1694 6 "rrimwm";
  P 1694 17 "rrimwm";
  P 1695 6 "rrilwm";
  P 1695 17 "rrilwm";
  P 1696 6 "rrifmm";
  P 1696 17 "rrifmm";
  P 1697 6 "rrisat";
  P 1697 17 "rrisat";
  P 1698 6 "rsvp-encap-1";
  P 1698 17 "rsvp-encap-1";
  P 1699 6 "rsvp-encap-2";
  P 1699 17 "rsvp-encap-2";
  P 1700 6 "mps-raft";
  P 1700 17 "mps-raft";
  P 1701 6 "l2f";
  P 1701 17 "L2TP";
  P 1702 6 "deskshare";
  P 1702 17 "deskshare";
  P 1703 6 "hb-engine";
  P 1703 17 "hb-engine";
  P 1704 6 "bcs-broker";
  P 1704 17 "bcs-broker";
  P 1705 6 "slingshot";
  P 1705 17 "slingshot";
  P 1706 6 "jetform";
  P 1706 17 "jetform";
  P 1707 6 "vdmplay";
  P 1707 17 "vdmplay";
  P 1708 6 "gat-lmd";
  P 1708 17 "gat-lmd";
  P 1709 6 "centra";
  P 1709 17 "centra";
  P 1710 6 "impera";
  P 1710 17 "impera";
  P 1711 6 "pptconference";
  P 1711 17 "pptconference";
  P 1712 6 "registrar";
  P 1712 17 "registrar";
  P 1713 6 "conferencetalk";
  P 1713 17 "conferencetalk";
  P 1714 6 "sesi-lm";
  P 1714 17 "sesi-lm";
  P 1715 6 "houdini-lm";
  P 1715 17 "houdini-lm";
  P 1716 6 "xmsg";
  P 1716 17 "xmsg";
  P 1717 6 "fj-hdnet";
  P 1717 17 "fj-hdnet";
  P 1718 6 "h323gatedisc";
  P 1718 17 "h225gatedisc";
  P 1719 6 "h323gatestat";
  P 1719 17 "h323gatestat";
  P 1720 6 "h323q931";
  P 1720 17 "h323hostcall";
  P 1721 6 "caicci";
  P 1721 17 "caicci";
  P 1722 6 "hks-lm";
  P 1722 17 "hks-lm";
  P 1723 6 "pptp";
  P 1723 17 "pptp";
  P 1724 6 "csbphonemaster";
  P 1724 17 "csbphonemaster";
  P 1725 6 "iden-ralp";
  P 1725 17 "iden-ralp";
  P 1726 6 "iberiagames";
  P 1726 17 "iberiagames";
  P 1727 6 "winddx";
  P 1727 17 "winddx";
  P 1728 6 "telindus";
  P 1728 17 "telindus";
  P 1729 6 "citynl";
  P 1729 17 "citynl";
  P 1730 6 "roketz";
  P 1730 17 "roketz";
  P 1731 6 "msiccp";
  P 1731 17 "msiccp";
  P 1732 6 "proxim";
  P 1732 17 "proxim";
  P 1733 6 "siipat";
  P 1733 17 "siipat";
  P 1734 6 "cambertx-lm";
  P 1734 17 "cambertx-lm"].
Definition services_20 : list service := [
  P 1735 6 "privatechat";
  P 1735 17 "privatechat";
  P 1736 6 "street-stream";
  P 1736 17 "street-stream";
  P 1737 6 "ultimad";
  P 1737 17 "ultimad";
  P 1738 6 "gamegen1";
  P 1738 17 "gamegen1";
  P 1739 6 "webaccess";
  P 1739 17 "webaccess";
  P 1740 6 "encore";
  P 1740 17 "encore";
  P 1741 6 "cisco-net-mgmt";
  P 1741 17 "cisco-net-mgmt";
  P 1742 6 "3Com-nsd";
  P 1742 17 "3Com-nsd";
  P 1743 6 "cinegrfx-lm";
  P 1743 17 "cinegrfx-lm";
  P 1744 6 "ncpm-ft";
  P 1744 17 "ncpm-ft";
  P 1745 6 "remote-winsock";
  P 1745 17 "remote-winsock";
  P 1746 6 "ftrapid-1";
  P 1746 17 "ftrapid-1";
  P 1747 6 "ftrapid-2";
  P 1747 17 "ftrapid-2";
  P 1748 6 "oracle-em1";
  P 1748 17 "oracle-em1";
  P 1749 6 "aspen-services";
  P 1749 17 "aspen-services";
  P 1750 6 "sslp";
  P 1750 17 "sslp";
  P 1751 6 "swiftnet";
  P 1751 17 "swiftnet";
  P 1752 6 "lofr-lm";
  P 1752 17 "lofr-lm";
  P 1753 6 "predatar-comms";
  P 1754 6 "oracle-em2";
  P 1754 17 "oracle-em2";
  P 1755 6 "wms";
  P 1755 17 "ms-streaming";
  P 1756 6 "capfast-lmd";
  P 1756 17 "capfast-lmd";
  P 1757 6 "cnhrp";
  P 1757 17 "cnhrp";
  P 1758 6 "tftp-mcast";
  P 1758 17 "tftp-mcast";
  P 1759 6 "spss-lm";
  P 1759 17 "spss-lm";
  P 1760 6 "www-ldap-gw";
  P 1760 17 "www-ldap-gw";
  P 1761 6 "landesk-rc";
  P 1761 17 "cft-0";
  P 1762 6 "landesk-rc";
  P 1762 17 "cft-1";
  P 1763 6 "landesk-rc";
  P 1763 17 "cft-2";
  P 1764 6 "landesk-rc";
  P 1764 17 "cft-3";
  P 1765 6 "cft-4";
  P 1765 17 "cft-4";
  P 1766 6 "cft-5";
  P 1766 17 "cft-5";
  P 1767 6 "cft-6";
  P 1767 17 "cft-6";
  P 1768 6 "cft-7";
  P 1768 17 "cft-7";
  P 1769 6 "bmc-net-adm";
  P 1769 17 "bmc-net-adm";
  P 1770 6 "bmc-net-svc";
  P 1770 17 "bmc-net-svc";
  P 1771 6 "vaultbase";
  P 1771 17 "vaultbase";
  P 1772 6 "essweb-gw";
  P 1772 17 "essweb-gw";
  P 1773 6 "kmscontrol";
  P 1773 17 "kmscontrol";
  P 1774 6 "global-dtserv";
  P 1774 17 "global-dtserv";
  P 1775 6 "vdab";
  P 1776 6 "femis";
  P 1776 17 "femis";
  P 1777 6 "powerguardian";
  P 1777 17 "powerguardian";
  P 1778 6 "prodigy-intrnet";
  P 1778 17 "prodigy-intrnet";
  P 1779 6 "pharmasoft";
  P 1779 17 "pharmasoft";
  P 1780 6 "dpkeyserv";
  P 1780 17 "dpkeyserv";
  P 1781 6 "answersoft-lm";
  P 1781 17 "answersoft-lm";
  P 1782 6 "hp-hcip";
  P 1782 17 "hp-hcip";
  P 1784 6 "finle-lm";
  P 1784 17 "finle-lm";
  P 1785 6 "windlm";
  P 1785 17 "windlm";
  P 1786 6 "funk-logger";
  P 1786 17 "funk-logger";
  P 1787 6 "funk-license";
  P 1787 17 "funk-license";
  P 1788 6 "psmond";
  P 1788 17 "psmond";
  P 1789 6 "hello";
  P 1789 17 "hello";
  P 1790 6 "nmsp";
  P 1790 17 "nmsp";
  P 1791 6 "ea1";
  P 1791 17 "ea1";
  P 1792 6 "ibm-dt-2";
  P 1792 17 "ibm-dt-2";
  P 1793 6 "rsc-robot";
  P 1793 17 "rsc-robot";
  P 1794 6 "cera-bcm";
  P 1794 17 "cera-bcm";
  P 1795 6 "dpi-proxy";
  P 1795 17 "dpi-proxy";
  P 1796 6 "vocaltec-admin";
  P 1796 17 "vocaltec-admin";
  P 1797 6 "uma";
  P 1797 17 "uma";
  P 1798 6 "etp";
  P 1798 17 "etp";
  P 1799 6 "netrisk";
  P 1799 17 "netrisk";
  P 1800 6 "ansys-lm";
  P 1800 17 "ansys-lm";
  P 1801 6 "msmq";
  P 1801 17 "msmq";
  P 1802 6 "concomp1";
  P 1802 17 "concomp1";
  P 1803 6 "hp-hcip-gwy";
  P 1803 17 "hp-hcip-gwy";
  P 1804 6 "enl";
  P 1804 17 "enl";
  P 1805 6 "enl-name";
  P 1805 17 "enl-name";
  P 1806 6 "musiconline";
  P 1806 17 "musiconline";
  P 1807 6 "fhsp";
  P 1807 17 "fhsp";
  P 1808 6 "oracle-vp2";
  P 1808 17 "oracle-vp2";
  P 1809 6 "oracle-vp1";
  P 1809 17 "oracle-vp1";
  P 1810 6 "jerand-lm";
  P 1810 17 "jerand-lm";
  P 1811 6 "scientia-sdb";
  P 1811 17 "scientia-sdb"].
Definition services_21 : list service := [
  P 1812 132 "radius";
  P 1812 6 "radius";
  P 1812 17 "radius";
  P 1813 132 "radacct";
  P 1813 6 "radius-acct";
  P 1813 17 "radacct";
  P 1814 6 "tdp-suite";
  P 1814 17 "tdp-suite";
  P 1815 6 "mmpft";
  P 1815 17 "mmpft";
  P 1816 6 "harp";
  P 1816 17 "harp";
  P 1817 6 "rkb-oscs";
  P 1817 17 "rkb-oscs";
  P 1818 6 "etftp";
  P 1818 17 "etftp";
  P 1819 6 "plato-lm";
  P 1819 17 "plato-lm";
  P 1820 6 "mcagent";
  P 1820 17 "mcagent";
  P 1821 6 "donnyworld";
  P 1821 17 "donnyworld";
  P 1822 6 "es-elmd";
  P 1822 17 "es-elmd";
  P 1823 6 "unisys-lm";
  P 1823 17 "unisys-lm";
  P 1824 6 "metrics-pas";
  P 1824 17 "metrics-pas";
  P 1825 6 "direcpc-video";
  P 1825 17 "direcpc-video";
  P 1826 6 "ardt";
  P 1826 17 "ardt";
  P 1827 6 "pcm";
  P 1827 17 "asi";
  P 1828 6 "itm-mcell-u";
  P 1828 17 "itm-mcell-u";
  P 1829 6 "optika-emedia";
  P 1829 17 "optika-emedia";
  P 1830 6 "net8-cman";
  P 1830 17 "net8-cman";
  P 1831 6 "myrtle";
  P 1831 17 "myrtle";
  P 1832 6 "tht-treasure";
  P 1832 17 "tht-treasure";
  P 1833 6 "udpradio";
  P 1833 17 "udpradio";
  P 1834 6 "ardusuni";
  P 1834 17 "ardusuni";
  P 1835 6 "ardusmul";
  P 1835 17 "ardusmul";
  P 1836 6 "ste-smsc";
  P 1836 17 "ste-smsc";
  P 1837 6 "csoft1";
  P 1837 17 "csoft1";
  P 1838 6 "talnet";
  P 1838 17 "talnet";
  P 1839 6 "netopia-vo1";
  P 1839 17 "netopia-vo1";
  P 1840 6 "netopia-vo2";
  P 1840 17 "netopia-vo2";
  P 1841 6 "netopia-vo3";
  P 1841 17 "netopia-vo3";
  P 1842 6 "netopia-vo4";
  P 1842 17 "netopia-vo4";
  P 1843 6 "netopia-vo5";
  P 1843 17 "netopia-vo5";
  P 1844 6 "direcpc-dll";
  P 1844 17 "direcpc-dll";
  P 1845 6 "altalink";
  P 1845 17 "altalink";
  P 1846 6 "tunstall-pnc";
  P 1846 17 "tunstall-pnc";
  P 1847 6 "slp-notify";
  P 1847 17 "slp-notify";
  P 1848 6 "fjdocdist";
  P 1848 17 "fjdocdist";
  P 1849 6 "alpha-sms";
  P 1849 17 "alpha-sms";
  P 1850 6 "gsi";
  P 1850 17 "gsi";
  P 1851 6 "ctcd";
  P 1851 17 "ctcd";
  P 1852 6 "virtual-time";
  P 1852 17 "virtual-time";
  P 1853 6 "vids-avtp";
  P 1853 17 "vids-avtp";
  P 1854 6 "buddy-draw";
  P 1854 17 "buddy-draw";
  P 1855 6 "fiorano-rtrsvc";
  P 1855 17 "fiorano-rtrsvc";
  P 1856 6 "fiorano-msgsvc";
  P 1856 17 "fiorano-msgsvc";
  P 1857 6 "datacaptor";
  P 1857 17 "datacaptor";
  P 1858 6 "privateark";
  P 1858 17 "privateark";
  P 1859 6 "gammafetchsvr";
  P 1859 17 "gammafetchsvr";
  P 1860 6 "sunscalar-svc";
  P 1860 17 "sunscalar-svc";
  P 1861 6 "lecroy-vicp";
  P 1861 17 "lecroy-vicp";
  P 1862 6 "mysql-cm-agent";
  P 1862 17 "mysql-cm-agent";
  P 1863 6 "msnp";
  P 1863 17 "msnp";
  P 1864 6 "paradym-31";
  P 1864 17 "paradym-31";
  P 1865 6 "entp";
  P 1865 17 "entp";
  P 1866 6 "swrmi";
  P 1866 17 "swrmi";
  P 1867 6 "udrive";
  P 1867 17 "udrive";
  P 1868 6 "viziblebrowser";
  P 1868 17 "viziblebrowser";
  P 1869 6 "transact";
  P 1869 17 "transact";
  P 1870 6 "sunscalar-dns";
  P 1870 17 "sunscalar-dns";
  P 1871 6 "canocentral0";
  P 1871 17 "canocentral0";
  P 1872 6 "canocentral1";
  P 1872 17 "canocentral1";
  P 1873 6 "fjmpjps";
  P 1873 17 "fjmpjps";
  P 1874 6 "fjswapsnp";
  P 1874 17 "fjswapsnp";
  P 1875 6 "westell-stats";
  P 1875 17 "westell-stats";
  P 1876 6 "ewcappsrv";
  P 1876 17 "ewcappsrv";
  P 1877 6 "hp-webqosdb";
  P 1877 17 "hp-webqosdb";
  P 1878 6 "drmsmc";
  P 1878 17 "drmsmc";
  P 1879 6 "nettgain-nms";
  P 1879 17 "nettgain-nms";
  P 1880 6 "vsat-control";
  P 1880 17 "vsat-control";
  P 1881 6 "ibm-mqseries2";
  P 1881 17 "ibm-mqseries2";
  P 1882 6 "ecsqdmn";
  P 1882 17 "ecsqdmn";
  P 1883 6 "mqtt";
  P 1883 17 "ibm-mqisdp";
  P 1884 6 "idmaps";
  P 1884 17 "idmaps";
  P 1885 6 "vrtstrapserver";
  P 1885 17 "vrtstrapserver"].
Definition service_chunks_1 : list (list service) := [services_1; services_2; services_3; services_4; services_5; services_6; services_7; services_8; services_9; services_10; services_11; services_12; services_13; services_14; services_15; services_16; services_17; services_18; services_19; services_20; services_21].
