(* ===== verification/ServiceTable2.v ===== *)
(** The registered services of src/pkg/util/service/service.go, lines 3159 to 6308: a port, a
    protocol number and a name. *)
From S2P Require Import Prelude.
From S2P Require Import ServiceTypes.
Local Open Scope Z_scope.

Definition services_22 : list service := [
  P 1886 6 "leoip";
  P 1886 17 "leoip";
  P 1887 6 "filex-lport";
  P 1887 17 "filex-lport";
  P 1888 6 "ncconfig";
  P 1888 17 "ncconfig";
  P 1889 6 "unify-adapter";
  P 1889 17 "unify-adapter";
  P 1890 6 "wilkenlistener";
  P 1890 17 "wilkenlistener";
  P 1891 6 "childkey-notif";
  P 1891 17 "childkey-notif";
  P 1892 6 "childkey-ctrl";
  P 1892 17 "childkey-ctrl";
  P 1893 6 "elad";
  P 1893 17 "elad";
  P 1894 6 "o2server-port";
  P 1894 17 "o2server-port";
  P 1896 6 "b-novative-ls";
  P 1896 17 "b-novative-ls";
  P 1897 6 "metaagent";
  P 1897 17 "metaagent";
  P 1898 6 "cymtec-port";
  P 1898 17 "cymtec-port";
  P 1899 6 "mc2studios";
  P 1899 17 "mc2studios";
  P 1900 6 "upnp";
  P 1900 17 "upnp";
  P 1901 6 "fjicl-tep-a";
  P 1901 17 "fjicl-tep-a";
  P 1902 6 "fjicl-tep-b";
  P 1902 17 "fjicl-tep-b";
  P 1903 6 "linkname";
  P 1903 17 "linkname";
  P 1904 6 "fjicl-tep-c";
  P 1904 17 "fjicl-tep-c";
  P 1905 6 "sugp";
  P 1905 17 "sugp";
  P 1906 6 "tpmd";
  P 1906 17 "tpmd";
  P 1907 6 "intrastar";
  P 1907 17 "intrastar";
  P 1908 6 "dawn";
  P 1908 17 "dawn";
  P 1909 6 "global-wlink";
  P 1909 17 "global-wlink";
  P 1910 6 "ultrabac";
  P 1910 17 "ultrabac";
  P 1911 6 "mtp";
  P 1911 17 "mtp";
  P 1912 6 "rhp-iibp";
  P 1912 17 "rhp-iibp";
  P 1913 6 "armadp";
  P 1913 17 "armadp";
  P 1914 6 "elm-momentum";
  P 1914 17 "elm-momentum";
  P 1915 6 "facelink";
  P 1915 17 "facelink";
  P 1916 6 "persona";
  P 1916 17 "persona";
  P 1917 6 "noagent";
  P 1917 17 "noagent";
  P 1918 6 "can-nds";
  P 1918 17 "can-nds";
  P 1919 6 "can-dch";
  P 1919 17 "can-dch";
  P 1920 6 "can-ferret";
  P 1920 17 "can-ferret";
  P 1921 6 "noadmin";
  P 1921 17 "noadmin";
  P 1922 6 "tapestry";
  P 1922 17 "tapestry";
  P 1923 6 "spice";
  P 1923 17 "spice";
  P 1924 6 "xiip";
  P 1924 17 "xiip";
  P 1925 6 "discovery-port";
  P 1925 17 "discovery-port";
  P 1926 6 "egs";
  P 1926 17 "egs";
  P 1927 6 "videte-cipc";
  P 1927 17 "videte-cipc";
  P 1928 6 "emsd-port";
  P 1928 17 "emsd-port";
  P 1929 6 "bandwiz-system";
  P 1929 17 "bandwiz-system";
  P 1930 6 "driveappserver";
  P 1930 17 "driveappserver";
  P 1931 6 "amdsched";
  P 1931 17 "amdsched";
  P 1932 6 "ctt-broker";
  P 1932 17 "ctt-broker";
  P 1933 6 "xmapi";
  P 1933 17 "xmapi";
  P 1934 6 "xaapi";
  P 1934 17 "xaapi";
  P 1935 6 "rtmp";
  P 1935 17 "macromedia-fcs";
  P 1936 6 "jetcmeserver";
  P 1936 17 "jetcmeserver";
  P 1937 6 "jwserver";
  P 1937 17 "jwserver";
  P 1938 6 "jwclient";
  P 1938 17 "jwclient";
  P 1939 6 "jvserver";
  P 1939 17 "jvserver";
  P 1940 6 "jvclient";
  P 1940 17 "jvclient";
  P 1941 6 "dic-aida";
  P 1941 17 "dic-aida";
  P 1942 6 "res";
  P 1942 17 "res";
  P 1943 6 "beeyond-media";
  P 1943 17 "beeyond-media";
  P 1944 6 "close-combat";
  P 1944 17 "close-combat";
  P 1945 6 "dialogic-elmd";
  P 1945 17 "dialogic-elmd";
  P 1946 6 "tekpls";
  P 1946 17 "tekpls";
  P 1947 6 "sentinelsrm";
  P 1947 17 "sentinelsrm";
  P 1948 6 "eye2eye";
  P 1948 17 "eye2eye";
  P 1949 6 "ismaeasdaqlive";
  P 1949 17 "ismaeasdaqlive";
  P 1950 6 "ismaeasdaqtest";
  P 1950 17 "ismaeasdaqtest";
  P 1951 6 "bcs-lmserver";
  P 1951 17 "bcs-lmserver";
  P 1952 6 "mpnjsc";
  P 1952 17 "mpnjsc";
  P 1953 6 "rapidbase";
  P 1953 17 "rapidbase";
  P 1954 6 "abr-api";
  P 1954 17 "abr-api";
  P 1955 6 "abr-secure";
  P 1955 17 "abr-secure";
  P 1956 6 "vrtl-vmf-ds";
  P 1956 17 "vrtl-vmf-ds";
  P 1957 6 "unix-status";
  P 1957 17 "unix-status";
  P 1958 6 "dxadmind";
  P 1958 17 "dxadmind";
  P 1959 6 "simp-all";
  P 1959 17 "simp-all";
  P 1960 6 "nasmanager";
  P 1960 17 "nasmanager";
  P 1961 6 "bts-appserver";
  P 1961 17 "bts-appserver"].
Definition services_23 : list service := [
  P 1962 6 "biap-mp";
  P 1962 17 "biap-mp";
  P 1963 6 "webmachine";
  P 1963 17 "webmachine";
  P 1964 6 "solid-e-engine";
  P 1964 17 "solid-e-engine";
  P 1965 6 "tivoli-npm";
  P 1965 17 "tivoli-npm";
  P 1966 6 "slush";
  P 1966 17 "slush";
  P 1967 6 "sns-quote";
  P 1967 17 "sns-quote";
  P 1968 6 "lipsinc";
  P 1968 17 "lipsinc";
  P 1969 6 "lipsinc1";
  P 1969 17 "lipsinc1";
  P 1970 6 "netop-rc";
  P 1970 17 "netop-rc";
  P 1971 6 "netop-school";
  P 1971 17 "netop-school";
  P 1972 6 "intersys-cache";
  P 1972 17 "intersys-cache";
  P 1973 6 "dlsrap";
  P 1973 17 "dlsrap";
  P 1974 6 "drp";
  P 1974 17 "drp";
  P 1975 6 "tcoflashagent";
  P 1975 17 "tcoflashagent";
  P 1976 6 "tcoregagent";
  P 1976 17 "tcoregagent";
  P 1977 6 "tcoaddressbook";
  P 1977 17 "tcoaddressbook";
  P 1978 6 "unisql";
  P 1978 17 "unisql";
  P 1979 6 "unisql-java";
  P 1979 17 "unisql-java";
  P 1980 6 "pearldoc-xact";
  P 1980 17 "pearldoc-xact";
  P 1981 6 "p2pq";
  P 1981 17 "p2pq";
  P 1982 6 "estamp";
  P 1982 17 "estamp";
  P 1983 6 "lhtp";
  P 1983 17 "lhtp";
  P 1984 6 "bigbrother";
  P 1984 17 "bb";
  P 1985 6 "hsrp";
  P 1985 17 "hsrp";
  P 1986 6 "licensedaemon";
  P 1986 17 "licensedaemon";
  P 1987 6 "tr-rsrb-p1";
  P 1987 17 "tr-rsrb-p1";
  P 1988 6 "tr-rsrb-p2";
  P 1988 17 "tr-rsrb-p2";
  P 1989 6 "tr-rsrb-p3";
  P 1989 17 "tr-rsrb-p3";
  P 1990 6 "stun-p1";
  P 1990 17 "stun-p1";
  P 1991 6 "stun-p2";
  P 1991 17 "stun-p2";
  P 1992 6 "stun-p3";
  P 1992 17 "stun-p3";
  P 1993 6 "snmp-tcp-port";
  P 1993 17 "snmp-tcp-port";
  P 1994 6 "stun-port";
  P 1994 17 "stun-port";
  P 1995 6 "perf-port";
  P 1995 17 "perf-port";
  P 1996 6 "tr-rsrb-port";
  P 1996 17 "tr-rsrb-port";
  P 1997 6 "gdp-port";
  P 1997 17 "gdp-port";
  P 1998 6 "x25-svc-port";
  P 1998 17 "x25-svc-port";
  P 1999 6 "tcp-id-port";
  P 1999 17 "tcp-id-port";
  P 2000 6 "cisco-sccp";
  P 2000 17 "cisco-sccp";
  P 2001 6 "dc";
  P 2001 17 "wizard";
  P 2002 6 "globe";
  P 2002 17 "globe";
  P 2003 6 "finger";
  P 2003 17 "brutus";
  P 2004 6 "mailbox";
  P 2004 17 "emce";
  P 2005 6 "deslogin";
  P 2005 17 "oracle";
  P 2006 6 "invokator";
  P 2006 17 "raid-cc";
  P 2007 6 "dectalk";
  P 2007 17 "raid-am";
  P 2008 6 "conf";
  P 2008 17 "terminaldb";
  P 2009 6 "news";
  P 2009 17 "whosockami";
  P 2010 6 "search";
  P 2010 17 "pipe_server";
  P 2011 6 "raid-cc";
  P 2011 17 "servserv";
  P 2012 6 "ttyinfo";
  P 2012 17 "raid-ac";
  P 2013 6 "raid-am";
  P 2013 17 "raid-cd";
  P 2014 6 "troff";
  P 2014 17 "raid-sf";
  P 2015 6 "cypress";
  P 2015 17 "raid-cs";
  P 2016 6 "bootserver";
  P 2016 17 "bootserver";
  P 2017 6 "cypress-stat";
  P 2017 17 "bootclient";
  P 2018 6 "terminaldb";
  P 2018 17 "rellpack";
  P 2019 6 "whosockami";
  P 2019 17 "about";
  P 2020 6 "xinupageserver";
  P 2020 17 "xinupageserver";
  P 2021 6 "servexec";
  P 2021 17 "xinuexpansion1";
  P 2022 6 "down";
  P 2022 17 "xinuexpansion2";
  P 2023 6 "xinuexpansion3";
  P 2023 17 "xinuexpansion3";
  P 2024 6 "xinuexpansion4";
  P 2024 17 "xinuexpansion4";
  P 2025 6 "ellpack";
  P 2025 17 "xribs";
  P 2026 6 "scrabble";
  P 2026 17 "scrabble";
  P 2027 6 "shadowserver";
  P 2027 17 "shadowserver";
  P 2028 6 "submitserver";
  P 2028 17 "submitserver";
  P 2029 6 "hsrpv6";
  P 2029 17 "hsrpv6";
  P 2030 6 "device2";
  P 2030 17 "device2";
  P 2031 6 "mobrien-chat";
  P 2031 17 "mobrien-chat";
  P 2032 6 "blackboard";
  P 2032 17 "blackboard";
  P 2033 6 "glogger";
  P 2033 17 "glogger";
  P 2034 6 "scoremgr";
  P 2034 17 "scoremgr";
  P 2035 6 "imsldoc";
  P 2035 17 "imsldoc";
  P 2036 6 "e-dpnet";
  P 2036 17 "e-dpnet"].
Definition services_24 : list service := [
  P 2037 6 "applus";
  P 2037 17 "applus";
  P 2038 6 "objectmanager";
  P 2038 17 "objectmanager";
  P 2039 6 "prizma";
  P 2039 17 "prizma";
  P 2040 6 "lam";
  P 2040 17 "lam";
  P 2041 6 "interbase";
  P 2041 17 "interbase";
  P 2042 6 "isis";
  P 2042 17 "isis";
  P 2043 6 "isis-bcast";
  P 2043 17 "isis-bcast";
  P 2044 6 "rimsl";
  P 2044 17 "rimsl";
  P 2045 6 "cdfunc";
  P 2045 17 "cdfunc";
  P 2046 6 "sdfunc";
  P 2046 17 "sdfunc";
  P 2047 6 "dls";
  P 2047 17 "dls";
  P 2048 6 "dls-monitor";
  P 2048 17 "dls-monitor";
  P 2049 132 "nfs";
  P 2049 6 "nfs";
  P 2049 17 "nfs";
  P 2050 6 "av-emb-config";
  P 2050 17 "av-emb-config";
  P 2051 6 "epnsdp";
  P 2051 17 "epnsdp";
  P 2052 6 "clearvisn";
  P 2052 17 "clearvisn";
  P 2053 6 "knetd";
  P 2053 17 "lot105-ds-upd";
  P 2054 6 "weblogin";
  P 2054 17 "weblogin";
  P 2055 6 "iop";
  P 2055 17 "iop";
  P 2056 6 "omnisky";
  P 2056 17 "omnisky";
  P 2057 6 "rich-cp";
  P 2057 17 "rich-cp";
  P 2058 6 "newwavesearch";
  P 2058 17 "newwavesearch";
  P 2059 6 "bmc-messaging";
  P 2059 17 "bmc-messaging";
  P 2060 6 "teleniumdaemon";
  P 2060 17 "teleniumdaemon";
  P 2061 6 "netmount";
  P 2061 17 "netmount";
  P 2062 6 "icg-swp";
  P 2062 17 "icg-swp";
  P 2063 6 "icg-bridge";
  P 2063 17 "icg-bridge";
  P 2064 6 "dnet-keyproxy";
  P 2064 17 "icg-iprelay";
  P 2065 6 "dlsrpn";
  P 2065 17 "dlsrpn";
  P 2066 6 "aura";
  P 2066 17 "aura";
  P 2067 6 "dlswpn";
  P 2067 17 "dlswpn";
  P 2068 6 "avocentkvm";
  P 2068 17 "avauthsrvprtcl";
  P 2069 6 "event-port";
  P 2069 17 "event-port";
  P 2070 6 "ah-esp-encap";
  P 2070 17 "ah-esp-encap";
  P 2071 6 "acp-port";
  P 2071 17 "acp-port";
  P 2072 6 "msync";
  P 2072 17 "msync";
  P 2073 6 "gxs-data-port";
  P 2073 17 "gxs-data-port";
  P 2074 6 "vrtl-vmf-sa";
  P 2074 17 "vrtl-vmf-sa";
  P 2075 6 "newlixengine";
  P 2075 17 "newlixengine";
  P 2076 6 "newlixconfig";
  P 2076 17 "newlixconfig";
  P 2077 6 "tsrmagt";
  P 2077 17 "tsrmagt";
  P 2078 6 "tpcsrvr";
  P 2078 17 "tpcsrvr";
  P 2079 6 "idware-router";
  P 2079 17 "idware-router";
  P 2080 6 "autodesk-nlm";
  P 2080 17 "autodesk-nlm";
  P 2081 6 "kme-trap-port";
  P 2081 17 "kme-trap-port";
  P 2082 6 "infowave";
  P 2082 17 "infowave";
  P 2083 6 "radsec";
  P 2083 17 "radsec";
  P 2084 6 "sunclustergeo";
  P 2084 17 "sunclustergeo";
  P 2085 6 "ada-cip";
  P 2085 17 "ada-cip";
  P 2086 6 "gnunet";
  P 2086 17 "gnunet";
  P 2087 6 "eli";
  P 2087 17 "eli";
  P 2088 6 "ip-blf";
  P 2088 17 "ip-blf";
  P 2089 6 "sep";
  P 2089 17 "sep";
  P 2090 6 "lrp";
  P 2090 17 "lrp";
  P 2091 6 "prp";
  P 2091 17 "prp";
  P 2092 6 "descent3";
  P 2092 17 "descent3";
  P 2093 6 "nbx-cc";
  P 2093 17 "nbx-cc";
  P 2094 6 "nbx-au";
  P 2094 17 "nbx-au";
  P 2095 6 "nbx-ser";
  P 2095 17 "nbx-ser";
  P 2096 6 "nbx-dir";
  P 2096 17 "nbx-dir";
  P 2097 6 "jetformpreview";
  P 2097 17 "jetformpreview";
  P 2098 6 "dialog-port";
  P 2098 17 "dialog-port";
  P 2099 6 "h2250-annex-g";
  P 2099 17 "h2250-annex-g";
  P 2100 6 "amiganetfs";
  P 2100 17 "amiganetfs";
  P 2101 6 "rtcm-sc104";
  P 2101 17 "rtcm-sc104";
  P 2102 6 "zephyr-srv";
  P 2102 17 "zephyr-srv";
  P 2103 6 "zephyr-clt";
  P 2103 17 "zephyr-clt";
  P 2104 6 "zephyr-hm";
  P 2104 17 "zephyr-hm";
  P 2105 6 "eklogin";
  P 2105 17 "eklogin";
  P 2106 6 "ekshell";
  P 2106 17 "ekshell";
  P 2107 6 "msmq-mgmt";
  P 2107 17 "bintec-admin";
  P 2108 6 "rkinit";
  P 2108 17 "rkinit";
  P 2109 6 "ergolight";
  P 2109 17 "ergolight";
  P 2110 6 "umsp";
  P 2110 17 "umsp";
  P 2111 6 "kx"].
Definition services_25 : list service := [
  P 2111 17 "dsatp";
  P 2112 6 "kip";
  P 2112 17 "idonix-metanet";
  P 2113 6 "hsl-storm";
  P 2113 17 "hsl-storm";
  P 2114 6 "newheights";
  P 2114 17 "newheights";
  P 2115 6 "kdm";
  P 2115 17 "kdm";
  P 2116 6 "ccowcmr";
  P 2116 17 "ccowcmr";
  P 2117 6 "mentaclient";
  P 2117 17 "mentaclient";
  P 2118 6 "mentaserver";
  P 2118 17 "mentaserver";
  P 2119 6 "gsigatekeeper";
  P 2119 17 "gsigatekeeper";
  P 2120 6 "kauth";
  P 2120 17 "qencp";
  P 2121 6 "ccproxy-ftp";
  P 2121 17 "scientia-ssdb";
  P 2122 6 "caupc-remote";
  P 2122 17 "caupc-remote";
  P 2123 6 "gtp-control";
  P 2123 17 "gtp-control";
  P 2124 6 "elatelink";
  P 2124 17 "elatelink";
  P 2125 6 "lockstep";
  P 2125 17 "lockstep";
  P 2126 6 "pktcable-cops";
  P 2126 17 "pktcable-cops";
  P 2127 6 "index-pc-wb";
  P 2127 17 "index-pc-wb";
  P 2128 6 "net-steward";
  P 2128 17 "net-steward";
  P 2129 6 "cs-live";
  P 2129 17 "cs-live";
  P 2130 6 "xds";
  P 2130 17 "xds";
  P 2131 6 "avantageb2b";
  P 2131 17 "avantageb2b";
  P 2132 6 "solera-epmap";
  P 2132 17 "solera-epmap";
  P 2133 6 "zymed-zpp";
  P 2133 17 "zymed-zpp";
  P 2134 6 "avenue";
  P 2134 17 "avenue";
  P 2135 6 "gris";
  P 2135 17 "gris";
  P 2136 6 "appworxsrv";
  P 2136 17 "appworxsrv";
  P 2137 6 "connect";
  P 2137 17 "connect";
  P 2138 6 "unbind-cluster";
  P 2138 17 "unbind-cluster";
  P 2139 6 "ias-auth";
  P 2139 17 "ias-auth";
  P 2140 6 "ias-reg";
  P 2140 17 "ias-reg";
  P 2141 6 "ias-admind";
  P 2141 17 "ias-admind";
  P 2142 6 "tdmoip";
  P 2142 17 "tdmoip";
  P 2143 6 "lv-jc";
  P 2143 17 "lv-jc";
  P 2144 6 "lv-ffx";
  P 2144 17 "lv-ffx";
  P 2145 6 "lv-pici";
  P 2145 17 "lv-pici";
  P 2146 6 "lv-not";
  P 2146 17 "lv-not";
  P 2147 6 "lv-auth";
  P 2147 17 "lv-auth";
  P 2148 6 "veritas-ucl";
  P 2148 17 "veritas-ucl";
  P 2149 6 "acptsys";
  P 2149 17 "acptsys";
  P 2150 6 "dynamic3d";
  P 2150 17 "dynamic3d";
  P 2151 6 "docent";
  P 2151 17 "docent";
  P 2152 6 "gtp-user";
  P 2152 17 "gtp-user";
  P 2153 6 "ctlptc";
  P 2153 17 "ctlptc";
  P 2154 6 "stdptc";
  P 2154 17 "stdptc";
  P 2155 6 "brdptc";
  P 2155 17 "brdptc";
  P 2156 6 "trp";
  P 2156 17 "trp";
  P 2157 6 "xnds";
  P 2157 17 "xnds";
  P 2158 6 "touchnetplus";
  P 2158 17 "touchnetplus";
  P 2159 6 "gdbremote";
  P 2159 17 "gdbremote";
  P 2160 6 "apc-2160";
  P 2160 17 "apc-2160";
  P 2161 6 "apc-agent";
  P 2161 17 "apc-2161";
  P 2162 6 "navisphere";
  P 2162 17 "navisphere";
  P 2163 6 "navisphere-sec";
  P 2163 17 "navisphere-sec";
  P 2164 6 "ddns-v3";
  P 2164 17 "ddns-v3";
  P 2165 6 "x-bone-api";
  P 2165 17 "x-bone-api";
  P 2166 6 "iwserver";
  P 2166 17 "iwserver";
  P 2167 6 "raw-serial";
  P 2167 17 "raw-serial";
  P 2168 6 "easy-soft-mux";
  P 2168 17 "easy-soft-mux";
  P 2169 6 "brain";
  P 2169 17 "brain";
  P 2170 6 "eyetv";
  P 2170 17 "eyetv";
  P 2171 6 "msfw-storage";
  P 2171 17 "msfw-storage";
  P 2172 6 "msfw-s-storage";
  P 2172 17 "msfw-s-storage";
  P 2173 6 "msfw-replica";
  P 2173 17 "msfw-replica";
  P 2174 6 "msfw-array";
  P 2174 17 "msfw-array";
  P 2175 6 "airsync";
  P 2175 17 "airsync";
  P 2176 6 "rapi";
  P 2176 17 "rapi";
  P 2177 6 "qwave";
  P 2177 17 "qwave";
  P 2178 6 "bitspeer";
  P 2178 17 "bitspeer";
  P 2179 6 "vmrdp";
  P 2179 17 "vmrdp";
  P 2180 6 "mc-gt-srv";
  P 2180 17 "mc-gt-srv";
  P 2181 6 "eforward";
  P 2181 17 "eforward";
  P 2182 6 "cgn-stat";
  P 2182 17 "cgn-stat";
  P 2183 6 "cgn-config";
  P 2183 17 "cgn-config";
  P 2184 6 "nvd";
  P 2184 17 "nvd";
  P 2185 6 "onbase-dds";
  P 2185 17 "onbase-dds";
  P 2186 6 "gtaua"].
Definition services_26 : list service := [
  P 2186 17 "gtaua";
  P 2187 6 "ssmc";
  P 2187 17 "ssmd";
  P 2188 6 "radware-rpm";
  P 2189 6 "radware-rpm-s";
  P 2190 6 "tivoconnect";
  P 2190 17 "tivoconnect";
  P 2191 6 "tvbus";
  P 2191 17 "tvbus";
  P 2192 6 "asdis";
  P 2192 17 "asdis";
  P 2193 6 "drwcs";
  P 2193 17 "drwcs";
  P 2197 6 "mnp-exchange";
  P 2197 17 "mnp-exchange";
  P 2198 6 "onehome-remote";
  P 2198 17 "onehome-remote";
  P 2199 6 "onehome-help";
  P 2199 17 "onehome-help";
  P 2200 6 "ici";
  P 2200 17 "ici";
  P 2201 6 "ats";
  P 2201 17 "ats";
  P 2202 6 "imtc-map";
  P 2202 17 "imtc-map";
  P 2203 6 "b2-runtime";
  P 2203 17 "b2-runtime";
  P 2204 6 "b2-license";
  P 2204 17 "b2-license";
  P 2205 6 "jps";
  P 2205 17 "jps";
  P 2206 6 "hpocbus";
  P 2206 17 "hpocbus";
  P 2207 6 "hpssd";
  P 2207 17 "hpssd";
  P 2208 6 "hpiod";
  P 2208 17 "hpiod";
  P 2209 6 "rimf-ps";
  P 2209 17 "rimf-ps";
  P 2210 6 "noaaport";
  P 2210 17 "noaaport";
  P 2211 6 "emwin";
  P 2211 17 "emwin";
  P 2212 6 "leecoposserver";
  P 2212 17 "leecoposserver";
  P 2213 6 "kali";
  P 2213 17 "kali";
  P 2214 6 "rpi";
  P 2214 17 "rpi";
  P 2215 6 "ipcore";
  P 2215 17 "ipcore";
  P 2216 6 "vtu-comms";
  P 2216 17 "vtu-comms";
  P 2217 6 "gotodevice";
  P 2217 17 "gotodevice";
  P 2218 6 "bounzza";
  P 2218 17 "bounzza";
  P 2219 6 "netiq-ncap";
  P 2219 17 "netiq-ncap";
  P 2220 6 "netiq";
  P 2220 17 "netiq";
  P 2221 6 "rockwell-csp1";
  P 2221 17 "rockwell-csp1";
  P 2222 6 "EtherNetIP-1";
  P 2222 17 "msantipiracy";
  P 2223 6 "rockwell-csp2";
  P 2223 17 "rockwell-csp2";
  P 2224 6 "efi-mg";
  P 2224 17 "efi-mg";
  P 2225 132 "rcip-itu";
  P 2225 6 "rcip-itu";
  P 2225 17 "rcip-itu";
  P 2226 6 "di-drm";
  P 2226 17 "di-drm";
  P 2227 6 "di-msg";
  P 2227 17 "di-msg";
  P 2228 6 "ehome-ms";
  P 2228 17 "ehome-ms";
  P 2229 6 "datalens";
  P 2229 17 "datalens";
  P 2230 6 "queueadm";
  P 2230 17 "queueadm";
  P 2231 6 "wimaxasncp";
  P 2231 17 "wimaxasncp";
  P 2232 6 "ivs-video";
  P 2232 17 "ivs-video";
  P 2233 6 "infocrypt";
  P 2233 17 "infocrypt";
  P 2234 6 "directplay";
  P 2234 17 "directplay";
  P 2235 6 "sercomm-wlink";
  P 2235 17 "sercomm-wlink";
  P 2236 6 "nani";
  P 2236 17 "nani";
  P 2237 6 "optech-port1-lm";
  P 2237 17 "optech-port1-lm";
  P 2238 6 "aviva-sna";
  P 2238 17 "aviva-sna";
  P 2239 6 "imagequery";
  P 2239 17 "imagequery";
  P 2240 6 "recipe";
  P 2240 17 "recipe";
  P 2241 6 "ivsd";
  P 2241 17 "ivsd";
  P 2242 6 "foliocorp";
  P 2242 17 "foliocorp";
  P 2243 6 "magicom";
  P 2243 17 "magicom";
  P 2244 6 "nmsserver";
  P 2244 17 "nmsserver";
  P 2245 6 "hao";
  P 2245 17 "hao";
  P 2246 6 "pc-mta-addrmap";
  P 2246 17 "pc-mta-addrmap";
  P 2247 6 "antidotemgrsvr";
  P 2247 17 "antidotemgrsvr";
  P 2248 6 "ums";
  P 2248 17 "ums";
  P 2249 6 "rfmp";
  P 2249 17 "rfmp";
  P 2250 6 "remote-collab";
  P 2250 17 "remote-collab";
  P 2251 6 "dif-port";
  P 2251 17 "dif-port";
  P 2252 6 "njenet-ssl";
  P 2252 17 "njenet-ssl";
  P 2253 6 "dtv-chan-req";
  P 2253 17 "dtv-chan-req";
  P 2254 6 "seispoc";
  P 2254 17 "seispoc";
  P 2255 6 "vrtp";
  P 2255 17 "vrtp";
  P 2256 6 "pcc-mfp";
  P 2256 17 "pcc-mfp";
  P 2257 6 "simple-tx-rx";
  P 2257 17 "simple-tx-rx";
  P 2258 6 "rcts";
  P 2258 17 "rcts";
  P 2259 6 "acd-pm";
  P 2259 17 "acd-pm";
  P 2260 6 "apc-2260";
  P 2260 17 "apc-2260";
  P 2261 6 "comotionmaster";
  P 2261 17 "comotionmaster";
  P 2262 6 "comotionback";
  P 2262 17 "comotionback";
  P 2263 6 "ecwcfg";
  P 2263 17 "ecwcfg";
  P 2264 6 "apx500api-1";
  P 2264 17 "apx500api-1"].
Definition services_27 : list service := [
  P 2265 6 "apx500api-2";
  P 2265 17 "apx500api-2";
  P 2266 6 "mfserver";
  P 2266 17 "mfserver";
  P 2267 6 "ontobroker";
  P 2267 17 "ontobroker";
  P 2268 6 "amt";
  P 2268 17 "amt";
  P 2269 6 "mikey";
  P 2269 17 "mikey";
  P 2270 6 "starschool";
  P 2270 17 "starschool";
  P 2271 6 "mmcals";
  P 2271 17 "mmcals";
  P 2272 6 "mmcal";
  P 2272 17 "mmcal";
  P 2273 6 "mysql-im";
  P 2273 17 "mysql-im";
  P 2274 6 "pcttunnell";
  P 2274 17 "pcttunnell";
  P 2275 6 "ibridge-data";
  P 2275 17 "ibridge-data";
  P 2276 6 "ibridge-mgmt";
  P 2276 17 "ibridge-mgmt";
  P 2277 6 "bluectrlproxy";
  P 2277 17 "bluectrlproxy";
  P 2278 6 "s3db";
  P 2278 17 "s3db";
  P 2279 6 "xmquery";
  P 2279 17 "xmquery";
  P 2280 6 "lnvpoller";
  P 2280 17 "lnvpoller";
  P 2281 6 "lnvconsole";
  P 2281 17 "lnvconsole";
  P 2282 6 "lnvalarm";
  P 2282 17 "lnvalarm";
  P 2283 6 "lnvstatus";
  P 2283 17 "lnvstatus";
  P 2284 6 "lnvmaps";
  P 2284 17 "lnvmaps";
  P 2285 6 "lnvmailmon";
  P 2285 17 "lnvmailmon";
  P 2286 6 "nas-metering";
  P 2286 17 "nas-metering";
  P 2287 6 "dna";
  P 2287 17 "dna";
  P 2288 6 "netml";
  P 2288 17 "netml";
  P 2289 6 "dict-lookup";
  P 2289 17 "dict-lookup";
  P 2290 6 "sonus-logging";
  P 2290 17 "sonus-logging";
  P 2291 6 "eapsp";
  P 2291 17 "eapsp";
  P 2292 6 "mib-streaming";
  P 2292 17 "mib-streaming";
  P 2293 6 "npdbgmngr";
  P 2293 17 "npdbgmngr";
  P 2294 6 "konshus-lm";
  P 2294 17 "konshus-lm";
  P 2295 6 "advant-lm";
  P 2295 17 "advant-lm";
  P 2296 6 "theta-lm";
  P 2296 17 "theta-lm";
  P 2297 6 "d2k-datamover1";
  P 2297 17 "d2k-datamover1";
  P 2298 6 "d2k-datamover2";
  P 2298 17 "d2k-datamover2";
  P 2299 6 "pc-telecommute";
  P 2299 17 "pc-telecommute";
  P 2300 6 "cvmmon";
  P 2300 17 "cvmmon";
  P 2301 6 "compaqdiag";
  P 2301 17 "cpq-wbem";
  P 2302 6 "binderysupport";
  P 2302 17 "binderysupport";
  P 2303 6 "proxy-gateway";
  P 2303 17 "proxy-gateway";
  P 2304 6 "attachmate-uts";
  P 2304 17 "attachmate-uts";
  P 2305 6 "mt-scaleserver";
  P 2305 17 "mt-scaleserver";
  P 2306 6 "tappi-boxnet";
  P 2306 17 "tappi-boxnet";
  P 2307 6 "pehelp";
  P 2307 17 "pehelp";
  P 2308 6 "sdhelp";
  P 2308 17 "sdhelp";
  P 2309 6 "sdserver";
  P 2309 17 "sdserver";
  P 2310 6 "sdclient";
  P 2310 17 "sdclient";
  P 2311 6 "messageservice";
  P 2311 17 "messageservice";
  P 2312 6 "wanscaler";
  P 2312 17 "wanscaler";
  P 2313 6 "iapp";
  P 2313 17 "iapp";
  P 2314 6 "cr-websystems";
  P 2314 17 "cr-websystems";
  P 2315 6 "precise-sft";
  P 2315 17 "precise-sft";
  P 2316 6 "sent-lm";
  P 2316 17 "sent-lm";
  P 2317 6 "attachmate-g32";
  P 2317 17 "attachmate-g32";
  P 2318 6 "cadencecontrol";
  P 2318 17 "cadencecontrol";
  P 2319 6 "infolibria";
  P 2319 17 "infolibria";
  P 2320 6 "siebel-ns";
  P 2320 17 "siebel-ns";
  P 2321 6 "rdlap";
  P 2321 17 "rdlap";
  P 2322 6 "ofsd";
  P 2322 17 "ofsd";
  P 2323 6 "3d-nfsd";
  P 2323 17 "3d-nfsd";
  P 2324 6 "cosmocall";
  P 2324 17 "cosmocall";
  P 2325 6 "ansysli";
  P 2325 17 "ansysli";
  P 2326 6 "idcp";
  P 2326 17 "idcp";
  P 2327 6 "xingcsm";
  P 2327 17 "xingcsm";
  P 2328 6 "netrix-sftm";
  P 2328 17 "netrix-sftm";
  P 2329 6 "nvd";
  P 2329 17 "nvd";
  P 2330 6 "tscchat";
  P 2330 17 "tscchat";
  P 2331 6 "agentview";
  P 2331 17 "agentview";
  P 2332 6 "rcc-host";
  P 2332 17 "rcc-host";
  P 2333 6 "snapp";
  P 2333 17 "snapp";
  P 2334 6 "ace-client";
  P 2334 17 "ace-client";
  P 2335 6 "ace-proxy";
  P 2335 17 "ace-proxy";
  P 2336 6 "appleugcontrol";
  P 2336 17 "appleugcontrol";
  P 2337 6 "ideesrv";
  P 2337 17 "ideesrv";
  P 2338 6 "norton-lambert";
  P 2338 17 "norton-lambert";
  P 2339 6 "3com-webview";
  P 2339 17 "3com-webview"].
Definition services_28 : list service := [
  P 2340 6 "wrs_registry";
  P 2340 17 "wrs_registry";
  P 2341 6 "xiostatus";
  P 2341 17 "xiostatus";
  P 2342 6 "manage-exec";
  P 2342 17 "manage-exec";
  P 2343 6 "nati-logos";
  P 2343 17 "nati-logos";
  P 2344 6 "fcmsys";
  P 2344 17 "fcmsys";
  P 2345 6 "dbm";
  P 2345 17 "dbm";
  P 2346 6 "redstorm_join";
  P 2346 17 "redstorm_join";
  P 2347 6 "redstorm_find";
  P 2347 17 "redstorm_find";
  P 2348 6 "redstorm_info";
  P 2348 17 "redstorm_info";
  P 2349 6 "redstorm_diag";
  P 2349 17 "redstorm_diag";
  P 2350 6 "psbserver";
  P 2350 17 "psbserver";
  P 2351 6 "psrserver";
  P 2351 17 "psrserver";
  P 2352 6 "pslserver";
  P 2352 17 "pslserver";
  P 2353 6 "pspserver";
  P 2353 17 "pspserver";
  P 2354 6 "psprserver";
  P 2354 17 "psprserver";
  P 2355 6 "psdbserver";
  P 2355 17 "psdbserver";
  P 2356 6 "gxtelmd";
  P 2356 17 "gxtelmd";
  P 2357 6 "unihub-server";
  P 2357 17 "unihub-server";
  P 2358 6 "futrix";
  P 2358 17 "futrix";
  P 2359 6 "flukeserver";
  P 2359 17 "flukeserver";
  P 2360 6 "nexstorindltd";
  P 2360 17 "nexstorindltd";
  P 2361 6 "tl1";
  P 2361 17 "tl1";
  P 2362 6 "digiman";
  P 2362 17 "digiman";
  P 2363 6 "mediacntrlnfsd";
  P 2363 17 "mediacntrlnfsd";
  P 2364 6 "oi-2000";
  P 2364 17 "oi-2000";
  P 2365 6 "dbref";
  P 2365 17 "dbref";
  P 2366 6 "qip-login";
  P 2366 17 "qip-login";
  P 2367 6 "service-ctrl";
  P 2367 17 "service-ctrl";
  P 2368 6 "opentable";
  P 2368 17 "opentable";
  P 2370 6 "l3-hbmon";
  P 2370 17 "l3-hbmon";
  P 2371 6 "worldwire";
  P 2371 17 "worldwire";
  P 2372 6 "lanmessenger";
  P 2372 17 "lanmessenger";
  P 2373 6 "remographlm";
  P 2374 6 "hydra";
  P 2375 6 "docker";
  P 2376 6 "docker";
  P 2377 6 "swarm";
  P 2379 6 "etcd-client";
  P 2380 6 "etcd-server";
  P 2381 6 "compaq-https";
  P 2381 17 "compaq-https";
  P 2382 6 "ms-olap3";
  P 2382 17 "ms-olap3";
  P 2383 6 "ms-olap4";
  P 2383 17 "ms-olap4";
  P 2384 6 "sd-request";
  P 2384 17 "sd-capacity";
  P 2385 6 "sd-data";
  P 2385 17 "sd-data";
  P 2386 6 "virtualtape";
  P 2386 17 "virtualtape";
  P 2387 6 "vsamredirector";
  P 2387 17 "vsamredirector";
  P 2388 6 "mynahautostart";
  P 2388 17 "mynahautostart";
  P 2389 6 "ovsessionmgr";
  P 2389 17 "ovsessionmgr";
  P 2390 6 "rsmtp";
  P 2390 17 "rsmtp";
  P 2391 6 "3com-net-mgmt";
  P 2391 17 "3com-net-mgmt";
  P 2392 6 "tacticalauth";
  P 2392 17 "tacticalauth";
  P 2393 6 "ms-olap1";
  P 2393 17 "ms-olap1";
  P 2394 6 "ms-olap2";
  P 2394 17 "ms-olap2";
  P 2395 6 "lan900_remote";
  P 2395 17 "lan900_remote";
  P 2396 6 "wusage";
  P 2396 17 "wusage";
  P 2397 6 "ncl";
  P 2397 17 "ncl";
  P 2398 6 "orbiter";
  P 2398 17 "orbiter";
  P 2399 6 "fmpro-fdal";
  P 2399 17 "fmpro-fdal";
  P 2400 6 "opequus-server";
  P 2400 17 "opequus-server";
  P 2401 6 "cvspserver";
  P 2401 17 "cvspserver";
  P 2402 6 "taskmaster2000";
  P 2402 17 "taskmaster2000";
  P 2403 6 "taskmaster2000";
  P 2403 17 "taskmaster2000";
  P 2404 6 "iec-104";
  P 2404 17 "iec-104";
  P 2405 6 "trc-netpoll";
  P 2405 17 "trc-netpoll";
  P 2406 6 "jediserver";
  P 2406 17 "jediserver";
  P 2407 6 "orion";
  P 2407 17 "orion";
  P 2408 6 "optimanet";
  P 2408 17 "optimanet";
  P 2409 6 "sns-protocol";
  P 2409 17 "sns-protocol";
  P 2410 6 "vrts-registry";
  P 2410 17 "vrts-registry";
  P 2411 6 "netwave-ap-mgmt";
  P 2411 17 "netwave-ap-mgmt";
  P 2412 6 "cdn";
  P 2412 17 "cdn";
  P 2413 6 "orion-rmi-reg";
  P 2413 17 "orion-rmi-reg";
  P 2414 6 "beeyond";
  P 2414 17 "beeyond";
  P 2415 6 "codima-rtp";
  P 2415 17 "codima-rtp";
  P 2416 6 "rmtserver";
  P 2416 17 "rmtserver";
  P 2417 6 "composit-server";
  P 2417 17 "composit-server";
  P 2418 6 "cas";
  P 2418 17 "cas";
  P 2419 6 "attachmate-s2s";
  P 2419 17 "attachmate-s2s";
  P 2420 6 "dslremote-mgmt"].
Definition services_29 : list service := [
  P 2420 17 "dslremote-mgmt";
  P 2421 6 "g-talk";
  P 2421 17 "g-talk";
  P 2422 6 "crmsbits";
  P 2422 17 "crmsbits";
  P 2423 6 "rnrp";
  P 2423 17 "rnrp";
  P 2424 6 "kofax-svr";
  P 2424 17 "kofax-svr";
  P 2425 6 "fjitsuappmgr";
  P 2425 17 "fjitsuappmgr";
  P 2426 6 "vcmp";
  P 2427 132 "mgcp-gateway";
  P 2427 6 "mgcp-gateway";
  P 2427 17 "mgcp-gateway";
  P 2428 6 "ott";
  P 2428 17 "ott";
  P 2429 6 "ft-role";
  P 2429 17 "ft-role";
  P 2430 6 "venus";
  P 2430 17 "venus";
  P 2431 6 "venus-se";
  P 2431 17 "venus-se";
  P 2432 6 "codasrv";
  P 2432 17 "codasrv";
  P 2433 6 "codasrv-se";
  P 2433 17 "codasrv-se";
  P 2434 6 "pxc-epmap";
  P 2434 17 "pxc-epmap";
  P 2435 6 "optilogic";
  P 2435 17 "optilogic";
  P 2436 6 "topx";
  P 2436 17 "topx";
  P 2437 6 "unicontrol";
  P 2437 17 "unicontrol";
  P 2438 6 "msp";
  P 2438 17 "msp";
  P 2439 6 "sybasedbsynch";
  P 2439 17 "sybasedbsynch";
  P 2440 6 "spearway";
  P 2440 17 "spearway";
  P 2441 6 "pvsw-inet";
  P 2441 17 "pvsw-inet";
  P 2442 6 "netangel";
  P 2442 17 "netangel";
  P 2443 6 "powerclientcsf";
  P 2443 17 "powerclientcsf";
  P 2444 6 "btpp2sectrans";
  P 2444 17 "btpp2sectrans";
  P 2445 6 "dtn1";
  P 2445 17 "dtn1";
  P 2446 6 "bues_service";
  P 2446 17 "bues_service";
  P 2447 6 "ovwdb";
  P 2447 17 "ovwdb";
  P 2448 6 "hpppssvr";
  P 2448 17 "hpppssvr";
  P 2449 6 "ratl";
  P 2449 17 "ratl";
  P 2450 6 "netadmin";
  P 2450 17 "netadmin";
  P 2451 6 "netchat";
  P 2451 17 "netchat";
  P 2452 6 "snifferclient";
  P 2452 17 "snifferclient";
  P 2453 6 "madge-ltd";
  P 2453 17 "madge-ltd";
  P 2454 6 "indx-dds";
  P 2454 17 "indx-dds";
  P 2455 6 "wago-io-system";
  P 2455 17 "wago-io-system";
  P 2456 6 "altav-remmgt";
  P 2456 17 "altav-remmgt";
  P 2457 6 "rapido-ip";
  P 2457 17 "rapido-ip";
  P 2458 6 "griffin";
  P 2458 17 "griffin";
  P 2459 6 "community";
  P 2459 17 "community";
  P 2460 6 "ms-theater";
  P 2460 17 "ms-theater";
  P 2461 6 "qadmifoper";
  P 2461 17 "qadmifoper";
  P 2462 6 "qadmifevent";
  P 2462 17 "qadmifevent";
  P 2463 6 "lsi-raid-mgmt";
  P 2463 17 "lsi-raid-mgmt";
  P 2464 6 "direcpc-si";
  P 2464 17 "direcpc-si";
  P 2465 6 "lbm";
  P 2465 17 "lbm";
  P 2466 6 "lbf";
  P 2466 17 "lbf";
  P 2467 6 "high-criteria";
  P 2467 17 "high-criteria";
  P 2468 6 "qip-msgd";
  P 2468 17 "qip-msgd";
  P 2469 6 "mti-tcs-comm";
  P 2469 17 "mti-tcs-comm";
  P 2470 6 "taskman-port";
  P 2470 17 "taskman-port";
  P 2471 6 "seaodbc";
  P 2471 17 "seaodbc";
  P 2472 6 "c3";
  P 2472 17 "c3";
  P 2473 6 "aker-cdp";
  P 2473 17 "aker-cdp";
  P 2474 6 "vitalanalysis";
  P 2474 17 "vitalanalysis";
  P 2475 6 "ace-server";
  P 2475 17 "ace-server";
  P 2476 6 "ace-svr-prop";
  P 2476 17 "ace-svr-prop";
  P 2477 6 "ssm-cvs";
  P 2477 17 "ssm-cvs";
  P 2478 6 "ssm-cssps";
  P 2478 17 "ssm-cssps";
  P 2479 6 "ssm-els";
  P 2479 17 "ssm-els";
  P 2480 6 "powerexchange";
  P 2480 17 "powerexchange";
  P 2481 6 "giop";
  P 2481 17 "giop";
  P 2482 6 "giop-ssl";
  P 2482 17 "giop-ssl";
  P 2483 6 "ttc";
  P 2483 17 "ttc";
  P 2484 6 "ttc-ssl";
  P 2484 17 "ttc-ssl";
  P 2485 6 "netobjects1";
  P 2485 17 "netobjects1";
  P 2486 6 "netobjects2";
  P 2486 17 "netobjects2";
  P 2487 6 "pns";
  P 2487 17 "pns";
  P 2488 6 "moy-corp";
  P 2488 17 "moy-corp";
  P 2489 6 "tsilb";
  P 2489 17 "tsilb";
  P 2490 6 "qip-qdhcp";
  P 2490 17 "qip-qdhcp";
  P 2491 6 "conclave-cpp";
  P 2491 17 "conclave-cpp";
  P 2492 6 "groove";
  P 2492 17 "groove";
  P 2493 6 "talarian-mqs";
  P 2493 17 "talarian-mqs";
  P 2494 6 "bmc-ar";
  P 2494 17 "bmc-ar";
  P 2495 6 "fast-rem-serv"].
Definition services_30 : list service := [
  P 2495 17 "fast-rem-serv";
  P 2496 6 "dirgis";
  P 2496 17 "dirgis";
  P 2497 6 "quaddb";
  P 2497 17 "quaddb";
  P 2498 6 "odn-castraq";
  P 2498 17 "odn-castraq";
  P 2499 6 "unicontrol";
  P 2499 17 "unicontrol";
  P 2500 6 "rtsserv";
  P 2500 17 "rtsserv";
  P 2501 6 "rtsclient";
  P 2501 17 "rtsclient";
  P 2502 6 "kentrox-prot";
  P 2502 17 "kentrox-prot";
  P 2503 6 "nms-dpnss";
  P 2503 17 "nms-dpnss";
  P 2504 6 "wlbs";
  P 2504 17 "wlbs";
  P 2505 6 "ppcontrol";
  P 2505 17 "ppcontrol";
  P 2506 6 "jbroker";
  P 2506 17 "jbroker";
  P 2507 6 "spock";
  P 2507 17 "spock";
  P 2508 6 "jdatastore";
  P 2508 17 "jdatastore";
  P 2509 6 "fjmpss";
  P 2509 17 "fjmpss";
  P 2510 6 "fjappmgrbulk";
  P 2510 17 "fjappmgrbulk";
  P 2511 6 "metastorm";
  P 2511 17 "metastorm";
  P 2512 6 "citrixima";
  P 2512 17 "citrixima";
  P 2513 6 "citrixadmin";
  P 2513 17 "citrixadmin";
  P 2514 6 "facsys-ntp";
  P 2514 17 "facsys-ntp";
  P 2515 6 "facsys-router";
  P 2515 17 "facsys-router";
  P 2516 6 "maincontrol";
  P 2516 17 "maincontrol";
  P 2517 6 "call-sig-trans";
  P 2517 17 "call-sig-trans";
  P 2518 6 "willy";
  P 2518 17 "willy";
  P 2519 6 "globmsgsvc";
  P 2519 17 "globmsgsvc";
  P 2520 6 "pvsw";
  P 2520 17 "pvsw";
  P 2521 6 "adaptecmgr";
  P 2521 17 "adaptecmgr";
  P 2522 6 "windb";
  P 2522 17 "windb";
  P 2523 6 "qke-llc-v3";
  P 2523 17 "qke-llc-v3";
  P 2524 6 "optiwave-lm";
  P 2524 17 "optiwave-lm";
  P 2525 6 "ms-v-worlds";
  P 2525 17 "ms-v-worlds";
  P 2526 6 "ema-sent-lm";
  P 2526 17 "ema-sent-lm";
  P 2527 6 "iqserver";
  P 2527 17 "iqserver";
  P 2528 6 "ncr_ccl";
  P 2528 17 "ncr_ccl";
  P 2529 6 "utsftp";
  P 2529 17 "utsftp";
  P 2530 6 "vrcommerce";
  P 2530 17 "vrcommerce";
  P 2531 6 "ito-e-gui";
  P 2531 17 "ito-e-gui";
  P 2532 6 "ovtopmd";
  P 2532 17 "ovtopmd";
  P 2533 6 "snifferserver";
  P 2533 17 "snifferserver";
  P 2534 6 "combox-web-acc";
  P 2534 17 "combox-web-acc";
  P 2535 6 "madcap";
  P 2535 17 "madcap";
  P 2536 6 "btpp2audctr1";
  P 2536 17 "btpp2audctr1";
  P 2537 6 "upgrade";
  P 2537 17 "upgrade";
  P 2538 6 "vnwk-prapi";
  P 2538 17 "vnwk-prapi";
  P 2539 6 "vsiadmin";
  P 2539 17 "vsiadmin";
  P 2540 6 "lonworks";
  P 2540 17 "lonworks";
  P 2541 6 "lonworks2";
  P 2541 17 "lonworks2";
  P 2542 6 "udrawgraph";
  P 2542 17 "udrawgraph";
  P 2543 6 "reftek";
  P 2543 17 "reftek";
  P 2544 6 "novell-zen";
  P 2544 17 "novell-zen";
  P 2545 6 "sis-emt";
  P 2545 17 "sis-emt";
  P 2546 6 "vytalvaultbrtp";
  P 2546 17 "vytalvaultbrtp";
  P 2547 6 "vytalvaultvsmp";
  P 2547 17 "vytalvaultvsmp";
  P 2548 6 "vytalvaultpipe";
  P 2548 17 "vytalvaultpipe";
  P 2549 6 "ipass";
  P 2549 17 "ipass";
  P 2550 6 "ads";
  P 2550 17 "ads";
  P 2551 6 "isg-uda-server";
  P 2551 17 "isg-uda-server";
  P 2552 6 "call-logging";
  P 2552 17 "call-logging";
  P 2553 6 "efidiningport";
  P 2553 17 "efidiningport";
  P 2554 6 "vcnet-link-v10";
  P 2554 17 "vcnet-link-v10";
  P 2555 6 "compaq-wcp";
  P 2555 17 "compaq-wcp";
  P 2556 6 "nicetec-nmsvc";
  P 2556 17 "nicetec-nmsvc";
  P 2557 6 "nicetec-mgmt";
  P 2557 17 "nicetec-mgmt";
  P 2558 6 "pclemultimedia";
  P 2558 17 "pclemultimedia";
  P 2559 6 "lstp";
  P 2559 17 "lstp";
  P 2560 6 "labrat";
  P 2560 17 "labrat";
  P 2561 6 "mosaixcc";
  P 2561 17 "mosaixcc";
  P 2562 6 "delibo";
  P 2562 17 "delibo";
  P 2563 6 "cti-redwood";
  P 2563 17 "cti-redwood";
  P 2564 6 "hp-3000-telnet";
  P 2565 6 "coord-svr";
  P 2565 17 "coord-svr";
  P 2566 6 "pcs-pcw";
  P 2566 17 "pcs-pcw";
  P 2567 6 "clp";
  P 2567 17 "clp";
  P 2568 6 "spamtrap";
  P 2568 17 "spamtrap";
  P 2569 6 "sonuscallsig";
  P 2569 17 "sonuscallsig";
  P 2570 6 "hs-port";
  P 2570 17 "hs-port"].
Definition services_31 : list service := [
  P 2571 6 "cecsvc";
  P 2571 17 "cecsvc";
  P 2572 6 "ibp";
  P 2572 17 "ibp";
  P 2573 6 "trustestablish";
  P 2573 17 "trustestablish";
  P 2574 6 "blockade-bpsp";
  P 2574 17 "blockade-bpsp";
  P 2575 6 "hl7";
  P 2575 17 "hl7";
  P 2576 6 "tclprodebugger";
  P 2576 17 "tclprodebugger";
  P 2577 6 "scipticslsrvr";
  P 2577 17 "scipticslsrvr";
  P 2578 6 "rvs-isdn-dcp";
  P 2578 17 "rvs-isdn-dcp";
  P 2579 6 "mpfoncl";
  P 2579 17 "mpfoncl";
  P 2580 6 "tributary";
  P 2580 17 "tributary";
  P 2581 6 "argis-te";
  P 2581 17 "argis-te";
  P 2582 6 "argis-ds";
  P 2582 17 "argis-ds";
  P 2583 6 "mon";
  P 2583 17 "mon";
  P 2584 6 "cyaserv";
  P 2584 17 "cyaserv";
  P 2585 6 "netx-server";
  P 2585 17 "netx-server";
  P 2586 6 "netx-agent";
  P 2586 17 "netx-agent";
  P 2587 6 "masc";
  P 2587 17 "masc";
  P 2588 6 "privilege";
  P 2588 17 "privilege";
  P 2589 6 "quartus-tcl";
  P 2589 17 "quartus-tcl";
  P 2590 6 "idotdist";
  P 2590 17 "idotdist";
  P 2591 6 "maytagshuffle";
  P 2591 17 "maytagshuffle";
  P 2592 6 "netrek";
  P 2592 17 "netrek";
  P 2593 6 "mns-mail";
  P 2593 17 "mns-mail";
  P 2594 6 "dts";
  P 2594 17 "dts";
  P 2595 6 "worldfusion1";
  P 2595 17 "worldfusion1";
  P 2596 6 "worldfusion2";
  P 2596 17 "worldfusion2";
  P 2597 6 "homesteadglory";
  P 2597 17 "homesteadglory";
  P 2598 6 "citriximaclient";
  P 2598 17 "citriximaclient";
  P 2599 6 "snapd";
  P 2599 17 "snapd";
  P 2600 6 "zebrasrv";
  P 2600 17 "hpstgmgr";
  P 2601 6 "zebra";
  P 2601 17 "discp-client";
  P 2602 6 "ripd";
  P 2602 17 "discp-server";
  P 2603 6 "ripngd";
  P 2603 17 "servicemeter";
  P 2604 6 "ospfd";
  P 2604 17 "nsc-ccs";
  P 2605 6 "bgpd";
  P 2605 17 "nsc-posa";
  P 2606 6 "netmon";
  P 2606 17 "netmon";
  P 2607 6 "connection";
  P 2607 17 "connection";
  P 2608 6 "wag-service";
  P 2608 17 "wag-service";
  P 2609 6 "system-monitor";
  P 2609 17 "system-monitor";
  P 2610 6 "versa-tek";
  P 2610 17 "versa-tek";
  P 2611 6 "lionhead";
  P 2611 17 "lionhead";
  P 2612 6 "qpasa-agent";
  P 2612 17 "qpasa-agent";
  P 2613 6 "smntubootstrap";
  P 2613 17 "smntubootstrap";
  P 2614 6 "neveroffline";
  P 2614 17 "neveroffline";
  P 2615 6 "firepower";
  P 2615 17 "firepower";
  P 2616 6 "appswitch-emp";
  P 2616 17 "appswitch-emp";
  P 2617 6 "cmadmin";
  P 2617 17 "cmadmin";
  P 2618 6 "priority-e-com";
  P 2618 17 "priority-e-com";
  P 2619 6 "bruce";
  P 2619 17 "bruce";
  P 2620 6 "lpsrecommender";
  P 2620 17 "lpsrecommender";
  P 2621 6 "miles-apart";
  P 2621 17 "miles-apart";
  P 2622 6 "metricadbc";
  P 2622 17 "metricadbc";
  P 2623 6 "lmdp";
  P 2623 17 "lmdp";
  P 2624 6 "aria";
  P 2624 17 "aria";
  P 2625 6 "blwnkl-port";
  P 2625 17 "blwnkl-port";
  P 2626 6 "gbjd816";
  P 2626 17 "gbjd816";
  P 2627 6 "webster";
  P 2627 17 "webster";
  P 2628 6 "dict";
  P 2628 17 "dict";
  P 2629 6 "sitaraserver";
  P 2629 17 "sitaraserver";
  P 2630 6 "sitaramgmt";
  P 2630 17 "sitaramgmt";
  P 2631 6 "sitaradir";
  P 2631 17 "sitaradir";
  P 2632 6 "irdg-post";
  P 2632 17 "irdg-post";
  P 2633 6 "interintelli";
  P 2633 17 "interintelli";
  P 2634 6 "pk-electronics";
  P 2634 17 "pk-electronics";
  P 2635 6 "backburner";
  P 2635 17 "backburner";
  P 2636 6 "solve";
  P 2636 17 "solve";
  P 2637 6 "imdocsvc";
  P 2637 17 "imdocsvc";
  P 2638 6 "sybase";
  P 2638 17 "sybaseanywhere";
  P 2639 6 "aminet";
  P 2639 17 "aminet";
  P 2640 6 "sai_sentlm";
  P 2640 17 "sai_sentlm";
  P 2641 6 "hdl-srv";
  P 2641 17 "hdl-srv";
  P 2642 6 "tragic";
  P 2642 17 "tragic";
  P 2643 6 "gte-samp";
  P 2643 17 "gte-samp";
  P 2644 6 "travsoft-ipx-t";
  P 2644 17 "travsoft-ipx-t";
  P 2645 6 "novell-ipx-cmd";
  P 2645 17 "novell-ipx-cmd"].
Definition services_32 : list service := [
  P 2646 6 "and-lm";
  P 2646 17 "and-lm";
  P 2647 6 "syncserver";
  P 2647 17 "syncserver";
  P 2648 6 "upsnotifyprot";
  P 2648 17 "upsnotifyprot";
  P 2649 6 "vpsipport";
  P 2649 17 "vpsipport";
  P 2650 6 "eristwoguns";
  P 2650 17 "eristwoguns";
  P 2651 6 "ebinsite";
  P 2651 17 "ebinsite";
  P 2652 6 "interpathpanel";
  P 2652 17 "interpathpanel";
  P 2653 6 "sonus";
  P 2653 17 "sonus";
  P 2654 6 "corel_vncadmin";
  P 2654 17 "corel_vncadmin";
  P 2655 6 "unglue";
  P 2655 17 "unglue";
  P 2656 6 "kana";
  P 2656 17 "kana";
  P 2657 6 "sns-dispatcher";
  P 2657 17 "sns-dispatcher";
  P 2658 6 "sns-admin";
  P 2658 17 "sns-admin";
  P 2659 6 "sns-query";
  P 2659 17 "sns-query";
  P 2660 6 "gcmonitor";
  P 2660 17 "gcmonitor";
  P 2661 6 "olhost";
  P 2661 17 "olhost";
  P 2662 6 "bintec-capi";
  P 2662 17 "bintec-capi";
  P 2663 6 "bintec-tapi";
  P 2663 17 "bintec-tapi";
  P 2664 6 "patrol-mq-gm";
  P 2664 17 "patrol-mq-gm";
  P 2665 6 "patrol-mq-nm";
  P 2665 17 "patrol-mq-nm";
  P 2666 6 "extensis";
  P 2666 17 "extensis";
  P 2667 6 "alarm-clock-s";
  P 2667 17 "alarm-clock-s";
  P 2668 6 "alarm-clock-c";
  P 2668 17 "alarm-clock-c";
  P 2669 6 "toad";
  P 2669 17 "toad";
  P 2670 6 "tve-announce";
  P 2670 17 "tve-announce";
  P 2671 6 "newlixreg";
  P 2671 17 "newlixreg";
  P 2672 6 "nhserver";
  P 2672 17 "nhserver";
  P 2673 6 "firstcall42";
  P 2673 17 "firstcall42";
  P 2674 6 "ewnn";
  P 2674 17 "ewnn";
  P 2675 6 "ttc-etap";
  P 2675 17 "ttc-etap";
  P 2676 6 "simslink";
  P 2676 17 "simslink";
  P 2677 6 "gadgetgate1way";
  P 2677 17 "gadgetgate1way";
  P 2678 6 "gadgetgate2way";
  P 2678 17 "gadgetgate2way";
  P 2679 6 "syncserverssl";
  P 2679 17 "syncserverssl";
  P 2680 6 "pxc-sapxom";
  P 2680 17 "pxc-sapxom";
  P 2681 6 "mpnjsomb";
  P 2681 17 "mpnjsomb";
  P 2683 6 "ncdloadbalance";
  P 2683 17 "ncdloadbalance";
  P 2684 6 "mpnjsosv";
  P 2684 17 "mpnjsosv";
  P 2685 6 "mpnjsocl";
  P 2685 17 "mpnjsocl";
  P 2686 6 "mpnjsomg";
  P 2686 17 "mpnjsomg";
  P 2687 6 "pq-lic-mgmt";
  P 2687 17 "pq-lic-mgmt";
  P 2688 6 "md-cg-http";
  P 2688 17 "md-cg-http";
  P 2689 6 "fastlynx";
  P 2689 17 "fastlynx";
  P 2690 6 "hp-nnm-data";
  P 2690 17 "hp-nnm-data";
  P 2691 6 "itinternet";
  P 2691 17 "itinternet";
  P 2692 6 "admins-lms";
  P 2692 17 "admins-lms";
  P 2694 6 "pwrsevent";
  P 2694 17 "pwrsevent";
  P 2695 6 "vspread";
  P 2695 17 "vspread";
  P 2696 6 "unifyadmin";
  P 2696 17 "unifyadmin";
  P 2697 6 "oce-snmp-trap";
  P 2697 17 "oce-snmp-trap";
  P 2698 6 "mck-ivpip";
  P 2698 17 "mck-ivpip";
  P 2699 6 "csoft-plusclnt";
  P 2699 17 "csoft-plusclnt";
  P 2700 6 "tqdata";
  P 2700 17 "tqdata";
  P 2701 6 "sms-rcinfo";
  P 2701 17 "sms-rcinfo";
  P 2702 6 "sms-xfer";
  P 2702 17 "sms-xfer";
  P 2703 6 "sms-chat";
  P 2703 17 "sms-chat";
  P 2704 6 "sms-remctrl";
  P 2704 17 "sms-remctrl";
  P 2705 6 "sds-admin";
  P 2705 17 "sds-admin";
  P 2706 6 "ncdmirroring";
  P 2706 17 "ncdmirroring";
  P 2707 6 "emcsymapiport";
  P 2707 17 "emcsymapiport";
  P 2708 6 "banyan-net";
  P 2708 17 "banyan-net";
  P 2709 6 "supermon";
  P 2709 17 "supermon";
  P 2710 6 "sso-service";
  P 2710 17 "sso-service";
  P 2711 6 "sso-control";
  P 2711 17 "sso-control";
  P 2712 6 "aocp";
  P 2712 17 "aocp";
  P 2713 6 "raventbs";
  P 2713 17 "raventbs";
  P 2714 6 "raventdm";
  P 2714 17 "raventdm";
  P 2715 6 "hpstgmgr2";
  P 2715 17 "hpstgmgr2";
  P 2716 6 "inova-ip-disco";
  P 2716 17 "inova-ip-disco";
  P 2717 6 "pn-requester";
  P 2717 17 "pn-requester";
  P 2718 6 "pn-requester2";
  P 2718 17 "pn-requester2";
  P 2719 6 "scan-change";
  P 2719 17 "scan-change";
  P 2720 6 "wkars";
  P 2720 17 "wkars";
  P 2721 6 "smart-diagnose";
  P 2721 17 "smart-diagnose";
  P 2722 6 "proactivesrvr";
  P 2722 17 "proactivesrvr"].
Definition services_33 : list service := [
  P 2723 6 "watchdog-nt";
  P 2723 17 "watchdog-nt";
  P 2724 6 "qotps";
  P 2724 17 "qotps";
  P 2725 6 "msolap-ptp2";
  P 2725 17 "msolap-ptp2";
  P 2726 6 "tams";
  P 2726 17 "tams";
  P 2727 6 "mgcp-callagent";
  P 2727 17 "mgcp-callagent";
  P 2728 6 "sqdr";
  P 2728 17 "sqdr";
  P 2729 6 "tcim-control";
  P 2729 17 "tcim-control";
  P 2730 6 "nec-raidplus";
  P 2730 17 "nec-raidplus";
  P 2731 6 "fyre-messanger";
  P 2731 17 "fyre-messanger";
  P 2732 6 "g5m";
  P 2732 17 "g5m";
  P 2733 6 "signet-ctf";
  P 2733 17 "signet-ctf";
  P 2734 6 "ccs-software";
  P 2734 17 "ccs-software";
  P 2735 6 "netiq-mc";
  P 2735 17 "netiq-mc";
  P 2736 6 "radwiz-nms-srv";
  P 2736 17 "radwiz-nms-srv";
  P 2737 6 "srp-feedback";
  P 2737 17 "srp-feedback";
  P 2738 6 "ndl-tcp-ois-gw";
  P 2738 17 "ndl-tcp-ois-gw";
  P 2739 6 "tn-timing";
  P 2739 17 "tn-timing";
  P 2740 6 "alarm";
  P 2740 17 "alarm";
  P 2741 6 "tsb";
  P 2741 17 "tsb";
  P 2742 6 "tsb2";
  P 2742 17 "tsb2";
  P 2743 6 "murx";
  P 2743 17 "murx";
  P 2744 6 "honyaku";
  P 2744 17 "honyaku";
  P 2745 6 "urbisnet";
  P 2745 17 "urbisnet";
  P 2746 6 "cpudpencap";
  P 2746 17 "cpudpencap";
  P 2747 6 "fjippol-swrly";
  P 2747 17 "fjippol-swrly";
  P 2748 6 "fjippol-polsvr";
  P 2748 17 "fjippol-polsvr";
  P 2749 6 "fjippol-cnsl";
  P 2749 17 "fjippol-cnsl";
  P 2750 6 "fjippol-port1";
  P 2750 17 "fjippol-port1";
  P 2751 6 "fjippol-port2";
  P 2751 17 "fjippol-port2";
  P 2752 6 "rsisysaccess";
  P 2752 17 "rsisysaccess";
  P 2753 6 "de-spot";
  P 2753 17 "de-spot";
  P 2754 6 "apollo-cc";
  P 2754 17 "apollo-cc";
  P 2755 6 "expresspay";
  P 2755 17 "expresspay";
  P 2756 6 "simplement-tie";
  P 2756 17 "simplement-tie";
  P 2757 6 "cnrp";
  P 2757 17 "cnrp";
  P 2758 6 "apollo-status";
  P 2758 17 "apollo-status";
  P 2759 6 "apollo-gms";
  P 2759 17 "apollo-gms";
  P 2760 6 "sabams";
  P 2760 17 "sabams";
  P 2761 6 "dicom-iscl";
  P 2761 17 "dicom-iscl";
  P 2762 6 "dicom-tls";
  P 2762 17 "dicom-tls";
  P 2763 6 "desktop-dna";
  P 2763 17 "desktop-dna";
  P 2764 6 "data-insurance";
  P 2764 17 "data-insurance";
  P 2765 6 "qip-audup";
  P 2765 17 "qip-audup";
  P 2766 6 "listen";
  P 2766 17 "compaq-scp";
  P 2767 6 "uadtc";
  P 2767 17 "uadtc";
  P 2768 6 "uacs";
  P 2768 17 "uacs";
  P 2769 6 "exce";
  P 2769 17 "exce";
  P 2770 6 "veronica";
  P 2770 17 "veronica";
  P 2771 6 "vergencecm";
  P 2771 17 "vergencecm";
  P 2772 6 "auris";
  P 2772 17 "auris";
  P 2773 6 "rbakcup1";
  P 2773 17 "rbakcup1";
  P 2774 6 "rbakcup2";
  P 2774 17 "rbakcup2";
  P 2775 6 "smpp";
  P 2775 17 "smpp";
  P 2776 6 "ridgeway1";
  P 2776 17 "ridgeway1";
  P 2777 6 "ridgeway2";
  P 2777 17 "ridgeway2";
  P 2778 6 "gwen-sonya";
  P 2778 17 "gwen-sonya";
  P 2779 6 "lbc-sync";
  P 2779 17 "lbc-sync";
  P 2780 6 "lbc-control";
  P 2780 17 "lbc-control";
  P 2781 6 "whosells";
  P 2781 17 "whosells";
  P 2782 6 "everydayrc";
  P 2782 17 "everydayrc";
  P 2783 6 "aises";
  P 2783 17 "aises";
  P 2784 6 "www-dev";
  P 2784 17 "www-dev";
  P 2785 6 "aic-np";
  P 2785 17 "aic-np";
  P 2786 6 "aic-oncrpc";
  P 2786 17 "aic-oncrpc";
  P 2787 6 "piccolo";
  P 2787 17 "piccolo";
  P 2788 6 "fryeserv";
  P 2788 17 "fryeserv";
  P 2789 6 "media-agent";
  P 2789 17 "media-agent";
  P 2790 6 "plgproxy";
  P 2790 17 "plgproxy";
  P 2791 6 "mtport-regist";
  P 2791 17 "mtport-regist";
  P 2792 6 "f5-globalsite";
  P 2792 17 "f5-globalsite";
  P 2793 6 "initlsmsad";
  P 2793 17 "initlsmsad";
  P 2795 6 "livestats";
  P 2795 17 "livestats";
  P 2796 6 "ac-tech";
  P 2796 17 "ac-tech";
  P 2797 6 "esp-encap";
  P 2797 17 "esp-encap";
  P 2798 6 "tmesis-upshot";
  P 2798 17 "tmesis-upshot"].
Definition services_34 : list service := [
  P 2799 6 "icon-discover";
  P 2799 17 "icon-discover";
  P 2800 6 "acc-raid";
  P 2800 17 "acc-raid";
  P 2801 6 "igcp";
  P 2801 17 "igcp";
  P 2802 6 "veritas-tcp1";
  P 2802 17 "veritas-udp1";
  P 2803 6 "btprjctrl";
  P 2803 17 "btprjctrl";
  P 2804 6 "dvr-esm";
  P 2804 17 "dvr-esm";
  P 2805 6 "wta-wsp-s";
  P 2805 17 "wta-wsp-s";
  P 2806 6 "cspuni";
  P 2806 17 "cspuni";
  P 2807 6 "cspmulti";
  P 2807 17 "cspmulti";
  P 2808 6 "j-lan-p";
  P 2808 17 "j-lan-p";
  P 2809 6 "corbaloc";
  P 2809 17 "corbaloc";
  P 2810 6 "netsteward";
  P 2810 17 "netsteward";
  P 2811 6 "gsiftp";
  P 2811 17 "gsiftp";
  P 2812 6 "atmtcp";
  P 2812 17 "atmtcp";
  P 2813 6 "llm-pass";
  P 2813 17 "llm-pass";
  P 2814 6 "llm-csv";
  P 2814 17 "llm-csv";
  P 2815 6 "lbc-measure";
  P 2815 17 "lbc-measure";
  P 2816 6 "lbc-watchdog";
  P 2816 17 "lbc-watchdog";
  P 2817 6 "nmsigport";
  P 2817 17 "nmsigport";
  P 2818 6 "rmlnk";
  P 2818 17 "rmlnk";
  P 2819 6 "fc-faultnotify";
  P 2819 17 "fc-faultnotify";
  P 2820 6 "univision";
  P 2820 17 "univision";
  P 2821 6 "vrts-at-port";
  P 2821 17 "vrts-at-port";
  P 2822 6 "ka0wuc";
  P 2822 17 "ka0wuc";
  P 2823 6 "cqg-netlan";
  P 2823 17 "cqg-netlan";
  P 2824 6 "cqg-netlan-1";
  P 2824 17 "cqg-netlan-1";
  P 2826 6 "slc-systemlog";
  P 2826 17 "slc-systemlog";
  P 2827 6 "slc-ctrlrloops";
  P 2827 17 "slc-ctrlrloops";
  P 2828 6 "itm-lm";
  P 2828 17 "itm-lm";
  P 2829 6 "silkp1";
  P 2829 17 "silkp1";
  P 2830 6 "silkp2";
  P 2830 17 "silkp2";
  P 2831 6 "silkp3";
  P 2831 17 "silkp3";
  P 2832 6 "silkp4";
  P 2832 17 "silkp4";
  P 2833 6 "glishd";
  P 2833 17 "glishd";
  P 2834 6 "evtp";
  P 2834 17 "evtp";
  P 2835 6 "evtp-data";
  P 2835 17 "evtp-data";
  P 2836 6 "catalyst";
  P 2836 17 "catalyst";
  P 2837 6 "repliweb";
  P 2837 17 "repliweb";
  P 2838 6 "starbot";
  P 2838 17 "starbot";
  P 2839 6 "nmsigport";
  P 2839 17 "nmsigport";
  P 2840 6 "l3-exprt";
  P 2840 17 "l3-exprt";
  P 2841 6 "l3-ranger";
  P 2841 17 "l3-ranger";
  P 2842 6 "l3-hawk";
  P 2842 17 "l3-hawk";
  P 2843 6 "pdnet";
  P 2843 17 "pdnet";
  P 2844 6 "bpcp-poll";
  P 2844 17 "bpcp-poll";
  P 2845 6 "bpcp-trap";
  P 2845 17 "bpcp-trap";
  P 2846 6 "aimpp-hello";
  P 2846 17 "aimpp-hello";
  P 2847 6 "aimpp-port-req";
  P 2847 17 "aimpp-port-req";
  P 2848 6 "amt-blc-port";
  P 2848 17 "amt-blc-port";
  P 2849 6 "fxp";
  P 2849 17 "fxp";
  P 2850 6 "metaconsole";
  P 2850 17 "metaconsole";
  P 2851 6 "webemshttp";
  P 2851 17 "webemshttp";
  P 2852 6 "bears-01";
  P 2852 17 "bears-01";
  P 2853 6 "ispipes";
  P 2853 17 "ispipes";
  P 2854 6 "infomover";
  P 2854 17 "infomover";
  P 2855 6 "msrp";
  P 2855 17 "msrp";
  P 2856 6 "cesdinv";
  P 2856 17 "cesdinv";
  P 2857 6 "simctlp";
  P 2857 17 "simctlp";
  P 2858 6 "ecnp";
  P 2858 17 "ecnp";
  P 2859 6 "activememory";
  P 2859 17 "activememory";
  P 2860 6 "dialpad-voice1";
  P 2860 17 "dialpad-voice1";
  P 2861 6 "dialpad-voice2";
  P 2861 17 "dialpad-voice2";
  P 2862 6 "ttg-protocol";
  P 2862 17 "ttg-protocol";
  P 2863 6 "sonardata";
  P 2863 17 "sonardata";
  P 2864 6 "astromed-main";
  P 2864 17 "astromed-main";
  P 2865 6 "pit-vpn";
  P 2865 17 "pit-vpn";
  P 2866 6 "iwlistener";
  P 2866 17 "iwlistener";
  P 2867 6 "esps-portal";
  P 2867 17 "esps-portal";
  P 2868 6 "npep-messaging";
  P 2868 17 "npep-messaging";
  P 2869 6 "icslap";
  P 2869 17 "icslap";
  P 2870 6 "daishi";
  P 2870 17 "daishi";
  P 2871 6 "msi-selectplay";
  P 2871 17 "msi-selectplay";
  P 2872 6 "radix";
  P 2872 17 "radix";
  P 2874 6 "dxmessagebase1";
  P 2874 17 "dxmessagebase1";
  P 2875 6 "dxmessagebase2";
  P 2875 17 "dxmessagebase2"].
Definition services_35 : list service := [
  P 2876 6 "sps-tunnel";
  P 2876 17 "sps-tunnel";
  P 2877 6 "bluelance";
  P 2877 17 "bluelance";
  P 2878 6 "aap";
  P 2878 17 "aap";
  P 2879 6 "ucentric-ds";
  P 2879 17 "ucentric-ds";
  P 2880 6 "synapse";
  P 2880 17 "synapse";
  P 2881 6 "ndsp";
  P 2881 17 "ndsp";
  P 2882 6 "ndtp";
  P 2882 17 "ndtp";
  P 2883 6 "ndnp";
  P 2883 17 "ndnp";
  P 2884 6 "flashmsg";
  P 2884 17 "flashmsg";
  P 2885 6 "topflow";
  P 2885 17 "topflow";
  P 2886 6 "responselogic";
  P 2886 17 "responselogic";
  P 2887 6 "aironetddp";
  P 2887 17 "aironetddp";
  P 2888 6 "spcsdlobby";
  P 2888 17 "spcsdlobby";
  P 2889 6 "rsom";
  P 2889 17 "rsom";
  P 2890 6 "cspclmulti";
  P 2890 17 "cspclmulti";
  P 2891 6 "cinegrfx-elmd";
  P 2891 17 "cinegrfx-elmd";
  P 2892 6 "snifferdata";
  P 2892 17 "snifferdata";
  P 2893 6 "vseconnector";
  P 2893 17 "vseconnector";
  P 2894 6 "abacus-remote";
  P 2894 17 "abacus-remote";
  P 2895 6 "natuslink";
  P 2895 17 "natuslink";
  P 2896 6 "ecovisiong6-1";
  P 2896 17 "ecovisiong6-1";
  P 2897 6 "citrix-rtmp";
  P 2897 17 "citrix-rtmp";
  P 2898 6 "appliance-cfg";
  P 2898 17 "appliance-cfg";
  P 2899 6 "powergemplus";
  P 2899 17 "powergemplus";
  P 2900 6 "quicksuite";
  P 2900 17 "quicksuite";
  P 2901 6 "allstorcns";
  P 2901 17 "allstorcns";
  P 2902 6 "netaspi";
  P 2902 17 "netaspi";
  P 2903 6 "extensisportfolio";
  P 2903 17 "suitcase";
  P 2904 132 "m2ua";
  P 2904 6 "m2ua";
  P 2904 17 "m2ua";
  P 2905 132 "m3ua";
  P 2905 6 "m3ua";
  P 2905 17 "m3ua";
  P 2906 6 "caller9";
  P 2906 17 "caller9";
  P 2907 6 "webmethods-b2b";
  P 2907 17 "webmethods-b2b";
  P 2908 6 "mao";
  P 2908 17 "mao";
  P 2909 6 "funk-dialout";
  P 2909 17 "funk-dialout";
  P 2910 6 "tdaccess";
  P 2910 17 "tdaccess";
  P 2911 6 "blockade";
  P 2911 17 "blockade";
  P 2912 6 "epicon";
  P 2912 17 "epicon";
  P 2913 6 "boosterware";
  P 2913 17 "boosterware";
  P 2914 6 "gamelobby";
  P 2914 17 "gamelobby";
  P 2915 6 "tksocket";
  P 2915 17 "tksocket";
  P 2916 6 "elvin_server";
  P 2916 17 "elvin_server";
  P 2917 6 "elvin_client";
  P 2917 17 "elvin_client";
  P 2918 6 "kastenchasepad";
  P 2918 17 "kastenchasepad";
  P 2919 6 "roboer";
  P 2919 17 "roboer";
  P 2920 6 "roboeda";
  P 2920 17 "roboeda";
  P 2921 6 "cesdcdman";
  P 2921 17 "cesdcdman";
  P 2922 6 "cesdcdtrn";
  P 2922 17 "cesdcdtrn";
  P 2923 6 "wta-wsp-wtp-s";
  P 2923 17 "wta-wsp-wtp-s";
  P 2924 6 "precise-vip";
  P 2924 17 "precise-vip";
  P 2926 6 "mobile-file-dl";
  P 2926 17 "mobile-file-dl";
  P 2927 6 "unimobilectrl";
  P 2927 17 "unimobilectrl";
  P 2928 6 "redstone-cpss";
  P 2928 17 "redstone-cpss";
  P 2929 6 "amx-webadmin";
  P 2929 17 "amx-webadmin";
  P 2930 6 "amx-weblinx";
  P 2930 17 "amx-weblinx";
  P 2931 6 "circle-x";
  P 2931 17 "circle-x";
  P 2932 6 "incp";
  P 2932 17 "incp";
  P 2933 6 "4-tieropmgw";
  P 2933 17 "4-tieropmgw";
  P 2934 6 "4-tieropmcli";
  P 2934 17 "4-tieropmcli";
  P 2935 6 "qtp";
  P 2935 17 "qtp";
  P 2936 6 "otpatch";
  P 2936 17 "otpatch";
  P 2937 6 "pnaconsult-lm";
  P 2937 17 "pnaconsult-lm";
  P 2938 6 "sm-pas-1";
  P 2938 17 "sm-pas-1";
  P 2939 6 "sm-pas-2";
  P 2939 17 "sm-pas-2";
  P 2940 6 "sm-pas-3";
  P 2940 17 "sm-pas-3";
  P 2941 6 "sm-pas-4";
  P 2941 17 "sm-pas-4";
  P 2942 6 "sm-pas-5";
  P 2942 17 "sm-pas-5";
  P 2943 6 "ttnrepository";
  P 2943 17 "ttnrepository";
  P 2944 132 "megaco-h248";
  P 2944 6 "megaco-h248";
  P 2944 17 "megaco-h248";
  P 2945 132 "h248-binary";
  P 2945 6 "h248-binary";
  P 2945 17 "h248-binary";
  P 2946 6 "fjsvmpor";
  P 2946 17 "fjsvmpor";
  P 2947 6 "gpsd";
  P 2947 17 "gpsd";
  P 2948 6 "wap-push";
  P 2948 17 "wap-push";
  P 2949 6 "wap-pushsecure";
  P 2949 17 "wap-pushsecure"].
Definition services_36 : list service := [
  P 2950 6 "esip";
  P 2950 17 "esip";
  P 2951 6 "ottp";
  P 2951 17 "ottp";
  P 2952 6 "mpfwsas";
  P 2952 17 "mpfwsas";
  P 2953 6 "ovalarmsrv";
  P 2953 17 "ovalarmsrv";
  P 2954 6 "ovalarmsrv-cmd";
  P 2954 17 "ovalarmsrv-cmd";
  P 2955 6 "csnotify";
  P 2955 17 "csnotify";
  P 2956 6 "ovrimosdbman";
  P 2956 17 "ovrimosdbman";
  P 2957 6 "jmact5";
  P 2957 17 "jmact5";
  P 2958 6 "jmact6";
  P 2958 17 "jmact6";
  P 2959 6 "rmopagt";
  P 2959 17 "rmopagt";
  P 2960 6 "dfoxserver";
  P 2960 17 "dfoxserver";
  P 2961 6 "boldsoft-lm";
  P 2961 17 "boldsoft-lm";
  P 2962 6 "iph-policy-cli";
  P 2962 17 "iph-policy-cli";
  P 2963 6 "iph-policy-adm";
  P 2963 17 "iph-policy-adm";
  P 2964 6 "bullant-srap";
  P 2964 17 "bullant-srap";
  P 2965 6 "bullant-rap";
  P 2965 17 "bullant-rap";
  P 2966 6 "idp-infotrieve";
  P 2966 17 "idp-infotrieve";
  P 2967 6 "symantec-av";
  P 2967 17 "symantec-av";
  P 2968 6 "enpp";
  P 2968 17 "enpp";
  P 2969 6 "essp";
  P 2969 17 "essp";
  P 2970 6 "index-net";
  P 2970 17 "index-net";
  P 2971 6 "netclip";
  P 2971 17 "netclip";
  P 2972 6 "pmsm-webrctl";
  P 2972 17 "pmsm-webrctl";
  P 2973 6 "svnetworks";
  P 2973 17 "svnetworks";
  P 2974 6 "signal";
  P 2974 17 "signal";
  P 2975 6 "fjmpcm";
  P 2975 17 "fjmpcm";
  P 2976 6 "cns-srv-port";
  P 2976 17 "cns-srv-port";
  P 2977 6 "ttc-etap-ns";
  P 2977 17 "ttc-etap-ns";
  P 2978 6 "ttc-etap-ds";
  P 2978 17 "ttc-etap-ds";
  P 2979 6 "h263-video";
  P 2979 17 "h263-video";
  P 2980 6 "wimd";
  P 2980 17 "wimd";
  P 2981 6 "mylxamport";
  P 2981 17 "mylxamport";
  P 2982 6 "iwb-whiteboard";
  P 2982 17 "iwb-whiteboard";
  P 2983 6 "netplan";
  P 2983 17 "netplan";
  P 2984 6 "hpidsadmin";
  P 2984 17 "hpidsadmin";
  P 2985 6 "hpidsagent";
  P 2985 17 "hpidsagent";
  P 2986 6 "stonefalls";
  P 2986 17 "stonefalls";
  P 2987 6 "identify";
  P 2987 17 "identify";
  P 2988 6 "hippad";
  P 2988 17 "hippad";
  P 2989 6 "zarkov";
  P 2989 17 "zarkov";
  P 2990 6 "boscap";
  P 2990 17 "boscap";
  P 2991 6 "wkstn-mon";
  P 2991 17 "wkstn-mon";
  P 2992 6 "avenyo";
  P 2992 17 "avenyo";
  P 2993 6 "veritas-vis1";
  P 2993 17 "veritas-vis1";
  P 2994 6 "veritas-vis2";
  P 2994 17 "veritas-vis2";
  P 2995 6 "idrs";
  P 2995 17 "idrs";
  P 2996 6 "vsixml";
  P 2996 17 "vsixml";
  P 2997 6 "rebol";
  P 2997 17 "rebol";
  P 2998 6 "iss-realsec";
  P 2998 17 "realsecure";
  P 2999 6 "remoteware-un";
  P 2999 17 "remoteware-un";
  P 3000 6 "ppp";
  P 3000 17 "hbci";
  P 3001 6 "nessus";
  P 3002 6 "exlm-agent";
  P 3002 17 "exlm-agent";
  P 3003 6 "cgms";
  P 3003 17 "cgms";
  P 3004 6 "csoftragent";
  P 3004 17 "csoftragent";
  P 3005 6 "deslogin";
  P 3005 17 "geniuslm";
  P 3006 6 "deslogind";
  P 3006 17 "ii-admin";
  P 3007 6 "lotusmtap";
  P 3007 17 "lotusmtap";
  P 3008 6 "midnight-tech";
  P 3008 17 "midnight-tech";
  P 3009 6 "pxc-ntfy";
  P 3009 17 "pxc-ntfy";
  P 3010 6 "gw";
  P 3010 17 "ping-pong";
  P 3011 6 "trusted-web";
  P 3011 17 "trusted-web";
  P 3012 6 "twsdss";
  P 3012 17 "twsdss";
  P 3013 6 "gilatskysurfer";
  P 3013 17 "gilatskysurfer";
  P 3014 6 "broker_service";
  P 3014 17 "broker_service";
  P 3015 6 "nati-dstp";
  P 3015 17 "nati-dstp";
  P 3016 6 "notify_srvr";
  P 3016 17 "notify_srvr";
  P 3017 6 "event_listener";
  P 3017 17 "event_listener";
  P 3018 6 "srvc_registry";
  P 3018 17 "srvc_registry";
  P 3019 6 "resource_mgr";
  P 3019 17 "resource_mgr";
  P 3020 6 "cifs";
  P 3020 17 "cifs";
  P 3021 6 "agriserver";
  P 3021 17 "agriserver";
  P 3022 6 "csregagent";
  P 3022 17 "csregagent";
  P 3023 6 "magicnotes";
  P 3023 17 "magicnotes";
  P 3024 6 "nds_sso";
  P 3024 17 "nds_sso";
  P 3025 6 "slnp"].
Definition services_37 : list service := [
  P 3025 17 "arepa-raft";
  P 3026 6 "agri-gateway";
  P 3026 17 "agri-gateway";
  P 3027 6 "LiebDevMgmt_C";
  P 3027 17 "LiebDevMgmt_C";
  P 3028 6 "LiebDevMgmt_DM";
  P 3028 17 "LiebDevMgmt_DM";
  P 3029 6 "LiebDevMgmt_A";
  P 3029 17 "LiebDevMgmt_A";
  P 3030 6 "arepa-cas";
  P 3030 17 "arepa-cas";
  P 3031 6 "eppc";
  P 3031 17 "eppc";
  P 3032 6 "redwood-chat";
  P 3032 17 "redwood-chat";
  P 3033 6 "pdb";
  P 3033 17 "pdb";
  P 3034 6 "osmosis-aeea";
  P 3034 17 "osmosis-aeea";
  P 3035 6 "fjsv-gssagt";
  P 3035 17 "fjsv-gssagt";
  P 3036 6 "hagel-dump";
  P 3036 17 "hagel-dump";
  P 3037 6 "hp-san-mgmt";
  P 3037 17 "hp-san-mgmt";
  P 3038 6 "santak-ups";
  P 3038 17 "santak-ups";
  P 3039 6 "cogitate";
  P 3039 17 "cogitate";
  P 3040 6 "tomato-springs";
  P 3040 17 "tomato-springs";
  P 3041 6 "di-traceware";
  P 3041 17 "di-traceware";
  P 3042 6 "journee";
  P 3042 17 "journee";
  P 3043 6 "brp";
  P 3043 17 "brp";
  P 3044 6 "epp";
  P 3044 17 "epp";
  P 3045 6 "slnp";
  P 3045 17 "responsenet";
  P 3046 6 "di-ase";
  P 3046 17 "di-ase";
  P 3047 6 "hlserver";
  P 3047 17 "hlserver";
  P 3048 6 "pctrader";
  P 3048 17 "pctrader";
  P 3049 6 "cfs";
  P 3049 17 "cfs";
  P 3050 6 "gds_db";
  P 3050 17 "gds_db";
  P 3051 6 "galaxy-server";
  P 3051 17 "galaxy-server";
  P 3052 6 "powerchute";
  P 3052 17 "apc-3052";
  P 3053 6 "dsom-server";
  P 3053 17 "dsom-server";
  P 3054 6 "amt-cnf-prot";
  P 3054 17 "amt-cnf-prot";
  P 3055 6 "policyserver";
  P 3055 17 "policyserver";
  P 3056 6 "cdl-server";
  P 3056 17 "cdl-server";
  P 3057 6 "goahead-fldup";
  P 3057 17 "goahead-fldup";
  P 3058 6 "videobeans";
  P 3058 17 "videobeans";
  P 3059 6 "qsoft";
  P 3059 17 "qsoft";
  P 3060 6 "interserver";
  P 3060 17 "interserver";
  P 3061 6 "cautcpd";
  P 3061 17 "cautcpd";
  P 3062 6 "ncacn-ip-tcp";
  P 3062 17 "ncacn-ip-tcp";
  P 3063 6 "ncadg-ip-udp";
  P 3063 17 "ncadg-ip-udp";
  P 3064 6 "dnet-tstproxy";
  P 3064 17 "rprt";
  P 3065 6 "slinterbase";
  P 3065 17 "slinterbase";
  P 3066 6 "netattachsdmp";
  P 3066 17 "netattachsdmp";
  P 3067 6 "fjhpjp";
  P 3067 17 "fjhpjp";
  P 3068 6 "ls3bcast";
  P 3068 17 "ls3bcast";
  P 3069 6 "ls3";
  P 3069 17 "ls3";
  P 3070 6 "mgxswitch";
  P 3070 17 "mgxswitch";
  P 3071 6 "csd-mgmt-port";
  P 3071 17 "csd-mgmt-port";
  P 3072 6 "csd-monitor";
  P 3072 17 "csd-monitor";
  P 3073 6 "vcrp";
  P 3073 17 "vcrp";
  P 3074 6 "xbox";
  P 3074 17 "xbox";
  P 3075 6 "orbix-locator";
  P 3075 17 "orbix-locator";
  P 3076 6 "orbix-config";
  P 3076 17 "orbix-config";
  P 3077 6 "orbix-loc-ssl";
  P 3077 17 "orbix-loc-ssl";
  P 3078 6 "orbix-cfg-ssl";
  P 3078 17 "orbix-cfg-ssl";
  P 3079 6 "lv-frontpanel";
  P 3079 17 "lv-frontpanel";
  P 3080 6 "stm_pproc";
  P 3080 17 "stm_pproc";
  P 3081 6 "tl1-lv";
  P 3081 17 "tl1-lv";
  P 3082 6 "tl1-raw";
  P 3082 17 "tl1-raw";
  P 3083 6 "tl1-telnet";
  P 3083 17 "tl1-telnet";
  P 3084 6 "itm-mccs";
  P 3084 17 "itm-mccs";
  P 3085 6 "pcihreq";
  P 3085 17 "pcihreq";
  P 3086 6 "sj3";
  P 3086 17 "jdl-dbkitchen";
  P 3087 6 "asoki-sma";
  P 3087 17 "asoki-sma";
  P 3088 6 "xdtp";
  P 3088 17 "xdtp";
  P 3089 6 "ptk-alink";
  P 3089 17 "ptk-alink";
  P 3090 6 "stss";
  P 3090 17 "stss";
  P 3091 6 "1ci-smcs";
  P 3091 17 "1ci-smcs";
  P 3093 6 "rapidmq-center";
  P 3093 17 "rapidmq-center";
  P 3094 6 "rapidmq-reg";
  P 3094 17 "rapidmq-reg";
  P 3095 6 "panasas";
  P 3095 17 "panasas";
  P 3096 6 "ndl-aps";
  P 3096 17 "ndl-aps";
  P 3097 132 "itu-bicc-stc";
  P 3098 6 "umm-port";
  P 3098 17 "umm-port";
  P 3099 6 "chmd";
  P 3099 17 "chmd";
  P 3100 6 "opcon-xps";
  P 3100 17 "opcon-xps";
  P 3101 6 "hp-pxpib";
  P 3101 17 "hp-pxpib"].
Definition services_38 : list service := [
  P 3102 6 "slslavemon";
  P 3102 17 "slslavemon";
  P 3103 6 "autocuesmi";
  P 3103 17 "autocuesmi";
  P 3104 6 "autocuelog";
  P 3104 17 "autocuetime";
  P 3105 6 "cardbox";
  P 3105 17 "cardbox";
  P 3106 6 "cardbox-http";
  P 3106 17 "cardbox-http";
  P 3107 6 "business";
  P 3107 17 "business";
  P 3108 6 "geolocate";
  P 3108 17 "geolocate";
  P 3109 6 "personnel";
  P 3109 17 "personnel";
  P 3110 6 "sim-control";
  P 3110 17 "sim-control";
  P 3111 6 "wsynch";
  P 3111 17 "wsynch";
  P 3112 6 "ksysguard";
  P 3112 17 "ksysguard";
  P 3113 6 "cs-auth-svr";
  P 3113 17 "cs-auth-svr";
  P 3114 6 "ccmad";
  P 3114 17 "ccmad";
  P 3115 6 "mctet-master";
  P 3115 17 "mctet-master";
  P 3116 6 "mctet-gateway";
  P 3116 17 "mctet-gateway";
  P 3117 6 "mctet-jserv";
  P 3117 17 "mctet-jserv";
  P 3118 6 "pkagent";
  P 3118 17 "pkagent";
  P 3119 6 "d2000kernel";
  P 3119 17 "d2000kernel";
  P 3120 6 "d2000webserver";
  P 3120 17 "d2000webserver";
  P 3121 6 "pcmk-remote";
  P 3122 6 "vtr-emulator";
  P 3122 17 "vtr-emulator";
  P 3123 6 "edix";
  P 3123 17 "edix";
  P 3124 6 "beacon-port";
  P 3124 17 "beacon-port";
  P 3125 6 "a13-an";
  P 3125 17 "a13-an";
  P 3127 6 "ctx-bridge";
  P 3127 17 "ctx-bridge";
  P 3128 6 "squid-http";
  P 3128 17 "ndl-aas";
  P 3129 6 "netport-id";
  P 3129 17 "netport-id";
  P 3130 6 "icpv2";
  P 3130 17 "squid-ipc";
  P 3131 6 "netbookmark";
  P 3131 17 "netbookmark";
  P 3132 6 "ms-rule-engine";
  P 3132 17 "ms-rule-engine";
  P 3133 6 "prism-deploy";
  P 3133 17 "prism-deploy";
  P 3134 6 "ecp";
  P 3134 17 "ecp";
  P 3135 6 "peerbook-port";
  P 3135 17 "peerbook-port";
  P 3136 6 "grubd";
  P 3136 17 "grubd";
  P 3137 6 "rtnt-1";
  P 3137 17 "rtnt-1";
  P 3138 6 "rtnt-2";
  P 3138 17 "rtnt-2";
  P 3139 6 "incognitorv";
  P 3139 17 "incognitorv";
  P 3140 6 "ariliamulti";
  P 3140 17 "ariliamulti";
  P 3141 6 "vmodem";
  P 3141 17 "vmodem";
  P 3142 6 "apt-cacher";
  P 3142 17 "rdc-wh-eos";
  P 3143 6 "seaview";
  P 3143 17 "seaview";
  P 3144 6 "tarantella";
  P 3144 17 "tarantella";
  P 3145 6 "csi-lfap";
  P 3145 17 "csi-lfap";
  P 3146 6 "bears-02";
  P 3146 17 "bears-02";
  P 3147 6 "rfio";
  P 3147 17 "rfio";
  P 3148 6 "nm-game-admin";
  P 3148 17 "nm-game-admin";
  P 3149 6 "nm-game-server";
  P 3149 17 "nm-game-server";
  P 3150 6 "nm-asses-admin";
  P 3150 17 "nm-asses-admin";
  P 3151 6 "nm-assessor";
  P 3151 17 "nm-assessor";
  P 3152 6 "feitianrockey";
  P 3152 17 "feitianrockey";
  P 3153 6 "s8-client-port";
  P 3153 17 "s8-client-port";
  P 3154 6 "ccmrmi";
  P 3154 17 "ccmrmi";
  P 3155 6 "jpegmpeg";
  P 3155 17 "jpegmpeg";
  P 3156 6 "indura";
  P 3156 17 "indura";
  P 3157 6 "e3consultants";
  P 3157 17 "e3consultants";
  P 3158 6 "stvp";
  P 3158 17 "stvp";
  P 3159 6 "navegaweb-port";
  P 3159 17 "navegaweb-port";
  P 3160 6 "tip-app-server";
  P 3160 17 "tip-app-server";
  P 3161 6 "doc1lm";
  P 3161 17 "doc1lm";
  P 3162 6 "sflm";
  P 3162 17 "sflm";
  P 3163 6 "res-sap";
  P 3163 17 "res-sap";
  P 3164 6 "imprs";
  P 3164 17 "imprs";
  P 3165 6 "newgenpay";
  P 3165 17 "newgenpay";
  P 3166 6 "sossecollector";
  P 3166 17 "sossecollector";
  P 3167 6 "nowcontact";
  P 3167 17 "nowcontact";
  P 3168 6 "poweronnud";
  P 3168 17 "poweronnud";
  P 3169 6 "serverview-as";
  P 3169 17 "serverview-as";
  P 3170 6 "serverview-asn";
  P 3170 17 "serverview-asn";
  P 3171 6 "serverview-gf";
  P 3171 17 "serverview-gf";
  P 3172 6 "serverview-rm";
  P 3172 17 "serverview-rm";
  P 3173 6 "serverview-icc";
  P 3173 17 "serverview-icc";
  P 3174 6 "armi-server";
  P 3174 17 "armi-server";
  P 3175 6 "t1-e1-over-ip";
  P 3175 17 "t1-e1-over-ip";
  P 3176 6 "ars-master";
  P 3176 17 "ars-master";
  P 3177 6 "phonex-port";
  P 3177 17 "phonex-port";
  P 3178 6 "radclientport"].
Definition services_39 : list service := [
  P 3178 17 "radclientport";
  P 3179 6 "h2gf-w-2m";
  P 3179 17 "h2gf-w-2m";
  P 3180 6 "mc-brk-srv";
  P 3180 17 "mc-brk-srv";
  P 3181 6 "bmcpatrolagent";
  P 3181 17 "bmcpatrolagent";
  P 3182 6 "bmcpatrolrnvu";
  P 3182 17 "bmcpatrolrnvu";
  P 3183 6 "cops-tls";
  P 3183 17 "cops-tls";
  P 3184 6 "apogeex-port";
  P 3184 17 "apogeex-port";
  P 3185 6 "smpppd";
  P 3185 17 "smpppd";
  P 3186 6 "iiw-port";
  P 3186 17 "iiw-port";
  P 3187 6 "odi-port";
  P 3187 17 "odi-port";
  P 3188 6 "brcm-comm-port";
  P 3188 17 "brcm-comm-port";
  P 3189 6 "pcle-infex";
  P 3189 17 "pcle-infex";
  P 3190 6 "csvr-proxy";
  P 3190 17 "csvr-proxy";
  P 3191 6 "csvr-sslproxy";
  P 3191 17 "csvr-sslproxy";
  P 3192 6 "firemonrcc";
  P 3192 17 "firemonrcc";
  P 3193 6 "spandataport";
  P 3193 17 "spandataport";
  P 3194 6 "magbind";
  P 3194 17 "magbind";
  P 3195 6 "ncu-1";
  P 3195 17 "ncu-1";
  P 3196 6 "ncu-2";
  P 3196 17 "ncu-2";
  P 3197 6 "embrace-dp-s";
  P 3197 17 "embrace-dp-s";
  P 3198 6 "embrace-dp-c";
  P 3198 17 "embrace-dp-c";
  P 3199 6 "dmod-workspace";
  P 3199 17 "dmod-workspace";
  P 3200 6 "tick-port";
  P 3200 17 "tick-port";
  P 3201 6 "cpq-tasksmart";
  P 3201 17 "cpq-tasksmart";
  P 3202 6 "intraintra";
  P 3202 17 "intraintra";
  P 3203 6 "netwatcher-mon";
  P 3203 17 "netwatcher-mon";
  P 3204 6 "netwatcher-db";
  P 3204 17 "netwatcher-db";
  P 3205 6 "isns";
  P 3205 17 "isns";
  P 3206 6 "ironmail";
  P 3206 17 "ironmail";
  P 3207 6 "vx-auth-port";
  P 3207 17 "vx-auth-port";
  P 3208 6 "pfu-prcallback";
  P 3208 17 "pfu-prcallback";
  P 3209 6 "netwkpathengine";
  P 3209 17 "netwkpathengine";
  P 3210 6 "flamenco-proxy";
  P 3210 17 "flamenco-proxy";
  P 3211 6 "avsecuremgmt";
  P 3211 17 "avsecuremgmt";
  P 3212 6 "surveyinst";
  P 3212 17 "surveyinst";
  P 3213 6 "neon24x7";
  P 3213 17 "neon24x7";
  P 3214 6 "jmq-daemon-1";
  P 3214 17 "jmq-daemon-1";
  P 3215 6 "jmq-daemon-2";
  P 3215 17 "jmq-daemon-2";
  P 3216 6 "ferrari-foam";
  P 3216 17 "ferrari-foam";
  P 3217 6 "unite";
  P 3217 17 "unite";
  P 3218 6 "smartpackets";
  P 3218 17 "smartpackets";
  P 3219 6 "wms-messenger";
  P 3219 17 "wms-messenger";
  P 3220 6 "xnm-ssl";
  P 3220 17 "xnm-ssl";
  P 3221 6 "xnm-clear-text";
  P 3221 17 "xnm-clear-text";
  P 3222 6 "glbp";
  P 3222 17 "glbp";
  P 3223 6 "digivote";
  P 3223 17 "digivote";
  P 3224 6 "aes-discovery";
  P 3224 17 "aes-discovery";
  P 3225 6 "fcip-port";
  P 3225 17 "fcip-port";
  P 3226 6 "isi-irp";
  P 3226 17 "isi-irp";
  P 3227 6 "dwnmshttp";
  P 3227 17 "dwnmshttp";
  P 3228 6 "dwmsgserver";
  P 3228 17 "dwmsgserver";
  P 3229 6 "global-cd-port";
  P 3229 17 "global-cd-port";
  P 3230 6 "sftdst-port";
  P 3230 17 "sftdst-port";
  P 3231 6 "vidigo";
  P 3231 17 "vidigo";
  P 3232 6 "mdtp";
  P 3232 17 "mdtp";
  P 3233 6 "whisker";
  P 3233 17 "whisker";
  P 3234 6 "alchemy";
  P 3234 17 "alchemy";
  P 3235 6 "mdap-port";
  P 3235 17 "mdap-port";
  P 3236 6 "apparenet-ts";
  P 3236 17 "apparenet-ts";
  P 3237 6 "apparenet-tps";
  P 3237 17 "apparenet-tps";
  P 3238 6 "apparenet-as";
  P 3238 17 "apparenet-as";
  P 3239 6 "apparenet-ui";
  P 3239 17 "apparenet-ui";
  P 3240 6 "triomotion";
  P 3240 17 "triomotion";
  P 3241 6 "sysorb";
  P 3241 17 "sysorb";
  P 3242 6 "sdp-id-port";
  P 3242 17 "sdp-id-port";
  P 3243 6 "timelot";
  P 3243 17 "timelot";
  P 3244 6 "onesaf";
  P 3244 17 "onesaf";
  P 3245 6 "vieo-fe";
  P 3245 17 "vieo-fe";
  P 3246 6 "dvt-system";
  P 3246 17 "kademlia";
  P 3247 6 "dvt-data";
  P 3247 17 "dvt-data";
  P 3248 6 "procos-lm";
  P 3248 17 "procos-lm";
  P 3249 6 "ssp";
  P 3249 17 "ssp";
  P 3250 6 "hicp";
  P 3250 17 "hicp";
  P 3251 6 "sysscanner";
  P 3251 17 "sysscanner";
  P 3252 6 "dhe";
  P 3252 17 "dhe";
  P 3253 6 "pda-data"].
Definition services_40 : list service := [
  P 3253 17 "pda-data";
  P 3254 6 "pda-sys";
  P 3254 17 "pda-sys";
  P 3255 6 "semaphore";
  P 3255 17 "semaphore";
  P 3256 6 "cpqrpm-agent";
  P 3256 17 "cpqrpm-agent";
  P 3257 6 "cpqrpm-server";
  P 3257 17 "cpqrpm-server";
  P 3258 6 "ivecon-port";
  P 3258 17 "ivecon-port";
  P 3259 6 "epncdp2";
  P 3259 17 "epncdp2";
  P 3260 6 "iscsi";
  P 3260 17 "iscsi";
  P 3261 6 "winshadow";
  P 3261 17 "winshadow";
  P 3262 6 "necp";
  P 3262 17 "necp";
  P 3263 6 "ecolor-imager";
  P 3263 17 "ecolor-imager";
  P 3264 6 "ccmail";
  P 3264 17 "ccmail";
  P 3265 6 "altav-tunnel";
  P 3265 17 "altav-tunnel";
  P 3266 6 "ns-cfg-server";
  P 3266 17 "ns-cfg-server";
  P 3267 6 "ibm-dial-out";
  P 3267 17 "ibm-dial-out";
  P 3268 6 "globalcatLDAP";
  P 3268 17 "msft-gc";
  P 3269 6 "globalcatLDAPssl";
  P 3269 17 "msft-gc-ssl";
  P 3270 6 "verismart";
  P 3270 17 "verismart";
  P 3271 6 "csoft-prev";
  P 3271 17 "csoft-prev";
  P 3272 6 "user-manager";
  P 3272 17 "user-manager";
  P 3273 6 "sxmp";
  P 3273 17 "sxmp";
  P 3274 6 "ordinox-server";
  P 3274 17 "ordinox-server";
  P 3275 6 "samd";
  P 3275 17 "samd";
  P 3276 6 "maxim-asics";
  P 3276 17 "maxim-asics";
  P 3277 6 "awg-proxy";
  P 3277 17 "awg-proxy";
  P 3278 6 "lkcmserver";
  P 3278 17 "lkcmserver";
  P 3279 6 "admind";
  P 3279 17 "admind";
  P 3280 6 "vs-server";
  P 3280 17 "vs-server";
  P 3281 6 "sysopt";
  P 3281 17 "sysopt";
  P 3282 6 "datusorb";
  P 3282 17 "datusorb";
  P 3283 6 "netassistant";
  P 3283 17 "netassistant";
  P 3284 6 "4talk";
  P 3284 17 "4talk";
  P 3285 6 "plato";
  P 3285 17 "plato";
  P 3286 6 "e-net";
  P 3286 17 "e-net";
  P 3287 6 "directvdata";
  P 3287 17 "directvdata";
  P 3288 6 "cops";
  P 3288 17 "cops";
  P 3289 6 "enpc";
  P 3289 17 "enpc";
  P 3290 6 "caps-lm";
  P 3290 17 "caps-lm";
  P 3291 6 "sah-lm";
  P 3291 17 "sah-lm";
  P 3292 6 "meetingmaker";
  P 3292 17 "cart-o-rama";
  P 3293 6 "fg-fps";
  P 3293 17 "fg-fps";
  P 3294 6 "fg-gip";
  P 3294 17 "fg-gip";
  P 3295 6 "dyniplookup";
  P 3295 17 "dyniplookup";
  P 3296 6 "rib-slm";
  P 3296 17 "rib-slm";
  P 3297 6 "cytel-lm";
  P 3297 17 "cytel-lm";
  P 3298 6 "deskview";
  P 3298 17 "deskview";
  P 3299 6 "saprouter";
  P 3299 17 "pdrncs";
  P 3300 6 "ceph";
  P 3302 6 "mcs-fastmail";
  P 3302 17 "mcs-fastmail";
  P 3303 6 "opsession-clnt";
  P 3303 17 "opsession-clnt";
  P 3304 6 "opsession-srvr";
  P 3304 17 "opsession-srvr";
  P 3305 6 "odette-ftp";
  P 3305 17 "odette-ftp";
  P 3306 6 "mysql";
  P 3306 17 "mysql";
  P 3307 6 "opsession-prxy";
  P 3307 17 "opsession-prxy";
  P 3308 6 "tns-server";
  P 3308 17 "tns-server";
  P 3309 6 "tns-adv";
  P 3309 17 "tns-adv";
  P 3310 6 "dyna-access";
  P 3310 17 "dyna-access";
  P 3311 6 "mcns-tel-ret";
  P 3311 17 "mcns-tel-ret";
  P 3312 6 "appman-server";
  P 3312 17 "appman-server";
  P 3313 6 "uorb";
  P 3313 17 "uorb";
  P 3314 6 "uohost";
  P 3314 17 "uohost";
  P 3315 6 "cdid";
  P 3315 17 "cdid";
  P 3316 6 "aicc-cmi";
  P 3316 17 "aicc-cmi";
  P 3317 6 "vsaiport";
  P 3317 17 "vsaiport";
  P 3318 6 "ssrip";
  P 3318 17 "ssrip";
  P 3319 6 "sdt-lmd";
  P 3319 17 "sdt-lmd";
  P 3320 6 "officelink2000";
  P 3320 17 "officelink2000";
  P 3321 6 "vnsstr";
  P 3321 17 "vnsstr";
  P 3322 6 "active-net";
  P 3322 17 "active-net";
  P 3323 6 "active-net";
  P 3323 17 "active-net";
  P 3324 6 "active-net";
  P 3324 17 "active-net";
  P 3325 6 "active-net";
  P 3325 17 "active-net";
  P 3326 6 "sftu";
  P 3326 17 "sftu";
  P 3327 6 "bbars";
  P 3327 17 "bbars";
  P 3328 6 "egptlm";
  P 3328 17 "egptlm";
  P 3329 6 "hp-device-disc";
  P 3329 17 "hp-device-disc"].
Definition services_41 : list service := [
  P 3330 6 "mcs-calypsoicf";
  P 3330 17 "mcs-calypsoicf";
  P 3331 6 "mcs-messaging";
  P 3331 17 "mcs-messaging";
  P 3332 6 "mcs-mailsvr";
  P 3332 17 "mcs-mailsvr";
  P 3333 6 "dec-notes";
  P 3333 17 "dec-notes";
  P 3334 6 "directv-web";
  P 3334 17 "directv-web";
  P 3335 6 "directv-soft";
  P 3335 17 "directv-soft";
  P 3336 6 "directv-tick";
  P 3336 17 "directv-tick";
  P 3337 6 "directv-catlg";
  P 3337 17 "directv-catlg";
  P 3338 6 "anet-b";
  P 3338 17 "anet-b";
  P 3339 6 "anet-l";
  P 3339 17 "anet-l";
  P 3340 6 "anet-m";
  P 3340 17 "anet-m";
  P 3341 6 "anet-h";
  P 3341 17 "anet-h";
  P 3342 6 "webtie";
  P 3342 17 "webtie";
  P 3343 6 "ms-cluster-net";
  P 3343 17 "ms-cluster-net";
  P 3344 6 "bnt-manager";
  P 3344 17 "bnt-manager";
  P 3345 6 "influence";
  P 3345 17 "influence";
  P 3346 6 "trnsprntproxy";
  P 3346 17 "trnsprntproxy";
  P 3347 6 "phoenix-rpc";
  P 3347 17 "phoenix-rpc";
  P 3348 6 "pangolin-laser";
  P 3348 17 "pangolin-laser";
  P 3349 6 "chevinservices";
  P 3349 17 "chevinservices";
  P 3350 6 "findviatv";
  P 3350 17 "findviatv";
  P 3351 6 "btrieve";
  P 3351 17 "btrieve";
  P 3352 6 "ssql";
  P 3352 17 "ssql";
  P 3353 6 "fatpipe";
  P 3353 17 "fatpipe";
  P 3354 6 "suitjd";
  P 3354 17 "suitjd";
  P 3355 6 "ordinox-dbase";
  P 3355 17 "ordinox-dbase";
  P 3356 6 "upnotifyps";
  P 3356 17 "upnotifyps";
  P 3357 6 "adtech-test";
  P 3357 17 "adtech-test";
  P 3358 6 "mpsysrmsvr";
  P 3358 17 "mpsysrmsvr";
  P 3359 6 "wg-netforce";
  P 3359 17 "wg-netforce";
  P 3360 6 "kv-server";
  P 3360 17 "kv-server";
  P 3361 6 "kv-agent";
  P 3361 17 "kv-agent";
  P 3362 6 "dj-ilm";
  P 3362 17 "dj-ilm";
  P 3363 6 "nati-vi-server";
  P 3363 17 "nati-vi-server";
  P 3364 6 "creativeserver";
  P 3364 17 "creativeserver";
  P 3365 6 "contentserver";
  P 3365 17 "contentserver";
  P 3366 6 "creativepartnr";
  P 3366 17 "creativepartnr";
  P 3367 6 "satvid-datalnk";
  P 3367 17 "satvid-datalnk";
  P 3368 6 "satvid-datalnk";
  P 3368 17 "satvid-datalnk";
  P 3369 6 "satvid-datalnk";
  P 3369 17 "satvid-datalnk";
  P 3370 6 "satvid-datalnk";
  P 3370 17 "satvid-datalnk";
  P 3371 6 "satvid-datalnk";
  P 3371 17 "satvid-datalnk";
  P 3372 6 "msdtc";
  P 3372 17 "tip2";
  P 3373 6 "lavenir-lm";
  P 3373 17 "lavenir-lm";
  P 3374 6 "cluster-disc";
  P 3374 17 "cluster-disc";
  P 3375 6 "vsnm-agent";
  P 3375 17 "vsnm-agent";
  P 3376 6 "cdbroker";
  P 3376 17 "cdbroker";
  P 3377 6 "cogsys-lm";
  P 3377 17 "cogsys-lm";
  P 3378 6 "wsicopy";
  P 3378 17 "wsicopy";
  P 3379 6 "socorfs";
  P 3379 17 "socorfs";
  P 3380 6 "sns-channels";
  P 3380 17 "sns-channels";
  P 3381 6 "geneous";
  P 3381 17 "geneous";
  P 3382 6 "fujitsu-neat";
  P 3382 17 "fujitsu-neat";
  P 3383 6 "esp-lm";
  P 3383 17 "esp-lm";
  P 3384 6 "hp-clic";
  P 3384 17 "hp-clic";
  P 3385 6 "qnxnetman";
  P 3385 17 "qnxnetman";
  P 3386 6 "gprs-data";
  P 3386 17 "gprs-sig";
  P 3387 6 "backroomnet";
  P 3387 17 "backroomnet";
  P 3388 6 "cbserver";
  P 3388 17 "cbserver";
  P 3389 6 "ms-wbt-server";
  P 3389 17 "ms-wbt-server";
  P 3390 6 "dsc";
  P 3390 17 "dsc";
  P 3391 6 "savant";
  P 3391 17 "savant";
  P 3392 6 "efi-lm";
  P 3392 17 "efi-lm";
  P 3393 6 "d2k-tapestry1";
  P 3393 17 "d2k-tapestry1";
  P 3394 6 "d2k-tapestry2";
  P 3394 17 "d2k-tapestry2";
  P 3395 6 "dyna-lm";
  P 3395 17 "dyna-lm";
  P 3396 6 "printer_agent";
  P 3396 17 "printer_agent";
  P 3397 6 "saposs";
  P 3397 17 "cloanto-lm";
  P 3398 6 "sapcomm";
  P 3398 17 "mercantile";
  P 3399 6 "sapeps";
  P 3399 17 "csms";
  P 3400 6 "csms2";
  P 3400 17 "csms2";
  P 3401 6 "filecast";
  P 3401 17 "squid-snmp";
  P 3402 6 "fxaengine-net";
  P 3402 17 "fxaengine-net";
  P 3405 6 "nokia-ann-ch1";
  P 3405 17 "nokia-ann-ch1";
  P 3406 6 "nokia-ann-ch2";
  P 3406 17 "nokia-ann-ch2"].
Definition services_42 : list service := [
  P 3407 6 "ldap-admin";
  P 3407 17 "ldap-admin";
  P 3408 6 "BESApi";
  P 3408 17 "BESApi";
  P 3409 6 "networklens";
  P 3409 17 "networklens";
  P 3410 6 "networklenss";
  P 3410 17 "networklenss";
  P 3411 6 "biolink-auth";
  P 3411 17 "biolink-auth";
  P 3412 6 "xmlblaster";
  P 3412 17 "xmlblaster";
  P 3413 6 "svnet";
  P 3413 17 "svnet";
  P 3414 6 "wip-port";
  P 3414 17 "wip-port";
  P 3415 6 "bcinameservice";
  P 3415 17 "bcinameservice";
  P 3416 6 "commandport";
  P 3416 17 "commandport";
  P 3417 6 "csvr";
  P 3417 17 "csvr";
  P 3418 6 "rnmap";
  P 3418 17 "rnmap";
  P 3419 6 "softaudit";
  P 3419 17 "softaudit";
  P 3420 6 "ifcp-port";
  P 3420 17 "ifcp-port";
  P 3421 6 "bmap";
  P 3421 17 "bmap";
  P 3422 6 "rusb-sys-port";
  P 3422 17 "rusb-sys-port";
  P 3423 6 "xtrm";
  P 3423 17 "xtrm";
  P 3424 6 "xtrms";
  P 3424 17 "xtrms";
  P 3425 6 "agps-port";
  P 3425 17 "agps-port";
  P 3426 6 "arkivio";
  P 3426 17 "arkivio";
  P 3427 6 "websphere-snmp";
  P 3427 17 "websphere-snmp";
  P 3428 6 "twcss";
  P 3428 17 "twcss";
  P 3429 6 "gcsp";
  P 3429 17 "gcsp";
  P 3430 6 "ssdispatch";
  P 3430 17 "ssdispatch";
  P 3431 6 "ndl-als";
  P 3431 17 "ndl-als";
  P 3432 6 "osdcp";
  P 3432 17 "osdcp";
  P 3433 6 "alta-smp";
  P 3433 17 "alta-smp";
  P 3434 6 "opencm";
  P 3434 17 "opencm";
  P 3435 6 "pacom";
  P 3435 17 "pacom";
  P 3436 6 "gc-config";
  P 3436 17 "gc-config";
  P 3437 6 "autocueds";
  P 3437 17 "autocueds";
  P 3438 6 "spiral-admin";
  P 3438 17 "spiral-admin";
  P 3439 6 "hri-port";
  P 3439 17 "hri-port";
  P 3440 6 "ans-console";
  P 3440 17 "ans-console";
  P 3441 6 "connect-client";
  P 3441 17 "connect-client";
  P 3442 6 "connect-server";
  P 3442 17 "connect-server";
  P 3443 6 "ov-nnm-websrv";
  P 3443 17 "ov-nnm-websrv";
  P 3444 6 "denali-server";
  P 3444 17 "denali-server";
  P 3445 6 "monp";
  P 3445 17 "monp";
  P 3446 6 "3comfaxrpc";
  P 3446 17 "3comfaxrpc";
  P 3447 6 "directnet";
  P 3447 17 "directnet";
  P 3448 6 "dnc-port";
  P 3448 17 "dnc-port";
  P 3449 6 "hotu-chat";
  P 3449 17 "hotu-chat";
  P 3450 6 "castorproxy";
  P 3450 17 "castorproxy";
  P 3451 6 "asam";
  P 3451 17 "asam";
  P 3452 6 "sabp-signal";
  P 3452 17 "sabp-signal";
  P 3453 6 "pscupd";
  P 3453 17 "pscupd";
  P 3454 6 "mira";
  P 3455 6 "prsvp";
  P 3455 17 "prsvp";
  P 3456 6 "vat";
  P 3456 17 "IISrpc-or-vat";
  P 3457 6 "vat-control";
  P 3457 17 "vat-control";
  P 3458 6 "d3winosfi";
  P 3458 17 "d3winosfi";
  P 3459 6 "integral";
  P 3459 17 "integral";
  P 3460 6 "edm-manager";
  P 3460 17 "edm-manager";
  P 3461 6 "edm-stager";
  P 3461 17 "edm-stager";
  P 3462 6 "track";
  P 3462 17 "edm-std-notify";
  P 3463 6 "edm-adm-notify";
  P 3463 17 "edm-adm-notify";
  P 3464 6 "edm-mgr-sync";
  P 3464 17 "edm-mgr-sync";
  P 3465 6 "edm-mgr-cntrl";
  P 3465 17 "edm-mgr-cntrl";
  P 3466 6 "workflow";
  P 3466 17 "workflow";
  P 3467 6 "rcst";
  P 3467 17 "rcst";
  P 3468 6 "ttcmremotectrl";
  P 3468 17 "ttcmremotectrl";
  P 3469 6 "pluribus";
  P 3469 17 "pluribus";
  P 3470 6 "jt400";
  P 3470 17 "jt400";
  P 3471 6 "jt400-ssl";
  P 3471 17 "jt400-ssl";
  P 3472 6 "jaugsremotec-1";
  P 3472 17 "jaugsremotec-1";
  P 3473 6 "jaugsremotec-2";
  P 3473 17 "jaugsremotec-2";
  P 3474 6 "ttntspauto";
  P 3474 17 "ttntspauto";
  P 3475 6 "genisar-port";
  P 3475 17 "genisar-port";
  P 3476 6 "nppmp";
  P 3476 17 "nppmp";
  P 3477 6 "ecomm";
  P 3477 17 "ecomm";
  P 3478 6 "stun";
  P 3478 17 "stun";
  P 3479 6 "twrpc";
  P 3479 17 "twrpc";
  P 3480 6 "plethora";
  P 3480 17 "plethora";
  P 3481 6 "cleanerliverc";
  P 3481 17 "cleanerliverc";
  P 3482 6 "vulture"].
Definition service_chunks_2 : list (list service) := [services_22; services_23; services_24; services_25; services_26; services_27; services_28; services_29; services_30; services_31; services_32; services_33; services_34; services_35; services_36; services_37; services_38; services_39; services_40; services_41; services_42].
