(* ===== verification/ServiceTable3.v ===== *)
(** The registered services of src/pkg/util/service/service.go, lines 6309 to 9458: a port, a
    protocol number and a name. *)
From S2P Require Import Prelude.
From S2P Require Import ServiceTypes.
Local Open Scope Z_scope.

Definition services_43 : list service := [
  P 3482 17 "vulture";
  P 3483 6 "slim-devices";
  P 3483 17 "slim-devices";
  P 3484 6 "gbs-stp";
  P 3484 17 "gbs-stp";
  P 3485 6 "celatalk";
  P 3485 17 "celatalk";
  P 3486 6 "ifsf-hb-port";
  P 3486 17 "ifsf-hb-port";
  P 3487 6 "ltctcp";
  P 3487 17 "ltcudp";
  P 3488 6 "fs-rh-srv";
  P 3488 17 "fs-rh-srv";
  P 3489 6 "dtp-dia";
  P 3489 17 "dtp-dia";
  P 3490 6 "colubris";
  P 3490 17 "colubris";
  P 3491 6 "swr-port";
  P 3491 17 "swr-port";
  P 3492 6 "tvdumtray-port";
  P 3492 17 "tvdumtray-port";
  P 3493 6 "nut";
  P 3493 17 "nut";
  P 3494 6 "ibm3494";
  P 3494 17 "ibm3494";
  P 3495 6 "seclayer-tcp";
  P 3495 17 "seclayer-tcp";
  P 3496 6 "seclayer-tls";
  P 3496 17 "seclayer-tls";
  P 3497 6 "ipether232port";
  P 3497 17 "ipether232port";
  P 3498 6 "dashpas-port";
  P 3498 17 "dashpas-port";
  P 3499 6 "sccip-media";
  P 3499 17 "sccip-media";
  P 3500 6 "rtmp-port";
  P 3500 17 "rtmp-port";
  P 3501 6 "isoft-p2p";
  P 3501 17 "isoft-p2p";
  P 3502 6 "avinstalldisc";
  P 3502 17 "avinstalldisc";
  P 3503 6 "lsp-ping";
  P 3503 17 "lsp-ping";
  P 3504 6 "ironstorm";
  P 3504 17 "ironstorm";
  P 3505 6 "ccmcomm";
  P 3505 17 "ccmcomm";
  P 3506 6 "apc-3506";
  P 3506 17 "apc-3506";
  P 3507 6 "nesh-broker";
  P 3507 17 "nesh-broker";
  P 3508 6 "interactionweb";
  P 3508 17 "interactionweb";
  P 3509 6 "vt-ssl";
  P 3509 17 "vt-ssl";
  P 3510 6 "xss-port";
  P 3510 17 "xss-port";
  P 3511 6 "webmail-2";
  P 3511 17 "webmail-2";
  P 3512 6 "aztec";
  P 3512 17 "aztec";
  P 3513 6 "arcpd";
  P 3513 17 "arcpd";
  P 3514 6 "must-p2p";
  P 3514 17 "must-p2p";
  P 3515 6 "must-backplane";
  P 3515 17 "must-backplane";
  P 3516 6 "smartcard-port";
  P 3516 17 "smartcard-port";
  P 3517 6 "802-11-iapp";
  P 3517 17 "802-11-iapp";
  P 3518 6 "artifact-msg";
  P 3518 17 "artifact-msg";
  P 3519 6 "nvmsgd";
  P 3519 17 "galileo";
  P 3520 6 "galileolog";
  P 3520 17 "galileolog";
  P 3521 6 "mc3ss";
  P 3521 17 "mc3ss";
  P 3522 6 "nssocketport";
  P 3522 17 "nssocketport";
  P 3523 6 "odeumservlink";
  P 3523 17 "odeumservlink";
  P 3524 6 "ecmport";
  P 3524 17 "ecmport";
  P 3525 6 "eisport";
  P 3525 17 "eisport";
  P 3526 6 "starquiz-port";
  P 3526 17 "starquiz-port";
  P 3527 6 "beserver-msg-q";
  P 3527 17 "beserver-msg-q";
  P 3528 6 "jboss-iiop";
  P 3528 17 "jboss-iiop";
  P 3529 6 "jboss-iiop-ssl";
  P 3529 17 "jboss-iiop-ssl";
  P 3530 6 "gf";
  P 3530 17 "gf";
  P 3531 6 "peerenabler";
  P 3531 17 "peerenabler";
  P 3532 6 "raven-rmp";
  P 3532 17 "raven-rmp";
  P 3533 6 "raven-rdp";
  P 3533 17 "raven-rdp";
  P 3534 6 "urld-port";
  P 3534 17 "urld-port";
  P 3535 6 "ms-la";
  P 3535 17 "ms-la";
  P 3536 6 "snac";
  P 3536 17 "snac";
  P 3537 6 "ni-visa-remote";
  P 3537 17 "ni-visa-remote";
  P 3538 6 "ibm-diradm";
  P 3538 17 "ibm-diradm";
  P 3539 6 "ibm-diradm-ssl";
  P 3539 17 "ibm-diradm-ssl";
  P 3540 6 "pnrp-port";
  P 3540 17 "pnrp-port";
  P 3541 6 "voispeed-port";
  P 3541 17 "voispeed-port";
  P 3542 6 "hacl-monitor";
  P 3542 17 "hacl-monitor";
  P 3543 6 "qftest-lookup";
  P 3543 17 "qftest-lookup";
  P 3544 6 "teredo";
  P 3544 17 "teredo";
  P 3545 6 "camac";
  P 3545 17 "camac";
  P 3547 6 "symantec-sim";
  P 3547 17 "symantec-sim";
  P 3548 6 "interworld";
  P 3548 17 "interworld";
  P 3549 6 "tellumat-nms";
  P 3549 17 "tellumat-nms";
  P 3550 6 "ssmpp";
  P 3550 17 "ssmpp";
  P 3551 6 "apcupsd";
  P 3551 17 "apcupsd";
  P 3552 6 "taserver";
  P 3552 17 "taserver";
  P 3553 6 "rbr-discovery";
  P 3553 17 "rbr-discovery";
  P 3554 6 "questnotify";
  P 3554 17 "questnotify";
  P 3555 6 "razor";
  P 3555 17 "razor";
  P 3556 6 "sky-transport";
  P 3556 17 "sky-transport";
  P 3557 6 "personalos-001";
  P 3557 17 "personalos-001";
  P 3558 6 "mcp-port"].
Definition services_44 : list service := [
  P 3558 17 "mcp-port";
  P 3559 6 "cctv-port";
  P 3559 17 "cctv-port";
  P 3560 6 "iniserve-port";
  P 3560 17 "iniserve-port";
  P 3561 6 "bmc-onekey";
  P 3561 17 "bmc-onekey";
  P 3562 6 "sdbproxy";
  P 3562 17 "sdbproxy";
  P 3563 6 "watcomdebug";
  P 3563 17 "watcomdebug";
  P 3564 6 "esimport";
  P 3564 17 "esimport";
  P 3565 132 "m2pa";
  P 3565 6 "m2pa";
  P 3566 6 "quest-data-hub";
  P 3567 6 "oap";
  P 3567 17 "oap";
  P 3568 6 "oap-s";
  P 3568 17 "oap-s";
  P 3569 6 "mbg-ctrl";
  P 3569 17 "mbg-ctrl";
  P 3570 6 "mccwebsvr-port";
  P 3570 17 "mccwebsvr-port";
  P 3571 6 "megardsvr-port";
  P 3571 17 "megardsvr-port";
  P 3572 6 "megaregsvrport";
  P 3572 17 "megaregsvrport";
  P 3573 6 "tag-ups-1";
  P 3573 17 "tag-ups-1";
  P 3574 6 "dmaf-server";
  P 3574 17 "dmaf-caster";
  P 3575 6 "ccm-port";
  P 3575 17 "ccm-port";
  P 3576 6 "cmc-port";
  P 3576 17 "cmc-port";
  P 3577 6 "config-port";
  P 3577 17 "config-port";
  P 3578 6 "data-port";
  P 3578 17 "data-port";
  P 3579 6 "ttat3lb";
  P 3579 17 "ttat3lb";
  P 3580 6 "nati-svrloc";
  P 3580 17 "nati-svrloc";
  P 3581 6 "kfxaclicensing";
  P 3581 17 "kfxaclicensing";
  P 3582 6 "press";
  P 3582 17 "press";
  P 3583 6 "canex-watch";
  P 3583 17 "canex-watch";
  P 3584 6 "u-dbap";
  P 3584 17 "u-dbap";
  P 3585 6 "emprise-lls";
  P 3585 17 "emprise-lls";
  P 3586 6 "emprise-lsc";
  P 3586 17 "emprise-lsc";
  P 3587 6 "p2pgroup";
  P 3587 17 "p2pgroup";
  P 3588 6 "sentinel";
  P 3588 17 "sentinel";
  P 3589 6 "isomair";
  P 3589 17 "isomair";
  P 3590 6 "wv-csp-sms";
  P 3590 17 "wv-csp-sms";
  P 3591 6 "gtrack-server";
  P 3591 17 "gtrack-server";
  P 3592 6 "gtrack-ne";
  P 3592 17 "gtrack-ne";
  P 3593 6 "bpmd";
  P 3593 17 "bpmd";
  P 3594 6 "mediaspace";
  P 3594 17 "mediaspace";
  P 3595 6 "shareapp";
  P 3595 17 "shareapp";
  P 3596 6 "iw-mmogame";
  P 3596 17 "iw-mmogame";
  P 3597 6 "a14";
  P 3597 17 "a14";
  P 3598 6 "a15";
  P 3598 17 "a15";
  P 3599 6 "quasar-server";
  P 3599 17 "quasar-server";
  P 3600 6 "trap-daemon";
  P 3600 17 "trap-daemon";
  P 3601 6 "visinet-gui";
  P 3601 17 "visinet-gui";
  P 3602 6 "infiniswitchcl";
  P 3602 17 "infiniswitchcl";
  P 3603 6 "int-rcv-cntrl";
  P 3603 17 "int-rcv-cntrl";
  P 3604 6 "bmc-jmx-port";
  P 3604 17 "bmc-jmx-port";
  P 3605 6 "comcam-io";
  P 3605 17 "comcam-io";
  P 3606 6 "splitlock";
  P 3606 17 "splitlock";
  P 3607 6 "precise-i3";
  P 3607 17 "precise-i3";
  P 3608 6 "trendchip-dcp";
  P 3608 17 "trendchip-dcp";
  P 3609 6 "cpdi-pidas-cm";
  P 3609 17 "cpdi-pidas-cm";
  P 3610 6 "echonet";
  P 3610 17 "echonet";
  P 3611 6 "six-degrees";
  P 3611 17 "six-degrees";
  P 3612 6 "hp-dataprotect";
  P 3612 17 "hp-dataprotect";
  P 3613 6 "alaris-disc";
  P 3613 17 "alaris-disc";
  P 3614 6 "sigma-port";
  P 3614 17 "sigma-port";
  P 3615 6 "start-network";
  P 3615 17 "start-network";
  P 3616 6 "cd3o-protocol";
  P 3616 17 "cd3o-protocol";
  P 3617 6 "sharp-server";
  P 3617 17 "sharp-server";
  P 3618 6 "aairnet-1";
  P 3618 17 "aairnet-1";
  P 3619 6 "aairnet-2";
  P 3619 17 "aairnet-2";
  P 3620 6 "ep-pcp";
  P 3620 17 "ep-pcp";
  P 3621 6 "ep-nsp";
  P 3621 17 "ep-nsp";
  P 3622 6 "ff-lr-port";
  P 3622 17 "ff-lr-port";
  P 3623 6 "haipe-discover";
  P 3623 17 "haipe-discover";
  P 3624 6 "dist-upgrade";
  P 3624 17 "dist-upgrade";
  P 3625 6 "volley";
  P 3625 17 "volley";
  P 3626 6 "bvcdaemon-port";
  P 3626 17 "bvcdaemon-port";
  P 3627 6 "jamserverport";
  P 3627 17 "jamserverport";
  P 3628 6 "ept-machine";
  P 3628 17 "ept-machine";
  P 3629 6 "escvpnet";
  P 3629 17 "escvpnet";
  P 3630 6 "cs-remote-db";
  P 3630 17 "cs-remote-db";
  P 3631 6 "cs-services";
  P 3631 17 "cs-services";
  P 3632 6 "distccd";
  P 3632 17 "distcc";
  P 3633 6 "wacp";
  P 3633 17 "wacp"].
Definition services_45 : list service := [
  P 3634 6 "hlibmgr";
  P 3634 17 "hlibmgr";
  P 3635 6 "sdo";
  P 3635 17 "sdo";
  P 3636 6 "servistaitsm";
  P 3636 17 "servistaitsm";
  P 3637 6 "scservp";
  P 3637 17 "scservp";
  P 3638 6 "ehp-backup";
  P 3638 17 "ehp-backup";
  P 3639 6 "xap-ha";
  P 3639 17 "xap-ha";
  P 3640 6 "netplay-port1";
  P 3640 17 "netplay-port1";
  P 3641 6 "netplay-port2";
  P 3641 17 "netplay-port2";
  P 3642 6 "juxml-port";
  P 3642 17 "juxml-port";
  P 3643 6 "audiojuggler";
  P 3643 17 "audiojuggler";
  P 3644 6 "ssowatch";
  P 3644 17 "ssowatch";
  P 3645 6 "cyc";
  P 3645 17 "cyc";
  P 3646 6 "xss-srv-port";
  P 3646 17 "xss-srv-port";
  P 3647 6 "splitlock-gw";
  P 3647 17 "splitlock-gw";
  P 3648 6 "fjcp";
  P 3648 17 "fjcp";
  P 3649 6 "nmmp";
  P 3649 17 "nmmp";
  P 3650 6 "prismiq-plugin";
  P 3650 17 "prismiq-plugin";
  P 3651 6 "xrpc-registry";
  P 3651 17 "xrpc-registry";
  P 3652 6 "vxcrnbuport";
  P 3652 17 "vxcrnbuport";
  P 3653 6 "tsp";
  P 3653 17 "tsp";
  P 3654 6 "vaprtm";
  P 3654 17 "vaprtm";
  P 3655 6 "abatemgr";
  P 3655 17 "abatemgr";
  P 3656 6 "abatjss";
  P 3656 17 "abatjss";
  P 3657 6 "immedianet-bcn";
  P 3657 17 "immedianet-bcn";
  P 3658 6 "ps-ams";
  P 3658 17 "ps-ams";
  P 3659 6 "apple-sasl";
  P 3659 17 "apple-sasl";
  P 3660 6 "can-nds-ssl";
  P 3660 17 "can-nds-ssl";
  P 3661 6 "can-ferret-ssl";
  P 3661 17 "can-ferret-ssl";
  P 3662 6 "pserver";
  P 3662 17 "pserver";
  P 3663 6 "dtp";
  P 3663 17 "dtp";
  P 3664 6 "ups-engine";
  P 3664 17 "ups-engine";
  P 3665 6 "ent-engine";
  P 3665 17 "ent-engine";
  P 3666 6 "eserver-pap";
  P 3666 17 "eserver-pap";
  P 3667 6 "infoexch";
  P 3667 17 "infoexch";
  P 3668 6 "dell-rm-port";
  P 3668 17 "dell-rm-port";
  P 3669 6 "casanswmgmt";
  P 3669 17 "casanswmgmt";
  P 3670 6 "smile";
  P 3670 17 "smile";
  P 3671 6 "efcp";
  P 3671 17 "efcp";
  P 3672 6 "lispworks-orb";
  P 3672 17 "lispworks-orb";
  P 3673 6 "mediavault-gui";
  P 3673 17 "mediavault-gui";
  P 3674 6 "wininstall-ipc";
  P 3674 17 "wininstall-ipc";
  P 3675 6 "calltrax";
  P 3675 17 "calltrax";
  P 3676 6 "va-pacbase";
  P 3676 17 "va-pacbase";
  P 3677 6 "roverlog";
  P 3677 17 "roverlog";
  P 3678 6 "ipr-dglt";
  P 3678 17 "ipr-dglt";
  P 3679 6 "newton-dock";
  P 3679 17 "newton-dock";
  P 3680 6 "npds-tracker";
  P 3680 17 "npds-tracker";
  P 3681 6 "bts-x73";
  P 3681 17 "bts-x73";
  P 3682 6 "cas-mapi";
  P 3682 17 "cas-mapi";
  P 3683 6 "bmc-ea";
  P 3683 17 "bmc-ea";
  P 3684 6 "faxstfx-port";
  P 3684 17 "faxstfx-port";
  P 3685 6 "dsx-agent";
  P 3685 17 "dsx-agent";
  P 3686 6 "tnmpv2";
  P 3686 17 "tnmpv2";
  P 3687 6 "simple-push";
  P 3687 17 "simple-push";
  P 3688 6 "simple-push-s";
  P 3688 17 "simple-push-s";
  P 3689 6 "rendezvous";
  P 3689 17 "daap";
  P 3690 6 "svn";
  P 3690 17 "svn";
  P 3691 6 "magaya-network";
  P 3691 17 "magaya-network";
  P 3692 6 "intelsync";
  P 3692 17 "intelsync";
  P 3693 6 "easl";
  P 3695 6 "bmc-data-coll";
  P 3695 17 "bmc-data-coll";
  P 3696 6 "telnetcpcd";
  P 3696 17 "telnetcpcd";
  P 3697 6 "nw-license";
  P 3697 17 "nw-license";
  P 3698 6 "sagectlpanel";
  P 3698 17 "sagectlpanel";
  P 3699 6 "kpn-icw";
  P 3699 17 "kpn-icw";
  P 3700 6 "lrs-paging";
  P 3700 17 "lrs-paging";
  P 3701 6 "netcelera";
  P 3701 17 "netcelera";
  P 3702 6 "ws-discovery";
  P 3702 17 "ws-discovery";
  P 3703 6 "adobeserver-3";
  P 3703 17 "adobeserver-3";
  P 3704 6 "adobeserver-4";
  P 3704 17 "adobeserver-4";
  P 3705 6 "adobeserver-5";
  P 3705 17 "adobeserver-5";
  P 3706 6 "rt-event";
  P 3706 17 "rt-event";
  P 3707 6 "rt-event-s";
  P 3707 17 "rt-event-s";
  P 3708 6 "sun-as-iiops";
  P 3708 17 "sun-as-iiops";
  P 3709 6 "ca-idms";
  P 3709 17 "ca-idms";
  P 3710 6 "portgate-auth"].
Definition services_46 : list service := [
  P 3710 17 "portgate-auth";
  P 3711 6 "edb-server2";
  P 3711 17 "edb-server2";
  P 3712 6 "sentinel-ent";
  P 3712 17 "sentinel-ent";
  P 3713 6 "tftps";
  P 3713 17 "tftps";
  P 3714 6 "delos-dms";
  P 3714 17 "delos-dms";
  P 3715 6 "anoto-rendezv";
  P 3715 17 "anoto-rendezv";
  P 3716 6 "wv-csp-sms-cir";
  P 3716 17 "wv-csp-sms-cir";
  P 3717 6 "wv-csp-udp-cir";
  P 3717 17 "wv-csp-udp-cir";
  P 3718 6 "opus-services";
  P 3718 17 "opus-services";
  P 3719 6 "itelserverport";
  P 3719 17 "itelserverport";
  P 3720 6 "ufastro-instr";
  P 3720 17 "ufastro-instr";
  P 3721 6 "xsync";
  P 3721 17 "xsync";
  P 3722 6 "xserveraid";
  P 3722 17 "xserveraid";
  P 3723 6 "sychrond";
  P 3723 17 "sychrond";
  P 3724 6 "blizwow";
  P 3724 17 "blizwow";
  P 3725 6 "na-er-tip";
  P 3725 17 "na-er-tip";
  P 3726 6 "array-manager";
  P 3726 17 "array-manager";
  P 3727 6 "e-mdu";
  P 3727 17 "e-mdu";
  P 3728 6 "e-woa";
  P 3728 17 "e-woa";
  P 3729 6 "fksp-audit";
  P 3729 17 "fksp-audit";
  P 3730 6 "client-ctrl";
  P 3730 17 "client-ctrl";
  P 3731 6 "smap";
  P 3731 17 "smap";
  P 3732 6 "m-wnn";
  P 3732 17 "m-wnn";
  P 3733 6 "multip-msg";
  P 3733 17 "multip-msg";
  P 3734 6 "synel-data";
  P 3734 17 "synel-data";
  P 3735 6 "pwdis";
  P 3735 17 "pwdis";
  P 3736 6 "rs-rmi";
  P 3736 17 "rs-rmi";
  P 3737 6 "xpanel";
  P 3738 6 "versatalk";
  P 3738 17 "versatalk";
  P 3739 6 "launchbird-lm";
  P 3739 17 "launchbird-lm";
  P 3740 6 "heartbeat";
  P 3740 17 "heartbeat";
  P 3741 6 "wysdma";
  P 3741 17 "wysdma";
  P 3742 6 "cst-port";
  P 3742 17 "cst-port";
  P 3743 6 "ipcs-command";
  P 3743 17 "ipcs-command";
  P 3744 6 "sasg";
  P 3744 17 "sasg";
  P 3745 6 "gw-call-port";
  P 3745 17 "gw-call-port";
  P 3746 6 "linktest";
  P 3746 17 "linktest";
  P 3747 6 "linktest-s";
  P 3747 17 "linktest-s";
  P 3748 6 "webdata";
  P 3748 17 "webdata";
  P 3749 6 "cimtrak";
  P 3749 17 "cimtrak";
  P 3750 6 "cbos-ip-port";
  P 3750 17 "cbos-ip-port";
  P 3751 6 "gprs-cube";
  P 3751 17 "gprs-cube";
  P 3752 6 "vipremoteagent";
  P 3752 17 "vipremoteagent";
  P 3753 6 "nattyserver";
  P 3753 17 "nattyserver";
  P 3754 6 "timestenbroker";
  P 3754 17 "timestenbroker";
  P 3755 6 "sas-remote-hlp";
  P 3755 17 "sas-remote-hlp";
  P 3756 6 "canon-capt";
  P 3756 17 "canon-capt";
  P 3757 6 "grf-port";
  P 3757 17 "grf-port";
  P 3758 6 "apw-registry";
  P 3758 17 "apw-registry";
  P 3759 6 "exapt-lmgr";
  P 3759 17 "exapt-lmgr";
  P 3760 6 "adtempusclient";
  P 3760 17 "adtempusclient";
  P 3761 6 "gsakmp";
  P 3761 17 "gsakmp";
  P 3762 6 "gbs-smp";
  P 3762 17 "gbs-smp";
  P 3763 6 "xo-wave";
  P 3763 17 "xo-wave";
  P 3764 6 "mni-prot-rout";
  P 3764 17 "mni-prot-rout";
  P 3765 6 "rtraceroute";
  P 3765 17 "rtraceroute";
  P 3766 6 "sitewatch-s";
  P 3767 6 "listmgr-port";
  P 3767 17 "listmgr-port";
  P 3768 6 "rblcheckd";
  P 3768 17 "rblcheckd";
  P 3769 6 "haipe-otnk";
  P 3769 17 "haipe-otnk";
  P 3770 6 "cindycollab";
  P 3770 17 "cindycollab";
  P 3771 6 "paging-port";
  P 3771 17 "paging-port";
  P 3772 6 "ctp";
  P 3772 17 "ctp";
  P 3773 6 "ctdhercules";
  P 3773 17 "ctdhercules";
  P 3774 6 "zicom";
  P 3774 17 "zicom";
  P 3775 6 "ispmmgr";
  P 3775 17 "ispmmgr";
  P 3776 6 "dvcprov-port";
  P 3776 17 "dvcprov-port";
  P 3777 6 "jibe-eb";
  P 3777 17 "jibe-eb";
  P 3778 6 "c-h-it-port";
  P 3778 17 "c-h-it-port";
  P 3779 6 "cognima";
  P 3779 17 "cognima";
  P 3780 6 "nnp";
  P 3780 17 "nnp";
  P 3781 6 "abcvoice-port";
  P 3781 17 "abcvoice-port";
  P 3782 6 "iso-tp0s";
  P 3782 17 "iso-tp0s";
  P 3783 6 "bim-pem";
  P 3783 17 "bim-pem";
  P 3784 6 "bfd-control";
  P 3784 17 "bfd-control";
  P 3785 6 "bfd-echo";
  P 3785 17 "bfd-echo";
  P 3786 6 "upstriggervsw"].
Definition services_47 : list service := [
  P 3786 17 "upstriggervsw";
  P 3787 6 "fintrx";
  P 3787 17 "fintrx";
  P 3788 6 "isrp-port";
  P 3788 17 "isrp-port";
  P 3789 6 "remotedeploy";
  P 3789 17 "remotedeploy";
  P 3790 6 "quickbooksrds";
  P 3790 17 "quickbooksrds";
  P 3791 6 "tvnetworkvideo";
  P 3791 17 "tvnetworkvideo";
  P 3792 6 "sitewatch";
  P 3792 17 "sitewatch";
  P 3793 6 "dcsoftware";
  P 3793 17 "dcsoftware";
  P 3794 6 "jaus";
  P 3794 17 "jaus";
  P 3795 6 "myblast";
  P 3795 17 "myblast";
  P 3796 6 "spw-dialer";
  P 3796 17 "spw-dialer";
  P 3797 6 "idps";
  P 3797 17 "idps";
  P 3798 6 "minilock";
  P 3798 17 "minilock";
  P 3799 6 "radius-dynauth";
  P 3799 17 "radius-dynauth";
  P 3800 6 "pwgpsi";
  P 3800 17 "pwgpsi";
  P 3801 6 "ibm-mgr";
  P 3801 17 "ibm-mgr";
  P 3802 6 "vhd";
  P 3802 17 "vhd";
  P 3803 6 "soniqsync";
  P 3803 17 "soniqsync";
  P 3804 6 "iqnet-port";
  P 3804 17 "iqnet-port";
  P 3805 6 "tcpdataserver";
  P 3805 17 "tcpdataserver";
  P 3806 6 "wsmlb";
  P 3806 17 "wsmlb";
  P 3807 6 "spugna";
  P 3807 17 "spugna";
  P 3808 6 "sun-as-iiops-ca";
  P 3808 17 "sun-as-iiops-ca";
  P 3809 6 "apocd";
  P 3809 17 "apocd";
  P 3810 6 "wlanauth";
  P 3810 17 "wlanauth";
  P 3811 6 "amp";
  P 3811 17 "amp";
  P 3812 6 "neto-wol-server";
  P 3812 17 "neto-wol-server";
  P 3813 6 "rap-ip";
  P 3813 17 "rap-ip";
  P 3814 6 "neto-dcs";
  P 3814 17 "neto-dcs";
  P 3815 6 "lansurveyorxml";
  P 3815 17 "lansurveyorxml";
  P 3816 6 "sunlps-http";
  P 3816 17 "sunlps-http";
  P 3817 6 "tapeware";
  P 3817 17 "tapeware";
  P 3818 6 "crinis-hb";
  P 3818 17 "crinis-hb";
  P 3819 6 "epl-slp";
  P 3819 17 "epl-slp";
  P 3820 6 "scp";
  P 3820 17 "scp";
  P 3821 6 "pmcp";
  P 3821 17 "pmcp";
  P 3822 6 "acp-discovery";
  P 3822 17 "acp-discovery";
  P 3823 6 "acp-conduit";
  P 3823 17 "acp-conduit";
  P 3824 6 "acp-policy";
  P 3824 17 "acp-policy";
  P 3825 6 "ffserver";
  P 3825 17 "ffserver";
  P 3826 6 "wormux";
  P 3826 17 "wormux";
  P 3827 6 "netmpi";
  P 3827 17 "netmpi";
  P 3828 6 "neteh";
  P 3828 17 "neteh";
  P 3829 6 "neteh-ext";
  P 3829 17 "neteh-ext";
  P 3830 6 "cernsysmgmtagt";
  P 3830 17 "cernsysmgmtagt";
  P 3831 6 "dvapps";
  P 3831 17 "dvapps";
  P 3832 6 "xxnetserver";
  P 3832 17 "xxnetserver";
  P 3833 6 "aipn-auth";
  P 3833 17 "aipn-auth";
  P 3834 6 "spectardata";
  P 3834 17 "spectardata";
  P 3835 6 "spectardb";
  P 3835 17 "spectardb";
  P 3836 6 "markem-dcp";
  P 3836 17 "markem-dcp";
  P 3837 6 "mkm-discovery";
  P 3837 17 "mkm-discovery";
  P 3838 6 "sos";
  P 3838 17 "sos";
  P 3839 6 "amx-rms";
  P 3839 17 "amx-rms";
  P 3840 6 "flirtmitmir";
  P 3840 17 "flirtmitmir";
  P 3841 6 "zfirm-shiprush3";
  P 3841 17 "zfirm-shiprush3";
  P 3842 6 "nhci";
  P 3842 17 "nhci";
  P 3843 6 "quest-agent";
  P 3843 17 "quest-agent";
  P 3844 6 "rnm";
  P 3844 17 "rnm";
  P 3845 6 "v-one-spp";
  P 3845 17 "v-one-spp";
  P 3846 6 "an-pcp";
  P 3846 17 "an-pcp";
  P 3847 6 "msfw-control";
  P 3847 17 "msfw-control";
  P 3848 6 "item";
  P 3848 17 "item";
  P 3849 6 "spw-dnspreload";
  P 3849 17 "spw-dnspreload";
  P 3850 6 "qtms-bootstrap";
  P 3850 17 "qtms-bootstrap";
  P 3851 6 "spectraport";
  P 3851 17 "spectraport";
  P 3852 6 "sse-app-config";
  P 3852 17 "sse-app-config";
  P 3853 6 "sscan";
  P 3853 17 "sscan";
  P 3854 6 "stryker-com";
  P 3854 17 "stryker-com";
  P 3855 6 "opentrac";
  P 3855 17 "opentrac";
  P 3856 6 "informer";
  P 3856 17 "informer";
  P 3857 6 "trap-port";
  P 3857 17 "trap-port";
  P 3858 6 "trap-port-mom";
  P 3858 17 "trap-port-mom";
  P 3859 6 "nav-port";
  P 3859 17 "nav-port";
  P 3860 6 "sasp";
  P 3860 17 "sasp";
  P 3861 6 "winshadow-hd"].
Definition services_48 : list service := [
  P 3861 17 "winshadow-hd";
  P 3862 6 "giga-pocket";
  P 3862 17 "giga-pocket";
  P 3863 132 "asap-sctp";
  P 3863 6 "asap-tcp";
  P 3863 17 "asap-tcp";
  P 3864 132 "asap-sctp-tls";
  P 3864 6 "asap-tcp-tls";
  P 3865 6 "xpl";
  P 3865 17 "xpl";
  P 3866 6 "dzdaemon";
  P 3866 17 "dzdaemon";
  P 3867 6 "dzoglserver";
  P 3867 17 "dzoglserver";
  P 3868 132 "diameter";
  P 3868 6 "diameter";
  P 3869 6 "ovsam-mgmt";
  P 3869 17 "ovsam-mgmt";
  P 3870 6 "ovsam-d-agent";
  P 3870 17 "ovsam-d-agent";
  P 3871 6 "avocent-adsap";
  P 3871 17 "avocent-adsap";
  P 3872 6 "oem-agent";
  P 3872 17 "oem-agent";
  P 3873 6 "fagordnc";
  P 3873 17 "fagordnc";
  P 3874 6 "sixxsconfig";
  P 3874 17 "sixxsconfig";
  P 3875 6 "pnbscada";
  P 3875 17 "pnbscada";
  P 3876 6 "dl_agent";
  P 3876 17 "dl_agent";
  P 3877 6 "xmpcr-interface";
  P 3877 17 "xmpcr-interface";
  P 3878 6 "fotogcad";
  P 3878 17 "fotogcad";
  P 3879 6 "appss-lm";
  P 3879 17 "appss-lm";
  P 3880 6 "igrs";
  P 3880 17 "igrs";
  P 3881 6 "idac";
  P 3881 17 "idac";
  P 3882 6 "msdts1";
  P 3882 17 "msdts1";
  P 3883 6 "vrpn";
  P 3883 17 "vrpn";
  P 3884 6 "softrack-meter";
  P 3884 17 "softrack-meter";
  P 3885 6 "topflow-ssl";
  P 3885 17 "topflow-ssl";
  P 3886 6 "nei-management";
  P 3886 17 "nei-management";
  P 3887 6 "ciphire-data";
  P 3887 17 "ciphire-data";
  P 3888 6 "ciphire-serv";
  P 3888 17 "ciphire-serv";
  P 3889 6 "dandv-tester";
  P 3889 17 "dandv-tester";
  P 3890 6 "ndsconnect";
  P 3890 17 "ndsconnect";
  P 3891 6 "rtc-pm-port";
  P 3891 17 "rtc-pm-port";
  P 3892 6 "pcc-image-port";
  P 3892 17 "pcc-image-port";
  P 3893 6 "cgi-starapi";
  P 3893 17 "cgi-starapi";
  P 3894 6 "syam-agent";
  P 3894 17 "syam-agent";
  P 3895 6 "syam-smc";
  P 3895 17 "syam-smc";
  P 3896 6 "sdo-tls";
  P 3896 17 "sdo-tls";
  P 3897 6 "sdo-ssh";
  P 3897 17 "sdo-ssh";
  P 3898 6 "senip";
  P 3898 17 "senip";
  P 3899 6 "itv-control";
  P 3899 17 "itv-control";
  P 3900 6 "udt_os";
  P 3900 17 "udt_os";
  P 3901 6 "nimsh";
  P 3901 17 "nimsh";
  P 3902 6 "nimaux";
  P 3902 17 "nimaux";
  P 3903 6 "charsetmgr";
  P 3903 17 "charsetmgr";
  P 3904 6 "omnilink-port";
  P 3904 17 "omnilink-port";
  P 3905 6 "mupdate";
  P 3905 17 "mupdate";
  P 3906 6 "topovista-data";
  P 3906 17 "topovista-data";
  P 3907 6 "imoguia-port";
  P 3907 17 "imoguia-port";
  P 3908 6 "hppronetman";
  P 3908 17 "hppronetman";
  P 3909 6 "surfcontrolcpa";
  P 3909 17 "surfcontrolcpa";
  P 3910 6 "prnrequest";
  P 3910 17 "prnrequest";
  P 3911 6 "prnstatus";
  P 3911 17 "prnstatus";
  P 3912 6 "gbmt-stars";
  P 3912 17 "gbmt-stars";
  P 3913 6 "listcrt-port";
  P 3913 17 "listcrt-port";
  P 3914 6 "listcrt-port-2";
  P 3914 17 "listcrt-port-2";
  P 3915 6 "agcat";
  P 3915 17 "agcat";
  P 3916 6 "wysdmc";
  P 3916 17 "wysdmc";
  P 3917 6 "aftmux";
  P 3917 17 "aftmux";
  P 3918 6 "pktcablemmcops";
  P 3918 17 "pktcablemmcops";
  P 3919 6 "hyperip";
  P 3919 17 "hyperip";
  P 3920 6 "exasoftport1";
  P 3920 17 "exasoftport1";
  P 3921 6 "herodotus-net";
  P 3921 17 "herodotus-net";
  P 3922 6 "sor-update";
  P 3922 17 "sor-update";
  P 3923 6 "symb-sb-port";
  P 3923 17 "symb-sb-port";
  P 3924 6 "mpl-gprs-port";
  P 3924 17 "mpl-gprs-port";
  P 3925 6 "zmp";
  P 3925 17 "zmp";
  P 3926 6 "winport";
  P 3926 17 "winport";
  P 3927 6 "natdataservice";
  P 3927 17 "natdataservice";
  P 3928 6 "netboot-pxe";
  P 3928 17 "netboot-pxe";
  P 3929 6 "smauth-port";
  P 3929 17 "smauth-port";
  P 3930 6 "syam-webserver";
  P 3930 17 "syam-webserver";
  P 3931 6 "msr-plugin-port";
  P 3931 17 "msr-plugin-port";
  P 3932 6 "dyn-site";
  P 3932 17 "dyn-site";
  P 3933 6 "plbserve-port";
  P 3933 17 "plbserve-port";
  P 3934 6 "sunfm-port";
  P 3934 17 "sunfm-port";
  P 3935 6 "sdp-portmapper";
  P 3935 17 "sdp-portmapper"].
Definition services_49 : list service := [
  P 3936 6 "mailprox";
  P 3936 17 "mailprox";
  P 3937 6 "dvbservdsc";
  P 3937 17 "dvbservdsc";
  P 3938 6 "dbcontrol_agent";
  P 3938 17 "dbcontrol_agent";
  P 3939 6 "aamp";
  P 3939 17 "aamp";
  P 3940 6 "xecp-node";
  P 3940 17 "xecp-node";
  P 3941 6 "homeportal-web";
  P 3941 17 "homeportal-web";
  P 3942 6 "srdp";
  P 3942 17 "srdp";
  P 3943 6 "tig";
  P 3943 17 "tig";
  P 3944 6 "sops";
  P 3944 17 "sops";
  P 3945 6 "emcads";
  P 3945 17 "emcads";
  P 3946 6 "backupedge";
  P 3946 17 "backupedge";
  P 3947 6 "ccp";
  P 3947 17 "ccp";
  P 3948 6 "apdap";
  P 3948 17 "apdap";
  P 3949 6 "drip";
  P 3949 17 "drip";
  P 3950 6 "namemunge";
  P 3950 17 "namemunge";
  P 3951 6 "pwgippfax";
  P 3951 17 "pwgippfax";
  P 3952 6 "i3-sessionmgr";
  P 3952 17 "i3-sessionmgr";
  P 3953 6 "xmlink-connect";
  P 3953 17 "xmlink-connect";
  P 3954 6 "adrep";
  P 3954 17 "adrep";
  P 3955 6 "p2pcommunity";
  P 3955 17 "p2pcommunity";
  P 3956 6 "gvcp";
  P 3956 17 "gvcp";
  P 3957 6 "mqe-broker";
  P 3957 17 "mqe-broker";
  P 3958 6 "mqe-agent";
  P 3958 17 "mqe-agent";
  P 3959 6 "treehopper";
  P 3959 17 "treehopper";
  P 3960 6 "bess";
  P 3960 17 "bess";
  P 3961 6 "proaxess";
  P 3961 17 "proaxess";
  P 3962 6 "sbi-agent";
  P 3962 17 "sbi-agent";
  P 3963 6 "thrp";
  P 3963 17 "thrp";
  P 3964 6 "sasggprs";
  P 3964 17 "sasggprs";
  P 3965 6 "ati-ip-to-ncpe";
  P 3965 17 "ati-ip-to-ncpe";
  P 3966 6 "bflckmgr";
  P 3966 17 "bflckmgr";
  P 3967 6 "ppsms";
  P 3967 17 "ppsms";
  P 3968 6 "ianywhere-dbns";
  P 3968 17 "ianywhere-dbns";
  P 3969 6 "landmarks";
  P 3969 17 "landmarks";
  P 3970 6 "lanrevagent";
  P 3970 17 "lanrevagent";
  P 3971 6 "lanrevserver";
  P 3971 17 "lanrevserver";
  P 3972 6 "iconp";
  P 3972 17 "iconp";
  P 3973 6 "progistics";
  P 3973 17 "progistics";
  P 3974 6 "citysearch";
  P 3974 17 "citysearch";
  P 3975 6 "airshot";
  P 3975 17 "airshot";
  P 3976 6 "opswagent";
  P 3976 17 "opswagent";
  P 3977 6 "opswmanager";
  P 3977 17 "opswmanager";
  P 3978 6 "secure-cfg-svr";
  P 3978 17 "secure-cfg-svr";
  P 3979 6 "smwan";
  P 3979 17 "smwan";
  P 3980 6 "acms";
  P 3980 17 "acms";
  P 3981 6 "starfish";
  P 3981 17 "starfish";
  P 3982 6 "eis";
  P 3982 17 "eis";
  P 3983 6 "eisp";
  P 3983 17 "eisp";
  P 3984 6 "mapper-nodemgr";
  P 3984 17 "mapper-nodemgr";
  P 3985 6 "mapper-mapethd";
  P 3985 17 "mapper-mapethd";
  P 3986 6 "mapper-ws_ethd";
  P 3986 17 "mapper-ws_ethd";
  P 3987 6 "centerline";
  P 3987 17 "centerline";
  P 3988 6 "dcs-config";
  P 3988 17 "dcs-config";
  P 3989 6 "bv-queryengine";
  P 3989 17 "bv-queryengine";
  P 3990 6 "bv-is";
  P 3990 17 "bv-is";
  P 3991 6 "bv-smcsrv";
  P 3991 17 "bv-smcsrv";
  P 3992 6 "bv-ds";
  P 3992 17 "bv-ds";
  P 3993 6 "bv-agent";
  P 3993 17 "bv-agent";
  P 3995 6 "iss-mgmt-ssl";
  P 3995 17 "iss-mgmt-ssl";
  P 3996 6 "abcsoftware";
  P 3996 17 "remoteanything";
  P 3997 6 "agentsease-db";
  P 3997 17 "remoteanything";
  P 3998 6 "dnx";
  P 3998 17 "remoteanything";
  P 3999 6 "remoteanything";
  P 3999 17 "nvcnet";
  P 4000 6 "remoteanything";
  P 4000 17 "icq";
  P 4001 6 "newoak";
  P 4001 17 "newoak";
  P 4002 6 "mlchat-proxy";
  P 4002 17 "pxc-spvr-ft";
  P 4003 6 "pxc-splr-ft";
  P 4003 17 "pxc-splr-ft";
  P 4004 6 "pxc-roid";
  P 4004 17 "pxc-roid";
  P 4005 6 "pxc-pin";
  P 4005 17 "pxc-pin";
  P 4006 6 "pxc-spvr";
  P 4006 17 "pxc-spvr";
  P 4007 6 "pxc-splr";
  P 4007 17 "pxc-splr";
  P 4008 6 "netcheque";
  P 4008 17 "netcheque";
  P 4009 6 "chimera-hwm";
  P 4009 17 "chimera-hwm";
  P 4010 6 "samsung-unidex";
  P 4010 17 "samsung-unidex";
  P 4011 6 "altserviceboot";
  P 4011 17 "altserviceboot"].
Definition services_50 : list service := [
  P 4012 6 "pda-gate";
  P 4012 17 "pda-gate";
  P 4013 6 "acl-manager";
  P 4013 17 "acl-manager";
  P 4014 6 "taiclock";
  P 4014 17 "taiclock";
  P 4015 6 "talarian-mcast1";
  P 4015 17 "talarian-mcast1";
  P 4016 6 "talarian-mcast2";
  P 4016 17 "talarian-mcast2";
  P 4017 6 "talarian-mcast3";
  P 4017 17 "talarian-mcast3";
  P 4018 6 "talarian-mcast4";
  P 4018 17 "talarian-mcast4";
  P 4019 6 "talarian-mcast5";
  P 4019 17 "talarian-mcast5";
  P 4020 6 "trap";
  P 4020 17 "trap";
  P 4021 6 "nexus-portal";
  P 4021 17 "nexus-portal";
  P 4022 6 "dnox";
  P 4022 17 "dnox";
  P 4023 6 "esnm-zoning";
  P 4023 17 "esnm-zoning";
  P 4024 6 "tnp1-port";
  P 4024 17 "tnp1-port";
  P 4025 6 "partimage";
  P 4025 17 "partimage";
  P 4026 6 "as-debug";
  P 4026 17 "as-debug";
  P 4027 6 "bxp";
  P 4027 17 "bxp";
  P 4028 6 "dtserver-port";
  P 4028 17 "dtserver-port";
  P 4029 6 "ip-qsig";
  P 4029 17 "ip-qsig";
  P 4030 6 "jdmn-port";
  P 4030 17 "jdmn-port";
  P 4031 6 "suucp";
  P 4031 17 "suucp";
  P 4032 6 "vrts-auth-port";
  P 4032 17 "vrts-auth-port";
  P 4033 6 "sanavigator";
  P 4033 17 "sanavigator";
  P 4034 6 "ubxd";
  P 4034 17 "ubxd";
  P 4035 6 "wap-push-http";
  P 4035 17 "wap-push-http";
  P 4036 6 "wap-push-https";
  P 4036 17 "wap-push-https";
  P 4037 6 "ravehd";
  P 4037 17 "ravehd";
  P 4038 6 "fazzt-ptp";
  P 4038 17 "fazzt-ptp";
  P 4039 6 "fazzt-admin";
  P 4039 17 "fazzt-admin";
  P 4040 6 "yo-main";
  P 4040 17 "yo-main";
  P 4041 6 "houston";
  P 4041 17 "houston";
  P 4042 6 "ldxp";
  P 4042 17 "ldxp";
  P 4043 6 "nirp";
  P 4043 17 "nirp";
  P 4044 6 "ltp";
  P 4044 17 "ltp";
  P 4045 6 "lockd";
  P 4045 17 "lockd";
  P 4046 6 "acp-proto";
  P 4046 17 "acp-proto";
  P 4047 6 "ctp-state";
  P 4047 17 "ctp-state";
  P 4049 6 "wafs";
  P 4049 17 "wafs";
  P 4050 6 "cisco-wafs";
  P 4050 17 "cisco-wafs";
  P 4051 6 "cppdp";
  P 4051 17 "cppdp";
  P 4052 6 "interact";
  P 4052 17 "interact";
  P 4053 6 "ccu-comm-1";
  P 4053 17 "ccu-comm-1";
  P 4054 6 "ccu-comm-2";
  P 4054 17 "ccu-comm-2";
  P 4055 6 "ccu-comm-3";
  P 4055 17 "ccu-comm-3";
  P 4056 6 "lms";
  P 4056 17 "lms";
  P 4057 6 "wfm";
  P 4057 17 "wfm";
  P 4058 6 "kingfisher";
  P 4058 17 "kingfisher";
  P 4059 6 "dlms-cosem";
  P 4059 17 "dlms-cosem";
  P 4060 6 "dsmeter_iatc";
  P 4060 17 "dsmeter_iatc";
  P 4061 6 "ice-location";
  P 4061 17 "ice-location";
  P 4062 6 "ice-slocation";
  P 4062 17 "ice-slocation";
  P 4063 6 "ice-router";
  P 4063 17 "ice-router";
  P 4064 6 "ice-srouter";
  P 4064 17 "ice-srouter";
  P 4065 6 "avanti_cdp";
  P 4065 17 "avanti_cdp";
  P 4066 6 "pmas";
  P 4066 17 "pmas";
  P 4067 6 "idp";
  P 4067 17 "idp";
  P 4068 6 "ipfltbcst";
  P 4068 17 "ipfltbcst";
  P 4069 6 "minger";
  P 4069 17 "minger";
  P 4070 6 "tripe";
  P 4070 17 "tripe";
  P 4071 6 "aibkup";
  P 4071 17 "aibkup";
  P 4072 6 "zieto-sock";
  P 4072 17 "zieto-sock";
  P 4073 6 "iRAPP";
  P 4073 17 "iRAPP";
  P 4074 6 "cequint-cityid";
  P 4074 17 "cequint-cityid";
  P 4075 6 "perimlan";
  P 4075 17 "perimlan";
  P 4076 6 "seraph";
  P 4076 17 "seraph";
  P 4077 6 "ascomalarm";
  P 4077 17 "ascomalarm";
  P 4078 6 "cssp";
  P 4079 6 "santools";
  P 4079 17 "santools";
  P 4080 6 "lorica-in";
  P 4080 17 "lorica-in";
  P 4081 6 "lorica-in-sec";
  P 4081 17 "lorica-in-sec";
  P 4082 6 "lorica-out";
  P 4082 17 "lorica-out";
  P 4083 6 "lorica-out-sec";
  P 4083 17 "lorica-out-sec";
  P 4084 6 "fortisphere-vm";
  P 4084 17 "fortisphere-vm";
  P 4085 6 "ezmessagesrv";
  P 4086 6 "ftsync";
  P 4086 17 "ftsync";
  P 4087 6 "applusservice";
  P 4088 6 "npsp";
  P 4089 6 "opencore";
  P 4089 17 "opencore"].
Definition services_51 : list service := [
  P 4090 6 "omasgport";
  P 4090 17 "omasgport";
  P 4091 6 "ewinstaller";
  P 4091 17 "ewinstaller";
  P 4092 6 "ewdgs";
  P 4092 17 "ewdgs";
  P 4093 6 "pvxpluscs";
  P 4093 17 "pvxpluscs";
  P 4094 6 "sysrqd";
  P 4094 17 "sysrqd";
  P 4095 6 "xtgui";
  P 4095 17 "xtgui";
  P 4096 6 "bre";
  P 4096 17 "bre";
  P 4097 6 "patrolview";
  P 4097 17 "patrolview";
  P 4098 6 "drmsfsd";
  P 4098 17 "drmsfsd";
  P 4099 6 "dpcp";
  P 4099 17 "dpcp";
  P 4100 6 "igo-incognito";
  P 4100 17 "igo-incognito";
  P 4101 6 "brlp-0";
  P 4101 17 "brlp-0";
  P 4102 6 "brlp-1";
  P 4102 17 "brlp-1";
  P 4103 6 "brlp-2";
  P 4103 17 "brlp-2";
  P 4104 6 "brlp-3";
  P 4104 17 "brlp-3";
  P 4105 6 "shofarplayer";
  P 4105 17 "shofarplayer";
  P 4106 6 "synchronite";
  P 4106 17 "synchronite";
  P 4107 6 "j-ac";
  P 4107 17 "j-ac";
  P 4108 6 "accel";
  P 4108 17 "accel";
  P 4109 6 "izm";
  P 4109 17 "izm";
  P 4110 6 "g2tag";
  P 4110 17 "g2tag";
  P 4111 6 "xgrid";
  P 4111 17 "xgrid";
  P 4112 6 "apple-vpns-rp";
  P 4112 17 "apple-vpns-rp";
  P 4113 6 "aipn-reg";
  P 4113 17 "aipn-reg";
  P 4114 6 "jomamqmonitor";
  P 4114 17 "jomamqmonitor";
  P 4115 6 "cds";
  P 4115 17 "cds";
  P 4116 6 "smartcard-tls";
  P 4116 17 "smartcard-tls";
  P 4117 6 "hillrserv";
  P 4117 17 "hillrserv";
  P 4118 6 "netscript";
  P 4118 17 "netscript";
  P 4119 6 "assuria-slm";
  P 4119 17 "assuria-slm";
  P 4120 6 "minirem";
  P 4121 6 "e-builder";
  P 4121 17 "e-builder";
  P 4122 6 "fprams";
  P 4122 17 "fprams";
  P 4123 6 "z-wave";
  P 4123 17 "z-wave";
  P 4124 6 "tigv2";
  P 4124 17 "tigv2";
  P 4125 6 "rww";
  P 4125 17 "opsview-envoy";
  P 4126 6 "ddrepl";
  P 4126 17 "ddrepl";
  P 4127 6 "unikeypro";
  P 4127 17 "unikeypro";
  P 4128 6 "nufw";
  P 4128 17 "nufw";
  P 4129 6 "nuauth";
  P 4129 17 "nuauth";
  P 4130 6 "fronet";
  P 4130 17 "fronet";
  P 4131 6 "stars";
  P 4131 17 "stars";
  P 4132 6 "nuts_dem";
  P 4132 17 "nuts_dem";
  P 4133 6 "nuts_bootp";
  P 4133 17 "nuts_bootp";
  P 4134 6 "nifty-hmi";
  P 4134 17 "nifty-hmi";
  P 4135 6 "cl-db-attach";
  P 4135 17 "cl-db-attach";
  P 4136 6 "cl-db-request";
  P 4136 17 "cl-db-request";
  P 4137 6 "cl-db-remote";
  P 4137 17 "cl-db-remote";
  P 4138 6 "nettest";
  P 4138 17 "nettest";
  P 4139 6 "thrtx";
  P 4139 17 "thrtx";
  P 4140 6 "cedros_fds";
  P 4140 17 "cedros_fds";
  P 4141 6 "oirtgsvc";
  P 4141 17 "oirtgsvc";
  P 4142 6 "oidocsvc";
  P 4142 17 "oidocsvc";
  P 4143 6 "oidsr";
  P 4143 17 "oidsr";
  P 4144 6 "wincim";
  P 4145 6 "vvr-control";
  P 4145 17 "vvr-control";
  P 4146 6 "tgcconnect";
  P 4146 17 "tgcconnect";
  P 4147 6 "vrxpservman";
  P 4147 17 "vrxpservman";
  P 4148 6 "hhb-handheld";
  P 4148 17 "hhb-handheld";
  P 4149 6 "agslb";
  P 4149 17 "agslb";
  P 4150 6 "PowerAlert-nsa";
  P 4150 17 "PowerAlert-nsa";
  P 4151 6 "menandmice_noh";
  P 4151 17 "menandmice_noh";
  P 4152 6 "idig_mux";
  P 4152 17 "idig_mux";
  P 4153 6 "mbl-battd";
  P 4153 17 "mbl-battd";
  P 4154 6 "atlinks";
  P 4154 17 "atlinks";
  P 4155 6 "bzr";
  P 4155 17 "bzr";
  P 4156 6 "stat-results";
  P 4156 17 "stat-results";
  P 4157 6 "stat-scanner";
  P 4157 17 "stat-scanner";
  P 4158 6 "stat-cc";
  P 4158 17 "stat-cc";
  P 4159 6 "nss";
  P 4159 17 "nss";
  P 4160 6 "jini-discovery";
  P 4160 17 "jini-discovery";
  P 4161 6 "omscontact";
  P 4161 17 "omscontact";
  P 4162 6 "omstopology";
  P 4162 17 "omstopology";
  P 4163 6 "silverpeakpeer";
  P 4163 17 "silverpeakpeer";
  P 4164 6 "silverpeakcomm";
  P 4164 17 "silverpeakcomm";
  P 4165 6 "altcp";
  P 4165 17 "altcp"].
Definition services_52 : list service := [
  P 4166 6 "joost";
  P 4166 17 "joost";
  P 4167 6 "ddgn";
  P 4167 17 "ddgn";
  P 4168 6 "pslicser";
  P 4168 17 "pslicser";
  P 4169 6 "iadt";
  P 4169 17 "iadt-disc";
  P 4170 6 "d-cinema-csp";
  P 4171 6 "ml-svnet";
  P 4172 6 "pcoip";
  P 4172 17 "pcoip";
  P 4173 6 "mma-discovery";
  P 4174 6 "smcluster";
  P 4175 6 "bccp";
  P 4176 6 "tl-ipcproxy";
  P 4177 6 "wello";
  P 4177 17 "wello";
  P 4178 6 "storman";
  P 4178 17 "storman";
  P 4179 6 "MaxumSP";
  P 4179 17 "MaxumSP";
  P 4180 6 "httpx";
  P 4180 17 "httpx";
  P 4181 6 "macbak";
  P 4181 17 "macbak";
  P 4182 6 "pcptcpservice";
  P 4182 17 "pcptcpservice";
  P 4183 6 "gmmp";
  P 4183 17 "gmmp";
  P 4184 6 "universe_suite";
  P 4184 17 "universe_suite";
  P 4185 6 "wcpp";
  P 4185 17 "wcpp";
  P 4186 6 "boxbackupstore";
  P 4187 6 "csc_proxy";
  P 4188 6 "vatata";
  P 4188 17 "vatata";
  P 4189 6 "pcep";
  P 4190 6 "sieve";
  P 4191 6 "dsmipv6";
  P 4191 17 "dsmipv6";
  P 4192 6 "azeti";
  P 4192 17 "azeti-bd";
  P 4193 6 "pvxplusio";
  P 4197 6 "hctl";
  P 4199 6 "eims-admin";
  P 4199 17 "eims-admin";
  P 4200 6 "vrml-multi-use";
  P 4200 17 "vrml-multi-use";
  P 4201 6 "vrml-multi-use";
  P 4201 17 "vrml-multi-use";
  P 4202 6 "vrml-multi-use";
  P 4202 17 "vrml-multi-use";
  P 4203 6 "vrml-multi-use";
  P 4203 17 "vrml-multi-use";
  P 4204 6 "vrml-multi-use";
  P 4204 17 "vrml-multi-use";
  P 4205 6 "vrml-multi-use";
  P 4205 17 "vrml-multi-use";
  P 4206 6 "vrml-multi-use";
  P 4206 17 "vrml-multi-use";
  P 4207 6 "vrml-multi-use";
  P 4207 17 "vrml-multi-use";
  P 4208 6 "vrml-multi-use";
  P 4208 17 "vrml-multi-use";
  P 4209 6 "vrml-multi-use";
  P 4209 17 "vrml-multi-use";
  P 4210 6 "vrml-multi-use";
  P 4210 17 "vrml-multi-use";
  P 4211 6 "vrml-multi-use";
  P 4211 17 "vrml-multi-use";
  P 4212 6 "vrml-multi-use";
  P 4212 17 "vrml-multi-use";
  P 4213 6 "vrml-multi-use";
  P 4213 17 "vrml-multi-use";
  P 4214 6 "vrml-multi-use";
  P 4214 17 "vrml-multi-use";
  P 4215 6 "vrml-multi-use";
  P 4215 17 "vrml-multi-use";
  P 4216 6 "vrml-multi-use";
  P 4216 17 "vrml-multi-use";
  P 4217 6 "vrml-multi-use";
  P 4217 17 "vrml-multi-use";
  P 4218 6 "vrml-multi-use";
  P 4218 17 "vrml-multi-use";
  P 4219 6 "vrml-multi-use";
  P 4219 17 "vrml-multi-use";
  P 4220 6 "vrml-multi-use";
  P 4220 17 "vrml-multi-use";
  P 4221 6 "vrml-multi-use";
  P 4221 17 "vrml-multi-use";
  P 4222 6 "vrml-multi-use";
  P 4222 17 "vrml-multi-use";
  P 4223 6 "vrml-multi-use";
  P 4223 17 "vrml-multi-use";
  P 4224 6 "xtell";
  P 4224 17 "vrml-multi-use";
  P 4225 6 "vrml-multi-use";
  P 4225 17 "vrml-multi-use";
  P 4226 6 "vrml-multi-use";
  P 4226 17 "vrml-multi-use";
  P 4227 6 "vrml-multi-use";
  P 4227 17 "vrml-multi-use";
  P 4228 6 "vrml-multi-use";
  P 4228 17 "vrml-multi-use";
  P 4229 6 "vrml-multi-use";
  P 4229 17 "vrml-multi-use";
  P 4230 6 "vrml-multi-use";
  P 4230 17 "vrml-multi-use";
  P 4231 6 "vrml-multi-use";
  P 4231 17 "vrml-multi-use";
  P 4232 6 "vrml-multi-use";
  P 4232 17 "vrml-multi-use";
  P 4233 6 "vrml-multi-use";
  P 4233 17 "vrml-multi-use";
  P 4234 6 "vrml-multi-use";
  P 4234 17 "vrml-multi-use";
  P 4235 6 "vrml-multi-use";
  P 4235 17 "vrml-multi-use";
  P 4236 6 "vrml-multi-use";
  P 4236 17 "vrml-multi-use";
  P 4237 6 "vrml-multi-use";
  P 4237 17 "vrml-multi-use";
  P 4238 6 "vrml-multi-use";
  P 4238 17 "vrml-multi-use";
  P 4239 6 "vrml-multi-use";
  P 4239 17 "vrml-multi-use";
  P 4240 6 "vrml-multi-use";
  P 4240 17 "vrml-multi-use";
  P 4241 6 "vrml-multi-use";
  P 4241 17 "vrml-multi-use";
  P 4242 6 "vrml-multi-use";
  P 4242 17 "vrml-multi-use";
  P 4243 6 "vrml-multi-use";
  P 4243 17 "vrml-multi-use";
  P 4244 6 "vrml-multi-use";
  P 4244 17 "vrml-multi-use";
  P 4245 6 "vrml-multi-use";
  P 4245 17 "vrml-multi-use";
  P 4246 6 "vrml-multi-use";
  P 4246 17 "vrml-multi-use";
  P 4247 6 "vrml-multi-use";
  P 4247 17 "vrml-multi-use";
  P 4248 6 "vrml-multi-use";
  P 4248 17 "vrml-multi-use";
  P 4249 6 "vrml-multi-use";
  P 4249 17 "vrml-multi-use";
  P 4250 6 "vrml-multi-use";
  P 4250 17 "vrml-multi-use"].
Definition services_53 : list service := [
  P 4251 6 "vrml-multi-use";
  P 4251 17 "vrml-multi-use";
  P 4252 6 "vrml-multi-use";
  P 4252 17 "vrml-multi-use";
  P 4253 6 "vrml-multi-use";
  P 4253 17 "vrml-multi-use";
  P 4254 6 "vrml-multi-use";
  P 4254 17 "vrml-multi-use";
  P 4255 6 "vrml-multi-use";
  P 4255 17 "vrml-multi-use";
  P 4256 6 "vrml-multi-use";
  P 4256 17 "vrml-multi-use";
  P 4257 6 "vrml-multi-use";
  P 4257 17 "vrml-multi-use";
  P 4258 6 "vrml-multi-use";
  P 4258 17 "vrml-multi-use";
  P 4259 6 "vrml-multi-use";
  P 4259 17 "vrml-multi-use";
  P 4260 6 "vrml-multi-use";
  P 4260 17 "vrml-multi-use";
  P 4261 6 "vrml-multi-use";
  P 4261 17 "vrml-multi-use";
  P 4262 6 "vrml-multi-use";
  P 4262 17 "vrml-multi-use";
  P 4263 6 "vrml-multi-use";
  P 4263 17 "vrml-multi-use";
  P 4264 6 "vrml-multi-use";
  P 4264 17 "vrml-multi-use";
  P 4265 6 "vrml-multi-use";
  P 4265 17 "vrml-multi-use";
  P 4266 6 "vrml-multi-use";
  P 4266 17 "vrml-multi-use";
  P 4267 6 "vrml-multi-use";
  P 4267 17 "vrml-multi-use";
  P 4268 6 "vrml-multi-use";
  P 4268 17 "vrml-multi-use";
  P 4269 6 "vrml-multi-use";
  P 4269 17 "vrml-multi-use";
  P 4270 6 "vrml-multi-use";
  P 4270 17 "vrml-multi-use";
  P 4271 6 "vrml-multi-use";
  P 4271 17 "vrml-multi-use";
  P 4272 6 "vrml-multi-use";
  P 4272 17 "vrml-multi-use";
  P 4273 6 "vrml-multi-use";
  P 4273 17 "vrml-multi-use";
  P 4274 6 "vrml-multi-use";
  P 4274 17 "vrml-multi-use";
  P 4275 6 "vrml-multi-use";
  P 4275 17 "vrml-multi-use";
  P 4276 6 "vrml-multi-use";
  P 4276 17 "vrml-multi-use";
  P 4277 6 "vrml-multi-use";
  P 4277 17 "vrml-multi-use";
  P 4278 6 "vrml-multi-use";
  P 4278 17 "vrml-multi-use";
  P 4279 6 "vrml-multi-use";
  P 4279 17 "vrml-multi-use";
  P 4280 6 "vrml-multi-use";
  P 4280 17 "vrml-multi-use";
  P 4281 6 "vrml-multi-use";
  P 4281 17 "vrml-multi-use";
  P 4282 6 "vrml-multi-use";
  P 4282 17 "vrml-multi-use";
  P 4283 6 "vrml-multi-use";
  P 4283 17 "vrml-multi-use";
  P 4284 6 "vrml-multi-use";
  P 4284 17 "vrml-multi-use";
  P 4285 6 "vrml-multi-use";
  P 4285 17 "vrml-multi-use";
  P 4286 6 "vrml-multi-use";
  P 4286 17 "vrml-multi-use";
  P 4287 6 "vrml-multi-use";
  P 4287 17 "vrml-multi-use";
  P 4288 6 "vrml-multi-use";
  P 4288 17 "vrml-multi-use";
  P 4289 6 "vrml-multi-use";
  P 4289 17 "vrml-multi-use";
  P 4290 6 "vrml-multi-use";
  P 4290 17 "vrml-multi-use";
  P 4291 6 "vrml-multi-use";
  P 4291 17 "vrml-multi-use";
  P 4292 6 "vrml-multi-use";
  P 4292 17 "vrml-multi-use";
  P 4293 6 "vrml-multi-use";
  P 4293 17 "vrml-multi-use";
  P 4294 6 "vrml-multi-use";
  P 4294 17 "vrml-multi-use";
  P 4295 6 "vrml-multi-use";
  P 4295 17 "vrml-multi-use";
  P 4296 6 "vrml-multi-use";
  P 4296 17 "vrml-multi-use";
  P 4297 6 "vrml-multi-use";
  P 4297 17 "vrml-multi-use";
  P 4298 6 "vrml-multi-use";
  P 4298 17 "vrml-multi-use";
  P 4299 6 "vrml-multi-use";
  P 4299 17 "vrml-multi-use";
  P 4300 6 "corelccam";
  P 4300 17 "corelccam";
  P 4301 6 "d-data";
  P 4301 17 "d-data";
  P 4302 6 "d-data-control";
  P 4302 17 "d-data-control";
  P 4303 6 "srcp";
  P 4303 17 "srcp";
  P 4304 6 "owserver";
  P 4304 17 "owserver";
  P 4305 6 "batman";
  P 4305 17 "batman";
  P 4306 6 "pinghgl";
  P 4306 17 "pinghgl";
  P 4307 6 "visicron-vs";
  P 4307 17 "visicron-vs";
  P 4308 6 "compx-lockview";
  P 4308 17 "compx-lockview";
  P 4309 6 "dserver";
  P 4309 17 "dserver";
  P 4310 6 "mirrtex";
  P 4310 17 "mirrtex";
  P 4311 6 "p6ssmc";
  P 4312 6 "pscl-mgt";
  P 4313 6 "perrla";
  P 4314 6 "choiceview-agt";
  P 4316 6 "choiceview-clt";
  P 4320 6 "fdt-rcatp";
  P 4320 17 "fdt-rcatp";
  P 4321 6 "rwhois";
  P 4321 17 "rwhois";
  P 4322 6 "trim-event";
  P 4322 17 "trim-event";
  P 4323 6 "trim-ice";
  P 4323 17 "trim-ice";
  P 4324 6 "balour";
  P 4324 17 "balour";
  P 4325 6 "geognosisman";
  P 4325 17 "geognosisman";
  P 4326 6 "geognosis";
  P 4326 17 "geognosis";
  P 4327 6 "jaxer-web";
  P 4327 17 "jaxer-web";
  P 4328 6 "jaxer-manager";
  P 4328 17 "jaxer-manager";
  P 4329 6 "publiqare-sync";
  P 4330 6 "dey-sapi";
  P 4331 6 "ktickets-rest";
  P 4333 6 "msql";
  P 4334 6 "netconf-ch-ssh";
  P 4335 6 "netconf-ch-tls";
  P 4336 6 "restconf-ch-tls"].
Definition services_54 : list service := [
  P 4340 6 "gaia";
  P 4340 17 "gaia";
  P 4341 6 "lisp-data";
  P 4341 17 "lisp-data";
  P 4342 6 "lisp-cons";
  P 4342 17 "lisp-control";
  P 4343 6 "unicall";
  P 4343 17 "unicall";
  P 4344 6 "vinainstall";
  P 4344 17 "vinainstall";
  P 4345 6 "m4-network-as";
  P 4345 17 "m4-network-as";
  P 4346 6 "elanlm";
  P 4346 17 "elanlm";
  P 4347 6 "lansurveyor";
  P 4347 17 "lansurveyor";
  P 4348 6 "itose";
  P 4348 17 "itose";
  P 4349 6 "fsportmap";
  P 4349 17 "fsportmap";
  P 4350 6 "net-device";
  P 4350 17 "net-device";
  P 4351 6 "plcy-net-svcs";
  P 4351 17 "plcy-net-svcs";
  P 4352 6 "pjlink";
  P 4352 17 "pjlink";
  P 4353 6 "f5-iquery";
  P 4353 17 "f5-iquery";
  P 4354 6 "qsnet-trans";
  P 4354 17 "qsnet-trans";
  P 4355 6 "qsnet-workst";
  P 4355 17 "qsnet-workst";
  P 4356 6 "qsnet-assist";
  P 4356 17 "qsnet-assist";
  P 4357 6 "qsnet-cond";
  P 4357 17 "qsnet-cond";
  P 4358 6 "qsnet-nucl";
  P 4358 17 "qsnet-nucl";
  P 4359 6 "omabcastltkm";
  P 4359 17 "omabcastltkm";
  P 4360 6 "matrix_vnet";
  P 4361 6 "nacnl";
  P 4361 17 "nacnl";
  P 4362 6 "afore-vdp-disc";
  P 4366 6 "shadowstream";
  P 4368 6 "wxbrief";
  P 4368 17 "wxbrief";
  P 4369 6 "epmd";
  P 4369 17 "epmd";
  P 4370 6 "elpro_tunnel";
  P 4370 17 "elpro_tunnel";
  P 4371 6 "l2c-control";
  P 4371 17 "l2c-disc";
  P 4372 6 "l2c-data";
  P 4372 17 "l2c-data";
  P 4373 6 "remctl";
  P 4373 17 "remctl";
  P 4374 6 "psi-ptt";
  P 4375 6 "tolteces";
  P 4375 17 "tolteces";
  P 4376 6 "bip";
  P 4376 17 "bip";
  P 4377 6 "cp-spxsvr";
  P 4377 17 "cp-spxsvr";
  P 4378 6 "cp-spxdpy";
  P 4378 17 "cp-spxdpy";
  P 4379 6 "ctdb";
  P 4379 17 "ctdb";
  P 4389 6 "xandros-cms";
  P 4389 17 "xandros-cms";
  P 4390 6 "wiegand";
  P 4390 17 "wiegand";
  P 4391 6 "apwi-imserver";
  P 4392 6 "apwi-rxserver";
  P 4393 6 "apwi-rxspooler";
  P 4394 6 "apwi-disc";
  P 4394 17 "apwi-disc";
  P 4395 6 "omnivisionesx";
  P 4395 17 "omnivisionesx";
  P 4396 6 "fly";
  P 4400 6 "ds-srv";
  P 4400 17 "ds-srv";
  P 4401 6 "ds-srvr";
  P 4401 17 "ds-srvr";
  P 4402 6 "ds-clnt";
  P 4402 17 "ds-clnt";
  P 4403 6 "ds-user";
  P 4403 17 "ds-user";
  P 4404 6 "ds-admin";
  P 4404 17 "ds-admin";
  P 4405 6 "ds-mail";
  P 4405 17 "ds-mail";
  P 4406 6 "ds-slp";
  P 4406 17 "ds-slp";
  P 4407 6 "nacagent";
  P 4408 6 "slscc";
  P 4409 6 "netcabinet-com";
  P 4410 6 "itwo-server";
  P 4411 6 "found";
  P 4412 6 "smallchat";
  P 4413 6 "avi-nms";
  P 4414 6 "updog";
  P 4415 6 "brcd-vr-req";
  P 4416 6 "pjj-player";
  P 4417 6 "workflowdir";
  P 4418 6 "axysbridge";
  P 4419 6 "cbp";
  P 4420 6 "nvm-express";
  P 4421 6 "scaleft";
  P 4422 6 "tsepisp";
  P 4423 6 "thingkit";
  P 4425 6 "netrockey6";
  P 4425 17 "netrockey6";
  P 4426 6 "beacon-port-2";
  P 4426 17 "beacon-port-2";
  P 4427 6 "drizzle";
  P 4428 6 "omviserver";
  P 4429 6 "omviagent";
  P 4430 6 "rsqlserver";
  P 4430 17 "rsqlserver";
  P 4431 6 "wspipe";
  P 4432 6 "l-acoustics";
  P 4433 6 "vop";
  P 4441 6 "netblox";
  P 4441 17 "netblox";
  P 4442 6 "saris";
  P 4442 17 "saris";
  P 4443 6 "pharos";
  P 4443 17 "pharos";
  P 4444 6 "krb524";
  P 4444 17 "krb524";
  P 4445 6 "upnotifyp";
  P 4445 17 "upnotifyp";
  P 4446 6 "n1-fwp";
  P 4446 17 "n1-fwp";
  P 4447 6 "n1-rmgmt";
  P 4447 17 "n1-rmgmt";
  P 4448 6 "asc-slmd";
  P 4448 17 "asc-slmd";
  P 4449 6 "privatewire";
  P 4449 17 "privatewire";
  P 4450 6 "camp";
  P 4450 17 "camp";
  P 4451 6 "ctisystemmsg";
  P 4451 17 "ctisystemmsg";
  P 4452 6 "ctiprogramload";
  P 4452 17 "ctiprogramload";
  P 4453 6 "nssalertmgr";
  P 4453 17 "nssalertmgr";
  P 4454 6 "nssagentmgr"].
Definition services_55 : list service := [
  P 4454 17 "nssagentmgr";
  P 4455 6 "prchat-user";
  P 4455 17 "prchat-user";
  P 4456 6 "prchat-server";
  P 4456 17 "prchat-server";
  P 4457 6 "prRegister";
  P 4457 17 "prRegister";
  P 4458 6 "mcp";
  P 4458 17 "mcp";
  P 4480 6 "proxy-plus";
  P 4484 6 "hpssmgmt";
  P 4484 17 "hpssmgmt";
  P 4485 6 "assyst-dr";
  P 4486 6 "icms";
  P 4486 17 "icms";
  P 4487 6 "prex-tcp";
  P 4488 6 "awacs-ice";
  P 4488 17 "awacs-ice";
  P 4500 6 "sae-urn";
  P 4500 17 "nat-t-ike";
  P 4502 6 "a25-fap-fgw";
  P 4534 6 "armagetronad";
  P 4535 6 "ehs";
  P 4535 17 "ehs";
  P 4536 6 "ehs-ssl";
  P 4536 17 "ehs-ssl";
  P 4537 6 "wssauthsvc";
  P 4537 17 "wssauthsvc";
  P 4538 6 "swx-gate";
  P 4538 17 "swx-gate";
  P 4545 6 "worldscores";
  P 4545 17 "worldscores";
  P 4546 6 "sf-lm";
  P 4546 17 "sf-lm";
  P 4547 6 "lanner-lm";
  P 4547 17 "lanner-lm";
  P 4548 6 "synchromesh";
  P 4548 17 "synchromesh";
  P 4549 6 "aegate";
  P 4549 17 "aegate";
  P 4550 6 "gds-adppiw-db";
  P 4550 17 "gds-adppiw-db";
  P 4551 6 "ieee-mih";
  P 4551 17 "ieee-mih";
  P 4552 6 "menandmice-mon";
  P 4552 17 "menandmice-mon";
  P 4553 6 "icshostsvc";
  P 4554 6 "msfrs";
  P 4554 17 "msfrs";
  P 4555 6 "rsip";
  P 4555 17 "rsip";
  P 4556 6 "dtn-bundle-tcp";
  P 4556 17 "dtn-bundle-udp";
  P 4557 6 "fax";
  P 4557 17 "mtcevrunqss";
  P 4558 6 "mtcevrunqman";
  P 4558 17 "mtcevrunqman";
  P 4559 6 "hylafax";
  P 4559 17 "hylafax";
  P 4563 6 "amahi-anywhere";
  P 4566 6 "kwtc";
  P 4566 17 "kwtc";
  P 4567 6 "tram";
  P 4567 17 "tram";
  P 4568 6 "bmc-reporting";
  P 4568 17 "bmc-reporting";
  P 4569 6 "iax";
  P 4569 17 "iax";
  P 4570 6 "deploymentmap";
  P 4573 6 "cardifftec-back";
  P 4590 6 "rid";
  P 4591 6 "l3t-at-an";
  P 4591 17 "l3t-at-an";
  P 4592 6 "hrpd-ith-at-an";
  P 4592 17 "hrpd-ith-at-an";
  P 4593 6 "ipt-anri-anri";
  P 4593 17 "ipt-anri-anri";
  P 4594 6 "ias-session";
  P 4594 17 "ias-session";
  P 4595 6 "ias-paging";
  P 4595 17 "ias-paging";
  P 4596 6 "ias-neighbor";
  P 4596 17 "ias-neighbor";
  P 4597 6 "a21-an-1xbs";
  P 4597 17 "a21-an-1xbs";
  P 4598 6 "a16-an-an";
  P 4598 17 "a16-an-an";
  P 4599 6 "a17-an-an";
  P 4599 17 "a17-an-an";
  P 4600 6 "piranha1";
  P 4600 17 "piranha1";
  P 4601 6 "piranha2";
  P 4601 17 "piranha2";
  P 4602 6 "mtsserver";
  P 4603 6 "menandmice-upg";
  P 4604 6 "irp";
  P 4605 6 "sixchat";
  P 4621 6 "ventoso";
  P 4658 6 "playsta2-app";
  P 4658 17 "playsta2-app";
  P 4659 6 "playsta2-lob";
  P 4659 17 "playsta2-lob";
  P 4660 6 "mosmig";
  P 4660 17 "smaclmgr";
  P 4661 6 "kar2ouche";
  P 4661 17 "kar2ouche";
  P 4662 6 "edonkey";
  P 4662 17 "oms";
  P 4663 6 "noteit";
  P 4663 17 "noteit";
  P 4664 6 "ems";
  P 4664 17 "ems";
  P 4665 6 "contclientms";
  P 4665 17 "contclientms";
  P 4666 6 "eportcomm";
  P 4666 17 "edonkey";
  P 4667 6 "mmacomm";
  P 4667 17 "mmacomm";
  P 4668 6 "mmaeds";
  P 4668 17 "mmaeds";
  P 4669 6 "eportcommdata";
  P 4669 17 "eportcommdata";
  P 4670 6 "light";
  P 4670 17 "light";
  P 4671 6 "acter";
  P 4671 17 "acter";
  P 4672 6 "rfa";
  P 4672 17 "rfa";
  P 4673 6 "cxws";
  P 4673 17 "cxws";
  P 4674 6 "appiq-mgmt";
  P 4674 17 "appiq-mgmt";
  P 4675 6 "dhct-status";
  P 4675 17 "dhct-status";
  P 4676 6 "dhct-alerts";
  P 4676 17 "dhct-alerts";
  P 4677 6 "bcs";
  P 4677 17 "bcs";
  P 4678 6 "traversal";
  P 4678 17 "traversal";
  P 4679 6 "mgesupervision";
  P 4679 17 "mgesupervision";
  P 4680 6 "mgemanagement";
  P 4680 17 "mgemanagement";
  P 4681 6 "parliant";
  P 4681 17 "parliant";
  P 4682 6 "finisar";
  P 4682 17 "finisar";
  P 4683 6 "spike";
  P 4683 17 "spike"].
Definition services_56 : list service := [
  P 4684 6 "rfid-rp1";
  P 4684 17 "rfid-rp1";
  P 4685 6 "autopac";
  P 4685 17 "autopac";
  P 4686 6 "msp-os";
  P 4686 17 "msp-os";
  P 4687 6 "nst";
  P 4687 17 "nst";
  P 4688 6 "mobile-p2p";
  P 4688 17 "mobile-p2p";
  P 4689 6 "altovacentral";
  P 4689 17 "altovacentral";
  P 4690 6 "prelude";
  P 4690 17 "prelude";
  P 4691 6 "mtn";
  P 4691 17 "mtn";
  P 4692 6 "conspiracy";
  P 4692 17 "conspiracy";
  P 4700 6 "netxms-agent";
  P 4700 17 "netxms-agent";
  P 4701 6 "netxms-mgmt";
  P 4701 17 "netxms-mgmt";
  P 4702 6 "netxms-sync";
  P 4702 17 "netxms-sync";
  P 4703 6 "npqes-test";
  P 4704 6 "assuria-ins";
  P 4711 6 "trinity-dist";
  P 4713 6 "pulseaudio";
  P 4725 6 "truckstar";
  P 4725 17 "truckstar";
  P 4726 6 "a26-fap-fgw";
  P 4726 17 "a26-fap-fgw";
  P 4727 6 "fcis";
  P 4727 17 "fcis-disc";
  P 4728 6 "capmux";
  P 4728 17 "capmux";
  P 4729 6 "gsmtap";
  P 4729 17 "gsmtap";
  P 4730 6 "gearman";
  P 4730 17 "gearman";
  P 4731 6 "remcap";
  P 4732 6 "ohmtrigger";
  P 4732 17 "ohmtrigger";
  P 4733 6 "resorcs";
  P 4737 6 "ipdr-sp";
  P 4737 17 "ipdr-sp";
  P 4738 6 "solera-lpn";
  P 4738 17 "solera-lpn";
  P 4739 132 "ipfix";
  P 4739 6 "ipfix";
  P 4739 17 "ipfix";
  P 4740 132 "ipfixs";
  P 4740 6 "ipfixs";
  P 4740 17 "ipfixs";
  P 4741 6 "lumimgrd";
  P 4741 17 "lumimgrd";
  P 4742 6 "sicct";
  P 4742 17 "sicct-sdp";
  P 4743 6 "openhpid";
  P 4743 17 "openhpid";
  P 4744 6 "ifsp";
  P 4744 17 "ifsp";
  P 4745 6 "fmp";
  P 4745 17 "fmp";
  P 4746 6 "intelliadm-disc";
  P 4747 6 "buschtrommel";
  P 4749 6 "profilemac";
  P 4749 17 "profilemac";
  P 4750 6 "ssad";
  P 4750 17 "ssad";
  P 4751 6 "spocp";
  P 4751 17 "spocp";
  P 4752 6 "snap";
  P 4752 17 "snap";
  P 4753 6 "simon";
  P 4754 6 "gre-in-udp";
  P 4755 6 "gre-udp-dtls";
  P 4756 6 "RDCenter";
  P 4774 6 "converge";
  P 4784 6 "bfd-multi-ctl";
  P 4784 17 "bfd-multi-ctl";
  P 4785 6 "cncp";
  P 4785 17 "cncp";
  P 4786 6 "smart-install";
  P 4787 6 "sia-ctrl-plane";
  P 4788 6 "xmcp";
  P 4789 6 "vxlan";
  P 4790 6 "vxlan-gpe";
  P 4791 6 "roce";
  P 4800 6 "iims";
  P 4800 17 "iims";
  P 4801 6 "iwec";
  P 4801 17 "iwec";
  P 4802 6 "ilss";
  P 4802 17 "ilss";
  P 4803 6 "notateit";
  P 4803 17 "notateit-disc";
  P 4804 6 "aja-ntv4-disc";
  P 4804 17 "aja-ntv4-disc";
  P 4827 6 "htcp";
  P 4827 17 "squid-htcp";
  P 4837 6 "varadero-0";
  P 4837 17 "varadero-0";
  P 4838 6 "varadero-1";
  P 4838 17 "varadero-1";
  P 4839 6 "varadero-2";
  P 4839 17 "varadero-2";
  P 4840 6 "opcua-tcp";
  P 4840 17 "opcua-udp";
  P 4841 6 "quosa";
  P 4841 17 "quosa";
  P 4842 6 "gw-asv";
  P 4842 17 "gw-asv";
  P 4843 6 "opcua-tls";
  P 4843 17 "opcua-tls";
  P 4844 6 "gw-log";
  P 4844 17 "gw-log";
  P 4845 6 "wcr-remlib";
  P 4845 17 "wcr-remlib";
  P 4846 6 "contamac_icm";
  P 4846 17 "contamac_icm";
  P 4847 6 "wfc";
  P 4847 17 "wfc";
  P 4848 6 "appserv-http";
  P 4848 17 "appserv-http";
  P 4849 6 "appserv-https";
  P 4849 17 "appserv-https";
  P 4850 6 "sun-as-nodeagt";
  P 4850 17 "sun-as-nodeagt";
  P 4851 6 "derby-repli";
  P 4851 17 "derby-repli";
  P 4867 6 "unify-debug";
  P 4867 17 "unify-debug";
  P 4868 6 "phrelay";
  P 4868 17 "phrelay";
  P 4869 6 "phrelaydbg";
  P 4869 17 "phrelaydbg";
  P 4870 6 "cc-tracking";
  P 4870 17 "cc-tracking";
  P 4871 6 "wired";
  P 4871 17 "wired";
  P 4876 6 "tritium-can";
  P 4877 6 "lmcs";
  P 4878 6 "inst-discovery";
  P 4879 6 "wsdl-event";
  P 4880 6 "hislip";
  P 4881 6 "socp-t";
  P 4881 17 "socp-t";
  P 4882 6 "socp-c";
  P 4882 17 "socp-c"].
Definition services_57 : list service := [
  P 4883 6 "wmlserver";
  P 4884 6 "hivestor";
  P 4884 17 "hivestor";
  P 4885 6 "abbs";
  P 4885 17 "abbs";
  P 4894 6 "lyskom";
  P 4894 17 "lyskom";
  P 4899 6 "radmin";
  P 4899 17 "radmin-port";
  P 4900 6 "hfcs";
  P 4900 17 "hfcs";
  P 4901 6 "flr_agent";
  P 4902 6 "magiccontrol";
  P 4912 6 "lutap";
  P 4913 6 "lutcp";
  P 4914 6 "bones";
  P 4914 17 "bones";
  P 4915 6 "frcs";
  P 4936 6 "an-signaling";
  P 4937 6 "atsc-mh-ssc";
  P 4937 17 "atsc-mh-ssc";
  P 4940 6 "eq-office-4940";
  P 4940 17 "eq-office-4940";
  P 4941 6 "eq-office-4941";
  P 4941 17 "eq-office-4941";
  P 4942 6 "eq-office-4942";
  P 4942 17 "eq-office-4942";
  P 4949 6 "munin";
  P 4949 17 "munin";
  P 4950 6 "sybasesrvmon";
  P 4950 17 "sybasesrvmon";
  P 4951 6 "pwgwims";
  P 4951 17 "pwgwims";
  P 4952 6 "sagxtsds";
  P 4952 17 "sagxtsds";
  P 4953 6 "dbsyncarbiter";
  P 4969 6 "ccss-qmm";
  P 4969 17 "ccss-qmm";
  P 4970 6 "ccss-qsm";
  P 4970 17 "ccss-qsm";
  P 4971 6 "burp";
  P 4980 6 "ctxs-vpp";
  P 4984 6 "webyast";
  P 4985 6 "gerhcs";
  P 4986 6 "mrip";
  P 4986 17 "mrip";
  P 4987 6 "maybe-veritas";
  P 4987 17 "smar-se-port1";
  P 4988 6 "smar-se-port2";
  P 4988 17 "smar-se-port2";
  P 4989 6 "parallel";
  P 4989 17 "parallel";
  P 4990 6 "busycal";
  P 4990 17 "busycal";
  P 4991 6 "vrt";
  P 4991 17 "vrt";
  P 4998 6 "maybe-veritas";
  P 4999 6 "hfcs-manager";
  P 4999 17 "hfcs-manager";
  P 5000 6 "upnp";
  P 5000 17 "upnp";
  P 5001 6 "commplex-link";
  P 5001 17 "commplex-link";
  P 5002 6 "rfe";
  P 5002 17 "rfe";
  P 5003 6 "filemaker";
  P 5003 17 "filemaker";
  P 5004 6 "avt-profile-1";
  P 5004 17 "avt-profile-1";
  P 5005 6 "avt-profile-2";
  P 5005 17 "avt-profile-2";
  P 5006 6 "wsm-server";
  P 5006 17 "wsm-server";
  P 5007 6 "wsm-server-ssl";
  P 5007 17 "wsm-server-ssl";
  P 5008 6 "synapsis-edge";
  P 5008 17 "synapsis-edge";
  P 5009 6 "airport-admin";
  P 5009 17 "winfs";
  P 5010 6 "telelpathstart";
  P 5010 17 "telelpathstart";
  P 5011 6 "telelpathattack";
  P 5011 17 "telelpathattack";
  P 5012 6 "nsp";
  P 5012 17 "nsp";
  P 5013 6 "fmpro-v6";
  P 5013 17 "fmpro-v6";
  P 5014 6 "onpsocket";
  P 5014 17 "onpsocket";
  P 5015 6 "fmwp";
  P 5020 6 "zenginkyo-1";
  P 5020 17 "zenginkyo-1";
  P 5021 6 "zenginkyo-2";
  P 5021 17 "zenginkyo-2";
  P 5022 6 "mice";
  P 5022 17 "mice";
  P 5023 6 "htuilsrv";
  P 5023 17 "htuilsrv";
  P 5024 6 "scpi-telnet";
  P 5024 17 "scpi-telnet";
  P 5025 6 "scpi-raw";
  P 5025 17 "scpi-raw";
  P 5026 6 "strexec-d";
  P 5026 17 "strexec-d";
  P 5027 6 "strexec-s";
  P 5027 17 "strexec-s";
  P 5028 6 "qvr";
  P 5029 6 "infobright";
  P 5029 17 "infobright";
  P 5030 6 "surfpass";
  P 5030 17 "surfpass";
  P 5031 6 "dmp";
  P 5031 17 "dmp";
  P 5032 6 "signacert-agent";
  P 5033 6 "jtnetd-server";
  P 5034 6 "jtnetd-status";
  P 5042 6 "asnaacceler8db";
  P 5042 17 "asnaacceler8db";
  P 5043 6 "swxadmin";
  P 5043 17 "swxadmin";
  P 5044 6 "lxi-evntsvc";
  P 5044 17 "lxi-evntsvc";
  P 5045 6 "osp";
  P 5046 6 "vpm-udp";
  P 5046 17 "vpm-udp";
  P 5047 6 "iscape";
  P 5047 17 "iscape";
  P 5048 6 "texai";
  P 5049 6 "ivocalize";
  P 5049 17 "ivocalize";
  P 5050 6 "mmcc";
  P 5050 17 "mmcc";
  P 5051 6 "ida-agent";
  P 5051 17 "ita-agent";
  P 5052 6 "ita-manager";
  P 5052 17 "ita-manager";
  P 5053 6 "rlm";
  P 5054 6 "rlm-admin";
  P 5055 6 "unot";
  P 5055 17 "unot";
  P 5056 6 "intecom-ps1";
  P 5056 17 "intecom-ps1";
  P 5057 6 "intecom-ps2";
  P 5057 17 "intecom-ps2";
  P 5058 6 "locus-disc";
  P 5058 17 "locus-disc";
  P 5059 6 "sds";
  P 5059 17 "sds";
  P 5060 132 "sip";
  P 5060 6 "sip"].
Definition services_58 : list service := [
  P 5060 17 "sip";
  P 5061 132 "sip-tls";
  P 5061 6 "sip-tls";
  P 5061 17 "sip-tls";
  P 5062 6 "na-localise";
  P 5062 17 "na-localise";
  P 5063 6 "csrpc";
  P 5064 6 "ca-1";
  P 5064 17 "ca-1";
  P 5065 6 "ca-2";
  P 5065 17 "ca-2";
  P 5066 6 "stanag-5066";
  P 5066 17 "stanag-5066";
  P 5067 6 "authentx";
  P 5067 17 "authentx";
  P 5068 6 "bitforestsrv";
  P 5069 6 "i-net-2000-npr";
  P 5069 17 "i-net-2000-npr";
  P 5070 6 "vtsas";
  P 5070 17 "vtsas";
  P 5071 6 "powerschool";
  P 5071 17 "powerschool";
  P 5072 6 "ayiya";
  P 5072 17 "ayiya";
  P 5073 6 "tag-pm";
  P 5073 17 "tag-pm";
  P 5074 6 "alesquery";
  P 5074 17 "alesquery";
  P 5075 6 "pvaccess";
  P 5078 6 "pixelpusher";
  P 5079 6 "cp-spxrpts";
  P 5079 17 "cp-spxrpts";
  P 5080 6 "onscreen";
  P 5080 17 "onscreen";
  P 5081 6 "sdl-ets";
  P 5081 17 "sdl-ets";
  P 5082 6 "qcp";
  P 5082 17 "qcp";
  P 5083 6 "qfp";
  P 5083 17 "qfp";
  P 5084 6 "llrp";
  P 5084 17 "llrp";
  P 5085 6 "encrypted-llrp";
  P 5085 17 "encrypted-llrp";
  P 5086 6 "aprigo-cs";
  P 5087 6 "biotic";
  P 5090 132 "car";
  P 5091 132 "cxtp";
  P 5092 6 "magpie";
  P 5092 17 "magpie";
  P 5093 6 "sentinel-lm";
  P 5093 17 "sentinel-lm";
  P 5094 6 "hart-ip";
  P 5094 17 "hart-ip";
  P 5099 6 "sentlm-srv2srv";
  P 5099 17 "sentlm-srv2srv";
  P 5100 6 "admd";
  P 5100 17 "socalia";
  P 5101 6 "admdog";
  P 5101 17 "talarian-udp";
  P 5102 6 "admeng";
  P 5102 17 "oms-nonsecure";
  P 5103 6 "actifio-c2c";
  P 5104 6 "tinymessage";
  P 5104 17 "tinymessage";
  P 5105 6 "hughes-ap";
  P 5105 17 "hughes-ap";
  P 5106 6 "actifioudsagent";
  P 5107 6 "actifioreplic";
  P 5111 6 "taep-as-svc";
  P 5111 17 "taep-as-svc";
  P 5112 6 "pm-cmdsvr";
  P 5112 17 "pm-cmdsvr";
  P 5114 6 "ev-services";
  P 5115 6 "autobuild";
  P 5116 6 "emb-proj-cmd";
  P 5116 17 "emb-proj-cmd";
  P 5117 6 "gradecam";
  P 5120 6 "barracuda-bbs";
  P 5133 6 "nbt-pc";
  P 5133 17 "nbt-pc";
  P 5134 6 "ppactivation";
  P 5135 6 "erp-scale";
  P 5136 6 "minotaur-sa";
  P 5136 17 "minotaur-sa";
  P 5137 6 "ctsd";
  P 5137 17 "ctsd";
  P 5145 6 "rmonitor_secure";
  P 5145 17 "rmonitor_secure";
  P 5146 6 "social-alarm";
  P 5150 6 "atmp";
  P 5150 17 "atmp";
  P 5151 6 "esri_sde";
  P 5151 17 "esri_sde";
  P 5152 6 "sde-discovery";
  P 5152 17 "sde-discovery";
  P 5153 6 "toruxserver";
  P 5154 6 "bzflag";
  P 5154 17 "bzflag";
  P 5155 6 "asctrl-agent";
  P 5155 17 "asctrl-agent";
  P 5156 6 "rugameonline";
  P 5157 6 "mediat";
  P 5161 6 "snmpssh";
  P 5162 6 "snmpssh-trap";
  P 5163 6 "sbackup";
  P 5164 6 "vpa";
  P 5164 17 "vpa-disc";
  P 5165 6 "ife_icorp";
  P 5165 17 "ife_icorp";
  P 5166 6 "winpcs";
  P 5166 17 "winpcs";
  P 5167 6 "scte104";
  P 5167 17 "scte104";
  P 5168 6 "scte30";
  P 5168 17 "scte30";
  P 5172 6 "pcoip-mgmt";
  P 5190 6 "aol";
  P 5190 17 "aol";
  P 5191 6 "aol-1";
  P 5191 17 "aol-1";
  P 5192 6 "aol-2";
  P 5192 17 "aol-2";
  P 5193 6 "aol-3";
  P 5193 17 "aol-3";
  P 5194 6 "cpscomm";
  P 5195 6 "ampl-lic";
  P 5196 6 "ampl-tableproxy";
  P 5197 6 "tunstall-lwp";
  P 5200 6 "targus-getdata";
  P 5200 17 "targus-getdata";
  P 5201 6 "targus-getdata1";
  P 5201 17 "targus-getdata1";
  P 5202 6 "targus-getdata2";
  P 5202 17 "targus-getdata2";
  P 5203 6 "targus-getdata3";
  P 5203 17 "targus-getdata3";
  P 5209 6 "nomad";
  P 5215 6 "noteza";
  P 5221 6 "3exmp";
  P 5222 6 "xmpp-client";
  P 5222 17 "xmpp-client";
  P 5223 6 "hpvirtgrp";
  P 5223 17 "hpvirtgrp";
  P 5224 6 "hpvirtctrl";
  P 5224 17 "hpvirtctrl";
  P 5225 6 "hp-server";
  P 5225 17 "hp-server";
  P 5226 6 "hp-status";
  P 5226 17 "hp-status"].
Definition services_59 : list service := [
  P 5227 6 "perfd";
  P 5227 17 "perfd";
  P 5228 6 "hpvroom";
  P 5229 6 "jaxflow";
  P 5230 6 "jaxflow-data";
  P 5231 6 "crusecontrol";
  P 5232 6 "sgi-dgl";
  P 5233 6 "enfs";
  P 5234 6 "eenet";
  P 5234 17 "eenet";
  P 5235 6 "galaxy-network";
  P 5235 17 "galaxy-network";
  P 5236 6 "padl2sim";
  P 5236 17 "padl2sim";
  P 5237 6 "mnet-discovery";
  P 5237 17 "mnet-discovery";
  P 5245 6 "downtools";
  P 5245 17 "downtools-disc";
  P 5246 6 "capwap-control";
  P 5246 17 "capwap-control";
  P 5247 6 "capwap-data";
  P 5247 17 "capwap-data";
  P 5248 6 "caacws";
  P 5248 17 "caacws";
  P 5249 6 "caaclang2";
  P 5249 17 "caaclang2";
  P 5250 6 "soagateway";
  P 5250 17 "soagateway";
  P 5251 6 "caevms";
  P 5251 17 "caevms";
  P 5252 6 "movaz-ssc";
  P 5252 17 "movaz-ssc";
  P 5253 6 "kpdp";
  P 5254 6 "logcabin";
  P 5264 6 "3com-njack-1";
  P 5264 17 "3com-njack-1";
  P 5265 6 "3com-njack-2";
  P 5265 17 "3com-njack-2";
  P 5269 6 "xmpp-server";
  P 5269 17 "xmpp-server";
  P 5270 6 "xmp";
  P 5270 17 "xmp";
  P 5271 6 "cuelink";
  P 5271 17 "cuelink-disc";
  P 5272 6 "pk";
  P 5272 17 "pk";
  P 5280 6 "xmpp-bosh";
  P 5281 6 "undo-lm";
  P 5282 6 "transmit-port";
  P 5282 17 "transmit-port";
  P 5298 6 "presence";
  P 5298 17 "presence";
  P 5299 6 "nlg-data";
  P 5299 17 "nlg-data";
  P 5300 6 "hacl-hb";
  P 5300 17 "hacl-hb";
  P 5301 6 "hacl-gs";
  P 5301 17 "hacl-gs";
  P 5302 6 "hacl-cfg";
  P 5302 17 "hacl-cfg";
  P 5303 6 "hacl-probe";
  P 5303 17 "hacl-probe";
  P 5304 6 "hacl-local";
  P 5304 17 "hacl-local";
  P 5305 6 "hacl-test";
  P 5305 17 "hacl-test";
  P 5306 6 "sun-mc-grp";
  P 5306 17 "sun-mc-grp";
  P 5307 6 "sco-aip";
  P 5307 17 "sco-aip";
  P 5308 6 "cfengine";
  P 5308 17 "cfengine";
  P 5309 6 "jprinter";
  P 5309 17 "jprinter";
  P 5310 6 "outlaws";
  P 5310 17 "outlaws";
  P 5312 6 "permabit-cs";
  P 5312 17 "permabit-cs";
  P 5313 6 "rrdp";
  P 5313 17 "rrdp";
  P 5314 6 "opalis-rbt-ipc";
  P 5314 17 "opalis-rbt-ipc";
  P 5315 6 "hacl-poll";
  P 5315 17 "hacl-poll";
  P 5316 6 "hpdevms";
  P 5316 17 "hpdevms";
  P 5317 6 "hpdevms";
  P 5318 6 "pkix-cmc";
  P 5320 6 "bsfserver-zn";
  P 5321 6 "bsfsvr-zn-ssl";
  P 5343 6 "kfserver";
  P 5343 17 "kfserver";
  P 5344 6 "xkotodrcp";
  P 5344 17 "xkotodrcp";
  P 5349 6 "stuns";
  P 5349 17 "stuns";
  P 5350 6 "nat-pmp-status";
  P 5350 17 "nat-pmp-status";
  P 5351 6 "nat-pmp";
  P 5351 17 "nat-pmp";
  P 5352 6 "dns-llq";
  P 5352 17 "dns-llq";
  P 5353 6 "mdns";
  P 5353 17 "zeroconf";
  P 5354 6 "mdnsresponder";
  P 5354 17 "mdnsresponder";
  P 5355 6 "llmnr";
  P 5355 17 "llmnr";
  P 5356 6 "ms-smlbiz";
  P 5356 17 "ms-smlbiz";
  P 5357 6 "wsdapi";
  P 5357 17 "wsdapi";
  P 5358 6 "wsdapi-s";
  P 5358 17 "wsdapi-s";
  P 5359 6 "ms-alerter";
  P 5359 17 "ms-alerter";
  P 5360 6 "ms-sideshow";
  P 5360 17 "ms-sideshow";
  P 5361 6 "ms-s-sideshow";
  P 5361 17 "ms-s-sideshow";
  P 5362 6 "serverwsd2";
  P 5362 17 "serverwsd2";
  P 5363 6 "net-projection";
  P 5363 17 "net-projection";
  P 5364 6 "kdnet";
  P 5397 6 "stresstester";
  P 5397 17 "stresstester";
  P 5398 6 "elektron-admin";
  P 5398 17 "elektron-admin";
  P 5399 6 "securitychase";
  P 5399 17 "securitychase";
  P 5400 6 "pcduo-old";
  P 5400 17 "excerpt";
  P 5401 6 "excerpts";
  P 5401 17 "excerpts";
  P 5402 6 "mftp";
  P 5402 17 "mftp";
  P 5403 6 "hpoms-ci-lstn";
  P 5403 17 "hpoms-ci-lstn";
  P 5404 6 "hpoms-dps-lstn";
  P 5404 17 "hpoms-dps-lstn";
  P 5405 6 "pcduo";
  P 5405 17 "netsupport";
  P 5406 6 "systemics-sox";
  P 5406 17 "systemics-sox";
  P 5407 6 "foresyte-clear";
  P 5407 17 "foresyte-clear";
  P 5408 6 "foresyte-sec";
  P 5408 17 "foresyte-sec";
  P 5409 6 "salient-dtasrv"].
Definition services_60 : list service := [
  P 5409 17 "salient-dtasrv";
  P 5410 6 "salient-usrmgr";
  P 5410 17 "salient-usrmgr";
  P 5411 6 "actnet";
  P 5411 17 "actnet";
  P 5412 6 "continuus";
  P 5412 17 "continuus";
  P 5413 6 "wwiotalk";
  P 5413 17 "wwiotalk";
  P 5414 6 "statusd";
  P 5414 17 "statusd";
  P 5415 6 "ns-server";
  P 5415 17 "ns-server";
  P 5416 6 "sns-gateway";
  P 5416 17 "sns-gateway";
  P 5417 6 "sns-agent";
  P 5417 17 "sns-agent";
  P 5418 6 "mcntp";
  P 5418 17 "mcntp";
  P 5419 6 "dj-ice";
  P 5419 17 "dj-ice";
  P 5420 6 "cylink-c";
  P 5420 17 "cylink-c";
  P 5421 6 "netsupport2";
  P 5421 17 "netsupport2";
  P 5422 6 "salient-mux";
  P 5422 17 "salient-mux";
  P 5423 6 "virtualuser";
  P 5423 17 "virtualuser";
  P 5424 6 "beyond-remote";
  P 5424 17 "beyond-remote";
  P 5425 6 "br-channel";
  P 5425 17 "br-channel";
  P 5426 6 "devbasic";
  P 5426 17 "devbasic";
  P 5427 6 "sco-peer-tta";
  P 5427 17 "sco-peer-tta";
  P 5428 6 "telaconsole";
  P 5428 17 "omid";
  P 5429 6 "base";
  P 5429 17 "base";
  P 5430 6 "radec-corp";
  P 5430 17 "radec-corp";
  P 5431 6 "park-agent";
  P 5431 17 "park-agent";
  P 5432 6 "postgresql";
  P 5432 17 "postgresql";
  P 5433 6 "pyrrho";
  P 5433 17 "pyrrho";
  P 5434 6 "sgi-arrayd";
  P 5434 17 "sgi-arrayd";
  P 5435 6 "sceanics";
  P 5435 17 "sceanics";
  P 5436 6 "pmip6-cntl";
  P 5436 17 "pmip6-cntl";
  P 5437 6 "pmip6-data";
  P 5437 17 "pmip6-data";
  P 5443 6 "spss";
  P 5443 17 "spss";
  P 5445 6 "smbdirect";
  P 5450 6 "tiepie";
  P 5453 6 "surebox";
  P 5453 17 "surebox";
  P 5454 6 "apc-5454";
  P 5454 17 "apc-5454";
  P 5455 6 "apc-5455";
  P 5455 17 "apc-5455";
  P 5456 6 "apc-5456";
  P 5456 17 "apc-5456";
  P 5461 6 "silkmeter";
  P 5461 17 "silkmeter";
  P 5462 6 "ttl-publisher";
  P 5462 17 "ttl-publisher";
  P 5463 6 "ttlpriceproxy";
  P 5463 17 "ttlpriceproxy";
  P 5464 6 "quailnet";
  P 5464 17 "quailnet";
  P 5465 6 "netops-broker";
  P 5465 17 "netops-broker";
  P 5470 6 "apsolab-col";
  P 5471 6 "apsolab-cols";
  P 5472 6 "apsolab-tag";
  P 5473 6 "apsolab-tags";
  P 5474 6 "apsolab-rpc";
  P 5475 6 "apsolab-data";
  P 5490 6 "connect-proxy";
  P 5500 6 "hotline";
  P 5500 17 "securid";
  P 5501 6 "fcp-addr-srvr2";
  P 5501 17 "fcp-addr-srvr2";
  P 5502 6 "fcp-srvr-inst1";
  P 5502 17 "fcp-srvr-inst1";
  P 5503 6 "fcp-srvr-inst2";
  P 5503 17 "fcp-srvr-inst2";
  P 5504 6 "fcp-cics-gw1";
  P 5504 17 "fcp-cics-gw1";
  P 5505 6 "checkoutdb";
  P 5505 17 "checkoutdb";
  P 5506 6 "amc";
  P 5506 17 "amc";
  P 5507 6 "psl-management";
  P 5510 6 "secureidprop";
  P 5520 6 "sdlog";
  P 5530 6 "sdserv";
  P 5540 6 "sdreport";
  P 5540 17 "sdxauthd";
  P 5550 6 "sdadmind";
  P 5553 6 "sgi-eventmond";
  P 5553 17 "sgi-eventmond";
  P 5554 6 "sgi-esphttp";
  P 5554 17 "sgi-esphttp";
  P 5555 6 "freeciv";
  P 5555 17 "rplay";
  P 5556 6 "freeciv";
  P 5556 17 "freeciv";
  P 5557 6 "farenet";
  P 5560 6 "isqlplus";
  P 5565 6 "hpe-dp-bura";
  P 5566 6 "westec-connect";
  P 5567 6 "m-oap";
  P 5567 17 "m-oap";
  P 5568 6 "sdt";
  P 5568 17 "sdt";
  P 5569 6 "rdmnet-ctrl";
  P 5573 6 "sdmmp";
  P 5573 17 "sdmmp";
  P 5574 6 "lsi-bobcat";
  P 5575 6 "ora-oap";
  P 5579 6 "fdtracks";
  P 5580 6 "tmosms0";
  P 5580 17 "tmosms0";
  P 5581 6 "tmosms1";
  P 5581 17 "tmosms1";
  P 5582 6 "fac-restore";
  P 5582 17 "fac-restore";
  P 5583 6 "tmo-icon-sync";
  P 5583 17 "tmo-icon-sync";
  P 5584 6 "bis-web";
  P 5584 17 "bis-web";
  P 5585 6 "bis-sync";
  P 5585 17 "bis-sync";
  P 5586 6 "att-mt-sms";
  P 5597 6 "ininmessaging";
  P 5597 17 "ininmessaging";
  P 5598 6 "mctfeed";
  P 5598 17 "mctfeed";
  P 5599 6 "esinstall";
  P 5599 17 "esinstall";
  P 5600 6 "esmmanager";
  P 5600 17 "esmmanager"].
Definition services_61 : list service := [
  P 5601 6 "esmagent";
  P 5601 17 "esmagent";
  P 5602 6 "a1-msc";
  P 5602 17 "a1-msc";
  P 5603 6 "a1-bs";
  P 5603 17 "a1-bs";
  P 5604 6 "a3-sdunode";
  P 5604 17 "a3-sdunode";
  P 5605 6 "a4-sdunode";
  P 5605 17 "a4-sdunode";
  P 5618 6 "efr";
  P 5627 6 "ninaf";
  P 5627 17 "ninaf";
  P 5628 6 "htrust";
  P 5628 17 "htrust";
  P 5629 6 "symantec-sfdb";
  P 5629 17 "symantec-sfdb";
  P 5630 6 "precise-comm";
  P 5630 17 "precise-comm";
  P 5631 6 "pcanywheredata";
  P 5631 17 "pcanywheredata";
  P 5632 6 "pcanywherestat";
  P 5632 17 "pcanywherestat";
  P 5633 6 "beorl";
  P 5633 17 "beorl";
  P 5634 6 "xprtld";
  P 5634 17 "xprtld";
  P 5635 6 "sfmsso";
  P 5636 6 "sfm-db-server";
  P 5637 6 "cssc";
  P 5638 6 "flcrs";
  P 5639 6 "ics";
  P 5646 6 "vfmobile";
  P 5666 6 "nrpe";
  P 5670 6 "filemq";
  P 5671 6 "amqps";
  P 5671 17 "amqps";
  P 5672 132 "amqp";
  P 5672 6 "amqp";
  P 5672 17 "amqp";
  P 5673 6 "jms";
  P 5673 17 "jms";
  P 5674 6 "hyperscsi-port";
  P 5674 17 "hyperscsi-port";
  P 5675 132 "v5ua";
  P 5675 6 "v5ua";
  P 5675 17 "v5ua";
  P 5676 6 "raadmin";
  P 5676 17 "raadmin";
  P 5677 6 "questdb2-lnchr";
  P 5677 17 "questdb2-lnchr";
  P 5678 6 "rrac";
  P 5678 17 "rrac";
  P 5679 6 "activesync";
  P 5679 17 "dccm";
  P 5680 6 "canna";
  P 5680 17 "auriga-router";
  P 5681 6 "ncxcp";
  P 5681 17 "ncxcp";
  P 5682 6 "brightcore";
  P 5682 17 "brightcore";
  P 5683 6 "coap";
  P 5683 17 "coap";
  P 5684 6 "coaps";
  P 5684 17 "coaps";
  P 5687 6 "gog-multiplayer";
  P 5688 6 "ggz";
  P 5688 17 "ggz";
  P 5689 6 "qmvideo";
  P 5689 17 "qmvideo";
  P 5693 6 "rbsystem";
  P 5696 6 "kmip";
  P 5700 6 "supportassist";
  P 5705 6 "storageos";
  P 5713 6 "proshareaudio";
  P 5713 17 "proshareaudio";
  P 5714 6 "prosharevideo";
  P 5714 17 "prosharevideo";
  P 5715 6 "prosharedata";
  P 5715 17 "prosharedata";
  P 5716 6 "prosharerequest";
  P 5716 17 "prosharerequest";
  P 5717 6 "prosharenotify";
  P 5717 17 "prosharenotify";
  P 5718 6 "dpm";
  P 5718 17 "dpm";
  P 5719 6 "dpm-agent";
  P 5719 17 "dpm-agent";
  P 5720 6 "ms-licensing";
  P 5720 17 "ms-licensing";
  P 5721 6 "dtpt";
  P 5721 17 "dtpt";
  P 5722 6 "msdfsr";
  P 5722 17 "msdfsr";
  P 5723 6 "omhs";
  P 5723 17 "omhs";
  P 5724 6 "omsdk";
  P 5724 17 "omsdk";
  P 5725 6 "ms-ilm";
  P 5726 6 "ms-ilm-sts";
  P 5727 6 "asgenf";
  P 5728 6 "io-dist-data";
  P 5728 17 "io-dist-group";
  P 5729 6 "openmail";
  P 5729 17 "openmail";
  P 5730 6 "unieng";
  P 5730 17 "unieng";
  P 5741 6 "ida-discover1";
  P 5741 17 "ida-discover1";
  P 5742 6 "ida-discover2";
  P 5742 17 "ida-discover2";
  P 5743 6 "watchdoc-pod";
  P 5743 17 "watchdoc-pod";
  P 5744 6 "watchdoc";
  P 5744 17 "watchdoc";
  P 5745 6 "fcopy-server";
  P 5745 17 "fcopy-server";
  P 5746 6 "fcopys-server";
  P 5746 17 "fcopys-server";
  P 5747 6 "tunatic";
  P 5747 17 "tunatic";
  P 5748 6 "tunalyzer";
  P 5748 17 "tunalyzer";
  P 5750 6 "rscd";
  P 5750 17 "rscd";
  P 5755 6 "openmailg";
  P 5755 17 "openmailg";
  P 5757 6 "x500ms";
  P 5757 17 "x500ms";
  P 5766 6 "openmailns";
  P 5766 17 "openmailns";
  P 5767 6 "s-openmail";
  P 5767 17 "s-openmail";
  P 5768 6 "openmailpxy";
  P 5768 17 "openmailpxy";
  P 5769 6 "spramsca";
  P 5769 17 "spramsca";
  P 5770 6 "spramsd";
  P 5770 17 "spramsd";
  P 5771 6 "netagent";
  P 5771 17 "netagent";
  P 5777 6 "dali-port";
  P 5777 17 "dali-port";
  P 5780 6 "vts-rpc";
  P 5781 6 "3par-evts";
  P 5781 17 "3par-evts";
  P 5782 6 "3par-mgmt";
  P 5782 17 "3par-mgmt";
  P 5783 6 "3par-mgmt-ssl";
  P 5783 17 "3par-mgmt-ssl"].
Definition services_62 : list service := [
  P 5784 6 "ibar";
  P 5784 17 "ibar";
  P 5785 6 "3par-rcopy";
  P 5785 17 "3par-rcopy";
  P 5786 6 "cisco-redu";
  P 5786 17 "cisco-redu";
  P 5787 6 "waascluster";
  P 5793 6 "xtreamx";
  P 5793 17 "xtreamx";
  P 5794 6 "spdp";
  P 5794 17 "spdp";
  P 5800 6 "vnc-http";
  P 5801 6 "vnc-http-1";
  P 5802 6 "vnc-http-2";
  P 5803 6 "vnc-http-3";
  P 5813 6 "icmpd";
  P 5813 17 "icmpd";
  P 5814 6 "spt-automation";
  P 5814 17 "spt-automation";
  P 5841 6 "shiprush-d-ch";
  P 5842 6 "reversion";
  P 5859 6 "wherehoo";
  P 5859 17 "wherehoo";
  P 5863 6 "ppsuitemsg";
  P 5863 17 "ppsuitemsg";
  P 5868 6 "diameters";
  P 5883 6 "jute";
  P 5900 6 "vnc";
  P 5900 17 "rfb";
  P 5901 6 "vnc-1";
  P 5902 6 "vnc-2";
  P 5903 6 "vnc-3";
  P 5910 6 "cm";
  P 5910 17 "cm";
  P 5911 6 "cpdlc";
  P 5911 17 "cpdlc";
  P 5912 6 "fis";
  P 5912 17 "fis";
  P 5913 6 "ads-c";
  P 5913 17 "ads-c";
  P 5938 6 "teamviewer";
  P 5963 6 "indy";
  P 5963 17 "indy";
  P 5968 6 "mppolicy-v5";
  P 5968 17 "mppolicy-v5";
  P 5969 6 "mppolicy-mgr";
  P 5969 17 "mppolicy-mgr";
  P 5977 6 "ncd-pref-tcp";
  P 5978 6 "ncd-diag-tcp";
  P 5979 6 "ncd-conf-tcp";
  P 5984 6 "couchdb";
  P 5984 17 "couchdb";
  P 5985 6 "wsman";
  P 5985 17 "wsman";
  P 5986 6 "wsmans";
  P 5986 17 "wsmans";
  P 5987 6 "wbem-rmi";
  P 5987 17 "wbem-rmi";
  P 5988 6 "wbem-http";
  P 5988 17 "wbem-http";
  P 5989 6 "wbem-https";
  P 5989 17 "wbem-https";
  P 5990 6 "wbem-exp-https";
  P 5990 17 "wbem-exp-https";
  P 5991 6 "nuxsl";
  P 5991 17 "nuxsl";
  P 5992 6 "consul-insight";
  P 5992 17 "consul-insight";
  P 5993 6 "cim-rs";
  P 5997 6 "ncd-pref";
  P 5998 6 "ncd-diag";
  P 5999 6 "ncd-conf";
  P 5999 17 "cvsup";
  P 6000 6 "X11";
  P 6000 17 "X11";
  P 6001 6 "X11:1";
  P 6001 17 "X11:1";
  P 6002 6 "X11:2";
  P 6002 17 "X11:2";
  P 6003 6 "X11:3";
  P 6003 17 "X11:3";
  P 6004 6 "X11:4";
  P 6004 17 "X11:4";
  P 6005 6 "X11:5";
  P 6005 17 "X11:5";
  P 6006 6 "X11:6";
  P 6006 17 "X11:6";
  P 6007 6 "X11:7";
  P 6007 17 "X11:7";
  P 6008 6 "X11:8";
  P 6008 17 "X11:8";
  P 6009 6 "X11:9";
  P 6009 17 "X11:9";
  P 6010 6 "x11";
  P 6010 17 "x11";
  P 6011 6 "x11";
  P 6011 17 "x11";
  P 6012 6 "x11";
  P 6012 17 "x11";
  P 6013 6 "x11";
  P 6013 17 "x11";
  P 6014 6 "x11";
  P 6014 17 "x11";
  P 6015 6 "x11";
  P 6015 17 "x11";
  P 6016 6 "x11";
  P 6016 17 "x11";
  P 6017 6 "xmail-ctrl";
  P 6017 17 "x11";
  P 6018 6 "x11";
  P 6018 17 "x11";
  P 6019 6 "x11";
  P 6019 17 "x11";
  P 6020 6 "x11";
  P 6020 17 "x11";
  P 6021 6 "x11";
  P 6021 17 "x11";
  P 6022 6 "x11";
  P 6022 17 "x11";
  P 6023 6 "x11";
  P 6023 17 "x11";
  P 6024 6 "x11";
  P 6024 17 "x11";
  P 6025 6 "x11";
  P 6025 17 "x11";
  P 6026 6 "x11";
  P 6026 17 "x11";
  P 6027 6 "x11";
  P 6027 17 "x11";
  P 6028 6 "x11";
  P 6028 17 "x11";
  P 6029 6 "x11";
  P 6029 17 "x11";
  P 6030 6 "x11";
  P 6030 17 "x11";
  P 6031 6 "x11";
  P 6031 17 "x11";
  P 6032 6 "x11";
  P 6032 17 "x11";
  P 6033 6 "x11";
  P 6033 17 "x11";
  P 6034 6 "x11";
  P 6034 17 "x11";
  P 6035 6 "x11";
  P 6035 17 "x11";
  P 6036 6 "x11";
  P 6036 17 "x11";
  P 6037 6 "x11";
  P 6037 17 "x11";
  P 6038 6 "x11"].
Definition services_63 : list service := [
  P 6038 17 "x11";
  P 6039 6 "x11";
  P 6039 17 "x11";
  P 6040 6 "x11";
  P 6040 17 "x11";
  P 6041 6 "x11";
  P 6041 17 "x11";
  P 6042 6 "x11";
  P 6042 17 "x11";
  P 6043 6 "x11";
  P 6043 17 "x11";
  P 6044 6 "x11";
  P 6044 17 "x11";
  P 6045 6 "x11";
  P 6045 17 "x11";
  P 6046 6 "x11";
  P 6046 17 "x11";
  P 6047 6 "x11";
  P 6047 17 "x11";
  P 6048 6 "x11";
  P 6048 17 "x11";
  P 6049 6 "x11";
  P 6049 17 "x11";
  P 6050 6 "arcserve";
  P 6050 17 "x11";
  P 6051 6 "x11";
  P 6051 17 "x11";
  P 6052 6 "x11";
  P 6052 17 "x11";
  P 6053 6 "x11";
  P 6053 17 "x11";
  P 6054 6 "x11";
  P 6054 17 "x11";
  P 6055 6 "x11";
  P 6055 17 "x11";
  P 6056 6 "x11";
  P 6056 17 "x11";
  P 6057 6 "x11";
  P 6057 17 "x11";
  P 6058 6 "x11";
  P 6058 17 "x11";
  P 6059 6 "X11:59";
  P 6059 17 "X11:59";
  P 6060 6 "x11";
  P 6060 17 "x11";
  P 6061 6 "x11";
  P 6061 17 "x11";
  P 6062 6 "x11";
  P 6062 17 "x11";
  P 6063 6 "x11";
  P 6063 17 "x11";
  P 6064 6 "ndl-ahp-svc";
  P 6064 17 "ndl-ahp-svc";
  P 6065 6 "winpharaoh";
  P 6065 17 "winpharaoh";
  P 6066 6 "ewctsp";
  P 6066 17 "ewctsp";
  P 6068 6 "gsmp";
  P 6068 17 "gsmp";
  P 6069 6 "trip";
  P 6069 17 "trip";
  P 6070 6 "messageasap";
  P 6070 17 "messageasap";
  P 6071 6 "ssdtp";
  P 6071 17 "ssdtp";
  P 6072 6 "diagnose-proc";
  P 6072 17 "diagnose-proc";
  P 6073 6 "directplay8";
  P 6073 17 "directplay8";
  P 6074 6 "max";
  P 6074 17 "max";
  P 6075 6 "dpm-acm";
  P 6076 6 "msft-dpm-cert";
  P 6077 6 "iconstructsrv";
  P 6080 6 "gue";
  P 6081 6 "geneve";
  P 6082 6 "p25cai";
  P 6083 6 "miami-bcast";
  P 6084 6 "p2p-sip";
  P 6085 6 "konspire2b";
  P 6085 17 "konspire2b";
  P 6086 6 "pdtp";
  P 6086 17 "pdtp";
  P 6087 6 "ldss";
  P 6087 17 "ldss";
  P 6088 6 "doglms";
  P 6099 6 "raxa-mgmt";
  P 6100 6 "synchronet-db";
  P 6100 17 "synchronet-db";
  P 6101 6 "backupexec";
  P 6101 17 "synchronet-rtc";
  P 6102 6 "synchronet-upd";
  P 6102 17 "synchronet-upd";
  P 6103 6 "RETS-or-BackupExec";
  P 6103 17 "rets";
  P 6104 6 "dbdb";
  P 6104 17 "dbdb";
  P 6105 6 "isdninfo";
  P 6105 17 "primaserver";
  P 6106 6 "isdninfo";
  P 6106 17 "mpsserver";
  P 6107 6 "etc-control";
  P 6107 17 "etc-control";
  P 6108 6 "sercomm-scadmin";
  P 6108 17 "sercomm-scadmin";
  P 6109 6 "globecast-id";
  P 6109 17 "globecast-id";
  P 6110 6 "softcm";
  P 6110 17 "softcm";
  P 6111 6 "spc";
  P 6111 17 "spc";
  P 6112 6 "dtspc";
  P 6112 17 "dtspcd";
  P 6113 6 "dayliteserver";
  P 6114 6 "wrspice";
  P 6115 6 "xic";
  P 6116 6 "xtlserv";
  P 6117 6 "daylitetouch";
  P 6118 6 "tipc";
  P 6121 6 "spdy";
  P 6122 6 "bex-webadmin";
  P 6122 17 "bex-webadmin";
  P 6123 6 "backup-express";
  P 6123 17 "backup-express";
  P 6124 6 "pnbs";
  P 6124 17 "pnbs";
  P 6130 6 "damewaremobgtwy";
  P 6133 6 "nbt-wol";
  P 6133 17 "nbt-wol";
  P 6140 6 "pulsonixnls";
  P 6140 17 "pulsonixnls";
  P 6141 6 "meta-corp";
  P 6141 17 "meta-corp";
  P 6142 6 "aspentec-lm";
  P 6142 17 "aspentec-lm";
  P 6143 6 "watershed-lm";
  P 6143 17 "watershed-lm";
  P 6144 6 "statsci1-lm";
  P 6144 17 "statsci1-lm";
  P 6145 6 "statsci2-lm";
  P 6145 17 "statsci2-lm";
  P 6146 6 "lonewolf-lm";
  P 6146 17 "lonewolf-lm";
  P 6147 6 "montage-lm";
  P 6147 17 "montage-lm";
  P 6148 6 "ricardo-lm";
  P 6148 17 "ricardo-lm";
  P 6149 6 "tal-pod";
  P 6149 17 "tal-pod";
  P 6159 6 "efb-aci"].
Definition service_chunks_3 : list (list service) := [services_43; services_44; services_45; services_46; services_47; services_48; services_49; services_50; services_51; services_52; services_53; services_54; services_55; services_56; services_57; services_58; services_59; services_60; services_61; services_62; services_63].
