(* ===== verification/ServiceTable4.v ===== *)
(** The registered services of src/pkg/util/service/service.go, lines 9459 to 12066: a port, a
    protocol number and a name. *)
From S2P Require Import Prelude.
From S2P Require Import ServiceTypes.
Local Open Scope Z_scope.

Definition services_64 : list service := [
  P 6160 6 "ecmp";
  P 6161 6 "patrol-ism";
  P 6161 17 "patrol-ism";
  P 6162 6 "patrol-coll";
  P 6162 17 "patrol-coll";
  P 6163 6 "pscribe";
  P 6163 17 "pscribe";
  P 6200 6 "lm-x";
  P 6200 17 "lm-x";
  P 6201 6 "thermo-calc";
  P 6209 6 "qmtps";
  P 6222 6 "radmind";
  P 6222 17 "radmind";
  P 6241 6 "jeol-nsdtp-1";
  P 6241 17 "jeol-nsddp-1";
  P 6242 6 "jeol-nsdtp-2";
  P 6242 17 "jeol-nsddp-2";
  P 6243 6 "jeol-nsdtp-3";
  P 6243 17 "jeol-nsddp-3";
  P 6244 6 "jeol-nsdtp-4";
  P 6244 17 "jeol-nsddp-4";
  P 6251 6 "tl1-raw-ssl";
  P 6251 17 "tl1-raw-ssl";
  P 6252 6 "tl1-ssh";
  P 6252 17 "tl1-ssh";
  P 6253 6 "crip";
  P 6253 17 "crip";
  P 6267 6 "gld";
  P 6268 6 "grid";
  P 6268 17 "grid";
  P 6269 6 "grid-alt";
  P 6269 17 "grid-alt";
  P 6300 6 "bmc-grx";
  P 6300 17 "bmc-grx";
  P 6301 6 "bmc_ctd_ldap";
  P 6301 17 "bmc_ctd_ldap";
  P 6306 6 "ufmp";
  P 6306 17 "ufmp";
  P 6315 6 "scup";
  P 6315 17 "scup-disc";
  P 6316 6 "abb-escp";
  P 6316 17 "abb-escp";
  P 6317 6 "nav-data-cmd";
  P 6320 6 "repsvc";
  P 6320 17 "repsvc";
  P 6321 6 "emp-server1";
  P 6321 17 "emp-server1";
  P 6322 6 "emp-server2";
  P 6322 17 "emp-server2";
  P 6324 6 "hrd-ncs";
  P 6325 6 "dt-mgmtsvc";
  P 6326 6 "dt-vra";
  P 6343 6 "sflow";
  P 6343 17 "sflow";
  P 6344 6 "streletz";
  P 6346 6 "gnutella";
  P 6346 17 "gnutella";
  P 6347 6 "gnutella2";
  P 6347 17 "gnutella2";
  P 6350 6 "adap";
  P 6350 17 "adap";
  P 6355 6 "pmcs";
  P 6355 17 "pmcs";
  P 6360 6 "metaedit-mu";
  P 6360 17 "metaedit-mu";
  P 6363 6 "ndn";
  P 6370 6 "metaedit-se";
  P 6370 17 "metaedit-se";
  P 6379 6 "redis";
  P 6382 6 "metatude-mds";
  P 6382 17 "metatude-mds";
  P 6389 6 "clariion-evr01";
  P 6389 17 "clariion-evr01";
  P 6390 6 "metaedit-ws";
  P 6390 17 "metaedit-ws";
  P 6400 6 "crystalreports";
  P 6400 17 "boe-cms";
  P 6401 6 "crystalenterprise";
  P 6401 17 "boe-was";
  P 6402 6 "boe-eventsrv";
  P 6402 17 "boe-eventsrv";
  P 6403 6 "boe-cachesvr";
  P 6403 17 "boe-cachesvr";
  P 6404 6 "boe-filesvr";
  P 6404 17 "boe-filesvr";
  P 6405 6 "boe-pagesvr";
  P 6405 17 "boe-pagesvr";
  P 6406 6 "boe-processsvr";
  P 6406 17 "boe-processsvr";
  P 6407 6 "boe-resssvr1";
  P 6407 17 "boe-resssvr1";
  P 6408 6 "boe-resssvr2";
  P 6408 17 "boe-resssvr2";
  P 6409 6 "boe-resssvr3";
  P 6409 17 "boe-resssvr3";
  P 6410 6 "boe-resssvr4";
  P 6410 17 "boe-resssvr4";
  P 6417 6 "faxcomservice";
  P 6417 17 "faxcomservice";
  P 6418 6 "syserverremote";
  P 6419 6 "svdrp";
  P 6420 6 "nim-vdrshell";
  P 6420 17 "nim-vdrshell";
  P 6421 6 "nim-wan";
  P 6421 17 "nim-wan";
  P 6432 6 "pgbouncer";
  P 6442 6 "tarp";
  P 6443 6 "sun-sr-https";
  P 6443 17 "sun-sr-https";
  P 6444 6 "sge_qmaster";
  P 6444 17 "sge_qmaster";
  P 6445 6 "sge_execd";
  P 6445 17 "sge_execd";
  P 6446 6 "mysql-proxy";
  P 6446 17 "mysql-proxy";
  P 6455 6 "skip-cert-recv";
  P 6456 6 "skip-cert-send";
  P 6456 17 "skip-cert-send";
  P 6464 6 "ieee11073-20701";
  P 6471 6 "lvision-lm";
  P 6471 17 "lvision-lm";
  P 6480 6 "sun-sr-http";
  P 6480 17 "sun-sr-http";
  P 6481 6 "servicetags";
  P 6481 17 "servicetags";
  P 6482 6 "ldoms-mgmt";
  P 6482 17 "ldoms-mgmt";
  P 6483 6 "SunVTS-RMI";
  P 6483 17 "SunVTS-RMI";
  P 6484 6 "sun-sr-jms";
  P 6484 17 "sun-sr-jms";
  P 6485 6 "sun-sr-iiop";
  P 6485 17 "sun-sr-iiop";
  P 6486 6 "sun-sr-iiops";
  P 6486 17 "sun-sr-iiops";
  P 6487 6 "sun-sr-iiop-aut";
  P 6487 17 "sun-sr-iiop-aut";
  P 6488 6 "sun-sr-jmx";
  P 6488 17 "sun-sr-jmx";
  P 6489 6 "sun-sr-admin";
  P 6489 17 "sun-sr-admin";
  P 6500 6 "boks";
  P 6500 17 "boks";
  P 6501 6 "boks_servc";
  P 6501 17 "boks_servc";
  P 6502 6 "netop-rc";
  P 6502 17 "netop-rc";
  P 6503 6 "boks_clntd";
  P 6503 17 "boks_clntd";
  P 6505 6 "badm_priv"].
Definition services_65 : list service := [
  P 6505 17 "badm_priv";
  P 6506 6 "badm_pub";
  P 6506 17 "badm_pub";
  P 6507 6 "bdir_priv";
  P 6507 17 "bdir_priv";
  P 6508 6 "bdir_pub";
  P 6508 17 "bdir_pub";
  P 6509 6 "mgcs-mfp-port";
  P 6509 17 "mgcs-mfp-port";
  P 6510 6 "mcer-port";
  P 6510 17 "mcer-port";
  P 6511 6 "dccp-udp";
  P 6513 6 "netconf-tls";
  P 6514 6 "syslog-tls";
  P 6514 17 "syslog-tls";
  P 6515 6 "elipse-rec";
  P 6515 17 "elipse-rec";
  P 6543 6 "mythtv";
  P 6543 17 "lds-distrib";
  P 6544 6 "mythtv";
  P 6544 17 "lds-dump";
  P 6547 6 "powerchuteplus";
  P 6547 17 "apc-6547";
  P 6548 6 "powerchuteplus";
  P 6548 17 "apc-6548";
  P 6549 6 "apc-6549";
  P 6549 17 "powerchuteplus";
  P 6550 6 "fg-sysupdate";
  P 6550 17 "fg-sysupdate";
  P 6551 6 "sum";
  P 6551 17 "sum";
  P 6558 6 "xdsxdm";
  P 6558 17 "xdsxdm";
  P 6566 6 "sane-port";
  P 6566 17 "sane-port";
  P 6567 6 "esp";
  P 6567 17 "esp";
  P 6568 6 "canit_store";
  P 6568 17 "rp-reputation";
  P 6579 6 "affiliate";
  P 6579 17 "affiliate";
  P 6580 6 "parsec-master";
  P 6580 17 "parsec-master";
  P 6581 6 "parsec-peer";
  P 6581 17 "parsec-peer";
  P 6582 6 "parsec-game";
  P 6582 17 "parsec-game";
  P 6583 6 "joaJewelSuite";
  P 6583 17 "joaJewelSuite";
  P 6588 6 "analogx";
  P 6600 6 "mshvlm";
  P 6601 6 "mstmg-sstp";
  P 6602 6 "wsscomfrmwk";
  P 6619 6 "odette-ftps";
  P 6619 17 "odette-ftps";
  P 6620 6 "kftp-data";
  P 6620 17 "kftp-data";
  P 6621 6 "kftp";
  P 6621 17 "kftp";
  P 6622 6 "mcftp";
  P 6622 17 "mcftp";
  P 6623 6 "ktelnet";
  P 6623 17 "ktelnet";
  P 6624 6 "datascaler-db";
  P 6625 6 "datascaler-ctl";
  P 6626 6 "wago-service";
  P 6626 17 "wago-service";
  P 6627 6 "nexgen";
  P 6627 17 "nexgen";
  P 6628 6 "afesc-mc";
  P 6628 17 "afesc-mc";
  P 6629 6 "nexgen-aux";
  P 6632 6 "mxodbc-connect";
  P 6633 6 "cisco-vpath-tun";
  P 6634 6 "mpls-pm";
  P 6635 6 "mpls-udp";
  P 6636 6 "mpls-udp-dtls";
  P 6640 6 "ovsdb";
  P 6653 6 "openflow";
  P 6655 6 "pcs-sf-ui-man";
  P 6656 6 "emgmsg";
  P 6657 6 "palcom-disc";
  P 6657 17 "palcom-disc";
  P 6662 6 "radmind";
  P 6665 6 "irc";
  P 6665 17 "ircu";
  P 6666 6 "irc";
  P 6666 17 "ircu";
  P 6667 6 "irc";
  P 6667 17 "ircu";
  P 6668 6 "irc";
  P 6668 17 "ircu";
  P 6669 6 "irc";
  P 6669 17 "ircu";
  P 6670 6 "irc";
  P 6670 17 "vocaltec-gold";
  P 6671 6 "p4p-portal";
  P 6671 17 "p4p-portal";
  P 6672 6 "vision_server";
  P 6672 17 "vision_server";
  P 6673 6 "vision_elmd";
  P 6673 17 "vision_elmd";
  P 6678 6 "vfbp";
  P 6679 6 "osaut";
  P 6687 6 "clever-ctrace";
  P 6688 6 "clever-tcpip";
  P 6689 6 "tsa";
  P 6689 17 "tsa";
  P 6690 6 "cleverdetect";
  P 6696 6 "babel";
  P 6697 6 "ircs-u";
  P 6697 17 "babel";
  P 6699 6 "napster";
  P 6700 6 "carracho";
  P 6701 6 "carracho";
  P 6701 17 "kti-icad-srvr";
  P 6702 6 "e-design-net";
  P 6702 17 "e-design-net";
  P 6703 6 "e-design-web";
  P 6703 17 "e-design-web";
  P 6704 132 "frc-hp";
  P 6705 132 "frc-mp";
  P 6706 132 "frc-lp";
  P 6714 6 "ibprotocol";
  P 6714 17 "ibprotocol";
  P 6715 6 "fibotrader-com";
  P 6715 17 "fibotrader-com";
  P 6716 6 "princity-agent";
  P 6767 6 "bmc-perf-agent";
  P 6767 17 "bmc-perf-agent";
  P 6768 6 "bmc-perf-mgrd";
  P 6768 17 "bmc-perf-mgrd";
  P 6769 6 "adi-gxp-srvprt";
  P 6769 17 "adi-gxp-srvprt";
  P 6770 6 "plysrv-http";
  P 6770 17 "plysrv-http";
  P 6771 6 "plysrv-https";
  P 6771 17 "plysrv-https";
  P 6777 6 "ntz-tracker";
  P 6778 6 "ntz-p2p-storage";
  P 6784 6 "bfd-lag";
  P 6785 6 "dgpf-exchg";
  P 6785 17 "dgpf-exchg";
  P 6786 6 "smc-jmx";
  P 6786 17 "smc-jmx";
  P 6787 6 "smc-admin";
  P 6787 17 "smc-admin";
  P 6788 6 "smc-http";
  P 6788 17 "smc-http";
  P 6789 6 "ibm-db2-admin"].
Definition services_66 : list service := [
  P 6789 17 "smc-https";
  P 6790 6 "hnmp";
  P 6790 17 "hnmp";
  P 6791 6 "hnm";
  P 6791 17 "hnm";
  P 6801 6 "acnet";
  P 6801 17 "acnet";
  P 6817 6 "pentbox-sim";
  P 6831 6 "ambit-lm";
  P 6831 17 "ambit-lm";
  P 6841 6 "netmo-default";
  P 6841 17 "netmo-default";
  P 6842 6 "netmo-http";
  P 6842 17 "netmo-http";
  P 6850 6 "iccrushmore";
  P 6850 17 "iccrushmore";
  P 6868 6 "acctopus-cc";
  P 6868 17 "acctopus-st";
  P 6881 6 "bittorrent-tracker";
  P 6888 6 "muse";
  P 6888 17 "muse";
  P 6900 6 "rtimeviewer";
  P 6901 6 "jetstream";
  P 6935 6 "ethoscan";
  P 6936 6 "xsmsvc";
  P 6936 17 "xsmsvc";
  P 6946 6 "bioserver";
  P 6946 17 "bioserver";
  P 6951 6 "otlp";
  P 6951 17 "otlp";
  P 6961 6 "jmact3";
  P 6961 17 "jmact3";
  P 6962 6 "jmevt2";
  P 6962 17 "jmevt2";
  P 6963 6 "swismgr1";
  P 6963 17 "swismgr1";
  P 6964 6 "swismgr2";
  P 6964 17 "swismgr2";
  P 6965 6 "swistrap";
  P 6965 17 "swistrap";
  P 6966 6 "swispol";
  P 6966 17 "swispol";
  P 6969 6 "acmsoda";
  P 6969 17 "acmsoda";
  P 6970 6 "conductor";
  P 6997 6 "MobilitySrv";
  P 6997 17 "MobilitySrv";
  P 6998 6 "iatp-highpri";
  P 6998 17 "iatp-highpri";
  P 6999 6 "iatp-normalpri";
  P 6999 17 "iatp-normalpri";
  P 7000 6 "afs3-fileserver";
  P 7000 17 "afs3-fileserver";
  P 7001 6 "afs3-callback";
  P 7001 17 "afs3-callback";
  P 7002 6 "afs3-prserver";
  P 7002 17 "afs3-prserver";
  P 7003 6 "afs3-vlserver";
  P 7003 17 "afs3-vlserver";
  P 7004 6 "afs3-kaserver";
  P 7004 17 "afs3-kaserver";
  P 7005 6 "afs3-volser";
  P 7005 17 "afs3-volser";
  P 7006 6 "afs3-errors";
  P 7006 17 "afs3-errors";
  P 7007 6 "afs3-bos";
  P 7007 17 "afs3-bos";
  P 7008 6 "afs3-update";
  P 7008 17 "afs3-update";
  P 7009 6 "afs3-rmtsys";
  P 7009 17 "afs3-rmtsys";
  P 7010 6 "ups-onlinet";
  P 7010 17 "ups-onlinet";
  P 7011 6 "talon-disc";
  P 7011 17 "talon-disc";
  P 7012 6 "talon-engine";
  P 7012 17 "talon-engine";
  P 7013 6 "microtalon-dis";
  P 7013 17 "microtalon-dis";
  P 7014 6 "microtalon-com";
  P 7014 17 "microtalon-com";
  P 7015 6 "talon-webserver";
  P 7015 17 "talon-webserver";
  P 7016 6 "spg";
  P 7017 6 "grasp";
  P 7018 6 "fisa-svc";
  P 7019 6 "doceri-ctl";
  P 7020 6 "dpserve";
  P 7020 17 "dpserve";
  P 7021 6 "dpserveadmin";
  P 7021 17 "dpserveadmin";
  P 7022 6 "ctdp";
  P 7022 17 "ctdp";
  P 7023 6 "ct2nmcs";
  P 7023 17 "ct2nmcs";
  P 7024 6 "vmsvc";
  P 7024 17 "vmsvc";
  P 7025 6 "vmsvc-2";
  P 7025 17 "vmsvc-2";
  P 7030 6 "op-probe";
  P 7030 17 "op-probe";
  P 7031 6 "iposplanet";
  P 7040 6 "quest-disc";
  P 7070 6 "realserver";
  P 7070 17 "arcp";
  P 7071 6 "iwg1";
  P 7071 17 "iwg1";
  P 7073 6 "martalk";
  P 7080 6 "empowerid";
  P 7080 17 "empowerid";
  P 7088 6 "zixi-transport";
  P 7095 6 "jdp-disc";
  P 7099 6 "lazy-ptop";
  P 7099 17 "lazy-ptop";
  P 7100 6 "font-service";
  P 7100 17 "font-service";
  P 7101 6 "elcn";
  P 7101 17 "elcn";
  P 7107 6 "aes-x170";
  P 7117 6 "rothaga";
  P 7121 6 "virprot-lm";
  P 7121 17 "virprot-lm";
  P 7128 6 "scenidm";
  P 7128 17 "scenidm";
  P 7129 6 "scenccs";
  P 7129 17 "scenccs";
  P 7161 6 "cabsm-comm";
  P 7161 17 "cabsm-comm";
  P 7162 6 "caistoragemgr";
  P 7162 17 "caistoragemgr";
  P 7163 6 "cacsambroker";
  P 7163 17 "cacsambroker";
  P 7164 6 "fsr";
  P 7164 17 "fsr";
  P 7165 6 "doc-server";
  P 7165 17 "doc-server";
  P 7166 6 "aruba-server";
  P 7166 17 "aruba-server";
  P 7167 6 "casrmagent";
  P 7168 6 "cnckadserver";
  P 7169 6 "ccag-pib";
  P 7169 17 "ccag-pib";
  P 7170 6 "nsrp";
  P 7170 17 "nsrp";
  P 7171 6 "drm-production";
  P 7171 17 "drm-production";
  P 7172 6 "metalbend";
  P 7173 6 "zsecure";
  P 7174 6 "clutild";
  P 7174 17 "clutild"].
Definition services_67 : list service := [
  P 7181 6 "janus-disc";
  P 7200 6 "fodms";
  P 7200 17 "fodms";
  P 7201 6 "dlip";
  P 7201 17 "dlip";
  P 7202 6 "pon-ictp";
  P 7215 6 "PS-Server";
  P 7216 6 "PS-Capture-Pro";
  P 7227 6 "ramp";
  P 7227 17 "ramp";
  P 7228 6 "citrixupp";
  P 7229 6 "citrixuppg";
  P 7235 6 "aspcoordination";
  P 7236 6 "display";
  P 7237 6 "pads";
  P 7244 6 "frc-hicp";
  P 7262 6 "cnap";
  P 7262 17 "cnap";
  P 7272 6 "watchme-7272";
  P 7272 17 "watchme-7272";
  P 7273 6 "openmanage";
  P 7273 17 "oma-rlp";
  P 7274 6 "oma-rlp-s";
  P 7274 17 "oma-rlp-s";
  P 7275 6 "oma-ulp";
  P 7275 17 "oma-ulp";
  P 7276 6 "oma-ilp";
  P 7276 17 "oma-ilp";
  P 7277 6 "oma-ilp-s";
  P 7277 17 "oma-ilp-s";
  P 7278 6 "oma-dcdocbs";
  P 7278 17 "oma-dcdocbs";
  P 7279 6 "ctxlic";
  P 7279 17 "ctxlic";
  P 7280 6 "itactionserver1";
  P 7280 17 "itactionserver1";
  P 7281 6 "itactionserver2";
  P 7281 17 "itactionserver2";
  P 7282 6 "mzca-action";
  P 7282 17 "mzca-alert";
  P 7283 6 "genstat";
  P 7300 6 "swx";
  P 7300 17 "swx";
  P 7301 6 "swx";
  P 7301 17 "swx";
  P 7302 6 "swx";
  P 7302 17 "swx";
  P 7303 6 "swx";
  P 7303 17 "swx";
  P 7304 6 "swx";
  P 7304 17 "swx";
  P 7305 6 "swx";
  P 7305 17 "swx";
  P 7306 6 "swx";
  P 7306 17 "swx";
  P 7307 6 "swx";
  P 7307 17 "swx";
  P 7308 6 "swx";
  P 7308 17 "swx";
  P 7309 6 "swx";
  P 7309 17 "swx";
  P 7310 6 "swx";
  P 7310 17 "swx";
  P 7311 6 "swx";
  P 7311 17 "swx";
  P 7312 6 "swx";
  P 7312 17 "swx";
  P 7313 6 "swx";
  P 7313 17 "swx";
  P 7314 6 "swx";
  P 7314 17 "swx";
  P 7315 6 "swx";
  P 7315 17 "swx";
  P 7316 6 "swx";
  P 7316 17 "swx";
  P 7317 6 "swx";
  P 7317 17 "swx";
  P 7318 6 "swx";
  P 7318 17 "swx";
  P 7319 6 "swx";
  P 7319 17 "swx";
  P 7320 6 "swx";
  P 7320 17 "swx";
  P 7321 6 "swx";
  P 7321 17 "swx";
  P 7322 6 "swx";
  P 7322 17 "swx";
  P 7323 6 "swx";
  P 7323 17 "swx";
  P 7324 6 "swx";
  P 7324 17 "swx";
  P 7325 6 "swx";
  P 7325 17 "swx";
  P 7326 6 "icb";
  P 7326 17 "swx";
  P 7327 6 "swx";
  P 7327 17 "swx";
  P 7328 6 "swx";
  P 7328 17 "swx";
  P 7329 6 "swx";
  P 7329 17 "swx";
  P 7330 6 "swx";
  P 7330 17 "swx";
  P 7331 6 "swx";
  P 7331 17 "swx";
  P 7332 6 "swx";
  P 7332 17 "swx";
  P 7333 6 "swx";
  P 7333 17 "swx";
  P 7334 6 "swx";
  P 7334 17 "swx";
  P 7335 6 "swx";
  P 7335 17 "swx";
  P 7336 6 "swx";
  P 7336 17 "swx";
  P 7337 6 "swx";
  P 7337 17 "swx";
  P 7338 6 "swx";
  P 7338 17 "swx";
  P 7339 6 "swx";
  P 7339 17 "swx";
  P 7340 6 "swx";
  P 7340 17 "swx";
  P 7341 6 "swx";
  P 7341 17 "swx";
  P 7342 6 "swx";
  P 7342 17 "swx";
  P 7343 6 "swx";
  P 7343 17 "swx";
  P 7344 6 "swx";
  P 7344 17 "swx";
  P 7345 6 "swx";
  P 7345 17 "swx";
  P 7346 6 "swx";
  P 7346 17 "swx";
  P 7347 6 "swx";
  P 7347 17 "swx";
  P 7348 6 "swx";
  P 7348 17 "swx";
  P 7349 6 "swx";
  P 7349 17 "swx";
  P 7350 6 "swx";
  P 7350 17 "swx";
  P 7351 6 "swx";
  P 7351 17 "swx";
  P 7352 6 "swx";
  P 7352 17 "swx";
  P 7353 6 "swx";
  P 7353 17 "swx";
  P 7354 6 "swx"].
Definition services_68 : list service := [
  P 7354 17 "swx";
  P 7355 6 "swx";
  P 7355 17 "swx";
  P 7356 6 "swx";
  P 7356 17 "swx";
  P 7357 6 "swx";
  P 7357 17 "swx";
  P 7358 6 "swx";
  P 7358 17 "swx";
  P 7359 6 "swx";
  P 7359 17 "swx";
  P 7365 6 "lcm-server";
  P 7365 17 "lcm-server";
  P 7391 6 "mindfilesys";
  P 7391 17 "mindfilesys";
  P 7392 6 "mrssrendezvous";
  P 7392 17 "mrssrendezvous";
  P 7393 6 "nfoldman";
  P 7393 17 "nfoldman";
  P 7394 6 "fse";
  P 7394 17 "fse";
  P 7395 6 "winqedit";
  P 7395 17 "winqedit";
  P 7397 6 "hexarc";
  P 7397 17 "hexarc";
  P 7400 6 "rtps-discovery";
  P 7400 17 "rtps-discovery";
  P 7401 6 "rtps-dd-ut";
  P 7401 17 "rtps-dd-ut";
  P 7402 6 "rtps-dd-mt";
  P 7402 17 "rtps-dd-mt";
  P 7410 6 "ionixnetmon";
  P 7410 17 "ionixnetmon";
  P 7411 6 "daqstream";
  P 7420 6 "ipluminary";
  P 7421 6 "mtportmon";
  P 7421 17 "mtportmon";
  P 7426 6 "pmdmgr";
  P 7426 17 "pmdmgr";
  P 7427 6 "oveadmgr";
  P 7427 17 "oveadmgr";
  P 7428 6 "ovladmgr";
  P 7428 17 "ovladmgr";
  P 7429 6 "opi-sock";
  P 7429 17 "opi-sock";
  P 7430 6 "xmpv7";
  P 7430 17 "xmpv7";
  P 7431 6 "pmd";
  P 7431 17 "pmd";
  P 7437 6 "faximum";
  P 7437 17 "faximum";
  P 7443 6 "oracleas-https";
  P 7443 17 "oracleas-https";
  P 7464 6 "pythonds";
  P 7471 6 "sttunnel";
  P 7473 6 "rise";
  P 7473 17 "rise";
  P 7474 6 "neo4j";
  P 7478 6 "openit";
  P 7491 6 "telops-lmd";
  P 7491 17 "telops-lmd";
  P 7500 6 "silhouette";
  P 7500 17 "silhouette";
  P 7501 6 "ovbus";
  P 7501 17 "ovbus";
  P 7508 6 "adcp";
  P 7509 6 "acplt";
  P 7510 6 "ovhpas";
  P 7510 17 "ovhpas";
  P 7511 6 "pafec-lm";
  P 7511 17 "pafec-lm";
  P 7542 6 "saratoga";
  P 7542 17 "saratoga";
  P 7543 6 "atul";
  P 7543 17 "atul";
  P 7544 6 "nta-ds";
  P 7544 17 "nta-ds";
  P 7545 6 "nta-us";
  P 7545 17 "nta-us";
  P 7546 6 "cfs";
  P 7546 17 "cfs";
  P 7547 6 "cwmp";
  P 7547 17 "cwmp";
  P 7548 6 "tidp";
  P 7548 17 "tidp";
  P 7549 6 "nls-tl";
  P 7549 17 "nls-tl";
  P 7550 6 "cloudsignaling";
  P 7551 6 "controlone-con";
  P 7560 6 "sncp";
  P 7560 17 "sncp";
  P 7563 6 "cfw";
  P 7566 6 "vsi-omega";
  P 7566 17 "vsi-omega";
  P 7569 6 "dell-eql-asm";
  P 7570 6 "aries-kfinder";
  P 7570 17 "aries-kfinder";
  P 7574 6 "coherence";
  P 7588 6 "sun-lm";
  P 7588 17 "sun-lm";
  P 7597 6 "qaz";
  P 7606 6 "mipi-debug";
  P 7624 6 "indi";
  P 7624 17 "indi";
  P 7626 132 "simco";
  P 7626 6 "simco";
  P 7627 6 "soap-http";
  P 7627 17 "soap-http";
  P 7628 6 "zen-pawn";
  P 7628 17 "zen-pawn";
  P 7629 6 "xdas";
  P 7629 17 "xdas";
  P 7630 6 "hawk";
  P 7631 6 "tesla-sys-msg";
  P 7633 6 "pmdfmgt";
  P 7633 17 "pmdfmgt";
  P 7634 6 "hddtemp";
  P 7648 6 "cuseeme";
  P 7648 17 "cucme-1";
  P 7649 17 "cucme-2";
  P 7650 17 "cucme-3";
  P 7651 17 "cucme-4";
  P 7663 6 "rome";
  P 7672 6 "imqstomp";
  P 7673 6 "imqstomps";
  P 7674 6 "imqtunnels";
  P 7674 17 "imqtunnels";
  P 7675 6 "imqtunnel";
  P 7675 17 "imqtunnel";
  P 7676 6 "imqbrokerd";
  P 7676 17 "imqbrokerd";
  P 7677 6 "sun-user-https";
  P 7677 17 "sun-user-https";
  P 7680 6 "pando-pub";
  P 7680 17 "pando-pub";
  P 7683 6 "dmt";
  P 7687 6 "bolt";
  P 7689 6 "collaber";
  P 7689 17 "collaber";
  P 7697 6 "klio";
  P 7697 17 "klio";
  P 7700 6 "em7-secom";
  P 7701 6 "nfapi";
  P 7707 6 "sync-em7";
  P 7707 17 "sync-em7";
  P 7708 6 "scinet";
  P 7708 17 "scinet";
  P 7720 6 "medimageportal";
  P 7720 17 "medimageportal";
  P 7724 6 "nsdeepfreezectl"].
Definition services_69 : list service := [
  P 7724 17 "nsdeepfreezectl";
  P 7725 6 "nitrogen";
  P 7725 17 "nitrogen";
  P 7726 6 "freezexservice";
  P 7726 17 "freezexservice";
  P 7727 6 "trident-data";
  P 7727 17 "trident-data";
  P 7728 6 "osvr";
  P 7734 6 "smip";
  P 7734 17 "smip";
  P 7738 6 "aiagent";
  P 7738 17 "aiagent";
  P 7741 6 "scriptview";
  P 7741 17 "scriptview";
  P 7742 6 "msss";
  P 7743 6 "sstp-1";
  P 7743 17 "sstp-1";
  P 7744 6 "raqmon-pdu";
  P 7744 17 "raqmon-pdu";
  P 7747 6 "prgp";
  P 7747 17 "prgp";
  P 7775 6 "inetfs";
  P 7777 6 "cbt";
  P 7777 17 "cbt";
  P 7778 6 "interwise";
  P 7778 17 "interwise";
  P 7779 6 "vstat";
  P 7779 17 "vstat";
  P 7781 6 "accu-lmgr";
  P 7781 17 "accu-lmgr";
  P 7784 6 "s-bfd";
  P 7786 6 "minivend";
  P 7786 17 "minivend";
  P 7787 6 "popup-reminders";
  P 7787 17 "popup-reminders";
  P 7789 6 "office-tools";
  P 7789 17 "office-tools";
  P 7794 6 "q3ade";
  P 7794 17 "q3ade";
  P 7797 6 "pnet-conn";
  P 7797 17 "pnet-conn";
  P 7798 6 "pnet-enc";
  P 7798 17 "pnet-enc";
  P 7799 6 "altbsdp";
  P 7799 17 "altbsdp";
  P 7800 6 "asr";
  P 7800 17 "asr";
  P 7801 6 "ssp-client";
  P 7801 17 "ssp-client";
  P 7802 6 "vns-tp";
  P 7810 6 "rbt-wanopt";
  P 7810 17 "rbt-wanopt";
  P 7845 6 "apc-7845";
  P 7845 17 "apc-7845";
  P 7846 6 "apc-7846";
  P 7846 17 "apc-7846";
  P 7847 6 "csoauth";
  P 7869 6 "mobileanalyzer";
  P 7870 6 "rbt-smc";
  P 7871 6 "mdm";
  P 7872 6 "mipv6tls";
  P 7878 6 "owms";
  P 7880 6 "pss";
  P 7880 17 "pss";
  P 7887 6 "ubroker";
  P 7887 17 "ubroker";
  P 7900 6 "mevent";
  P 7900 17 "mevent";
  P 7901 6 "tnos-sp";
  P 7901 17 "tnos-sp";
  P 7902 6 "tnos-dp";
  P 7902 17 "tnos-dp";
  P 7903 6 "tnos-dps";
  P 7903 17 "tnos-dps";
  P 7913 6 "qo-secure";
  P 7913 17 "qo-secure";
  P 7932 6 "t2-drm";
  P 7932 17 "t2-drm";
  P 7933 6 "t2-brm";
  P 7933 17 "t2-brm";
  P 7937 6 "nsrexecd";
  P 7938 6 "lgtomapper";
  P 7962 6 "generalsync";
  P 7967 6 "supercell";
  P 7967 17 "supercell";
  P 7979 6 "micromuse-ncps";
  P 7979 17 "micromuse-ncps";
  P 7980 6 "quest-vista";
  P 7980 17 "quest-vista";
  P 7981 6 "sossd-collect";
  P 7982 6 "sossd-agent";
  P 7982 17 "sossd-disc";
  P 7997 6 "pushns";
  P 7998 6 "usicontentpush";
  P 7998 17 "usicontentpush";
  P 7999 6 "irdmi2";
  P 7999 17 "irdmi2";
  P 8000 6 "http-alt";
  P 8000 17 "irdmi";
  P 8001 6 "vcom-tunnel";
  P 8001 17 "vcom-tunnel";
  P 8002 6 "teradataordbms";
  P 8002 17 "teradataordbms";
  P 8003 6 "mcreport";
  P 8003 17 "mcreport";
  P 8004 6 "p2pevolvenet";
  P 8005 6 "mxi";
  P 8005 17 "mxi";
  P 8006 6 "wpl-analytics";
  P 8007 6 "ajp12";
  P 8008 6 "http";
  P 8008 17 "http-alt";
  P 8009 6 "ajp13";
  P 8010 6 "xmpp";
  P 8019 6 "qbdb";
  P 8019 17 "qbdb";
  P 8020 6 "intu-ec-svcdisc";
  P 8020 17 "intu-ec-svcdisc";
  P 8021 6 "ftp-proxy";
  P 8021 17 "intu-ec-client";
  P 8022 6 "oa-system";
  P 8022 17 "oa-system";
  P 8025 6 "ca-audit-da";
  P 8025 17 "ca-audit-da";
  P 8026 6 "ca-audit-ds";
  P 8026 17 "ca-audit-ds";
  P 8032 6 "pro-ed";
  P 8032 17 "pro-ed";
  P 8033 6 "mindprint";
  P 8033 17 "mindprint";
  P 8034 6 "vantronix-mgmt";
  P 8034 17 "vantronix-mgmt";
  P 8040 6 "ampify";
  P 8040 17 "ampify";
  P 8041 6 "enguity-xccetp";
  P 8042 6 "fs-agent";
  P 8043 6 "fs-server";
  P 8044 6 "fs-mgmt";
  P 8051 6 "rocrail";
  P 8052 6 "senomix01";
  P 8052 17 "senomix01";
  P 8053 6 "senomix02";
  P 8053 17 "senomix02";
  P 8054 6 "senomix03";
  P 8054 17 "senomix03";
  P 8055 6 "senomix04";
  P 8055 17 "senomix04";
  P 8056 6 "senomix05";
  P 8056 17 "senomix05";
  P 8057 6 "senomix06"].
Definition services_70 : list service := [
  P 8057 17 "senomix06";
  P 8058 6 "senomix07";
  P 8058 17 "senomix07";
  P 8059 6 "senomix08";
  P 8059 17 "senomix08";
  P 8060 6 "aero";
  P 8066 6 "toad-bi-appsrvr";
  P 8067 6 "infi-async";
  P 8070 6 "ucs-isc";
  P 8074 6 "gadugadu";
  P 8074 17 "gadugadu";
  P 8076 6 "slnp";
  P 8077 6 "mles";
  P 8080 6 "http-proxy";
  P 8080 17 "http-alt";
  P 8081 6 "blackice-icecap";
  P 8081 17 "sunproxyadmin";
  P 8082 6 "blackice-alerts";
  P 8082 17 "us-cli";
  P 8083 6 "us-srv";
  P 8083 17 "us-srv";
  P 8086 6 "d-s-n";
  P 8086 17 "d-s-n";
  P 8087 6 "simplifymedia";
  P 8087 17 "simplifymedia";
  P 8088 6 "radan-http";
  P 8088 17 "radan-http";
  P 8090 6 "opsmessaging";
  P 8091 6 "jamlink";
  P 8097 6 "sac";
  P 8097 17 "sac";
  P 8100 6 "xprint-server";
  P 8100 17 "xprint-server";
  P 8101 6 "ldoms-migr";
  P 8102 6 "kz-migr";
  P 8115 6 "mtl8000-matrix";
  P 8115 17 "mtl8000-matrix";
  P 8116 6 "cp-cluster";
  P 8116 17 "cp-cluster";
  P 8117 6 "purityrpc";
  P 8118 6 "privoxy";
  P 8118 17 "privoxy";
  P 8121 6 "apollo-data";
  P 8121 17 "apollo-data";
  P 8122 6 "apollo-admin";
  P 8122 17 "apollo-admin";
  P 8123 6 "polipo";
  P 8128 6 "paycash-online";
  P 8128 17 "paycash-online";
  P 8129 6 "paycash-wbp";
  P 8129 17 "paycash-wbp";
  P 8130 6 "indigo-vrmi";
  P 8130 17 "indigo-vrmi";
  P 8131 6 "indigo-vbcp";
  P 8131 17 "indigo-vbcp";
  P 8132 6 "dbabble";
  P 8132 17 "dbabble";
  P 8140 6 "puppet";
  P 8148 6 "isdd";
  P 8148 17 "isdd";
  P 8149 6 "eor-game";
  P 8153 6 "quantastor";
  P 8160 6 "patrol";
  P 8160 17 "patrol";
  P 8161 6 "patrol-snmp";
  P 8161 17 "patrol-snmp";
  P 8162 6 "lpar2rrd";
  P 8181 6 "intermapper";
  P 8182 6 "vmware-fdm";
  P 8182 17 "vmware-fdm";
  P 8183 6 "proremote";
  P 8184 6 "itach";
  P 8184 17 "itach";
  P 8190 6 "gcp-rphy";
  P 8191 6 "limnerpressure";
  P 8192 6 "sophos";
  P 8192 17 "sophos";
  P 8193 6 "sophos";
  P 8193 17 "sophos";
  P 8194 6 "sophos";
  P 8194 17 "sophos";
  P 8195 6 "blp2";
  P 8195 17 "blp2";
  P 8199 6 "vvr-data";
  P 8199 17 "vvr-data";
  P 8200 6 "trivnet1";
  P 8200 17 "trivnet1";
  P 8201 6 "trivnet2";
  P 8201 17 "trivnet2";
  P 8202 6 "aesop";
  P 8204 6 "lm-perfworks";
  P 8204 17 "lm-perfworks";
  P 8205 6 "lm-instmgr";
  P 8205 17 "lm-instmgr";
  P 8206 6 "lm-dta";
  P 8206 17 "lm-dta";
  P 8207 6 "lm-sserver";
  P 8207 17 "lm-sserver";
  P 8208 6 "lm-webwatcher";
  P 8208 17 "lm-webwatcher";
  P 8230 6 "rexecj";
  P 8230 17 "rexecj";
  P 8231 6 "hncp-udp-port";
  P 8232 6 "hncp-dtls-port";
  P 8243 6 "synapse-nhttps";
  P 8243 17 "synapse-nhttps";
  P 8270 6 "robot-remote";
  P 8276 6 "pando-sec";
  P 8276 17 "pando-sec";
  P 8280 6 "synapse-nhttp";
  P 8280 17 "synapse-nhttp";
  P 8282 6 "libelle";
  P 8292 6 "blp3";
  P 8292 17 "blp3";
  P 8293 6 "hiperscan-id";
  P 8294 6 "blp4";
  P 8294 17 "blp4";
  P 8300 6 "tmi";
  P 8300 17 "tmi";
  P 8301 6 "amberon";
  P 8301 17 "amberon";
  P 8313 6 "hub-open-net";
  P 8320 6 "tnp-discover";
  P 8320 17 "tnp-discover";
  P 8321 6 "tnp";
  P 8321 17 "tnp";
  P 8322 6 "garmin-marine";
  P 8333 6 "bitcoin";
  P 8351 6 "server-find";
  P 8351 17 "server-find";
  P 8376 6 "cruise-enum";
  P 8376 17 "cruise-enum";
  P 8377 6 "cruise-swroute";
  P 8377 17 "cruise-swroute";
  P 8378 6 "cruise-config";
  P 8378 17 "cruise-config";
  P 8379 6 "cruise-diags";
  P 8379 17 "cruise-diags";
  P 8380 6 "cruise-update";
  P 8380 17 "cruise-update";
  P 8383 6 "m2mservices";
  P 8383 17 "m2mservices";
  P 8384 6 "marathontp";
  P 8400 6 "cvd";
  P 8400 17 "cvd";
  P 8401 6 "sabarsd";
  P 8401 17 "sabarsd";
  P 8402 6 "abarsd";
  P 8402 17 "abarsd";
  P 8403 6 "admind"].
Definition services_71 : list service := [
  P 8403 17 "admind";
  P 8404 6 "svcloud";
  P 8405 6 "svbackup";
  P 8415 6 "dlpx-sp";
  P 8416 6 "espeech";
  P 8416 17 "espeech";
  P 8417 6 "espeech-rtp";
  P 8417 17 "espeech-rtp";
  P 8423 6 "aritts";
  P 8442 6 "cybro-a-bus";
  P 8442 17 "cybro-a-bus";
  P 8443 6 "https-alt";
  P 8443 17 "pcsync-https";
  P 8444 6 "pcsync-http";
  P 8444 17 "pcsync-http";
  P 8445 6 "copy";
  P 8450 6 "npmp";
  P 8450 17 "npmp";
  P 8457 6 "nexentamv";
  P 8470 6 "cisco-avp";
  P 8471 132 "pim-port";
  P 8471 6 "pim-port";
  P 8471 17 "pim-port";
  P 8472 6 "otv";
  P 8472 17 "otv";
  P 8473 6 "vp2p";
  P 8473 17 "vp2p";
  P 8474 6 "noteshare";
  P 8474 17 "noteshare";
  P 8500 6 "fmtp";
  P 8500 17 "fmtp";
  P 8501 6 "cmtp-mgt";
  P 8502 6 "ftnmtp";
  P 8503 6 "lsp-self-ping";
  P 8554 6 "rtsp-alt";
  P 8554 17 "rtsp-alt";
  P 8555 6 "d-fence";
  P 8555 17 "d-fence";
  P 8567 6 "oap-admin";
  P 8567 17 "oap-admin";
  P 8600 6 "asterix";
  P 8600 17 "asterix";
  P 8609 6 "canon-cpp-disc";
  P 8610 6 "canon-mfnp";
  P 8610 17 "canon-mfnp";
  P 8611 6 "canon-bjnp1";
  P 8611 17 "canon-bjnp1";
  P 8612 6 "canon-bjnp2";
  P 8612 17 "canon-bjnp2";
  P 8613 6 "canon-bjnp3";
  P 8613 17 "canon-bjnp3";
  P 8614 6 "canon-bjnp4";
  P 8614 17 "canon-bjnp4";
  P 8615 6 "imink";
  P 8665 6 "monetra";
  P 8666 6 "monetra-admin";
  P 8675 6 "msi-cps-rm";
  P 8686 6 "sun-as-jmxrmi";
  P 8686 17 "sun-as-jmxrmi";
  P 8688 6 "openremote-ctrl";
  P 8699 6 "vnyx";
  P 8699 17 "vnyx";
  P 8711 6 "nvc";
  P 8732 6 "dtp-net";
  P 8732 17 "dtp-net";
  P 8733 6 "ibus";
  P 8733 17 "ibus";
  P 8750 6 "dey-keyneg";
  P 8763 6 "mc-appserver";
  P 8763 17 "mc-appserver";
  P 8764 6 "openqueue";
  P 8764 17 "openqueue";
  P 8765 6 "ultraseek-http";
  P 8765 17 "ultraseek-http";
  P 8766 6 "amcs";
  P 8770 6 "apple-iphoto";
  P 8770 17 "dpap";
  P 8778 6 "uec";
  P 8786 6 "msgclnt";
  P 8786 17 "msgclnt";
  P 8787 6 "msgsrvr";
  P 8787 17 "msgsrvr";
  P 8793 6 "acd-pm";
  P 8800 6 "sunwebadmin";
  P 8800 17 "sunwebadmin";
  P 8804 6 "truecm";
  P 8804 17 "truecm";
  P 8805 6 "pfcp";
  P 8808 6 "ssports-bcast";
  P 8834 6 "nessus-xmlrpc";
  P 8873 6 "dxspider";
  P 8873 17 "dxspider";
  P 8880 6 "cddbp-alt";
  P 8880 17 "cddbp-alt";
  P 8881 6 "galaxy4d";
  P 8883 6 "secure-mqtt";
  P 8883 17 "secure-mqtt";
  P 8888 6 "sun-answerbook";
  P 8888 17 "ddi-udp-1";
  P 8889 6 "ddi-tcp-2";
  P 8889 17 "ddi-udp-2";
  P 8890 6 "ddi-tcp-3";
  P 8890 17 "ddi-udp-3";
  P 8891 6 "ddi-tcp-4";
  P 8891 17 "ddi-udp-4";
  P 8892 6 "seosload";
  P 8892 17 "ddi-udp-5";
  P 8893 6 "ddi-tcp-6";
  P 8893 17 "ddi-udp-6";
  P 8894 6 "ddi-tcp-7";
  P 8894 17 "ddi-udp-7";
  P 8899 6 "ospf-lite";
  P 8899 17 "ospf-lite";
  P 8900 6 "jmb-cds1";
  P 8900 17 "jmb-cds1";
  P 8901 6 "jmb-cds2";
  P 8901 17 "jmb-cds2";
  P 8910 6 "manyone-http";
  P 8910 17 "manyone-http";
  P 8911 6 "manyone-xml";
  P 8911 17 "manyone-xml";
  P 8912 6 "wcbackup";
  P 8912 17 "wcbackup";
  P 8913 6 "dragonfly";
  P 8913 17 "dragonfly";
  P 8937 6 "twds";
  P 8953 6 "ub-dns-control";
  P 8954 6 "cumulus-admin";
  P 8954 17 "cumulus-admin";
  P 8980 6 "nod-provider";
  P 8981 6 "nod-client";
  P 8989 6 "sunwebadmins";
  P 8989 17 "sunwebadmins";
  P 8990 6 "http-wmap";
  P 8990 17 "http-wmap";
  P 8991 6 "https-wmap";
  P 8991 17 "https-wmap";
  P 8997 6 "oracle-ms-ens";
  P 8998 6 "canto-roboflow";
  P 8999 6 "bctp";
  P 8999 17 "bctp";
  P 9000 6 "cslistener";
  P 9000 17 "cslistener";
  P 9001 6 "tor-orport";
  P 9001 17 "etlservicemgr";
  P 9002 6 "dynamid";
  P 9002 17 "dynamid";
  P 9005 6 "golem";
  P 9007 6 "ogs-client";
  P 9007 17 "ogs-client"].
Definition services_72 : list service := [
  P 9008 6 "ogs-server";
  P 9009 6 "pichat";
  P 9009 17 "pichat";
  P 9010 6 "sdr";
  P 9020 6 "tambora";
  P 9020 17 "tambora";
  P 9021 6 "panagolin-ident";
  P 9021 17 "panagolin-ident";
  P 9022 6 "paragent";
  P 9022 17 "paragent";
  P 9023 6 "swa-1";
  P 9023 17 "swa-1";
  P 9024 6 "swa-2";
  P 9024 17 "swa-2";
  P 9025 6 "swa-3";
  P 9025 17 "swa-3";
  P 9026 6 "swa-4";
  P 9026 17 "swa-4";
  P 9040 6 "tor-trans";
  P 9050 6 "tor-socks";
  P 9051 6 "tor-control";
  P 9060 6 "CardWeb-IO";
  P 9080 6 "glrpc";
  P 9080 17 "glrpc";
  P 9081 6 "cisco-aqos";
  P 9082 132 "lcs-ap";
  P 9083 6 "emc-pp-mgmtsvc";
  P 9084 132 "aurora";
  P 9084 6 "aurora";
  P 9084 17 "aurora";
  P 9085 6 "ibm-rsyscon";
  P 9085 17 "ibm-rsyscon";
  P 9086 6 "net2display";
  P 9086 17 "net2display";
  P 9087 6 "classic";
  P 9087 17 "classic";
  P 9088 6 "sqlexec";
  P 9088 17 "sqlexec";
  P 9089 6 "sqlexec-ssl";
  P 9089 17 "sqlexec-ssl";
  P 9090 6 "zeus-admin";
  P 9090 17 "websm";
  P 9091 6 "xmltec-xmlmail";
  P 9091 17 "xmltec-xmlmail";
  P 9092 6 "XmlIpcRegSvc";
  P 9092 17 "XmlIpcRegSvc";
  P 9093 6 "copycat";
  P 9100 6 "jetdirect";
  P 9100 17 "hp-pdl-datastr";
  P 9101 6 "jetdirect";
  P 9101 17 "bacula-dir";
  P 9102 6 "jetdirect";
  P 9102 17 "bacula-fd";
  P 9103 6 "jetdirect";
  P 9103 17 "bacula-sd";
  P 9104 6 "jetdirect";
  P 9104 17 "peerwire";
  P 9105 6 "jetdirect";
  P 9105 17 "xadmin";
  P 9106 6 "jetdirect";
  P 9106 17 "astergate-disc";
  P 9107 6 "jetdirect";
  P 9111 6 "DragonIDSConsole";
  P 9119 6 "mxit";
  P 9119 17 "mxit";
  P 9122 6 "grcmp";
  P 9123 6 "grcp";
  P 9131 6 "dddp";
  P 9131 17 "dddp";
  P 9152 6 "ms-sql2000";
  P 9160 6 "apani1";
  P 9160 17 "apani1";
  P 9161 6 "apani2";
  P 9161 17 "apani2";
  P 9162 6 "apani3";
  P 9162 17 "apani3";
  P 9163 6 "apani4";
  P 9163 17 "apani4";
  P 9164 6 "apani5";
  P 9164 17 "apani5";
  P 9191 6 "sun-as-jpda";
  P 9191 17 "sun-as-jpda";
  P 9200 6 "wap-wsp";
  P 9200 17 "wap-wsp";
  P 9201 6 "wap-wsp-wtp";
  P 9201 17 "wap-wsp-wtp";
  P 9202 6 "wap-wsp-s";
  P 9202 17 "wap-wsp-s";
  P 9203 6 "wap-wsp-wtp-s";
  P 9203 17 "wap-wsp-wtp-s";
  P 9204 6 "wap-vcard";
  P 9204 17 "wap-vcard";
  P 9205 6 "wap-vcal";
  P 9205 17 "wap-vcal";
  P 9206 6 "wap-vcard-s";
  P 9206 17 "wap-vcard-s";
  P 9207 6 "wap-vcal-s";
  P 9207 17 "wap-vcal-s";
  P 9208 6 "rjcdb-vcards";
  P 9208 17 "rjcdb-vcards";
  P 9209 6 "almobile-system";
  P 9209 17 "almobile-system";
  P 9210 6 "oma-mlp";
  P 9210 17 "oma-mlp";
  P 9211 6 "oma-mlp-s";
  P 9211 17 "oma-mlp-s";
  P 9212 6 "serverviewdbms";
  P 9212 17 "serverviewdbms";
  P 9213 6 "serverstart";
  P 9213 17 "serverstart";
  P 9214 6 "ipdcesgbs";
  P 9214 17 "ipdcesgbs";
  P 9215 6 "insis";
  P 9215 17 "insis";
  P 9216 6 "acme";
  P 9216 17 "acme";
  P 9217 6 "fsc-port";
  P 9217 17 "fsc-port";
  P 9222 6 "teamcoherence";
  P 9222 17 "teamcoherence";
  P 9255 6 "mon";
  P 9255 17 "mon";
  P 9277 6 "traingpsdata";
  P 9278 6 "pegasus";
  P 9278 17 "pegasus";
  P 9279 6 "pegasus-ctl";
  P 9279 17 "pegasus-ctl";
  P 9280 6 "pgps";
  P 9280 17 "pgps";
  P 9281 6 "swtp-port1";
  P 9281 17 "swtp-port1";
  P 9282 6 "swtp-port2";
  P 9282 17 "swtp-port2";
  P 9283 6 "callwaveiam";
  P 9283 17 "callwaveiam";
  P 9284 6 "visd";
  P 9284 17 "visd";
  P 9285 6 "n2h2server";
  P 9285 17 "n2h2server";
  P 9286 6 "n2receive";
  P 9287 6 "cumulus";
  P 9287 17 "cumulus";
  P 9292 6 "armtechdaemon";
  P 9292 17 "armtechdaemon";
  P 9293 6 "storview";
  P 9293 17 "storview";
  P 9294 6 "armcenterhttp";
  P 9294 17 "armcenterhttp";
  P 9295 6 "armcenterhttps";
  P 9295 17 "armcenterhttps"].
Definition services_73 : list service := [
  P 9300 6 "vrace";
  P 9300 17 "vrace";
  P 9306 6 "sphinxql";
  P 9312 6 "sphinxapi";
  P 9318 6 "secure-ts";
  P 9318 17 "secure-ts";
  P 9321 6 "guibase";
  P 9321 17 "guibase";
  P 9333 6 "litecoin";
  P 9343 6 "mpidcmgr";
  P 9343 17 "mpidcmgr";
  P 9344 6 "mphlpdmc";
  P 9344 17 "mphlpdmc";
  P 9345 6 "rancher";
  P 9346 6 "ctechlicensing";
  P 9346 17 "ctechlicensing";
  P 9374 6 "fjdmimgr";
  P 9374 17 "fjdmimgr";
  P 9380 6 "boxp";
  P 9380 17 "boxp";
  P 9387 6 "d2dconfig";
  P 9388 6 "d2ddatatrans";
  P 9389 6 "adws";
  P 9390 6 "otp";
  P 9396 6 "fjinvmgr";
  P 9396 17 "fjinvmgr";
  P 9397 6 "mpidcagt";
  P 9397 17 "mpidcagt";
  P 9400 6 "sec-t4net-srv";
  P 9400 17 "sec-t4net-srv";
  P 9401 6 "sec-t4net-clt";
  P 9401 17 "sec-t4net-clt";
  P 9402 6 "sec-pc2fax-srv";
  P 9402 17 "sec-pc2fax-srv";
  P 9418 6 "git";
  P 9418 17 "git";
  P 9443 6 "tungsten-https";
  P 9443 17 "tungsten-https";
  P 9444 6 "wso2esb-console";
  P 9444 17 "wso2esb-console";
  P 9445 6 "mindarray-ca";
  P 9450 6 "sntlkeyssrvr";
  P 9450 17 "sntlkeyssrvr";
  P 9500 6 "ismserver";
  P 9500 17 "ismserver";
  P 9522 6 "sma-spw";
  P 9535 6 "man";
  P 9535 17 "man";
  P 9536 6 "laes-bf";
  P 9536 17 "laes-bf";
  P 9555 6 "trispen-sra";
  P 9555 17 "trispen-sra";
  P 9592 6 "ldgateway";
  P 9592 17 "ldgateway";
  P 9593 6 "cba8";
  P 9593 17 "cba8";
  P 9594 6 "msgsys";
  P 9594 17 "msgsys";
  P 9595 6 "pds";
  P 9595 17 "pds";
  P 9596 6 "mercury-disc";
  P 9596 17 "mercury-disc";
  P 9597 6 "pd-admin";
  P 9597 17 "pd-admin";
  P 9598 6 "vscp";
  P 9598 17 "vscp";
  P 9599 6 "robix";
  P 9599 17 "robix";
  P 9600 6 "micromuse-ncpw";
  P 9600 17 "micromuse-ncpw";
  P 9612 6 "streamcomm-ds";
  P 9612 17 "streamcomm-ds";
  P 9614 6 "iadt-tls";
  P 9616 6 "erunbook_agent";
  P 9617 6 "erunbook_server";
  P 9618 6 "condor";
  P 9618 17 "condor";
  P 9628 6 "odbcpathway";
  P 9628 17 "odbcpathway";
  P 9629 6 "uniport";
  P 9629 17 "uniport";
  P 9630 6 "peoctlr";
  P 9631 6 "peocoll";
  P 9632 6 "mc-comm";
  P 9632 17 "mc-comm";
  P 9640 6 "pqsflows";
  P 9666 6 "zoomcp";
  P 9667 6 "xmms2";
  P 9667 17 "xmms2";
  P 9668 6 "tec5-sdctp";
  P 9668 17 "tec5-sdctp";
  P 9694 6 "client-wakeup";
  P 9694 17 "client-wakeup";
  P 9695 6 "ccnx";
  P 9695 17 "ccnx";
  P 9700 6 "board-roar";
  P 9700 17 "board-roar";
  P 9747 6 "l5nas-parchan";
  P 9747 17 "l5nas-parchan";
  P 9750 6 "board-voip";
  P 9750 17 "board-voip";
  P 9753 6 "rasadv";
  P 9753 17 "rasadv";
  P 9762 6 "tungsten-http";
  P 9762 17 "tungsten-http";
  P 9800 6 "davsrc";
  P 9800 17 "davsrc";
  P 9801 6 "sstp-2";
  P 9801 17 "sstp-2";
  P 9802 6 "davsrcs";
  P 9802 17 "davsrcs";
  P 9875 6 "sapv1";
  P 9875 17 "sapv1";
  P 9876 6 "sd";
  P 9876 17 "sd";
  P 9878 6 "kca-service";
  P 9888 6 "cyborg-systems";
  P 9888 17 "cyborg-systems";
  P 9889 6 "gt-proxy";
  P 9889 17 "gt-proxy";
  P 9898 6 "monkeycom";
  P 9898 17 "monkeycom";
  P 9899 132 "sctp-tunneling";
  P 9899 6 "sctp-tunneling";
  P 9899 17 "sctp-tunneling";
  P 9900 132 "iua";
  P 9900 6 "iua";
  P 9900 17 "iua";
  P 9901 132 "enrp-sctp";
  P 9901 17 "enrp";
  P 9902 132 "enrp-sctp-tls";
  P 9903 6 "multicast-ping";
  P 9909 6 "domaintime";
  P 9909 17 "domaintime";
  P 9911 6 "sype-transport";
  P 9911 17 "sype-transport";
  P 9925 6 "xybrid-cloud";
  P 9929 6 "nping-echo";
  P 9950 6 "apc-9950";
  P 9950 17 "apc-9950";
  P 9951 6 "apc-9951";
  P 9951 17 "apc-9951";
  P 9952 6 "apc-9952";
  P 9952 17 "apc-9952";
  P 9953 6 "acis";
  P 9953 17 "acis";
  P 9954 6 "hinp";
  P 9955 6 "alljoyn-stm";
  P 9956 6 "alljoyn";
  P 9966 6 "odnsp"].
Definition services_74 : list service := [
  P 9966 17 "odnsp";
  P 9978 6 "xybrid-rt";
  P 9979 6 "visweather";
  P 9981 6 "pumpkindb";
  P 9987 6 "dsm-scm-target";
  P 9987 17 "dsm-scm-target";
  P 9988 6 "nsesrvr";
  P 9990 6 "osm-appsrvr";
  P 9990 17 "osm-appsrvr";
  P 9991 6 "issa";
  P 9991 17 "osm-oev";
  P 9992 6 "issc";
  P 9992 17 "palace-1";
  P 9993 6 "palace-2";
  P 9993 17 "palace-2";
  P 9994 6 "palace-3";
  P 9994 17 "palace-3";
  P 9995 6 "palace-4";
  P 9995 17 "palace-4";
  P 9996 6 "palace-5";
  P 9996 17 "palace-5";
  P 9997 6 "palace-6";
  P 9997 17 "palace-6";
  P 9998 6 "distinct32";
  P 9998 17 "distinct32";
  P 9999 6 "abyss";
  P 9999 17 "distinct";
  P 10000 6 "snet-sensor-mgmt";
  P 10000 17 "ndmp";
  P 10001 6 "scp-config";
  P 10001 17 "scp-config";
  P 10002 6 "documentum";
  P 10002 17 "documentum";
  P 10003 6 "documentum_s";
  P 10003 17 "documentum_s";
  P 10004 6 "emcrmirccd";
  P 10005 6 "stel";
  P 10006 6 "netapp-sync";
  P 10007 6 "mvs-capacity";
  P 10007 17 "mvs-capacity";
  P 10008 6 "octopus";
  P 10008 17 "octopus";
  P 10009 6 "swdtp-sv";
  P 10009 17 "swdtp-sv";
  P 10010 6 "rxapi";
  P 10020 6 "abb-hw";
  P 10023 6 "cefd-vmp";
  P 10050 6 "zabbix-agent";
  P 10050 17 "zabbix-agent";
  P 10051 6 "zabbix-trapper";
  P 10051 17 "zabbix-trapper";
  P 10055 6 "qptlmd";
  P 10080 6 "amanda";
  P 10080 17 "amanda";
  P 10081 6 "famdc";
  P 10081 17 "famdc";
  P 10082 6 "amandaidx";
  P 10083 6 "amidxtape";
  P 10100 6 "itap-ddtp";
  P 10100 17 "itap-ddtp";
  P 10101 6 "ezmeeting-2";
  P 10101 17 "ezmeeting-2";
  P 10102 6 "ezproxy-2";
  P 10102 17 "ezproxy-2";
  P 10103 6 "ezrelay";
  P 10103 17 "ezrelay";
  P 10104 6 "swdtp";
  P 10104 17 "swdtp";
  P 10107 6 "bctp-server";
  P 10107 17 "bctp-server";
  P 10110 6 "nmea-0183";
  P 10110 17 "nmea-0183";
  P 10111 6 "nmea-onenet";
  P 10113 6 "netiq-endpoint";
  P 10113 17 "netiq-endpoint";
  P 10114 6 "netiq-qcheck";
  P 10114 17 "netiq-qcheck";
  P 10115 6 "netiq-endpt";
  P 10115 17 "netiq-endpt";
  P 10116 6 "netiq-voipa";
  P 10116 17 "netiq-voipa";
  P 10117 6 "iqrm";
  P 10117 17 "iqrm";
  P 10125 6 "cimple";
  P 10128 6 "bmc-perf-sd";
  P 10128 17 "bmc-perf-sd";
  P 10129 6 "bmc-gms";
  P 10160 6 "qb-db-server";
  P 10160 17 "qb-db-server";
  P 10161 6 "snmptls";
  P 10161 17 "snmpdtls";
  P 10162 6 "snmptls-trap";
  P 10162 17 "snmpdtls-trap";
  P 10200 6 "trisoap";
  P 10200 17 "trisoap";
  P 10201 6 "rsms";
  P 10201 17 "rscs";
  P 10252 6 "apollo-relay";
  P 10252 17 "apollo-relay";
  P 10253 6 "eapol-relay";
  P 10260 6 "axis-wimp-port";
  P 10260 17 "axis-wimp-port";
  P 10261 6 "tile-ml";
  P 10288 6 "blocks";
  P 10288 17 "blocks";
  P 10321 6 "cosir";
  P 10439 6 "bngsync";
  P 10500 6 "hip-nat-t";
  P 10500 17 "hip-nat-t";
  P 10540 6 "MOS-lower";
  P 10540 17 "MOS-lower";
  P 10541 6 "MOS-upper";
  P 10541 17 "MOS-upper";
  P 10542 6 "MOS-aux";
  P 10542 17 "MOS-aux";
  P 10543 6 "MOS-soap";
  P 10543 17 "MOS-soap";
  P 10544 6 "MOS-soap-opt";
  P 10544 17 "MOS-soap-opt";
  P 10548 6 "serverdocs";
  P 10631 6 "printopia";
  P 10800 6 "gap";
  P 10800 17 "gap";
  P 10805 6 "lpdg";
  P 10805 17 "lpdg";
  P 10809 6 "nbd";
  P 10810 6 "nmc-disc";
  P 10810 17 "nmc-disc";
  P 10860 6 "helix";
  P 10860 17 "helix";
  P 10880 6 "bveapi";
  P 10933 6 "octopustentacle";
  P 10990 6 "rmiaux";
  P 10990 17 "rmiaux";
  P 11000 6 "irisa";
  P 11000 17 "irisa";
  P 11001 6 "metasys";
  P 11001 17 "metasys";
  P 11095 6 "weave";
  P 11103 6 "origo-sync";
  P 11104 6 "netapp-icmgmt";
  P 11105 6 "netapp-icdata";
  P 11106 6 "sgi-lk";
  P 11106 17 "sgi-lk";
  P 11108 6 "myq-termlink";
  P 11109 6 "sgi-dmfmgr";
  P 11110 6 "sgi-soap";
  P 11111 6 "vce";
  P 11111 17 "vce";
  P 11112 6 "dicom"].
Definition services_75 : list service := [
  P 11112 17 "dicom";
  P 11161 6 "suncacao-snmp";
  P 11161 17 "suncacao-snmp";
  P 11162 6 "suncacao-jmxmp";
  P 11162 17 "suncacao-jmxmp";
  P 11163 6 "suncacao-rmi";
  P 11163 17 "suncacao-rmi";
  P 11164 6 "suncacao-csa";
  P 11164 17 "suncacao-csa";
  P 11165 6 "suncacao-websvc";
  P 11165 17 "suncacao-websvc";
  P 11171 6 "snss";
  P 11171 17 "snss";
  P 11172 6 "oemcacao-jmxmp";
  P 11173 6 "t5-straton";
  P 11174 6 "oemcacao-rmi";
  P 11175 6 "oemcacao-websvc";
  P 11201 6 "smsqp";
  P 11201 17 "smsqp";
  P 11202 6 "dcsl-backup";
  P 11208 6 "wifree";
  P 11208 17 "wifree";
  P 11211 6 "memcache";
  P 11211 17 "memcache";
  P 11319 6 "imip";
  P 11319 17 "imip";
  P 11320 6 "imip-channels";
  P 11320 17 "imip-channels";
  P 11321 6 "arena-server";
  P 11321 17 "arena-server";
  P 11367 6 "atm-uhas";
  P 11367 17 "atm-uhas";
  P 11371 6 "pksd";
  P 11371 17 "hkp";
  P 11430 6 "lsdp";
  P 11489 6 "asgcypresstcps";
  P 11600 6 "tempest-port";
  P 11600 17 "tempest-port";
  P 11623 6 "emc-xsw-dconfig";
  P 11720 6 "h323callsigalt";
  P 11720 17 "h323callsigalt";
  P 11723 6 "emc-xsw-dcache";
  P 11751 6 "intrepid-ssl";
  P 11751 17 "intrepid-ssl";
  P 11796 6 "lanschool";
  P 11876 6 "xoraya";
  P 11876 17 "xoraya";
  P 11877 6 "x2e-disc";
  P 11877 17 "x2e-disc";
  P 11967 6 "sysinfo-sp";
  P 11967 17 "sysinfo-sp";
  P 11997 132 "wmereceiving";
  P 11998 132 "wmedistribution";
  P 11999 132 "wmereporting";
  P 12000 6 "cce4x";
  P 12000 17 "entextxid";
  P 12001 6 "entextnetwk";
  P 12001 17 "entextnetwk";
  P 12002 6 "entexthigh";
  P 12002 17 "entexthigh";
  P 12003 6 "entextmed";
  P 12003 17 "entextmed";
  P 12004 6 "entextlow";
  P 12004 17 "entextlow";
  P 12005 6 "dbisamserver1";
  P 12005 17 "dbisamserver1";
  P 12006 6 "dbisamserver2";
  P 12006 17 "dbisamserver2";
  P 12007 6 "accuracer";
  P 12007 17 "accuracer";
  P 12008 6 "accuracer-dbms";
  P 12008 17 "accuracer-dbms";
  P 12009 6 "ghvpn";
  P 12010 6 "edbsrvr";
  P 12012 6 "vipera";
  P 12012 17 "vipera";
  P 12013 6 "vipera-ssl";
  P 12013 17 "vipera-ssl";
  P 12109 6 "rets-ssl";
  P 12109 17 "rets-ssl";
  P 12121 6 "nupaper-ss";
  P 12121 17 "nupaper-ss";
  P 12168 6 "cawas";
  P 12168 17 "cawas";
  P 12172 6 "hivep";
  P 12172 17 "hivep";
  P 12300 6 "linogridengine";
  P 12300 17 "linogridengine";
  P 12302 6 "rads";
  P 12321 6 "warehouse-sss";
  P 12321 17 "warehouse-sss";
  P 12322 6 "warehouse";
  P 12322 17 "warehouse";
  P 12345 6 "netbus";
  P 12345 17 "italk";
  P 12346 6 "netbus";
  P 12753 6 "tsaf";
  P 12753 17 "tsaf";
  P 12865 6 "netperf";
  P 13160 6 "i-zipqd";
  P 13160 17 "i-zipqd";
  P 13216 6 "bcslogc";
  P 13216 17 "bcslogc";
  P 13217 6 "rs-pias";
  P 13217 17 "rs-pias";
  P 13218 6 "emc-vcas-tcp";
  P 13218 17 "emc-vcas-udp";
  P 13223 6 "powwow-client";
  P 13223 17 "powwow-client";
  P 13224 6 "powwow-server";
  P 13224 17 "powwow-server";
  P 13400 6 "doip-data";
  P 13701 6 "netbackup";
  P 13702 6 "netbackup";
  P 13705 6 "netbackup";
  P 13706 6 "netbackup";
  P 13708 6 "netbackup";
  P 13709 6 "netbackup";
  P 13710 6 "netbackup";
  P 13711 6 "netbackup";
  P 13712 6 "netbackup";
  P 13713 6 "netbackup";
  P 13714 6 "netbackup";
  P 13715 6 "netbackup";
  P 13716 6 "netbackup";
  P 13717 6 "netbackup";
  P 13718 6 "netbackup";
  P 13720 6 "netbackup";
  P 13720 17 "bprd";
  P 13721 6 "netbackup";
  P 13721 17 "bpdbm";
  P 13722 6 "netbackup";
  P 13722 17 "bpjava-msvc";
  P 13724 6 "vnetd";
  P 13724 17 "vnetd";
  P 13782 6 "netbackup";
  P 13782 17 "bpcd";
  P 13783 6 "netbackup";
  P 13783 17 "vopied";
  P 13785 6 "nbdb";
  P 13785 17 "nbdb";
  P 13786 6 "nomdb";
  P 13786 17 "nomdb";
  P 13818 6 "dsmcc-config";
  P 13818 17 "dsmcc-config";
  P 13819 6 "dsmcc-session";
  P 13819 17 "dsmcc-session";
  P 13820 6 "dsmcc-passthru";
  P 13820 17 "dsmcc-passthru";
  P 13821 6 "dsmcc-download"].
Definition services_76 : list service := [
  P 13821 17 "dsmcc-download";
  P 13822 6 "dsmcc-ccp";
  P 13822 17 "dsmcc-ccp";
  P 13823 6 "bmdss";
  P 13882 6 "vunknown";
  P 13894 6 "ucontrol";
  P 13929 6 "dta-systems";
  P 13929 17 "dta-systems";
  P 13930 6 "medevolve";
  P 14000 6 "scotty-ft";
  P 14000 17 "scotty-ft";
  P 14001 132 "sua";
  P 14001 6 "sua";
  P 14001 17 "sua";
  P 14002 6 "scotty-disc";
  P 14033 6 "sage-best-com1";
  P 14033 17 "sage-best-com1";
  P 14034 6 "sage-best-com2";
  P 14034 17 "sage-best-com2";
  P 14141 6 "bo2k";
  P 14141 17 "vcs-app";
  P 14142 6 "icpp";
  P 14142 17 "icpp";
  P 14143 6 "icpps";
  P 14145 6 "gcm-app";
  P 14145 17 "gcm-app";
  P 14149 6 "vrts-tdd";
  P 14149 17 "vrts-tdd";
  P 14150 6 "vcscmd";
  P 14154 6 "vad";
  P 14154 17 "vad";
  P 14250 6 "cps";
  P 14250 17 "cps";
  P 14414 6 "ca-web-update";
  P 14414 17 "ca-web-update";
  P 14500 6 "xpra";
  P 14936 6 "hde-lcesrvr-1";
  P 14936 17 "hde-lcesrvr-1";
  P 14937 6 "hde-lcesrvr-2";
  P 14937 17 "hde-lcesrvr-2";
  P 15000 6 "hydap";
  P 15000 17 "hydap";
  P 15002 6 "onep-tls";
  P 15118 6 "v2g-secc";
  P 15126 6 "swgps";
  P 15151 6 "bo2k";
  P 15345 6 "xpilot";
  P 15345 17 "xpilot";
  P 15363 6 "3link";
  P 15363 17 "3link";
  P 15555 6 "cisco-snat";
  P 15555 17 "cisco-snat";
  P 15660 6 "bex-xr";
  P 15660 17 "bex-xr";
  P 15740 6 "ptp";
  P 15740 17 "ptp";
  P 15998 6 "2ping";
  P 15998 17 "2ping";
  P 15999 6 "programmar";
  P 16000 6 "fmsas";
  P 16001 6 "fmsascon";
  P 16002 6 "gsms";
  P 16003 6 "alfin";
  P 16003 17 "alfin";
  P 16020 6 "jwpc";
  P 16021 6 "jwpc-bin";
  P 16080 6 "osxwebadmin";
  P 16161 6 "sun-sea-port";
  P 16161 17 "sun-sea-port";
  P 16162 6 "solaris-audit";
  P 16309 6 "etb4j";
  P 16309 17 "etb4j";
  P 16310 6 "pduncs";
  P 16310 17 "pduncs";
  P 16311 6 "pdefmns";
  P 16311 17 "pdefmns";
  P 16360 6 "netserialext1";
  P 16360 17 "netserialext1";
  P 16361 6 "netserialext2";
  P 16361 17 "netserialext2";
  P 16367 6 "netserialext3";
  P 16367 17 "netserialext3";
  P 16368 6 "netserialext4";
  P 16368 17 "netserialext4";
  P 16384 6 "connected";
  P 16384 17 "connected";
  P 16385 6 "rdgs";
  P 16444 6 "overnet";
  P 16444 17 "overnet";
  P 16619 6 "xoms";
  P 16665 6 "axon-tunnel";
  P 16666 6 "vtp";
  P 16789 6 "cadsisvr";
  P 16900 6 "newbay-snc-mc";
  P 16900 17 "newbay-snc-mc";
  P 16950 6 "sgcip";
  P 16950 17 "sgcip";
  P 16959 6 "subseven";
  P 16991 6 "intel-rci-mp";
  P 16991 17 "intel-rci-mp";
  P 16992 6 "amt-soap-http";
  P 16992 17 "amt-soap-http";
  P 16993 6 "amt-soap-https";
  P 16993 17 "amt-soap-https";
  P 16994 6 "amt-redir-tcp";
  P 16994 17 "amt-redir-tcp";
  P 16995 6 "amt-redir-tls";
  P 16995 17 "amt-redir-tls";
  P 17007 6 "isode-dua";
  P 17007 17 "isode-dua";
  P 17184 6 "vestasdlp";
  P 17185 6 "soundsvirtual";
  P 17185 17 "wdbrpc";
  P 17219 6 "chipper";
  P 17219 17 "chipper";
  P 17220 6 "avtp";
  P 17221 6 "avdecc";
  P 17222 6 "cpsp";
  P 17223 6 "isa100-gci";
  P 17224 6 "trdp-pd";
  P 17225 6 "trdp-md";
  P 17234 6 "integrius-stp";
  P 17234 17 "integrius-stp";
  P 17235 6 "ssh-mgmt";
  P 17235 17 "ssh-mgmt";
  P 17300 6 "kuang2";
  P 17500 6 "db-lsp";
  P 17500 17 "db-lsp-disc";
  P 17555 6 "ailith";
  P 17729 6 "ea";
  P 17729 17 "ea";
  P 17754 6 "zep";
  P 17754 17 "zep";
  P 17755 6 "zigbee-ip";
  P 17755 17 "zigbee-ip";
  P 17756 6 "zigbee-ips";
  P 17756 17 "zigbee-ips";
  P 17777 6 "sw-orion";
  P 18000 6 "biimenu";
  P 18000 17 "biimenu";
  P 18104 6 "radpdf";
  P 18136 6 "racf";
  P 18181 6 "opsec-cvp";
  P 18181 17 "opsec-cvp";
  P 18182 6 "opsec-ufp";
  P 18182 17 "opsec-ufp";
  P 18183 6 "opsec-sam";
  P 18183 17 "opsec-sam";
  P 18184 6 "opsec-lea";
  P 18184 17 "opsec-lea"].
Definition services_77 : list service := [
  P 18185 6 "opsec-omi";
  P 18185 17 "opsec-omi";
  P 18186 6 "ohsc";
  P 18186 17 "ohsc";
  P 18187 6 "opsec-ela";
  P 18187 17 "opsec-ela";
  P 18241 6 "checkpoint-rtm";
  P 18241 17 "checkpoint-rtm";
  P 18242 6 "iclid";
  P 18243 6 "clusterxl";
  P 18262 6 "gv-pf";
  P 18262 17 "gv-pf";
  P 18333 6 "bitcoin";
  P 18463 6 "ac-cluster";
  P 18463 17 "ac-cluster";
  P 18634 6 "rds-ib";
  P 18634 17 "rds-ib";
  P 18635 6 "rds-ip";
  P 18635 17 "rds-ip";
  P 18668 6 "vdmmesh";
  P 18769 6 "ique";
  P 18769 17 "ique";
  P 18881 6 "infotos";
  P 18881 17 "infotos";
  P 18888 6 "apc-necmp";
  P 18888 17 "apc-necmp";
  P 19000 6 "igrid";
  P 19000 17 "igrid";
  P 19007 6 "scintilla";
  P 19020 6 "j-link";
  P 19150 6 "gkrellm";
  P 19191 6 "opsec-uaa";
  P 19191 17 "opsec-uaa";
  P 19194 6 "ua-secureagent";
  P 19194 17 "ua-secureagent";
  P 19220 6 "cora";
  P 19283 6 "keysrvr";
  P 19283 17 "keysrvr";
  P 19315 6 "keyshadow";
  P 19315 17 "keyshadow";
  P 19333 6 "litecoin";
  P 19398 6 "mtrgtrans";
  P 19398 17 "mtrgtrans";
  P 19410 6 "hp-sco";
  P 19410 17 "hp-sco";
  P 19411 6 "hp-sca";
  P 19411 17 "hp-sca";
  P 19412 6 "hp-sessmon";
  P 19412 17 "hp-sessmon";
  P 19539 6 "fxuptp";
  P 19539 17 "fxuptp";
  P 19540 6 "sxuptp";
  P 19540 17 "sxuptp";
  P 19541 6 "jcp";
  P 19541 17 "jcp";
  P 19788 6 "mle";
  P 19998 6 "iec-104-sec";
  P 19999 6 "dnp-sec";
  P 19999 17 "dnp-sec";
  P 20000 6 "dnp";
  P 20000 17 "dnp";
  P 20001 6 "microsan";
  P 20001 17 "microsan";
  P 20002 6 "commtact-http";
  P 20002 17 "commtact-http";
  P 20003 6 "commtact-https";
  P 20003 17 "commtact-https";
  P 20005 6 "btx";
  P 20005 17 "openwebnet";
  P 20012 6 "ss-idi-disc";
  P 20012 17 "ss-idi-disc";
  P 20013 6 "ss-idi";
  P 20014 6 "opendeploy";
  P 20014 17 "opendeploy";
  P 20031 17 "bakbonenetvault";
  P 20034 6 "nburn_id";
  P 20034 17 "nburn_id";
  P 20046 6 "tmophl7mts";
  P 20046 17 "tmophl7mts";
  P 20048 6 "mountd";
  P 20048 17 "mountd";
  P 20049 132 "nfsrdma";
  P 20049 6 "nfsrdma";
  P 20049 17 "nfsrdma";
  P 20057 6 "avesterra";
  P 20167 6 "tolfab";
  P 20167 17 "tolfab";
  P 20202 6 "ipdtp-port";
  P 20202 17 "ipdtp-port";
  P 20222 6 "ipulse-ics";
  P 20222 17 "ipulse-ics";
  P 20480 6 "emwavemsg";
  P 20480 17 "emwavemsg";
  P 20670 6 "track";
  P 20670 17 "track";
  P 20999 6 "athand-mmp";
  P 20999 17 "athand-mmp";
  P 21000 6 "irtrans";
  P 21000 17 "irtrans";
  P 21010 6 "notezilla-lan";
  P 21201 6 "memcachedb";
  P 21212 6 "trinket-agent";
  P 21221 6 "aigairserver";
  P 21553 6 "rdm-tfs";
  P 21554 6 "dfserver";
  P 21554 17 "dfserver";
  P 21590 6 "vofr-gateway";
  P 21590 17 "vofr-gateway";
  P 21800 6 "tvpm";
  P 21800 17 "tvpm";
  P 21845 6 "webphone";
  P 21845 17 "webphone";
  P 21846 6 "netspeak-is";
  P 21846 17 "netspeak-is";
  P 21847 6 "netspeak-cs";
  P 21847 17 "netspeak-cs";
  P 21848 6 "netspeak-acd";
  P 21848 17 "netspeak-acd";
  P 21849 6 "netspeak-cps";
  P 21849 17 "netspeak-cps";
  P 22000 6 "snapenetio";
  P 22000 17 "snapenetio";
  P 22001 6 "optocontrol";
  P 22001 17 "optocontrol";
  P 22002 6 "optohost002";
  P 22002 17 "optohost002";
  P 22003 6 "optohost003";
  P 22003 17 "optohost003";
  P 22004 6 "optohost004";
  P 22004 17 "optohost004";
  P 22005 6 "optohost004";
  P 22005 17 "optohost004";
  P 22125 6 "dcap";
  P 22128 6 "gsidcap";
  P 22222 6 "easyengine";
  P 22273 6 "wnn6";
  P 22273 17 "wnn6";
  P 22289 6 "wnn6_Cn";
  P 22305 6 "wnn6_Kr";
  P 22305 17 "cis";
  P 22321 6 "wnn6_Tw";
  P 22335 6 "shrewd-control";
  P 22343 6 "cis-secure";
  P 22343 17 "cis-secure";
  P 22347 6 "WibuKey";
  P 22347 17 "WibuKey";
  P 22350 6 "CodeMeter";
  P 22350 17 "CodeMeter";
  P 22351 6 "codemeter-cmwan";
  P 22370 6 "hpnpd"].
Definition services_78 : list service := [
  P 22370 17 "hpnpd";
  P 22537 6 "caldsoft-backup";
  P 22555 6 "vocaltec-wconf";
  P 22555 17 "vocaltec-phone";
  P 22763 6 "talikaserver";
  P 22763 17 "talikaserver";
  P 22800 6 "aws-brf";
  P 22800 17 "aws-brf";
  P 22951 6 "brf-gw";
  P 22951 17 "brf-gw";
  P 23000 6 "inovaport1";
  P 23000 17 "inovaport1";
  P 23001 6 "inovaport2";
  P 23001 17 "inovaport2";
  P 23002 6 "inovaport3";
  P 23002 17 "inovaport3";
  P 23003 6 "inovaport4";
  P 23003 17 "inovaport4";
  P 23004 6 "inovaport5";
  P 23004 17 "inovaport5";
  P 23005 6 "inovaport6";
  P 23005 17 "inovaport6";
  P 23053 6 "gntp";
  P 23272 6 "s102";
  P 23272 17 "s102";
  P 23294 6 "5afe-dir";
  P 23333 6 "elxmgmt";
  P 23333 17 "elxmgmt";
  P 23400 6 "novar-dbase";
  P 23400 17 "novar-dbase";
  P 23401 6 "novar-alarm";
  P 23401 17 "novar-alarm";
  P 23402 6 "novar-global";
  P 23402 17 "novar-global";
  P 23456 6 "aequus";
  P 23457 6 "aequus-alt";
  P 23546 6 "areaguard-neo";
  P 24000 6 "med-ltp";
  P 24000 17 "med-ltp";
  P 24001 6 "med-fsp-rx";
  P 24001 17 "med-fsp-rx";
  P 24002 6 "med-fsp-tx";
  P 24002 17 "med-fsp-tx";
  P 24003 6 "med-supp";
  P 24003 17 "med-supp";
  P 24004 6 "med-ovw";
  P 24004 17 "med-ovw";
  P 24005 6 "med-ci";
  P 24005 17 "med-ci";
  P 24006 6 "med-net-svc";
  P 24006 17 "med-net-svc";
  P 24242 6 "filesphere";
  P 24242 17 "filesphere";
  P 24249 6 "vista-4gl";
  P 24249 17 "vista-4gl";
  P 24321 6 "ild";
  P 24321 17 "ild";
  P 24322 6 "hid";
  P 24386 6 "intel_rci";
  P 24386 17 "intel_rci";
  P 24465 6 "tonidods";
  P 24465 17 "tonidods";
  P 24554 6 "binkp";
  P 24554 17 "binkp";
  P 24577 6 "bilobit";
  P 24666 6 "sdtvwcam";
  P 24676 6 "canditv";
  P 24676 17 "canditv";
  P 24677 6 "flashfiler";
  P 24677 17 "flashfiler";
  P 24678 6 "proactivate";
  P 24678 17 "proactivate";
  P 24680 6 "tcc-http";
  P 24680 17 "tcc-http";
  P 24754 6 "cslg";
  P 24850 6 "assoc-disc";
  P 24922 6 "find";
  P 24922 17 "find";
  P 25000 6 "icl-twobase1";
  P 25000 17 "icl-twobase1";
  P 25001 6 "icl-twobase2";
  P 25001 17 "icl-twobase2";
  P 25002 6 "icl-twobase3";
  P 25002 17 "icl-twobase3";
  P 25003 6 "icl-twobase4";
  P 25003 17 "icl-twobase4";
  P 25004 6 "icl-twobase5";
  P 25004 17 "icl-twobase5";
  P 25005 6 "icl-twobase6";
  P 25005 17 "icl-twobase6";
  P 25006 6 "icl-twobase7";
  P 25006 17 "icl-twobase7";
  P 25007 6 "icl-twobase8";
  P 25007 17 "icl-twobase8";
  P 25008 6 "icl-twobase9";
  P 25008 17 "icl-twobase9";
  P 25009 6 "icl-twobase10";
  P 25009 17 "icl-twobase10";
  P 25471 6 "rna";
  P 25565 6 "minecraft";
  P 25576 6 "sauterdongle";
  P 25604 6 "idtp";
  P 25793 6 "vocaltec-hos";
  P 25793 17 "vocaltec-hos";
  P 25900 6 "tasp-net";
  P 25900 17 "tasp-net";
  P 25901 6 "niobserver";
  P 25901 17 "niobserver";
  P 25902 6 "nilinkanalyst";
  P 25902 17 "nilinkanalyst";
  P 25903 6 "niprobe";
  P 25903 17 "niprobe";
  P 25954 6 "bf-game";
  P 25955 6 "bf-master";
  P 26000 6 "quake";
  P 26000 17 "quake";
  P 26133 6 "scscp";
  P 26133 17 "scscp";
  P 26208 6 "wnn6_DS";
  P 26208 17 "wnn6-ds";
  P 26257 6 "cockroach";
  P 26260 6 "ezproxy";
  P 26260 17 "ezproxy";
  P 26261 6 "ezmeeting";
  P 26261 17 "ezmeeting";
  P 26262 6 "k3software-svr";
  P 26262 17 "k3software-svr";
  P 26263 6 "k3software-cli";
  P 26263 17 "k3software-cli";
  P 26486 6 "exoline-tcp";
  P 26486 17 "exoline-udp";
  P 26487 6 "exoconfig";
  P 26487 17 "exoconfig";
  P 26489 6 "exonet";
  P 26489 17 "exonet";
  P 26900 17 "hexen2";
  P 27000 6 "flexlm0";
  P 27000 17 "flex-lm";
  P 27001 6 "flexlm1";
  P 27001 17 "flex-lm";
  P 27002 6 "flexlm2";
  P 27002 17 "flex-lm";
  P 27003 6 "flexlm3";
  P 27003 17 "flex-lm";
  P 27004 6 "flexlm4";
  P 27004 17 "flex-lm";
  P 27005 6 "flexlm5";
  P 27005 17 "flex-lm";
  P 27006 6 "flexlm6";
  P 27006 17 "flex-lm"].
Definition services_79 : list service := [
  P 27007 6 "flexlm7";
  P 27007 17 "flex-lm";
  P 27008 6 "flexlm8";
  P 27008 17 "flex-lm";
  P 27009 6 "flexlm9";
  P 27009 17 "flex-lm";
  P 27010 6 "flexlm10";
  P 27015 17 "halflife";
  P 27017 6 "mongod";
  P 27018 6 "mongod";
  P 27019 6 "mongod";
  P 27345 6 "imagepump";
  P 27345 17 "imagepump";
  P 27374 6 "subseven";
  P 27442 6 "jesmsjc";
  P 27442 17 "jesmsjc";
  P 27444 17 "Trinoo_Bcast";
  P 27500 17 "quakeworld";
  P 27504 6 "kopek-httphead";
  P 27504 17 "kopek-httphead";
  P 27665 6 "Trinoo_Master";
  P 27782 6 "ars-vista";
  P 27782 17 "ars-vista";
  P 27876 6 "astrolink";
  P 27910 17 "quake2";
  P 27960 17 "quake3";
  P 27999 6 "tw-auth-key";
  P 27999 17 "tw-auth-key";
  P 28000 6 "nxlmd";
  P 28000 17 "nxlmd";
  P 28001 6 "pqsp";
  P 28017 6 "mongod";
  P 28119 6 "a27-ran-ran";
  P 28200 6 "voxelstorm";
  P 28240 6 "siemensgsm";
  P 28240 17 "siemensgsm";
  P 28589 6 "bosswave";
  P 28910 17 "heretic2";
  P 29118 132 "sgsap";
  P 29167 6 "otmp";
  P 29167 17 "otmp";
  P 29168 132 "sbcap";
  P 29169 132 "iuhsctpassoc";
  P 29999 6 "bingbang";
  P 30000 6 "ndmps";
  P 30001 6 "pago-services1";
  P 30001 17 "pago-services1";
  P 30002 6 "pago-services2";
  P 30002 17 "pago-services2";
  P 30003 6 "amicon-fpsu-ra";
  P 30004 6 "amicon-fpsu-s";
  P 30100 6 "rwp";
  P 30260 6 "kingdomsonline";
  P 30260 17 "kingdomsonline";
  P 30400 6 "gs-realtime";
  P 30832 6 "samsung-disc";
  P 30999 6 "ovobs";
  P 30999 17 "ovobs";
  P 31016 6 "ka-sddp";
  P 31020 6 "autotrac-acp";
  P 31029 6 "yawn";
  P 31029 17 "yawn";
  P 31335 17 "Trinoo_Register";
  P 31337 6 "Elite";
  P 31337 17 "BackOrifice";
  P 31400 6 "pace-licensed";
  P 31416 6 "boinc";
  P 31416 17 "xqosd";
  P 31457 6 "tetrinet";
  P 31457 17 "tetrinet";
  P 31620 6 "lm-mon";
  P 31620 17 "lm-mon";
  P 31685 6 "dsx_monitor";
  P 31727 6 "diagd";
  P 31765 6 "gamesmith-port";
  P 31765 17 "gamesmith-port";
  P 31948 6 "iceedcp_tx";
  P 31948 17 "iceedcp_tx";
  P 31949 6 "iceedcp_rx";
  P 31949 17 "iceedcp_rx";
  P 32034 6 "iracinghelper";
  P 32034 17 "iracinghelper";
  P 32249 6 "t1distproc60";
  P 32249 17 "t1distproc60";
  P 32400 6 "plex";
  P 32483 6 "apm-link";
  P 32483 17 "apm-link";
  P 32635 6 "sec-ntb-clnt";
  P 32635 17 "sec-ntb-clnt";
  P 32636 6 "DMExpress";
  P 32636 17 "DMExpress";
  P 32767 6 "filenet-powsrm";
  P 32767 17 "filenet-powsrm";
  P 32768 6 "filenet-tms";
  P 32768 17 "omad";
  P 32769 6 "filenet-rpc";
  P 32769 17 "filenet-rpc";
  P 32770 6 "sometimes-rpc3";
  P 32770 17 "sometimes-rpc4";
  P 32771 6 "sometimes-rpc5";
  P 32771 17 "sometimes-rpc6";
  P 32772 6 "sometimes-rpc7";
  P 32772 17 "sometimes-rpc8";
  P 32773 6 "sometimes-rpc9";
  P 32773 17 "sometimes-rpc10";
  P 32774 6 "sometimes-rpc11";
  P 32774 17 "sometimes-rpc12";
  P 32775 6 "sometimes-rpc13";
  P 32775 17 "sometimes-rpc14";
  P 32776 6 "sometimes-rpc15";
  P 32776 17 "sometimes-rpc16";
  P 32777 6 "sometimes-rpc17";
  P 32777 17 "sometimes-rpc18";
  P 32778 6 "sometimes-rpc19";
  P 32778 17 "sometimes-rpc20";
  P 32779 6 "sometimes-rpc21";
  P 32779 17 "sometimes-rpc22";
  P 32780 6 "sometimes-rpc23";
  P 32780 17 "sometimes-rpc24";
  P 32786 6 "sometimes-rpc25";
  P 32786 17 "sometimes-rpc26";
  P 32787 6 "sometimes-rpc27";
  P 32787 17 "sometimes-rpc28";
  P 32801 6 "mlsn";
  P 32801 17 "mlsn";
  P 32811 6 "retp";
  P 32896 6 "idmgratm";
  P 32896 17 "idmgratm";
  P 33060 6 "mysqlx";
  P 33123 6 "aurora-balaena";
  P 33123 17 "aurora-balaena";
  P 33331 6 "diamondport";
  P 33331 17 "diamondport";
  P 33333 6 "dgi-serv";
  P 33334 6 "speedtrace";
  P 33434 6 "traceroute";
  P 33434 17 "traceroute";
  P 33435 6 "mtrace";
  P 33656 6 "snip-slave";
  P 33656 17 "snip-slave";
  P 34249 6 "turbonote-2";
  P 34249 17 "turbonote-2";
  P 34378 6 "p-net-local";
  P 34378 17 "p-net-local";
  P 34379 6 "p-net-remote";
  P 34379 17 "p-net-remote";
  P 34567 6 "dhanalakshmi";
  P 34962 6 "profinet-rt";
  P 34962 17 "profinet-rt";
  P 34963 6 "profinet-rtm"].
Definition services_80 : list service := [
  P 34963 17 "profinet-rtm";
  P 34964 6 "profinet-cm";
  P 34964 17 "profinet-cm";
  P 34980 6 "ethercat";
  P 34980 17 "ethercat";
  P 35000 6 "heathview";
  P 35001 6 "rt-viewer";
  P 35002 6 "rt-sound";
  P 35003 6 "rt-devicemapper";
  P 35004 6 "rt-classmanager";
  P 35005 6 "rt-labtracker";
  P 35006 6 "rt-helper";
  P 35100 6 "axio-disc";
  P 35354 6 "kitim";
  P 35355 6 "altova-lm";
  P 35356 6 "guttersnex";
  P 35357 6 "openstack-id";
  P 36001 6 "allpeers";
  P 36001 17 "allpeers";
  P 36411 6 "wlcp";
  P 36412 132 "s1-control";
  P 36422 132 "x2-control";
  P 36423 6 "slmap";
  P 36424 6 "nq-ap";
  P 36443 6 "m2ap";
  P 36444 6 "m3ap";
  P 36462 6 "xw-control";
  P 36524 6 "febooti-aw";
  P 36602 6 "observium-agent";
  P 36700 6 "mapx";
  P 36865 6 "kastenxpipe";
  P 36865 17 "kastenxpipe";
  P 37475 6 "neckar";
  P 37475 17 "neckar";
  P 37483 6 "gdrive-sync";
  P 37601 6 "eftp";
  P 37654 6 "unisys-eportal";
  P 37654 17 "unisys-eportal";
  P 38000 6 "ivs-database";
  P 38001 6 "ivs-insertion";
  P 38002 6 "cresco-control";
  P 38037 6 "landesk-cba";
  P 38037 17 "landesk-cba";
  P 38201 6 "galaxy7-data";
  P 38201 17 "galaxy7-data";
  P 38202 6 "fairview";
  P 38202 17 "fairview";
  P 38203 6 "agpolicy";
  P 38203 17 "agpolicy";
  P 38292 6 "landesk-cba";
  P 38293 17 "landesk-cba";
  P 38412 6 "ng-control";
  P 38422 6 "xn-control";
  P 38472 6 "f1-control";
  P 38800 6 "sruth";
  P 38865 6 "secrmmsafecopya";
  P 39213 17 "sygatefw";
  P 39681 6 "turbonote-1";
  P 39681 17 "turbonote-1";
  P 40000 6 "safetynetp";
  P 40000 17 "safetynetp";
  P 40023 6 "k-patentssensor";
  P 40404 6 "sptx";
  P 40841 6 "cscp";
  P 40841 17 "cscp";
  P 40842 6 "csccredir";
  P 40842 17 "csccredir";
  P 40843 6 "csccfirewall";
  P 40843 17 "csccfirewall";
  P 40853 6 "ortec-disc";
  P 40853 17 "ortec-disc";
  P 41111 6 "fs-qos";
  P 41111 17 "fs-qos";
  P 41121 6 "tentacle";
  P 41230 6 "z-wave-s";
  P 41794 6 "crestron-cip";
  P 41794 17 "crestron-cip";
  P 41795 6 "crestron-ctp";
  P 41795 17 "crestron-ctp";
  P 41796 6 "crestron-cips";
  P 41797 6 "crestron-ctps";
  P 42508 6 "candp";
  P 42508 17 "candp";
  P 42509 6 "candrp";
  P 42509 17 "candrp";
  P 42510 6 "caerpc";
  P 42510 17 "caerpc";
  P 43000 6 "recvr-rc";
  P 43188 6 "reachout";
  P 43188 17 "reachout";
  P 43189 6 "ndm-agent-port";
  P 43189 17 "ndm-agent-port";
  P 43190 6 "ip-provision";
  P 43190 17 "ip-provision";
  P 43191 6 "noit-transport";
  P 43210 6 "shaperai";
  P 43439 6 "eq3-update";
  P 43440 6 "ew-mgmt";
  P 43440 17 "ew-disc-cmd";
  P 43441 6 "ciscocsdb";
  P 43441 17 "ciscocsdb";
  P 44123 6 "z-wave-tunnel";
  P 44321 6 "pmcd";
  P 44321 17 "pmcd";
  P 44322 6 "pmcdproxy";
  P 44322 17 "pmcdproxy";
  P 44323 6 "pmwebapi";
  P 44334 6 "tinyfw";
  P 44442 6 "coldfusion-auth";
  P 44443 6 "coldfusion-auth";
  P 44444 6 "cognex-dataman";
  P 44544 6 "domiq";
  P 44553 6 "rbr-debug";
  P 44553 17 "rbr-debug";
  P 44600 6 "asihpi";
  P 44818 6 "EtherNetIP-2";
  P 44818 17 "EtherNetIP-2";
  P 44900 6 "m3da";
  P 45000 6 "asmp";
  P 45000 17 "ciscopop";
  P 45001 6 "asmps";
  P 45002 6 "rs-status";
  P 45045 6 "synctest";
  P 45054 6 "invision-ag";
  P 45054 17 "invision-ag";
  P 45514 6 "cloudcheck";
  P 45678 6 "eba";
  P 45678 17 "eba";
  P 45824 6 "dai-shell";
  P 45825 6 "qdb2service";
  P 45825 17 "qdb2service";
  P 45966 6 "ssr-servermgr";
  P 45966 17 "ssr-servermgr";
  P 46336 6 "inedo";
  P 46998 6 "spremotetablet";
  P 46999 6 "mediabox";
  P 46999 17 "mediabox";
  P 47000 6 "mbus";
  P 47000 17 "mbus";
  P 47001 6 "winrm";
  P 47100 6 "jvl-mactalk";
  P 47557 6 "dbbrowse";
  P 47557 17 "dbbrowse";
  P 47624 6 "directplaysrvr";
  P 47624 17 "directplaysrvr";
  P 47806 6 "ap";
  P 47806 17 "ap";
  P 47808 6 "bacnet";
  P 47808 17 "bacnet";
  P 47809 6 "presonus-ucnet"].
Definition services_81 : list service := [
  P 48000 6 "nimcontroller";
  P 48000 17 "nimcontroller";
  P 48001 6 "nimspooler";
  P 48001 17 "nimspooler";
  P 48002 6 "nimhub";
  P 48002 17 "nimhub";
  P 48003 6 "nimgtw";
  P 48003 17 "nimgtw";
  P 48004 6 "nimbusdb";
  P 48005 6 "nimbusdbctrl";
  P 48049 6 "3gpp-cbsp";
  P 48050 6 "weandsf";
  P 48128 6 "isnetserv";
  P 48128 17 "isnetserv";
  P 48129 6 "blp5";
  P 48129 17 "blp5";
  P 48556 6 "com-bardac-dw";
  P 48556 17 "com-bardac-dw";
  P 48619 6 "iqobject";
  P 48619 17 "iqobject";
  P 48653 6 "robotraconteur";
  P 49000 6 "matahari";
  P 49001 6 "nusrp";
  P 49150 6 "inspider";
  P 49400 6 "compaqdiag";
  P 50000 6 "ibm-db2";
  P 50002 6 "iiimsf";
  P 54320 6 "bo2k";
  P 54321 17 "bo2k";
  P 61439 6 "netprowler-manager";
  P 61440 6 "netprowler-manager2";
  P 61441 6 "netprowler-sensor";
  P 62078 6 "iphone-sync";
  P 64738 17 "murmur";
  P 65301 6 "pcanywhere";
  P 0 0 "HOPOPT";
  P 0 1 "ICMP";
  P 0 2 "IGMP";
  P 0 4 "IPc4";
  P 0 8 "EGP";
  P 0 9 "IGP";
  P 0 20 "HMP";
  P 0 31 "MFE-NSP";
  P 0 40 "IL";
  P 0 41 "IPv6";
  P 0 46 "RSVP";
  P 0 47 "GRE";
  P 0 50 "ESP";
  P 0 51 "AH";
  P 0 58 "IPv6-ICMP";
  P 0 97 "ETHERIP";
  P 0 103 "PIM";
  P 0 104 "ARIS";
  P 0 105 "SCPS";
  P 0 112 "VRRP";
  P 0 115 "L2TP";
  P 0 132 "SCTP";
  P 0 240 "240"].
Definition service_chunks_4 : list (list service) := [services_64; services_65; services_66; services_67; services_68; services_69; services_70; services_71; services_72; services_73; services_74; services_75; services_76; services_77; services_78; services_79; services_80; services_81].
