(* ===== verification/Rules.v ===== *)
(** Packages [rule] and [service] (src/pkg/util/rule/, src/pkg/util/service/service.go): which
    addresses are internal, and the application of a port. The prefix trees are those of
    github.com/kentik/patricia, a parameter with its documented behaviour. *)
From S2P Require Import Prelude GoStrings GoNet.
From S2P Require Import ServiceTypes.
From S2P Require ServiceTable1 ServiceTable2 ServiceTable3 ServiceTable4.
Local Open Scope Z_scope.

(** ** Services (service/service.go) *)
Definition service_list : list service :=
  concat (ServiceTable1.service_chunks_1 ++ ServiceTable2.service_chunks_2 ++
          ServiceTable3.service_chunks_3 ++ ServiceTable4.service_chunks_4).
Definition Services : gmap Port string := list_to_map ((λ s, (sv_Port s, sv_Name s)) <$> service_list).

(** ** Matches (rule_match.go) *)
Definition Match := Z.                  (* a uint32 *)
Definition MatchNone : Match := 0.
Definition MatchPrivateIP : Match := 1.
Definition MatchPrivateASN : Match := 7.
Definition NewMatch (ruleMatch : Z) : Match := ruleMatch.
Definition Match_Uint32 (m : Match) : Z := m.

(** ** Rules on addresses (ip_rule.go) *)
(** A family of addresses and its trees, as patricia has it for IPv4 and for IPv6:
    [FindDeepestTag] gives a tag that was added with an address which contains the one
    asked for, and with no shorter a prefix than any other that does. *)
Class PrefixTree := {
  Address : Type;
  address_bits : Address → nat;
  address_contains : Address → Address → bool;
  Tree : Type;
  NewTree : Tree;
  Tree_Add : Address → Z → Tree → Tree;
  FindDeepestTag : Tree → Address → bool * Z }.

Definition Tree_of `{PrefixTree} (l : list (Address * Z)) : Tree :=
  fold_left (λ t '(a, tag), Tree_Add a tag t) l NewTree.

Class PrefixTreeLaws `{PrefixTree} := {
  find_none l x tag : FindDeepestTag (Tree_of l) x = (false, tag) →
    ∀ a tag', (a, tag') ∈ l → address_contains a x = false;
  find_some l x tag : FindDeepestTag (Tree_of l) x = (true, tag) →
    ∃ a, (a, tag) ∈ l ∧ address_contains a x = true ∧
      ∀ a' tag', (a', tag') ∈ l → address_contains a' x = true → (address_bits a' ≤ address_bits a)%nat }.

(** The two families, and the parser of prefixes; [NewIPv6Address] has the result of
    [ip.To16()], which is nil for a nil address. *)
Class Patricia := {
  V4 :: PrefixTree;
  V6 :: PrefixTree;
  NewIPv4AddressFromBytes : list byte → Z → @Address V4;
  NewIPv6Address : option (list byte) → Z → @Address V6;
  ParseIPFromString : string → res (option (@Address V4) * option (@Address V6)) }.

Class PatriciaLaws `{Patricia} := {
  V4_laws :: @PrefixTreeLaws V4;
  V6_laws :: @PrefixTreeLaws V6;
  parse_v4 s ip n : ParseCIDR s = Some (ip, n) → length (Net_Mask n) = 4%nat →
    ∃ a, ParseIPFromString s = Ok (Some a, None) ∧ ∀ b, length b = 4%nat →
      address_contains a (NewIPv4AddressFromBytes b 32) = IPNet_Contains n (Some b);
  parse_v6 s ip n : ParseCIDR s = Some (ip, n) → length (Net_Mask n) = 16%nat →
    ∃ a, ParseIPFromString s = Ok (None, Some a) ∧ ∀ b, length b = 16%nat → To4 b = None →
      address_contains a (NewIPv6Address (Some b) 128) = IPNet_Contains n (Some b) }.

Section rules.
Context `{Patricia}.

Record IPAddressRules := mkIPAddressRules { treeV4 : @Tree V4; treeV6 : @Tree V6 }.
Definition NewIPAddressRules : IPAddressRules := mkIPAddressRules (@NewTree V4) (@NewTree V6).

Definition AddIPAddress (ipAddress : string) (matchType : Match) (r : IPAddressRules) : res IPAddressRules :=
  match ParseIPFromString ipAddress with
  | Err err => Err (Errorf "Error parsing IP address: %s" [FErr err])
  | Ok (Some v4Addr, _) => Ok (mkIPAddressRules (Tree_Add v4Addr (Match_Uint32 matchType) (treeV4 r)) (treeV6 r))
  | Ok (None, Some v6Addr) => Ok (mkIPAddressRules (treeV4 r) (Tree_Add v6Addr (Match_Uint32 matchType) (treeV6 r)))
  | Ok (None, None) => Ok r
  | Panic why => Panic why
  | OutOfFuel => OutOfFuel
  end.

(** [ip.To4()] and [ip.To16()] of an address that may be nil. *)
Definition Check (ip : option IP) (r : IPAddressRules) : Match :=
  let '(found, ret) :=
    match ip ≫= To4 with
    | Some ipv4 => FindDeepestTag (treeV4 r) (NewIPv4AddressFromBytes ipv4 32)
    | None => FindDeepestTag (treeV6 r) (NewIPv6Address (ip ≫= To16) 128)
    end in
  if found : bool then NewMatch ret else MatchNone.

(** ** The rule set (rule.go) *)
Definition INTERNAL_IPS : list string := [
  "0.0.0.0/8"; "127.0.0.0/8"; "100.64.0.0/10"; "10.0.0.0/8"; "172.16.0.0/12"; "192.168.0.0/16";
  "169.254.0.0/16"; "192.0.0.0/24"; "192.0.2.0/24"; "192.18.0.0/15"; "198.51.100.0/24";
  "203.0.113.0/24"; "224.0.0.0/4"; "192.88.99.0/24"; "240.0.0.0/4"; "fc00::/7"; "fe80::/10"]%string.

Record RuleSet := mkRuleSet { ipAddressRules : IPAddressRules; portRules : gmap Z string }.
Record CustomRule := mkCustomRule { Ports : list Z; Rule_Name : string }.


Definition add_internal (r : IPAddressRules) (line : string) : IPAddressRules :=
  match AddIPAddress (TrimSpace line) MatchPrivateIP r with Ok r' => r' | _ => r end.
Definition internal_rules : IPAddressRules := fold_left add_internal INTERNAL_IPS NewIPAddressRules.

Definition add_custom (m : gmap Z string) (custom : CustomRule) : gmap Z string :=
  fold_left (λ m port, <[port := Rule_Name custom]> m) (Ports custom) m.

(** [customs] is what reading and parsing the file named [appMap] gives. *)
Definition NewRuleSet (appMap : string) (customs : res (list CustomRule)) : res RuleSet :=
  if String.eqb appMap "" then Ok (mkRuleSet internal_rules ∅)
  else customs ← customs; Ok (mkRuleSet internal_rules (fold_left add_custom customs ∅)).

Definition matchesPrivateASN (as_ : Z) : bool :=
  ((64512 <=? as_) && (as_ <=? 65534)) || ((4200000000 <=? as_) && (as_ <=? 4294967294)).

Definition IsInternal (ip : option IP) (as_ : Z) (r : RuleSet) : bool :=
  if Check ip (ipAddressRules r) =? MatchPrivateIP then true
  else if matchesPrivateASN as_ then true else false.

Definition GetService (ip : option IP) (port protocol : Z) (r : RuleSet) : string * bool :=
  match portRules r !! port with
  | Some app => (app, true)
  | None =>
      match Services !! mkPort port protocol with
      | Some app => (app, true)
      | None => (EmptyString, false)
      end
  end.

(** ** Internal addresses *)
(** The networks of a list of prefixes, and the rules made of them. *)
Definition nets (lines : list string) : list IPNet := omap (λ s, snd <$> ParseCIDR (TrimSpace s)) lines.
Definition is_v4 (n : IPNet) : Prop := length (Net_Mask n) = 4%nat.
#[local] Instance is_v4_dec n : Decision (is_v4 n) := decide (_ = _).
Definition rule4 (x : @Address V4 * Z) (n : IPNet) : Prop :=
  x.2 = MatchPrivateIP ∧ ∀ b, length b = 4%nat →
    address_contains x.1 (NewIPv4AddressFromBytes b 32) = IPNet_Contains n (Some b).
Definition rule6 (x : @Address V6 * Z) (n : IPNet) : Prop :=
  x.2 = MatchPrivateIP ∧ ∀ b, length b = 16%nat → To4 b = None →
    address_contains x.1 (NewIPv6Address (Some b) 128) = IPNet_Contains n (Some b).

Context `{!PatriciaLaws}.

Lemma Tree_of_snoc (T : PrefixTree) (l : list (@Address T * Z)) a tag :
  Tree_of (l ++ [(a, tag)]) = Tree_Add a tag (Tree_of l).
Proof. unfold Tree_of. by rewrite fold_left_app. Qed.

Lemma add_internal_nets lines : Forall (λ s, is_Some (ParseCIDR (TrimSpace s))) lines → ∀ k4 k6,
  ∃ l4 l6, fold_left add_internal lines (mkIPAddressRules (Tree_of k4) (Tree_of k6)) =
      mkIPAddressRules (Tree_of (k4 ++ l4)) (Tree_of (k6 ++ l6)) ∧
    Forall2 rule4 l4 (filter is_v4 (nets lines)) ∧ Forall2 rule6 l6 (filter (λ n, ¬ is_v4 n) (nets lines)).
Proof.
  induction 1 as [|s lines [[ip n] E] _ IH]; intros k4 k6.
  { exists [], []. rewrite !app_nil_r. by repeat constructor. }
  unfold nets. cbn [omap list_omap fold_left]. rewrite E. cbn [fmap option_fmap option_map snd].
  fold (nets lines). unfold add_internal at 2, AddIPAddress. rewrite !filter_cons.
  destruct (ParseCIDR_inv _ _ _ E) as (addr & _ & ones & _ & _ & _ & Hl). cbv zeta in Hl. destruct Hl as (_ & Hm & _).
  destruct (decide (is_v4 n)) as [H4|H4].
  - destruct (parse_v4 _ _ _ E H4) as (a & -> & Ha). cbn [mbind res_bind treeV4 treeV6]. rewrite <-Tree_of_snoc.
    destruct (IH (k4 ++ [(a, Match_Uint32 MatchPrivateIP)]) k6) as (l4 & l6 & E' & H1 & H2).
    exists ((a, Match_Uint32 MatchPrivateIP) :: l4), l6. rewrite E', <-app_assoc. split; [done|]. split; [by constructor|].
    rewrite decide_False by tauto. exact H2.
  - assert (length (Net_Mask n) = 16%nat) as H16.
    { unfold is_v4 in H4. rewrite Hm, CIDRMask_length in *. by repeat case_match. }
    destruct (parse_v6 _ _ _ E H16) as (a & -> & Ha). cbn [mbind res_bind treeV4 treeV6]. rewrite <-Tree_of_snoc.
    destruct (IH k4 (k6 ++ [(a, Match_Uint32 MatchPrivateIP)])) as (l4 & l6 & E' & H1 & H2).
    exists l4, ((a, Match_Uint32 MatchPrivateIP) :: l6). rewrite E', <-app_assoc. split; [done|]. split; [done|].
    rewrite decide_True by done. by constructor.
Qed.

(** A tree of such rules finds an address just when one of the networks holds it. *)
Lemma find_rules {N} (T : PrefixTree) (TL : PrefixTreeLaws) (R : @Address T * Z → N → Prop) (holds : N → bool) x l ns :
  (∀ y n, R y n → y.2 = MatchPrivateIP ∧ address_contains y.1 x = holds n) → Forall2 R l ns →
  (let '(found, ret) := FindDeepestTag (Tree_of l) x in if found then NewMatch ret else MatchNone) =
    if existsb holds ns then MatchPrivateIP else MatchNone.
Proof.
  intros HR Hl. destruct (FindDeepestTag (Tree_of l) x) as [[] tag] eqn:E.
  - destruct (find_some _ _ _ E) as (a & Ha & Hc & _). apply list_elem_of_lookup in Ha as [i Hi].
    destruct (Forall2_lookup_l _ _ _ _ _ Hl Hi) as (n & Hn & Hr). destruct (HR _ _ Hr) as [Ht Hh]. cbn [fst snd] in Ht, Hh.
    replace (existsb holds ns) with true; [done|]. symmetry. apply existsb_exists. exists n.
    split; [by eapply list_elem_of_In, list_elem_of_lookup_2|]. by rewrite <-Hh.
  - replace (existsb holds ns) with false; [done|]. symmetry. apply not_true_is_false. rewrite existsb_exists.
    intros (n & Hn & Hh). apply list_elem_of_In, list_elem_of_lookup in Hn as [i Hi].
    destruct (Forall2_lookup_r _ _ _ _ _ Hl Hi) as ([a tag'] & Hy & Hr). destruct (HR _ _ Hr) as [Ht Hc]. cbn [fst snd] in Hc.
    apply list_elem_of_lookup_2 in Hy. rewrite (find_none _ _ _ E _ _ Hy) in Hc. congruence.
Qed.

Lemma To4_idem b x : To4 b = Some x → To4 x = Some x.
Proof. intros E. destruct (To4_Some _ _ E) as (Hl & _ & _). unfold To4. by rewrite Hl. Qed.
Lemma IPNet_Contains_To4 n b x : To4 b = Some x → IPNet_Contains n (Some b) = IPNet_Contains n (Some x).
Proof. intros E. unfold IPNet_Contains. by rewrite E, (To4_idem _ _ E). Qed.

(** No network of the list holds addresses of the other family. *)
Definition net_size (n : IPNet) : nat := length (default ([], []) (networkNumberAndMask n)).1.
Lemma IPNet_Contains_size n b : IPNet_Contains n (Some b) = true → length (default b (To4 b)) = net_size n.
Proof.
  unfold IPNet_Contains, net_size. destruct (default ([], []) (networkNumberAndMask n)) as [nn m].
  by intros [E%Nat.eqb_eq _]%andb_true_iff.
Qed.

Definition internal_nets : list IPNet := nets INTERNAL_IPS.
Lemma internal_nets_ok :
  forallb (λ s, match ParseCIDR (TrimSpace s) with Some _ => true | None => false end) INTERNAL_IPS &&
  forallb (λ n, (net_size n =? if decide (is_v4 n) then 4 else 16)%nat) internal_nets = true.
Proof. vm_compute. reflexivity. Qed.

Lemma internal_sizes : Forall (λ n, net_size n = if decide (is_v4 n) then 4%nat else 16%nat) internal_nets.
Proof.
  pose proof internal_nets_ok as [_ H1]%andb_true_iff. apply Forall_forall. intros n Hn.
  rewrite forallb_forall in H1. apply list_elem_of_In, H1 in Hn. by apply Nat.eqb_eq in Hn.
Qed.

Lemma existsb_filter {A} (P : A → Prop) `{∀ x, Decision (P x)} (f : A → bool) l :
  (∀ x, x ∈ l → f x = true → P x) → existsb f (filter P l) = existsb f l.
Proof.
  intros Hf. apply eq_true_iff_eq. rewrite !existsb_exists. split; intros (x & Hx & E); exists x; (split; [|done]);
    rewrite <-list_elem_of_In in *; [by apply list_elem_of_filter in Hx as [_ ?]|].
  apply list_elem_of_filter. split; [|done]. by apply Hf.
Qed.

Lemma Check_internal b : length b = 4%nat ∨ length b = 16%nat →
  Check (Some b) internal_rules =
    if existsb (λ n, IPNet_Contains n (Some b)) internal_nets then MatchPrivateIP else MatchNone.
Proof.
  intros Hb. assert (Forall (λ s, is_Some (ParseCIDR (TrimSpace s))) INTERNAL_IPS) as Hok.
  { pose proof internal_nets_ok as [H1 _]%andb_true_iff. apply Forall_forall. intros s Hs. rewrite forallb_forall in H1.
    apply list_elem_of_In, H1 in Hs. by destruct (ParseCIDR _). }
  destruct (add_internal_nets _ Hok [] []) as (l4 & l6 & E & H4 & H6).
  unfold internal_rules, NewIPAddressRules. change (@NewTree V4) with (@Tree_of V4 []). change (@NewTree V6) with (@Tree_of V6 []).
  rewrite E. fold internal_nets in H4, H6. unfold Check. cbn [mbind option_bind app treeV4 treeV6].
  pose proof internal_sizes as Hs. rewrite Forall_forall in Hs. destruct (To4 b) as [x|] eqn:Ex.
  - destruct (To4_Some _ _ Ex) as (Hx & _ & _).
    rewrite (find_rules V4 V4_laws rule4 (λ n, IPNet_Contains n (Some b)) _ _ _) with (2 := H4).
    2: { intros [a tag] n [Ht Hc]. split; [exact Ht|]. by rewrite (IPNet_Contains_To4 _ _ _ Ex), Hc. }
    rewrite existsb_filter; [done|]. intros n Hn Hc%IPNet_Contains_size. rewrite Ex in Hc. cbn [default from_option id] in Hc.
    rewrite (Hs n Hn) in Hc. case_decide; [done|]. lia.
  - assert (length b = 16%nat) as Hb16. { destruct Hb as [Hb|]; [|done]. unfold To4 in Ex. by rewrite Hb in Ex. }
    unfold To16. rewrite Hb16. cbn [Nat.eqb].
    rewrite (find_rules V6 V6_laws rule6 (λ n, IPNet_Contains n (Some b)) _ _ _) with (2 := H6).
    2: { intros [a tag] n [Ht Hc]. split; [exact Ht|]. by apply Hc. }
    rewrite existsb_filter; [done|]. intros n Hn Hc%IPNet_Contains_size. rewrite Ex in Hc. cbn [default from_option id] in Hc.
    rewrite (Hs n Hn) in Hc. case_decide; [|done]. lia.
Qed.

(** Whatever the custom applications, an address is internal just when a network of the
    list of internal ones holds it, as Go's net package reads the list, or when its AS number
    is one of the two ranges of private numbers. *)
Theorem IsInternal_iff appMap customs r b as_ : NewRuleSet appMap customs = Ok r →
  length b = 4%nat ∨ length b = 16%nat →
  IsInternal (Some b) as_ r = true ↔
    (∃ s ip n, s ∈ INTERNAL_IPS ∧ ParseCIDR s = Some (ip, n) ∧ IPNet_Contains n (Some b) = true) ∨
    64512 ≤ as_ ≤ 65534 ∨ 4200000000 ≤ as_ ≤ 4294967294.
Proof.
  intros Hr Hb. assert (ipAddressRules r = internal_rules) as Hi.
  { unfold NewRuleSet in Hr. destruct (String.eqb appMap ""); [by injection Hr as <-|].
    destruct customs; cbn [mbind res_bind] in Hr; try done. by injection Hr as <-. }
  assert (existsb (λ n, IPNet_Contains n (Some b)) internal_nets = true ↔
    ∃ s ip n, s ∈ INTERNAL_IPS ∧ ParseCIDR s = Some (ip, n) ∧ IPNet_Contains n (Some b) = true) as Hn.
  { assert (∀ s, s ∈ INTERNAL_IPS → TrimSpace s = s) as Ht.
    { intros s Hs. unfold INTERNAL_IPS in Hs. repeat (apply elem_of_cons in Hs as [->|Hs]; [reflexivity|]). by apply elem_of_nil in Hs. }
    rewrite existsb_exists. unfold internal_nets, nets. setoid_rewrite <-list_elem_of_In.
    setoid_rewrite list_elem_of_omap. split.
    - intros (n & (s & Hs & Hn) & Hc). rewrite (Ht s Hs) in Hn.
      destruct (ParseCIDR s) as [[ip n']|] eqn:E; [|done]. injection Hn as ->. by exists s, ip, n.
    - intros (s & ip & n & Hs & E & Hc). exists n. split; [|done]. exists s. by rewrite (Ht s Hs), E. }
  unfold IsInternal. rewrite Hi, Check_internal by done. rewrite <-Hn. unfold matchesPrivateASN.
  destruct (existsb _ _); cbn; [by split; auto|]. destruct (_ || _) eqn:Ea.
  - split; [|done]. intros _. right. lia.
  - split; [done|]. intros [?|?]; [done|]. lia.
Qed.
End rules.

(** ** Applications of ports *)
(** No two of a list of keys are equal, decided with the map of those seen. *)
Fixpoint distinct_from (seen : gmap Z ()) (l : list Z) : bool :=
  match l with
  | [] => true
  | x :: l => match seen !! x with Some _ => false | None => distinct_from (<[x := ()]> seen) l end
  end.
Lemma distinct_from_NoDup l : ∀ seen, distinct_from seen l = true → NoDup l ∧ ∀ x, x ∈ l → seen !! x = None.
Proof.
  induction l as [|x l IH]; intros seen; cbn [distinct_from].
  { intros _. split; [constructor|]. by intros ? ?%elem_of_nil. }
  destruct (seen !! x) eqn:E; [done|]. intros [Hn Hs]%IH. split.
  - constructor; [|done]. intros Hx%Hs. by rewrite lookup_insert_eq in Hx.
  - intros y [->|Hy]%elem_of_cons; [done|]. apply Hs in Hy. by apply lookup_insert_None in Hy as [? _].
Qed.

Definition port_code (p : Port) : Z := Number p * 256 + Protocol p.
Lemma service_ports : distinct_from ∅ ((λ s, port_code (sv_Port s)) <$> service_list) = true.
Proof. vm_compute. reflexivity. Qed.

Lemma Services_spec s : s ∈ service_list → Services !! sv_Port s = Some (sv_Name s).
Proof.
  intros Hs. unfold Services. apply elem_of_list_to_map_1.
  - rewrite <-list_fmap_compose. destruct (distinct_from_NoDup _ _ service_ports) as [Hn _].
    apply (NoDup_fmap_1 port_code). rewrite <-list_fmap_compose. exact Hn.
  - apply list_elem_of_fmap. by exists s.
Qed.
Lemma Services_inv p name : Services !! p = Some name → ∃ s, s ∈ service_list ∧ sv_Port s = p ∧ sv_Name s = name.
Proof.
  unfold Services. intros E%elem_of_list_to_map_2. apply list_elem_of_fmap in E as (s & [= -> ->] & Hs). by exists s.
Qed.

(** The last rule of the custom applications that lists the port. *)
Definition custom_app (customs : list CustomRule) (port : Z) : option string :=
  last (Rule_Name <$> filter (λ c, port ∈ Ports c) customs).

Lemma add_custom_lookup m c port : add_custom m c !! port = if decide (port ∈ Ports c) then Some (Rule_Name c) else m !! port.
Proof.
  unfold add_custom. revert m. induction (Ports c) as [|p l IH]; intros m; cbn [fold_left].
  { by rewrite decide_False by apply not_elem_of_nil. }
  rewrite IH. destruct (decide (port ∈ l)); [by rewrite decide_True by (by right)|].
  destruct (decide (port = p)) as [->|]; [by rewrite lookup_insert_eq, decide_True by left|].
  rewrite lookup_insert_ne by done. rewrite decide_False; [done|]. by intros [?|?]%elem_of_cons.
Qed.

Lemma custom_lookup (customs : list CustomRule) port : fold_left add_custom customs ∅ !! port = custom_app customs port.
Proof.
  induction customs as [|c customs IH] using rev_ind; [done|]. unfold custom_app.
  rewrite fold_left_app, filter_app, fmap_app, filter_cons, filter_nil. cbn [fold_left]. rewrite add_custom_lookup.
  case_decide; cbn [fmap list_fmap]; [by rewrite last_snoc|]. by rewrite app_nil_r, IH.
Qed.

(** The application of a port is the last custom one that lists it, whatever the protocol,
    else the registered one of the port and the protocol, which the table gives once. *)
Theorem GetService_spec `{Patricia} appMap customs r ip port protocol : NewRuleSet appMap (Ok customs) = Ok r →
  GetService ip port protocol r =
    match (if String.eqb appMap "" then None else custom_app customs port) with
    | Some app => (app, true)
    | None =>
        match list_find (λ s, sv_Port s = mkPort port protocol) service_list with
        | Some (_, s) => (sv_Name s, true)
        | None => (EmptyString, false)
        end
    end.
Proof.
  unfold NewRuleSet. intros E. assert (portRules r !! port = if String.eqb appMap "" then None else custom_app customs port) as Hp.
  { destruct (String.eqb appMap ""); cbn [mbind res_bind] in E; injection E as <-; cbn [portRules]; [apply lookup_empty|].
    apply custom_lookup. }
  unfold GetService. rewrite Hp. destruct (if String.eqb appMap "" then None else custom_app customs port); [done|].
  destruct (list_find _ service_list) as [[i s]|] eqn:El.
  - apply list_find_Some in El as (Hs & <- & _). apply list_elem_of_lookup_2, Services_spec in Hs. by rewrite Hs.
  - destruct (Services !! mkPort port protocol) as [name|] eqn:Es; [|done].
    apply Services_inv in Es as (s & Hs & Hk & _). apply list_find_None in El. by destruct (proj1 (Forall_forall _ _) El s Hs).
Qed.

(** ** A tree with the documented behaviour *)
(** Addresses are networks, and a tree is the list of what was added; the deepest is the
    first of those with the longest prefix. *)
Definition deepest (x : IPNet) (best : option (IPNet * Z)) (e : IPNet * Z) : option (IPNet * Z) :=
  if IPNet_Contains e.1 (Some (Net_IP x)) then
    match best with
    | Some b => if decide (be_decode (Net_Mask b.1) < be_decode (Net_Mask e.1)) then Some e else best
    | None => Some e
    end
  else best.
#[local] Instance list_tree : PrefixTree := {|
  Address := IPNet;
  address_bits n := Z.to_nat (be_decode (Net_Mask n));
  address_contains a x := IPNet_Contains a (Some (Net_IP x));
  Tree := list (IPNet * Z);
  NewTree := [];
  Tree_Add a tag t := t ++ [(a, tag)];
  FindDeepestTag t x :=
    match fold_left (deepest x) t None with Some (_, tag) => (true, tag) | None => (false, 0) end |}.

Lemma list_tree_of l : Tree_of l = l.
Proof.
  unfold Tree_of. cbn. enough (∀ t, fold_left (λ t '(a, tag), t ++ [(a, tag)]) l t = t ++ l) as -> by done.
  induction l as [|[a tag] l IH]; intros t; cbn; [by rewrite app_nil_r|]. by rewrite IH, <-app_assoc.
Qed.

(** What the search has after any part of the list. *)
Lemma deepest_spec x l :
  match fold_left (deepest x) l None with
  | Some e => e ∈ l ∧ IPNet_Contains e.1 (Some (Net_IP x)) = true ∧
      ∀ e', e' ∈ l → IPNet_Contains e'.1 (Some (Net_IP x)) = true → be_decode (Net_Mask e'.1) ≤ be_decode (Net_Mask e.1)
  | None => ∀ e, e ∈ l → IPNet_Contains e.1 (Some (Net_IP x)) = false
  end.
Proof.
  induction l as [|e l IH] using rev_ind; [by intros ? ?%elem_of_nil|]. rewrite fold_left_app. cbn [fold_left].
  unfold deepest at 1. destruct (IPNet_Contains e.1 (Some (Net_IP x))) eqn:E;
    destruct (fold_left (deepest x) l None) as [b|]; try case_decide.
  - split; [apply elem_of_app; right; by left|]. split; [done|]. intros e' [He'| ->%list_elem_of_singleton]%elem_of_app Hc.
    + destruct IH as (_ & _ & IH). specialize (IH e' He' Hc). lia.
    + lia.
  - destruct IH as (Hb & Hc & IH). split; [apply elem_of_app; by left|]. split; [done|].
    intros e' [He'| ->%list_elem_of_singleton]%elem_of_app Hc'; [by apply IH|lia].
  - split; [apply elem_of_app; right; by left|]. split; [done|]. intros e' [He'| ->%list_elem_of_singleton]%elem_of_app Hc; [|lia].
    rewrite (IH e' He') in Hc. done.
  - destruct IH as (Hb & Hc & IH). split; [apply elem_of_app; by left|]. split; [done|].
    intros e' [He'| ->%list_elem_of_singleton]%elem_of_app Hc'; [by apply IH|congruence].
  - intros e' [He'| ->%list_elem_of_singleton]%elem_of_app; [by apply IH|done].
Qed.

#[local] Instance list_tree_laws : PrefixTreeLaws.
Proof.
  split; intros l x tag; cbn [FindDeepestTag list_tree]; rewrite list_tree_of; pose proof (deepest_spec x l) as Hd;
    destruct (fold_left (deepest x) l None) as [[a t]|]; intros [=]; subst.
  - intros a tag' Ha. by apply Hd in Ha.
  - destruct Hd as (Ha & Hc & Hm). exists a. split; [done|]. split; [done|]. intros a' tag' Ha' Hc'.
    apply (Hm _ Ha') in Hc'. cbn in Hc' |- *. lia.
Qed.

#[local] Instance list_patricia : Patricia := {|
  V4 := list_tree; V6 := list_tree;
  NewIPv4AddressFromBytes b n := mkIPNet b (CIDRMask (Z.to_nat n) 4);
  NewIPv6Address b n := mkIPNet (default [] b) (CIDRMask (Z.to_nat n) 16);
  ParseIPFromString s :=
    match ParseCIDR s with
    | Some (_, n) => Ok (if decide (is_v4 n) then (Some n, None) else (None, Some n))
    | None => Err (Errorf "invalid" [])
    end |}.
#[local] Instance list_patricia_laws : PatriciaLaws.
Proof.
  split; try apply _; intros s ip n E Hl; exists n; cbn; rewrite E; unfold is_v4.
  - by rewrite decide_True.
  - by rewrite decide_False by lia.
Qed.

Lemma IsInternal_iff_witness :
  (∃ r, NewRuleSet "" (Ok []) = Ok r ∧
    IsInternal (ParseIP "198.18.0.1") 65000 r = true ∧ IsInternal (ParseIP "10.1.2.3") 0 r = true) ∧
  ∃ ip4, ParseIP "192.18.0.1" = Some ip4 ∧ length ip4 = 16%nat.
Proof.
  split; [|by eexists; split; [vm_compute; reflexivity|]].
  eexists. split; [reflexivity|].
  destruct (ParseIP "198.18.0.1") as [b1|] eqn:E1; [|by vm_compute in E1].
  destruct (ParseIP "10.1.2.3") as [b2|] eqn:E2; [|by vm_compute in E2].
  split; (apply (IsInternal_iff "" (Ok [])); [reflexivity|right; by eapply ParseIP_length|]).
  - right. lia.
  - left. exists "10.0.0.0/8"%string. eexists _, _. split; [unfold INTERNAL_IPS; set_solver|].
    split; [vm_compute; reflexivity|]. vm_compute in E2. injection E2 as <-. vm_compute. reflexivity.
Defined.

(** The list has 192.18.0.0/15, of registered addresses, and not the 198.18.0.0/15 of RFC 2544. *)
Example benchmark_networks :
  (λ s, IsInternal (ParseIP s) 0 (mkRuleSet internal_rules ∅)) <$> ["192.18.0.1"; "198.18.0.1"]%string = [true; false].
Proof. vm_compute. reflexivity. Qed.

(** A custom rule and the table; the rule gives the port a name under any protocol. *)
Definition apps1 : list CustomRule := [mkCustomRule [80; 8080] "web"; mkCustomRule [8080] "proxy"].
Lemma GetService_spec_witness :
  ∃ r, NewRuleSet "apps.yml" (Ok apps1) = Ok r ∧
    GetService None 8080 6 r = ("proxy"%string, true) ∧ GetService None 22 6 r = ("ssh"%string, true) ∧
    GetService None 80 132 r = ("web"%string, true).
Proof.
  eexists. split; [reflexivity|].
  split; [|split]; rewrite (GetService_spec "apps.yml" apps1) by reflexivity; vm_compute; reflexivity.
Defined.
