(* ===== verification/KtHelpers.v ===== *)
(** Helpers of package [kt] (src/pkg/kt/helpers.go and utf8.go): values of the environment,
    names of columns, and texts that are valid UTF-8. *)
From S2P Require Import Prelude GoStrings GoNet.
Local Open Scope Z_scope.

(** ** The environment (helpers.go) *)
(** [os.LookupEnv] is a parameter: the value of a variable that is set. *)
Section env.
Variable LookupEnv : string → option string.

Definition LookupEnvString (key defaultVal : string) : string :=
  match LookupEnv key with Some val => val | None => defaultVal end.
Definition LookupEnvInt (key : string) (defaultVal : Z) : Z :=
  match LookupEnv key with
  | Some val => match Atoi val with Some ival => ival | None => defaultVal end
  | None => defaultVal
  end.
Definition LookupEnvBool (key : string) (defaultVal : bool) : bool :=
  match LookupEnv key with Some val => String.eqb (ToLower val) "true" | None => defaultVal end.
End env.

Definition FixupName (name : string) : string := ToLower (ReplaceAll name " " "_").
Definition Int2ip (nn : Z) : IP := be_encode 4 nn.

(** ** UTF-8 (utf8.go) *)
(** [unicode/utf8.Valid]: the bytes that may follow a lead byte, and the range of the first
    of them; no overlong forms, no surrogates, nothing above U+10FFFF. *)
Definition continuation (b : Z) : bool := (128 <=? b) && (b <=? 191).
Definition utf8_lead (b : Z) : option (nat * Z * Z) :=
  if b <? 128 then Some (0%nat, 0, 0)
  else if (194 <=? b) && (b <=? 223) then Some (1%nat, 128, 191)
  else if b =? 224 then Some (2%nat, 160, 191)
  else if (225 <=? b) && (b <=? 236) then Some (2%nat, 128, 191)
  else if b =? 237 then Some (2%nat, 128, 159)
  else if (238 <=? b) && (b <=? 239) then Some (2%nat, 128, 191)
  else if b =? 240 then Some (3%nat, 144, 191)
  else if (241 <=? b) && (b <=? 243) then Some (3%nat, 128, 191)
  else if b =? 244 then Some (3%nat, 128, 143)
  else None.
(** [more] bytes of the current rune are left, the next of them between [lo] and [hi]. *)
Fixpoint utf8_valid (more : nat) (lo hi : Z) (bs : list byte) : bool :=
  match bs, more with
  | [], O => true
  | [], S _ => false
  | b :: bs, O => match utf8_lead (b2z b) with Some (n, lo, hi) => utf8_valid n lo hi bs | None => false end
  | b :: bs, S more => (lo <=? b2z b) && (b2z b <=? hi) && utf8_valid more 128 191 bs
  end.
Definition ValidString (s : string) : bool := utf8_valid 0 0 0 (String.list_byte_of_string s).
Definition EncodeToString (s : string) : string := hex_bytes (String.list_byte_of_string s).

Definition SanitizeUTF8 (s : string) : string :=
  if String.eqb s "" || ValidString s then s else EncodeToString s.
Definition SanitizeUTF8WithHint (s : string) : string * bool :=
  if String.eqb s "" || ValidString s then (s, false) else (EncodeToString s, true).

(** ** Laws *)
Lemma utf8_ascii bs : Forall (λ b, b2z b < 128) bs → utf8_valid 0 0 0 bs = true.
Proof.
  induction 1 as [|b bs Hb _ IH]; [done|]. cbn [utf8_valid]. unfold utf8_lead.
  replace (b2z b <? 128) with true by (symmetry; by apply Z.ltb_lt). exact IH.
Qed.

Lemma ascii_to_byte c : b2z (Ascii.byte_of_ascii c) = Z.of_nat (nat_of_ascii c).
Proof. destruct c as [[] [] [] [] [] [] [] []]; reflexivity. Qed.

Lemma hex_char_ascii d : 0 ≤ d < 16 → b2z (Ascii.byte_of_ascii (hex_char d)) < 128.
Proof.
  intros Hd. rewrite ascii_to_byte. unfold hex_char. rewrite nat_ascii_embedding; [|destruct (d <? 10); lia].
  destruct (d <? 10); lia.
Qed.

Lemma hex_bytes_ascii bs : Forall (λ b, b2z b < 128) (String.list_byte_of_string (hex_bytes bs)).
Proof.
  induction bs as [|b bs IH]; [constructor|]. pose proof (b2z_range b) as Hb.
  unfold hex_bytes in *. cbn [fmap list_fmap foldr]. unfold hex_byte at 1. cbn [String.append String.list_byte_of_string].
  constructor; [|constructor; [|exact IH]]; apply hex_char_ascii.
  - split; [apply Z.div_pos; lia|]. apply Z.div_lt_upper_bound; lia.
  - apply Z.mod_pos_bound. lia.
Qed.

(** What leaves the sanitiser is valid UTF-8 whatever comes in, a valid text unchanged,
    and sanitising again changes nothing. *)
Theorem SanitizeUTF8_valid s :
  ValidString (SanitizeUTF8 s) = true ∧ (ValidString s = true → SanitizeUTF8 s = s) ∧
  SanitizeUTF8 (SanitizeUTF8 s) = SanitizeUTF8 s ∧
  SanitizeUTF8WithHint s = (SanitizeUTF8 s, negb (ValidString s)).
Proof.
  assert (String.eqb s "" || ValidString s = ValidString s) as He.
  { destruct (String.eqb_spec s "") as [->|]; [reflexivity|done]. }
  assert (ValidString (SanitizeUTF8 s) = true) as Hv.
  { unfold SanitizeUTF8. rewrite He. destruct (ValidString s) eqn:E; [done|]. apply utf8_ascii, hex_bytes_ascii. }
  split; [done|]. split; [|split].
  - intros E. unfold SanitizeUTF8. by rewrite He, E.
  - unfold SanitizeUTF8 at 1. by rewrite Hv, orb_true_r.
  - unfold SanitizeUTF8WithHint, SanitizeUTF8. rewrite He. by destruct (ValidString s).
Qed.

(** Two different texts may be sanitised to one: the digits of an invalid text are a valid one. *)
Example sanitize_collides : SanitizeUTF8 (String "255"%char "") = SanitizeUTF8 "ff".
Proof. reflexivity. Qed.
