(* ===== verification/Maps.v ===== *)
(** Name and tag maps: files of tags and of user-defined columns (src/pkg/maps/,
    src/pkg/cat/mapping.go), and tags that are looked up with the Kentik API
    (src/pkg/maps/api/api.go).

    The lines of a file are those its scanner gives; reading and unpacking it are not
    modelled. *)
From S2P Require Import Prelude GoStrings GoNet.
From S2P Require Import Jchf FlowToJCHF.
From S2P Require Import KtHelpers.
Local Open Scope Z_scope.

(** [strconv.FormatInt(in, 16)]. *)
Fixpoint hex_digits (fuel : nat) (z : Z) (acc : string) : string :=
  match fuel with
  | O => acc
  | S fuel =>
      let acc := String (hex_char (z `mod` 16)) acc in
      if z <? 16 then acc else hex_digits fuel (z / 16) acc
  end.
Definition FormatInt16 (z : Z) : string :=
  if z <? 0 then String "-" (hex_digits 16 (- z) EmptyString) else hex_digits 16 z EmptyString.

(** ** Files of tags (maps/file/file.go) *)
Record tagfunc := mkTagfunc { tf_c : string; tf_f : Z → string }.
Record FileTagMapper := mkFileTagMapper {
  tags : gmap Z (gmap string (string * string));
  funcs : gmap string tagfunc;
  kvs : gmap Z string }.

Definition set_tag (id : Z) (col : string) (v : string * string) (m : FileTagMapper) : FileTagMapper :=
  mkFileTagMapper (<[id := <[col := v]> (default ∅ (tags m !! id))]> (tags m)) (funcs m) (kvs m).
Definition set_func (col : string) (f : tagfunc) (m : FileTagMapper) : FileTagMapper :=
  mkFileTagMapper (tags m) (<[col := f]> (funcs m)) (kvs m).
Definition set_kv (id : Z) (v : string) (m : FileTagMapper) : FileTagMapper :=
  mkFileTagMapper (tags m) (funcs m) (<[id := v]> (kvs m)).

Definition load_line (m : FileTagMapper) (text : string) : FileTagMapper :=
  match SplitN 3 text "," with
  | [k; v] => match Atoi k with Some ida => set_kv (wrapu 32 ida) v m | None => m end
  | [a; b; c] =>
      if String.eqb c "to_hex" then set_func a (mkTagfunc (FixupName b) FormatInt16) m
      else match Atoi a with Some ida => set_kv (wrapu 32 ida) (Join [b; c] ",") m | None => m end
  | [a; b; c; d] =>
      match Atoi c with
      | Some ida => set_tag (wrapu 32 ida) (FixupName a) (FixupName b, FixupName d) m
      | None => m
      end
  | _ => m
  end.
(** [scan_err] is what the scanner ended with; an error leaves the mapper as it was. *)
Definition loadPath (lines : list string) (scan_err : option error) (m : FileTagMapper) : res FileTagMapper :=
  let m' := fold_left load_line lines (mkFileTagMapper ∅ ∅ ∅) in
  match scan_err with Some err => Err err | None => Ok m' end.
Definition NewFileTagMapper (file : res (list string * option error)) : res FileTagMapper :=
  '(lines, scan_err) ← file; loadPath lines scan_err (mkFileTagMapper ∅ ∅ ∅).

Definition File_LookupKV (m : FileTagMapper) (k : Z) : string := default EmptyString (kvs m !! k).
Definition File_LookupTagValueBig (m : FileTagMapper) (cid : Cid) (tagval : Z) (colname : string) : option (string * string) :=
  match funcs m !! colname with
  | Some tf => Some (tf_c tf, tf_f tf tagval)
  | None => tags m !! wrapu 32 tagval ≫= (.!! colname)
  end.
Definition File_LookupTagValue (m : FileTagMapper) (cid : Cid) (tagval : Z) (colname : string) : option (string * string) :=
  match funcs m !! colname with
  | Some tf => Some (tf_c tf, tf_f tf tagval)
  | None => tags m !! tagval ≫= (.!! colname)
  end.

(** What the conversion of flows asks for, from a file or from nothing (maps.go). *)
#[export] Instance file_tags (m : FileTagMapper) : TagMapper := {|
  LookupTagValue := File_LookupTagValue m;
  LookupTagValueBig := File_LookupTagValueBig m;
  LookupKV := File_LookupKV m |}.
Definition NullType : TagMapper := {|
  LookupTagValue cid tagval colname := None;
  LookupTagValueBig cid tagval colname := None;
  LookupKV k := EmptyString |}.

(** ** User-defined columns (cat/mapping.go) *)
Definition NewCustomMapper (file : res (gmap Z string)) : res (gmap Z string) :=
  Customs ← file; Ok (fmap (M := gmap Z) FixupName Customs).

Definition udr_type (name : string) : string :=
  if HasPrefix name "INT64_" then UDR_TYPE_BIGINT
  else if HasPrefix name "STR" || HasPrefix name "INET_" then UDR_TYPE_STRING
  else UDR_TYPE_INT.
Definition add_udr {K} `{Countable K} (k : K) (col : string) (u : UDR) (m : gmap K (gmap string UDR)) : gmap K (gmap string UDR) :=
  <[k := <[col := u]> (default ∅ (m !! k))]> m.
Definition udr_line (st : UDRMapper * Z) (text : string) : UDRMapper * Z :=
  let '(um, found) := st in
  match SplitN 3 text "," with
  | [p0; p1; p2; p3] =>
      let udr := mkUDR (FixupName p2) (FixupName p3) (udr_type p1) in
      match Atoi p0 with
      | None => (um, found)
      | Some appId =>
          let app := wraps 32 appId in
          (if 0 <? app then mkUDRMapper (add_udr app (FixupName p1) udr (UDRs um)) (Subtypes um)
           else mkUDRMapper (UDRs um) (add_udr p3 (FixupName p1) udr (Subtypes um)), found + 1)
      end
  | _ => (um, found)
  end.
Definition NewUDRMapper (file : res (list string * option error)) : res (UDRMapper * Z) :=
  '(lines, scan_err) ← file;
  let r := fold_left udr_line lines (mkUDRMapper ∅ ∅, 0) in
  match scan_err with Some err => Err err | None => Ok r end.

(** ** Laws of the files *)
(** The mapping a line gives, as a reader of the file sees it. *)
Definition line_tag (tagval : Z) (col : string) (text : string) : option (string * string) :=
  match SplitN 3 text "," with
  | [a; b; c; d] =>
      match Atoi c with
      | Some ida => if decide (wrapu 32 ida = tagval ∧ FixupName a = col) then Some (FixupName b, FixupName d) else None
      | None => None
      end
  | _ => None
  end.
Definition line_func (col : string) (text : string) : option string :=
  match SplitN 3 text "," with
  | [a; b; c] => if decide (c = "to_hex"%string ∧ a = col) then Some (FixupName b) else None
  | _ => None
  end.

Lemma load_line_spec m text tagval col :
  (tags (load_line m text) !! tagval ≫= (.!! col)) =
    (match line_tag tagval col text with Some v => Some v | None => tags m !! tagval ≫= (.!! col) end) ∧
  funcs (load_line m text) !! col =
    (match line_func col text with Some c => Some (mkTagfunc c FormatInt16) | None => funcs m !! col end).
Proof.
  unfold load_line, line_tag, line_func. destruct (SplitN 3 text ",") as [|a [|b [|c [|d [|]]]]]; try by split.
  - by destruct (Atoi a).
  - destruct (String.eqb_spec c "to_hex") as [->|Hc].
    + split; [done|]. cbn [set_func funcs]. destruct (decide (_ ∧ a = col)) as [[_ ->]|Hn]; [by rewrite lookup_insert_eq|].
      rewrite lookup_insert_ne; [done|]. naive_solver.
    + rewrite decide_False by naive_solver. by destruct (Atoi a).
  - destruct (Atoi c) as [ida|]; [|by split]. cbn [set_tag tags funcs]. split; [|done].
    destruct (decide (wrapu 32 ida = tagval)) as [<-|Hn].
    + rewrite lookup_insert_eq. cbn [mbind option_bind]. destruct (decide (FixupName a = col)) as [<-|Hc].
      * by rewrite lookup_insert_eq, decide_True.
      * rewrite lookup_insert_ne by done. rewrite decide_False by naive_solver. by destruct (tags m !! wrapu 32 ida).
    + rewrite lookup_insert_ne by done. by rewrite decide_False by naive_solver.
Qed.

(** A tag is found in a loaded file under the last line that names the column as a
    hexadecimal one, else under the last line that maps the column and the tag's low 32 bits;
    every other line of the file is without effect on it. *)
Theorem file_tag_lookup lines m cid tagval col : NewFileTagMapper (Ok (lines, None)) = Ok m →
  LookupTagValueBig (TagMapper := file_tags m) cid tagval col =
    match last (omap (line_func col) lines) with
    | Some c => Some (c, FormatInt16 tagval)
    | None => last (omap (line_tag (wrapu 32 tagval) col) lines)
    end.
Proof.
  intros [= <-]. cbn [LookupTagValueBig file_tags]. unfold File_LookupTagValueBig.
  assert (∀ tagval, let m := fold_left load_line lines (mkFileTagMapper ∅ ∅ ∅) in
    (tags m !! tagval ≫= (.!! col)) = last (omap (line_tag tagval col) lines) ∧
    funcs m !! col = (λ c, mkTagfunc c FormatInt16) <$> last (omap (line_func col) lines)) as H.
  { intros tv. cbv zeta. induction lines as [|text lines [IH1 IH2]] using rev_ind; [done|].
    rewrite fold_left_app, !omap_app. cbn [fold_left omap list_omap].
    destruct (load_line_spec (fold_left load_line lines (mkFileTagMapper ∅ ∅ ∅)) text tv col) as [-> ->].
    rewrite IH1, IH2. split.
    - destruct (line_tag tv col text); [by rewrite last_snoc|by rewrite app_nil_r].
    - destruct (line_func col text); [by rewrite last_snoc|by rewrite app_nil_r]. }
  destruct (H (wrapu 32 tagval)) as [-> ->]. by destruct (last (omap (line_func col) lines)).
Qed.

(** A line that defines a column of an application, and one of a subtype. *)
Definition line_udr (app : Z) (col : string) (text : string) : option UDR :=
  match SplitN 3 text "," with
  | [p0; p1; p2; p3] =>
      match Atoi p0 with
      | Some ida => if decide (0 < wraps 32 ida ∧ wraps 32 ida = app ∧ FixupName p1 = col) then Some (mkUDR (FixupName p2) (FixupName p3) (udr_type p1)) else None
      | None => None
      end
  | _ => None
  end.
Definition line_subtype (sub col : string) (text : string) : option UDR :=
  match SplitN 3 text "," with
  | [p0; p1; p2; p3] =>
      match Atoi p0 with
      | Some ida => if decide (wraps 32 ida ≤ 0 ∧ p3 = sub ∧ FixupName p1 = col) then Some (mkUDR (FixupName p2) (FixupName p3) (udr_type p1)) else None
      | None => None
      end
  | _ => None
  end.

Lemma add_udr_lookup {K} `{Countable K} (k k' : K) col col' u m :
  (add_udr k col u m !! k' ≫= (.!! col')) = if decide (k = k' ∧ col = col') then Some u else m !! k' ≫= (.!! col').
Proof.
  unfold add_udr. destruct (decide (k = k')) as [<-|Hn].
  - rewrite lookup_insert_eq. cbn [mbind option_bind]. destruct (decide (col = col')) as [<-|Hc].
    + by rewrite lookup_insert_eq, decide_True.
    + rewrite lookup_insert_ne by done. rewrite decide_False by naive_solver. by destruct (m !! k).
  - rewrite lookup_insert_ne by done. by rewrite decide_False by naive_solver.
Qed.

Lemma udr_line_spec um found text app sub col :
  let um' := (udr_line (um, found) text).1 in
  (UDRs um' !! app ≫= (.!! col)) = (match line_udr app col text with Some u => Some u | None => UDRs um !! app ≫= (.!! col) end) ∧
  (Subtypes um' !! sub ≫= (.!! col)) = (match line_subtype sub col text with Some u => Some u | None => Subtypes um !! sub ≫= (.!! col) end).
Proof.
  unfold udr_line, line_udr, line_subtype. destruct (SplitN 3 text ",") as [|p0 [|p1 [|p2 [|p3 [|]]]]]; try by split.
  destruct (Atoi p0) as [ida|]; [|by split]. cbv zeta.
  destruct (Z.ltb_spec 0 (wraps 32 ida)); cbn [fst UDRs Subtypes]; split; try rewrite add_udr_lookup;
    repeat case_decide; try done; naive_solver lia.
Qed.

(** A loaded file of columns gives a column of an application, or of a subtype, as the
    last line for it does; lines with a positive application never define a subtype's. *)
Theorem NewUDRMapper_lookup lines um found : NewUDRMapper (Ok (lines, None)) = Ok (um, found) → ∀ app sub col,
  (UDRs um !! app ≫= (.!! col)) = last (omap (line_udr app col) lines) ∧
  (Subtypes um !! sub ≫= (.!! col)) = last (omap (line_subtype sub col) lines).
Proof.
  unfold NewUDRMapper. cbn [mbind res_bind]. intros E app sub col.
  assert (um = (fold_left udr_line lines (mkUDRMapper ∅ ∅, 0)).1) as -> by by injection E as ->. clear E.
  induction lines as [|text lines [IH1 IH2]] using rev_ind; [done|].
  rewrite fold_left_app, !omap_app. cbn [fold_left omap list_omap].
  destruct (fold_left udr_line lines (mkUDRMapper ∅ ∅, 0)) as [um' found']. cbn [fst] in *.
  destruct (udr_line_spec um' found' text app sub col) as [-> ->]. rewrite IH1, IH2. split.
  - destruct (line_udr app col text); [by rewrite last_snoc|by rewrite app_nil_r].
  - destruct (line_subtype sub col text); [by rewrite last_snoc|by rewrite app_nil_r].
Qed.

(** ** Tags from the API (maps/api/api.go) *)
Definition CHAN_SLACK : Z := 10000.
Definition MAX_LOOKUP_SET : Z := 2000.

(** The mapper, with what its goroutines hold: the channel of ids to check, the ids that the
    check service has collected, and the collections being looked up. *)
Record ApiTagMapper := mkApi {
  a_tags : gmap Z string;
  searched : gset Z;
  colNames : gmap string string;
  check : list Z;
  lookups : gset Z;
  running : list (gset Z) }.

Definition col_line (m : gmap string string) (text : string) : gmap string string :=
  let line := TrimSpace text in
  if String.eqb line "" then m
  else match SplitN 1 line "," with
  | [a; b] => <[FixupName (TrimSpace a) := FixupName (TrimSpace b)]> m
  | _ => m
  end.
(** [colNameFile] is the file the environment names, if it does. *)
Definition NewApiTagMapper (colNameFile : option (res (list string * option error))) : res ApiTagMapper :=
  match colNameFile with
  | None => Ok (mkApi ∅ ∅ ∅ [] ∅ [])
  | Some file =>
      '(lines, scan_err) ← file;
      match scan_err with
      | Some err => Err err
      | None => Ok (mkApi ∅ ∅ (fold_left col_line lines ∅) [] ∅ [])
      end
  end.

Definition Api_LookupKV (a : ApiTagMapper) (k : Z) : string := default EmptyString (a_tags a !! k).
Definition Api_LookupTagValue (cid : Cid) (tagval : Z) (colname : string) (a : ApiTagMapper) : ApiTagMapper * (string * string * bool) :=
  match colNames a !! colname with
  | None => (a, (colname, EmptyString, false))
  | Some fullColName =>
      if tagval =? 0 then (a, (fullColName, EmptyString, false))
      else match a_tags a !! tagval with
      | Some v => (a, (fullColName, v, true))
      | None =>
          if decide (tagval ∈ searched a) then (a, (fullColName, EmptyString, false))
          else
            (if Z.of_nat (length (check a)) <? CHAN_SLACK then mkApi (a_tags a) (searched a) (colNames a) (check a ++ [tagval]) (lookups a) (running a) else a,
             (fullColName, EmptyString, false))
      end
  end.
Definition Api_LookupTagValueBig (cid : Cid) (tagval : Z) := Api_LookupTagValue cid (wrapu 32 tagval).

(** [go atm.doLookup(ctx, lookups)] and a fresh set. *)
Definition start_lookup (a : ApiTagMapper) : ApiTagMapper :=
  mkApi (a_tags a) (searched a) (colNames a) (check a) ∅ (running a ++ [lookups a]).
(** The two cases of the select of the check service. *)
Definition on_tick (a : ApiTagMapper) : ApiTagMapper := start_lookup a.
Definition on_check (a : ApiTagMapper) : ApiTagMapper :=
  match check a with
  | [] => a
  | v :: rest =>
      let a := mkApi (a_tags a) (searched a) (colNames a) rest ({[v]} ∪ lookups a) (running a) in
      if MAX_LOOKUP_SET <=? Z.of_nat (size (lookups a)) then start_lookup a else a
  end.
(** The [i]-th lookup under way ends, with the answer of the API. *)
Definition doLookup (i : nat) (vals : option (gmap Z string)) (a : ApiTagMapper) : ApiTagMapper :=
  match running a !! i with
  | None => a
  | Some ls =>
      let a := mkApi (a_tags a) (searched a) (colNames a) (check a) (lookups a) (delete i (running a)) in
      if decide (ls = ∅) then a
      else match vals with
      | None => a
      | Some vals => mkApi (vals ∪ a_tags a) (ls ∪ searched a) (colNames a) (check a) (lookups a) (running a)
      end
  end.

(** *** What happens to a mapper, in any order *)
Inductive api_event :=
| Lookup (tagval : Z) (colname : string)   (* a converter asks for a 64-bit value *)
| Tick | Check
| Answer (i : nat) (vals : option (gmap Z string)).

Definition api_step (e : api_event) (a : ApiTagMapper) : ApiTagMapper :=
  match e with
  | Lookup tagval colname => (Api_LookupTagValueBig 0 tagval colname a).1
  | Tick => on_tick a
  | Check => on_check a
  | Answer i vals => doLookup i vals a
  end.
Definition api_run (es : list api_event) (a : ApiTagMapper) : ApiTagMapper := fold_left (λ a e, api_step e a) es a.

(** What a reader of the log of events sees: the ids put on the channel, those of lookups
    that failed, and the answers that came. *)
Definition asked (e : api_event) (a : ApiTagMapper) : gset Z :=
  match e with
  | Lookup tagval colname => if (length (check a) <? length (check (api_step e a)))%nat then {[wrapu 32 tagval]} else ∅
  | _ => ∅
  end.
Definition failed (e : api_event) (a : ApiTagMapper) : gset Z :=
  match e with Answer i None => default ∅ (running a !! i) | _ => ∅ end.
Fixpoint all_asked (es : list api_event) (a : ApiTagMapper) : gset Z :=
  match es with [] => ∅ | e :: es => asked e a ∪ all_asked es (api_step e a) end.
Fixpoint all_failed (es : list api_event) (a : ApiTagMapper) : gset Z :=
  match es with [] => ∅ | e :: es => failed e a ∪ all_failed es (api_step e a) end.
Definition api_held (a : ApiTagMapper) : gset Z :=
  list_to_set (check a) ∪ lookups a ∪ ⋃ running a ∪ searched a.

Lemma held_spec x a : x ∈ api_held a ↔
  x ∈ check a ∨ x ∈ lookups a ∨ (∃ ls, ls ∈ running a ∧ x ∈ ls) ∨ x ∈ searched a.
Proof.
  unfold api_held. rewrite !elem_of_union, elem_of_list_to_set, elem_of_union_list. naive_solver.
Qed.

Lemma held_start a x : x ∈ api_held (start_lookup a) ↔ x ∈ api_held a.
Proof.
  rewrite !held_spec. unfold start_lookup. cbn [check lookups running searched]. setoid_rewrite elem_of_app.
  setoid_rewrite list_elem_of_singleton. set_solver.
Qed.
Lemma held_check a x : x ∈ api_held (on_check a) ↔ x ∈ api_held a.
Proof.
  unfold on_check. destruct (check a) as [|v rest] eqn:E; [done|].
  match goal with |- context [if _ then start_lookup ?b else _] => set (a1 := b) end. cbv zeta.
  assert (x ∈ api_held a1 ↔ x ∈ api_held a) as H1.
  { rewrite !held_spec. subst a1. cbn [check lookups running searched]. rewrite E. set_solver. }
  case_match; [|done]. by rewrite held_start.
Qed.
Lemma delete_elem {A} (l : list A) i x : l !! i = Some x → ∀ y, y ∈ l ↔ y = x ∨ y ∈ delete i l.
Proof. intros E y. rewrite (delete_Permutation _ _ _ E) at 1. apply elem_of_cons. Qed.
Lemma held_answer i vals a x :
  (x ∈ api_held (doLookup i vals a) → x ∈ api_held a) ∧
  (x ∈ api_held a → x ∈ api_held (doLookup i vals a) ∨ (vals = None ∧ x ∈ default ∅ (running a !! i))).
Proof.
  unfold doLookup. destruct (running a !! i) as [ls|] eqn:E; [|by auto]. pose proof (delete_elem _ _ _ E) as Hd.
  rewrite !held_spec. case_decide; [|destruct vals]; cbn [check lookups running searched default from_option id]; set_solver.
Qed.

Lemma held_lookup tagval col a x :
  x ∈ api_held (api_step (Lookup tagval col) a) ↔ x ∈ api_held a ∨ x ∈ asked (Lookup tagval col) a.
Proof.
  assert (∀ b : ApiTagMapper, b = a →
    x ∈ api_held b ↔ x ∈ api_held a ∨ x ∈ (if (length (check a) <? length (check b))%nat then {[wrapu 32 tagval]} else ∅ : gset Z)) as Hsame.
  { intros b ->. rewrite Nat.ltb_irrefl. set_solver. }
  unfold asked, api_step, Api_LookupTagValueBig, Api_LookupTagValue.
  destruct (colNames a !! col) as [full|]; [|by apply Hsame]. destruct (wrapu 32 tagval =? 0); [by apply Hsame|].
  destruct (a_tags a !! wrapu 32 tagval); [by apply Hsame|]. destruct (decide (wrapu 32 tagval ∈ searched a)); [by apply Hsame|].
  cbn [fst]. destruct (_ <? CHAN_SLACK); [|by apply Hsame]. cbn [check]. rewrite length_app. cbn [length].
  rewrite (proj2 (Nat.ltb_lt _ _)) by lia. rewrite !held_spec. cbn [check lookups running searched]. set_solver.
Qed.

Lemma api_step_held e a x :
  (x ∈ api_held (api_step e a) → x ∈ api_held a ∨ x ∈ asked e a) ∧
  (x ∈ api_held a ∨ x ∈ asked e a → x ∈ api_held (api_step e a) ∨ x ∈ failed e a).
Proof.
  destruct e as [tagval col| | |i vals].
  - rewrite held_lookup. tauto.
  - cbn [api_step asked failed]. unfold on_tick. rewrite held_start. set_solver.
  - cbn [api_step asked failed]. rewrite held_check. set_solver.
  - cbn [api_step asked failed]. destruct (held_answer i vals a x) as [H1 H2]. split; [tauto|].
    intros [[H| [-> H]]%H2|[]%elem_of_empty]; auto.
Qed.

Lemma api_run_held es : ∀ a x,
  (x ∈ api_held (api_run es a) → x ∈ api_held a ∨ x ∈ all_asked es a) ∧
  (x ∈ api_held a ∨ x ∈ all_asked es a → x ∈ api_held (api_run es a) ∨ x ∈ all_failed es a).
Proof.
  induction es as [|e es IH]; intros a x; [set_solver|].
  change (api_run (e :: es) a) with (api_run es (api_step e a)). cbn [all_asked all_failed].
  destruct (IH (api_step e a) x) as [I1 I2], (api_step_held e a x) as [S1 S2]. rewrite !elem_of_union. split.
  - intros [[]%S1|]%I1; auto.
  - intros H. destruct (decide (x ∈ failed e a)); [by auto|]. assert (x ∈ api_held (api_step e a) ∨ x ∈ all_asked es (api_step e a)) as [?|?]%I2; [|naive_solver..].
    destruct H as [H|[H|H]]; [|destruct (S2 (or_intror H))|]; [destruct (S2 (or_introl H))|..]; tauto.
Qed.

Record api_inv (a : ApiTagMapper) : Prop := {
  inv_check : Z.of_nat (length (check a)) ≤ CHAN_SLACK;
  inv_lookups : Z.of_nat (size (lookups a)) < MAX_LOOKUP_SET;
  inv_running : Forall (λ ls : gset Z, Z.of_nat (size ls) ≤ MAX_LOOKUP_SET) (running a);
  inv_zero : 0 ∉ api_held a }.

Lemma asked_nonzero e a : 0 ∉ asked e a.
Proof.
  destruct e as [tagval col| | |]; cbn [asked]; try set_solver. unfold api_step, Api_LookupTagValueBig, Api_LookupTagValue.
  destruct (colNames a !! col); [|cbn [fst]; rewrite Nat.ltb_irrefl; set_solver].
  destruct (Z.eqb_spec (wrapu 32 tagval) 0); [cbn [fst]; rewrite Nat.ltb_irrefl; set_solver|]. case_match; set_solver.
Qed.

Lemma start_inv a : Z.of_nat (size (lookups a)) ≤ MAX_LOOKUP_SET → Z.of_nat (length (check a)) ≤ CHAN_SLACK →
  Forall (λ ls : gset Z, Z.of_nat (size ls) ≤ MAX_LOOKUP_SET) (running a) → 0 ∉ api_held a → api_inv (start_lookup a).
Proof.
  intros Hl Hc Hr Hz. split; cbn [start_lookup check lookups running].
  - done.
  - by rewrite size_empty.
  - apply Forall_app. split; [done|]. by constructor.
  - by rewrite held_start.
Qed.

Lemma api_step_inv e a : api_inv a → api_inv (api_step e a).
Proof.
  intros [Hc Hl Hr Hz]. assert (0 ∉ api_held (api_step e a)) as Hz'.
  { intros [?|?]%api_step_held; [done|by eapply asked_nonzero]. }
  destruct e as [tagval col| | |i vals]; cbn [api_step] in *.
  - revert Hz'. unfold Api_LookupTagValueBig, Api_LookupTagValue.
    destruct (colNames a !! col); [|done]. destruct (wrapu 32 tagval =? 0); [done|]. destruct (a_tags a !! _); [done|].
    destruct (decide _); [done|]. cbn [fst]. destruct (Z.ltb_spec (Z.of_nat (length (check a))) CHAN_SLACK); [|done].
    intros Hz'. split; cbn [check lookups running]; try done. rewrite length_app. cbn [length]. lia.
  - apply start_inv; try done. unfold MAX_LOOKUP_SET in *. lia.
  - revert Hz'. unfold on_check. destruct (check a) as [|v rest] eqn:E; [intros _; split; rewrite ?E; done|]. cbv zeta. cbn [lookups].
    assert (size ({[v]} ∪ lookups a) ≤ S (size (lookups a)))%nat as Hs.
    { rewrite size_union_alt, size_singleton. assert (size (lookups a ∖ {[v]}) ≤ size (lookups a))%nat by (apply subseteq_size; set_solver). lia. }
    cbn [length] in Hc. destruct (Z.leb_spec MAX_LOOKUP_SET (Z.of_nat (size ({[v]} ∪ lookups a)))).
    + intros Hz'. apply start_inv; cbn [check lookups running]; try lia; try done. by rewrite held_start in Hz'.
    + intros Hz'. split; cbn [check lookups running]; try done. lia.
  - revert Hz'. unfold doLookup. destruct (running a !! i) as [ls|] eqn:E; [|done].
    assert (Forall (λ ls : gset Z, Z.of_nat (size ls) ≤ MAX_LOOKUP_SET) (delete i (running a))) as Hd.
    { rewrite (delete_Permutation _ _ _ E) in Hr. by apply Forall_cons in Hr as [_ ?]. }
    intros Hz'. case_decide; [|destruct vals]; split; done.
Qed.

Lemma api_run_inv es : ∀ a, api_inv a → api_inv (api_run es a).
Proof. induction es as [|e es IH]; intros a H; [done|]. by apply IH, api_step_inv. Qed.

Lemma api_run_app es1 es2 a : api_run (es1 ++ es2) a = api_run es2 (api_run es1 a).
Proof. apply fold_left_app. Qed.

Lemma new_api_inv f a : NewApiTagMapper f = Ok a → api_inv a ∧ api_held a = ∅.
Proof.
  intros E. assert (∃ cols, a = mkApi ∅ ∅ cols [] ∅ []) as [cols ->].
  { destruct f as [[[lines [err|]]| | |]|]; cbn [NewApiTagMapper mbind res_bind] in E; try done; injection E as <-; by eexists. }
  assert (api_held (mkApi ∅ ∅ cols [] ∅ []) = ∅) as Hh by (unfold api_held; set_solver).
  split; [|done]. split; [done|by cbn; rewrite size_empty|by constructor|rewrite Hh; set_solver].
Qed.

(** Whatever order lookups, timers and answers come in, a mapper keeps every id it accepted:
    it waits, is being looked up, has been searched for, or its lookup failed, and nothing
    else is there. The channel and the collections stay within their limits and never have 0. *)
Theorem api_requests_kept f a es : NewApiTagMapper f = Ok a →
  (∀ x, x ∈ all_asked es a → x ∈ api_held (api_run es a) ∨ x ∈ all_failed es a) ∧
  (∀ x, x ∈ api_held (api_run es a) → x ∈ all_asked es a) ∧ api_inv (api_run es a).
Proof.
  intros E. destruct (new_api_inv _ _ E) as [Hi Hh]. split; [|split].
  - intros x Hx. apply api_run_held. by right.
  - intros x [Hx|Hx]%api_run_held; [|done]. rewrite Hh in Hx. by apply elem_of_empty in Hx.
  - by apply api_run_inv.
Qed.

(** *** Everything asked for is answered in the end *)
Lemma drain_check n : ∀ a, (length (check a) ≤ n)%nat →
  let a' := api_run (replicate n Check) a in
  check a' = [] ∧ searched a' = searched a ∧ a_tags a' = a_tags a ∧ colNames a' = colNames a ∧ ∀ x, x ∈ api_held a' ↔ x ∈ api_held a.
Proof.
  induction n as [|n IH]; intros a Hn; cbn [replicate].
  { destruct (check a) eqn:E; [|cbn in Hn; lia]. cbn. rewrite E. tauto. }
  change (api_run (Check :: replicate n Check) a) with (api_run (replicate n Check) (on_check a)).
  assert (length (check (on_check a)) ≤ n ∧ searched (on_check a) = searched a ∧ a_tags (on_check a) = a_tags a ∧ colNames (on_check a) = colNames a)%nat as (H1 & H2 & H3 & H4).
  { unfold on_check. destruct (check a) as [|v rest] eqn:E; [rewrite E; cbn; split; [lia|done]|]. cbn [length] in Hn. cbv zeta. case_match; cbn; (split; [lia|done]). }
  destruct (IH _ H1) as (R1 & R2 & R3 & R4 & R5). cbv zeta. split; [done|]. split; [congruence|]. split; [congruence|]. split; [congruence|].
  intros x. rewrite R5. apply held_check.
Qed.

Lemma drain_running vals n : ∀ a, length (running a) = n → check a = [] → lookups a = ∅ →
  let a' := api_run (replicate n (Answer 0 (Some vals))) a in
  check a' = [] ∧ lookups a' = ∅ ∧ running a' = [] ∧ colNames a' = colNames a ∧ searched a' = api_held a ∧
  (∀ x v, vals !! x = Some v → a_tags a !! x = Some v ∨ x ∈ ⋃ running a → a_tags a' !! x = Some v).
Proof.
  induction n as [|n IH]; intros a Hn Hc Hl; cbn [replicate].
  { destruct (running a) eqn:E; [|done]. cbn. rewrite Hc, Hl, E. unfold api_held. rewrite Hc, Hl, E. cbn. set_solver. }
  change (api_run (Answer 0 (Some vals) :: replicate n (Answer 0 (Some vals))) a) with (api_run (replicate n (Answer 0 (Some vals))) (doLookup 0 (Some vals) a)).
  destruct (running a) as [|ls rest] eqn:E; [done|]. injection Hn as Hn. unfold doLookup. rewrite E. cbn [lookup list_lookup].
  set (b := mkApi (a_tags a) (searched a) (colNames a) (check a) (lookups a) rest).
  change (delete 0%nat (ls :: rest)) with rest. fold b. cbv zeta. destruct (decide (ls = ∅)) as [->|He].
  - destruct (IH b Hn Hc Hl) as (R1 & R2 & R3 & R4 & R5 & R6). do 4 (split; [done|]). split.
    + rewrite R5. unfold api_held. rewrite E. subst b. cbn [check lookups running searched union_list foldr]. set_solver.
    + intros x v Hv Hx. apply R6; [done|]. subst b. cbn [a_tags running]. cbn [union_list foldr] in Hx. set_solver.
  - set (c := mkApi (vals ∪ a_tags b) (ls ∪ searched b) (colNames b) (check b) (lookups b) (running b)).
    destruct (IH c Hn Hc Hl) as (R1 & R2 & R3 & R4 & R5 & R6). do 4 (split; [done|]). split.
    + rewrite R5. unfold api_held. rewrite E. subst c b. cbn [check lookups running searched union_list foldr]. set_solver.
    + intros x v Hv _. apply R6; [done|]. left. subst c. cbn [a_tags]. by apply lookup_union_Some_l.
Qed.

(** From any state a mapper reaches, reading the channel, one tick and answers to the lookups
    leave nothing waiting: every id that was asked for and whose lookup did not fail has been
    searched for, and a column whose name is known gets the answer for an id that was not
    known before. *)
Theorem api_answers_come f a es vals : NewApiTagMapper f = Ok a → ∃ n,
  let b := api_run es a in
  let c := api_run (replicate (length (check b)) Check ++ Tick :: replicate n (Answer 0 (Some vals))) b in
  check c = [] ∧ lookups c = ∅ ∧ running c = [] ∧
  (∀ x, x ∈ all_asked es a → x ∈ searched c ∨ x ∈ all_failed es a) ∧
  ∀ x v col full, x ∈ api_held b → x ∉ searched b → vals !! x = Some v → in_u 32 x → colNames b !! col = Some full →
    (Api_LookupTagValueBig 0 x col c).2 = (full, v, true).
Proof.
  intros E. set (b := api_run es a). set (b1 := api_run (replicate (length (check b)) Check) b). exists (length (running (on_tick b1))).
  destruct (api_requests_kept _ _ es E) as (Hk & _ & Hi). destruct (drain_check (length (check b)) b ltac:(done)) as (D1 & D2 & D3 & D4 & D5).
  fold b1 in D1, D2, D3, D4, D5. cbv zeta. fold b. rewrite api_run_app. fold b1.
  change (api_run (Tick :: ?es) b1) with (api_run es (on_tick b1)).
  destruct (drain_running vals _ (on_tick b1) eq_refl D1 eq_refl) as (R1 & R2 & R3 & R4 & R5 & R6). cbv zeta.
  set (c := api_run (replicate _ _) (on_tick b1)) in *. do 3 (split; [done|]). split.
  - intros x [Hx|Hx]%Hk; [left|by right]. rewrite R5. by apply held_start, D5.
  - intros x v col full Hx Hs Hv Hu Hcol. unfold Api_LookupTagValueBig, Api_LookupTagValue. rewrite wrapu_id by done.
    rewrite R4. unfold on_tick, start_lookup. cbn [colNames]. rewrite D4, Hcol.
    assert (x ≠ 0) as Hx0 by (intros ->; by destruct (inv_zero _ Hi)). rewrite (proj2 (Z.eqb_neq _ _) Hx0).
    rewrite (R6 x v Hv); [done|]. right. apply D5 in Hx. unfold on_tick in *. rewrite <-held_start in Hx. rewrite held_spec in Hx.
    cbn [start_lookup check lookups running searched] in Hx |- *. rewrite D1, D2 in Hx. apply elem_of_union_list. set_solver.
Qed.

(** ** Concrete inputs *)
Definition tag_file : list string := ["SRC_TAG,role,5,Edge Router"; "id,Hex Id,to_hex"; "9,nine, and more"; "src_tag,Role,5,Core"; ""]%string.

Lemma file_tag_lookup_witness : ∃ m, NewFileTagMapper (Ok (tag_file, None)) = Ok m ∧
  LookupTagValueBig (TagMapper := file_tags m) 1 5 "src_tag" = Some ("role", "core")%string ∧
  LookupTagValueBig (TagMapper := file_tags m) 1 (2 ^ 32 + 5) "src_tag" = Some ("role", "core")%string ∧
  LookupTagValueBig (TagMapper := file_tags m) 1 (-255) "id" = Some ("hex_id", "-ff")%string.
Proof.
  destruct (NewFileTagMapper (Ok (tag_file, None))) as [m| | |] eqn:E; [|done..]. exists m. split; [done|].
  split; [|split]; rewrite (file_tag_lookup tag_file m) by exact E; vm_compute; reflexivity.
Defined.

Definition udr_file : list string := ["12,INT64_00,Total Bytes,App"; "12,STR00,Name,App"; "0,INT00,Zone,silver_peak"; "x,INT00,Bad,App"]%string.

Lemma NewUDRMapper_lookup_witness : ∃ um, NewUDRMapper (Ok (udr_file, None)) = Ok (um, 3) ∧
  (UDRs um !! 12 ≫= (.!! "int64_00"%string)) = Some (mkUDR "total_bytes" "app" UDR_TYPE_BIGINT) ∧
  (Subtypes um !! "silver_peak"%string ≫= (.!! "int00"%string)) = Some (mkUDR "zone" "silver_peak" UDR_TYPE_INT).
Proof.
  destruct (NewUDRMapper (Ok (udr_file, None))) as [[um found]| | |] eqn:E; [|done..].
  assert (found = 3) as -> by (vm_compute in E; by injection E as _ <-). exists um. split; [done|].
  destruct (NewUDRMapper_lookup udr_file um 3 E 12 "" "int64_00") as [-> _].
  destruct (NewUDRMapper_lookup udr_file um 3 E 0 "silver_peak" "int00") as [_ ->].
  split; vm_compute; reflexivity.
Defined.

Definition col_file : option (res (list string * option error)) := Some (Ok (["c_Tag , Tag Name"%string; ""%string], None)).
Definition api_events : list api_event := [Lookup 7 "c_tag"; Lookup 0 "c_tag"; Check; Lookup 8 "c_tag"; Lookup 9 "other"].

Definition api0 : ApiTagMapper := mkApi ∅ ∅ {["c_tag" := "tag_name"]}%string [] ∅ [].

Lemma api_requests_kept_witness : NewApiTagMapper col_file = Ok api0 ∧
  api_inv (api_run api_events api0) ∧ (∀ x, x ∈ api_held (api_run api_events api0) ↔ x = 7 ∨ x = 8).
Proof.
  assert (NewApiTagMapper col_file = Ok api0) as E by (vm_compute; reflexivity). split; [done|].
  destruct (api_requests_kept col_file api0 api_events E) as (H1 & H2 & H3). split; [exact H3|].
  assert (all_asked api_events api0 = {[7; 8]}) as Ha by (vm_compute; reflexivity).
  assert (all_failed api_events api0 = ∅) as Hf by (vm_compute; reflexivity).
  rewrite Ha in H1, H2. rewrite Hf in H1. intros x. specialize (H1 x). specialize (H2 x).
  rewrite elem_of_empty in H1. rewrite elem_of_union, !elem_of_singleton in H1, H2. tauto.
Defined.

Lemma api_answers_come_witness : ∃ c, NewApiTagMapper col_file = Ok api0 ∧
  check c = [] ∧ running c = [] ∧ (7 ∈ searched c ∨ 7 ∈ all_failed api_events api0) ∧
  (Api_LookupTagValueBig 0 7 "c_tag" c).2 = ("tag_name"%string, "seven"%string, true).
Proof.
  assert (NewApiTagMapper col_file = Ok api0) as E by (vm_compute; reflexivity).
  destruct (api_answers_come col_file api0 api_events {[7 := "seven"%string]} E) as (n & Hc & Hl & Hr & Hs & Ht).
  eexists _. split; [done|]. split; [exact Hc|]. split; [exact Hr|]. split.
  - apply Hs. vm_compute. reflexivity.
  - apply Ht; [vm_compute; reflexivity|by vm_compute|reflexivity|done|vm_compute; reflexivity].
Defined.
