(* ===== verification/Km.v ===== *)
(** Kentik metrics (src/pkg/km/km.go): the columns of a measurement get the labels of its
    definition, as far as the masks of the flow name them.

    The ranges over the maps of a definition are loops over their values in an order that
    is an argument: the loops do not change those maps. *)
From S2P Require Import Prelude GoStrings.
From S2P Require Import Jchf FlowToJCHF.
From S2P Require Import KtHelpers.
Local Open Scope Z_scope.

(** ** [strconv.ParseInt(s, 0, 64)] *)
Definition lower_is (c d : ascii) : bool := Ascii.eqb (lower_ascii c) d.
Definition digit_of (c : ascii) : option Z :=
  let n := Z.of_nat (nat_of_ascii c) in
  let l := Z.of_nat (nat_of_ascii (lower_ascii c)) in
  if (48 <=? n) && (n <=? 57) then Some (n - 48)
  else if (97 <=? l) && (l <=? 122) then Some (l - 97 + 10) else None.
(** The digits of a number, underscores left out; [true] when there was one. *)
Fixpoint base_digits (base : Z) (s : string) (n : Z) (underscores : bool) : option (Z * bool) :=
  match s with
  | EmptyString => Some (n, underscores)
  | String c s =>
      if Ascii.eqb c "_" then base_digits base s n true
      else match digit_of c with
      | None => None
      | Some d =>
          if base <=? d then None
          else if maxUint64 <? n * base + d then None
          else base_digits base s (n * base + d) underscores
      end
  end.
(** [underscoreOK]: [prev] is ["^"] at the start, ["0"] after a digit, ["_"] after an
    underscore and ["!"] after anything else. *)
Fixpoint underscores_ok (hex : bool) (prev : ascii) (s : string) : bool :=
  match s with
  | EmptyString => negb (Ascii.eqb prev "_")
  | String c s =>
      let n := Z.of_nat (nat_of_ascii c) in
      let l := Z.of_nat (nat_of_ascii (lower_ascii c)) in
      if ((48 <=? n) && (n <=? 57)) || (hex && (97 <=? l) && (l <=? 102)) then underscores_ok hex "0" s
      else if Ascii.eqb c "_" then Ascii.eqb prev "0" && underscores_ok hex "_" s
      else negb (Ascii.eqb prev "_") && underscores_ok hex "!" s
  end.
Definition underscoreOK (s : string) : bool :=
  match s with
  | String "0" (String c s') =>
      if lower_is c "b" || lower_is c "o" || lower_is c "x" then underscores_ok (lower_is c "x") "0" s'
      else underscores_ok false "^" s
  | _ => underscores_ok false "^" s
  end.
(** The base a prefix names, and what follows it. *)
Definition base_of (s : string) : Z * string :=
  match s with
  | String "0" s' =>
      match s' with
      | String c (String d s'') =>
          let digits := String d s'' in
          if lower_is c "b" then (2, digits) else if lower_is c "o" then (8, digits)
          else if lower_is c "x" then (16, digits) else (8, s')
      | _ => (8, s')
      end
  | _ => (10, s)
  end.
Definition ParseUint0 (s : string) : option Z :=
  match s with
  | EmptyString => None
  | _ =>
      let '(base, digits) := base_of s in
      '(n, underscores) ← base_digits base digits 0 false;
      if (underscores : bool) && negb (underscoreOK s) then None else Some n
  end.
Definition ParseInt0 (s : string) : option Z :=
  let '(neg, rest) := match s with String "-" r => (true, r) | String "+" r => (false, r) | _ => (false, s) end in
  un ← ParseUint0 rest;
  if neg : bool then (if 2 ^ 63 <? un then None else Some (- un)) else (if 2 ^ 63 <=? un then None else Some un).

(** ** Definitions *)
Record KMMetric := mkKMMetric { met_Mask : Z; met_Type : string; met_Unit : string; met_Label : string; met_Column : string }.
Record KMDimension := mkKMDimension { dim_Mask : Z; dim_Type : string; dim_Label : string; dim_Column : string }.
(** The maps are of pointers; one that is null in the file is [None]. *)
Record KMDef := mkKMDef { Imports : list string; Metrics : gmap string (option KMMetric); Dimensions : gmap string (option KMDimension); KM_Description : string }.
Record KentikMetric := mkKentikMetric { Id : Z; KM_Name : string; Def : KMDef }.
Record KMMapper := mkKMMapper { metrics : gmap Z KentikMetric }.

Definition fix_met (m : KMMetric) : KMMetric := mkKMMetric (met_Mask m) (met_Type m) (met_Unit m) (met_Label m) (FixupName (met_Column m)).
Definition fix_dim (d : KMDimension) : KMDimension := mkKMDimension (dim_Mask d) (dim_Type d) (dim_Label d) (FixupName (dim_Column d)).

Section km.
(** [json.Unmarshal] of a definition. *)
Variable Unmarshal : string → option KMDef.

Definition no_null {A} (m : gmap string (option A)) : bool := bool_decide (map_Forall (λ _ v, is_Some v) m).
Definition load_metric (km : KMMapper) (text : string) : res KMMapper :=
  match SplitN 2 text "|" with
  | [p0; p1; p2] =>
      match Atoi p0 with
      | None => Ok km
      | Some id =>
          match Unmarshal p2 with
          | None => Ok km
          | Some d =>
              if (0 <? size (Metrics d))%nat && (0 <? size (Dimensions d))%nat then
                if no_null (Dimensions d) && no_null (Metrics d) then
                  Ok (mkKMMapper (<[id := mkKentikMetric id p1
                    (mkKMDef (Imports d) (fmap (M := gmap string) (fmap fix_met) (Metrics d)) (fmap (M := gmap string) (fmap fix_dim) (Dimensions d)) (KM_Description d))]> (metrics km)))
                else Panic "invalid memory address or nil pointer dereference"
              else Ok km
          end
      end
  | _ => Ok km
  end.
Fixpoint load_metrics (lines : list string) (km : KMMapper) : res KMMapper :=
  match lines with [] => Ok km | text :: lines => km ← load_metric km text; load_metrics lines km end.
Definition LoadMapper (file : res (list string * option error)) : res KMMapper :=
  '(lines, scan_err) ← file;
  km ← load_metrics lines (mkKMMapper ∅);
  match scan_err with Some err => Err err | None => Ok km end.
End km.

(** ** Masks *)
Definition readMask (msg : JCHF) (key : string) : option Z :=
  match map_range (CustomBigInt msg) !! key with
  | Some mask => Some mask
  | None =>
      match map_range (CustomInt msg) !! key with
      | Some mask => Some mask
      | None => raw ← map_range (CustomStr msg) !! key; ParseInt0 (TrimSpace raw)
      end
  end.
Definition isFieldPresentForMask (fieldMask : Z) (incoming : option Z) : bool :=
  match incoming with
  | None => true
  | Some incomingMask => if fieldMask =? 0 then true else negb (Z.land incomingMask fieldMask =? 0)
  end.

(** ** Enrichment *)
Definition dim_present (mask : option Z) (d : KMDimension) : bool :=
  negb (String.eqb (dim_Label d) "") && isFieldPresentForMask (dim_Mask d) mask.
Definition met_present (mask : option Z) (m : KMMetric) : bool :=
  negb (String.eqb (met_Label m) "") && isFieldPresentForMask (met_Mask m) mask.

(** [m[label] = m[column]; delete(m, column)], when the column is there. *)
Definition move {A} (column label : string) (m : gmap string A) : gmap string A :=
  match m !! column with Some v => delete column (<[label := v]> m) | None => m end.
Definition move_in {A} (column label : string) (m : gomap A) : gomap A := move column label <$> m.

Definition enrich_dim (mask : option Z) (msg : JCHF) (d : KMDimension) : JCHF :=
  if dim_present mask d then msg <| CustomStr := move_in (dim_Column d) (dim_Label d) (CustomStr msg) |> else msg.
Definition enrich_met (mask : option Z) (msg : JCHF) (m : KMMetric) : res JCHF :=
  if met_present mask m then
    let unit_ msg := cs ← map_set "unit" (met_Unit m) (CustomStr msg); Ok (msg <| CustomStr := cs |>) in
    if decide (is_Some (map_range (CustomBigInt msg) !! met_Column m)) then
      unit_ (msg <| CustomBigInt := move_in (met_Column m) (met_Label m) (CustomBigInt msg) |>)
    else if decide (is_Some (map_range (CustomInt msg) !! met_Column m)) then
      unit_ (msg <| CustomInt := move_in (met_Column m) (met_Label m) (CustomInt msg) |>)
    else if decide (is_Some (map_range (CustomFloat msg) !! met_Column m)) then
      unit_ (msg <| CustomFloat := move_in (met_Column m) (met_Label m) (CustomFloat msg) |>)
    else Ok msg
  else Ok msg.
Fixpoint enrich_mets (mask : option Z) (ms : list KMMetric) (msg : JCHF) : res JCHF :=
  match ms with [] => Ok msg | m :: ms => msg ← enrich_met mask msg m; enrich_mets mask ms msg end.

(** The values of a map in some order of a range over it; after loading none is null. *)
Definition ranged {A} (m : gmap string (option A)) (l : list A) : Prop := (Some <$> l) ≡ₚ (map_to_list m).*2.
(** [ds] and [ms] are the orders in which the dimensions and metrics are visited. *)
Definition Enrich_def (ds : list KMDimension) (ms : list KMMetric) (msg : JCHF) : res JCHF :=
  let dimensionMask := readMask msg "km_dimension_mask" in
  let metricMask := readMask msg "km_metric_mask" in
  enrich_mets metricMask ms (fold_left (enrich_dim dimensionMask) ds msg).
(** The orders are looked up by the definition. *)
Definition KM_Enrich (dims_of : KMDef → list KMDimension) (mets_of : KMDef → list KMMetric) (id : Z) (msg : JCHF) (km : option KMMapper) : res JCHF :=
  match km ≫= λ km, metrics km !! id with
  | None => Ok msg
  | Some definition => Enrich_def (dims_of (Def definition)) (mets_of (Def definition)) msg
  end.

(** ** Laws *)
Lemma move_lookup {A} (c l : string) (m : gmap string A) k : c ≠ l →
  move c l m !! k =
    match m !! c with
    | Some v => if decide (k = l) then Some v else if decide (k = c) then None else m !! k
    | None => m !! k
    end.
Proof.
  intros Hn. unfold move. destruct (m !! c) as [v|] eqn:E; [|done]. destruct (decide (k = c)) as [->|Hc].
  - by rewrite lookup_delete_eq, decide_False.
  - rewrite lookup_delete_ne by done. case_decide; subst; [by rewrite lookup_insert_eq|by rewrite lookup_insert_ne].
Qed.

(** Columns and labels that do not meet. *)
Definition apart (ps : list (string * string)) : Prop := NoDup (ps.*1 ++ ps.*2).
#[export] Instance apart_dec ps : Decision (apart ps) := decide (NoDup _).

(** The entry that ends at [k]: that of a column labelled [k], or none for a column. *)
Definition relabelled {A} (ps : list (string * string)) (m : gmap string A) (k : string) : option A :=
  match list_find (λ p, p.2 = k ∧ is_Some (m !! p.1)) ps with
  | Some (_, p) => m !! p.1
  | None => if decide (k ∈ ps.*1) then None else m !! k
  end.

Lemma apart_cons c l ps : apart ((c, l) :: ps) → c ≠ l ∧ (c ∉ ps.*1) ∧ (c ∉ ps.*2) ∧ (l ∉ ps.*1) ∧ (l ∉ ps.*2) ∧ apart ps.
Proof.
  unfold apart. cbn [fmap list_fmap fst snd app]. rewrite NoDup_cons, elem_of_app, elem_of_cons, <-Permutation_middle, NoDup_cons, elem_of_app.
  naive_solver.
Qed.

Lemma list_find_ext_in {A} (P Q : A → Prop) `{∀ x, Decision (P x)} `{∀ x, Decision (Q x)} l :
  (∀ x, x ∈ l → P x ↔ Q x) → list_find P l = list_find Q l.
Proof.
  intros HPQ. induction l as [|x l IH]; [done|]. cbn [list_find]. rewrite IH by (intros y Hy; apply HPQ; by right).
  pose proof (HPQ x (list_elem_of_here _ _)). repeat case_decide; tauto.
Qed.

Lemma moves_lookup {A} ps : ∀ m : gmap string A, apart ps → ∀ k,
  fold_left (λ m p, move p.1 p.2 m) ps m !! k = relabelled ps m k.
Proof.
  induction ps as [|[c l] ps IH]; intros m Ha k; cbn [fold_left fst snd].
  { unfold relabelled. cbn. done. }
  apply apart_cons in Ha as (Hn & Hc1 & Hc2 & Hl1 & Hl2 & Ha). rewrite IH by done. clear IH.
  assert (∀ p, p ∈ ps → move c l m !! p.1 = m !! p.1) as Hm.
  { intros p Hp. rewrite move_lookup by done. apply (list_elem_of_fmap_2 fst) in Hp. destruct (m !! c); [|done].
    rewrite !decide_False; [done|intros E; by rewrite E in Hp..]. }
  unfold relabelled. cbn [list_find fmap list_fmap fst snd].
  rewrite (list_find_ext_in (λ p, p.2 = k ∧ is_Some (move c l m !! p.1)) (λ p, p.2 = k ∧ is_Some (m !! p.1))) by (intros p Hp; cbn beta; by rewrite (Hm p Hp)).
  destruct (list_find _ ps) as [[i p]|] eqn:El.
  - apply list_find_Some in El as (Hp & [<- Hs] & _). apply list_elem_of_lookup_2 in Hp.
    rewrite decide_False; [cbn [fmap option_fmap option_map]; by rewrite Hm|]. intros [-> _]. by apply Hl2, (list_elem_of_fmap_2 snd).
  - cbn [fmap option_fmap option_map]. rewrite move_lookup by done. destruct (m !! c) as [v|] eqn:E.
    + destruct (decide (k = l)) as [->|Hk].
      * rewrite (decide_False (P := l ∈ ps.*1)) by done. by rewrite decide_True.
      * rewrite (decide_False (P := l = k ∧ _)) by naive_solver. destruct (decide (k = c)) as [->|].
        -- rewrite (decide_True (P := c ∈ c :: _)) by left. by case_decide.
        -- destruct (decide (k ∈ ps.*1)); [by rewrite decide_True by (by right)|]. rewrite decide_False; [done|]. by intros [?|?]%elem_of_cons.
    + rewrite (decide_False (P := l = k ∧ _)) by (intros [_ [? ?]]; done). destruct (decide (k ∈ ps.*1)); [by rewrite decide_True by (by right)|].
      destruct (decide (k ∈ c :: ps.*1)) as [[->|]%elem_of_cons|]; done.
Qed.

Definition dim_pairs (mask : option Z) (ds : list KMDimension) : list (string * string) :=
  (λ d, (dim_Column d, dim_Label d)) <$> filter (λ d, dim_present mask d = true) ds.
Definition met_pairs (mask : option Z) (ms : list KMMetric) : list (string * string) :=
  (λ m, (met_Column m, met_Label m)) <$> filter (λ m, met_present mask m = true) ms.

Lemma map_range_move {A} c l (m : gomap A) : map_range (move_in c l m) = move c l (map_range m).
Proof. destruct m; [done|]. unfold move_in, move. cbn. by rewrite lookup_empty. Qed.

(** The loop over the dimensions changes the texts alone. *)
Lemma enrich_dims_str mask ds : ∀ msg,
  let msg' := fold_left (enrich_dim mask) ds msg in
  map_range (CustomStr msg') = fold_left (λ m p, move p.1 p.2 m) (dim_pairs mask ds) (map_range (CustomStr msg)) ∧
  CustomBigInt msg' = CustomBigInt msg ∧ CustomInt msg' = CustomInt msg ∧ CustomFloat msg' = CustomFloat msg ∧
  (is_Some (CustomStr msg') ↔ is_Some (CustomStr msg)).
Proof.
  induction ds as [|d ds IH]; intros msg; cbn [fold_left]; [done|].
  destruct (IH (enrich_dim mask msg d)) as (I1 & I2 & I3 & I4 & I5). cbv zeta. rewrite I1, I2, I3, I4, I5. clear.
  unfold dim_pairs, enrich_dim. rewrite filter_cons. destruct (dim_present mask d) eqn:E.
  - rewrite (decide_True (P := true = true)) by done. cbn [fmap list_fmap fold_left fst snd].
    change (CustomStr (msg <| CustomStr := ?x |>)) with x. rewrite map_range_move. unfold move_in. rewrite fmap_is_Some. done.
  - by rewrite (decide_False (P := false = true)).
Qed.

(** A metric moves its column in the first map that has it, and sets the unit. *)
Lemma enrich_met_big mask m msg : is_Some (CustomStr msg) → ∃ msg', enrich_met mask msg m = Ok msg' ∧
  map_range (CustomBigInt msg') = (if met_present mask m then move (met_Column m) (met_Label m) (map_range (CustomBigInt msg)) else map_range (CustomBigInt msg)) ∧
  (∀ k, k ≠ "unit"%string → map_range (CustomStr msg') !! k = map_range (CustomStr msg) !! k) ∧ is_Some (CustomStr msg').
Proof.
  intros [cs Hs]. unfold enrich_met. destruct (met_present mask m); [|by eexists].
  assert (∀ b : JCHF, CustomStr b = Some cs → ∃ msg', (cs ← map_set "unit" (met_Unit m) (CustomStr b); Ok (b <| CustomStr := cs |>)) = Ok msg' ∧
    CustomBigInt msg' = CustomBigInt b ∧ (∀ k, k ≠ "unit"%string → map_range (CustomStr msg') !! k = map_range (CustomStr msg) !! k) ∧ is_Some (CustomStr msg')) as Hu.
  { intros b Hb. rewrite Hb. eexists. split; [reflexivity|]. change (CustomStr (b <| CustomStr := ?x |>)) with x. change (CustomBigInt (b <| CustomStr := ?x |>)) with (CustomBigInt b).
    split; [done|]. split; [|by eexists]. intros k Hk. rewrite Hs. cbn. by rewrite lookup_insert_ne. }
  destruct (decide (is_Some (map_range (CustomBigInt msg) !! met_Column m))) as [Hb|Hb].
  { match goal with |- context [map_set _ _ (CustomStr ?b)] => destruct (Hu b Hs) as (msg' & E & Hb' & ? & ?) end.
    exists msg'. split; [exact E|]. rewrite Hb'. split; [apply map_range_move|done]. }
  assert (move (met_Column m) (met_Label m) (map_range (CustomBigInt msg)) = map_range (CustomBigInt msg)) as ->.
  { unfold move. destruct (_ !! met_Column m) eqn:E; [|done]. destruct Hb. by eexists. }
  case_decide.
  { match goal with |- context [map_set _ _ (CustomStr ?b)] => destruct (Hu b Hs) as (msg' & E & Hb' & ? & ?) end. exists msg'. split; [exact E|]. by rewrite Hb'. }
  case_decide; [|by exists msg; rewrite Hs].
  match goal with |- context [map_set _ _ (CustomStr ?b)] => destruct (Hu b Hs) as (msg' & E & Hb' & ? & ?) end. exists msg'. split; [exact E|]. by rewrite Hb'.
Qed.

Lemma enrich_mets_big mask ms : ∀ msg, is_Some (CustomStr msg) → ∃ msg', enrich_mets mask ms msg = Ok msg' ∧
  map_range (CustomBigInt msg') = fold_left (λ m p, move p.1 p.2 m) (met_pairs mask ms) (map_range (CustomBigInt msg)) ∧
  (∀ k, k ≠ "unit"%string → map_range (CustomStr msg') !! k = map_range (CustomStr msg) !! k).
Proof.
  induction ms as [|m ms IH]; intros msg Hs; cbn [enrich_mets]; [by exists msg|].
  destruct (enrich_met_big mask m msg Hs) as (msg1 & -> & B1 & K1 & S1). cbn [mbind res_bind].
  destruct (IH msg1 S1) as (msg' & -> & B2 & K2). exists msg'. split; [done|]. split.
  - rewrite B2, B1. unfold met_pairs. rewrite filter_cons. destruct (met_present mask m).
    + by rewrite (decide_True (P := true = true)).
    + by rewrite (decide_False (P := false = true)).
  - intros k Hk. by rewrite K2, K1.
Qed.

(** Whether one of the texts or numbers of a definition is relabelled does not depend on the
    order of the pairs. *)
Lemma relabelled_perm {A} ps qs (m : gmap string A) k : ps ≡ₚ qs → apart ps → relabelled ps m k = relabelled qs m k.
Proof.
  intros Hp Ha. assert (apart qs) as Hq by (unfold apart in *; by rewrite <-Hp).
  assert (∀ rs, apart rs → ∀ p, p ∈ rs → p.2 = k → is_Some (m !! p.1) → relabelled rs m k = m !! p.1) as Hin.
  { intros rs Hr p Hp2 Hk Hs. unfold relabelled. destruct (list_find _ rs) as [[i q]|] eqn:El.
    - apply list_find_Some in El as (Hi & [Hk' _] & _). apply list_elem_of_lookup in Hp2 as [j Hj].
      enough (p = q) as -> by done. unfold apart in Hr. apply NoDup_app in Hr as (_ & _ & Hr).
      assert (j = i) as ->.
      { apply (NoDup_lookup _ j i k Hr); rewrite list_lookup_fmap; [by rewrite Hj; cbn; f_equal|by rewrite Hi; cbn; f_equal]. }
      congruence.
    - apply list_find_None in El. destruct (proj1 (Forall_forall _ _) El p Hp2). by split. }
  unfold relabelled at 1. destruct (list_find _ ps) as [[i p]|] eqn:El.
  - apply list_find_Some in El as (Hi & [Hk Hs] & _). apply list_elem_of_lookup_2 in Hi. rewrite Hp in Hi. by rewrite (Hin qs Hq p).
  - unfold relabelled. destruct (list_find _ qs) as [[i q]|] eqn:Eq.
    + apply list_find_Some in Eq as (Hi & Hk & _). apply list_elem_of_lookup_2 in Hi. rewrite <-Hp in Hi.
      apply list_find_None in El. by destruct (proj1 (Forall_forall _ _) El q Hi).
    + assert (k ∈ ps.*1 ↔ k ∈ qs.*1) as Hk by by rewrite Hp. destruct (decide (k ∈ ps.*1)), (decide (k ∈ qs.*1)); tauto.
Qed.

(** When the columns and labels that a flow's masks name do not meet, enriching it gives each
    column its label, drops the column, and leaves every other text and number, in whatever
    order the definition is ranged over. *)
Theorem Enrich_relabels ds ms ds' ms' msg :
  let dmask := readMask msg "km_dimension_mask" in
  let mmask := readMask msg "km_metric_mask" in
  is_Some (CustomStr msg) → ds ≡ₚ ds' → ms ≡ₚ ms' → apart (dim_pairs dmask ds) → apart (met_pairs mmask ms) →
  ∃ msg', Enrich_def ds' ms' msg = Ok msg' ∧
    (∀ k, map_range (CustomBigInt msg') !! k = relabelled (met_pairs mmask ms) (map_range (CustomBigInt msg)) k) ∧
    ∀ k, k ≠ "unit"%string → map_range (CustomStr msg') !! k = relabelled (dim_pairs dmask ds) (map_range (CustomStr msg)) k.
Proof.
  intros dmask mmask Hs Hd Hm Ad Am. unfold Enrich_def. fold dmask mmask.
  destruct (enrich_dims_str dmask ds' msg) as (I1 & I2 & _ & _ & I5).
  destruct (enrich_mets_big mmask ms' (fold_left (enrich_dim dmask) ds' msg)) as (msg' & E & B & K); [by apply I5|].
  exists msg'. split; [done|].
  assert (dim_pairs dmask ds ≡ₚ dim_pairs dmask ds') as Pd by (unfold dim_pairs; by rewrite Hd).
  assert (met_pairs mmask ms ≡ₚ met_pairs mmask ms') as Pm by (unfold met_pairs; by rewrite Hm).
  assert (apart (dim_pairs dmask ds')) by (unfold apart in *; by rewrite <-Pd).
  assert (apart (met_pairs mmask ms')) by (unfold apart in *; by rewrite <-Pm). split.
  - intros k. rewrite B, I2, moves_lookup by done. symmetry. by apply relabelled_perm.
  - intros k Hk. rewrite K, I1, moves_lookup by done. symmetry. by apply relabelled_perm.
Qed.

(** ** Concrete inputs *)
Definition km_dims : list KMDimension := [mkKMDimension 1 "string" "site" "kt_dim_1"; mkKMDimension 2 "string" "city" "kt_dim_2"].
Definition km_mets : list KMMetric := [mkKMMetric 1 "counter" "bytes" "rx" "kt_met_1"; mkKMMetric 2 "gauge" "percent" "cpu" "kt_met_2"].
Definition km_flow : JCHF := NewJCHF
  <| CustomStr := Some {["kt_dim_1" := "ams"; "kt_dim_2" := "Amsterdam"; "km_dimension_mask" := " 0x0_1 "]}%string |>
  <| CustomBigInt := Some {["kt_met_1" := 7; "kt_met_2" := 8; "km_metric_mask" := 3]}%string |>.

Lemma Enrich_relabels_witness : ∃ msg', Enrich_def (rev km_dims) (rev km_mets) km_flow = Ok msg' ∧
  map_range (CustomStr msg') !! "site"%string = Some "ams"%string ∧ map_range (CustomStr msg') !! "kt_dim_1"%string = None ∧
  map_range (CustomStr msg') !! "kt_dim_2"%string = Some "Amsterdam"%string ∧ map_range (CustomBigInt msg') !! "cpu"%string = Some 8.
Proof.
  destruct (Enrich_relabels km_dims km_mets (rev km_dims) (rev km_mets) km_flow) as (msg' & E & B & S).
  - by eexists.
  - apply Permutation_rev.
  - apply Permutation_rev.
  - refine (bool_decide_unpack _ _). vm_compute. exact I.
  - refine (bool_decide_unpack _ _). vm_compute. exact I.
  - exists msg'. split; [exact E|]. rewrite !S, B by done. split; [|split; [|split]]; vm_compute; reflexivity.
Defined.

(** The unit of a flow with two metrics is that of the one visited last. *)
Example unit_of_last :
  (λ ms, match Enrich_def [] ms km_flow with Ok msg => map_range (CustomStr msg) !! "unit"%string | _ => None end) <$> [km_mets; rev km_mets]
  = [Some "percent"%string; Some "bytes"%string].
Proof. vm_compute. reflexivity. Qed.

(** A dimension whose label is its column loses its value. *)
Example label_is_column :
  match Enrich_def [mkKMDimension 0 "string" "kt_dim_1" "kt_dim_1"] [] km_flow with
  | Ok msg => map_range (CustomStr msg) !! "kt_dim_1"%string | _ => Some "error"%string end = None.
Proof. vm_compute. reflexivity. Qed.
