(* ===== verification/Enrich.v ===== *)
(** Enrichment of flows (src/pkg/cat/jchf.go, doEnrichments) and the cache of resolved names
    (src/pkg/util/resolv/resolver.go).

    The country and AS databases, the DNS, the object store, JSON decoding and the service
    that runs scripts are parameters; the rules, the stitcher and the metric definitions are
    those of the other files. *)
From Stdlib Require Import Floats.SpecFloat.
From S2P Require Import Prelude GoStrings GoNet.
From S2P Require Import Jchf FlowToJCHF.
From S2P Require Import Rules.
From S2P Require Ic.
From S2P Require Stitch.
From S2P Require Km.
From S2P Require Import SnmpCounters.
Local Open Scope Z_scope.

(** ** The resolver *)
(** The names of the cache, and the addresses that were looked up on the network. *)
Record Resolver := mkResolver { cache : gmap string string; asked : list string }.

Section resolver.
(** [LookupAddr] may answer differently every time: it sees what was asked before. *)
Variable LookupAddr : list string → string → option (list string).
Variable MAX_CACHE_SIZE : Z.

Definition NewResolver : Resolver := mkResolver ∅ [].

Definition last_byte (s : string) : res string :=
  if String.eqb s "" then Panic "slice bounds out of range" else Ok (drop_string (String.length s - 1) s).
(** The first name, without its final dot and then in lower case. *)
Definition final_name (ans : option (list string)) : res string :=
  match ans with
  | Some (final :: _) =>
      l ← last_byte final;
      Ok (if String.eqb l "." then ToLower (take_string (String.length final - 1) final) else final)
  | _ => Ok EmptyString
  end.
Definition Resolve (ip : string) (r : Resolver) : res (Resolver * string) :=
  match cache r !! ip with
  | Some final => Ok (r, final)
  | None =>
      if MAX_CACHE_SIZE <? Z.of_nat (size (cache r)) then Ok (r, EmptyString)
      else
        final ← final_name (LookupAddr (asked r) ip);
        Ok (mkResolver (<[ip := final]> (cache r)) (asked r ++ [ip]), final)
  end.
Definition clearCache (r : Resolver) : Resolver := mkResolver ∅ (asked r).

(** A run of lookups; the names are what each gave. *)
Fixpoint Resolve_all (ips : list string) (r : Resolver) : res (Resolver * list string) :=
  match ips with
  | [] => Ok (r, [])
  | ip :: ips => '(r, name) ← Resolve ip r; '(r, names) ← Resolve_all ips r; Ok (r, name :: names)
  end.

(** What the cache is between two clearings. *)
Record resolver_inv (base : nat) (r : Resolver) : Prop := {
  inv_nodup : NoDup (drop base (asked r));
  inv_asked : dom (cache r) = list_to_set (drop base (asked r));
  inv_size : Z.of_nat (size (cache r)) ≤ Z.max 0 (MAX_CACHE_SIZE + 1);
  inv_base : (base ≤ length (asked r))%nat }.

Lemma inv_length base r : resolver_inv base r → size (cache r) = length (drop base (asked r)).
Proof.
  intros [Hn Ha _ _]. rewrite <-(size_dom (D := gset string)), Ha. by apply size_list_to_set.
Qed.

Lemma Resolve_inv ip base r r' name : resolver_inv base r → Resolve ip r = Ok (r', name) →
  resolver_inv base r' ∧ (∃ l, asked r' = asked r ++ l) ∧ (∀ k v, cache r !! k = Some v → cache r' !! k = Some v) ∧
  (cache r' !! ip = Some name ∨ (r' = r ∧ name = EmptyString ∧ MAX_CACHE_SIZE < Z.of_nat (size (cache r)))).
Proof.
  intros Hi. unfold Resolve. destruct (cache r !! ip) as [final|] eqn:E.
  { intros [= <- <-]. split; [done|]. split; [exists []; by rewrite app_nil_r|]. by split; [|left]. }
  destruct (Z.ltb_spec MAX_CACHE_SIZE (Z.of_nat (size (cache r)))).
  { intros [= <- <-]. split; [done|]. split; [exists []; by rewrite app_nil_r|]. split; [done|]. by right. }
  destruct (final_name _) as [final| | |]; [|done..]. cbn [mbind res_bind]. intros [= <- <-]. cbn [cache asked].
  assert (ip ∉ drop base (asked r)) as Hip.
  { pose proof (inv_asked _ _ Hi) as Hd. apply not_elem_of_dom in E. rewrite Hd in E. by rewrite elem_of_list_to_set in E. }
  split; [|split; [by eexists|split]].
  - destruct Hi as [Hn Ha Hs Hb]. split; cbn [cache asked].
    + rewrite drop_app_le by done. rewrite Permutation_app_comm. by constructor.
    + rewrite drop_app_le by done. rewrite dom_insert_L, Ha, list_to_set_app_L. cbn [list_to_set]. set_solver.
    + rewrite map_size_insert_None by done. lia.
    + rewrite length_app. lia.
  - intros k v Hk. rewrite lookup_insert_ne; [done|congruence].
  - left. by rewrite lookup_insert_eq.
Qed.

(** Between two clearings of its cache a resolver asks the network for no address twice, holds
    at most one name more than its limit, and once it has a name for an address, every
    later lookup gives that name without asking again. *)
Theorem Resolve_all_cached ips : ∀ base r r' names, resolver_inv base r → Resolve_all ips r = Ok (r', names) →
  NoDup (drop base (asked r')) ∧ Z.of_nat (size (cache r')) ≤ Z.max 0 (MAX_CACHE_SIZE + 1) ∧ resolver_inv base r' ∧
  resolver_inv (length (asked r')) (clearCache r') ∧
  ∀ i ip name, ips !! i = Some ip → names !! i = Some name →
    (cache r' !! ip = Some name ∧ Resolve ip r' = Ok (r', name)) ∨ name = EmptyString.
Proof.
  induction ips as [|ip ips IH]; intros base r r' names Hi; cbn [Resolve_all].
  { intros [= <- <-]. split; [apply Hi|]. split; [apply Hi|]. split; [done|]. split; [|done].
    split; cbn [clearCache cache asked]; rewrite ?drop_ge by done; [constructor|done|rewrite map_size_empty; lia|done]. }
  destruct (Resolve ip r) as [[r1 name1]| | |] eqn:E1; [|done..]. cbn [mbind res_bind].
  destruct (Resolve_all ips r1) as [[r2 names2]| | |] eqn:E2; [|done..]. cbn [mbind res_bind]. intros [= <- <-].
  destruct (Resolve_inv _ _ _ _ _ Hi E1) as (Hi1 & _ & _ & Hc). destruct (IH _ _ _ _ Hi1 E2) as (H1 & H2 & H3 & H4 & H5).
  do 4 (split; [done|]). intros [|i] ip' name; cbn [lookup list_lookup]; [|apply H5]. intros [= <-] [= <-].
  destruct Hc as [Hc|(_ & -> & _)]; [left|by right].
  enough (cache r2 !! ip = Some name1) as Hc' by (split; [done|]; unfold Resolve; by rewrite Hc').
  clear -Hi1 E2 Hc. revert base r1 names2 Hi1 E2 Hc. induction ips as [|ip1 ips IH]; intros base r1 names2 Hi1; cbn [Resolve_all].
  { by intros [= <- <-]. }
  destruct (Resolve ip1 r1) as [[r3 name3]| | |] eqn:E3; [|done..]. cbn [mbind res_bind].
  destruct (Resolve_all ips r3) as [[r4 names4]| | |] eqn:E4; [|done..]. cbn [mbind res_bind]. intros [= <- <-] Hc.
  destruct (Resolve_inv _ _ _ _ _ Hi1 E3) as (Hi3 & _ & Hm & _). eapply IH; [exact Hi3|exact E4|]. by apply Hm.
Qed.

Lemma new_resolver_inv : resolver_inv 0 NewResolver.
Proof. split; cbn; [constructor|done|rewrite map_size_empty; lia|lia]. Qed.
End resolver.

(** ** What the enrichment uses *)
(** A decoded JSON value; the entries of an object are those of the decoded map, in the order
    in which a range visits them. *)
Inductive json :=
| JNull | JBool (b : bool) | JNum (f : spec_float) | JStr (s : string)
| JArr (l : list json) | JObj (o : list (string * json)).
Definition field (k : string) (o : list (string * json)) : option json := snd <$> (snd <$> list_find (λ e, e.1 = k) o).

Class EnrichEnv := {
  Unmarshal_array : string → option (list json);
  Unmarshal_har : list byte → option HarFile;
  dns : list string → string → option (list string);
  dims_of : Km.KMDef → list Km.KMDimension;
  mets_of : Km.KMDef → list Km.KMMetric }.

Section enrich.
Context `{Patricia} `{EnrichEnv} `{Ic.ProtoOrder}.
Variable MAX_CACHE_SIZE : Z.

(** The service, as far as the enrichment uses it; the stitcher and the resolver change. *)
Record KTranslate := mkKTranslate {
  rule : RuleSet;
  geo : option (IP → option string);
  asn : option (IP → option (Z * string));
  resolver : option Resolver;
  objmgr : option (string → option (list byte));
  stitcher : option Stitch.Stitcher;
  tagKM : option Km.KMMapper;
  enricher : option (list JCHF → option (list JCHF)) }.
Definition set_resolver (r : option Resolver) (kc : KTranslate) : KTranslate :=
  mkKTranslate (rule kc) (geo kc) (asn kc) r (objmgr kc) (stitcher kc) (tagKM kc) (enricher kc).
Definition set_stitcher (s : option Stitch.Stitcher) (kc : KTranslate) : KTranslate :=
  mkKTranslate (rule kc) (geo kc) (asn kc) (resolver kc) (objmgr kc) s (tagKM kc) (enricher kc).

Definition PrivateIP : string := "Private IP".
Definition set_str (k v : string) (msg : JCHF) : res JCHF :=
  cs ← map_set k v (CustomStr msg); Ok (msg <| CustomStr := cs |>).

(** ** Places and systems *)
Definition enrich_internal (kc : KTranslate) (sip dip : option IP) (msg : JCHF) : res (JCHF * bool * bool) :=
  let setSip := IsInternal sip (SrcAs msg) (rule kc) in
  msg ← (if setSip then set_str "src_as_name" PrivateIP (msg <| SrcGeo := PrivateIP |>) else Ok msg);
  let setDip := IsInternal dip (DstAs msg) (rule kc) in
  msg ← (if setDip then set_str "dst_as_name" PrivateIP (msg <| DstGeo := PrivateIP |>) else Ok msg);
  Ok (msg, setSip, setDip).

(** An address to look up: there is one, and it is not internal. *)
Definition outside (ip : option IP) (set : bool) : option IP := if set then None else ip.

Definition enrich_geo (kc : KTranslate) (sip dip : option IP) (setSip setDip : bool) (msg : JCHF) : JCHF :=
  match geo kc with
  | None => msg
  | Some search =>
      let msg := match outside sip setSip ≫= search with Some g => msg <| SrcGeo := g |> | None => msg end in
      match outside dip setDip ≫= search with Some g => msg <| DstGeo := g |> | None => msg end
  end.
Definition enrich_asn (kc : KTranslate) (sip dip : option IP) (setSip setDip : bool) (msg : JCHF) : res JCHF :=
  match asn kc with
  | None => Ok msg
  | Some search =>
      msg ← match outside sip setSip ≫= search with Some (a, name) => set_str "src_as_name" name (msg <| SrcAs := a |>) | None => Ok msg end;
      match outside dip setDip ≫= search with Some (a, name) => set_str "dst_as_name" name (msg <| DstAs := a |>) | None => Ok msg end
  end.

(** The application, from the smaller port. *)
Definition enrich_service (kc : KTranslate) (sip dip : option IP) (msg : JCHF) : res JCHF :=
  if String.eqb (str_at "application" msg) "" then
    let '(ip, port) := if (0 <? L4SrcPort msg) && (L4SrcPort msg <? L4DstPort msg) then (sip, L4SrcPort msg) else (dip, L4DstPort msg) in
    let '(app, ok) := GetService ip port (Ic.proto_num (Protocol msg)) (rule kc) in
    if ok : bool then set_str "application" app msg else Ok msg
  else Ok msg.

Definition enrich_hosts (kc : KTranslate) (msg : JCHF) : res (KTranslate * JCHF) :=
  match resolver kc with
  | None => Ok (kc, msg)
  | Some r =>
      '(r, name) ← Resolve dns MAX_CACHE_SIZE (SrcAddr msg) r;
      msg ← set_str "src_host" name msg;
      '(r, name) ← Resolve dns MAX_CACHE_SIZE (DstAddr msg) r;
      msg ← set_str "dst_host" name msg;
      Ok (set_resolver (Some r) kc, msg)
  end.

(** ** Synthetic tests *)
Definition getHar (kc : KTranslate) (path : string) (msg : JCHF) : JCHF :=
  match objmgr kc with
  | None => msg
  | Some get =>
      match get path ≫= Unmarshal_har with Some har => msg <| Har := Some har |> | None => msg end
  end.
(** An entry of the traced object; the decoder gives no integers. *)
Definition trace_entry (kc : KTranslate) (key : string) (val : json) (msg : JCHF) : res JCHF :=
  match val with
  | JStr tv => set_str key tv msg
  | JNum tv => cb ← map_set key (int64_of_float tv) (CustomBigInt msg); Ok (msg <| CustomBigInt := cb |>)
  | JObj tv =>
      match field "har" tv with
      | Some (JArr (JObj iner :: _)) =>
          match field "path" iner with Some (JStr pt) => Ok (getHar kc pt msg) | _ => Ok msg end
      | _ => Ok msg
      end
  | _ => Ok msg
  end.
Fixpoint trace_entries (kc : KTranslate) (o : list (string * json)) (msg : JCHF) : res JCHF :=
  match o with [] => Ok msg | (key, val) :: o => msg ← trace_entry kc key val msg; trace_entries kc o msg end.
Definition TRACE : string := "error_cause/trace_route".
Definition enrich_trace (kc : KTranslate) (msg : JCHF) : res JCHF :=
  if String.eqb (EventType msg) KENTIK_EVENT_SYNTH then
    match map_range (CustomStr msg) !! TRACE with
    | None => Ok msg
    | Some rawStr =>
        if String.eqb rawStr "" then Ok msg
        else match Unmarshal_array rawStr with
        | Some (JObj sd :: _) =>
            msg ← trace_entries kc sd msg;
            Ok (msg <| CustomStr := delete TRACE <$> CustomStr msg |>)
        | _ => Ok msg
        end
    end
  else Ok msg.

(** ** Stitching and metrics *)
Definition enrich_stitch (kc : KTranslate) (msg : JCHF) : res (KTranslate * JCHF) :=
  match stitcher kc with
  | None => Ok (kc, msg)
  | Some s => '(s, msg, _) ← Stitch.Stitch msg s; Ok (set_stitcher (Some s) kc, msg)
  end.
Definition enrich_km (kc : KTranslate) (msg : JCHF) : res JCHF :=
  let id := big_at "km_measurement_id" msg in
  if id =? 0 then Ok msg else Km.KM_Enrich dims_of mets_of id msg (tagKM kc).

(** ** [doEnrichments] *)
Definition enrich (kc : KTranslate) (msg : JCHF) : res (KTranslate * JCHF) :=
  let sip := ParseIP (SrcAddr msg) in
  let dip := ParseIP (DstAddr msg) in
  '(msg, setSip, setDip) ← enrich_internal kc sip dip msg;
  let msg := enrich_geo kc sip dip setSip setDip msg in
  msg ← enrich_asn kc sip dip setSip setDip msg;
  msg ← enrich_service kc sip dip msg;
  '(kc, msg) ← enrich_hosts kc msg;
  msg ← enrich_trace kc msg;
  '(kc, msg) ← enrich_stitch kc msg;
  msg ← enrich_km kc msg;
  Ok (kc, msg).
Fixpoint enrich_all (kc : KTranslate) (msgs : list JCHF) : res (KTranslate * list JCHF) :=
  match msgs with
  | [] => Ok (kc, [])
  | msg :: msgs => '(kc, msg) ← enrich kc msg; '(kc, msgs) ← enrich_all kc msgs; Ok (kc, msg :: msgs)
  end.
Definition doEnrichments (kc : KTranslate) (msgs : list JCHF) : res (KTranslate * list JCHF) :=
  '(kc, msgs) ← enrich_all kc msgs;
  Ok (kc, match enricher kc with Some send => default msgs (send msgs) | None => msgs end).

(** ** Laws *)
(** A flow without what an enrichment by place, system and service may change. *)
Definition untouched (msg : JCHF) : JCHF :=
  msg <| SrcGeo := EmptyString |> <| DstGeo := EmptyString |> <| SrcAs := 0 |> <| DstAs := 0 |> <| CustomStr := None |>.

Lemma set_str_ok k v msg cs : CustomStr msg = Some cs → ∃ msg', set_str k v msg = Ok msg' ∧
  CustomStr msg' = Some (<[k := v]> cs) ∧ untouched msg' = untouched msg ∧
  SrcGeo msg' = SrcGeo msg ∧ DstGeo msg' = DstGeo msg ∧ SrcAs msg' = SrcAs msg ∧ DstAs msg' = DstAs msg.
Proof. intros E. unfold set_str. rewrite E. cbn [map_set mbind res_bind]. eexists. split; [reflexivity|]. done. Qed.

(** What a lookup gives for an address that is not internal. *)
Definition found {A} (db : option (IP → option A)) (ip : option IP) (internal : bool) : option A :=
  search ← db; outside ip internal ≫= search.

Lemma enrich_internal_ok kc sip dip msg cs : CustomStr msg = Some cs →
  let si := IsInternal sip (SrcAs msg) (rule kc) in
  let di := IsInternal dip (DstAs msg) (rule kc) in
  ∃ msg', enrich_internal kc sip dip msg = Ok (msg', si, di) ∧ untouched msg' = untouched msg ∧
    SrcGeo msg' = (if si then PrivateIP else SrcGeo msg) ∧ DstGeo msg' = (if di then PrivateIP else DstGeo msg) ∧
    SrcAs msg' = SrcAs msg ∧ DstAs msg' = DstAs msg ∧
    CustomStr msg' = Some ((if di then <["dst_as_name" := PrivateIP]> else (λ m, m))
      ((if si then <["src_as_name" := PrivateIP]> else (λ m, m)) cs))%string.
Proof.
  intros Hs si di. unfold enrich_internal. fold si. assert (∃ msg1, (if si then set_str "src_as_name" PrivateIP (msg <| SrcGeo := PrivateIP |>) else Ok msg) = Ok msg1 ∧
    untouched msg1 = untouched msg ∧ SrcGeo msg1 = (if si then PrivateIP else SrcGeo msg) ∧ DstGeo msg1 = DstGeo msg ∧ SrcAs msg1 = SrcAs msg ∧ DstAs msg1 = DstAs msg ∧
    CustomStr msg1 = Some ((if si then <["src_as_name" := PrivateIP]> else (λ m, m)) cs))%string as (msg1 & -> & U1 & A1 & B1 & C1 & D1 & E1).
  { destruct si; [|by exists msg]. match goal with |- context [set_str _ _ ?b] => destruct (set_str_ok "src_as_name" PrivateIP b cs Hs) as (msg1 & -> & E1 & U1 & A1 & B1 & C1 & D1) end.
    exists msg1. rewrite U1, A1, B1, C1, D1, E1. done. }
  cbn [mbind res_bind]. rewrite D1. fold di. destruct di.
  - match goal with |- context [set_str _ _ ?b] => destruct (set_str_ok "dst_as_name" PrivateIP b _ E1) as (msg2 & -> & E2 & U2 & A2 & B2 & C2 & D2) end.
    cbn [mbind res_bind]. exists msg2. rewrite U2, A2, B2, C2, D2, E2. split; [done|]. split; [exact U1|]. done.
  - cbn [mbind res_bind]. exists msg1. done.
Qed.

Lemma enrich_geo_ok kc sip dip si di msg :
  let msg' := enrich_geo kc sip dip si di msg in
  untouched msg' = untouched msg ∧ SrcGeo msg' = default (SrcGeo msg) (found (geo kc) sip si) ∧
  DstGeo msg' = default (DstGeo msg) (found (geo kc) dip di) ∧ SrcAs msg' = SrcAs msg ∧ DstAs msg' = DstAs msg ∧ CustomStr msg' = CustomStr msg.
Proof.
  unfold enrich_geo, found. destruct (geo kc) as [search|]; [|done]. cbn [mbind option_bind].
  destruct (outside sip si ≫= search), (outside dip di ≫= search); done.
Qed.

Lemma enrich_asn_ok kc sip dip si di msg cs : CustomStr msg = Some cs →
  ∃ msg', enrich_asn kc sip dip si di msg = Ok msg' ∧ untouched msg' = untouched msg ∧
    SrcGeo msg' = SrcGeo msg ∧ DstGeo msg' = DstGeo msg ∧
    SrcAs msg' = default (SrcAs msg) (fst <$> found (asn kc) sip si) ∧ DstAs msg' = default (DstAs msg) (fst <$> found (asn kc) dip di) ∧
    CustomStr msg' = Some (match found (asn kc) dip di with Some (_, name) => <["dst_as_name" := name]> | None => (λ m, m) end
      (match found (asn kc) sip si with Some (_, name) => <["src_as_name" := name]> | None => (λ m, m) end cs))%string.
Proof.
  intros Hs. unfold enrich_asn, found. destruct (asn kc) as [search|]; [|by exists msg].
  change (Some search ≫= λ search, outside sip si ≫= search) with (outside sip si ≫= search).
  change (Some search ≫= λ search, outside dip di ≫= search) with (outside dip di ≫= search).
  generalize (outside sip si ≫= search) as fs, (outside dip di ≫= search) as fd. intros fs fd.
  assert (∃ msg1, (match fs with Some (a, name) => set_str "src_as_name" name (msg <| SrcAs := a |>) | None => Ok msg end) = Ok msg1 ∧
    untouched msg1 = untouched msg ∧ SrcGeo msg1 = SrcGeo msg ∧ DstGeo msg1 = DstGeo msg ∧ SrcAs msg1 = default (SrcAs msg) (fst <$> fs) ∧ DstAs msg1 = DstAs msg ∧
    CustomStr msg1 = Some (match fs with Some (_, name) => <["src_as_name" := name]> | None => (λ m, m) end cs))%string as (msg1 & E & U1 & A1 & B1 & C1 & D1 & E1).
  { destruct fs as [[a name]|]; [|by exists msg].
    match goal with |- context [set_str _ _ ?b] => destruct (set_str_ok "src_as_name" name b cs Hs) as (msg1 & -> & E1 & U1 & A1 & B1 & C1 & D1) end.
    exists msg1. rewrite U1, A1, B1, C1, D1, E1. done. }
  rewrite E. cbn [mbind res_bind]. destruct fd as [[a name]|].
  - match goal with |- context [set_str _ _ ?b] => destruct (set_str_ok "dst_as_name" name b _ E1) as (msg2 & -> & E2 & U2 & A2 & B2 & C2 & D2) end.
    exists msg2. rewrite U2, A2, B2, C2, D2, E2. split; [done|]. split; [exact U1|]. done.
  - exists msg1. done.
Qed.

Lemma enrich_service_ok kc sip dip msg cs : CustomStr msg = Some cs →
  let '(ip, port) := if (0 <? L4SrcPort msg) && (L4SrcPort msg <? L4DstPort msg) then (sip, L4SrcPort msg) else (dip, L4DstPort msg) in
  let '(app, ok) := GetService ip port (Ic.proto_num (Protocol msg)) (rule kc) in
  ∃ msg', enrich_service kc sip dip msg = Ok msg' ∧ untouched msg' = untouched msg ∧
    SrcGeo msg' = SrcGeo msg ∧ DstGeo msg' = DstGeo msg ∧ SrcAs msg' = SrcAs msg ∧ DstAs msg' = DstAs msg ∧
    CustomStr msg' = Some (if bool_decide (default EmptyString (cs !! "application"%string) = EmptyString) && ok then <["application"%string := app]> cs else cs).
Proof.
  intros Hs. unfold enrich_service, str_at, map_get. rewrite Hs. cbn [mbind option_bind].
  destruct (if _ && _ then _ else _) as [ip port]. destruct (GetService _ _ _ _) as [app ok].
  destruct (String.eqb_spec (default EmptyString (cs !! "application"%string)) "") as [E|E].
  - rewrite (bool_decide_true _ E). destruct ok; [|by exists msg].
    destruct (set_str_ok "application" app msg cs Hs) as (msg' & -> & E' & U & A & B & C & D). exists msg'. done.
  - rewrite (bool_decide_false _ E). by exists msg.
Qed.

(** What a text of an enriched flow is: the names of the two systems, the application, and the
    texts that were there. *)
Definition enriched_str (kc : KTranslate) (msg : JCHF) (cs : gmap string string) (k : string) : option string :=
  let sip := ParseIP (SrcAddr msg) in
  let dip := ParseIP (DstAddr msg) in
  let name ip as_ := if IsInternal ip as_ (rule kc) then Some PrivateIP else snd <$> (asn kc ≫= λ search, ip ≫= search) in
  let '(ip, port) := if (0 <? L4SrcPort msg) && (L4SrcPort msg <? L4DstPort msg) then (sip, L4SrcPort msg) else (dip, L4DstPort msg) in
  let '(app, ok) := GetService ip port (Ic.proto_num (Protocol msg)) (rule kc) in
  let new :=
    if String.eqb k "src_as_name" then name sip (SrcAs msg)
    else if String.eqb k "dst_as_name" then name dip (DstAs msg)
    else if String.eqb k "application" then
      if String.eqb (default EmptyString (cs !! k)) "" && ok then Some app else None
    else None in
  match new with Some v => Some v | None => cs !! k end.

(** A flow that is not of a synthetic test leaves the enrichment with these places, systems and
    texts and nothing else changed, where nothing is resolved, stitched or renamed: an internal
    address is private whatever the databases say, one outside has what they say or what it came
    with, and the application is looked up for the smaller port unless the flow has one. *)
Theorem enrich_flow kc msg cs : CustomStr msg = Some cs → String.eqb (EventType msg) KENTIK_EVENT_SYNTH = false →
  resolver kc = None → stitcher kc = None → big_at "km_measurement_id" msg = 0 →
  let place ip as_ own := if IsInternal ip as_ (rule kc) then PrivateIP else default own (geo kc ≫= λ search, ip ≫= search) in
  let system ip as_ := if IsInternal ip as_ (rule kc) then as_ else default as_ (fst <$> (asn kc ≫= λ search, ip ≫= search)) in
  ∃ msg', enrich kc msg = Ok (kc, msg') ∧ untouched msg' = untouched msg ∧
    SrcGeo msg' = place (ParseIP (SrcAddr msg)) (SrcAs msg) (SrcGeo msg) ∧
    DstGeo msg' = place (ParseIP (DstAddr msg)) (DstAs msg) (DstGeo msg) ∧
    SrcAs msg' = system (ParseIP (SrcAddr msg)) (SrcAs msg) ∧ DstAs msg' = system (ParseIP (DstAddr msg)) (DstAs msg) ∧
    ∀ k, map_range (CustomStr msg') !! k = enriched_str kc msg cs k.
Proof.
  intros Hs Hev Hres Hst Hkm. cbv zeta. unfold enrich.
  set (sip := ParseIP (SrcAddr msg)). set (dip := ParseIP (DstAddr msg)).
  destruct (enrich_internal_ok kc sip dip msg cs Hs) as (msg1 & -> & U1 & A1 & B1 & C1 & D1 & E1). cbn [mbind res_bind].
  set (si := IsInternal sip (SrcAs msg) (rule kc)) in *. set (di := IsInternal dip (DstAs msg) (rule kc)) in *.
  destruct (enrich_geo_ok kc sip dip si di msg1) as (U2 & A2 & B2 & C2 & D2 & E2).
  set (msg2 := enrich_geo kc sip dip si di msg1) in *. rewrite E1 in E2.
  destruct (enrich_asn_ok kc sip dip si di msg2 _ E2) as (msg3 & -> & U3 & A3 & B3 & C3 & D3 & E3). cbn [mbind res_bind].
  pose proof (enrich_service_ok kc sip dip msg3 _ E3) as Hsv.
  assert (untouched msg3 = untouched msg) as U13 by congruence.
  pose proof (f_equal L4SrcPort U13 : L4SrcPort msg3 = L4SrcPort msg) as L1. pose proof (f_equal L4DstPort U13 : L4DstPort msg3 = L4DstPort msg) as L2.
  pose proof (f_equal Protocol U13 : Protocol msg3 = Protocol msg) as L3. rewrite L1, L2, L3 in Hsv. unfold enriched_str. fold sip dip.
  destruct (if _ && _ then _ else _) as [ip port]. destruct (GetService _ _ _ _) as [app ok].
  destruct Hsv as (msg4 & -> & U4 & A4 & B4 & C4 & D4 & E4). cbn [mbind res_bind].
  assert (untouched msg4 = untouched msg) as U14 by congruence.
  unfold enrich_hosts. rewrite Hres. cbn [mbind res_bind]. unfold enrich_trace.
  rewrite (f_equal EventType U14 : EventType msg4 = EventType msg), Hev. cbn [mbind res_bind].
  unfold enrich_stitch. rewrite Hst. cbn [mbind res_bind]. unfold enrich_km, big_at.
  rewrite (f_equal CustomBigInt U14 : CustomBigInt msg4 = CustomBigInt msg). fold (big_at "km_measurement_id" msg). rewrite Hkm.
  cbn [mbind res_bind Z.eqb]. exists msg4. split; [done|]. split; [done|].
  rewrite A4, B4, C4, D4, A3, B3, C3, D3, A2, B2, C2, D2, A1, B1, C1, D1. unfold found, outside.
  split; [|split; [|split; [|split]]].
  1-4: destruct si, di, (geo kc), (asn kc); done.
  intros k. rewrite E4. unfold map_range. cbn [default from_option id]. fold si di. clearbody si di. clear.
  assert (∀ si ip, found (asn kc) ip si = if si then None else asn kc ≫= λ search, ip ≫= search) as Hf.
  { intros [] ?; unfold found, outside; by destruct (asn kc). }
  rewrite !Hf. set (fs := asn kc ≫= λ search, sip ≫= search). set (fd := asn kc ≫= λ search, dip ≫= search).
  assert (∀ m1 : gmap string string, m1 !! "application"%string = cs !! "application"%string →
    (if bool_decide (default EmptyString (m1 !! "application"%string) = EmptyString) && ok then <["application"%string := app]> m1 else m1) !! k =
    if String.eqb k "application" then (match (if String.eqb (default EmptyString (cs !! k)) "" && ok then Some app else None) with Some v => Some v | None => cs !! k end) else m1 !! k) as Happ.
  { intros m1 Hm1. rewrite Hm1. destruct (String.eqb_spec k "application") as [->|Hk].
    - destruct (String.eqb_spec (default EmptyString (cs !! "application"%string)) "") as [Ea|Ea].
      + rewrite (bool_decide_true _ Ea). destruct ok; cbn; [by rewrite lookup_insert_eq|done].
      + by rewrite (bool_decide_false _ Ea).
    - destruct (_ && _); [by rewrite lookup_insert_ne|done]. }
  rewrite Happ. 2: { destruct si, di, fs as [[]|], fd as [[]|]; rewrite ?lookup_insert_ne by done; done. }
  destruct (String.eqb_spec k "src_as_name") as [->|H1]; [|destruct (String.eqb_spec k "dst_as_name") as [->|H2]]; cbn [String.eqb Ascii.eqb Bool.eqb].
  - destruct si, di, fs as [[]|], fd as [[]|]; cbn; rewrite ?(lookup_insert_ne _ "dst_as_name"%string) by done; rewrite ?lookup_insert_eq; done.
  - destruct si, di, fs as [[]|], fd as [[]|]; cbn; repeat (rewrite lookup_insert_eq || rewrite lookup_insert_ne by done); try done.
  - destruct (String.eqb_spec k "application") as [->|H3]; [done|].
    destruct si, di, fs as [[]|], fd as [[]|]; cbn; rewrite ?lookup_insert_ne by done; done.
Qed.
End enrich.

(** ** Concrete inputs *)
#[local] Instance no_env : EnrichEnv := {|
  Unmarshal_array s := None; Unmarshal_har b := None; dns q ip := Some ["DNS.Example.COM."%string];
  dims_of d := []; mets_of d := [] |}.

Lemma Resolve_all_cached_witness : ∃ r', Resolve_all dns 1 ["10.0.0.1"; "10.0.0.2"; "10.0.0.1"; "10.0.0.3"]%string NewResolver =
    Ok (r', ["dns.example.com"; "dns.example.com"; "dns.example.com"; ""]%string) ∧
  NoDup (asked r') ∧ Z.of_nat (size (cache r')) ≤ 2.
Proof.
  eexists. split; [vm_compute; reflexivity|].
  match goal with |- NoDup (asked ?r) ∧ _ => destruct (Resolve_all_cached dns 1 ["10.0.0.1"; "10.0.0.2"; "10.0.0.1"; "10.0.0.3"]%string 0 NewResolver r
    ["dns.example.com"; "dns.example.com"; "dns.example.com"; ""]%string (new_resolver_inv _)) as (H1 & H2 & _); [vm_compute; reflexivity|] end.
  split; [exact H1|exact H2].
Defined.

Definition enrich_rules : RuleSet := @mkRuleSet list_patricia internal_rules {[53 := "dns"%string]}.
Definition enrich_service0 : @KTranslate list_patricia := mkKTranslate enrich_rules
  (Some (λ ip, Some "US"%string)) (Some (λ ip, Some (15169, "Google"%string))) None None None None None.
Definition enrich_flow0 : JCHF := NewJCHF <| CustomStr := Some {["note" := "kept"]}%string |>
  <| SrcAddr := "10.1.2.3" |> <| DstAddr := "8.8.8.8" |> <| L4SrcPort := 50000 |> <| L4DstPort := 53 |> <| Protocol := "UDP" |> <| SrcAs := 64512 |>.

Lemma enrich_flow_witness : ∃ msg', @enrich list_patricia no_env Ic.source_order 10000 enrich_service0 enrich_flow0 = Ok (enrich_service0, msg') ∧
  SrcGeo msg' = PrivateIP ∧ DstGeo msg' = "US"%string ∧ SrcAs msg' = 64512 ∧ DstAs msg' = 15169 ∧
  (λ k, map_range (CustomStr msg') !! k) <$> ["src_as_name"; "dst_as_name"; "application"; "note"]%string =
    [Some PrivateIP; Some "Google"; Some "dns"; Some "kept"]%string.
Proof.
  destruct (@enrich_flow list_patricia no_env Ic.source_order 10000 enrich_service0 enrich_flow0 {["note" := "kept"]}%string)
    as (msg' & E & _ & A & B & C & D & K); [reflexivity..|].
  exists msg'. split; [exact E|]. rewrite A, B, C, D. cbn [fmap list_fmap]. rewrite !K.
  split; [|split; [|split; [|split]]]; vm_compute; reflexivity.
Defined.
