(* ===== verification/Prom.v ===== *)
(** The Prometheus format (src/pkg/formats/prom/prom.go): metrics of flows and devices, and the
    gauges they are set on.

    The client library is a parameter that accepts or refuses a registration; what is set on a
    gauge is recorded. The order of a range is given by an oracle that sees how many messages
    and metrics came before. *)
From Stdlib Require Import Floats.SpecFloat.
From S2P Require Import Prelude GoStrings.
From S2P Require Import Jchf.
From S2P Require Import FlowToJCHF.
From S2P Require Import FormatsUtil.
From S2P Require Import Rollup.
From S2P Require Import Enrich.
Local Open Scope Z_scope.

(** [float64(z)] of an integer. *)
Definition float_of (z : Z) : spec_float := binary_normalize 53 1024 z 0 false.
Definition float_div (a b : spec_float) : spec_float := SFdiv 53 1024 a b.

(** A tag is an attribute or a value decoded from JSON. *)
Inductive tag := TVal (v : value) | TJson (j : json).

Record PromData := mkPromData { pd_Name : string; pd_Value : spec_float; pd_Tags : gmap string tag }.

Record PrometheusFormatConfig := mkPromConfig { EnableCollectorStats : bool; FlowsNeeded : Z }.

(** A gauge: its name, its labels, and the values that were set, with those of the labels. *)
Record GaugeVec := mkGaugeVec { gv_Name : string; gv_labels : list string; gv_set : list (list string * spec_float) }.

(** What the format asks of the language and of the library: the text of a value that is not a
    string, the order of a range, and whether a registration is accepted. *)
Class PromEnv := {
  Sprint_tag : tag → string;
  range_order : ∀ {A}, nat → gmap string A → list (string * A);
  flatten_order : nat → JCHF → list string;
  metadata_strs : nat → JCHF → list (string * string);
  metadata_ints : nat → JCHF → list (string * Z);
  json_array : string → option (list json);
  registers : list GaugeVec → GaugeVec → bool }.
Class PromEnvLaws `{PromEnv} := {
  range_order_perm {A} n (m : gmap string A) : range_order n m ≡ₚ map_to_list m }.

Section prom.
Context `{PromEnv}.

(** ** Labels *)
Fixpoint all_digits (s : string) : bool :=
  match s with EmptyString => true | String c s => bool_decide (is_Some (digit_value c)) && all_digits s end.
Definition invalidTag (k : string) : bool := negb (String.eqb k "") && all_digits k.

Abbreviation tagVec := (gmap string (gmap string Z)).
Definition add_label (st : gmap string Z * Z) (k : string) : gmap string Z * Z :=
  let '(m, next) := st in
  if invalidTag k then st
  else match m !! k with Some _ => st | None => (<[k := next]> m, next + 1) end.
Definition AddTagLabels (n : nat) (d : PromData) (vecTags : tagVec) : tagVec :=
  let m := default ∅ (vecTags !! pd_Name d) in
  <[pd_Name d := (fold_left add_label (range_order n (pd_Tags d)).*1 (m, Z.of_nat (size m))).1]> vecTags.

Definition tag_text (t : tag) : string := match t with TVal (VString s) => s | _ => Sprint_tag t end.
Fixpoint put_values (vec : gmap string Z) (l : list (string * tag)) (tags : list string) : res (list string) :=
  match l with
  | [] => Ok tags
  | (k, v) :: l =>
      match vec !! k with
      | None => put_values vec l tags
      | Some posit => tags ← slice_set tags (Z.to_nat posit) (tag_text v); put_values vec l tags
      end
  end.
Definition GetTagValues (n : nat) (d : PromData) (vecTags : tagVec) : res (list string) :=
  let vec := default ∅ (vecTags !! pd_Name d) in
  put_values vec (range_order n (pd_Tags d)) (replicate (size vec) EmptyString).

Fixpoint string_map (f : ascii → ascii) (s : string) : string :=
  match s with EmptyString => EmptyString | String c s => String (f c) (string_map f s) end.
Definition makeSafe (c : ascii) : ascii := if Ascii.eqb c "." || Ascii.eqb c " " then "_"%char else c.
Fixpoint put_labels (l : list (string * Z)) (labels : list string) : res (list string) :=
  match l with
  | [] => Ok labels
  | (k, v) :: l => labels ← slice_set labels (Z.to_nat v) (string_map makeSafe k); put_labels l labels
  end.

(** ** The format *)
(** [clock] counts the messages and metrics that were ranged over. *)
Record PromFormat := mkPromFormat {
  vecs : gmap string GaugeVec;
  invalids : gset string;
  lastMetadata : gmap string LastMetadata;
  vecTags : tagVec;
  seen : gmap string Z;
  config : PrometheusFormatConfig;
  clock : nat }.

Definition NewFormat (cfg : option PrometheusFormatConfig) : res PromFormat :=
  match cfg with
  | None => Err (Errorf "prometheus format cannot be nil" [])
  | Some cfg => Ok (mkPromFormat ∅ ∅ ∅ ∅ ∅ cfg 0)
  end.

Definition toLabels (name : string) (f : PromFormat) : res (list string) :=
  let vec := default ∅ (vecTags f !! name) in
  put_labels (range_order (clock f) vec) (replicate (size vec) EmptyString).

Definition set_vecs (v : gmap string GaugeVec) (f : PromFormat) : PromFormat :=
  mkPromFormat v (invalids f) (lastMetadata f) (vecTags f) (seen f) (config f) (clock f).
Definition tick (f : PromFormat) : PromFormat :=
  mkPromFormat (vecs f) (invalids f) (lastMetadata f) (vecTags f) (seen f) (config f) (S (clock f)).

(** [prometheus.MustRegister(prometheus.NewGaugeVec(...))] and [f.vecs[key] = cv]. *)
Definition register (key name : string) (labels : list string) (f : PromFormat) : res PromFormat :=
  let cv := mkGaugeVec name labels [] in
  if registers ((map_to_list (vecs f)).*2) cv then Ok (set_vecs (<[key := cv]> (vecs f)) f)
  else Panic "registration refused".
(** [f.vecs[key].WithLabelValues(values...).Set(v)]: as many values as labels. *)
Definition set_gauge (key : string) (values : list string) (v : spec_float) (f : PromFormat) : res PromFormat :=
  match vecs f !! key with
  | None => Panic "invalid memory address or nil pointer dereference"
  | Some cv =>
      if (length values =? length (gv_labels cv))%nat then
        Ok (set_vecs (<[key := mkGaugeVec (gv_Name cv) (gv_labels cv) (gv_set cv ++ [(values, v)])]> (vecs f)) f)
      else Panic "inconsistent label cardinality"
  end.

(** A metric: for the first ones its tags are collected, later ones are set. *)
Definition to_metric (m : PromData) (f : PromFormat) : res PromFormat :=
  let s := default 0 (seen f !! pd_Name m) in
  if s <? FlowsNeeded (config f) then
    Ok (mkPromFormat (vecs f) (invalids f) (lastMetadata f) (AddTagLabels (clock f) m (vecTags f))
          (<[pd_Name m := s + 1]> (seen f)) (config f) (S (clock f)))
  else
    f ← match vecs f !! pd_Name m with
        | Some _ => Ok f
        | None => labels ← toLabels (pd_Name m) f; register (pd_Name m) (pd_Name m) labels (tick f)
        end;
    values ← GetTagValues (clock f) m (vecTags f);
    set_gauge (pd_Name m) values (pd_Value m) (tick f).
Fixpoint to_metrics (ms : list PromData) (f : PromFormat) : res PromFormat :=
  match ms with [] => Ok f | m :: ms => f ← to_metric m f; to_metrics ms f end.

(** ** Rollups *)
Definition float_is_zero (x : spec_float) : bool := match x with S754_zero _ => true | _ => false end.
Definition rollup_metric (roll : Roll) (f : PromFormat) : res PromFormat :=
  if float_is_zero (ro_Metric roll) then Ok f
  else
    f ← match vecs f !! ro_EventType roll with
        | Some _ => Ok f
        | None => register (ro_EventType roll) (ReplaceAll (ro_Name roll) "." ":") (ro_dims roll) f
        end;
    set_gauge (ro_EventType roll) (Split (ro_Dimension roll) (ro_KeyJoin roll)) (ro_Metric roll) f.
Fixpoint Rollup_ (rolls : list Roll) (f : PromFormat) : res PromFormat :=
  match rolls with [] => Ok f | roll :: rolls => f ← rollup_metric roll f; Rollup_ rolls f end.

(** ** Metrics of a message *)
Definition synthWLAttr : list string := [
  "agent_id"; "agent_name"; "dst_addr"; "dst_cdn_int"; "dst_geo"; "provider"; "src_addr"; "src_cdn_int"; "src_as_name";
  "src_geo"; "test_id"; "test_name"; "test_type"; "test_url"; "src_host"; "dst_host"; "src_cloud_region";
  "src_cloud_provider"; "src_site"; "dst_cloud_region"; "dst_cloud_provider"; "dst_site"; "statusMessage";
  "statusEncoding"; "https_validity"; "https_expiry_timestamp"; "dest_ip"]%string.
Definition synthAttrKeys : list string := ["statusMessage"; "statusEncoding"; "https_validity"; "https_expiry_timestamp"]%string.

(** [util.SetAttr] on a new map; the message comes back with its flattened form. *)
Definition attrs_of (f : PromFormat) (jin : JCHF) (metrics : gomap MetricInfo) : res (JCHF * gmap string tag) :=
  '(jin, attr) ← SetAttr (flatten_order (clock f) jin) ∅ jin metrics (lastMetadata f !! DeviceName jin) false;
  Ok (jin, fmap (M := gmap string) TVal attr).
(** The loop that keeps a few attributes, and makes the test's number a text: the map is
    changed at the key that is visited only. *)
Definition white_list (attr : gmap string tag) : gmap string tag :=
  map_imap (λ k v, if existsb (String.eqb k) synthWLAttr then
      Some (match v with TVal (VInt vi) => if String.eqb k "test_id" then TVal (VString (Itoa vi)) else v | _ => v end)
    else None) attr.

Definition metric (prefix name : string) (v : spec_float) (attr : gmap string tag) : PromData :=
  mkPromData (String.append prefix name) v attr.

Definition fromKSyngest (f : PromFormat) (jin : JCHF) : res (JCHF * list PromData) :=
  '(jin, attr) ← attrs_of f jin GetSyngestMetricNameSet;
  let attr := white_list attr in
  Ok (jin, omap (λ '(m, name), if 0 <? int_at m jin then Some (metric "kentik:syngest:" (MI_Name name) (float_of (int_at m jin)) attr) else None)
             (range_order (clock f) (map_range GetSyngestMetricNameSet))).

Definition synth_metrics : list string :=
  ["avg_rtt"; "jit_rtt"; "time"; "code"; "port"; "status"; "ttlb"; "size"; "trx_time"; "validation"; "lost"; "sent"]%string.
(** The texts of the traced page that become attributes. *)
Definition synth_trace (rawStr : string) (attr : gmap string tag) : gmap string tag :=
  if String.eqb rawStr "" then attr
  else match json_array rawStr with
  | Some (JObj sd :: _) => foldl (λ attr key, match field key sd with Some val => <[key := TJson val]> attr | None => attr end) attr synthAttrKeys
  | _ => attr
  end.
Definition fromKSynth (f : PromFormat) (jin : JCHF) : res (JCHF * list PromData) :=
  if int_at "result_type" jin <=? 1 then Ok (jin, [])
  else
    let rawStr := str_at TRACE jin in
    let metrics := GetSynMetricNameSet (int_at "result_type" jin) in
    '(jin, attr) ← attrs_of f jin metrics;
    let attr := white_list (synth_trace rawStr attr) in
    Ok (jin, omap (λ '(m, name), if existsb (String.eqb (MI_Name name)) synth_metrics then Some (metric "kentik:synth:" (MI_Name name) (float_of (int_at m jin)) attr) else None)
               (range_order (clock f) (map_range metrics))).

Definition MetricInfo_zero : MetricInfo := name_only "".
Definition kflow_metrics : gomap MetricInfo :=
  Some (list_to_map ((λ k, (k, MetricInfo_zero)) <$> ["in_bytes"; "out_bytes"; "in_pkts"; "out_pkts"; "latency_ms"]%string)).
(** [int64(in.InBytes * uint64(in.SampleRate))]. *)
Definition sampled (jin : JCHF) (x : Z) : Z := wraps 64 (wrapu 64 (x * SampleRate jin)).
Definition kflow_value (jin : JCHF) (m : string) : Z :=
  if String.eqb m "in_bytes" then sampled jin (InBytes jin)
  else if String.eqb m "out_bytes" then sampled jin (OutBytes jin)
  else if String.eqb m "in_pkts" then sampled jin (InPkts jin)
  else if String.eqb m "out_pkts" then sampled jin (OutPkts jin)
  else int_at "appl_latency_ms" jin.
Definition fromKflow (f : PromFormat) (jin : JCHF) : res (JCHF * list PromData) :=
  '(jin, attr) ← attrs_of f jin kflow_metrics;
  let ms := map_imap (λ m _, Some (kflow_value jin m)) (map_range kflow_metrics) in
  Ok (jin, omap (λ '(k, v), if v =? 0 then None else Some (metric "kentik:flow:" k (float_of v) attr)) (range_order (clock f) ms)).

Definition snmp_values (jin : JCHF) : gmap string Z :=
  map_imap (λ m _, map_range (CustomBigInt jin) !! m) (map_range (CustomMetrics jin)).
Definition fromSnmpDeviceMetric (f : PromFormat) (jin : JCHF) : res (JCHF * list PromData) :=
  '(jin, attr) ← attrs_of f jin (CustomMetrics jin);
  Ok (jin, (λ '(k, v), metric "kentik:snmp:" k (float_of v) attr) <$> range_order (clock f) (snmp_values jin)).

(** The part of a line's capacity that was used, from the octets and the uptime. *)
Definition utilization (lm : option LastMetadata) (port : Z) (octets : string) (jin : JCHF) : option spec_float :=
  lm ← lm;
  ii ← InterfaceInfo lm !! port;
  match ii !! "Speed"%string with
  | Some (VInt32 ispeed) =>
      let uptimeSpeed := wraps 64 (big_at "Uptime" jin * wraps 64 (ispeed * 1000000)) in
      if 0 <? uptimeSpeed then Some (float_div (float_of (wraps 64 (big_at octets jin * 8 * 100))) (float_of uptimeSpeed)) else None
  | _ => None
  end.
Definition fromSnmpInterfaceMetric (f : PromFormat) (jin : JCHF) : res (JCHF * list PromData) :=
  '(jin, attr) ← attrs_of f jin (CustomMetrics jin);
  let lm := lastMetadata f !! DeviceName jin in
  let msF : gmap string spec_float := list_to_map (omap (λ '(k, v), (λ x, (k, x)) <$> v)
    [("IfInUtilization"%string, utilization lm (InputPort jin) "ifHCInOctets" jin);
     ("IfOutUtilization"%string, utilization lm (OutputPort jin) "ifHCOutOctets" jin)]) in
  Ok (jin, ((λ '(k, v), metric "kentik:snmp:" k (float_of v) attr) <$> range_order (clock f) (snmp_values jin)) ++
           ((λ '(k, v), metric "kentik:snmp:" k v attr) <$> range_order (clock f) msF)).

Definition fromSnmpMetadata (f : PromFormat) (jin : JCHF) : PromFormat :=
  if String.eqb (DeviceName jin) "" then f
  else mkPromFormat (vecs f) (invalids f) (<[DeviceName jin := SetMetadata jin (metadata_strs (clock f) jin) (metadata_ints (clock f) jin)]> (lastMetadata f))
         (vecTags f) (seen f) (config f) (clock f).

Definition KENTIK_EVENT_SNMP_DEV_METRIC : string := "KSnmpDeviceMetric".
Definition KENTIK_EVENT_SNMP_INT_METRIC : string := "KSnmpInterfaceMetric".
Definition KENTIK_EVENT_SNMP_METADATA : string := "KSnmpInterfaceMetadata".

Definition toPromMetric (jin : JCHF) (f : PromFormat) : res (PromFormat * JCHF * list PromData) :=
  let emit (r : res (JCHF * list PromData)) := '(jin, ms) ← r; Ok (tick f, jin, ms) in
  let e := EventType jin in
  if String.eqb e KENTIK_EVENT_TYPE then emit (fromKflow f jin)
  else if String.eqb e KENTIK_EVENT_SNMP_DEV_METRIC then emit (fromSnmpDeviceMetric f jin)
  else if String.eqb e KENTIK_EVENT_SNMP_INT_METRIC then emit (fromSnmpInterfaceMetric f jin)
  else if String.eqb e KENTIK_EVENT_SYNTH then emit (fromKSynth f jin)
  else if String.eqb e KENTIK_EVENT_SYNTH_GEST then emit (fromKSyngest f jin)
  else if String.eqb e KENTIK_EVENT_SNMP_METADATA then Ok (tick (fromSnmpMetadata f jin), jin, [])
  else Ok (mkPromFormat (vecs f) ({[e]} ∪ invalids f) (lastMetadata f) (vecTags f) (seen f) (config f) (S (clock f)), jin, []).

Fixpoint toPromMetrics (msgs : list JCHF) (f : PromFormat) : res (PromFormat * list PromData) :=
  match msgs with
  | [] => Ok (f, [])
  | m :: msgs => '(f, _, ms) ← toPromMetric m f; '(f, rest) ← toPromMetrics msgs f; Ok (f, ms ++ rest)
  end.
(** [To] gives nothing to send. *)
Definition To (msgs : list JCHF) (f : PromFormat) : res PromFormat :=
  '(f, ms) ← toPromMetrics msgs f; to_metrics ms f.

(** ** Laws *)
(** Writing texts at places of a list. *)
Fixpoint put_at (l : list (Z * string)) (tags : list string) : res (list string) :=
  match l with [] => Ok tags | (p, x) :: l => tags ← slice_set tags (Z.to_nat p) x; put_at l tags end.

Lemma put_labels_at l tags : put_labels l tags = put_at ((λ '(k, v), (v, string_map makeSafe k)) <$> l) tags.
Proof.
  revert tags. induction l as [|[k v] l IH]; intros tags; [done|]. cbn. destruct (slice_set _ _ _); cbn; [apply IH|done..].
Qed.
Lemma put_values_at vec l tags :
  put_values vec l tags = put_at (omap (λ '(k, v), (λ p, (p, tag_text v)) <$> vec !! k) l) tags.
Proof.
  revert tags. induction l as [|[k v] l IH]; intros tags; [done|]. cbn. destruct (vec !! k); cbn; [|apply IH].
  destruct (slice_set _ _ _); cbn; [apply IH|done..].
Qed.

Lemma put_at_ok l : ∀ tags, NoDup l.*1 → Forall (λ e, 0 ≤ e.1 < Z.of_nat (length tags)) l →
  ∃ tags', put_at l tags = Ok tags' ∧ length tags' = length tags ∧
    (∀ p x, (p, x) ∈ l → tags' !! Z.to_nat p = Some x) ∧
    ∀ i, (∀ p, p ∈ l.*1 → Z.to_nat p ≠ i) → tags' !! i = tags !! i.
Proof.
  induction l as [|[p x] l IH]; intros tags Hn Hr; [exists tags; set_solver|].
  cbn [fmap list_fmap fst] in Hn. apply NoDup_cons in Hn as [Hp Hn]. apply Forall_cons in Hr as [Hp0 Hr]. cbn [fst] in Hp0.
  cbn [put_at]. rewrite slice_set_ok by lia. cbn [mbind res_bind].
  destruct (IH (<[Z.to_nat p:=x]> tags) Hn) as (tags' & E & Hl & Hin & Hout); [by rewrite length_insert|].
  rewrite length_insert in Hl. exists tags'. split; [done|]. split; [done|]. split.
  - intros p' x' [[= -> ->]|Hx]%elem_of_cons; [|by apply Hin]. rewrite Hout.
    + apply list_lookup_insert_eq. lia.
    + intros q Hq Heq. apply list_elem_of_fmap in Hq as ([q' y] & -> & Hq). rewrite Forall_forall in Hr. specialize (Hr _ Hq). cbn [fst] in *.
      assert (q' = p) as -> by lia. apply Hp. by apply (list_elem_of_fmap_2 fst) in Hq.
  - intros i Hi. rewrite Hout by (intros q Hq; apply Hi; by right). apply list_lookup_insert_ne. apply Hi. by left.
Qed.

(** The places of the tags of a metric are those of a list, each taken once. *)
Record places (m : gmap string Z) : Prop := {
  pl_range k p : m !! k = Some p → 0 ≤ p < Z.of_nat (size m);
  pl_inj k k' p : m !! k = Some p → m !! k' = Some p → k = k' }.

Lemma places_empty : places ∅.
Proof. split; intros *; by rewrite lookup_empty. Qed.

Lemma add_label_places k m : places m → let st := add_label (m, Z.of_nat (size m)) k in places st.1 ∧ st.2 = Z.of_nat (size st.1).
Proof.
  intros Hm. unfold add_label. destruct (invalidTag k); [by split|]. destruct (m !! k) eqn:E; [by split|]. cbn [fst snd].
  rewrite map_size_insert_None by done. split; [|lia]. split; rewrite ?map_size_insert_None by done.
  - intros k' p. destruct (decide (k = k')) as [<-|Hn]; [rewrite lookup_insert_eq; intros [= <-]; lia|].
    rewrite lookup_insert_ne by done. intros Hp%(pl_range _ Hm). lia.
  - intros k1 k2 p. destruct (decide (k = k1)) as [<-|H1], (decide (k = k2)) as [<-|H2]; rewrite ?lookup_insert_eq, ?lookup_insert_ne by done; [done|..].
    + intros [= <-] Hp%(pl_range _ Hm). lia.
    + intros Hp%(pl_range _ Hm) [= <-]. lia.
    + apply (pl_inj _ Hm).
Qed.
Lemma add_labels_places ks : ∀ m, places m → places (fold_left add_label ks (m, Z.of_nat (size m))).1.
Proof.
  induction ks as [|k ks IH]; intros m Hm; [done|]. cbn [fold_left]. pose proof (add_label_places k m Hm) as [H1 H2].
  destruct (add_label _ k) as [m' next]. cbn [fst snd] in *. subst next. by apply IH.
Qed.

Context `{!PromEnvLaws}.

(** A list of texts for the places of a metric, from the entries of a map. *)
Lemma place_texts {A} (vec : gmap string Z) (n : nat) (m : gmap string A) (pos : string → A → option Z) (text : string → A → string) :
  places vec → (∀ k v p, m !! k = Some v → pos k v = Some p → vec !! k = Some p) →
  ∃ l, put_at (omap (λ '(k, v), (λ p, (p, text k v)) <$> pos k v) (range_order n m)) (replicate (size vec) EmptyString) = Ok l ∧ length l = size vec ∧
    ∀ k p, vec !! k = Some p → l !! Z.to_nat p = Some (default EmptyString (v ← m !! k; (λ _, text k v) <$> pos k v)).
Proof.
  intros Hv Hpos. set (es := omap _ _).
  assert (∀ p x, (p, x) ∈ es ↔ ∃ k v, m !! k = Some v ∧ pos k v = Some p ∧ x = text k v) as Hes.
  { intros p x. unfold es. rewrite list_elem_of_omap. split.
    - intros ([k v] & Hk & E). rewrite range_order_perm, elem_of_map_to_list in Hk. destruct (pos k v) as [q|] eqn:Eq; [|done].
      injection E as -> <-. by exists k, v.
    - intros (k & v & Hk & Hp & ->). exists (k, v). rewrite range_order_perm, elem_of_map_to_list. by rewrite Hp. }
  assert (NoDup es.*1) as Hnd.
  { apply (NoDup_fmap_fst). 
    - intros p x1 x2 (k1 & v1 & M1 & P1 & ->)%Hes (k2 & v2 & M2 & P2 & ->)%Hes.
      assert (k1 = k2) as -> by (eapply (pl_inj _ Hv); by eapply Hpos). congruence.
    - unfold es. assert (NoDup (range_order n m)) as Hn by (rewrite range_order_perm; apply NoDup_map_to_list).
      assert (∀ k v, (k, v) ∈ range_order n m → m !! k = Some v) as Hin by (intros k v; by rewrite range_order_perm, elem_of_map_to_list).
      clear Hes es. induction (range_order n m) as [|[k v] l IH]; [constructor|]. apply NoDup_cons in Hn as [Hk Hn].
      cbn [omap list_omap]. destruct (pos k v) as [p|] eqn:Ep; [|apply IH; [done|set_solver]]. cbn [fmap option_fmap option_map].
      constructor; [|apply IH; [done|set_solver]]. intros ([k' v'] & Hk' & Ex)%list_elem_of_omap.
      destruct (pos k' v') as [q|] eqn:Eq; [|done]. injection Ex as -> _.
      assert (m !! k = Some v) as M1 by (apply Hin; left). assert (m !! k' = Some v') as M2 by (apply Hin; by right).
      assert (k' = k) as -> by (eapply (pl_inj _ Hv); by eapply Hpos). by assert (v' = v) as -> by congruence. }
  destruct (put_at_ok es (replicate (size vec) EmptyString) Hnd) as (l & E & Hl & Hin & Hout).
  { apply Forall_forall. intros [p x] (k & v & Hm & Hp & _)%Hes. rewrite length_replicate. by eapply (pl_range _ Hv), Hpos. }
  rewrite length_replicate in Hl. exists l. split; [done|]. split; [done|]. intros k p Hk.
  destruct (m !! k) as [v|] eqn:Hm; cbn [mbind option_bind]; [destruct (pos k v) as [q|] eqn:Hq; cbn [fmap option_fmap option_map]|].
  { assert (q = p) as -> by (pose proof (Hpos _ _ _ Hm Hq); congruence). apply Hin, Hes. by exists k, v. }
  all: cbn [default from_option]; rewrite Hout; [apply lookup_replicate_2; pose proof (pl_range _ Hv _ _ Hk); lia|].
  all: intros p' Hp' Heq; apply list_elem_of_fmap in Hp' as ([p'' x] & -> & (k' & v' & Hm' & Hp & _)%Hes); cbn [fst] in Heq.
  all: pose proof (Hpos _ _ _ Hm' Hp) as Hp'; pose proof (pl_range _ Hv _ _ Hk); pose proof (pl_range _ Hv _ _ Hp').
  all: assert (p'' = p) as -> by lia; assert (k' = k) as -> by (by eapply (pl_inj _ Hv)); congruence.
Qed.

Definition vec_of (f : PromFormat) (name : string) : gmap string Z := default ∅ (vecTags f !! name).

Lemma toLabels_ok name f : places (vec_of f name) → ∃ labels, toLabels name f = Ok labels ∧ length labels = size (vec_of f name) ∧
  ∀ k p, vec_of f name !! k = Some p → labels !! Z.to_nat p = Some (string_map makeSafe k).
Proof.
  intros Hp. unfold toLabels. fold (vec_of f name). rewrite put_labels_at.
  destruct (place_texts (vec_of f name) (clock f) (vec_of f name) (λ _ p, Some p) (λ k _, string_map makeSafe k) Hp) as (l & E & Hl & Hk); [by intros k v p Hv [= <-]|].
  exists l. split; [|split; [done|]].
  - rewrite <-E. f_equal. clear. induction (range_order _ _) as [|[k v] es IH]; [done|]. cbn. f_equal. exact IH.
  - intros k p Hkp. rewrite (Hk _ _ Hkp), Hkp. done.
Qed.
Lemma GetTagValues_ok n d vt : places (default ∅ (vt !! pd_Name d)) → ∃ values, GetTagValues n d vt = Ok values ∧
  length values = size (default ∅ (vt !! pd_Name d) : gmap string Z) ∧
  ∀ k p, (default ∅ (vt !! pd_Name d) : gmap string Z) !! k = Some p → values !! Z.to_nat p = Some (default EmptyString (tag_text <$> pd_Tags d !! k)).
Proof.
  intros Hp. unfold GetTagValues. set (vec := default ∅ (vt !! pd_Name d)) in *. rewrite put_values_at.
  destruct (place_texts vec n (pd_Tags d) (λ k _, vec !! k) (λ _ v, tag_text v) Hp) as (l & E & Hl & Hk); [done|].
  exists l. split; [exact E|]. split; [done|]. intros k p Hkp. rewrite (Hk _ _ Hkp). f_equal. rewrite Hkp. by destruct (pd_Tags d !! k).
Qed.

(** What has been set on a gauge: a metric of that name, its tags each under its label. *)
Definition well_set (hist : list PromData) (name : string) (labels values : list string) (v : spec_float) : Prop :=
  ∃ d, d ∈ hist ∧ pd_Name d = name ∧ pd_Value d = v ∧ length values = length labels ∧
    ∀ i l, labels !! i = Some l → ∃ k, string_map makeSafe k = l ∧ values !! i = Some (default EmptyString (tag_text <$> pd_Tags d !! k)).

Definition count (name : string) (hist : list PromData) : Z := Z.of_nat (length (filter (λ d, pd_Name d = name) hist)).
Lemma count_snoc name hist d : count name (hist ++ [d]) = count name hist + (if decide (pd_Name d = name) then 1 else 0).
Proof.
  unfold count. rewrite filter_app, length_app, filter_cons, filter_nil. case_decide; cbn [length]; lia.
Qed.

(** After the metrics [hist]: labels stay as they were when their gauge was made. *)
Record prom_inv (hist : list PromData) (f : PromFormat) : Prop := {
  pi_places name : places (vec_of f name);
  pi_seen name : default 0 (seen f !! name) = Z.min (count name hist) (Z.max 0 (FlowsNeeded (config f)));
  pi_none name : vecs f !! name = None → count name hist ≤ Z.max 0 (FlowsNeeded (config f));
  pi_some name cv : vecs f !! name = Some cv →
    Z.of_nat (length (gv_set cv)) = count name hist - Z.max 0 (FlowsNeeded (config f)) ∧ (0 < length (gv_set cv))%nat ∧
    length (gv_labels cv) = size (vec_of f name) ∧
    (∀ k p, vec_of f name !! k = Some p → gv_labels cv !! Z.to_nat p = Some (string_map makeSafe k)) ∧
    ∀ values v, (values, v) ∈ gv_set cv → well_set hist name (gv_labels cv) values v }.

(** Every place is the place of some tag. *)
Lemma places_onto m i : places m → (i < size m)%nat → ∃ k, m !! k = Some (Z.of_nat i).
Proof.
  intros Hm Hi. destruct (decide (Exists (λ e, e.2 = Z.of_nat i) (map_to_list m))) as [([k p] & He & Hp)%Exists_exists|Hno].
  { exists k. apply elem_of_map_to_list in He. cbn in Hp. by subst. }
  exfalso. assert ((Z.to_nat <$> (map_to_list m).*2) ⊆+ remove Nat.eq_dec i (seq 0 (size m))) as Hsub%submseteq_length.
  - apply NoDup_submseteq.
    + rewrite <-list_fmap_compose. apply NoDup_fmap_2_strong; [|apply NoDup_map_to_list].
      intros [k1 p1] [k2 p2] H1%elem_of_map_to_list H2%elem_of_map_to_list E. cbn in E.
      pose proof (pl_range _ Hm _ _ H1). pose proof (pl_range _ Hm _ _ H2). assert (p1 = p2) as -> by lia. by rewrite (pl_inj _ Hm _ _ _ H1 H2).
    + intros j Hj. apply list_elem_of_fmap in Hj as (p & -> & Hp). apply list_elem_of_fmap in Hp as ([k p'] & -> & Hp). cbn.
      pose proof Hp as Hr. apply elem_of_map_to_list, (pl_range _ Hm) in Hr.
      apply list_elem_of_In, in_in_remove; [|apply list_elem_of_In, elem_of_seq; lia].
      intros Heq. apply Hno, Exists_exists. exists (k, p'). split; [done|]. cbn. lia.
  - rewrite !length_fmap, length_map_to_list in Hsub.
    assert (length (remove Nat.eq_dec i (seq 0 (size m))) < length (seq 0 (size m)))%nat by (apply remove_length_lt, list_elem_of_In, elem_of_seq; lia).
    rewrite length_seq in *. lia.
Qed.

Lemma well_set_snoc hist d name labels values v : well_set hist name labels values v → well_set (hist ++ [d]) name labels values v.
Proof. intros (e & He & Hr). exists e. split; [|done]. rewrite elem_of_app. by left. Qed.
Lemma count_nonneg name hist : 0 ≤ count name hist.
Proof. unfold count. lia. Qed.

(** The first metrics of a name: their gauge is not there yet. *)
Lemma to_metric_seen hist d f : prom_inv hist f → default 0 (seen f !! pd_Name d) < FlowsNeeded (config f) →
  ∃ f', to_metric d f = Ok f' ∧ config f' = config f ∧ prom_inv (hist ++ [d]) f'.
Proof.
  intros Hi Hs. unfold to_metric. rewrite (proj2 (Z.ltb_lt _ _) Hs). eexists. split; [reflexivity|]. split; [done|].
  pose proof (pi_seen _ _ Hi (pd_Name d)) as Hseen. pose proof (count_nonneg (pd_Name d) hist).
  assert (count (pd_Name d) hist < Z.max 0 (FlowsNeeded (config f))) as Hlt by (rewrite Hseen in Hs; lia).
  assert (vecs f !! pd_Name d = None) as Hnone.
  { destruct (vecs f !! pd_Name d) as [cv|] eqn:E; [|done]. destruct (pi_some _ _ Hi _ _ E) as (Hc & Hp & _). exfalso. lia. }
  assert (∀ name, name ≠ pd_Name d → vec_of (mkPromFormat (vecs f) (invalids f) (lastMetadata f) (AddTagLabels (clock f) d (vecTags f))
    (<[pd_Name d := default 0 (seen f !! pd_Name d) + 1]> (seen f)) (config f) (S (clock f))) name = vec_of f name) as Hvec.
  { intros name Hn. unfold vec_of, AddTagLabels. cbn [vecTags]. by rewrite lookup_insert_ne. }
  split; cbn [seen config vecs].
  - intros name. destruct (decide (name = pd_Name d)) as [->|Hn]; [|rewrite Hvec by done; apply (pi_places _ _ Hi)].
    unfold vec_of, AddTagLabels. cbn [vecTags]. rewrite lookup_insert_eq. cbn [default from_option]. apply add_labels_places, (pi_places _ _ Hi).
  - intros name. rewrite count_snoc. destruct (decide (pd_Name d = name)) as [<-|Hn].
    + rewrite lookup_insert_eq. cbn [default from_option id]. rewrite Hseen. lia.
    + rewrite lookup_insert_ne, (pi_seen _ _ Hi) by done. lia.
  - intros name Hno. rewrite count_snoc. case_decide as Hn; [subst; lia|]. pose proof (pi_none _ _ Hi _ Hno). lia.
  - intros name cv Hcv. assert (name ≠ pd_Name d) as Hn by (intros ->; congruence). rewrite Hvec, count_snoc, decide_False by done.
    destruct (pi_some _ _ Hi _ _ Hcv) as (Q1 & Q2 & Q3 & Q4 & Q5). split; [lia|]. split; [done|]. split; [done|]. split; [done|].
    intros values v Hv. by apply well_set_snoc, Q5.
Qed.

(** The gauge of a name, made if it is not there. *)
Lemma gauge_ready hist name f : (∀ l cv, registers l cv = true) → prom_inv hist f → ∃ f' cv,
  (match vecs f !! name with Some _ => Ok f | None => labels ← toLabels name f; register name name labels (tick f) end) = Ok f' ∧
  vecs f' = <[name := cv]> (vecs f) ∧ vecTags f' = vecTags f ∧ seen f' = seen f ∧ config f' = config f ∧
  length (gv_labels cv) = size (vec_of f name) ∧
  (∀ k p, vec_of f name !! k = Some p → gv_labels cv !! Z.to_nat p = Some (string_map makeSafe k)) ∧
  gv_set cv = match vecs f !! name with Some cv => gv_set cv | None => [] end ∧
  ∀ values v, (values, v) ∈ gv_set cv → well_set hist name (gv_labels cv) values v.
Proof.
  intros Hreg Hi. destruct (vecs f !! name) as [cv|] eqn:E.
  - destruct (pi_some _ _ Hi _ _ E) as (Q1 & Q2 & Q3 & Q4 & Q5). exists f, cv. split; [done|]. split; [by rewrite insert_id|]. done.
  - destruct (toLabels_ok name f (pi_places _ _ Hi name)) as (labels & -> & Hl & Hk). cbn [mbind res_bind]. unfold register. rewrite Hreg.
    eexists _, _. split; [reflexivity|]. split; [reflexivity|]. cbn [gv_labels gv_set]. do 5 (split; [done|]). split; [done|]. set_solver.
Qed.

Lemma to_metric_set hist d f : (∀ l cv, registers l cv = true) → prom_inv hist f → FlowsNeeded (config f) ≤ default 0 (seen f !! pd_Name d) →
  ∃ f', to_metric d f = Ok f' ∧ config f' = config f ∧ prom_inv (hist ++ [d]) f'.
Proof.
  intros Hreg Hi Hs. unfold to_metric. rewrite (proj2 (Z.ltb_ge _ _) Hs). set (name := pd_Name d) in *.
  destruct (gauge_ready hist name f Hreg Hi) as (f1 & cv & -> & Hv & Ht & Hse & Hcfg & Hlen & Hlab & Hset & Hwell). cbn [mbind res_bind].
  destruct (GetTagValues_ok (clock f1) d (vecTags f1)) as (values & -> & Hvl & Hvk); [rewrite Ht; apply (pi_places _ _ Hi)|].
  cbn [mbind res_bind]. rewrite Ht in Hvl, Hvk. fold name in Hvl, Hvk. change (default ∅ (vecTags f !! name)) with (vec_of f name) in Hvl, Hvk.
  unfold set_gauge, tick. cbn [vecs]. rewrite Hv, lookup_insert_eq, Hvl, Hlen, Nat.eqb_refl. eexists. split; [reflexivity|]. split; [done|].
  pose proof (pi_seen _ _ Hi name) as Hseen. pose proof (count_nonneg name hist). rewrite Hseen in Hs.
  assert (∀ n, vec_of (set_vecs (<[name := mkGaugeVec (gv_Name cv) (gv_labels cv) (gv_set cv ++ [(values, pd_Value d)])]> (<[name := cv]> (vecs f)))
    (mkPromFormat (<[name := cv]> (vecs f)) (invalids f1) (lastMetadata f1) (vecTags f1) (seen f1) (config f1) (S (clock f1)))) n = vec_of f n) as Hvec.
  { intros n. unfold vec_of. cbn. by rewrite Ht. }
  split; cbn [seen config vecs set_vecs].
  - intros n. rewrite Hvec. apply (pi_places _ _ Hi).
  - intros n. rewrite Hse, Hcfg, (pi_seen _ _ Hi), count_snoc. fold name. case_decide as Hn; [subst n|]; lia.
  - intros n. rewrite insert_insert_eq. destruct (decide (name = n)) as [<-|Hn]; [by rewrite lookup_insert_eq|]. rewrite lookup_insert_ne by done.
    intros Hno%(pi_none _ _ Hi). rewrite Hcfg, count_snoc, decide_False by done. lia.
  - intros n cv' Hn'. rewrite insert_insert_eq in Hn'. rewrite Hvec, Hcfg, count_snoc. fold name. destruct (decide (name = n)) as [<-|Hn].
    + rewrite lookup_insert_eq in Hn'. injection Hn' as <-. cbn [gv_set gv_labels]. rewrite length_app. cbn [length].
      assert (Z.of_nat (length (gv_set cv)) = count name hist - Z.max 0 (FlowsNeeded (config f))) as Hc.
      { rewrite Hset. destruct (vecs f !! name) as [cv0|] eqn:E; [by apply (pi_some _ _ Hi) in E as (? & _)|]. cbn [length].
        pose proof (pi_none _ _ Hi _ E). lia. }
      split; [lia|]. split; [lia|]. split; [done|]. split; [done|].
      intros vs v [Hold|Hnew]%elem_of_app; [by apply well_set_snoc, Hwell|]. apply list_elem_of_singleton in Hnew as [= -> ->].
      exists d. split; [rewrite elem_of_app, list_elem_of_singleton; by right|]. split; [done|]. split; [done|]. split; [congruence|].
      intros i l Hil. pose proof (lookup_lt_Some _ _ _ Hil) as Hi'. rewrite Hlen in Hi'.
      destruct (places_onto _ i (pi_places _ _ Hi name) Hi') as (k & Hk). exists k. pose proof (Hlab _ _ Hk) as Hl1. pose proof (Hvk _ _ Hk) as Hl2.
      rewrite Nat2Z.id in Hl1, Hl2. split; [congruence|done].
    + rewrite lookup_insert_ne in Hn' by done. destruct (pi_some _ _ Hi _ _ Hn') as (Q1 & Q2 & Q3 & Q4 & Q5). split; [lia|]. split; [done|]. split; [done|]. split; [done|].
      intros vs v Hvs. by apply well_set_snoc, Q5.
Qed.

Lemma to_metrics_inv ds : (∀ l cv, registers l cv = true) → ∀ hist f, prom_inv hist f →
  ∃ f', to_metrics ds f = Ok f' ∧ config f' = config f ∧ prom_inv (hist ++ ds) f'.
Proof.
  intros Hreg. induction ds as [|d ds IH]; intros hist f Hi; [exists f; by rewrite app_nil_r|]. cbn [to_metrics].
  assert (∃ f1, to_metric d f = Ok f1 ∧ config f1 = config f ∧ prom_inv (hist ++ [d]) f1) as (f1 & -> & Hc1 & H1).
  { destruct (Z.lt_ge_cases (default 0 (seen f !! pd_Name d)) (FlowsNeeded (config f))); [by apply to_metric_seen|by apply to_metric_set]. }
  cbn [mbind res_bind]. destruct (IH _ _ H1) as (f' & -> & Hc & H2). exists f'. rewrite <-app_assoc in H2. split; [done|]. split; [congruence|done].
Qed.

Lemma new_prom_inv cfg f : NewFormat (Some cfg) = Ok f → prom_inv [] f ∧ config f = cfg.
Proof.
  intros [= <-]. split; [|done]. split; cbn.
  - intros name. apply places_empty.
  - intros name. rewrite lookup_empty. unfold count. cbn. lia.
  - intros name _. unfold count. cbn. lia.
  - intros name cv. by rewrite lookup_empty.
Qed.

(** As long as the library accepts the gauges, no run of metrics fails: after the first
    [FlowsNeeded] of a name every one is set, with as many values as its gauge has labels, each
    tag's text under the label made of the tag's name, whatever tags came and in whatever order
    they were ranged over. *)
Theorem gauges_aligned cfg f ds : (∀ l cv, registers l cv = true) → NewFormat (Some cfg) = Ok f →
  ∃ f', to_metrics ds f = Ok f' ∧ ∀ name,
    match vecs f' !! name with
    | None => count name ds ≤ Z.max 0 (FlowsNeeded cfg)
    | Some cv => Z.of_nat (length (gv_set cv)) = count name ds - Z.max 0 (FlowsNeeded cfg) ∧
        ∀ values v, (values, v) ∈ gv_set cv → well_set ds name (gv_labels cv) values v
    end.
Proof.
  intros Hreg Hf. destruct (new_prom_inv _ _ Hf) as [Hi Hc]. destruct (to_metrics_inv ds Hreg [] f Hi) as (f' & E & Hc' & Hi').
  exists f'. split; [done|]. rewrite Hc in Hc'. intros name. rewrite app_nil_l in Hi'. rewrite <-Hc'. destruct (vecs f' !! name) as [cv|] eqn:Ev.
  - destruct (pi_some _ _ Hi' _ _ Ev) as (H1 & _ & _ & _ & H5). done.
  - by apply (pi_none _ _ Hi').
Qed.
End prom.

(** ** Concrete inputs *)
#[local] Instance any_prom : PromEnv := {|
  Sprint_tag t := match t with TVal (VInt z) => Itoa z | _ => "?"%string end;
  range_order A n m := if Nat.even n then map_to_list m else rev (map_to_list m);
  flatten_order n jin := (avro_rows jin).*1;
  metadata_strs n jin := map_to_list (map_range (CustomStr jin));
  metadata_ints n jin := map_to_list (map_range (CustomInt jin));
  json_array s := None;
  registers l cv := true |}.
#[local] Instance any_prom_laws : PromEnvLaws.
Proof. split. intros A n m. cbn. destruct (Nat.even n); [done|]. symmetry. apply Permutation_rev. Qed.

Definition prom_ds : list PromData := [
  mkPromData "kentik:flow:in_bytes" (float_of 7) {["src_addr" := TVal (VString "10.0.0.1"); "dst as" := TVal (VInt 5); "77" := TVal (VInt 1)]};
  mkPromData "kentik:flow:in_bytes" (float_of 8) {["src_addr" := TVal (VString "10.0.0.2"); "new" := TVal (VInt 9)]}]%string.

Lemma gauges_aligned_witness : ∃ f f' cv, NewFormat (Some (mkPromConfig false 1)) = Ok f ∧ to_metrics prom_ds f = Ok f' ∧
  vecs f' !! "kentik:flow:in_bytes"%string = Some cv ∧ length (gv_set cv) = 1%nat ∧
  ∀ values v, (values, v) ∈ gv_set cv → well_set prom_ds "kentik:flow:in_bytes" (gv_labels cv) values v.
Proof.
  destruct (NewFormat (Some (mkPromConfig false 1))) as [f| | |] eqn:E; [|done..].
  destruct (@gauges_aligned any_prom any_prom_laws (mkPromConfig false 1) f prom_ds (λ _ _, eq_refl true) E) as (f' & E' & H').
  specialize (H' "kentik:flow:in_bytes"%string). exists f, f'.
  destruct (vecs f' !! "kentik:flow:in_bytes"%string) as [cv|].
  - destruct H' as [Hl Hs]. exists cv. do 3 (split; [done|]). split; [|exact Hs].
    assert (count "kentik:flow:in_bytes" prom_ds = 2) as Hc by reflexivity. rewrite Hc in Hl. cbn [FlowsNeeded] in Hl. lia.
  - assert (count "kentik:flow:in_bytes" prom_ds = 2) as Hc by reflexivity. rewrite Hc in H'. cbn [FlowsNeeded] in H'. lia.
Defined.

(** A line of 1 Mbit/s that was full for a second is reported as used to 1%: unlike in the other
    formats, the hundredths of a second of the uptime are taken for seconds. *)
Definition full_line : LastMetadata := mkLastMetadata None {[1 := {["Speed"%string := VInt32 1]}]} None None None.
Definition full_second : JCHF := NewJCHF <| CustomBigInt := Some {["Uptime" := 100; "ifHCInOctets" := 125000]}%string |>.
Example utilization_hundredth : utilization (Some full_line) 1 "ifHCInOctets" full_second = Some (float_of 1).
Proof. vm_compute. reflexivity. Qed.

(** Two tags whose names become one label: a library that wants labels to differ refuses the gauge,
    which ends the process. *)
Definition strict_prom : PromEnv := {|
  Sprint_tag := @Sprint_tag any_prom; range_order := @range_order any_prom; flatten_order := @flatten_order any_prom;
  metadata_strs := @metadata_strs any_prom; metadata_ints := @metadata_ints any_prom; json_array := @json_array any_prom;
  registers l cv := bool_decide (NoDup (gv_labels cv)) |}.
Definition same_label : PromData := mkPromData "kentik:snmp:CPU" (float_of 1) {["if.Name" := TVal (VString "a"); "if_Name" := TVal (VString "b")]}%string.
Example same_label_panics :
  match NewFormat (Some (mkPromConfig false 1)) with
  | Ok f => @to_metrics strict_prom [same_label; same_label] f | _ => Ok (mkPromFormat ∅ ∅ ∅ ∅ ∅ (mkPromConfig false 1) 0) end
  = Panic "registration refused".
Proof. vm_compute. reflexivity. Qed.
