(* ===== verification/Influx.v ===== *)
(** The InfluxDB format (src/pkg/formats/influx/influx.go): the points of flows and devices, how
    points with one name and one text of tags are merged, and the lines they are sent as.

    The encoder of lines is a parameter with a state of its own. The orders of ranges and of an
    unstable sort are those of an oracle that sees how many messages and points came before. *)
From Stdlib Require Import Floats.SpecFloat.
From S2P Require Import Prelude GoStrings.
From S2P Require Import Jchf.
From S2P Require Import FlowToJCHF.
From S2P Require Import FormatsUtil.
From S2P Require Import Rollup.
From S2P Require Prom.
From S2P Require SnmpCounters.
Local Open Scope Z_scope.

Record InfluxData := mkInflux {
  id_Name : string;
  FieldsFloat : gmap string spec_float;
  Fields : gmap string Z;
  FieldsString : gmap string string;
  id_Tags : gmap string value;
  id_Timestamp : Z }.

Inductive field := FInteger (z : Z) | FFloat (f : spec_float) | FText (s : string).

(** The encoder: what it has encoded, its errors, and what it does not take as a value. *)
Class LineEncoder := {
  Encoder : Type;
  new_encoder : Encoder;
  StartLine : string → Encoder → Encoder;
  AddTag : string → string → Encoder → Encoder;
  AddField : string → field → Encoder → Encoder;
  EndLine : Z → Encoder → Encoder;
  EndLineNow : Encoder → Encoder;
  enc_Err : Encoder → bool;
  enc_Bytes : Encoder → list byte;
  FloatValue : spec_float → bool;
  StringValue : string → bool }.

Class InfluxEnv := {
  Sprint_value : value → string;
  order_of : ∀ {A}, nat → gmap string A → list (string * A);
  points_order : nat → list InfluxData → list InfluxData;
  row_order : nat → JCHF → list string;
  strs_order : nat → JCHF → list (string * string);
  ints_order : nat → JCHF → list (string * Z);
  mib_visit : nat → gmap string value → list string;
  match_visit : nat → LastMetadata → list (string * Regexp) }.

(** The language: a range visits every entry once; [sort.Sort] permutes, here in any way, although
    it sorts by name; a range over a map that its loop changes visits no key twice and all that
    are there and stay. *)
Class InfluxEnvLaws `{InfluxEnv} := {
  order_of_perm {A} n (m : gmap string A) : order_of n m ≡ₚ map_to_list m;
  points_order_perm n l : points_order n l ≡ₚ l;
  mib_visit_once n m : NoDup (mib_visit n m);
  mib_visit_all n m : (map_to_list m).*1 ⊆ mib_visit n m }.

Section influx.
Context `{LineEncoder} `{InfluxEnv} `{RegexpEngine}.
Variable namespaceTokenSep : string.

(** ** Points *)
Definition value_text (v : value) : string := match v with VString t => t | _ => Sprint_value v end.
Definition tag_pair (kv : string * value) : string :=
  String.append (ReplaceAll kv.1 " " "_") (String.append "=" (value_text kv.2)).
Definition GetTags (d : InfluxData) : string := Join (sort_strings (tag_pair <$> map_to_list (id_Tags d))) ",".
Definition Prefix (d : InfluxData) : string := String.append (id_Name d) (String.append "," (GetTags d)).

Definition NewMergedInfluxData (s : list InfluxData) : option InfluxData :=
  match s with
  | [] => None
  | d :: _ => Some (mkInflux (id_Name d)
      (foldl (λ m f, FieldsFloat f ∪ m) ∅ s) (foldl (λ m f, Fields f ∪ m) ∅ s) (foldl (λ m f, FieldsString f ∪ m) ∅ s)
      (id_Tags d) (id_Timestamp d))
  end.

Definition add_prefix (prefixes : gmap string (list InfluxData)) (l : InfluxData) : gmap string (list InfluxData) :=
  <[Prefix l := default [] (prefixes !! Prefix l) ++ [l]]> prefixes.
(** The points of a set by prefix, merged, in the order of a range over the prefixes. *)
Definition merge_points (n : nat) (s : list InfluxData) : list InfluxData :=
  omap (λ '(_, l), NewMergedInfluxData l) (order_of n (fold_left add_prefix (points_order n s) ∅)).

(** ** Lines *)
Definition control_char (c : ascii) : bool := let n := nat_of_ascii c in (n <? 32)%nat || (n =? 127)%nat.
Fixpoint contains_control (s : string) : bool :=
  match s with EmptyString => false | String c s => control_char c || contains_control s end.
Definition prepareTagValueMap (s : string) : string :=
  if contains_control s then Prom.string_map (λ c, if control_char c then " "%char else c) s else s.

(** A step of a line: with an error the line is left. *)
Definition line_step (e : Encoder) (k : Encoder → Encoder) : Encoder := if enc_Err e then e else k e.

Fixpoint add_tags (l : list (string * string)) (e : Encoder) (k : Encoder → Encoder) : Encoder :=
  match l with
  | [] => k e
  | (key, s) :: l =>
      line_step (if String.eqb s "" then e else AddTag key (prepareTagValueMap s) e) (λ e, add_tags l e k)
  end.
(** Values that the encoder does not take are left out, without looking at its error. *)
Fixpoint add_fields (l : list (string * field)) (e : Encoder) (k : Encoder → Encoder) : Encoder :=
  match l with
  | [] => k e
  | (key, f) :: l =>
      let ok := match f with FInteger _ => true | FFloat x => FloatValue x | FText s => StringValue s end in
      if ok then line_step (AddField key f e) (λ e, add_fields l e k) else add_fields l e k
  end.
Definition sorted_tags (d : InfluxData) : list (string * string) :=
  (λ k, (k, default EmptyString (value_text <$> id_Tags d !! k))) <$> sort_strings (map_to_list (id_Tags d)).*1.
Definition encode_line (n : nat) (l : InfluxData) (e : Encoder) : Encoder :=
  line_step (StartLine (id_Name l) e) (λ e,
  add_tags (sorted_tags l) e (λ e,
  add_fields ((λ kv, (kv.1, FInteger kv.2)) <$> order_of n (Fields l)) e (λ e,
  add_fields ((λ kv, (kv.1, FFloat kv.2)) <$> order_of n (FieldsFloat l)) e (λ e,
  add_fields ((λ kv, (kv.1, FText (prepareTagValueMap kv.2))) <$> order_of n (FieldsString l)) e (λ e,
  EndLine (id_Timestamp l) e))))).
Definition Bytes (n : nat) (s : list InfluxData) : list byte :=
  enc_Bytes (fold_left (λ e l, encode_line n l e) (merge_points n s) new_encoder).

(** ** The format *)
Record InfluxFormat := mkFormat {
  invalids : gset string;
  lastMetadata : gmap string LastMetadata;
  MeasurementPrefix : string;
  clock : nat }.
Definition with_clock (f : InfluxFormat) : InfluxFormat := mkFormat (invalids f) (lastMetadata f) (MeasurementPrefix f) (S (clock f)).
Definition meta (f : InfluxFormat) (jin : JCHF) : option LastMetadata := lastMetadata f !! DeviceName jin.

Definition point (f : InfluxFormat) (name : string) (ts : Z) (tags : gmap string value) (fields : gmap string Z) (floats : gmap string spec_float) : InfluxData :=
  mkInflux (String.append (MeasurementPrefix f) name) floats fields ∅ tags ts.
Definition attrs (f : InfluxFormat) (jin : JCHF) (metrics : gomap MetricInfo) (strip : bool) : res (JCHF * gmap string value) :=
  SetAttr (row_order (clock f) jin) ∅ jin metrics (meta f jin) strip.

(** *** The service's own metrics *)
Definition own_metrics : gomap MetricInfo :=
  Some (list_to_map ((λ k, (k, name_only "")) <$> ["name"; "value"; "count"; "one-minute"; "95-percentile"; "du"]%string)).
(** The number that is reported for a type of metric. *)
Definition own_key (type : string) : option string :=
  if String.eqb type "counter" then Some "count"%string
  else if String.eqb type "gauge" then Some "value"%string
  else if String.eqb type "histogram" then Some "95-percentile"%string
  else if String.eqb type "meter" then Some "one-minute"%string
  else if String.eqb type "timer" then Some "95-percentile"%string
  else None.
Definition fromKtranslate (f : InfluxFormat) (jin : JCHF) : res (JCHF * list InfluxData) :=
  '(jin, attr) ← attrs f jin own_metrics false;
  let name := ReplaceAll (str_at "name" jin) "chf.kkc." "" in
  Ok (jin, match own_key (str_at "type" jin) with
           | Some k =>
               if String.eqb (str_at "force" jin) "true" || (0 <? big_at k jin) then
                 [point f "ktranslate" (Timestamp jin) attr ∅ {[name := Prom.float_div (Prom.float_of (big_at k jin)) (Prom.float_of 100)]}]
               else []
           | None => []
           end).

(** *** Synthetic tests and flows *)
Definition synth_field (jin : JCHF) (m : string) (name : MetricInfo) : option (string * Z) :=
  if String.eqb m "error" || String.eqb m "timeout" then Some (MI_Name name, 1)
  else if 1 <? int_at "result_type" jin then Some (MI_Name name, int_at m jin) else None.
Definition fromKSynth (f : InfluxFormat) (jin : JCHF) : res (JCHF * list InfluxData) :=
  let metrics := GetSynMetricNameSet (int_at "result_type" jin) in
  '(jin, attr) ← attrs f jin metrics true;
  let ms := foldl (λ ms kv, match synth_field jin kv.1 kv.2 with Some (k, v) => <[k := v]> ms | None => ms end) ∅ (order_of (clock f) (map_range metrics)) in
  Ok (jin, [point f "ksynth" (Timestamp jin) attr ms ∅]).
Definition fromKflow (f : InfluxFormat) (jin : JCHF) : res (JCHF * list InfluxData) :=
  '(jin, attr) ← attrs f jin Prom.kflow_metrics true;
  Ok (jin, [point f "flow" (Timestamp jin) attr (map_imap (λ m _, Some (Prom.kflow_value jin m)) (map_range Prom.kflow_metrics)) ∅]).

(** *** The name of a measurement *)
Definition dropFields : list string := ["objectIdentifier"; "eventType"; "provider"; "SysServices"; "instrumentation.name"]%string.
(** A round of the range of [getMib], on the map it changes. *)
Definition mib_body (k : string) (v : value) (attr : gmap string value) : gmap string value :=
  let attr := if existsb (String.eqb k) dropFields then delete k attr else attr in
  let attr := if String.eqb k "Index" then <["index"%string := v]> (delete k attr) else attr in
  if Contains k namespaceTokenSep then
    match SplitN 1 k namespaceTokenSep with
    | [_; rest] => <[rest := v]> (delete k attr)
    | _ => attr
    end
  else attr.
Definition mib_range (n : nat) (attr : gmap string value) : gmap string value :=
  fold_left (λ m k, match m !! k with Some v => mib_body k v m | None => m end) (mib_visit n attr) attr.

Fixpoint trim_right_char (c : ascii) (s : string) : string :=
  match s with
  | EmptyString => EmptyString
  | String d t => match trim_right_char c t with EmptyString => if Ascii.eqb c d then EmptyString else String d EmptyString | t' => String d t' end
  end.
Fixpoint trim_left_char (c : ascii) (s : string) : string :=
  match s with String d t => if Ascii.eqb c d then trim_left_char c t else s | EmptyString => s end.
Definition is_normal (mib : string) : bool := HasPrefix mib "/" || FormatsUtil.HasSuffix mib "/".
Definition table_mib (mib mibTable : string) : string :=
  if is_normal mib then String.append (trim_right_char "/" mib) (String.append "/" (trim_left_char "/" mibTable))
  else String.append mib (String.append "::" mibTable).

Definition getMib (n : nat) (attr : gmap string value) (ip : option value) : gmap string value * string :=
  let attr := mib_range n attr in
  let attr := match ip with Some ip => <["device_ip"%string := ip]> attr | None => attr end in
  match attr !! "mib-name"%string with
  | Some (VString mib) =>
      let attr := delete "mib-name"%string attr in
      let mib := if String.eqb mib "" then "device"%string else mib in
      match attr !! "mib-table"%string with
      | Some (VString mibTable) => (delete "mib-table"%string attr, table_mib mib mibTable)
      | _ => (attr, mib)
      end
  | _ => (attr, "device"%string)
  end.

(** *** Devices and interfaces *)
Definition FloatMS : string := "float_ms".
Definition metric_name (m : string) : string :=
  if Contains m namespaceTokenSep then match SplitN 1 m namespaceTokenSep with [_; rest] => rest | _ => m end else m.
(** The attributes of a metric and the name of its measurement, unless it is dropped. *)
Definition metric_attrs (f : InfluxFormat) (isIf : bool) (jin : JCHF) (attr : gmap string value) (ip : option value) (m : string) (name : MetricInfo) : option (gmap string value * string) :=
  let attrNew := CopyAttrForSnmp (order_of (clock f) attr) m name (meta f jin) false true in
  if DropOnFilter attrNew (meta f jin) isIf (match meta f jin with Some lm => match_visit (clock f) lm | None => [] end) then None
  else Some (getMib (clock f) attrNew ip).
Definition metric_point (f : InfluxFormat) (jin : JCHF) (m : string) (name : MetricInfo) (v : Z) (tags : gmap string value) (mib : string) : InfluxData :=
  if String.eqb (Format name) FloatMS then
    point f mib (Timestamp jin) tags ∅ {[metric_name m := Prom.float_div (Prom.float_of v) (Prom.float_of 1000)]}
  else point f mib (Timestamp jin) tags {[metric_name m := v]} ∅.
Definition device_metric (f : InfluxFormat) (jin : JCHF) (attr : gmap string value) (ip : option value) (kv : string * MetricInfo) : option InfluxData :=
  let '(m, name) := kv in
  if String.eqb m "" then None
  else
    v ← map_range (CustomBigInt jin) !! m;
    '(tags, mib) ← metric_attrs f false jin attr ip m name;
    Some (metric_point f jin m name v tags mib).
Definition fromSnmpDeviceMetric (f : InfluxFormat) (jin : JCHF) : res (JCHF * list InfluxData) :=
  let metrics := CustomMetrics jin in
  '(jin, attr) ← attrs f jin metrics true;
  Ok (jin, omap (device_metric f jin attr (attr !! "src_addr"%string)) (order_of (clock f) (map_range metrics))).

(** The text of a metric goes with its number. *)
Definition with_text (jin : JCHF) (m : string) (name : MetricInfo) (d : InfluxData) : InfluxData :=
  if String.eqb (Format name) FloatMS then d
  else match map_range (CustomStr jin) !! String.append StringPrefix m with
  | Some sv => mkInflux (id_Name d) (FieldsFloat d) (Fields d) {[String.append m "_str" := sv]} (id_Tags d) (id_Timestamp d)
  | None => d
  end.
Definition interface_metric (f : InfluxFormat) (jin : JCHF) (attr : gmap string value) (ip : option value) (kv : string * MetricInfo) : option InfluxData :=
  let '(m, name) := kv in
  if String.eqb m "" then None
  else
    v ← map_range (CustomBigInt jin) !! m;
    '(tags, mib) ← metric_attrs f true jin attr ip m name;
    Some (with_text jin m name (metric_point f jin m name v tags mib)).
(** The profile of the metric that is visited last. *)
Definition last_profile (l : list (string * MetricInfo)) : string :=
  foldl (λ p kv, if String.eqb kv.1 "" then p else Profile kv.2) "snmp"%string l.

(** The rates of a direction, from the octets, packets and uptime of a poll. *)
Definition rate_name (direction suffix : string) : string := String.append "If" (String.append direction suffix).
Definition if_counter (direction kind : string) (jin : JCHF) : Z := big_at (String.append "ifHC" (String.append direction kind)) jin.
Definition speed_of (lm : LastMetadata) (port : Z) : option Z :=
  ii ← InterfaceInfo lm !! port;
  match ii !! "Speed"%string with Some (VInt32 ispeed) => Some ispeed | _ => None end.
Definition rate_floats (direction : string) (ispeed : Z) (jin : JCHF) : list (string * spec_float) :=
  let totalBytes := if_counter direction "Octets" jin in
  let totalPkts := wraps 64 (wraps 64 (if_counter direction "UcastPkts" jin + if_counter direction "MulticastPkts" jin) + if_counter direction "BroadcastPkts" jin) in
  let uptime := big_at "Uptime" jin in
  let uptimeSpeed := wraps 64 (uptime * wraps 64 (ispeed * 10000)) in
  let ratio a b := Prom.float_div (Prom.float_of (wraps 64 a)) (Prom.float_of b) in
  if 0 <? uptimeSpeed then
    (if 0 <? totalBytes then [(rate_name direction "Utilization", ratio (totalBytes * 8 * 100) uptimeSpeed);
                              (rate_name direction "BitRate", ratio (totalBytes * 8 * 100) uptime)] else []) ++
    (if 0 <? totalPkts then [(rate_name direction "PktRate", ratio (totalPkts * 100) uptime)] else [])
  else [].
Definition setRates (f : InfluxFormat) (direction : string) (jin : JCHF) (attr : gmap string value) (profileName : string) (ip : option value) : list InfluxData :=
  let port := if String.eqb direction "In" then InputPort jin else OutputPort jin in
  match meta f jin ≫= λ lm, speed_of lm port with
  | None => []
  | Some ispeed =>
      match metric_attrs f true jin attr ip (rate_name direction "Utilization") (mkMetricInfo "computed" "computed" "" profileName "if" "" "" 0 None) with
      | None => []
      | Some (tags, _) => (λ kv, point f "IF-MIB::if" (Timestamp jin) tags ∅ {[kv.1 := kv.2]}) <$> rate_floats direction ispeed jin
      end
  end.
Definition fromSnmpInterfaceMetric (f : InfluxFormat) (jin : JCHF) : res (JCHF * list InfluxData) :=
  let metrics := order_of (clock f) (map_range (CustomMetrics jin)) in
  '(jin, attr) ← attrs f jin (CustomMetrics jin) true;
  let ip := attr !! "src_ip"%string in
  let results := omap (interface_metric f jin attr ip) metrics in
  let profileName := last_profile metrics in
  Ok (jin, results ++ match meta f jin with
                      | Some _ => setRates f "In" jin attr profileName ip ++ setRates f "Out" jin attr profileName ip
                      | None => []
                      end).

Definition fromSnmpMetadata (f : InfluxFormat) (jin : JCHF) : InfluxFormat :=
  if String.eqb (DeviceName jin) "" then f
  else mkFormat (invalids f) (<[DeviceName jin := SetMetadata jin (strs_order (clock f) jin) (ints_order (clock f) jin)]> (lastMetadata f))
         (MeasurementPrefix f) (clock f).

(** *** [To] *)
Definition KENTIK_EVENT_KTRANS_METRIC : string := "KTranslateMetric".
Definition toInfluxMetric (jin : JCHF) (f : InfluxFormat) : res (InfluxFormat * JCHF * list InfluxData) :=
  let emit (r : res (JCHF * list InfluxData)) := '(jin, ms) ← r; Ok (with_clock f, jin, ms) in
  let e := EventType jin in
  if String.eqb e KENTIK_EVENT_TYPE then emit (fromKflow f jin)
  else if String.eqb e Prom.KENTIK_EVENT_SNMP_DEV_METRIC then emit (fromSnmpDeviceMetric f jin)
  else if String.eqb e Prom.KENTIK_EVENT_SNMP_INT_METRIC then emit (fromSnmpInterfaceMetric f jin)
  else if String.eqb e KENTIK_EVENT_SYNTH then emit (fromKSynth f jin)
  else if String.eqb e Prom.KENTIK_EVENT_SNMP_METADATA then Ok (with_clock (fromSnmpMetadata f jin), jin, [])
  else if String.eqb e KENTIK_EVENT_KTRANS_METRIC then emit (fromKtranslate f jin)
  else Ok (mkFormat ({[e]} ∪ invalids f) (lastMetadata f) (MeasurementPrefix f) (S (clock f)), jin, []).
Fixpoint toInfluxMetrics (msgs : list JCHF) (f : InfluxFormat) : res (InfluxFormat * list InfluxData) :=
  match msgs with
  | [] => Ok (f, [])
  | m :: msgs => '(f, _, ms) ← toInfluxMetric m f; '(f, rest) ← toInfluxMetrics msgs f; Ok (f, ms ++ rest)
  end.
Definition To (msgs : list JCHF) (f : InfluxFormat) : res (InfluxFormat * option Output) :=
  '(f, ms) ← toInfluxMetrics msgs f;
  Ok (with_clock f, match ms with [] => None | _ => Some (NewOutput (Bytes (clock f) ms)) end).

(** *** [Rollup] *)
(** [tags[dims[i]] = pt]; a part beyond the dimensions panics. *)
Fixpoint roll_tags (dims pts : list string) (tags : gmap string string) : res (gmap string string) :=
  match pts, dims with
  | [], _ => Ok tags
  | _ :: _, [] => Panic "index out of range"
  | pt :: pts, d :: dims => roll_tags dims pts (<[d := pt]> tags)
  end.
Definition roll_line (roll : Roll) (e : Encoder) : res Encoder :=
  if Prom.float_is_zero (ro_Metric roll) then Ok e
  else match Split (ro_EventType roll) ":" with
  | _ :: met :: _ :: _ =>
      let e := StartLine (ro_Name roll) e in
      if enc_Err e then Ok e
      else
        tags ← roll_tags (ro_dims roll) (Split (ro_Dimension roll) (ro_KeyJoin roll)) ∅;
        let tags := (λ k, (k, default EmptyString (tags !! k))) <$> sort_strings (map_to_list tags).*1 in
        let add_tag '(k, v) (rest : Encoder → Encoder) e := line_step (AddTag k v e) rest in
        Ok (foldr add_tag
          (λ e, line_step (AddField met (FInteger (SnmpCounters.int64_of_float (ro_Metric roll))) e) (λ e,
                line_step (AddField "count" (FInteger (wraps 64 (ro_Count roll))) e) EndLineNow)) tags e)
  | _ => Ok e
  end.
Fixpoint roll_lines (rolls : list Roll) (e : Encoder) : res Encoder :=
  match rolls with [] => Ok e | roll :: rolls => e ← roll_line roll e; roll_lines rolls e end.
Definition Rollup_ (rolls : list Roll) : res Output :=
  e ← roll_lines rolls new_encoder; Ok (NewOutput (enc_Bytes e)).

(** ** Laws of merging *)
Context `{!InfluxEnvLaws}.

Definition with_prefix (p : string) (s : list InfluxData) : list InfluxData := filter (λ x, Prefix x = p) s.

Lemma add_prefix_lookup s p : fold_left add_prefix s ∅ !! p = match with_prefix p s with [] => None | l => Some l end.
Proof.
  induction s as [|x s IH] using rev_ind; [done|]. rewrite fold_left_app. cbn [fold_left]. unfold with_prefix in *. unfold add_prefix at 1.
  rewrite filter_app, filter_cons, filter_nil. destruct (decide (Prefix x = p)) as [<-|Hn].
  - rewrite lookup_insert_eq, IH. f_equal. destruct (filter _ s); done.
  - rewrite lookup_insert_ne, IH by done. by rewrite app_nil_r.
Qed.

(** The value of a field in the last point that has it. *)
Definition last_field {A} (fields : InfluxData → gmap string A) (l : list InfluxData) (k : string) : option A :=
  last (omap (λ y, fields y !! k) l).
Lemma merged_field {A} (fields : InfluxData → gmap string A) l k :
  foldl (λ m f, fields f ∪ m) ∅ l !! k = last_field fields l k.
Proof.
  unfold last_field. induction l as [|x l IH] using rev_ind; [done|]. rewrite foldl_app, omap_app. cbn [foldl omap list_omap].
  rewrite lookup_union, IH. destruct (fields x !! k); cbn; [by rewrite last_snoc; destruct (last _)|]. rewrite app_nil_r. by destruct (last _).
Qed.

Lemma merge_points_elem n s d : d ∈ merge_points n s ↔ ∃ p, NewMergedInfluxData (with_prefix p (points_order n s)) = Some d.
Proof.
  unfold merge_points. rewrite list_elem_of_omap. split.
  - intros ([p l] & Hp & E). rewrite order_of_perm, elem_of_map_to_list, add_prefix_lookup in Hp. exists p.
    destruct (with_prefix p _); [done|]. by injection Hp as ->.
  - intros (p & E). exists (p, with_prefix p (points_order n s)). rewrite order_of_perm, elem_of_map_to_list, add_prefix_lookup.
    split; [|done]. by destruct (with_prefix p _).
Qed.

Lemma merged_inv l d : NewMergedInfluxData l = Some d → ∃ x, x ∈ l ∧ Prefix d = Prefix x ∧ id_Name d = id_Name x ∧ id_Tags d = id_Tags x ∧
  ∀ k, Fields d !! k = last_field Fields l k ∧ FieldsFloat d !! k = last_field FieldsFloat l k ∧ FieldsString d !! k = last_field FieldsString l k.
Proof.
  destruct l as [|x l]; [done|]. unfold NewMergedInfluxData. intros [= <-]. exists x. split; [by left|]. do 3 (split; [done|]).
  intros k. exact (conj (merged_field Fields (x :: l) k) (conj (merged_field FieldsFloat (x :: l) k) (merged_field FieldsString (x :: l) k))).
Qed.

(** Merging leaves one point for each name and text of tags that the points have; it has their
    name and tags, and each of its fields is that of the last of those points, in the order they
    were sorted into, that has the field. *)
Theorem merge_points_fields n s :
  NoDup (Prefix <$> merge_points n s) ∧
  (∀ d, d ∈ merge_points n s → ∃ x, x ∈ s ∧ Prefix d = Prefix x ∧ id_Name d = id_Name x ∧ id_Tags d = id_Tags x) ∧
  ∀ x, x ∈ s → ∃ d, d ∈ merge_points n s ∧ Prefix d = Prefix x ∧ ∀ k,
    Fields d !! k = last_field Fields (with_prefix (Prefix x) (points_order n s)) k ∧
    FieldsFloat d !! k = last_field FieldsFloat (with_prefix (Prefix x) (points_order n s)) k ∧
    FieldsString d !! k = last_field FieldsString (with_prefix (Prefix x) (points_order n s)) k.
Proof.
  assert (∀ p d, NewMergedInfluxData (with_prefix p (points_order n s)) = Some d → Prefix d = p) as Hp.
  { intros p d (x & Hx & -> & _)%merged_inv. by apply list_elem_of_filter in Hx as [-> _]. }
  split; [|split].
  - unfold merge_points. pose proof (order_of_perm n (fold_left add_prefix (points_order n s) ∅)) as Ho.
    assert (NoDup (order_of n (fold_left add_prefix (points_order n s) ∅)).*1) as Hn by (rewrite Ho; apply NoDup_fst_map_to_list).
    assert (∀ p l, (p, l) ∈ order_of n (fold_left add_prefix (points_order n s) ∅) → l = with_prefix p (points_order n s)) as Hl.
    { intros p l. rewrite Ho, elem_of_map_to_list, add_prefix_lookup. destruct (with_prefix p _); [done|]. by intros [= ->]. }
    clear Ho. induction (order_of n _) as [|[p l] es IH]; [constructor|]. cbn [fmap list_fmap fst] in Hn. apply NoDup_cons in Hn as [Hk Hn].
    cbn [omap list_omap]. destruct (NewMergedInfluxData l) as [d|] eqn:E; [|apply IH; [done|set_solver]]. cbn [fmap list_fmap]. constructor; [|apply IH; [done|set_solver]].
    rewrite (Hl p l) in E by left. apply Hp in E as ->. intros Hd. apply list_elem_of_fmap in Hd as (d' & Hpd & Hd). apply list_elem_of_omap in Hd as ([p' l'] & Hd & E').
    rewrite (Hl p' l') in E' by (by right). apply Hp in E'. apply Hk. rewrite Hpd, E'. by apply (list_elem_of_fmap_2 fst) in Hd.
  - intros d (p & E)%merge_points_elem. apply merged_inv in E as (x & Hx & Q1 & Q2 & Q3 & _). exists x. split; [|done].
    apply list_elem_of_filter in Hx as [_ Hx]. by rewrite points_order_perm in Hx.
  - intros x Hx. destruct (NewMergedInfluxData (with_prefix (Prefix x) (points_order n s))) as [d|] eqn:E.
    + exists d. split; [apply merge_points_elem; by exists (Prefix x)|]. split; [by apply Hp|]. by apply merged_inv in E as (? & _ & _ & _ & _ & ?).
    + exfalso. assert (x ∈ with_prefix (Prefix x) (points_order n s)) as Hin by (apply list_elem_of_filter; by rewrite points_order_perm).
      destruct (with_prefix _ _); [by apply elem_of_nil in Hin|done].
Qed.

(** Names and tags without the characters that a prefix is made with. *)
Definition clean (d : InfluxData) : Prop :=
  Contains (id_Name d) "," = false ∧
  map_Forall (λ k v, Contains k "," = false ∧ Contains k "=" = false ∧ Contains k " " = false ∧ Contains (value_text v) "," = false) (id_Tags d).

Definition text_pair (kt : string * string) : string := String.append kt.1 (String.append "=" kt.2).
Lemma tag_pairs_text d : clean d → tag_pair <$> map_to_list (id_Tags d) = text_pair <$> map_to_list (fmap (M := gmap string) value_text (id_Tags d)).
Proof.
  intros [_ Hc]. rewrite map_to_list_fmap, <-list_fmap_compose. apply list_fmap_ext. intros i [k v] Hi.
  apply list_elem_of_lookup_2, elem_of_map_to_list in Hi. destruct (Hc _ _ Hi) as (_ & _ & Hs & _).
  unfold tag_pair, text_pair. cbn. unfold ReplaceAll. by rewrite Replace_None by by apply Cut_char_None.
Qed.
Lemma text_pairs_cut d : clean d → let l := map_to_list (fmap (M := gmap string) value_text (id_Tags d)) in
  omap (λ s, Cut s "=") (text_pair <$> l) = l ∧ Forall (λ s, Contains s "," = false ∧ s ≠ EmptyString) (text_pair <$> l).
Proof.
  intros [_ Hc] l. assert (∀ kt, kt ∈ l → Contains kt.1 "," = false ∧ Contains kt.1 "=" = false ∧ Contains kt.2 "," = false) as Hl.
  { intros [k t] Hk. subst l. apply elem_of_map_to_list in Hk. rewrite lookup_fmap in Hk. destruct (id_Tags d !! k) as [v|] eqn:E; [|done].
    injection Hk as <-. destruct (Hc _ _ E) as (? & ? & _ & ?). done. }
  clearbody l. induction l as [|[k t] l IH]; [done|]. destruct IH as [IH1 IH2]; [set_solver|].
  destruct (Hl (k, t)) as (Q1 & Q2 & Q3); [by left|]. cbn [fmap list_fmap omap list_omap fst snd] in *. unfold text_pair at 1 3. cbn [fst snd]. split.
  - change (String.append "=" t) with (String "=" t). rewrite (Cut_char "=" k t Q2). by rewrite IH1.
  - constructor; [|done]. split; [|by destruct k]. unfold text_pair. cbn [fst snd]. rewrite Contains_char_append, Contains_char_append, Q1, Q3. reflexivity.
Qed.

(** Points whose names and tags are free of the characters that prefixes are made with have
    one prefix only if they have one name and the same texts under the same tags, so that only
    such points are merged. *)
Theorem Prefix_inj d1 d2 : clean d1 → clean d2 → Prefix d1 = Prefix d2 →
  id_Name d1 = id_Name d2 ∧ fmap (M := gmap string) value_text (id_Tags d1) = fmap (M := gmap string) value_text (id_Tags d2).
Proof.
  intros C1 C2 E. unfold Prefix in E. pose proof (f_equal (λ s, Cut s ",") E) as E'. cbn beta in E'.
  change (String.append "," (GetTags d1)) with (String "," (GetTags d1)) in E'. change (String.append "," (GetTags d2)) with (String "," (GetTags d2)) in E'.
  rewrite (Cut_char "," _ _ (proj1 C1)), (Cut_char "," _ _ (proj1 C2)) in E'. injection E' as En Et. split; [done|].
  unfold GetTags in Et. rewrite !tag_pairs_text in Et by done.
  set (l1 := map_to_list (fmap (M := gmap string) value_text (id_Tags d1))) in *. set (l2 := map_to_list (fmap (M := gmap string) value_text (id_Tags d2))) in *.
  destruct (text_pairs_cut d1 C1) as [O1 F1], (text_pairs_cut d2 C2) as [O2 F2]. fold l1 in O1, F1. fold l2 in O2, F2.
  assert (∀ l, sort_strings l ≡ₚ l) as Hsort by (intros l; apply merge_sort_Permutation).
  assert (sort_strings (text_pair <$> l1) = sort_strings (text_pair <$> l2)) as Es.
  { rewrite <-(Hsort (text_pair <$> l1)) in F1. rewrite <-(Hsort (text_pair <$> l2)) in F2. revert Et F1 F2.
    generalize (sort_strings (text_pair <$> l1)), (sort_strings (text_pair <$> l2)). clear. intros a b Et Fa Fb.
    assert (∀ x l, Forall (λ s, Contains s "," = false ∧ s ≠ EmptyString) (x :: l) → Join (x :: l) "," ≠ EmptyString) as Hne.
    { intros x l [[_ Hx] _]%Forall_cons. destruct l; [done|]. rewrite Join_cons. by destruct x. }
    destruct a as [|x a], b as [|y b]; [done|by destruct (Hne y b)|by destruct (Hne x a)|].
    rewrite <-(Split_Join_char "," (x :: a)), <-(Split_Join_char "," (y :: b)), Et; [done|done| |done|]; eapply Forall_impl; eauto; cbn; tauto. }
  assert (l1 ≡ₚ l2) as Hp.
  { rewrite <-O1, <-O2. rewrite <-(Hsort (text_pair <$> l1)), <-(Hsort (text_pair <$> l2)). by rewrite Es. }
  by apply map_to_list_inj.
Qed.
End influx.

(** ** Concrete inputs *)
#[local] Instance plain_lines : LineEncoder := {|
  Encoder := list string; new_encoder := []; StartLine n e := n :: e; AddTag k v e := String.append k v :: e; AddField k v e := k :: e;
  EndLine t e := e; EndLineNow e := e; enc_Err e := false; enc_Bytes e := []; FloatValue f := true; StringValue s := true |}.
#[local] Instance any_influx : InfluxEnv := {|
  Sprint_value v := match v with VInt z | VInt32 z | VInt64 z => Itoa z | _ => "?"%string end;
  order_of A n m := map_to_list m; points_order n l := rev l; row_order n jin := (avro_rows jin).*1;
  strs_order n jin := map_to_list (map_range (CustomStr jin)); ints_order n jin := map_to_list (map_range (CustomInt jin));
  mib_visit n m := (map_to_list m).*1; match_visit n lm := map_to_list (map_range (lm_MatchAttr lm)) |}.
#[local] Instance any_influx_laws : InfluxEnvLaws.
Proof.
  split; cbn; [done| |intros; apply NoDup_fst_map_to_list|done]. intros n l. symmetry. apply Permutation_rev.
Qed.

Definition a_point (tags : gmap string value) (fields : gmap string Z) (ts : Z) : InfluxData := mkInflux "flow" ∅ fields ∅ tags ts.
Definition host_a : gmap string value := {["host" := VString "a"; "port" := VInt 53]}%string.
Definition some_points : list InfluxData := [
  a_point host_a {["in_bytes" := 1; "in_pkts" := 2]}%string 10; a_point {["host" := VString "b"]}%string {["in_bytes" := 5]}%string 10;
  a_point host_a {["in_bytes" := 3]}%string 11].

Lemma merge_points_fields_witness : NoDup (Prefix <$> merge_points 0 some_points) ∧
  ∃ d, d ∈ merge_points 0 some_points ∧ Fields d !! "in_bytes"%string = Some 1 ∧ Fields d !! "in_pkts"%string = Some 2.
Proof.
  destruct (merge_points_fields 0 some_points) as (Hn & _ & Hx). split; [exact Hn|].
  destruct (Hx (a_point host_a {["in_bytes" := 1; "in_pkts" := 2]}%string 10)) as (d & Hd & _ & Hk); [by left|].
  exists d. split; [exact Hd|].
  split; [rewrite (proj1 (Hk "in_bytes"%string))|rewrite (proj1 (Hk "in_pkts"%string))]; vm_compute; reflexivity.
Defined.

Lemma Prefix_inj_witness : ∃ d1 d2, clean d1 ∧ clean d2 ∧ Prefix d1 = Prefix d2 ∧
  fmap (M := gmap string) value_text (id_Tags d1) = fmap (M := gmap string) value_text (id_Tags d2).
Proof.
  assert (∀ ts, clean (a_point host_a ∅ ts)) as Hc.
  { intros ts. split; [reflexivity|]. refine (bool_decide_unpack _ _). vm_compute. exact I. }
  exists (a_point host_a ∅ 1), (a_point {["host" := VString "a"; "port" := VString "53"]}%string ∅ 2).
  assert (clean (a_point {["host" := VString "a"; "port" := VString "53"]}%string ∅ 2)) as Hc2.
  { split; [reflexivity|]. refine (bool_decide_unpack _ _). vm_compute. exact I. }
  assert (Prefix (a_point host_a ∅ 1) = Prefix (a_point {["host" := VString "a"; "port" := VString "53"]}%string ∅ 2)) as E by (vm_compute; reflexivity).
  split; [exact (Hc 1)|]. split; [exact Hc2|]. split; [exact E|]. exact (proj2 (Prefix_inj _ _ (Hc 1) Hc2 E)).
Defined.

(** A comma in a tag: points of different hosts become one, and one of the two tags is sent. *)
Example comma_merges :
  let l := merge_points 0 [a_point {["a" := VString "1,b=2"]}%string {["x" := 1]}%string 10; a_point {["a" := VString "1"; "b" := VString "2"]}%string {["y" := 2]}%string 10] in
  length l = 1%nat ∧ (λ d, (Fields d !! "x"%string, Fields d !! "y"%string)) <$> l = [(Some 1, Some 2)].
Proof. vm_compute. by split. Qed.

(** Two flows of one batch with the same tags: the bytes of one are lost, and so is its time. *)
Example same_tags_lost : (λ d, (Fields d !! "in_bytes"%string, id_Timestamp d)) <$> merge_points 0 [a_point host_a {["in_bytes" := 100]}%string 10; a_point host_a {["in_bytes" := 1]}%string 11]
  = [(Some 100, 11)].
Proof. vm_compute. reflexivity. Qed.

(** The rates of a full line of 1 Mbit/s over a second. *)
Example full_rates : rate_floats "In" 1 (Prom.full_second) = [("IfInUtilization"%string, Prom.float_of 100); ("IfInBitRate"%string, Prom.float_of 1000000)].
Proof. vm_compute. reflexivity. Qed.

(** A key with the separator twice: its name depends on whether the range visits the new key. *)
Example namespace_twice :
  (λ ks, map_to_list (fold_left (λ m k, match m !! k with Some v => mib_body ":" k v m | None => m end) ks {["a:b:c" := VString "v"]}%string)) <$>
    [["a:b:c"]; ["a:b:c"; "b:c"]]%string = [[("b:c", VString "v")]; [("c", VString "v")]]%string.
Proof. vm_compute. reflexivity. Qed.
