(* ===== verification/Carbon.v ===== *)
(** The Carbon format (src/pkg/formats/carbon/carbon.go): metrics 2.0 lines of flows and
    synthetic tests.

    The orders of the ranges over the metrics and over the tags of a line are those of an
    oracle. *)
From S2P Require Import Prelude GoStrings.
From S2P Require Import Jchf.
From S2P Require Import FlowToJCHF.
From S2P Require Import FormatsUtil.
From S2P Require Prom.
Local Open Scope Z_scope.

Record CarbonData := mkCarbon {
  cd_Type : string; cd_Name : string; cd_Value : Z; cd_Unit : string;
  IntrinsicTags : gmap string value; MetaTags : gmap string value; cd_Timestamp : Z }.

Class CarbonEnv := {
  Sprint_other : value → string;
  tags_order : ∀ {A}, nat → gmap string A → list (string * A);
  carbon_rows : nat → JCHF → list string }.
Class CarbonEnvLaws `{CarbonEnv} := {
  tags_order_perm {A} n (m : gmap string A) : tags_order n m ≡ₚ map_to_list m }.

Section carbon.
Context `{CarbonEnv}.

Definition carbon_text (v : value) : string := match v with VString t => ReplaceAll t " " "_" | VInt z => Itoa z | _ => Sprint_other v end.
Definition parseTags (n : nat) (tags : gmap string value) : list string :=
  (λ kv, String.append (ReplaceAll kv.1 " " "_") (String.append "=" (carbon_text kv.2))) <$> tags_order n tags.
Definition CarbonData_String (n : nat) (d : CarbonData) : string :=
  Join [String.append "metric=" (cd_Name d); String.append "mtype=" (cd_Type d); String.append "unit=" (cd_Unit d);
        Join (parseTags n (IntrinsicTags d)) " "; EmptyString; Join (parseTags n (MetaTags d)) " "; Itoa (cd_Value d); Itoa (cd_Timestamp d)] " ".
Definition newline : string := String "010" EmptyString.
(** [n] counts the lines. *)
Definition lines (n : nat) (s : list CarbonData) : list string := imap (λ i d, CarbonData_String (n + i) d) s.
Definition CarbonDataSet_Bytes (n : nat) (s : list CarbonData) : string := Join (lines n s) newline.

(** ** Tags *)
Definition text_tag (k v : string) : list (string * value) := if String.eqb v "" then [] else [(k, VString v)].
(** Assignments to a map one after the other: the last of a key stays. *)
Definition assigned (l : list (string * value)) : gmap string value := foldl (λ m kv, <[kv.1 := kv.2]> m) ∅ l.
(** The texts of the message that are not empty; no two have one key. *)
Definition custom_tags (jin : JCHF) (m : gmap string value) : gmap string value :=
  map_imap (λ _ v, if String.eqb v "" then None else Some (VString v)) (map_range (CustomStr jin)) ∪ m.

Definition kflow_type (m : string) : string * string :=
  if String.eqb m "in_bytes" || String.eqb m "out_bytes" then ("rate", "B/s")%string
  else if String.eqb m "in_pkts" || String.eqb m "out_pkts" then ("rate", "pckt/s")%string
  else ("gauge", "ms")%string.
Definition kflow_intrinsic (jin : JCHF) : gmap string value :=
  assigned ([("device"%string, VString (DeviceID_Itoa (DeviceId jin)))] ++ text_tag "dst_addr" (DstAddr jin) ++
            text_tag "src_addr" (SrcAddr jin) ++ text_tag "protocol" (Protocol jin)).
Definition kflow_meta (jin : JCHF) : gmap string value :=
  custom_tags jin (assigned (
    [("l4_dst_port", VInt (L4DstPort jin)); ("l4_src_port", VInt (L4SrcPort jin)); ("src_as", VInt (SrcAs jin)); ("dst_as", VInt (DstAs jin));
     ("tcp_retransmit", VInt (TcpRetransmit jin)); ("vlan_in", VInt (VlanIn jin)); ("vlan_out", VInt (VlanOut jin))]%string ++
    text_tag "dst_geo" (DstGeo jin) ++ text_tag "src_geo" (SrcGeo jin) ++ text_tag "dst_bgp_as_path" (DstBgpAsPath jin) ++ text_tag "src_bgp_as_path" (SrcBgpAsPath jin))).
(** The attributes of [util.SetAttr] are not used, but collecting them flattens the message. *)
Definition fromKflow (n : nat) (jin : JCHF) : res (JCHF * list CarbonData) :=
  '(jin, _) ← SetAttr (carbon_rows n jin) ∅ jin Prom.kflow_metrics None false;
  Ok (jin, (λ '(m, _), mkCarbon (kflow_type m).1 m (Prom.kflow_value jin m) (kflow_type m).2 (kflow_intrinsic jin) (kflow_meta jin) (Timestamp jin))
             <$> tags_order n (map_range Prom.kflow_metrics)).

Definition ksynth_names : list string := ["ping_avg_rtt"; "ping_jit_rtt"; "ping_max_rtt"; "ping_std_rtt"]%string.
Definition ksynth_intrinsic (jin : JCHF) : gmap string value :=
  assigned (text_tag "application_type" (str_at "application_type" jin) ++ text_tag "dst_addr" (DstAddr jin) ++ text_tag "src_addr" (SrcAddr jin)).
Definition ksynth_meta (jin : JCHF) : gmap string value :=
  custom_tags jin (assigned (
    [("src_as", VInt (SrcAs jin)); ("dst_as", VInt (DstAs jin))]%string ++ text_tag "dst_geo" (DstGeo jin) ++ text_tag "src_geo" (SrcGeo jin) ++
    text_tag "src_geo_region" (SrcGeoRegion jin) ++ text_tag "dst_geo_region" (DstGeoRegion jin) ++ text_tag "src_geo_city" (SrcGeoCity jin) ++ text_tag "dst_geo_city" (DstGeoCity jin))).
Definition micro : string := String "206" (String "188" EmptyString).
Definition fromKsynth (jin : JCHF) : list CarbonData :=
  (λ m, mkCarbon "gauge" m (int_at m jin) micro (ksynth_intrinsic jin) (ksynth_meta jin) (Timestamp jin)) <$> ksynth_names.

(** ** The format *)
Record CarbonFormat := mkCarbonFormat { invalids : gset string }.
Definition toCarbonMetric (n : nat) (jin : JCHF) (f : CarbonFormat) : res (CarbonFormat * JCHF * list CarbonData) :=
  let e := EventType jin in
  if String.eqb e KENTIK_EVENT_SYNTH || String.eqb e KENTIK_EVENT_TRACE then Ok (f, jin, fromKsynth jin)
  else if String.eqb e KENTIK_EVENT_TYPE then '(jin, ms) ← fromKflow n jin; Ok (f, jin, ms)
  else Ok (mkCarbonFormat ({[e]} ∪ invalids f), jin, []).
Fixpoint toCarbonMetrics (n : nat) (msgs : list JCHF) (f : CarbonFormat) : res (CarbonFormat * list CarbonData) :=
  match msgs with
  | [] => Ok (f, [])
  | m :: msgs => '(f, _, ms) ← toCarbonMetric n m f; '(f, rest) ← toCarbonMetrics (S n) msgs f; Ok (f, ms ++ rest)
  end.
Definition To (msgs : list JCHF) (f : CarbonFormat) : res (CarbonFormat * option Output) :=
  '(f, ms) ← toCarbonMetrics 0 msgs f;
  Ok (f, match ms with [] => None | _ => Some (NewOutput (String.list_byte_of_string (CarbonDataSet_Bytes (length msgs) ms))) end).

(** ** Laws *)
Lemma Cut_space_spec s a b : Cut s " " = Some (a, b) → Contains a " " = false ∧ (String.length b < String.length s)%nat.
Proof.
  revert a b. induction s as [|c s IH]; intros a b; [done|]. cbn [Cut]. rewrite HasPrefix_char. destruct (Ascii.eqb_spec " " c) as [<-|Hn].
  - intros [= <- <-]. split; [done|]. cbn. destruct s; cbn; lia.
  - destruct (Cut s " ") as [[a' b']|]; [|done]. cbn [mbind option_bind]. intros [= <- <-]. destruct (IH _ _ eq_refl) as [Ha Hb]. split; [|cbn; lia].
    cbn [Contains]. rewrite HasPrefix_char. destruct (Ascii.eqb_spec " " c); [done|]. exact Ha.
Qed.

Lemma ReplaceAll_space s : Contains (ReplaceAll s " " "_") " " = false.
Proof.
  unfold ReplaceAll. assert (∀ n s, (String.length s ≤ n)%nat → Contains (Replace s " " "_" n) " " = false) as H1; [|by apply H1].
  clear. intros n. induction n as [|n IH]; intros s Hn; [by destruct s; [|cbn in Hn; lia]|]. cbn [Replace].
  destruct (Cut s " ") as [[a b]|] eqn:E; [|by apply Cut_None].
  destruct (Cut_space_spec _ _ _ E) as [Ha Hb]. rewrite !Contains_char_append, Ha, IH by lia. reflexivity.
Qed.

Lemma Join_app l1 l2 sep : l1 ≠ [] → l2 ≠ [] → Join (l1 ++ l2) sep = String.append (Join l1 sep) (String.append sep (Join l2 sep)).
Proof.
  intros H1 H2. induction l1 as [|x l1 IH]; [done|]. destruct l1 as [|y l1].
  - destruct l2; [done|]. apply Join_cons.
  - cbn [app] in *. rewrite !Join_cons, IH by done. by rewrite !append_assoc.
Qed.
(** Words joined and joined again. *)
Lemma Join_words l1 ws l2 sep : ws ≠ [] → Join (l1 ++ Join ws sep :: l2) sep = Join (l1 ++ ws ++ l2) sep.
Proof.
  intros Hw. assert (Join (Join ws sep :: l2) sep = Join (ws ++ l2) sep) as E.
  { destruct l2 as [|y l2]; [by rewrite app_nil_r|]. rewrite Join_cons, Join_app by done. done. }
  destruct l1 as [|x l1]; [exact E|]. rewrite (Join_app (x :: l1)), (Join_app (x :: l1)), E by (try done; by destruct ws). done.
Qed.

(** The tags of a line as words: one empty word when there are none. *)
Definition words (l : list string) : list string := match l with [] => [EmptyString] | _ => l end.
Lemma Join_words' l1 ws l2 sep : Join (l1 ++ Join ws sep :: l2) sep = Join (l1 ++ words ws ++ l2) sep.
Proof. destruct ws as [|w ws]; [done|]. by apply Join_words. Qed.

Definition line_words (n : nat) (d : CarbonData) : list string :=
  [String.append "metric=" (cd_Name d); String.append "mtype=" (cd_Type d); String.append "unit=" (cd_Unit d)] ++
  words (parseTags n (IntrinsicTags d)) ++ [EmptyString] ++ words (parseTags n (MetaTags d)) ++ [Itoa (cd_Value d); Itoa (cd_Timestamp d)].

(** A text without the bytes that part words or lines. *)
Definition one_word (s : string) : Prop := Contains s " " = false ∧ Contains s newline = false.
#[local] Instance one_word_dec s : Decision (one_word s) := decide (_ ∧ _).
Definition tags_plain (tags : gmap string value) : Prop :=
  map_Forall (λ k v, Contains k newline = false ∧ Contains (carbon_text v) newline = false ∧ match v with VString _ => True | _ => Contains (carbon_text v) " " = false end) tags.
Definition plain (d : CarbonData) : Prop :=
  one_word (cd_Name d) ∧ one_word (cd_Type d) ∧ one_word (cd_Unit d) ∧ tags_plain (IntrinsicTags d) ∧ tags_plain (MetaTags d).

Lemma one_word_append a b : one_word a → one_word b → one_word (String.append a b).
Proof. intros [A1 A2] [B1 B2]. unfold one_word, newline in *. rewrite !Contains_char_append, A1, A2, B1, B2. done. Qed.

Lemma Replace_newline s n : Contains s newline = false → Contains (Replace s " " "_" n) newline = false.
Proof.
  unfold newline. revert s. induction n as [|n IH]; intros s Hs; [done|]. cbn [Replace]. destruct (Cut s " ") as [[a b]|] eqn:E; [|done].
  apply Cut_Some in E as ->. rewrite !Contains_char_append in Hs |- *. apply orb_false_iff in Hs as [Ha [_ Hb]%orb_false_iff].
  rewrite Ha, IH by done. reflexivity.
Qed.

Lemma Itoa_one_word z : one_word (Itoa z).
Proof.
  assert (∀ fuel z acc, one_word acc → one_word (decimal fuel z acc)) as Hd.
  { intros fuel. induction fuel as [|fuel IH]; intros x acc Ha; [done|]. cbn [decimal].
    assert (one_word (String (digit_char (x `mod` 10)) acc)) as Hc.
    { destruct Ha as [A1 A2]. unfold one_word, newline in *. cbn [Contains]. rewrite !HasPrefix_char, A1, A2.
      pose proof (Z.mod_pos_bound x 10 ltac:(lia)) as Hm.
      assert (x `mod` 10 = 0 ∨ x `mod` 10 = 1 ∨ x `mod` 10 = 2 ∨ x `mod` 10 = 3 ∨ x `mod` 10 = 4 ∨ x `mod` 10 = 5 ∨ x `mod` 10 = 6 ∨ x `mod` 10 = 7 ∨ x `mod` 10 = 8 ∨ x `mod` 10 = 9) as Hx by lia.
      repeat destruct Hx as [->|Hx]; try rewrite Hx; by split. }
    case_match; [exact Hc|by apply IH]. }
  unfold Itoa. case_match; [|by apply Hd]. apply (one_word_append "-"); [by split|by apply Hd].
Qed.

Context `{!CarbonEnvLaws}.

Lemma parseTags_words n tags : tags_plain tags → Forall one_word (words (parseTags n tags)).
Proof.
  intros Ht. assert (Forall one_word (parseTags n tags)) as Hf.
  { unfold parseTags. apply Forall_fmap, Forall_forall. intros [k v] Hk. rewrite tags_order_perm, elem_of_map_to_list in Hk.
    destruct (Ht _ _ Hk) as (H1 & H2 & H3). cbn [fst snd]. apply one_word_append; [split; [apply ReplaceAll_space|by apply Replace_newline]|].
    apply (one_word_append "="); [by split|]. split; [|done]. destruct v; try exact H3. apply ReplaceAll_space. }
  unfold words. destruct (parseTags n tags); [|done]. by repeat constructor.
Qed.

Lemma line_words_plain n d : plain d → Forall one_word (line_words n d).
Proof.
  intros (N & T & U & I & M). unfold line_words. repeat (apply Forall_app; split); try by apply parseTags_words.
  - repeat constructor; by apply one_word_append.
  - by repeat constructor.
  - repeat constructor; apply Itoa_one_word.
Qed.

(** The lines of a body are those of the metrics, in order, and the words of a line are its
    metric, type and unit, its tags, and its value and time, unless a newline is in a tag or a
    name: no tag splits a line, and the value can be read back. *)
Theorem carbon_words n s : s ≠ [] → Forall plain s →
  Split (CarbonDataSet_Bytes n s) newline = lines n s ∧
  ∀ i d, s !! i = Some d → ∃ line, lines n s !! i = Some line ∧ Split line " " = line_words (n + i) d ∧
    (in_s 64 (cd_Value d) → Atoi <$> (Split line " " !! (length (Split line " ") - 2)%nat) = Some (Some (cd_Value d))).
Proof.
  intros Hs Hp. assert (∀ n d, plain d → Split (CarbonData_String n d) " " = line_words n d ∧ Contains (CarbonData_String n d) newline = false) as Hline.
  { clear n s Hs Hp. intros n d Hd. pose proof (line_words_plain n d Hd) as Hw.
    assert (CarbonData_String n d = Join (line_words n d) " ") as ->.
    { unfold CarbonData_String, line_words.
      refine (eq_trans (Join_words' [_; _; _] (parseTags n (IntrinsicTags d)) _ _) _).
      replace ([String.append "metric=" (cd_Name d); String.append "mtype=" (cd_Type d); String.append "unit=" (cd_Unit d)] ++ words (parseTags n (IntrinsicTags d)) ++
        [EmptyString; Join (parseTags n (MetaTags d)) " "; Itoa (cd_Value d); Itoa (cd_Timestamp d)])
        with (([String.append "metric=" (cd_Name d); String.append "mtype=" (cd_Type d); String.append "unit=" (cd_Unit d)] ++ words (parseTags n (IntrinsicTags d)) ++ [EmptyString]) ++
          Join (parseTags n (MetaTags d)) " " :: [Itoa (cd_Value d); Itoa (cd_Timestamp d)]) by by rewrite <-!app_assoc.
      rewrite Join_words'. by rewrite <-!app_assoc. }
    split.
    - apply Split_Join_char; [done|]. eapply Forall_impl; [exact Hw|]. by intros ? [? _].
    - clear Hd. revert Hw. unfold line_words. generalize (words (parseTags n (IntrinsicTags d)) ++ [EmptyString] ++ words (parseTags n (MetaTags d)) ++ [Itoa (cd_Value d); Itoa (cd_Timestamp d)]).
      intros l. generalize ([String.append "metric=" (cd_Name d); String.append "mtype=" (cd_Type d); String.append "unit=" (cd_Unit d)] ++ l). clear. intros l Hl.
      induction Hl as [|x l [_ Hx] Hl IH]; [done|]. destruct l as [|y l]; [done|]. rewrite Join_cons. unfold newline in *. rewrite !Contains_char_append, Hx, IH. done. }
  split.
  - unfold CarbonDataSet_Bytes, newline. apply Split_Join_char.
    + unfold lines. by destruct s.
    + unfold lines. apply Forall_lookup. intros i x Hi. rewrite list_lookup_imap in Hi. destruct (s !! i) as [d|] eqn:E; [|done]. injection Hi as <-.
      apply Hline. by eapply Forall_lookup_1.
  - intros i d Hi. exists (CarbonData_String (n + i) d). unfold lines. rewrite list_lookup_imap, Hi.
    destruct (Hline (n + i)%nat d) as [-> _]; [by eapply Forall_lookup_1|]. split; [done|]. split; [done|]. intros Hv.
    assert (∃ l, line_words (n + i) d = l ++ [Itoa (cd_Value d); Itoa (cd_Timestamp d)]) as [l ->].
    { unfold line_words. rewrite !app_assoc. by eexists. }
    rewrite length_app. cbn [length]. replace (length l + 2 - 2)%nat with (length l) by lia. rewrite list_lookup_middle by done. cbn. by rewrite Atoi_Itoa.
Qed.
End carbon.

(** ** Concrete inputs *)
#[local] Instance any_carbon : CarbonEnv := {|
  Sprint_other v := "?"%string; tags_order A n m := if Nat.even n then map_to_list m else rev (map_to_list m); carbon_rows n jin := (avro_rows jin).*1 |}.
#[local] Instance any_carbon_laws : CarbonEnvLaws.
Proof. split. intros A n m. cbn. destruct (Nat.even n); [done|]. symmetry. apply Permutation_rev. Qed.

#[local] Instance one_word_decision s : Decision (one_word s) := decide (_ ∧ _).
#[local] Instance tags_plain_dec tags : Decision (tags_plain tags).
Proof. apply map_Forall_dec. intros k v. destruct v; apply _. Defined.
#[local] Instance plain_dec d : Decision (plain d).
Proof. unfold plain. apply _. Defined.

Definition carbon_flow : JCHF := NewJCHF <| EventType := KENTIK_EVENT_TYPE |> <| SrcAddr := "10.0.0.1" |> <| InBytes := 7 |> <| SampleRate := 2 |> <| Timestamp := 99 |>
  <| CustomStr := Some {["src host" := "a b"]}%string |>.
Definition carbon_metrics : list CarbonData := match fromKflow 0 carbon_flow with Ok (_, ms) => ms | _ => [] end.

Lemma carbon_words_witness : length (Split (CarbonDataSet_Bytes 0 carbon_metrics) newline) = 5%nat ∧
  ∀ i d, carbon_metrics !! i = Some d → ∃ line, lines 0 carbon_metrics !! i = Some line ∧ Split line " " = line_words i d.
Proof.
  assert (carbon_metrics ≠ []) as Hne by (intros E; apply (f_equal length) in E; vm_compute in E; discriminate).
  assert (Forall plain carbon_metrics) as Hp by (apply (bool_decide_eq_true_1 (Forall plain carbon_metrics)); vm_compute; reflexivity).
  destruct (carbon_words 0 carbon_metrics Hne Hp) as [E H']. split; [rewrite E; vm_compute; reflexivity|].
  intros i d Hi. destruct (H' i d Hi) as (line & Hl & Hw & _). exists line. exact (conj Hl Hw).
Defined.

(** A newline in a tag makes two lines of one metric. *)
Example newline_splits : length (Split (CarbonDataSet_Bytes 0 [mkCarbon "gauge" "x" 1 "ms" {["host" := VString (String "a" newline)]}%string ∅ 5]) newline) = 2%nat.
Proof. vm_compute. reflexivity. Qed.
