(* ===== verification/Nrm.v ===== *)
(** The New Relic format (src/pkg/formats/nrm/nrm.go, demo.go and events/events.go): metrics of
    flows, tests, devices and rollups, the metadata they are joined with, and the events that go
    to a channel of their own.

    JSON and gzip are parameters, as are the waves of the demonstration mode. The order of a
    range is that of an oracle that sees how many messages came before. *)
From Stdlib Require Import Floats.SpecFloat.
From S2P Require Import Prelude GoStrings.
From S2P Require Import Jchf.
From S2P Require Import FlowToJCHF.
From S2P Require Import FormatsUtil.
From S2P Require Import Rollup.
From S2P Require Import KtHelpers.
From S2P Require Prom.
From S2P Require Influx.
Local Open Scope Z_scope.

(** What a metric's value may be: [map[string]uint64] has the four keys of a summary. *)
Inductive nr_value := NInt (z : Z) | NFloat (x : spec_float) | NText (s : string) | NSummary (count sum min max : Z).

Record NRMetric := mkNRMetric {
  nr_Name : string; nr_Type : string; nr_Value : nr_value; nr_Interval : Z; nr_Attributes : gmap string value }.

Definition NR_GAUGE_TYPE : string := "gauge".
Definition NR_SUMMARY_TYPE : string := "summary".
Definition InstNameVPCMetric : string := "vpc-logs-metrics".
Definition InstNameNetflowMetric : string := "netflow-metrics".
Definition InstNameSynthetic : string := "synthetic".
Definition InstNameKtranslate : string := "heartbeat".
Definition InstNameSnmpTrapEvent : string := "snmp-trap-events".
Definition InstProvider : string := "kentik".
Definition CollectorName : string := "ktranslate".

Class NrmEnv := {
  order_of : ∀ {A}, nat → gmap string A → list (string * A);
  row_order : nat → JCHF → list string;
  strs_order : nat → JCHF → list (string * string);
  ints_order : nat → JCHF → list (string * Z);
  match_visit : nat → LastMetadata → list (string * Regexp);
  to_uint64 : spec_float → Z;
  Marshal_metrics : list NRMetric → option (list byte);
  Marshal_event : gmap string avro → option (list byte);
  gzip : list byte → option (list byte);
  wave : string → nat → spec_float }.

Section nrm.
Context `{NrmEnv} `{RegexpEngine}.

(** ** The format *)
(** The demonstration mode: how many values were taken from the wave of a key. *)
Record Demozer := mkDemozer { period : Z; waves : gmap string nat }.
(** [EventChan] holds what was sent and not received yet. *)
Record NRMFormat := mkNRMFormat {
  doGz : bool;
  lastMetadata : gmap string LastMetadata;
  invalids : gset string;
  demo : option Demozer;
  seenInvalid : bool;
  EventChan : list (list byte);
  clock : nat }.
Definition EVENT_CHAN : nat := 100.

(** [NewFormat]: the settings of the demonstration are texts of the environment. *)
Definition NewFormat (dp da compression : string) : res NRMFormat :=
  demo ← match Atoi dp with
         | None => Ok None
         | Some per => match Atoi da with None => Err (Errorf "You used an unsupported value for demo amplitude: %s. Ensure you setup the %s variable." []) | Some _ => Ok (Some (mkDemozer (wrapu 32 per) ∅)) end
         end;
  gz ← (if String.eqb compression "none" then Ok false else if String.eqb compression "gzip" then Ok true
        else Err (Errorf "You used an unsupported compression format: %s. For nrm, use gzip or no compression at all." []));
  Ok (mkNRMFormat gz ∅ ∅ demo false [] 0).

Definition set_metadata_of (name : string) (lm : LastMetadata) (f : NRMFormat) : NRMFormat :=
  mkNRMFormat (doGz f) (<[name := lm]> (lastMetadata f)) (invalids f) (demo f) (seenInvalid f) (EventChan f) (clock f).
Definition set_invalids (s : gset string) (f : NRMFormat) : NRMFormat :=
  mkNRMFormat (doGz f) (lastMetadata f) s (demo f) (seenInvalid f) (EventChan f) (clock f).
Definition set_demo (d : option Demozer) (f : NRMFormat) : NRMFormat :=
  mkNRMFormat (doGz f) (lastMetadata f) (invalids f) d (seenInvalid f) (EventChan f) (clock f).
Definition set_seen (f : NRMFormat) : NRMFormat :=
  mkNRMFormat (doGz f) (lastMetadata f) (invalids f) (demo f) true (EventChan f) (clock f).
Definition set_chan (c : list (list byte)) (f : NRMFormat) : NRMFormat :=
  mkNRMFormat (doGz f) (lastMetadata f) (invalids f) (demo f) (seenInvalid f) c (clock f).
Definition tick (f : NRMFormat) : NRMFormat :=
  mkNRMFormat (doGz f) (lastMetadata f) (invalids f) (demo f) (seenInvalid f) (EventChan f) (S (clock f)).

Definition meta (f : NRMFormat) (jin : JCHF) : option LastMetadata := lastMetadata f !! DeviceName jin.
Definition attrs (f : NRMFormat) (jin : JCHF) (metrics : gomap MetricInfo) : res (JCHF * gmap string value) :=
  SetAttr (row_order (clock f) jin) ∅ jin metrics (meta f jin) false.
Definition gauge (prefix name : string) (v : nr_value) (attr : gmap string value) : NRMetric :=
  mkNRMetric (String.append prefix name) NR_GAUGE_TYPE v 0 attr.

(** ** Events (events.go) *)
Definition stripped (v : avro) : bool :=
  match v with
  | AString tv => String.eqb tv "" || String.eqb tv "-" || String.eqb tv "--"
  | AInt32 tv | AInt64 tv => tv =? 0
  | _ => false
  end.
Definition strip (m : gmap string avro) : gmap string avro :=
  <["collector.name" := AString CollectorName]> (<["instrumentation.name" := AString InstNameSnmpTrapEvent]>
    (<["instrumentation.provider" := AString InstProvider]> (filter (λ kv, stripped kv.2 = false) m))).
Definition toRawJson (visit : list string) (msg : JCHF) (gz : bool) : res (JCHF * option (list byte)) :=
  '(msg, flat) ← Flatten visit msg;
  Ok (msg, t ← Marshal_event (strip flat); if gz then gzip t else Some t).
(** The [select] with a default: an event is dropped when the channel is full. *)
Definition send (evt : list byte) (c : list (list byte)) : list (list byte) :=
  if (length c <? EVENT_CHAN)%nat then c ++ [evt] else c.
Definition SendEvent (visit : list string) (msg : JCHF) (f : NRMFormat) : res (NRMFormat * JCHF) :=
  '(msg, r) ← toRawJson visit msg (doGz f);
  Ok (match r with Some evt => set_chan (send evt (EventChan f)) f | None => f end, msg).

(** ** Metadata *)
Definition fromSnmpMetadata (f : NRMFormat) (jin : JCHF) : NRMFormat :=
  if String.eqb (DeviceName jin) "" then f
  else
    let lm := SetMetadata jin (strs_order (clock f) jin) (ints_order (clock f) jin) in
    match lastMetadata f !! DeviceName jin with
    | None => set_metadata_of (DeviceName jin) lm f
    | Some old => if (Size (Some old) <=? Size (Some lm))%nat then set_metadata_of (DeviceName jin) lm f else f
    end.

(** ** Synthetic tests *)
Definition synthWLAttr : list string := [
  "agent_id"; "agent_name"; "dst_addr"; "dst_cdn_int"; "dst_geo"; "provider"; "src_addr"; "src_cdn_int";
  "src_as_name"; "src_geo"; "test_id"; "test_name"; "test_type"; "test_url"; "src_host"; "dst_host";
  "src_cloud_region"; "src_cloud_provider"; "src_site"; "dst_cloud_region"; "dst_cloud_provider"; "dst_site";
  "https_validity"; "https_expiry_timestamp"; "dest_ip"; "statusMessage"; "statusEncoding"; "connectEnd";
  "connectStart"; "decodedBodySize"; "domComplete"; "domContentLoadedEventEnd"; "domContentLoadedEventStart";
  "domInteractive"; "domainLookupEnd"; "domainLookupStart"; "duration"; "fetchStart"; "loadEventEnd";
  "loadEventStart"; "redirectCount"; "requestStart"; "responseEnd"; "responseStart"; "secureConnectionStart";
  "tlsProtocol"; "har_file"]%string.

(** The hard-coded name, unless the test has a type. *)
Definition synth_name (attr : gmap string value) : gmap string value :=
  let attr := <["instrumentation.name"%string := VString InstNameSynthetic]> attr in
  match attr !! "test_type"%string with Some ty => <["instrumentation.name"%string := ty]> attr | None => attr end.
(** The loop changes the map at the key that it visits only. *)
Definition white_list (attr : gmap string value) : gmap string value :=
  map_imap (λ k v, if existsb (String.eqb k) synthWLAttr then
      Some (match v with VInt vi => if String.eqb k "test_id" then VString (Itoa vi) else v | _ => v end)
    else None) attr.

Definition fromKSyngest (f : NRMFormat) (jin : JCHF) : res (JCHF * list NRMetric) :=
  let metrics := GetSyngestMetricNameSet in
  '(jin, attr) ← attrs f jin metrics;
  let attr := delete "har_file"%string (white_list (synth_name attr)) in
  Ok (jin, omap (λ '(m, name), if 0 <? int_at m jin then Some (gauge "kentik.syngest." (MI_Name name) (NInt (int_at m jin)) attr) else None)
             (order_of (clock f) (map_range metrics))).

Definition synth_gauges : list string :=
  ["avg_rtt"; "jit_rtt"; "time"; "code"; "port"; "status"; "ttlb"; "size"; "trx_time"; "validation"]%string.
(** The value of the metric of a name that is visited last, else 0. *)
Definition synth_count (name : string) (jin : JCHF) (l : list (string * MetricInfo)) : Z :=
  foldl (λ v kv, if String.eqb (MI_Name kv.2) name then int_at kv.1 jin else v) 0 l.
Definition lost_metric (sent lost : Z) (attr : gmap string value) : list NRMetric :=
  let u z := to_uint64 (Prom.float_of z) in
  if 0 <? sent then [mkNRMetric "kentik.synth.lost" NR_SUMMARY_TYPE (NSummary (u sent) (u lost) (u lost) (u lost)) (60 * 1000000) attr] else [].
Definition fromKSynth (f : NRMFormat) (jin : JCHF) : res (JCHF * list NRMetric) :=
  if int_at "result_type" jin <=? 1 then Ok (jin, [])
  else
    let metrics := GetSynMetricNameSet (int_at "result_type" jin) in
    '(jin, attr) ← attrs f jin metrics;
    let attr := white_list (synth_name attr) in
    let visited := order_of (clock f) (map_range metrics) in
    Ok (jin, omap (λ '(m, name), if existsb (String.eqb (MI_Name name)) synth_gauges then Some (gauge "kentik.synth." (MI_Name name) (NInt (int_at m jin)) attr) else None) visited ++
             lost_metric (synth_count "sent" jin visited) (synth_count "lost" jin visited) attr).

(** ** Flows and the service's own metrics *)
Definition fromKflow (f : NRMFormat) (jin : JCHF) : res (JCHF * list NRMetric) :=
  '(jin, attr) ← attrs f jin Prom.kflow_metrics;
  let attr := <["instrumentation.name"%string := VString InstNameNetflowMetric]> attr in
  Ok (jin, omap (λ '(m, _), if 0 <? Prom.kflow_value jin m then Some (gauge "kentik.flow." m (NInt (Prom.kflow_value jin m)) attr) else None)
             (order_of (clock f) (map_range Prom.kflow_metrics))).

Definition fromKtranslate (f : NRMFormat) (jin : JCHF) : res (JCHF * list NRMetric) :=
  '(jin, attr) ← attrs f jin Influx.own_metrics;
  let attr := <["instrumentation.name"%string := VString InstNameKtranslate]> attr in
  Ok (jin, match Influx.own_key (str_at "type" jin) with
           | Some k =>
               if String.eqb (str_at "force" jin) "true" || (0 <? big_at k jin) then
                 [gauge "kentik.ktranslate." (str_at "name" jin) (NFloat (Prom.float_div (Prom.float_of (big_at k jin)) (Prom.float_of 100))) attr]
               else []
           | None => []
           end).

(** ** Devices and interfaces *)
(** The attributes of a metric, unless it is dropped. *)
Definition metric_attrs (f : NRMFormat) (isIf : bool) (jin : JCHF) (attr : gmap string value) (m : string) (name : MetricInfo) : option (gmap string value) :=
  let attrNew := CopyAttrForSnmp (order_of (clock f) attr) m name (meta f jin) true false in
  if DropOnFilter attrNew (meta f jin) isIf (match meta f jin with Some lm => match_visit (clock f) lm | None => [] end) then None
  else Some attrNew.
Definition device_metric (f : NRMFormat) (jin : JCHF) (attr : gmap string value) (kv : string * MetricInfo) : option NRMetric :=
  let '(m, name) := kv in
  if String.eqb m "" then None
  else
    v ← map_range (CustomBigInt jin) !! m;
    attrNew ← metric_attrs f false jin attr m name;
    let prefix := String.append "kentik." (String.append (MetricInfo_GetType name) ".") in
    Some (gauge prefix m (if String.eqb (Format name) Influx.FloatMS then NFloat (Prom.float_div (Prom.float_of v) (Prom.float_of 1000)) else NInt v) attrNew).
Definition fromSnmpDeviceMetric (f : NRMFormat) (jin : JCHF) : res (JCHF * list NRMetric) :=
  let metrics := CustomMetrics jin in
  '(jin, attr) ← attrs f jin metrics;
  Ok (jin, omap (device_metric f jin attr) (order_of (clock f) (map_range metrics))).

Definition counted (m : string) : bool := negb (String.eqb m "") && negb (FormatsUtil.HasSuffix m "_counter").
Definition interface_metric (f : NRMFormat) (jin : JCHF) (attr : gmap string value) (kv : string * MetricInfo) : option NRMetric :=
  let '(m, name) := kv in
  if counted m then
    v ← map_range (CustomBigInt jin) !! m;
    attrNew ← metric_attrs f true jin attr m name;
    Some (mkNRMetric (String.append "kentik.snmp." m) NR_GAUGE_TYPE (NInt v) (wraps 64 (big_at "Uptime" jin * 10)) attrNew)
  else None.
(** The profile of the metric that is visited last. *)
Definition last_profile (l : list (string * MetricInfo)) : string :=
  foldl (λ p kv, if counted kv.1 then Profile kv.2 else p) "snmp"%string l.
Definition utilization (f : NRMFormat) (jin : JCHF) (attr : gmap string value) (profileName : string) (port : Z) (name octets : string) : list NRMetric :=
  match meta f jin ≫= λ lm, Influx.speed_of lm port with
  | None => []
  | Some ispeed =>
      let uptimeSpeed := wraps 64 (big_at "Uptime" jin * wraps 64 (ispeed * 10000)) in
      if 0 <? uptimeSpeed then
        match map_range (CustomBigInt jin) !! octets, metric_attrs f true jin attr name (mkMetricInfo "computed" "computed" "" profileName "if" "" "" 0 None) with
        | Some b, Some attrNew => [gauge "kentik.snmp." name (NFloat (Prom.float_div (Prom.float_of (wraps 64 (b * 8 * 100))) (Prom.float_of uptimeSpeed))) attrNew]
        | _, _ => []
        end
      else []
  end.
Definition fromSnmpInterfaceMetric (f : NRMFormat) (jin : JCHF) : res (JCHF * list NRMetric) :=
  let metrics := order_of (clock f) (map_range (CustomMetrics jin)) in
  '(jin, attr) ← attrs f jin (CustomMetrics jin);
  let profileName := last_profile metrics in
  Ok (jin, omap (interface_metric f jin attr) metrics ++
           utilization f jin attr profileName (InputPort jin) "IfInUtilization" "ifHCInOctets" ++
           utilization f jin attr profileName (OutputPort jin) "IfOutUtilization" "ifHCOutOctets").

(** ** [To] *)
Definition KENTIK_EVENT_SNMP_TRAP : string := "KSnmpTrap".
Definition KENTIK_EVENT_EXT : string := "KExtEvent".
Definition toNRMetric (jin : JCHF) (f : NRMFormat) : res (NRMFormat * JCHF * list NRMetric) :=
  let emit (r : res (JCHF * list NRMetric)) := '(jin, ms) ← r; Ok (tick f, jin, ms) in
  let e := EventType jin in
  if String.eqb e KENTIK_EVENT_TYPE then emit (fromKflow f jin)
  else if String.eqb e Prom.KENTIK_EVENT_SNMP_DEV_METRIC then emit (fromSnmpDeviceMetric f jin)
  else if String.eqb e Prom.KENTIK_EVENT_SNMP_INT_METRIC then emit (fromSnmpInterfaceMetric f jin)
  else if String.eqb e KENTIK_EVENT_SYNTH then emit (fromKSynth f jin)
  else if String.eqb e KENTIK_EVENT_SYNTH_GEST then emit (fromKSyngest f jin)
  else if String.eqb e Prom.KENTIK_EVENT_SNMP_METADATA then Ok (tick (fromSnmpMetadata f jin), jin, [])
  else if String.eqb e Influx.KENTIK_EVENT_KTRANS_METRIC then emit (fromKtranslate f jin)
  else if String.eqb e KENTIK_EVENT_SNMP_TRAP || String.eqb e KENTIK_EVENT_EXT then
    '(f, jin) ← SendEvent (row_order (clock f) jin) jin f; Ok (tick f, jin, [])
  else Ok (tick (set_invalids ({[e]} ∪ invalids f) f), jin, []).
Fixpoint toNRMetrics (msgs : list JCHF) (f : NRMFormat) : res (NRMFormat * list NRMetric) :=
  match msgs with
  | [] => Ok (f, [])
  | m :: msgs => '(f, _, ms) ← toNRMetric m f; '(f, rest) ← toNRMetrics msgs f; Ok (f, ms ++ rest)
  end.

(** A map that metrics share is sanitised with each of them; the second time nothing changes. *)
Definition sanitize_value (v : value) : value := match v with VString t => VString (SanitizeUTF8 t) | _ => v end.
Definition sanitize (m : NRMetric) : NRMetric :=
  mkNRMetric (nr_Name m) (nr_Type m) (match nr_Value m with NText t => NText (SanitizeUTF8 t) | v => v end) (nr_Interval m) (sanitize_value <$> nr_Attributes m).

(** What [To] and [Rollup] return: nothing, an output or an error. *)
Inductive sent := Silent | Sent (o : Output) | Failed (err : string).
Definition handleInvalid (jin : JCHF) (output : list byte) (f : NRMFormat) : NRMFormat * sent :=
  let msg := String.append "device=" (String.append (DeviceName jin) (String.append " provider=" (String.append (Provider jin) ": Invalid utf8 char found in new relic output.")))%string in
  let msg := if seenInvalid f then msg else String.append msg (String.append " (" (String.append (String.string_of_list_byte output) ")")) in
  (set_seen f, Failed msg).
Definition compress (f : NRMFormat) (target : list byte) (out : list byte → Output) : sent :=
  if doGz f then match gzip target with Some z => Sent (out z) | None => Failed "gzip" end else Sent (out target).
Definition To (msgs : list JCHF) (f : NRMFormat) : res (NRMFormat * sent) :=
  '(f, ms) ← toNRMetrics msgs f;
  match msgs, sanitize <$> ms with
  | jin :: _, (_ :: _) as ms =>
      match Marshal_metrics ms with
      | None => Ok (f, Failed "json")
      | Some target =>
          if utf8_valid 0 0 0 target then
            Ok (f, compress f target (λ b, NewOutputWithProviderAndCompanySender b (Provider jin) (CompanyId jin) MetricOutput ""))
          else Ok (handleInvalid jin target f)
      end
  | _, _ => Ok (f, Silent)
  end.

(** ** [Rollup] *)
Definition rollupMap_list : list (string * string) := [
  ("source_account", "vpc_account"); ("source_region", "vpc_region"); ("source_vpc", "vpc_name");
  ("src_addr", "ip_address"); ("src_as", "asn_name"); ("src_as_name", "asn_name"); ("src_geo", "country");
  ("l4_src_port", "port"); ("dest_account", "vpc_account"); ("dest_region", "vpc_region"); ("dest_vpc", "vpc_name");
  ("dst_addr", "ip_address"); ("dst_as", "asn_name"); ("dst_as_name", "asn_name"); ("dst_geo", "country");
  ("l4_dst_port", "port")]%string.
Definition rollupMap : gmap string string := list_to_map rollupMap_list.
Definition ProviderRouter : Provider_ := "kentik-router".
Definition toInstName (prov : Provider_) : string := if Contains prov "vpc" then InstNameVPCMetric else InstNameNetflowMetric.
Definition target_name (dim : string) : string := default dim (rollupMap !! dim).
Definition no_value (pt : string) : bool := String.eqb pt "0" || String.eqb pt "" || String.eqb pt "-" || String.eqb pt "--".

(** One part of a key: the value is set, removed when it says nothing, and a port above the
    registered ones is made one of all of them. *)
Definition roll_attr (dim pt : string) (attr : gmap string value) : gmap string value :=
  let aname := target_name dim in
  let attr := if no_value pt then delete aname attr else <[aname := VString pt]> attr in
  if String.eqb aname "port" && (32768 <? (Atoi_value pt).1) then <[aname := VInt 32768]> attr else attr.
Fixpoint roll_attrs (dims pts : list string) (attr : gmap string value) : res (gmap string value) :=
  match pts, dims with
  | [], _ => Ok attr
  | _ :: _, [] => Panic "index out of range"
  | pt :: pts, d :: dims => roll_attrs dims pts (roll_attr d pt attr)
  end.
Definition roll_base (prov : Provider_) : gmap string value :=
  <["instrumentation.name"%string := VString (toInstName prov)]> {["provider"%string := VProvider (if String.eqb prov ProviderRouter then ProviderFlowDevice else prov)]}.
Definition vpc_identification (attr : gmap string value) : gmap string value :=
  match attr !! "vpc_account"%string, attr !! "vpc_name"%string with
  | Some (VString acct), Some (VString name) =>
      if negb (String.eqb acct "") && negb (String.eqb name "") then <["vpc_identification"%string := VString (String.append acct (String.append ":" name))]> attr else attr
  | _, _ => attr
  end.
(** [Interval] of a rollup is given apart from it, in nanoseconds. *)
Definition roll_metric (roll : Roll * Z) : res (list NRMetric) :=
  let '(roll, interval) := roll in
  if Prom.float_is_zero (ro_Metric roll) then Ok []
  else
    attr ← roll_attrs (ro_dims roll) (Split (ro_Dimension roll) (ro_KeyJoin roll)) (roll_base (ro_Provider roll));
    Ok [mkNRMetric (String.append "kentik.rollup." (ro_Name roll)) NR_SUMMARY_TYPE
          (NSummary (ro_Count roll) (to_uint64 (ro_Metric roll)) (ro_Min roll) (ro_Max roll))
          (Z.quot interval 1000) (vpc_identification attr)].
Fixpoint roll_metrics (rolls : list (Roll * Z)) : res (list NRMetric) :=
  match rolls with [] => Ok [] | r :: rolls => m ← roll_metric r; ms ← roll_metrics rolls; Ok (m ++ ms) end.

(** *** The demonstration mode (demo.go) *)
Definition float_add : spec_float → spec_float → spec_float := SFadd 53 1024.
Definition float_mul : spec_float → spec_float → spec_float := SFmul 53 1024.
(** The wave of a key: a new one starts at a random offset, which needs a positive bound. *)
Definition next_wave (key : string) (d : Demozer) : res (Demozer * spec_float) :=
  n ← match waves d !! key with
      | Some n => Ok n
      | None => if wraps 32 (period d * 4) <=? 0 then Panic "invalid argument to Int31n" else Ok O
      end;
  Ok (mkDemozer (period d) (<[key := S n]> (waves d)), wave key n).
Definition adjusted (sum : Z) (adjust : spec_float) : Z :=
  let fv := Prom.float_of sum in
  let adj := float_mul fv adjust in
  if SFltb (S754_zero false) (float_add fv adj) then to_uint64 (float_add fv adj)
  else to_uint64 (float_mul (float_add adj fv) (Prom.float_of (-1))).
Definition adjust_value (v : nr_value) (adjust : spec_float) : nr_value :=
  match v with NSummary c s mn mx => NSummary c (adjusted s adjust) mn mx | _ => v end.
(** One metric; [adjusts] keeps what was taken for a key in this run. *)
Definition demo_metric (m : NRMetric) (st : Demozer * gmap string spec_float) : res (Demozer * gmap string spec_float * NRMetric) :=
  let '(d, adjusts) := st in
  match nr_Attributes m !! "vpc_identification"%string with
  | Some (VString vpc) =>
      if String.eqb vpc "" then Ok (d, adjusts, m)
      else
        let key := String.append (nr_Name m) vpc in
        '(d, adjust) ← match adjusts !! key with Some a => Ok (d, a) | None => next_wave key d end;
        Ok (d, <[key := adjust]> adjusts, mkNRMetric (nr_Name m) (nr_Type m) (adjust_value (nr_Value m) adjust) (nr_Interval m) (nr_Attributes m))
  | _ => Ok (d, adjusts, m)
  end.
Fixpoint demo_metrics (ms : list NRMetric) (st : Demozer * gmap string spec_float) : res (Demozer * list NRMetric) :=
  match ms with
  | [] => Ok (st.1, [])
  | m :: ms => '(d, adjusts, m) ← demo_metric m st; '(d, ms) ← demo_metrics ms (d, adjusts); Ok (d, m :: ms)
  end.
Definition demoize (ms : list NRMetric) (d : Demozer) : res (Demozer * list NRMetric) := demo_metrics ms (d, ∅).

Definition toNRMetricRollup (rolls : list (Roll * Z)) (f : NRMFormat) : res (NRMFormat * list NRMetric) :=
  ms ← roll_metrics rolls;
  match demo f with
  | None => Ok (f, ms)
  | Some d => '(d, ms) ← demoize ms d; Ok (set_demo (Some d) f, ms)
  end.
Definition Rollup_ (rolls : list (Roll * Z)) (f : NRMFormat) : res (NRMFormat * sent) :=
  '(f, ms) ← toNRMetricRollup rolls f;
  match rolls, ms with
  | r :: _, _ :: _ =>
      match Marshal_metrics ms with
      | None => Ok (f, Failed "json")
      | Some target => Ok (f, compress f target (λ b, NewOutputWithProvider b (ro_Provider r.1) RollupOutput))
      end
  | _, _ => Ok (f, Silent)
  end.

(** ** Laws *)
(** *** Metadata *)
(** What a message says of its device, when it is metadata and names one. *)
Definition metadata_event (jin : JCHF) : bool :=
  String.eqb (EventType jin) Prom.KENTIK_EVENT_SNMP_METADATA && negb (String.eqb (DeviceName jin) "").
Definition metadata_at (n : nat) (jin : JCHF) : LastMetadata := SetMetadata jin (strs_order n jin) (ints_order n jin).

(** Of the metadata messages the metadata of a device grows with, or stays. *)
Record grows (name : string) (from : option LastMetadata) (said : list LastMetadata) (now : option LastMetadata) : Prop := {
  gr_from lm : now = Some lm → from = Some lm ∨ lm ∈ said;
  gr_old old : from = Some old → ∃ lm, now = Some lm ∧ (Size (Some old) ≤ Size (Some lm))%nat;
  gr_said lm' : lm' ∈ said → ∃ lm, now = Some lm ∧ (Size (Some lm') ≤ Size (Some lm))%nat }.

Lemma grows_refl name o : grows name o [] o.
Proof. split; [by left|eauto|by intros ? ?%elem_of_nil]. Qed.
Lemma grows_app name a s1 b s2 c : grows name a s1 b → grows name b s2 c → grows name a (s1 ++ s2) c.
Proof.
  intros [F1 O1 S1] [F2 O2 S2]. split.
  - intros lm Hc. destruct (F2 _ Hc) as [Hb|Hs]; [|right; by apply elem_of_app; right].
    destruct (F1 _ Hb) as [Ha|Hs]; [by left|right; by apply elem_of_app; left].
  - intros old Ha. destruct (O1 _ Ha) as (lm & Hb & ?). destruct (O2 _ Hb) as (lm' & Hc & ?). exists lm'. split; [done|lia].
  - intros lm' [Hs|Hs]%elem_of_app; [|by apply S2]. destruct (S1 _ Hs) as (lm & Hb & ?). destruct (O2 _ Hb) as (lm'' & Hc & ?). exists lm''. split; [done|lia].
Qed.

(** Another event leaves the metadata as it is. *)
Lemma emit_keeps f (r : res (JCHF * list NRMetric)) f' jin ms :
  ('(jin, ms) ← r; Ok (tick f, jin, ms)) = Ok (f', jin, ms) → lastMetadata f' = lastMetadata f ∧ clock f' = S (clock f).
Proof. destruct r as [[j l]|e|e|]; cbn; [|done..]. by intros [= <- <- <-]. Qed.

Lemma SendEvent_keeps visit jin f f' jin' : SendEvent visit jin f = Ok (f', jin') → lastMetadata f' = lastMetadata f ∧ clock f' = clock f.
Proof.
  unfold SendEvent. destruct (toRawJson visit jin (doGz f)) as [[j [e|]]|e|e|]; cbn; [| |done..]; by intros [= <- <-].
Qed.

Definition said_of (name : string) (n : nat) (jin : JCHF) : list LastMetadata :=
  if metadata_event jin && String.eqb (DeviceName jin) name then [metadata_at n jin] else [].

Lemma toNRMetric_metadata jin f f' jin' ms name : toNRMetric jin f = Ok (f', jin', ms) →
  clock f' = S (clock f) ∧ grows name (lastMetadata f !! name) (said_of name (clock f) jin) (lastMetadata f' !! name).
Proof.
  unfold toNRMetric. assert (metadata_event jin = false → ∀ g : NRMFormat, lastMetadata g = lastMetadata f ∧ clock g = S (clock f) →
    clock g = S (clock f) ∧ grows name (lastMetadata f !! name) (said_of name (clock f) jin) (lastMetadata g !! name)) as Hkeep.
  { intros He g [-> ->]. split; [done|]. unfold said_of. rewrite He. apply grows_refl. }
  cbv zeta.
  do 5 (match goal with |- (if String.eqb (EventType jin) ?e then _ else _) = _ → _ => destruct (String.eqb_spec (EventType jin) e) as [E|_] end;
    [intros Hr; apply Hkeep; [unfold metadata_event; by rewrite E|by eapply emit_keeps]|]).
  destruct (String.eqb_spec (EventType jin) Prom.KENTIK_EVENT_SNMP_METADATA) as [E|Hn].
  - intros [= <- <- <-]. split; [unfold fromSnmpMetadata; repeat case_match; done|]. unfold said_of, metadata_event. rewrite E. cbn [andb String.eqb].
    unfold fromSnmpMetadata. change (SetMetadata jin (strs_order (clock f) jin) (ints_order (clock f) jin)) with (metadata_at (clock f) jin).
    destruct (String.eqb_spec (DeviceName jin) "") as [Hd|Hd]; [rewrite andb_false_r; apply grows_refl|].
    rewrite (String.eqb_refl Prom.KENTIK_EVENT_SNMP_METADATA). cbn [andb negb].
    destruct (String.eqb_spec (DeviceName jin) name) as [<-|Hx].
    + destruct (lastMetadata f !! DeviceName jin) as [old|] eqn:Eo.
      * destruct (Nat.leb_spec (Size (Some old)) (Size (Some (metadata_at (clock f) jin)))) as [Hs|Hs]; cbn [tick set_metadata_of lastMetadata].
        -- rewrite lookup_insert_eq. split; [intros ? [= <-]; right; by apply list_elem_of_singleton|intros ? [= <-]; eauto|intros ? ->%list_elem_of_singleton; eauto].
        -- rewrite Eo. split; [by left|eauto|]. intros ? ->%list_elem_of_singleton. exists old. split; [done|lia].
      * cbn [tick set_metadata_of lastMetadata]. rewrite lookup_insert_eq.
        split; [intros ? [= <-]; right; by apply list_elem_of_singleton|done|intros ? ->%list_elem_of_singleton; eauto].
    + assert (lastMetadata (tick (match lastMetadata f !! DeviceName jin with
        | Some old => if (Size (Some old) <=? Size (Some (metadata_at (clock f) jin)))%nat then set_metadata_of (DeviceName jin) (metadata_at (clock f) jin) f else f
        | None => set_metadata_of (DeviceName jin) (metadata_at (clock f) jin) f end)) !! name = lastMetadata f !! name) as ->;
        [|apply grows_refl]. destruct (lastMetadata f !! DeviceName jin); [case_match|]; cbn [tick set_metadata_of lastMetadata]; rewrite ?lookup_insert_ne by done; done.
  - assert (metadata_event jin = false) as He by (unfold metadata_event; by destruct (String.eqb_spec (EventType jin) Prom.KENTIK_EVENT_SNMP_METADATA)).
    specialize (Hkeep He). case_match; [intros Hr; apply Hkeep; by eapply emit_keeps|]. case_match.
    + destruct (SendEvent _ jin f) as [[g j]|e|e|] eqn:Es; cbn; [|done..]. intros [= <- <- <-]. apply Hkeep. apply SendEvent_keeps in Es as [<- <-]. done.
    + intros [= <- <- <-]. by apply Hkeep.
Qed.

(** After any messages that are turned into metrics, the metadata kept for a device is what it
    was or what one of the messages said, and it is no smaller than what it was and than any of
    them said: smaller metadata never takes the place of larger. *)
Theorem metadata_largest msgs f f' ms name : toNRMetrics msgs f = Ok (f', ms) →
  grows name (lastMetadata f !! name) (concat (imap (λ i jin, said_of name (clock f + i) jin) msgs)) (lastMetadata f' !! name).
Proof.
  revert f ms. induction msgs as [|jin msgs IH]; intros f ms; cbn [toNRMetrics].
  - intros [= <- <-]. apply grows_refl.
  - destruct (toNRMetric jin f) as [[[g j] l]|e|e|] eqn:E; cbn [mbind res_bind]; [|done..].
    destruct (toNRMetrics msgs g) as [[h rest]|e|e|] eqn:E'; cbn [mbind res_bind]; [|done..]. intros [= <- <-].
    destruct (toNRMetric_metadata _ _ _ _ _ name E) as [Hc Hg]. specialize (IH _ _ E'). rewrite Hc in IH.
    cbn [imap concat]. rewrite Nat.add_0_r. eapply grows_app; [exact Hg|].
    erewrite (imap_ext _ (λ i jin, said_of name (S (clock f) + i) jin)); [exact IH|]. intros i x _. cbn. f_equal. lia.
Qed.

(** *** The attributes of rollups *)
(** What a part of a key leaves under the name of its dimension. *)
Definition part_value (n pt : string) : option value :=
  if String.eqb n "port" && (32768 <? (Atoi_value pt).1) then Some (VInt 32768)
  else if no_value pt then None else Some (VString pt).
(** The parts of the dimensions with one name, in order. *)
Definition parts_of (n : string) (dims pts : list string) : list string :=
  omap (λ '(d, pt), if String.eqb (target_name d) n then Some pt else None) (zip dims pts).

Lemma roll_attr_at d pt attr n : roll_attr d pt attr !! n = if String.eqb (target_name d) n then part_value n pt else attr !! n.
Proof.
  unfold roll_attr, part_value. destruct (String.eqb_spec (target_name d) n) as [<-|Hn].
  - destruct (String.eqb (target_name d) "port" && _); [by rewrite lookup_insert_eq|].
    destruct (no_value pt); [apply lookup_delete_eq|apply lookup_insert_eq].
  - destruct (String.eqb (target_name d) "port" && _); rewrite ?lookup_insert_ne by done;
      (destruct (no_value pt); [by rewrite lookup_delete_ne|by rewrite lookup_insert_ne]).
Qed.

(** A key of a rollup is taken apart just when it has no more parts than the rollup has
    dimensions, and then each attribute is that of the last part whose dimension goes by its
    name: absent when that part says nothing, one number for all ports above 32768. *)
Theorem roll_attrs_last dims pts attr :
  if (length pts <=? length dims)%nat then
    ∃ attr', roll_attrs dims pts attr = Ok attr' ∧
      ∀ n, attr' !! n = match last (parts_of n dims pts) with Some pt => part_value n pt | None => attr !! n end
  else roll_attrs dims pts attr = Panic "index out of range".
Proof.
  revert dims attr. induction pts as [|pt pts IH]; intros dims attr; cbn [length Nat.leb roll_attrs].
  - exists attr. split; [by destruct dims|]. intros n. unfold parts_of. by rewrite zip_with_nil_r.
  - destruct dims as [|d dims]; [done|]. cbn [length Nat.leb]. specialize (IH dims (roll_attr d pt attr)). destruct (length pts <=? length dims)%nat; [|done].
    destruct IH as (attr' & E & Hat). exists attr'. split; [done|]. intros n. rewrite Hat. unfold parts_of. cbn [zip zip_with omap list_omap].
    fold (zip dims pts). rewrite roll_attr_at. destruct (String.eqb (target_name d) n); [|done].
    rewrite last_cons. unfold parts_of. by destruct (last _).
Qed.
End nrm.

(** ** Concrete inputs *)
#[local] Instance any_nrm : NrmEnv := {|
  order_of A n m := if Nat.even n then map_to_list m else rev (map_to_list m); row_order n jin := (avro_rows jin).*1;
  strs_order n jin := map_to_list (map_range (CustomStr jin)); ints_order n jin := map_to_list (map_range (CustomInt jin));
  match_visit n lm := map_to_list (map_range (lm_MatchAttr lm)); to_uint64 x := 0;
  Marshal_metrics ms := Some []; Marshal_event m := Some []; gzip b := Some b; wave k n := Prom.float_of 0 |}.
Definition nrm_start : NRMFormat := mkNRMFormat false ∅ ∅ None false [] 0.
Definition nrm_said (strs : gmap string string) : JCHF :=
  NewJCHF <| EventType := Prom.KENTIK_EVENT_SNMP_METADATA |> <| DeviceName := "r1" |> <| CustomStr := Some strs |>.
Definition nrm_msgs : list JCHF := [nrm_said {["SysName" := "a"; "SysDescr" := "b"]}%string; nrm_said {["SysName" := "c"]}%string].
Definition nrm_after : NRMFormat := match toNRMetrics nrm_msgs nrm_start with Ok (f, _) => f | _ => nrm_start end.

Lemma metadata_largest_witness : (∃ lm, lastMetadata nrm_after !! "r1"%string = Some lm ∧ Size (Some lm) = 2%nat) ∧
  grows "r1" (lastMetadata nrm_start !! "r1"%string) (concat (imap (λ i jin, said_of "r1" (clock nrm_start + i) jin) nrm_msgs)) (lastMetadata nrm_after !! "r1"%string).
Proof.
  split; [eexists; split; vm_compute; reflexivity|].
  exact (@metadata_largest any_nrm _ nrm_msgs nrm_start nrm_after [] "r1" eq_refl).
Defined.

(** The two ends of a flow have one name: an end without a country takes that of the other. *)
Example both_ends : match roll_attrs ["src_geo"; "dst_geo"]%string ["US"; "-"]%string ∅ with Ok attr => attr !! "country"%string | _ => Some (VInt 0) end = None.
Proof. vm_compute. reflexivity. Qed.
(** A rollup of a minute has an interval of 60000000 milliseconds. *)
Example interval_micro : match roll_metric ({| ro_Name := "x"; ro_EventType := ""; ro_Dimension := "US"; ro_Metric := Prom.float_of 5; ro_KeyJoin := "^"; ro_dims := ["src_geo"%string];
  ro_Count := 1; ro_Min := 5; ro_Max := 5; ro_Provider := "kentik-router" |}, 60 * 10 ^ 9) with Ok [m] => nr_Interval m | _ => 0 end = 60000000.
Proof. vm_compute. reflexivity. Qed.
(** The name of a metric is not sanitised. *)
Example name_unsanitised : let bad := String "255" EmptyString in
  ValidString (nr_Name (sanitize (gauge "kentik.ktranslate." bad (NInt 1) ∅))) = false.
Proof. vm_compute. reflexivity. Qed.
