(* ===== verification/SnmpDevice.v ===== *)
(** Polling the objects of a device (src/pkg/inputs/snmp/metrics/device_metrics.go), its pings
    (ping_loop of metrics/poll.go, ping/ping.go) and the flows that report both.

    The device, the clock and the orders of ranges are an environment. There are no scripts. *)
From Stdlib Require Import Floats.SpecFloat.
From S2P Require Import Prelude GoStrings Jchf.
From S2P Require Import MibProfile.
From S2P Require Import SnmpCounters.
From S2P Require Import SnmpConv.
From S2P Require FormatsUtil.
From S2P Require FlowToJCHF.
Local Open Scope Z_scope.

(** ** The state *)
(** [dm_tags] are all the user tags of the device; [m_Missing], [m_Fail] and [m_Errors] are the
    values of its gauges and its meter. *)
Record DeviceMetrics := mkDM {
  dm_conf : device_conf; dm_tags : gmap string string; dm_profile : option Profile; dm_profileName : string;
  dm_oids : gmap string Mib; dm_missing : gset string; m_Missing : Z; m_Fail : Z; m_Errors : Z }.
(** [order]: the order of the range over the objects of the profile. *)
Definition NewDeviceMetrics (conf : device_conf) (tags : gmap string string) (order : list (string * Mib)) (profile : option Profile) : DeviceMetrics :=
  mkDM conf tags profile (GetProfileName profile (dc_InstrumentationName conf)) (foldl (λ m kv, <[noid kv.1 := kv.2]> m) ∅ order) ∅ 0 0 0.
Definition GetNumberMibsFailed (dm : DeviceMetrics) : Z := m_Missing dm.
Definition GetNumberMibsTotal_device (dm : DeviceMetrics) : Z := Z.of_nat (size (dm_oids dm)).

Record deviceMetricRow := mkRow { r_Error : string; customStr : gmap string string; customBigInt : gmap string Z }.
Definition empty_row : deviceMetricRow := mkRow "" ∅ ∅.
Definition error_row (e : string) : deviceMetricRow := mkRow e ∅ ∅.
Record wrapper := mkWrapper { w_variable : SnmpPDU; w_mib : Mib; w_oid : string }.
Definition sysUpTime : string := "1.3.6.1.2.1.1.3.0".
Definition StringPrefix : string := FormatsUtil.StringPrefix.

(** What a poll depends on besides the state. *)
Record device_env := mkDevEnv {
  de_now : string → Z; de_stamp : string → Z; de_device : device_answers; error_text : error → string;
  de_oids : gmap string Mib → list (string * Mib); de_rows : gmap string deviceMetricRow → list (string * deviceMetricRow);
  de_oids_perm m : de_oids m ≡ₚ map_to_list m; de_rows_perm m : de_rows m ≡ₚ map_to_list m }.

Section device.
Context `{Submatcher}.

(** ** Walking *)
Record walk_state := mkWalk {
  ws_oids : gmap string Mib; ws_results : list wrapper; ws_rows : gmap string deviceMetricRow;
  ws_seen : gset string; ws_missing : Z; ws_errors : Z }.
(** Of the walk of a table, the results that are not of the object are left. *)
Definition results_of (oid : string) (mib : Mib) (results : list SnmpPDU) : list wrapper :=
  (λ v, mkWrapper v mib oid) <$> filter (λ v, negb (mb_WalkTable mib) || HasPrefix (pdu_Name v) oid = true) results.
Definition walk_failed (walkOid : string) (e : string) : string := String.append "Walking " (String.append walkOid (String.append ": " e)).
Definition walk_oid (env : device_env) (st : walk_state) (kv : string * Mib) : walk_state :=
  let '(oid, mib) := kv in
  let '(ready, mib) := IsPollReady (de_now env oid) mib in
  if negb ready then st
  else
    let oids := <[oid := mib]> (ws_oids st) in
    let walkOid := if mb_WalkTable mib then mb_TableOid mib else oid in
    match WalkOID (de_device env) walkOid with
    | inr e => mkWalk oids (ws_results st) (<[String.append "err-" (mb_Name mib) := error_row (walk_failed walkOid (error_text env e))]> (ws_rows st))
                 (ws_seen st) (ws_missing st) (ws_errors st + 1)
    | inl results =>
        let none := match results with [] => true | _ => false end in
        mkWalk oids (ws_results st ++ results_of oid mib results) (ws_rows st) (if none then {[oid]} ∪ ws_seen st else ws_seen st)
          (if none then ws_missing st + 1 else ws_missing st) (ws_errors st)
    end.
Definition walk_oids (env : device_env) (dm : DeviceMetrics) : walk_state :=
  foldl (walk_oid env) (mkWalk (dm_oids dm) [] ∅ (dm_missing dm) 0 (m_Errors dm)) (de_oids env (dm_oids dm)).
(** The uptime, 0 when there is none, and a row for an error. *)
Definition walk_uptime (env : device_env) (rows : gmap string deviceMetricRow) : Z * gmap string deviceMetricRow :=
  match WalkOID (de_device env) sysUpTime with
  | inl (v :: _) => (ToInt64 (pdu_Value v), rows)
  | inl [] => (0, rows)
  | inr e => (0, <["uptime"%string := error_row (walk_failed sysUpTime (error_text env e))]> rows)
  end.

(** ** From results to rows *)
(** [GetIndex(variable.Name[1:], oid)]. *)
Definition index_of (w : wrapper) : res string := name ← tail_of (pdu_Name (w_variable w)); Ok (GetIndex name (w_oid w)).
Definition checked_of (v : snmp_value) : checked := match v with VNum _ _ z => CInt z | VString s => CString s | _ => COther end.
(** The first result of the index with the name that the condition asks for decides. *)
Fixpoint check_results (c : MibCondition) (idx : string) (results : list wrapper) : res bool :=
  match results with
  | [] => Ok true
  | wr :: results =>
      idxw ← index_of wr;
      if String.eqb idxw idx && String.eqb (GetName (Some (w_mib wr))) (TargetName c) then Ok (Check_condition (Some c) (checked_of (pdu_Value (w_variable wr))))
      else check_results c idx results
  end.
Definition checkCondition (w : wrapper) (idx : string) (results : list wrapper) : res bool :=
  match mb_Condition (w_mib w) with Some c => check_results c idx results | None => Ok true end.

Definition metric_info (profileName : string) (mib : Mib) : MetricInfo :=
  mkMetricInfo (mb_Oid mib) (mb_Mib mib) "" profileName (mb_Table mib) "" "" (mb_PollDur mib) None.
Definition str_name (oidName : string) : string := String.append StringPrefix oidName.
Definition set_row (k : string) (s : option string) (z : Z) (row : deviceMetricRow) : deviceMetricRow :=
  mkRow (r_Error row) (match s with Some s => <[str_name k := s]> (customStr row) | None => customStr row end) (<[k := z]> (customBigInt row)).
(** A text that a conversion gave under a name of its own. *)
Definition set_match (k v : string) (row : deviceMetricRow) : deviceMetricRow := set_row k (Some v) (default 0 (Atoi v)) row.
(** A text: an enum gives its number, a number is one, and else it is kept with 0. *)
Definition set_text (mib : Mib) (oidName value : string) (row : deviceMetricRow) : deviceMetricRow :=
  match mb_Enum mib with
  | Some enum => set_row oidName (Some value) (default 0 (enum !! ToLower value)) row
  | None => match Atoi value with Some s => set_row oidName None s row | None => set_row oidName (Some value) 0 row end
  end.
Definition set_number (mib : Mib) (oidName : string) (v : snmp_value) (row : deviceMetricRow) : deviceMetricRow :=
  set_row oidName (match mb_EnumRev mib with Some rev => Some (default InvalidEnum (rev !! ToInt64 v)) | None => None end) (ToInt64 v) row.

(** What a conversion makes of a row, and the names that it adds. *)
Definition use_conversion (mib : Mib) (oidName : string) (c : conversion) (row : deviceMetricRow) : deviceMetricRow * list string :=
  let '(ival, sval, mval) := c in
  if 0 <? ival then (set_row oidName (Some sval) ival row, [])
  else if (0 <? size (map_range mval))%nat then (map_fold set_match row (map_range mval), (map_to_list (map_range mval)).*1)
  else (set_text mib oidName sval row, []).
(** A result, its row before and after, the names it adds, and the cache of expressions. *)
Definition set_result (w : wrapper) (row : deviceMetricRow) (reCache : gmap string Regexp) : res (deviceMetricRow * list string * gmap string Regexp) :=
  let mib := w_mib w in
  let oidName := GetName (Some mib) in
  let v := pdu_Value (w_variable w) in
  match pdu_Type (w_variable w) with
  | OctetString | BitString =>
      match v with
      | VBytes bv =>
          if String.eqb (mb_Conversion mib) "" then Ok (set_text mib oidName (String.string_of_list_byte bv) row, [], reCache)
          else let '(c, reCache) := GetFromConv v (mb_Conversion mib) reCache in Ok (use_conversion mib oidName c row, reCache)
      | _ => Panic "interface conversion: interface {} is not []uint8"
      end
  | _ => Ok (set_number mib oidName v row, [], reCache)
  end.

Record result_state := mkResults { rs_rows : gmap string deviceMetricRow; rs_found : gmap string MetricInfo; rs_cache : gmap string Regexp }.
Definition is_nil (v : snmp_value) : bool := match v with VNil => true | _ => false end.
Definition add_result (profileName : string) (results : list wrapper) (w : wrapper) (st : result_state) : res result_state :=
  if is_nil (pdu_Value (w_variable w)) then Ok st
  else
    idx ← index_of w;
    keep ← checkCondition w idx results;
    if (keep : bool) then
      let info := metric_info profileName (w_mib w) in
      '(row, names, reCache) ← set_result w (default empty_row (rs_rows st !! idx)) (rs_cache st);
      Ok (mkResults (<[idx := row]> (rs_rows st)) (foldl (λ m k, <[k := info]> m) (<[GetName (Some (w_mib w)) := info]> (rs_found st)) names) reCache)
    else Ok st.
Fixpoint add_results (profileName : string) (all results : list wrapper) (st : result_state) : res result_state :=
  match results with [] => Ok st | w :: results => st ← add_result profileName all w st; add_results profileName all results st end.

(** ** From rows to flows *)
(** [float32(a) / float32(b) * 100] as an integer. *)
Definition float32_of (z : Z) : spec_float := binary_normalize 24 128 z 0 false.
Definition percent32 (a b : Z) : Z := int64_of_float (SFmul 24 128 (SFdiv 24 128 (float32_of a) (float32_of b)) (float32_of 100)).
Definition info_of (found : gmap string MetricInfo) (k : string) : MetricInfo := default (FormatsUtil.name_only "") (found !! k).
(** The flows share the map of the metrics that were found: what one adds all have. *)
Definition add_cpu (st : gmap string Z * gmap string MetricInfo) : gmap string Z * gmap string MetricInfo :=
  let '(big, found) := st in
  match big !! "CPUIdle"%string with
  | Some cpui => if cpui <=? 100 then (<["CPU"%string := wraps 64 (100 - cpui)]> big, <["CPU"%string := info_of found "CPU"]> found) else st
  | None => st
  end.
(** Used and total memory, and the metric whose place the utilization takes. *)
Definition memory_of (big : gmap string Z) : option (Z * Z * string) :=
  let used := big !! "MemoryUsed"%string in let free := big !! "MemoryFree"%string in let total := big !! "MemoryTotal"%string in
  match used, free, total, big !! "MemoryBuffer"%string, big !! "MemoryCache"%string with
  | Some used, Some free, _, _, _ => Some (used, wraps 64 (free + used), "MemoryFree"%string)
  | None, Some free, Some total, _, _ => Some (wraps 64 (total - free), total, "MemoryFree"%string)
  | Some used, None, Some total, _, _ => Some (used, total, "MemoryTotal"%string)
  | None, None, Some total, Some buffer, Some cache => Some (wraps 64 (total - wraps 64 (buffer + cache)), total, "MemoryTotal"%string)
  | _, _, _, _, _ => None
  end.
Definition add_memory (st : gmap string Z * gmap string MetricInfo) : gmap string Z * gmap string MetricInfo :=
  let '(big, found) := st in
  match big !! "MemoryUtilization"%string, memory_of big with
  | None, Some (used, total, name) =>
      if 0 <? total then (<["MemoryUtilization"%string := percent32 used total]> big, <["MemoryUtilization"%string := info_of found name]> found) else st
  | _, _ => st
  end.
Definition TrimPrefix (s p : string) : string := if HasPrefix s p then drop_string (String.length p) s else s.
Definition profile_message (conf : device_conf) (str : gmap string string) : gmap string string :=
  if String.eqb (dc_Provider conf) ProviderDefault then <["profile_message"%string := DefaultProfileMessage]> str else str.
Definition device_flow (conf : device_conf) (stamp : Z) (str : gmap string string) (big : gmap string Z) (found : gmap string MetricInfo) : JCHF :=
  NewJCHF <| CustomStr := Some str |> <| CustomInt := Some ∅ |> <| CustomBigInt := Some big |> <| EventType := "KSnmpDeviceMetric"%string |>
    <| Provider := dc_Provider conf |> <| DeviceName := dc_DeviceName conf |> <| SrcAddr := dc_DeviceIP conf |> <| Timestamp := stamp |> <| CustomMetrics := Some found |>.
Definition row_str (conf : device_conf) (idx : string) (row : deviceMetricRow) : gmap string string :=
  profile_message conf (<[FormatsUtil.IndexVar := TrimPrefix idx "."]> (<["Error"%string := r_Error row]> (customStr row))).
(** The rows with their numbers, and the metrics after all of them. *)
Fixpoint finish_rows (rows : list (string * deviceMetricRow)) (found : gmap string MetricInfo) : list (string * deviceMetricRow * gmap string Z) * gmap string MetricInfo :=
  match rows with
  | [] => ([], found)
  | (idx, row) :: rows =>
      let '(big, found) := add_memory (add_cpu (customBigInt row, found)) in
      let '(l, found) := finish_rows rows found in
      ((idx, row, big) :: l, found)
  end.

(** ** [pollFromConfig] *)
Definition pollFromConfig (env : device_env) (dm : DeviceMetrics) (reCache : gmap string Regexp) : res (DeviceMetrics * gmap string Regexp * list JCHF) :=
  let ws := walk_oids env dm in
  let '(uptime, rows) := walk_uptime env (ws_rows ws) in
  let '(mib, _, profile) := GetMibAndOid (dm_profile dm) in
  let found := {["Uptime"%string := mkMetricInfo sysUpTime mib "" (dm_profileName dm) "" "" "" 0 None]} in
  st ← add_results (dm_profileName dm) (ws_results ws) (ws_results ws) (mkResults rows found reCache);
  let '(l, found) := finish_rows (de_rows env (rs_rows st)) (rs_found st) in
  let dm := mkDM (dm_conf dm) (dm_tags dm) profile (dm_profileName dm) (ws_oids ws) (ws_seen ws) (ws_missing ws) (m_Fail dm) (ws_errors ws) in
  Ok (dm, rs_cache st,
      ((λ '(idx, row, big), device_flow (dm_conf dm) (de_stamp env idx) (row_str (dm_conf dm) idx row) big found) <$> l) ++
      [device_flow (dm_conf dm) (de_stamp env "Uptime") (profile_message (dm_conf dm) ∅) {["Uptime"%string := uptime]} found]).

(** ** Status and pings *)
Definition SNMP_STATUS_MAP : list (Z * string) :=
  [(1, "GOOD"); (3, "BAD: No data"); (4, "BAD: Device Error"); (5, "BAD: Interface Error"); (6, "BAD: Poll Timeout");
   (7, "BAD: Init Metadata"); (8, "BAD: Init Metrics"); (9, "BAD: Metrics Poll")]%string.
Definition status_text (health : Z) : string := default "" (list_to_map (M := gmap Z string) SNMP_STATUS_MAP !! health).
Definition GetStatusFlows (stamp : Z) (dm : DeviceMetrics) : list JCHF :=
  let '(mib, oid, _) := GetMibAndOid (dm_profile dm) in
  let info := mkMetricInfo oid mib "" (dm_profileName dm) "" "" "" 0 None in
  let str := profile_message (dm_conf dm) (dm_tags dm) in
  let reasonVal := status_text (m_Fail dm) in
  let str := match Split reasonVal ": " with
             | [a; b] => <[str_name "PollingHealthReason" := b]> (<[str_name "PollingHealth" := a]> str)
             | _ => <[str_name "PollingHealth" := reasonVal]> str
             end in
  let good := if m_Fail dm =? SNMP_GOOD then 1 else 0 in
  let big : gmap string Z := {["PollingHealth" := m_Fail dm; "PollingStatus" := good]}%string in
  [device_flow (dm_conf dm) stamp str big {["PollingHealth" := info; "PollingStatus" := info]}%string].

(** What the probes of a ping found; times are in nanoseconds. *)
Record Statistics := mkStats { MinRtt : Z; MaxRtt : Z; AvgRtt : Z; StdDevRtt : Z; PacketsSent : Z; PacketsRecv : Z }.
Definition MaxInt64 : Z := 2 ^ 63 - 1.
(** [statistics] (ping.go), with the mean and the deviation of a library. *)
Definition statistics (MeanStdDev : list Z → spec_float * spec_float) (count sent lost : Z) (rtt : list Z) : Statistics :=
  let '(mean, stdev) := MeanStdDev rtt in
  mkStats (foldl Z.min MaxInt64 rtt) (foldl Z.max 0 rtt) (int64_of_float mean) (int64_of_float stdev) sent (wraps 64 (count - lost)).

Definition Microseconds (d : Z) : Z := Z.quot d 1000.
Definition float64_of (z : Z) : spec_float := binary_normalize 53 1024 z 0 false.
Definition loss (s : Statistics) : spec_float :=
  SFmul 53 1024 (SFdiv 53 1024 (float64_of (wraps 64 (PacketsSent s - PacketsRecv s))) (float64_of (PacketsSent s))) (float64_of 100).
Definition near_total (percnt : spec_float) : bool := SFleb (SFabs (SFsub 53 1024 percnt (float64_of 99))) (float64_of 1).
Definition ping_info (mib oid format : string) : MetricInfo := mkMetricInfo oid mib "" "ping" "" format "ping" 0 None.
(** The flow and whether every packet was lost; nothing when no packet was sent, or more came
    back than went. *)
Definition ping_flow (stamp : Z) (dm : DeviceMetrics) (s : Statistics) : option JCHF * bool :=
  let '(mib, oid, _) := GetMibAndOid (dm_profile dm) in
  if (0 <? PacketsSent s) && (PacketsRecv s <=? PacketsSent s) then
    let percnt := loss s in
    let positive := SFleb (S754_zero false) percnt in
    let rtt d := if positive && near_total percnt then 0 else Microseconds d in
    let big := {["MinRttMs" := rtt (MinRtt s); "MaxRttMs" := rtt (MaxRtt s); "AvgRttMs" := rtt (AvgRtt s); "StdDevRtt" := rtt (StdDevRtt s);
                 "PacketsSent" := PacketsSent s; "PacketsRecv" := PacketsRecv s]}%string in
    let ms := ping_info mib oid "float_ms" in
    let info := {["MinRttMs" := ms; "MaxRttMs" := ms; "AvgRttMs" := ms; "StdDevRtt" := ms;
                  "PacketsSent" := ping_info mib oid ""; "PacketsRecv" := ping_info mib oid ""]}%string in
    let big : gmap string Z := if positive then <["PacketLossPct"%string := int64_of_float (SFmul 53 1024 percnt (float64_of 1000))]> big else big in
    let info : gmap string MetricInfo := if positive then <["PacketLossPct"%string := ms]> info else info in
    (Some (device_flow (dm_conf dm) stamp (dm_tags dm) big info), SFeqb percnt (float64_of 100))
  else (None, false).
(** A ping: [None] without a pinger, the text of an error, or what was found. *)
Definition GetPingStats (stamp : Z) (dm : DeviceMetrics) (ping : option (string + Statistics)) : option JCHF * bool * option string :=
  match ping with
  | None => (None, false, None)
  | Some (inl e) => (None, false, if Contains e "use of closed network connection" then None else Some e)
  | Some (inr s) => let '(flow, total) := ping_flow stamp dm s in (flow, total, None)
  end.

(** ** The loop of pings (poll.go)

    Every tick starts a goroutine that asks for a ping and may take up fast polling; a fast
    session ends with a ping that is not lost or with its time. [pending] are the goroutines that
    wait for an answer, [fast] the sessions that run. *)
Record ping_state := mkPing { seenGoodPacketLoss : bool; runningFast : bool; pending : nat; fast : nat }.
Definition ping_start : ping_state := mkPing true false 0 0.
(** An answer: an error, or whether every packet was lost. *)
Definition ping_answer (r : option JCHF * bool * option string) : option bool := match r with (_, _, Some _) => None | (_, total, None) => Some total end.
Inductive ping_event := Tick | Answer (r : option bool) | FastAnswer (r : option bool) | FastDone.
Definition fast_end (s : ping_state) : ping_state := mkPing false false (pending s) (pred (fast s)).
Definition ping_step (FastPoll : bool) (s : ping_state) (e : ping_event) : option ping_state :=
  match e with
  | Tick => Some (if runningFast s then s else mkPing (seenGoodPacketLoss s) (runningFast s) (S (pending s)) (fast s))
  | Answer r =>
      match pending s with
      | O => None
      | S n =>
          match r with
          | None => Some (mkPing (seenGoodPacketLoss s) (runningFast s) n (fast s))
          | Some isTotalLoss =>
              let seen := negb isTotalLoss || seenGoodPacketLoss s in
              if FastPoll && isTotalLoss && seen && negb (runningFast s) then Some (mkPing seen true n (S (fast s)))
              else Some (mkPing seen (runningFast s) n (fast s))
          end
      end
  | FastAnswer r => if (0 <? fast s)%nat then Some (match r with Some false => fast_end s | _ => s end) else None
  | FastDone => if (0 <? fast s)%nat then Some (fast_end s) else None
  end.
Fixpoint ping_run (FastPoll : bool) (es : list ping_event) (s : ping_state) : option ping_state :=
  match es with [] => Some s | e :: es => s ← ping_step FastPoll s e; ping_run FastPoll es s end.

(** ** Laws *)

(** *** Rows *)
(** A result that counts for the row of an index. *)
Definition counts_for (all : list wrapper) (idx : string) (w : wrapper) : Prop :=
  is_nil (pdu_Value (w_variable w)) = false ∧ index_of w = Ok idx ∧ checkCondition w idx all = Ok true.
#[local] Instance res_eq_dec {A} `{EqDecision A} (r : res A) (x : A) : Decision (r = Ok x).
Proof. destruct r as [y|e|e|]; [destruct (decide (y = x)) as [->|Hn]; [by left|right; by intros [= ->]]|by right..]. Defined.
#[local] Instance counts_for_dec all idx w : Decision (counts_for all idx w).
Proof. unfold counts_for. apply _. Defined.
(** The row after a result, whatever expressions were compiled before. *)
Definition row_result (row : deviceMetricRow) (w : wrapper) : deviceMetricRow :=
  match set_result w row ∅ with Ok (row, _, _) => row | _ => row end.
Definition index_row (all results : list wrapper) (idx : string) (row : option deviceMetricRow) : option deviceMetricRow :=
  match filter (counts_for all idx) results with
  | [] => row
  | mine => Some (foldl row_result (default empty_row row) mine)
  end.

Lemma set_result_cache w row c row' names c' : coherent c → set_result w row c = Ok (row', names, c') → row_result row w = row' ∧ coherent c'.
Proof.
  intros Hc. unfold row_result, set_result.
  assert (∀ v conv, (let '(x, c1) := GetFromConv v conv c in Ok (use_conversion (w_mib w) (GetName (Some (w_mib w))) x row, c1)) = Ok (row', names, c') →
    match (let '(x, c1) := GetFromConv v conv ∅ in Ok (use_conversion (w_mib w) (GetName (Some (w_mib w))) x row, c1)) with Ok (r, _, _) => r | _ => row end = row' ∧ coherent c') as Hconv.
  { intros v conv. destruct (GetFromConv_cache v conv c Hc) as [E1 E2]. destruct (GetFromConv v conv c) as [x c1], (GetFromConv v conv ∅) as [x0 c0]. cbn [fst snd] in *. subst x0.
    destruct (use_conversion _ _ x row) as [r n]. by intros [= <- <- <-]. }
  destruct (pdu_Type (w_variable w)); try (by intros [= <- <- <-]);
    (destruct (pdu_Value (w_variable w)); try done; destruct (String.eqb (mb_Conversion (w_mib w)) ""); [by intros [= <- <- <-]|apply Hconv]).
Qed.

Lemma foldl_insert_dom {A} (l : list string) (x : A) (m : gmap string A) k : is_Some (m !! k) → is_Some (foldl (λ m k, <[k := x]> m) m l !! k).
Proof.
  revert m. induction l as [|k' l IH]; intros m Hk; [done|]. cbn [foldl]. apply IH. destruct (decide (k' = k)) as [<-|Hn]; [rewrite lookup_insert_eq; eauto|by rewrite lookup_insert_ne].
Qed.

Lemma add_results_rows p all results : ∀ st st', coherent (rs_cache st) → add_results p all results st = Ok st' →
  coherent (rs_cache st') ∧ (∀ idx, rs_rows st' !! idx = index_row all results idx (rs_rows st !! idx)) ∧
  (∀ k, is_Some (rs_found st !! k) → is_Some (rs_found st' !! k)) ∧
  ∀ idx w, w ∈ results → counts_for all idx w → is_Some (rs_found st' !! GetName (Some (w_mib w))).
Proof.
  induction results as [|w results IH]; intros st st' Hc; cbn [add_results].
  - intros [= <-]. split; [done|]. split; [done|]. split; [done|]. intros idx w Hw. by apply elem_of_nil in Hw.
  - destruct (add_result p all w st) as [st1|e|e|] eqn:E; cbn [mbind res_bind]; [|done..]. intros Hr. unfold add_result in E.
    assert (∀ (Hskip : ∀ idx, ¬ counts_for all idx w), st1 = st → coherent (rs_cache st') ∧ (∀ idx, rs_rows st' !! idx = index_row all (w :: results) idx (rs_rows st !! idx)) ∧
      (∀ k, is_Some (rs_found st !! k) → is_Some (rs_found st' !! k)) ∧ ∀ idx x, x ∈ w :: results → counts_for all idx x → is_Some (rs_found st' !! GetName (Some (w_mib x)))) as Hkeep.
    { intros Hskip ->. destruct (IH _ _ Hc Hr) as (H1 & H2 & H3 & H4). split; [done|]. split; [|split; [done|]].
      - intros idx. rewrite H2. unfold index_row. by rewrite filter_cons_False.
      - intros idx x [->|Hx]%elem_of_cons Hx'; [by destruct (Hskip idx)|by eapply H4]. }
    destruct (is_nil (pdu_Value (w_variable w))) eqn:En; [apply Hkeep; [intros idx [Hn _]; congruence|by injection E]|].
    destruct (index_of w) as [idx|e|e|] eqn:Ei; cbn [mbind res_bind] in E; [|done..].
    destruct (checkCondition w idx all) as [keep|e|e|] eqn:Ek; cbn [mbind res_bind] in E; [|done..].
    destruct keep; [|apply Hkeep; [intros i (_ & Hi & Hk); rewrite Ei in Hi; injection Hi as <-; congruence|by injection E]].
    destruct (set_result w (default empty_row (rs_rows st !! idx)) (rs_cache st)) as [[[row names] c1]|e|e|] eqn:Es; cbn [mbind res_bind] in E; [|done..].
    injection E as <-. destruct (set_result_cache _ _ _ _ _ _ Hc Es) as [Hrow Hc1].
    destruct (IH _ _ (Hc1 : coherent (rs_cache (mkResults _ _ c1))) Hr) as (H1 & H2 & H3 & H4). cbn [rs_found rs_rows rs_cache] in *.
    assert (counts_for all idx w) as Hw by done. split; [done|]. split; [|split].
    + intros i. rewrite H2. unfold index_row. destruct (decide (i = idx)) as [->|Hne].
      * rewrite filter_cons_True by done. cbn [foldl]. rewrite Hrow, lookup_insert_eq. by destruct (filter _ results).
      * rewrite filter_cons_False by (intros (_ & Hi & _); congruence). by rewrite lookup_insert_ne.
    + intros k Hk. apply H3, foldl_insert_dom. destruct (decide (GetName (Some (w_mib w)) = k)) as [<-|Hn]; [rewrite lookup_insert_eq; eauto|by rewrite lookup_insert_ne].
    + intros i x [->|Hx]%elem_of_cons Hx'; [|by eapply H4]. apply H3, foldl_insert_dom. rewrite lookup_insert_eq. eauto.
Qed.

(** *** Flows *)
Definition computed_names : list string := ["CPU"; "MemoryUtilization"]%string.
Lemma finish_row_at big found : let st := add_memory (add_cpu (big, found)) in
  (∀ k, k ∉ computed_names → st.1 !! k = big !! k) ∧ ∀ k, is_Some (found !! k) → is_Some (st.2 !! k).
Proof.
  assert (∀ (m : gmap string MetricInfo) x v k, is_Some (m !! k) → is_Some (<[x := v]> m !! k)) as Hins.
  { intros m x v k Hk. destruct (decide (x = k)) as [->|Hn]; [rewrite lookup_insert_eq; eauto|by rewrite lookup_insert_ne]. }
  assert (∀ (m : gmap string Z) x v k, x ∈ computed_names → k ∉ computed_names → <[x := v]> m !! k = m !! k) as Hne.
  { intros m x v k Hx Hk. apply lookup_insert_ne. by intros ->. }
  assert (∀ st : gmap string Z * gmap string MetricInfo, (∀ k, k ∉ computed_names → (add_cpu st).1 !! k = st.1 !! k) ∧ ∀ k, is_Some (st.2 !! k) → is_Some ((add_cpu st).2 !! k)) as Hcpu.
  { intros [b f]. unfold add_cpu. destruct (b !! _); [|done]. destruct (_ <=? 100); [|done]. cbn [fst snd]. split; [|auto]. intros k Hk. apply Hne; [left|done]. }
  assert (∀ st : gmap string Z * gmap string MetricInfo, (∀ k, k ∉ computed_names → (add_memory st).1 !! k = st.1 !! k) ∧ ∀ k, is_Some (st.2 !! k) → is_Some ((add_memory st).2 !! k)) as Hmem.
  { intros [b f]. unfold add_memory. destruct (b !! _); [done|]. destruct (memory_of b) as [[[u t] n]|]; [|done]. destruct (0 <? t); [|done]. cbn [fst snd].
    split; [|auto]. intros k Hk. apply Hne; [right; left|done]. }
  cbn zeta. destruct (Hcpu (big, found)) as [C1 C2], (Hmem (add_cpu (big, found))) as [M1 M2]. split.
  - intros k Hk. by rewrite M1, C1.
  - intros k Hk. by apply M2, C2.
Qed.

Lemma finish_rows_at rows : ∀ found, let '(l, found') := finish_rows rows found in
  l.*1 = rows ∧ (∀ idx row big, (idx, row, big) ∈ l → ∀ k, k ∉ computed_names → big !! k = customBigInt row !! k) ∧ ∀ k, is_Some (found !! k) → is_Some (found' !! k).
Proof.
  induction rows as [|[idx row] rows IH]; intros found; cbn [finish_rows].
  - split; [done|]. split; [|done]. intros ? ? ? Hin. by apply elem_of_nil in Hin.
  - pose proof (finish_row_at (customBigInt row) found) as [H1 H2]. destruct (add_memory (add_cpu (customBigInt row, found))) as [big found1]. cbn [fst snd] in *.
    specialize (IH found1). destruct (finish_rows rows found1) as [l found2]. destruct IH as (H3 & H4 & H5). split; [by cbn; rewrite H3|]. split; [|auto].
    intros i r b [ [= -> -> ->] | Hin ]%elem_of_cons; [done|by eapply H4].
Qed.

(** The rows that failed walks leave. *)
Definition failed_rows (env : device_env) (dm : DeviceMetrics) : gmap string deviceMetricRow := (walk_uptime env (ws_rows (walk_oids env dm))).2.

(** A poll gives a flow for each index that a result counts for, with the texts and numbers
    that the results of that index leave one after the other, those of other indices and the
    expressions compiled before being of no account; only the load and the use of memory may be
    computed instead; and every flow knows the metric of every result. *)
Theorem poll_rows env dm c dm' c' flows idx : coherent c → pollFromConfig env dm c = Ok (dm', c', flows) →
  let results := ws_results (walk_oids env dm) in
  let mine := filter (counts_for results idx) results in
  mine ≠ [] →
  let row := foldl row_result (default empty_row (failed_rows env dm !! idx)) mine in
  (∃ flow big, flow ∈ flows ∧ CustomStr flow = Some (row_str (dm_conf dm) idx row) ∧ CustomBigInt flow = Some big ∧
     ∀ k, k ∉ computed_names → big !! k = customBigInt row !! k) ∧
  ∀ w flow, w ∈ mine → flow ∈ flows → is_Some (map_range (CustomMetrics flow) !! GetName (Some (w_mib w))).
Proof.
  intros Hc Hp results mine Hm row. unfold pollFromConfig in Hp. unfold failed_rows in row. destruct (walk_uptime env _) as [uptime rows0]. cbn [snd] in row.
  destruct (GetMibAndOid (dm_profile dm)) as [[mib oid] profile]. fold results in Hp.
  match type of Hp with mbind _ ?a = _ => destruct a as [st|e|e|] eqn:E end; cbn [mbind res_bind] in Hp; [|done..].
  destruct (add_results_rows _ _ _ _ _ (Hc : coherent (rs_cache (mkResults _ _ c))) E) as (_ & Hrows & _ & Hfound). cbn [rs_rows] in Hrows.
  pose proof (finish_rows_at (de_rows env (rs_rows st)) (rs_found st)) as Hf. destruct (finish_rows _ _) as [l found] eqn:Ef. destruct Hf as (Hl & Hbig & Hmore).
  injection Hp as <- <- <-. cbn [dm_conf].
  assert (rs_rows st !! idx = Some row) as Hrow.
  { rewrite Hrows. unfold index_row. fold mine. unfold row. by destruct mine. }
  apply elem_of_map_to_list in Hrow. rewrite <-(de_rows_perm env), <-Hl in Hrow. apply list_elem_of_fmap in Hrow as ([[i r] big] & Hi & Hin). cbn [fst] in Hi. injection Hi as <- <-.
  split.
  - eexists _, big. split; [apply elem_of_app; left; apply list_elem_of_fmap; by exists (idx, row, big)|]. split; [done|]. split; [done|]. by eapply Hbig.
  - intros w flow Hw Hflow. apply list_elem_of_filter in Hw as [Hw Hw']. specialize (Hfound _ _ Hw' Hw). apply Hmore in Hfound.
    apply elem_of_app in Hflow as [Hflow | ->%list_elem_of_singleton]; [|done]. by apply list_elem_of_fmap in Hflow as ([[? ?] ?] & -> & _).
Qed.
End device.

(** *** Pings *)
(** How many sessions start, and how many answers have a packet that came back. *)
Fixpoint sessions (FastPoll : bool) (es : list ping_event) (s : ping_state) : nat :=
  match es with
  | [] => 0
  | e :: es => match ping_step FastPoll s e with Some s' => (fast s' - fast s) + sessions FastPoll es s' | None => 0 end
  end.
Definition good_answer (e : ping_event) : bool := match e with Answer (Some false) => true | _ => false end.
Definition good_answers (es : list ping_event) : nat := length (filter (λ e, good_answer e = true) es).
Definition one_session (s : ping_state) : Prop := fast s = if runningFast s then 1%nat else 0%nat.
(** A session may start without a good answer. *)
Definition may_start (s : ping_state) : nat := if seenGoodPacketLoss s && negb (runningFast s) then 1 else 0.

Lemma ping_step_ok FastPoll s e s' : one_session s → ping_step FastPoll s e = Some s' →
  one_session s' ∧ (fast s' - fast s + may_start s' ≤ may_start s + good_answers [e])%nat.
Proof.
  unfold one_session, may_start, good_answers. destruct s as [seen run n f]. cbn [fast runningFast seenGoodPacketLoss pending]. intros ->.
  destruct e as [|r|r|]; cbn [ping_step runningFast seenGoodPacketLoss pending fast].
  - intros [= <-]. destruct run; cbn; split; (done || lia).
  - destruct n as [|n]; [done|]. destruct r as [[]|]; destruct FastPoll, seen, run; intros [= <-]; cbn; split; (done || lia).
  - destruct run; cbn; [|done]. destruct r as [[]|]; intros [= <-]; cbn; destruct seen; cbn; split; (done || lia).
  - destruct run; cbn; [|done]. intros [= <-]. cbn. destruct seen; cbn; split; (done || lia).
Qed.

(** At any time there is at most one fast session of pings, and just when [runningFast] says
    so; after the first, every session needs an answer in which some packet came back. *)
Theorem fast_sessions FastPoll es s : ping_run FastPoll es ping_start = Some s →
  one_session s ∧ (sessions FastPoll es ping_start ≤ 1 + good_answers es)%nat.
Proof.
  assert (∀ es s0, one_session s0 → ping_run FastPoll es s0 = Some s → one_session s ∧ (sessions FastPoll es s0 + may_start s ≤ may_start s0 + good_answers es)%nat) as Hrun.
  { intros es'. induction es' as [|e es' IH]; intros s0 H0; cbn [ping_run sessions].
    - intros [= <-]. split; [done|]. unfold good_answers. cbn. lia.
    - destruct (ping_step FastPoll s0 e) as [s1|] eqn:E; cbn [mbind option_bind]; [|done]. intros Hr.
      destruct (ping_step_ok _ _ _ _ H0 E) as [H1 Hle]. destruct (IH _ H1 Hr) as [Hs Hle']. split; [done|].
      assert (good_answers (e :: es') = good_answers [e] + good_answers es')%nat as ->; [|lia].
      unfold good_answers. rewrite (filter_app _ [e] es' : filter _ (e :: es') = _), length_app. done. }
  intros Hr. destruct (Hrun es ping_start eq_refl Hr) as [Hs Hle]. split; [done|]. unfold may_start in Hle. cbn in Hle. lia.
Qed.

(** ** Concrete inputs *)
Definition sd_mib (oid name tag conv : string) : Mib :=
  mkMib oid name 0 "" tag None None conv "HOST-MIB" "" 0 None 0 false None "" false None None None false "".
Definition sd_oids : list (string * Mib) :=
  [("1.3.6.1.4.1.9.1", sd_mib "1.3.6.1.4.1.9.1" "cpu" "CPUIdle" ""); ("1.3.6.1.4.1.9.2", sd_mib "1.3.6.1.4.1.9.2" "name" "" "")]%string.
Definition sd_conf : device_conf := mkConf "kentik-switch" "sw1" "10.0.0.1" "".
Definition sd_dm : DeviceMetrics := NewDeviceMetrics sd_conf ∅ sd_oids None.
Definition sd_walk (oid : string) : list SnmpPDU + error :=
  if String.eqb oid ".1.3.6.1.4.1.9.1" then inl [mkPDU ".1.3.6.1.4.1.9.1.7" Integer (VNum 64 true 30); mkPDU ".1.3.6.1.4.1.9.1.8" Integer (VNum 64 true 101)]
  else if String.eqb oid ".1.3.6.1.4.1.9.2" then inl [mkPDU ".1.3.6.1.4.1.9.2.7" OctetString (VBytes (String.list_byte_of_string "x1"))]
  else inr (Errorf "timeout" []).
Definition sd_env : device_env := {|
  de_now := λ _, 0; de_stamp := λ _, 5; de_device := mkAnswers (Some sd_walk) false sd_walk sd_walk (λ _, sd_walk) false (λ _, None); error_text := λ _, "timeout"%string;
  de_oids := map_to_list; de_rows := map_to_list; de_oids_perm := λ m, reflexivity _; de_rows_perm := λ m, reflexivity _ |}.
#[local] Existing Instance no_regexps.
Definition sd_poll : DeviceMetrics * gmap string Regexp * list JCHF :=
  match pollFromConfig sd_env sd_dm ∅ with Ok r => r | _ => (sd_dm, ∅, []) end.
Definition sd_flow (idx : string) : option JCHF :=
  head (filter (λ f, map_range (CustomStr f) !! "Index"%string = Some idx) sd_poll.2).

Lemma poll_rows_witness : length sd_poll.2 = 4%nat ∧
  (map_range ∘ CustomBigInt <$> sd_flow "7") = Some {["CPUIdle" := 30; "CPU" := 70; "name" := 0]}%string ∧
  ∃ flow big, flow ∈ sd_poll.2 ∧ CustomBigInt flow = Some big ∧ big !! "CPUIdle"%string = Some 30.
Proof.
  split; [vm_compute; reflexivity|]. split; [vm_compute; reflexivity|].
  assert (coherent ∅) as H0 by (intros k r E; by rewrite lookup_empty in E).
  assert (pollFromConfig sd_env sd_dm ∅ = Ok sd_poll) as E by (vm_compute; reflexivity).
  destruct sd_poll as [[dm' c'] flows] eqn:Ep.
  pose proof (poll_rows sd_env sd_dm ∅ dm' c' flows ".7" H0 E) as Hp. cbv zeta in Hp.
  destruct Hp as [(flow & big & Hin & _ & Hb & Hk) _].
  - intros Hf. apply (f_equal length) in Hf. vm_compute in Hf. discriminate.
  - exists flow, big. split; [exact Hin|]. split; [exact Hb|]. rewrite (Hk "CPUIdle"%string).
    + vm_compute. reflexivity.
    + apply (bool_decide_eq_true_1 ("CPUIdle"%string ∉ computed_names)). vm_compute. reflexivity.
Defined.

(** The metric of the load is entered from its own place, where there is none. *)
Example cpu_without_metric : (map_range ∘ CustomMetrics <$> sd_flow "7") ≫= (.!! "CPU"%string) = Some (FormatsUtil.name_only "").
Proof. vm_compute. reflexivity. Qed.

Definition sd_pings : list ping_event := [Tick; Tick; Answer (Some true); FastAnswer None; Answer (Some true); FastAnswer (Some false); Tick; Answer (Some true)].
Lemma fast_sessions_witness : ∃ s, ping_run true sd_pings ping_start = Some s ∧ sessions true sd_pings ping_start = 1%nat ∧ one_session s.
Proof.
  eexists. split; [reflexivity|]. split; [reflexivity|]. apply (fast_sessions true sd_pings _ eq_refl).
Defined.
(** A ping without statistics counts as one in which packets came back. *)
Example no_statistics_good : ping_answer (GetPingStats 0 sd_dm (Some (inr (mkStats 0 0 0 0 0 0)))) = Some false.
Proof. reflexivity. Qed.
