(* ===== verification/SnmpTrap.v ===== *)
(** Receiving SNMP traps (src/pkg/inputs/snmp/traps/traps.go): from a packet to a flow, or to
    nothing.

    The listener and the parameters of its library are left out. A resolver of names and the
    order of the range over the devices are parameters. *)
From S2P Require Import Prelude GoStrings GoNet Jchf.
From S2P Require Import MibProfile.
From S2P Require Import MibTraps.
From S2P Require Import SnmpCounters.
From S2P Require Import SnmpConv.
From S2P Require Import KtHelpers.
From S2P Require FormatsUtil.
Local Open Scope Z_scope.

Definition snmpTrapOID : string := ".1.3.6.1.6.3.1.1.4.1".
Definition snmpTrapOID_0 : string := ".1.3.6.1.6.3.1.1.4.1.0".
(** The last name is written with a ligature. *)
Definition v1TrapEnum : list string :=
  ["coldStart"; "warmStart"; "linkDown"; "linkUp"; "authenticationFailure"; "egpNeighborLoss"; "enterpriseSpeciﬁc"]%string.
Definition v1_name (generic : Z) : string := if 0 <=? generic then default "" (v1TrapEnum !! Z.to_nat generic) else "".

Inductive SnmpVersion := Version1 | Version2c | Version3.
#[export] Instance SnmpVersion_eq_dec : EqDecision SnmpVersion.
Proof. solve_decision. Defined.
Record SnmpPacket := mkPacket {
  Version : SnmpVersion; ContextEngineID : string; Variables : list SnmpPDU;
  GenericTrap : Z; SpecificTrap : Z; Enterprise : string; pk_Timestamp : Z }.

Record trap_device := mkTrapDevice { td_DeviceName : string; td_Provider : Provider_; td_EngineID : string; td_allUserTags : gmap string string; td_DeviceIP : string }.
Record SnmpTrapConfig := mkTrapConf { tc_Transport : string; tc_Community : string; tc_Version : string; TrapOnly : bool; DropUndefined : bool }.
Record SnmpTrap := mkSnmpTrap {
  st_conf : SnmpTrapConfig; mibdb : MibDB; resolver : option (string → string); deviceMap : gmap string trap_device; baseTags : gmap string string }.

(** *** [NewSnmpTrapListener] *)
Definition UserTagPrefix : string := "tags.".
Definition base_key (k : string) : string := if HasPrefix k UserTagPrefix then k else String.append UserTagPrefix k.
(** [order]: that of the range over the tags of the configuration, some of which may be the same
    with the prefix. *)
Definition base_tags (serviceName : string) (order : list (string * string)) : gmap string string :=
  foldl (λ m kv, <[base_key kv.1 := kv.2]> m)
    (if String.eqb serviceName "" then ∅ else {[String.append UserTagPrefix "container_service" := serviceName]}) order.
Definition trap_defaults (c : SnmpTrapConfig) : SnmpTrapConfig :=
  mkTrapConf (if String.eqb (tc_Transport c) "" then "udp" else tc_Transport c) (if String.eqb (tc_Community c) "" then "hello" else tc_Community c)
    (tc_Version c) (TrapOnly c) (DropUndefined c).
Definition trap_version (v : string) : option SnmpVersion :=
  if String.eqb v "v1" then Some Version1
  else if String.eqb v "v2c" || String.eqb v "" then Some Version2c
  else if String.eqb v "v3" then Some Version3 else None.
Definition NewSnmpTrapListener (c : SnmpTrapConfig) (db : MibDB) (resolv : option (string → string)) (devices : list trap_device) (serviceName : string)
    (order : list (string * string)) : res (SnmpTrap * SnmpVersion) :=
  match trap_version (tc_Version c) with
  | None => Err (Errorf "Invalid trap version: %s" [FStr (tc_Version c)])
  | Some v => Ok (mkSnmpTrap (trap_defaults c) db resolv (foldl (λ m d, <[td_DeviceIP d := d]> m) ∅ devices) (base_tags serviceName order), v)
  end.

(** *** Texts (util.go) *)
Fixpoint trim_zeros (bv : list byte) : list byte := match bv with b :: bv' => if b2z b =? 0 then trim_zeros bv' else bv | [] => [] end.
(** [bytes.Trim(value, "\x00")]. *)
Definition Trim_zeros (bv : list byte) : list byte := rev (trim_zeros (rev (trim_zeros bv))).
Definition MAX_SNMP_LEN : nat := 128.
Definition ReadOctetString (v : SnmpPDU) (truncate : bool) : res (option string) :=
  if bool_decide (pdu_Type v = OctetString) then
    match pdu_Value v with
    | VBytes bv => let bv := Trim_zeros bv in Ok (Some (String.string_of_list_byte (if truncate then take MAX_SNMP_LEN bv else bv)))
    | _ => Panic "interface conversion: interface {} is not []uint8"
    end
  else Ok None.

Section traps.
Context `{Gosnmp} `{Submatcher} (s : SnmpTrap).

(** ** The device *)
Definition engine_of (packet : SnmpPacket) : res string :=
  if bool_decide (Version packet = Version3) && negb (String.eqb (ContextEngineID packet) "") then
    c ← EngineID (String.list_byte_of_string (ContextEngineID packet)); Ok c.1.2
  else Ok EmptyString.
(** [devices]: the devices in the order of the range. *)
Definition device_of (addr engineID : string) (devices : list trap_device) : option trap_device :=
  match deviceMap s !! addr with
  | Some d => Some d
  | None => if String.eqb engineID "" then None else List.find (λ d, String.eqb (td_EngineID d) engineID) devices
  end.
Definition ProviderTrapUnknown : Provider_ := "kentik-trap-device".
Definition resolved_name (addr : string) : string :=
  match resolver s with Some f => if String.eqb (f addr) "" then addr else f addr | None => addr end.

(** The maps of the flow that are filled. *)
Record trap_maps := mkTrapMaps { tm_str : gmap string string; tm_int : gmap string Z; tm_big : gmap string Z }.
Definition put_str (k v : string) (t : trap_maps) : trap_maps := mkTrapMaps (<[k := v]> (tm_str t)) (tm_int t) (tm_big t).
Definition put_big (k : string) (v : Z) (t : trap_maps) : trap_maps := mkTrapMaps (tm_str t) (tm_int t) (<[k := v]> (tm_big t)).
Definition put_all_str (m : gmap string string) (t : trap_maps) : trap_maps := mkTrapMaps (m ∪ tm_str t) (tm_int t) (tm_big t).
Definition trap_start (dev : option trap_device) : trap_maps :=
  mkTrapMaps (match dev with Some d => td_allUserTags d | None => baseTags s end) ∅ ∅.

(** ** Which trap *)
Definition is_trap_oid (v : SnmpPDU) : bool := String.eqb (pdu_Name v) snmpTrapOID || String.eqb (pdu_Name v) snmpTrapOID_0.
Record trap_found := mkFound { tf_trap : option Trap; tf_found : bool }.
Definition find_trap (v : SnmpPDU) (st : trap_found * trap_maps) : res (trap_found * trap_maps) :=
  let '(tf, t) := st in
  if is_trap_oid v && bool_decide (pdu_Type v = ObjectIdentifier) then
    match pdu_Value v with
    | VString toid =>
        let trap := GetTrap (mibdb s) toid in
        let t := put_str "TrapOID" toid t in
        match trap with
        | Some tr =>
            let t := put_str "TrapName" (tr_Name tr) t in
            let idx := GetIndex toid (tr_Oid tr) in
            Ok (mkFound trap true, if String.eqb idx "" then t else put_str "Index" idx t)
        | None => Ok (mkFound None (tf_found tf), t)
        end
    | _ => Panic "interface conversion: interface {} is not string"
    end
  else Ok st.
Fixpoint find_traps (vs : list SnmpPDU) (st : trap_found * trap_maps) : res (trap_found * trap_maps) :=
  match vs with [] => Ok st | v :: vs => st ← find_trap v st; find_traps vs st end.

Definition v1_fields (packet : SnmpPacket) (t : trap_maps) : trap_maps :=
  if bool_decide (Version packet = Version1) then
    let generic := String.append (v1_name (GenericTrap packet)) (String.append " (" (String.append (Itoa (GenericTrap packet)) ")")) in
    mkTrapMaps (<["Enterprise"%string := Enterprise packet]> (<["GenericTrap"%string := generic]> (tm_str t)))
      (<["SpecificTrap"%string := wraps 32 (SpecificTrap packet)]> (tm_int t)) (<["Timestamp"%string := wraps 64 (pk_Timestamp packet)]> (tm_big t))
  else t.

(** ** Its variables *)
Definition dropping (trap : option Trap) : bool := DropUndefined (st_conf s) || DropUndefinedVars trap.
Definition variable_name (r : option Mib) (v : SnmpPDU) : string := match r with Some mib => GetName (Some mib) | None => pdu_Name v end.
Definition is_number (ty : Asn1BER) : bool :=
  match ty with Counter64 | Counter32 | Gauge32 | TimeTicks | Uinteger32 | Integer => true | _ => false end.
(** The low 64 bits of a number. *)
Definition Int64_of (x : Z) : Z := wraps 64 x.
Definition conversion_of (r : option Mib) : option string := mib ← r; if String.eqb (mb_Conversion mib) "" then None else Some (mb_Conversion mib).
Definition put_text (r : option Mib) (v : SnmpPDU) (t : trap_maps) (c : gmap string Regexp) : res (trap_maps * gmap string Regexp) :=
  value ← ReadOctetString v false;
  match value with
  | None => Ok (t, c)
  | Some value =>
      match conversion_of r with
      | Some conv =>
          let '((_, sval, mval), c) := GetFromConv (pdu_Value v) conv c in
          Ok (if (0 <? size (map_range mval))%nat then put_all_str (map_range mval) t else put_str (variable_name r v) sval t, c)
      | None => Ok (put_str (variable_name r v) (SanitizeUTF8 value) t, c)
      end
  end.
Definition put_oid (r : option Mib) (v : SnmpPDU) (t : trap_maps) (c : gmap string Regexp) : res (trap_maps * gmap string Regexp) :=
  match pdu_Value v with
  | VString value =>
      let '(value, c) := match conversion_of r with
                         | Some conv => let '((_, sval, _), c) := GetFromConv (pdu_Value v) conv c in (sval, c)
                         | None => (value, c)
                         end in
      Ok (put_str (variable_name r v) (SanitizeUTF8 value) t, c)
  | _ => Panic "interface conversion: interface {} is not string"
  end.
(** The object of a variable, unless it is the id of the trap or is dropped. *)
Definition trap_object (trap : option Trap) (v : SnmpPDU) : res (option (option Mib * gmap string string)) :=
  if is_trap_oid v then Ok None
  else
    found ← GetForKey (mibdb s) (pdu_Name v);
    match found with
    | Some (mib, vars) => Ok (Some (Some mib, map_range vars))
    | None => Ok (if dropping trap then None else Some (None, ∅))
    end.
Definition add_trap_variable (trap : option Trap) (v : SnmpPDU) (t : trap_maps) (c : gmap string Regexp) : res (trap_maps * gmap string Regexp) :=
  found ← trap_object trap v;
  match found with
  | None => Ok (t, c)
  | Some (r, vars) =>
      let t := put_all_str vars t in
      if bool_decide (pdu_Type v = OctetString) then put_text r v t c
      else if is_number (pdu_Type v) then Ok (put_big (variable_name r v) (Int64_of (ToBigInt (pdu_Value v))) t, c)
      else if bool_decide (pdu_Type v = ObjectIdentifier) then put_oid r v t c
      else Ok (t, c)
  end.
Fixpoint add_variables (trap : option Trap) (vs : list SnmpPDU) (t : trap_maps) (c : gmap string Regexp) : res (trap_maps * gmap string Regexp) :=
  match vs with [] => Ok (t, c) | v :: vs => '(t, c) ← add_trap_variable trap v t c; add_variables trap vs t c end.

(** ** [handle] *)
Definition trap_flow (addr : string) (dev : option trap_device) (t : trap_maps) : JCHF :=
  NewJCHF <| CustomStr := Some (tm_str t) |> <| CustomInt := Some (tm_int t) |> <| CustomBigInt := Some (tm_big t) |> <| EventType := "KSnmpTrap"%string |>
    <| SrcAddr := addr |> <| DeviceName := match dev with Some d => td_DeviceName d | None => resolved_name addr end |>
    <| Provider := match dev with Some d => if TrapOnly (st_conf s) then ProviderTrapUnknown else td_Provider d | None => ProviderTrapUnknown end |>.
Definition handle (devices : list trap_device) (addr : string) (packet : SnmpPacket) (c : gmap string Regexp) : res (option JCHF * gmap string Regexp) :=
  engineID ← engine_of packet;
  let dev := device_of addr engineID devices in
  '(tf, t) ← find_traps (Variables packet) (mkFound None false, trap_start dev);
  '(t, c) ← add_variables (tf_trap tf) (Variables packet) (v1_fields packet t) c;
  Ok (if dropping (tf_trap tf) && negb (tf_found tf) then None else Some (trap_flow addr dev t), c).

(** ** Laws *)
(** The trap that a variable names. *)
Definition named_trap (v : SnmpPDU) : option string :=
  if is_trap_oid v && bool_decide (pdu_Type v = ObjectIdentifier) then match pdu_Value v with VString toid => Some toid | _ => None end else None.
Definition known_trap (v : SnmpPDU) : bool := bool_decide (is_Some (named_trap v ≫= GetTrap (mibdb s))).
(** The last one decides. *)
Definition trap_of (vs : list SnmpPDU) : option Trap := last (omap named_trap vs) ≫= GetTrap (mibdb s).

Lemma find_traps_spec vs : ∀ tf t tf' t', find_traps vs (tf, t) = Ok (tf', t') →
  tf_trap tf' = match last (omap named_trap vs) with Some toid => GetTrap (mibdb s) toid | None => tf_trap tf end ∧
  tf_found tf' = tf_found tf || existsb known_trap vs ∧ tm_big t' = tm_big t.
Proof.
  induction vs as [|v vs IH]; intros tf t tf' t'; cbn [find_traps].
  - intros [= <- <-]. split; [done|]. split; [by rewrite orb_false_r|done].
  - destruct (find_trap v (tf, t)) as [[tf1 t1]|e|e|] eqn:E; cbn [mbind res_bind]; [|done..]. intros Hr. destruct (IH _ _ _ _ Hr) as (-> & -> & ->).
    unfold find_trap in E. cbn [omap list_omap existsb].
    assert (known_trap v = bool_decide (is_Some (named_trap v ≫= GetTrap (mibdb s)))) as -> by done. unfold named_trap.
    destruct (is_trap_oid v && bool_decide (pdu_Type v = ObjectIdentifier)); [|by injection E as <- <-].
    destruct (pdu_Value v) as [| |toid| |]; try done. rewrite last_cons. cbn [mbind option_bind].
    destruct (GetTrap (mibdb s) toid) as [tr|] eqn:Et; injection E as <- <-; cbn [tf_trap tf_found].
    + split; [by destruct (last _)|]. split; [by rewrite orb_true_r|by destruct (String.eqb _ _)].
    + split; [by destruct (last _)|]. done.
Qed.

(** What a variable says under a name, when it is a number. *)
Definition number_of (trap : option Trap) (k : string) (v : SnmpPDU) : option Z :=
  match trap_object trap v with
  | Ok (Some (r, _)) =>
      if negb (bool_decide (pdu_Type v = OctetString)) && is_number (pdu_Type v) && String.eqb (variable_name r v) k then Some (Int64_of (ToBigInt (pdu_Value v))) else None
  | _ => None
  end.

Lemma put_text_big r v t c t' c' : put_text r v t c = Ok (t', c') → tm_big t' = tm_big t.
Proof.
  unfold put_text. destruct (ReadOctetString v false) as [[value|]|e|e|]; cbn [mbind res_bind]; [|by intros [= <- <-]|done..].
  destruct (conversion_of r); [|by intros [= <- <-]]. destruct (GetFromConv _ _ _) as [[[i sv] mv] c1]. intros [= <- <-]. by case_match.
Qed.
Lemma put_oid_big r v t c t' c' : put_oid r v t c = Ok (t', c') → tm_big t' = tm_big t.
Proof.
  unfold put_oid. destruct (pdu_Value v); try done. destruct (conversion_of r); [|by intros [= <- <-]].
  destruct (GetFromConv _ _ _) as [[[i sv] mv] c1]. by intros [= <- <-].
Qed.

Lemma add_trap_variable_big trap v t c t' c' k : add_trap_variable trap v t c = Ok (t', c') →
  tm_big t' !! k = match number_of trap k v with Some z => Some z | None => tm_big t !! k end.
Proof.
  unfold add_trap_variable, number_of. destruct (trap_object trap v) as [[[r vars]|]|e|e|]; cbn [mbind res_bind]; [|by intros [= <- <-]|done..].
  case_bool_decide as Ho; cbn [negb andb]; [intros Hp; by rewrite (put_text_big _ _ _ _ _ _ Hp)|].
  destruct (is_number (pdu_Type v)); cbn [andb].
  - intros [= <- <-]. cbn [put_big tm_big put_all_str]. destruct (String.eqb_spec (variable_name r v) k) as [<-|Hn]; [by rewrite lookup_insert_eq|by rewrite lookup_insert_ne].
  - case_bool_decide; [intros Hp; by rewrite (put_oid_big _ _ _ _ _ _ Hp)|by intros [= <- <-]].
Qed.

Lemma add_variables_big trap vs : ∀ t c t' c' k, add_variables trap vs t c = Ok (t', c') →
  tm_big t' !! k = match last (omap (number_of trap k) vs) with Some z => Some z | None => tm_big t !! k end.
Proof.
  induction vs as [|v vs IH]; intros t c t' c' k; cbn [add_variables]; [by intros [= <- <-]|].
  destruct (add_trap_variable trap v t c) as [[t1 c1]|e|e|] eqn:E; cbn [mbind res_bind]; [|done..]. intros Hr. rewrite (IH _ _ _ _ k Hr).
  rewrite (add_trap_variable_big _ _ _ _ _ _ k E). cbn [omap list_omap]. destruct (number_of trap k v); [|done]. rewrite last_cons. by destruct (last _).
Qed.

(** What a packet says of a number before its variables do. *)
Definition v1_number (packet : SnmpPacket) (k : string) : option Z :=
  if bool_decide (Version packet = Version1) && String.eqb "Timestamp" k then Some (wraps 64 (pk_Timestamp packet)) else None.

(** A trap is passed on unless undefined ones are dropped, by the configuration or by the trap,
    and no variable of it names a known trap. What is passed on has under every name the number
    that the last variable with that name says, be it known by that name or sent under it, and of
    the variables that are not known none when they are dropped. *)
Theorem handle_numbers devices addr packet c out c' : handle devices addr packet c = Ok (out, c') →
  let trap := trap_of (Variables packet) in
  match out with
  | None => dropping trap = true ∧ existsb known_trap (Variables packet) = false
  | Some flow =>
      (dropping trap = true → existsb known_trap (Variables packet) = true) ∧
      ∀ k, map_range (CustomBigInt flow) !! k =
        match last (omap (number_of trap k) (Variables packet)) with Some z => Some z | None => v1_number packet k end
  end.
Proof.
  unfold handle. destruct (engine_of packet) as [engineID|e|e|]; cbn [mbind res_bind]; [|done..].
  destruct (find_traps (Variables packet) _) as [[tf t]|e|e|] eqn:Ef; cbn [mbind res_bind]; [|done..].
  destruct (find_traps_spec _ _ _ _ _ Ef) as (Ht & Hf & Hb). cbn [tf_trap tf_found trap_start tm_big orb] in *.
  destruct (add_variables (tf_trap tf) (Variables packet) (v1_fields packet t) c) as [[t1 c1]|e|e|] eqn:Ev; cbn [mbind res_bind]; [|done..].
  assert (tf_trap tf = trap_of (Variables packet)) as E by (rewrite Ht; unfold trap_of; by destruct (last _)). rewrite E in *. clear Ht.
  pose proof (λ k, add_variables_big _ _ _ _ _ _ k Ev) as Hnum. intros [= <- <-]. cbv zeta.
  destruct (dropping (trap_of (Variables packet)) && negb (tf_found tf)) eqn:Ed.
  - apply andb_true_iff in Ed as [Ed1 Ed2]. split; [done|]. rewrite <-Hf. by destruct (tf_found tf).
  - split; [intros Hd; rewrite Hd in Ed; rewrite <-Hf; by destruct (tf_found tf)|]. intros k.
    etransitivity; [exact (Hnum k)|]. clear Hnum. destruct (last _); [done|].
    unfold v1_fields, v1_number. case_bool_decide; cbn [andb tm_big]; rewrite Hb; [|by rewrite lookup_empty].
    destruct (String.eqb_spec "Timestamp" k) as [<-|Hn]; [by rewrite lookup_insert_eq|by rewrite lookup_insert_ne, lookup_empty].
Qed.
End traps.

(** ** Concrete inputs *)
Definition tp_mib (name conv : string) : Mib :=
  mkMib "" name 0 "" "" None None conv "" "" 0 None 0 false None "" false None None None false "".
Definition tp_db : MibDB := mkMibDB
  {[".1.3.6.1.2.1.2.2.1.1" := tp_mib "ifIndex" ""; ".1.3.6.1.4.1.5.2" := tp_mib "agent" "hextoip"]}%string
  {[".1.3.6.1.6.3.1.1.5.3" := mkTrap ".1.3.6.1.6.3.1.1.5.3" "linkDown" true [] None]}%string.
Definition tp_trap : SnmpTrap := mkSnmpTrap (mkTrapConf "udp" "hello" "v2c" false false) tp_db None ∅ ∅.
Definition tp_id (oid : string) : SnmpPDU := mkPDU snmpTrapOID_0 ObjectIdentifier (VString oid).
Definition tp_index (z : Z) : SnmpPDU := mkPDU ".1.3.6.1.2.1.2.2.1.1" Integer (VNum 64 true z).
Definition tp_packet (vs : list SnmpPDU) : SnmpPacket := mkPacket Version2c "" vs 0 0 "" 0.
Definition tp_vars : list SnmpPDU := [tp_id ".1.3.6.1.6.3.1.1.5.3"; tp_index 3; mkPDU ".1.3.9" Integer (VNum 64 true 9)].
Definition tp_handle (vs : list SnmpPDU) : res (option JCHF * gmap string Regexp) :=
  handle (H := ex_gosnmp) (H0 := no_regexps) tp_trap [] "10.0.0.1" (tp_packet vs) ∅.

Lemma handle_numbers_witness : ∃ flow, tp_handle tp_vars = Ok (Some flow, ∅) ∧
  map_range (CustomStr flow) !! "TrapName"%string = Some "linkDown"%string ∧ map_range (CustomBigInt flow) !! "ifIndex"%string = Some 3.
Proof.
  eexists. split; [vm_compute; reflexivity|]. split; [vm_compute; reflexivity|].
  match goal with |- map_range (CustomBigInt ?f) !! _ = _ => pose proof (handle_numbers (H := ex_gosnmp) (H0 := no_regexps) tp_trap [] "10.0.0.1" (tp_packet tp_vars) ∅ (Some f) ∅) as Hh end.
  cbv zeta in Hh. rewrite (proj2 (Hh ltac:(vm_compute; reflexivity))). vm_compute. reflexivity.
Defined.

(** The trap drops what is not known: the last variable is not passed on. *)
Example unknown_dropped : (match tp_handle tp_vars with Ok (Some f, _) => map_range (CustomBigInt f) | _ => ∅ end) = {["ifIndex" := 3]}%string.
Proof. vm_compute. reflexivity. Qed.
(** An unknown trap, when only a trap could ask for dropping, is passed on. *)
Example unknown_trap_passed : (match tp_handle [tp_id ".1.3.1"; tp_index 3] with Ok (Some f, _) => map_range (CustomStr f) | _ => ∅ end) = {["TrapOID" := ".1.3.1"]}%string.
Proof. vm_compute. reflexivity. Qed.
(** The conversion of an object id is of its bytes, and it has none. *)
Example converted_oid_lost : (match tp_handle [mkPDU ".1.3.6.1.4.1.5.2" ObjectIdentifier (VString ".1.3.6.1")] with Ok (Some f, _) => map_range (CustomStr f) !! "agent"%string | _ => None end) = Some EmptyString.
Proof. vm_compute. reflexivity. Qed.
