(* ===== verification/Kflow.v ===== *)
(** The kflow format (src/pkg/formats/kflow/kflow.go): flow records packed as Kentik flows, whose
    custom columns are named by checksums, and read back.

    The encoding of the message and its compression are parameters, each with the law that
    reading undoes writing; so are the orders of ranges. *)
From S2P Require Import Prelude GoStrings GoNet.
From S2P Require Import Jchf.
From S2P Require Import Ic.
From S2P Require Import FlowToJCHF.
From S2P Require SnmpConv.
Local Open Scope Z_scope.

(** ** Checksums ([hash/crc32], the IEEE polynomial) *)
Fixpoint crc_bits (n : nat) (c : Z) : Z :=
  match n with
  | O => c
  | S n => crc_bits n (if Z.testbit c 0 then Z.lxor (Z.shiftr c 1) 3988292384 else Z.shiftr c 1)
  end.
Definition crc_byte (c : Z) (b : byte) : Z := crc_bits 8 (Z.lxor c (b2z b)).
Definition ChecksumIEEE (s : string) : Z := Z.lxor (foldl crc_byte 4294967295 (String.list_byte_of_string s)) 4294967295.
Example crc_check : ChecksumIEEE "123456789" = 3421780262. Proof. vm_compute. reflexivity. Qed.

(** ** Messages *)
Record PMsg := mkPMsg { pm_AppProtocol : Z; pm_Timestamp : Z; pm_CHF : CHF }.
Definition no_text : FlowToJCHF.text := (EmptyString, None).
(** A message as it is allocated, with its custom columns. *)
Definition chf_custom (l : list Custom) : CHF :=
  mkCHF 0 0 0 0 0 0 0 0 0 0 0 0 0 0 0 0 0 0 0 0 0 0 0 0 0 0 0 0 0 0 0 0 0 0 0 0
    no_text no_text no_text no_text no_text no_text 0 0 [] [] 0 0 0 0 [] [] l.
Definition KTRANSLATE_PROTO : Z := 0.
Definition KTRANSLATE_MAP_PROTO : Z := 101.
Definition MSG_KEY_PREFIX : nat := 80.

Class KflowEnv := {
  range_of : ∀ {A}, nat → gmap string A → list (string * A);
  capn_Encode : list PMsg → option (list byte);
  capn_Decode : list byte → option (list PMsg);
  gzip_Write : list byte → list byte;
  gzip_Read : list byte → option (list byte) }.
(** What is written, and is no larger than the decoder's limit, is read back. *)
Class KflowEnvLaws `{KflowEnv} := {
  range_of_perm {A} n (m : gmap string A) : range_of n m ≡ₚ map_to_list m;
  capn_fits : list PMsg → Prop;
  capn_inverse ms : capn_fits ms → ∃ b, capn_Encode ms = Some b ∧ capn_Decode b = Some ms;
  gzip_inverse b : gzip_Read (gzip_Write b) = Some b }.

Section kflow.
Context `{KflowEnv} `{ProtoOrder}.

Definition NewFormat (compression : string) : res unit :=
  if String.eqb compression "gzip" then Ok () else Err (Errorf "Invalid compression (%s): format kflow only supports gzip" [FStr compression]).

(** *** The ids of columns *)
Definition flow_keys (n : nat) (flow : JCHF) : list string :=
  (range_of n (map_range (CustomStr flow))).*1 ++ (range_of n (map_range (CustomInt flow))).*1 ++ (range_of n (map_range (CustomBigInt flow))).*1.
Definition add_id (ids : gmap string Z) (key : string) : gmap string Z :=
  match ids !! key with Some _ => ids | None => <[key := ChecksumIEEE key]> ids end.
Definition flow_ids (flows : list JCHF) : gmap string Z := foldl add_id ∅ (concat (imap flow_keys flows)).
(** [getIds]: the ids and the message that tells them. *)
Definition getIds (flows : list JCHF) : gmap string Z * PMsg :=
  let ids := flow_ids flows in
  (ids, mkPMsg KTRANSLATE_MAP_PROTO 0 (chf_custom ((λ kv, mkCustom kv.2 (StrVal kv.1)) <$> range_of 0 ids))).

(** *** Packing *)
Definition PackGeo (cnty : list byte) : Z := match cnty with [a; b] => wrapu 32 (b2z a * 256 + b2z b) | _ => 0 end.
Definition pack_customs (n : nat) (ids : gmap string Z) (f : JCHF) : list Custom :=
  let id k := default 0 (ids !! k) in
  ((λ kv, mkCustom (id kv.1) (StrVal kv.2)) <$> range_of n (map_range (CustomStr f))) ++
  ((λ kv, mkCustom (id kv.1) (Uint32Val (wrapu 32 kv.2))) <$> range_of n (map_range (CustomInt f))) ++
  ((λ kv, mkCustom (id kv.1) (Uint64Val (wrapu 64 kv.2))) <$> range_of n (map_range (CustomBigInt f))).
(** An address as a number, and else as bytes. *)
Definition pack_addr (s : string) : Z * list byte :=
  match ParseIP s with
  | Some ip => match To4 ip with Some v4 => (be_decode v4, []) | None => (0, ip) end
  | None => (0, [])
  end.
Definition geo_bytes (s : string) : list byte := String.list_byte_of_string s.
Definition pack (n : nat) (ids : gmap string Z) (f : JCHF) : PMsg :=
  let '(dst4, dst6) := pack_addr (DstAddr f) in
  let '(src4, src6) := pack_addr (SrcAddr f) in
  mkPMsg KTRANSLATE_PROTO (Timestamp f) {|
    c_DstAs := DstAs f; c_DstGeo := PackGeo (geo_bytes (DstGeo f)); c_DstGeoRegion := 0; c_DstGeoCity := 0; c_HeaderLen := HeaderLen f;
    c_InBytes := InBytes f; c_InPkts := InPkts f; c_InputPort := wrapu 32 (InputPort f); c_IpSize := IpSize f; c_L4DstPort := L4DstPort f;
    c_L4SrcPort := L4SrcPort f; c_OutputPort := wrapu 32 (OutputPort f); c_Protocol := proto_num (Protocol f);
    c_SampledPacketSize := SampledPacketSize f; c_SrcAs := SrcAs f; c_SrcGeo := PackGeo (geo_bytes (SrcGeo f)); c_SrcGeoRegion := 0;
    c_SrcGeoCity := 0; c_TcpFlags := TcpFlags f; c_Tos := Tos f; c_VlanIn := VlanIn f; c_VlanOut := VlanOut f; c_MplsType := MplsType f;
    c_OutBytes := OutBytes f; c_OutPkts := OutPkts f; c_TcpRetransmit := TcpRetransmit f; c_SampleRate := SampleRate f;
    c_DeviceId := wrapu 32 (DeviceId f); c_SrcNextHopAs := SrcNextHopAs f; c_DstNextHopAs := DstNextHopAs f; c_SrcSecondAsn := SrcSecondAsn f;
    c_DstSecondAsn := DstSecondAsn f; c_SrcThirdAsn := SrcThirdAsn f; c_DstThirdAsn := DstThirdAsn f; c_SrcEthMac := 0; c_DstEthMac := 0;
    c_SrcFlowTags := no_text; c_DstFlowTags := no_text; c_SrcBgpAsPath := no_text; c_DstBgpAsPath := no_text; c_SrcBgpCommunity := no_text;
    c_DstBgpCommunity := no_text; c_Ipv4DstAddr := dst4; c_Ipv4SrcAddr := src4; c_Ipv6DstAddr := dst6; c_Ipv6SrcAddr := src6;
    c_SrcRoutePrefix := 0; c_DstRoutePrefix := 0; c_Ipv4SrcNextHop := 0; c_Ipv4DstNextHop := 0; c_Ipv6SrcNextHop := []; c_Ipv6DstNextHop := [];
    c_Custom := pack_customs n ids f |}.

(** *** [To] *)
Definition sender_of (f : JCHF) : string := Join [Itoa (CompanyId f); DeviceName f; Itoa (DeviceId f)] ":".
Definition key_of (f : JCHF) : string := String.append (sender_of f) "^".
(** The key in a prefix of fixed length; a key that is too long is left out. *)
Definition key_prefix (key : string) : list byte :=
  if (String.length key <? MSG_KEY_PREFIX)%nat then String.list_byte_of_string key ++ replicate (MSG_KEY_PREFIX - String.length key) Byte.x00
  else replicate MSG_KEY_PREFIX Byte.x00.
Definition messages_of (flows : list JCHF) : list PMsg :=
  let '(ids, m) := getIds flows in m :: imap (λ i f, pack i ids f) flows.
Definition To (flows : list JCHF) (serBuf : list byte) : res (option Output) :=
  match flows with
  | [] => Ok None
  | f :: _ =>
      match capn_Encode (messages_of flows) with
      | None => Err (Errorf "capnp" [])
      | Some b => Ok (Some (NewOutputWithProviderAndCompanySender (serBuf ++ gzip_Write (key_prefix (key_of f) ++ b)) (Provider f) (CompanyId f) EventOutput (sender_of f)))
      end
  end.

(** *** [From] *)
Inductive kflow_value := KInt64 (z : Z) | KUint32 (z : Z) | KUint64 (z : Z) | KText (s : string) | KBytes (b : list byte).
Definition tell_ids (customMap : gmap Z string) (l : list Custom) : gmap Z string :=
  foldl (λ m c, <[Custom_Id c := match Custom_Value c with StrVal s => s | _ => EmptyString end]> m) customMap l.
Definition read_custom (customMap : gmap Z string) (flow : gmap string kflow_value) (c : Custom) : gmap string kflow_value :=
  match customMap !! Custom_Id c with
  | None => flow
  | Some key =>
      match Custom_Value c with
      | Uint32Val v => <[key := KUint32 v]> flow
      | Uint64Val v => <[key := KUint64 v]> flow
      | StrVal s => <[key := KText s]> flow
      | _ => flow
      end
  end.
Definition geo_text (geo : Z) : string := String.append (rune_string (Z.shiftr geo 8)) (rune_string (Z.land geo 255)).
Definition base_flow (server_id : list byte) (msg : PMsg) : gmap string kflow_value :=
  let c := pm_CHF msg in
  {["timestamp" := KInt64 (pm_Timestamp msg); "protocol" := KText (proto_name (wrapu 16 (c_Protocol c))); "src_geo" := KText (geo_text (c_SrcGeo c));
    "server_id" := KBytes server_id; "dst_addr" := KText (addr_string (c_Ipv4DstAddr c) (c_Ipv6DstAddr c));
    "src_addr" := KText (addr_string (c_Ipv4SrcAddr c) (c_Ipv6SrcAddr c))]}%string.
Fixpoint unpack (server_id : list byte) (customMap : gmap Z string) (ms : list PMsg) : list (gmap string kflow_value) :=
  match ms with
  | [] => []
  | msg :: ms =>
      if pm_AppProtocol msg =? KTRANSLATE_PROTO then
        foldl (read_custom customMap) (base_flow server_id msg) (c_Custom (pm_CHF msg)) :: unpack server_id customMap ms
      else if pm_AppProtocol msg =? KTRANSLATE_MAP_PROTO then unpack server_id (tell_ids customMap (c_Custom (pm_CHF msg))) ms
      else unpack server_id customMap ms
  end.
Definition caret (b : byte) : bool := bool_decide (b = Byte.x5e).
Fixpoint before_caret (bs : list byte) : option (list byte) :=
  match bs with [] => None | b :: bs => if caret b then Some [] else (b ::.) <$> before_caret bs end.
Definition From (body : list byte) : res (list (gmap string kflow_value)) :=
  match gzip_Read body with
  | None => Err (Errorf "gzip" [])
  | Some evt =>
      if (length evt <? MSG_KEY_PREFIX)%nat then Panic "slice bounds out of range"
      else match before_caret (take MSG_KEY_PREFIX evt) with
      | None => Err (Errorf "Invalid prefix found for kflow: %s" [])
      | Some server_id =>
          match capn_Decode (drop MSG_KEY_PREFIX evt) with
          | None => Err (Errorf "capnp" [])
          | Some ms => Ok (unpack server_id ∅ ms)
          end
      end
  end.

(** ** Laws *)
Context `{!KflowEnvLaws}.

Definition all_keys (flows : list JCHF) : list string := concat (imap flow_keys flows).
Lemma add_ids_at l : ∀ ids k, (∀ k z, ids !! k = Some z → z = ChecksumIEEE k) →
  foldl add_id ids l !! k = if decide (k ∈ l) then Some (ChecksumIEEE k) else ids !! k.
Proof.
  induction l as [|x l IH]; intros ids k Hi; cbn [foldl]; [by rewrite decide_False by apply not_elem_of_nil|].
  rewrite IH.
  - unfold add_id. destruct (decide (k ∈ l)) as [Hk|Hk]; [by rewrite decide_True by by right|].
    destruct (decide (k = x)) as [->|Hne].
    + rewrite decide_True by by left. destruct (ids !! x) as [z|] eqn:E; [by rewrite E, (Hi _ _ E)|by rewrite lookup_insert_eq].
    + rewrite decide_False by (intros [?|?]%elem_of_cons; done). destruct (ids !! x); [done|by rewrite lookup_insert_ne].
  - intros k' z. unfold add_id. destruct (ids !! x) eqn:E; [apply Hi|]. intros [[<- <-]|[_ Hz]]%lookup_insert_Some; [done|by apply Hi].
Qed.
Lemma flow_ids_at flows k : flow_ids flows !! k = if decide (k ∈ all_keys flows) then Some (ChecksumIEEE k) else None.
Proof. unfold flow_ids. rewrite add_ids_at by (intros ? ?; by rewrite lookup_empty). by rewrite lookup_empty. Qed.

(** No two columns have one checksum. *)
Definition apart (flows : list JCHF) : Prop := ∀ k k', k ∈ all_keys flows → k' ∈ all_keys flows → ChecksumIEEE k = ChecksumIEEE k' → k = k'.

Lemma tell_ids_at l : ∀ m, (∀ k z k' z', (k, z) ∈ l → (k', z') ∈ l → z = z' → k = k') → ∀ k z, (k, z) ∈ l →
  tell_ids m ((λ kv : string * Z, mkCustom kv.2 (StrVal kv.1)) <$> l) !! z = Some k.
Proof.
  induction l as [|[x zx] l IH] using rev_ind; intros m Hinj k z Hk; [by apply elem_of_nil in Hk|].
  unfold tell_ids in *. rewrite fmap_app, foldl_app. cbn [fmap list_fmap foldl Custom_Id Custom_Value fst snd].
  destruct (decide (zx = z)) as [->|Hne].
  - rewrite lookup_insert_eq. f_equal. apply (Hinj x z k z); [apply elem_of_app; right; by left|done|done].
  - rewrite lookup_insert_ne by done. apply IH.
    + intros k1 z1 k2 z2 Q1 Q2. apply Hinj; apply elem_of_app; by left.
    + apply elem_of_app in Hk as [Hk|Hk]; [done|]. apply list_elem_of_singleton in Hk as [= -> ->]. done.
Qed.

Lemma told flows k : apart flows → k ∈ all_keys flows →
  tell_ids ∅ (c_Custom (pm_CHF (getIds flows).2)) !! ChecksumIEEE k = Some k.
Proof.
  intros Ha Hk. unfold getIds. cbn [snd pm_CHF c_Custom chf_custom].
  assert (∀ k z, (k, z) ∈ range_of 0 (flow_ids flows) → k ∈ all_keys flows ∧ z = ChecksumIEEE k) as Hin.
  { intros k' z Hz. rewrite range_of_perm, elem_of_map_to_list, flow_ids_at in Hz. case_decide; [by injection Hz as <-|done]. }
  apply tell_ids_at.
  - intros k1 z1 k2 z2 [Q1 ->]%Hin [Q2 ->]%Hin. by apply Ha.
  - rewrite range_of_perm, elem_of_map_to_list, flow_ids_at. by rewrite decide_True.
Qed.

(** Columns put one after the other. *)
Definition put (v : gmap string kflow_value) (kv : string * kflow_value) : gmap string kflow_value := <[kv.1 := kv.2]> v.
Lemma put_all (m : gmap string kflow_value) l base : l ≡ₚ map_to_list m → foldl put base l = m ∪ base.
Proof.
  intros Hl. assert (NoDup l.*1) as Hn by (rewrite Hl; apply NoDup_fst_map_to_list).
  apply map_eq. intros k. revert m Hl. induction l as [|[x v] l IH] using rev_ind; intros m Hl.
  - apply Permutation_nil, map_to_list_empty_iff in Hl as ->. by rewrite map_empty_union.
  - rewrite foldl_app. cbn [foldl put fst snd]. rewrite fmap_app in Hn. apply NoDup_app in Hn as (Hn & Hd & _).
    assert (m !! x = Some v) as Hx by (apply elem_of_map_to_list; rewrite <-Hl; apply elem_of_app; right; by left).
    assert (l ≡ₚ map_to_list (delete x m)) as Hl'.
    { apply (Permutation_cons_inv (a := (x, v))). rewrite (map_to_list_delete m x v Hx), <-Hl. apply Permutation_cons_append. }
    change (put (foldl put base l) (x, v)) with (<[x:=v]> (foldl put base l)). destruct (decide (x = k)) as [<-|Hne].
    + rewrite lookup_insert_eq. symmetry. by apply lookup_union_Some_l.
    + rewrite lookup_insert_ne by done. rewrite (IH Hn _ Hl'). rewrite !lookup_union, lookup_delete_ne by done. done.
Qed.

Lemma read_customs {A} cm ids (f : A → kflow_value) (g : A → Custom_value) (m : gmap string A) l base :
  l ≡ₚ map_to_list m → (∀ k, is_Some (m !! k) → cm !! default 0 (ids !! k) = Some k) →
  (∀ c k v flow, cm !! Custom_Id c = Some k → Custom_Value c = g v → read_custom cm flow c = <[k := f v]> flow) →
  foldl (read_custom cm) base ((λ kv : string * A, mkCustom (default 0 ((ids : gmap string Z) !! kv.1)) (g kv.2)) <$> l) = (f <$> m) ∪ base.
Proof.
  intros Hl Hk Hg. rewrite <-(put_all (f <$> m) ((λ kv : string * A, (kv.1, f kv.2)) <$> l)).
  - assert (∀ kv, kv ∈ l → cm !! default 0 (ids !! kv.1) = Some kv.1) as Hin.
    { intros [k v] Hkv. rewrite Hl, elem_of_map_to_list in Hkv. apply Hk. eauto. }
    clear Hl Hk. revert base. induction l as [|[k v] l IH]; intros base; [done|]. cbn [fmap list_fmap foldl]. rewrite IH; [|intros kv Hkv; apply Hin; by right].
    unfold put. cbn [fst snd]. rewrite (Hg (mkCustom (default 0 (ids !! k)) (g v)) k v); [done| |done]. apply (Hin (k, v)). by left.
  - rewrite map_to_list_fmap. by rewrite Hl.
Qed.

(** What a record says under a name when it comes back: the large number, else the small one, made
    unsigned, else the text. *)
Definition custom_value (f : JCHF) : gmap string kflow_value :=
  ((λ z, KUint64 (wrapu 64 z)) <$> map_range (CustomBigInt f)) ∪
  (((λ z, KUint32 (wrapu 32 z)) <$> map_range (CustomInt f)) ∪ (KText <$> map_range (CustomStr f))).
Lemma flow_keys_in n f k : (is_Some (map_range (CustomStr f) !! k) ∨ is_Some (map_range (CustomInt f) !! k) ∨ is_Some (map_range (CustomBigInt f) !! k)) → k ∈ flow_keys n f.
Proof.
  unfold flow_keys. intros Hk. rewrite !elem_of_app, !list_elem_of_fmap.
  destruct Hk as [[v Hv]|[[v Hv]|[v Hv]]]; [left|right; left|right; right]; exists (k, v); (split; [done|]); by rewrite range_of_perm, elem_of_map_to_list.
Qed.

Lemma unpack_flow flows cm ids i f : (∀ k, k ∈ flow_keys i f → cm !! default 0 (ids !! k) = Some k) →
  foldl (read_custom cm) flows (c_Custom (pm_CHF (pack i ids f))) = custom_value f ∪ flows.
Proof.
  intros Hk. unfold pack. destruct (pack_addr (DstAddr f)) as [d4 d6], (pack_addr (SrcAddr f)) as [s4 s6]. cbn [pm_CHF c_Custom].
  unfold pack_customs. rewrite !foldl_app.
  rewrite (read_customs cm ids KText StrVal (map_range (CustomStr f)));
    [|apply range_of_perm|intros k Hs; apply Hk, flow_keys_in; by left|intros c k v fl Hc Hv; unfold read_custom; by rewrite Hc, Hv].
  rewrite (read_customs cm ids (λ z, KUint32 (wrapu 32 z)) (λ z, Uint32Val (wrapu 32 z)) (map_range (CustomInt f)));
    [|apply range_of_perm|intros k Hs; apply Hk, flow_keys_in; by right; left|intros c k v fl Hc Hv; unfold read_custom; by rewrite Hc, Hv].
  rewrite (read_customs cm ids (λ z, KUint64 (wrapu 64 z)) (λ z, Uint64Val (wrapu 64 z)) (map_range (CustomBigInt f)));
    [|apply range_of_perm|intros k Hs; apply Hk, flow_keys_in; by right; right|intros c k v fl Hc Hv; unfold read_custom; by rewrite Hc, Hv].
  unfold custom_value. by rewrite !map_union_assoc.
Qed.

Lemma unpack_flows sid cm ids fs : ∀ n, (∀ i f k, fs !! i = Some f → k ∈ flow_keys (n + i) f → cm !! default 0 (ids !! k) = Some k) →
  unpack sid cm (imap (λ i f, pack (n + i) ids f) fs) = imap (λ i f, custom_value f ∪ base_flow sid (pack (n + i) ids f)) fs.
Proof.
  induction fs as [|f fs IH]; intros n Hk; [done|]. cbn [imap]. 
  rewrite (imap_ext _ (λ i x, pack (S n + i) ids x)) by (intros i x _; unfold compose; rewrite Nat.add_succ_r, Nat.add_succ_l; exact eq_refl).
  rewrite (imap_ext _ (λ i x, custom_value x ∪ base_flow sid (pack (S n + i) ids x)) fs) by (intros i x _; unfold compose; rewrite Nat.add_succ_r, Nat.add_succ_l; exact eq_refl).
  cbn [unpack]. assert ((pm_AppProtocol (pack (n + 0) ids f) =? KTRANSLATE_PROTO) = true) as ->.
  { unfold pack. by destruct (pack_addr (DstAddr f)), (pack_addr (SrcAddr f)). }
  f_equal; [apply unpack_flow; intros k Hx; exact (Hk 0%nat f k eq_refl Hx)|]. apply IH. intros i x k Hi Hx. apply (Hk (S i) x k Hi). by replace (n + S i)%nat with (S n + i)%nat by lia.
Qed.

(** The address that comes back. *)
Definition address_back (s : string) : string :=
  match ParseIP s with
  | Some ip => match To4 ip with Some v4 => if 0 <? be_decode v4 then IP_String v4 else IP_String [] | None => IP_String ip end
  | None => IP_String []
  end.
Lemma addr_back s : addr_string (pack_addr s).1 (pack_addr s).2 = address_back s.
Proof.
  unfold addr_string, pack_addr, address_back. destruct (ParseIP s) as [ip|]; [|done]. destruct (To4 ip) as [v4|] eqn:E; [|done]. cbn [fst snd].
  destruct (0 <? be_decode v4); [|done]. unfold Int2ip. destruct (To4_Some _ _ E) as [<- _]. by rewrite be_encode_decode.
Qed.

Lemma before_caret_prefix a b : Forall (λ x, caret x = false) a → before_caret (a ++ Byte.x5e :: b) = Some a.
Proof. induction 1 as [|x a Hx _ IH]; [done|]. cbn [app before_caret]. by rewrite Hx, IH. Qed.

(** C18: Flows that are packed come back, one for one and in order, when no two of their columns
    have one checksum and the key of the first fits its prefix: with every custom column under its
    name, and else the time, the protocol, the addresses and the sender that were packed. *)
Theorem kflow_To_From f0 fs : let flows := f0 :: fs in
  apart flows → capn_fits (messages_of flows) → (String.length (key_of f0) < MSG_KEY_PREFIX)%nat →
  Forall (λ x, caret x = false) (String.list_byte_of_string (sender_of f0)) →
  ∃ o outs, To flows [] = Ok (Some o) ∧ From (Body o) = Ok outs ∧ length outs = length flows ∧
    ∀ i f, flows !! i = Some f → ∃ m, outs !! i = Some m ∧
      (∀ k v, custom_value f !! k = Some v → m !! k = Some v) ∧
      ∀ k v, custom_value f !! k = None →
        (k, v) ∈ [("timestamp", KInt64 (Timestamp f)); ("protocol", KText (proto_name (wrapu 16 (proto_num (Protocol f)))));
                  ("dst_addr", KText (address_back (DstAddr f))); ("src_addr", KText (address_back (SrcAddr f)));
                  ("server_id", KBytes (String.list_byte_of_string (sender_of f0)))]%string → m !! k = Some v.
Proof.
  intros flows Ha Hfit Hlen Hc. destruct (capn_inverse _ Hfit) as (b & Eb & Db).
  assert (To flows [] = Ok (Some (NewOutputWithProviderAndCompanySender (gzip_Write (key_prefix (key_of f0) ++ b)) (Provider f0) (CompanyId f0) EventOutput (sender_of f0)))) as ETo.
  { unfold To. unfold flows at 1. fold flows. rewrite Eb. reflexivity. }
  assert (length (key_prefix (key_of f0)) = MSG_KEY_PREFIX) as Hpre.
  { unfold key_prefix. rewrite (proj2 (Nat.ltb_lt _ _)) by done. rewrite length_app, length_replicate.
    assert (∀ s, length (String.list_byte_of_string s) = String.length s) as -> by (intros s; induction s as [|c s IHs]; [done|cbn; by f_equal]). lia. }
  eexists _, (imap (λ i f, custom_value f ∪ base_flow (String.list_byte_of_string (sender_of f0)) (pack i (flow_ids flows) f)) flows). split; [exact ETo|].
  split; [|split; [apply length_imap|]].
  - unfold From. change (gzip_Read (gzip_Write (key_prefix (key_of f0) ++ b))) with (gzip_Read (gzip_Write (key_prefix (key_of f0) ++ b))).
    cbn [Body NewOutputWithProviderAndCompanySender]. rewrite gzip_inverse.
    rewrite (proj2 (Nat.ltb_ge _ _)) by (rewrite length_app, Hpre; lia).
    rewrite <-Hpre, take_app_length, drop_app_length, Db.
    assert (before_caret (key_prefix (key_of f0)) = Some (String.list_byte_of_string (sender_of f0))) as ->.
    { unfold key_prefix. rewrite (proj2 (Nat.ltb_lt _ _)) by done. unfold key_of.
      rewrite SnmpConv.list_byte_append.
      rewrite <-app_assoc. by apply before_caret_prefix. }
    unfold messages_of, getIds. cbn [unpack pm_AppProtocol]. f_equal.
    change (KTRANSLATE_MAP_PROTO =? KTRANSLATE_PROTO) with false. change (KTRANSLATE_MAP_PROTO =? KTRANSLATE_MAP_PROTO) with true. cbn [pm_CHF].
    apply (unpack_flows _ _ _ flows 0%nat). intros i f k Hi Hk.
    assert (k ∈ all_keys flows) as Hin.
    { unfold all_keys. apply list_elem_of_In, in_concat. exists (flow_keys i f). split; [|by apply list_elem_of_In].
      apply list_elem_of_In, list_elem_of_lookup. exists i. by rewrite list_lookup_imap, Hi. }
    rewrite flow_ids_at, decide_True by done. cbn [default]. exact (told flows k Ha Hin).
  - intros i f Hi. eexists. split; [by rewrite list_lookup_imap, Hi|]. split; [intros k v Hv; by apply lookup_union_Some_l|].
    intros k v Hn Hin. rewrite lookup_union_r by done. unfold pack.
    pose proof (addr_back (DstAddr f)) as Hd. pose proof (addr_back (SrcAddr f)) as Hs. destruct (pack_addr (DstAddr f)) as [d4 d6], (pack_addr (SrcAddr f)) as [s4 s6].
    cbn [fst snd] in Hd, Hs. rewrite <-Hd, <-Hs in Hin. unfold base_flow. cbn [pm_CHF pm_Timestamp c_Protocol c_SrcGeo c_Ipv4DstAddr c_Ipv6DstAddr c_Ipv4SrcAddr c_Ipv6SrcAddr].
    repeat (apply elem_of_cons in Hin as [ [= -> ->] | Hin ]; [by simpl_map|]). by apply elem_of_nil in Hin.
Qed.
End kflow.

(** ** Concrete inputs *)
Definition kf_flow : JCHF := NewJCHF <| Timestamp := 99 |> <| CompanyId := 7 |> <| DeviceName := "r1" |> <| DeviceId := 3 |> <| Protocol := "TCP" |>
  <| SrcAddr := "10.0.0.1" |> <| DstAddr := "2001:db8::1" |> <| CustomStr := Some {["site" := "ams"; "app" := "dns"]}%string |>
  <| CustomInt := Some {["hops" := -1]}%string |> <| CustomBigInt := Some {["app" := 5]}%string |>.
Definition kf_zero : JCHF := NewJCHF <| SrcAddr := "0.0.0.0" |>.
Definition kf_flows : list JCHF := [kf_flow; kf_zero].
Definition kf_pre : KflowEnv := {|
  range_of A n m := map_to_list m; capn_Encode ms := Some []; capn_Decode b := None; gzip_Write b := Byte.x1f :: b; gzip_Read b := match b with _ :: b => Some b | [] => None end |}.
#[local] Existing Instance source_order.
Definition kf_messages : list PMsg := messages_of (H := kf_pre) kf_flows.
#[local] Instance kf_env : KflowEnv := {|
  range_of A n m := map_to_list m; capn_Encode ms := Some [Byte.x00]; capn_Decode b := Some kf_messages; gzip_Write b := Byte.x1f :: b; gzip_Read b := match b with _ :: b => Some b | [] => None end |}.
#[local] Instance kf_laws : KflowEnvLaws.
Proof. refine (Build_KflowEnvLaws kf_env _ (λ ms, ms = kf_messages) _ _); [done|intros ms ->; by eexists|done]. Defined.
Lemma kf_fits : capn_fits (messages_of kf_flows).
Proof. exact (eq_refl kf_messages). Qed.

Lemma kflow_To_From_witness : apart kf_flows ∧ ∃ o outs m, To kf_flows [] = Ok (Some o) ∧ From (Body o) = Ok outs ∧ length outs = 2%nat ∧ outs !! 0%nat = Some m ∧
  m !! "app"%string = Some (KUint64 5) ∧ m !! "hops"%string = Some (KUint32 4294967295) ∧ m !! "dst_addr"%string = Some (KText "2001:db8::1").
Proof.
  assert (apart kf_flows) as Ha.
  { assert (Forall (λ k, Forall (λ k', ChecksumIEEE k = ChecksumIEEE k' → k = k') (all_keys kf_flows)) (all_keys kf_flows)) as Hf
      by (apply (bool_decide_eq_true_1 (Forall _ _)); vm_compute; reflexivity).
    intros k k' Hk Hk'. exact (proj1 (Forall_forall _ _) (proj1 (Forall_forall _ _) Hf k Hk) k' Hk'). }
  assert (String.length (key_of kf_flow) < MSG_KEY_PREFIX)%nat as Hl by (vm_compute; lia).
  assert (Forall (λ x, caret x = false) (String.list_byte_of_string (sender_of kf_flow))) as Hc
    by (apply (bool_decide_eq_true_1 (Forall _ _)); vm_compute; reflexivity).
  split; [exact Ha|]. destruct (kflow_To_From kf_flow [kf_zero] Ha kf_fits Hl Hc) as (o & outs & ETo & EFrom & Elen & Hall).
  destruct (Hall 0%nat kf_flow eq_refl) as (m & Em & Hcu & Hfix). exists o, outs, m.
  split; [exact ETo|]. split; [exact EFrom|]. split; [exact Elen|]. split; [exact Em|].
  split; [apply Hcu; vm_compute; reflexivity|]. split; [apply Hcu; vm_compute; reflexivity|]. apply Hfix; [vm_compute; reflexivity|].
  apply (list_elem_of_lookup_2 _ 2%nat). vm_compute. reflexivity.
Defined.

(** The address 0.0.0.0 is written like no address. *)
Example zero_address : address_back "0.0.0.0" = "<nil>"%string.
Proof. vm_compute. reflexivity. Qed.
(** Two names with one checksum. *)
Example one_checksum : ChecksumIEEE "hznydjui" = ChecksumIEEE "qizmplpn".
Proof. vm_compute. reflexivity. Qed.
(** The key of a device with a long name is left out, and then nothing is read back. *)
Example long_name : before_caret (key_prefix (key_of (NewJCHF <| DeviceName := "a-device-with-a-name-that-is-longer-than-the-prefix-of-a-message-has-room-for-it-is" |>))) = None.
Proof. vm_compute. reflexivity. Qed.
