(* ===== verification/VpcLogs.v ===== *)
(** Logs of clouds (src/pkg/inputs/vpc/aws/aws.go, s3.go and gcp/types.go): lines of AWS flow logs
    whose columns a header names, entries of Google's logs, and the flows they become.

    The clock, JSON and the topology of the cloud are parameters. *)
From S2P Require Import Prelude GoStrings GoNet.
From S2P Require Import Jchf.
From S2P Require Import Ic.
From S2P Require Import FlowToJCHF.
From S2P Require SnmpConv.
Local Open Scope Z_scope.

(** ** Words ([strings.Fields]) *)
(** The bytes of the space that a text starts with, 0 when it starts with none. *)
Definition space_prefixes : list (list nat) :=
  [[194; 133]; [194; 160]; [225; 154; 128]; [226; 128; 168]; [226; 128; 169]; [226; 128; 175]; [226; 129; 159]; [227; 128; 128]]%nat ++
  ((λ i, [226; 128; 128 + i]%nat) <$> seq 0 11).
Fixpoint has_bytes (bs : list nat) (s : string) : bool :=
  match bs, s with [], _ => true | b :: bs, String c s => (nat_of_ascii c =? b)%nat && has_bytes bs s | _ :: _, EmptyString => false end.
Definition space_len (s : string) : nat :=
  match s with
  | EmptyString => 0
  | String c _ =>
      if (nat_of_ascii c <? 128)%nat then (if is_space c then 1 else 0)%nat
      else match List.find (λ bs, has_bytes bs s) space_prefixes with Some bs => length bs | None => 0 end
  end.
Definition flush (cur : string) : list string := if String.eqb cur "" then [] else [cur].
Fixpoint fields_loop (skip : nat) (cur s : string) : list string :=
  match s with
  | EmptyString => flush cur
  | String c t =>
      match skip with
      | S skip => fields_loop skip cur t
      | O => match space_len s with
             | O => fields_loop 0 (String.append cur (String c EmptyString)) t
             | S n => flush cur ++ fields_loop n EmptyString t
             end
      end
  end.
Definition Fields (s : string) : list string := fields_loop 0 EmptyString s.

(** ** AWS *)
Definition MIN_AWS_FIELD : nat := 7.
Definition AWS_LOG_PREFIX : string := "AWSLogs".
Definition AWS_VPC_TYPE : string := "AWS_VPC".
Definition baseSplitAWS : string := String "123" (String "034" (String.append "messageType" (String "034" (String "058" EmptyString)))).
Definition AWS_FLOW_FIELDS : list string := [
  "version"; "interface-id"; "account-id"; "srcaddr"; "dstaddr"; "srcport"; "dstport"; "protocol"; "bytes"; "packets"; "start"; "end";
  "action"; "log-status"; "type"; "tcp-flags"; "vpc-id"; "subnet-id"; "instance-id"; "pkt-srcaddr"; "pkt-dstaddr"; "region"; "az-id";
  "sublocation-type"; "sublocation-id"; "pkt-src-aws-service"; "pkt-dst-aws-service"; "flow-direction"; "traffic-path"]%string.

(** Times are in seconds. *)
Record AWSLogLine := mkAWS {
  Version : Z; AccountID : string; InterfaceID : string; al_SrcAddr : option IP; al_DstAddr : option IP; SrcPktAddr : option IP; DstPktAddr : option IP;
  al_TcpFlags : Z; SrcPort : Z; DstPort : Z; al_Protocol : Z; Packets : Z; Bytes : Z; StartTime : Z; EndTime : Z; Action : string; Status : string;
  Sample : Z; VPCID : string; SubnetID : string; InstanceID : string; Region : string; AzID : string; SublocationType : string; SublocationID : string;
  SrcPktService : string; DstPktService : string; FlowDirection : string; TrafficPath : string }.
Abbreviation AwsLineMap := (gmap string nat).

(** What a Kinesis entry holds. *)
Record ExtractedField := mkExtracted {
  x_SrcAddr : string; x_DstPort : string; x_StartTime : string; x_DstAddr : string; x_Version : string; x_Packets : string; x_Protocol : string;
  x_AccountId : string; x_InterfaceId : string; x_Status : string; x_Bytes : string; x_SrcPort : string; x_Action : string; x_EndTime : string }.
Record KinesisLog := mkKinesis { k_Message : string; k_Extracted : ExtractedField }.

(** [strconv.Atoi] whose error is ignored. *)
Definition num (s : string) : Z := (Atoi_value s).1.
Definition SECONDS_OF_YEAR_1 : Z := 62135596800.
(** [time.Unix(s, 0).Before(now)] for a time in nanoseconds; seconds are counted from year 1. *)
Definition Before (s now : Z) : bool :=
  let a := wraps 64 (s + SECONDS_OF_YEAR_1) in
  let b := wraps 64 (now / 10 ^ 9 + SECONDS_OF_YEAR_1) in
  (a <? b) || ((a =? b) && (0 <? now mod 10 ^ 9)).
Definition week_ago (now : Z) : Z := now - 7 * 24 * 3600 * 10 ^ 9.

Section aws.
Variable now : Z.
Variable parse_json : string → option (list KinesisLog).

(** *** A line *)
Definition getString (lineMap : AwsLineMap) (pts : list string) (key : string) : res string :=
  match lineMap !! key with Some i => slice_get pts i | None => Ok EmptyString end.
Definition NewAwsFromV2 (lineMap : AwsLineMap) (pts : list string) : res (list AWSLogLine) :=
  let get := getString lineMap pts in
  account ← get "account-id"%string; iface ← get "interface-id"%string; src ← get "srcaddr"%string; dst ← get "dstaddr"%string;
  sport ← get "srcport"%string; dport ← get "dstport"%string; proto ← get "protocol"%string; packets ← get "packets"%string; bytes ← get "bytes"%string;
  start ← get "start"%string; stop ← get "end"%string; action ← get "action"%string; status ← get "log-status"%string;
  if Before (num start) (week_ago now) then Ok []
  else Ok [{|
    Version := 2; AccountID := account; InterfaceID := iface; al_SrcAddr := ParseIP src; al_DstAddr := ParseIP dst; SrcPktAddr := None; DstPktAddr := None;
    al_TcpFlags := 0; SrcPort := wrapu 32 (num sport); DstPort := wrapu 32 (num dport); al_Protocol := wrapu 32 (num proto);
    Packets := wrapu 64 (num packets); Bytes := wrapu 64 (num bytes); StartTime := num start; EndTime := num stop; Action := action; Status := status;
    Sample := 0; VPCID := ""; SubnetID := ""; InstanceID := ""; Region := ""; AzID := ""; SublocationType := ""; SublocationID := "";
    SrcPktService := ""; DstPktService := ""; FlowDirection := ""; TrafficPath := "" |}].
(** The line of later versions, from the texts of its columns; an old one starts now. *)
Definition v345_line (version : Z) (get : string → string) : AWSLogLine := {|
  Version := version; AccountID := get "account-id"; InterfaceID := get "interface-id"; al_SrcAddr := ParseIP (get "srcaddr"); al_DstAddr := ParseIP (get "dstaddr");
  SrcPktAddr := ParseIP (get "pkt-srcaddr"); DstPktAddr := ParseIP (get "pkt-dstaddr"); al_TcpFlags := wrapu 32 (num (get "tcp-flags"));
  SrcPort := wrapu 32 (num (get "srcport")); DstPort := wrapu 32 (num (get "dstport")); al_Protocol := wrapu 32 (num (get "protocol"));
  Packets := wrapu 64 (num (get "packets")); Bytes := wrapu 64 (num (get "bytes"));
  StartTime := if Before (num (get "start")) (week_ago now) then now / 10 ^ 9 else num (get "start"); EndTime := num (get "end");
  Action := get "action"; Status := get "log-status"; Sample := 0; VPCID := get "vpc-id"; SubnetID := get "subnet-id"; InstanceID := get "instance-id";
  Region := get "region"; AzID := get "az-id"; SublocationType := get "sublocation-type"; SublocationID := get "sublocation-id";
  SrcPktService := get "pkt-src-aws-service"; DstPktService := get "pkt-dst-aws-service"; FlowDirection := get "flow-direction"; TrafficPath := get "traffic-path" |}%string.
Definition v345_columns : list string := [
  "vpc-id"; "subnet-id"; "instance-id"; "interface-id"; "account-id"; "srcaddr"; "dstaddr"; "srcport"; "dstport"; "pkt-srcaddr"; "pkt-dstaddr";
  "protocol"; "bytes"; "packets"; "start"; "end"; "action"; "tcp-flags"; "log-status"; "region"; "az-id"; "sublocation-type"; "sublocation-id";
  "pkt-src-aws-service"; "pkt-dst-aws-service"; "flow-direction"; "traffic-path"]%string.
(** The columns in the order in which they are read: a missing one panics. *)
Fixpoint read_columns (lineMap : AwsLineMap) (pts keys : list string) : res (gmap string string) :=
  match keys with [] => Ok ∅ | key :: keys => v ← getString lineMap pts key; m ← read_columns lineMap pts keys; Ok (<[key := v]> m) end.
Definition NewAwsFromV345 (version : Z) (lineMap : AwsLineMap) (pts : list string) : res (list AWSLogLine) :=
  m ← read_columns lineMap pts v345_columns; Ok [v345_line version (λ key, default EmptyString (m !! key))].

(** *** A header *)
Definition colMap (pts : list string) : gmap string nat := foldl (λ m kv, <[kv.2 := kv.1]> m) ∅ (imap pair pts).
Definition NewAwsHeader (pts : list string) : AwsLineMap :=
  foldl (λ m field, match colMap pts !! field with Some i => <[field := i]> m | None => m end) ∅ AWS_FLOW_FIELDS.

(** *** Kinesis *)
(** An entry with its fields pulled out; [None] when it has no version, or is too old. *)
Definition kinesis_line (x : ExtractedField) (ver : Z) : option AWSLogLine :=
  if Before (num (x_StartTime x)) (week_ago now) then None
  else Some {|
    Version := ver; AccountID := x_AccountId x; InterfaceID := x_InterfaceId x; al_SrcAddr := ParseIP (x_SrcAddr x); al_DstAddr := ParseIP (x_DstAddr x);
    SrcPktAddr := None; DstPktAddr := None; al_TcpFlags := 0; SrcPort := wrapu 32 (num (x_SrcPort x)); DstPort := wrapu 32 (num (x_DstPort x));
    al_Protocol := wrapu 32 (num (x_Protocol x)); Packets := wrapu 64 (num (x_Packets x)); Bytes := wrapu 64 (num (x_Bytes x));
    StartTime := num (x_StartTime x); EndTime := num (x_EndTime x); Action := x_Action x; Status := x_Status x; Sample := 0; VPCID := ""; SubnetID := "";
    InstanceID := ""; Region := ""; AzID := ""; SublocationType := ""; SublocationID := ""; SrcPktService := ""; DstPktService := ""; FlowDirection := ""; TrafficPath := "" |}.
(** The entries of a part: the lines parsed from messages go before all others of it. *)
Fixpoint kinesis_entries (new_aws : AwsLineMap → string → res (list AWSLogLine * AwsLineMap)) (lineMap : AwsLineMap) (raw : string) (l : list KinesisLog) : res (list AWSLogLine * list AWSLogLine) :=
  match l with
  | [] => Ok ([], [])
  | e :: l =>
      '(parsed, line) ← match Atoi (x_Version (k_Extracted e)) with
        | Some (Zpos _ as ver) | Some (Zneg _ as ver) => Ok ([], kinesis_line (k_Extracted e) ver)
        | _ =>
            if (10 <? String.length (k_Message e))%nat && negb (Contains raw baseSplitAWS) then
              match new_aws lineMap (k_Message e) with
              | Ok (fLines, _) => Ok (fLines, None)
              | Err _ => Ok ([], None)
              | Panic m => Panic m
              | OutOfFuel => OutOfFuel
              end
            else Ok ([], None)
        end;
      '(parsed', lines) ← kinesis_entries new_aws lineMap raw l;
      Ok (parsed ++ parsed', option_list line ++ lines)
  end.
Fixpoint kinesis_parts (new_aws : AwsLineMap → string → res (list AWSLogLine * AwsLineMap)) (lineMap : AwsLineMap) (raw : string) (parts : list string) : res (list AWSLogLine) :=
  match parts with
  | [] => Ok []
  | b :: parts =>
      if (String.length b <? 10)%nat then kinesis_parts new_aws lineMap raw parts
      else
        match parse_json (String.append baseSplitAWS b) with
        | None => Err (Errorf "json" [])
        | Some l => '(parsed, lines) ← kinesis_entries new_aws lineMap raw l; rest ← kinesis_parts new_aws lineMap raw parts; Ok (parsed ++ lines ++ rest)
        end
  end.

(** *** [NewAws] *)
(** [fuel]: how deep messages in messages are followed. *)
Fixpoint NewAws (fuel : nat) (lineMap : AwsLineMap) (raw : string) : res (list AWSLogLine * AwsLineMap) :=
  match fuel with
  | O => OutOfFuel
  | S fuel =>
      let pts := Fields raw in
      if (length pts <? MIN_AWS_FIELD)%nat then Err (Errorf "Invalid line: %s" [FStr raw])
      else if bool_decide (pts !! 0%nat = Some "version"%string) || ((size lineMap =? 0)%nat && negb (Contains raw baseSplitAWS)) then Ok ([], NewAwsHeader pts)
      else
        v ← getString lineMap pts "version";
        let ver := wrapu 32 (num v) in
        let keep (r : res (list AWSLogLine)) := l ← r; Ok (l, lineMap) in
        if ver =? 2 then keep (NewAwsFromV2 lineMap pts)
        else if (ver =? 3) || (ver =? 4) || (ver =? 5) then keep (NewAwsFromV345 ver lineMap pts)
        else if Contains raw baseSplitAWS then keep (kinesis_parts (NewAws fuel) lineMap raw (Split raw baseSplitAWS))
        else if (size lineMap =? 0)%nat then Err (Errorf "Bad log version: %d -> %v" [FInt ver; FStr raw])
        else keep (NewAwsFromV345 5 lineMap pts)
  end.
(** The lines of an object (s3.go, local.go): a line with an error is left. *)
Fixpoint scan_lines (lineMap : AwsLineMap) (raws : list string) : res (list AWSLogLine) :=
  match raws with
  | [] => Ok []
  | raw :: raws =>
      match NewAws 1 lineMap raw with
      | Ok (lines, lineMap) => rest ← scan_lines lineMap raws; Ok (lines ++ rest)
      | Err _ => scan_lines lineMap raws
      | Panic m => Panic m
      | OutOfFuel => OutOfFuel
      end
  end.
End aws.

(** *** To flows *)
(** A subnet and what is known of its network and zone; tags in order. *)
Record az := mkAz { ZoneName : string; RegionName : string }.
Record subnet := mkSubnet { VpcId : string; sn_tags : list (string * string); sn_vpc : option (list (string * string)); sn_az : option az }.
Definition FromLambda : string := "awslambda".
Definition getAddr (addr : option IP) : string := match addr with Some ip => IP_String ip | None => EmptyString end.
Definition set_all (l : list (string * string)) (m : gmap string string) : gmap string string := foldl (λ m kv, <[kv.1 := kv.2]> m) m l.
Definition line_strs (m : AWSLogLine) : list (string * string) := [
  ("action", Action m); ("status", Status m); ("kt.from", FromLambda); ("type", AWS_VPC_TYPE); ("source_pkt_addr", getAddr (SrcPktAddr m));
  ("dest_pkt_addr", getAddr (DstPktAddr m)); ("sublocation_type", SublocationType m); ("sublocation_id", SublocationID m);
  ("source_pkt_service", SrcPktService m); ("dest_pkt_service", DstPktService m); ("flow_direction", FlowDirection m);
  ("traffic_path", TrafficPath m); ("account_id", AccountID m)]%string.
(** The side of the interface, [source_] or [dest_], and what is known of the other side. *)
Definition own_strs (side : string) (m : AWSLogLine) : list (string * string) :=
  (λ kv, (String.append side kv.1, kv.2)) <$> [("vpc", VPCID m); ("subnet", SubnetID m); ("instance", InstanceID m); ("interface", InterfaceID m); ("az", AzID m); ("region", Region m)]%string.
Definition other_strs (side : string) (s : option subnet) : res (list (string * string)) :=
  match s with
  | None => Ok []
  | Some s =>
      match sn_az s with
      | None => Panic "invalid memory address or nil pointer dereference"
      | Some a => Ok ((λ kv, (String.append side kv.1, kv.2)) <$> [("vpc", VpcId s); ("az", ZoneName a); ("region", RegionName a)]%string)
      end
  end.
Definition tag_strs (s : option subnet) : list (string * string) := match s with None => [] | Some s => default [] (sn_vpc s) ++ sn_tags s end.
Definition endpoint (addr : string) (port : Z) : string := String.append addr (String.append ":" (Itoa port)).
Definition AWS_ToFlow (lookupTopo : option IP → option subnet) (m : AWSLogLine) : res JCHF :=
  let egress := String.eqb (FlowDirection m) "egress" in
  let '(side, other) := if egress then ("source_", "dest_")%string else ("dest_", "source_")%string in
  let '(own_addr, other_addr) := if egress then (al_SrcAddr m, al_DstAddr m) else (al_DstAddr m, al_SrcAddr m) in
  others ← other_strs other (lookupTopo other_addr);
  let strs := set_all (line_strs m ++ own_strs side m ++ others ++ tag_strs (lookupTopo own_addr) ++
                       [("src_endpoint"%string, endpoint (getAddr (al_SrcAddr m)) (SrcPort m)); ("dst_endpoint"%string, endpoint (getAddr (al_DstAddr m)) (DstPort m))]) ∅ in
  Ok (NewJCHF <| CustomStr := Some strs |> <| CustomInt := Some ∅ |> <| CustomBigInt := Some {["start_time" := StartTime m; "end_time" := EndTime m]}%string |>
    <| EventType := KENTIK_EVENT_TYPE |> <| Provider := ProviderVPC |> <| Timestamp := StartTime m |>
    <| InBytes := if egress then 0 else Bytes m |> <| InPkts := if egress then 0 else Packets m |>
    <| OutBytes := if egress then Bytes m else 0 |> <| OutPkts := if egress then Packets m else 0 |>
    <| L4DstPort := DstPort m |> <| L4SrcPort := SrcPort m |> <| Protocol := proto_name (wrapu 16 (al_Protocol m)) |>
    <| SampleRate := if 0 <? Sample m then Sample m else 1 |> <| TcpFlags := al_TcpFlags m |> <| DeviceName := VPCID m |> <| ApplySample := true |>
    <| SrcAddr := getAddr (al_SrcAddr m) |> <| DstAddr := getAddr (al_DstAddr m) |>).

(** *** The key of a device *)
(** The parts of a path before the one of the logs. *)
Fixpoint folder_key (i : nat) (parts : list string) (key : string) : option string :=
  match parts with
  | [] => None
  | part :: parts =>
      if HasPrefix part AWS_LOG_PREFIX then Some key
      else if String.eqb part "" then folder_key (S i) parts key
      else folder_key (S i) parts (String.append (if (0 <? i)%nat then String.append key "/" else key) part)
  end.
Definition getDeviceKey (bucket path : string) : res string :=
  if HasPrefix path AWS_LOG_PREFIX then Ok bucket
  else match folder_key 0 (Split path "/") "" with
  | Some key => Ok key
  | None => if (7 <=? length (Split path "-"))%nat then Ok bucket else Err (Errorf "incorrectly formatted path [%s]" [FStr path])
  end.

(** ** Google (gcp/types.go) *)
Record Connection := mkConnection { DestIP : string; DestPort : Z; gc_Protocol : Z; SrcIP : string; gc_SrcPort : Z }.
Record Instance_ := mkInstance { gi_ProjectID : string; gi_Region : string; VMName : string; Zone : string }.
Record VPC := mkVPC { gv_ProjectID : string; gv_SubnetworkName : string; gv_Name : string }.
Record Location := mkLocation { City : string; Continent : string; Country : string; gl_Region : string }.
Record Label := mkLabel { lb_Location : string; lb_ProjectID : string; lb_SubnetworkID : string; lb_SubnetworkName : string }.
Record Resource := mkResource { Labels : option Label; rs_Type : string }.
Record Payload := mkPayload {
  py_Bytes : string; py_Connection : option Connection; DestInstance : option Instance_; SrcInstance : option Instance_; DestVPC : option VPC;
  SrcVPC : option VPC; py_EndTime : Z; Pkts : string; Reporter : string; RTT : string; SrcLocation : option Location; DstLocation : option Location; py_StartTime : Z }.
Record GCELogLine := mkGCE { InsertID : string; gce_Payload : option Payload; LogName : string; RecvTs : Z; gce_Resource : option Resource }.

Definition named (i : option Instance_) : bool := match i with Some i => negb (String.eqb (VMName i) "") | None => false end.
(** A missing payload is a panic, which [GetVMName] and [ToFlow] recover. *)
Definition IsIn (m : GCELogLine) : res bool := match gce_Payload m with Some p => Ok (named (SrcInstance p)) | None => Panic "invalid memory address or nil pointer dereference" end.
Definition IsInternal (m : GCELogLine) : res bool :=
  match gce_Payload m with Some p => Ok (named (SrcInstance p) && named (DestInstance p)) | None => Panic "invalid memory address or nil pointer dereference" end.
Definition GetVMName (m : GCELogLine) : string :=
  match gce_Payload m with
  | Some p => match (if named (SrcInstance p) then SrcInstance p else DestInstance p) with Some i => VMName i | None => EmptyString end
  | None => EmptyString
  end.
(** [EndTime] is in nanoseconds here. *)
Definition IsValid (now endTime : Z) (m : GCELogLine) : bool := match gce_Payload m with Some _ => now - 5 * 60 * 10 ^ 9 <? endTime | None => false end.

Definition under (direction : string) (l : list (string * string)) : list (string * string) := (λ kv, (String.append direction kv.1, kv.2)) <$> l.
Definition Instance_Save (direction : string) (i : option Instance_) : list (string * string) :=
  match i with Some i => under direction [("instance_project_id", gi_ProjectID i); ("instance_region", gi_Region i); ("instance_vm_name", VMName i); ("instance_zone", Zone i)]%string | None => [] end.
Definition VPC_Save (direction : string) (v : option VPC) : list (string * string) :=
  match v with Some v => under direction [("vpc_project_id", gv_ProjectID v); ("vpc_subnetwork_name", gv_SubnetworkName v); ("vpc_name", gv_Name v)]%string | None => [] end.
Definition Location_Save (direction : string) (l : option Location) : list (string * string) :=
  match l with Some l => under direction [("city", City l); ("continent", Continent l); ("country", Country l); ("region", gl_Region l)]%string | None => [] end.
Definition Resource_Save (r : option Resource) : list (string * string) :=
  match r with
  | Some r => ("type"%string, rs_Type r) :: match Labels r with
      | Some l => [("label_location", lb_Location l); ("label_project_id", lb_ProjectID l); ("label_subnetwork_id", lb_SubnetworkID l); ("label_subnetwork_name", lb_SubnetworkName l)]%string
      | None => []
      end
  | None => []
  end.
Definition Payload_strs (p : Payload) : list (string * string) :=
  [("reporter"%string, Reporter p)] ++ Instance_Save "dst_" (DestInstance p) ++ Instance_Save "src_" (SrcInstance p) ++ VPC_Save "dst_" (DestVPC p) ++
  VPC_Save "src_" (SrcVPC p) ++ Location_Save "dst_" (DstLocation p) ++ Location_Save "src_" (SrcLocation p).
Definition GCP_VPC_TYPE : string := "GCP_VPC".
Definition FromGCP : string := "gcppubsub".
Definition Connection_Save (c : option Connection) (j : JCHF) : JCHF :=
  match c with
  | Some c => j <| L4DstPort := wrapu 32 (DestPort c) |> <| L4SrcPort := wrapu 32 (gc_SrcPort c) |> <| Protocol := proto_name (wrapu 16 (wrapu 32 (gc_Protocol c))) |>
                <| SrcAddr := SrcIP c |> <| DstAddr := DestIP c |>
  | None => j
  end.
Definition Payload_Save (p : option Payload) (j : JCHF) : JCHF :=
  match p with
  | Some p => Connection_Save (py_Connection p) (j <| InBytes := wrapu 64 (num (py_Bytes p)) |> <| InPkts := wrapu 64 (num (Pkts p)) |> <| Timestamp := py_StartTime p |>)
  | None => j
  end.
Definition GCP_ToFlow (flowSample : Z) (m : GCELogLine) : JCHF :=
  let strs := set_all ([("kt.from", FromGCP); ("type", GCP_VPC_TYPE); ("insert_id", InsertID m); ("log_name", LogName m)]%string ++
                       match gce_Payload m with Some p => Payload_strs p | None => [] end ++ Resource_Save (gce_Resource m)) ∅ in
  let big : gmap string Z := {["rcv_time"%string := RecvTs m]} in
  let big : gmap string Z := match gce_Payload m with
    | Some p => <["end_time"%string := py_EndTime p]> (<["start_time"%string := py_StartTime p]> (<["rtt_msec"%string := num (RTT p)]> big)) | None => big end in
  Payload_Save (gce_Payload m) (NewJCHF <| CustomStr := Some strs |> <| CustomInt := Some ∅ |> <| CustomBigInt := Some big |> <| EventType := KENTIK_EVENT_TYPE |>
    <| Provider := ProviderVPC |> <| SampleRate := flowSample |> <| DeviceName := GetVMName m |> <| ApplySample := true |>).

(** ** Laws *)
(** A word of ASCII characters, none of them space. *)
Fixpoint word_chars (s : string) : bool := match s with EmptyString => true | String c s => (nat_of_ascii c <? 128)%nat && negb (is_space c) && word_chars s end.
Definition is_word (s : string) : Prop := s ≠ EmptyString ∧ word_chars s = true.

Lemma fields_word w rest cur : word_chars w = true → fields_loop 0 cur (String.append w rest) = fields_loop 0 (String.append cur w) rest.
Proof.
  revert cur. induction w as [|c w IH]; intros cur; [by rewrite append_nil_r|]. cbn [word_chars]. intros [[Hc Hs]%andb_true_iff Hw]%andb_true_iff.
  rewrite append_cons. cbn [fields_loop space_len]. rewrite Hc. destruct (is_space c); [done|]. rewrite IH by done. by rewrite append_assoc.
Qed.
(** The words of a line are those it was put together from. *)
Lemma Fields_Join ws : Forall is_word ws → Fields (Join ws " ") = ws.
Proof.
  unfold Fields. assert (∀ w cur, cur ≠ EmptyString ∨ w ≠ EmptyString → flush (String.append cur w) = [String.append cur w]) as Hflush.
  { intros w cur Hne. unfold flush. destruct (String.eqb_spec (String.append cur w) "") as [E|]; [|done]. destruct cur; [destruct w|]; destruct Hne; done. }
  intros Hw. induction Hw as [|w ws [Hne Hc] Hws IH]; [done|]. destruct ws as [|x ws].
  - change (Join [w] " ") with w. rewrite <-(append_nil_r w) at 1. rewrite fields_word by done. cbn [fields_loop]. by apply (Hflush w ""); right.
  - rewrite Join_cons, fields_word by done. change (fields_loop 0 (String.append "" w) (String.append " " (Join (x :: ws) " "))) with (flush (String.append "" w) ++ fields_loop 0 "" (Join (x :: ws) " ")).
    rewrite IH, Hflush by by right. done.
Qed.

Lemma colMap_at names : NoDup names → ∀ i k, names !! i = Some k → colMap names !! k = Some i.
Proof.
  intros Hn i k Hi. unfold colMap.
  assert (∀ l n (m : gmap string nat), NoDup l → ∀ i k, l !! i = Some k → foldl (λ m kv, <[kv.2 := kv.1]> m) m (imap (λ i, pair (n + i)%nat) l) !! k = Some (n + i)%nat) as Hl.
  { clear. induction l as [|x l IH] using rev_ind; intros n m Hn i k Hi; [done|]. rewrite imap_app, foldl_app. cbn [imap foldl fst snd].
    apply NoDup_app in Hn as (Hn & Hd & _). destruct (decide (x = k)) as [->|Hne].
    - rewrite lookup_insert_eq. f_equal. unfold compose. apply lookup_snoc_Some in Hi as [[Hlt Hi]|[-> _]]; [|by rewrite Nat.add_0_r].
      destruct (Hd k); [by eapply list_elem_of_lookup_2|by left].
    - rewrite lookup_insert_ne by done. apply IH; [done|]. apply lookup_snoc_Some in Hi as [[_ Hi]|[_ Hi]]; [done|congruence]. }
  by apply (Hl names 0%nat ∅ Hn i k).
Qed.
Lemma colMap_none names k : k ∉ names → colMap names !! k = None.
Proof.
  intros Hk. unfold colMap.
  assert (∀ (l : list (nat * string)) (m : gmap string nat), k ∉ l.*2 → foldl (λ m kv, <[kv.2 := kv.1]> m) m l !! k = m !! k) as Hl.
  { clear. induction l as [|[i x] l IH]; intros m Hn; [done|]. cbn in *. apply not_elem_of_cons in Hn as [Hx Hl]. rewrite IH by done. by rewrite lookup_insert_ne. }
  rewrite Hl; [by rewrite lookup_empty|]. intros Hin. apply list_elem_of_fmap in Hin as ([i x] & -> & Hin). apply Hk.
  apply elem_of_lookup_imap_1 in Hin as (j & y & [= -> ->] & Hj). by eapply list_elem_of_lookup_2.
Qed.
Lemma NewAwsHeader_at names k : k ∈ AWS_FLOW_FIELDS → NewAwsHeader names !! k = colMap names !! k.
Proof.
  unfold NewAwsHeader. assert (∀ l (m : gmap string nat), m !! k = None ∨ m !! k = colMap names !! k → k ∈ l →
    foldl (λ m field, match colMap names !! field with Some i => <[field := i]> m | None => m end) m l !! k = colMap names !! k) as Hl.
  { induction l as [|x l IH]; intros m Hm Hk; [by apply elem_of_nil in Hk|]. cbn [foldl].
    assert (∀ m : gmap string nat, m !! k = colMap names !! k → foldl (λ m field, match colMap names !! field with Some i => <[field := i]> m | None => m end) m l !! k = colMap names !! k) as Hkeep.
    { clear. induction l as [|x l IH]; intros m Hm; [done|]. cbn [foldl]. apply IH. destruct (colMap names !! x) eqn:E; [|done].
      destruct (decide (x = k)) as [->|]; [by rewrite lookup_insert_eq|by rewrite lookup_insert_ne]. }
    destruct (decide (x = k)) as [->|Hne].
    - apply Hkeep. destruct (colMap names !! k) eqn:E; [by rewrite lookup_insert_eq|]. by destruct Hm.
    - apply IH; [|by apply elem_of_cons in Hk as [->|]]. destruct (colMap names !! x); [by rewrite lookup_insert_ne|done]. }
  intros Hk. apply Hl; [left; apply lookup_empty|done].
Qed.

(** The text of a column, by the names of the columns. *)
Definition column (names values : list string) (key : string) : string := default "" ((list_to_map (zip names values) : gmap string string) !! key).
Lemma zip_names (names values : list string) : NoDup names → NoDup (zip names values).*1.
Proof.
  intros Hn. revert values. induction Hn as [|x names Hx Hn IH]; intros values; [constructor|]. destruct values as [|y values]; [constructor|].
  cbn. constructor; [|apply IH]. intros Hin. apply Hx. apply list_elem_of_fmap in Hin as ([a b] & -> & Hin). by apply elem_of_zip_l in Hin.
Qed.
Lemma column_at names values i k v : NoDup names → names !! i = Some k → values !! i = Some v → column names values k = v.
Proof.
  intros Hn Hk Hv. unfold column. rewrite (elem_of_list_to_map_1 (M := gmap string) (zip names values) k v); [done|by apply zip_names|].
  apply (list_elem_of_lookup_2 _ i). rewrite lookup_zip_with, Hk. cbn. by rewrite Hv.
Qed.
Lemma column_none names values k : k ∉ names → column names values k = "".
Proof.
  intros Hk. unfold column. rewrite (not_elem_of_list_to_map_1 (M := gmap string)); [done|]. intros Hin. apply Hk.
  apply list_elem_of_fmap in Hin as ([a b] & -> & Hin). by apply elem_of_zip_l in Hin.
Qed.

Lemma getString_column names values k : NoDup names → length values = length names → k ∈ AWS_FLOW_FIELDS →
  getString (NewAwsHeader names) values k = Ok (column names values k).
Proof.
  intros Hn Hl Hk. unfold getString. rewrite NewAwsHeader_at by done. destruct (decide (k ∈ names)) as [Hin|Hout].
  - apply list_elem_of_lookup in Hin as [i Hi]. rewrite (colMap_at names Hn i k Hi).
    destruct (lookup_lt_is_Some_2 values i) as [v Hv]; [rewrite Hl; by eapply lookup_lt_Some|].
    unfold slice_get. rewrite Hv. by rewrite (column_at names values i k v).
  - rewrite (colMap_none names k Hout). by rewrite (column_none names values k Hout).
Qed.
Lemma read_columns_at names values keys : NoDup names → length values = length names → keys ⊆ AWS_FLOW_FIELDS →
  ∃ m, read_columns (NewAwsHeader names) values keys = Ok m ∧ ∀ k, k ∈ keys → default "" (m !! k) = column names values k.
Proof.
  intros Hn Hl. induction keys as [|k keys IH]; intros Hk; [exists ∅; split; [done|]; intros k Hin; by apply elem_of_nil in Hin|].
  cbn [read_columns]. rewrite getString_column by (done || (apply Hk; by left)). cbn [mbind res_bind].
  destruct IH as (m & -> & Hm); [intros x Hx; apply Hk; by right|]. cbn [mbind res_bind]. eexists. split; [done|]. intros k' Hin.
  destruct (decide (k = k')) as [<-|Hne]; [by rewrite lookup_insert_eq|]. rewrite lookup_insert_ne by done. apply Hm. by apply elem_of_cons in Hin as [->|].
Qed.

Lemma v345_line_ext now version get get' : (∀ k, k ∈ v345_columns → get k = get' k) → v345_line now version get = v345_line now version get'.
Proof.
  intros Hg. unfold v345_line. rewrite !Hg; [done|..]; apply (bool_decide_eq_true_1 (_ ∈ v345_columns)); vm_compute; reflexivity.
Qed.

(** What makes two lines a header and a line of a version with columns. *)
Record described (names values : list string) (ver : Z) : Prop := {
  de_names : NoDup names; de_words : Forall is_word names; de_values : Forall is_word values; de_len : length values = length names;
  de_enough : (MIN_AWS_FIELD ≤ length names)%nat; de_first : names !! 0%nat = Some "version"%string; de_ver : values !! 0%nat ≠ Some "version"%string;
  de_raw : Contains (Join values " ") baseSplitAWS = false;
  de_version : wrapu 32 (num (column names values "version")) = ver ∧ (ver = 3 ∨ ver = 4 ∨ ver = 5) }.

(** A line of version 3, 4 or 5 under a header is read by the names of its columns: every field
    of it is the text under the field's name, and none where the header has no such name. *)
Theorem columns_by_name now parse_json names values ver rest : described names values ver →
  scan_lines now parse_json ∅ (Join names " " :: Join values " " :: rest) =
    ('(lines) ← scan_lines now parse_json (NewAwsHeader names) rest; Ok (v345_line now ver (column names values) :: lines)).
Proof.
  intros [Hn Hw Hv Hl Hmin Hf Hnv Hraw [Hver Hvers]]. cbn [scan_lines NewAws].
  rewrite !Fields_Join by done. rewrite Hl, (proj2 (Nat.ltb_ge _ _)) by lia. rewrite Hf, bool_decide_true by done. cbn [orb].
  rewrite bool_decide_false by done. cbn [orb].
  assert (size (NewAwsHeader names) ≠ 0%nat) as Hsz.
  { intros E. apply map_size_empty_iff in E. assert (NewAwsHeader names !! "version"%string = Some 0%nat) as E'.
    { rewrite NewAwsHeader_at by (by left). by apply colMap_at. } rewrite E in E'. by rewrite lookup_empty in E'. }
  rewrite (proj2 (Nat.eqb_neq _ _) Hsz). cbn [andb].
  rewrite getString_column by (done || by left). cbn [mbind res_bind]. rewrite Hver.
  destruct (read_columns_at names values v345_columns Hn Hl) as (m & Em & Hm).
  { apply (bool_decide_eq_true_1 (v345_columns ⊆ AWS_FLOW_FIELDS)). vm_compute. reflexivity. }
  assert ((ver =? 2) = false ∧ ((ver =? 3) || (ver =? 4) || (ver =? 5)) = true) as [-> ->] by (destruct Hvers as [->|[->| ->]]; done).
  unfold NewAwsFromV345. rewrite Em. cbn [mbind res_bind].
  rewrite (v345_line_ext now ver _ (column names values) Hm). by destruct (scan_lines _ _ _ rest).
Qed.

(** Messages in entries are never followed: entries come of lines with the text whose absence
    following asks for. So one level is enough. *)
Lemma kinesis_entries_dead now f g lineMap raw l : Contains raw baseSplitAWS = true →
  kinesis_entries now f lineMap raw l = kinesis_entries now g lineMap raw l.
Proof.
  intros Hc. induction l as [|e l IH]; [done|]. cbn [kinesis_entries]. rewrite Hc, andb_false_r, IH. done.
Qed.
Lemma kinesis_parts_dead now parse_json f g lineMap raw parts : Contains raw baseSplitAWS = true →
  kinesis_parts now parse_json f lineMap raw parts = kinesis_parts now parse_json g lineMap raw parts.
Proof.
  intros Hc. induction parts as [|b parts IH]; [done|]. cbn [kinesis_parts]. rewrite IH. destruct (_ <? 10)%nat; [done|].
  destruct (parse_json _) as [l|]; [|done]. by rewrite (kinesis_entries_dead now f g).
Qed.
Lemma NewAws_depth now parse_json fuel lineMap raw : NewAws now parse_json (S fuel) lineMap raw = NewAws now parse_json 1 lineMap raw.
Proof.
  cbn [NewAws]. destruct (length _ <? _)%nat; [done|]. destruct (bool_decide _ || _); [done|].
  destruct (getString lineMap (Fields raw) "version") as [v|e|e|]; cbn [mbind res_bind]; [|done..].
  destruct (_ =? 2); [done|]. destruct ((_ =? 3) || _ || _); [done|]. destruct (Contains raw baseSplitAWS) eqn:E; [|done].
  by rewrite (kinesis_parts_dead now parse_json (NewAws now parse_json fuel) (NewAws now parse_json 0)).
Qed.

(** What a line counts is on one side of the flow, out when the line says egress, and the flow
    of a known topology has the networks, zones and regions of both ends. *)
Theorem AWS_flow_counts lookupTopo m : (∀ a s, lookupTopo a = Some s → is_Some (sn_az s)) → ∃ f, AWS_ToFlow lookupTopo m = Ok f ∧
  InBytes f + OutBytes f = Bytes m ∧ InPkts f + OutPkts f = Packets m ∧
  (if String.eqb (FlowDirection m) "egress" then InBytes f = 0 ∧ InPkts f = 0 else OutBytes f = 0 ∧ OutPkts f = 0) ∧
  ∀ s, lookupTopo (if String.eqb (FlowDirection m) "egress" then al_DstAddr m else al_SrcAddr m) = Some s →
    tag_strs (lookupTopo (if String.eqb (FlowDirection m) "egress" then al_SrcAddr m else al_DstAddr m)) = [] →
    let other := if String.eqb (FlowDirection m) "egress" then "dest_"%string else "source_"%string in
    map_range (CustomStr f) !! String.append other "vpc" = Some (VpcId s) ∧
    map_range (CustomStr f) !! String.append other "region" = RegionName <$> sn_az s.
Proof.
  intros Haz. unfold AWS_ToFlow. destruct (String.eqb (FlowDirection m) "egress") eqn:Ed.
  - destruct (lookupTopo (al_DstAddr m)) as [s|] eqn:Es.
    + destruct (Haz _ _ Es) as [a Ha]. cbn [other_strs]. rewrite Ha. cbn [mbind res_bind]. eexists. split; [reflexivity|].
      split; [reflexivity|]. split; [reflexivity|]. split; [done|]. intros s' [= <-] ->. cbn [app]. rewrite Ha. split; reflexivity.
    + cbn [other_strs mbind res_bind]. eexists. split; [reflexivity|]. split; [reflexivity|]. split; [reflexivity|]. done.
  - destruct (lookupTopo (al_SrcAddr m)) as [s|] eqn:Es.
    + destruct (Haz _ _ Es) as [a Ha]. cbn [other_strs]. rewrite Ha. cbn [mbind res_bind]. eexists. split; [reflexivity|].
      split; [cbn; lia|]. split; [cbn; lia|]. split; [done|]. intros s' [= <-] ->. cbn [app]. rewrite Ha. split; reflexivity.
    + cbn [other_strs mbind res_bind]. eexists. split; [reflexivity|]. split; [cbn; lia|]. split; [cbn; lia|]. done.
Qed.

(** ** Concrete inputs *)
Definition vp_names : list string := ["version"; "srcaddr"; "bytes"; "dstaddr"; "start"; "flow-direction"; "vpc-id"]%string.
Definition vp_values : list string := ["5"; "10.0.0.1"; "120"; "10.0.0.2"; "1580321301"; "egress"; "vpc-1"]%string.
Definition vp_now : Z := 1580321400 * 10 ^ 9.
Lemma vp_described : described vp_names vp_values 5.
Proof.
  assert (∀ l, Forall (λ w, w ≠ "" ∧ word_chars w = true) l → Forall is_word l) as Hw by done.
  split; [apply (bool_decide_eq_true_1 (NoDup vp_names)); vm_compute; reflexivity|apply Hw; apply (bool_decide_eq_true_1 (Forall _ _)); vm_compute; reflexivity..|reflexivity|vm_compute; lia|reflexivity|
    vm_compute; discriminate|vm_compute; reflexivity|split; [vm_compute; reflexivity|by right; right]].
Qed.
Lemma columns_by_name_witness : ∃ m, scan_lines vp_now (λ _, None) ∅ [Join vp_names " "; Join vp_values " "] = Ok [m] ∧
  Bytes m = 120 ∧ FlowDirection m = "egress"%string ∧ Status m = EmptyString.
Proof.
  eexists. split; [exact (columns_by_name vp_now (λ _, None) vp_names vp_values 5 [] vp_described)|]. split; [vm_compute; reflexivity|]. split; vm_compute; reflexivity.
Defined.
Definition vp_topo (a : option IP) : option subnet := if bool_decide (a = ParseIP "10.0.0.2") then Some (mkSubnet "vpc-2" [] None (Some (mkAz "a" "us-east-1"))) else None.
Definition vp_line : AWSLogLine := v345_line vp_now 5 (column vp_names vp_values).
Lemma AWS_flow_counts_witness : ∃ f, AWS_ToFlow vp_topo vp_line = Ok f ∧ InBytes f + OutBytes f = 120 ∧ map_range (CustomStr f) !! "dest_vpc"%string = Some "vpc-2"%string.
Proof.
  assert (∀ a s, vp_topo a = Some s → is_Some (sn_az s)) as Haz by (intros a s; unfold vp_topo; case_bool_decide; [intros [= <-]; cbn; eauto|discriminate]).
  destruct (AWS_flow_counts vp_topo vp_line Haz) as (f & Ef & Hb & _ & _ & Ho). exists f. split; [exact Ef|]. split; [exact Hb|].
  exact (proj1 (Ho (mkSubnet "vpc-2" [] None (Some (mkAz "a" "us-east-1"))) ltac:(vm_compute; reflexivity) ltac:(vm_compute; reflexivity))).
Defined.

(** Without a header every line is taken for one. *)
Definition v2_raw : string := "2 391389995465 eni-09 10.236.54.140 10.236.57.28 31547 27068 6 2 112 1571081770 1571081799 ACCEPT OK".
Example headerless_lost : scan_lines 0 (λ _, None) ∅ [v2_raw; v2_raw; v2_raw] = Ok [].
Proof. vm_compute. reflexivity. Qed.
(** A line that is shorter than its header. *)
Example short_line_panics : scan_lines 0 (λ _, None) ∅ [Join (vp_names ++ ["type"; "region"]%string) " "; Join vp_values " "] = Panic "index out of range".
Proof. vm_compute. reflexivity. Qed.
(** A subnet whose zone is not known. *)
Example unknown_zone_panics : AWS_ToFlow (λ a, if bool_decide (a = ParseIP "10.0.0.2") then Some (mkSubnet "vpc-2" [] None None) else None) vp_line =
  Panic "invalid memory address or nil pointer dereference".
Proof. vm_compute. reflexivity. Qed.
(** The type of the resource takes the place of that of the log. *)
Example gcp_type_lost : map_range (CustomStr (GCP_ToFlow 1 (mkGCE "id" None "log" 0 (Some (mkResource None "gce_subnetwork"))))) !! "type"%string = Some "gce_subnetwork"%string.
Proof. vm_compute. reflexivity. Qed.
