(* ===== verification/Service.v ===== *)
(** The service around the flows (src/pkg/cat): what comes in over HTTP ([handleFlow], [handleJson]),
    what goes out to the sinks ([doSend], [sendToSinks]), the copies of the log for the sinks, and the
    order in which parts are made and started ([NewKTranslate], [Run], [cleanup]).

    Decompression, JSON, the decoder of Kentik flows and the parts that are started are parameters.
    What an HTTP response says of an error is which operation failed. *)
From Stdlib Require Import Floats.SpecFloat.
From S2P Require Import Prelude GoStrings Jchf.
From S2P Require Import FlowToJCHF.
From S2P Require Import Pipeline.
From S2P Require AlphaChan.
From S2P Require Rollup.
From S2P Require Enrich.
From S2P Require Kflow.
Import Enrich(json, JNull, JBool, JNum, JStr, JArr, JObj).
Local Open Scope Z_scope.

(** ** Requests and responses ([net/http]) *)
Record HttpRequest := mkHttpRequest {
  Method : string; Content_Encoding : string; Content_Type : string; Content_Length : string;
  q_sender_id : string; q_sid : string; rq_Body : list byte }.
Inductive written := Text (s : string) | ErrorOf (what : string).
Record Response := mkResponse { rs_status : option Z; rs_body : list written }.
Definition new_response : Response := mkResponse None [].
(** The first status counts. *)
Definition WriteHeader (code : Z) (w : Response) : Response := mkResponse (Some (default code (rs_status w))) (rs_body w).
Definition Write (x : written) (w : Response) : Response := mkResponse (Some (default 200 (rs_status w))) (rs_body w ++ [x]).
Definition http_Error (what : string) (code : Z) (w : Response) : Response := Write (ErrorOf what) (WriteHeader code w).

(** The two fields that requests change ([SetSampleRate], [SetDeviceId]). *)
Definition set_c_SampleRate (v : Z) (c : CHF) : CHF :=
  mkCHF (c_DstAs c) (c_DstGeo c) (c_DstGeoRegion c) (c_DstGeoCity c) (c_HeaderLen c) (c_InBytes c) (c_InPkts c) (c_InputPort c) (c_IpSize c)
    (c_L4DstPort c) (c_L4SrcPort c) (c_OutputPort c) (c_Protocol c) (c_SampledPacketSize c) (c_SrcAs c) (c_SrcGeo c) (c_SrcGeoRegion c)
    (c_SrcGeoCity c) (c_TcpFlags c) (c_Tos c) (c_VlanIn c) (c_VlanOut c) (c_MplsType c) (c_OutBytes c) (c_OutPkts c) (c_TcpRetransmit c) v
    (c_DeviceId c) (c_SrcNextHopAs c) (c_DstNextHopAs c) (c_SrcSecondAsn c) (c_DstSecondAsn c) (c_SrcThirdAsn c) (c_DstThirdAsn c)
    (c_SrcEthMac c) (c_DstEthMac c) (c_SrcFlowTags c) (c_DstFlowTags c) (c_SrcBgpAsPath c) (c_DstBgpAsPath c) (c_SrcBgpCommunity c)
    (c_DstBgpCommunity c) (c_Ipv4DstAddr c) (c_Ipv4SrcAddr c) (c_Ipv6DstAddr c) (c_Ipv6SrcAddr c) (c_SrcRoutePrefix c) (c_DstRoutePrefix c)
    (c_Ipv4SrcNextHop c) (c_Ipv4DstNextHop c) (c_Ipv6SrcNextHop c) (c_Ipv6DstNextHop c) (c_Custom c).
Definition set_c_DeviceId (v : Z) (c : CHF) : CHF :=
  mkCHF (c_DstAs c) (c_DstGeo c) (c_DstGeoRegion c) (c_DstGeoCity c) (c_HeaderLen c) (c_InBytes c) (c_InPkts c) (c_InputPort c) (c_IpSize c)
    (c_L4DstPort c) (c_L4SrcPort c) (c_OutputPort c) (c_Protocol c) (c_SampledPacketSize c) (c_SrcAs c) (c_SrcGeo c) (c_SrcGeoRegion c)
    (c_SrcGeoCity c) (c_TcpFlags c) (c_Tos c) (c_VlanIn c) (c_VlanOut c) (c_MplsType c) (c_OutBytes c) (c_OutPkts c) (c_TcpRetransmit c)
    (c_SampleRate c) v (c_SrcNextHopAs c) (c_DstNextHopAs c) (c_SrcSecondAsn c) (c_DstSecondAsn c) (c_SrcThirdAsn c) (c_DstThirdAsn c)
    (c_SrcEthMac c) (c_DstEthMac c) (c_SrcFlowTags c) (c_DstFlowTags c) (c_SrcBgpAsPath c) (c_DstBgpAsPath c) (c_SrcBgpCommunity c)
    (c_DstBgpCommunity c) (c_Ipv4DstAddr c) (c_Ipv4SrcAddr c) (c_Ipv6DstAddr c) (c_Ipv6SrcAddr c) (c_SrcRoutePrefix c) (c_DstRoutePrefix c)
    (c_Ipv4SrcNextHop c) (c_Ipv4DstNextHop c) (c_Ipv6SrcNextHop c) (c_Ipv6DstNextHop c) (c_Custom c).

(** A message as it is packed, with the marks that are read and the flow. *)
Record PackedMsg := mkPackedMsg { pk_Big : bool; pk_SampleAdj : bool; pk_CHF : CHF }.

Class IngestEnv := {
  gzip_NewReader : list byte → bool;
  gzip_ReadAll : list byte → list byte * bool;
  json_Unmarshal : list byte → option (list (string * json));
  capn_Messages : list byte → option (list PackedMsg);
  int64_of : spec_float → Z }.

Definition MSG_KEY_PREFIX : nat := 80.
Definition KENTIK_EVENT_JSON : string := "KJson".
Definition ProviderAlert : string := "kentik-alert".
Definition ProviderKflow : string := "kentik-kflow".

(** The part of the service that requests work on. *)
Record ingest := mkIngest {
  alphaChans : list (list Flow);
  jchf0 : list JCHF;              (* [kc.jchfChans[0]] *)
  handed : list (option Output);  (* what was put on [kc.msgsc] *)
  teed : list Output;
  m_Flows : Z; m_DroppedFlows : Z; m_Errors : Z }.
Definition set_alphas (qs : list (list Flow)) (sent dropped : Z) (s : ingest) : ingest :=
  mkIngest qs (jchf0 s) (handed s) (teed s) (m_Flows s + sent) (m_DroppedFlows s + dropped) (m_Errors s).
Definition set_jchf0 (p : list JCHF) (out : list (option Output)) (dropped : Z) (s : ingest) : ingest :=
  mkIngest (alphaChans s) p (handed s ++ out) (teed s) (m_Flows s) (m_DroppedFlows s + dropped) (m_Errors s).
Definition tee_on (o : list Output) (s : ingest) : ingest :=
  mkIngest (alphaChans s) (jchf0 s) (handed s) (teed s ++ o) (m_Flows s) (m_DroppedFlows s) (m_Errors s).
Definition mark_error (s : ingest) : ingest :=
  mkIngest (alphaChans s) (jchf0 s) (handed s) (teed s) (m_Flows s) (m_DroppedFlows s) (m_Errors s + 1).

Section ingest.
Context `{IngestEnv}.
(** What the service has: the encoder, the threads, whether flows are copied to a tee. *)
Context (seri : list JCHF → res (option Output)) (ProcessingThreads : nat) (has_tee : bool).

(** *** [handleJson] *)
Definition under (k kk : string) : string := String.append k (String.append "_" kk).
Definition put_json (j : JCHF) (kv : string * json) : JCHF :=
  match kv.2 with
  | JStr s => j <| CustomStr := Some (<[kv.1 := s]> (map_range (CustomStr j))) |>
  | JNum f => j <| CustomBigInt := Some (<[kv.1 := int64_of f]> (map_range (CustomBigInt j))) |>
  | _ => j
  end.
Definition put_object (k : string) (j : JCHF) (o : list (string * json)) : JCHF :=
  foldl (λ j kv, put_json j (under k kv.1, kv.2)) j o.
Definition put_inner (k : string) (j : JCHF) (kv : string * json) : JCHF :=
  match kv.2 with JObj o => put_object (under k kv.1) j o | v => put_json j (under k kv.1, v) end.
Definition put_element (k : string) (j : JCHF) (iv : nat * json) : JCHF :=
  match iv.2 with JObj o => put_object (under k (Itoa (Z.of_nat iv.1))) j o | _ => j end.
Definition put_field (j : JCHF) (kv : string * json) : JCHF :=
  match kv.2 with
  | JObj o => foldl (put_inner kv.1) j o
  | JArr l => foldl (put_element kv.1) j (imap pair l)
  | v => put_json j (kv.1, v)
  end.
Definition json_flow (base : list (string * json)) (j : JCHF) : JCHF :=
  foldl put_field (j <| CustomStr := Some ∅ |> <| CustomInt := Some ∅ |> <| CustomBigInt := Some ∅ |> <| CustomFloat := Some ∅ |>
    <| Provider := ProviderAlert |> <| EventType := KENTIK_EVENT_JSON |>) base.

(** The state, and whether there was an error. *)
Definition handleJson (raw : list byte) (s : ingest) : res (ingest * bool) :=
  match jchf0 s with
  | [] => Ok (set_jchf0 [] [] 1 s, false)
  | jflow :: p =>
      match json_Unmarshal raw with
      | None => Ok (set_jchf0 p [] 0 s, true)
      | Some base =>
          let j := json_flow base jflow in
          match seri [j] with
          | Ok r => Ok (set_jchf0 (p ++ [Reset j]) [r] 0 s, false)
          | Err _ => Ok (set_jchf0 (p ++ [Reset j]) [] 0 s, true)
          | Panic why => Panic why
          | OutOfFuel => OutOfFuel
          end
      end
  end.

(** *** [handleFlow] *)
(** A message that is not of low resolution, as it is queued. *)
Definition flow_of (cid did : Z) (deviceName senderId : string) (m : PackedMsg) : option Flow :=
  if pk_Big m then None
  else
    let c := pk_CHF m in
    let c := if pk_SampleAdj m then c else set_c_SampleRate (wrapu 32 (c_SampleRate c * 100)) c in
    let c := if (c_DeviceId c =? 0) && negb (String.eqb senderId "") then set_c_DeviceId (wrapu 32 did) c else c in
    Some (mkFlow cid c deviceName).

(** Round robin over the threads, without waiting for any. *)
Fixpoint spread (next : nat) (fs : list Flow) (qs : list (list Flow)) : res (list (list Flow) * (Z * Z)) :=
  match fs with
  | [] => Ok (qs, (0, 0))
  | f :: fs =>
      q ← slice_get qs next;
      let room := (length q <? AlphaChan.CHAN_SLACK)%nat in
      let next' := if (ProcessingThreads <=? S next)%nat then O else S next in
      '(qs', (sent, dropped)) ← spread next' fs (if room then <[next := q ++ [f]]> qs else qs);
      Ok (qs', if room then (sent + 1, dropped) else (sent, dropped + 1))
  end.

(** Flows from before the service are behind a key of zeros, and their sender is in the query. *)
Definition is_direct (senderId : string) (evt : list byte) : bool :=
  negb (String.eqb senderId "") && (MSG_KEY_PREFIX <? length evt)%nat && bool_decide (take 5 evt = replicate 5 Byte.x00).
Definition sender (senderId : string) (evt : list byte) (cid : Z) : nat * (Z * (Z * string)) :=
  if is_direct senderId evt then
    match Split senderId ":" with
    | [c; name; d] => (MSG_KEY_PREFIX, ((Atoi_value (TrimSpace c)).1, ((Atoi_value (TrimSpace d)).1, name)))
    | _ => (MSG_KEY_PREFIX, (cid, (0, EmptyString)))
    end
  else (O, (cid, (0, EmptyString))).

(** The deferred part of [handleFlow]: what it says, by [err] as it then is. *)
Definition finish (err : bool) (s : ingest) (w : Response) : res (ingest * Response) :=
  Ok (if err then (mark_error s, Write (Text "BAD") (WriteHeader 400 w)) else (s, Write (Text "GOOD") w)).

Definition read_body (q : HttpRequest) : list byte * bool :=
  if String.eqb (Content_Encoding q) "gzip" then gzip_ReadAll (rq_Body q) else (rq_Body q, true).

Definition handleFlow (q : HttpRequest) (s : ingest) : res (ingest * Response) :=
  let w := new_response in
  if negb (String.eqb (Method q) "POST") then Ok (s, w)
  else if String.eqb (Content_Encoding q) "gzip" && negb (gzip_NewReader (rq_Body q)) then finish false s (http_Error "gzip.NewReader" 500 w)
  else
    let '(cid, cid_ok) := if String.eqb (q_sid q) "" then (0, true) else Atoi_value (q_sid q) in
    if negb cid_ok then finish false s (http_Error "strconv.Atoi" 500 w)
    else if negb (String.eqb (Content_Length q) "") && negb (Atoi_value (Content_Length q)).2 then finish false s (http_Error "strconv.Atoi" 500 w)
    else
      let '(evt, read_ok) := read_body q in
      if negb read_ok then finish true s (http_Error "ReadFrom" 500 w)
      else if String.eqb (Content_Type q) "application/json" then
        '(s, err) ← handleJson evt s; finish err s w
      else
        let '(offset, (cid, (did, name))) := sender (q_sender_id q) evt cid in
        let raw := drop offset evt in
        let s := if has_tee then tee_on [NewOutputWithProviderAndCompanySender raw ProviderKflow cid EventOutput (q_sender_id q)] s else s in
        match capn_Messages raw with
        | None => finish true s w
        | Some ms =>
            '(qs, (sent, dropped)) ← spread 0 (omap (flow_of cid did name (q_sender_id q)) ms) (alphaChans s);
            finish false (set_alphas qs sent dropped s) w
        end.
End ingest.

(** ** JSON bodies *)
Section json_facts.
Context `{IngestEnv}.
(** The leaves that become columns, under their names. *)
Definition leaf_object (k : string) (o : list (string * json)) : list (string * json) := (λ e, (under k e.1, e.2)) <$> o.
Definition leaf_inner (k : string) (kv : string * json) : list (string * json) :=
  match kv.2 with JObj o => leaf_object (under k kv.1) o | v => [(under k kv.1, v)] end.
Definition leaf_element (k : string) (iv : nat * json) : list (string * json) :=
  match iv.2 with JObj o => leaf_object (under k (Itoa (Z.of_nat iv.1))) o | _ => [] end.
Definition leaf_field (kv : string * json) : list (string * json) :=
  match kv.2 with
  | JObj o => o ≫= leaf_inner kv.1
  | JArr l => imap pair l ≫= leaf_element kv.1
  | v => [(kv.1, v)]
  end.
Definition leaves (base : list (string * json)) : list (string * json) := base ≫= leaf_field.

Lemma foldl_bind {A B C} (f : A → C → A) (g : B → list C) (h : A → B → A) l a :
  (∀ a b, h a b = foldl f a (g b)) → foldl h a l = foldl f a (l ≫= g).
Proof. intros E. revert a. induction l as [|b l IH]; intros a; [done|]. cbn. by rewrite IH, E, foldl_app. Qed.
Lemma put_object_leaves k j o : put_object k j o = foldl put_json j (leaf_object k o).
Proof. unfold put_object, leaf_object. revert j. induction o as [|e o IH]; intros j; [done|]. cbn. apply IH. Qed.
Lemma put_field_leaves j kv : put_field j kv = foldl put_json j (leaf_field kv).
Proof.
  destruct kv as [k v]. unfold put_field, leaf_field. cbn [fst snd]. destruct v; try done.
  - apply foldl_bind. intros a [i w]. unfold put_element, leaf_element. cbn [fst snd]. destruct w; try done. apply put_object_leaves.
  - apply foldl_bind. intros a [kk w]. unfold put_inner, leaf_inner. cbn [fst snd]. destruct w; try done. apply put_object_leaves.
Qed.

Lemma put_json_str j kv : map_range (CustomStr (put_json j kv)) =
  match kv.2 with JStr s => <[kv.1 := s]> (map_range (CustomStr j)) | _ => map_range (CustomStr j) end.
Proof. unfold put_json. by destruct kv.2. Qed.
Lemma put_json_big j kv : map_range (CustomBigInt (put_json j kv)) =
  match kv.2 with JNum f => <[kv.1 := int64_of f]> (map_range (CustomBigInt j)) | _ => map_range (CustomBigInt j) end.
Proof. unfold put_json. by destruct kv.2. Qed.

Lemma foldl_put_lookup {A} (get : JCHF → gmap string A) (val : json → option A) l j k a :
  (∀ j kv, get (put_json j kv) = match val kv.2 with Some a => <[kv.1 := a]> (get j) | None => get j end) → NoDup l.*1 →
  get j !! k = None → get (foldl put_json j l) !! k = Some a ↔ ∃ v, (k, v) ∈ l ∧ val v = Some a.
Proof.
  intros Hput. revert j. induction l as [|[k' v] l IH] using rev_ind; intros j Hnd Hj.
  { cbn. rewrite Hj. split; [done|]. intros (v & Hv & _). by apply not_elem_of_nil in Hv. }
  rewrite fmap_app in Hnd. apply NoDup_app in Hnd as (Hl & Hk & _). rewrite foldl_app. cbn [foldl]. rewrite Hput. cbn [fst snd].
  setoid_rewrite elem_of_app. setoid_rewrite list_elem_of_singleton.
  destruct (decide (k = k')) as [->|Hne].
  - assert (∀ v, (k', v) ∉ l) as Hnl.
    { intros w Hw. apply (Hk k'); [by apply list_elem_of_fmap; exists (k', w)|by left]. }
    destruct (val v) as [b|] eqn:Ev.
    + rewrite lookup_insert_eq. split; [intros [= ->]; exists v; by split; [right|]|]. intros (w & [Hw|[= ->]] & Hva); [by destruct (Hnl w)|congruence].
    + rewrite (IH j Hl Hj). split; [intros (w & Hw & ?); by destruct (Hnl w)|]. intros (w & [Hw|[= ->]] & Hva); [by destruct (Hnl w)|congruence].
  - destruct (val v) as [b|]; [rewrite lookup_insert_ne by done|]; rewrite (IH j Hl Hj);
      (split; intros (w & Hw & Hva); [exists w; by split; [left|]|]; destruct Hw as [Hw|[= -> ->]]; [by exists w|done]).
Qed.

(** When no two leaves of a JSON body have one name, the flow made of it has as text columns its
    strings and as numbers its numbers, each under the names of the way to it. *)
Theorem json_columns base jflow : NoDup (leaves base).*1 → ∀ k,
  (∀ s, map_range (CustomStr (json_flow base jflow)) !! k = Some s ↔ (k, JStr s) ∈ leaves base) ∧
  (∀ z, map_range (CustomBigInt (json_flow base jflow)) !! k = Some z ↔ ∃ f, (k, JNum f) ∈ leaves base ∧ int64_of f = z).
Proof.
  intros Hnd k. unfold json_flow. rewrite (foldl_bind put_json leaf_field put_field) by apply put_field_leaves. fold (leaves base). split; intros a.
  - rewrite (foldl_put_lookup (λ j, map_range (CustomStr j)) (λ v, match v with JStr s => Some s | _ => None end) (leaves base) _ k a); [|intros j [? []]; apply put_json_str|done|done].
    split; [intros ([] & Hv & [=]); by subst|]. intros Hv. by exists (JStr a).
  - rewrite (foldl_put_lookup (λ j, map_range (CustomBigInt j)) (λ v, match v with JNum f => Some (int64_of f) | _ => None end) (leaves base) _ k a); [|intros j [? []]; apply put_json_big|done|done].
    split; [intros ([] & Hv & [=]); by eexists|]. intros (f & Hv & <-). by exists (JNum f).
Qed.
End json_facts.

(** ** Flows *)
Section spread_facts.
Context (n : nat).
(** The flows of one thread, when the first goes to [next]. *)
Definition share (next t : nat) (fs : list Flow) : list Flow :=
  omap (λ '(i, f), if ((next + i) mod n =? t)%nat then Some f else None) (imap pair fs).
Definition fill (q l : list Flow) : list Flow := q ++ take (AlphaChan.CHAN_SLACK - length q) l.

Lemma share_cons next t f fs : (next < n)%nat →
  share next t (f :: fs) = (if (next =? t)%nat then [f] else []) ++ share (S next mod n) t fs.
Proof.
  intros Hn. unfold share. cbn [imap omap list_omap]. rewrite Nat.add_0_r, Nat.mod_small by done.
  change (imap (pair ∘ S) fs) with (imap (λ i, pair (S i)) fs).
  assert (∀ g h : nat → Flow → nat * Flow, (∀ i f, omap (λ '(i, f), if ((next + i) mod n =? t)%nat then Some f else None) [g i f] =
    omap (λ '(i, f), if ((S next mod n + i) mod n =? t)%nat then Some f else None) [h i f]) → ∀ l,
    omap (λ '(i, f), if ((next + i) mod n =? t)%nat then Some f else None) (imap g l) =
    omap (λ '(i, f), if ((S next mod n + i) mod n =? t)%nat then Some f else None) (imap h l)) as E.
  { intros g h Hgh l. revert g h Hgh. induction l as [|x l IH]; intros g h Hgh; [done|]. cbn [imap].
    pose proof (Hgh 0%nat x) as E. cbn in E |- *. specialize (IH (g ∘ S) (h ∘ S) (λ i, Hgh (S i))). cbn in IH. rewrite <-IH.
    destruct (g 0%nat x), (h 0%nat x). by repeat case_match; simplify_eq. }
  rewrite (E (λ i, pair (S i)) pair); [by destruct (next =? t)%nat|]. intros i x. cbn.
  rewrite Nat.Div0.add_mod_idemp_l. by replace (next + S i)%nat with (S next + i)%nat by lia.
Qed.
Lemma fill_step q f l : fill q (f :: l) = fill (if (length q <? AlphaChan.CHAN_SLACK)%nat then q ++ [f] else q) l.
Proof.
  unfold fill. destruct (Nat.ltb_spec (length q) AlphaChan.CHAN_SLACK) as [Hl|Hg].
  - rewrite length_app. cbn [length]. rewrite <-app_assoc. f_equal. replace (AlphaChan.CHAN_SLACK - length q)%nat with (S (AlphaChan.CHAN_SLACK - (length q + 1))) by lia. done.
  - by replace (AlphaChan.CHAN_SLACK - length q)%nat with 0%nat by lia.
Qed.

Lemma spread_ok next fs qs : (next < n)%nat → length qs = n →
  ∃ qs' sent dropped, spread n next fs qs = Ok (qs', (sent, dropped)) ∧ sent + dropped = Z.of_nat (length fs) ∧ length qs' = n ∧
    ∀ t q, qs !! t = Some q → qs' !! t = Some (fill q (share next t fs)).
Proof.
  revert next qs. induction fs as [|f fs IH]; intros next qs Hn Hl.
  { exists qs, 0, 0. split_and!; [done..|]. intros t q ->. unfold fill, share. cbn. by rewrite take_nil, app_nil_r. }
  cbn [spread]. destruct (lookup_lt_is_Some_2 qs next) as [q Eq]; [lia|]. rewrite (slice_get_ok _ _ _ Eq). cbn [mbind res_bind].
  set (room := (length q <? AlphaChan.CHAN_SLACK)%nat). set (qs1 := if room then <[next := q ++ [f]]> qs else qs).
  assert (length qs1 = n) as Hl1 by (unfold qs1; destruct room; [by rewrite length_insert|done]).
  assert ((if (n <=? S next)%nat then 0 else S next) = S next mod n)%nat as ->.
  { destruct (Nat.leb_spec n (S next)) as [Hle|Hlt]; [|by rewrite Nat.mod_small]. replace (S next) with n by lia. by rewrite Nat.Div0.mod_same. }
  destruct (IH (S next mod n)%nat qs1) as (qs' & sent & dropped & -> & Hsum & Hl' & Hq); [apply Nat.mod_upper_bound; lia|done|].
  cbn [mbind res_bind]. destruct room eqn:Er; do 3 eexists; (split; [reflexivity|]); (split; [cbn [length]; lia|]); (split; [done|]); intros t q' Hq'; rewrite share_cons by done.
  all: destruct (Nat.eqb_spec next t) as [->|Hne]; [simplify_eq; cbn [app]; rewrite fill_step, Er; apply Hq; unfold qs1|apply Hq; unfold qs1].
  - apply list_lookup_insert_eq. apply lookup_lt_Some in Eq. lia.
  - by rewrite list_lookup_insert_ne.
  - done.
  - done.
Qed.
End spread_facts.

(** ** Requests *)
Section request_facts.
Context `{IngestEnv} (seri : list JCHF → res (option Output)) (n : nat) (has_tee : bool).
Abbreviation serve := (handleFlow seri n has_tee).

(** A request with a body of flows that is read, and whose [sid] is [cid]. *)
Record carries (q : HttpRequest) (cid : Z) (evt : list byte) : Prop := {
  cr_post : Method q = "POST"%string;
  cr_gzip : Content_Encoding q = "gzip"%string → gzip_NewReader (rq_Body q) = true;
  cr_cid : (if String.eqb (q_sid q) "" then (0, true) else Atoi_value (q_sid q)) = (cid, true);
  cr_length : Content_Length q ≠ EmptyString → (Atoi_value (Content_Length q)).2 = true;
  cr_body : read_body q = (evt, true);
  cr_type : Content_Type q ≠ "application/json"%string }.

Lemma handleFlow_carries q s cid evt : carries q cid evt → serve q s =
  let '(offset, (cid, (did, name))) := sender (q_sender_id q) evt cid in
  let raw := drop offset evt in
  let s := if has_tee then tee_on [NewOutputWithProviderAndCompanySender raw ProviderKflow cid EventOutput (q_sender_id q)] s else s in
  match capn_Messages raw with
  | None => finish true s new_response
  | Some ms =>
      '(qs, (sent, dropped)) ← spread n 0 (omap (flow_of cid did name (q_sender_id q)) ms) (alphaChans s);
      finish false (set_alphas qs sent dropped s) new_response
  end.
Proof.
  intros [Hp Hg Hc Hl Hb Ht]. unfold handleFlow. rewrite Hp. cbn [String.eqb Ascii.eqb Bool.eqb negb].
  destruct (String.eqb_spec (Content_Encoding q) "gzip") as [E|E]; cbn [andb]; [rewrite (Hg E); cbn [negb]|].
  all: rewrite Hc; cbn [negb]; destruct (String.eqb_spec (Content_Length q) "") as [E'|E']; cbn [andb negb]; [|rewrite (Hl E'); cbn [negb]].
  all: rewrite Hb; cbn [negb]; by destruct (String.eqb_spec (Content_Type q) "application/json").
Qed.

(** C19: The flows of a request are dealt out to the threads in turn, the first to the first thread; a
    thread takes what it has room for, in order, and every flow is counted as sent or as dropped. *)
Theorem handleFlow_deals q s cid evt offset cid' did name ms : carries q cid evt → (0 < n)%nat → length (alphaChans s) = n →
  sender (q_sender_id q) evt cid = (offset, (cid', (did, name))) → capn_Messages (drop offset evt) = Some ms →
  let fs := omap (flow_of cid' did name (q_sender_id q)) ms in
  ∃ s', serve q s = Ok (s', mkResponse (Some 200) [Text "GOOD"]) ∧
    (m_Flows s' - m_Flows s) + (m_DroppedFlows s' - m_DroppedFlows s) = Z.of_nat (length fs) ∧
    ∀ t qu, alphaChans s !! t = Some qu → alphaChans s' !! t = Some (fill qu (share n 0 t fs)).
Proof.
  intros Hq Hn Hl Hs Hm fs. rewrite (handleFlow_carries q s cid evt Hq), Hs. cbn. rewrite Hm. fold fs.
  set (s1 := if has_tee then _ else s). assert (alphaChans s1 = alphaChans s ∧ m_Flows s1 = m_Flows s ∧ m_DroppedFlows s1 = m_DroppedFlows s) as (Ea & Ef & Ed)
    by (unfold s1; by destruct has_tee).
  rewrite Ea. destruct (spread_ok n 0 fs (alphaChans s)) as (qs' & sent & dropped & -> & Hsum & _ & Hqs); [lia|done|].
  cbn [mbind res_bind]. eexists. split; [reflexivity|]. cbn. rewrite Ef, Ed. split; [lia|]. exact Hqs.
Qed.

(** A post is answered GOOD or BAD. BAD goes with status 400 or 500, and one error is counted; GOOD
    goes with 200, or with 500 and the name of what failed, and then nothing was done and no error is counted. *)
Theorem handleFlow_answers q s s' w : Method q = "POST"%string → serve q s = Ok (s', w) →
  (w = mkResponse (Some 200) [Text "GOOD"] ∧ m_Errors s' = m_Errors s) ∨
  (w = mkResponse (Some 400) [Text "BAD"] ∧ m_Errors s' = m_Errors s + 1 ∧ alphaChans s' = alphaChans s) ∨
  (∃ what, w = mkResponse (Some 500) [ErrorOf what; Text "BAD"] ∧ s' = mark_error s) ∨
  (∃ what, w = mkResponse (Some 500) [ErrorOf what; Text "GOOD"] ∧ s' = s).
Proof.
  intros Hp. unfold handleFlow. rewrite Hp. cbn [String.eqb Ascii.eqb Bool.eqb negb].
  destruct (_ && negb (gzip_NewReader _)); [intros [= <- <-]; right; right; right; by eexists|].
  destruct (if String.eqb (q_sid q) "" then _ else _) as [cid []]; cbn [negb]; [|intros [= <- <-]; right; right; right; by eexists].
  destruct (_ && negb _); [intros [= <- <-]; right; right; right; by eexists|].
  destruct (read_body q) as [evt []]; cbn [negb]; [|intros [= <- <-]; right; right; left; by eexists].
  destruct (String.eqb (Content_Type q) _).
  - unfold handleJson. destruct (jchf0 s) as [|j p]; [intros [= <- <-]; by left|].
    destruct (json_Unmarshal evt) as [base|]; [|intros [= <- <-]; right; left; by split_and!].
    destruct (seri _); try done; intros [= <- <-]; [by left|right; left; by split_and!].
  - destruct (sender _ _ _) as [offset [cid' [did name]]]. destruct (capn_Messages _) as [ms|]; [|intros [= <- <-]; right; left; by destruct has_tee].
    destruct (spread _ _ _ _) as [[qs [a b]]| | |]; try done. intros [= <- <-]. left. split; [done|]. by destruct has_tee.
Qed.
End request_facts.

(** ** What goes out ([doSend], [sendToSinks])

    Encoders put messages on one channel of bounded size; one goroutine hands each to every sink.
    Rollups are exported by a timer; an export is what the rollups and the formatter give. *)
Definition MSGSC : nat := 60.
Definition BodyLen (o : option Output) : nat := match o with Some o => length (Body o) | None => O end.

Record outgoing := mkOutgoing {
  msgsc : list (option Output);
  sink_got : gmap string (list Output);
  og_maxFlows : Z }.
(** What [doSend] does with a message. *)
Definition send_all (ser : option Output) (got : gmap string (list Output)) : gmap string (list Output) :=
  match ser with
  | Some o => if (BodyLen ser =? 0)%nat then got else (λ l, l ++ [o]) <$> got
  | None => got
  end.
(** What an export of rollups is sent as: nothing when empty, and an error is logged. *)
Definition rollup_message (rollup : list Rollup.Roll → res (option Output)) (export : list Rollup.Roll) : list (option Output) :=
  match export with [] => [] | _ => match rollup export with Ok r => [r] | _ => [] end end.

Section outgoing.
Context (rollup : list Rollup.Roll → res (option Output)).
(** [sent]: what was put on the channel, [dealt]: what [doSend] took. *)
Inductive out_reach (sinks : gset string) (maxFlows : Z) : outgoing → list (option Output) → list (option Output) → Prop :=
| out_start : out_reach sinks maxFlows (mkOutgoing [] (gset_to_gmap [] sinks) maxFlows) [] []
| out_encode s sent dealt o : out_reach sinks maxFlows s sent dealt → (length (msgsc s) < MSGSC)%nat →
    out_reach sinks maxFlows (mkOutgoing (msgsc s ++ [o]) (sink_got s) (og_maxFlows s)) (sent ++ [o]) dealt
| out_rollup s sent dealt export o : out_reach sinks maxFlows s sent dealt → (length (msgsc s) < MSGSC)%nat →
    rollup_message rollup export = [o] →
    out_reach sinks maxFlows (mkOutgoing (msgsc s ++ [o]) (sink_got s) (og_maxFlows s)) (sent ++ [o]) dealt
| out_send s sent dealt o q : out_reach sinks maxFlows s sent dealt → msgsc s = o :: q →
    out_reach sinks maxFlows (mkOutgoing q (send_all o (sink_got s)) (og_maxFlows s)) sent (dealt ++ [o])
| out_too_big s sent dealt : out_reach sinks maxFlows s sent dealt →
    out_reach sinks maxFlows (mkOutgoing (msgsc s) (sink_got s) (tooBig (og_maxFlows s))) sent dealt.

(** The messages with something in them. *)
Definition bodies (l : list (option Output)) : list Output :=
  omap (λ ser, if (BodyLen ser =? 0)%nat then None else ser) l.

Lemma send_all_bodies o (sinks : gset string) l : send_all o (gset_to_gmap (bodies l) sinks) = gset_to_gmap (bodies (l ++ [o])) sinks.
Proof.
  unfold bodies. rewrite omap_app. cbn. destruct o as [o|]; cbn; [|by rewrite app_nil_r].
  destruct (length (Body o) =? 0)%nat; cbn; [by rewrite app_nil_r|]. apply map_eq. intros k.
  rewrite lookup_fmap, !lookup_gset_to_gmap. by repeat case_guard.
Qed.

(** C20: Every sink is given the same messages, those with a body, in the order in which they were put
    on the channel; what is not given yet is on the channel, and the size of messages stays positive. *)
Theorem sinks_agree sinks maxFlows s sent dealt : out_reach sinks maxFlows s sent dealt → 0 < maxFlows →
  sent = dealt ++ msgsc s ∧ sink_got s = gset_to_gmap (bodies dealt) sinks ∧ (length (msgsc s) ≤ MSGSC)%nat ∧ 0 < og_maxFlows s ≤ maxFlows.
Proof.
  intros Hr Hm. induction Hr as [|s sent dealt o _ IH Hl|s sent dealt ex o _ IH Hl _|s sent dealt o q _ IH Hq|s sent dealt _ IH].
  - split_and!; [done|done|cbn; lia|done|done].
  - destruct IH as (-> & -> & Hle & Hmf). split_and!; cbn; [by rewrite app_assoc|done|rewrite length_app; cbn; lia|lia|lia].
  - destruct IH as (-> & -> & Hle & Hmf). split_and!; cbn; [by rewrite app_assoc|done|rewrite length_app; cbn; lia|lia|lia].
  - destruct IH as (-> & -> & Hle & Hmf). rewrite Hq in *. split_and!; cbn [msgsc sink_got og_maxFlows length] in *; [by rewrite <-app_assoc|apply send_all_bodies|lia|lia|lia].
  - destruct IH as (-> & -> & Hle & Hmf). split_and!; cbn; [done|done|done|unfold tooBig; lia|].
    unfold tooBig. assert (3 * og_maxFlows s / 4 ≤ og_maxFlows s); [|lia]. apply Z.div_le_upper_bound; lia.
Qed.
End outgoing.

(** ** Copies of the log ([splitLogsForSinks], src/pkg/cat/logs.go)

    Every sink has a channel of its own; those that never read from it are told apart here as
    [NewSink] (src/pkg/sinks/sinks.go) hands the channel on.  Each copy waits for room. *)
Definition sink_reads_logs (sink : string) : bool :=
  bool_decide (sink ∈ ["stdout"; "new_relic"; "http"; "splunk"; "otel"]%string).

Record log_tee := mkLogTee {
  logTee : list string;              (* [kc.logTee] *)
  logTeeSinks : list (list string);  (* [kc.logTeeSinks] *)
  copying : option (string * nat);   (* the log that is copied, and the sink that is next *)
  logs_taken : list string;
  logs_read : list (list string) }.

Inductive logs_reach (sinks : list string) : log_tee → Prop :=
| logs_start : logs_reach sinks (mkLogTee [] (replicate (length sinks) []) None [] (replicate (length sinks) []))
| logs_come t l : logs_reach sinks t → (length (logTee t) < AlphaChan.CHAN_SLACK)%nat →
    logs_reach sinks (mkLogTee (logTee t ++ [l]) (logTeeSinks t) (copying t) (logs_taken t) (logs_read t))
| logs_take t l q : logs_reach sinks t → copying t = None → logTee t = l :: q →
    logs_reach sinks (mkLogTee q (logTeeSinks t) (Some (l, O)) (logs_taken t ++ [l]) (logs_read t))
| logs_copy t l k q : logs_reach sinks t → copying t = Some (l, k) → logTeeSinks t !! k = Some q → (length q < AlphaChan.CHAN_SLACK)%nat →
    logs_reach sinks (mkLogTee (logTee t) (<[k := q ++ [l]]> (logTeeSinks t)) (Some (l, S k)) (logs_taken t) (logs_read t))
| logs_done t l k : logs_reach sinks t → copying t = Some (l, k) → length (logTeeSinks t) = k →
    logs_reach sinks (mkLogTee (logTee t) (logTeeSinks t) None (logs_taken t) (logs_read t))
| logs_sink t k sink l q r : logs_reach sinks t → sinks !! k = Some sink → sink_reads_logs sink = true →
    logTeeSinks t !! k = Some (l :: q) → logs_read t !! k = Some r →
    logs_reach sinks (mkLogTee (logTee t) (<[k := q]> (logTeeSinks t)) (copying t) (logs_taken t) (<[k := r ++ [l]]> (logs_read t))).

(** What the sinks before the next one have, and what the others have. *)
Definition due (t : log_tee) (k : nat) : list string :=
  match copying t with
  | None => logs_taken t
  | Some (_, j) => if (k <? j)%nat then logs_taken t else take (length (logs_taken t) - 1) (logs_taken t)
  end.
Record logs_ok (sinks : list string) (t : log_tee) : Prop := {
  lo_queues : length (logTeeSinks t) = length sinks;
  lo_reads : length (logs_read t) = length sinks;
  lo_last : ∀ l j, copying t = Some (l, j) → ∃ pre, logs_taken t = pre ++ [l];
  lo_each : ∀ k q r, logTeeSinks t !! k = Some q → logs_read t !! k = Some r → r ++ q = due t k ∧ (length q ≤ AlphaChan.CHAN_SLACK)%nat;
  lo_unread : ∀ k sink r, sinks !! k = Some sink → sink_reads_logs sink = false → logs_read t !! k = Some r → r = [] }.

Lemma take_last {A} (pre : list A) l : take (length (pre ++ [l]) - 1) (pre ++ [l]) = pre.
Proof. rewrite length_app. cbn [length]. replace (length pre + 1 - 1)%nat with (length pre) by lia. by rewrite take_app_length. Qed.

Lemma logs_reach_ok sinks t : logs_reach sinks t → logs_ok sinks t.
Proof.
  induction 1 as [|t l _ IH Hl|t l q _ IH Hc Hq|t l k q _ IH Hc Hq Hl|t l k _ IH Hc Hk|t k sink l q r _ IH Hs Hr Hq Hrd].
  - split; cbn [logTee logTeeSinks copying logs_taken logs_read]; [by rewrite length_replicate..|done| |by intros k sink r _ _ [-> _]%lookup_replicate].
    intros k q r [-> _]%lookup_replicate [-> _]%lookup_replicate. split; [done|cbn; lia].
  - destruct IH as [H1 H2 H3 H4 H5]. by split.
  - destruct IH as [H1 H2 H3 H4 H5]. split; cbn [logTee logTeeSinks copying logs_taken logs_read]; [done|done|intros ? ? [= <- <-]; by eexists| |done].
    intros k q' r Hq' Hr. destruct (H4 k q' r Hq' Hr) as [E Hle]. split; [|done]. rewrite E. unfold due. rewrite Hc. cbn [copying logs_taken]. by rewrite take_last.
  - destruct IH as [H1 H2 H3 H4 H5]. destruct (H3 l k Hc) as [pre Hpre]. split; cbn [logTee logTeeSinks copying logs_taken logs_read]; [by rewrite length_insert|done|intros ? ? [= <- _]; by exists pre| |done].
    intros k' q' r Hq' Hr. destruct (decide (k' = k)) as [->|Hne].
    + rewrite list_lookup_insert_eq in Hq' by (by eapply lookup_lt_Some). injection Hq' as <-. destruct (H4 k q r Hq Hr) as [E _].
      split; [|rewrite length_app; cbn; lia]. rewrite app_assoc, E. unfold due. rewrite Hc. cbn [copying logs_taken].
      rewrite (proj2 (Nat.ltb_ge k k)) by lia. rewrite (proj2 (Nat.ltb_lt k (S k))) by lia. by rewrite Hpre, take_last.
    + rewrite list_lookup_insert_ne in Hq' by done. destruct (H4 k' q' r Hq' Hr) as [E Hle]. split; [|done]. rewrite E. unfold due. rewrite Hc. cbn [copying logs_taken].
      destruct (Nat.ltb_spec k' k), (Nat.ltb_spec k' (S k)); (done || lia).
  - destruct IH as [H1 H2 H3 H4 H5]. split; cbn [logTee logTeeSinks copying logs_taken logs_read]; [done|done|done| |done]. intros k' q' r Hq' Hr. destruct (H4 k' q' r Hq' Hr) as [E Hle]. split; [|done].
    rewrite E. unfold due. rewrite Hc. cbn [copying logs_taken]. apply lookup_lt_Some in Hq'. by rewrite (proj2 (Nat.ltb_lt k' k)) by lia.
  - destruct IH as [H1 H2 H3 H4 H5]. destruct (H4 k (l :: q) r Hq Hrd) as [E Hle]. split; cbn [logTee logTeeSinks copying logs_taken logs_read]; [by rewrite length_insert..|done| |].
    + intros k' q' r' Hq' Hr'. destruct (decide (k' = k)) as [->|Hne].
      * rewrite list_lookup_insert_eq in Hq' by (by eapply lookup_lt_Some). rewrite list_lookup_insert_eq in Hr' by (by eapply lookup_lt_Some).
        simplify_eq. rewrite <-app_assoc. cbn in *. split; [done|lia].
      * rewrite list_lookup_insert_ne in Hq', Hr' by done. apply (H4 k' q' r' Hq' Hr').
    + intros k' sink' r' Hs' Hf Hr'. destruct (decide (k' = k)) as [->|Hne]; [congruence|].
      rewrite list_lookup_insert_ne in Hr' by done. by apply (H5 k' sink' r').
Qed.

(** Every sink has the logs that were taken in their order, and lacks at most the last of them. But
    when one sink never reads, no more logs are taken for any than its channel holds and one. *)
Theorem logs_stop sinks t : logs_reach sinks t →
  (∀ k q r, logTeeSinks t !! k = Some q → logs_read t !! k = Some r → ∃ rest, logs_taken t = r ++ q ++ rest ∧ (length rest ≤ 1)%nat) ∧
  (∀ k sink, sinks !! k = Some sink → sink_reads_logs sink = false → (length (logs_taken t) ≤ AlphaChan.CHAN_SLACK + 1)%nat).
Proof.
  intros Ht%logs_reach_ok. destruct Ht as [H1 H2 H3 H4 H5].
  assert (∀ k q r, logTeeSinks t !! k = Some q → logs_read t !! k = Some r → ∃ rest, logs_taken t = r ++ q ++ rest ∧ (length rest ≤ 1)%nat) as Hall.
  { intros k q r Hq Hr. destruct (H4 k q r Hq Hr) as [E _]. setoid_rewrite (assoc app). rewrite E. unfold due. destruct (copying t) as [[l j]|] eqn:Ec.
    - destruct (H3 l j eq_refl) as [pre ->]. rewrite take_last. destruct (k <? j)%nat; [exists []|exists [l]]; (split; [by rewrite ?app_nil_r|cbn; lia]).
    - exists []. split; [by rewrite app_nil_r|cbn; lia]. }
  split; [done|]. intros k sink Hs Hf. apply lookup_lt_Some in Hs as Hk.
  destruct (lookup_lt_is_Some_2 (logTeeSinks t) k) as [q Hq]; [lia|]. destruct (lookup_lt_is_Some_2 (logs_read t) k) as [r Hr]; [lia|].
  destruct (Hall k q r Hq Hr) as (rest & E & Hle). destruct (H4 k q r Hq Hr) as [_ Hc]. rewrite (H5 k sink r Hs Hf Hr) in E.
  rewrite E, !length_app. cbn [length]. lia.
Qed.

(** ** Making and starting the parts ([NewKTranslate], [Run], [cleanup])

    A part is made or started by code outside this file, which may fail; what is here is which parts
    the configuration asks for, in which order, and where an error stops.  Go routines that are started
    do not fail. *)
Inductive part :=
| PConfig | PRollups | PFilters | PMapping | PUdr | PTagCity | PTagRegion | PKm | PGeo | PAsn | PSink (name : string) | PTee | PRules
| PEnricher | PObjmgr | PStitcher
| PWatchConfig | PResolver | PFormat (name : string) | PSinkInit (name : string) | PTeeInit | PObjmgrInit | PAuth | PApi | PLocalApi
| PTagMap | PInputChan | PMonitorInput (i : nat) | PWatchInput | PSplitLogs | PDiscover | PSnmp | PVpc (source : string)
| PFlow | PSyslog | PHttp | PMetrics (format : string) | PListen | PSend.
#[export] Instance part_eq_dec : EqDecision part.
Proof. solve_decision. Defined.

(** An action makes a part, or ends the function with what it returns. *)
Inductive action := Make (p : part) | Return (e : option error).
(** The parts made, and what is returned. *)
Fixpoint carry (fails : part → option error) (plan : list action) : list part * option error :=
  match plan with
  | [] => ([], None)
  | Return e :: _ => ([], e)
  | Make p :: plan => match fails p with Some e => ([], Some e) | None => let '(made, e) := carry fails plan in (p :: made, e) end
  end.
Definition opt (b : bool) (p : part) : list action := if b then [Make p] else [].

Record Config := mkConfig {
  MappingFile : bool; UDRSFile : bool; KMUdr : bool; GeoFile : bool; ASNFile : bool; Sinks : list string; TeeFlow : bool;
  Enricher : bool; S3Bucket : bool; cf_DeviceFile : bool; DNS : bool; cf_Format : string; FormatRollup : string; FormatMetric : string;
  KentikCreds : bool; InputThreads : nat; MaxThreads : nat; SNMP : bool; SNMPDiscovery : bool; GCPVPC : bool; AWSVPC : bool;
  FlowIn : bool; SyslogIn : bool; HTTPIn : bool; metricsChan : bool }.

(** [NewKTranslate]: what is loaded, and then where it goes. *)
Definition load_plan (c : Config) : list action :=
  [Make PConfig; Make PRollups; Make PFilters] ++ opt (MappingFile c) PMapping ++ opt (UDRSFile c) PUdr ++ [Make PTagCity; Make PTagRegion] ++
  opt (KMUdr c) PKm ++ opt (GeoFile c) PGeo ++ opt (ASNFile c) PAsn.
Definition new_plan (c : Config) : list action :=
  load_plan c ++ (Make ∘ PSink <$> Sinks c) ++ opt (TeeFlow c) PTee ++ [Make PRules] ++ opt (Enricher c) PEnricher ++
  (match Sinks c with [] => [Return (Some (Errorf "No sinks set" []))] | _ => [] end) ++ opt (S3Bucket c) PObjmgr ++ [Make PStitcher].

(** [assureInput]: the channel of inputs and the threads that read it, made once. *)
Definition assureInput (c : Config) (has_chan : bool) : list action :=
  if has_chan then []
  else Make PInputChan :: (Make ∘ PMonitorInput <$> seq 0 (InputThreads c)) ++ opt (InputThreads c <? MaxThreads c)%nat PWatchInput.
(** Everything up to the inputs. *)
Definition setup_plan (c : Config) : list action :=
  [Make PWatchConfig] ++ opt (DNS c) PResolver ++ [Make (PFormat (cf_Format c))] ++
  (if String.eqb (FormatRollup c) "" then [] else [Make (PFormat (FormatRollup c))]) ++
  (Make ∘ PSinkInit <$> Sinks c) ++ opt (TeeFlow c) PTeeInit ++ opt (S3Bucket c) PObjmgrInit ++ opt (cf_DeviceFile c) PAuth ++
  [Make (if KentikCreds c then PApi else PLocalApi); Make PTagMap; Make PSplitLogs].
Definition snmp_plan (c : Config) : list action :=
  if SNMP c then (if SNMPDiscovery c then [Make PDiscover; Return None] else assureInput c false ++ [Make PSnmp]) else [].
Definition vpc_plan (c : Config) (has_chan : bool) : list action :=
  if GCPVPC c || AWSVPC c then
    assureInput c has_chan ++
    (if GCPVPC c && AWSVPC c then [Return (Some (Errorf "cannot enable both GCP and VPC input sources" []))]
     else [Make (PVpc (if AWSVPC c then "aws" else "gcp"))])
  else [].
Definition input_plan (c : Config) (enabled : bool) (p : part) (has_chan : bool) : list action :=
  if enabled then assureInput c has_chan ++ [Make p] else [].
Definition metrics_plan (c : Config) : list action :=
  if metricsChan c then
    let format := if String.eqb (FormatMetric c) "" then "new_relic_metric"%string else FormatMetric c in
    (if String.eqb format (cf_Format c) then [] else [Make (PFormat format)]) ++ [Make (PMetrics format)]
  else [].
Definition run_plan (c : Config) : list action :=
  let snmp := SNMP c in let vpc := snmp || GCPVPC c || AWSVPC c in let flow := vpc || FlowIn c in let syslog := flow || SyslogIn c in
  setup_plan c ++ snmp_plan c ++ vpc_plan c snmp ++ input_plan c (FlowIn c) PFlow vpc ++ input_plan c (SyslogIn c) PSyslog flow ++
  input_plan c (HTTPIn c) PHttp syslog ++ metrics_plan c ++ [Make PListen; Make PSend].
Definition NewKTranslate (fails : part → option error) (c : Config) : list part * option error := carry fails (new_plan c).
Definition Run (fails : part → option error) (c : Config) : list part * option error := carry fails (run_plan c).

(** The parts that [cleanup] closes, in order, of those there are (the sinks in the order of a range). *)
Definition cleanup (has : string → bool) (sinks : list string) : list string :=
  "snmp"%string :: sinks ++ filter (λ p, has p = true) ["pgdb"; "geo"; "asn"; "vpc"; "nfs"; "syslog"; "confMgr"; "stitcher"]%string.

(** [getRouter]: the paths that are answered. *)
Definition getRouter (auth http : list string) : list string := ["/chf"; "/service_info"; "/check"]%string ++ auth ++ http.
(** [HttpInfo]: the lengths of the queues, added up. *)
Definition queued {A} (chans : list (list A)) : nat := sum_list (length <$> chans).

(** *** [watchInput] *)
(** One tick of a minute: the threads that read the inputs, by the length of their channel. *)
Definition watchInput (c : Config) (threads : nat) (inputChan : nat) : nat :=
  if (threads <? MaxThreads c)%nat && (AlphaChan.CHAN_SLACK - 10 <? inputChan)%nat then S threads else threads.

(** *** [monitorMetricsInput] *)
Definition monitorMetricsInput (fuel : nat) (maxFlows : Z) (seri : list JCHF → res (option Output)) (msgs : list JCHF) : res (list Output) :=
  exportJchfBatches fuel maxFlows seri msgs (Z.of_nat (length msgs)).

(** ** The order of parts *)
Fixpoint parts (plan : list action) : list part :=
  match plan with [] => [] | Return _ :: _ => [] | Make p :: plan => p :: parts plan end.

Lemma carry_prefix fails plan : (carry fails plan).1 `prefix_of` parts plan.
Proof.
  induction plan as [|[p|e] plan IH]; cbn; [done| |done]. destruct (fails p); [by apply prefix_nil|].
  destruct (carry fails plan) as [made e]. cbn in *. by apply prefix_cons.
Qed.

(** An input reads the channel of inputs. *)
Definition is_input (p : part) : bool := match p with PSnmp | PVpc _ | PFlow | PSyslog | PHttp => true | _ => false end.
(** The parts of [assureInput]. *)
Definition is_reader (p : part) : bool := match p with PInputChan | PMonitorInput _ | PWatchInput => true | _ => false end.
Definition readers (c : Config) : list part :=
  PInputChan :: (PMonitorInput <$> seq 0 (InputThreads c)) ++ (if (InputThreads c <? MaxThreads c)%nat then [PWatchInput] else []).

Lemma parts_make ps plan : parts ((Make <$> ps) ++ plan) = ps ++ parts plan.
Proof. induction ps as [|p ps IH]; [done|]. cbn. by rewrite IH. Qed.
Lemma opt_make b p : opt b p = Make <$> (if b then [p] else []).
Proof. by destruct b. Qed.
Lemma assure_make c : assureInput c false = Make <$> readers c.
Proof. unfold assureInput, readers. rewrite opt_make, fmap_cons, fmap_app, <-list_fmap_compose. done. Qed.

(** Inputs and readers in a list of parts that has at most one round of readers. *)
Inductive run_shape (c : Config) : list part → Prop :=
| shape_none l : Forall (λ p, is_input p = false ∧ is_reader p = false) l → run_shape c l
| shape_readers l l' : Forall (λ p, is_input p = false ∧ is_reader p = false) l → Forall (λ p, is_reader p = false) l' →
    run_shape c (l ++ readers c ++ l').

Lemma setup_parts c : ∃ l, setup_plan c = Make <$> l ∧ Forall (λ p, is_input p = false ∧ is_reader p = false) l.
Proof.
  exists ([PWatchConfig] ++ (if DNS c then [PResolver] else []) ++ [PFormat (cf_Format c)] ++ (if String.eqb (FormatRollup c) "" then [] else [PFormat (FormatRollup c)]) ++
    (PSinkInit <$> Sinks c) ++ (if TeeFlow c then [PTeeInit] else []) ++ (if S3Bucket c then [PObjmgrInit] else []) ++ (if cf_DeviceFile c then [PAuth] else []) ++
    [if KentikCreds c then PApi else PLocalApi; PTagMap; PSplitLogs]). split.
  - unfold setup_plan. rewrite !opt_make, !fmap_app, <-list_fmap_compose. by destruct (String.eqb _ _).
  - rewrite !Forall_app. split_and!; [repeat constructor|by case_match; repeat constructor|repeat constructor|by case_match; repeat constructor| | | | |].
    + apply Forall_fmap, Forall_true. done.
    + by case_match; repeat constructor.
    + by case_match; repeat constructor.
    + by case_match; repeat constructor.
    + repeat constructor; by case_match.
Qed.

(** The rest of [Run], from the inputs on, by whether the readers run already. *)
Definition after_vpc (c : Config) (vpc : bool) : list action :=
  let flow := vpc || FlowIn c in let syslog := flow || SyslogIn c in
  input_plan c (FlowIn c) PFlow vpc ++ input_plan c (SyslogIn c) PSyslog flow ++ input_plan c (HTTPIn c) PHttp syslog ++ metrics_plan c ++ [Make PListen; Make PSend].
Ltac few_parts := unfold vpc_plan, after_vpc, input_plan, metrics_plan, assureInput; cbn [orb]; repeat case_match; try discriminate; cbn; repeat constructor.
Lemma metrics_parts c : Forall (λ p, is_input p = false ∧ is_reader p = false) (parts (metrics_plan c ++ [Make PListen; Make PSend])).
Proof. few_parts. Qed.
Lemma after_vpc_readers c : Forall (λ p, is_reader p = false) (parts (after_vpc c true)).
Proof. few_parts. Qed.
Lemma vpc_readers c : Forall (λ p, is_reader p = false) (parts (vpc_plan c true ++ after_vpc c true)).
Proof. few_parts. Qed.

Lemma readers_first c plan : Forall (λ p, is_reader p = false) (parts plan) → run_shape c (parts (assureInput c false ++ plan)).
Proof. intros Hp. rewrite assure_make, parts_make. apply (shape_readers c []); [constructor|done]. Qed.
Lemma shape_app c l l' : Forall (λ p, is_input p = false ∧ is_reader p = false) l → run_shape c l' → run_shape c (l ++ l').
Proof.
  intros Hl Hs. destruct Hs as [l' Hl'|l1 l2 H1 H2]; [apply shape_none; by apply Forall_app|].
  rewrite app_assoc. apply shape_readers; [by apply Forall_app|done].
Qed.
Lemma Run_shape c : run_shape c (parts (run_plan c)).
Proof.
  unfold run_plan. destruct (setup_parts c) as (l & -> & Hl). rewrite parts_make. apply shape_app; [done|].
  fold (after_vpc c (SNMP c || GCPVPC c || AWSVPC c)). unfold snmp_plan. destruct (SNMP c); [destruct (SNMPDiscovery c)|].
  - apply shape_none. repeat constructor.
  - rewrite <-(assoc app). apply readers_first. constructor; [done|]. apply vpc_readers.
  - cbn [app orb]. unfold vpc_plan. destruct (GCPVPC c || AWSVPC c) eqn:Ev.
    + rewrite <-(assoc app). apply readers_first. case_match; [constructor|]. constructor; [done|apply after_vpc_readers].
    + unfold after_vpc. cbn [orb app]. unfold input_plan at 1. destruct (FlowIn c); cbn [orb].
      { rewrite <-(assoc app). apply readers_first. constructor; [done|]. few_parts. }
      cbn [app]. unfold input_plan at 1. destruct (SyslogIn c); cbn [orb].
      { rewrite <-(assoc app). apply readers_first. constructor; [done|]. few_parts. }
      cbn [app]. unfold input_plan at 1. destruct (HTTPIn c); cbn [app].
      { rewrite <-(assoc app). apply readers_first. constructor; [done|]. few_parts. }
      apply shape_none, metrics_parts.
Qed.

Lemma split_after {A} (a b pre suf : list A) p : p ∉ a → a ++ b = pre ++ p :: suf → ∃ k, pre = a ++ k ∧ b = k ++ p :: suf.
Proof.
  revert pre. induction a as [|x a IH]; intros pre Hp E; [by exists pre|]. destruct pre as [|y pre]; [injection E as -> _; set_solver|].
  injection E as -> E. destruct (IH pre) as (k & -> & ->); [set_solver|done|]. by exists k.
Qed.

(** An input is started only after the channel of inputs and all its readers, and these are started
    once. This is so whatever fails. *)
Theorem Run_readers_first fails c pre p suf : (Run fails c).1 = pre ++ p :: suf → is_input p = true →
  readers c ⊆ pre ∧ Forall (λ p, is_reader p = false) suf.
Proof.
  intros E Hi. pose proof (carry_prefix fails (run_plan c)) as Hp. change (carry fails (run_plan c)) with (Run fails c) in Hp. rewrite E in Hp.
  destruct Hp as [l El]. rewrite <-(assoc app), <-app_comm_cons in El. revert El. destruct (Run_shape c) as [l0 H0|l1 l2 H1 H2]; intros El.
  - exfalso. rewrite El, Forall_forall in H0. destruct (H0 p) as [Hp _]; [set_solver|congruence].
  - rewrite (assoc app) in El. apply split_after in El as (k & -> & ->).
    + apply Forall_app in H2 as [_ H2]. inversion H2 as [|? ? _ H3]; subst. apply Forall_app in H3 as [H3 _]. split; [set_solver|done].
    + intros [Hin|Hin]%elem_of_app.
      * rewrite Forall_forall in H1. destruct (H1 p Hin). congruence.
      * unfold readers in Hin. apply elem_of_cons in Hin as [->|[(i & -> & _)%list_elem_of_fmap|Hin]%elem_of_app]; [done..|].
        case_match; [|set_solver]. apply list_elem_of_singleton in Hin as ->. done.
Qed.

(** ** Concrete inputs *)
(** One message of high resolution for every byte of a body, of the device whose number the byte is. *)
Definition sv_msg (b : byte) : PackedMsg := mkPackedMsg (b2z b =? 0) false (set_c_DeviceId (b2z b) (set_c_SampleRate (2 ^ 31) (Kflow.chf_custom []))).
#[local] Instance sv_env : IngestEnv := {|
  gzip_NewReader _ := false; gzip_ReadAll b := (b, true);
  json_Unmarshal b := match b with [] => None | _ => Some [("a"%string, JObj [("b"%string, JStr "1")]); ("n"%string, JNum (S754_zero false))] end;
  capn_Messages b := Some (sv_msg <$> b); int64_of _ := 0 |}.
Definition sv_seri (l : list JCHF) : res (option Output) := Ok None.
Definition sv_body : list byte := z2b <$> [1; 0; 2; 3].
Definition sv_request : HttpRequest := mkHttpRequest "POST" "" "" "4" "" "17" sv_body.
Definition sv_state : ingest := mkIngest [[]; []] [NewJCHF] [] [] 0 0 0.

Lemma sv_carries : carries sv_request 17 sv_body.
Proof. split; (done || by intros). Defined.
Lemma handleFlow_deals_witness : ∃ s', handleFlow sv_seri 2 false sv_request sv_state = Ok (s', mkResponse (Some 200) [Text "GOOD"]) ∧
  map (map (λ f, c_DeviceId (f_CHF f))) (alphaChans s') = [[1; 3]; [2]].
Proof.
  destruct (handleFlow_deals sv_seri 2 false sv_request sv_state 17 sv_body 0 17 0 "" (sv_msg <$> sv_body) sv_carries) as (s' & E & _ & Hq);
    [lia|reflexivity|vm_compute; reflexivity|reflexivity|].
  exists s'. split; [exact E|]. revert E. vm_compute. intros [= <-]. reflexivity.
Defined.
(** Messages that were not sampled before are taken to be 1 in 100 of 32 bits. *)
Example rate_wraps : (λ f, c_SampleRate (f_CHF f)) <$> omap (flow_of 1 0 "" "") [mkPackedMsg false false (set_c_SampleRate 50000000 (Kflow.chf_custom []))] = [705032704].
Proof. vm_compute. reflexivity. Qed.

(** A body that is not what it says it is gets status 500, and is told that all is well. *)
Definition sv_gzip : HttpRequest := mkHttpRequest "POST" "gzip" "" "" "" "" sv_body.
Example good_after_500 : handleFlow sv_seri 2 false sv_gzip sv_state = Ok (sv_state, mkResponse (Some 500) [ErrorOf "gzip.NewReader"; Text "GOOD"]).
Proof. vm_compute. reflexivity. Qed.
Lemma handleFlow_answers_witness : ∃ s' w, handleFlow sv_seri 2 false sv_gzip sv_state = Ok (s', w) ∧ rs_status w = Some 500.
Proof.
  eexists _, _. split; [exact good_after_500|].
  destruct (handleFlow_answers sv_seri 2 false sv_gzip sv_state _ _ eq_refl good_after_500) as [[E _]|[[E _]|[(? & E & _)|(? & E & _)]]]; done.
Defined.

Definition sv_json : list (string * json) := [("a"%string, JObj [("b"%string, JStr "1")]); ("c"%string, JArr [JNull; JObj [("d"%string, JStr "2")]])].
Lemma json_columns_witness : map_range (CustomStr (json_flow sv_json NewJCHF)) !! "c_1_d"%string = Some "2"%string.
Proof.
  refine (proj2 (proj1 (json_columns sv_json NewJCHF _ "c_1_d") "2"%string) _); [vm_compute; repeat constructor; set_solver|].
  vm_compute. constructor 2. constructor 1.
Defined.
(** Two ways to one name: which text stays is up to the order in which a range visits the entries. *)
Example json_one_name : map_range (CustomStr (json_flow [("a"%string, JObj [("b"%string, JStr "1")]); ("a_b"%string, JStr "2")] NewJCHF)) !! "a_b"%string = Some "2"%string ∧
  map_range (CustomStr (json_flow [("a_b"%string, JStr "2"); ("a"%string, JObj [("b"%string, JStr "1")])] NewJCHF)) !! "a_b"%string = Some "1"%string.
Proof. split; vm_compute; reflexivity. Qed.

Definition sv_output : Output := NewOutput [Byte.x01].
Lemma sv_sent : out_reach (λ _, Ok None) {["kafka"; "stdout"]}%string 10
  (mkOutgoing [] (send_all (Some sv_output) (gset_to_gmap [] {["kafka"; "stdout"]}%string)) 7) [Some sv_output] [Some sv_output].
Proof.
  apply (out_too_big _ _ _ (mkOutgoing [] (send_all (Some sv_output) (gset_to_gmap [] {["kafka"; "stdout"]}%string)) 10)).
  apply (out_send _ _ _ (mkOutgoing [Some sv_output] (gset_to_gmap [] {["kafka"; "stdout"]}%string) 10) [Some sv_output] [] (Some sv_output) []); [|done].
  apply (out_encode _ _ _ (mkOutgoing [] (gset_to_gmap [] {["kafka"; "stdout"]}%string) 10) [] []); [apply out_start|cbn; unfold MSGSC; lia].
Defined.
Lemma sinks_agree_witness : send_all (Some sv_output) (gset_to_gmap [] {["kafka"; "stdout"]}%string) = gset_to_gmap [sv_output] {["kafka"; "stdout"]}%string.
Proof. exact (proj1 (proj2 (sinks_agree _ _ _ _ _ _ sv_sent eq_refl))). Defined.

Lemma sv_logs : logs_reach ["stdout"; "kafka"]%string (mkLogTee [] [["x"]; []]%string (Some ("x"%string, 1%nat)) ["x"]%string [[]; []]).
Proof.
  apply (logs_copy ["stdout"; "kafka"]%string (mkLogTee [] [[]; []] (Some ("x"%string, 0%nat)) ["x"]%string [[]; []]) "x" 0 []); [|done..|unfold AlphaChan.CHAN_SLACK; cbn; lia].
  apply (logs_take ["stdout"; "kafka"]%string (mkLogTee ["x"]%string [[]; []] None [] [[]; []]) "x" []); [|done..].
  apply (logs_come ["stdout"; "kafka"]%string (mkLogTee [] [[]; []] None [] [[]; []]) "x"); [apply logs_start|unfold AlphaChan.CHAN_SLACK; cbn; lia].
Defined.
Lemma logs_stop_witness : (1 ≤ AlphaChan.CHAN_SLACK + 1)%nat.
Proof. exact (proj2 (logs_stop _ _ sv_logs) 1%nat "kafka"%string eq_refl eq_refl). Defined.

Definition sv_config : Config := mkConfig false false false false false ["stdout"%string] false false false false false "json" "" "" true 2 4 false false false false true true false false.
Lemma Run_readers_first_witness : (Run (λ p, match p with PSyslog => Some EOF | _ => None end) sv_config).2 = Some EOF ∧
  readers sv_config ⊆ parts (setup_plan sv_config) ++ readers sv_config.
Proof.
  split; [reflexivity|].
  refine (proj1 (Run_readers_first (λ p, match p with PSyslog => Some EOF | _ => None end) sv_config (parts (setup_plan sv_config) ++ readers sv_config) PFlow [] _ eq_refl)).
  reflexivity.
Defined.
(** Without sinks everything is made before this is said to be an error. *)
Example no_sinks : NewKTranslate (λ _, None) (mkConfig false false false false false [] true false false false false "json" "" "" true 2 4 false false false false true true false false) =
  ([PConfig; PRollups; PFilters; PTagCity; PTagRegion; PTee; PRules], Some (Errorf "No sinks set" [])).
Proof. reflexivity. Qed.
