(* ===== verification/SnmpMeta.v ===== *)
(** Metadata over SNMP (src/pkg/inputs/snmp/metadata): interfaces and their addresses, objects of the
    device, and the flow that carries both.

    The device, the clock and the orders of ranges are parameters. An interface is a pointer in the
    code; it is in the table under its index as long as the poll lasts, so a pointer to it is its index. *)
From Stdlib Require Import Floats.SpecFloat.
From S2P Require Import Prelude GoStrings GoNet.
From S2P Require Import Jchf.
From S2P Require Import KtHelpers.
From S2P Require Import MibProfile.
From S2P Require Import SnmpCounters.
From S2P Require Import SnmpConv.
From S2P Require Maps.
From S2P Require Prom.
From S2P Require FormatsUtil.
Local Open Scope Z_scope.

(** ** Interfaces (interface_metadata.go) *)
Definition SNMP_ifDescr : string := "ifDescr".
Definition SNMP_ifAlias : string := "ifAlias".
Definition SNMP_ifSpeed : string := "ifSpeed".
Definition SNMP_ipAdEntIfIndex : string := "ipAdEntIfIndex".
Definition SNMP_ipAdEntNetMask : string := "ipAdEntNetMask".
Definition SNMP_ipv6AddrPrefix : string := "ipv6AddrPrefix".
Definition SNMP_ifConnectorPresent : string := "ConnectorPresent".
Definition SNMP_ifType : string := "Type".
Definition SNMP_ifPhysAddress : string := "PhysAddress".
Definition SNMP_ifLastChange : string := "LastChange".
Definition SNMP_HUAWEI_ID_MAP_OID : string := "1.3.6.1.4.1.2011.5.25.110.1.2.1.2".
Definition MIN_WORKING_HUAWEI_VERSION : Z := 5.
Definition LOGICAL_INTERFACE : string := "logical".
Definition PHYSICAL_INTERFACE : string := "physical".
Definition IF_HIGH_SPEED : string := "1.3.6.1.2.1.31.1.1.1.15".

Record IPAddr := mkIPAddr { Address : string; Netmask : string }.
Record InterfaceData := mkInterface {
  id_Addr : IPAddr; AliasAddr : list IPAddr; Index : string; Speed : Z; Description : string; Alias : string; id_Type : string;
  ExtraInfo : gmap string string }.
Definition new_interface (idx : string) : InterfaceData := mkInterface (mkIPAddr "" "") [] idx 0 "" "" "" ∅.
Definition set_Addr (a : IPAddr) (d : InterfaceData) : InterfaceData := mkInterface a (AliasAddr d) (Index d) (Speed d) (Description d) (Alias d) (id_Type d) (ExtraInfo d).
Definition set_AliasAddr (l : list IPAddr) (d : InterfaceData) : InterfaceData := mkInterface (id_Addr d) l (Index d) (Speed d) (Description d) (Alias d) (id_Type d) (ExtraInfo d).
Definition set_Index (i : string) (d : InterfaceData) : InterfaceData := mkInterface (id_Addr d) (AliasAddr d) i (Speed d) (Description d) (Alias d) (id_Type d) (ExtraInfo d).
Definition set_Speed (z : Z) (d : InterfaceData) : InterfaceData := mkInterface (id_Addr d) (AliasAddr d) (Index d) z (Description d) (Alias d) (id_Type d) (ExtraInfo d).
Definition set_Description (s : string) (d : InterfaceData) : InterfaceData := mkInterface (id_Addr d) (AliasAddr d) (Index d) (Speed d) s (Alias d) (id_Type d) (ExtraInfo d).
Definition set_Alias (s : string) (d : InterfaceData) : InterfaceData := mkInterface (id_Addr d) (AliasAddr d) (Index d) (Speed d) (Description d) s (id_Type d) (ExtraInfo d).
Definition set_Type (s : string) (d : InterfaceData) : InterfaceData := mkInterface (id_Addr d) (AliasAddr d) (Index d) (Speed d) (Description d) (Alias d) s (ExtraInfo d).
Definition set_Extra (k v : string) (d : InterfaceData) : InterfaceData := mkInterface (id_Addr d) (AliasAddr d) (Index d) (Speed d) (Description d) (Alias d) (id_Type d) (<[k := v]> (ExtraInfo d)).

(** An ordered map: a key keeps its place. *)
Definition omap_Get (k : string) (m : list (string * string)) : option string := snd <$> (snd <$> list_find (λ e, e.1 = k) m).
Definition omap_Set (k v : string) (m : list (string * string)) : list (string * string) :=
  match list_find (λ e, e.1 = k) m with Some (i, _) => <[i := (k, v)]> m | None => m ++ [(k, v)] end.

Record InterfaceMetadata := mkInterfaceMetadata { im_mibs : gmap string Mib; interfaceOids : list (string * string) }.
(** The speed has an object of its own when the environment says so, and is then in bits. *)
Definition SNMP_Interface_OIDS (speed_oid : string) : list (string * string) :=
  foldl (λ m e, omap_Set e.1 e.2 m) [] [
    (speed_oid, SNMP_ifSpeed); ("1.3.6.1.2.1.4.20.1.2", SNMP_ipAdEntIfIndex); ("1.3.6.1.2.1.4.20.1.3", SNMP_ipAdEntNetMask);
    ("1.3.6.1.2.1.55.1.8.1.2", SNMP_ipv6AddrPrefix); ("1.3.6.1.2.1.2.2.1.6", SNMP_ifPhysAddress)]%string.
Definition isIfSpeed (speed_oid : string) : bool := negb (String.eqb speed_oid IF_HIGH_SPEED).
(** The name of an object without its mark of an interface, first with and then without underscore. *)
Definition strip_if (name : string) : string :=
  let name := if HasPrefix name "if_" then drop_string 3 name else name in
  if HasPrefix name "if" then drop_string 2 name else name.
Definition getFromCustomMap (mibs : gmap string Mib) : list string := FormatsUtil.sort_strings (map_to_list mibs).*1.
Definition add_custom (mibs : gmap string Mib) (im : InterfaceMetadata) (oid : string) : InterfaceMetadata :=
  match mibs !! oid with
  | None => im
  | Some mib =>
      let name := strip_if (GetName (Some mib)) in
      mkInterfaceMetadata (<[name := mib]> (im_mibs im))
        (match omap_Get oid (interfaceOids im) with Some _ => interfaceOids im | None => omap_Set oid name (interfaceOids im) end)
  end.
Definition NewInterfaceMetadata (speed_oid : string) (interfaceMetadataMibs : gmap string Mib) : InterfaceMetadata :=
  foldl (add_custom interfaceMetadataMibs) (mkInterfaceMetadata ∅ (SNMP_Interface_OIDS speed_oid)) (getFromCustomMap interfaceMetadataMibs).

(** [fmt.Sprintf("%02x", d)]. *)
Definition hex02 (d : Z) : string := let s := Maps.FormatInt16 d in if (String.length s <? 2)%nat then String "0" s else s.
(** The groups of an address from the numbers of an index; what is no number stays as it is. *)
Definition hex_part (s : string) : string := match Atoi s with Some d => hex02 d | None => s end.
Fixpoint join_pairs (l : list string) : list string :=
  match l with a :: b :: l => String.append a b :: join_pairs l | _ => [] end.
(** The interface and the network of an index of the object for IPv6 prefixes. *)
Definition ipv6_cidr (oidIdx : string) (len : Z) : option (string * string) :=
  match Split oidIdx "." with
  | ifIndex :: ((_ :: _) as s) =>
      if (length s =? 16)%nat then Some (ifIndex, String.append (Join (join_pairs (hex_part <$> s)) ":") (String "/" (Itoa len))) else None
  | _ => None
  end.

Record poll_state := mkPollState { intLine : gmap string InterfaceData; ifcIdx : gmap string string; byDescription : gmap string string }.
Definition update (idx : string) (f : InterfaceData → InterfaceData) (st : poll_state) : poll_state :=
  mkPollState (alter f idx (intLine st)) (ifcIdx st) (byDescription st).

(** A further address of an interface. *)
Definition add_address (a : IPAddr) (d : InterfaceData) : InterfaceData :=
  if String.eqb (Address (id_Addr d)) "" then set_Addr a d else set_AliasAddr (AliasAddr d ++ [a]) d.
(** The first alias with the address gets the mask. *)
Fixpoint mask_alias (addr mask : string) (l : list IPAddr) : list IPAddr :=
  match l with
  | [] => []
  | a :: l => if String.eqb (Address a) addr then mkIPAddr addr mask :: l else a :: mask_alias addr mask l
  end.
Definition set_mask (addr mask : string) (d : InterfaceData) : InterfaceData :=
  if String.eqb (Address (id_Addr d)) addr then set_Addr (mkIPAddr addr mask) d else set_AliasAddr (mask_alias addr mask (AliasAddr d)) d.

(** [ReadOctetString(variable, TRUNCATE)]. *)
Definition MAX_SNMP_LEN : nat := 128.
Fixpoint trim_zeros (b : list byte) : list byte := match b with Byte.x00 :: b => trim_zeros b | _ => b end.
Definition ReadOctetString (v : SnmpPDU) : res (option string) :=
  match pdu_Type v with
  | OctetString =>
      match pdu_Value v with
      | VBytes b => Ok (Some (String.string_of_list_byte (take MAX_SNMP_LEN (reverse (trim_zeros (reverse (trim_zeros b)))))))
      | _ => Panic "interface conversion: interface {} is not []uint8"
      end
  | _ => Ok None
  end.

(** [uint64(float64(z) / float64(1000000))]. *)
Definition float_trunc (x : spec_float) : Z := match x with S754_finite false m e => if e <? 0 then Zpos m / 2 ^ (- e) else Zpos m * 2 ^ e | _ => 0 end.
Definition millions (z : Z) : Z := float_trunc (Prom.float_div (Prom.float_of z) (Prom.float_of 1000000)).

Section interfaces.
Context `{Gosnmp} `{Submatcher}.
Variable is_speed : bool.

Definition big (v : SnmpPDU) : Z := Uint64_of (ToBigInt (pdu_Value v)).
Definition as_string (v : SnmpPDU) : res string :=
  match pdu_Value v with VString s => Ok s | _ => Panic "interface conversion: interface {} is not string" end.
Definition as_bytes (v : SnmpPDU) : res string :=
  match pdu_Value v with VBytes b => Ok (String.string_of_list_byte b) | _ => Panic "interface conversion: interface {} is not []uint8" end.

(** *** Addresses *)
Definition poll_address (oidName addr : string) (v : SnmpPDU) (st : poll_state) : res poll_state :=
  if String.eqb oidName SNMP_ipAdEntIfIndex then
    match pdu_Type v with
    | Integer =>
        let idx := Itoa (big v) in
        match intLine st !! idx with
        | Some d => Ok (mkPollState (<[idx := add_address (mkIPAddr addr "") d]> (intLine st)) (<[addr := idx]> (ifcIdx st)) (byDescription st))
        | None => Ok st
        end
    | _ => Ok st
    end
  else
    match pdu_Type v with
    | IPAddress =>
        match ifcIdx st !! addr with
        | Some idx =>
            match intLine st !! idx with
            | Some d =>
                if String.eqb (Address (id_Addr d)) addr || existsb (λ a, String.eqb (Address a) addr) (AliasAddr d)
                then mask ← as_string v; Ok (mkPollState (<[idx := set_mask addr mask d]> (intLine st)) (ifcIdx st) (byDescription st))
                else Ok st
            | None => Ok st
            end
        | None => Ok st
        end
    | _ => Ok st
    end.

(** *** Other objects *)
Definition poll_ipv6 (oidIdx : string) (v : SnmpPDU) (st : poll_state) : poll_state :=
  match pdu_Type v with
  | Integer =>
      match ipv6_cidr oidIdx (big v) with
      | Some (ifIndex, cidr) =>
          match ParseCIDR cidr with
          | Some (addr6, net6) => update ifIndex (add_address (mkIPAddr (IP_String addr6) (IP_String (Net_Mask net6)))) st
          | None => st
          end
      | None => st
      end
  | _ => st
  end.
Definition enum_text (mib : option Mib) (val : Z) (unknown : string) : string :=
  match mib ≫= mb_EnumRev with Some rev => default unknown (rev !! val) | None => Itoa val end.
Definition poll_extra (oidName : string) (mib : option Mib) (v : SnmpPDU) (d : InterfaceData) : res InterfaceData :=
  match pdu_Type v with
  | OctetString => s ← as_bytes v; Ok (set_Extra oidName s d)
  | ObjectIdentifier => s ← as_string v; Ok (set_Extra oidName s d)
  | Integer => let val := wraps 64 (big v) in Ok (set_Extra oidName (enum_text mib val (Itoa val)) d)
  | _ => Ok d
  end.
Definition poll_data (oidName : string) (mib : option Mib) (v : SnmpPDU) (d : InterfaceData) : res InterfaceData :=
  if String.eqb oidName SNMP_ifSpeed then Ok (set_Speed (if is_speed then millions (big v) else big v) d)
  else if String.eqb oidName SNMP_ifConnectorPresent then
    Ok (if big v =? 1 then set_Extra SNMP_ifConnectorPresent PHYSICAL_INTERFACE d
        else if big v =? 2 then set_Extra SNMP_ifConnectorPresent LOGICAL_INTERFACE d else d)
  else if String.eqb oidName SNMP_ifType then
    let val := wraps 64 (ToBigInt (pdu_Value v)) in Ok (set_Type (enum_text mib val (String.append "unknown: " (Itoa val))) d)
  else if String.eqb oidName SNMP_ifPhysAddress then
    Ok (match pdu_Type v with OctetString => set_Extra SNMP_ifPhysAddress ((GetFromConv (pdu_Value v) "hwaddr" ∅).1).1.2 d | _ => d end)
  else if String.eqb oidName SNMP_ifLastChange then Ok (set_Extra SNMP_ifLastChange (Itoa (wraps 64 (big v))) d)
  else poll_extra oidName mib v d.
Definition poll_interface (oidName : string) (mib : option Mib) (oidIdx : string) (v : SnmpPDU) (st : poll_state) : res poll_state :=
  if String.eqb oidName SNMP_ipv6AddrPrefix then Ok (poll_ipv6 oidIdx v st)
  else
    let d := default (new_interface oidIdx) (intLine st !! oidIdx) in
    let put d := mkPollState (<[oidIdx := d]> (intLine st)) (ifcIdx st) (byDescription st) in
    if String.eqb oidName SNMP_ifDescr then
      r ← ReadOctetString v;
      Ok (match r with
          | Some value => mkPollState (<[oidIdx := set_Description value d]> (intLine st)) (ifcIdx st) (<[value := oidIdx]> (byDescription st))
          | None => put d
          end)
    else if String.eqb oidName SNMP_ifAlias then
      r ← ReadOctetString v; Ok (put (match r with Some value => set_Alias value d | None => d end))
    else d ← poll_data oidName mib v d; Ok (put d).

(** A variable of the walk of an object. *)
Definition poll_variable (oidVal oidName : string) (mib : option Mib) (v : SnmpPDU) (st : poll_state) : res poll_state :=
  match Split (pdu_Name v) oidVal with
  | [_; String _ oidIdx] =>
      if bool_decide (is_Some (ParseIP oidIdx)) && (String.eqb oidName SNMP_ipAdEntIfIndex || String.eqb oidName SNMP_ipAdEntNetMask)
      then poll_address oidName oidIdx v st else poll_interface oidName mib oidIdx v st
  | _ => Ok st
  end.
Fixpoint poll_variables (oidVal oidName : string) (mib : option Mib) (l : list SnmpPDU) (st : poll_state) : res poll_state :=
  match l with [] => Ok st | v :: l => st ← poll_variable oidVal oidName mib v st; poll_variables oidVal oidName mib l st end.
(** The objects in their order; an error of a walk ends the poll. *)
Fixpoint poll_objects (walk : string → list SnmpPDU + error) (mibs : gmap string Mib) (oids : list (string * string)) (st : poll_state) : res poll_state :=
  match oids with
  | [] => Ok st
  | (oidVal, oidName) :: oids =>
      match walk oidVal with
      | inr e => Err e
      | inl results => st ← poll_variables oidVal oidName (mibs !! oidName) results st; poll_objects walk mibs oids st
      end
  end.
End interfaces.

(** *** The manufacturer ([GetDeviceManufacturer], util/util.go) *)
Definition SNMP_DEVICE_MANUFACTURER_OID : string := "1.3.6.1.2.1.1.1".
(** [encoding/base64]: the standard alphabet with padding; ends of lines are passed over. *)
Definition base64_value (b : byte) : option Z :=
  let z := b2z b in
  if (65 <=? z) && (z <=? 90) then Some (z - 65) else if (97 <=? z) && (z <=? 122) then Some (z - 71)
  else if (48 <=? z) && (z <=? 57) then Some (z + 4) else if z =? 43 then Some 62 else if z =? 47 then Some 63 else None.
Fixpoint base64_quanta (l : list byte) : option (list byte) :=
  match l with
  | [] => Some []
  | a :: b :: c :: d :: l =>
      x ← base64_value a; y ← base64_value b;
      match base64_value c, base64_value d with
      | Some z, Some w => ('(rest) ← base64_quanta l; Some (be_encode 3 (((x * 64 + y) * 64 + z) * 64 + w) ++ rest))
      | Some z, None => if bool_decide (d = Byte.x3d ∧ l = []) then Some (be_encode 2 (((x * 64 + y) * 64 + z) / 4)) else None
      | None, _ => if bool_decide (c = Byte.x3d ∧ d = Byte.x3d ∧ l = []) then Some (be_encode 1 ((x * 64 + y) / 16)) else None
      end
  | _ => None
  end.
Definition base64_decode (l : list byte) : option (list byte) := base64_quanta (filter (λ b, b ∉ [Byte.x0a; Byte.x0d]) l).

(** The runes of a text; a byte that starts none is the rune for errors. *)
Definition RuneError : Z := 65533.
Definition follows (b : byte) : bool := (128 <=? b2z b) && (b2z b <=? 191).
Definition rune_at (bs : list byte) : Z * nat :=
  match bs with
  | [] => (RuneError, 1%nat)
  | b :: rest =>
      match utf8_lead (b2z b), rest with
      | Some (O, _, _), _ => (b2z b, 1%nat)
      | Some (S O, lo, hi), c :: _ => if (lo <=? b2z c) && (b2z c <=? hi) then (b2z b mod 32 * 64 + b2z c mod 64, 2%nat) else (RuneError, 1%nat)
      | Some (S (S O), lo, hi), c :: d :: _ =>
          if (lo <=? b2z c) && (b2z c <=? hi) && follows d then ((b2z b mod 16 * 64 + b2z c mod 64) * 64 + b2z d mod 64, 3%nat) else (RuneError, 1%nat)
      | Some (S (S (S O)), lo, hi), c :: d :: e :: _ =>
          if (lo <=? b2z c) && (b2z c <=? hi) && follows d && follows e
          then (((b2z b mod 8 * 64 + b2z c mod 64) * 64 + b2z d mod 64) * 64 + b2z e mod 64, 4%nat) else (RuneError, 1%nat)
      | _, _ => (RuneError, 1%nat)
      end
  end.
Fixpoint runes_loop (skip : nat) (bs : list byte) : list Z :=
  match bs, skip with
  | [], _ => []
  | _ :: rest, S skip => runes_loop skip rest
  | _ :: rest, O => let '(r, w) := rune_at bs in r :: runes_loop (w - 1) rest
  end.
Fixpoint hex_fixed (n : nat) (z : Z) : string := match n with O => EmptyString | S n => String.append (hex_fixed n (z / 16)) (String (hex_char (z mod 16)) EmptyString) end.
Definition char_string (z : Z) : string := String.string_of_list_byte [z2b z].
Definition backslash (s : string) : string := String.append (char_string 92) s.
(** [strconv.QuoteToASCII] of a rune, without the quotes around. *)
Definition escape_rune (r : Z) : string :=
  if (r =? 34) || (r =? 92) then backslash (char_string r)
  else if (32 <=? r) && (r <=? 126) then char_string r
  else if r =? 7 then backslash "a" else if r =? 8 then backslash "b" else if r =? 12 then backslash "f" else if r =? 10 then backslash "n"
  else if r =? 13 then backslash "r" else if r =? 9 then backslash "t" else if r =? 11 then backslash "v"
  else if (r <? 32) || (r =? 127) then backslash (String.append "x" (hex_fixed 2 r))
  else if r <? 65536 then backslash (String.append "u" (hex_fixed 4 r)) else backslash (String.append "U" (hex_fixed 8 r)).
Definition manufacturer_text (enc : list byte) : string :=
  let text := String.string_of_list_byte (default enc (base64_decode enc)) in
  let text := TrimSpace (ReplaceAll (ReplaceAll text (char_string 10) "/") (char_string 13) "") in
  foldr (λ r s, String.append (escape_rune r) s) EmptyString (take 128 (runes_loop 0 (String.list_byte_of_string text))).
Definition GetDeviceManufacturer (walk_all : string → list SnmpPDU + error) : string :=
  match walk_all SNMP_DEVICE_MANUFACTURER_OID with
  | inl (mkPDU _ _ (VBytes enc) :: _) => manufacturer_text enc
  | _ => EmptyString
  end.

(** *** What interfaces inherit ([copyInterfaces]) *)
Definition ContainsAny (s : string) (substrs : list string) : bool := existsb (Contains s) substrs.
Definition parentInterfaceDescriptionFromDescription (description : string) : string :=
  match SplitN 1 description "." with parent :: _ :: _ => parent | _ => EmptyString end.
Definition getUniqueLogical (byDescr : gmap string string) (descr : string) : option string :=
  child0 ← byDescr !! String.append descr ".0";
  if existsb (λ e, HasPrefix e.1 (String.append descr ".") && negb (String.eqb e.2 child0)) (map_to_list byDescr) then None else Some child0.
Definition copy_alias (byDescr : gmap string string) (ifs : gmap string InterfaceData) (d : InterfaceData) : InterfaceData :=
  if String.eqb (Alias d) "" then
    let parentDescr := parentInterfaceDescriptionFromDescription (Description d) in
    if String.eqb parentDescr "" then d
    else match byDescr !! parentDescr ≫= λ i, ifs !! i with
         | Some parent => if String.eqb (Alias parent) "" then d else set_Alias (String.append (Alias parent) " (inherited from physical)") d
         | None => d
         end
  else d.
Definition copy_logical (donor d : InterfaceData) : InterfaceData :=
  let d := if String.eqb (Alias d) "" && negb (String.eqb (Alias donor) "") then set_Alias (String.append (Alias donor) " (inherited from logical)") d else d in
  if String.eqb (Address (id_Addr d)) "" && negb (String.eqb (Address (id_Addr donor)) "") then set_AliasAddr (AliasAddr donor) (set_Addr (id_Addr donor) d) else d.
Definition copy_interface (byDescr : gmap string string) (isQFX : bool) (ifs : gmap string InterfaceData) (idx : string) : gmap string InterfaceData :=
  match ifs !! idx with
  | None => ifs
  | Some d =>
      let d := copy_alias byDescr ifs d in
      let ifs := <[idx := d]> ifs in
      if isQFX then
        match getUniqueLogical byDescr (Description d) ≫= λ i, ifs !! i with Some donor => <[idx := copy_logical donor d]> ifs | None => ifs end
      else ifs
  end.
(** [order]: the order of the range over the interfaces. *)
Definition copyInterfaces (order : list string) (byDescr : gmap string string) (lowerManufacturer : string) (ifs : gmap string InterfaceData) : gmap string InterfaceData :=
  let isQFX := ContainsAny lowerManufacturer ["juniper"; "junos"]%string && Contains lowerManufacturer "qfx" in
  foldl (copy_interface byDescr isQFX) ifs order.

Definition empty_state : poll_state := mkPollState ∅ ∅ ∅.
Definition interface_Poll `{Gosnmp} `{Submatcher} (is_speed : bool) (walk walk_all : string → list SnmpPDU + error) (order : gmap string InterfaceData → list string)
    (im : InterfaceMetadata) : res (gmap string InterfaceData * string) :=
  st ← poll_objects is_speed walk (im_mibs im) (interfaceOids im) empty_state;
  let deviceManufacturer := GetDeviceManufacturer walk_all in
  Ok (copyInterfaces (order (intLine st)) (byDescription st) (ToLower deviceManufacturer) (intLine st), deviceManufacturer).

(** *** Old Huawei devices *)
(** The first digit of the first version in a text. *)
Definition digit_of (c : ascii) : option Z := let z := Z.of_nat (nat_of_ascii c) in if (48 <=? z) && (z <=? 57) then Some (z - 48) else None.
Fixpoint huawei_version (s : string) : option Z :=
  match s with
  | EmptyString => None
  | String _ t =>
      match (if HasPrefix s "Version " then drop_string 8 s else EmptyString) with
      | String d (String "." (String e _)) => match digit_of d, digit_of e with Some d, Some _ => Some d | _, _ => huawei_version t end
      | _ => huawei_version t
      end
  end.
Definition isBrokenHuawei (manufacturer : string) : bool :=
  Contains manufacturer "Huawei" && match huawei_version manufacturer with Some v => v <? MIN_WORKING_HUAWEI_VERSION | None => false end.
(** The new numbers of interfaces; a name that is the object's panics. *)
Fixpoint huawei_ids `{Gosnmp} (l : list SnmpPDU) (ids : gmap string string) : res (gmap string string) :=
  match l with
  | [] => Ok ids
  | v :: l =>
      match Split (pdu_Name v) SNMP_HUAWEI_ID_MAP_OID with
      | [_; EmptyString] => Panic "slice bounds out of range"
      | [_; String _ oidIdx] => huawei_ids l (<[oidIdx := Itoa (wraps 64 (big v))]> ids)
      | _ => huawei_ids l ids
      end
  end.
(** The interfaces that have new numbers, in the order of a range, and the others where no new number is theirs. *)
Definition renumber (ids : gmap string string) (order : list (string * InterfaceData)) : gmap string InterfaceData :=
  let idNew : gmap string InterfaceData := foldl (λ m e, match ids !! e.1 with Some i => <[i := set_Index i e.2]> m | None => m end) ∅ order in
  let idNewNotFound : gmap string InterfaceData := list_to_map (filter (λ e, ids !! e.1 = None) order) in
  idNew ∪ idNewNotFound.
Definition UpdateForHuawei `{Gosnmp} (walk_all : string → list SnmpPDU + error) (order : gmap string InterfaceData → list (string * InterfaceData))
    (ifs : gmap string InterfaceData) : res (gmap string InterfaceData) :=
  match walk_all SNMP_HUAWEI_ID_MAP_OID with
  | inr e => Err e
  | inl results => ids ← huawei_ids results ∅; Ok (renumber ids (order ifs))
  end.

(** ** Objects of the device (device_metadata.go) *)
Definition SNMP_device_metadata_oids : list (string * string) := [
  (".1.3.6.1.2.1.1.1.0", "sysDescr"); (".1.3.6.1.2.1.1.2.0", "sysObjectID"); (".1.3.6.1.2.1.1.4.0", "sysContact"); (".1.3.6.1.2.1.1.5.0", "sysName");
  (".1.3.6.1.2.1.1.6.0", "sysLocation"); (".1.3.6.1.2.1.1.7.0", "sysServices"); (".1.3.6.1.6.3.10.2.1.1.0", "sysEngineID")]%string.
(** The part of the device that a poll fills in. *)
Record DeviceMetricsMetadata := mkMD {
  SysName : string; SysObjectID : string; SysDescr : string; SysLocation : string; SysContact : string; SysServices : Z; md_EngineID : string;
  md_Customs : gmap string string; CustomInts : gmap string Z; Tables : gmap string DeviceTableMetadata }.
Definition new_md : DeviceMetricsMetadata := mkMD "" "" "" "" "" 0 "" ∅ ∅ ∅.
Definition md_texts (name objectid descr location contact engine : option string) (services : option Z) (m : DeviceMetricsMetadata) : DeviceMetricsMetadata :=
  mkMD (default (SysName m) name) (default (SysObjectID m) objectid) (default (SysDescr m) descr) (default (SysLocation m) location)
    (default (SysContact m) contact) (default (SysServices m) services) (default (md_EngineID m) engine) (md_Customs m) (CustomInts m) (Tables m).
Definition md_custom (k v : string) (m : DeviceMetricsMetadata) : DeviceMetricsMetadata :=
  mkMD (SysName m) (SysObjectID m) (SysDescr m) (SysLocation m) (SysContact m) (SysServices m) (md_EngineID m) (<[k := v]> (md_Customs m)) (CustomInts m) (Tables m).
Definition md_int (k : string) (z : Z) (m : DeviceMetricsMetadata) : DeviceMetricsMetadata :=
  mkMD (SysName m) (SysObjectID m) (SysDescr m) (SysLocation m) (SysContact m) (SysServices m) (md_EngineID m) (md_Customs m) (<[k := z]> (CustomInts m)) (Tables m).
Definition md_table (idx : string) (t : DeviceTableMetadata) (m : DeviceMetricsMetadata) : DeviceMetricsMetadata :=
  mkMD (SysName m) (SysObjectID m) (SysDescr m) (SysLocation m) (SysContact m) (SysServices m) (md_EngineID m) (md_Customs m) (CustomInts m) (<[idx := t]> (Tables m)).

(** A value of a table (src/pkg/kt/snmp.go). *)
Definition NewDeviceTableMetadata : DeviceTableMetadata := mkDeviceTableMetadata (Some ∅).
Definition NewMetaValue (mib : Mib) (sv : string) (iv : Z) : MetaValue :=
  let '(sv, iv) := match mb_EnumRev mib with Some rev => (default InvalidEnum (rev !! iv), 0) | None => (sv, iv) end in
  mkMetaValue (mb_Table mib) (Some (map_fold (λ k _ m, <[k := true]> m) {[mb_Table mib := true]} (map_range (mb_OtherTables mib)))) (TrimSpace sv) iv.

(** A variable, the object it was asked for with and the key that has among the objects. *)
Record meta_result := mkMetaResult { mr_variable : SnmpPDU; mr_mib : option Mib; mr_oid : string }.
Record DeviceMetadata := mkDeviceMetadata { dmd_mibs : gmap string (option Mib); dmd_basic : gmap string string; dmd_missing : gset string }.
Definition NewDeviceMetadata (NoDeviceHardcodedOids : bool) (mibs : gmap string Mib) : DeviceMetadata :=
  mkDeviceMetadata
    (if (0 <? size mibs)%nat then Some <$> mibs else list_to_map ((λ e, (e.1, None)) <$> SNMP_device_metadata_oids))
    (if NoDeviceHardcodedOids then ∅ else list_to_map SNMP_device_metadata_oids) ∅.

Section device_metadata.
Context `{Gosnmp} `{Submatcher}.

(** *** Walks *)
Record meta_walk := mkMetaWalk { mw_mibs : gmap string (option Mib); mw_results : list meta_result; mw_missing : Z; mw_seen : gset string; mw_errors : Z }.
Fixpoint keep_results (oid : string) (mib : option Mib) (l : list SnmpPDU) : res (list meta_result) :=
  match l with
  | [] => Ok []
  | v :: l =>
      keep ← (if match mib with Some mib => mb_WalkTable mib | None => false end
              then match pdu_Name v with EmptyString => Panic "slice bounds out of range" | String _ name => Ok (HasPrefix name oid) end else Ok true);
      rest ← keep_results oid mib l; Ok (if keep : bool then mkMetaResult v mib oid :: rest else rest)
  end.
Definition walk_meta (now : string → Z) (walk : string → list SnmpPDU + error) (st : meta_walk) (oid : string) (mib : option Mib) : res meta_walk :=
  let '(ready, mib) := match mib with Some mib => let '(r, mib) := IsPollReady (now oid) mib in (r, Some mib) | None => (true, None) end in
  if negb ready then Ok st
  else
    let mibs := <[oid := mib]> (mw_mibs st) in
    let walkOid := match mib with Some mib => if mb_WalkTable mib then mb_TableOid mib else oid | None => oid end in
    match walk walkOid with
    | inr _ => Ok (mkMetaWalk mibs (mw_results st) (mw_missing st) (mw_seen st) (mw_errors st + 1))
    | inl results =>
        kept ← keep_results oid mib results;
        let none := match results with [] => true | _ => false end in
        Ok (mkMetaWalk mibs (mw_results st ++ kept) (if none then mw_missing st + 1 else mw_missing st)
          (if none then {[oid]} ∪ mw_seen st else mw_seen st) (mw_errors st))
    end.
Fixpoint walk_metas (now : string → Z) (walk : string → list SnmpPDU + error) (order : list (string * option Mib)) (st : meta_walk) : res meta_walk :=
  match order with [] => Ok st | (oid, mib) :: order => st ← walk_meta now walk st oid mib; walk_metas now walk order st end.

(** *** Values *)
(** Conversions keep expressions in a cache. *)
Definition M (A : Type) : Type := gmap string Regexp → res (A * gmap string Regexp).
Definition ret {A} (a : A) : M A := λ c, Ok (a, c).
Definition lift {A} (r : res A) : M A := λ c, a ← r; Ok (a, c).
Definition conv_of (v : SnmpPDU) (conv : string) : M conversion := λ c, Ok (GetFromConv (pdu_Value v) conv c).
Definition bindM {A B} (m : M A) (f : A → M B) : M B := λ c, '(a, c) ← m c; f a c.

Definition put_value (idx oidName : string) (mv : MetaValue) (m : DeviceMetricsMetadata) : DeviceMetricsMetadata :=
  let t := default NewDeviceTableMetadata (Tables m !! idx) in
  md_table idx (mkDeviceTableMetadata (Some (<[oidName := mv]> (map_range (Customs t))))) m.
(** A text in a table, when it is valid. *)
Definition put_text (idx oidName : string) (mib : Mib) (val : string) (m : DeviceMetricsMetadata) : DeviceMetricsMetadata :=
  if ValidString val then put_value idx oidName (NewMetaValue mib val 0) m else m.
Definition converted (v : SnmpPDU) (mib : Mib) (val : string) : M string :=
  if String.eqb (mb_Conversion mib) "" then ret val else bindM (conv_of v (mb_Conversion mib)) (λ c, ret c.1.2).
Definition handleTable (idx : string) (v : SnmpPDU) (mib : Mib) (oidName : string) (m : DeviceMetricsMetadata) : M DeviceMetricsMetadata :=
  let idx := if HasPrefix idx "." then drop_string 1 idx else idx in
  let m := md_table idx (default NewDeviceTableMetadata (Tables m !! idx)) m in
  match pdu_Type v with
  | OctetString => bindM (lift (as_bytes v)) (λ val, bindM (converted v mib val) (λ val, ret (put_text idx oidName mib val m)))
  | IPAddress =>
      ret (match pdu_Value v with
           | VString val => put_value idx oidName (NewMetaValue mib val 0) m
           | VBytes b => put_value idx oidName (NewMetaValue mib (String.string_of_list_byte b) 0) m
           | _ => m
           end)
  | ObjectIdentifier => bindM (lift (as_string v)) (λ val, bindM (converted v mib val) (λ val, ret (put_text idx oidName mib val m)))
  | _ => ret (put_value idx oidName (NewMetaValue mib "" (wraps 64 (ToBigInt (pdu_Value v)))) m)
  end.
Definition put_scalar (v : SnmpPDU) (mib : Mib) (oidName : string) (m : DeviceMetricsMetadata) : M DeviceMetricsMetadata :=
  match pdu_Value v with
  | VString s => ret (md_custom oidName s m)
  | VBytes b =>
      if String.eqb (mb_Conversion mib) "" then ret (md_custom oidName (String.string_of_list_byte b) m)
      else bindM (conv_of v (mb_Conversion mib)) (λ '(ival, sval, mval),
        ret (if 0 <? ival then md_custom (String.append FormatsUtil.StringPrefix oidName) sval (md_int oidName ival m)
             else if (0 <? size (map_range mval))%nat then map_fold md_custom m (map_range mval)
             else md_custom oidName sval m))
  | _ =>
      let val := ToInt64 (pdu_Value v) in
      ret (match mb_EnumRev mib ≫= λ rev, rev !! val with Some ev => md_custom oidName ev m | None => md_int oidName val m end)
  end.
(** The objects that have fields of their own. *)
Definition put_system (v : SnmpPDU) (oidName : string) (m : DeviceMetricsMetadata) : option (M DeviceMetricsMetadata) :=
  let text (f : string → DeviceMetricsMetadata) := Some (bindM (lift (as_bytes v)) (λ s, ret (f s))) in
  if String.eqb oidName "sysDescr" then text (λ s, md_texts None None (Some s) None None None None m)
  else if String.eqb oidName "sysObjectID" then
    Some (match pdu_Value v with
          | VString s => ret (md_texts None (Some s) None None None None None m)
          | VBytes b => ret (md_texts None (Some (String.string_of_list_byte b)) None None None None None m)
          | _ => match pdu_Type v with ObjectIdentifier => lift (Panic "interface conversion: interface {} is not string") | _ => ret m end
          end)
  else if String.eqb oidName "sysContact" then text (λ s, md_texts None None None None (Some s) None None m)
  else if String.eqb oidName "sysName" then text (λ s, md_texts (Some s) None None None None None None m)
  else if String.eqb oidName "sysLocation" then text (λ s, md_texts None None None (Some s) None None None m)
  else if String.eqb oidName "sysServices" then Some (ret (md_texts None None None None None None (Some (ToInt64 (pdu_Value v))) m))
  else if String.eqb oidName "sysEngineID" then Some (bindM (conv_of v "engine_id") (λ c, ret (md_texts None None None None None (Some c.1.2) None m)))
  else None.
Definition is_nil (v : snmp_value) : bool := match v with VNil => true | _ => false end.
Definition put_result (basic : gmap string string) (w : meta_result) (m : DeviceMetricsMetadata) : M DeviceMetricsMetadata :=
  let v := mr_variable w in
  if is_nil (pdu_Value v) then ret m
  else
    match pdu_Name v with
    | EmptyString => lift (Panic "slice bounds out of range")
    | String _ name =>
        let idx := GetIndex name (mr_oid w) in
        let oidName := match basic !! pdu_Name v with Some name => name | None => match mr_mib w with Some mib => GetName (Some mib) | None => EmptyString end end in
        if String.eqb oidName "" then ret m
        else
          match put_system v oidName m with
          | Some r => r
          | None =>
              match mr_mib w with
              | None => ret m
              | Some mib => if String.eqb idx "" then put_scalar v mib oidName m else handleTable idx v mib oidName m
              end
          end
    end.
Fixpoint put_results (basic : gmap string string) (l : list meta_result) (m : DeviceMetricsMetadata) : M DeviceMetricsMetadata :=
  match l with [] => ret m | w :: l => bindM (put_result basic w m) (put_results basic l) end.

(** The state after a poll, the number of objects without results and of errors, and what was found. *)
Definition device_poll (now : string → Z) (walk : string → list SnmpPDU + error) (order : gmap string (option Mib) → list (string * option Mib))
    (dm : DeviceMetadata) (reCache : gmap string Regexp) : res (DeviceMetadata * (Z * Z) * DeviceMetricsMetadata * gmap string Regexp) :=
  st ← walk_metas now walk (order (dmd_mibs dm)) (mkMetaWalk (dmd_mibs dm) [] 0 (dmd_missing dm) 0);
  '(m, reCache) ← put_results (dmd_basic dm) (mw_results st) new_md reCache;
  Ok (mkDeviceMetadata (mw_mibs st) (dmd_basic dm) (mw_seen st), (mw_missing st, mw_errors st), m, reCache).

(** [GetBasicDeviceMetadata]: the objects of the system for discovery. *)
Fixpoint basic_results (l : list SnmpPDU) (m : DeviceMetricsMetadata) : M DeviceMetricsMetadata :=
  match l with
  | [] => ret m
  | v :: l =>
      if is_nil (pdu_Value v) then basic_results l m
      else match omap_Get (pdu_Name v) SNMP_device_metadata_oids with
           | None => basic_results l m
           | Some oidName => bindM (default (ret m) (put_system v oidName m)) (basic_results l)
           end
  end.
Fixpoint basic_oids (walk : string → list SnmpPDU + error) (oids : list string) (m : DeviceMetricsMetadata) : M DeviceMetricsMetadata :=
  match oids with
  | [] => ret m
  | oid :: oids => match walk oid with inr e => lift (Err e) | inl l => bindM (basic_results l m) (basic_oids walk oids) end
  end.
Definition GetBasicDeviceMetadata (walk : string → list SnmpPDU + error) : M DeviceMetricsMetadata := basic_oids walk SNMP_device_metadata_oids.*1 new_md.
End device_metadata.

(** ** The poller (poll.go) *)
Definition vendorPrefix : string := ".1.3.6.1.4.1.".
Definition TagValuePrefix : string := "$".
(** Every range is numbered, and visits the entries of a map in some order. *)
Class MetaRange := { range_of : ∀ {A}, nat → gmap string A → list (string * A) }.
Class MetaRangeLaws `{MetaRange} := { range_of_perm {A} n (m : gmap string A) : range_of n m ≡ₚ map_to_list m }.

(** [pm_matchAttr]: an expression that does not compile is a nil pointer. *)
Record MetaPoller := mkMetaPoller {
  pm_conf : device_conf; pm_tags : gmap string string; pm_MibProfile : string; pm_interfaces : InterfaceMetadata; pm_device : DeviceMetadata;
  deviceMetadataMibs : gmap string Mib; interfaceMetadataMibs : gmap string Mib; pm_matchAttr : gmap string (option Regexp);
  pm_counterTimeSec : string; SaveCache : bool; scache : gmap string string; tcache : gmap string DeviceTableMetadata }.
Definition set_cache (s : gmap string string) (t : gmap string DeviceTableMetadata) (p : MetaPoller) : MetaPoller :=
  mkMetaPoller (pm_conf p) (pm_tags p) (pm_MibProfile p) (pm_interfaces p) (pm_device p) (deviceMetadataMibs p) (interfaceMetadataMibs p) (pm_matchAttr p)
    (pm_counterTimeSec p) (SaveCache p) s t.
Record DeviceData := mkDeviceData { Manufacturer : string; InterfaceDatas : gmap string InterfaceData; DeviceMeta : option DeviceMetricsMetadata }.

(** [fmt.Sprintf("%v", d)] of a whole number of seconds. *)
Definition seconds_text (sec : Z) : string :=
  let h := sec / 3600 in let m := sec / 60 mod 60 in let s := String.append (Itoa (sec mod 60)) "s" in
  if 0 <? h then String.append (Itoa h) (String.append "h" (String.append (Itoa m) (String.append "m" s)))
  else if 0 <? m then String.append (Itoa m) (String.append "m" s) else s.

Section poller.
Context `{EnumOrder} `{MibOrder} `{RegexpCompiler} `{MetaRange}.

(** *** [NewPoller] *)
Definition mib_attrs (order : list (string * Mib)) (m : gmap string (option Regexp)) : gmap string (option Regexp) :=
  foldl (λ m e, map_fold (λ k re m, <[k := Some re]> m) m (map_range (mb_MatchAttr e.2))) m order.
Definition attr_map (device interface : gmap string Mib) (MatchAttr : list (string * string)) (MonitorAdminShut : bool) : gmap string (option Regexp) :=
  let m := mib_attrs (range_of 1 interface) (mib_attrs (range_of 0 device) ∅) in
  let m := foldl (λ m e, <[e.1 := MibProfile.Compile e.2]> m) m MatchAttr in
  if MonitorAdminShut then m else <[FormatsUtil.AdminStatus := MibProfile.Compile "up"]> m.
Definition NewPoller (speed_oid : string) (NoDeviceHardcodedOids saveCache : bool) (conf : device_conf) (oid : string) (tags : gmap string string) (mibProfile : string)
    (MatchAttr : list (string * string)) (MonitorAdminShut : bool) (enabledMibs : list string) (rate : Z) (profile : option MibProfile.Profile) : MetaPoller :=
  let '(device, interface) := match profile with Some p => GetMetadata p enabledMibs | None => (∅, ∅) end in
  let dev := match profile with Some p => GetDeviceSysComment p oid | None => EmptyString end in
  let tags := if String.eqb dev "" then tags else <["tags.kentik.model"%string := dev]> tags in
  mkMetaPoller conf tags mibProfile (NewInterfaceMetadata speed_oid interface) (NewDeviceMetadata NoDeviceHardcodedOids device) device interface
    (attr_map device interface MatchAttr MonitorAdminShut) (seconds_text rate) saveCache ∅ ∅.

(** *** [toFlows] *)
Definition lookupMib (p : MetaPoller) (n : nat) (key : string) (isInterface : bool) : option Mib :=
  let named mib k := String.eqb (mb_Name mib) k || String.eqb (mb_Tag mib) k in
  snd <$> (snd <$> list_find (λ e : string * Mib, named e.2 key || (isInterface && named e.2 (String.append "if_" key)) = true)
    (range_of n (if isInterface then interfaceMetadataMibs p else deviceMetadataMibs p))).
Definition mib_info (mib : Mib) : MetricInfo := mkMetricInfo (mb_Oid mib) (mb_Mib mib) "" "" (mb_Table mib) "" "" 0 (mb_OtherTables mib).
Definition put_str (k v : string) (j : JCHF) : JCHF := j <| CustomStr := Some (<[k := v]> (map_range (CustomStr j))) |>.
Definition put_int (k : string) (z : Z) (j : JCHF) : JCHF := j <| CustomInt := Some (<[k := wraps 32 z]> (map_range (CustomInt j))) |>.
Definition put_metric (k : string) (m : MetricInfo) (j : JCHF) : JCHF := j <| CustomMetrics := Some (<[k := m]> (map_range (CustomMetrics j))) |>.

(** The tables of a column: those of its first value, and then of the others. *)
Definition table_metric (j : JCHF) (e : string * MetaValue) : JCHF :=
  let '(k, v) := e in
  match map_range (CustomMetrics j) !! k with
  | None => put_metric k (mkMetricInfo "" "" "" "" (TableName v) "" "" 0 (TableNames v)) j
  | Some m => put_metric k (mkMetricInfo (Oid m) (Jchf.Mib m) (MI_Name m) (Jchf.Profile m) (MI_Table m) (Format m) (MI_Type m) (PollDur m)
                (Some (map_fold (λ k _ t, <[k := true]> t) (map_range (Jchf.Tables m)) (map_range (TableNames v))))) j
  end.

(** The parts of the flow that say what the device is. *)
Definition flow_device (p : MetaPoller) (md : DeviceMetricsMetadata) (j : JCHF) : JCHF :=
  let j := put_str "SysName" (SysName md) j in
  let j := put_str "SysObjectID" (SysObjectID md) j in
  let j := put_str "SysDescr" (SysDescr md) j in
  let j := put_str "SysLocation" (SysLocation md) j in
  let j := put_str "SysContact" (SysContact md) j in
  let j := put_int "SysServices" (SysServices md) j in
  let j := if String.eqb (DeviceName j) "" then j <| DeviceName := SysName md |> else j in
  let j := foldl (λ j e, if ValidString e.2 then put_str e.1 e.2 j else j) j (range_of 2 (md_Customs md)) in
  let j := foldl (λ j e, put_int e.1 e.2 j) j (range_of 3 (CustomInts md)) in
  let j := if (0 <? size (Tables md))%nat
           then foldl (λ j (e : string * DeviceTableMetadata), foldl table_metric j (range_of 5 (map_range (Customs e.2)))) (j <| CustomTables := Some (Tables md) |>) (range_of 4 (Tables md))
           else j in
  if String.eqb (Provider j) ProviderDefault then
    let oid := map_get "" (CustomStr j) "SysObjectID" in
    let j := if HasPrefix oid vendorPrefix then
               match SplitN 1 (drop_string (String.length vendorPrefix) oid) "." with
               | vendor :: _ => match Atoi vendor with Some id => put_int "sysoid_vendor" id j | None => j end
               | [] => j
               end
             else j in
    put_str "sysoid_profile" (pm_MibProfile p) j
  else j.
(** Where the columns come from. *)
Definition flow_lookups (p : MetaPoller) (j : JCHF) : JCHF :=
  let look n j k := match lookupMib p n k false with Some mib => put_metric k (mib_info mib) j | None => j end in
  foldl (look 9%nat) (foldl (look 8%nat) j (range_of 6 (map_range (CustomStr j))).*1) (range_of 7 (map_range (CustomInt j))).*1.
(** Tags of the device; a value that starts with a dollar is the name of a column. *)
Definition flow_tag (j : JCHF) (e : string * string) : JCHF :=
  let '(k, v) := e in
  let v := if HasPrefix v TagValuePrefix && (String.length TagValuePrefix <? String.length v)%nat
           then default v (map_range (CustomStr j) !! drop_string (String.length TagValuePrefix) v) else v in
  put_metric k (mkMetricInfo "" "" "" "" FormatsUtil.DeviceTagTable "" "" 0 None) (put_str k v j).
Definition flow_tags (logLevel : string) (p : MetaPoller) (j : JCHF) : JCHF :=
  foldl flow_tag j (range_of 10 (pm_tags p ∪ {["SysLogLevel" := logLevel; "SysPollInterval" := pm_counterTimeSec p]}%string)).
Definition if_name (intr key : string) : string := String.append "if." (String.append intr (String.append "." key)).
Definition flow_extra (p : MetaPoller) (intr : string) (j : JCHF) (e : string * string) : JCHF :=
  if ValidString e.2 then
    let j := put_str (if_name intr e.1) e.2 j in
    match lookupMib p 13 e.1 true with Some mib => put_metric (String.append "if_" e.1) (mib_info mib) j | None => j end
  else j.
Definition flow_interface (p : MetaPoller) (j : JCHF) (e : string * InterfaceData) : JCHF :=
  let '(intr, d) := e in
  let j := put_str (if_name intr "Address") (Address (id_Addr d)) j in
  let j := put_str (if_name intr "Netmask") (Netmask (id_Addr d)) j in
  let j := put_str (if_name intr "Index") (Index d) j in
  let j := put_int (if_name intr "Speed") (Speed d) j in
  let j := put_str (if_name intr "Description") (Description d) j in
  let j := put_str (if_name intr "Alias") (Alias d) j in
  let j := put_str (if_name intr "Type") (id_Type d) j in
  foldl (flow_extra p intr) j (range_of 12 (ExtraInfo d)).
Definition base_meta_flow (p : MetaPoller) (now : Z) (dd : DeviceData) : JCHF :=
  NewJCHF <| CustomStr := Some {["Manufacturer" := Manufacturer dd]}%string |> <| CustomInt := Some ∅ |> <| CustomBigInt := Some ∅ |> <| CustomMetrics := Some ∅ |>
    <| EventType := Prom.KENTIK_EVENT_SNMP_METADATA |> <| Provider := dc_Provider (pm_conf p) |> <| DeviceName := dc_DeviceName (pm_conf p) |>
    <| SrcAddr := dc_DeviceIP (pm_conf p) |> <| Timestamp := now |>.
(** The flow before the cache is looked at. *)
Definition fresh_flow (logLevel : string) (now : Z) (p : MetaPoller) (dd : DeviceData) : JCHF :=
  let j := base_meta_flow p now dd in
  let j := match DeviceMeta dd with Some md => flow_device p md j | None => j end in
  foldl (flow_interface p) (flow_tags logLevel p (flow_lookups p j)) (range_of 11 (InterfaceDatas dd)).
(** What was said before and is not said now is kept; a table cannot be put into no tables. *)
Definition use_cache (p : MetaPoller) (j : JCHF) : res (MetaPoller * JCHF) :=
  let strs := map_range (CustomStr j) ∪ scache p in
  let missing := tcache p ∖ map_range (CustomTables j) in
  match CustomTables j with
  | None => if (0 <? size missing)%nat then Panic "assignment to entry in nil map"
            else Ok (set_cache strs ∅ p, j <| CustomStr := Some strs |>)
  | Some tables => let tables := tables ∪ tcache p in Ok (set_cache strs tables p, j <| CustomStr := Some strs |> <| CustomTables := Some tables |>)
  end.
(** The poller, the flow, and the expressions its attributes must match. *)
Definition toFlows (logLevel : string) (now : Z) (dd : DeviceData) (p : MetaPoller) : res (MetaPoller * (JCHF * option (gmap string (option Regexp)))) :=
  let j := fresh_flow logLevel now p dd in
  '(p, j) ← (if SaveCache p then use_cache p j else Ok (p, j));
  Ok (p, (j, if (0 <? size (pm_matchAttr p))%nat then Some (pm_matchAttr p) else None)).
End poller.

(** *** [PollSNMPMetadata] and the loop *)
Section poll_loop.
Context `{Gosnmp} `{Submatcher} `{RegexpCompiler} `{MetaRange}.
(** What a poll meets. *)
Record meta_env := mkMetaEnv { me_now : string → Z; me_device : device_answers; me_stamp : Z; me_logLevel : string }.

Definition PollSNMPMetadata (is_speed : bool) (env : meta_env) (p : MetaPoller) (reCache : gmap string Regexp) : res (DeviceData * DeviceMetadata * gmap string Regexp) :=
  let walk := WalkOID (me_device env) in
  let walk_all := WalkAll (me_device env) 0 in
  '(intLine, manufacturer) ← interface_Poll is_speed walk walk_all (λ m, (range_of 14 m).*1) (pm_interfaces p);
  intLine ← (if isBrokenHuawei manufacturer then UpdateForHuawei walk_all (range_of 15) intLine else Ok intLine);
  '(dm, _, md, reCache) ← device_poll (me_now env) walk (range_of 16) (pm_device p) reCache;
  Ok (mkDeviceData manufacturer intLine (Some md), dm, reCache).
Definition set_device (dm : DeviceMetadata) (p : MetaPoller) : MetaPoller :=
  mkMetaPoller (pm_conf p) (pm_tags p) (pm_MibProfile p) (pm_interfaces p) dm (deviceMetadataMibs p) (interfaceMetadataMibs p) (pm_matchAttr p)
    (pm_counterTimeSec p) (SaveCache p) (scache p) (tcache p).
(** [runPoll]: the flow that is sent, if any. *)
Definition runPoll (is_speed : bool) (env : meta_env) (st : MetaPoller * gmap string Regexp) : res (MetaPoller * gmap string Regexp * option (JCHF * option (gmap string (option Regexp)))) :=
  let '(p, reCache) := st in
  match PollSNMPMetadata is_speed env p reCache with
  | Ok (dd, dm, reCache) =>
      '(p, flow) ← toFlows (me_logLevel env) (me_stamp env) dd (set_device dm p); Ok (p, reCache, Some flow)
  | Err _ => Ok (p, reCache, None)
  | Panic why => Panic why
  | OutOfFuel => OutOfFuel
  end.
End poll_loop.

(** ** IPv6 addresses in an index *)
Definition quad (ab : byte * byte) : string := String.append (hex_byte ab.1) (hex_byte ab.2).
Fixpoint byte_pairs (bs : list byte) : list (byte * byte) := match bs with a :: b :: bs => (a, b) :: byte_pairs bs | _ => [] end.
Definition unpair (l : list (byte * byte)) : list byte := l ≫= λ ab, [ab.1; ab.2].

Lemma hex02_byte b : hex02 (b2z b) = hex_byte b.
Proof. by destruct b; vm_compute. Qed.
Lemma hex_digits_value b : hex_value (hex_char (b2z b / 16)) = Some (b2z b / 16) ∧ hex_value (hex_char (b2z b mod 16)) = Some (b2z b mod 16).
Proof. by destruct b; vm_compute. Qed.
Lemma quads_head ab ps : ∃ x rest, Join (quad <$> ab :: ps) ":" = String x rest ∧ is_Some (hex_value x).
Proof.
  destruct ab as [a b]. exists (hex_char (b2z a / 16)). cbn [fmap list_fmap].
  destruct (quad <$> ps); (eexists; split; [unfold quad, hex_byte; reflexivity|]); rewrite (proj1 (hex_digits_value a)); by eexists.
Qed.

Lemma hex_group_quad a b rest : match rest with EmptyString => True | String c _ => hex_value c = None end →
  hex_group (String.append (quad (a, b)) rest) 0 0 = Some (b2z a * 256 + b2z b, 4%nat, rest).
Proof.
  intros Hr.
  change (String.append (quad (a, b)) rest) with (String (hex_char (b2z a / 16)) (String (hex_char (b2z a mod 16)) (String (hex_char (b2z b / 16)) (String (hex_char (b2z b mod 16)) rest)))).
  destruct (hex_digits_value a) as [A1 A2], (hex_digits_value b) as [B1 B2].
  cbn [hex_group]. rewrite A1. cbn [Nat.ltb Nat.leb hex_group]. rewrite A2. cbn [Nat.ltb Nat.leb hex_group]. rewrite B1. cbn [Nat.ltb Nat.leb hex_group].
  rewrite B2. cbn [Nat.ltb Nat.leb hex_group].
  replace ((((0 * 16 + b2z a / 16) * 16 + b2z a mod 16) * 16 + b2z b / 16) * 16 + b2z b mod 16) with (b2z a * 256 + b2z b)
    by (pose proof (Z.div_mod (b2z a) 16); pose proof (Z.div_mod (b2z b) 16); lia).
  destruct rest as [|c rest]; [done|]. cbn [hex_group]. by rewrite Hr.
Qed.
Lemma be_encode_pair a b : be_encode 2 (b2z a * 256 + b2z b) = [a; b].
Proof. rewrite <-(be_encode_decode [a; b]). f_equal. Qed.

Lemma Join_cons2 a b l sep : Join (a :: b :: l) sep = String.append a (String.append sep (Join (b :: l) sep)).
Proof. done. Qed.
Lemma parse_quads_loop ps fuel ip : (length ip + 2 * length ps = 16)%nat → (length ps < fuel)%nat → ps ≠ [] →
  parseIPv6_loop fuel (Join (quad <$> ps) ":") ip None = Some (ip ++ unpair ps, None, EmptyString).
Proof.
  revert fuel ip. induction ps as [|[a b] ps IH]; intros fuel ip Hl Hf Hne; [done|]. destruct fuel as [|fuel]; [cbn in Hf; lia|]. cbn [length] in Hl, Hf.
  cbn [parseIPv6_loop]. rewrite (proj2 (Nat.leb_gt 16 (length ip))) by lia. destruct ps as [|[c d] ps].
  - change (Join (quad <$> [(a, b)]) ":") with (quad (a, b)). rewrite <-(append_nil_r (quad (a, b))), hex_group_quad by done.
    cbn [mbind option_bind Nat.eqb]. rewrite be_encode_pair. done.
  - rewrite fmap_cons. cbn [fmap list_fmap]. rewrite Join_cons2, hex_group_quad by done. cbn [mbind option_bind Nat.eqb String.append].
    rewrite be_encode_pair. pose proof (IH fuel (ip ++ [a; b])) as E2. rewrite <-app_assoc in E2.
    change (Join (quad (c, d) :: (quad <$> ps)) ":") with (Join (quad <$> (c, d) :: ps) ":").
    revert E2. destruct (quads_head (c, d) ps) as (x & rest & E & Hx). rewrite E. intros E2.
    assert (parseIPv6_loop fuel (String x rest) (ip ++ [a; b]) None = Some (ip ++ unpair ((a, b) :: (c, d) :: ps), None, EmptyString)) as E3.
    { apply E2; [rewrite length_app; cbn [length] in *; lia|cbn [length] in *; lia|done]. }
    destruct x as [[] [] [] [] [] [] [] []]; (exact E3 || by destruct Hx as [? [=]]).
Qed.

Lemma byte_pairs_unpair bs n : length bs = (2 * n)%nat → unpair (byte_pairs bs) = bs ∧ length (byte_pairs bs) = n.
Proof.
  revert bs. induction n as [|n IH]; intros [|a [|b bs]] Hl; cbn [length] in Hl; try lia; [done|]. destruct (IH bs) as [E1 E2]; [lia|].
  split; [|cbn [byte_pairs length]; by rewrite E2]. change (unpair (byte_pairs (a :: b :: bs))) with (a :: b :: unpair (byte_pairs bs)). by rewrite E1.
Qed.
Lemma join_pairs_quads bs n : length bs = (2 * n)%nat → join_pairs (hex_byte <$> bs) = quad <$> byte_pairs bs.
Proof. revert bs. induction n as [|n IH]; intros [|a [|b bs]] Hl; cbn in *; try lia; [done|]. f_equal. apply IH. lia. Qed.

(** No digit is a mark. *)
Lemma quad_no_char ab d : hex_value d = None → Contains (quad ab) (String d "") = false.
Proof.
  intros Hd. destruct ab as [a b]. destruct (hex_digits_value a) as [A1 A2], (hex_digits_value b) as [B1 B2].
  change (quad (a, b)) with (String (hex_char (b2z a / 16)) (String (hex_char (b2z a mod 16)) (String (hex_char (b2z b / 16)) (String (hex_char (b2z b mod 16)) "")))).
  cbn [Contains]. rewrite !HasPrefix_char. rewrite !(proj2 (Ascii.eqb_neq _ _)); [done|congruence..].
Qed.
Lemma quads_no_char ps d : hex_value d = None → d ≠ ":"%char → Contains (Join (quad <$> ps) ":") (String d "") = false.
Proof.
  intros Hd Hc. induction ps as [|ab ps IH]; [done|]. cbn [fmap list_fmap] in *. destruct (quad <$> ps) as [|q l] eqn:E; [by apply quad_no_char|].
  rewrite Join_cons2, !Contains_char_append, quad_no_char, IH by done. cbn [orb]. cbn [Contains]. rewrite HasPrefix_char, (proj2 (Ascii.eqb_neq _ _)) by done. done.
Qed.
Lemma quads_kind ab cd ps : addr_kind (Join (quad <$> ab :: cd :: ps) ":") = Some ":"%char.
Proof.
  cbn [fmap list_fmap]. rewrite Join_cons2. destruct ab as [a b]. destruct (hex_digits_value a) as [A1 A2], (hex_digits_value b) as [B1 B2]. generalize (Join (quad cd :: (quad <$> ps)) ":"). intros t.
  change (String.append (quad (a, b)) (String.append ":" t)) with
    (String (hex_char (b2z a / 16)) (String (hex_char (b2z a mod 16)) (String (hex_char (b2z b / 16)) (String (hex_char (b2z b mod 16)) (String ":" t))))).
  assert (∀ c z s, hex_value c = Some z → addr_kind (String c s) = addr_kind s) as Hstep.
  { intros c z s Hc. cbn [addr_kind]. by rewrite !(proj2 (Ascii.eqb_neq _ _)) by (intros ->; done). }
  rewrite !(Hstep _ _ _ A1), !(Hstep _ _ _ A2), !(Hstep _ _ _ B1), !(Hstep _ _ _ B2). done.
Qed.
Lemma ParseIP_quads bs : length bs = 16%nat → ParseIP (Join (quad <$> byte_pairs bs) ":") = Some bs.
Proof.
  intros Hl. destruct (byte_pairs_unpair bs 8 Hl) as [E1 E2]. unfold ParseIP.
  pose proof (parse_quads_loop (byte_pairs bs) 9 [] ltac:(cbn; lia) ltac:(lia)) as Hp. revert Hp E1 E2. generalize (byte_pairs bs). intros ps Hp E1 E2.
  destruct ps as [|ab [|cd ps]]; [done|done|]. specialize (Hp ltac:(done)). rewrite quads_kind, quads_no_char by done.
  unfold parseIPv6. destruct (quads_head ab (cd :: ps)) as (x & rest & E & Hx). rewrite E in *.
  assert (∀ A (f g : string → A) s, match String x s with String ":" (String ":" s) => f s | _ => g (String x s) end = g (String x s)) as Hm.
  { intros A f g s. destruct x as [[] [] [] [] [] [] [] []]; (reflexivity || by destruct Hx as [? [=]]). }
  rewrite (Hm _ (λ s, (s, Some 0%nat)) (λ s, (s, None))). rewrite Hp. cbn [mbind option_bind app String.eqb negb]. by rewrite E1, Hl.
Qed.
Lemma dtoi_checked : forallb (λ n, bool_decide (dtoi (Itoa (Z.of_nat n)) = Some (Z.of_nat n))) (seq 0 129) = true.
Proof. vm_compute. reflexivity. Qed.
Lemma dtoi_Itoa n : 0 ≤ n ≤ 128 → dtoi (Itoa n) = Some n.
Proof.
  intros Hn. pose proof dtoi_checked as Hc. rewrite forallb_forall in Hc. specialize (Hc (Z.to_nat n) ltac:(apply in_seq; lia)).
  apply bool_decide_eq_true in Hc. by rewrite Z2Nat.id in Hc by lia.
Qed.

(** C21: The object for IPv6 prefixes is indexed by the interface and the 16 numbers of an address: the
    address read from such an index is that address, with the mask of the prefix, for every address. *)
Theorem ipv6_index_address i bs n : 0 ≤ i < 2 ^ 63 → length bs = 16%nat → 0 ≤ n ≤ 128 →
  ∃ cidr, ipv6_cidr (Join (Itoa i :: (Itoa ∘ b2z <$> bs)) ".") n = Some (Itoa i, cidr) ∧
    ParseCIDR cidr = Some (bs, {| Net_IP := and_bytes bs (CIDRMask (Z.to_nat n) 16); Net_Mask := CIDRMask (Z.to_nat n) 16 |}).
Proof.
  intros Hi Hl Hn. exists (String.append (Join (quad <$> byte_pairs bs) ":") (String "/" (Itoa n))). split.
  - unfold ipv6_cidr. rewrite Split_Join_char; [|done|].
    + destruct (Itoa ∘ b2z <$> bs) as [|x l] eqn:E; [by destruct bs|]. rewrite <-E, length_fmap, Hl. cbn [Nat.eqb]. do 4 f_equal.
      rewrite <-list_fmap_compose. rewrite <-(join_pairs_quads bs 8 Hl). f_equal. apply list_fmap_ext. intros j b _. unfold hex_part. cbn.
      rewrite Atoi_Itoa; [apply hex02_byte|]. pose proof (b2z_range b). split; [lia|]. apply (Z.lt_trans _ 256); [lia|done].
    + constructor; [by apply MibTraps.Itoa_no_char|]. apply Forall_fmap, Forall_forall. intros b _. apply MibTraps.Itoa_no_char; [|done].
      pose proof (b2z_range b). split; [lia|]. apply (Z.lt_trans _ 256); [lia|done].
  - unfold ParseCIDR. rewrite (Cut_char "/") by (by apply quads_no_char). cbn [mbind option_bind]. rewrite ParseIP_quads, dtoi_Itoa by done. cbn [mbind option_bind].
    destruct (byte_pairs_unpair bs 8 Hl) as [_ E2]. destruct (byte_pairs bs) as [|ab [|cd ps]]; [done|done|]. rewrite quads_kind.
    rewrite (proj2 (Z.ltb_ge _ _)) by lia. unfold IP_Mask. rewrite CIDRMask_length. cbn [Nat.eqb andb]. by rewrite Hl.
Qed.

(** ** The cache of a poller *)
Lemma foldl_keep {A B C} (get : A → C) (f : A → B → A) l a : (∀ a b, get (f a b) = get a) → get (foldl f a l) = get a.
Proof. intros E. revert a. induction l as [|b l IH]; intros a; [done|]. cbn. by rewrite IH, E. Qed.

Section cache_facts.
Context `{RegexpCompiler} `{MetaRange}.

Lemma table_metric_tables j e : CustomTables (table_metric j e) = CustomTables j.
Proof. destruct e as [k v]. cbn. by destruct (map_range (CustomMetrics j) !! k). Qed.
Lemma flow_device_tables p md j : CustomTables (flow_device p md j) = if (0 <? size (Tables md))%nat then Some (Tables md) else CustomTables j.
Proof.
  unfold flow_device. cbv zeta. set (j1 := put_int "SysServices" _ _). set (j2 := if String.eqb (DeviceName j1) "" then _ else _).
  set (j3 := foldl _ j2 _). set (j4 := foldl _ j3 _).
  assert (CustomTables j4 = CustomTables j) as E4.
  { unfold j4. rewrite (foldl_keep CustomTables) by done. unfold j3. rewrite (foldl_keep CustomTables) by (intros a b; by destruct (ValidString b.2)).
    unfold j2. by destruct (String.eqb _ _). }
  set (j5 := if (0 <? _)%nat then _ else j4). assert (CustomTables j5 = if (0 <? size (Tables md))%nat then Some (Tables md) else CustomTables j) as E5.
  { unfold j5. destruct (0 <? size (Tables md))%nat; [|done]. rewrite (foldl_keep CustomTables); [done|]. intros a b.
    apply (foldl_keep CustomTables). intros. apply table_metric_tables. }
  rewrite <-E5. destruct (String.eqb (Provider j5) ProviderDefault); [|done]. destruct (HasPrefix _ vendorPrefix); [|done].
  destruct (SplitN 1 _ ".") as [|vendor l]; [done|]. by destruct (Atoi vendor).
Qed.
Lemma flow_extra_tables p intr j e : CustomTables (flow_extra p intr j e) = CustomTables j.
Proof. unfold flow_extra. destruct (ValidString e.2); [|done]. cbv zeta. by destruct (lookupMib p 13 e.1 true). Qed.
Lemma flow_interface_tables p j e : CustomTables (flow_interface p j e) = CustomTables j.
Proof. destruct e as [i d]. unfold flow_interface. cbv zeta. rewrite (foldl_keep CustomTables); [done|]. intros. apply flow_extra_tables. Qed.
Lemma fresh_flow_tables lvl now p dd : CustomTables (fresh_flow lvl now p dd) =
  match DeviceMeta dd with Some md => if (0 <? size (Tables md))%nat then Some (Tables md) else None | None => None end.
Proof.
  unfold fresh_flow. cbv zeta. rewrite (foldl_keep CustomTables) by (intros; apply flow_interface_tables).
  unfold flow_tags. rewrite (foldl_keep CustomTables) by (intros j [k v]; done).
  unfold flow_lookups. cbv zeta. rewrite !(foldl_keep CustomTables) by (intros j k; by destruct (lookupMib _ _ _ _)).
  destruct (DeviceMeta dd) as [md|]; [|done]. by rewrite flow_device_tables.
Qed.
(** No tables in what a poll found. *)
Definition tableless (dd : DeviceData) : Prop := ∀ md, DeviceMeta dd = Some md → Tables md = ∅.

(** With a cache, a poll that finds no tables when one before it did ends the process; otherwise a poll
    gives a flow. *)
Theorem toFlows_panics lvl now dd p :
  (is_ok (toFlows lvl now dd p) = true ∨ toFlows lvl now dd p = Panic "assignment to entry in nil map") ∧
  (is_ok (toFlows lvl now dd p) = false ↔ SaveCache p = true ∧ tcache p ≠ ∅ ∧ tableless dd).
Proof.
  unfold toFlows. cbv zeta. destruct (SaveCache p) eqn:Es; [|by split; [left|split; [|intros [? _]]]].
  unfold use_cache. cbv zeta. rewrite fresh_flow_tables.
  assert (match DeviceMeta dd with Some md => if (0 <? size (Tables md))%nat then Some (Tables md) else None | None => None end = None ↔ tableless dd) as Ht.
  { unfold tableless. destruct (DeviceMeta dd) as [md|]; [|by split]. destruct (Nat.ltb_spec 0 (size (Tables md))) as [Hs|Hs].
    - split; [done|]. intros Hm. rewrite (Hm md eq_refl) in Hs. rewrite map_size_empty in Hs. lia.
    - split; [|done]. intros _ md' [= <-]. apply map_size_empty_inv. lia. }
  destruct (match DeviceMeta dd with Some md => _ | None => None end) as [t|].
  - cbn. split; [by left|]. split; [done|]. intros (_ & _ & Hd). by apply Ht in Hd.
  - assert (tcache p ∖ map_range None = tcache p) as -> by apply map_difference_empty. destruct (Nat.ltb_spec 0 (size (tcache p))) as [Hs|Hs]; cbn [mbind res_bind is_ok].
    + split; [by right|]. split; [|done]. intros _. split_and!; [done| |by apply Ht]. intros E. rewrite E, map_size_empty in Hs. lia.
    + split; [by left|]. split; [done|]. intros (_ & Hne & _). destruct Hne. apply map_size_empty_inv. lia.
Qed.

(** A poller makes flows of what its polls find. *)
Fixpoint flows_run (lvl : string) (polls : list (Z * DeviceData)) (p : MetaPoller) : res (list JCHF) :=
  match polls with
  | [] => Ok []
  | (now, dd) :: polls => '(p, (j, _)) ← toFlows lvl now dd p; js ← flows_run lvl polls p; Ok (j :: js)
  end.
(** The last text that a poll had for a column, and before all polls that of the cache. *)
Definition last_said (lvl : string) (p : MetaPoller) (k : string) (polls : list (Z * DeviceData)) : option string :=
  foldl (λ acc e, match map_range (CustomStr (fresh_flow lvl e.1 p e.2)) !! k with Some v => Some v | None => acc end) (scache p !! k) polls.

Lemma toFlows_cached lvl now dd p p' j a : SaveCache p = true → toFlows lvl now dd p = Ok (p', (j, a)) →
  map_range (CustomStr j) = map_range (CustomStr (fresh_flow lvl now p dd)) ∪ scache p ∧ ∃ t, p' = set_cache (map_range (CustomStr j)) t p.
Proof.
  intros Es. unfold toFlows, use_cache. cbv zeta. rewrite Es. destruct (CustomTables (fresh_flow lvl now p dd)) as [t|]; [|destruct (0 <? size _)%nat; [done|]]; cbn;
    intros [= <- <- _]; (split; [done|by eexists]).
Qed.
Lemma fresh_flow_set lvl now s t p dd : fresh_flow lvl now (set_cache s t p) dd = fresh_flow lvl now p dd.
Proof. reflexivity. Qed.
Lemma last_said_set lvl s t p k polls acc :
  foldl (λ acc e, match map_range (CustomStr (fresh_flow lvl e.1 (set_cache s t p) e.2)) !! k with Some v => Some v | None => acc end) acc polls =
  foldl (λ acc e, match map_range (CustomStr (fresh_flow lvl e.1 p e.2)) !! k with Some v => Some v | None => acc end) acc polls.
Proof. revert acc. induction polls as [|e polls IH]; intros acc; [done|]. cbn [foldl]. rewrite fresh_flow_set. apply IH. Qed.

(** With a cache, every flow of a poller has for each column the last text that any of its polls had for
    it, up to and with the flow's own. *)
Theorem cache_remembers lvl polls p js : SaveCache p = true → flows_run lvl polls p = Ok js →
  length js = length polls ∧ ∀ i j k, js !! i = Some j → map_range (CustomStr j) !! k = last_said lvl p k (take (S i) polls).
Proof.
  intros Es. revert p js Es. induction polls as [|[now dd] polls IH]; intros p js Es; cbn [flows_run]; [intros [= <-]; split; [done|]; intros i j k Hj; by rewrite lookup_nil in Hj|].
  destruct (toFlows lvl now dd p) as [[p' [j a]]| | |] eqn:Ef; try done. cbn [mbind res_bind].
  destruct (flows_run lvl polls p') as [js'| | |] eqn:Er; try done. cbn [mbind res_bind]. intros [= <-].
  destruct (toFlows_cached _ _ _ _ _ _ _ Es Ef) as (Ej & t & Ep). destruct (IH p' js') as [Hl Hi]; [by rewrite Ep|done|].
  split; [cbn; by rewrite Hl|]. intros i j' k Hj'.
  assert (map_range (CustomStr j) !! k = last_said lvl p k [(now, dd)]) as E1.
  { unfold last_said. cbn [foldl fst snd]. rewrite Ej, lookup_union. by destruct (map_range (CustomStr (fresh_flow lvl now p dd)) !! k), (scache p !! k). }
  destruct i as [|i]; cbn [take]; [cbn in Hj'; injection Hj' as <-; by rewrite take_0|].
  cbn in Hj'. rewrite (Hi i j' k Hj'). unfold last_said. rewrite Ep. rewrite last_said_set. cbn [scache set_cache]. rewrite E1. done.
Qed.
End cache_facts.

(** ** Names of interfaces *)
Definition unnamed (d : InterfaceData) : Prop := Description d = EmptyString ∧ Alias d = EmptyString.
Definition unnamed_state (st : poll_state) : Prop := map_Forall (λ _ d, unnamed d) (intLine st) ∧ byDescription st = ∅.

Section names.
Context `{Gosnmp} `{Submatcher} (is_speed : bool).

Lemma add_address_unnamed a d : unnamed d → unnamed (add_address a d).
Proof. unfold add_address. by destruct (String.eqb _ _). Qed.
Lemma set_mask_unnamed a m d : unnamed d → unnamed (set_mask a m d).
Proof. unfold set_mask. by destruct (String.eqb _ _). Qed.
Lemma poll_extra_unnamed n mib v d d' : poll_extra n mib v d = Ok d' → unnamed d → unnamed d'.
Proof.
  unfold poll_extra, as_bytes, as_string. destruct (pdu_Type v); try (by intros [= <-]).
  - destruct (pdu_Value v); try done. by intros [= <-].
  - destruct (pdu_Value v); try done. by intros [= <-].
Qed.
Lemma poll_data_unnamed n mib v d d' : poll_data is_speed n mib v d = Ok d' → unnamed d → unnamed d'.
Proof.
  unfold poll_data. repeat (case_match; [intros [= <-]; repeat case_match; done|]). apply poll_extra_unnamed.
Qed.
Lemma poll_address_unnamed n addr v st st' : poll_address n addr v st = Ok st' → unnamed_state st → unnamed_state st'.
Proof.
  intros E [Hd Hb]. unfold poll_address in E. destruct (String.eqb n _).
  - destruct (pdu_Type v); try (by injection E as <-). destruct (intLine st !! _) as [d|] eqn:El; injection E as <-; [|done].
    split; [|done]. cbn. apply map_Forall_insert_2; [|done]. apply add_address_unnamed. by apply (Hd _ _ El).
  - destruct (pdu_Type v); try (by injection E as <-). destruct (ifcIdx st !! addr) as [idx|]; [|by injection E as <-].
    destruct (intLine st !! idx) as [d|] eqn:El; [|by injection E as <-]. destruct (_ || _); [|by injection E as <-].
    destruct (as_string v) as [m| | |]; try done. injection E as <-. split; [|done]. cbn. apply map_Forall_insert_2; [|done]. apply set_mask_unnamed. by apply (Hd _ _ El).
Qed.
Lemma poll_ipv6_unnamed idx v st : unnamed_state st → unnamed_state (poll_ipv6 idx v st).
Proof.
  intros [Hd Hb]. unfold poll_ipv6. destruct (pdu_Type v); try done. destruct (ipv6_cidr _ _) as [[i c]|]; [|done]. destruct (ParseCIDR c) as [[a n]|]; [|done].
  split; [|done]. cbn. intros k d Hk. apply lookup_alter_Some in Hk as [(-> & d' & Hk & ->)|[_ Hk]]; [|by apply (Hd _ _ Hk)]. apply add_address_unnamed. by apply (Hd _ _ Hk).
Qed.
Lemma poll_interface_unnamed n mib idx v st st' : n ≠ SNMP_ifDescr → n ≠ SNMP_ifAlias → poll_interface is_speed n mib idx v st = Ok st' → unnamed_state st → unnamed_state st'.
Proof.
  intros Hnd Hna E Hs. unfold poll_interface in E. destruct (String.eqb n SNMP_ipv6AddrPrefix); [injection E as <-; by apply poll_ipv6_unnamed|].
  cbv zeta in E. rewrite (proj2 (String.eqb_neq _ _) Hnd), (proj2 (String.eqb_neq _ _) Hna) in E.
  destruct (poll_data _ _ _ _ _) as [d| | |] eqn:Ed; try done. injection E as <-. destruct Hs as [Hd Hb]. split; [|done]. cbn. apply map_Forall_insert_2; [|done].
  apply (poll_data_unnamed _ _ _ _ _ Ed). destruct (intLine st !! idx) as [d'|] eqn:El; [by apply (Hd _ _ El)|done].
Qed.
Lemma poll_variables_unnamed o n mib l st st' : n ≠ SNMP_ifDescr → n ≠ SNMP_ifAlias → poll_variables is_speed o n mib l st = Ok st' → unnamed_state st → unnamed_state st'.
Proof.
  intros Hnd Hna. revert st. induction l as [|v l IH]; intros st; cbn [poll_variables]; [by intros [= <-]|].
  destruct (poll_variable is_speed o n mib v st) as [st1| | |] eqn:E; try done. cbn [mbind res_bind]. intros Hl Hs. apply (IH st1 Hl). clear IH Hl.
  unfold poll_variable in E. destruct (Split (pdu_Name v) o) as [|a [|[|c idx] [|]]]; try (by injection E as <-).
  destruct (_ && _); [by apply (poll_address_unnamed _ _ _ _ _ E)|by apply (poll_interface_unnamed _ _ _ _ _ _ Hnd Hna E)].
Qed.
Lemma poll_objects_unnamed walk mibs oids st st' : Forall (λ e, e.2 ≠ SNMP_ifDescr ∧ e.2 ≠ SNMP_ifAlias) oids →
  poll_objects is_speed walk mibs oids st = Ok st' → unnamed_state st → unnamed_state st'.
Proof.
  intros Ho. revert st. induction Ho as [|[o n] oids [Hnd Hna] _ IH]; intros st; cbn [poll_objects]; [by intros [= <-]|].
  destruct (walk o) as [l|e]; [|done]. destruct (poll_variables _ _ _ _ _ _) as [st1| | |] eqn:E; try done. cbn [mbind res_bind]. intros Hp Hs.
  apply (IH st1 Hp). by apply (poll_variables_unnamed _ _ _ _ _ _ Hnd Hna E).
Qed.

Lemma omap_Set_values (P : string → Prop) k v m : P v → Forall (λ e, P e.2) m → Forall (λ e : string * string, P e.2) (omap_Set k v m).
Proof.
  intros Hv Hm. unfold omap_Set. destruct (list_find _ m) as [[i e]|]; [by apply Forall_insert|]. apply Forall_app. split; [done|by constructor].
Qed.
Lemma NewInterfaceMetadata_names (P : string → Prop) speed mibs :
  P SNMP_ifSpeed → P SNMP_ipAdEntIfIndex → P SNMP_ipAdEntNetMask → P SNMP_ipv6AddrPrefix → P SNMP_ifPhysAddress →
  (∀ oid mib, mibs !! oid = Some mib → P (strip_if (GetName (Some mib)))) → Forall (λ e, P e.2) (interfaceOids (NewInterfaceMetadata speed mibs)).
Proof.
  intros P1 P2 P3 P4 P5 Hm. unfold NewInterfaceMetadata.
  assert (Forall (λ e, P e.2) (interfaceOids (mkInterfaceMetadata ∅ (SNMP_Interface_OIDS speed)))) as Hi0.
  { cbn [interfaceOids]. unfold SNMP_Interface_OIDS. cbn [foldl fst snd]. by repeat (apply omap_Set_values; [done|]). }
  revert Hi0. generalize (mkInterfaceMetadata ∅ (SNMP_Interface_OIDS speed)). induction (getFromCustomMap mibs) as [|oid l IH]; intros im Hi; [done|].
  cbn [foldl]. apply IH. unfold add_custom. destruct (mibs !! oid) as [mib|] eqn:E; [|done]. cbn [interfaceOids].
  destruct (omap_Get oid (interfaceOids im)); [done|]. apply omap_Set_values; [by apply (Hm oid)|done].
Qed.
Lemma copy_unnamed order lower ifs : map_Forall (λ _ d, unnamed d) ifs → copyInterfaces order ∅ lower ifs = ifs.
Proof.
  intros Hu. unfold copyInterfaces. cbv zeta. induction order as [|idx order IH]; [done|]. cbn [foldl].
  assert (copy_interface ∅ (ContainsAny lower ["juniper"; "junos"]%string && Contains lower "qfx") ifs idx = ifs) as ->; [|done].
  unfold copy_interface. destruct (ifs !! idx) as [d|] eqn:E; [|done]. cbv zeta.
  assert (copy_alias ∅ ifs d = d) as ->.
  { unfold copy_alias. destruct (String.eqb (Alias d) ""); [|done]. cbv zeta. destruct (String.eqb _ ""); [done|]. by rewrite lookup_empty. }
  unfold getUniqueLogical. rewrite lookup_empty. cbn. rewrite insert_id by done. by destruct (_ && _).
Qed.

(** The names ifDescr and ifAlias under which descriptions and aliases are read are never those of an
    object, whose names lose the if: no interface gets a description or an alias, and none inherits any. *)
Theorem interfaces_unnamed walk walk_all order speed mibs ifs man :
  (∀ oid mib, mibs !! oid = Some mib → strip_if (GetName (Some mib)) ∉ [SNMP_ifDescr; SNMP_ifAlias]) →
  interface_Poll is_speed walk walk_all order (NewInterfaceMetadata speed mibs) = Ok (ifs, man) →
  map_Forall (λ _ d, Description d = EmptyString ∧ Alias d = EmptyString) ifs ∧
  ∃ st, poll_objects is_speed walk (im_mibs (NewInterfaceMetadata speed mibs)) (interfaceOids (NewInterfaceMetadata speed mibs)) empty_state = Ok st ∧ ifs = intLine st.
Proof.
  intros Hm. unfold interface_Poll. destruct (poll_objects _ _ _ _ _) as [st| | |] eqn:E; try done. cbn [mbind res_bind]. intros [= <- _].
  assert (unnamed_state st) as [Hu Hb].
  { apply (poll_objects_unnamed _ _ _ _ _) in E; [done| |by split].
    apply (NewInterfaceMetadata_names (λ n, n ≠ SNMP_ifDescr ∧ n ≠ SNMP_ifAlias)); try (by split).
    intros oid mib Ho. specialize (Hm oid mib Ho). split; intros En; apply Hm; rewrite En; set_solver. }
  rewrite Hb, copy_unnamed by done. split; [done|]. by exists st.
Qed.
End names.

(** ** Concrete inputs *)
#[local] Instance sm_gosnmp : Gosnmp := {| ToBigInt v := match v with VNum _ _ z => z | _ => 0 end |}.
#[local] Instance sm_submatcher : Submatcher := {| re_Compile s := inr s; SubexpNames _ := []; FindSubmatch _ _ := None |}.
#[local] Instance sm_compiler : RegexpCompiler := {| MibProfile.Compile s := if String.eqb s "(" then None else Some (mkRegexp s); MibProfile.MatchString re s := Contains s (pattern re) |}.
#[local] Instance sm_range : MetaRange := {| range_of A n m := map_to_list m |}.

Lemma ipv6_index_address_witness : ∃ cidr, ipv6_cidr "3.32.1.13.184.0.0.0.0.0.0.0.0.0.0.0.1" 64 = Some ("3"%string, cidr) ∧
  (λ r : IP * IPNet, (IP_String r.1, IP_String (Net_Mask r.2))) <$> ParseCIDR cidr = Some ("2001:db8::1", "ffff:ffff:ffff:ffff::")%string.
Proof.
  destruct (ipv6_index_address 3 (z2b <$> [32; 1; 13; 184; 0; 0; 0; 0; 0; 0; 0; 0; 0; 0; 0; 1]) 64) as (cidr & E1 & E2); [lia|done|lia|].
  exists cidr. split; [exact E1|]. rewrite E2. vm_compute. reflexivity.
Defined.

Definition sm_poller (cache : bool) : MetaPoller :=
  NewPoller IF_HIGH_SPEED false cache (mkConf "kentik-snmp" "r1" "10.0.0.1" "") "1.3.6" {["tags.site" := "$SysLocation"]}%string "p.yml" [("name", "(")]%string false [] 300 None.
Definition sm_md (loc : string) (tables : gmap string DeviceTableMetadata) : DeviceMetricsMetadata := mkMD "r1" ".1.3.6.1.4.1.9.1" "router" loc "me" 72 "" ∅ ∅ tables.
Definition sm_data (loc : string) (tables : gmap string DeviceTableMetadata) : DeviceData := mkDeviceData "Acme" ∅ (Some (sm_md loc tables)).
Definition sm_fan : gmap string DeviceTableMetadata := {["1" := mkDeviceTableMetadata (Some {["fan" := NewMetaValue Mib_zero "front" 0]})]}%string.

Lemma cache_remembers_witness : ∃ j0 j1, flows_run "info" [(1, sm_data "lab" ∅); (2, sm_data "roof" ∅)] (sm_poller true) = Ok [j0; j1] ∧
  map_range (CustomStr j1) !! "tags.site"%string = Some "roof"%string.
Proof.
  destruct (flows_run "info" [(1, sm_data "lab" ∅); (2, sm_data "roof" ∅)] (sm_poller true)) as [js| | |] eqn:E; [|vm_compute in E; discriminate E..].
  pose proof (cache_remembers "info" _ (sm_poller true) js eq_refl E) as [Hl Hi]. destruct js as [|j0 [|j1 [|]]]; [discriminate Hl..| |discriminate Hl].
  exists j0, j1. split; [reflexivity|]. rewrite (Hi 1%nat j1 "tags.site"%string eq_refl). vm_compute. reflexivity.
Defined.
(** The tables of a device that no longer has any. *)
Example tables_gone : ∃ p j, toFlows "info" 1 (sm_data "lab" sm_fan) (sm_poller true) = Ok (p, j) ∧
  toFlows "info" 2 (sm_data "lab" ∅) p = Panic "assignment to entry in nil map".
Proof. eexists _, _. split; [vm_compute; reflexivity|]. vm_compute. reflexivity. Qed.
(** An expression that is said to be ignored is kept as a nil pointer. *)
Example nil_expression : pm_matchAttr (sm_poller true) !! "name"%string = Some None.
Proof. vm_compute. reflexivity. Qed.

Definition sm_pdu (n : string) (v : snmp_value) : SnmpPDU := mkPDU n OctetString v.
Definition sm_walk (oid : string) : list SnmpPDU + error :=
  inl (if String.eqb oid "1.3.6.1.2.1.2.2.1.2" then [sm_pdu ".1.3.6.1.2.1.2.2.1.2.7" (VBytes (String.list_byte_of_string "ge-0/0/0"))] else []).
Definition sm_descr : gmap string Mib := {["1.3.6.1.2.1.2.2.1.2"%string := mkMib "1.3.6.1.2.1.2.2.1.2" "ifDescr" 0 "" "" None None "" "IF-MIB" "" 0 None 0 false None "" false None None None false ""]}.
Definition sm_interface : InterfaceData := mkInterface (mkIPAddr "" "") [] "7" 0 "" "" "" {["Descr" := "ge-0/0/0"]}%string.
Lemma interfaces_unnamed_witness : ∃ ifs man, interface_Poll false sm_walk sm_walk (λ m, (map_to_list m).*1) (NewInterfaceMetadata IF_HIGH_SPEED sm_descr) = Ok (ifs, man) ∧
  ifs = {["7"%string := sm_interface]} ∧ Description sm_interface = EmptyString.
Proof.
  assert (interface_Poll false sm_walk sm_walk (λ m, (map_to_list m).*1) (NewInterfaceMetadata IF_HIGH_SPEED sm_descr) = Ok ({["7"%string := sm_interface]}, ""%string)) as E
    by (vm_compute; reflexivity).
  eexists _, _. split; [exact E|]. split; [reflexivity|].
  refine (proj1 (proj1 (interfaces_unnamed false sm_walk sm_walk (λ m, (map_to_list m).*1) IF_HIGH_SPEED sm_descr _ _ _ E) "7"%string sm_interface _)); [|reflexivity].
  intros oid mib Hm. unfold sm_descr in Hm. apply lookup_singleton_Some in Hm as [<- <-]. vm_compute. intros Hin. repeat (apply elem_of_cons in Hin as [Hin|Hin]; [discriminate Hin|]). by apply not_elem_of_nil in Hin.
Defined.
(** A plain text that is base64 by chance is decoded. *)
Example plain_decoded : manufacturer_text (String.list_byte_of_string "RouterOS CHR") = "RouterOS CHR"%string ∧ manufacturer_text (String.list_byte_of_string "FortiGate1") = "FortiGate1"%string ∧
  manufacturer_text (String.list_byte_of_string "Switch01") = "K\b\ufffdr\x1d5"%string.
Proof. vm_compute. split_and!; reflexivity. Qed.
