(* ===== verification/Otel.v ===== *)
(** The OpenTelemetry format (src/pkg/formats/otel/otel.go and log_handler.go): the exporters a
    configuration asks for, the metrics of messages and rollups, the logs and events, and the
    channel of each metric from which the library's callbacks take samples.

    The library is a parameter: which exporters and gauges it makes, and what a set of attributes
    is. The order of a range is that of an oracle that sees how many messages came before. Calls
    of [To] and [Rollup] are threads that take turns; a callback may run between any two turns. *)
From Stdlib Require Import Floats.SpecFloat.
From S2P Require Import Prelude GoStrings.
From S2P Require Import Jchf.
From S2P Require Import FlowToJCHF.
From S2P Require Import FormatsUtil.
From S2P Require Import Rollup.
From S2P Require Import KtHelpers.
From S2P Require Import Enrich.
From S2P Require Import Prom.
From S2P Require Influx.
From S2P Require Nrm.
Local Open Scope Z_scope.

Record OtelData := mkOtelData { od_Name : string; od_Value : spec_float; od_Tags : gmap string tag }.
Definition CHAN_SLACK : Z := 10000.

Record OtelFormatConfig := mkOtelConfig {
  oc_Endpoint : string; oc_Protocol : string; oc_ClientCert : string; oc_ClientKey : string; oc_RootCA : string;
  NoBlockExport : bool }.

(** What is asked of the library for metrics and for logs; [tls] when certificates were loaded. *)
Inductive exporter := Stdout | Http (endpoint : string) (tls : bool) | Grpc (endpoint : string) (tls : bool).
Inductive log_exporter :=
| LogStdout | LogHttp (host : string) (insecure tls : bool) | LogGrpc (host : string) (insecure tls : bool).

Inductive kv_value := KString (s : string) | KInt64 (z : Z) | KFloat64 (f : spec_float).

Class OtelEnv := {
  order_of : ∀ {A}, nat → gmap string A → list (string * A);
  row_order : nat → JCHF → list string;
  strs_order : nat → JCHF → list (string * string);
  ints_order : nat → JCHF → list (string * Z);
  match_visit : nat → LastMetadata → list (string * Regexp);
  Sprintf_v : tag → string;
  decode_array : string → option (list json);
  Marshal_flat : gmap string avro → option string;
  getTls : string → string → string → res unit;
  url_Parse : string → res (string * string);
  makes_exporter : exporter → res unit;
  makes_log_exporter : log_exporter → res unit }.

Section otel.
Context `{OtelEnv} `{RegexpEngine}.

(** ** The format *)
(** [logTee] and [logged] hold what was sent there and not taken. *)
Record OtelFormat := mkOtelFormat {
  lastMetadata : gmap string LastMetadata;
  invalids : gset string;
  logTee : list string;
  logged : list (string * list (string * avro));
  exp : exporter * log_exporter;
  clock : nat }.
(** The capacity of the channel of logs, which the caller makes. *)
Variable tee_slack : nat.

Definition metric_exporter (cfg : OtelFormatConfig) (tlsC : bool) : res exporter :=
  let p := oc_Protocol cfg in
  if String.eqb p "stdout" then Ok Stdout
  else if String.eqb p "http" || String.eqb p "https" then
    if String.eqb (oc_Endpoint cfg) "" then Err (Errorf "-otel.endpoint required for http(s) exports." []) else Ok (Http (oc_Endpoint cfg) tlsC)
  else if String.eqb p "grpc" then
    if String.eqb (oc_Endpoint cfg) "" then Err (Errorf "-otel.endpoint required for grpc exports." []) else Ok (Grpc (oc_Endpoint cfg) tlsC)
  else Err (Errorf "Invalid otel.protocol value. Currently supported: grpc,http,https,stdout" []).

(** [NewLogger]: a scheme that is neither leaves the library's default; [None] is a nil exporter. *)
Definition logs_of (cfg : OtelFormatConfig) (tlsC : bool) (u : string * string) : option log_exporter :=
  let '(scheme, host) := u in
  let p := oc_Protocol cfg in
  let insecure := String.eqb scheme "http" in
  let tls := String.eqb scheme "https" && tlsC in
  if String.eqb p "stdout" then Some LogStdout
  else if String.eqb p "http" || String.eqb p "https" then Some (LogHttp host insecure tls)
  else if String.eqb p "grpc" then Some (LogGrpc host insecure tls)
  else None.
Definition NewLogger (cfg : OtelFormatConfig) (tlsC : bool) : res (option log_exporter) :=
  u ← url_Parse (oc_Endpoint cfg);
  let le := logs_of cfg tlsC u in
  match le with
  | Some LogStdout | None => Ok le
  | Some l => _ ← makes_log_exporter l; Ok le
  end.

Definition NewFormat (cfg : OtelFormatConfig) : res OtelFormat :=
  let certs := negb (String.eqb (oc_ClientCert cfg) "") && negb (String.eqb (oc_ClientKey cfg) "") && negb (String.eqb (oc_RootCA cfg) "") in
  tlsC ← (if certs then _ ← getTls (oc_ClientCert cfg) (oc_ClientKey cfg) (oc_RootCA cfg); Ok true else Ok false);
  e ← metric_exporter cfg tlsC;
  _ ← makes_exporter e;
  l ← NewLogger cfg tlsC;
  match l with
  | Some l => Ok (mkOtelFormat ∅ ∅ [] [] (e, l) 0)
  | None => Panic "nil log exporter"
  end.

Definition tick (f : OtelFormat) : OtelFormat :=
  mkOtelFormat (lastMetadata f) (invalids f) (logTee f) (logged f) (exp f) (S (clock f)).
Definition set_metadata_of (name : string) (lm : LastMetadata) (f : OtelFormat) : OtelFormat :=
  mkOtelFormat (<[name := lm]> (lastMetadata f)) (invalids f) (logTee f) (logged f) (exp f) (clock f).
Definition set_invalid (e : string) (f : OtelFormat) : OtelFormat :=
  mkOtelFormat (lastMetadata f) ({[e]} ∪ invalids f) (logTee f) (logged f) (exp f) (clock f).
Definition set_tee (c : list string) (f : OtelFormat) : OtelFormat :=
  mkOtelFormat (lastMetadata f) (invalids f) c (logged f) (exp f) (clock f).
Definition log (line : string) (attrs : list (string * avro)) (f : OtelFormat) : OtelFormat :=
  mkOtelFormat (lastMetadata f) (invalids f) (logTee f) (logged f ++ [(line, attrs)]) (exp f) (clock f).

Definition meta (f : OtelFormat) (jin : JCHF) : option LastMetadata := lastMetadata f !! DeviceName jin.
Definition attrs (f : OtelFormat) (jin : JCHF) (metrics : gomap MetricInfo) : res (JCHF * gmap string value) :=
  SetAttr (row_order (clock f) jin) ∅ jin metrics (meta f jin) false.
Definition tags (attr : gmap string value) : gmap string tag := fmap (M := gmap string) TVal attr.
Definition data (prefix name : string) (v : spec_float) (attr : gmap string tag) : OtelData :=
  mkOtelData (String.append prefix name) v attr.

(** ** Rollups *)
Definition rollupMap_list : list (string * string) :=
  [("src_geo", "src_country"); ("l4_src_port", "src_port"); ("dst_geo", "dst_country"); ("l4_dst_port", "dst_port")]%string.
Definition rollupMap : gmap string string := list_to_map rollupMap_list.
Definition no_value (pt : string) : bool := String.eqb pt "0" || String.eqb pt "" || String.eqb pt "-" || String.eqb pt "--".
Definition roll_attr (dim pt : string) (attr : gmap string tag) : gmap string tag :=
  let aname := default dim (rollupMap !! dim) in
  let attr := <[aname := TVal (VString pt)]> attr in
  if (String.eqb aname "src_port" || String.eqb aname "dst_port") && (32768 <? (Atoi_value pt).1) then <[aname := TVal (VString "32768")]> attr
  else attr.
(** The attributes, and whether a part says nothing. *)
Fixpoint roll_attrs (dims pts : list string) (attr : gmap string tag) (bad : bool) : res (gmap string tag * bool) :=
  match pts, dims with
  | [], _ => Ok (attr, bad)
  | _ :: _, [] => Panic "index out of range"
  | pt :: pts, d :: dims => roll_attrs dims pts (roll_attr d pt attr) (bad || no_value pt)
  end.
Definition roll_data (roll : Roll) : res (list OtelData) :=
  '(attr, bad) ← roll_attrs (ro_dims roll) (Split (ro_Dimension roll) (ro_KeyJoin roll)) ∅ false;
  Ok (if (bad : bool) then [] else [data "kentik.rollup." (ro_Name roll) (ro_Metric roll) attr]).
Fixpoint toOtelDataRollup (rolls : list Roll) : res (list OtelData) :=
  match rolls with [] => Ok [] | r :: rolls => m ← roll_data r; ms ← toOtelDataRollup rolls; Ok (m ++ ms) end.

(** ** Metrics of a message *)
Definition synthWLAttr : list string := [
  "agent_id"; "agent_name"; "dst_addr"; "dst_cdn_int"; "dst_geo"; "provider"; "src_addr"; "src_cdn_int"; "src_as_name";
  "src_geo"; "test_id"; "test_name"; "test_type"; "test_url"; "src_host"; "dst_host"; "src_cloud_region";
  "src_cloud_provider"; "src_site"; "dst_cloud_region"; "dst_cloud_provider"; "dst_site"; "statusMessage";
  "statusEncoding"; "https_validity"; "https_expiry_timestamp"; "dest_ip"]%string.
Definition synthAttrKeys : list string := ["statusMessage"; "statusEncoding"; "https_validity"; "https_expiry_timestamp"]%string.
(** The loop changes the map at the key that it visits only. *)
Definition white_list (attr : gmap string tag) : gmap string tag :=
  map_imap (λ k v, if existsb (String.eqb k) synthWLAttr then
      Some (match v with TVal (VInt vi) => if String.eqb k "test_id" then TVal (VString (Itoa vi)) else v | _ => v end)
    else None) attr.

Definition fromKSyngest (f : OtelFormat) (jin : JCHF) : res (JCHF * list OtelData) :=
  let metrics := GetSyngestMetricNameSet in
  '(jin, attr) ← attrs f jin metrics;
  let attr := white_list (tags attr) in
  Ok (jin, omap (λ '(m, name), if 0 <? int_at m jin then Some (data "kentik.syngest." (MI_Name name) (float_of (int_at m jin)) attr) else None)
             (order_of (clock f) (map_range metrics))).

Definition synth_gauges : list string :=
  ["avg_rtt"; "jit_rtt"; "time"; "code"; "port"; "status"; "ttlb"; "size"; "trx_time"; "validation"; "lost"; "sent"]%string.
(** The entries of the first object of the trace that become attributes. *)
Definition trace_attrs (rawStr : string) (attr : gmap string tag) : gmap string tag :=
  if String.eqb rawStr "" then attr
  else match decode_array rawStr with
  | Some (JObj sd :: _) => foldl (λ attr key, match field key sd with Some val => <[key := TJson val]> attr | None => attr end) attr synthAttrKeys
  | _ => attr
  end.
Definition fromKSynth (f : OtelFormat) (jin : JCHF) : res (JCHF * list OtelData) :=
  if int_at "result_type" jin <=? 1 then Ok (jin, [])
  else
    let rawStr := str_at "error_cause/trace_route" jin in
    let metrics := GetSynMetricNameSet (int_at "result_type" jin) in
    '(jin, attr) ← attrs f jin metrics;
    let attr := white_list (trace_attrs rawStr (tags attr)) in
    Ok (jin, omap (λ '(m, name), if existsb (String.eqb (MI_Name name)) synth_gauges then Some (data "kentik.synth." (MI_Name name) (float_of (int_at m jin)) attr) else None)
               (order_of (clock f) (map_range metrics))).

Definition fromKtranslate (f : OtelFormat) (jin : JCHF) : res (JCHF * list OtelData) :=
  '(jin, attr) ← attrs f jin Influx.own_metrics;
  Ok (jin, match Influx.own_key (str_at "type" jin) with
           | Some k =>
               if String.eqb (str_at "force" jin) "true" || (0 <? big_at k jin) then
                 [data "kentik.ktranslate." (str_at "name" jin) (float_div (float_of (big_at k jin)) (float_of 100)) (tags attr)]
               else []
           | None => []
           end).

(** *** Devices and interfaces *)
(** The attributes of a metric, unless it is dropped. *)
Definition metric_attrs (f : OtelFormat) (isIf : bool) (jin : JCHF) (attr : gmap string value) (m : string) (name : MetricInfo) : option (gmap string value) :=
  let attrNew := CopyAttrForSnmp (order_of (clock f) attr) m name (meta f jin) true false in
  if DropOnFilter attrNew (meta f jin) isIf (match meta f jin with Some lm => match_visit (clock f) lm | None => [] end) then None
  else Some attrNew.
Definition device_metric (f : OtelFormat) (jin : JCHF) (attr : gmap string value) (kv : string * MetricInfo) : option OtelData :=
  let '(m, name) := kv in
  if String.eqb m "" then None
  else
    v ← map_range (CustomBigInt jin) !! m;
    attrNew ← metric_attrs f false jin attr m name;
    let prefix := String.append "kentik." (String.append (MetricInfo_GetType name) ".") in
    Some (data prefix m (if String.eqb (Format name) Influx.FloatMS then float_div (float_of v) (float_of 1000) else float_of v) (tags attrNew)).
Definition fromSnmpDeviceMetric (f : OtelFormat) (jin : JCHF) : res (JCHF * list OtelData) :=
  let metrics := CustomMetrics jin in
  '(jin, attr) ← attrs f jin metrics;
  Ok (jin, omap (device_metric f jin attr) (order_of (clock f) (map_range metrics))).

Definition counted (m : string) : bool := negb (String.eqb m "") && negb (FormatsUtil.HasSuffix m "_counter").
Definition interface_metric (f : OtelFormat) (jin : JCHF) (attr : gmap string value) (kv : string * MetricInfo) : option OtelData :=
  let '(m, name) := kv in
  if counted m then
    v ← map_range (CustomBigInt jin) !! m;
    attrNew ← metric_attrs f true jin attr m name;
    Some (data "kentik.snmp." m (float_of v) (tags attrNew))
  else None.
(** The profile of the metric that is visited last. *)
Definition last_profile (l : list (string * MetricInfo)) : string :=
  foldl (λ p kv, if counted kv.1 then Profile kv.2 else p) "snmp"%string l.
Definition utilization (f : OtelFormat) (jin : JCHF) (attr : gmap string value) (profileName : string) (port : Z) (name octets : string) : list OtelData :=
  match meta f jin ≫= λ lm, Influx.speed_of lm port with
  | None => []
  | Some ispeed =>
      let uptimeSpeed := wraps 64 (big_at "Uptime" jin * wraps 64 (ispeed * 10000)) in
      if 0 <? uptimeSpeed then
        match map_range (CustomBigInt jin) !! octets, metric_attrs f true jin attr name (mkMetricInfo "computed" "computed" "" profileName "if" "" "" 0 None) with
        | Some b, Some attrNew => [data "kentik.snmp." name (float_div (float_of (wraps 64 (b * 8 * 100))) (float_of uptimeSpeed)) (tags attrNew)]
        | _, _ => []
        end
      else []
  end.
Definition fromSnmpInterfaceMetric (f : OtelFormat) (jin : JCHF) : res (JCHF * list OtelData) :=
  let metrics := order_of (clock f) (map_range (CustomMetrics jin)) in
  '(jin, attr) ← attrs f jin (CustomMetrics jin);
  let profileName := last_profile metrics in
  Ok (jin, omap (interface_metric f jin attr) metrics ++
           utilization f jin attr profileName (InputPort jin) "IfInUtilization" "ifHCInOctets" ++
           utilization f jin attr profileName (OutputPort jin) "IfOutUtilization" "ifHCOutOctets").

Definition fromSnmpMetadata (f : OtelFormat) (jin : JCHF) : OtelFormat :=
  if String.eqb (DeviceName jin) "" then f
  else
    let lm := SetMetadata jin (strs_order (clock f) jin) (ints_order (clock f) jin) in
    match meta f jin with
    | None => set_metadata_of (DeviceName jin) lm f
    | Some old => if (Size (Some old) <=? Size (Some lm))%nat then set_metadata_of (DeviceName jin) lm f else f
    end.

(** *** Logs and events (log_handler.go) *)
Definition InstNameSnmpTrapEvent : string := "snmp-trap-events".
Definition stripped (v : avro) : bool :=
  match v with
  | AString tv => String.eqb tv "" || String.eqb tv "-" || String.eqb tv "--"
  | AInt32 tv | AInt64 tv => tv =? 0
  | _ => false
  end.
Definition strip (m : gmap string avro) : gmap string avro :=
  <["collector.name" := AString Nrm.CollectorName]> (<["instrumentation.name" := AString InstNameSnmpTrapEvent]>
    (<["instrumentation.provider" := AString Nrm.InstProvider]> (filter (λ kv, stripped kv.2 = false) m))).
Definition RecordLog (f : OtelFormat) (msg : JCHF) (logLine : string) : res (JCHF * OtelFormat) :=
  '(msg, flat) ← Flatten (row_order (clock f) msg) msg;
  Ok (msg, log logLine (order_of (clock f) (strip flat)) f).
(** A flow is a log, not a metric. *)
Definition fromKflow (f : OtelFormat) (jin : JCHF) : res (JCHF * OtelFormat) := RecordLog f jin "KFlow".
(** The [select] with a default; what could not be written goes out as no text. *)
Definition tee (b : option string) (f : OtelFormat) : OtelFormat :=
  if (length (logTee f) <? tee_slack)%nat then set_tee (logTee f ++ [default EmptyString b]) f else f.
Definition send_event (f : OtelFormat) (jin : JCHF) : res (JCHF * OtelFormat) :=
  '(jin, flat) ← Flatten (row_order (clock f) jin) jin;
  Ok (jin, tee (Marshal_flat (strip flat)) f).

Definition toOtelMetric (jin : JCHF) (f : OtelFormat) : res (OtelFormat * JCHF * list OtelData) :=
  let emit (r : res (JCHF * list OtelData)) := '(jin, ms) ← r; Ok (tick f, jin, ms) in
  let act (r : res (JCHF * OtelFormat)) := '(jin, f) ← r; Ok (tick f, jin, []) in
  let e := EventType jin in
  if String.eqb e KENTIK_EVENT_TYPE then act (fromKflow f jin)
  else if String.eqb e KENTIK_EVENT_SYNTH then emit (fromKSynth f jin)
  else if String.eqb e KENTIK_EVENT_SYNTH_GEST then emit (fromKSyngest f jin)
  else if String.eqb e KENTIK_EVENT_SNMP_DEV_METRIC then emit (fromSnmpDeviceMetric f jin)
  else if String.eqb e KENTIK_EVENT_SNMP_INT_METRIC then emit (fromSnmpInterfaceMetric f jin)
  else if String.eqb e KENTIK_EVENT_SNMP_METADATA then Ok (tick (fromSnmpMetadata f jin), jin, [])
  else if String.eqb e Influx.KENTIK_EVENT_KTRANS_METRIC then emit (fromKtranslate f jin)
  else if String.eqb e Nrm.KENTIK_EVENT_SNMP_TRAP || String.eqb e Nrm.KENTIK_EVENT_EXT then act (send_event f jin)
  else Ok (tick (set_invalid e f), jin, []).
Fixpoint toOtelMetrics (msgs : list JCHF) (f : OtelFormat) : res (OtelFormat * list OtelData) :=
  match msgs with
  | [] => Ok (f, [])
  | m :: msgs => '(f, _, ms) ← toOtelMetric m f; '(f, rest) ← toOtelMetrics msgs f; Ok (f, ms ++ rest)
  end.
Definition sanitize (d : OtelData) : OtelData := mkOtelData (SanitizeUTF8 (od_Name d)) (od_Value d) (od_Tags d).
(** The samples that [To] and [Rollup] queue, one after the other. *)
Definition samples (msgs : list JCHF) (f : OtelFormat) : res (OtelFormat * list OtelData) :=
  '(f, ms) ← toOtelMetrics msgs f; Ok (f, fmap (M := list) sanitize ms).
Definition roll_samples (rolls : list Roll) : res (list OtelData) := ms ← toOtelDataRollup rolls; Ok (fmap (M := list) sanitize ms).

(** ** Attributes of a sample *)
(** [PollDur.Seconds() + PollAdjustTime]: whole seconds and the part of one. *)
Definition seconds (d n : Z) : spec_float :=
  SFadd 53 1024 (SFadd 53 1024 (float_of (Z.quot d (10 ^ 9))) (float_div (float_of (Z.rem d (10 ^ 9))) (float_of (10 ^ 9)))) (float_of n).
Definition tag_value (t : tag) : kv_value :=
  match t with
  | TVal (VString s) | TJson (JStr s) => KString (SanitizeUTF8 s)
  | TVal (VInt64 z) | TVal (VInt32 z) => KInt64 z
  | TVal (VSeconds d n) => KFloat64 (seconds d n)
  | TJson (JNum x) => KFloat64 x
  | _ => KString (SanitizeUTF8 (Sprintf_v t))
  end.
(** The list that the set is made of. *)
Definition GetTagValues (n : nat) (d : OtelData) : list (string * kv_value) :=
  (λ '(k, v), (SanitizeUTF8 k, tag_value v)) <$> order_of n (od_Tags d).
End otel.

(** ** The channels of samples

    A thread is a call of [To] or [Rollup] with the samples it still has to queue. The read lock is
    held while it looks a name up and while it sends; the writes that the lock makes exclusive are one
    turn. A callback takes no lock. *)
Inductive pc := Idle | Look | Make | Made | Send | Warn | Warned.
Record thread := mkThread { t_pc : pc; t_todo : list OtelData }.

(** What became of a sample, or of those in a channel that another one replaced. *)
Inductive event :=
| Queued (d : OtelData) | Dropped (d : OtelData) | Observed (d : OtelData)
| Replaced (old : list OtelData) | Refused (l : list OtelData).

(** [gauges]: the names that callbacks were registered for, in order. *)
Record queues := mkQueues {
  gauges : list string;
  vecs : gset string;
  inputs : gmap string (list OtelData);
  warnFull : gset string;
  ExportDrops : gmap string Z }.
Record world := mkWorld { w_q : queues; w_threads : list thread; w_events : list event }.
Definition start : world := mkWorld (mkQueues [] ∅ ∅ ∅ ∅) [] [].

Section queues.
Context (noBlock : bool) (gauge_ok : list string → string → bool).

Definition running (t : thread) : bool := match t_todo t with [] => false | _ => true end.
Definition holds_read (t : thread) : bool := running t && match t_pc t with Look | Send => true | _ => false end.
(** The sample was dealt with: the next one is looked up. *)
Definition next (rest : list OtelData) : thread := mkThread Look rest.

Definition make_gauge (name : string) (q : queues) : queues :=
  mkQueues (gauges q ++ [name]) (vecs q) (inputs q) (warnFull q) (ExportDrops q).
Definition make_chan (name : string) (q : queues) : queues :=
  mkQueues (gauges q) ({[name]} ∪ vecs q) (<[name := []]> (inputs q)) (warnFull q) (ExportDrops q).
Definition set_input (name : string) (l : list OtelData) (q : queues) : queues :=
  mkQueues (gauges q) (vecs q) (<[name := l]> (inputs q)) (warnFull q) (ExportDrops q).
(** The meter of a name counts from when it is first registered. *)
Definition warn (name : string) (q : queues) : queues :=
  if decide (name ∈ warnFull q) then q
  else mkQueues (gauges q) (vecs q) (inputs q) ({[name]} ∪ warnFull q) (<[name := default 0 (ExportDrops q !! name)]> (ExportDrops q)).
Definition mark (name : string) (q : queues) : queues :=
  mkQueues (gauges q) (vecs q) (inputs q) (warnFull q) (<[name := default 0 (ExportDrops q !! name) + 1]> (ExportDrops q)).

(** A channel that was never made has no room. *)
Definition has_room (name : string) (q : queues) : bool :=
  match inputs q !! name with Some l => Z.of_nat (length l) <? CHAN_SLACK | None => false end.
Definition chan (name : string) (q : queues) : list OtelData := default [] (inputs q !! name).

(** One turn of a thread; [free] says that no thread holds the read lock. *)
Definition turn (free : bool) (q : queues) (t : thread) : option (queues * thread * list event) :=
  match t_todo t with
  | [] => None
  | m :: rest =>
      let name := od_Name m in
      match t_pc t with
      | Idle => Some (q, mkThread Look (m :: rest), [])
      | Look =>
          if decide (name ∈ vecs q) then Some (q, mkThread Send (m :: rest), [])
          else if gauge_ok (gauges q) name then Some (make_gauge name q, mkThread Make (m :: rest), [])
          else Some (q, mkThread Idle [], [Refused (m :: rest)])
      | Make => if free then Some (make_chan name q, mkThread Made (m :: rest), [Replaced (chan name q)]) else None
      | Made => Some (q, mkThread Send (m :: rest), [])
      | Send =>
          if has_room name q then Some (set_input name (chan name q ++ [m]) q, next rest, [Queued m])
          else if noBlock then
            if decide (name ∈ warnFull q) then Some (q, next rest, [Dropped m]) else Some (q, mkThread Warn (m :: rest), [])
          else None
      | Warn => if free then Some (warn name q, mkThread Warned (m :: rest), []) else None
      | Warned => Some (mark name q, next rest, [Dropped m])
      end
  end.

(** A new call, a turn of a thread, or one sample taken by the callback of a gauge. *)
Inductive action := Start (ms : list OtelData) | Turn (i : nat) | Receive (name : string).
Definition act (a : action) (w : world) : option world :=
  match a with
  | Start ms => Some (mkWorld (w_q w) (w_threads w ++ [mkThread Idle ms]) (w_events w))
  | Turn i =>
      t ← w_threads w !! i;
      '(q, t, es) ← turn (forallb (λ t, negb (holds_read t)) (w_threads w)) (w_q w) t;
      Some (mkWorld q (<[i := t]> (w_threads w)) (w_events w ++ es))
  | Receive name =>
      if bool_decide (name ∈ gauges (w_q w)) then
        match chan name (w_q w) with
        | [] => None
        | d :: l => Some (mkWorld (set_input name l (w_q w)) (w_threads w) (w_events w ++ [Observed d]))
        end
      else None
  end.
Fixpoint acts (l : list action) (w : world) : option world :=
  match l with [] => Some w | a :: l => w ← act a w; acts l w end.

(** A call by itself: it returns, or waits for room with what it has left. *)
Inductive called := Returned (q : queues) (es : list event) | Waits (q : queues) (es : list event) (left : list OtelData).
Definition export_one (m : OtelData) (q : queues) : queues * option (list event) :=
  let name := od_Name m in
  if has_room name q then (set_input name (chan name q ++ [m]) q, Some [Queued m])
  else if noBlock then
    if decide (name ∈ warnFull q) then (q, Some [Dropped m]) else (mark name (warn name q), Some [Dropped m])
  else (q, None).
Fixpoint export (ms : list OtelData) (q : queues) (es : list event) : called :=
  match ms with
  | [] => Returned q es
  | m :: rest =>
      let name := od_Name m in
      if decide (name ∈ vecs q) then
        match export_one m q with (q, Some e) => export rest q (es ++ e) | (q, None) => Waits q es (m :: rest) end
      else if gauge_ok (gauges q) name then
        let es := es ++ [Replaced (chan name q)] in
        match export_one m (make_chan name (make_gauge name q)) with
        | (q, Some e) => export rest q (es ++ e)
        | (q, None) => Waits q es (m :: rest)
        end
      else Returned q (es ++ [Refused (m :: rest)])
  end.

(** ** What became of the samples *)
Definition of_name (n : string) (l : list OtelData) : list OtelData := filter (λ d, od_Name d = n) l.
Definition queued_of (e : event) : list OtelData := match e with Queued d => [d] | _ => [] end.
Definition dropped_of (e : event) : list OtelData := match e with Dropped d => [d] | _ => [] end.
Definition observed_of (e : event) : list OtelData := match e with Observed d => [d] | _ => [] end.
Definition replaced_of (e : event) : list OtelData := match e with Replaced l => l | _ => [] end.
Definition refused_of (e : event) : list OtelData := match e with Refused l => l | _ => [] end.
Definition all_of (f : event → list OtelData) (w : world) : list OtelData := concat (f <$> w_events w).
Definition todo (w : world) : list OtelData := concat (t_todo <$> w_threads w).
Definition started (a : action) : list OtelData := match a with Start ms => ms | _ => [] end.
End queues.

Section queue_laws.
Context (noBlock : bool) (gauge_ok : list string → string → bool).
Abbreviation turn := (turn noBlock gauge_ok).
Abbreviation act := (act noBlock gauge_ok).
Abbreviation acts := (acts noBlock gauge_ok).

(** ** Nothing is lost unseen *)
Definition out_of (e : event) : list OtelData := observed_of e ++ dropped_of e ++ replaced_of e ++ refused_of e.
Definition out (es : list event) : list OtelData := concat (out_of <$> es).
Lemma of_name_app n l1 l2 : of_name n (l1 ++ l2) = of_name n l1 ++ of_name n l2.
Proof. apply filter_app. Qed.
Lemma out_app es1 es2 : out (es1 ++ es2) = out es1 ++ out es2.
Proof. unfold out. by rewrite fmap_app, concat_app. Qed.

Lemma out_one e : out [e] = out_of e.
Proof. unfold out. cbn [fmap list_fmap concat]. by rewrite app_nil_r. Qed.
Lemma out_replaced l : out_of (Replaced l) = l.
Proof. unfold out_of. cbn [observed_of dropped_of replaced_of refused_of app]. by rewrite app_nil_r. Qed.

Lemma out_parts es : out es ≡ₚ concat (observed_of <$> es) ++ concat (dropped_of <$> es) ++ concat (replaced_of <$> es) ++ concat (refused_of <$> es).
Proof.
  unfold out. induction es as [|e es IH]; [done|]. rewrite !fmap_cons. cbn [concat]. rewrite IH. unfold out_of. solve_Permutation.
Qed.

Lemma chan_insert n name l q : chan n (set_input name l q) = if decide (name = n) then l else chan n q.
Proof. unfold chan. cbn [set_input inputs]. case_decide as E; [subst; by rewrite lookup_insert_eq|by rewrite lookup_insert_ne]. Qed.
Lemma chan_made n name q : chan n (make_chan name q) = if decide (name = n) then [] else chan n q.
Proof. unfold chan. cbn [make_chan inputs]. case_decide as E; [subst; by rewrite lookup_insert_eq|by rewrite lookup_insert_ne]. Qed.
Lemma chan_warn n name q : chan n (warn name q) = chan n q.
Proof. unfold warn. by destruct (decide _). Qed.

(** The channels hold samples of their own name, no more than they have room for. *)
Record chans_ok (q : queues) : Prop := {
  co_name n d : d ∈ chan n q → od_Name d = n;
  co_room n : Z.of_nat (length (chan n q)) ≤ CHAN_SLACK }.

Lemma chans_ok_same q q' : (∀ n, chan n q' = chan n q) → chans_ok q → chans_ok q'.
Proof. intros E Hq. split; intros n; rewrite E; [apply (co_name _ Hq)|apply (co_room _ Hq)]. Qed.

Lemma of_name_all n l : (∀ d, d ∈ l → od_Name d = n) → of_name n l = l.
Proof.
  induction l as [|d l IH]; intros Hl; [done|]. unfold of_name. rewrite filter_cons, decide_True by (apply Hl; by left).
  f_equal. apply IH. intros e He. apply Hl. by right.
Qed.
Lemma of_name_none n l : (∀ d, d ∈ l → od_Name d ≠ n) → of_name n l = [].
Proof. intros Hl. apply list_filter_none, Forall_forall. exact Hl. Qed.
Lemma of_name_cons n d l : of_name n (d :: l) = (if decide (od_Name d = n) then [d] else []) ++ of_name n l.
Proof. unfold of_name. rewrite filter_cons. by destruct (decide _). Qed.

(** A turn moves samples about. *)
Lemma turn_moves free q t q' t' es : turn free q t = Some (q', t', es) → chans_ok q →
  chans_ok q' ∧ ∀ n, of_name n (t_todo t) ++ chan n q ≡ₚ of_name n (t_todo t') ++ chan n q' ++ of_name n (out es).
Proof.
  unfold Otel.turn. destruct t as [p [|m rest]]; [done|]. cbn [t_todo t_pc]. destruct p; intros E Hq.
  - injection E as <- <- <-. split; [done|]. intros n. by rewrite app_nil_r.
  - destruct (decide _) as [Hv|Hv]; [|destruct (gauge_ok _ _)]; injection E as <- <- <-; (split; [by destruct Hq|]); intros n; cbn [t_todo out_of out concat].
    1-2: by rewrite app_nil_r.
    rewrite out_one. change (out_of (Refused (m :: rest))) with (m :: rest). exact (Permutation_app_comm (of_name n (m :: rest)) (chan n q)).
  - destruct free; [|done]. injection E as <- <- <-. split.
    + split; intros n; rewrite chan_made; [intros d|]; case_decide; cbn; [by intros ?%not_elem_of_nil|apply (co_name _ Hq)|unfold CHAN_SLACK; lia|apply (co_room _ Hq)].
    + intros n. rewrite chan_made, out_one, out_replaced. cbn [t_todo]. apply Permutation_app_head. case_decide as En.
      * subst n. by rewrite of_name_all by apply (co_name _ Hq).
      * rewrite of_name_none, app_nil_r; [done|]. intros d Hd%(co_name _ Hq). congruence.
  - injection E as <- <- <-. split; [done|]. intros n. by rewrite app_nil_r.
  - destruct (has_room _ _) eqn:Hr.
    + injection E as <- <- <-. cbn [t_todo]. split.
      * split; intros n; rewrite chan_insert; [intros d|]; case_decide as En; [|apply (co_name _ Hq)| |apply (co_room _ Hq)].
        -- intros [Hd%(co_name _ Hq)|Hd%list_elem_of_singleton]%elem_of_app; congruence.
        -- unfold has_room in Hr. unfold chan. destruct (inputs q !! od_Name m) as [l|]; [|done]. cbn [default from_option id].
           rewrite length_app. cbn [length]. lia.
      * intros n. rewrite chan_insert, of_name_cons, out_one. change (out_of (Queued m)) with (@nil OtelData). cbn [of_name filter list_filter]. case_decide; subst; solve_Permutation.
    + destruct noBlock; [|done]. destruct (decide _) as [Hv|Hv]; injection E as <- <- <-; (split; [done|]); intros n; cbn [t_todo].
      * rewrite out_one. change (out_of (Dropped m)) with [m]. rewrite (of_name_cons _ _ rest), (of_name_cons _ _ []). change (of_name n []) with (@nil OtelData). rewrite app_nil_r. solve_Permutation.
      * by rewrite app_nil_r.
  - destruct free; [|done]. injection E as <- <- <-. split; [eapply chans_ok_same; [|done]; intros; apply chan_warn|].
    intros n. by rewrite chan_warn, app_nil_r.
  - injection E as <- <- <-. split; [by destruct Hq|]. intros n. cbn [t_todo]. change (chan n (mark (od_Name m) q)) with (chan n q).
    rewrite out_one. change (out_of (Dropped m)) with [m]. rewrite (of_name_cons _ _ rest), (of_name_cons _ _ []). change (of_name n []) with (@nil OtelData). rewrite app_nil_r. solve_Permutation.
Qed.

(** In blocking mode nothing is dropped. *)
Definition warning (t : thread) : bool := match t_pc t with Warn | Warned => true | _ => false end.
Lemma turn_blocks free q t q' t' es : noBlock = false → turn free q t = Some (q', t', es) → warning t = false →
  warning t' = false ∧ concat (dropped_of <$> es) = [].
Proof.
  intros Hb. unfold Otel.turn. rewrite Hb. destruct t as [p [|m rest]]; [done|]. cbn [t_todo t_pc].
  destruct p; intros E Hw; try done; repeat first [case_decide | destruct (gauge_ok _ _) | destruct free | destruct (has_room _ _)]; by simplify_eq.
Qed.

Record accounted (said : list OtelData) (w : world) : Prop := {
  ac_chans : chans_ok (w_q w);
  ac_perm n : of_name n said ≡ₚ of_name n (todo w) ++ chan n (w_q w) ++ of_name n (out (w_events w));
  ac_blocks : noBlock = false → Forall (λ t, warning t = false) (w_threads w) ∧ all_of dropped_of w = [] }.

Lemma todo_insert n (ts : list thread) i t t' : ts !! i = Some t →
  ∃ r, of_name n (concat (t_todo <$> ts)) ≡ₚ of_name n (t_todo t) ++ r ∧ of_name n (concat (t_todo <$> <[i := t']> ts)) ≡ₚ of_name n (t_todo t') ++ r.
Proof.
  intros Hi. exists (of_name n (concat (t_todo <$> take i ts) ++ concat (t_todo <$> drop (S i) ts))).
  rewrite insert_take_drop by (by eapply lookup_lt_Some). rewrite <-(take_drop_middle ts i t Hi) at 1.
  rewrite !fmap_app, !concat_app, !fmap_cons, !of_name_app. cbn [concat]. rewrite !of_name_app. split; solve_Permutation.
Qed.

Lemma act_accounted a said w w' : act a w = Some w' → accounted said w → accounted (said ++ started a) w'.
Proof.
  destruct a as [ms|i|name]; cbn [Otel.act started]; intros E Hw.
  - injection E as <-. split; [apply (ac_chans _ _ Hw)| |]; cbn [w_q w_threads w_events].
    + intros n. unfold todo. cbn [w_threads]. rewrite fmap_app, concat_app, !of_name_app, (ac_perm _ _ Hw n). cbn. rewrite app_nil_r. fold (todo w). solve_Permutation.
    + intros Hb. destruct (ac_blocks _ _ Hw Hb) as [H1 H2]. split; [|done]. apply Forall_app. split; [done|]. by repeat constructor.
  - destruct (w_threads w !! i) as [t|] eqn:Ei; [|done]. cbn [mbind option_bind] in E.
    destruct (turn _ _ t) as [[[q' t'] es]|] eqn:Et; [|done]. cbn in E. injection E as <-.
    destruct (turn_moves _ _ _ _ _ _ Et (ac_chans _ _ Hw)) as [Hq Hp]. split; [done| |]; cbn [w_q w_threads w_events].
    + intros n. rewrite app_nil_r, (ac_perm _ _ Hw n), out_app, of_name_app. unfold todo. cbn [w_threads].
      destruct (todo_insert n (w_threads w) i t t' Ei) as (r & -> & ->). rewrite <-!(assoc_L (++)), (Permutation_app_comm r), <-!(assoc_L (++)).
      rewrite (assoc_L (++) (of_name n (t_todo t))), Hp. solve_Permutation.
    + intros Hb. destruct (ac_blocks _ _ Hw Hb) as [H1 H2]. destruct (turn_blocks _ _ _ _ _ _ Hb Et) as [H3 H4]; [by eapply Forall_lookup_1 in H1|].
      split; [by apply Forall_insert|]. unfold all_of in *. cbn [w_events]. by rewrite fmap_app, concat_app, H2, H4.
  - destruct (bool_decide _); [|done]. destruct (chan name (w_q w)) as [|d l] eqn:Ec; [done|]. injection E as <-.
    pose proof (ac_chans _ _ Hw) as Hq. assert (od_Name d = name) as Hd by (apply (co_name _ Hq); rewrite Ec; by left).
    split; cbn [w_q w_threads w_events].
    + split; intros n; rewrite chan_insert; [intros e|]; case_decide as En; [|apply (co_name _ Hq)| |apply (co_room _ Hq)]; subst n.
      * intros He. apply (co_name _ Hq). rewrite Ec. by right.
      * pose proof (co_room _ Hq name) as Hr. rewrite Ec in Hr. cbn [length] in Hr. lia.
    + intros n. rewrite app_nil_r, (ac_perm _ _ Hw n), chan_insert, out_app, of_name_app. unfold todo. cbn [w_threads]. apply Permutation_app_head.
      rewrite out_one. change (out_of (Observed d)) with [d]. rewrite of_name_cons, Hd. change (of_name n []) with (@nil OtelData). rewrite app_nil_r. case_decide as En; [subst n; rewrite Ec|]; solve_Permutation.
    + intros Hb. destruct (ac_blocks _ _ Hw Hb) as [H1 H2]. split; [done|]. unfold all_of in *. cbn [w_events]. by rewrite fmap_app, concat_app, H2.
Qed.

Lemma acts_accounted l said w w' : acts l w = Some w' → accounted said w → accounted (said ++ concat (started <$> l)) w'.
Proof.
  revert said w. induction l as [|a l IH]; intros said w E Hw; [injection E as <-; by rewrite app_nil_r|].
  cbn [Otel.acts] in E. destruct (act a w) as [w1|] eqn:Ea; [|done]. rewrite fmap_cons. cbn [concat]. rewrite (assoc_L (++)).
  by eapply IH, act_accounted.
Qed.
Lemma start_accounted : accounted [] start.
Proof.
  split; [split| |]; intros n; unfold chan; cbn; rewrite ?lookup_empty; try done; [by intros d ?%not_elem_of_nil].
Qed.

(** ** One call after the other *)
Fixpoint one_call (l : list action) (w : world) : bool :=
  match l with
  | [] => true
  | a :: l => match a with Start _ => forallb (λ t, negb (running t)) (w_threads w) | _ => true end &&
      match act a w with Some w => one_call l w | None => true end
  end.

(** The sample a thread is at, and whether it is to warn or has warned of it. *)
Definition at_pc (p : pc) (t : thread) (n : string) : Prop := t_pc t = p ∧ od_Name <$> head (t_todo t) = Some n.
Definition finished : thread := mkThread Idle [].

(** The meter of a name is made with the first warning; it counts that one drop. *)
Record marks_ok (q : queues) (t : thread) (dropped : list OtelData) : Prop := {
  mk_none n : n ∉ warnFull q → ExportDrops q !! n = None ∧ of_name n dropped = [];
  mk_warned n : n ∈ warnFull q → at_pc Warned t n → ExportDrops q !! n = Some 0 ∧ of_name n dropped = [];
  mk_some n : n ∈ warnFull q → ¬ at_pc Warned t n → ExportDrops q !! n = Some 1 ∧ of_name n dropped ≠ [];
  mk_warn n : at_pc Warn t n → n ∉ warnFull q;
  mk_at n : at_pc Warned t n → n ∈ warnFull q }.

(** The only thread that runs, as it is seen from the channels. *)
Record turn_ok (q : queues) (t : thread) : Prop := {
  to_made n : is_Some (inputs q !! n) → n ∈ vecs q;
  to_make n : at_pc Make t n → n ∉ vecs q }.

Lemma no_chan q t n : turn_ok q t → at_pc Make t n → chan n q = [].
Proof.
  intros Ht Hm%(to_make _ _ Ht). unfold chan. destruct (inputs q !! n) eqn:E; [|done]. exfalso. apply Hm, (to_made _ _ Ht). by rewrite E.
Qed.

Lemma turn_order free q t q' t' es : turn free q t = Some (q', t', es) → turn_ok q t →
  turn_ok q' t' ∧ concat (replaced_of <$> es) = [] ∧ concat (observed_of <$> es) = [] ∧
  ∀ n, chan n q' ++ of_name n (t_todo t') `sublist_of` chan n q ++ of_name n (t_todo t).
Proof.
  intros E Ht. pose proof (no_chan q t) as Hno. unfold Otel.turn in E. destruct t as [p [|m rest]]; [done|]. cbn [t_todo t_pc] in *.
  destruct p.
  - injection E as <- <- <-. split; [|done]. split; [apply (to_made _ _ Ht)|by intros n []].
  - destruct (decide _) as [Hv|Hv]; [|destruct (gauge_ok _ _)]; injection E as <- <- <-.
    + split; [|done]. split; [apply (to_made _ _ Ht)|by intros n []].
    + split; [|done]. split; [apply (to_made _ _ Ht)|]. intros n [_ [= <-]]. done.
    + split; [split; [apply (to_made _ _ Ht)|by intros n []]|]. do 2 (split; [done|]). intros n. apply sublist_app; [done|]. apply sublist_nil_l.
  - destruct free; [|done]. injection E as <- <- <-. rewrite (Hno (od_Name m)) by done. split; [|do 2 (split; [done|])].
    + split; [|by intros n []]. intros n [l Hl]. cbn [make_chan inputs vecs] in *. destruct (decide (od_Name m = n)); [set_solver|].
      rewrite lookup_insert_ne in Hl by done. apply elem_of_union_r, (to_made _ _ Ht). by rewrite Hl.
    + intros n. rewrite chan_made. case_decide as En; [|done]. subst n. by rewrite (Hno (od_Name m)).
  - injection E as <- <- <-. split; [|done]. split; [apply (to_made _ _ Ht)|by intros n []].
  - destruct (has_room _ _) eqn:Hr.
    + injection E as <- <- <-. split; [|do 2 (split; [done|])].
      * split; [|by intros n []]. intros n [l Hl]. cbn [set_input inputs vecs] in *. apply (to_made _ _ Ht). destruct (decide (od_Name m = n)) as [En|En]; [|by rewrite lookup_insert_ne in Hl by done; rewrite Hl].
        subst n. unfold has_room in Hr. by destruct (inputs q !! od_Name m).
      * intros n. rewrite chan_insert. cbn [t_todo]. rewrite (of_name_cons n m). case_decide; subst; by rewrite <-?(assoc_L (++)).
    + destruct noBlock; [|done]. destruct (decide _) as [Hv|Hv]; injection E as <- <- <-; (split; [split; [apply (to_made _ _ Ht)|by intros n []]|]); do 2 (split; [done|]); [|done].
      intros n. apply sublist_app; [done|]. cbn [t_todo next]. rewrite of_name_cons. by apply sublist_inserts_l.
  - destruct free; [|done]. injection E as <- <- <-. split; [|do 2 (split; [done|])].
    + split; [|by intros n []]. intros n. unfold warn. destruct (decide _); apply (to_made _ _ Ht).
    + intros n. by rewrite chan_warn.
  - injection E as <- <- <-. split; [split; [apply (to_made _ _ Ht)|by intros n []]|]. do 2 (split; [done|]). intros n.
    change (chan n (mark (od_Name m) q)) with (chan n q). apply sublist_app; [done|]. cbn [t_todo next]. rewrite of_name_cons. by apply sublist_inserts_l.
Qed.

(** A step that neither warns nor drops. *)
Lemma marks_quiet q q' t t' D : warnFull q' = warnFull q → ExportDrops q' = ExportDrops q → warning t = false → warning t' = false →
  marks_ok q t D → marks_ok q' t' D.
Proof.
  intros E1 E2 H1 H2 Hm. assert (∀ p n, (p = Warn ∨ p = Warned) → ¬ at_pc p t n) as N1 by (intros p n [-> | ->] [Hp _]; unfold warning in H1; by rewrite Hp in H1).
  assert (∀ p n, (p = Warn ∨ p = Warned) → ¬ at_pc p t' n) as N2 by (intros p n [-> | ->] [Hp _]; unfold warning in H2; by rewrite Hp in H2).
  split; intros n; rewrite ?E1, ?E2.
  - apply (mk_none _ _ _ Hm).
  - intros _ Ha. exfalso. by apply (N2 Warned n); [right|].
  - intros Hn _. apply (mk_some _ _ _ Hm); [done|]. apply N1. by right.
  - intros Ha. exfalso. by apply (N2 Warn n); [left|].
  - intros Ha. exfalso. by apply (N2 Warned n); [right|].
Qed.

Lemma of_name_snoc n l d : of_name n (l ++ [d]) = of_name n l ++ (if decide (od_Name d = n) then [d] else []).
Proof. rewrite of_name_app, (of_name_cons n d []). change (of_name n []) with (@nil OtelData). by rewrite app_nil_r. Qed.

Lemma turn_marks free q t q' t' es D : turn free q t = Some (q', t', es) → marks_ok q t D → marks_ok q' t' (D ++ concat (dropped_of <$> es)).
Proof.
  intros E Hm. unfold Otel.turn in E. destruct t as [p [|m rest]]; [done|]. cbn [t_todo t_pc] in E.
  assert (∀ q0 t0 es0, Some (q0, t0, es0) = Some (q', t', es) → warnFull q0 = warnFull q → ExportDrops q0 = ExportDrops q → warning t0 = false → warning (mkThread p (m :: rest)) = false →
    concat (dropped_of <$> es0) = [] → marks_ok q' t' (D ++ concat (dropped_of <$> es))) as quiet.
  { intros q0 t0 es0 [= -> -> ->] E1 E2 H1 H2 ->. rewrite app_nil_r. by apply (marks_quiet q q' (mkThread p (m :: rest)) t'). }
  destruct p; try (by apply (quiet _ _ _ E)).
  - destruct (decide _) as [Hv|Hv]; [|destruct (gauge_ok _ _)]; by apply (quiet _ _ _ E).
  - destruct free; [|done]. by apply (quiet _ _ _ E).
  - destruct (has_room _ _); [by apply (quiet _ _ _ E)|]. destruct noBlock; [|done].
    destruct (decide _) as [Hv|Hv]; injection E as <- <- <-; cbn [fmap list_fmap dropped_of concat].
    + assert (∀ n, ¬ at_pc Warned (mkThread Send (m :: rest)) n) as Hs by (intros n [[=] _]). split; intros n.
      * intros Hn. rewrite app_nil_r, of_name_snoc. rewrite decide_False by congruence. rewrite app_nil_r. by apply (mk_none _ _ _ Hm).
      * intros _ [[=] _].
      * intros Hn _. destruct (mk_some _ _ _ Hm n Hn (Hs n)) as [H1 H2]. split; [done|]. rewrite app_nil_r, of_name_snoc. by destruct (of_name n D).
      * intros [[=] _].
      * intros [[=] _].
    + rewrite app_nil_r. split; intros n; [apply (mk_none _ _ _ Hm)|intros _ [[=] _]| |intros [_ [= <-]]; done|intros [[=] _]].
      intros Hn _. apply (mk_some _ _ _ Hm); [done|]. intros [[=] _].
  - destruct free; [|done]. injection E as <- <- <-. cbn [fmap list_fmap concat]. rewrite app_nil_r.
    assert (od_Name m ∉ warnFull q) as Hv by by apply (mk_warn _ _ _ Hm). unfold warn. rewrite decide_False by done.
    destruct (mk_none _ _ _ Hm _ Hv) as [H1 H2]. rewrite H1. split; intros n; cbn [warnFull ExportDrops].
    + intros [Hn1 Hn2]%not_elem_of_union. rewrite lookup_insert_ne by set_solver. by apply (mk_none _ _ _ Hm).
    + intros _ [_ [= <-]]. by rewrite lookup_insert_eq.
    + intros [Hn%elem_of_singleton|Hn]%elem_of_union Ha; [exfalso; apply Ha; by subst n|]. rewrite lookup_insert_ne by congruence.
      apply (mk_some _ _ _ Hm); [done|]. intros [[=] _].
    + intros [[=] _].
    + intros [_ [= <-]]. set_solver.
  - injection E as <- <- <-. cbn [fmap list_fmap dropped_of concat]. rewrite app_nil_r.
    assert (at_pc Warned (mkThread Warned (m :: rest)) (od_Name m)) as Ha by done. pose proof (mk_at _ _ _ Hm _ Ha) as Hv.
    destruct (mk_warned _ _ _ Hm _ Hv Ha) as [H1 H2]. unfold mark. rewrite H1. split; intros n; cbn [warnFull ExportDrops]; [|intros _ [[=] _]| |intros [[=] _]|intros [[=] _]].
    + intros Hn. rewrite of_name_snoc, decide_False, lookup_insert_ne, app_nil_r by congruence. by apply (mk_none _ _ _ Hm).
    + intros Hn _. rewrite of_name_snoc. case_decide as En; [subst n; rewrite lookup_insert_eq; split; [done|by destruct (of_name _ D)]|].
      rewrite lookup_insert_ne, app_nil_r by done. apply (mk_some _ _ _ Hm); [done|]. intros [_ [= En2]]. done.
Qed.

(** What holds of a world while calls come one after the other. *)
Record one_ok (said : list OtelData) (w : world) : Prop := {
  oo_only i j ti tj : w_threads w !! i = Some ti → w_threads w !! j = Some tj → running ti = true → running tj = true → i = j;
  oo_turn t : t ∈ finished :: w_threads w → turn_ok (w_q w) t;
  oo_marks t : t ∈ finished :: w_threads w → (running t = true ∨ Forall (λ t, running t = false) (w_threads w)) → marks_ok (w_q w) t (all_of dropped_of w);
  oo_replaced : all_of replaced_of w = [];
  oo_order n : of_name n (all_of observed_of w) ++ chan n (w_q w) ++ of_name n (todo w) `sublist_of` of_name n said }.

Lemma todo_only w i t : (∀ j tj, w_threads w !! j = Some tj → running tj = true → i = j) → w_threads w !! i = Some t → todo w = t_todo t.
Proof.
  intros Ho Hi. unfold todo. rewrite <-(take_drop_middle _ _ _ Hi), fmap_app, fmap_cons, concat_app. cbn [concat].
  assert (∀ l, (∀ t, t ∈ l → running t = false) → concat (t_todo <$> l) = []) as Hnil.
  { induction l as [|u l IH]; intros Hl; [done|]. rewrite fmap_cons. cbn [concat]. rewrite IH by (intros; apply Hl; by right).
    specialize (Hl u). unfold running in Hl. destruct (t_todo u); [done|]. exfalso. by discriminate Hl; left. }
  rewrite !Hnil; [by rewrite app_nil_r| |]; intros u (j & Hj)%list_elem_of_lookup; destruct (running u) eqn:Hr; try done; exfalso.
  - rewrite lookup_drop in Hj. pose proof (Ho _ _ Hj Hr). lia.
  - apply lookup_take_Some in Hj as [Hj Hlt]. pose proof (Ho _ _ Hj Hr). lia.
Qed.
Lemma turn_runs free q t r : turn free q t = Some r → running t = true.
Proof. unfold Otel.turn, running. by destruct (t_todo t). Qed.
Lemma chan_room_made name q d l : chan name q = d :: l → is_Some (inputs q !! name).
Proof. unfold chan. by destruct (inputs q !! name). Qed.

Lemma at_runs p t n : at_pc p t n → running t = true.
Proof. unfold at_pc, running. by intros [_ Hn]; destruct (t_todo t). Qed.
Lemma turn_ok_idle q q' t u : (∀ n, is_Some (inputs q' !! n) → is_Some (inputs q !! n)) → vecs q' = vecs q → (running u = false ∨ t = u) → turn_ok q t → turn_ok q' u.
Proof.
  intros Hi E Hu Ht. split; rewrite E; intros n; [intros Hn%Hi; by apply (to_made _ _ Ht)|].
  intros Ha. destruct Hu as [Hu| ->]; [by rewrite (at_runs _ _ _ Ha) in Hu|by apply (to_make _ _ Ht)].
Qed.
Lemma marks_idle q q' t u D : warnFull q' = warnFull q → ExportDrops q' = ExportDrops q → (running t = false ∧ running u = false ∨ t = u) → marks_ok q t D → marks_ok q' u D.
Proof.
  intros E1 E2 Hu Hm. assert (∀ p n, at_pc p u n ↔ at_pc p t n) as Ha.
  { intros p n. destruct Hu as [[H1 H2]| ->]; [|done]. split; intros Ha%at_runs; congruence. }
  split; intros n; rewrite ?E1, ?E2, ?Ha.
  - apply (mk_none _ _ _ Hm).
  - apply (mk_warned _ _ _ Hm).
  - apply (mk_some _ _ _ Hm).
  - apply (mk_warn _ _ _ Hm).
  - apply (mk_at _ _ _ Hm).
Qed.
Lemma all_of_app f w es q ts : all_of f (mkWorld q ts (w_events w ++ es)) = all_of f w ++ concat (f <$> es).
Proof. unfold all_of. cbn [w_events]. by rewrite fmap_app, concat_app. Qed.
Lemma none_running w : Forall (λ t, running t = false) (w_threads w) → todo w = [].
Proof.
  unfold todo. induction 1 as [|t l Ht _ IH]; [done|]. rewrite fmap_cons. cbn [concat]. rewrite IH. unfold running in Ht. by destruct (t_todo t).
Qed.

Lemma start_one ms said w : Forall (λ t, running t = false) (w_threads w) → one_ok said w →
  one_ok (said ++ ms) (mkWorld (w_q w) (w_threads w ++ [mkThread Idle ms]) (w_events w)).
Proof.
  intros Hn Hw. pose proof (proj1 (Forall_lookup _ _) Hn) as Hl. pose proof (proj1 (Forall_forall _ _) Hn) as Hf. split; cbn [w_threads w_q].
  - assert (∀ i t, (w_threads w ++ [mkThread Idle ms]) !! i = Some t → running t = true → i = length (w_threads w)) as Hlast.
    { intros i t [[_ Hi]|[Hi _]]%lookup_snoc_Some Hr; [by rewrite (Hl _ _ Hi) in Hr|done]. }
    intros i j ti tj Hi Hj Hri Hrj. by rewrite (Hlast _ _ Hi Hri), (Hlast _ _ Hj Hrj).
  - intros t [->|[Ht|Ht%list_elem_of_singleton]%elem_of_app]%elem_of_cons; [apply (oo_turn _ _ Hw); by left|apply (oo_turn _ _ Hw); by right|].
    subst t. split; [apply (to_made _ finished), (oo_turn _ _ Hw); by left|by intros n [[=] _]].
  - assert (marks_ok (w_q w) finished (all_of dropped_of w)) as Hm by (apply (oo_marks _ _ Hw); [by left|by right]).
    intros t Ht Hr. change (all_of dropped_of (mkWorld _ _ _)) with (all_of dropped_of w). rewrite elem_of_cons, elem_of_app, list_elem_of_singleton in Ht.
    destruct Ht as [->|[Ht| ->]]; [done|apply (oo_marks _ _ Hw); by right|by eapply marks_quiet; [..|exact Hm]].
  - apply (oo_replaced _ _ Hw).
  - intros n. pose proof (oo_order _ _ Hw n) as Ho. unfold todo. cbn [w_threads]. rewrite fmap_app, concat_app. fold (todo w). rewrite (none_running _ Hn) in *.
    cbn [fmap list_fmap concat t_todo app] in *. change (of_name n []) with (@nil OtelData) in Ho. rewrite app_nil_r in Ho |- *.
    rewrite of_name_app, (assoc_L (++)). by apply sublist_app.
Qed.

Lemma turn_one said w i t q' t' es : one_ok said w → w_threads w !! i = Some t →
  turn (forallb (λ t, negb (holds_read t)) (w_threads w)) (w_q w) t = Some (q', t', es) →
  one_ok said (mkWorld q' (<[i := t']> (w_threads w)) (w_events w ++ es)).
Proof.
  intros Hw Hi Et. pose proof (turn_runs _ _ _ _ Et) as Hr. assert (t ∈ finished :: w_threads w) as Hin by (right; by eapply list_elem_of_lookup_2).
  destruct (turn_order _ _ _ _ _ _ Et (oo_turn _ _ Hw _ Hin)) as (Ht & Er & Eo & Hs).
  pose proof (turn_marks _ _ _ _ _ _ _ Et (oo_marks _ _ Hw _ Hin (or_introl Hr))) as Hm.
  assert (∀ j u, <[i := t']> (w_threads w) !! j = Some u → j = i ∧ u = t' ∨ running u = false) as Hothers.
  { intros j u Hj. destruct (decide (j = i)) as [->|Hne].
    - rewrite list_lookup_insert_eq in Hj by (by eapply lookup_lt_Some). left. by simplify_eq.
    - rewrite list_lookup_insert_ne in Hj by done. right. destruct (running u) eqn:Hu; [|done]. by destruct Hne; eapply (oo_only _ _ Hw). }
  assert (∀ u, u ∈ finished :: <[i := t']> (w_threads w) → u = t' ∨ running u = false) as Hothers'.
  { intros u [->|(j & Hj)%list_elem_of_lookup]%elem_of_cons; [by right|]. destruct (Hothers _ _ Hj) as [[_ ->]|]; auto. }
  assert (∀ j tj, <[i := t']> (w_threads w) !! j = Some tj → running tj = true → i = j) as Ho.
  { intros j tj Hj Hrj. destruct (Hothers _ _ Hj) as [[-> _]|]; [done|congruence]. }
  assert (<[i := t']> (w_threads w) !! i = Some t') as Hi' by (apply list_lookup_insert_eq; by eapply lookup_lt_Some).
  split; rewrite ?all_of_app; cbn [w_threads w_q].
  - intros j k tj tk Hj Hk Hrj Hrk. by rewrite <-(Ho _ _ Hj Hrj), <-(Ho _ _ Hk Hrk).
  - intros u Hu. apply (turn_ok_idle q' q' t'); [done|done| |done]. destruct (Hothers' u Hu); auto.
  - intros u Hu Hru. apply (marks_idle q' q' t'); [done|done| |done]. destruct (Hothers' u Hu) as [->|Hu']; [by right|]. left. split; [|done].
    destruct Hru as [|Hall]; [congruence|]. by eapply Forall_lookup_1 in Hall.
  - by rewrite (oo_replaced _ _ Hw), Er.
  - intros n. rewrite Eo, app_nil_r, (todo_only (mkWorld _ _ _) i t' Ho Hi'). etrans; [|apply (oo_order _ _ Hw)].
    rewrite (todo_only w i t) by (try done; intros j tj Hj Hrj; by eapply (oo_only _ _ Hw)). by apply sublist_app.
Qed.

Lemma receive_one said w name d l : chans_ok (w_q w) → one_ok said w → chan name (w_q w) = d :: l →
  one_ok said (mkWorld (set_input name l (w_q w)) (w_threads w) (w_events w ++ [Observed d])).
Proof.
  intros Hq Hw Hc. assert (od_Name d = name) as Hd by (apply (co_name _ Hq); rewrite Hc; by left).
  split; rewrite ?all_of_app; cbn [w_threads w_q fmap list_fmap dropped_of replaced_of concat]; rewrite ?app_nil_r.
  - apply (oo_only _ _ Hw).
  - intros t Ht. apply (turn_ok_idle (w_q w) _ t); [|done|by right|by apply (oo_turn _ _ Hw)]. intros n. cbn [set_input inputs].
    destruct (decide (name = n)) as [En|En]; [subst n; intros _; by eapply chan_room_made|by rewrite lookup_insert_ne].
  - intros t Ht Hr. apply (marks_idle (w_q w) _ t); [done|done|by right|]. by apply (oo_marks _ _ Hw).
  - apply (oo_replaced _ _ Hw).
  - intros n. rewrite chan_insert. etrans; [|apply (oo_order _ _ Hw)]. change (todo (mkWorld _ _ _)) with (todo w).
    cbn [observed_of app]. rewrite of_name_snoc, Hd. case_decide as En; [subst n; rewrite Hc|]; by rewrite <-?(assoc_L (++)).
Qed.

Lemma acts_one l said w w' : acts l w = Some w' → one_call l w = true → accounted said w → one_ok said w →
  accounted (said ++ concat (started <$> l)) w' ∧ one_ok (said ++ concat (started <$> l)) w'.
Proof.
  revert said w. induction l as [|a l IH]; intros said w E Hc Ha Hw; [injection E as <-; by rewrite app_nil_r|].
  cbn [Otel.acts one_call] in *. apply andb_true_iff in Hc as [H1 H2]. destruct (act a w) as [w1|] eqn:Ea; [|done].
  rewrite fmap_cons. cbn [concat]. rewrite (assoc_L (++)). eapply IH; [done|done|by eapply act_accounted|].
  destruct a as [ms|i|name]; cbn [Otel.act started] in *; rewrite ?app_nil_r.
  - injection Ea as <-. apply start_one; [|done]. apply Forall_forall. intros t Ht. rewrite forallb_forall in H1.
    apply negb_true_iff, H1. by apply list_elem_of_In.
  - destruct (w_threads w !! i) as [t|] eqn:Ei; [|done]. cbn [mbind option_bind] in Ea.
    destruct (turn _ _ t) as [[[q' t'] es]|] eqn:Et; [|done]. cbn in Ea. injection Ea as <-. by eapply turn_one.
  - destruct (bool_decide _); [|done]. destruct (chan name (w_q w)) as [|d r] eqn:Ec; [done|]. injection Ea as <-.
    apply receive_one; [apply (ac_chans _ _ Ha)|done|done].
Qed.
Lemma start_one_ok : one_ok [] start.
Proof.
  split; cbn.
  - intros i j ti tj Hi. by rewrite lookup_nil in Hi.
  - intros t ->%list_elem_of_singleton. split; [intros n [? Hn]; cbn in Hn; by rewrite lookup_empty in Hn|by intros n [[=] _]].
  - intros t ->%list_elem_of_singleton _. split; intros n; cbn; [by rewrite lookup_empty|set_solver|set_solver|by intros [[=] _]|by intros [[=] _]].
  - done.
  - intros n. apply sublist_nil_l.
Qed.

(** ** Calls return *)
(** What a thread knows of the name it is at. *)
Record known (q : queues) (t : thread) : Prop := {
  kn_gauge n : at_pc Make t n → n ∈ gauges q;
  kn_vec n : at_pc Made t n ∨ at_pc Send t n ∨ at_pc Warn t n ∨ at_pc Warned t n → n ∈ vecs q }.
Record wired (q : queues) : Prop := {
  wi_gauge n : n ∈ vecs q → n ∈ gauges q;
  wi_chan n : n ∈ vecs q → is_Some (inputs q !! n) }.
Definition wired_all (w : world) : Prop := wired (w_q w) ∧ Forall (known (w_q w)) (w_threads w).

Lemma known_grows q q' t : (∀ n, n ∈ gauges q → n ∈ gauges q') → vecs q ⊆ vecs q' → known q t → known q' t.
Proof. intros Hg Hv Ht. split; intros n Ha; [apply Hg, (kn_gauge _ _ Ht), Ha|apply Hv, (kn_vec _ _ Ht), Ha]. Qed.

Lemma turn_wired free q t q' t' es : turn free q t = Some (q', t', es) → wired q → known q t →
  wired q' ∧ known q' t' ∧ (∀ n, n ∈ gauges q → n ∈ gauges q') ∧ vecs q ⊆ vecs q'.
Proof.
  intros E Hq Ht. unfold Otel.turn in E. destruct t as [p [|m rest]]; [done|]. cbn [t_todo t_pc] in E.
  assert (∀ q, known q (mkThread Look (m :: rest)) ∧ known q (mkThread Idle []) ∧ known q (next rest)) as Hfree by (intros; repeat split; intros n; unfold at_pc; cbn; naive_solver).
  assert (∀ q p, od_Name m ∈ vecs q → (p = Made ∨ p = Send ∨ p = Warn ∨ p = Warned) → known q (mkThread p (m :: rest))) as Hvec.
  { intros q0 p0 Hv Hp. split; intros n; unfold at_pc; cbn; [naive_solver|]. by intros [[_ [= <-]]|[[_ [= <-]]|[[_ [= <-]]|[_ [= <-]]]]]. }
  destruct p.
  - injection E as <- <- <-. repeat split; try done; by apply Hq || apply Hfree.
  - destruct (decide _) as [Hv|Hv]; [|destruct (gauge_ok _ _)]; injection E as <- <- <-.
    + split; [done|]. split; [apply Hvec; auto|done].
    + split; [|split; [|split; [|done]]].
      * split; intros n Hn; [apply elem_of_app; left; by apply (wi_gauge _ Hq)|by apply (wi_chan _ Hq)].
      * split; intros n; unfold at_pc; cbn; [|naive_solver]. intros [_ [= <-]]. apply elem_of_app. right. by apply list_elem_of_singleton.
      * intros n Hn. apply elem_of_app. by left.
    + split; [done|]. split; [apply Hfree|done].
  - destruct free; [|done]. injection E as <- <- <-. split; [|split; [|split; [done|set_solver]]].
    + split; intros n; cbn [make_chan gauges inputs vecs]; intros [->%elem_of_singleton|Hn]%elem_of_union.
      * by apply (kn_gauge _ _ Ht).
      * by apply (wi_gauge _ Hq).
      * by rewrite lookup_insert_eq.
      * destruct (decide (od_Name m = n)) as [<-|]; [by rewrite lookup_insert_eq|]. rewrite lookup_insert_ne by done. by apply (wi_chan _ Hq).
    + apply Hvec; [|by left]. cbn [make_chan vecs]. set_solver.
  - injection E as <- <- <-. split; [done|]. split; [|done]. apply Hvec; [|auto]. apply (kn_vec _ _ Ht). by left.
  - assert (od_Name m ∈ vecs q) as Hv by (apply (kn_vec _ _ Ht); right; by left).
    destruct (has_room _ _) eqn:Hr.
    + injection E as <- <- <-. split; [|by split; [apply Hfree|]]. split; intros n Hn; cbn [set_input gauges inputs vecs] in *; [by apply (wi_gauge _ Hq)|].
      destruct (decide (od_Name m = n)) as [<-|]; [by rewrite lookup_insert_eq|]. rewrite lookup_insert_ne by done. by apply (wi_chan _ Hq).
    + destruct noBlock; [|done]. destruct (decide _) as [Hw|Hw]; injection E as <- <- <-; (split; [done|]); (split; [|done]); [apply Hfree|apply Hvec; auto].
  - assert (od_Name m ∈ vecs q) as Hv by (apply (kn_vec _ _ Ht); do 2 right; by left).
    destruct free; [|done]. injection E as <- <- <-. unfold warn. destruct (decide _); (split; [by destruct Hq|]); (split; [|done]); apply Hvec; auto.
  - injection E as <- <- <-. split; [by destruct Hq|]. by split; [apply Hfree|].
Qed.

Lemma act_wired a w w' : act a w = Some w' → wired_all w → wired_all w'.
Proof.
  intros E [Hq Ht]. destruct a as [ms|i|name]; cbn [Otel.act] in E.
  - injection E as <-. split; [done|]. apply Forall_app. split; [done|]. repeat constructor; intros n; unfold at_pc; cbn; naive_solver.
  - destruct (w_threads w !! i) as [t|] eqn:Ei; [|done]. cbn [mbind option_bind] in E.
    destruct (turn _ _ t) as [[[q' t'] es]|] eqn:Et; [|done]. cbn in E. injection E as <-.
    destruct (turn_wired _ _ _ _ _ _ Et Hq) as (H1 & H2 & H3 & H4); [by eapply Forall_lookup_1 in Ht|]. split; [done|].
    apply Forall_insert; [|done]. eapply Forall_impl; [exact Ht|]. intros u. by apply known_grows.
  - destruct (bool_decide _); [|done]. destruct (chan name (w_q w)) as [|d l]; [done|]. injection E as <-. split; [|eapply Forall_impl; [exact Ht|]; by intros u; apply known_grows].
    split; intros n Hn; cbn [w_q set_input gauges inputs vecs] in *; [by apply (wi_gauge _ Hq)|].
    destruct (decide (name = n)) as [<-|]; [by rewrite lookup_insert_eq|]. rewrite lookup_insert_ne by done. by apply (wi_chan _ Hq).
Qed.
Lemma acts_wired l w w' : acts l w = Some w' → wired_all w → wired_all w'.
Proof.
  revert w. induction l as [|a l IH]; intros w E Hw; [by injection E as <-|]. cbn [Otel.acts] in E.
  destruct (act a w) eqn:Ea; [|done]. by eapply IH; [|eapply act_wired].
Qed.
Lemma start_wired : wired_all start.
Proof. repeat split; try constructor; cbn; intros; set_solver. Qed.

(** The turns that a thread has left at most. *)
Definition left_in (p : pc) : nat :=
  match p with Idle => 7 | Look => 6 | Make => 5 | Made => 4 | Send => 3 | Warn => 2 | Warned => 1 end.
Definition effort (t : thread) : nat := match t_todo t with [] => 0 | _ :: rest => left_in (t_pc t) + 6 * length rest end.
Definition effort_all (w : world) : nat := sum_list_with effort (w_threads w).
Definition is_turn (a : action) : bool := match a with Turn _ => true | _ => false end.

Lemma turn_effort free q t q' t' es : turn free q t = Some (q', t', es) → (effort t' < effort t)%nat.
Proof.
  unfold Otel.turn. destruct t as [p [|m rest]]; [done|]. cbn [t_todo t_pc]. unfold effort.
  assert (effort (next rest) ≤ 6 * length rest)%nat as Hn by (unfold effort; destruct rest; cbn; lia). unfold effort in Hn.
  destruct p; intros E; try (destruct (has_room _ _)); try (destruct (decide _)); try (destruct (gauge_ok _ _)); try (destruct free); try (destruct noBlock); simplify_eq; cbn in *; lia.
Qed.
Lemma act_effort a w w' : is_turn a = true → act a w = Some w' → (effort_all w' < effort_all w)%nat.
Proof.
  destruct a as [|i|]; [done| |done]. intros _ E. cbn [Otel.act] in E. destruct (w_threads w !! i) as [t|] eqn:Ei; [|done]. cbn [mbind option_bind] in E.
  destruct (turn _ _ t) as [[[q' t'] es]|] eqn:Et; [|done]. cbn in E. injection E as <-. apply turn_effort in Et.
  unfold effort_all. cbn [w_threads]. rewrite insert_take_drop by (by eapply lookup_lt_Some). rewrite <-(take_drop_middle _ _ _ Ei) at 3.
  rewrite !sum_list_with_app. cbn [sum_list_with]. lia.
Qed.
Lemma acts_effort l w w' : forallb is_turn l = true → acts l w = Some w' → (length l + effort_all w' ≤ effort_all w)%nat.
Proof.
  revert w. induction l as [|a l IH]; intros w Ht E; [injection E as <-; cbn; lia|]. cbn [Otel.acts forallb] in *.
  apply andb_true_iff in Ht as [Ha Hl]. destruct (act a w) as [w1|] eqn:Ea; [|done]. apply act_effort in Ea; [|done]. apply IH in E; [|done]. cbn [length]. lia.
Qed.

(** *** A call by itself *)
Definition after (c : called) : world :=
  match c with
  | Returned q es => mkWorld q [finished] es
  | Waits q es waiting => mkWorld q [mkThread Send waiting] es
  end.
(** Worlds with one thread that has nothing left are told apart by its place only. *)
Definition same_end (w v : world) : Prop :=
  w_q w = w_q v ∧ w_events w = w_events v ∧ (w_threads w = w_threads v ∨ ∃ t u, w_threads w = [t] ∧ w_threads v = [u] ∧ running t = false ∧ running u = false).

Lemma acts_app l1 l2 w : acts (l1 ++ l2) w = acts l1 w ≫= acts l2.
Proof. revert w. induction l1 as [|a l1 IH]; intros w; [done|]. cbn [app Otel.acts]. destruct (act a w); [apply IH|done]. Qed.
Definition turns (k : nat) : list action := replicate k (Turn 0).
Lemma alone_turn k q t es q' t' es' : turn (negb (holds_read t) && true) q t = Some (q', t', es') →
  acts (turns (S k)) (mkWorld q [t] es) = acts (turns k) (mkWorld q' [t'] (es ++ es')).
Proof. intros E. unfold turns. cbn [replicate Otel.acts Otel.act w_threads lookup list_lookup mbind option_bind forallb w_q w_events]. by rewrite E. Qed.

(** One sample, from where its channel is there. *)
Lemma alone_send m rest q es :
  match export_one noBlock m q with
  | (q', Some e) => ∃ k, ∀ j, acts (turns (k + j)) (mkWorld q [mkThread Send (m :: rest)] es) = acts (turns j) (mkWorld q' [next rest] (es ++ e))
  | (q', None) => q' = q
  end.
Proof.
  destruct (export_one noBlock m q) as [q' o] eqn:E. unfold export_one in E. destruct (has_room (od_Name m) q) eqn:Hr.
  - injection E as <- <-. exists 1%nat. intros j. apply alone_turn. unfold Otel.turn. cbn [t_todo t_pc]. by rewrite Hr.
  - destruct (Bool.bool_dec noBlock true) as [Hb|Hb%not_true_is_false]; rewrite Hb in E; [|by injection E as <- <-].
    destruct (decide (od_Name m ∈ warnFull q)) as [Hv|Hv]; injection E as <- <-.
    + exists 1%nat. intros j. apply alone_turn. unfold Otel.turn. cbn [t_todo t_pc]. by rewrite Hr, Hb, decide_True.
    + exists 3%nat. intros j. erewrite (alone_turn (2 + j)); [|unfold Otel.turn; cbn [t_todo t_pc]; by rewrite Hr, Hb, decide_False].
      erewrite (alone_turn (1 + j)); [|done]. erewrite (alone_turn j); [|done]. by rewrite !app_nil_r.
Qed.

Lemma alone_export ms q es : ∃ k w, acts (turns k) (mkWorld q [next ms] es) = Some w ∧ same_end w (after (export noBlock gauge_ok ms q es)).
Proof.
  revert q es. induction ms as [|m rest IH]; intros q es.
  { exists O. eexists. split; [done|]. split; [done|]. split; [done|]. right. by eexists _, _. }
  assert (∀ q es, ∃ k w,
    acts (turns k) (mkWorld q [mkThread Send (m :: rest)] es) = Some w ∧
    same_end w (after (match export_one noBlock m q with (q, Some e) => export noBlock gauge_ok rest q (es ++ e) | (q, None) => Waits q es (m :: rest) end))) as Hsend.
  { intros q0 es0. pose proof (alone_send m rest q0 es0) as Hs. destruct (export_one noBlock m q0) as [q1 [e|]].
    - destruct Hs as (k & Hk). destruct (IH q1 (es0 ++ e)) as (j & w & Ej & Hw). exists (k + j)%nat, w. by rewrite Hk.
    - subst q1. exists O. eexists. split; [done|]. split; [done|]. split; [done|]. by left. }
  cbn [export]. destruct (decide (od_Name m ∈ vecs q)) as [Hv|Hv].
  - destruct (Hsend q es) as (k & w & E & Hw). exists (S k), w. split; [|done].
    erewrite alone_turn; [by rewrite app_nil_r|]. unfold Otel.turn. cbn [next t_todo t_pc]. by rewrite decide_True.
  - destruct (gauge_ok (gauges q) (od_Name m)) eqn:Hg.
    + destruct (Hsend (make_chan (od_Name m) (make_gauge (od_Name m) q)) (es ++ [Replaced (chan (od_Name m) q)])) as (k & w & E & Hw).
      exists (3 + k)%nat, w. split; [|done].
      erewrite (alone_turn (2 + k)); [|unfold Otel.turn; cbn [next t_todo t_pc]; by rewrite decide_False, Hg by done].
      erewrite (alone_turn (1 + k)); [|done]. erewrite (alone_turn k); [|done]. by rewrite !app_nil_r.
    + exists 1%nat. eexists. split; [erewrite (alone_turn 0); [done|unfold Otel.turn; cbn [next t_todo t_pc]; by rewrite decide_False, Hg by done]|].
      split; [done|]. split; [done|]. by left.
Qed.

Lemma export_waits ms q es q' es' l : export noBlock gauge_ok ms q es = Waits q' es' l →
  noBlock = false ∧ ∃ m rest, l = m :: rest ∧ has_room (od_Name m) q' = false.
Proof.
  assert (∀ m q q', export_one noBlock m q = (q', None) → noBlock = false ∧ has_room (od_Name m) q' = false) as Hone.
  { intros m q0 q1. unfold export_one. destruct (has_room _ _) eqn:Hr; [done|]. destruct noBlock; [by destruct (decide _)|]. by intros [= <-]. }
  revert q es. induction ms as [|m rest IH]; intros q es; [done|]. cbn [export]. destruct (decide _) as [Hv|Hv]; [|destruct (gauge_ok _ _); [|done]].
  all: destruct (export_one _ _ _) as [q1 [e|]] eqn:E1; [apply IH|]; intros [= <- _ <-]; apply Hone in E1 as [H1 H2]; split; [done|]; by exists m, rest.
Qed.

(** A call that no other call overlaps does what its loop says, sample by sample: its turns lead to
    the channels and events of [export], and when [export] waits for room no further turn is possible. *)
Theorem lone_call ms q es : ∃ k w, acts (turns k) (mkWorld q [mkThread Idle ms] es) = Some w ∧
  same_end w (after (export noBlock gauge_ok ms q es)) ∧ act (Turn 0) w = None.
Proof.
  assert (∃ k w, acts (turns k) (mkWorld q [mkThread Idle ms] es) = Some w ∧ same_end w (after (export noBlock gauge_ok ms q es))) as (k & w & E & Hw).
  { destruct ms as [|m rest].
    - exists O. eexists. split; [done|]. split; [done|]. split; [done|]. by left.
    - destruct (alone_export (m :: rest) q es) as (k & w & E & Hw). exists (S k), w. split; [|done].
      erewrite alone_turn; [by rewrite app_nil_r|done]. }
  exists k, w. split; [done|]. split; [done|]. destruct w as [q1 ts es1]. destruct Hw as (Eq & _ & Et). cbn [w_q w_threads] in *.
  destruct (export noBlock gauge_ok ms q es) as [q' es'|q' es' l] eqn:Ex; cbn [after w_q w_threads] in *; subst q1.
  - assert (∃ t, ts = [t] ∧ running t = false) as (t & -> & Hr) by (destruct Et as [->|(t & _ & -> & _ & Hr & _)]; [by exists finished|by exists t]).
    unfold running in Hr. cbn [Otel.act w_threads lookup list_lookup mbind option_bind]. unfold Otel.turn. by destruct (t_todo t).
  - apply export_waits in Ex as (Hb & m & rest & -> & Hr). assert (ts = [mkThread Send (m :: rest)]) as ->.
    { destruct Et as [->|(t & u & -> & [= <-] & _ & Hu)]; [done|]. done. }
    cbn [Otel.act w_threads lookup list_lookup mbind option_bind w_q]. unfold Otel.turn. cbn [t_todo t_pc]. by rewrite Hr, Hb.
Qed.

Lemma accounted_parts said w n : accounted said w →
  of_name n said ≡ₚ of_name n (all_of observed_of w) ++ chan n (w_q w) ++ of_name n (todo w) ++
     of_name n (all_of dropped_of w) ++ of_name n (all_of refused_of w) ++ of_name n (all_of replaced_of w).
Proof.
  intros Hw. rewrite (ac_perm _ _ Hw n). assert (of_name n (out (w_events w)) ≡ₚ of_name n (all_of observed_of w) ++ of_name n (all_of dropped_of w) ++
    of_name n (all_of replaced_of w) ++ of_name n (all_of refused_of w)) as ->.
  { rewrite <-!of_name_app. unfold of_name. by rewrite (out_parts (w_events w)). }
  solve_Permutation.
Qed.

Lemma sublist_same {A} (l1 l2 : list A) : l1 `sublist_of` l2 → length l1 = length l2 → l1 = l2.
Proof.
  induction 1 as [|x l1 l2 _ IH|x l1 l2 Hs _]; cbn [length]; intros E; [done|f_equal; apply IH; lia|].
  apply sublist_length in Hs. lia.
Qed.

(** C22: Whatever order calls and callbacks take turns in, every sample is reported, still in the channel of
    its name, still to be queued, dropped, refused with its gauge, or was in a channel that another
    one replaced; no channel has more than it has room for, and without the flag none is dropped. *)
Theorem samples_accounted l w : acts l start = Some w →
  (∀ n, of_name n (concat (started <$> l)) ≡ₚ of_name n (all_of observed_of w) ++ chan n (w_q w) ++ of_name n (todo w) ++
     of_name n (all_of dropped_of w) ++ of_name n (all_of refused_of w) ++ of_name n (all_of replaced_of w)) ∧
  (∀ n, Z.of_nat (length (chan n (w_q w))) ≤ CHAN_SLACK) ∧ (noBlock = false → all_of dropped_of w = []).
Proof.
  intros E. pose proof (acts_accounted _ _ _ _ E start_accounted) as Hw. split; [|split].
  - intros n. by apply accounted_parts.
  - apply (co_room _ (ac_chans _ _ Hw)).
  - intros Hb. apply (ac_blocks _ _ Hw Hb).
Qed.

(** As long as calls do not overlap, the samples of a name are reported in the order in which they were
    handed over and no channel with samples is replaced; when the library makes every gauge and calls may
    wait, all of them are. *)
Theorem one_call_in_order l w : acts l start = Some w → one_call l start = true →
  all_of replaced_of w = [] ∧
  (∀ n, of_name n (all_of observed_of w) ++ chan n (w_q w) ++ of_name n (todo w) `sublist_of` of_name n (concat (started <$> l))) ∧
  (noBlock = false → all_of refused_of w = [] →
     ∀ n, of_name n (all_of observed_of w) ++ chan n (w_q w) ++ of_name n (todo w) = of_name n (concat (started <$> l))).
Proof.
  intros E Hc. destruct (acts_one _ _ _ _ E Hc start_accounted start_one_ok) as [Ha Ho]. cbn [app] in *.
  split; [apply (oo_replaced _ _ Ho)|]. split; [apply (oo_order _ _ Ho)|]. intros Hb Hr n. apply sublist_same; [apply (oo_order _ _ Ho)|].
  rewrite (accounted_parts _ _ n Ha), (oo_replaced _ _ Ho), Hr, (proj2 (ac_blocks _ _ Ha Hb)).
  change (of_name n []) with (@nil OtelData). by rewrite !app_nil_r.
Qed.

(** As long as calls do not overlap, the meter of dropped samples of a name counts the first drop and
    no other. *)
Theorem drops_counted_once l w n : acts l start = Some w → one_call l start = true → Forall (λ t, running t = false) (w_threads w) →
  ExportDrops (w_q w) !! n = match of_name n (all_of dropped_of w) with [] => None | _ => Some 1 end.
Proof.
  intros E Hc Hf. destruct (acts_one _ _ _ _ E Hc start_accounted start_one_ok) as [_ Ho].
  assert (marks_ok (w_q w) finished (all_of dropped_of w)) as Hm by (apply (oo_marks _ _ Ho); [by left|by right]).
  destruct (decide (n ∈ warnFull (w_q w))) as [Hn|Hn].
  - destruct (mk_some _ _ _ Hm n Hn) as [H1 H2]; [by intros [[=] _]|]. rewrite H1. by destruct (of_name n _).
  - destruct (mk_none _ _ _ Hm n Hn) as [H1 H2]. by rewrite H1, H2.
Qed.

(** C23: The turns that calls can take are bounded by the samples they hand over, and while a call is not done
    some call can take one, unless calls may wait and one waits for the room of a full channel, from which the
    callback can take a sample. *)
Theorem calls_return l w : acts l start = Some w →
  (∀ l' w', forallb is_turn l' = true → acts l' w = Some w' → (length l' ≤ effort_all w)%nat) ∧
  (Forall (λ t, running t = false) (w_threads w) ∨ (∃ i w', act (Turn i) w = Some w') ∨
   noBlock = false ∧ ∃ m rest w', mkThread Send (m :: rest) ∈ w_threads w ∧ Z.of_nat (length (chan (od_Name m) (w_q w))) = CHAN_SLACK ∧
     act (Receive (od_Name m)) w = Some w').
Proof.
  intros E. destruct (acts_wired _ _ _ E start_wired) as [Hq Ht]. pose proof (ac_chans _ _ (acts_accounted _ _ _ _ E start_accounted)) as Hc.
  split; [intros l' w' Hl El; pose proof (acts_effort _ _ _ Hl El); lia|].
  destruct (decide (Forall (λ t, running t = false) (w_threads w))) as [Hf|Hf]; [by left|right].
  set (free := forallb (λ t, negb (holds_read t)) (w_threads w)).
  assert (∀ i t, w_threads w !! i = Some t → is_Some (turn free (w_q w) t) → ∃ i w', act (Turn i) w = Some w') as Hgo.
  { intros i t Hi [[[q' t'] es] Et]. exists i. cbn [Otel.act]. rewrite Hi. cbn [mbind option_bind]. fold free. rewrite Et. by eexists. }
  apply not_Forall_Exists in Hf; [|intros t; destruct (running t); [by right|by left]].
  destruct free eqn:Hfree.
  - apply Exists_exists in Hf as (t & (i & Hi)%list_elem_of_lookup & Hr). left. apply (Hgo i t Hi).
    assert (holds_read t = false) as Hh.
    { unfold free in Hfree. rewrite forallb_forall in Hfree. apply negb_true_iff, Hfree, list_elem_of_In. by eapply list_elem_of_lookup_2. }
    unfold holds_read, running, Otel.turn in *. destruct t as [p [|m rest]]; [done|]. cbn in *. by destruct p.
  - assert (∃ i t, w_threads w !! i = Some t ∧ holds_read t = true) as (i & t & Hi & Hh).
    { destruct (existsb holds_read (w_threads w)) eqn:Ee.
      - apply existsb_exists in Ee as (t & (i & Hi)%list_elem_of_In%list_elem_of_lookup & Hh). by exists i, t.
      - exfalso. assert (free = true) as Hft; [|congruence]. unfold free. apply forallb_forall. intros t Ht'. apply negb_true_iff.
        destruct (holds_read t) eqn:Hh; [|done]. by rewrite <-Ee, <-(proj2 (existsb_exists holds_read (w_threads w))) by by exists t. }
    unfold holds_read in Hh. apply andb_true_iff in Hh as [Hr Hp]. unfold running in Hr. destruct t as [p [|m rest]]; [done|]. cbn in Hr, Hp.
    destruct p; try done.
    + left. apply (Hgo i _ Hi). unfold Otel.turn. cbn [t_todo t_pc]. destruct (decide _); [|destruct (gauge_ok _ _)]; done.
    + destruct (has_room (od_Name m) (w_q w)) eqn:Hroom.
      { left. apply (Hgo i _ Hi). unfold Otel.turn. cbn [t_todo t_pc]. by rewrite Hroom. }
      destruct noBlock eqn:Hb.
      { left. apply (Hgo i _ Hi). unfold Otel.turn. cbn [t_todo t_pc]. rewrite Hroom. by destruct (decide _). }
      right. split; [done|]. exists m, rest. pose proof (Forall_lookup_1 _ _ _ _ Ht Hi) as Hk.
      assert (od_Name m ∈ vecs (w_q w)) as Hv by (apply (kn_vec _ _ Hk); right; by left). destruct (wi_chan _ Hq _ Hv) as [l0 Hl0].
      pose proof (co_room _ Hc (od_Name m)) as Hle. unfold has_room in Hroom. unfold chan in *. rewrite Hl0 in Hroom, Hle. cbn [default from_option id] in *.
      assert (Z.of_nat (length l0) = CHAN_SLACK) as Hlen by (apply Z.ltb_ge in Hroom; lia).
      destruct l0 as [|d l0]; [done|]. eexists. split; [by eapply list_elem_of_lookup_2|]. rewrite Hl0. split; [done|]. cbn [Otel.act].
      rewrite bool_decide_true by by apply (wi_gauge _ Hq). unfold chan. rewrite Hl0. reflexivity.
Qed.
End queue_laws.

(** ** Concrete inputs *)
Definition one_sample : OtelData := mkOtelData "kentik.snmp.CPU" (float_of 1) ∅.
Definition other_sample : OtelData := mkOtelData "kentik.snmp.CPU" (float_of 2) ∅.
Definition all_gauges (made : list string) (name : string) : bool := true.
Definition w_after (noBlock : bool) (l : list action) : world := default start (acts noBlock all_gauges l start).

(** Two calls see that a name has no gauge yet: the second one replaces the channel of the first, with its sample. *)
Definition overlap : list action := [Start [one_sample]; Start [other_sample]; Turn 0; Turn 0; Turn 1; Turn 1; Turn 0; Turn 0; Turn 0; Turn 1; Turn 1; Turn 1]%nat.
Example overlap_loses : all_of replaced_of (w_after false overlap) = [one_sample] ∧ chan "kentik.snmp.CPU" (w_q (w_after false overlap)) = [other_sample] ∧
  forallb (λ t, negb (running t)) (w_threads (w_after false overlap)) = true.
Proof. split; [|split]; vm_compute; reflexivity. Qed.

Lemma samples_accounted_witness : acts false all_gauges overlap start = Some (w_after false overlap) ∧
  of_name "kentik.snmp.CPU" (concat (started <$> overlap)) ≡ₚ
    of_name "kentik.snmp.CPU" (all_of observed_of (w_after false overlap)) ++ chan "kentik.snmp.CPU" (w_q (w_after false overlap)) ++
    of_name "kentik.snmp.CPU" (todo (w_after false overlap)) ++ of_name "kentik.snmp.CPU" (all_of dropped_of (w_after false overlap)) ++
    of_name "kentik.snmp.CPU" (all_of refused_of (w_after false overlap)) ++ of_name "kentik.snmp.CPU" (all_of replaced_of (w_after false overlap)).
Proof.
  assert (acts false all_gauges overlap start = Some (w_after false overlap)) as E by (vm_compute; reflexivity).
  split; [exact E|]. exact (proj1 (samples_accounted false all_gauges overlap (w_after false overlap) E) "kentik.snmp.CPU"%string).
Defined.

Definition calls : list action := [Start [one_sample]; Turn 0; Turn 0; Turn 0; Turn 0; Turn 0; Start [other_sample]; Turn 1; Turn 1; Turn 1; Receive "kentik.snmp.CPU"]%nat.
Lemma one_call_in_order_witness : acts false all_gauges calls start = Some (w_after false calls) ∧ one_call false all_gauges calls start = true ∧
  all_of observed_of (w_after false calls) = [one_sample] ∧
  of_name "kentik.snmp.CPU" (all_of observed_of (w_after false calls)) ++ chan "kentik.snmp.CPU" (w_q (w_after false calls)) ++
    of_name "kentik.snmp.CPU" (todo (w_after false calls)) = of_name "kentik.snmp.CPU" (concat (started <$> calls)).
Proof.
  assert (acts false all_gauges calls start = Some (w_after false calls)) as E by (vm_compute; reflexivity).
  assert (one_call false all_gauges calls start = true) as Hc by (vm_compute; reflexivity).
  split; [exact E|]. split; [exact Hc|]. split; [vm_compute; reflexivity|].
  apply (proj2 (proj2 (one_call_in_order false all_gauges calls _ E Hc))); vm_compute; reflexivity.
Defined.

Lemma calls_return_witness : acts false all_gauges (take 9 overlap) start = Some (w_after false (take 9 overlap)) ∧
  ∀ l' w', forallb is_turn l' = true → acts false all_gauges l' (w_after false (take 9 overlap)) = Some w' → (length l' ≤ effort_all (w_after false (take 9 overlap)))%nat.
Proof.
  assert (acts false all_gauges (take 9 overlap) start = Some (w_after false (take 9 overlap))) as E by (vm_compute; reflexivity).
  split; [exact E|]. exact (proj1 (calls_return false all_gauges _ _ E)).
Defined.

(** *** A channel that is full *)
Definition at_cpu (l : list OtelData) (warned : gset string) (drops : gmap string Z) : queues :=
  mkQueues ["kentik.snmp.CPU"%string] {["kentik.snmp.CPU"%string]} {["kentik.snmp.CPU"%string := l]} warned drops.

Lemma cpu_room l wf dr : has_room "kentik.snmp.CPU" (at_cpu l wf dr) = (Z.of_nat (length l) <? CHAN_SLACK).
Proof. reflexivity. Qed.
Lemma cpu_turn k q t es q' t' es' : turn true all_gauges (negb (holds_read t) && true) q t = Some (q', t', es') →
  acts true all_gauges (turns (S k)) (mkWorld q [t] es) = acts true all_gauges (turns k) (mkWorld q' [t'] (es ++ es')).
Proof. apply alone_turn. Qed.
Lemma cpu_fill k ms l es wf dr : Z.of_nat (length l + k) ≤ CHAN_SLACK → ∃ j es', (∀ n, acts true all_gauges (turns (j + n)) (mkWorld (at_cpu l wf dr) [next (replicate k one_sample ++ ms)] es) =
  acts true all_gauges (turns n) (mkWorld (at_cpu (l ++ replicate k one_sample) wf dr) [next ms] es')) ∧ concat (dropped_of <$> es') = concat (dropped_of <$> es).
Proof.
  revert l es. induction k as [|k IH]; intros l es Hl; [exists O, es; cbn [replicate app]; by rewrite app_nil_r|].
  destruct (IH (l ++ [one_sample]) (es ++ [Queued one_sample])) as (j & es' & Hj & Hd); [rewrite length_app; cbn [length]; lia|].
  exists (2 + j)%nat, es'. split.
  - intros n. cbn [replicate app]. rewrite (cpu_turn (1 + (j + n)) _ _ _ (at_cpu l wf dr) (mkThread Send (one_sample :: replicate k one_sample ++ ms)) []) by reflexivity.
    rewrite (cpu_turn (j + n) _ _ _ (at_cpu (l ++ [one_sample]) wf dr) (next (replicate k one_sample ++ ms)) [Queued one_sample]), app_nil_r.
    + rewrite Hj, <-(assoc_L (++)). reflexivity.
    + unfold turn. cbn [t_todo t_pc]. rewrite cpu_room. rewrite (proj2 (Z.ltb_lt _ _)) by lia. unfold set_input, at_cpu. cbn [inputs gauges vecs warnFull ExportDrops].
      rewrite insert_singleton_eq. reflexivity.
  - rewrite Hd, fmap_app, concat_app. apply app_nil_r.
Qed.

(** A call with two samples more than there is room for. *)
Definition too_many : list OtelData := one_sample :: replicate (Z.to_nat (CHAN_SLACK - 1)) one_sample ++ [one_sample; other_sample].
Lemma one_call_turns l w : forallb is_turn l = true → one_call true all_gauges l w = true.
Proof.
  revert w. induction l as [|a l IH]; intros w Hl; [done|]. cbn [forallb one_call] in *. apply andb_true_iff in Hl as [Ha Hl].
  destruct a; [done| |done]. cbn [andb]. destruct (act _ _ _ _); [by apply IH|done].
Qed.
Lemma turns_are k : forallb is_turn (turns k) = true.
Proof. by induction k. Qed.
(** With the channel full the first sample is warned of, the second is not. *)
Lemma cpu_overflow l es : Z.of_nat (length l) = CHAN_SLACK →
  acts true all_gauges (turns 6) (mkWorld (at_cpu l ∅ ∅) [next [one_sample; other_sample]] es) =
  Some (mkWorld (mark "kentik.snmp.CPU" (warn "kentik.snmp.CPU" (at_cpu l ∅ ∅))) [next []] (es ++ [Dropped one_sample] ++ [Dropped other_sample])).
Proof.
  intros Hl. assert (∀ wf dr, has_room "kentik.snmp.CPU" (at_cpu l wf dr) = false) as Hr by (intros; rewrite cpu_room; apply Z.ltb_ge; lia).
  pose proof (Hr ∅ ∅) as H1. set (q0 := at_cpu l ∅ ∅) in *. set (q1 := mark "kentik.snmp.CPU" (warn "kentik.snmp.CPU" q0)).
  rewrite (cpu_turn 5 q0 _ _ q0 (mkThread Send [one_sample; other_sample]) []) by reflexivity.
  rewrite (cpu_turn 4 q0 _ _ q0 (mkThread Warn [one_sample; other_sample]) []) by (unfold turn; cbn [t_todo t_pc]; change (has_room (od_Name one_sample) q0) with (has_room "kentik.snmp.CPU" q0); rewrite H1; reflexivity).
  rewrite (cpu_turn 3 q0 _ _ (warn "kentik.snmp.CPU" q0) (mkThread Warned [one_sample; other_sample]) []) by reflexivity.
  rewrite (cpu_turn 2 _ _ _ q1 (next [other_sample]) [Dropped one_sample]) by reflexivity.
  rewrite (cpu_turn 1 q1 _ _ q1 (mkThread Send [other_sample]) []) by reflexivity.
  rewrite (cpu_turn 0 q1 _ _ q1 (next []) [Dropped other_sample]).
  - by rewrite !app_nil_r, <-(assoc_L (++)).
  - unfold turn. cbn [t_todo t_pc]. change (has_room (od_Name other_sample) q1) with (has_room "kentik.snmp.CPU" q0). rewrite H1. reflexivity.
Qed.
Lemma too_many_run : ∃ l w, acts true all_gauges (Start too_many :: l) start = Some w ∧ one_call true all_gauges (Start too_many :: l) start = true ∧
  Forall (λ t, running t = false) (w_threads w) ∧ all_of dropped_of w = [one_sample; other_sample].
Proof.
  set (k := Z.to_nat (CHAN_SLACK - 1)). assert (Z.of_nat (1 + k) = CHAN_SLACK) as Hk by (unfold k; rewrite Nat2Z.inj_add, Z2Nat.id; [done|done]).
  set (es0 := [Replaced []; Queued one_sample]).
  destruct (cpu_fill k [one_sample; other_sample] [one_sample] es0 ∅ ∅) as (j & es & Hj & Hd); [cbn [length]; lia|].
  eexists (turns (5 + (j + 6))), _. split; [|split; [|split]].
  - change (acts true all_gauges (Start too_many :: turns (5 + (j + 6))) start) with (acts true all_gauges (turns (5 + (j + 6))) (mkWorld (w_q start) [mkThread Idle too_many] [])).
    unfold too_many. fold k. set (ms := replicate k one_sample ++ [one_sample; other_sample]) in *.
    rewrite (cpu_turn (4 + (j + 6)) _ _ _ (w_q start) (mkThread Look (one_sample :: ms)) []) by reflexivity.
    rewrite (cpu_turn (3 + (j + 6)) _ _ _ (make_gauge "kentik.snmp.CPU" (w_q start)) (mkThread Make (one_sample :: ms)) []) by reflexivity.
    rewrite (cpu_turn (2 + (j + 6)) _ _ _ (at_cpu [] ∅ ∅) (mkThread Made (one_sample :: ms)) [Replaced []]) by reflexivity.
    rewrite (cpu_turn (1 + (j + 6)) _ _ _ (at_cpu [] ∅ ∅) (mkThread Send (one_sample :: ms)) []) by reflexivity.
    rewrite (cpu_turn (j + 6) _ _ _ (at_cpu [one_sample] ∅ ∅) (next ms) [Queued one_sample]) by reflexivity.
    cbn [app]. fold es0. rewrite Hj. apply cpu_overflow. rewrite length_app, length_replicate. exact Hk.
  - cbn [one_call act start w_threads forallb andb]. apply one_call_turns, turns_are.
  - by repeat constructor.
  - unfold all_of. cbn [w_events]. rewrite fmap_app, concat_app, Hd. reflexivity.
Qed.
Lemma drops_counted_once_witness : ∃ l w, acts true all_gauges (Start too_many :: l) start = Some w ∧ all_of dropped_of w = [one_sample; other_sample] ∧
  ExportDrops (w_q w) !! "kentik.snmp.CPU"%string = Some 1.
Proof.
  destruct too_many_run as (l & w & E & Hc & Hf & Hd). exists l, w. split; [exact E|]. split; [exact Hd|].
  rewrite (drops_counted_once true all_gauges (Start too_many :: l) w "kentik.snmp.CPU"%string E Hc Hf), Hd. reflexivity.
Defined.

(** *** Messages *)
#[local] Instance any_otel : OtelEnv := {|
  order_of A n m := map_to_list m; row_order n jin := (avro_rows jin).*1;
  strs_order n jin := map_to_list (map_range (CustomStr jin)); ints_order n jin := map_to_list (map_range (CustomInt jin));
  match_visit n lm := []; Sprintf_v t := ""%string; decode_array s := None;
  Marshal_flat m := None; getTls a b c := Ok tt; url_Parse s := Ok (""%string, ""%string);
  makes_exporter e := Ok tt; makes_log_exporter l := Ok tt |}.


(** A part of a rollup's key that has the key's separator in it ends the process. *)
Example roll_panics : toOtelDataRollup [{| ro_Name := "x"; ro_EventType := ""; ro_Dimension := "a^b"; ro_Metric := float_of 5; ro_KeyJoin := "^"; ro_dims := ["src_host"%string];
  ro_Count := 1; ro_Min := 5; ro_Max := 5; ro_Provider := "kentik-router" |}] = Panic "index out of range".
Proof. vm_compute. reflexivity. Qed.
(** An event that cannot be written is sent as no text. *)
Example no_text f : length (logTee f) = 0%nat → logTee (tee 1 None f) = [EmptyString].
Proof. intros E. unfold tee. rewrite E. destruct (logTee f); done. Qed.
