(* ===== verification/Disco.v ===== *)
(** Discovery of SNMP devices (src/pkg/inputs/snmp/disco.go, the update of a device in
    src/pkg/kt/snmp.go and the guess of a provider in mibs/load.go): which addresses are checked, how a
    device is asked for its name, how found devices are merged into a configuration, and when the
    service is told to reload.

    The scanner, the network, netbox, YAML and files are parameters; times are in nanoseconds. The
    order of a range is any permutation of what it ranges over; loops that change the map that they range
    over are runs of [GoMap.range]. *)
From S2P Require Import Prelude GoStrings GoNet GoMap Jchf.
From S2P Require FormatsUtil.
From S2P Require MibProfile.
From S2P Require SnmpCounters.
From S2P Require SnmpConv.
From S2P Require SnmpMeta.
From S2P Require SnmpTags.
From S2P Require Nrm.
From S2P Require FlowToJCHF.
Local Open Scope Z_scope.

(** ** Devices *)
Record V3SNMPConfig := mkV3 { UserName : string; AuthenticationPassphrase : string }.
Record SnmpDeviceConfig := mkDev {
  DeviceName : string; DeviceIP : string; Community : string; UseV1 : bool; V3 : option V3SNMPConfig; Debug : bool;
  SampleRate : Z; Port : Z; OID : string; Description : string; Checked : Z; MibProfile_ : string; Provider : Provider_;
  FlowOnly : bool; PingOnly : bool; UserTags : gomap string; ExpectedDevTags : Z; DiscoveredMibs : list string;
  PollTimeSec : Z; TimeoutMS : Z; Retries : Z; EngineID : string; MatchAttr : gomap string; MonitorAdminShut : bool;
  NoUseBulkWalkAll : bool; RunPing : bool; PurgeDevice : Z }.

(** [Kentik]: whether the inventory is used, and which devices of it. *)
Record KentikMatch := mkKMatch { km_IPAddress : list string; km_Labels : list string; km_Sites : list string }.
Record SnmpDiscoConfig := mkDisco {
  Cidrs : list string; IgnoreList : list string; dc_Debug : bool; Ports : list Z; DefaultCommunities : list string; dc_UseV1 : bool;
  DefaultV3 : option V3SNMPConfig; OtherV3s : list V3SNMPConfig; AddDevices : bool; AddAllMibs : bool; Threads : Z;
  ReplaceDevices : bool; NoDedup : bool; CheckAll : bool; CheckAllVersions : bool; Kentik : option (bool * KentikMatch);
  CidrOrig : string; IgnoreOrig : string; dc_NoUseBulkWalkAll : bool; Netbox : bool }.
Record SnmpGlobalConfig := mkGlobal {
  MibsEnabled : list string; PurgeDevices : Z; g_UserTags : gomap string; g_MatchAttr : gomap string; MibProfileDir : string }.
(** [nil_devices]: the names that a configuration gives to no device. *)
Record SnmpConfig := mkConf {
  Devices : gmap string SnmpDeviceConfig; nil_devices : gset string; Disco : option SnmpDiscoConfig; Global : option SnmpGlobalConfig; DeviceOrig : string }.

(** [d.UpdateFrom(old, conf)]. *)
Definition old_entries (mine old global : gomap string) : gomap string :=
  match mine, old with
  | None, None => None
  | _, _ => Some (map_range mine ∪ filter (λ kv, map_range global !! kv.1 = None) (map_range old))
  end.
Definition UpdateFrom (d old : SnmpDeviceConfig) (g : SnmpGlobalConfig) : SnmpDeviceConfig :=
  let pos (z z' : Z) := if 0 <? z then z else z' in
  let nonzero (z z' : Z) := if z =? 0 then z' else z in
  mkDev (DeviceName d) (DeviceIP d) (Community d) (UseV1 d) (V3 d) (Debug d)
    (pos (SampleRate old) (SampleRate d)) (Port d) (OID d) (Description d) (Checked d)
    (if HasPrefix (MibProfile_ old) "!" then MibProfile_ old else MibProfile_ d) (Provider d)
    (FlowOnly old || FlowOnly d) (PingOnly old || PingOnly d)
    (old_entries (UserTags d) (UserTags old) (g_UserTags g)) (nonzero (ExpectedDevTags old) (ExpectedDevTags d)) (DiscoveredMibs d)
    (pos (PollTimeSec old) (PollTimeSec d)) (pos (TimeoutMS old) (TimeoutMS d)) (pos (Retries old) (Retries d)) (EngineID d)
    (old_entries (MatchAttr d) (MatchAttr old) (g_MatchAttr g)) (MonitorAdminShut old || MonitorAdminShut d)
    (NoUseBulkWalkAll old || NoUseBulkWalkAll d) (RunPing old || RunPing d) (nonzero (PurgeDevice old) (PurgeDevice d)).
Definition set_Checked (now : Z) (d : SnmpDeviceConfig) : SnmpDeviceConfig :=
  mkDev (DeviceName d) (DeviceIP d) (Community d) (UseV1 d) (V3 d) (Debug d) (SampleRate d) (Port d) (OID d) (Description d) now
    (MibProfile_ d) (Provider d) (FlowOnly d) (PingOnly d) (UserTags d) (ExpectedDevTags d) (DiscoveredMibs d) (PollTimeSec d) (TimeoutMS d)
    (Retries d) (EngineID d) (MatchAttr d) (MonitorAdminShut d) (NoUseBulkWalkAll d) (RunPing d) (PurgeDevice d).
Definition set_tags (tags attr : gomap string) (d : SnmpDeviceConfig) : SnmpDeviceConfig :=
  mkDev (DeviceName d) (DeviceIP d) (Community d) (UseV1 d) (V3 d) (Debug d) (SampleRate d) (Port d) (OID d) (Description d) (Checked d)
    (MibProfile_ d) (Provider d) (FlowOnly d) (PingOnly d) tags (ExpectedDevTags d) (DiscoveredMibs d) (PollTimeSec d) (TimeoutMS d)
    (Retries d) (EngineID d) attr (MonitorAdminShut d) (NoUseBulkWalkAll d) (RunPing d) (PurgeDevice d).

(** ** The provider of an object (mibs/load.go) *)
Definition ProviderSwitch : Provider_ := "kentik-switch".
Definition ProviderFirewall : Provider_ := "kentik-firewall".
Definition ProviderUPS : Provider_ := "kentik-ups".
Definition ProviderPDU : Provider_ := "kentik-pdu".
Definition ProviderIOT : Provider_ := "kentik-iot".
Definition ProviderWirelessController : Provider_ := "kentik-wireless-controller".
Definition ProviderNas : Provider_ := "kentik-nas".
Definition ProviderSan : Provider_ := "kentik-san".
Definition ProviderFibreChannel : Provider_ := "kentik-fibre-channel".

Definition checkForProvider (name profile description : string) : option Provider_ :=
  let profile := ToLower profile in
  let combo := String.append (ToLower name) (String.append "^" (ToLower description)) in
  if Contains profile "base.yml" then Some SnmpCounters.ProviderDefault
  else if negb (Contains profile "cisco-catalyst") &&
          (Contains combo "router" || Contains combo "ios xr" || Contains combo "freebsd" || Contains profile "cisco-asr") then Some Nrm.ProviderRouter
  else if Contains combo "switch" || Contains profile "cisco-catalyst" then Some ProviderSwitch
  else if Contains combo "firewall" then Some ProviderFirewall
  else if Contains profile "ups" then Some ProviderUPS
  else if Contains profile "pdu" then Some ProviderPDU
  else if Contains profile "fc-switch" then Some ProviderFibreChannel
  else if Contains combo "iot" then Some ProviderIOT
  else if Contains combo "printer" then Some ProviderIOT
  else if Contains combo "nas" then Some ProviderNas
  else if Contains combo "san" then Some ProviderSan
  else if Contains combo "wireless" then Some ProviderWirelessController
  else None.

(** The number after the first [type=] that has digits. *)
Fixpoint take_digits (s : string) : string :=
  match s with
  | String c s => match digit_value c with Some _ => String c (take_digits s) | None => EmptyString end
  | EmptyString => EmptyString
  end.
Fixpoint find_type (s : string) : option string :=
  match (if HasPrefix s "type=" then take_digits (drop_string 5 s) else EmptyString), s with
  | String c t, _ => Some (String c t)
  | EmptyString, String _ s => find_type s
  | EmptyString, EmptyString => None
  end.
Definition validOids : list Z := [1; 2; 3; 4; 5; 6; 7; 8; 11; 12; 15; 16].
(** One entry of the compiled database: the state is the objects, the provider and whether it was found. *)
Definition db_entry (profile description : string) (st : list string * Provider_ * bool) (kv : string * string) : list string * Provider_ * bool :=
  let '(mibs, provider, foundProv) := st in
  match SplitN 1 kv.2 " " with
  | name :: rest :: _ =>
      match find_type rest ≫= Atoi with
      | None => st
      | Some dt =>
          let '(provider, foundProv) :=
            if (foundProv : bool) then (provider, true)
            else match checkForProvider name profile description with Some p => (p, true) | None => (provider, false) end in
          (if existsb (Z.eqb dt) validOids then mibs ++ [kv.1] else mibs, provider, foundProv)
      end
  | _ => st
  end.
(** [db]: the entries under a prefix, or an error; [None] without a database. *)
Definition GetForOid (db : option (string → res (list (string * string)))) (oid profile description : string) : res (list string * Provider_) :=
  match db with
  | None => Ok ([], default EmptyString (checkForProvider oid profile description))
  | Some db => l ← db oid; let '(mibs, provider, _) := foldl (db_entry profile description) ([], SnmpCounters.ProviderDefault, false) l in Ok (mibs, provider)
  end.
(** The walk up the tree, from the longest prefix to that of two parts. *)
Fixpoint recur_from (db : option (string → res (list (string * string)))) (pts : list string) (profile description : string) (i : nat) : res Provider_ :=
  match i with
  | O | S O => Ok SnmpCounters.ProviderDefault
  | S i' =>
      '(mibs, pro) ← GetForOid db (Join (take i pts) ".") profile description;
      if match mibs with [] => false | _ => true end || (match db with None => negb (String.eqb pro "") | Some _ => false end) then Ok pro
      else recur_from db pts profile description i'
  end.
Definition GetForOidRecur (db : option (string → res (list (string * string)))) (oid profile description : string) : res Provider_ :=
  let pts := Split oid "." in recur_from db pts profile description (length pts).

(** ** Addresses *)
(** Prefixes and addresses of net/netip. *)
Class Netip := { Prefix : Type; Addr : Type; ParsePrefix : string → option Prefix; ParseAddr : string → option Addr; Prefix_Contains : Prefix → Addr → bool }.
Definition ignore_lists `{Netip} (l : list string) : gset string * list Prefix :=
  foldl (λ st ip, match ParsePrefix ip with None => ({[ip]} ∪ st.1, st.2) | Some p => (st.1, st.2 ++ [p]) end) (∅, []) l.
Definition checkIfIgnored `{Netip} (ip : string) (ig : gset string * list Prefix) : bool :=
  bool_decide (ip ∈ ig.1) || match ParseAddr ip with None => false | Some aa => existsb (λ p, Prefix_Contains p aa) ig.2 end.

(** A range of addresses, with a mask if it has none. *)
Definition range_of_text (ipr : string) : option string :=
  match ParseCIDR ipr with
  | Some _ => Some ipr
  | None => let ipr := String.append ipr "/32" in match ParseCIDR ipr with Some _ => Some ipr | None => None end
  end.

(** ** What a host is asked *)
Inductive attempt := TryV3 (c : V3SNMPConfig) | TryCommunity (useV1 : bool) (c : string).
Inductive answer := NoStart | NoMetadata | Answers (md : SnmpMeta.DeviceMetricsMetadata) | Panics.
Record host := mkHost { h_Name : string; h_Host : string; h_Up : bool }.

Definition probed (disco : SnmpDiscoConfig) (now port : Z) (h : host) (a : attempt) : SnmpDeviceConfig :=
  mkDev (h_Name h) (h_Host h) (match a with TryV3 _ => EmptyString | TryCommunity _ c => c end) (match a with TryV3 _ => dc_UseV1 disco | TryCommunity v _ => v end)
    (match a with TryV3 c => Some c | TryCommunity _ _ => None end) (dc_Debug disco) 0 port EmptyString EmptyString now EmptyString EmptyString
    false false None 0 [] 0 0 0 EmptyString None false (dc_NoUseBulkWalkAll disco) false 0.

(** What a loop over attempts leaves: the metadata and the device, or the end of the check. *)
Inductive probe := Ended | Left (md : option SnmpMeta.DeviceMetricsMetadata) (d : option SnmpDeviceConfig).
Fixpoint try_all (ask : attempt → answer) (mk : attempt → SnmpDeviceConfig) (l : list attempt) (md : option SnmpMeta.DeviceMetricsMetadata) (d : option SnmpDeviceConfig) : probe :=
  match l with
  | [] => Left md d
  | a :: l =>
      match ask a with
      | NoStart | Panics => Ended
      | NoMetadata => try_all ask mk l None (Some (mk a))
      | Answers m => Left (Some m) (Some (mk a))
      end
  end.
Definition v3_attempts (disco : SnmpDiscoConfig) : list attempt := TryV3 <$> (OtherV3s disco ++ match DefaultV3 disco with Some c => [c] | None => [] end).
Definition v2_attempts (disco : SnmpDiscoConfig) : list attempt :=
  flat_map (λ v, TryCommunity v <$> DefaultCommunities disco) (if CheckAllVersions disco then [false; true] else [dc_UseV1 disco]).
Definition unnamed (md : option SnmpMeta.DeviceMetricsMetadata) : bool :=
  match md with None => true | Some m => String.eqb (SnmpMeta.SysObjectID m) "" end.
Definition probe_host (ask : attempt → answer) (mk : attempt → SnmpDeviceConfig) (disco : SnmpDiscoConfig) : probe :=
  match try_all ask mk (v3_attempts disco) None None with
  | Ended => Ended
  | Left md d => if unnamed md then try_all ask mk (v2_attempts disco) md d else Left md d
  end.

Section check.
Context `{MibProfile.RegexpCompiler} (h : gmap MibProfile.ptr MibProfile.Profile) (profiles : gmap string MibProfile.ptr)
  (range_p : list MibProfile.ptr) (range_m : MibProfile.ptr → list (string * string)) (provider_of : MibProfile.ptr → Provider_)
  (db : option (string → res (list (string * string)))) (kentikDevices : gomap string).

(** What was found out of the device. *)
Definition described (md : SnmpMeta.DeviceMetricsMetadata) (d : SnmpDeviceConfig) : SnmpDeviceConfig :=
  let name := if negb (String.eqb (SnmpMeta.SysName md) "") && String.eqb (DeviceName d) "" then SnmpMeta.SysName md else DeviceName d in
  let engine := if negb (String.eqb (SnmpMeta.md_EngineID md) "") then SnmpMeta.md_EngineID md else EngineID d in
  mkDev (if String.eqb name "" then DeviceIP d else name) (DeviceIP d) (Community d) (UseV1 d) (V3 d) (Debug d) (SampleRate d) (Port d)
    (SnmpMeta.SysObjectID md) (SnmpMeta.SysDescr md) (Checked d) (MibProfile_ d) (Provider d) (FlowOnly d) (PingOnly d) (UserTags d)
    (ExpectedDevTags d) (DiscoveredMibs d) (PollTimeSec d) (TimeoutMS d) (Retries d) engine (MatchAttr d) (MonitorAdminShut d)
    (NoUseBulkWalkAll d) (RunPing d) (PurgeDevice d).
Definition set_profile (from : string) (mibs : list string) (p : Provider_) (tags : gomap string) (d : SnmpDeviceConfig) : SnmpDeviceConfig :=
  mkDev (DeviceName d) (DeviceIP d) (Community d) (UseV1 d) (V3 d) (Debug d) (SampleRate d) (Port d) (OID d) (Description d) (Checked d)
    from p (FlowOnly d) (PingOnly d) tags (ExpectedDevTags d) mibs (PollTimeSec d) (TimeoutMS d)
    (Retries d) (EngineID d) (MatchAttr d) (MonitorAdminShut d) (NoUseBulkWalkAll d) (RunPing d) (PurgeDevice d).
Definition profile_at (l : option MibProfile.ptr) : option MibProfile.Profile := l ≫= λ l, h !! l.
Definition identified (d : SnmpDeviceConfig) : SnmpDeviceConfig :=
  let l := MibProfile.FindProfile h profiles range_p range_m (OID d) (Description d) "" in
  let from := match profile_at l with Some p => MibProfile.From p | None => MibProfile_ d end in
  let mibs := match profile_at l with Some p => FormatsUtil.sort_strings ((map_to_list (MibProfile.GetMibs p)).*1) | None => DiscoveredMibs d end in
  let own := match l with Some l => provider_of l | None => EmptyString end in
  let provider := match GetForOidRecur db (OID d) from (Description d) with
    | Ok p => if String.eqb own "" then p else own
    | _ => Provider d
    end in
  let tags := match map_range kentikDevices !! DeviceIP d with
    | Some did => Some (<["kentik.device_id"%string := did]> (map_range (UserTags d)))
    | None => UserTags d
    end in
  set_profile from mibs provider tags d.

(** [doubleCheckHost]: what is found of a host, if anything; a panic is recovered. *)
Definition doubleCheckHost (disco : SnmpDiscoConfig) (now : Z) (ask : attempt → answer) (hst : host) : option SnmpDeviceConfig :=
  match Ports disco with
  | [] => None
  | port :: _ =>
      match probe_host ask (probed disco now (wrapu 16 port) hst) disco with
      | Left (Some md) (Some d) => Some (identified (described md d))
      | _ => None
      end
  end.

(** The hosts of a range that are checked. *)
Definition to_check `{Netip} (disco : SnmpDiscoConfig) (ig : gset string * list Prefix) (ipr : string) (results : list host) : list host :=
  filter (λ r, (FormatsUtil.HasSuffix ipr "/32" || h_Up r || CheckAll disco) && negb (checkIfIgnored (h_Host r) ig) = true) results.
End check.

(** The metadata that is asked for: the objects of the system, from a session that could be started. *)
Definition ask_host `{SnmpCounters.Gosnmp} `{SnmpConv.Submatcher} (starts : attempt → bool) (walk : attempt → string → list SnmpCounters.SnmpPDU + error) (reCache : gmap string Regexp) (a : attempt) : answer :=
  if starts a then
    match SnmpMeta.GetBasicDeviceMetadata (walk a) reCache with
    | Ok (m, _) => Answers m
    | Err _ => NoMetadata
    | _ => Panics
    end
  else NoStart.

(** ** Devices of the Kentik portal *)
Record KentikDevice := mkKDevice { k_ID : Z; k_SnmpIp : string; k_SnmpCommunity : string; k_SnmpV3 : option V3SNMPConfig; k_Labels : list string; k_Site : option string }.
Definition inArray (kneedle : string) (haystack : list string) : bool :=
  match haystack with [] => true | _ => existsb (String.eqb kneedle) haystack end.
(** The device's labels, until one is wanted. *)
Definition any_label (wanted labels : list string) : bool :=
  match labels with [] => match wanted with [] => true | _ => false end | _ => existsb (λ l, inArray l wanted) labels end.
Definition kentik_wants (m : KentikMatch) (d : KentikDevice) : res bool :=
  let ip := match km_IPAddress m with
    | [] => true
    | ips => existsb (λ c, match ParseCIDR c with Some (_, n) => IPNet_Contains n (ParseIP (k_SnmpIp d)) | None => false end) ips
    end in
  if ip then
    if any_label (km_Labels m) (k_Labels d) then
      match km_Sites m with
      | [] => Ok true
      | sites => match k_Site d with Some s => Ok (inArray s sites) | None => Panic "invalid memory address or nil pointer dereference" end
      end
    else Ok false
  else Ok false.
Definition same_v3 (a b : V3SNMPConfig) : bool :=
  String.eqb (UserName a) (UserName b) && String.eqb (AuthenticationPassphrase a) (AuthenticationPassphrase b).
Definition listed (x : string) (l : list string) : bool := existsb (String.eqb x) l.
Definition with_kentik (disco : SnmpDiscoConfig) (cidrs communities : list string) (v3s : list V3SNMPConfig) : SnmpDiscoConfig :=
  mkDisco cidrs (IgnoreList disco) (dc_Debug disco) (Ports disco) communities (dc_UseV1 disco) (DefaultV3 disco) v3s (AddDevices disco) (AddAllMibs disco)
    (Threads disco) (ReplaceDevices disco) (NoDedup disco) (CheckAll disco) (CheckAllVersions disco) (Kentik disco) (CidrOrig disco) (IgnoreOrig disco)
    (dc_NoUseBulkWalkAll disco) (Netbox disco).
Definition add_kentik (m : KentikMatch) (st : SnmpDiscoConfig * gmap string string) (d : KentikDevice) : res (SnmpDiscoConfig * gmap string string) :=
  let '(disco, added) := st in
  if String.eqb (k_SnmpIp d) "" then Ok st
  else
    add ← kentik_wants m d;
    if negb (listed (k_SnmpIp d) (Cidrs disco)) && (add : bool) then
      let communities := if negb (String.eqb (k_SnmpCommunity d) "") && negb (listed (k_SnmpCommunity d) (DefaultCommunities disco)) then DefaultCommunities disco ++ [k_SnmpCommunity d] else DefaultCommunities disco in
      let v3s := match k_SnmpV3 d with
        | Some c => if String.eqb (k_SnmpCommunity d) "" && negb (existsb (λ o, same_v3 o c) (OtherV3s disco)) then OtherV3s disco ++ [c] else OtherV3s disco
        | None => OtherV3s disco
        end in
      Ok (with_kentik disco (Cidrs disco ++ [k_SnmpIp d]) communities v3s, <[k_SnmpIp d := Itoa (k_ID d)]> added)
    else Ok st.
Fixpoint add_kentiks (m : KentikMatch) (l : list KentikDevice) (st : SnmpDiscoConfig * gmap string string) : res (SnmpDiscoConfig * gmap string string) :=
  match l with [] => Ok st | d :: l => st ← add_kentik m st d; add_kentiks m l st end.
Definition addKentikDevices (disco : SnmpDiscoConfig) (devices : list KentikDevice) : res (SnmpDiscoConfig * gomap string) :=
  match Kentik disco with
  | Some (true, m) => '(disco, added) ← add_kentiks m devices (disco, ∅); Ok (disco, Some added)
  | _ => Ok (disco, None)
  end.

(** ** Merging *)
Record SnmpDiscoDeviceStat := mkStat { added : Z; replaced : Z; delta : Z }.
Definition RemoveTimeBuffer : Z := - (15 * 60 * 10 ^ 9).
Definition keyAlt (dip : string) (d : SnmpDeviceConfig) : string := String.append (DeviceName d) (String.append "__" dip).

Abbreviation devices := (gmap string SnmpDeviceConfig).
Definition merge_key (byIP : gset string) (devs : devices) (dip : string) (d : SnmpDeviceConfig) : string :=
  if bool_decide (dip ∈ byIP) then DeviceName d
  else match devs !! DeviceName d with Some _ => keyAlt dip d | None => DeviceName d end.
Definition refresh (g : SnmpGlobalConfig) (replace : bool) (now : Z) (k : string) (d old : SnmpDeviceConfig) (st : devices * Z * Z) : devices * Z * Z :=
  let '(devs, a, r) := st in
  if replace then (<[k := UpdateFrom d old g]> devs, a, r + 1) else (<[k := set_Checked now old]> devs, a, r).
Definition merge_one (g : SnmpGlobalConfig) (replace : bool) (now : Z) (byIP : gset string) (st : devices * Z * Z) (found : string * SnmpDeviceConfig) : devices * Z * Z :=
  let '(devs, a, r) := st in
  let '(dip, d) := found in
  let key := merge_key byIP devs dip d in
  match devs !! key, devs !! keyAlt dip d with
  | None, None => (<[keyAlt dip d := d]> devs, a + 1, r)
  | Some old, _ => refresh g replace now key d old st
  | None, Some old => refresh g replace now (keyAlt dip d) d old st
  end.
Definition merge (g : SnmpGlobalConfig) (replace : bool) (now : Z) (devs : devices) (found : list (string * SnmpDeviceConfig)) : devices * Z * Z :=
  foldl (merge_one g replace now (list_to_set (DeviceIP <$> (map_to_list devs).*2))) (devs, 0, 0) found.

(** Two devices with one engine: the one that is ranged over later goes. *)
Definition dedup_one (st : devices * Z * gset string) (kv : string * SnmpDeviceConfig) : devices * Z * gset string :=
  let '(devs, a, seen) := st in
  if String.eqb (EngineID kv.2) "" then st
  else if bool_decide (EngineID kv.2 ∈ seen) then (delete kv.1 devs, a - 1, seen)
  else (devs, a, {[EngineID kv.2]} ∪ seen).
Definition dedup (nodedup : bool) (order : list (string * SnmpDeviceConfig)) (devs : devices) (a : Z) : devices * Z :=
  if nodedup then (devs, a) else (foldl dedup_one (devs, a, ∅) order).1.

(** Devices that were not seen for long; [removeNum] is kept from device to device. *)
Definition removeTime (now pollDuration removeNum : Z) : Z := now + wraps 64 (wraps 64 (removeNum * pollDuration) * -1) + RemoveTimeBuffer.
Definition purge_one (now pollDuration : Z) (st : devices * Z * Z) (kv : string * SnmpDeviceConfig) : res (devices * Z * Z) :=
  let '(devs, a, removeNum) := st in
  let removeNum := if PurgeDevice kv.2 =? 0 then removeNum else PurgeDevice kv.2 in
  if removeNum =? -1 then Ok (devs, a, removeNum)
  else if removeNum <? -1 then Err (Errorf "Invalid PurgeDevice value (%d) for device %s" [FInt removeNum; FStr (DeviceName kv.2)])
  else if (0 <? removeNum) && (0 <? pollDuration) && (Checked kv.2 <? removeTime now pollDuration removeNum) then Ok (delete kv.1 devs, a - 1, removeNum)
  else Ok (devs, a, removeNum).
Fixpoint purge (now pollDuration : Z) (order : list (string * SnmpDeviceConfig)) (st : devices * Z * Z) : res (devices * Z * Z) :=
  match order with [] => Ok st | kv :: order => st ← purge_one now pollDuration st kv; purge now pollDuration order st end.

Definition fullMibs (devs : devices) (enabled : list string) : list string :=
  elements (list_to_set (concat ((DiscoveredMibs ∘ snd) <$> map_to_list devs) ++ enabled) : gset string).
Definition with_mibs (l : list string) (g : SnmpGlobalConfig) : SnmpGlobalConfig := mkGlobal l (PurgeDevices g) (g_UserTags g) (g_MatchAttr g) (MibProfileDir g).

(** The devices of a configuration after a discovery, in the orders of its three ranges. *)
Definition update_devices (now pollDuration : Z) (disco : SnmpDiscoConfig) (g : SnmpGlobalConfig) (dev_order : nat → devices → list (string * SnmpDeviceConfig))
    (devs : devices) (found : list (string * SnmpDeviceConfig)) : res (devices * SnmpDiscoDeviceStat) :=
  let '(devs1, a1, r) := merge g (ReplaceDevices disco) now devs found in
  let '(devs2, a2) := dedup (NoDedup disco) (dev_order 0%nat devs1) devs1 a1 in
  '(devs3, a3, _) ← purge now pollDuration (dev_order 1%nat devs2) (devs2, a2, PurgeDevices g);
  Ok (devs3, mkStat a3 r (Z.of_nat (size devs) - Z.of_nat (size devs3))).

(** *** Saving *)
(** The loop of [set] in [cleanForSave]. *)
Definition clean_body (p : Provider_) (k v : string) (m : gmap string string) : gmap string string :=
  match SnmpTags.matchesPrefix k p with
  | Some nk => if String.eqb v "" then delete k m else <[nk := v]> (delete k m)
  | None => delete k m
  end.
Definition clean_tags (p : Provider_) (m m' : gomap string) : Prop := SnmpTags.gorange (clean_body p) m m'.
Definition clean_device (d d' : SnmpDeviceConfig) : Prop :=
  ∃ tags attr, clean_tags SnmpTags.DeviceProvider (UserTags d) tags ∧ clean_tags SnmpTags.DeviceProvider (MatchAttr d) attr ∧ d' = set_tags tags attr d.
Definition clean_global (g g' : SnmpGlobalConfig) : Prop :=
  ∃ tags attr, clean_tags SnmpTags.GlobalProvider (g_UserTags g) tags ∧ clean_tags SnmpTags.GlobalProvider (g_MatchAttr g) attr ∧
    g' = mkGlobal (MibsEnabled g) (PurgeDevices g) tags attr (MibProfileDir g).
Definition cleanForSave (c c' : SnmpConfig) : Prop :=
  Disco c' = Disco c ∧ DeviceOrig c' = DeviceOrig c ∧ nil_devices c' = nil_devices c ∧ option_Forall2 clean_global (Global c) (Global c') ∧
  map_relation (λ _, clean_device) (λ _ _, False) (λ _ _, False) (Devices c) (Devices c').

Inductive write := WList (file : string) (l : list string) | WDevices (file : string) (d : devices) | WConfig (file text : string).
Definition set_cidrs (l : list string) (disco : SnmpDiscoConfig) : SnmpDiscoConfig := with_kentik disco l (DefaultCommunities disco) (OtherV3s disco).
Definition set_ignored (l : list string) (disco : SnmpDiscoConfig) : SnmpDiscoConfig :=
  mkDisco (Cidrs disco) l (dc_Debug disco) (Ports disco) (DefaultCommunities disco) (dc_UseV1 disco) (DefaultV3 disco) (OtherV3s disco) (AddDevices disco) (AddAllMibs disco)
    (Threads disco) (ReplaceDevices disco) (NoDedup disco) (CheckAll disco) (CheckAllVersions disco) (Kentik disco) (CidrOrig disco) (IgnoreOrig disco)
    (dc_NoUseBulkWalkAll disco) (Netbox disco).
Definition quote : string := String (ascii_of_nat 34) EmptyString.
Definition at_file (key empty : string) (orig t : string) : string :=
  if String.eqb orig "" then t else Replace t (String.append key empty) (String.append key (String.append quote (String.append "@" (String.append orig quote)))) 1.
Definition external (does : write → res unit) (orig : string) (w : write) : res bool :=
  if String.eqb orig "" then Ok false else _ ← does w; Ok true.
Definition save (does : write → res unit) (Marshal : SnmpConfig → res string) (snmpFile : string) (disco : SnmpDiscoConfig) (c : SnmpConfig) : res SnmpConfig :=
  wc ← external does (CidrOrig disco) (WList (CidrOrig disco) (Cidrs disco));
  wi ← external does (IgnoreOrig disco) (WList (IgnoreOrig disco) (IgnoreList disco));
  wd ← external does (DeviceOrig c) (WDevices (DeviceOrig c) (Devices c));
  let disco' := if (wi : bool) then set_ignored [] disco else disco in
  let disco' := if (wc : bool) then set_cidrs [] disco' else disco' in
  let c' := mkConf (if (wd : bool) then ∅ else Devices c) (nil_devices c) (Some disco') (Global c) (DeviceOrig c) in
  t ← Marshal c';
  _ ← does (WConfig snmpFile (at_file "devices: " "{}" (DeviceOrig c) (at_file "ignore_list: " "[]" (IgnoreOrig disco) (at_file "cidrs: " "[]" (CidrOrig disco) t))));
  Ok c'.

(** ** A discovery *)
Section discover.
Context (now pollDuration : Z) (dev_order : nat → devices → list (string * SnmpDeviceConfig)).
Context (clean : SnmpConfig → SnmpConfig) (does : write → res unit) (Marshal : SnmpConfig → res string).
Context (parseConfig : string → res SnmpConfig) (TouchFile : string → res unit) (copy_to : string → string → res unit).
(** [kentik]: the inventory, in the order of its range; [NewMibDB]: what profiles are read. [search] finds devices by
    their addresses, with netbox or by scanning, in the order of the range over what it found. *)
Context (kentik : list KentikDevice) (NewMibDB : SnmpGlobalConfig → res unit)
  (search : SnmpDiscoConfig → gomap string → res (list (string * SnmpDeviceConfig))).

Definition nil_pointer {A} : res A := Panic "invalid memory address or nil pointer dereference".
Definition addDevices (found : list (string * SnmpDeviceConfig)) (snmpFile : string) (c : SnmpConfig) : res (SnmpConfig * SnmpDiscoDeviceStat) :=
  if bool_decide (nil_devices c = ∅) then
    confNew ← parseConfig snmpFile;
    match Disco confNew, Global confNew with
    | Some disco, Some g =>
        '(devs, stats) ← update_devices now pollDuration disco g dev_order (Devices c) found;
        let enabled := if AddAllMibs disco then fullMibs devs (MibsEnabled g) else MibsEnabled g in
        let c := clean (mkConf devs ∅ (Some disco) (Some (with_mibs (FormatsUtil.sort_strings enabled) g)) (DeviceOrig c)) in
        c ← save does Marshal snmpFile disco c;
        Ok (c, stats)
    | _, _ => nil_pointer
    end
  else nil_pointer.

Definition with_threads (n : Z) (ports : list Z) (disco : SnmpDiscoConfig) : SnmpDiscoConfig :=
  mkDisco (Cidrs disco) (IgnoreList disco) (dc_Debug disco) ports (DefaultCommunities disco) (dc_UseV1 disco) (DefaultV3 disco) (OtherV3s disco)
    (AddDevices disco) (AddAllMibs disco) n (ReplaceDevices disco) (NoDedup disco) (CheckAll disco) (CheckAllVersions disco) (Kentik disco)
    (CidrOrig disco) (IgnoreOrig disco) (dc_NoUseBulkWalkAll disco) (Netbox disco).
Definition SNMP_PORT : Z := 161.
Definition defaults (disco : SnmpDiscoConfig) : SnmpDiscoConfig :=
  with_threads (if Threads disco =? 0 then 4 else Threads disco) (match Ports disco with [] => [SNMP_PORT] | p => p end) disco.

(** [Discover]: the statistics, which are nil when no devices are to be added, and what is reported to the
    configuration manager. *)
Definition Discover (SNMPFile OutputFile : string) (manager : bool) : res (option SnmpDiscoDeviceStat * option devices) :=
  c ← parseConfig SNMPFile;
  match Disco c with
  | None => Err (Errorf "The discovery configuration is not set: %+v." [])
  | Some disco =>
      match Global c with
      | Some g =>
          if String.eqb (MibProfileDir g) "" then Err (Errorf "You need to specify a global section and mib profile directory: %v." [])
          else
            let disco := defaults disco in
            snmpFile ← (if String.eqb OutputFile "" then Ok SNMPFile else _ ← copy_to OutputFile SNMPFile; Ok OutputFile);
            _ ← (if AddDevices disco then match TouchFile snmpFile with Err e => Err (Errorf "There was an error when writing the %s SNMP configuration file: %v." [FStr snmpFile; FErr e]) | r => r end else Ok tt);
            if Threads disco <? 0 then Panic "makechan: size out of range"
            else
              '(disco, kentikDevices) ← addKentikDevices disco kentik;
              _ ← NewMibDB g;
              found ← search disco kentikDevices;
              let c := mkConf (Devices c) (nil_devices c) (Some disco) (Some g) (DeviceOrig c) in
              '(c, stats) ← (if AddDevices disco then '(c, s) ← addDevices found snmpFile c; Ok (c, Some s) else Ok (c, None));
              if (manager : bool) then
                match stats with
                | None => nil_pointer
                | Some s => Ok (stats, if (0 <? added s) || (0 <? replaced s) then Some (Devices c) else None)
                end
              else Ok (stats, None)
      | None => Err (Errorf "You need to specify a global section and mib profile directory: %v." [])
      end
  end.

(** [check] of [RunDiscoOnTimer]: whether the service is told to reload. *)
Definition reloads (s : SnmpDiscoDeviceStat) : bool := negb (delta s =? 0) || (0 <? added s).
Definition check_once (SNMPFile OutputFile : string) (manager : bool) : res bool :=
  match Discover SNMPFile OutputFile manager with
  | Ok (Some s, _) => Ok (reloads s)
  | Ok (None, _) => nil_pointer
  | Err _ => Ok false
  | Panic w => Panic w
  | OutOfFuel => OutOfFuel
  end.
End discover.

(** ** Checking hosts at once
    A token is taken from a channel of [Threads] before a host is checked, and put back after. *)
Inductive phase := Waiting | Checking | Finished.
Record pool := mkPool { tokens : nat; phases : list phase; foundDevices : gmap string SnmpDeviceConfig }.
Definition start_pool (threads n : nat) (found : gmap string SnmpDeviceConfig) : pool := mkPool threads (replicate n Waiting) found.
Section pool.
Context (hosts : list host) (checked : host → option SnmpDeviceConfig).
Definition host_turn (i : nat) (p : pool) : option pool :=
  ph ← phases p !! i;
  hst ← hosts !! i;
  match ph with
  | Waiting => match tokens p with O => None | S n => Some (mkPool n (<[i := Checking]> (phases p)) (foundDevices p)) end
  | Checking => Some (mkPool (S (tokens p)) (<[i := Finished]> (phases p))
      (match checked hst with Some d => <[h_Host hst := d]> (foundDevices p) | None => foundDevices p end))
  | Finished => None
  end.
Fixpoint host_turns (l : list nat) (p : pool) : option pool :=
  match l with [] => Some p | i :: l => p ← host_turn i p; host_turns l p end.
(** What one host after the other gives. *)
Definition check_all (found : gmap string SnmpDeviceConfig) : gmap string SnmpDeviceConfig :=
  foldl (λ m hst, match checked hst with Some d => <[h_Host hst := d]> m | None => m end) found hosts.
End pool.

(** ** Counting *)
Section counting.
Context (g : SnmpGlobalConfig) (now pollDuration : Z).

Lemma refresh_size replace k d old devs a r : devs !! k = Some old →
  let '(devs', a', _) := refresh g replace now k d old (devs, a, r) in size devs' = size devs ∧ a' = a.
Proof. intros Hk. unfold refresh. destruct replace; (split; [|done]); apply map_size_insert_Some; by rewrite Hk. Qed.

Lemma merge_one_size replace byIP st kv : Z.of_nat (size (merge_one g replace now byIP st kv).1.1) - (merge_one g replace now byIP st kv).1.2 = Z.of_nat (size st.1.1) - st.1.2.
Proof.
  destruct st as [[devs a] r], kv as [dip d]. unfold merge_one. set (key := merge_key byIP devs dip d).
  destruct (devs !! key) as [old|] eqn:Hk.
  { pose proof (refresh_size replace key d old devs a r Hk) as Hr. destruct (refresh _ _ _ _ _ _ _) as [[devs' a'] r']. cbn. destruct Hr as [-> ->]. done. }
  destruct (devs !! keyAlt dip d) as [old|] eqn:Ha.
  { pose proof (refresh_size replace _ d old devs a r Ha) as Hr. destruct (refresh _ _ _ _ _ _ _) as [[devs' a'] r']. cbn. destruct Hr as [-> ->]. done. }
  cbn. rewrite map_size_insert_None by done. lia.
Qed.
Lemma merge_size replace devs found : Z.of_nat (size (merge g replace now devs found).1.1) = Z.of_nat (size devs) + (merge g replace now devs found).1.2.
Proof.
  unfold merge. generalize (list_to_set (C := gset string) (DeviceIP <$> (map_to_list devs).*2)). intros byIP.
  assert (∀ st, Z.of_nat (size (foldl (merge_one g replace now byIP) st found).1.1) - (foldl (merge_one g replace now byIP) st found).1.2 = Z.of_nat (size st.1.1) - st.1.2) as Hf.
  { induction found as [|kv found IH]; intros st; [done|]. cbn [foldl]. by rewrite IH, merge_one_size. }
  specialize (Hf (devs, 0, 0)). cbn [fst snd] in Hf. lia.
Qed.

(** The keys still to be visited are there, so each deletion takes one device away. *)
Lemma delete_size {A} (m : gmap string A) k : is_Some (m !! k) → Z.of_nat (size (delete k m)) = Z.of_nat (size m) - 1.
Proof.
  intros [x Hk]. rewrite map_size_delete_Some by by rewrite Hk. assert (size m ≠ 0%nat) by (rewrite map_size_non_empty_iff; intros ->; by rewrite lookup_empty in Hk). lia.
Qed.
Lemma dedup_size order devs a seen : NoDup order.*1 → (∀ kv, kv ∈ order → is_Some (devs !! kv.1)) →
  Z.of_nat (size (foldl dedup_one (devs, a, seen) order).1.1) - (foldl dedup_one (devs, a, seen) order).1.2 = Z.of_nat (size devs) - a.
Proof.
  revert devs a seen. induction order as [|[k d] order IH]; intros devs a seen Hn Hin; [done|]. cbn [foldl dedup_one fst snd fmap list_fmap] in *.
  apply NoDup_cons in Hn as [Hk Hn]. destruct (String.eqb (EngineID d) ""); [apply IH; [done|]; intros; apply Hin; by right|].
  destruct (bool_decide _); [|apply IH; [done|]; intros; apply Hin; by right].
  rewrite IH, delete_size; [lia|apply (Hin (k, d)); by left|done|]. intros kv Hkv. rewrite lookup_delete_ne; [apply Hin; by right|].
  intros ->. apply Hk, list_elem_of_fmap. by exists kv.
Qed.
Lemma purge_size order devs a rn st : NoDup order.*1 → (∀ kv, kv ∈ order → is_Some (devs !! kv.1)) →
  purge now pollDuration order (devs, a, rn) = Ok st → Z.of_nat (size st.1.1) - st.1.2 = Z.of_nat (size devs) - a.
Proof.
  revert devs a rn. induction order as [|[k d] order IH]; intros devs a rn Hn Hin E; [injection E as <-; done|]. cbn [purge purge_one fst snd fmap list_fmap] in *.
  apply NoDup_cons in Hn as [Hk Hn]. set (rn' := if PurgeDevice d =? 0 then rn else PurgeDevice d) in *.
  assert (∀ kv, kv ∈ order → is_Some (devs !! kv.1)) as Hin' by (intros; apply Hin; by right).
  destruct (rn' =? -1); [by eapply IH|]. destruct (rn' <? -1); [done|]. destruct (_ && _ && _); [|by eapply IH]. cbn [mbind res_bind] in E.
  apply IH in E; [|done|intros kv Hkv; rewrite lookup_delete_ne; [by apply Hin'|]; intros ->; apply Hk, list_elem_of_fmap; by exists kv].
  rewrite E, delete_size; [lia|]. apply (Hin (k, d)). by left.
Qed.

Context (dev_order : nat → devices → list (string * SnmpDeviceConfig)) (dev_order_perm : ∀ n m, dev_order n m ≡ₚ map_to_list m).
Lemma order_ok n m : NoDup (dev_order n m).*1 ∧ ∀ kv, kv ∈ dev_order n m → is_Some (m !! kv.1).
Proof.
  split; [rewrite dev_order_perm; apply NoDup_fst_map_to_list|]. intros [k d] Hk. rewrite dev_order_perm in Hk. apply elem_of_map_to_list in Hk. by exists d.
Qed.

(** C24: Whatever the orders of the ranges, the difference that a discovery reports is the number of added
    devices with its sign changed: the service is told to reload exactly when the devices that were added are
    not as many as those that were removed. *)
Theorem delta_is_added disco devs found devs' s : update_devices now pollDuration disco g dev_order devs found = Ok (devs', s) →
  delta s = - added s ∧ Z.of_nat (size devs') = Z.of_nat (size devs) + added s ∧ reloads s = negb (added s =? 0).
Proof.
  unfold update_devices. intros E.
  assert (delta s = - added s ∧ Z.of_nat (size devs') = Z.of_nat (size devs) + added s) as [Hd Hs].
  2:{ split; [done|]. split; [done|]. unfold reloads. rewrite Hd. destruct (added s =? 0) eqn:E0; lia. }
  destruct (merge g (ReplaceDevices disco) now devs found) as [[devs1 a1] r] eqn:Em. pose proof (merge_size (ReplaceDevices disco) devs found) as Hm. rewrite Em in Hm. cbn [fst snd] in Hm.
  assert (∃ devs2 a2, dedup (NoDedup disco) (dev_order 0%nat devs1) devs1 a1 = (devs2, a2) ∧ Z.of_nat (size devs2) - a2 = Z.of_nat (size devs1) - a1) as (devs2 & a2 & Ed & H2).
  { unfold dedup. destruct (NoDedup disco); [by exists devs1, a1|]. destruct (order_ok 0 devs1) as [Hn Hin].
    pose proof (dedup_size _ devs1 a1 ∅ Hn Hin) as H2. destruct (foldl dedup_one (devs1, a1, ∅) (dev_order 0%nat devs1)) as [[x y] z]. by exists x, y. }
  rewrite Ed in E. destruct (purge now pollDuration (dev_order 1%nat devs2) (devs2, a2, PurgeDevices g)) as [[[devs3 a3] rn]| | |] eqn:Ep; try done.
  cbn in E. injection E as <- <-. destruct (order_ok 1 devs2) as [Hn Hin]. pose proof (purge_size _ _ _ _ _ Hn Hin Ep) as H3. cbn [fst snd delta added] in *. lia.
Qed.
End counting.

(** ** What merging leaves *)
Section merging.
Context (g : SnmpGlobalConfig) (replace : bool) (now : Z) (devs : devices).
Definition known_ips : gset string := list_to_set (DeviceIP <$> (map_to_list devs).*2).
(** The two names that a found device may have. *)
Definition own_keys (f : string * SnmpDeviceConfig) : list string := [DeviceName f.2; keyAlt f.1 f.2].
Definition target (f : string * SnmpDeviceConfig) : string :=
  let key := merge_key known_ips devs f.1 f.2 in match devs !! key with Some _ => key | None => keyAlt f.1 f.2 end.
Definition merged (f : string * SnmpDeviceConfig) : SnmpDeviceConfig :=
  match devs !! target f with
  | None => f.2
  | Some old => if replace then UpdateFrom f.2 old g else set_Checked now old
  end.
Definition is_new (f : string * SnmpDeviceConfig) : bool := match devs !! target f with None => true | Some _ => false end.
Definition numbered (b : bool) : Z := if b then 1 else 0.

Lemma target_own f : target f ∈ own_keys f.
Proof.
  unfold target, own_keys. destruct (devs !! _); [|right; by left]. unfold merge_key. destruct (bool_decide _); [by left|].
  destruct (devs !! DeviceName f.2); [right|]; by left.
Qed.
Lemma merge_one_local m a r f : (∀ k, k ∈ own_keys f → m !! k = devs !! k) →
  merge_one g replace now known_ips (m, a, r) f = (<[target f := merged f]> m, a + numbered (is_new f), r + numbered (negb (is_new f) && replace)).
Proof.
  intros Hm. destruct f as [dip d]. pose proof (Hm (DeviceName d) ltac:(by left)) as Hn. pose proof (Hm (keyAlt dip d) ltac:(right; by left)) as Ha.
  unfold merge_one. assert (merge_key known_ips m dip d = merge_key known_ips devs dip d) as -> by (unfold merge_key; by rewrite Hn).
  assert (m !! merge_key known_ips devs dip d = devs !! merge_key known_ips devs dip d) as ->.
  { unfold merge_key. destruct (bool_decide _); [exact Hn|]. destruct (devs !! DeviceName d) eqn:E; [exact Ha|]. congruence. }
  unfold merged, is_new, target. cbn [fst snd]. destruct (devs !! merge_key known_ips devs dip d) as [old|] eqn:Hk.
  - rewrite Hk. unfold refresh, numbered. destruct replace; cbn; f_equal; lia || (f_equal; lia).
  - rewrite Ha. destruct (devs !! keyAlt dip d) as [old|] eqn:Hk'; unfold refresh, numbered; [destruct replace|]; cbn; f_equal; lia || (f_equal; lia).
Qed.

Definition count_if (p : string * SnmpDeviceConfig → bool) (l : list (string * SnmpDeviceConfig)) : Z := Z.of_nat (length (List.filter p l)).
Lemma merge_fold found m a r : NoDup (flat_map own_keys found) → (∀ f k, f ∈ found → k ∈ own_keys f → m !! k = devs !! k) →
  foldl (merge_one g replace now known_ips) (m, a, r) found =
  (list_to_map ((λ f, (target f, merged f)) <$> found) ∪ m, a + count_if is_new found, r + (if replace then count_if (λ f, negb (is_new f)) found else 0)).
Proof.
  revert m a r. induction found as [|f found IH]; intros m a r Hn Hm; cbn [foldl].
  { change (list_to_map _) with (∅ : devices). rewrite (left_id_L ∅ (∪)). unfold count_if. cbn. destruct replace; by rewrite !Z.add_0_r. }
  cbn [flat_map] in Hn. apply NoDup_app in Hn as (_ & Hdisj & Hn). rewrite merge_one_local by (intros k Hk; apply (Hm f); [by left|done]).
  assert (∀ f' k, f' ∈ found → k ∈ own_keys f' → target f ≠ k) as Hne.
  { intros f' k Hf' Hk <-. apply (Hdisj (target f)); [apply target_own|]. apply list_elem_of_In, in_flat_map. exists f'. split; by apply list_elem_of_In. }
  rewrite IH; [|done|intros f' k Hf' Hk; rewrite lookup_insert_ne by (by eapply Hne); apply (Hm f'); [by right|done]].
  rewrite fmap_cons. cbn [list_to_map]. f_equal; [f_equal|].
  - rewrite <-insert_union_r; [by rewrite insert_union_l|]. apply not_elem_of_list_to_map_1. intros Hin.
    apply list_elem_of_fmap in Hin as ([k x] & Hk & Hin). apply list_elem_of_fmap in Hin as (f' & [= -> ->] & Hf'). cbn in Hk.
    by apply (Hne f' (target f') Hf' (target_own f')).
  - unfold count_if. cbn [List.filter]. unfold numbered. destruct (is_new f); cbn [length]; lia.
  - unfold count_if. cbn [List.filter]. unfold numbered. destruct (is_new f), replace; cbn [negb andb length]; lia.
Qed.

Lemma targets_once found : NoDup (flat_map own_keys found) → NoDup ((λ f, (target f, merged f)) <$> found).*1.
Proof.
  induction found as [|f found IH]; intros Hn; [constructor|]. cbn [flat_map] in Hn. apply NoDup_app in Hn as (_ & Hdisj & Hn). rewrite !fmap_cons. constructor; [|by apply IH].
  intros ([k x] & Hk & ([k' d] & [= -> ->] & Hf)%list_elem_of_fmap)%list_elem_of_fmap. cbn in Hk. apply (Hdisj (target f)); [apply target_own|].
  apply list_elem_of_In, in_flat_map. exists (k', d). split; apply list_elem_of_In; [done|]. rewrite Hk. apply target_own.
Qed.
End merging.

(** C25: As long as no two found devices can go by the same name, merging does not depend on the order of
    its range: each of them is the new device of its address, or takes its settings over from the
    configured one of its name or only marks that one as seen, and no other device changes. *)
Theorem merge_any_order g replace now devs found found' : NoDup (flat_map own_keys found) → found' ≡ₚ found →
  merge g replace now devs found' =
    (list_to_map ((λ f, (target devs f, merged g replace now devs f)) <$> found) ∪ devs,
     count_if (is_new devs) found, if replace then count_if (λ f, negb (is_new devs f)) found else 0).
Proof.
  intros Hn Hp. assert (NoDup (flat_map own_keys found')) as Hn' by by rewrite (Permutation_flat_map own_keys Hp).
  unfold merge. change (list_to_set _) with (known_ips devs). rewrite merge_fold by done.
  assert (∀ p, count_if p found' = count_if p found) as Hc.
  { intros p. unfold count_if. f_equal. clear Hn Hn'. induction Hp as [|f l l' _ IH|f f' l|l l1 l' _ IH1 _ IH2]; cbn [List.filter]; [done| | |congruence].
    - destruct (p f); cbn [length]; by rewrite IH.
    - by destruct (p f), (p f'). }
  rewrite !Hc, !Z.add_0_l. f_equal. f_equal. f_equal. apply list_to_map_proper; [by apply targets_once|by rewrite Hp].
Qed.

(** ** One device for an engine *)
Record dedup_inv (devs m : devices) (seen : gset string) (past : list (string * SnmpDeviceConfig)) : Prop := {
  de_sub : m ⊆ devs;
  de_rest k : k ∉ past.*1 → m !! k = devs !! k;
  de_plain k d : (k, d) ∈ past → EngineID d = EmptyString → m !! k = Some d;
  de_kept e : e ∈ seen → e ≠ EmptyString ∧ ∃ k d, (k, d) ∈ past ∧ m !! k = Some d ∧ EngineID d = e;
  de_seen k d : (k, d) ∈ past → EngineID d ≠ EmptyString → EngineID d ∈ seen;
  de_once k k' d d' : (k, d) ∈ past → (k', d') ∈ past → m !! k = Some d → m !! k' = Some d' → EngineID d = EngineID d' → EngineID d ≠ EmptyString → k = k' }.

Lemma dedup_step devs m a seen past k d : dedup_inv devs m seen past → (k, d) ∉ past → k ∉ past.*1 → devs !! k = Some d →
  let r := dedup_one (m, a, seen) (k, d) in dedup_inv devs r.1.1 r.2 (past ++ [(k, d)]).
Proof.
  intros Hi _ Hk Hd. assert (m !! k = Some d) as Hm by by rewrite (de_rest _ _ _ _ Hi).
  assert (∀ k' d', (k', d') ∈ past → k' ≠ k) as Hne by (intros k' d' Hp ->; apply Hk, list_elem_of_fmap; by exists (k, d')).
  assert (∀ k', k' ∉ (past ++ [(k, d)]).*1 → k' ∉ past.*1 ∧ k' ≠ k) as Hout.
  { intros k'. rewrite fmap_app. cbn. rewrite elem_of_app, list_elem_of_singleton. tauto. }
  cbn zeta. unfold dedup_one. cbn [fst snd]. destruct (String.eqb_spec (EngineID d) "") as [He|He]; [|case_bool_decide as Hs]; cbn [fst snd].
  - split; [apply (de_sub _ _ _ _ Hi)|intros k' Hk'; by apply (de_rest _ _ _ _ Hi), Hout| | | |].
    + intros k' d' [Hp|[= -> ->]%list_elem_of_singleton]%elem_of_app Hd'; [by apply (de_plain _ _ _ _ Hi)|done].
    + intros e Hs. destruct (de_kept _ _ _ _ Hi e Hs) as (Hn & k' & d' & Hp & Hr). split; [done|]. exists k', d'. split; [apply elem_of_app; by left|done].
    + intros k' d' [Hp|[= -> ->]%list_elem_of_singleton]%elem_of_app Hd'; [by eapply (de_seen _ _ _ _ Hi)|done].
    + intros k1 k2 d1 d2 [H1|[= -> ->]%list_elem_of_singleton]%elem_of_app [H2|[= -> ->]%list_elem_of_singleton]%elem_of_app M1 M2 E N; try done; [|congruence].
      by eapply (de_once _ _ _ _ Hi).
  - assert (∀ k' d', (k', d') ∈ past → delete k m !! k' = m !! k') as Hold by (intros k' d' Hp; rewrite lookup_delete_ne; [done|]; intros <-; by apply (Hne k d')).
    split.
    + etrans; [apply delete_subseteq|apply (de_sub _ _ _ _ Hi)].
    + intros k' [Hk' Hkk]%Hout. rewrite lookup_delete_ne by done. by apply (de_rest _ _ _ _ Hi).
    + intros k' d' [Hp|[= -> ->]%list_elem_of_singleton]%elem_of_app Hd'; [|done]. rewrite (Hold _ _ Hp). by apply (de_plain _ _ _ _ Hi).
    + intros e Hse. destruct (de_kept _ _ _ _ Hi e Hse) as (Hn & k' & d' & Hp & Hr). split; [done|]. exists k', d'. rewrite (Hold _ _ Hp). split; [apply elem_of_app; by left|done].
    + intros k' d' [Hp|[= -> ->]%list_elem_of_singleton]%elem_of_app Hd'; [by eapply (de_seen _ _ _ _ Hi)|done].
    + intros k1 k2 d1 d2 [H1|[= -> ->]%list_elem_of_singleton]%elem_of_app [H2|[= -> ->]%list_elem_of_singleton]%elem_of_app M1 M2 E N; try (by rewrite lookup_delete_eq in M1 || rewrite lookup_delete_eq in M2).
      rewrite (Hold _ _ H1) in M1. rewrite (Hold _ _ H2) in M2. by eapply (de_once _ _ _ _ Hi).
  - split; [apply (de_sub _ _ _ _ Hi)|intros k' Hk'; by apply (de_rest _ _ _ _ Hi), Hout| | | |].
    + intros k' d' [Hp|[= -> ->]%list_elem_of_singleton]%elem_of_app Hd'; [by apply (de_plain _ _ _ _ Hi)|done].
    + intros e [->%elem_of_singleton|Hse]%elem_of_union; [split; [done|]; exists k, d; rewrite elem_of_app, list_elem_of_singleton; by auto|].
      destruct (de_kept _ _ _ _ Hi e Hse) as (Hn & k' & d' & Hp & Hr). split; [done|]. exists k', d'. split; [apply elem_of_app; by left|done].
    + intros k' d' [Hp|[= -> ->]%list_elem_of_singleton]%elem_of_app Hd'; [apply elem_of_union_r; by eapply (de_seen _ _ _ _ Hi)|set_solver].
    + intros k1 k2 d1 d2 [H1|[= -> ->]%list_elem_of_singleton]%elem_of_app [H2|[= -> ->]%list_elem_of_singleton]%elem_of_app M1 M2 E N; try done.
      * by eapply (de_once _ _ _ _ Hi).
      * destruct Hs. rewrite <-E. by eapply (de_seen _ _ _ _ Hi).
      * destruct Hs. rewrite E. eapply (de_seen _ _ _ _ Hi); [done|congruence].
Qed.

Lemma dedup_all devs order : (∀ k d, (k, d) ∈ order → devs !! k = Some d) → NoDup order.*1 → ∀ past m a seen,
  NoDup (past ++ order).*1 → dedup_inv devs m seen past →
  let r := foldl dedup_one (m, a, seen) order in dedup_inv devs r.1.1 r.2 (past ++ order).
Proof.
  induction order as [|[k d] order IH]; intros Hin Hn past m a seen Hnn Hi; [by rewrite app_nil_r|]. cbn [foldl].
  assert (k ∉ past.*1) as Hk.
  { rewrite fmap_app, fmap_cons in Hnn. apply NoDup_app in Hnn as (_ & Hdis & _). intros Hp. apply (Hdis _ Hp). by left. }
  assert ((k, d) ∉ past) as Hkd by (intros Hp; apply Hk, list_elem_of_fmap; by exists (k, d)).
  pose proof (dedup_step devs m a seen past k d Hi Hkd Hk (Hin k d ltac:(by left))) as Hs. destruct (dedup_one (m, a, seen) (k, d)) as [[m1 a1] seen1]. cbn [fst snd] in Hs.
  rewrite cons_middle, (assoc_L (++)) in Hnn |- *. apply IH; [intros k' d' Hp; apply Hin; by right|cbn in Hn; by apply NoDup_cons in Hn as []|exact Hnn|exact Hs].
Qed.

(** After duplicates were removed, in whatever order, no two devices have one engine, each engine has a device
    still, and devices without one are all there. *)
Theorem dedup_engines order devs a : order ≡ₚ map_to_list devs →
  let devs' := (dedup false order devs a).1 in
  devs' ⊆ devs ∧ (∀ k d, devs !! k = Some d → EngineID d = EmptyString → devs' !! k = Some d) ∧
  (∀ k d, devs !! k = Some d → ∃ k' d', devs' !! k' = Some d' ∧ EngineID d' = EngineID d) ∧
  (∀ k k' d d', devs' !! k = Some d → devs' !! k' = Some d' → EngineID d = EngineID d' → EngineID d ≠ EmptyString → k = k').
Proof.
  intros Hp. cbn zeta. unfold dedup. assert (∀ k d, (k, d) ∈ order ↔ devs !! k = Some d) as Hin by (intros k d; by rewrite Hp, elem_of_map_to_list).
  assert (NoDup order.*1) as Hn by (rewrite Hp; apply NoDup_fst_map_to_list).
  assert (dedup_inv devs devs ∅ []) as H0 by (split; [reflexivity|done|set_solver..]).
  pose proof (dedup_all devs order (λ k d, proj1 (Hin k d)) Hn [] devs a ∅ Hn H0) as Hi. cbn [app] in Hi. cbn zeta in Hi. set (devs' := (foldl dedup_one (devs, a, ∅) order).1.1) in *.
  assert (∀ k d, devs' !! k = Some d → (k, d) ∈ order) as Hsub by (intros k d Hk; apply Hin; by eapply lookup_weaken; [|apply (de_sub _ _ _ _ Hi)]).
  split; [apply (de_sub _ _ _ _ Hi)|]. split; [intros k d Hk He; apply (de_plain _ _ _ _ Hi); [by apply Hin|done]|]. split.
  - intros k d Hk. apply Hin in Hk. destruct (decide (EngineID d = EmptyString)) as [He|He].
    + exists k, d. split; [by apply (de_plain _ _ _ _ Hi)|done].
    + destruct (de_kept _ _ _ _ Hi _ (de_seen _ _ _ _ Hi _ _ Hk He)) as (_ & k' & d' & _ & Hr). by exists k', d'.
  - intros k k' d d' Hk Hk'. apply (de_once _ _ _ _ Hi); by auto.
Qed.

(** ** What is purged *)
Lemma delete_where (c : SnmpDeviceConfig → bool) (order : list (string * SnmpDeviceConfig)) (m : devices) : NoDup order.*1 → (∀ kv, kv ∈ order → m !! kv.1 = Some kv.2) →
  ∀ k, foldl (λ (m : devices) kv, if c kv.2 then delete kv.1 m else m) m order !! k =
    match m !! k with Some d => if bool_decide (k ∈ order.*1) && c d then None else Some d | None => None end.
Proof.
  revert m. induction order as [|[k0 d0] order IH]; intros m Hnd Hin k; [cbn; by destruct (m !! k)|]. cbn [foldl fst snd fmap list_fmap] in *.
  apply NoDup_cons in Hnd as [Hk0 Hnd]. pose proof (Hin (k0, d0) ltac:(by left)) as Hm0. cbn in Hm0.
  assert (∀ kv, kv ∈ order → (if c d0 then delete k0 m else m) !! kv.1 = Some kv.2) as Hin'.
  { intros kv Hkv. destruct (c d0); [rewrite lookup_delete_ne|]; [|intros ->; apply Hk0, list_elem_of_fmap; by exists kv|]; apply Hin; by right. }
  rewrite IH by done. destruct (decide (k = k0)) as [->|Hne].
  - rewrite Hm0, (bool_decide_true (k0 ∈ k0 :: _)) by by left. cbn [andb]. destruct (c d0) eqn:Ec; [by rewrite lookup_delete_eq|]. by rewrite Hm0, bool_decide_false.
  - assert ((if c d0 then delete k0 m else m) !! k = m !! k) as -> by (destruct (c d0); [by rewrite lookup_delete_ne|done]). destruct (m !! k) as [d|]; [|done].
    assert (bool_decide (k ∈ k0 :: order.*1) = bool_decide (k ∈ order.*1)) as ->; [|done]. apply bool_decide_ext. rewrite elem_of_cons. naive_solver.
Qed.

Definition unseen (now pollDuration n : Z) (d : SnmpDeviceConfig) : bool := (0 <? n) && (0 <? pollDuration) && (Checked d <? removeTime now pollDuration n).
Lemma purge_run now pollDuration n order m a : (∀ kv, kv ∈ order → PurgeDevice kv.2 = 0) → -1 ≤ n →
  ∃ a', purge now pollDuration order (m, a, n) = Ok (foldl (λ (m : devices) kv, if unseen now pollDuration n kv.2 then delete kv.1 m else m) m order, a', n).
Proof.
  revert m a. induction order as [|[k d] order IH]; intros m a H0 Hn; [by exists a|]. cbn [purge purge_one foldl fst snd].
  assert (PurgeDevice d = 0) as Hd by (apply (H0 (k, d)); by left). rewrite Hd. change (0 =? 0) with true. cbn iota.
  assert (∀ kv, kv ∈ order → PurgeDevice kv.2 = 0) as H0' by (intros; apply H0; by right).
  destruct (Z.eqb_spec n (-1)) as [->|]; [exact (IH m a H0' Hn)|]. rewrite (proj2 (Z.ltb_ge n (-1))) by lia. fold (unseen now pollDuration n d).
  destruct (unseen now pollDuration n d); cbn [mbind res_bind]; by apply IH.
Qed.

(** When no device has a limit of its own, exactly the devices that were last seen before the common limit are
    removed, in whatever order. *)
Theorem purge_common now pollDuration order devs a n : order ≡ₚ map_to_list devs → (∀ k d, devs !! k = Some d → PurgeDevice d = 0) → -1 ≤ n →
  ∃ a', purge now pollDuration order (devs, a, n) = Ok (filter (λ kv, unseen now pollDuration n kv.2 = false) devs, a', n).
Proof.
  intros Hp H0 Hn. assert (∀ k d, (k, d) ∈ order ↔ devs !! k = Some d) as Hin by (intros k d; by rewrite Hp, elem_of_map_to_list).
  destruct (purge_run now pollDuration n order devs a) as (a' & ->); [intros [k d] Hk%Hin; by eapply H0|done|]. exists a'. do 3 f_equal.
  apply map_eq. intros k. rewrite delete_where; [|by rewrite Hp; apply NoDup_fst_map_to_list|by intros [k' d'] Hk%Hin].
  rewrite map_lookup_filter. destruct (devs !! k) as [d|] eqn:Hk; [|done]. cbn [mbind option_bind]. rewrite bool_decide_true by (apply list_elem_of_fmap; exists (k, d); by rewrite Hin).
  cbn [andb]. case_guard as Hg; cbn in *; destruct (unseen now pollDuration n d); done.
Qed.

(** ** Any schedule of checks *)
Section schedule.
Context (hosts : list host) (checked : host → option SnmpDeviceConfig) (found0 : gmap string SnmpDeviceConfig) (threads : nat).
Context (hosts_once : NoDup (h_Host <$> hosts)).

Definition in_check (ph : phase) : nat := match ph with Checking => 1 | _ => 0 end.
Definition turns_left (ph : phase) : nat := match ph with Waiting => 2 | Checking => 1 | Finished => 0 end.
(** What a host's address has in the end. *)
Definition outcome (h : host) : option SnmpDeviceConfig := match checked h with Some d => Some d | None => found0 !! h_Host h end.

Record pool_ok (p : pool) : Prop := {
  po_length : length (phases p) = length hosts;
  po_tokens : (sum_list_with in_check (phases p) + tokens p = threads)%nat;
  po_host i h ph : hosts !! i = Some h → phases p !! i = Some ph →
    foundDevices p !! h_Host h = match ph with Finished => outcome h | _ => found0 !! h_Host h end;
  po_other ip : ip ∉ h_Host <$> hosts → foundDevices p !! ip = found0 !! ip }.

Lemma sum_insert (f : phase → nat) l i ph ph' : l !! i = Some ph → (sum_list_with f (<[i := ph']> l) + f ph = sum_list_with f l + f ph')%nat.
Proof.
  intros Hi. rewrite insert_take_drop by (by eapply lookup_lt_Some). rewrite <-(take_drop_middle l i ph Hi) at 3. rewrite !sum_list_with_app. cbn. lia.
Qed.
Lemma same_host i j h h' : hosts !! i = Some h → hosts !! j = Some h' → h_Host h = h_Host h' → i = j.
Proof. intros Hi Hj E. eapply NoDup_lookup; [exact hosts_once| |]; rewrite list_lookup_fmap; [by rewrite Hi|by rewrite Hj, E]. Qed.

Lemma host_turn_ok i p p' : host_turn hosts checked i p = Some p' → pool_ok p →
  pool_ok p' ∧ (sum_list_with turns_left (phases p') < sum_list_with turns_left (phases p))%nat.
Proof.
  unfold host_turn. intros E Hp. destruct (phases p !! i) as [ph|] eqn:Hi; [|done]. destruct (hosts !! i) as [h|] eqn:Hh; [|done]. cbn [mbind option_bind] in E.
  assert (∀ ph' found, (∀ j h' ph2, hosts !! j = Some h' → <[i := ph']> (phases p) !! j = Some ph2 → found !! h_Host h' = match ph2 with Finished => outcome h' | _ => found0 !! h_Host h' end) →
    (∀ ip, ip ∉ h_Host <$> hosts → found !! ip = found0 !! ip) → ∀ n, (sum_list_with in_check (<[i := ph']> (phases p)) + n = threads)%nat → pool_ok (mkPool n (<[i := ph']> (phases p)) found)) as Hmk.
  { intros ph' found H1 H2 n H3. split; cbn [phases tokens foundDevices]; [|done|done|done]. rewrite length_insert. apply (po_length _ Hp). }
  pose proof (po_tokens _ Hp) as Ht. destruct ph; [| |done].
  - destruct (tokens p) as [|n] eqn:En; [done|]. injection E as <-. pose proof (sum_insert in_check _ _ _ Checking Hi). pose proof (sum_insert turns_left _ _ _ Checking Hi). cbn [in_check turns_left phases] in *.
    split; [|lia]. apply Hmk; [|apply (po_other _ Hp)|lia]. intros j h' ph2 Hj H2. destruct (decide (i = j)) as [<-|Hne].
    + rewrite list_lookup_insert_eq in H2 by (by eapply lookup_lt_Some). injection H2 as <-. by rewrite (po_host _ Hp _ _ _ Hj Hi).
    + rewrite list_lookup_insert_ne in H2 by done. by apply (po_host _ Hp _ _ _ Hj).
  - injection E as <-. pose proof (sum_insert in_check _ _ _ Finished Hi). pose proof (sum_insert turns_left _ _ _ Finished Hi). cbn [in_check turns_left phases] in *.
    split; [|lia]. apply Hmk; [| |lia].
    + intros j h' ph2 Hj H2. destruct (decide (i = j)) as [<-|Hne].
      * rewrite list_lookup_insert_eq in H2 by (by eapply lookup_lt_Some). injection H2 as <-. simplify_eq. unfold outcome.
        destruct (checked h); [by rewrite lookup_insert_eq|]. by rewrite (po_host _ Hp _ _ _ Hh Hi).
      * rewrite list_lookup_insert_ne in H2 by done. rewrite <-(po_host _ Hp _ _ _ Hj H2). destruct (checked h); [|done]. rewrite lookup_insert_ne; [done|].
        intros Eh. by apply Hne, (same_host i j h h').
    + intros ip Hip. rewrite <-(po_other _ Hp) by done. destruct (checked h); [|done]. rewrite lookup_insert_ne; [done|]. intros <-. apply Hip, list_elem_of_fmap.
      exists h. split; [done|]. by eapply list_elem_of_lookup_2.
Qed.
Lemma host_turns_ok l p p' : host_turns hosts checked l p = Some p' → pool_ok p →
  pool_ok p' ∧ (length l + sum_list_with turns_left (phases p') ≤ sum_list_with turns_left (phases p))%nat.
Proof.
  revert p. induction l as [|i l IH]; intros p E Hp; [injection E as <-; split; [done|cbn; lia]|]. cbn [host_turns] in E.
  destruct (host_turn hosts checked i p) as [p1|] eqn:Ei; [|done]. destruct (host_turn_ok _ _ _ Ei Hp) as [H1 Hl]. destruct (IH _ E H1) as [H2 Hl2].
  split; [done|]. cbn [length]. lia.
Qed.
Lemma start_ok : pool_ok (start_pool threads (length hosts) found0).
Proof.
  split; cbn.
  - by rewrite length_replicate.
  - assert (∀ n, sum_list_with in_check (replicate n Waiting) = 0%nat) as -> by (induction n; done). done.
  - intros i h ph _ [-> _]%lookup_replicate. done.
  - done.
Qed.

Lemma check_all_lookup found ip : check_all hosts checked found !! ip =
  match list_find (λ h, h_Host h = ip) hosts with Some (_, h) => match checked h with Some d => Some d | None => found !! ip end | None => found !! ip end.
Proof.
  unfold check_all. revert found. induction hosts as [|h l IH]; intros found; [done|]. cbn [foldl list_find]. cbn in hosts_once.
  apply NoDup_cons in hosts_once as [Hh Hl]. rewrite IH by done. destruct (decide (h_Host h = ip)) as [<-|Hne].
  - assert (list_find (λ h', h_Host h' = h_Host h) l = None) as ->.
    { apply list_find_None, Forall_forall. intros h' Hh' E. apply Hh, list_elem_of_fmap. by exists h'. }
    destruct (checked h); [by rewrite lookup_insert_eq|done].
  - assert ((match checked h with Some d => <[h_Host h := d]> found | None => found end) !! ip = found !! ip) as -> by (destruct (checked h); [by rewrite lookup_insert_ne|done]).
    destruct (list_find _ l) as [[j h']|] eqn:Ef; done.
Qed.

(** C26: Whatever order the checks of hosts with different addresses take turns in, never more than [Threads] run, they
    come to an end unless there is no thread, and what they find is what checking one host after the other finds. *)
Theorem checks_any_schedule l p : host_turns hosts checked l (start_pool threads (length hosts) found0) = Some p →
  (sum_list_with in_check (phases p) + tokens p = threads)%nat ∧ (length l ≤ 2 * length hosts)%nat ∧
  (Forall (λ ph, ph = Finished) (phases p) → foundDevices p = check_all hosts checked found0) ∧
  (Forall (λ ph, ph = Finished) (phases p) ∨ threads = O ∨ ∃ i p', host_turn hosts checked i p = Some p').
Proof.
  intros E. destruct (host_turns_ok _ _ _ E start_ok) as [Hp Hl]. split; [apply (po_tokens _ Hp)|]. split; [|split].
  - cbn [phases start_pool] in Hl. assert (∀ n, sum_list_with turns_left (replicate n Waiting) = (2 * n)%nat) as Hs by (induction n as [|n IH]; [done|cbn in *; lia]). rewrite Hs in Hl. lia.
  - intros Hf. apply map_eq. intros ip. rewrite check_all_lookup. destruct (list_find _ hosts) as [[j h]|] eqn:Ef.
    + apply list_find_Some in Ef as (Hj & <- & _). destruct (lookup_lt_is_Some_2 (phases p) j) as [ph Hph]; [rewrite (po_length _ Hp); by eapply lookup_lt_Some|].
      rewrite (po_host _ Hp _ _ _ Hj Hph). rewrite (Forall_lookup_1 _ _ _ _ Hf Hph). done.
    + apply (po_other _ Hp). intros (h & -> & Hh)%list_elem_of_fmap. apply list_find_None in Ef. rewrite Forall_forall in Ef. by apply (Ef h).
  - destruct (decide (Forall (λ ph, in_check ph = 0%nat) (phases p))) as [Hn|Hn].
    + destruct (decide (Forall (λ ph, turns_left ph = 0%nat) (phases p))) as [Hz|Hz]; [left; eapply Forall_impl; [exact Hz|]; by intros []|right].
      destruct threads as [|t] eqn:Et; [by left|right]. apply not_Forall_Exists in Hz; [|apply _]. apply Exists_exists in Hz as (ph & (i & Hi)%list_elem_of_lookup & Hz).
      destruct (lookup_lt_is_Some_2 hosts i) as [h Hh]; [rewrite <-(po_length _ Hp); by eapply lookup_lt_Some|]. exists i. unfold host_turn. rewrite Hi, Hh. cbn [mbind option_bind].
      pose proof (Forall_lookup_1 _ _ _ _ Hn Hi) as H0. destruct ph; [|done|done]. pose proof (po_tokens _ Hp) as Htk.
      assert (sum_list_with in_check (phases p) = 0%nat) as Hs by (clear -Hn; induction Hn as [|x l Hx _ IH]; [done|]; cbn; by rewrite Hx, IH). destruct (tokens p); [lia|by eexists].
    + right. right. apply not_Forall_Exists in Hn; [|apply _]. apply Exists_exists in Hn as (ph & (i & Hi)%list_elem_of_lookup & Hz).
      destruct (lookup_lt_is_Some_2 hosts i) as [h Hh]; [rewrite <-(po_length _ Hp); by eapply lookup_lt_Some|]. exists i. unfold host_turn. rewrite Hi, Hh. cbn [mbind option_bind].
      destruct ph; cbn in Hz; [by destruct Hz|by eexists|by destruct Hz].
Qed.
End schedule.

(** ** Tags as they are saved *)
Section clean.
Context (p : Provider_) (Hp : SnmpTags.name_ok p) (m0 : gmap string string) (Hm0 : SnmpTags.keys_ok m0).
(** A tag is not set both with and without the provider. *)
Context (Hone : ∀ k, SnmpTags.plain k → is_Some (m0 !! k) → m0 !! SnmpTags.provider_key p k = None).

Definition said (k v : string) : Prop := m0 !! k = Some v ∨ m0 !! SnmpTags.provider_key p k = Some v.
Lemma not_plain_key q k : ¬ SnmpTags.plain (SnmpTags.provider_key q k).
Proof. unfold SnmpTags.plain. by rewrite SnmpTags.provider_key_prefix. Qed.
Lemma said_once k v w : SnmpTags.plain k → said k v → m0 !! SnmpTags.provider_key p k = Some w → v = w.
Proof. intros Hk [Hv|Hv] Hw; [|congruence]. rewrite (Hone k Hk) in Hw by by rewrite Hv. done. Qed.

Record cleaning (must seen : gset string) (m : gmap string string) : Prop := {
  cl_said k v : SnmpTags.plain k → m !! k = Some v → said k v;
  cl_empty k : SnmpTags.plain k → m !! k = Some EmptyString → k ∈ must;
  cl_owed k v : ¬ SnmpTags.plain k → m !! k = Some v → m0 !! k = Some v ∧ k ∈ must;
  cl_there k v : SnmpTags.plain k → said k v → v ≠ EmptyString →
    m !! k = Some v ∨ m !! SnmpTags.provider_key p k = Some v ∧ SnmpTags.provider_key p k ∈ must }.

Lemma cleaning_start : cleaning (dom m0) ∅ m0.
Proof.
  split.
  - intros k v _ Hk. by left.
  - intros k _ Hk. by apply elem_of_dom_2 in Hk.
  - intros k v _ Hk. split; [done|by apply elem_of_dom_2 in Hk].
  - intros k v Hk [Hv|Hv] _; [by left|]. right. split; [done|]. by apply elem_of_dom_2 in Hv.
Qed.

(** What is left of a map where one key went. *)
Lemma cleaning_delete must seen seen' m k : cleaning must seen m →
  (∀ v, m !! k = Some v → SnmpTags.plain k → v = EmptyString) → (∀ t v, SnmpTags.plain t → k = SnmpTags.provider_key p t → m !! k = Some v → v = EmptyString) →
  cleaning ((must ∖ {[k]}) ∩ dom (delete k m)) seen' (delete k m).
Proof.
  intros Hc Hk Hpk. assert (∀ k' v, delete k m !! k' = Some v → k' ≠ k ∧ m !! k' = Some v) as Hd by (intros k' v Hv; apply lookup_delete_Some in Hv as [? ?]; done).
  split.
  - intros k' v Hpl [_ Hv]%Hd. by apply (cl_said _ _ _ Hc).
  - intros k' Hpl Hv. pose proof (elem_of_dom_2 _ _ _ Hv). apply Hd in Hv as [Hne Hv]. pose proof (cl_empty _ _ _ Hc _ Hpl Hv). set_solver.
  - intros k' v Hpl Hv. pose proof (elem_of_dom_2 _ _ _ Hv). apply Hd in Hv as [Hne Hv]. destruct (cl_owed _ _ _ Hc _ _ Hpl Hv). split; [done|set_solver].
  - intros k' v Hpl Hs Hv. destruct (cl_there _ _ _ Hc _ _ Hpl Hs Hv) as [Hl|[Hl Hin]].
    + left. rewrite lookup_delete_ne; [done|]. intros <-. by apply Hv, Hk.
    + right. assert (SnmpTags.provider_key p k' ≠ k) as Hne by (intros <-; by apply Hv, (Hpk k')).
      assert (delete k m !! SnmpTags.provider_key p k' = Some v) as Hl' by by rewrite lookup_delete_ne. split; [done|]. apply elem_of_dom_2 in Hl'. set_solver.
Qed.

Lemma cleaning_step must seen m k v : cleaning must seen m → m !! k = Some v →
  cleaning ((must ∖ {[k]}) ∩ dom (clean_body p k v m)) ((seen ∪ {[k]}) ∩ dom (clean_body p k v m)) (clean_body p k v m).
Proof.
  intros Hc Hk. unfold clean_body. destruct (decide (SnmpTags.plain k)) as [Hpl|Hpl].
  - rewrite SnmpTags.matchesPrefix_plain by done. destruct (String.eqb_spec v "") as [->|Hv].
    + eapply cleaning_delete; [done|intros; congruence|]. intros t w _ ->. by destruct (not_plain_key p t).
    + rewrite insert_delete_eq, insert_id by done. split; [apply (cl_said _ _ _ Hc)| | |].
      * intros k' Hpl' Hk'. pose proof (cl_empty _ _ _ Hc _ Hpl' Hk'). assert (k' ≠ k) by congruence. apply elem_of_dom_2 in Hk'. set_solver.
      * intros k' w Hpl' Hk'. destruct (cl_owed _ _ _ Hc _ _ Hpl' Hk'). split; [done|]. assert (k' ≠ k) by congruence. apply elem_of_dom_2 in Hk'. set_solver.
      * intros k' w Hpl' Hs Hw. destruct (cl_there _ _ _ Hc _ _ Hpl' Hs Hw) as [Hl|[Hl Hin]]; [by left|right]. split; [done|].
        assert (SnmpTags.provider_key p k' ≠ k) by (intros <-; by apply (not_plain_key p k')). apply elem_of_dom_2 in Hl. set_solver.
  - destruct (cl_owed _ _ _ Hc _ _ Hpl Hk) as [Hk0 Hin]. destruct (Hm0 _ _ Hk0) as [?|(q & t & Hq & Ht & ->)]; [done|]. rewrite SnmpTags.matchesPrefix_key by done.
    destruct (String.eqb_spec q p) as [->|Hqp].
    2:{ eapply cleaning_delete; [done|intros; done|]. intros t' w _ E. apply SnmpTags.provider_key_eq in E as [? _]; done. }
    destruct (String.eqb_spec v "") as [->|Hv]; [eapply cleaning_delete; [done|done|intros; congruence]|].
    assert (SnmpTags.provider_key p t ≠ t) as Hne by by apply SnmpTags.provider_key_plain.
    assert (∀ k' w, k' ≠ t → k' ≠ SnmpTags.provider_key p t → m !! k' = Some w → <[t := v]> (delete (SnmpTags.provider_key p t) m) !! k' = Some w) as Hkeep by (intros k' w H1 H2 Hw; by rewrite lookup_insert_ne, lookup_delete_ne).
    split.
    + intros k' w Hpl'. destruct (decide (k' = t)) as [->|Hkt]; [rewrite lookup_insert_eq; intros [= <-]; by right|]. rewrite lookup_insert_ne by done. intros [_ Hw]%lookup_delete_Some. by apply (cl_said _ _ _ Hc).
    + intros k' Hpl'. destruct (decide (k' = t)) as [->|Hkt]; [rewrite lookup_insert_eq; intros [= ->]; done|]. intros Hw. pose proof (elem_of_dom_2 _ _ _ Hw). rewrite lookup_insert_ne in Hw by done.
      apply lookup_delete_Some in Hw as [Hn Hw]. pose proof (cl_empty _ _ _ Hc _ Hpl' Hw). set_solver.
    + intros k' w Hpl' Hw. pose proof (elem_of_dom_2 _ _ _ Hw). rewrite lookup_insert_ne in Hw by by intros <-. apply lookup_delete_Some in Hw as [Hn Hw]. destruct (cl_owed _ _ _ Hc _ _ Hpl' Hw). split; [done|set_solver].
    + intros k' w Hpl' Hs Hw. destruct (decide (k' = t)) as [->|Hkt]; [left; rewrite lookup_insert_eq; by rewrite (said_once t w v)|].
      destruct (cl_there _ _ _ Hc _ _ Hpl' Hs Hw) as [Hl|[Hl Hin']].
      * left. apply Hkeep; [done| |done]. intros ->. by apply (not_plain_key p t).
      * right. assert (<[t := v]> (delete (SnmpTags.provider_key p t) m) !! SnmpTags.provider_key p k' = Some w) as Hl'.
        { apply Hkeep; [|by intros ?%(inj _)|done]. intros <-. by apply (not_plain_key p k'). }
        split; [done|]. assert (SnmpTags.provider_key p k' ≠ SnmpTags.provider_key p t) by by intros ?%(inj _). apply elem_of_dom_2 in Hl'. set_solver.
Qed.

Lemma clean_range m : range id (clean_body p) m0 m → ∀ k v, m !! k = Some v ↔ SnmpTags.plain k ∧ v ≠ EmptyString ∧ said k v.
Proof.
  intros Hr. destruct (range_inv id (clean_body p) cleaning _ _ _ _ ltac:(intros; by apply cleaning_step) Hr cleaning_start) as (seen & Hc). intros k v. split.
  - intros Hk. destruct (decide (SnmpTags.plain k)) as [Hpl|Hpl]; [|destruct (cl_owed _ _ _ Hc _ _ Hpl Hk); set_solver].
    split; [done|]. split; [|by apply (cl_said _ _ _ Hc)]. intros ->. pose proof (cl_empty _ _ _ Hc _ Hpl Hk). set_solver.
  - intros (Hpl & Hv & Hs). destruct (cl_there _ _ _ Hc _ _ Hpl Hs Hv) as [?|[_ ?]]; [done|set_solver].
Qed.
End clean.

(** When tags are cleaned to be saved, in whatever order, each tag that is not empty is there under its plain name if it
    was set so or for the provider, and nothing that was set for another provider is. *)
Theorem clean_tags_saved p m m' : SnmpTags.name_ok p → SnmpTags.keys_ok m →
  (∀ k, SnmpTags.plain k → is_Some (m !! k) → m !! SnmpTags.provider_key p k = None) → clean_tags p (Some m) m' →
  ∃ c, m' = Some c ∧ ∀ k v, c !! k = Some v ↔
    SnmpTags.plain k ∧ v ≠ EmptyString ∧ (m !! k = Some v ∨ m !! SnmpTags.provider_key p k = Some v).
Proof.
  intros Hp Hm Hone Hc. destruct m' as [c|]; [|done]. exists c. split; [done|]. by apply clean_range.
Qed.

(** ** A discovery that adds nothing *)
Section nothing_added.
Context (now pollDuration : Z) (dev_order : nat → devices → list (string * SnmpDeviceConfig)) (clean : SnmpConfig → SnmpConfig) (does : write → res unit)
  (Marshal : SnmpConfig → res string) (parseConfig : string → res SnmpConfig) (TouchFile : string → res unit) (copy_to : string → string → res unit)
  (kentik : list KentikDevice) (NewMibDB : SnmpGlobalConfig → res unit) (search : SnmpDiscoConfig → gomap string → res (list (string * SnmpDeviceConfig))).
Abbreviation Discover := (Discover now pollDuration dev_order clean does Marshal parseConfig TouchFile copy_to kentik NewMibDB search).
Abbreviation check_once := (check_once now pollDuration dev_order clean does Marshal parseConfig TouchFile copy_to kentik NewMibDB search).

Lemma add_kentiks_flag m l st disco' k : add_kentiks m l st = Ok (disco', k) → AddDevices disco' = AddDevices st.1.
Proof.
  revert st. induction l as [|d l IH]; intros st E; [by injection E as ->|]. cbn [add_kentiks] in E. apply res_bind_Ok in E as (st1 & E1 & E2). rewrite (IH _ E2).
  unfold add_kentik in E1. destruct st as [disco added]. destruct (String.eqb _ _); [by injection E1 as <-|]. apply res_bind_Ok in E1 as (add & _ & E1). destruct (negb _ && _); by injection E1 as <-.
Qed.
Lemma addKentik_flag disco disco' k : addKentikDevices disco kentik = Ok (disco', k) → AddDevices disco' = AddDevices disco.
Proof.
  unfold addKentikDevices. destruct (Kentik disco) as [[[] m]|]; intros E; try (by injection E as <-).
  apply res_bind_Ok in E as ([d a] & E1 & E2). injection E2 as <- _. by apply add_kentiks_flag in E1.
Qed.

Lemma Discover_nothing f o manager c disco s d : parseConfig f = Ok c → Disco c = Some disco → AddDevices disco = false →
  Discover f o manager = Ok (s, d) → s = None ∧ manager = false.
Proof.
  unfold Disco.Discover. intros -> Hd Ha. cbn [mbind res_bind]. rewrite Hd. destruct (Global c) as [g|]; [|done]. destruct (String.eqb _ _); [done|].
  intros E. apply res_bind_Ok in E as (sf & _ & E). apply res_bind_Ok in E as (_ & _ & E). destruct (_ <? 0); [done|].
  apply res_bind_Ok in E as ([disco' k] & Ek & E). apply addKentik_flag in Ek. cbn in Ek. apply res_bind_Ok in E as (_ & _ & E). apply res_bind_Ok in E as (found & _ & E).
  rewrite Ek, Ha in E. cbn [mbind res_bind] in E. destruct manager; [done|]. by injection E as <- _.
Qed.

(** With a configuration that does not ask for devices to be added, a check on the timer never gets to an answer: a
    discovery that does not fail ends the process, for its statistics are nil. *)
Theorem check_without_adding f o manager c disco b : parseConfig f = Ok c → Disco c = Some disco → AddDevices disco = false →
  check_once f o manager = Ok b → b = false ∧ ∃ e, Discover f o manager = Err e.
Proof.
  intros Hc Hd Ha. unfold Disco.check_once. destruct (Discover f o manager) as [[s d]|e|w|] eqn:E; [|intros [= <-]; by eauto|done|done].
  destruct (Discover_nothing _ _ _ _ _ _ _ Hc Hd Ha E) as [-> _]. done.
Qed.
End nothing_added.

(** ** Credentials *)
Lemma try_all_asked ask mk l md d m dev : try_all ask mk l md d = Left (Some m) (Some dev) →
  (∃ a, a ∈ l ∧ ask a = Answers m ∧ dev = mk a) ∨ l = [] ∧ md = Some m ∧ d = Some dev.
Proof.
  revert md d. induction l as [|a l IH]; intros md d; cbn [try_all]; [by intros [= -> ->]; right|]. destruct (ask a) eqn:Ha; try done.
  - intros E. left. destruct (IH _ _ E) as [(b & Hb & Hr)|(-> & [=] & _)]. exists b. split; [by right|done].
  - intros [= -> <-]. left. exists a. split; [by left|done].
Qed.

(** A device that is found has the address of its host and the credentials of a request that the host answered, and what
    it is said to be is what that answer says. *)
Theorem found_as_answered `{MibProfile.RegexpCompiler} hp profiles range_p range_m provider_of db kd disco now ask hst dev :
  doubleCheckHost hp profiles range_p range_m provider_of db kd disco now ask hst = Some dev →
  ∃ a md, a ∈ v3_attempts disco ++ v2_attempts disco ∧ ask a = Answers md ∧ DeviceIP dev = h_Host hst ∧
    OID dev = SnmpMeta.SysObjectID md ∧ Description dev = SnmpMeta.SysDescr md ∧
    match a with TryV3 c => V3 dev = Some c | TryCommunity v c => V3 dev = None ∧ Community dev = c ∧ UseV1 dev = v end.
Proof.
  unfold doubleCheckHost. destruct (Ports disco) as [|port ports]; [done|]. set (mk := probed disco now (wrapu 16 port) hst).
  destruct (probe_host ask mk disco) as [|[md|] [d|]] eqn:E; try done. intros [= <-].
  assert (∃ a, a ∈ v3_attempts disco ++ v2_attempts disco ∧ ask a = Answers md ∧ d = mk a) as (a & Ha & Hask & ->).
  { unfold probe_host in E. destruct (try_all ask mk (v3_attempts disco) None None) as [|md0 d0] eqn:E3; [done|]. destruct (unnamed md0).
    - destruct (try_all_asked _ _ _ _ _ _ _ E) as [(a & Ha & Hr)|(_ & -> & ->)]; [exists a; split; [apply elem_of_app; by right|done]|].
      destruct (try_all_asked _ _ _ _ _ _ _ E3) as [(a & Ha & Hr)|(_ & [=] & _)]. exists a. split; [apply elem_of_app; by left|done].
    - injection E as -> ->. destruct (try_all_asked _ _ _ _ _ _ _ E3) as [(a & Ha & Hr)|(_ & [=] & _)]. exists a. split; [apply elem_of_app; by left|done]. }
  exists a, md. split; [done|]. split; [done|]. do 3 (split; [done|]). destruct a; done.
Qed.

(** ** Concrete inputs *)
Definition a_device (name ip engine : string) (checked purge : Z) : SnmpDeviceConfig :=
  mkDev name ip "public" false None false 0 161 "1.3.6.1.4.1.9.1.1" "" checked "" "kentik-router" false false None 0 [] 0 0 0 engine None false false false purge.
Definition a_disco (add : bool) : SnmpDiscoConfig :=
  mkDisco ["10.0.0.0/24"%string] [] false [161] ["public"%string] false None [] add false 4 true false false false None "" "" false false.
Definition a_global (purge : Z) : SnmpGlobalConfig := mkGlobal [] purge None None "/etc/profiles".
Definition by_key (n : nat) (m : devices) : list (string * SnmpDeviceConfig) := map_to_list m.
Definition minute : Z := 60 * 10 ^ 9.
Definition day : Z := 24 * 60 * minute.

(** A device is added and one is removed: nothing is said to have changed. *)
Definition one_old : devices := {["r1__10.0.0.1" := a_device "r1" "10.0.0.1" "" 0 0]}%string.
Definition one_found : list (string * SnmpDeviceConfig) := [("10.0.0.2", a_device "r2" "10.0.0.2" "" day 0)]%string.
Definition swapped : devices * SnmpDiscoDeviceStat :=
  match update_devices day minute (a_disco true) (a_global 3) by_key one_old one_found with Ok r => r | _ => (∅, mkStat 1 1 1) end.
Lemma delta_is_added_witness : dom swapped.1 = {["r2__10.0.0.2"%string]} ∧ swapped.2 = mkStat 0 0 0 ∧ reloads swapped.2 = negb (added swapped.2 =? 0).
Proof.
  split; [vm_compute; reflexivity|]. split; [vm_compute; reflexivity|].
  assert (update_devices day minute (a_disco true) (a_global 3) by_key one_old one_found = Ok (swapped.1, swapped.2)) as E by (vm_compute; reflexivity).
  exact (proj2 (proj2 (delta_is_added (a_global 3) day minute by_key (λ n m, reflexivity _) (a_disco true) one_old one_found swapped.1 swapped.2 E))).
Defined.

Definition two_found : list (string * SnmpDeviceConfig) := [("10.0.0.2", a_device "r2" "10.0.0.2" "" day 0); ("10.0.0.1", a_device "r1" "10.0.0.1" "" day 0)]%string.
Lemma merge_any_order_witness : NoDup (flat_map own_keys two_found) ∧
  merge (a_global 0) true day one_old (rev two_found) = (list_to_map ((λ f, (target one_old f, merged (a_global 0) true day one_old f)) <$> two_found) ∪ one_old, 1, 1).
Proof.
  assert (NoDup (flat_map own_keys two_found)) as Hn by (apply (bool_decide_unpack _); vm_compute; exact I).
  split; [exact Hn|]. rewrite (merge_any_order (a_global 0) true day one_old two_found (rev two_found) Hn (symmetry (Permutation_rev two_found))). vm_compute. reflexivity.
Defined.

Definition twins : devices := {["a" := a_device "a" "10.0.0.1" "E" 0 0; "b" := a_device "b" "10.0.0.2" "E" 0 0; "c" := a_device "c" "10.0.0.3" "" 0 0]}%string.
Lemma dedup_engines_witness : size (dedup false (map_to_list twins) twins 0).1 = 2%nat ∧
  ∀ k k' d d', (dedup false (map_to_list twins) twins 0).1 !! k = Some d → (dedup false (map_to_list twins) twins 0).1 !! k' = Some d' →
    EngineID d = EngineID d' → EngineID d ≠ EmptyString → k = k'.
Proof.
  split; [vm_compute; reflexivity|]. exact (proj2 (proj2 (proj2 (dedup_engines (map_to_list twins) twins 0 (reflexivity _))))).
Defined.

Lemma purge_common_witness : ∃ a', purge day minute (map_to_list one_old) (one_old, 0, 3) = Ok (∅, a', 3).
Proof.
  destruct (purge_common day minute (map_to_list one_old) one_old 0 3 (reflexivity _)) as (a' & E).
  - intros k d Hk. unfold one_old in Hk; apply lookup_singleton_Some in Hk as [_ <-]. reflexivity.
  - lia.
  - exists a'. rewrite E. vm_compute. reflexivity.
Defined.

Definition two_hosts : list host := [mkHost "" "10.0.0.1" true; mkHost "" "10.0.0.2" true]%string.
Definition any_check (h : host) : option SnmpDeviceConfig := Some (a_device "" (h_Host h) "" 0 0).
Lemma checks_any_schedule_witness : ∃ p, host_turns two_hosts any_check [1; 1; 0; 0]%nat (start_pool 1 2 ∅) = Some p ∧ foundDevices p = check_all two_hosts any_check ∅.
Proof.
  destruct (host_turns two_hosts any_check [1; 1; 0; 0]%nat (start_pool 1 2 ∅)) as [p|] eqn:E; [|vm_compute in E; discriminate E]. exists p. split; [reflexivity|].
  assert (NoDup (h_Host <$> two_hosts)) as Hn by (apply (bool_decide_unpack _); vm_compute; exact I).
  apply (proj1 (proj2 (proj2 (checks_any_schedule two_hosts any_check ∅ 1 Hn _ p E)))). vm_compute in E. injection E as <-. repeat constructor.
Defined.

Definition some_tags : gmap string string := {["site" := "x"; "rack" := ""; "provider:device:room" := "7"; "provider:kentik-router:os" := "ios"]}%string.
Lemma clean_tags_saved_witness : ∃ c, clean_tags "device" (Some some_tags) (Some c) ∧ c !! "room"%string = Some "7"%string ∧ c !! "rack"%string = None.
Proof.
  destruct (range_total id (clean_body "device") some_tags) as (c & Hc). exists c. split; [exact Hc|].
  assert (SnmpTags.name_ok "device") as Hp by reflexivity.
  assert (SnmpTags.keys_ok some_tags) as Hm.
  { do 2 (apply map_Forall_insert_2; [by left|]). apply map_Forall_insert_2; [|apply map_Forall_singleton]; right;
    [exists "device"%string, "room"%string|exists "kentik-router"%string, "os"%string]; repeat split. }
  assert (∀ k, SnmpTags.plain k → is_Some (some_tags !! k) → some_tags !! SnmpTags.provider_key "device" k = None) as Ho.
  { intros k Hk Hs. assert (k = "site"%string ∨ k = "rack"%string) as [-> | ->]; [|vm_compute; reflexivity..].
    apply elem_of_dom in Hs. unfold some_tags in Hs. rewrite !dom_insert_L, dom_singleton_L in Hs. unfold SnmpTags.plain in Hk. set_unfold. naive_solver. }
  destruct (clean_tags_saved "device" some_tags (Some c) Hp Hm Ho Hc) as (c' & Ec & Hl). injection Ec as <-. split.
  - apply Hl. split; [reflexivity|]. split; [discriminate|]. right. vm_compute. reflexivity.
  - destruct (c !! "rack"%string) as [v|] eqn:Ev; [|reflexivity]. apply Hl in Ev as (_ & Hv & [Hs|Hs]); vm_compute in Hs; [|discriminate Hs]. injection Hs as <-. done.
Defined.

Definition plain_config (disco : SnmpDiscoConfig) : SnmpConfig := mkConf ∅ ∅ (Some disco) (Some (a_global 0)) "".
Definition check_with (search : SnmpDiscoConfig → gomap string → res (list (string * SnmpDeviceConfig))) : res bool :=
  check_once day minute by_key id (λ _, Ok tt) (λ _, Ok EmptyString) (λ _, Ok (plain_config (a_disco false))) (λ _, Ok tt) (λ _ _, Ok tt) [] (λ _, Ok tt) search "f" "" false.
(** A scan that fails is reported; one that does not ends the process. *)
Lemma check_without_adding_witness : check_with (λ _ _, Err EOF) = Ok false ∧ (∀ b, check_with (λ _ _, Err EOF) = Ok b → b = false) ∧ is_ok (check_with (λ _ _, Ok [])) = false.
Proof.
  split; [reflexivity|]. split; [|reflexivity]. intros b E.
  exact (proj1 (check_without_adding day minute by_key id (λ _, Ok tt) (λ _, Ok EmptyString) (λ _, Ok (plain_config (a_disco false))) (λ _, Ok tt) (λ _ _, Ok tt) [] (λ _, Ok tt)
    (λ _ _, Err EOF) "f" "" false (plain_config (a_disco false)) (a_disco false) b eq_refl eq_refl eq_refl E)).
Defined.

#[local] Instance no_compiler : MibProfile.RegexpCompiler := {| MibProfile.Compile s := None; MibProfile.MatchString r s := false |}.
Definition router_md : SnmpMeta.DeviceMetricsMetadata := SnmpMeta.mkMD "r1" ".1.3.6.1.4.1.9.1.1" "Cisco router" "" "" 0 "" ∅ ∅ ∅.
Definition asked (a : attempt) : answer := match a with TryCommunity _ "public" => Answers router_md | _ => NoMetadata end.
Definition checked_router : option SnmpDeviceConfig := doubleCheckHost ∅ ∅ [] (λ _, []) (λ _, EmptyString) None None (a_disco true) day asked (mkHost "" "10.0.0.9" true).
Lemma found_as_answered_witness : ∃ dev a md, checked_router = Some dev ∧ asked a = Answers md ∧ DeviceIP dev = "10.0.0.9"%string ∧ Provider dev = "kentik-router"%string ∧ DeviceName dev = "r1"%string.
Proof.
  destruct checked_router as [dev|] eqn:E; [|vm_compute in E; discriminate E].
  destruct (found_as_answered ∅ ∅ [] (λ _, []) (λ _, EmptyString) None None (a_disco true) day asked (mkHost "" "10.0.0.9" true) dev E) as (a & md & _ & Ha & Hip & _).
  exists dev, a, md. split; [reflexivity|]. split; [exact Ha|]. split; [exact Hip|]. vm_compute in E. injection E as <-. split; reflexivity.
Defined.

(** A device's own limit is that of the devices after it: which are purged depends on the order. *)
Definition limits : devices := {["keep" := a_device "keep" "10.0.0.1" "" 0 (-1); "old" := a_device "old" "10.0.0.2" "" 0 0]}%string.
Example purge_order : match purge day minute [("keep", a_device "keep" "10.0.0.1" "" 0 (-1)); ("old", a_device "old" "10.0.0.2" "" 0 0)]%string (limits, 0, 3),
    purge day minute [("old", a_device "old" "10.0.0.2" "" 0 0); ("keep", a_device "keep" "10.0.0.1" "" 0 (-1))]%string (limits, 0, 3) with
  | Ok (a, _, _), Ok (b, _, _) => (size a, size b) | _, _ => (0, 0)%nat end = (2, 1)%nat.
Proof. vm_compute. reflexivity. Qed.

(** A host that answers with version 3 but has no object id is lost when no community is answered. *)
Definition v3_only (a : attempt) : answer := match a with TryV3 _ => Answers SnmpMeta.new_md | _ => NoMetadata end.
Definition v3_disco : SnmpDiscoConfig := mkDisco [] [] false [161] ["public"%string] false (Some (mkV3 "u" "p")) [] true false 4 false false false false None "" "" false false.
Example v3_lost : probe_host v3_only (probed v3_disco 0 161 (mkHost "" "10.0.0.9" true)) v3_disco = Left None (Some (probed v3_disco 0 161 (mkHost "" "10.0.0.9" true) (TryCommunity false "public"))).
Proof. vm_compute. reflexivity. Qed.

(** With devices in a file of their own the manager is told of none. *)
Definition filed : SnmpConfig := mkConf ∅ ∅ (Some (a_disco true)) (Some (a_global 0)) "devices.yaml".
Example manager_told_none : Discover day minute by_key id (λ _, Ok tt) (λ _, Ok EmptyString) (λ _, Ok filed) (λ _, Ok tt) (λ _ _, Ok tt) [] (λ _, Ok tt) (λ _ _, Ok one_found) "f" "" true
  = Ok (Some (mkStat 1 0 (-1)), Some ∅).
Proof. vm_compute. reflexivity. Qed.

(** A device of the portal without a site, where sites are asked for, ends the process. *)
Example no_site : kentik_wants (mkKMatch [] [] ["ams"%string]) (mkKDevice 1 "10.0.0.1" "" None [] None) = Panic "invalid memory address or nil pointer dereference".
Proof. reflexivity. Qed.
