(* ===== verification/Records.v ===== *)
(** Formats that send records as they are (src/pkg/formats/json, splunk, elasticsearch, parquet, avro and
    snmp): what is left out of a flattened record and what is added, the lines of a bulk message and how they
    are read back, rows read in groups, and the object identifiers of a trap.

    The encoders of libraries, gzip and the readers of files are parameters; the order of a range is that of
    an argument, and the loop that adds to the map that it ranges over is a run of [GoMap.range]. *)
From Stdlib Require Import Floats.SpecFloat.
From S2P Require Import Prelude GoStrings GoMap Jchf.
From S2P Require FormatsUtil.
From S2P Require FlowToJCHF.
From S2P Require Rollup.
From S2P Require Enrich.
From S2P Require VpcLogs.
From S2P Require Nrm.
Local Open Scope Z_scope.

(** ** Records *)
(** A value of a record that goes out: of the flattened flow, or of a rollup or a trace. *)
Inductive value := Av (v : avro) | Uint (z : Z) | Int (z : Z) | Float (x : spec_float) | Trace (l : list Enrich.json).
Abbreviation record := (gmap string value).
Abbreviation flat := (gmap string avro).

(** Flattening a message gives its own map, which what follows changes. *)
Definition flatten_with (visit : list string) (change : flat → res flat) (j : JCHF) : res (JCHF * flat) :=
  '(j, m) ← Flatten visit j; m ← change m; Ok (j <| avroSet := Some m |>, m).

Definition blank (v : avro) : bool :=
  match v with
  | AString tv => String.eqb tv "" || String.eqb tv "-" || String.eqb tv "--"
  | AInt32 tv | AInt64 tv => tv =? 0
  | _ => false
  end.

(** *** Time as RFC 3339 writes it, [zone] seconds east of UTC
    Days are those of the proleptic Gregorian calendar, in eras of 400 years from March of the year 0. *)
Definition civil (days : Z) : Z * Z * Z :=
  let z := days + 719468 in
  let era := z / 146097 in
  let doe := z mod 146097 in
  let yoe := (doe - doe / 1460 + doe / 36524 - doe / 146096) / 365 in
  let doy := doe - (365 * yoe + yoe / 4 - yoe / 100) in
  let mp := (5 * doy + 2) / 153 in
  let d := doy - (153 * mp + 2) / 5 + 1 in
  let m := if mp <? 10 then mp + 3 else mp - 9 in
  (yoe + era * 400 + (if m <=? 2 then 1 else 0), m, d).
Definition two (z : Z) : string := String (digit_char (z / 10)) (String (digit_char (z mod 10)) EmptyString).
Fixpoint padded (n : nat) (s : string) : string := if (String.length s <? n)%nat then match n with S k => if (String.length s <=? k)%nat then String.append "0" (padded k s) else s | O => s end else s.
Definition year_text (y : Z) : string := if y <? 0 then String.append "-" (padded 4 (Itoa (- y))) else padded 4 (Itoa y).
Definition zone_text (zone : Z) : string :=
  let m := Z.quot zone 60 in
  if zone =? 0 then "Z" else String.append (if m <? 0 then "-" else "+") (String.append (two (Z.abs m / 60)) (String.append ":" (two (Z.abs m mod 60)))).
Definition RFC3339 (zone : Z → Z) (sec : Z) : string :=
  let t := sec + zone sec in
  let '(y, m, d) := civil (t / 86400) in
  let s := t mod 86400 in
  Join [Join [year_text y; two m; two d] "-"; String.append (Join [two (s / 3600); two (s / 60 mod 60); two (s mod 60)] ":") (zone_text (zone sec))] "T".

Example rfc_day : RFC3339 (λ _, 0) 1709210096 = "2024-02-29T12:34:56Z"%string.
Proof. vm_compute. reflexivity. Qed.
Example rfc_before : RFC3339 (λ _, 3600 * -5) (-1) = "1969-12-31T18:59:59-05:00"%string.
Proof. vm_compute. reflexivity. Qed.

(** ** Compression *)
Definition CompressionNone : string := "none".
Definition CompressionGzip : string := "gzip".
Definition CompressionSnappy : string := "snappy".
(** Whether gzip is used; [what] is the format of the message. *)
Definition gz_of (what compression : string) : res bool :=
  if String.eqb compression CompressionNone then Ok false
  else if String.eqb compression CompressionGzip then Ok true
  else Err (Errorf what [FStr compression]).
Definition json_error : string := "Invalid compression (%s): format json only supports none|gzip".
Definition splunk_error : string := "Invalid compression (%s): format splunk only supports none|gzip".

(** ** JSON (json.go) *)
Definition InstNameNetflowEvent : string := "netflow-events".
Definition InstNameVPCEvent : string := "vpc-flow-events".
Definition InstNameAWSVPCEvent : string := "aws-vpc-flow-events".
Definition InstNameHttpEvent : string := "http-events".
Definition ProviderHttpDevice : Provider_ := "kentik-http".
Definition json_strip (m : flat) : flat :=
  let m := filter (λ kv, blank kv.2 || FormatsUtil.dropped_attr kv.1 = false) m in
  let m := <["instrumentation.provider" := AString Nrm.InstProvider]> m in
  let name := match m !! "provider"%string with
    | Some (AProvider p) =>
        if String.eqb p FlowToJCHF.ProviderVPC then
          match m !! "kt.from"%string with Some (AString f) => if String.eqb f VpcLogs.FromLambda then InstNameAWSVPCEvent else InstNameVPCEvent | _ => InstNameVPCEvent end
        else if String.eqb p ProviderHttpDevice then InstNameHttpEvent else InstNameNetflowEvent
    | _ => InstNameNetflowEvent
    end in
  <["collector.name" := AString Nrm.CollectorName]> (<["instrumentation.name" := AString name]> m).

(** What is encoded, and what reading it back gives: the elements so far and the error, if any. *)
Record SplunkMetric := mkSplunk { sp_Host : string; SourceType : string; sp_Timestamp : Z; Event : record }.
Inductive document := DFlows (l : list JCHF) | DMaps (l : list flat) | DRolls (l : list Rollup.Roll) | DRoll (r : Rollup.Roll) | DMap (m : record) | DSplunk (m : SplunkMetric).
Class RecordEnv := {
  Marshal : document → res (list byte);
  Unmarshal_flows : list byte → list (option JCHF) * option error;
  Unmarshal_flow : list byte → res (option JCHF);
  Unmarshal_array : string → option (list Enrich.json);
  gzip : list byte → res (list byte);
  reader : Type;
  gunzip : list byte → res reader;
  Decode_flows : reader → list (option JCHF) * option error;
  read_lines : reader → list byte * option error;
  zone : Z → Z }.

Section json.
Context `{RecordEnv}.
Definition packed (gz : bool) (t : list byte) : res (list byte) := if gz then gzip t else Ok t.
Definition first_provider {A} (provider : A → Provider_) (l : list A) : res Provider_ :=
  match l with [] => Panic "index out of range" | a :: _ => Ok (provider a) end.

(** Messages with their flattened maps, in the order in which each is ranged over; the messages keep the maps. *)
Fixpoint flatten_all (keep : JCHF → bool) (strip : flat → res flat) (l : list (list string * JCHF)) : res (list JCHF * list flat) :=
  match l with
  | [] => Ok ([], [])
  | (visit, j) :: l =>
      if keep j then
        '(j, m) ← flatten_with visit strip j;
        '(js, ms) ← flatten_all keep strip l;
        Ok (j :: js, m :: ms)
      else '(js, ms) ← flatten_all keep strip l; Ok (j :: js, ms)
  end.
Definition not_snmp (j : JCHF) : bool := negb (String.eqb (EventType j) FlowToJCHF.KENTIK_EVENT_SNMP).
Definition json_To (doGz doFlatten : bool) (l : list (list string * JCHF)) : res (list JCHF * Output) :=
  '(js, doc) ← (if doFlatten then '(js, ms) ← flatten_all not_snmp (λ m, Ok (json_strip m)) l; Ok (js, DMaps ms) else Ok (l.*2, DFlows l.*2));
  t ← Marshal doc;
  t ← packed doGz t;
  p ← first_provider Provider l.*2;
  Ok (js, NewOutputWithProvider t p EventOutput).
Definition values_of (l : list (option JCHF)) : res (list flat) :=
  res_mapM (λ j, match j with Some j => '(_, m) ← ToMap (SetMap j); Ok m | None => Panic "invalid memory address or nil pointer dereference" end) l.
(** What the decoder of compressed messages says is lost: its error is another variable. *)
Definition json_From (doGz : bool) (body : list byte) : res (list flat) :=
  if doGz then r ← gunzip body; values_of (Decode_flows r).1
  else let '(l, e) := Unmarshal_flows body in match e with Some e => Err e | None => values_of l end.
(** Without compression the output comes with the error, and is not to be used. *)
Definition json_Rollup (doGz : bool) (rolls : list Rollup.Roll) : res Output :=
  if doGz then t ← Marshal (DRolls rolls); t ← gzip t; p ← first_provider Rollup.ro_Provider rolls; Ok (NewOutputWithProvider t p RollupOutput)
  else
    p ← first_provider Rollup.ro_Provider rolls;
    t ← Marshal (DRolls rolls);
    Ok (NewOutputWithProvider t p RollupOutput).
End json.

(** ** Splunk (splunk.go) *)
Section splunk.
Context `{RecordEnv}.
(** The loop changes the map at the key that it visits only. *)
Definition splunk_value (k : string) (v : avro) : option avro :=
  match v with
  | AString tv => if String.eqb tv "" then None else Some v
  | AInt32 tv => if tv =? 0 then None else Some v
  | AInt64 tv => if tv =? 0 then None else if String.eqb k "timestamp" then Some (AString (RFC3339 zone tv)) else Some v
  | _ => Some v
  end.
Definition splunk_strip (m : flat) : flat := map_imap splunk_value m.
Definition host_of (j : JCHF) : string := if String.eqb (DeviceName j) "" then Itoa (wraps 64 (DeviceId j)) else DeviceName j.
Definition toSplunkMetric (ts : Z) (visit : list string) (j : JCHF) : res (JCHF * SplunkMetric) :=
  '(j', m) ← flatten_with visit (λ m, Ok (splunk_strip m)) j;
  Ok (j', mkSplunk (host_of j) (Provider j) ts (Av <$> m)).
Fixpoint toSplunkMetrics (ts : Z) (l : list (list string * JCHF)) : res (list JCHF * list SplunkMetric) :=
  match l with
  | [] => Ok ([], [])
  | (visit, j) :: l => '(j, m) ← toSplunkMetric ts visit j; '(js, ms) ← toSplunkMetrics ts l; Ok (j :: js, m :: ms)
  end.
Definition newline : byte := Byte.x0a.
(** Each on a line of its own. *)
Fixpoint lines_of (docs : list document) : res (list byte) :=
  match docs with [] => Ok [] | d :: docs => t ← Marshal d; r ← lines_of docs; Ok (t ++ newline :: r) end.
Definition splunk_text (doGz : bool) (ms : list SplunkMetric) : res (option Output) :=
  match ms with
  | [] => Ok None
  | _ => t ← lines_of (DSplunk <$> ms); t ← packed doGz t; Ok (Some (NewOutput t))
  end.
Definition splunk_To (doGz : bool) (now : Z) (l : list (list string * JCHF)) : res (list JCHF * option Output) :=
  '(js, ms) ← toSplunkMetrics now l; o ← splunk_text doGz ms; Ok (js, o).

(** Rollups come with their intervals, in nanoseconds; [set] keeps a part under its dimension. *)
Section rolls.
Context {A : Type} (set : string → string → A → A).
Fixpoint roll_parts (dims pts : list string) (attr : A) (host : string) (bad : bool) : res (A * string * bool) :=
  match pts, dims with
  | [], _ => Ok (attr, host, bad)
  | _ :: _, [] => Panic "index out of range"
  | pt :: pts, d :: dims =>
      roll_parts dims pts (set d pt attr) (if String.eqb d "device_name" then pt else host) (bad || String.eqb pt "0" || String.eqb pt "")
  end.
End rolls.
Definition ProviderRouter : Provider_ := "kentik-router".
Context (to_uint64 to_int64 : spec_float → Z).
Definition roll_record (r : Rollup.Roll) (interval : Z) : record :=
  {[ "count" := Uint (Rollup.ro_Count r); "sum" := Uint (to_uint64 (Rollup.ro_Metric r)); "min" := Uint (Rollup.ro_Min r); "max" := Uint (Rollup.ro_Max r);
     "interval" := Int (Z.quot interval 1000); "name" := Av (AString (String.append "kentik.rollup." (Rollup.ro_Name r))) ]}%string.
Fixpoint toSplunkMetricRollup (ts : Z) (l : list (Rollup.Roll * Z)) : res (list SplunkMetric) :=
  match l with
  | [] => Ok []
  | (r, interval) :: l =>
      '(attr, host, bad) ← roll_parts (λ d pt (m : record), <[d := Av (AString pt)]> m) (Rollup.ro_dims r) (Split (Rollup.ro_Dimension r) (Rollup.ro_KeyJoin r)) (roll_record r interval) EmptyString false;
      ms ← toSplunkMetricRollup ts l;
      Ok (if (bad : bool) then ms else mkSplunk host ProviderRouter ts attr :: ms)
  end.
Definition splunk_Rollup (doGz : bool) (now : Z) (l : list (Rollup.Roll * Z)) : res (option Output) :=
  ms ← toSplunkMetricRollup now l; splunk_text doGz ms.

(** ** Parquet (parquet.go): texts and numbers apart *)
Record ParquetMetric := mkParquet { pq_Host : string; pq_SourceType : string; pq_Timestamp : Z; Strings : gmap string string; Ints : gmap string Z }.
Definition parquet_strs (m : flat) : gmap string string :=
  map_imap (λ k v, match v with
    | AString tv => if String.eqb tv "" then None else Some tv
    | AInt64 tv => if String.eqb k "timestamp" then Some (RFC3339 zone tv) else None
    | _ => None
    end) m.
Definition parquet_ints (m : flat) : gmap string Z :=
  map_imap (λ k v, match v with
    | AInt32 tv => if tv =? 0 then None else Some tv
    | AInt64 tv => if String.eqb k "timestamp" then None else if tv =? 0 then None else Some tv
    | _ => None
    end) m.
Definition toParquetMetric (ts : Z) (visit : list string) (j : JCHF) : res (JCHF * ParquetMetric) :=
  '(j', m) ← Flatten visit j; Ok (j', mkParquet (host_of j) (Provider j) ts (parquet_strs m) (parquet_ints m)).
Fixpoint toParquetMetricRollup (ts : Z) (l : list (Rollup.Roll * Z)) : res (list ParquetMetric) :=
  match l with
  | [] => Ok []
  | (r, interval) :: l =>
      '(strs, host, bad) ← roll_parts (λ d pt (m : gmap string string), <[d := pt]> m) (Rollup.ro_dims r) (Split (Rollup.ro_Dimension r) (Rollup.ro_KeyJoin r))
        {["name" := String.append "kentik.rollup." (Rollup.ro_Name r)]}%string EmptyString false;
      ms ← toParquetMetricRollup ts l;
      let ints := {["count" := wraps 64 (Rollup.ro_Count r); "sum" := to_int64 (Rollup.ro_Metric r); "min" := wraps 64 (Rollup.ro_Min r); "max" := wraps 64 (Rollup.ro_Max r);
        "interval" := Z.quot interval 1000]}%string in
      Ok (if (bad : bool) then ms else mkParquet host ProviderRouter ts strs ints :: ms)
  end.
(** [file]: what the library writes; a row that it refuses is left out. *)
Context (File : Type) (write_rows : string → list ParquetMetric → res File) (file_body : File → list byte).
Definition parquet_text (compression : string) (ms : list ParquetMetric) : res (option Output) :=
  match ms with [] => Ok None | _ => f ← write_rows compression ms; Ok (Some (NewOutputNoBuffer (file_body f))) end.
Fixpoint toParquetMetrics (ts : Z) (l : list (list string * JCHF)) : res (list JCHF * list ParquetMetric) :=
  match l with
  | [] => Ok ([], [])
  | (visit, j) :: l => '(j, m) ← toParquetMetric ts visit j; '(js, ms) ← toParquetMetrics ts l; Ok (j :: js, m :: ms)
  end.
Definition parquet_To (compression : string) (now : Z) (l : list (list string * JCHF)) : res (list JCHF * option Output) :=
  '(js, ms) ← toParquetMetrics now l; o ← parquet_text compression ms; Ok (js, o).
Definition parquet_Rollup (compression : string) (now : Z) (l : list (Rollup.Roll * Z)) : res (option Output) :=
  ms ← toParquetMetricRollup now l; parquet_text compression ms.

(** *** Reading rows back
    [open]: the number of rows and what the reader's calls give, one after the other: asked for some rows it gives
    those rows or an error. *)
Definition row_values (m : ParquetMetric) : record :=
  ((λ v, Int v) <$> Ints m) ∪ (((λ v, Av (AString v)) <$> Strings m) ∪
    {["host" := Av (AString (pq_Host m)); "sourcetype" := Av (AString (pq_SourceType m)); "timestamp" := Int (pq_Timestamp m)]}%string).
Context (Reader : Type) (open : list byte → res (Z * Reader)) (Read : Reader → nat → option (list ParquetMetric) * Reader).
(** [n] calls for [size] rows each. *)
Fixpoint read_groups (n size : nat) (st : Reader * Z * list record) : Reader * Z * list record :=
  match n with
  | O => st
  | S n =>
      let '(r, read, values) := st in
      let '(ms, r) := Read r size in
      read_groups n size (match ms with Some ms => (r, read + Z.of_nat (length ms), values ++ (row_values <$> ms)) | None => (r, read, values) end)
  end.
Definition parquet_From (body : list byte) : res (list record) :=
  '(num, r) ← open body;
  let '(r, read, values) := read_groups (Z.to_nat (Z.quot num 10)) 10 (r, 0, []) in
  Ok (read_groups (Z.to_nat (num - read)) 1 (r, 0, values)).2.
End splunk.

(** ** Elasticsearch (elasticsearch.go) *)
Definition elastic_dropped : list string :=
  ["sampled_packet_size"; "lat/long_dest"; "member_id"; "dst_eth_mac"; "src_eth_mac"; "ult_exit_port"; "app_protocol";
   "dst_route_prefix"; "src_route_prefix"; "trf_termination"; "simple_trf_prof"]%string.
Definition elastic_kept : list string := ["lost"; "sent"; "src_geo_city"; "src_geo_region"; "dst_geo_city"; "dst_geo_region"]%string.
Definition one_of (k : string) (l : list string) : bool := existsb (String.eqb k) l.
Definition DoubleQuote : string := String (ascii_of_nat 34) EmptyString.
(** [{"index":{}}] *)
Definition actionEntry (action : string) : string :=
  String.append "{" (String.append DoubleQuote (String.append action (String.append DoubleQuote ":{}}"))).
Definition bytes_of (s : string) : list byte := String.list_byte_of_string s.

Section elastic.
Context `{RecordEnv}.
Definition blank_value (v : value) : bool := match v with Av v => blank v | _ => false end.
(** The loop adds [timestamp_str] to the map that it ranges over. *)
Definition elastic_body (k : string) (v : value) (m : record) : record :=
  if one_of k elastic_dropped then delete k m
  else if one_of k elastic_kept then m
  else if String.eqb k "timestamp" then
    match v with Av (AInt64 ts) => <["timestamp_str"%string := Av (AString (RFC3339 zone ts))]> m | _ => m end
  else if blank_value v then delete k m else m.
Definition elastic_marks (m : record) : record :=
  <["collector.name" := Av (AString Nrm.CollectorName)]> (<["instrumentation.provider" := Av (AString Nrm.InstProvider)]> m).
Definition elastic_strip (m m' : record) : Prop := ∃ m1, range id elastic_body m m1 ∧ m' = elastic_marks m1.

(** [handleSynth]: metrics get better names, in the order of a range over their table. *)
Definition rename_one (m : record) (kn : string * MetricInfo) : record :=
  match m !! kn.1 with Some v => delete kn.1 (<[MI_Name kn.2 := v]> m) | None => m end.
Definition trace_route (m : record) : res record :=
  match m !! "error_cause/trace_route"%string with
  | None => Ok m
  | Some (Av (AString raw)) =>
      Ok match Unmarshal_array raw with
      | Some l => delete "error_cause/trace_route"%string (<["trace_route"%string := Trace l]> m)
      | None => m
      end
  | Some _ => Panic "interface conversion: interface {} is not string"
  end.
Definition synth_metrics (j : JCHF) : gmap string MetricInfo :=
  map_range (FormatsUtil.GetSynMetricNameSet (map_get 0 (CustomInt j) "result_type")).
Definition handleSynth (names : list (string * MetricInfo)) (m : record) : res record := trace_route (foldl rename_one m names).

(** What a message becomes: the orders of the two ranges and the result of a third. *)
Definition elastic_record (visit : list string) (names : list (string * MetricInfo)) (j : JCHF) (r : record) : Prop :=
  ∃ j' m, Flatten visit j = Ok (j', m) ∧
    if String.eqb (EventType j) FlowToJCHF.KENTIK_EVENT_SYNTH || String.eqb (EventType j) FlowToJCHF.KENTIK_EVENT_TRACE then
      ∃ m1, handleSynth names (Av <$> m) = Ok m1 ∧ elastic_strip m1 r
    else elastic_strip (Av <$> m) r.

(** *** Lines *)
Definition serialize (action : list byte) (d : document) : res (list byte) :=
  t ← Marshal d; Ok (action ++ newline :: t ++ [newline]).
Fixpoint bulk (action : list byte) (l : list document) : res (list byte) :=
  match l with [] => Ok [] | d :: l => t ← serialize action d; r ← bulk action l; Ok (t ++ r) end.
Definition elastic_To (useGzip : bool) (action : list byte) (msgs : list JCHF) (records : list record) : res Output :=
  t ← bulk action (DMap <$> records); t ← packed useGzip t; p ← first_provider Provider msgs; Ok (NewOutputWithProvider t p EventOutput).
Definition elastic_Rollup (action : list byte) (rolls : list Rollup.Roll) : res Output :=
  t ← bulk action (DRoll <$> rolls); p ← first_provider Rollup.ro_Provider rolls; Ok (NewOutputWithProvider t p RollupOutput).

(** [bufio.Scanner] with lines: what comes before each newline, less a carriage return at its end, and what is left
    at the end of the input; a line of [MaxScanTokenSize] bytes or more ends it. [rline]: the line so far, from its end. *)
Definition MaxScanTokenSize : nat := 65536.
Fixpoint drop_cr (l : list byte) : list byte :=
  match l with [] => [] | [Byte.x0d] => [] | b :: l => b :: drop_cr l end.
Definition fits (l : list byte) : bool := Z.of_nat (length l) <? Z.of_nat MaxScanTokenSize.
Fixpoint scan (input rline : list byte) : list (list byte) :=
  match input with
  | [] => match rline with [] => [] | _ => if fits rline then [drop_cr (reverse rline)] else [] end
  | b :: input =>
      if bool_decide (b = newline) then if fits rline then drop_cr (reverse rline) :: scan input [] else []
      else scan input (b :: rline)
  end.
Fixpoint parse_lines (action : list byte) (lines : list (list byte)) : res (list (option JCHF)) :=
  match lines with
  | [] => Ok []
  | l :: lines =>
      if bool_decide (l = action) then parse_lines action lines
      else j ← Unmarshal_flow l; r ← parse_lines action lines; Ok (j :: r)
  end.
(** What the scanner says at its end is not looked at. *)
Definition elastic_From (useGzip : bool) (action body : list byte) : res (list flat) :=
  t ← (if useGzip then r ← gunzip body; Ok (read_lines r).1 else Ok body);
  l ← parse_lines action (scan t []);
  values_of l.
End elastic.

(** ** Avro (avro.go): maps through a codec *)
Section avro.
Context (snappy deflate null_ : string) (Codec : Type) (chf roll : Codec) (write_ocf : string → Codec → list flat → res (list byte))
  (read_ocf : list byte → res (list flat * option error)).
(** The name of the compression, which is empty when none is asked for. *)
Definition compName (comp : string) : res string :=
  if String.eqb comp snappy then Ok snappy
  else if String.eqb comp deflate then Ok deflate
  else if String.eqb comp null_ then Ok null_
  else if String.eqb comp "none" then Ok EmptyString
  else Err (Errorf "Invalid compression option: %s" [FStr comp]).
Fixpoint to_maps (l : list JCHF) : res (list JCHF * list flat) :=
  match l with [] => Ok ([], []) | j :: l => '(j, m) ← ToMap j; '(js, ms) ← to_maps l; Ok (j :: js, m :: ms) end.
Definition avro_To (comp : string) (msgs : list JCHF) : res (list JCHF * Output) :=
  '(js, ms) ← to_maps msgs; t ← write_ocf comp chf ms; Ok (js, NewOutput t).
Definition avro_From (body : list byte) : res (list flat) :=
  '(l, e) ← read_ocf body; match e with Some e => Err e | None => Ok l end.
End avro.

(** ** SNMP traps (snmp.go) *)
Definition snmpTrapOID_0 : string := ".1.3.6.1.6.3.1.1.4.1.0".
Definition KTransTrapIdent : string := ".1.3.6.1.4.1.41263.6169".
Definition snmp_strip (m : flat) : flat :=
  <["collector.name" := AString Nrm.CollectorName]> (<["instrumentation.provider" := AString Nrm.InstProvider]> (filter (λ kv, blank kv.2 = false) m)).
(** FNV-1a of 32 bits. *)
Definition fnv1a (l : list byte) : Z := foldl (λ h b, wrapu 32 (Z.lxor h (b2z b) * 16777619)) 2166136261 l.
(** A dot goes before each group of three digits that others come before. *)
Fixpoint dotted (rev_digits : list ascii) (k : nat) (out : string) : string :=
  match rev_digits with
  | [] => out
  | [c] => String c out
  | c :: l => if (S k =? 3)%nat then dotted l 0 (String "." (String c out)) else dotted l (S k) (String c out)
  end.
Definition formatKeyOid (n : Z) : string := dotted (rev (String.list_ascii_of_string (Itoa n))) 0 EmptyString.
Definition getKeyOid (s : string) : string := String.append KTransTrapIdent (String.append "." (formatKeyOid (fnv1a (bytes_of s)))).
Inductive pdu_value := OctetString (s : string) | Gauge32 (z : Z) | Counter64 (z : Z) | ObjectIdentifier (s : string).
Definition SnmpPDU : Type := string * pdu_value.
Definition variable_of (kv : string * avro) : option SnmpPDU :=
  match kv.2 with
  | AString tv => Some (getKeyOid kv.1, OctetString tv)
  | AInt32 tv => Some (getKeyOid kv.1, Gauge32 (wrapu 32 tv))
  | AInt64 tv => Some (getKeyOid kv.1, Counter64 (wrapu 64 tv))
  | _ => None
  end.
(** [order]: the range over the stripped map. *)
Definition trap_of (order : list (string * avro)) : list SnmpPDU := (snmpTrapOID_0, ObjectIdentifier KTransTrapIdent) :: omap variable_of order.
Fixpoint snmp_To (order : flat → list (string * avro)) (l : list (list string * JCHF)) : res (list JCHF * list (list SnmpPDU)) :=
  match l with
  | [] => Ok ([], [])
  | (visit, j) :: l =>
      '(j, m) ← flatten_with visit (λ m, Ok (snmp_strip m)) j;
      '(js, traps) ← snmp_To order l;
      Ok (j :: js, trap_of (order m) :: traps)
  end.
Example oid_groups : formatKeyOid 1234567 = "1.234.567"%string ∧ formatKeyOid 100 = "100"%string ∧ formatKeyOid 4000000007 = "4.000.000.007"%string.
Proof. vm_compute. done. Qed.
Example fnv_empty : fnv1a [] = 2166136261 ∧ fnv1a (bytes_of "a") = 3826002220.
Proof. vm_compute. done. Qed.

(** ** What is left of a record for Elasticsearch *)
Section elastic_laws.
Context `{RecordEnv}.
Lemma RFC3339_long z t : (2 < String.length (RFC3339 z t))%nat.
Proof.
  unfold RFC3339. destruct (civil _) as [[y m] d]. rewrite Join_cons, length_append. cbn [Join]. rewrite !length_append. cbn. lia.
Qed.
Lemma RFC3339_text z t : blank (AString (RFC3339 z t)) = false.
Proof.
  pose proof (RFC3339_long z t) as Hl. cbn [blank]. destruct (RFC3339 z t) as [|a [|b [|c s]]] eqn:E; cbn in Hl; try lia.
  rewrite !orb_false_iff, !String.eqb_neq. done.
Qed.

Definition elastic_stays (k : string) (v : value) : bool :=
  negb (one_of k elastic_dropped) && (one_of k elastic_kept || String.eqb k "timestamp" || negb (blank_value v)).
Definition stamp (m : record) : option value :=
  match m !! "timestamp"%string with Some (Av (AInt64 ts)) => Some (Av (AString (RFC3339 zone ts))) | _ => None end.
(** What stays, and the time as a text. *)
Definition elastic_clean (m : record) : record :=
  let m' := filter (λ kv, elastic_stays kv.1 kv.2 = true) m in
  match stamp m with Some t => <["timestamp_str"%string := t]> m' | None => m' end.

Context (m0 : record).
Abbreviation tss := "timestamp_str"%string.
Abbreviation kept k := (v ← m0 !! k; if elastic_stays k v then Some v else None).
Record elastic_inv (must seen : gset string) (m : record) : Prop := {
  ei_dom : must ⊆ dom m;
  ei_owed k : k ≠ tss → k ∈ must → m !! k = m0 !! k;
  ei_done k : k ≠ tss → k ∉ must → m !! k = kept k;
  ei_stamp : match stamp m0 with
    | None => m !! tss = if bool_decide (tss ∈ must) then m0 !! tss else kept tss
    | Some t => if bool_decide ("timestamp"%string ∈ must) then m !! tss = None ∨ m !! tss = m0 !! tss else m !! tss = Some t
    end }.

Lemma elastic_start : elastic_inv (dom m0) ∅ m0.
Proof.
  split; [done|done| |].
  - intros k _ Hk. apply not_elem_of_dom in Hk. by rewrite Hk.
  - unfold stamp. destruct (m0 !! "timestamp"%string) as [v|] eqn:Ht.
    + assert (bool_decide ("timestamp"%string ∈ dom m0) = true) as -> by (apply bool_decide_eq_true; by apply elem_of_dom_2 in Ht).
      assert (m0 !! tss = if bool_decide (tss ∈ dom m0) then m0 !! tss else kept tss) as Hs.
      { case_bool_decide as Hd; [done|]. apply not_elem_of_dom in Hd. by rewrite Hd. }
      destruct v as [[]| | | |]; try exact Hs. by right.
    + case_bool_decide as Hd; [done|]. apply not_elem_of_dom in Hd. by rewrite Hd.
Qed.

(** One round at a key: what becomes of that key, and of the rest. *)
Lemma elastic_body_at k v m : m !! k = Some v → elastic_body k v m !! k = if elastic_stays k v then Some v else None.
Proof.
  intros Hk. unfold elastic_body, elastic_stays. destruct (one_of k elastic_dropped); [by rewrite lookup_delete_eq|]. cbn [negb andb].
  destruct (one_of k elastic_kept); [done|]. cbn [orb]. destruct (String.eqb_spec k "timestamp") as [->|Hne]; cbn [orb].
  - destruct v as [[]| | | |]; try done. by rewrite lookup_insert_ne.
  - destruct (blank_value v); [by rewrite lookup_delete_eq|done].
Qed.
Lemma elastic_body_ne k v m k' : k' ≠ k → k' ≠ tss → elastic_body k v m !! k' = m !! k'.
Proof.
  intros Hk Ht. unfold elastic_body. repeat case_match; try done; first [by rewrite lookup_delete_ne by done|by rewrite lookup_insert_ne by done].
Qed.
Lemma elastic_body_stamp k v m : k ≠ tss → elastic_body k v m !! tss =
  if String.eqb k "timestamp" then match v with Av (AInt64 ts) => Some (Av (AString (RFC3339 zone ts))) | _ => m !! tss end else m !! tss.
Proof.
  intros Hk. unfold elastic_body. destruct (String.eqb_spec k "timestamp") as [->|Hne].
  - change (one_of "timestamp" elastic_dropped) with false. change (one_of "timestamp" elastic_kept) with false.
    destruct v as [[]| | | |]; try done. by rewrite lookup_insert_eq.
  - repeat case_match; try done; by rewrite lookup_delete_ne by done.
Qed.
Lemma kept_stays k v : kept k = Some v → elastic_stays k v = true.
Proof. destruct (m0 !! k) as [w|]; cbn; [|done]. destruct (elastic_stays k w) eqn:E; [by intros [= <-]|done]. Qed.
Lemma kept_step k v : kept k = Some v → (if elastic_stays k v then Some v else None) = kept k.
Proof. intros Hk. by rewrite (kept_stays _ _ Hk), Hk. Qed.

Lemma elastic_step must seen m k v : elastic_inv must seen m → m !! k = Some v →
  elastic_inv ((must ∖ {[k]}) ∩ dom (elastic_body k v m)) ((seen ∪ {[k]}) ∩ dom (elastic_body k v m)) (elastic_body k v m).
Proof.
  intros [Hd Ho Hn Hs] Hk. set (m' := elastic_body k v m). set (must' := (must ∖ {[k]}) ∩ dom m').
  assert (∀ k', k' ≠ tss → k' ∈ must' ↔ k' ∈ must ∧ k' ≠ k) as Hm'.
  { intros k' Ht. split; [subst must'; set_solver|]. intros [Hin Hne]. assert (k' ∈ dom m') by (apply elem_of_dom; subst m'; rewrite elastic_body_ne by done; by apply elem_of_dom, Hd). subst must'. set_solver. }
  split.
  - subst must'. set_solver.
  - intros k' Ht [Hin Hne]%Hm'; [|done]. subst m'. rewrite elastic_body_ne by done. by apply Ho.
  - intros k' Ht Hni. rewrite Hm' in Hni by done. destruct (decide (k' = k)) as [->|Hne]; subst m'.
    + rewrite (elastic_body_at _ _ _ Hk). destruct (decide (k ∈ must)) as [Hin|Hout].
      * rewrite <-(Ho k Ht Hin), Hk. done.
      * apply kept_step. by rewrite <-(Hn k Ht Hout).
    + rewrite elastic_body_ne by done. apply Hn; [done|]. tauto.
  - destruct (stamp m0) as [t|] eqn:Est.
    + assert (∃ ts, m0 !! "timestamp"%string = Some (Av (AInt64 ts)) ∧ t = Av (AString (RFC3339 zone ts))) as (ts & Hts & ->).
      { unfold stamp in Est. destruct (m0 !! "timestamp"%string) as [[[]| | | |]|]; try done. injection Est as <-. by eexists. }
      destruct (decide (k = tss)) as [->|Hkt].
      * assert (bool_decide ("timestamp"%string ∈ must') = bool_decide ("timestamp"%string ∈ must)) as -> by (apply bool_decide_ext; rewrite Hm' by done; naive_solver).
        subst m'. rewrite (elastic_body_at _ _ _ Hk). change (elastic_stays tss v) with (negb (blank_value v)).
        case_bool_decide as Hb.
        -- destruct (blank_value v); [by left|]. cbn [negb]. rewrite <-Hk. exact Hs.
        -- rewrite Hk in Hs. injection Hs as ->. cbn [blank_value]. by rewrite RFC3339_text.
      * subst m'. rewrite elastic_body_stamp by done. destruct (String.eqb_spec k "timestamp") as [->|Hkn].
        -- rewrite bool_decide_eq_false_2 by (rewrite Hm' by done; tauto).
           assert (v = Av (AInt64 ts)) as ->; [|done]. destruct (decide ("timestamp"%string ∈ must)) as [Hin|Hout].
           ++ rewrite (Ho _ ltac:(done) Hin) in Hk. congruence.
           ++ rewrite (Hn _ ltac:(done) Hout), Hts in Hk. cbn in Hk. by injection Hk.
        -- assert (bool_decide ("timestamp"%string ∈ must') = bool_decide ("timestamp"%string ∈ must)) as -> by (apply bool_decide_ext; rewrite Hm' by done; naive_solver).
           exact Hs.
    + destruct (decide (k = tss)) as [->|Hkt].
      * rewrite bool_decide_eq_false_2 by (subst must'; set_solver). subst m'. rewrite (elastic_body_at _ _ _ Hk).
        case_bool_decide as Hb; rewrite Hk in Hs; [by rewrite <-Hs|]. by apply kept_step.
      * assert (m' !! tss = m !! tss) as Hsame.
        { subst m'. rewrite elastic_body_stamp by done. destruct (String.eqb_spec k "timestamp") as [->|]; [|done].
          destruct v as [[ts| | | | | | | |]| | | |]; try done. exfalso. assert (m0 !! "timestamp"%string = Some (Av (AInt64 ts))) as Hts; [|unfold stamp in Est; by rewrite Hts in Est].
          destruct (decide ("timestamp"%string ∈ must)) as [Hin|Hout]; [by rewrite <-(Ho _ ltac:(done) Hin)|].
          pose proof (Hn _ ltac:(done) Hout) as Hx. rewrite Hk in Hx. destruct (m0 !! "timestamp"%string) as [w|]; cbn in Hx; congruence. }
        assert (tss ∈ must' ↔ tss ∈ must) as Hmm.
        { subst must'. split; [set_solver|]. intros Hin. pose proof (Hd _ Hin) as [x Hx]%elem_of_dom. assert (tss ∈ dom m') by (apply elem_of_dom; rewrite Hsame; by exists x). set_solver. }
        rewrite Hsame. rewrite (bool_decide_ext _ _ Hmm). exact Hs.
Qed.

Lemma elastic_range m : range id elastic_body m0 m → m = elastic_clean m0.
Proof.
  intros Hr. destruct (range_inv id elastic_body elastic_inv _ _ _ _ ltac:(intros; by apply elastic_step) Hr elastic_start) as (seen & [_ _ Hn Hs]).
  assert (∀ k, filter (λ kv, elastic_stays kv.1 kv.2 = true) m0 !! k = kept k) as Hf.
  { intros k. destruct (m0 !! k) as [v|] eqn:Hk; cbn.
    - destruct (elastic_stays k v) eqn:Es; [by apply map_lookup_filter_Some|]. apply map_lookup_filter_None. right. intros w Hw. cbn. rewrite Hk in Hw. injection Hw as <-. by rewrite Es.
    - apply map_lookup_filter_None. by left. }
  apply map_eq. intros k. unfold elastic_clean. destruct (decide (k = tss)) as [->|Hne].
  - destruct (stamp m0) as [t|]; [rewrite lookup_insert_eq|rewrite Hf]; exact Hs.
  - rewrite Hn by set_solver. destruct (stamp m0); [rewrite lookup_insert_ne by done|]; by rewrite Hf.
Qed.
End elastic_laws.

(** C27: Whatever the order of the range, though the loop adds the text of the time to the map that it ranges over, a record
    is left with the same entries: those that always go out, those that are not blank, its time as a text, and who sent it. *)
Theorem elastic_strip_iff `{RecordEnv} m m' : elastic_strip m m' ↔ m' = elastic_marks (elastic_clean m).
Proof.
  unfold elastic_strip. split; [intros (m1 & Hr & ->); by rewrite (elastic_range m m1 Hr)|].
  intros ->. destruct (range_total id elastic_body m) as (m1 & Hr). exists m1. split; [done|]. by rewrite <-(elastic_range m m1 Hr).
Qed.

(** ** Lines read back *)
Section lines_back.
Context `{RecordEnv}.
(** A text that a line can hold. *)
Record one_line (t : list byte) : Prop := { ol_newline : newline ∉ t; ol_fits : fits t = true; ol_cr : drop_cr t = t }.
Lemma scan_line t rest rline : newline ∉ t → fits (reverse rline ++ t) = true → scan (t ++ newline :: rest) rline = drop_cr (reverse rline ++ t) :: scan rest [].
Proof.
  revert rline. induction t as [|b t IH]; intros rline Hn Hf; cbn [app scan].
  - rewrite app_nil_r in *. unfold fits in *. rewrite length_reverse in Hf. by rewrite Hf.
  - apply not_elem_of_cons in Hn as [Hb Hn]. rewrite bool_decide_eq_false_2 by (intros ->; done).
    rewrite IH by (rewrite ?reverse_cons, <-?app_assoc; done). by rewrite reverse_cons, <-app_assoc.
Qed.
Lemma scan_one t rest : one_line t → scan (t ++ newline :: rest) [] = t :: scan rest [].
Proof. intros [Hn Hf Hc]. rewrite scan_line by done. cbn [reverse rev_append app]. by rewrite Hc. Qed.

Context (action : list byte) (Ha : one_line action).
Definition read_as (d : document) (t : list byte) (j : option JCHF) : Prop :=
  Marshal d = Ok t ∧ one_line t ∧ t ≠ action ∧ Unmarshal_flow t = Ok j.
Lemma bulk_read docs ts js : Forall3 read_as docs ts js → ∃ body, bulk action docs = Ok body ∧ parse_lines action (scan body []) = Ok js.
Proof.
  induction 1 as [|d t j docs ts js (Hm & Ht & Hne & Hj) _ (body & Hb & Hp)]; [by exists []|].
  exists (action ++ newline :: t ++ newline :: body). cbn [bulk]. unfold serialize. rewrite Hm. cbn [mbind res_bind]. rewrite Hb. cbn [mbind res_bind]. split.
  - f_equal. rewrite <-!app_assoc. cbn. by rewrite <-app_assoc.
  - rewrite scan_one by done. rewrite scan_one by done. cbn [parse_lines]. rewrite bool_decide_eq_true_2 by done. rewrite bool_decide_eq_false_2 by done.
    rewrite Hj. cbn [mbind res_bind]. by rewrite Hp.
Qed.

(** A bulk message whose records are written without newlines, each in less than 64 KiB, is read back: every record, in
    order, as its text is read, and no action. *)
Theorem elastic_lines_read msgs records ts js : Forall3 read_as (DMap <$> records) ts js → msgs ≠ [] →
  ∃ out, elastic_To false action msgs records = Ok out ∧ elastic_From false action (Body out) = values_of js.
Proof.
  intros Hr Hm. destruct (bulk_read _ _ _ Hr) as (body & Hb & Hp). destruct msgs as [|m msgs]; [done|].
  exists (NewOutputWithProvider body (Provider m) EventOutput). unfold elastic_To, elastic_From, packed, first_provider. rewrite Hb. cbn [mbind res_bind]. split; [done|].
  cbn [Body NewOutputWithProvider mbind res_bind]. by rewrite Hp.
Qed.
End lines_back.

(** ** Names of the metrics of a test *)
(** No two metrics have one name, and no name is another metric. *)
Definition table_ok (t : gmap string MetricInfo) : bool :=
  bool_decide (NoDup ((λ kn, MI_Name kn.2) <$> map_to_list t)) &&
  bool_decide (Forall (λ kn, MI_Name kn.2 = kn.1 ∨ MI_Name kn.2 ∉ (map_to_list t).*1) (map_to_list t)).
Lemma all_tables : forallb (λ r : Z * list (string * string), table_ok (map_range (FormatsUtil.GetSynMetricNameSet r.1))) FormatsUtil.synMetrics_list = true.
Proof. vm_compute. reflexivity. Qed.
Lemma synth_table_ok j : table_ok (synth_metrics j) = true.
Proof.
  unfold synth_metrics. generalize (map_get 0 (CustomInt j) "result_type"). intros rt.
  destruct ((list_to_map FormatsUtil.synMetrics_list : gmap Z (list (string * string))) !! rt) as [l|] eqn:E.
  - apply elem_of_list_to_map_2, list_elem_of_In in E. exact (proj1 (forallb_forall _ _) all_tables _ E).
  - unfold FormatsUtil.GetSynMetricNameSet. rewrite E. reflexivity.
Qed.

Lemma rename_one_at m k0 i0 k : rename_one m (k0, i0) !! k =
  if decide (k = k0) then None else if decide (k = MI_Name i0) then match m !! k0 with Some v => Some v | None => m !! k end else m !! k.
Proof.
  unfold rename_one. cbn [fst snd]. destruct (m !! k0) as [v|] eqn:E; repeat case_decide; subst; try done;
    first [by rewrite lookup_delete_eq|rewrite lookup_delete_ne by done; first [by rewrite lookup_insert_eq|by rewrite lookup_insert_ne]].
Qed.
Lemma rename_fold l m : NoDup l.*1 → NoDup ((λ kn : string * MetricInfo, MI_Name kn.2) <$> l) → Forall (λ kn, MI_Name kn.2 = kn.1 ∨ MI_Name kn.2 ∉ l.*1) l →
  (∀ k i, (k, i) ∈ l → foldl rename_one m l !! k = None) ∧
  (∀ k i v, (k, i) ∈ l → MI_Name i ≠ k → m !! k = Some v → foldl rename_one m l !! MI_Name i = Some v) ∧
  (∀ k, k ∉ l.*1 → (∀ k' i, (k', i) ∈ l → MI_Name i = k → m !! k' = None) → foldl rename_one m l !! k = m !! k).
Proof.
  revert m. induction l as [|[k0 i0] l IH]; intros m Hk Hn Hf; [by split_and!; intros; set_solver|]. cbn [foldl].
  cbn [fmap list_fmap fst snd] in Hk, Hn. apply NoDup_cons in Hk as [Hk0 Hk]. apply NoDup_cons in Hn as [Hn0 Hn].
  assert (∀ k i, (k, i) ∈ l → k ≠ k0 ∧ MI_Name i ≠ MI_Name i0) as Hl.
  { intros k i Hin. split; intros E; [apply Hk0|apply Hn0]; apply list_elem_of_fmap; exists (k, i); split; done. }
  assert (∀ k i, (k, i) ∈ l → k ∈ l.*1) as Hkey by (intros k i Hin; apply list_elem_of_fmap; by exists (k, i)).
  apply Forall_cons in Hf as [Hf0 Hf]. cbn [fst snd fmap list_fmap] in *.
  assert (∀ k i, (k, i) ∈ l → MI_Name i = k0 → False) as Hnk.
  { intros k i Hin E. rewrite Forall_forall in Hf. destruct (Hf _ Hin) as [Hx|Hx]; cbn [fst snd] in Hx; [destruct (Hl _ _ Hin) as [Hy _]; congruence|]. apply Hx. rewrite E. by left. }
  assert (∀ k i, (k, i) ∈ l → rename_one m (k0, i0) !! k = m !! k) as Hsame.
  { intros k i Hin. rewrite rename_one_at. destruct (Hl _ _ Hin) as [Hne _]. rewrite decide_False by done. case_decide as Hd; [|done]. exfalso.
    destruct Hf0 as [Hx|Hx]; [congruence|]. apply Hx. rewrite <-Hd. right. by eapply Hkey. }
  destruct (IH (rename_one m (k0, i0)) Hk Hn) as (HA & HB & HC).
  { eapply Forall_impl; [exact Hf|]. intros kn [Hx|Hx]; [by left|right]. intros Hin. apply Hx. by right. }
  split_and!.
  - intros k i [E|Hin]%elem_of_cons; [injection E as -> ->|by eapply HA]. rewrite HC; [by rewrite rename_one_at, decide_True|done|]. intros k' i Hin E. by destruct (Hnk _ _ Hin E).
  - intros k i v [E|Hin]%elem_of_cons Hne Hv; [injection E as -> ->|apply (HB k); [done|done|by rewrite (Hsame _ _ Hin)]].
    rewrite HC; [rewrite rename_one_at, decide_False, decide_True by done; by rewrite Hv| |].
    + destruct Hf0 as [Hx|Hx]; [done|]. intros Hin. apply Hx. by right.
    + intros k' i Hin E. by destruct (Hl _ _ Hin).
  - intros k Hni Hall. rewrite HC; [| |].
    + rewrite rename_one_at, decide_False by (intros ->; apply Hni; by left). case_decide as Hd; [|done]. rewrite (Hall k0 i0) by (first [by left|done]). done.
    + intros Hin. apply Hni. by right.
    + intros k' i Hin E. rewrite (Hsame _ _ Hin). apply (Hall k' i); [by right|done].
Qed.

(** Whatever the order of the range over the metrics of a test, each metric of a record goes by its better name and not by
    its own, and every other entry stays; so a metric whose names are the same is lost. *)
Theorem synth_names_any_order j m names : names ≡ₚ map_to_list (synth_metrics j) →
  let r := foldl rename_one m names in
  (∀ k i, synth_metrics j !! k = Some i → r !! k = None) ∧
  (∀ k i v, synth_metrics j !! k = Some i → MI_Name i ≠ k → m !! k = Some v → r !! MI_Name i = Some v) ∧
  (∀ k, synth_metrics j !! k = None → (∀ k' i, synth_metrics j !! k' = Some i → MI_Name i = k → m !! k' = None) → r !! k = m !! k).
Proof.
  intros Hp. pose proof (synth_table_ok j) as Ht. unfold table_ok in Ht. apply andb_prop in Ht as [Hn%bool_decide_eq_true Hf%bool_decide_eq_true].
  rewrite <-Hp in Hn. setoid_rewrite <-Hp in Hf.
  destruct (rename_fold names m) as (HA & HB & HC).
  { rewrite Hp. apply NoDup_fst_map_to_list. }
  { done. }
  { eapply Forall_impl; [exact Hf|]. intros kn [Hx|Hx]; [by left|right]. first [exact Hx|by rewrite Hp]. }
  assert (∀ k i, synth_metrics j !! k = Some i ↔ (k, i) ∈ names) as Hin by (intros; by rewrite Hp, elem_of_map_to_list).
  split_and!.
  - intros k i Hk%Hin. by eapply HA.
  - intros k i v Hk%Hin. by apply HB.
  - intros k Hk Hall. apply HC; [|intros k' i Hk'%Hin; by apply Hall]. intros ([k' i] & -> & Hk')%list_elem_of_fmap. apply Hin in Hk'. cbn in Hk. congruence.
Qed.

(** ** Object identifiers of keys *)
Fixpoint oid_value (s : string) (acc cur : Z) : Z :=
  match s with
  | EmptyString => acc * 1000 + cur
  | String c s => if Ascii.eqb c "."%char then oid_value s (acc * 1000 + cur) 0 else oid_value s acc (cur * 10 + default 0 (digit_value c))
  end.
Definition number (l : list ascii) : Z := foldl (λ a c, a * 10 + default 0 (digit_value c)) 0 l.
Definition digit (c : ascii) : Prop := is_Some (digit_value c).
Lemma digit_not_dot c : digit c → Ascii.eqb c "."%char = false.
Proof. intros [d Hd]. destruct (Ascii.eqb_spec c "."%char) as [->|]; [discriminate Hd|done]. Qed.
Lemma digit_range c : 0 ≤ default 0 (digit_value c) < 10.
Proof. unfold digit_value. cbn zeta. case_match eqn:E; [|cbn; lia]. cbn. apply andb_prop in E as [?%Nat.leb_le ?%Nat.leb_le]. lia. Qed.
Lemma number_snoc l c : number (l ++ [c]) = number l * 10 + default 0 (digit_value c).
Proof. unfold number. by rewrite foldl_snoc. Qed.
Lemma number_pos l : 0 ≤ number l.
Proof. induction l as [|c l IH] using rev_ind; [done|]. rewrite number_snoc. pose proof (digit_range c). lia. Qed.

(** Reading a dotted number from the left: what is before the digits put out so far. *)
Lemma oid_value_dotted l k out : l ≠ [] → Forall digit l → (k < 3)%nat →
  oid_value (dotted l k out) 0 0 = oid_value out (number (rev l) / 10 ^ (3 - Z.of_nat k)) (number (rev l) mod 10 ^ (3 - Z.of_nat k)).
Proof.
  revert k out. induction l as [|c [|c' l] IH]; intros k out Hl Hd Hk; [done| |]; apply Forall_cons in Hd as [Hc Hd].
  - cbn [dotted oid_value rev app]. rewrite (digit_not_dot _ Hc). unfold number. cbn [foldl]. pose proof (digit_range c).
    assert (10 ≤ 10 ^ (3 - Z.of_nat k)) by (change 10 with (10 ^ 1) at 1; apply Z.pow_le_mono_r; lia). rewrite Z.div_small, Z.mod_small by lia. done.
  - set (t := c' :: l) in *. cbn [rev]. rewrite number_snoc. set (D := number (rev t)). set (d := default 0 (digit_value c)).
    pose proof (digit_range c) as Hr. fold d in Hr. pose proof (number_pos (rev t)) as Hp. fold D in Hp.
    change (dotted (c :: t) k out) with (if (S k =? 3)%nat then dotted t 0 (String "." (String c out)) else dotted t (S k) (String c out)).
    destruct (Nat.eqb_spec (S k) 3) as [E|E].
    + rewrite IH by (done || lia). fold D. cbn [oid_value]. rewrite (digit_not_dot _ Hc). fold d. change (Ascii.eqb "." ".") with true. cbn match.
      assert (k = 2%nat) as -> by lia. change (10 ^ (3 - Z.of_nat 0)) with 1000. change (10 ^ (3 - Z.of_nat 2)) with 10.
      f_equal; [|rewrite (Z.add_comm (D * 10)), Z.mod_add, (Z.mod_small d) by lia; lia]. rewrite (Z.div_add_l D 10 d) by lia. rewrite (Z.div_small d) by lia. pose proof (Z.div_mod D 1000). lia.
    + rewrite IH by (done || lia). fold D. cbn [oid_value]. rewrite (digit_not_dot _ Hc). fold d.
      set (q := 10 ^ (3 - Z.of_nat (S k))). assert (10 ^ (3 - Z.of_nat k) = q * 10) as -> by (subst q; replace (3 - Z.of_nat k) with (Z.succ (3 - Z.of_nat (S k))) by lia; rewrite Z.pow_succ_r by lia; lia).
      assert (0 < q) by (subst q; apply Z.pow_pos_nonneg; lia). f_equal.
      * rewrite (Z.mul_comm q 10), <-Z.div_div, (Z.div_add_l D 10 d) by lia. rewrite (Z.div_small d) by lia. f_equal; lia.
      * rewrite (Z.mul_comm q 10), Z.rem_mul_r by lia. rewrite (Z.div_add_l D 10 d) by lia. rewrite (Z.div_small d 10), Z.add_0_r by lia.
        rewrite (Z.add_comm (D * 10)), Z.mod_add, (Z.mod_small d) by lia. lia.
Qed.
Lemma digits_number s acc v : digits_value s acc = Some v →
  Forall digit (String.list_ascii_of_string s) ∧ foldl (λ a c, a * 10 + default 0 (digit_value c)) acc (String.list_ascii_of_string s) = v.
Proof.
  revert acc. induction s as [|c s IH]; intros acc; cbn [digits_value String.list_ascii_of_string foldl].
  - intros [= <-]. done.
  - destruct (digit_value c) as [d|] eqn:E; [|done]. intros Hv. destruct (IH _ Hv) as [H1 H2]. split; [constructor; [by exists d|done]|]. exact H2.
Qed.

(** The arcs of a key's identifier, read as digits of a number to the base of a thousand, give its hash back: keys of
    different hashes have different identifiers. *)
Theorem oid_arcs n : 0 ≤ n < 2 ^ 32 → oid_value (formatKeyOid n) 0 0 = n.
Proof.
  intros Hn. pose proof (decimal_value0 n ltac:(lia)) as Hv. apply digits_number in Hv as [Hd Hv]. unfold formatKeyOid.
  assert (Itoa n = decimal 20 n "") as -> by (unfold Itoa; destruct (Z.ltb_spec n 0); [lia|done]).
  set (ds := String.list_ascii_of_string (decimal 20 n "")) in *.
  assert (ds ≠ []) as Hne by (intros E; subst ds; destruct (decimal_head 20 n "" ltac:(lia) ltac:(lia)) as (d & t & Hdt & _); rewrite Hdt in E; discriminate E).
  rewrite oid_value_dotted; [| |by apply List.Forall_rev|lia].
  - rewrite rev_involutive. fold (number ds) in Hv. rewrite Hv. cbn [oid_value]. change (10 ^ (3 - Z.of_nat 0)) with 1000. pose proof (Z.div_mod n 1000). lia.
  - intros E. apply Hne. apply (f_equal (@rev ascii)) in E. by rewrite rev_involutive in E.
Qed.

(** ** Rows read back *)
Section rows.
Context `{RecordEnv} (File : Type) (write_rows : string → list ParquetMetric → res File) (file_body : File → list byte)
  (Reader : Type) (open : list byte → res (Z * Reader)) (Read : Reader → nat → option (list ParquetMetric) * Reader)
  (rows : Reader → list ParquetMetric).
(** A reader gives the next rows that it is asked for, and an opened file has the rows that were written. *)
Context (Read_next : ∀ r n, ∃ r', Read r n = (Some (take n (rows r)), r') ∧ rows r' = drop n (rows r))
  (open_written : ∀ c ms f, write_rows c ms = Ok f → ∃ r, open (file_body f) = Ok (Z.of_nat (length ms), r) ∧ rows r = ms).

Lemma read_groups_next n size r read values : (n * size ≤ length (rows r))%nat →
  ∃ r', read_groups Reader Read n size (r, read, values) = (r', read + Z.of_nat (n * size), values ++ (row_values <$> take (n * size) (rows r))) ∧
    rows r' = drop (n * size) (rows r).
Proof.
  revert r read values. induction n as [|n IH]; intros r read values Hn.
  { exists r. cbn. by rewrite Z.add_0_r, app_nil_r. }
  cbn [read_groups]. destruct (Read_next r size) as (r1 & -> & Hr1). destruct (IH r1 (read + Z.of_nat (length (take size (rows r)))) (values ++ (row_values <$> take size (rows r)))) as (r' & -> & Hr').
  { rewrite Hr1, length_drop. lia. }
  exists r'. rewrite Hr', Hr1, drop_drop, length_take. split; [|done]. f_equal; [f_equal; lia|]. rewrite <-app_assoc, <-fmap_app. do 2 f_equal.
  by rewrite take_take_drop.
Qed.
Lemma parquet_reads body ms r : open body = Ok (Z.of_nat (length ms), r) → rows r = ms → parquet_From Reader open Read body = Ok (row_values <$> ms).
Proof.
  intros Ho Hr. unfold parquet_From. rewrite Ho. cbn [mbind res_bind]. set (q := Z.to_nat (Z.quot (Z.of_nat (length ms)) 10)).
  assert (q * 10 ≤ length ms)%nat as Hq by (subst q; pose proof (Z.mul_quot_le (Z.of_nat (length ms)) 10); lia).
  destruct (read_groups_next q 10 r 0 []) as (r1 & -> & Hr1); [by rewrite Hr|]. cbn [mbind res_bind app].
  destruct (read_groups_next (Z.to_nat (Z.of_nat (length ms) - (0 + Z.of_nat (q * 10)))) 1 r1 0 (row_values <$> take (q * 10) (rows r))) as (r2 & -> & _).
  { rewrite Hr1, length_drop, Hr. lia. }
  cbn [snd]. rewrite <-fmap_app, Hr1, Hr. do 2 f_equal. rewrite firstn_all2 with (l := drop _ _) by (rewrite length_drop; lia). apply take_drop.
Qed.

Definition column (k : string) (v : avro) : option value :=
  match v with
  | AString s => if String.eqb s "" then None else Some (Av (AString s))
  | AInt32 z => if z =? 0 then None else Some (Int z)
  | AInt64 z => if String.eqb k "timestamp" then Some (Av (AString (RFC3339 zone z))) else if z =? 0 then None else Some (Int z)
  | _ => None
  end.
Lemma row_column ts visit j j' m p k : toParquetMetric ts visit j = Ok (j', p) → Flatten visit j = Ok (j', m) → k ∉ ["host"; "sourcetype"; "timestamp"]%string →
  row_values p !! k = (v ← m !! k; column k v).
Proof.
  unfold toParquetMetric. intros E Hm Hk. rewrite Hm in E. injection E as <-. unfold row_values, parquet_strs, parquet_ints. cbn [Ints Strings pq_Host pq_SourceType pq_Timestamp].
  assert (k ≠ "host"%string ∧ k ≠ "sourcetype"%string ∧ k ≠ "timestamp"%string) as (H1 & H2 & H3) by (split_and!; intros ->; apply Hk; [left|right; left|right; right; left]).
  rewrite !lookup_union, !lookup_fmap, !map_lookup_imap, !lookup_insert_ne, lookup_singleton_ne by done. destruct (m !! k) as [v|]; [|done]. cbn.
  unfold column. apply String.eqb_neq in H3. destruct v; cbn; rewrite ?H3; try done; case_match; done.
Qed.

(** A Parquet file of messages is read back, in order, as one row for each: its columns are the texts and numbers of the
    flattened message that are not blank. *)
Theorem parquet_From_To c now l js out : parquet_To File write_rows file_body c now l = Ok (js, Some out) →
  ∃ values, parquet_From Reader open Read (Body out) = Ok values ∧
    Forall2 (λ vj r, ∃ j' m, Flatten vj.1 vj.2 = Ok (j', m) ∧ ∀ k, k ∉ ["host"; "sourcetype"; "timestamp"]%string → r !! k = (v ← m !! k; column k v)) l values.
Proof.
  unfold parquet_To. intros E. apply res_bind_Ok in E as ([js' ms] & Hms & E). apply res_bind_Ok in E as (o & Ho & E). injection E as <- ->.
  unfold parquet_text in Ho. destruct ms as [|m0 ms']; [done|]. revert Hms Ho. generalize (m0 :: ms'). clear m0 ms'. intros ms Hms Ho. apply res_bind_Ok in Ho as (f & Hf & Ho). injection Ho as <-.
  destruct (open_written _ _ _ Hf) as (r & Hr & Hrows). exists (row_values <$> ms). cbn [Body NewOutputNoBuffer]. split; [by eapply parquet_reads|].
  clear Hf Hr Hrows. revert js' ms Hms. induction l as [|[visit j] l IH]; intros js' ms Hms; [injection Hms as _ <-; constructor|]. cbn [toParquetMetrics] in Hms.
  apply res_bind_Ok in Hms as ([j1 p] & Hp & Hms). apply res_bind_Ok in Hms as ([js1 ms1] & Hl & Hms). injection Hms as <- <-. cbn. constructor; [|by eapply IH].
  cbn [fst snd]. destruct (Flatten visit j) as [[j' m]| | |] eqn:Hfl; unfold toParquetMetric in Hp; rewrite Hfl in Hp; try done.
  exists j', m. split; [done|]. intros k Hk. eapply row_column; [|exact Hfl|done]. unfold toParquetMetric. rewrite Hfl. injection Hp as <- <-. reflexivity.
Qed.
End rows.

(** ** Concrete inputs *)
(** An encoder that writes the name of a device, or of the field [id]. *)
Definition text_of (d : document) : string :=
  match d with
  | DMap m => match m !! "id"%string with Some (Av (AString s)) => s | _ => "{}" end
  | DFlows (j :: _) => DeviceName j
  | _ => "[]"
  end.
Definition named (t : list byte) : JCHF := NewJCHF <| DeviceName := String.string_of_list_byte t |>.
Definition a_codec : RecordEnv := {|
  Marshal d := Ok (bytes_of (text_of d)); Unmarshal_flows t := ([Some (named t)], Some ErrUnexpectedEOF); Unmarshal_flow t := Ok (Some (named t));
  Unmarshal_array s := None; gzip t := Ok t; reader := list byte; gunzip t := Ok t; Decode_flows t := ([Some (named t)], Some ErrUnexpectedEOF);
  read_lines t := (t, None); zone t := 0 |}.
#[local] Existing Instance a_codec.

Definition index_action : list byte := bytes_of (actionEntry "index").
Definition two_records : list record := [{["id" := Av (AString "a")]}; {["id" := Av (AString "b")]}]%string.
Lemma elastic_lines_read_witness : ∃ out, elastic_To false index_action [NewJCHF] two_records = Ok out ∧
  elastic_From false index_action (Body out) = values_of [Some (named (bytes_of "a")); Some (named (bytes_of "b"))].
Proof.
  apply (elastic_lines_read index_action) with (ts := [bytes_of "a"; bytes_of "b"]).
  - split; [apply (bool_decide_unpack _); vm_compute; exact I|reflexivity|reflexivity].
  - repeat constructor; try reflexivity; try (apply (bool_decide_unpack _); vm_compute; exact I).
  - discriminate.
Defined.

Definition a_ping : JCHF := NewJCHF <| CustomInt := Some {["result_type" := 2]}%string |>.
Definition ping_record : record := {["ping_avg_rtt" := Av (AInt32 31); "app" := Av (AString "x")]}%string.
Lemma synth_names_any_order_witness : ∃ r, r = foldl rename_one ping_record (rev (map_to_list (synth_metrics a_ping))) ∧ r !! "avg_rtt"%string = Some (Av (AInt32 31)) ∧
  r !! "ping_avg_rtt"%string = None ∧ r !! "app"%string = Some (Av (AString "x")).
Proof.
  destruct (synth_names_any_order a_ping ping_record (rev (map_to_list (synth_metrics a_ping))) (symmetry (Permutation_rev _))) as (HA & HB & HC).
  eexists. split; [reflexivity|]. split_and!.
  - apply (HB "ping_avg_rtt"%string (FormatsUtil.name_only "avg_rtt")); [vm_compute; reflexivity|discriminate|reflexivity].
  - apply (HA _ (FormatsUtil.name_only "avg_rtt")). vm_compute. reflexivity.
  - vm_compute. reflexivity.
Defined.
Lemma oid_arcs_witness : 0 ≤ fnv1a (bytes_of "src_addr") < 2 ^ 32 ∧ oid_value (formatKeyOid (fnv1a (bytes_of "src_addr"))) 0 0 = fnv1a (bytes_of "src_addr").
Proof.
  assert (0 ≤ fnv1a (bytes_of "src_addr") < 2 ^ 32) as Hn by (vm_compute; split; [discriminate|reflexivity]). split; [exact Hn|]. apply (oid_arcs _ Hn).
Defined.

(** A library that writes one file, of eleven rows. *)
#[local] Instance ParquetMetric_eq_dec : EqDecision ParquetMetric.
Proof. solve_decision. Defined.
Definition next_rows (r : list ParquetMetric) (n : nat) : option (list ParquetMetric) * list ParquetMetric := (Some (take n r), drop n r).
Definition eleven : list (list string * JCHF) :=
  (λ name, ((avro_rows NewJCHF).*1, NewJCHF <| DeviceName := name |>)) <$> ["a"; "b"; "c"; "d"; "e"; "f"; "g"; "h"; "i"; "j"; "k"]%string.
Definition eleven_rows : list ParquetMetric := match toParquetMetrics 7 eleven with Ok (_, ms) => ms | _ => [] end.
Definition write_eleven (c : string) (ms : list ParquetMetric) : res unit := if decide (ms = eleven_rows) then Ok tt else Err EOF.
Definition open_eleven (body : list byte) : res (Z * list ParquetMetric) := Ok (Z.of_nat (length eleven_rows), eleven_rows).
Lemma parquet_From_To_witness : ∃ out values, parquet_From (list ParquetMetric) open_eleven next_rows (Body out) = Ok values ∧ length values = 11%nat ∧
  (r ← values !! 10%nat; r !! "device_name"%string) = Some (Av (AString "k")).
Proof.
  assert (match parquet_To unit write_eleven (λ _, []) "none" 7 eleven with Ok (_, Some _) => true | _ => false end = true) as Hw by (vm_compute; reflexivity).
  destruct (parquet_To unit write_eleven (λ _, []) "none" 7 eleven) as [[js [out|]]| | |] eqn:E; try discriminate Hw.
  destruct (parquet_From_To unit write_eleven (λ _, []) (list ParquetMetric) open_eleven next_rows id) with (c := "none"%string) (now := 7) (l := eleven) (js := js) (out := out) as (values & Hv & Hf).
  - intros r n. exists (drop n r). split; reflexivity.
  - intros c ms f Hw'. unfold write_eleven in Hw'. destruct (decide (ms = eleven_rows)) as [->|]; [|discriminate Hw']. exists eleven_rows. split; reflexivity.
  - exact E.
  - exists out, values. split; [exact Hv|]. split; [rewrite <-(Forall2_length _ _ _ Hf); vm_compute; reflexivity|].
    assert (match parquet_From (list ParquetMetric) open_eleven next_rows (Body out) with Ok values => r ← values !! 10%nat; r !! "device_name"%string | _ => None end = Some (Av (AString "k"))) as Hk by (vm_compute; reflexivity).
    rewrite Hv in Hk. exact Hk.
Defined.

(** What the decoder of a compressed message says is lost. *)
Example gz_error_lost : json_From false (bytes_of "x") = Err ErrUnexpectedEOF ∧ is_ok (json_From true (bytes_of "x")) = true.
Proof. split; vm_compute; reflexivity. Qed.
(** Custom columns are not read back. *)
Example customs_not_read : match values_of [Some (NewJCHF <| CustomStr := Some {["app" := "dns"]}%string |>)] with Ok [m] => m !! "custom_str"%string | _ => None end = Some (AMapStr (Some ∅)).
Proof. vm_compute. reflexivity. Qed.
(** A batch without messages ends the process. *)
Example no_flows : json_To false true [] = Panic "index out of range".
Proof. reflexivity. Qed.
(** A record of 64 KiB ends the reading without an error: it and what follows are lost. *)
Example long_line_lost : scan (repeat Byte.x61 (256 * 256) ++ [newline; Byte.x62; newline]) [] = [].
Proof. vm_compute. reflexivity. Qed.
(** The result of a test that failed is not sent: its name is that of its metric. *)
Example error_not_sent : handleSynth (map_to_list (synth_metrics (NewJCHF <| CustomInt := Some {["result_type" := 0]}%string |>))) {["error" := Av (AInt32 1)]}%string = Ok ∅.
Proof. vm_compute. reflexivity. Qed.
(** A rollup whose key has the separator in a part ends the process. *)
Example splunk_roll_panics : is_ok (splunk_Rollup (λ _, 0) false 7 [(Rollup.mkRoll "x" "" "a^b" (S754_zero false) "^" ["src_host"%string] 1 1 1 "", 60)]) = false.
Proof. vm_compute. reflexivity. Qed.
