(* ===== verification/Sinks.v ===== *)
(** Sinks (src/pkg/sinks): where a message goes, how it is buffered and cut into files, and what is counted and
    reported of it.

    The network, the file system and client libraries answer as arguments say; what goroutines send at once is a
    list in the order in which they were started. Times and random names are arguments. *)
From S2P Require Import Prelude GoStrings Jchf.
From S2P Require Records.
From S2P Require Nrm.
Local Open Scope Z_scope.

Abbreviation bytes := (list byte).
Definition CompressionNull : string := "null".

(** ** Requests over HTTP (http.go, ddog.go, kentik.go, prom.go, nr.go) *)
(** What comes of a request: it cannot be made, is not answered, its answer cannot be read, or has a status. *)
Inductive http_result := BadRequest (e : error) | NoAnswer (e : error) | BadBody (e : error) | Answered (status : Z) (body : bytes).
Record meters := mkMeters { DeliveryErr : Z; DeliveryWin : Z; DeliveryMetrics : Z; DeliveryLogs : Z }.
Definition no_marks : meters := mkMeters 0 0 0 0.
Definition mark_err (m : meters) : meters := mkMeters (DeliveryErr m + 1) (DeliveryWin m) (DeliveryMetrics m) (DeliveryLogs m).
Definition mark_win (m : meters) : meters := mkMeters (DeliveryErr m) (DeliveryWin m + 1) (DeliveryMetrics m) (DeliveryLogs m).
Definition mark_metric (m : meters) : meters := mkMeters (DeliveryErr m) (DeliveryWin m) (DeliveryMetrics m + 1) (DeliveryLogs m).
Definition mark_log (m : meters) : meters := mkMeters (DeliveryErr m) (DeliveryWin m) (DeliveryMetrics m) (DeliveryLogs m + 1).

(** [bad]: the statuses that are errors. *)
Definition counted (bad : Z → bool) (r : http_result) (m : meters) : meters :=
  match r with
  | BadRequest _ | NoAnswer _ => m
  | BadBody _ => mark_err m
  | Answered status _ => if bad status then mark_err m else mark_win m
  end.
Definition sendHttp : http_result → meters → meters := counted (λ s, 400 <=? s).
Definition sendKentik : http_result → meters → meters := counted (λ s, negb (s =? 200)).

(** *** The HTTP sink *)
Record HttpSink := mkHttpSink { headers : gmap string string; targetUrls : list string; basic_auth : option (string * string); HttpLogUrl : string }.
Fixpoint parse_headers (l : list string) (m : gmap string string) : res (gmap string string) :=
  match l with
  | [] => Ok m
  | h :: l =>
      match SplitN 1 h ":" with
      | k :: v :: _ => parse_headers l (<[TrimSpace k := TrimSpace v]> m)
      | _ => Err (Errorf "The %s header contains unsupported content." [FStr h])
      end
  end.
Fixpoint parse_urls (Parse : string → option error) (l : list string) : res (list string) :=
  match l with
  | [] => Ok []
  | u :: l => match Parse u with Some e => Err (Errorf "invalid url for http sink: %s" [FStr u; FErr e]) | None => us ← parse_urls Parse l; Ok (u :: us) end
  end.
(** [user] and [passwd] are of the environment; [sink] is the name of the sink. *)
Definition NewHttpSink (Parse : string → option error) (sink target logs : string) (custom : list string) (user passwd : string) : res HttpSink :=
  urls ← parse_urls Parse (Split target ",");
  hs ← parse_headers custom ∅;
  if String.eqb sink "splunk" && negb (bool_decide (is_Some (hs !! "Authorization"%string))) then Err (Errorf "Authorization header required for splunk" [])
  else Ok (mkHttpSink hs urls (if negb (String.eqb user "") && negb (String.eqb passwd "") then Some (user, passwd) else None) logs).
Definition gzip_header (compression : string) (hs : gmap string string) : gmap string string :=
  if String.eqb compression Records.CompressionGzip then <["Content-Encoding" := "GZIP"]>%string hs else hs.
Definition HttpInit (compression : string) (s : HttpSink) : HttpSink :=
  mkHttpSink (gzip_header compression (headers s)) (targetUrls s) (basic_auth s) (HttpLogUrl s).
Record request := mkRequest { rq_url : string; rq_headers : gmap string string; rq_auth : option (string * string); rq_body : bytes }.
Definition http_request (s : HttpSink) (payload : bytes) (url : string) : request := mkRequest url (headers s) (basic_auth s) payload.
(** A payload goes to every target. *)
Definition HttpSend (s : HttpSink) (o : Output) : list request := http_request s (Body o) <$> targetUrls s.
Definition HttpHostname : string := "ktranslate".
Definition ProviderLogs : string := "kentik-logs".
(** Logs go as they are, each on a line, whatever the compression. *)
Fixpoint log_lines (Marshal : string → res bytes) (logs : list string) : res bytes :=
  match logs with [] => Ok [] | l :: logs => t ← Marshal l; r ← log_lines Marshal logs; Ok (t ++ Records.newline :: r) end.
Definition http_log_request (Marshal : string → res bytes) (s : HttpSink) (logs : list string) : res request :=
  t ← log_lines Marshal logs; Ok (http_request s t (HttpLogUrl s)).

(** *** Datadog *)
Definition ddog_headers (apiKey appKey compression : string) : res (gmap string string) :=
  let hs := gzip_header compression {["Content-Type" := "application/json"]}%string in
  if String.eqb apiKey "" then Err (Errorf "Missing env var %s" [FStr "DD_API_KEY"])
  else
    let hs := <["DD-API-KEY" := apiKey]>%string hs in
    Ok (if String.eqb appKey "" then hs else <["DD-APP-KEY" := appKey]>%string hs).

(** *** Kentik: the flow is cut short only of a message without an offset *)
Record KentikSink := mkKentikSink { KentikUrl : string; isKentik : bool }.
Definition kentik_Init (TeeFlow APIBaseURL RelayURL : string) (creds : nat) : res KentikSink :=
  let made url := Ok (mkKentikSink url (Contains (ToLower url) "kentik.com")) in
  if String.eqb TeeFlow "" then
    if (creds =? 0)%nat then Err (Errorf "Kentik requires -kentik_email and KENTIK_API_TOKEN env var to be set" [])
    else made (if String.eqb RelayURL "" then String.append (ReplaceAll APIBaseURL "api." "flow.") "/chf" else RelayURL)
  else made TeeFlow.
Definition MSG_KEY_PREFIX : Z := 80.
Definition cut_short (s : KentikSink) (offset : Z) : bool := isKentik s && (offset =? 0).
Definition KentikSend (s : KentikSink) (r : http_result) (m : meters) : meters := if cut_short s MSG_KEY_PREFIX then m else sendKentik r m.

(** *** Prometheus: the address to write to is that of the flag *)
Inductive prom_mode := Listens | Writes (url : string).
Definition FORMAT_PROM : string := "prometheus".
Definition FORMAT_PROM_REMOTE : string := "prometheus_remote".
Definition prom_Init (remoteUrl format compression : string) : res prom_mode :=
  if String.eqb format FORMAT_PROM then Ok Listens
  else if String.eqb format FORMAT_PROM_REMOTE then
    if String.eqb remoteUrl "" then Err (Errorf "You must set the -prom_remote_write flag to make this work." [])
    else if String.eqb compression Records.CompressionSnappy then Ok (Writes remoteUrl)
    else Err (Errorf "You used the %s unsupported compression format. Use snappy only." [FStr compression])
  else Err (Errorf "Prometheus only supports %s and %s formats, not %s" [FStr FORMAT_PROM; FStr FORMAT_PROM_REMOTE; FStr format]).
(** With what the callback of a payload is called. *)
Definition sendRemote (r : http_result) (m : meters) : meters * option error :=
  (counted (λ s, 400 <=? s) r (mark_metric m),
   match r with
   | BadRequest e | NoAnswer e | BadBody e => Some e
   | Answered status _ => if 400 <=? status then Some (Errorf "There was an error when communicating to Prometheus: %v." [FInt status]) else None
   end).

(** ** New Relic (nr.go) *)
Definition regions : list (string * (string * string * string)) := [
  ("us", ("https://insights-collector.newrelic.com/v1/accounts/%s/events", "https://metric-api.newrelic.com/metric/v1", "https://log-api.newrelic.com/log/v1"));
  ("eu", ("https://insights-collector.eu01.nr-data.net/v1/accounts/%s/events", "https://metric-api.eu.newrelic.com/metric/v1", "https://log-api.eu.newrelic.com/log/v1"));
  ("gov", ("https://gov-insights-collector.newrelic.com/v1/accounts/%s/events", "https://gov-metric-api.newrelic.com/metric/v1", "https://gov-log-api.newrelic.com/log/v1"));
  ("us_stage", ("https://staging-insights-collector.newrelic.com/v1/accounts/%s/events", "https://staging-metric-api.newrelic.com/metric/v1", "https://staging-log-api.newrelic.com/log/v1"));
  ("jp", ("https://insights-collector.jp.nr-data.net/v1/accounts/%s/events", "https://metric-api.jp.nr-data.net/metric/v1", "https://log-api.jp.nr-data.net/log/v1"))]%string.
Definition region_urls (r : string) : option (string * string * string) := (list_to_map regions : gmap string _) !! r.

(** The variables of the package: every sink sees what the last [Init] left. *)
Record globals := mkGlobals { NrUrl : string; NrMetricsUrl : string }.
Definition first_globals : globals := mkGlobals "https://insights-collector.newrelic.com/v1/accounts/%s/events" "https://metric-api.newrelic.com/metric/v1".
Definition NrLogUrl : string := "https://log-api.newrelic.com/log/v1".
Record NRSink := mkNRSink { NRAccount : string; NRApiKey : string; NRUrl : string; NRUrlEvent : string; NRUrlMetric : string; NRUrlLog : string; nr_compression : string; estimate : bool; checkJson : bool }.
Definition FORMAT_NR : string := "new_relic".
Definition FORMAT_JSON_FLAT : string := "flat_json".
Definition FORMAT_NRM : string := "new_relic_metric".
(** [Init] up to the test of the connection; what it sets of the package stays when it fails. *)
Definition nr_Init (g : globals) (region account key format compression : string) (est check : bool) : globals * res NRSink :=
  let rval := ToLower region in
  let made g logs : res NRSink :=
    if String.eqb account "" || String.eqb key "" then
      Err (Errorf "You need to set up your New Relic One account ID in the -nr_account_id variable and your API key in the NEW_RELIC_API_KEY environment variable." [])
    else if negb (String.eqb format FORMAT_NR || String.eqb format FORMAT_JSON_FLAT || String.eqb format FORMAT_NRM) then
      Err (Errorf "You used the %s unsupported format. Use flat_json, new_relic, new_relic_metric." [FStr format])
    else if negb (String.eqb compression Records.CompressionGzip || String.eqb compression Records.CompressionNone) then
      Err (Errorf "You used the %s unsupported compression format. Use gzip or no compression at all." [FStr compression])
    else
      let events := Replace (NrUrl g) "%s" account 1 in
      Ok (mkNRSink account key (if String.eqb format FORMAT_NRM then NrMetricsUrl g else events) events (NrMetricsUrl g) (if String.eqb logs "" then NrLogUrl else logs) compression est check) in
  if String.eqb rval "" then (g, made g EmptyString)
  else match region_urls rval with
    | Some (events, metrics, logs) => (mkGlobals events metrics, made (mkGlobals events metrics) logs)
    | None => (g, Err (Errorf "You used an unsupported New Relic One region: %s. The possible values are EU, US, GOV, JP and US_STAGE." [FStr region]))
    end.

Definition nr_headers (s : NRSink) (o : Output) : gmap string string :=
  let hs := {["Api-Key" := NRApiKey s; "Content-Type" := "application/json"; "NR-Data-Provider" := "kentik"; "NR-Data-Type" := GetDataType (Some o); "User-Agent" := "kentik-ktranslate/0.1.0"]}%string in
  if String.eqb (nr_compression s) Records.CompressionGzip then <["Content-Encoding" := "GZIP"]>%string hs else hs.
(** Where a payload goes, unless its JSON is checked and bad. *)
Definition nr_route (s : NRSink) (o : Output) : string := if IsEvent o then NRUrlEvent s else if IsMetric o then NRUrlMetric s else NRUrl s.
Definition nr_Send (valid : bytes → bool) (s : NRSink) (o : Output) : option request :=
  if checkJson s && negb (valid (Body o)) then None else Some (mkRequest (nr_route s o) (nr_headers s o) None (Body o)).

(** [sendNR]: the meters, what the callback is told and the size of a message that is too big; [reply]: whether the
    body of an answer is one of New Relic. *)
Definition sendNR (reply : bytes → option error) (s : NRSink) (payload : bytes) (r : http_result) (m : meters) : meters * option error * option nat :=
  let m := mark_metric m in
  if estimate s then (m, None, None)
  else match r with
  | BadRequest e | NoAnswer e => (m, Some e, None)
  | BadBody e => (mark_err m, Some e, None)
  | Answered status body =>
      if status =? 413 then (mark_err m, None, Some (length payload))
      else if 400 <=? status then (mark_err m, Some (Errorf "There was an error when communicating to New Relic One: %v." [FInt status]), None)
      else match reply body with Some e => (mark_err m, Some e, None) | None => (mark_win m, None, None) end
  end.
(** [test]: each address is tried until one fails. *)
Fixpoint nr_test (reply : bytes → option error) (s : NRSink) (ask : string → http_result) (urls : list string) (m : meters) : meters * option error :=
  match urls with
  | [] => (m, None)
  | u :: urls =>
      match sendNR reply s (Records.bytes_of "{}") (ask u) m with
      | (m, Some e, _) => (m, Some (Errorf "Error testing %s: %v" [FStr u; FErr e]))
      | (m, None, _) => nr_test reply s ask urls m
      end
  end.
Definition nr_urls (s : NRSink) : list string := [NRUrlEvent s; NRUrlMetric s; NRUrlLog s].

(** An event of the formatter goes to the address of events. *)
Definition nr_event (s : NRSink) (evt : bytes) : request :=
  let o := NewOutputWithProvider evt Records.ProviderRouter "event" in mkRequest (NRUrlEvent s) (nr_headers s o) None (Body o).

(** *** Logs *)
Definition PluginSyslog : string := "ktranslate-syslog".
Definition PluginHealth : string := "ktranslate-health".
Record logSet := mkLogSet { Attributes : gmap string string; Logs : list (Z * string) }.
Definition common_attributes : gmap string string := {["instrumentation.provider" := Nrm.InstProvider; "collector.name" := Nrm.CollectorName]}%string.
Definition is_syslog (l : string) : bool := Contains l PluginSyslog.
(** The sets that are sent, those of health first. *)
Definition sendLogBatch (ts : Z) (logs : list string) : list logSet :=
  let health := filter (λ l, is_syslog l = false) logs in
  let sys := filter (λ l, is_syslog l = true) logs in
  match health with [] => [] | _ => [mkLogSet (<["plugin.type" := PluginHealth]>%string (<["logtype" := PluginHealth]>%string common_attributes)) ((λ l, (ts, l)) <$> health)] end ++
  match sys with [] => [] | _ => [mkLogSet common_attributes ((λ l, (ts, l)) <$> sys)] end.

(** [watchLogs]: lines wait for a tick of the second. *)
Inductive log_event := Log (l : string) | LogTick | LogDone.
Record log_watch := mkWatch { batch : list string; batches : list (list string); watching : bool; delivered : Z }.
Definition start_watch : log_watch := mkWatch [] [] true 0.
Definition watch (w : log_watch) (e : log_event) : log_watch :=
  if watching w then
    match e with
    | Log l => mkWatch (batch w ++ [l]) (batches w) true (delivered w + 1)
    | LogTick => match batch w with [] => w | b => mkWatch [] (batches w ++ [b]) true (delivered w) end
    | LogDone => mkWatch (batch w) (batches w) false (delivered w)
    end
  else w.

(** ** One New Relic sink for each company (nrmult.go)
    A company whose sink could not be made has none for ever. [make]: the sink of an account and its key, if it starts. *)
Section multi.
Context (creds : gmap Cid (string * string)) (make : string → string → option NRSink).
Definition place (cid : Cid) : option NRSink := creds !! cid ≫= λ c, make c.1 c.2.
Definition multi_Send (sinks : gmap Cid (option NRSink)) (o : Output) : gmap Cid (option NRSink) * option NRSink :=
  let cid := Ctx_CompanyId (Ctx o) in
  match sinks !! cid with
  | Some s => (sinks, s)
  | None => (<[cid := place cid]> sinks, place cid)
  end.
End multi.

(** ** Buckets (s3.go, gcloud.go): messages are joined until a tick *)
Definition suffix_of (compression : string) : string :=
  if String.eqb compression Records.CompressionNone || String.eqb compression CompressionNull then EmptyString
  else if String.eqb compression Records.CompressionGzip then ".gz"
  else String.append "." compression.
Definition s3_suffix (format compression : string) : string :=
  if String.eqb format "parquet" then ".parquet" else if String.eqb format "avro" then ".avro" else suffix_of compression.
(** [now]: the date of an object's name, and the seconds; [r] is random. *)
Definition object_name (prefix suffix date : string) (unix r : Z) : string :=
  String.append prefix (String.append "/" (String.append date (String.append "/" (String.append (Itoa unix) (String.append "_" (String.append (Itoa r) suffix)))))).
(** What is uploaded, and whether it was alone. *)
Record bucket := mkBucket { buf : bytes; uploads : list (bool * bytes); open : bool }.
Definition new_bucket : bucket := mkBucket [] [] true.
Inductive bucket_event := Send (o : Output) | Tick | Done.
Definition now_out (o : Output) : bool := NoBuffer o && negb (bool_decide (Body o = [])).
Definition bucket_step (s : bucket) (e : bucket_event) : bucket :=
  match e with
  | Send o => if now_out o then mkBucket (buf s) (uploads s ++ [(true, Body o)]) (open s) else mkBucket (buf s ++ Body o) (uploads s) (open s)
  | Tick => if open s then match buf s with [] => s | b => mkBucket [] (uploads s ++ [(false, b)]) true end else s
  | Done => mkBucket (buf s) (uploads s) false
  end.
Definition bucket_run : list bucket_event → bucket := foldl bucket_step new_bucket.
(** What an upload counts: of Google, the writing and the closing. *)
Definition s3_send (failed : bool) (m : meters) : meters := if failed then mark_err m else mark_win m.
Definition gcloud_send (write_failed close_failed : bool) (m : meters) : meters :=
  mark_win ((if close_failed then mark_err else id) ((if write_failed then mark_err else id) m)).

(** ** Files (file.go, file_unix.go) *)
Definition file_suffix (format : string) : string :=
  if existsb (String.eqb format) ["json"; "flat_json"; "new_relic_metric"; "new_relic"; "elasticsearch"]%string then ".json"
  else if String.eqb format "parquet" then ".parquet" else EmptyString.
Definition file_name (location suffix : string) (unix r : Z) : string :=
  String.append location (String.append "/" (String.append (Itoa unix) (String.append "_" (String.append (Itoa r) suffix)))).
(** [fd] is the name of the open file; creating a file empties one of its name. *)
Record FileSink := mkFileSink { doWrite : bool; fd : option string; written : Z; files : gmap string bytes }.
(** A write may end early, with an error. *)
Inductive file_event := FSend (o : Output) (n : nat) (name : string) | Toggle (name : string) (created : bool) | FTick (name : string) (created : bool).
Definition put_file (name : string) (b : bytes) (s : FileSink) : FileSink := mkFileSink (doWrite s) (fd s) (written s) (<[name := b]> (files s)).
Definition create (name : string) (s : FileSink) : FileSink := mkFileSink (doWrite s) (Some name) (written s) (<[name := []]> (files s)).
Definition remove_if_unwritten (name : string) (s : FileSink) : FileSink :=
  if written s =? 0 then mkFileSink (doWrite s) (fd s) (written s) (delete name (files s)) else s.
Definition file_Init (immediate : bool) (stat create_err : option error) (name : string) (files : gmap string bytes) : res FileSink :=
  match stat with
  | Some e => Err e
  | None =>
      let s := mkFileSink immediate None 0 files in
      if immediate then match create_err with Some e => Err e | None => Ok (create name s) end else Ok s
  end.
Definition file_step (s : FileSink) (e : file_event) : res FileSink :=
  match e with
  | FSend o n name =>
      if now_out o then Ok (if doWrite s then put_file name (Body o) s else s)
      else match fd s with
      | Some f =>
          if doWrite s then Ok (mkFileSink true (Some f) (written s + Z.of_nat (length (take n (Body o)))) (<[f := default [] (files s !! f) ++ take n (Body o)]> (files s)))
          else Ok s
      | None => Ok s
      end
  | Toggle name created =>
      let s := mkFileSink (negb (doWrite s)) (fd s) (written s) (files s) in
      Ok (if doWrite s && created then create name s else s)
  | FTick name created =>
      if doWrite s then
        match fd s with
        | None => Panic "invalid memory address or nil pointer dereference"
        | Some f =>
            let s := remove_if_unwritten f s in
            let s := mkFileSink (doWrite s) (fd s) 0 (files s) in
            Ok (if created then create name s else mkFileSink (doWrite s) None 0 (files s))
        end
      else Ok s
  end.
Definition file_Close (s : FileSink) : FileSink := match fd s with Some f => remove_if_unwritten f s | None => s end.
Fixpoint file_run (s : FileSink) (l : list file_event) : res FileSink :=
  match l with [] => Ok s | e :: l => s ← file_step s e; file_run s l end.

(** ** Connections (net.go), Pub/Sub (gcppubsub.go) and the terminal (stdout.go) *)
Definition net_protocol (p : string) : bool := existsb (String.eqb p) ["udp"; "tcp"; "unix"]%string.
(** [dial]: a connection to an address of the protocol. *)
Fixpoint net_conns {C} (protocol : string) (dial : string → res C) (endpoints : list string) : res (list C) :=
  match endpoints with
  | [] => Ok []
  | e :: endpoints =>
      if net_protocol protocol then c ← dial e; cs ← net_conns protocol dial endpoints; Ok (c :: cs)
      else Err (Errorf "Invalid protocol: %s. Supported: udp|tcp|unix" [FStr protocol])
  end.
Definition net_Init {C} (protocol endpoint : string) (dial : string → res C) : res (list C) :=
  if String.eqb endpoint "" then Err (Errorf "Net requires -net_server or NetSink.Endpoint to be set" [])
  else net_conns protocol dial (Split endpoint ",").
Definition sendNet (failed : list bool) (m : meters) : meters := foldl (λ m (f : bool), if f then mark_err m else mark_win m) m failed.
Definition pubsub_send : bool → meters → meters := s3_send.
Definition pubsub_Init (projectID topicID : string) (client : option error) : res unit :=
  if String.eqb projectID "" then Err (Errorf "No project ID was set for GCP PubSub. Use the -gcp_pubsub_project_id option to set one up." [])
  else if String.eqb topicID "" then Err (Errorf "No topic was set for GCP PubSub. Use the -gcp_pubsub_topic option to set one up." [])
  else match client with Some e => Err (Errorf "There was an error when creating the gcp pubsub client: %v." [FErr e]) | None => Ok tt end.

(** ** Kafka (kafa.go) *)
Inductive codec := CompressNone | CompressGZIP | CompressSnappy | CompressLZ4 | CompressZSTD.
Definition kafka_codec (c : string) : codec :=
  let c := ToLower c in
  if String.eqb c "gzip" then CompressGZIP else if String.eqb c "snappy" then CompressSnappy else if String.eqb c "lz4" then CompressLZ4
  else if String.eqb c "zstd" then CompressZSTD else CompressNone.
Inductive sasl := Unset | Plain (user password : string) | Scram256 (user password : string) | Scram512 (user password : string) | Gssapi (keytab : bool).
Record KafkaConfig := mkKafka { Topic : string; BootstrapServers : string; Compression_ : string; SecurityProtocol : string; SASLMechanism : string;
  SASLUsername : string; SASLPassword : string; KerberosConfigPath : string; KerberosKeytabPath : string; SSLCAFile : string; SSLCertFile : string; SSLKeyFile : string; SSLInsecure : bool }.
Section kafka.
(** The files of certificates, whether a path is there, and the version that the environment asks for. *)
Context (ReadFile : string → res bytes) (AppendCertsFromPEM : bytes → bool) (LoadX509KeyPair : string → string → option error) (Stat : string → bool).
Record tls := mkTls { insecure : bool; roots : option bytes; certificate : bool }.
Definition configureTLS (c : KafkaConfig) : res tls :=
  roots ← (if String.eqb (SSLCAFile c) "" then Ok None
    else match ReadFile (SSLCAFile c) with
      | Ok pem => if AppendCertsFromPEM pem then Ok (Some pem) else Err (Errorf "failed to parse CA certificate" [])
      | Err e => Err (Errorf "failed to read CA certificate: %v" [FErr e])
      | Panic w => Panic w | OutOfFuel => OutOfFuel
      end);
  cert ← (if String.eqb (SSLCertFile c) "" || String.eqb (SSLKeyFile c) "" then Ok false
    else match LoadX509KeyPair (SSLCertFile c) (SSLKeyFile c) with Some e => Err (Errorf "failed to load client certificate: %v" [FErr e]) | None => Ok true end);
  Ok (mkTls (SSLInsecure c) roots cert).
(** [strings.ToUpper], as far as what is compared with its result can tell: two letters outside ASCII have capitals in it. *)
Fixpoint upper (s : string) : string :=
  match s with
  | String "196" (String "177" s) => String "I" (upper s)
  | String "197" (String "191" s) => String "S" (upper s)
  | String a s => String (let n := nat_of_ascii a in if ((97 <=? n) && (n <=? 122))%nat then ascii_of_nat (n - 32) else a) (upper s)
  | EmptyString => EmptyString
  end.
Definition configureSASL (c : KafkaConfig) : res sasl :=
  let mech := upper (SASLMechanism c) in
  if String.eqb mech "PLAIN" then Ok (Plain (SASLUsername c) (SASLPassword c))
  else if String.eqb mech "SCRAM-SHA-256" then Ok (Scram256 (SASLUsername c) (SASLPassword c))
  else if String.eqb mech "SCRAM-SHA-512" then Ok (Scram512 (SASLUsername c) (SASLPassword c))
  else if String.eqb mech "GSSAPI" then
    if negb (String.eqb (KerberosConfigPath c) "") && negb (Stat (KerberosConfigPath c)) then Err (Errorf "kerberos config file not found: %s" [FStr (KerberosConfigPath c)])
    else if String.eqb (KerberosKeytabPath c) "" then Ok (Gssapi false)
    else if Stat (KerberosKeytabPath c) then Ok (Gssapi true)
    else Err (Errorf "kerberos keytab file not found: %s" [FStr (KerberosKeytabPath c)])
  else if String.eqb mech "OAUTHBEARER" then Err (Errorf "OAUTHBEARER mechanism not fully implemented yet" [])
  else if String.eqb (SASLMechanism c) "" then Ok Unset
  else Err (Errorf "unsupported SASL mechanism: %s" [FStr (SASLMechanism c)]).
Definition wrapped {A} (format : string) (r : res A) : res A := match r with Err e => Err (Errorf format [FErr e]) | r => r end.
(** The security of the connection: with or without TLS, and as whom. *)
Definition kafka_security (c : KafkaConfig) : res (option tls * option sasl) :=
  let p := upper (SecurityProtocol c) in
  if String.eqb p "PLAINTEXT" then Ok (None, None)
  else if String.eqb p "SSL" then t ← wrapped "failed to configure SSL: %v" (configureTLS c); Ok (Some t, None)
  else if String.eqb p "SASL_PLAINTEXT" then s ← wrapped "failed to configure SASL: %v" (configureSASL c); Ok (None, Some s)
  else if String.eqb p "SASL_SSL" then
    t ← wrapped "failed to configure SSL: %v" (configureTLS c);
    s ← wrapped "failed to configure SASL: %v" (configureSASL c);
    Ok (Some t, Some s)
  else Err (Errorf "unsupported security protocol: %s" [FStr (SecurityProtocol c)]).
Definition brokers (c : KafkaConfig) : list string := TrimSpace <$> Split (BootstrapServers c) ",".
(** [parse]: a version's error; [produce]: the producer of brokers, if it starts. *)
Definition kafka_Init (parse : string → option error) (produce : list string → option error) (env_version : string) (c : KafkaConfig) : res (option tls * option sasl * codec) :=
  if String.eqb (Topic c) "" then Err (Errorf "Not writing to kafka -- no topic set, use -kafka_topic flag or KafkaSink.Topic" [])
  else if String.eqb (BootstrapServers c) "" then Err (Errorf "Not writing to kafka -- no bootstrap servers set, use -bootstrap.servers flag" [])
  else
    sec ← kafka_security c;
    let version := if String.eqb env_version "" then "2.8.0"%string else env_version in
    match parse version with
    | Some e => Err (Errorf "failed to parse kafka version %q: %v" [FStr version; FErr e])
    | None => match produce (brokers c) with Some e => Err (Errorf "failed to create kafka producer: %v" [FErr e]) | None => Ok (sec, kafka_codec (Compression_ c)) end
    end.
End kafka.
(** The producer takes messages while it has room, and answers for each that it took; [stopped]: the context has ended
    and its case of the [select] is the one that is taken. *)
Record kafka := mkKafkaState { input : list bytes; pending : nat; k_meters : meters }.
Inductive kafka_event := KSend (body : bytes) (stopped : bool) | Takes | Answers (ok : bool).
Definition kafka_step (room : nat) (s : kafka) (e : kafka_event) : option kafka :=
  match e with
  | KSend body stopped =>
      if (stopped : bool) then Some s
      else if (length (input s) <? room)%nat then Some (mkKafkaState (input s ++ [body]) (pending s) (k_meters s))
      else Some (mkKafkaState (input s) (pending s) (mark_err (k_meters s)))
  | Takes => match input s with [] => None | _ :: i => Some (mkKafkaState i (S (pending s)) (k_meters s)) end
  | Answers ok => match pending s with O => None | S n => Some (mkKafkaState (input s) n ((if (ok : bool) then mark_win else mark_err) (k_meters s))) end
  end.
Fixpoint kafka_run (room : nat) (s : kafka) (l : list kafka_event) : option kafka :=
  match l with [] => Some s | e :: l => s ← kafka_step room s e; kafka_run room s l end.

(** ** What is counted *)
Definition got_answer (r : http_result) : bool := match r with BadRequest _ | NoAnswer _ => false | _ => true end.
Definition tried (m : meters) : Z := DeliveryErr m + DeliveryWin m.
Lemma counted_one bad r m : tried (counted bad r m) = tried m + (if got_answer r then 1 else 0).
Proof. unfold tried. destruct r as [| | |st b]; cbn; try (destruct (bad st); cbn); lia. Qed.

(** Of requests over HTTP, in whatever order they end, as many are counted, as delivered or as failed, as had an answer;
    one that could not be made or was not answered is not counted at all. *)
Theorem http_counts bad l m : tried (foldl (λ m r, counted bad r m) m l) = tried m + Z.of_nat (length (List.filter got_answer l)).
Proof.
  revert m. induction l as [|r l IH]; intros m; cbn [foldl List.filter]; [cbn; lia|]. rewrite IH, counted_one. destruct (got_answer r); cbn [length]; lia.
Qed.

Definition taken (reply : bytes → option error) (r : http_result) : bool :=
  match r with Answered status body => (status =? 413) || ((status <? 400) && bool_decide (reply body = None)) | _ => false end.
(** The callback of a payload for New Relic is told of no error exactly when it is only an estimate, was answered well, or
    was refused as too big, which the flow is then cut for; each payload is counted once as sent. *)
Theorem nr_callback reply s payload r m : let '(m', cb, big) := sendNR reply s payload r m in
  (cb = None ↔ estimate s = true ∨ taken reply r = true) ∧
  (is_Some big ↔ estimate s = false ∧ ∃ body, r = Answered 413 body) ∧
  DeliveryMetrics m' = DeliveryMetrics m + 1 ∧
  (DeliveryWin m' = DeliveryWin m + 1 ↔ estimate s = false ∧ taken reply r = true ∧ big = None).
Proof.
  unfold sendNR. destruct (estimate s); [cbn; split_and!; [tauto|split; [by intros []|by intros []]|lia|split; [lia|by intros []]]|].
  destruct r as [e|e|e|status body]; cbn; try (split_and!; [split; [done|by intros []]|split; [by intros []|by intros (_ & b & ?)]|lia|split; [lia|by intros (_ & ? & _)]]).
  destruct (Z.eqb_spec status 413) as [->|Hne]; cbn.
  { split_and!; [tauto|split; [intros _; split; [done|by eexists]|by eexists]|lia|split; [lia|by intros (_ & _ & ?)]]. }
  assert (status = 413 → False) as H413 by done.
  destruct (Z.leb_spec 400 status), (Z.ltb_spec status 400); try lia; cbn.
  - split_and!; [split; [done|by intros []]|split; [by intros []|intros (_ & b & [= E _]); done]|lia|split; [lia|by intros (_ & ? & _)]].
  - destruct (reply body) as [e|] eqn:Er; cbn.
    + split_and!; [split; [done|by intros []]|split; [by intros []|intros (_ & b & [= E _]); done]|lia|split; [lia|by intros (_ & ? & _)]].
    + split_and!; [tauto|split; [by intros []|intros (_ & b & [= E _]); done]|lia|split; [done|lia]].
Qed.

(** ** Logs *)
Fixpoint before_done (l : list log_event) : list string :=
  match l with Log s :: l => s :: before_done l | LogTick :: l => before_done l | LogDone :: _ | [] => [] end.
Lemma watch_on w e : watching w = true → watch w e = match e with
  | Log l => mkWatch (batch w ++ [l]) (batches w) true (delivered w + 1)
  | LogTick => match batch w with [] => w | b => mkWatch [] (batches w ++ [b]) true (delivered w) end
  | LogDone => mkWatch (batch w) (batches w) false (delivered w)
  end.
Proof. unfold watch. by intros ->. Qed.
Lemma watch_off w l : watching w = false → foldl watch w l = w.
Proof. induction l as [|e l IH]; intros H0; [done|]. cbn [foldl]. assert (watch w e = w) as -> by (unfold watch; by rewrite H0). by apply IH. Qed.
Lemma watch_run l w : watching w = true → let w' := foldl watch w l in
  concat (batches w') ++ batch w' = concat (batches w) ++ batch w ++ before_done l ∧
  (Forall (λ b, b ≠ []) (batches w) → Forall (λ b, b ≠ []) (batches w')) ∧
  delivered w' = delivered w + Z.of_nat (length (before_done l)).
Proof.
  revert w. induction l as [|e l IH]; intros w Hw w'; subst w'; [cbn; rewrite app_nil_r; split_and!; [done|done|lia]|]. cbn [foldl]. rewrite (watch_on _ _ Hw). destruct e as [s| |]; cbn [before_done].
  - destruct (IH (mkWatch (batch w ++ [s]) (batches w) true (delivered w + 1)) eq_refl) as (H1 & H2 & H3). cbn [batches batch delivered] in *.
    rewrite H1, H3, <-app_assoc. split_and!; [done|done|cbn; lia].
  - destruct (batch w) as [|b0 b] eqn:Eb.
    + destruct (IH w Hw) as (H1 & H2 & H3). rewrite Eb in H1. done.
    + destruct (IH (mkWatch [] (batches w ++ [b0 :: b]) true (delivered w)) eq_refl) as (H1 & H2 & H3). cbn [batches batch delivered] in *.
      rewrite H1, H3. split_and!; [by rewrite concat_app; cbn; rewrite app_nil_r, <-app_assoc|intros Hf; apply H2, Forall_app; split; [done|by constructor]|done].
  - rewrite watch_off by done. cbn [batches batch delivered length]. rewrite app_nil_r. split_and!; [done|done|lia].
Qed.
Definition messages (l : list logSet) : list string := concat ((λ s, (Logs s).*2) <$> l).
Lemma sets_messages ts logs : messages (sendLogBatch ts logs) = filter (λ l, is_syslog l = false) logs ++ filter (λ l, is_syslog l = true) logs.
Proof.
  unfold messages, sendLogBatch. set (health := filter _ logs). set (sys := filter _ logs).
  assert (∀ l : list string, ((λ l, (ts, l)) <$> l).*2 = l) as Hs by (intros l; induction l as [|x l IH]; cbn; [done|by rewrite IH]).
  destruct health as [|h health], sys as [|y sys]; cbn [app fmap list_fmap concat Logs snd]; rewrite ?app_nil_r, ?Hs; cbn; rewrite ?app_nil_r, ?Hs; reflexivity.
Qed.

(** Every line of a log that comes before the end is in one batch, in order, or waits for the next tick, and is in one of the
    sets that its batch is sent as: in that of health unless it names the syslog. *)
Theorem lines_sent_once l ts : let w := foldl watch start_watch l in
  concat (batches w) ++ batch w = before_done l ∧ delivered w = Z.of_nat (length (before_done l)) ∧
  Forall (λ b, b ≠ [] ∧ messages (sendLogBatch ts b) ≡ₚ b ∧ Forall (λ s, s.2 ≠ [] ∧ ∀ x y, x ∈ s.2 → y ∈ s.2 → is_syslog x = is_syslog y) ((λ s, (Attributes s, (Logs s).*2)) <$> sendLogBatch ts b)) (batches w).
Proof.
  destruct (watch_run l start_watch eq_refl) as (H1 & H2 & H3). cbn [batches batch delivered concat app start_watch] in *. split; [done|]. split; [lia|].
  eapply Forall_impl; [apply H2; constructor|]. cbn beta. intros b Hb. split; [done|]. split.
  - rewrite sets_messages. clear. induction b as [|x b IH]; [done|]. rewrite !filter_cons. destruct (is_syslog x); repeat (case_decide; try done); cbn; [|by rewrite IH].
    rewrite <-Permutation_middle. by rewrite IH.
  - unfold sendLogBatch. assert (∀ l : list string, ((λ l, (ts, l)) <$> l).*2 = l) as Hs by (intros l0; induction l0 as [|x l0 IH]; cbn; [done|by rewrite IH]).
    set (health := filter _ b). set (sys := filter _ b).
    assert (∀ x, x ∈ health → is_syslog x = false) as Hh by (intros x [? _]%list_elem_of_filter; done).
    assert (∀ x, x ∈ sys → is_syslog x = true) as Hy by (intros x [? _]%list_elem_of_filter; done).
    rewrite fmap_app. apply Forall_app. split; [destruct health as [|h health]|destruct sys as [|y sys]]; [constructor| |constructor|]; (apply Forall_singleton; cbn [snd Logs]; rewrite Hs; split; [done|]; intros u v Hu Hv).
    + by rewrite !Hh.
    + by rewrite !Hy.
Qed.

(** ** A sink for each company *)
Section company.
Context (creds : gmap Cid (string * string)) (make : string → string → option NRSink) (make_of : ∀ a k s, make a k = Some s → NRAccount s = a ∧ NRApiKey s = k).
Definition multi_run (l : list Output) (sinks : gmap Cid (option NRSink)) : gmap Cid (option NRSink) := foldl (λ m o, (multi_Send creds make m o).1) sinks l.
Lemma multi_step sinks o cid : (∀ c p, sinks !! c = Some p → p = place creds make c) →
  ∀ p, (multi_Send creds make sinks o).1 !! cid = Some p → p = place creds make cid.
Proof.
  intros Hs p. unfold multi_Send. destruct (sinks !! Ctx_CompanyId (Ctx o)) as [q|] eqn:E; cbn [fst]; [apply Hs|].
  destruct (decide (Ctx_CompanyId (Ctx o) = cid)) as [<-|Hne]; [rewrite lookup_insert_eq; by intros [= <-]|rewrite lookup_insert_ne by done; apply Hs].
Qed.
Lemma multi_placed l sinks : (∀ c p, sinks !! c = Some p → p = place creds make c) → ∀ c p, multi_run l sinks !! c = Some p → p = place creds make c.
Proof.
  revert sinks. induction l as [|o l IH]; intros sinks Hs; [exact Hs|]. cbn. apply IH. intros c p. by apply multi_step.
Qed.

(** However many messages of whatever companies came before, a message goes out with the account and the key of its own company,
    or, when that has none or its sink did not start, not at all. *)
Theorem multi_own_account l o : match (multi_Send creds make (multi_run l ∅) o).2 with
  | Some s => creds !! Ctx_CompanyId (Ctx o) = Some (NRAccount s, NRApiKey s)
  | None => match creds !! Ctx_CompanyId (Ctx o) with Some (a, k) => make a k = None | None => True end
  end.
Proof.
  assert ((multi_Send creds make (multi_run l ∅) o).2 = place creds make (Ctx_CompanyId (Ctx o))) as ->.
  { unfold multi_Send. destruct (multi_run l ∅ !! Ctx_CompanyId (Ctx o)) as [q|] eqn:E; [|done]. cbn. refine (multi_placed l ∅ _ _ _ E). intros c p. by rewrite lookup_empty. }
  unfold place. destruct (creds !! _) as [[a k]|]; cbn; [|done]. destruct (make a k) as [s|] eqn:E; [|done]. destruct (make_of _ _ _ E) as [-> ->]. done.
Qed.
End company.

(** ** Buckets *)
Definition joined (l : list bucket_event) : bytes := concat ((λ e, match e with Send o => if now_out o then [] else Body o | _ => [] end) <$> l).
Definition alone (l : list bucket_event) : list bytes := omap (λ e, match e with Send o => if now_out o then Some (Body o) else None | _ => None end) l.
Definition uploaded (one : bool) (s : bucket) : list bytes := (filter (λ u, u.1 = one) (uploads s)).*2.

Lemma uploaded_snoc one s b x : (filter (λ u : bool * bytes, u.1 = one) (s ++ [(b, x)])).*2 = (filter (λ u, u.1 = one) s).*2 ++ (if Bool.eqb b one then [x] else []).
Proof. rewrite filter_app, fmap_app. f_equal. destruct b, one; reflexivity. Qed.

(** C29: Whatever comes, what was uploaded at ticks and what waits are the messages that are not sent by themselves, joined in order;
    no upload is empty, and each message that is sent by itself is an upload of its own. *)
Theorem bucket_conserves l : let s := bucket_run l in
  concat (uploaded false s) ++ buf s = joined l ∧ uploaded true s = alone l ∧ Forall (λ u, u.2 ≠ []) (uploads s).
Proof.
  cbv zeta. induction l as [|e l (H1 & H2 & H3)] using rev_ind; [by split_and!|]. unfold bucket_run in *. rewrite foldl_snoc.
  set (s := foldl bucket_step new_bucket l) in *. unfold joined, alone in *. rewrite fmap_app, concat_app, omap_app, <-H1, <-H2. clear H1 H2.
  cbn [fmap list_fmap concat omap list_omap]. unfold uploaded. destruct e as [o| |]; cbn [bucket_step].
  - destruct (now_out o) eqn:En; cbn [uploads buf]; rewrite ?uploaded_snoc; cbn [Bool.eqb app]; rewrite ?app_nil_r, ?app_assoc; split_and!; try done.
    apply Forall_app. split; [done|]. constructor; [|done]. unfold now_out in En. apply andb_prop in En as [_ En]. by apply negb_true_iff, bool_decide_eq_false in En.
  - cbn [app]. rewrite !app_nil_r. destruct (open s); [|done]. destruct (buf s) as [|b0 b] eqn:Eb; cbn [uploads buf]; [rewrite Eb; by rewrite !app_nil_r|].
    rewrite !uploaded_snoc. cbn [Bool.eqb]. rewrite !app_nil_r, concat_app. cbn [concat]. rewrite app_nil_r. split_and!; [done|done|]. apply Forall_app. split; [done|by constructor].
  - cbn [app uploads buf]. by rewrite !app_nil_r.
Qed.

(** ** Files *)
Definition accepted (s : FileSink) (e : file_event) : bytes :=
  match e with FSend o n _ => if now_out o then [] else match fd s with Some _ => if doWrite s then take n (Body o) else [] | None => [] end | _ => [] end.
Definition created_by (s : FileSink) (e : file_event) : list string :=
  match e with
  | Toggle name true => if doWrite s then [] else [name]
  | FTick name true => if doWrite s then [name] else []
  | _ => []
  end.
Definition stored (s : FileSink) (e : file_event) : list (string * bytes) :=
  match e with FSend o _ name => if now_out o && doWrite s then [(name, Body o)] else [] | _ => [] end.
(** Along a run: the bytes that were taken, the files that were made for them and those of messages by themselves. *)
Fixpoint file_trace (s : FileSink) (l : list file_event) : bytes * list string * list (string * bytes) :=
  match l with
  | [] => ([], [], [])
  | e :: l =>
      match file_step s e with
      | Ok s' => let '(b, ns, fs) := file_trace s' l in (accepted s e ++ b, created_by s e ++ ns, stored s e ++ fs)
      | _ => ([], [], [])
      end
  end.
Definition name_of (e : file_event) : string := match e with FSend _ _ n | Toggle n _ | FTick n _ => n end.
Definition content (s : FileSink) (n : string) : bytes := default [] (files s !! n).

Record file_ok (s : FileSink) (used : gset string) (made : list string) (taken : bytes) (al : list (string * bytes)) : Prop := {
  fo_content : concat (content s <$> made) = taken;
  fo_names : NoDup made;
  fo_used n : n ∈ made → n ∈ used;
  fo_alone n b : (n, b) ∈ al → files s !! n = Some b ∧ n ∉ made ∧ n ∈ used;
  fo_fd f : fd s = Some f → (∃ l, made = l ++ [f]) ∧ Z.of_nat (length (content s f)) ≤ written s;
  fo_written : 0 ≤ written s }.

(** A new file, of a name that was not used. *)
Lemma file_ok_create s used made taken al n : file_ok s used made taken al → n ∉ used → file_ok (create n s) ({[n]} ∪ used) (made ++ [n]) taken al.
Proof.
  intros [Hc Hn Hu Ha Hf Hw] Hnew. assert (n ∉ made) as Hnm by auto. assert (content (create n s) n = []) as Hcn by (unfold content; cbn; by rewrite lookup_insert_eq).
  assert (∀ k, k ≠ n → files (create n s) !! k = files s !! k) as Hk by (intros k Hk; cbn; by rewrite lookup_insert_ne).
  split; [| | | | |done].
  - rewrite fmap_app, concat_app. cbn [fmap list_fmap concat]. rewrite Hcn, !app_nil_r, <-Hc. f_equal. apply list_fmap_ext. intros i k Hi. unfold content. rewrite Hk; [done|].
    intros ->. apply Hnm. by eapply list_elem_of_lookup_2.
  - apply NoDup_app. split; [done|]. split; [|apply NoDup_singleton]. intros k Hk' ->%list_elem_of_singleton. done.
  - intros k [Hk'| ->%list_elem_of_singleton]%elem_of_app; [apply Hu in Hk'|]; set_solver.
  - intros k b Hkb. destruct (Ha _ _ Hkb) as (H1 & H2 & H3). assert (k ≠ n) by (intros ->; done). rewrite Hk by done. split; [done|]. split; [|set_solver].
    intros [?|?%list_elem_of_singleton]%elem_of_app; done.
  - intros f [= <-]. split; [by eexists|]. rewrite Hcn. cbn. done.
Qed.
Lemma file_ok_used s used made taken al n : file_ok s used made taken al → file_ok s ({[n]} ∪ used) made taken al.
Proof. intros [Hc Hn Hu Ha Hf Hw]. split; try done; [intros k Hk; apply Hu in Hk; set_solver|]. intros k b Hkb. destruct (Ha _ _ Hkb) as (? & ? & ?). split_and!; [done|done|set_solver]. Qed.
Lemma file_ok_same s s' used made taken al : file_ok s used made taken al → files s' = files s → fd s' = fd s → written s' = written s → file_ok s' used made taken al.
Proof. intros [Hc Hn Hu Ha Hf Hw] Ef Ed Ew. unfold content in *. split; rewrite ?Ef, ?Ed, ?Ew; auto; unfold content; rewrite ?Ef; auto. Qed.
(** A file is only removed when nothing was written since the last tick, and so is empty. *)
Lemma file_ok_close s used made taken al f : file_ok s used made taken al → fd s = Some f →
  file_ok (mkFileSink (doWrite s) None 0 (files (remove_if_unwritten f s))) used made taken al.
Proof.
  intros [Hc Hn Hu Ha Hf Hw] Hfd. destruct (Hf _ Hfd) as [[l Hl] Hlen]. assert (f ∈ made) as Hfm by (rewrite Hl; apply elem_of_app; right; by left).
  unfold remove_if_unwritten. destruct (Z.eqb_spec (written s) 0) as [E|E]; [|split; try done; by intros f' [=]].
  assert (content s f = []) as Hcf by (apply length_zero_iff_nil; lia). split; try done; cbn [files fd].
  - rewrite <-Hc. f_equal. apply list_fmap_ext. intros i k _. unfold content in *. cbn [files]. destruct (decide (k = f)) as [->|Hk]; [by rewrite lookup_delete_eq, Hcf|by rewrite lookup_delete_ne].
  - intros k b Hkb. destruct (Ha _ _ Hkb) as (H1 & H2 & H3). rewrite lookup_delete_ne by (intros ->; done). done.
Qed.
Lemma file_ok_write s used made taken al f b : file_ok s used made taken al → fd s = Some f →
  file_ok (mkFileSink (doWrite s) (Some f) (written s + Z.of_nat (length b)) (<[f := default [] (files s !! f) ++ b]> (files s))) used made (taken ++ b) al.
Proof.
  intros [Hc Hn Hu Ha Hf Hw] Hfd. destruct (Hf _ Hfd) as [[l Hl] Hlen]. subst made. apply NoDup_app in Hn as (Hn & Hd & Hn1).
  split; cbn [files fd written]; try done.
  - rewrite <-Hc, !fmap_app, !concat_app. cbn [fmap list_fmap concat]. rewrite !app_nil_r. unfold content at 2. cbn [files]. rewrite lookup_insert_eq. cbn [default from_option id]. rewrite <-app_assoc. f_equal.
    f_equal. apply list_fmap_ext. intros i k Hi. unfold content. cbn [files]. rewrite lookup_insert_ne; [done|]. intros <-. apply list_elem_of_lookup_2 in Hi. apply (Hd f Hi). by left.
  - apply NoDup_app. done.
  - intros k c Hkc. destruct (Ha _ _ Hkc) as (H1 & H2 & H3). rewrite lookup_insert_ne; [done|]. intros <-. apply H2, elem_of_app. right. by left.
  - intros f' [= <-]. split; [by eexists|]. unfold content in *. cbn [files]. rewrite lookup_insert_eq. cbn [default from_option id]. rewrite length_app. lia.
  - lia.
Qed.
Lemma file_ok_alone s used made taken al n b : file_ok s used made taken al → n ∉ used → file_ok (put_file n b s) ({[n]} ∪ used) made taken (al ++ [(n, b)]).
Proof.
  intros [Hc Hn Hu Ha Hf Hw] Hnew. assert (n ∉ made) as Hnm by auto. assert (∀ k, k ∈ made → content (put_file n b s) k = content s k) as Hk.
  { intros k Hk. unfold content. cbn. rewrite lookup_insert_ne; [done|]. intros ->. done. }
  split; cbn [put_file fd written]; try done.
  - rewrite <-Hc. f_equal. apply list_fmap_ext. intros i k Hi. apply Hk. by eapply list_elem_of_lookup_2.
  - intros k Hk'. apply Hu in Hk'. set_solver.
  - intros k c [Hkc|[= -> ->]%list_elem_of_singleton]%elem_of_app; cbn [put_file files].
    + destruct (Ha _ _ Hkc) as (H1 & H2 & H3). rewrite lookup_insert_ne by (intros ->; done). split_and!; [done|done|set_solver].
    + rewrite lookup_insert_eq. split_and!; [done|done|set_solver].
  - intros f Hf'. destruct (Hf _ Hf') as [[l Hl] Hlen]. split; [by exists l|]. rewrite Hk; [done|]. rewrite Hl. apply elem_of_app. right. by left.
Qed.

Lemma file_ok_step s s' e used made taken al : file_ok s used made taken al → name_of e ∉ used → file_step s e = Ok s' →
  file_ok s' ({[name_of e]} ∪ used) (made ++ created_by s e) (taken ++ accepted s e) (al ++ stored s e).
Proof.
  intros Hok Hnew E. destruct e as [o n name|name created|name created]; cbn [name_of created_by accepted stored file_step] in *; rewrite ?app_nil_r.
  - destruct (now_out o); cbn [andb].
    + injection E as <-. rewrite app_nil_r. destruct (doWrite s); [by apply file_ok_alone|]. rewrite app_nil_r. by apply file_ok_used.
    + rewrite app_nil_r. destruct (fd s) as [f|] eqn:Ef; [destruct (doWrite s) eqn:Ew|]; injection E as <-; rewrite ?app_nil_r; [|by apply file_ok_used..].
      apply file_ok_used. pose proof (file_ok_write s used made taken al f (take n (Body o)) Hok Ef) as H0. by rewrite Ew in H0.
  - injection E as <-. set (s1 := mkFileSink (negb (doWrite s)) (fd s) (written s) (files s)).
    assert (file_ok s1 used made taken al) as H1 by by eapply file_ok_same. change (doWrite s1) with (negb (doWrite s)). destruct (doWrite s), created; cbn [negb andb]; rewrite ?app_nil_r; try by apply file_ok_used.
    by apply file_ok_create.
  - destruct (doWrite s) eqn:Ew; [|injection E as <-; destruct created; rewrite ?app_nil_r; by apply file_ok_used]. destruct (fd s) as [f|] eqn:Ef; [|done].
    pose proof (file_ok_close s used made taken al f Hok Ef) as H1. injection E as <-.
    assert (doWrite (remove_if_unwritten f s) = doWrite s) as Hw by (unfold remove_if_unwritten; by destruct (_ =? 0)).
    destruct created; rewrite ?app_nil_r.
    + apply file_ok_create with (n := name) in H1; [|done]. eapply file_ok_same; [exact H1|done..].
    + apply file_ok_used. eapply file_ok_same; [exact H1|done..].
Qed.
Lemma file_ok_run l s s' used made taken al : file_ok s used made taken al → NoDup (name_of <$> l) → (∀ e, e ∈ l → name_of e ∉ used) → file_run s l = Ok s' →
  let '(b, ns, fs) := file_trace s l in ∃ used', file_ok s' used' (made ++ ns) (taken ++ b) (al ++ fs).
Proof.
  revert s used made taken al. induction l as [|e l IH]; intros s used made taken al Hok Hn Hu E; cbn [file_run file_trace] in *.
  { injection E as <-. rewrite !app_nil_r. by exists used. }
  apply res_bind_Ok in E as (s1 & E1 & E). rewrite E1. cbn [fmap list_fmap] in Hn. apply NoDup_cons in Hn as [He Hn].
  specialize (IH s1 _ _ _ _ (file_ok_step _ _ _ _ _ _ _ Hok (Hu e ltac:(by left)) E1) Hn). destruct (file_trace s1 l) as [[b ns] fs]. rewrite !app_assoc. apply IH; [|done].
  intros e' He'. pose proof (Hu e' ltac:(by right)). intros [Hx%elem_of_singleton|Hx]%elem_of_union; [|done]. apply He. rewrite <-Hx. apply list_elem_of_fmap. by exists e'.
Qed.

(** C28: As long as no name is made twice, the files of the sink together have, in order, every byte that was written while it was on, and
    each message that is written by itself has its file: files are only removed when they are empty. *)
Theorem file_keeps_all immediate name l s s' : file_Init immediate None None name ∅ = Ok s → NoDup (name :: (name_of <$> l)) → file_run s l = Ok s' →
  let '(b, ns, fs) := file_trace s l in
  concat (content s' <$> (if immediate then [name] else []) ++ ns) = b ∧ ∀ n c, (n, c) ∈ fs → files s' !! n = Some c.
Proof.
  intros Hi [Hn0 Hn]%NoDup_cons Hr. assert (file_ok (mkFileSink immediate None 0 ∅) ∅ [] [] []) as H0.
  { split; cbn; try done; [constructor|set_solver|set_solver]. }
  assert (∃ used, file_ok s used (if immediate then [name] else []) [] [] ∧ ∀ n, n ∈ used → n = name) as (used & Hs & Hu).
  { unfold file_Init in Hi. destruct immediate; injection Hi as <-; [exists ({[name]} ∪ ∅)|exists ∅]; (split; [|set_solver]); [|done]. apply (file_ok_create _ _ [] _ _ name H0). set_solver. }
  pose proof (file_ok_run l s s' used _ [] [] Hs Hn) as Hrun. destruct (file_trace s l) as [[b ns] fs]. destruct Hrun as (used' & Hok); [|done|].
  - intros e He Hin. apply Hu in Hin. apply Hn0. rewrite <-Hin. apply list_elem_of_fmap. by exists e.
  - split; [apply (fo_content _ _ _ _ _ Hok)|]. intros n c Hin. by apply (fo_alone _ _ _ _ _ Hok) in Hin as (? & _ & _).
Qed.

(** ** Kafka *)
Definition offered (e : kafka_event) : bool := match e with KSend _ false => true | _ => false end.
(** Every message that was offered to the producer waits in it, awaits its answer or was counted, once, as delivered or as
    failed; none waits beyond its room. *)
Theorem kafka_accounts room l s : kafka_run room (mkKafkaState [] 0 no_marks) l = Some s →
  Z.of_nat (length (List.filter offered l)) = Z.of_nat (length (input s)) + Z.of_nat (pending s) + tried (k_meters s) ∧ (length (input s) ≤ room)%nat.
Proof.
  assert (∀ s0, kafka_run room s0 l = Some s → (length (input s0) ≤ room)%nat →
    Z.of_nat (length (List.filter offered l)) + (Z.of_nat (length (input s0)) + Z.of_nat (pending s0) + tried (k_meters s0)) =
    Z.of_nat (length (input s)) + Z.of_nat (pending s) + tried (k_meters s) ∧ (length (input s) ≤ room)%nat) as Hg.
  { induction l as [|e l IH]; intros s0 E Hr; [injection E as <-; cbn; split; [lia|done]|]. cbn [kafka_run] in E. destruct (kafka_step room s0 e) as [s1|] eqn:E1; [|done].
    cbn [mbind option_bind] in E. destruct e as [body []| |ok]; cbn [kafka_step List.filter offered] in *.
    - injection E1 as <-. by apply IH.
    - destruct (Nat.ltb_spec (length (input s0)) room) as [Hlt|Hge]; injection E1 as <-; destruct (IH _ E) as [H1 H2]; cbn [input pending k_meters] in *; rewrite ?length_app in *; cbn [length] in *; try lia.
      split; [|done]. unfold tried in *. cbn in *. lia.
    - destruct (input s0) as [|b i] eqn:Ei; [done|]. injection E1 as <-. destruct (IH _ E) as [H1 H2]; cbn [input pending k_meters length] in *; [lia|]. split; [lia|done].
    - destruct (pending s0) as [|n] eqn:Ep; [done|]. injection E1 as <-. destruct (IH _ E) as [H1 H2]; cbn [input pending k_meters] in *; [done|]. split; [|done]. unfold tried in *. destruct ok; cbn in *; lia. }
  intros E. destruct (Hg _ E) as [H1 H2]; cbn; [lia|]. split; [|done]. cbn in H1. unfold tried in *. cbn in H1. lia.
Qed.

(** ** Concrete inputs *)
Definition some_creds : gmap Cid (string * string) := {[1 := ("100", "key1"); 2 := ("200", "key2")]}%string.
Definition make_one (a k : string) : option NRSink := if String.eqb a "200" then None else Some (mkNRSink a k "" "" "" "" "none" false false).
Definition for_company (cid : Cid) : Output := NewOutputWithProviderAndCompanySender [Byte.x61] "" cid EventOutput "".
Lemma multi_own_account_witness : match (multi_Send some_creds make_one (multi_run some_creds make_one [for_company 2; for_company 1] ∅) (for_company 1)).2 with
  | Some s => some_creds !! 1 = Some (NRAccount s, NRApiKey s) | None => False end.
Proof.
  assert (∀ a k s, make_one a k = Some s → NRAccount s = a ∧ NRApiKey s = k) as Hm.
  { intros a k s E. unfold make_one in E. destruct (String.eqb a "200"); [discriminate E|]. injection E as <-. split; reflexivity. }
  pose proof (multi_own_account some_creds make_one Hm [for_company 2; for_company 1] (for_company 1)) as H.
  destruct (multi_Send some_creds make_one (multi_run some_creds make_one [for_company 2; for_company 1] ∅) (for_company 1)).2 as [s|] eqn:E; [exact H|vm_compute in E; discriminate E].
Defined.

Definition text (s : string) : Output := NewOutput (Records.bytes_of s).
Definition file_events : list file_event := [FSend (text "ab") 2 "x0"; FTick "f1" true; FSend (text "cd") 1 "x1"; FSend (NewOutputNoBuffer (Records.bytes_of "ef")) 0 "x2"; FTick "f2" true; FTick "f3" true]%string.
Definition first_file : FileSink := match file_Init true None None "f0" ∅ with Ok s => s | _ => mkFileSink false None 0 ∅ end.
Definition last_files : FileSink := match file_run first_file file_events with Ok s => s | _ => first_file end.
Lemma file_keeps_all_witness : file_run first_file file_events = Ok last_files ∧ dom (files last_files) = {["f0"; "f1"; "x2"; "f3"]}%string ∧
  concat (content last_files <$> ["f0"; "f1"; "f2"; "f3"]%string) = Records.bytes_of "abc".
Proof.
  assert (file_run first_file file_events = Ok last_files) as E by (vm_compute; reflexivity). split; [exact E|]. split; [vm_compute; reflexivity|].
  assert (NoDup ("f0"%string :: (name_of <$> file_events))) as Hn by (apply (bool_decide_unpack _); vm_compute; exact I).
  exact (proj1 (file_keeps_all true "f0" file_events first_file last_files eq_refl Hn E)).
Defined.

Definition kafka_events : list kafka_event := [KSend [Byte.x61] false; KSend [Byte.x62] false; Takes; Answers true; KSend [Byte.x63] true].
Lemma kafka_accounts_witness : ∃ s, kafka_run 1 (mkKafkaState [] 0 no_marks) kafka_events = Some s ∧ k_meters s = mkMeters 1 1 0 0 ∧ 2 = Z.of_nat (length (input s)) + Z.of_nat (pending s) + tried (k_meters s).
Proof.
  eexists. split; [reflexivity|]. split; [reflexivity|]. exact (proj1 (kafka_accounts 1 kafka_events _ eq_refl)).
Defined.

(** A message that is too big is reported as sent. *)
Example too_big_reported : (sendNR (λ _, None) (mkNRSink "1" "k" "" "" "" "" "none" false false) (Records.bytes_of "flows") (Answered 413 []) no_marks) = (mkMeters 1 0 1 0, None, Some 5%nat).
Proof. reflexivity. Qed.
(** When a file cannot be made, the next tick ends the process. *)
Example no_file_panics : file_run first_file [FTick "f1" false; FTick "f2" true]%string = Panic "invalid memory address or nil pointer dereference".
Proof. vm_compute. reflexivity. Qed.
(** What waits when a bucket is stopped is not uploaded, and lines that wait at the end are not sent. *)
Example bucket_stops : uploads (bucket_run [Send (text "a"); Done; Tick]) = [] ∧ batches (foldl watch start_watch [Log "last"%string; LogDone; LogTick]) = [].
Proof. vm_compute. done. Qed.
(** Logs are sent as they are under a header that says that they are compressed. *)
Example plain_logs_as_gzip : match http_log_request (λ l, Ok (Records.bytes_of l)) (HttpInit "gzip" (mkHttpSink ∅ [] None "u")) ["line"%string] with
  | Ok r => rq_body r = Records.bytes_of "line" ++ [Records.newline] ∧ rq_headers r !! "Content-Encoding"%string = Some "GZIP"%string | _ => False end.
Proof. vm_compute. done. Qed.
(** A write to Google that fails is counted twice as failed and once as delivered. *)
Example gcloud_wins : gcloud_send true true no_marks = mkMeters 2 1 0 0.
Proof. reflexivity. Qed.
(** No flow is kept from going back to where it came from. *)
Example never_cut : cut_short (mkKentikSink "https://flow.kentik.com/chf" true) MSG_KEY_PREFIX = false.
Proof. reflexivity. Qed.
(** A region says where events, metrics and logs go. *)
Example european : (nr_Init first_globals "EU" "77" "k" "new_relic" "gzip" false false).2 =
  Ok (mkNRSink "77" "k" "https://insights-collector.eu01.nr-data.net/v1/accounts/77/events" "https://insights-collector.eu01.nr-data.net/v1/accounts/77/events" "https://metric-api.eu.newrelic.com/metric/v1" "https://log-api.eu.newrelic.com/log/v1" "gzip" false false).
Proof. vm_compute. reflexivity. Qed.
