(* ===== verification/Config.v ===== *)
(** The configuration of the program (src/config.go): its parts, their defaults, and how it is
    loaded and saved.

    A pointer to a part is [None] when nil.  Reading and writing files and yaml are parameters. *)
From Stdlib Require Import Floats.SpecFloat.
From S2P Require Import Prelude GoStrings.
Local Open Scope Z_scope.

Definition FlowFields : string := "Type,TimeReceived,SequenceNum,SamplingRate,FlowDirection,SamplerAddress,TimeFlowStart,TimeFlowEnd,Bytes,Packets,SrcAddr,DstAddr,Etype,Proto,SrcPort,DstPort,InIf,OutIf,SrcMac,DstMac,SrcVlan,DstVlan,VlanId,IPTos,ForwardingStatus,IPTTL,TCPFlags,IcmpType,IcmpCode,IPv6FlowLabel,FragmentId,FragmentOffset,SrcAS,DstAS,NextHop,NextHopAS,SrcNet,DstNet,MPLSCount".
Definition FlowDefaultFields : string := "TimeReceived,SamplingRate,Bytes,Packets,SrcAddr,DstAddr,Proto,SrcPort,DstPort,InIf,OutIf,SrcVlan,DstVlan,TCPFlags,SrcAS,DstAS,Type,SamplerAddress,FlowDirection".
Definition KentikAPITokenEnvVar : string := "KENTIK_API_TOKEN".
Definition MaxNetflowsPerMessage : Z := 510.
Definition float64_1 : spec_float := binary_normalize 53 1024 1 0 false.

(** ** The parts *)
Record NetflowFormatConfig := mkNetflowFormatConfig {
  Netflow_Version : string }.
Record InfluxDBFormatConfig := mkInfluxDBFormatConfig {
  InfluxDB_MeasurementPrefix : string; InfluxDB_NamespaceToken : string }.
Record PrometheusFormatConfig := mkPrometheusFormatConfig {
  Prometheus_EnableCollectorStats : bool; Prometheus_FlowsNeeded : Z }.
Record ElasticFormatConfig := mkElasticFormatConfig {
  Elastic_Action : string }.
Record OtelFormatConfig := mkOtelFormatConfig {
  Otel_Endpoint : string; Otel_Protocol : string; Otel_ClientCert : string; Otel_ClientKey : string; Otel_RootCA : string; Otel_NoBlockExport : bool }.
Record RedisFormatConfig := mkRedisFormatConfig {
  Redis_RedisAddr : string; Redis_RedisPassword : string; Redis_RedisDB : Z; Redis_KeyPrefix : string; Redis_KeyTTLSeconds : Z }.
Record SnmpFormatConfig := mkSnmpFormatConfig {
  Snmp_ConfigFile : string }.
Record PrometheusSinkConfig := mkPrometheusSinkConfig {
  PromSink_ListenAddr : string; PromSink_RemoteWriteUrl : string }.
Record GCloudSinkConfig := mkGCloudSinkConfig {
  GCloud_Bucket : string; GCloud_Prefix : string; GCloud_ContentType : string; GCloud_FlushIntervalSeconds : Z }.
Record S3SinkConfig := mkS3SinkConfig {
  S3_Bucket : string; S3_Prefix : string; S3_FlushIntervalSeconds : Z; S3_AssumeRoleARN : string; S3_Region : string; S3_EC2InstanceProfile : bool;
  S3_AssumeRoleOrInstanceProfileIntervalSeconds : Z; S3_CheckDangling : bool; S3_Endpoint : string; S3_SigningRegion : string }.
Record NetSinkConfig := mkNetSinkConfig {
  Net_Endpoint : string; Net_Protocol : string }.
Record NewRelicSinkConfig := mkNewRelicSinkConfig {
  NewRelic_Account : string; NewRelic_EstimateOnly : bool; NewRelic_Region : string; NewRelic_ValidateJSON : bool }.
Record NRCred := mkNRCred {
  NRAccount : string; NRApiToken : string }.
Record NewRelicMultiSinkConfig := mkNewRelicMultiSinkConfig {
  NewRelicMulti_CredMap : option (gmap Z NRCred) }.
Record FileSinkConfig := mkFileSinkConfig {
  File_Path : string; File_EnableImmediateWrite : bool; File_FlushIntervalSeconds : Z }.
Record GCloudPubSubSinkConfig := mkGCloudPubSubSinkConfig {
  PubSub_ProjectID : string; PubSub_Topic : string }.
Record HTTPSinkConfig := mkHTTPSinkConfig {
  HTTP_Target : string; HTTP_TargetLogs : string; HTTP_Headers : list string; HTTP_InsecureSkipVerify : bool; HTTP_TimeoutInSeconds : Z }.
Record KafkaSinkConfig := mkKafkaSinkConfig {
  Kafka_Topic : string; Kafka_BootstrapServers : string; Kafka_SecurityProtocol : string; Kafka_SASLMechanism : string; Kafka_SASLUsername : string;
  Kafka_SASLPassword : string; Kafka_KerberosServiceName : string; Kafka_KerberosRealm : string; Kafka_KerberosConfigPath : string;
  Kafka_KerberosKeytabPath : string; Kafka_KerberosPrincipal : string; Kafka_KerberosDisablePAFXFAST : bool; Kafka_SSLCAFile : string;
  Kafka_SSLCertFile : string; Kafka_SSLKeyFile : string; Kafka_SSLInsecure : bool; Kafka_RequiredAcks : Z; Kafka_Compression : string;
  Kafka_MaxMessageBytes : Z; Kafka_RetryMax : Z; Kafka_FlushFrequency : Z; Kafka_FlushMessages : Z; Kafka_FlushBytes : Z }.
Record KentikSinkConfig := mkKentikSinkConfig {
  Kentik_RelayURL : string }.
Record DDogSinkConfig := mkDDogSinkConfig {
  DDog_URL : string }.
Record RollupConfig := mkRollupConfig {
  Rollup_JoinKey : string; Rollup_TopK : Z; Rollup_Formats : list string; Rollup_KeepUndefined : bool; Rollup_MaxMemoryMB : Z; Rollup_MaxKeys : Z;
  Rollup_EmergencyCleanup : bool }.
Record KMuxConfig := mkKMuxConfig {
  KMux_Dir : string }.
Record ServerConfig := mkServerConfig {
  Server_ServiceName : string; Server_LogLevel : string; Server_LogToStdout : bool; Server_MetricsEndpoint : string; Server_MetaListenAddr : string;
  Server_OllyDataset : string; Server_OllyWriteKey : string; Server_CfgPath : string }.
Record APIConfig := mkAPIConfig {
  API_DeviceFile : string }.
Record SyslogInputConfig := mkSyslogInputConfig {
  Syslog_Enable : bool; Syslog_ListenAddr : string; Syslog_EnableTCP : bool; Syslog_EnableUDP : bool; Syslog_EnableUnix : bool;
  Syslog_Format : string; Syslog_Threads : Z }.
Record SNMPInputConfig := mkSNMPInputConfig {
  SNMP_Enable : bool; SNMP_SNMPFile : string; SNMP_DumpMIBs : bool; SNMP_FlowOnly : bool; SNMP_JSONToYAML : string; SNMP_WalkTarget : string;
  SNMP_WalkOID : string; SNMP_WalkFormat : string; SNMP_OutputFile : string; SNMP_DiscoveryIntervalMinutes : Z; SNMP_DiscoveryOnStart : bool;
  SNMP_ValidateMIBs : bool; SNMP_RunFromWalkFile : string; SNMP_PollNowTarget : string }.
Record GCPVPCInputConfig := mkGCPVPCInputConfig {
  GCP_Enable : bool; GCP_ProjectID : string; GCP_Subject : string; GCP_SampleRate : spec_float }.
Record AWSVPCInputConfig := mkAWSVPCInputConfig {
  AWS_Enable : bool; AWS_IAMRole : string; AWS_SQSName : string; AWS_Regions : list string; AWS_IsLambda : bool; AWS_LocalFile : string }.
Record FlowInputConfig := mkFlowInputConfig {
  Flow_Enable : bool; Flow_Protocol : string; Flow_ListenIP : string; Flow_ListenPort : Z; Flow_EnableReusePort : bool; Flow_Workers : Z;
  Flow_QueueSize : Z; Flow_MessageFields : string; Flow_PrometheusListenAddr : string; Flow_MappingFile : string }.
Record KentikCred := mkKentikCred {
  APIEmail : string; APIToken : string }.
Record ConfigManager := mkConfigManager {
  Manager_ConfigImpl : string; Manager_PollTimeSec : Z }.
Record StitchConfig := mkStitchConfig {
  Stitch_Enable : bool; Stitch_BufLen : Z }.
Record Config := mkConfig {
  ListenAddr : string; MappingFile : string; UDRSFile : string; KMUdr : string; GeoFile : string; ASNFile : string; ApplicationFile : string;
  DNS : string; ProcessingThreads : Z; InputThreads : Z; MaxThreads : Z; Format : string; FormatRollup : string; FormatMetric : string;
  Compression : string; Sinks : list string; MaxFlowsPerMessage : Z; RollupInterval : Z; RollupAndAlpha : bool; SampleRate : Z; SampleMin : Z;
  EnableSNMPDiscovery : bool; KentikCreds : list KentikCred; KentikPlan : Z; APIBaseURL : string; GRPCBaseURL : string; SSLCertFile : string;
  SSLKeyFile : string; TagMapType : string; EnableTeeLogs : bool; EnableHTTPInput : bool; HttpRemoteIp : string; EnricherURL : string;
  TeeFlow : string; EnricherSource : string; EnricherScript : string; TagMapFile : string; TagMapCity : string; TagMapRegion : string;
  NetflowFormat : option NetflowFormatConfig; PrometheusFormat : option PrometheusFormatConfig; InfluxDBFormat : option InfluxDBFormatConfig;
  OtelFormat : option OtelFormatConfig; RedisFormat : option RedisFormatConfig; SnmpFormat : option SnmpFormatConfig;
  ElasticFormat : option ElasticFormatConfig; PrometheusSink : option PrometheusSinkConfig; GCloudSink : option GCloudSinkConfig;
  S3Sink : option S3SinkConfig; NetSink : option NetSinkConfig; NewRelicSink : option NewRelicSinkConfig;
  NewRelicMultiSink : option NewRelicMultiSinkConfig; FileSink : option FileSinkConfig; GCloudPubSubSink : option GCloudPubSubSinkConfig;
  HTTPSink : option HTTPSinkConfig; KafkaSink : option KafkaSinkConfig; KentikSink : option KentikSinkConfig; DDogSink : option DDogSinkConfig;
  Rollup : option RollupConfig; KMux : option KMuxConfig; Server : option ServerConfig; API : option APIConfig; Filters : list string;
  SyslogInput : option SyslogInputConfig; SNMPInput : option SNMPInputConfig; GCPVPCInput : option GCPVPCInputConfig;
  AWSVPCInput : option AWSVPCInputConfig; FlowInput : option FlowInputConfig; CfgManager : option ConfigManager; Lilo : option StitchConfig }.

(** [c <| field := v |>] assigns one field of a struct. *)
Class Update {R A} (f : R → A) := update : A → R → R.
Arguments update {R A} f {_} v r.
Declare Scope config_scope.
Notation "c <| f := v |>" := (update f v c) (at level 1, left associativity, f at level 9, v at level 80) : config_scope.
#[local] Open Scope config_scope.
Ltac build_raw f :=
  let v := fresh "v" in let r := fresh "r" in let o := fresh "old" in
  intros v r; refine (let o := f r in _); destruct r;
  let t := eval cbv delta [o] in o in
  lazymatch t with _ ?arg =>
    let x := eval cbn in t in
    let p := eval pattern x in arg in
    lazymatch p with ?g _ => let e := eval cbv beta in (g v) in exact e end
  end.
Ltac build_update :=
  lazymatch goal with
  | |- @Update ?R ?A ?f =>
      let e := constr:(ltac:(build_raw f) : A → R → R) in
      let e := eval cbv beta zeta in e in exact e
  end.
#[export] Hint Extern 0 (Update ?f) => build_update : typeclass_instances.

(** ** Defaults *)
Definition DefaultConfig : Config :=
  {| ListenAddr := "127.0.0.1:8081"; MappingFile := ""; UDRSFile := ""; KMUdr := ""; GeoFile := ""; ASNFile := ""; ApplicationFile := ""; DNS := "";
     ProcessingThreads := 1; InputThreads := 1; MaxThreads := 1; Format := "flat_json"; FormatRollup := ""; FormatMetric := ""; Compression := "none";
     Sinks := ["stdout"]; MaxFlowsPerMessage := 10000; RollupInterval := 0; RollupAndAlpha := false; SampleRate := 1; SampleMin := 1;
     EnableSNMPDiscovery := false; KentikCreds := []; KentikPlan := 0; APIBaseURL := "https://api.kentik.com"; GRPCBaseURL := ""; SSLCertFile := "";
     SSLKeyFile := ""; TagMapType := ""; EnableTeeLogs := false; EnableHTTPInput := false; HttpRemoteIp := ""; EnricherURL := ""; TeeFlow := "";
     EnricherSource := ""; EnricherScript := ""; TagMapFile := ""; TagMapCity := ""; TagMapRegion := "";
     NetflowFormat := Some {| Netflow_Version := "ipfix" |};
     PrometheusFormat := Some {| Prometheus_EnableCollectorStats := false; Prometheus_FlowsNeeded := 10 |};
     InfluxDBFormat := Some {| InfluxDB_MeasurementPrefix := ""; InfluxDB_NamespaceToken := ":" |};
     OtelFormat := Some {| Otel_Endpoint := ""; Otel_Protocol := "stdout"; Otel_ClientCert := ""; Otel_ClientKey := ""; Otel_RootCA := "";
       Otel_NoBlockExport := false |};
     RedisFormat := Some {| Redis_RedisAddr := "localhost:6379"; Redis_RedisPassword := ""; Redis_RedisDB := 0; Redis_KeyPrefix := "";
       Redis_KeyTTLSeconds := 60 |};
     SnmpFormat := Some {| Snmp_ConfigFile := "" |}; ElasticFormat := Some {| Elastic_Action := "index" |};
     PrometheusSink := Some {| PromSink_ListenAddr := ":8082"; PromSink_RemoteWriteUrl := "" |};
     GCloudSink := Some {| GCloud_Bucket := ""; GCloud_Prefix := "/kentik"; GCloud_ContentType := "application/json";
       GCloud_FlushIntervalSeconds := 60 |};
     S3Sink := Some {| S3_Bucket := ""; S3_Prefix := "/kentik"; S3_FlushIntervalSeconds := 60; S3_AssumeRoleARN := ""; S3_Region := "us-east-1";
       S3_EC2InstanceProfile := false; S3_AssumeRoleOrInstanceProfileIntervalSeconds := 900; S3_CheckDangling := false; S3_Endpoint := "";
       S3_SigningRegion := "" |};
     NetSink := Some {| Net_Endpoint := ""; Net_Protocol := "udp" |};
     NewRelicSink := Some {| NewRelic_Account := ""; NewRelic_EstimateOnly := false; NewRelic_Region := ""; NewRelic_ValidateJSON := false |};
     NewRelicMultiSink := Some {| NewRelicMulti_CredMap := None |};
     FileSink := Some {| File_Path := "./"; File_EnableImmediateWrite := false; File_FlushIntervalSeconds := 60 |};
     GCloudPubSubSink := Some {| PubSub_ProjectID := ""; PubSub_Topic := "" |};
     HTTPSink := Some {| HTTP_Target := "http://localhost:8086/write?db=kentik"; HTTP_TargetLogs := "http://localhost:8088/services/collector/event";
       HTTP_Headers := []; HTTP_InsecureSkipVerify := false; HTTP_TimeoutInSeconds := 30 |};
     KafkaSink := Some {| Kafka_Topic := ""; Kafka_BootstrapServers := ""; Kafka_SecurityProtocol := "PLAINTEXT"; Kafka_SASLMechanism := "";
       Kafka_SASLUsername := ""; Kafka_SASLPassword := ""; Kafka_KerberosServiceName := "kafka"; Kafka_KerberosRealm := "";
       Kafka_KerberosConfigPath := "/etc/krb5.conf"; Kafka_KerberosKeytabPath := ""; Kafka_KerberosPrincipal := "";
       Kafka_KerberosDisablePAFXFAST := false; Kafka_SSLCAFile := ""; Kafka_SSLCertFile := ""; Kafka_SSLKeyFile := ""; Kafka_SSLInsecure := false;
       Kafka_RequiredAcks := 1; Kafka_Compression := "none"; Kafka_MaxMessageBytes := 1000000; Kafka_RetryMax := 3; Kafka_FlushFrequency := 100;
       Kafka_FlushMessages := 100; Kafka_FlushBytes := (64 * 1024) |};
     KentikSink := Some {| Kentik_RelayURL := "" |}; DDogSink := Some {| DDog_URL := "" |};
     Rollup := Some {| Rollup_JoinKey := "^"; Rollup_TopK := 10; Rollup_Formats := []; Rollup_KeepUndefined := false; Rollup_MaxMemoryMB := 100;
       Rollup_MaxKeys := 5000; Rollup_EmergencyCleanup := true |};
     KMux := Some {| KMux_Dir := "." |};
     Server := Some {| Server_ServiceName := ""; Server_LogLevel := "info"; Server_LogToStdout := false; Server_MetricsEndpoint := "none";
       Server_MetaListenAddr := "localhost:0"; Server_OllyDataset := ""; Server_OllyWriteKey := ""; Server_CfgPath := "" |};
     API := Some {| API_DeviceFile := "" |}; Filters := [];
     SyslogInput := Some {| Syslog_Enable := false; Syslog_ListenAddr := ""; Syslog_EnableTCP := true; Syslog_EnableUDP := true;
       Syslog_EnableUnix := false; Syslog_Format := "Automatic"; Syslog_Threads := 1 |};
     SNMPInput := Some {| SNMP_Enable := false; SNMP_SNMPFile := ""; SNMP_DumpMIBs := false; SNMP_FlowOnly := false; SNMP_JSONToYAML := "";
       SNMP_WalkTarget := ""; SNMP_WalkOID := ".1.3.6.1.2.1"; SNMP_WalkFormat := ""; SNMP_OutputFile := ""; SNMP_DiscoveryIntervalMinutes := 0;
       SNMP_DiscoveryOnStart := false; SNMP_ValidateMIBs := false; SNMP_RunFromWalkFile := ""; SNMP_PollNowTarget := "" |};
     GCPVPCInput := Some {| GCP_Enable := false; GCP_ProjectID := ""; GCP_Subject := ""; GCP_SampleRate := float64_1 |};
     AWSVPCInput := Some {| AWS_Enable := false; AWS_IAMRole := ""; AWS_SQSName := ""; AWS_Regions := ["us-east-1"]; AWS_IsLambda := false;
       AWS_LocalFile := "" |};
     FlowInput := Some {| Flow_Enable := false; Flow_Protocol := ""; Flow_ListenIP := "0.0.0.0"; Flow_ListenPort := 9995;
       Flow_EnableReusePort := false; Flow_Workers := 2; Flow_QueueSize := 10000; Flow_MessageFields := FlowDefaultFields;
       Flow_PrometheusListenAddr := ""; Flow_MappingFile := "" |};
     CfgManager := Some {| Manager_ConfigImpl := ""; Manager_PollTimeSec := 1200 |}; Lilo := Some {| Stitch_Enable := false; Stitch_BufLen := 10000 |} |}.

(** [cfg.Part.Field = v], for a part behind a pointer. *)
Definition on {P} (part : Config → option P) `{!Update part} (f : P → P) (c : Config) : res Config :=
  match part c with Some p => Ok (c <| part := Some (f p) |>) | None => Panic "nil pointer dereference" end.

(** ** Loading and saving *)

Class ConfigStore := {
  snmp_util_LoadFile : string → error + list byte;
  snmp_util_WriteFile : string → list byte → option error;
  yaml_Unmarshal : list byte → error + Config;
  yaml_Marshal : Config → error + list byte }.

Section Store.
Context `{ConfigStore}.

Definition capped (c : Config) : Config :=
  if String.eqb (Format c) "netflow" && ((MaxFlowsPerMessage c <=? 0) || (MaxNetflowsPerMessage <? MaxFlowsPerMessage c))
  then c <| MaxFlowsPerMessage := MaxNetflowsPerMessage |> else c.

Definition LoadConfig (path : string) : error + Config :=
  match snmp_util_LoadFile path with
  | inl err => inl err
  | inr by_ => match yaml_Unmarshal by_ with inl err => inl err | inr c => inr (capped c) end
  end.

(** The file is written as it is read, so what is saved can be loaded. *)
Definition SaveConfig (c : Config) : res (option error) :=
  match yaml_Marshal c with
  | inl err => Ok (Some err)
  | inr t => match Server c with Some s => Ok (snmp_util_WriteFile (Server_CfgPath s) t) | None => Panic "nil pointer dereference" end
  end.

(** A file that asks for NetFlow gets messages that fit in a packet. *)
Lemma LoadConfig_netflow path c : LoadConfig path = inr c → Format c = "netflow" →
  0 < MaxFlowsPerMessage c ≤ MaxNetflowsPerMessage ∧ 16 + 96 + 128 * MaxFlowsPerMessage c ≤ 65535.
Proof.
  unfold LoadConfig. destruct (snmp_util_LoadFile path) as [|b]; [done|]. destruct (yaml_Unmarshal b) as [|d]; [done|].
  intros [= <-]. unfold capped, MaxNetflowsPerMessage. case_match eqn:E.
  - destruct d; cbn. lia.
  - intros Hf. rewrite Hf, String.eqb_refl in E. cbn [andb] in E. lia.
Qed.
End Store.

(** Every part is there. *)
Definition complete (c : Config) : Prop :=
  is_Some (NetflowFormat c) ∧ is_Some (PrometheusFormat c) ∧ is_Some (InfluxDBFormat c) ∧ is_Some (OtelFormat c) ∧ is_Some (RedisFormat c) ∧
  is_Some (SnmpFormat c) ∧ is_Some (ElasticFormat c) ∧ is_Some (PrometheusSink c) ∧ is_Some (GCloudSink c) ∧ is_Some (S3Sink c) ∧
  is_Some (NetSink c) ∧ is_Some (NewRelicSink c) ∧ is_Some (NewRelicMultiSink c) ∧ is_Some (FileSink c) ∧ is_Some (GCloudPubSubSink c) ∧
  is_Some (HTTPSink c) ∧ is_Some (KafkaSink c) ∧ is_Some (KentikSink c) ∧ is_Some (DDogSink c) ∧ is_Some (Rollup c) ∧ is_Some (KMux c) ∧
  is_Some (Server c) ∧ is_Some (API c) ∧ is_Some (SyslogInput c) ∧ is_Some (SNMPInput c) ∧ is_Some (GCPVPCInput c) ∧ is_Some (AWSVPCInput c) ∧
  is_Some (FlowInput c) ∧ is_Some (CfgManager c) ∧ is_Some (Lilo c).

Lemma DefaultConfig_complete : complete DefaultConfig.
Proof. unfold complete, DefaultConfig; cbn. repeat split; by eexists. Qed.

Example update_one : MaxFlowsPerMessage (DefaultConfig <| Format := "netflow" |> <| SampleRate := 7 |>) = 10000 ∧
  SampleRate (DefaultConfig <| Format := "netflow" |> <| SampleRate := 7 |>) = 7.
Proof. split; reflexivity. Qed.
