(* ===== verification/CommandLine.v ===== *)
(** The command line (src/cmd/ktranslate/main.go): the flags of all packages, how they become the
    configuration ([applyFlags]), the modes ([applyMode]) and how [main] puts the two together with a
    configuration file.

    Flags arrive as the [flag] package has parsed them.  Floats as text, the file system, the environment
    and the library that merges configurations are parameters. *)
From Stdlib Require Import Floats.SpecFloat.
From S2P Require Import Prelude GoStrings.
From S2P Require Import KtHelpers.
From S2P Require Import Config.
Local Open Scope Z_scope.
Local Open Scope config_scope.

(** ** Flags *)

(** The value of a flag, by its type.  A float is its text. *)
Inductive flag_value := TStr (s : string) | TInt (z : Z) | TBool (b : bool) | TFloat (text : string) | TList (l : list string) (sep : string).

(** [f.Value.String()]. *)
Definition value_String (v : flag_value) : string :=
  match v with
  | TStr s => s
  | TInt z => Itoa z
  | TBool b => if b then "true" else "false"
  | TFloat t => t
  | TList l sep => Join l sep
  end.

Definition AndToken : string := " and ".

Section Declared.
Variable LookupEnv : string → option string.

(** The flags that packages declare, with their defaults. *)
Definition main_flags : list (string * flag_value) := [
  ("listen", TStr "127.0.0.1:8081"); ("mapping", TStr ""); ("udrs", TStr ""); ("geo", TStr ""); ("asn", TStr ""); ("dns", TStr "");
  ("threads", TInt 1); ("input_threads", TInt 1); ("max_threads", TInt 1); ("format", TStr "flat_json"); ("format_rollup", TStr "");
  ("format_metric", TStr ""); ("compression", TStr "none"); ("sinks", TStr "stdout"); ("max_flows_per_message", TInt 10000);
  ("rollup_interval", TInt 0); ("tee_flow", TStr ""); ("rollup_and_alpha", TBool false);
  ("sample_rate", TInt (LookupEnvInt LookupEnv "KENTIK_SAMPLE_RATE" 1)); ("max_before_sample", TInt 1); ("api_devices", TStr ""); ("snmp", TStr "");
  ("snmp_discovery", TBool false); ("kentik_email", TStr ""); ("kentik_plan", TInt 0); ("api_root", TStr "https://api.kentik.com");
  ("ssl_cert_file", TStr ""); ("ssl_key_file", TStr ""); ("tag_map_type", TStr ""); ("vpc", TStr (LookupEnvString LookupEnv "KENTIK_VPC" ""));
  ("nf.source", TStr ""); ("tee_logs", TBool false); ("application_map", TStr ""); ("syslog.source", TStr ""); ("http.source", TBool false);
  ("enricher", TStr ""); ("config", TStr ""); ("generate-config", TBool false)].
Definition km_flags : list (string * flag_value) := [
  ("km_value_map", TStr "")].
Definition config_flags : list (string * flag_value) := [
  ("config_provider", TStr "")].
Definition file_flags : list (string * flag_value) := [
  ("file_out", TStr "./"); ("file_on", TBool false); ("file_flush_sec", TInt 60)].
Definition net_flags : list (string * flag_value) := [
  ("net_server", TStr ""); ("net_protocol", TStr "udp")].
Definition http_flags : list (string * flag_value) := [
  ("http_url", TStr "http://localhost:8086/write?db=kentik"); ("http_log_url", TStr "http://localhost:8088/services/collector/event");
  ("http_insecure", TBool false); ("http_timeout_sec", TInt 30); ("http_header", TList [] ",")].
Definition pubsub_flags : list (string * flag_value) := [
  ("gcp_pubsub_project_id", TStr ""); ("gcp_pubsub_topic", TStr "")].
Definition prom_sink_flags : list (string * flag_value) := [
  ("prom_listen", TStr "127.0.0.1:8083"); ("prom_remote_write", TStr "")].
Definition kafka_flags : list (string * flag_value) := [
  ("kafka_topic", TStr ""); ("bootstrap.servers", TStr ""); ("kafka_security_protocol", TStr "PLAINTEXT"); ("kafka_sasl_mechanism", TStr "");
  ("kafka_sasl_username", TStr ""); ("kafka_sasl_password", TStr ""); ("kafka_kerberos_service_name", TStr "kafka");
  ("kafka_kerberos_realm", TStr ""); ("kafka_kerberos_config_path", TStr "/etc/krb5.conf"); ("kafka_kerberos_keytab_path", TStr "");
  ("kafka_kerberos_principal", TStr ""); ("kafka_kerberos_disable_pafx_fast", TBool false); ("kafka_ssl_ca_file", TStr "");
  ("kafka_ssl_cert_file", TStr ""); ("kafka_ssl_key_file", TStr ""); ("kafka_ssl_insecure", TBool false); ("kafka_required_acks", TInt 1);
  ("kafka_compression", TStr "none"); ("kafka_max_message_bytes", TInt 1000000); ("kafka_retry_max", TInt 3); ("kafka_flush_frequency", TInt 100);
  ("kafka_flush_messages", TInt 100); ("kafka_flush_bytes", TInt 65536)].
Definition kentik_flags : list (string * flag_value) := [
  ("kentik_relay_url", TStr "")].
Definition gcloud_flags : list (string * flag_value) := [
  ("gcloud_bucket", TStr ""); ("gcloud_prefix", TStr "/kentik"); ("gcloud_content_type", TStr "application/json"); ("gcloud_flush_sec", TInt 60)].
Definition ddog_flags : list (string * flag_value) := [
  ("ddog_url", TStr "https://api.datadoghq.com/api/v2/series")].
Definition s3_flags : list (string * flag_value) := [
  ("s3_bucket", TStr ""); ("s3_prefix", TStr "/kentik"); ("s3_flush_sec", TInt 60); ("s3_assume_role_arn", TStr ""); ("s3_region", TStr "us-east-1");
  ("ec2_instance_profile", TBool false); ("assume_role_or_instance_profile_interval_seconds", TInt 900); ("s3_endpoint", TStr "");
  ("s3_signing_region", TStr "")].
Definition nr_flags : list (string * flag_value) := [
  ("nr_account_id", TStr (LookupEnvString LookupEnv "NR_ACCOUNT_ID" "")); ("nr_estimate_only", TBool false);
  ("nr_region", TStr (LookupEnvString LookupEnv "NR_REGION" "")); ("nr_check_json", TBool false)].
Definition api_flags : list (string * flag_value) := [
  ("api_device_file", TStr "")].
Definition rollup_flags : list (string * flag_value) := [
  ("rollups", TList [] AndToken); ("rollup_key_join", TStr "^"); ("rollup_top_k", TInt 10); ("rollup_keep_undefined", TBool false)].
Definition netflow_flags : list (string * flag_value) := [
  ("netflow_version", TStr "ipfix")].
Definition redis_flags : list (string * flag_value) := [
  ("redis.addr", TStr "localhost:6379"); ("redis.password", TStr ""); ("redis.db", TInt 0); ("redis.key_prefix", TStr "");
  ("redis.ttl.sec", TInt 60)].
Definition otel_flags : list (string * flag_value) := [
  ("otel.endpoint", TStr ""); ("otel.protocol", TStr "stdout"); ("otel.tls_cert", TStr ""); ("otel.tls_key", TStr ""); ("otel.root_ca", TStr "");
  ("otel.no_block", TBool false)].
Definition prom_flags : list (string * flag_value) := [
  ("info_collector", TBool false); ("prom_seen", TInt 4)].
Definition snmp_format_flags : list (string * flag_value) := [
  ("snmp.format.conf", TStr "")].
Definition elastic_flags : list (string * flag_value) := [
  ("elastic.action", TStr "index")].
Definition influx_flags : list (string * flag_value) := [
  ("influxdb_measurement_prefix", TStr ""); ("influxdb_namespace_token", TStr ":")].
Definition baseserver_flags : list (string * flag_value) := [
  ("service_name", TStr ""); ("log_level", TStr "info"); ("stdout", TBool false); ("metrics", TStr "none"); ("metalisten", TStr "localhost:0");
  ("olly_dataset", TStr ""); ("olly_write_key", TStr "")].
Definition flow_flags : list (string * flag_value) := [
  ("nf.addr", TStr "0.0.0.0"); ("nf.port", TInt 9995); ("nf.reuserport", TBool false); ("nf.workers", TInt 2); ("nf.queuesize", TInt 10000);
  ("nf.message.fields", TStr FlowDefaultFields); ("nf.prom.listen", TStr ""); ("nf.mapping", TStr "")].
Definition syslog_flags : list (string * flag_value) := [
  ("syslog.udp", TBool true); ("syslog.tcp", TBool true); ("syslog.unix", TBool false); ("syslog.format", TStr "Automatic");
  ("syslog.threads", TInt 1)].
Definition http_input_flags : list (string * flag_value) := [
  ("http.remote_ip", TStr "")].
Definition gcp_flags : list (string * flag_value) := [
  ("gcp.project", TStr ""); ("gcp.sub", TStr ""); ("gcp.sample", TFloat "1")].
Definition aws_flags : list (string * flag_value) := [
  ("iam_role", TStr ""); ("sqs_name", TStr ""); ("aws_regions", TStr "us-east-1");
  ("aws_lambda", TBool (LookupEnvBool LookupEnv "AWS_IS_LAMBDA" false)); ("aws_local_file", TStr "")].
Definition snmp_flags : list (string * flag_value) := [
  ("snmp_dump_mibs", TBool false); ("flow_only", TBool false); ("snmp_json2yaml", TStr ""); ("snmp_do_walk", TStr "");
  ("snmp_walk_oid", TStr ".1.3.6.1.2.1"); ("snmp_walk_format", TStr ""); ("snmp_out_file", TStr ""); ("snmp_poll_now", TStr "");
  ("snmp_discovery_min", TInt 0); ("snmp_discovery_on_start", TBool false); ("snmp_validate", TBool false); ("snmp_walk_file", TStr "")].
Definition tag_flags : list (string * flag_value) := [
  ("tag_map", TStr ""); ("geo_city_map", TStr ""); ("geo_region_map", TStr "")].
Definition filter_flags : list (string * flag_value) := [
  ("filters", TList [] AndToken)].
Definition stitch_flags : list (string * flag_value) := [
  ("stitch.buffer.len", TInt 10000); ("stitch.enable", TBool false)].
Definition declared : list (string * flag_value) :=
  main_flags ++ km_flags ++ config_flags ++ file_flags ++ net_flags ++ http_flags ++ pubsub_flags ++ prom_sink_flags ++ kafka_flags ++
  kentik_flags ++ gcloud_flags ++ ddog_flags ++ s3_flags ++ nr_flags ++ api_flags ++ rollup_flags ++ netflow_flags ++ redis_flags ++ otel_flags ++
  prom_flags ++ snmp_format_flags ++ elastic_flags ++ influx_flags ++ baseserver_flags ++ flow_flags ++ syslog_flags ++ http_input_flags ++
  gcp_flags ++ aws_flags ++ snmp_flags ++ tag_flags ++ filter_flags ++ stitch_flags.
End Declared.

(** [flag.VisitAll] goes by name; [args] are the flags that are given. *)
Definition by_name (a b : string * flag_value) : Prop := String.leb a.1 b.1 = true.
#[export] Instance by_name_dec a b : Decision (by_name a b).
Proof. unfold by_name. apply _. Defined.
Definition VisitAll (fl : list (string * flag_value)) : list (string * flag_value) := merge_sort by_name fl.
Definition given (args : gmap string flag_value) (fl : list (string * flag_value)) : list (string * flag_value) :=
  (λ nv, (nv.1, default nv.2 (args !! nv.1))) <$> fl.

(** [strconv.ParseBool]. *)
Definition ParseBool (s : string) : option bool :=
  if bool_decide (s ∈ ["1"; "t"; "T"; "true"; "TRUE"; "True"]) then Some true
  else if bool_decide (s ∈ ["0"; "f"; "F"; "false"; "FALSE"; "False"]) then Some false else None.

Class FlagEnv := {
  ParseFloat : string → option spec_float;
  os_Getenv : string → string;
  os_Stat : string → bool }.

(** ** [applyFlags] *)

(** What the case of a flag does with its text. *)
Inductive flag_case :=
| StrFlag (f : string → Config → res Config)
| IntFlag (f : Z → Config → res Config)
| PosFlag (f : Z → Config → res Config)
| BoolFlag (f : bool → Config → res Config)
| FloatFlag (f : spec_float → Config → res Config)
| DoFlag (f : string → Config → res (option error * Config))
| Ignored.

Definition put {A} (field : Config → A) `{!Update field} (v : A) (c : Config) : res Config := Ok (c <| field := v |>).
Definition put_in {P A} (part : Config → option P) `{!Update part} (field : P → A) `{!Update field} (v : A) (c : Config) : res Config :=
  on part (λ s, s <| field := v |>) c.

Section Flags.
Context `{FlagEnv}.

(** An error of the kind of clouds does not end the case, but nothing follows. *)
Definition vpc_case (val : string) (c : Config) : res (option error * Config) :=
  if String.eqb (ToLower val) "aws" then c ← on AWSVPCInput (λ s, s <| AWS_Enable := true |>) c; Ok (None, c)
  else if String.eqb (ToLower val) "gcp" then c ← on GCPVPCInput (λ s, s <| GCP_Enable := true |>) c; Ok (None, c)
  else Ok (Some (Errorf "unsupported vpc type: %s" [FStr val]), c).

Definition runtime_cases : list (string * flag_case) := [
  ("listen", StrFlag (put ListenAddr)); ("mapping", StrFlag (put MappingFile)); ("udrs", StrFlag (put UDRSFile)); ("geo", StrFlag (put GeoFile));
  ("asn", StrFlag (put ASNFile)); ("dns", StrFlag (put DNS)); ("threads", PosFlag (put ProcessingThreads));
  ("input_threads", PosFlag (put InputThreads)); ("max_threads", PosFlag (put MaxThreads)); ("format", StrFlag (put Format));
  ("format_rollup", StrFlag (put FormatRollup)); ("format_metric", StrFlag (put FormatMetric)); ("compression", StrFlag (put Compression));
  ("sinks", StrFlag (λ v, put Sinks (Split v ","))); ("max_flows_per_message", IntFlag (put MaxFlowsPerMessage));
  ("rollup_interval", IntFlag (put RollupInterval)); ("rollup_and_alpha", BoolFlag (put RollupAndAlpha)); ("sample_rate", PosFlag (put SampleRate));
  ("max_before_sample", IntFlag (put SampleMin))].
Definition start_cases : list (string * flag_case) := [
  ("api_devices", StrFlag (put_in API API_DeviceFile));
  ("snmp", StrFlag (λ v, on SNMPInput (λ s, s <| SNMP_Enable := true |> <| SNMP_SNMPFile := v |>)));
  ("snmp_discovery", BoolFlag (put EnableSNMPDiscovery));
  ("kentik_email", StrFlag (λ v, put KentikCreds [mkKentikCred v (os_Getenv KentikAPITokenEnvVar)]));
  ("api_root", StrFlag (λ v c, Ok (c <| APIBaseURL := v |> <| GRPCBaseURL := Replace v "api.kentik" "grpc.api.kentik" 1 |>)));
  ("kentik_plan", IntFlag (put KentikPlan)); ("ssl_cert_file", StrFlag (put SSLCertFile)); ("ssl_key_file", StrFlag (put SSLKeyFile));
  ("tag_map_type", StrFlag (put TagMapType)); ("vpc", DoFlag vpc_case);
  ("nf.source", StrFlag (λ v, on FlowInput (λ s, s <| Flow_Enable := true |> <| Flow_Protocol := v |>))); ("tee_logs", BoolFlag (put EnableTeeLogs));
  ("application_map", StrFlag (put ApplicationFile));
  ("syslog.source", StrFlag (λ v, on SyslogInput (λ s, s <| Syslog_Enable := true |> <| Syslog_ListenAddr := v |>)));
  ("http.source", BoolFlag (put EnableHTTPInput)); ("http.remote_ip", StrFlag (put HttpRemoteIp)); ("tee_flow", StrFlag (put TeeFlow));
  ("enricher", StrFlag (λ v, if os_Stat v then put EnricherScript v else put EnricherURL v)); ("ddog_url", StrFlag (put_in DDogSink DDog_URL))].
Definition format_cases : list (string * flag_case) := [
  ("km_value_map", StrFlag (put KMUdr)); ("tag_map", StrFlag (put TagMapFile)); ("geo_city_map", StrFlag (put TagMapCity));
  ("geo_region_map", StrFlag (put TagMapRegion)); ("netflow_version", StrFlag (put_in NetflowFormat Netflow_Version));
  ("info_collector", BoolFlag (put_in PrometheusFormat Prometheus_EnableCollectorStats));
  ("prom_seen", IntFlag (put_in PrometheusFormat Prometheus_FlowsNeeded)); ("otel.endpoint", StrFlag (put_in OtelFormat Otel_Endpoint));
  ("otel.protocol", StrFlag (put_in OtelFormat Otel_Protocol)); ("otel.tls_cert", StrFlag (put_in OtelFormat Otel_ClientCert));
  ("otel.tls_key", StrFlag (put_in OtelFormat Otel_ClientKey)); ("otel.root_ca", StrFlag (put_in OtelFormat Otel_RootCA));
  ("otel.no_block", BoolFlag (put_in OtelFormat Otel_NoBlockExport)); ("redis.addr", StrFlag (put_in RedisFormat Redis_RedisAddr));
  ("redis.password", StrFlag (put_in RedisFormat Redis_RedisPassword)); ("redis.db", IntFlag (put_in RedisFormat Redis_RedisDB));
  ("redis.ttl.sec", IntFlag (put_in RedisFormat Redis_KeyTTLSeconds)); ("redis.key_prefix", StrFlag (put_in RedisFormat Redis_KeyPrefix));
  ("elastic.action", StrFlag (put_in ElasticFormat Elastic_Action)); ("snmp.format.conf", StrFlag (put_in SnmpFormat Snmp_ConfigFile));
  ("influxdb_measurement_prefix", StrFlag (put_in InfluxDBFormat InfluxDB_MeasurementPrefix));
  ("influxdb_namespace_token", StrFlag (put_in InfluxDBFormat InfluxDB_NamespaceToken))].
Definition store_cases : list (string * flag_case) := [
  ("prom_listen", StrFlag (put_in PrometheusSink PromSink_ListenAddr));
  ("prom_remote_write", StrFlag (put_in PrometheusSink PromSink_RemoteWriteUrl)); ("gcloud_bucket", StrFlag (put_in GCloudSink GCloud_Bucket));
  ("gcloud_prefix", StrFlag (put_in GCloudSink GCloud_Prefix)); ("gcloud_content_type", StrFlag (put_in GCloudSink GCloud_ContentType));
  ("gcloud_flush_sec", IntFlag (put_in GCloudSink GCloud_FlushIntervalSeconds)); ("s3_bucket", StrFlag (put_in S3Sink S3_Bucket));
  ("s3_prefix", StrFlag (put_in S3Sink S3_Prefix)); ("s3_flush_sec", IntFlag (put_in S3Sink S3_FlushIntervalSeconds));
  ("s3_assume_role_arn", StrFlag (put_in S3Sink S3_AssumeRoleARN)); ("s3_region", StrFlag (put_in S3Sink S3_Region));
  ("s3_endpoint", StrFlag (put_in S3Sink S3_Endpoint)); ("s3_signing_region", StrFlag (put_in S3Sink S3_SigningRegion));
  ("ec2_instance_profile", BoolFlag (put_in S3Sink S3_EC2InstanceProfile));
  ("assume_role_or_instance_profile_interval_seconds", IntFlag (put_in S3Sink S3_AssumeRoleOrInstanceProfileIntervalSeconds));
  ("s3_check_dangling", BoolFlag (put_in S3Sink S3_CheckDangling)); ("net_server", StrFlag (put_in NetSink Net_Endpoint));
  ("net_protocol", StrFlag (put_in NetSink Net_Protocol)); ("nr_account_id", StrFlag (put_in NewRelicSink NewRelic_Account));
  ("nr_estimate_only", BoolFlag (put_in NewRelicSink NewRelic_EstimateOnly)); ("nr_region", StrFlag (put_in NewRelicSink NewRelic_Region));
  ("nr_check_json", BoolFlag (put_in NewRelicSink NewRelic_ValidateJSON)); ("file_out", StrFlag (put_in FileSink File_Path));
  ("file_on", BoolFlag (put_in FileSink File_EnableImmediateWrite)); ("file_flush_sec", IntFlag (put_in FileSink File_FlushIntervalSeconds));
  ("gcp_pubsub_project_id", StrFlag (put_in GCloudPubSubSink PubSub_ProjectID));
  ("gcp_pubsub_topic", StrFlag (put_in GCloudPubSubSink PubSub_Topic))].
Definition post_cases : list (string * flag_case) := [
  ("http_url", StrFlag (put_in HTTPSink HTTP_Target)); ("http_log_url", StrFlag (put_in HTTPSink HTTP_TargetLogs));
  ("http_insecure", BoolFlag (put_in HTTPSink HTTP_InsecureSkipVerify)); ("http_timeout_sec", IntFlag (put_in HTTPSink HTTP_TimeoutInSeconds));
  ("http_header", StrFlag (λ v, put_in HTTPSink HTTP_Headers (Split v ","))); ("kafka_topic", StrFlag (put_in KafkaSink Kafka_Topic));
  ("bootstrap.servers", StrFlag (put_in KafkaSink Kafka_BootstrapServers));
  ("kafka_security_protocol", StrFlag (put_in KafkaSink Kafka_SecurityProtocol));
  ("kafka_sasl_mechanism", StrFlag (put_in KafkaSink Kafka_SASLMechanism)); ("kafka_sasl_username", StrFlag (put_in KafkaSink Kafka_SASLUsername));
  ("kafka_sasl_password", StrFlag (put_in KafkaSink Kafka_SASLPassword));
  ("kafka_kerberos_service_name", StrFlag (put_in KafkaSink Kafka_KerberosServiceName));
  ("kafka_kerberos_realm", StrFlag (put_in KafkaSink Kafka_KerberosRealm));
  ("kafka_kerberos_config_path", StrFlag (put_in KafkaSink Kafka_KerberosConfigPath));
  ("kafka_kerberos_keytab_path", StrFlag (put_in KafkaSink Kafka_KerberosKeytabPath));
  ("kafka_kerberos_principal", StrFlag (put_in KafkaSink Kafka_KerberosPrincipal));
  ("kafka_kerberos_disable_pafx_fast", BoolFlag (put_in KafkaSink Kafka_KerberosDisablePAFXFAST));
  ("kafka_ssl_ca_file", StrFlag (put_in KafkaSink Kafka_SSLCAFile)); ("kafka_ssl_cert_file", StrFlag (put_in KafkaSink Kafka_SSLCertFile));
  ("kafka_ssl_key_file", StrFlag (put_in KafkaSink Kafka_SSLKeyFile)); ("kafka_ssl_insecure", BoolFlag (put_in KafkaSink Kafka_SSLInsecure));
  ("kafka_required_acks", IntFlag (put_in KafkaSink Kafka_RequiredAcks)); ("kafka_compression", StrFlag (put_in KafkaSink Kafka_Compression));
  ("kafka_max_message_bytes", IntFlag (put_in KafkaSink Kafka_MaxMessageBytes)); ("kafka_retry_max", IntFlag (put_in KafkaSink Kafka_RetryMax));
  ("kafka_flush_frequency", IntFlag (put_in KafkaSink Kafka_FlushFrequency));
  ("kafka_flush_messages", IntFlag (put_in KafkaSink Kafka_FlushMessages)); ("kafka_flush_bytes", IntFlag (put_in KafkaSink Kafka_FlushBytes));
  ("kentik_relay_url", StrFlag (put_in KentikSink Kentik_RelayURL))].
Definition server_cases : list (string * flag_case) := [
  ("rollup_key_join", StrFlag (put_in Rollup Rollup_JoinKey)); ("rollup_top_k", IntFlag (put_in Rollup Rollup_TopK));
  ("rollups", StrFlag (λ v, put_in Rollup Rollup_Formats (Split v AndToken)));
  ("rollup_keep_undefined", BoolFlag (put_in Rollup Rollup_KeepUndefined)); ("dir", StrFlag (put_in KMux KMux_Dir));
  ("service_name", StrFlag (put_in Server Server_ServiceName)); ("log_level", StrFlag (put_in Server Server_LogLevel));
  ("stdout", BoolFlag (put_in Server Server_LogToStdout)); ("metalisten", StrFlag (put_in Server Server_MetaListenAddr));
  ("metrics", StrFlag (put_in Server Server_MetricsEndpoint)); ("olly_dataset", StrFlag (put_in Server Server_OllyDataset));
  ("olly_write_key", StrFlag (put_in Server Server_OllyWriteKey)); ("api_device_file", StrFlag (put_in API API_DeviceFile));
  ("filters", StrFlag (λ v, put Filters (Split v AndToken)))].
Definition listener_cases : list (string * flag_case) := [
  ("syslog.udp", BoolFlag (put_in SyslogInput Syslog_EnableUDP)); ("syslog.tcp", BoolFlag (put_in SyslogInput Syslog_EnableTCP));
  ("syslog.unix", BoolFlag (put_in SyslogInput Syslog_EnableUnix)); ("syslog.format", StrFlag (put_in SyslogInput Syslog_Format));
  ("syslog.threads", IntFlag (put_in SyslogInput Syslog_Threads)); ("snmp_dump_mibs", BoolFlag (put_in SNMPInput SNMP_DumpMIBs));
  ("flow_only", BoolFlag (put_in SNMPInput SNMP_FlowOnly)); ("snmp_json2yaml", StrFlag (put_in SNMPInput SNMP_JSONToYAML));
  ("snmp_do_walk", StrFlag (put_in SNMPInput SNMP_WalkTarget)); ("snmp_walk_oid", StrFlag (put_in SNMPInput SNMP_WalkOID));
  ("snmp_walk_format", StrFlag (put_in SNMPInput SNMP_WalkFormat)); ("snmp_out_file", StrFlag (put_in SNMPInput SNMP_OutputFile));
  ("snmp_poll_now", StrFlag (put_in SNMPInput SNMP_PollNowTarget)); ("snmp_discovery_min", IntFlag (put_in SNMPInput SNMP_DiscoveryIntervalMinutes));
  ("snmp_discovery_on_start", BoolFlag (put_in SNMPInput SNMP_DiscoveryOnStart)); ("snmp_validate", BoolFlag (put_in SNMPInput SNMP_ValidateMIBs));
  ("snmp_walk_file", StrFlag (put_in SNMPInput SNMP_RunFromWalkFile))].
Definition source_cases : list (string * flag_case) := [
  ("gcp.project", StrFlag (λ v, on GCPVPCInput (λ s, s <| GCP_Enable := true |> <| GCP_ProjectID := v |>)));
  ("gcp.sub", StrFlag (put_in GCPVPCInput GCP_Subject)); ("gcp.sample", FloatFlag (put_in GCPVPCInput GCP_SampleRate));
  ("iam_role", StrFlag (put_in AWSVPCInput AWS_IAMRole));
  ("sqs_name", StrFlag (λ v, on AWSVPCInput (λ s, s <| AWS_Enable := true |> <| AWS_SQSName := v |>)));
  ("aws_regions", StrFlag (λ v, put_in AWSVPCInput AWS_Regions (Split v ","))); ("aws_lambda", BoolFlag (put_in AWSVPCInput AWS_IsLambda));
  ("aws_local_file", StrFlag (put_in AWSVPCInput AWS_LocalFile)); ("nf.addr", StrFlag (put_in FlowInput Flow_ListenIP));
  ("nf.port", IntFlag (put_in FlowInput Flow_ListenPort)); ("nf.reuserport", BoolFlag (put_in FlowInput Flow_EnableReusePort));
  ("nf.workers", IntFlag (put_in FlowInput Flow_Workers)); ("nf.queuesize", IntFlag (put_in FlowInput Flow_QueueSize));
  ("nf.message.fields", StrFlag (put_in FlowInput Flow_MessageFields)); ("nf.prom.listen", StrFlag (put_in FlowInput Flow_PrometheusListenAddr));
  ("nf.mapping", StrFlag (put_in FlowInput Flow_MappingFile)); ("config_provider", StrFlag (put_in CfgManager Manager_ConfigImpl));
  ("stitch.buffer.len", IntFlag (put_in Lilo Stitch_BufLen)); ("stitch.enable", BoolFlag (put_in Lilo Stitch_Enable)); ("config", Ignored);
  ("generate-config", Ignored)].
Definition cases : list (string * flag_case) :=
  runtime_cases ++ start_cases ++ format_cases ++ store_cases ++ post_cases ++ server_cases ++ listener_cases ++ source_cases.

Fixpoint find_case (name : string) (l : list (string * flag_case)) : option flag_case :=
  match l with [] => None | (n, k) :: l => if String.eqb n name then Some k else find_case name l end.

Definition done (r : res Config) : res (option error * Config) := c ← r; Ok (None, c).

Definition run_case (name val : string) (k : flag_case) (c : Config) : res (option error * Config) :=
  match k with
  | StrFlag f => done (f val c)
  | IntFlag f => match Atoi val with Some v => done (f v c) | None => Ok (Some (Errorf "strconv.Atoi: parsing %q" [FStr val]), c) end
  | PosFlag f =>
      match Atoi val with
      | Some v => if v =? 0 then Ok (Some (Errorf "%s must be > 0" [FStr name]), c) else done (f v c)
      | None => Ok (Some (Errorf "strconv.Atoi: parsing %q" [FStr val]), c)
      end
  | BoolFlag f => match ParseBool val with Some v => done (f v c) | None => Ok (Some (Errorf "strconv.ParseBool: parsing %q" [FStr val]), c) end
  | FloatFlag f => match ParseFloat val with Some v => done (f v c) | None => Ok (Some (Errorf "strconv.ParseFloat: parsing %q" [FStr val]), c) end
  | DoFlag f => f val c
  | Ignored => Ok (None, c)
  end.

Definition visit (nv : string * flag_value) (c : Config) : res (option error * Config) :=
  let val := value_String nv.2 in
  if String.eqb val "" then Ok (None, c)
  else match find_case nv.1 cases with
       | Some k => run_case nv.1 val k c
       | None => Ok (Some (Errorf "unhandled flag %s" [FStr nv.1]), c)
       end.

(** All the cases, and the errors in the order in which they are sent. *)
Fixpoint visit_all (fl : list (string * flag_value)) (c : Config) : res (list error * Config) :=
  match fl with
  | [] => Ok ([], c)
  | nv :: fl => '(e, c) ← visit nv c; '(es, c) ← visit_all fl c; Ok (option_list e ++ es, c)
  end.

(** [errCh] holds one error.  The flags are visited by a goroutine of its own; where the end and an
    error are ready, [select] takes either.  [got] is what [applyFlags] returned. *)
Record flag_run := mkRun {
  todo : list (string * flag_value); pending : option error; errCh : option error; doneCh : bool; conf : Config; got : option (option error) }.
Definition start_run (fl : list (string * flag_value)) (c : Config) : flag_run := mkRun fl None None false c None.

Inductive run_step : flag_run → flag_run → Prop :=
| step_visit nv fl q d c e c' g : visit nv c = Ok (e, c') → run_step (mkRun (nv :: fl) None q d c g) (mkRun fl e q d c' g)
| step_send fl e d c g : run_step (mkRun fl (Some e) None d c g) (mkRun fl None (Some e) d c g)
| step_done q c g : run_step (mkRun [] None q false c g) (mkRun [] None q true c g)
| step_error fl p e d c : run_step (mkRun fl p (Some e) d c None) (mkRun fl p None d c (Some (Some e)))
| step_end fl p q c : run_step (mkRun fl p q true c None) (mkRun fl p q true c (Some None)).

(** What [applyFlags] returns; [lost] tells that the end is taken where one error waits with it. *)
Definition applyFlags (lost : bool) (fl : list (string * flag_value)) (c : Config) : res (error + Config) :=
  '(es, c) ← visit_all fl c;
  Ok (match es with [] => inr c | [e] => if lost then inr c else inl e | e :: _ => inl e end).

(** ** [applyMode] *)

Definition setNr (c : Config) : Config :=
  let c := c <| Format := "new_relic" |> <| SampleMin := 100 |> <| Compression := "gzip" |> <| Sinks := ["new_relic"] |> in
  if SampleRate c =? 0 then c <| SampleRate := 1000 |> else c.

(** [cfg.Rollup.Formats = append(cfg.Rollup.Formats, f)]. *)
Definition add_rollup (f : string) (c : Config) : res Config :=
  on Rollup (λ s, s <| Rollup_Formats := Rollup_Formats s ++ [f] |>) c.

Definition vpc_rollups : list string := [
  "s_sum,vpc.xmt.bytes,out_bytes,custom_str.source_vpc,custom_str.application_type,custom_str.source_account,custom_str.source_region,src_addr,custom_str.src_as_name,src_geo,l4_src_port,protocol";
  "s_sum,vpc.rcv.bytes,in_bytes,custom_str.dest_vpc,custom_str.application_type,custom_str.dest_account,custom_str.dest_region,dst_addr,custom_str.dst_as_name,dst_geo,l4_dst_port,protocol"].
Definition flow_rollups : list string := [
  "s_sum,bytes.xmt,in_bytes+out_bytes,device_name,src_addr,custom_str.src_as_name,src_geo,l4_src_port,protocol";
  "s_sum,bytes.rcv,in_bytes+out_bytes,device_name,dst_addr,custom_str.dst_as_name,dst_geo,l4_dst_port,protocol";
  "s_sum,pkts.xmt,in_pkts+out_pkts,device_name,src_addr,custom_str.src_as_name,src_geo,l4_src_port,protocol";
  "s_sum,pkts.rcv,in_pkts+out_pkts,device_name,dst_addr,custom_str.dst_as_name,dst_geo,l4_dst_port,protocol"].
Fixpoint add_rollups (fs : list string) (c : Config) : res Config :=
  match fs with [] => Ok c | f :: fs => c ← add_rollup f c; add_rollups fs c end.

Definition nr_metrics (c : Config) : Config :=
  c <| Compression := "gzip" |> <| Sinks := ["new_relic"] |> <| Format := "new_relic_metric" |>.

Definition applyMode (c : Config) (mode : string) : res (error + Config) :=
  if String.eqb mode "" then Ok (inr c)
  else if String.eqb mode "nr1.vpc.lambda" then
    c ← on AWSVPCInput (λ s, s <| AWS_Enable := true |> <| AWS_IsLambda := true |>) (setNr c); Ok (inr (c <| DNS := "local" |>))
  else if String.eqb mode "vpc" then c ← add_rollups vpc_rollups c; Ok (inr c)
  else if String.eqb mode "nr1.vpc" then Ok (inr (setNr (c <| DNS := "local" |>)))
  else if String.eqb mode "flow" then c ← add_rollups flow_rollups c; Ok (inr c)
  else if String.eqb mode "nr1.flow" then
    c ← on SNMPInput (λ s, s <| SNMP_FlowOnly := true |>) c;
    c ← on FlowInput (λ s, let s := s <| Flow_Enable := true |> in if String.eqb (Flow_Protocol s) "" then s <| Flow_Protocol := "auto" |> else s) c;
    Ok (inr (setNr c))
  else if String.eqb mode "nr1.discovery" then Ok (inr (setNr (c <| EnableSNMPDiscovery := true |>)))
  else if String.eqb mode "nr1.syslog" then
    c ← on SNMPInput (λ s, s <| SNMP_FlowOnly := true |>) (nr_metrics c);
    c ← on SyslogInput (λ s, let s := if String.eqb (Syslog_ListenAddr s) "" then s <| Syslog_ListenAddr := "0.0.0.0:5143" |> else s in
      s <| Syslog_Enable := true |>) c;
    Ok (inr c)
  else if String.eqb mode "nr1.snmp" then Ok (inr (nr_metrics c <| MaxFlowsPerMessage := 100 |>))
  else Ok (inl (Errorf "Invalid mode %s. Options = nr1.vpc|nr1.flow|nr1.snmp|vpc|flow" [FStr mode])).

(** ** [main], up to where the service is made *)

(** [mergo.Merge(dst, src)]. *)
Class Merger := mergo_Merge : Config → Config → error + Config.

Section Main.
Context `{ConfigStore, Merger}.

(** The flags and then the file, whose settings come first. *)
Definition merged (lost : bool) (fl : list (string * flag_value)) (path : string) : res (error + Config) :=
  r ← applyFlags lost fl DefaultConfig;
  match r with
  | inl err => Ok (inl err)
  | inr cfg =>
      if String.eqb path "" then Ok (inr cfg)
      else match LoadConfig path with
           | inl err => Ok (inl err)
           | inr ktCfg =>
               match mergo_Merge ktCfg cfg with
               | inl err => Ok (inl err)
               | inr ktCfg => c ← on Server (λ s, s <| Server_CfgPath := path |>) ktCfg; Ok (inr c)
               end
           end
  end.
Definition configured (lost : bool) (fl : list (string * flag_value)) (path mode : string) : res (error + Config) :=
  r ← merged lost fl path;
  match r with inl err => Ok (inl err) | inr c => applyMode c mode end.

(** The interval of rollups comes from the flag alone. *)
Definition rollup_duration (dumpRollups old : Z) : Z := if 0 <? dumpRollups then Duration_mul dumpRollups Second else old.

(** [main] fails on an empty address to listen on. *)
Definition checked (c : Config) : option error := if String.eqb (ListenAddr c) "" then Some (Errorf "Invalid --listen value" []) else None.
End Main.
End Flags.

(** ** What flags do to a configuration *)

Definition positive_flags : list string := ["threads"; "input_threads"; "max_threads"; "sample_rate"].
Definition positive (c : Config) : Prop := ProcessingThreads c ≠ 0 ∧ InputThreads c ≠ 0 ∧ MaxThreads c ≠ 0 ∧ SampleRate c ≠ 0.
(** The state that flags keep. *)
Definition good (c : Config) : Prop := complete c ∧ positive c.

Definition keeps {V} (f : V → Config → res Config) (P : V → Prop) : Prop := ∀ v c, P v → good c → ∃ c', f v c = Ok c' ∧ good c'.
Definition any {V} (v : V) : Prop := True.
Definition nonzero (z : Z) : Prop := z ≠ 0.

Class Plain {A} (field : Config → A) `{!Update field} (P : A → Prop) := plain_set : ∀ v c, P v → good c → good (c <| field := v |>).
Class Whole {P} (part : Config → option P) `{!Update part} := {
  whole_some : ∀ c, good c → is_Some (part c);
  whole_set : ∀ c p, good c → good (c <| part := Some p |>) }.

Ltac solve_plain :=
  let v := fresh in let c := fresh in let Hv := fresh in let Hc := fresh in
  intros v c Hv Hc; destruct c; unfold good, complete, positive in *; cbn in *; first [exact Hc|intuition].
Ltac solve_whole :=
  let c := fresh in let p := fresh in let Hc := fresh in let Hp := fresh in
  split; [intros c [Hc _]; unfold complete in Hc; intuition
         |intros c p [Hc Hp]; split; [unfold complete in *; destruct c; cbn in *; intuition eauto|destruct c; exact Hp]].
#[local] Hint Extern 1 (Plain _ _) => solve_plain : typeclass_instances.
#[local] Hint Extern 1 (Whole _) => solve_whole : typeclass_instances.

Lemma put_keeps {A} (field : Config → A) `{!Update field} P `{!Plain field P} : keeps (put field) P.
Proof. intros v c Hv Hc. eexists. split; [reflexivity|by apply plain_set]. Qed.

Lemma on_good {P} (part : Config → option P) `{!Update part, !Whole part} f c : good c → ∃ c', on part f c = Ok c' ∧ good c'.
Proof. intros Hc. unfold on. destruct (whole_some c Hc) as [p ->]. eexists. split; [reflexivity|by apply whole_set]. Qed.
Lemma on_keeps {V P} (part : Config → option P) `{!Update part, !Whole part} (f : V → P → P) : keeps (λ v, on part (f v)) any.
Proof. intros v c _. by apply (on_good part). Qed.
Lemma put_in_keeps {P A} (part : Config → option P) `{!Update part, !Whole part} (field : P → A) `{!Update field} : keeps (put_in part field) any.
Proof. intros v c _. by apply (on_good part). Qed.
Lemma put_via {V A} (g : V → A) (field : Config → A) `{!Update field, !Plain field any} : keeps (λ v, put field (g v)) any.
Proof. intros v c _. by apply (put_keeps field any). Qed.
Lemma put_in_via {V P A} (g : V → A) (part : Config → option P) `{!Update part, !Whole part} (field : P → A) `{!Update field} :
  keeps (λ v, put_in part field (g v)) any.
Proof. intros v c _. by apply (on_good part). Qed.
Lemma keeps_if {V} (b : V → bool) (f g : V → Config → res Config) : keeps f any → keeps g any → keeps (λ v, if b v then f v else g v) any.
Proof. intros Hf Hg v c. destruct (b v); [apply Hf|apply Hg]. Qed.
Lemma put_two {V A B} (g : V → A) (h : V → B) (f1 : Config → A) (f2 : Config → B) `{!Update f1, !Update f2, !Plain f1 any, !Plain f2 any} :
  keeps (λ v c, Ok (c <| f1 := g v |> <| f2 := h v |>)) any.
Proof. intros v c _ Hc. eexists. split; [reflexivity|]. by apply plain_set; [|apply plain_set]. Qed.

Lemma api_root_keeps : keeps (λ v c, Ok (c <| APIBaseURL := v |> <| GRPCBaseURL := Replace v "api.kentik" "grpc.api.kentik" 1 |>)) any.
Proof. refine (put_two (λ v, v) (λ v, Replace v "api.kentik" "grpc.api.kentik" 1) APIBaseURL GRPCBaseURL). Qed.

Section Flags.
Context `{FlagEnv}.

(** What a case promises, by its kind. *)
Definition sound (k : flag_case) : Prop :=
  match k with
  | StrFlag f => keeps f any
  | IntFlag f => keeps f any
  | PosFlag f => keeps f nonzero
  | BoolFlag f => keeps f any
  | FloatFlag f => keeps f any
  | DoFlag f => f = vpc_case
  | Ignored => True
  end.

Ltac solve_sound :=
  cbn [sound snd];
  first [reflexivity | exact I | exact api_root_keeps | apply put_in_keeps; apply _ | apply put_keeps; apply _ | apply on_keeps; apply _
        | refine (put_via _ _) | refine (put_in_via _ _ _) | refine (keeps_if os_Stat (put EnricherScript) (put EnricherURL) _ _); apply put_keeps; apply _].
Ltac all_sound := repeat (apply Forall_cons_2; [solve_sound|]); apply Forall_nil_2.
Lemma runtime_sound : Forall (λ nk, sound nk.2) runtime_cases.
Proof. unfold runtime_cases; all_sound. Qed.
Lemma start_sound : Forall (λ nk, sound nk.2) start_cases.
Proof. unfold start_cases; all_sound. Qed.
Lemma format_sound : Forall (λ nk, sound nk.2) format_cases.
Proof. unfold format_cases; all_sound. Qed.
Lemma store_sound : Forall (λ nk, sound nk.2) store_cases.
Proof. unfold store_cases; all_sound. Qed.
Lemma post_sound : Forall (λ nk, sound nk.2) post_cases.
Proof. unfold post_cases; all_sound. Qed.
Lemma server_sound : Forall (λ nk, sound nk.2) server_cases.
Proof. unfold server_cases; all_sound. Qed.
Lemma listener_sound : Forall (λ nk, sound nk.2) listener_cases.
Proof. unfold listener_cases; all_sound. Qed.
Lemma source_sound : Forall (λ nk, sound nk.2) source_cases.
Proof. unfold source_cases; all_sound. Qed.

Lemma cases_sound : Forall (λ nk, sound nk.2) cases.
Proof.
  unfold cases. repeat (apply Forall_app_2; [first [apply runtime_sound|apply start_sound|apply format_sound|apply store_sound|apply post_sound|
    apply server_sound|apply listener_sound]|]). apply source_sound.
Qed.
Lemma find_case_sound n l k : Forall (λ nk, sound nk.2) l → find_case n l = Some k → sound k.
Proof.
  induction 1 as [|[m j] l Hj _ IH]; [done|]. cbn. case_match; [by intros [= <-]|exact IH].
Qed.

(** ** The errors of flags *)

(** A value of the type of the flag. *)
Definition typed_as (d v : flag_value) : Prop :=
  match d, v with
  | TStr _, TStr _ | TBool _, TBool _ => True
  | TInt _, TInt z => in_s 64 z
  | TFloat _, TFloat t => is_Some (ParseFloat t)
  | TList _ sep, TList _ sep' => sep = sep'
  | _, _ => False
  end.
Definition typed (LookupEnv : string → option string) (nv : string * flag_value) : Prop :=
  ∃ d, (nv.1, d) ∈ declared LookupEnv ∧ typed_as d nv.2.

Definition flag_error (nv : string * flag_value) : option error :=
  match nv.2 with
  | TInt z => if bool_decide (nv.1 ∈ positive_flags) && (z =? 0) then Some (Errorf "%s must be > 0" [FStr nv.1]) else None
  | TStr s =>
      if String.eqb nv.1 "vpc" && negb (String.eqb s "") && negb (String.eqb (ToLower s) "aws" || String.eqb (ToLower s) "gcp")
      then Some (Errorf "unsupported vpc type: %s" [FStr s]) else None
  | _ => None
  end.

(** Every flag that is declared has a case of its kind. *)
Definition kind_ok (n : string) (d : flag_value) (k : flag_case) : bool :=
  match k, d with
  | StrFlag _, TStr _ | Ignored, TStr _ => negb (String.eqb n "vpc")
  | StrFlag _, TList _ _ | BoolFlag _, TBool _ | FloatFlag _, TFloat _ | Ignored, TBool _ => true
  | PosFlag _, TInt _ => bool_decide (n ∈ positive_flags)
  | IntFlag _, TInt _ => negb (bool_decide (n ∈ positive_flags))
  | DoFlag _, TStr _ => String.eqb n "vpc"
  | _, _ => false
  end.
Lemma declared_handled LookupEnv n d : (n, d) ∈ declared LookupEnv → ∃ k, find_case n cases = Some k ∧ kind_ok n d k = true.
Proof.
  assert (forallb (λ nd, match find_case nd.1 cases with Some k => kind_ok nd.1 nd.2 k | None => false end) (declared LookupEnv) = true) as Hall
    by (vm_compute; reflexivity).
  intros Hin%list_elem_of_In. rewrite forallb_forall in Hall. specialize (Hall _ Hin). cbn [fst snd] in Hall. case_match; [eauto|done].
Qed.

Lemma Itoa_nonempty z : in_s 64 z → String.eqb (Itoa z) "" = false.
Proof. intros Hz. apply String.eqb_neq. intros E. pose proof (Atoi_Itoa z Hz) as H1. by rewrite E in H1. Qed.

Lemma done_ok (r : res Config) c' : r = Ok c' → done r = Ok (None, c').
Proof. by intros ->. Qed.
Lemma kept {V} (f : V → Config → res Config) P v c : keeps f P → P v → good c → ∃ c', done (f v c) = Ok (None, c') ∧ good c'.
Proof. intros Hf Hv Hc. destruct (Hf v c Hv Hc) as (c' & E & Hg). exists c'. by rewrite (done_ok _ _ E). Qed.

Lemma vpc_good s c : good c → ∃ c', vpc_case s c = Ok (if negb (String.eqb (ToLower s) "aws" || String.eqb (ToLower s) "gcp")
  then Some (Errorf "unsupported vpc type: %s" [FStr s]) else None, c') ∧ good c'.
Proof.
  intros Hc. unfold vpc_case. destruct (String.eqb (ToLower s) "aws"); [|destruct (String.eqb (ToLower s) "gcp")]; cbn [orb negb].
  - destruct (on_good AWSVPCInput (λ s, s <| AWS_Enable := true |>) c Hc) as (c' & E & Hg). exists c'. split; [by rewrite E|done].
  - destruct (on_good GCPVPCInput (λ s, s <| GCP_Enable := true |>) c Hc) as (c' & E & Hg). exists c'. split; [by rewrite E|done].
  - by exists c.
Qed.

Lemma visit_good LookupEnv nv c : typed LookupEnv nv → good c → ∃ c', visit nv c = Ok (flag_error nv, c') ∧ good c'.
Proof.
  destruct nv as [n v]. intros (d & Hin & Hv) Hc. destruct (declared_handled _ _ _ Hin) as (k & Hk & Hok).
  pose proof (find_case_sound _ _ _ cases_sound Hk) as Hs. unfold visit, flag_error. cbn [fst snd] in *. rewrite Hk.
  destruct k, d; try discriminate Hok; destruct v; try (exfalso; exact Hv); cbn [kind_ok sound typed_as value_String run_case] in *;
    try (apply negb_true_iff in Hok; rewrite Hok); try rewrite (Itoa_nonempty _ Hv), (Atoi_Itoa _ Hv).
  - case_match; [by exists c|by eapply kept].
  - case_match; [by exists c|by eapply kept].
  - by eapply kept.
  - apply bool_decide_eq_true in Hok. rewrite bool_decide_true by done. cbn [andb]. case_match eqn:E; [by exists c|].
    eapply kept; [exact Hs|by apply Z.eqb_neq|done].
  - destruct b0; by eapply kept.
  - case_match; [by exists c|]. destruct Hv as [x ->]. by eapply kept.
  - rewrite Hok. destruct (String.eqb s0 ""); [by exists c|]. subst f. apply vpc_good, Hc.
  - case_match; by exists c.
  - destruct b0; by exists c.
Qed.

Lemma visit_all_good LookupEnv fl c : Forall (typed LookupEnv) fl → good c →
  ∃ c', visit_all fl c = Ok (omap flag_error fl, c') ∧ good c'.
Proof.
  intros Hfl. revert c. induction Hfl as [|nv fl Hnv _ IH]; intros c Hc; [by exists c|].
  destruct (visit_good _ _ _ Hnv Hc) as (c1 & E1 & Hc1). destruct (IH c1 Hc1) as (c2 & E2 & Hc2).
  exists c2. split; [|done]. cbn [visit_all]. rewrite E1. cbn. rewrite E2. cbn. by destruct (flag_error nv).
Qed.

Lemma DefaultConfig_good : good DefaultConfig.
Proof. split; [apply DefaultConfig_complete|by repeat split]. Qed.

Lemma VisitAll_perm fl : VisitAll fl ≡ₚ fl.
Proof. apply merge_sort_Permutation. Qed.
Lemma given_typed LookupEnv args : map_Forall (λ n v, ∀ d, (n, d) ∈ declared LookupEnv → typed_as d v) args →
  Forall (λ nd, typed_as nd.2 nd.2) (declared LookupEnv) → Forall (typed LookupEnv) (given args (declared LookupEnv)).
Proof.
  intros Hargs Hd. apply Forall_fmap, Forall_forall. intros [n d] Hin. exists d. cbn. split; [done|].
  destruct (args !! n) eqn:E; [by apply (Hargs n)|]. rewrite Forall_forall in Hd. by apply (Hd (n, d)).
Qed.
Lemma declared_typed LookupEnv : is_Some (ParseFloat "1") → in_s 64 (LookupEnvInt LookupEnv "KENTIK_SAMPLE_RATE" 1) →
  Forall (λ nd, typed_as nd.2 nd.2) (declared LookupEnv).
Proof.
  intros Hf Hi. unfold declared. repeat (apply Forall_app_2); repeat (apply Forall_cons_2; [first [exact I|reflexivity|exact Hf|exact Hi|split; [done|vm_compute; reflexivity]]|]);
    try apply Forall_nil_2.
Qed.
Lemma ParseUint_loop_nonneg s acc z : 0 ≤ acc → ParseUint_loop s acc = Parsed z → 0 ≤ z.
Proof.
  revert acc. induction s as [|c s IH]; cbn; intros acc Ha; [by intros [= <-]|].
  destruct (digit_value c) as [d|] eqn:E; [|done]. case_match; [done|]. apply IH.
  unfold digit_value in E. destruct ((48 <=? nat_of_ascii c) && (nat_of_ascii c <=? 57))%nat eqn:E2; [|done]. injection E as <-.
  apply andb_true_iff in E2 as [E2%Nat.leb_le _]. lia.
Qed.
Lemma Atoi_range s v : Atoi s = Some v → in_s 64 v.
Proof.
  unfold Atoi, Atoi_value, in_s. destruct (match s with String "-" t => (true, t) | String "+" t => (false, t) | _ => (false, s) end) as [neg t].
  destruct (match t with "" => ErrSyntax | _ => ParseUint_loop t 0 end) as [u| |] eqn:E;
    [|done|intros Hn; exfalso; destruct neg; vm_compute in Hn; discriminate Hn].
  assert (0 ≤ u) by (destruct t; [done|by eapply ParseUint_loop_nonneg; [|exact E]]).
  destruct neg; [destruct (2 ^ 63 <? u) eqn:E2|destruct (2 ^ 63 <=? u) eqn:E2]; cbv beta iota; intros Hv; try discriminate Hv;
    injection Hv as <-; lia.
Qed.
Lemma LookupEnvInt_range LookupEnv k d : in_s 64 d → in_s 64 (LookupEnvInt LookupEnv k d).
Proof.
  intros Hd. unfold LookupEnvInt. destruct (LookupEnv k) as [s|]; [|done]. destruct (Atoi s) eqn:E; [by eapply Atoi_range|done].
Qed.

(** A command line, as the program sees it: values of the right types for some of the flags. *)
Definition command_line (LookupEnv : string → option string) (args : gmap string flag_value) : list (string * flag_value) :=
  VisitAll (given args (declared LookupEnv)).
Definition right_types (LookupEnv : string → option string) (args : gmap string flag_value) : Prop :=
  map_Forall (λ n v, ∀ d, (n, d) ∈ declared LookupEnv → typed_as d v) args.

Lemma command_line_good LookupEnv args c : is_Some (ParseFloat "1") → right_types LookupEnv args → good c →
  ∃ c', visit_all (command_line LookupEnv args) c = Ok (omap flag_error (command_line LookupEnv args), c') ∧ good c'.
Proof.
  intros Hf Ha Hc. apply (visit_all_good LookupEnv); [|done]. unfold command_line. rewrite VisitAll_perm. apply given_typed; [done|].
  apply declared_typed; [done|by apply LookupEnvInt_range].
Qed.

(** ** The race of [applyFlags] *)

Definition errors_of (fl : list (string * flag_value)) (c : Config) (es : list error) (c' : Config) : Prop := visit_all fl c = Ok (es, c').

(** What was sent and what is still to be sent. *)
Definition rest_errors (s : flag_run) (es : list error) (c' : Config) : Prop :=
  ∃ later, visit_all (todo s) (conf s) = Ok (later, c') ∧
    es = match got s with Some (Some e) => [e] | _ => [] end ++ option_list (errCh s) ++ option_list (pending s) ++ later.
Record run_inv (es : list error) (c' : Config) (s : flag_run) : Prop := {
  ri_rest : got s ≠ Some None → rest_errors s es c';
  ri_done : doneCh s = true → todo s = [] ∧ pending s = None;
  ri_end : got s = Some None → (length es ≤ 1)%nat ∧ conf s = c' }.

Lemma run_inv_start fl c es c' : visit_all fl c = Ok (es, c') → run_inv es c' (start_run fl c).
Proof. intros E. split; [intros _; exists es; cbn; by rewrite E|done|done]. Qed.

Lemma visit_all_cons nv fl c e c1 es c' : visit nv c = Ok (e, c1) → visit_all (nv :: fl) c = Ok (es, c') →
  ∃ later, visit_all fl c1 = Ok (later, c') ∧ es = option_list e ++ later.
Proof.
  intros E. cbn. rewrite E. cbn. destruct (visit_all fl c1) as [[later c2]| | |]; cbn; try discriminate. intros [= <- <-]. by exists later.
Qed.

Lemma run_inv_step es c' s s' : run_step s s' → run_inv es c' s → got s = None → run_inv es c' s'.
Proof.
  intros Hs [Hr Hd He] Hg. destruct Hr as (later & E & ->); [by rewrite Hg|].
  destruct Hs; cbn in *; try (discriminate Hg); subst.
  - split; cbn; [|intros Hx; by destruct (Hd Hx)|done].
    destruct (visit_all_cons _ _ _ _ _ _ _ H0 E) as (later' & E' & ->). intros _. exists later'. cbn. by rewrite E'.
  - split; cbn; [|intros Hx; by destruct (Hd Hx)|done]. intros _. by exists later.
  - split; cbn; [|done|done]. intros _. by exists later.
  - split; cbn; [|done|done]. intros _. by exists later.
  - destruct (Hd eq_refl) as [-> ->]. cbn in E. injection E as <- <-. split; cbn; [done|done|]. intros _. split; [destruct q; cbn; lia|done].
Qed.

Inductive run_reach (s0 : flag_run) : flag_run → Prop :=
| reach_start : run_reach s0 s0
| reach_step s s' : run_reach s0 s → got s = None → run_step s s' → run_reach s0 s'.

Lemma run_reach_inv fl c es c' s : visit_all fl c = Ok (es, c') → run_reach (start_run fl c) s → run_inv es c' s.
Proof. intros E. induction 1; [by apply run_inv_start|by eapply run_inv_step]. Qed.

Lemma visit_all_inv nv fl c es c' : visit_all (nv :: fl) c = Ok (es, c') → ∃ e c1 later,
  visit nv c = Ok (e, c1) ∧ visit_all fl c1 = Ok (later, c') ∧ es = option_list e ++ later.
Proof.
  intros E. destruct (visit nv c) as [[e c1]| | |] eqn:E1; [|cbn in E; rewrite E1 in E; discriminate E..].
  destruct (visit_all_cons _ _ _ _ _ _ _ E1 E) as (later & E2 & ->). by exists e, c1, later.
Qed.

(** With at most one error the goroutine comes to its end before anything is received. *)
Lemma visits_reach s0 fl : ∀ c es c' q, visit_all fl c = Ok (es, c') → (length (option_list q ++ es) ≤ 1)%nat →
  run_reach s0 (mkRun fl None q false c None) → run_reach s0 (mkRun [] None (head (option_list q ++ es)) true c' None).
Proof.
  induction fl as [|nv fl IH]; intros c es c' q E Hl Hr.
  - injection E as <- <-. rewrite app_nil_r. eapply reach_step; [exact Hr|done|]. destruct q; constructor.
  - destruct (visit_all_inv _ _ _ _ _ E) as (e & c1 & later & E1 & E2 & ->).
    assert (run_reach s0 (mkRun fl e q false c1 None)) as Hr1 by (eapply reach_step; [exact Hr|done|by constructor]).
    destruct e as [e|]; [|by apply (IH c1)]. destruct q as [q|]; [cbn in Hl; lia|].
    refine (IH c1 later c' (Some e) E2 Hl _). eapply reach_step; [exact Hr1|done|constructor].
Qed.

Lemma run_moves fl c es c' s : visit_all fl c = Ok (es, c') → run_reach (start_run fl c) s → got s = None → ∃ s', run_step s s'.
Proof.
  intros E Hr Hg. destruct (run_reach_inv _ _ _ _ _ E Hr) as [Hrest _ _]. destruct (Hrest ltac:(by rewrite Hg)) as (later & El & _).
  destruct s as [fl' p q d c1 g]. cbn in *. subst g. destruct q as [e|]; [eexists; by apply step_error|].
  destruct p as [e|]; [eexists; by apply step_send|]. destruct d; [eexists; by apply step_end|].
  destruct fl' as [|nv fl']; [eexists; by apply step_done|].
  destruct (visit_all_inv _ _ _ _ _ El) as (e & c2 & l2 & E1 & _ & _). eexists. by apply step_visit with (e := e) (c' := c2).
Qed.

(** C31: [applyFlags] always returns, and what it returns is what the race allows: two errors or more
    give the first of them; a single error gives that error or, since the end of the visit may be
    received instead, none at all; with no error the configuration with all flags applied is returned. *)
Theorem applyFlags_race fl c es c' : visit_all fl c = Ok (es, c') →
  (∀ s, run_reach (start_run fl c) s → got s = None → ∃ s', run_step s s') ∧
  (∀ s r, run_reach (start_run fl c) s → got s = Some r →
     match r with None => (length es ≤ 1)%nat ∧ conf s = c' | Some e => head es = Some e end) ∧
  ((length es ≤ 1)%nat → ∃ s, run_reach (start_run fl c) s ∧ got s = Some None) ∧
  (∀ e, es = [e] → ∃ s, run_reach (start_run fl c) s ∧ got s = Some (Some e)).
Proof.
  intros E. split; [intros s; by apply (run_moves _ _ _ _ _ E)|split; [|split]].
  - intros s r Hr Hg. destruct (run_reach_inv _ _ _ _ _ E Hr) as [H1 _ H3]. destruct r as [e|]; [|by apply H3].
    destruct H1 as (later & _ & ->); [by rewrite Hg|]. by rewrite Hg.
  - intros Hl. pose proof (visits_reach (start_run fl c) fl c es c' None E Hl (reach_start _)) as Hr.
    eexists. split; [eapply reach_step; [exact Hr|done|constructor]|done].
  - intros e ->. pose proof (visits_reach (start_run fl c) fl c [e] c' None E ltac:(by cbn; lia) (reach_start _)) as Hr.
    eexists. split; [eapply reach_step; [exact Hr|done|constructor]|done].
Qed.

(** ** The program without arguments *)

Lemma visit_all_app fl1 fl2 c es1 c1 : visit_all fl1 c = Ok (es1, c1) →
  visit_all (fl1 ++ fl2) c = ('(es, c) ← visit_all fl2 c1; Ok (es1 ++ es, c)).
Proof.
  revert c es1. induction fl1 as [|nv fl1 IH]; intros c es1 E.
  - injection E as <- <-. cbn. by destruct (visit_all fl2 c) as [[]| | |].
  - destruct (visit_all_inv _ _ _ _ _ E) as (e & c2 & later & E1 & E2 & ->). cbn [app visit_all]. rewrite E1. cbn. rewrite (IH _ _ E2). cbn.
    destruct (visit_all fl2 c1) as [[]| | |]; cbn; [|done..]. by rewrite app_assoc.
Qed.

Definition no_environment : string → option string := λ _, None.
Lemma declared_empty LookupEnv : (∀ k, LookupEnv k = None) → declared LookupEnv = declared no_environment.
Proof. intros E. unfold declared, main_flags, nr_flags, aws_flags, LookupEnvInt, LookupEnvString, LookupEnvBool. by rewrite !E. Qed.

(** What the defaults of the flags make of the default configuration: the address of the Kentik API over
    gRPC, the listener and the threshold of Prometheus, and the address of Datadog. *)
Definition started : Config :=
  DefaultConfig <| GRPCBaseURL := "https://grpc.api.kentik.com" |>
    <| PrometheusSink := Some {| PromSink_ListenAddr := "127.0.0.1:8083"; PromSink_RemoteWriteUrl := "" |} |>
    <| PrometheusFormat := Some {| Prometheus_EnableCollectorStats := false; Prometheus_FlowsNeeded := 4 |} |>
    <| DDogSink := Some {| DDog_URL := "https://api.datadoghq.com/api/v2/series" |} |>.

Definition before_float (nv : string * flag_value) : bool := String.ltb nv.1 "gcp.sample".
Fixpoint take_while (p : string * flag_value → bool) (l : list (string * flag_value)) : list (string * flag_value) * list (string * flag_value) :=
  match l with x :: l' => if p x then let '(a, b) := take_while p l' in (x :: a, b) else ([], l) | [] => ([], []) end.

Lemma visit_sample c : ParseFloat "1" = Some float64_1 →
  visit ("gcp.sample", TFloat "1") c = done (put_in GCPVPCInput GCP_SampleRate float64_1 c).
Proof.
  intros Hf. unfold visit. cbn [fst snd value_String].
  assert (find_case "gcp.sample" cases = Some (FloatFlag (put_in GCPVPCInput GCP_SampleRate))) as -> by (vm_compute; reflexivity).
  cbn [run_case]. by rewrite Hf.
Qed.

Lemma default_split : ∃ fl1 fl2 c1, VisitAll (given ∅ (declared no_environment)) = fl1 ++ ("gcp.sample", TFloat "1") :: fl2 ∧
  visit_all fl1 DefaultConfig = Ok ([], c1) ∧
  ('(e, c) ← done (put_in GCPVPCInput GCP_SampleRate float64_1 c1); '(es, c) ← visit_all fl2 c; Ok (option_list e ++ es, c)) = Ok ([], started).
Proof.
  exists (take_while before_float (VisitAll (given ∅ (declared no_environment)))).1,
    (tail (take_while before_float (VisitAll (given ∅ (declared no_environment)))).2).
  eexists. split; [vm_compute; reflexivity|]. split; [vm_compute; reflexivity|]. vm_compute. reflexivity.
Qed.

(** with an empty command line and environment every flag is handled without an error and the
    configuration is the default one, but for four settings that the defaults of flags change: the
    address of the Kentik API over gRPC, the listener of Prometheus, how many flows its format needs,
    and the address of Datadog. *)
Theorem default_flags LookupEnv lost : (∀ k, LookupEnv k = None) → ParseFloat "1" = Some float64_1 →
  applyFlags lost (command_line LookupEnv ∅) DefaultConfig = Ok (inr started).
Proof.
  intros He Hf. unfold applyFlags, command_line. rewrite (declared_empty _ He). destruct default_split as (fl1 & fl2 & c1 & -> & E1 & E2).
  rewrite (visit_all_app _ _ _ _ _ E1). cbn [visit_all]. rewrite (visit_sample _ Hf), E2. reflexivity.
Qed.

(** ** What errors a command line has *)

(** C30: on a command line of the right types the errors are, in the order of the names of flags, exactly
    a zero for one of the numbers that must not be zero and a kind of cloud that is not known; every flag
    that is declared has a case of its type; no part of the configuration is lost, and threads and
    sampling rates are not zero afterwards. *)
Theorem flag_errors LookupEnv args : is_Some (ParseFloat "1") → right_types LookupEnv args →
  ∃ c, visit_all (command_line LookupEnv args) DefaultConfig = Ok (omap flag_error (command_line LookupEnv args), c) ∧ complete c ∧ positive c.
Proof. intros Hf Ha. apply command_line_good; [done..|apply DefaultConfig_good]. Qed.

(** ** Modes *)

(** What a mode leaves alone. *)
Definition same_rate (c c' : Config) : Prop := SampleRate c' = SampleRate c.
Lemma on_rate {P} (part : Config → option P) `{!Update part} f c c' :
  (∀ c p, SampleRate (c <| part := Some p |>) = SampleRate c) → on part f c = Ok c' → same_rate c c'.
Proof. intros Hp. unfold on. destruct (part c); [|done]. intros [= <-]. apply Hp. Qed.
Ltac on_rates := intros E; apply on_rate in E; [exact E|intros c0 p; by destruct c0].
Lemma rollup_rate f c c' : on Rollup f c = Ok c' → same_rate c c'.
Proof. on_rates. Qed.
Lemma aws_rate f c c' : on AWSVPCInput f c = Ok c' → same_rate c c'.
Proof. on_rates. Qed.
Lemma snmp_rate f c c' : on SNMPInput f c = Ok c' → same_rate c c'.
Proof. on_rates. Qed.
Lemma flow_rate f c c' : on FlowInput f c = Ok c' → same_rate c c'.
Proof. on_rates. Qed.
Lemma syslog_rate f c c' : on SyslogInput f c = Ok c' → same_rate c c'.
Proof. on_rates. Qed.
Lemma server_rate f c c' : on Server f c = Ok c' → same_rate c c'.
Proof. on_rates. Qed.
Lemma add_rollups_rate fs c c' : add_rollups fs c = Ok c' → same_rate c c'.
Proof.
  revert c. induction fs as [|f fs IH]; intros c E; cbn in E; [by injection E as <-|].
  destruct (add_rollup f c) as [c1| | |] eqn:E1; try discriminate E. apply rollup_rate in E1. apply IH in E. unfold same_rate in *. congruence.
Qed.
Lemma nr_metrics_rate c : SampleRate (nr_metrics c) = SampleRate c.
Proof. by destruct c. Qed.
Lemma dns_rate v c : SampleRate (c <| DNS := v |>) = SampleRate c.
Proof. by destruct c. Qed.
Lemma flows_rate v c : SampleRate (c <| MaxFlowsPerMessage := v |>) = SampleRate c.
Proof. by destruct c. Qed.
Lemma discovery_rate v c : SampleRate (c <| EnableSNMPDiscovery := v |>) = SampleRate c.
Proof. by destruct c. Qed.
Lemma setNr_rate c : SampleRate c ≠ 0 → SampleRate (setNr c) = SampleRate c.
Proof. intros Hr. unfold setNr. destruct c; cbn in *. by rewrite (proj2 (Z.eqb_neq _ _) Hr). Qed.

Ltac step_ok E := match type of E with (mbind _ ?m) = _ => let c1 := fresh "c" in let E1 := fresh "E" in
  destruct m as [c1| | |] eqn:E1; cbn in E; [|discriminate E..] end.
Lemma applyMode_rate c mode c' : SampleRate c ≠ 0 → applyMode c mode = Ok (inr c') → SampleRate c' = SampleRate c.
Proof.
  intros Hr. unfold applyMode. repeat (case_match; [|]); intros E; cbn [mret] in E.
  - by injection E as <-.
  - step_ok E. injection E as <-. apply aws_rate in E0. rewrite dns_rate, E0. by apply setNr_rate.
  - step_ok E. injection E as <-. by apply add_rollups_rate in E0.
  - injection E as <-. rewrite setNr_rate; by rewrite dns_rate.
  - step_ok E. injection E as <-. by apply add_rollups_rate in E0.
  - step_ok E. step_ok E. injection E as <-. apply snmp_rate in E0. apply flow_rate in E1. unfold same_rate in *.
    rewrite setNr_rate; congruence.
  - injection E as <-. rewrite setNr_rate; by rewrite discovery_rate.
  - step_ok E. step_ok E. injection E as <-. apply snmp_rate in E0. apply syslog_rate in E1. unfold same_rate in *. by rewrite E1, E0, nr_metrics_rate.
  - injection E as <-. by rewrite nr_metrics_rate, flows_rate.
  - discriminate E.
Qed.

Section Start.
Context `{ConfigStore, Merger}.
(** mergo fills in what the first configuration leaves at its zero value. *)
Hypothesis merge_rate : ∀ dst src c, mergo_Merge dst src = inr c → SampleRate c = (if SampleRate dst =? 0 then SampleRate src else SampleRate dst).

Lemma merged_rate LookupEnv args lost path c : is_Some (ParseFloat "1") → right_types LookupEnv args →
  merged lost (command_line LookupEnv args) path = Ok (inr c) → SampleRate c ≠ 0.
Proof.
  intros Hf Ha. destruct (command_line_good _ args DefaultConfig Hf Ha DefaultConfig_good) as (c1 & E1 & _ & _ & _ & _ & Hr).
  unfold merged, applyFlags. rewrite E1. cbn.
  destruct (omap flag_error _) as [|e []]; [|destruct lost; [|intros [=]]|intros [=]]; cbn.
  all: destruct (String.eqb path ""); [by intros [= <-]|]; destruct (LoadConfig path) as [err|kt]; [by intros [=]|].
  all: destruct (mergo_Merge kt c1) as [err|c2] eqn:E2; [by intros [=]|]; intros E; step_ok E; injection E as <-.
  all: apply server_rate in E0; rewrite E0, (merge_rate _ _ _ E2); by destruct (Z.eqb_spec (SampleRate kt) 0).
Qed.

(** when a mode is applied the sampling rate is never zero, whatever the command line, the environment
    and the file say, and no mode changes it: the 1:1000 sampling that the modes for New Relic give to a
    configuration without a rate is never used. *)
Theorem nr_rate_unused LookupEnv args lost path c : is_Some (ParseFloat "1") → right_types LookupEnv args →
  merged lost (command_line LookupEnv args) path = Ok (inr c) →
  SampleRate c ≠ 0 ∧ (∀ mode c', applyMode c mode = Ok (inr c') → SampleRate c' = SampleRate c).
Proof.
  intros Hf Ha E. pose proof (merged_rate _ _ _ _ _ Hf Ha E) as Hr. split; [done|]. intros mode c'. by apply applyMode_rate.
Qed.
End Start.

Definition modes : list string := [""; "nr1.vpc.lambda"; "vpc"; "nr1.vpc"; "flow"; "nr1.flow"; "nr1.discovery"; "nr1.syslog"; "nr1.snmp"].
(** The modes that send to New Relic, with the format of each. *)
Definition nr_format (mode : string) : option string :=
  if bool_decide (mode ∈ ["nr1.vpc.lambda"; "nr1.vpc"; "nr1.flow"; "nr1.discovery"]) then Some "new_relic"
  else if bool_decide (mode ∈ ["nr1.syslog"; "nr1.snmp"]) then Some "new_relic_metric" else None.

(** of a whole configuration a mode makes a whole configuration: the modes for New Relic send there
    alone, compressed, in the format of the mode; the others leave the sinks and the format as they are;
    any other word is refused and nothing is sent anywhere. *)
Theorem applyMode_sinks c mode : complete c → ∃ r, applyMode c mode = Ok r ∧
  match r with
  | inl e => mode ∉ modes
  | inr c' => mode ∈ modes ∧ match nr_format mode with
      | Some f => Sinks c' = ["new_relic"] ∧ Format c' = f ∧ Compression c' = "gzip"
      | None => Sinks c' = Sinks c ∧ Format c' = Format c ∧ Compression c' = Compression c
      end
  end.
Proof.
  intros Hc. destruct (decide (mode ∈ modes)) as [Hin|Hout].
  - destruct (SampleRate c) eqn:Hz; unfold complete in Hc; destruct c; cbn in Hc, Hz; subst; destruct_and!.
    all: repeat match goal with H : is_Some _ |- _ => destruct H as [? ->] end.
    all: pose proof Hin as Hm; unfold modes in Hin.
    all: repeat (apply elem_of_cons in Hin as [->|Hin]); [..|by apply not_elem_of_nil in Hin].
    all: eexists; split; [lazy; reflexivity|]; cbv beta iota; split; [exact Hm|];
      lazymatch goal with |- context [nr_format ?m] => let r := eval vm_compute in (nr_format m) in change (nr_format m) with r end; cbn; repeat split.
  - exists (inl (Errorf "Invalid mode %s. Options = nr1.vpc|nr1.flow|nr1.snmp|vpc|flow" [FStr mode])). split; [|done].
    unfold applyMode, modes in *. repeat (apply not_elem_of_cons in Hout as [?%String.eqb_neq Hout]). by repeat case_match.
Qed.

(** Checking the types of a command line. *)
Definition typed_asb (d v : flag_value) : bool :=
  match d, v with
  | TStr _, TStr _ | TBool _, TBool _ => true
  | TInt _, TInt z => (- 2 ^ 63 <=? z) && (z <? 2 ^ 63)
  | TFloat _, TFloat t => bool_decide (is_Some (ParseFloat t))
  | TList _ sep, TList _ sep' => String.eqb sep sep'
  | _, _ => false
  end.
Lemma typed_asb_spec d v : typed_asb d v = true → typed_as d v.
Proof.
  destruct d, v; cbn; try done.
  - unfold in_s. lia.
  - by intros ?%bool_decide_eq_true.
  - by intros ->%String.eqb_eq.
Qed.
Lemma right_types_check LookupEnv args :
  forallb (λ nd, match args !! nd.1 with Some v => typed_asb nd.2 v | None => true end) (declared LookupEnv) = true → right_types LookupEnv args.
Proof.
  rewrite forallb_forall. intros Hall n v Hv d Hd%list_elem_of_In. specialize (Hall _ Hd). cbn in Hall. rewrite Hv in Hall. by apply typed_asb_spec.
Qed.
End Flags.

(** ** Examples *)

#[local] Instance ex_env : FlagEnv := {| ParseFloat t := if String.eqb t "1" then Some float64_1 else None; os_Getenv _ := ""; os_Stat _ := false |}.
Definition ex_args : gmap string flag_value := {["threads" := TInt 0; "vpc" := TStr "azure"]}.
Definition ex_zero : gmap string flag_value := {["threads" := TInt 0]}.

(** A command line without threads is refused, or runs with one. *)
Example zero_threads : (applyFlags false (command_line no_environment ex_zero) DefaultConfig = Ok (inl (Errorf "%s must be > 0" [FStr "threads"]))) ∧
  (applyFlags true (command_line no_environment ex_zero) DefaultConfig = Ok (inr started)).
Proof. split; vm_compute; reflexivity. Qed.
(** A header with a comma, and a filter of two parts, arrive as two. *)
Example comma_header : (visit ("http_header", TList ["Accept: text/a,text/b"] ",") DefaultConfig =
    Ok (None, DefaultConfig <| HTTPSink := Some {| HTTP_Target := "http://localhost:8086/write?db=kentik";
      HTTP_TargetLogs := "http://localhost:8088/services/collector/event"; HTTP_Headers := ["Accept: text/a"; "text/b"];
      HTTP_InsecureSkipVerify := false; HTTP_TimeoutInSeconds := 30 |} |>)) ∧
  (visit ("filters", TList ["a and b"] AndToken) DefaultConfig = Ok (None, DefaultConfig <| Filters := ["a"; "b"] |>)).
Proof. split; vm_compute; reflexivity. Qed.
(** No flag sets whether dangling uploads are looked for. *)
Example no_dangling : find_case "s3_check_dangling" cases ≠ None ∧ existsb (λ nd, String.eqb nd.1 "s3_check_dangling") (declared no_environment) = false.
Proof. split; [vm_compute; discriminate|vm_compute; reflexivity]. Qed.
(** A negative number of threads is not refused. *)
Example negative_threads : flag_error ("threads", TInt (-1)) = None.
Proof. reflexivity. Qed.

Lemma flag_errors_witness : ∃ c, visit_all (command_line no_environment ex_args) DefaultConfig =
  Ok ([Errorf "%s must be > 0" [FStr "threads"]; Errorf "unsupported vpc type: %s" [FStr "azure"]], c) ∧ complete c ∧ positive c.
Proof.
  destruct (flag_errors no_environment ex_args) as (c & E & Hc); [by exists float64_1|by apply right_types_check; vm_compute|].
  exists c. split; [|exact Hc]. refine (eq_trans E _).
  assert (omap flag_error (command_line no_environment ex_args) = [Errorf "%s must be > 0" [FStr "threads"]; Errorf "unsupported vpc type: %s" [FStr "azure"]])
    as -> by (vm_compute; reflexivity). reflexivity.
Defined.

Lemma default_flags_witness : applyFlags false (command_line no_environment ∅) DefaultConfig = Ok (inr started).
Proof. apply (default_flags no_environment false); reflexivity. Defined.

Lemma applyFlags_race_witness : ∃ s s', run_reach (start_run (command_line no_environment ex_zero) DefaultConfig) s ∧ got s = Some None ∧
  run_reach (start_run (command_line no_environment ex_zero) DefaultConfig) s' ∧ got s' = Some (Some (Errorf "%s must be > 0" [FStr "threads"])).
Proof.
  destruct (applyFlags_race (command_line no_environment ex_zero) DefaultConfig [Errorf "%s must be > 0" [FStr "threads"]] started)
    as (_ & _ & H1 & H2); [vm_compute; reflexivity|].
  destruct (H1 (le_n 1)) as (s & Hs & Hg). destruct (H2 _ eq_refl) as (s' & Hs' & Hg'). by exists s, s'.
Defined.

#[local] Instance ex_store : ConfigStore := {|
  snmp_util_LoadFile _ := inr []; snmp_util_WriteFile _ _ := None; yaml_Unmarshal _ := inr (DefaultConfig <| SampleRate := 0 |>); yaml_Marshal _ := inr [] |}.
#[local] Instance ex_merger : Merger := λ dst src, inr (if SampleRate dst =? 0 then dst <| SampleRate := SampleRate src |> else dst).
Lemma ex_merge_rate dst src c : mergo_Merge dst src = inr c → SampleRate c = if SampleRate dst =? 0 then SampleRate src else SampleRate dst.
Proof. unfold mergo_Merge, ex_merger. intros [= <-]. destruct (SampleRate dst =? 0); [by destruct dst|done]. Qed.
Lemma nr_rate_unused_witness : ∃ c c', merged false (command_line no_environment ∅) "kt.yaml" = Ok (inr c) ∧
  applyMode c "nr1.flow" = Ok (inr c') ∧ SampleRate c' = 1.
Proof.
  destruct (merged false (command_line no_environment ∅) "kt.yaml") as [[|c]| | |] eqn:E; [vm_compute in E; discriminate E| |vm_compute in E; discriminate E..].
  destruct (nr_rate_unused ex_merge_rate no_environment ∅ false "kt.yaml" c) as [_ Hm];
    [by exists float64_1|by apply right_types_check; vm_compute|exact E|].
  destruct (applyMode c "nr1.flow") as [[|c']| | |] eqn:E2.
  2: { exists c, c'. split; [reflexivity|]. split; [exact E2|]. rewrite (Hm _ _ E2). vm_compute in E. by injection E as <-. }
  all: exfalso; vm_compute in E; injection E as <-; vm_compute in E2; discriminate E2.
Defined.

Lemma applyMode_sinks_witness : ∃ c, applyMode DefaultConfig "nr1.syslog" = Ok (inr c) ∧ Sinks c = ["new_relic"] ∧ Format c = "new_relic_metric".
Proof.
  destruct (applyMode_sinks DefaultConfig "nr1.syslog" DefaultConfig_complete) as ([e|c] & E & H1); [vm_compute in E; discriminate E|].
  exists c. split; [exact E|]. destruct H1 as (_ & H2 & H3 & _). by split.
Defined.
