(* ===== verification/Inputs.v ===== *)
(** What comes in over HTTP and syslog (src/pkg/inputs/http, src/pkg/inputs/syslog).

    Decompression, JSON, forms and syslog's own parsing are parameters.  A panic of a handler is a
    value here: a status code, which the wrapper answers with, or a run-time error. *)
From Stdlib Require Import Floats.SpecFloat.
From S2P Require Import Prelude GoStrings GoNet Jchf Ic.
From S2P Require Import FlowToJCHF.
From S2P Require FlowInput.
From S2P Require Carbon.
From S2P Require SnmpCounters.
Import FlowInput(SourceDevice, Dev_Name, Dev_ID, Dev_CompanyID, Dev_SampleRate, allUserTags, SetUserTags).
Local Open Scope Z_scope.

(** ** Requests *)

Record Request := mkRequest {
  Content_Encoding : string; Forwarded_For : string; RemoteAddr : string; rq_Body : list byte }.
(** The status that was written, and whether an error text was. *)
Record reply := mkReply { status : option Z; failure : option Z }.
Definition new_reply : reply := mkReply None None.
Definition WriteHeader (code : Z) (w : reply) : reply := mkReply (Some (default code (status w))) (failure w).
Definition http_Error (code : Z) (w : reply) : reply := mkReply (Some (default code (status w))) (Some code).

(** The listener: its devices, what it sent on, and its two counters. *)
Record KentikHttpListener := mkListener {
  devices : gmap string SourceDevice; sent : list (list JCHF); Messages : Z; Errors : Z }.
Definition mark_messages (n : Z) (l : KentikHttpListener) : KentikHttpListener := mkListener (devices l) (sent l) (Messages l + n) (Errors l).
Definition mark_error (l : KentikHttpListener) : KentikHttpListener := mkListener (devices l) (sent l) (Messages l) (Errors l + 1).
Definition send (out : list JCHF) (l : KentikHttpListener) : KentikHttpListener := mkListener (devices l) (sent l ++ [out]) (Messages l) (Errors l).

Inductive panic_value := Code (code : Z) | Runtime (why : string).
Definition handled : Type := KentikHttpListener * reply * option panic_value.
Definition handler : Type := Request → KentikHttpListener → reply → handled.

Record gigaEvent := mkGigaEvent {
  g_Timestamp : string; g_Vendor : string; g_Version : string; g_Generator : string; g_SrcIP : IP; g_DstIP : IP; g_Protocol : Z;
  g_SrcPort : Z; g_DstPort : Z; g_SslCommonName : string; g_SslIssuer : string; g_SslValidityNotBefore : string;
  g_SslValidityNotAdter : string; g_SslExtSigAlgorithumScheme : Z; g_SslExtSigAlgorithumHash : Z; g_SslExtSigAlgorithumSig : Z;
  g_AppId : Z; g_SrcPackets : Z; g_DstPackets : Z; g_AppName : string; g_SrcBytes : Z; g_DstBytes : Z; g_Id : string; g_SeqNum : Z }.
Record basic := mkBasic { b_Fields : gmap string spec_float; b_Name : string; b_Tags : gmap string string; b_Timestamp : Z }.

(** [ParseForm] may read the body, so it gives the body that is left.  The decoders are those of
    [encoding/json]; an element that is null decodes to a nil pointer. *)
Class HttpInputEnv := {
  ParseForm : Request → option (list byte);
  gunzip : list byte → option (list byte);
  decode_giga : list byte → option (list gigaEvent);
  decode_batch : list byte → option (list basic);
  decode_basic : list byte → option basic;
  decode_jchf : list byte → option (list (option JCHF)) }.

Definition StatusOK : Z := 200.
Definition StatusBadRequest : Z := 400.
Definition StatusInternalServerError : Z := 500.
Definition ProviderHttpDevice : Provider_ := "kentik-http".

Section Http.
Context `{HttpInputEnv}.
(** The flag http.remote_ip. *)
Variable useAsRemoteIP : string.
(** [time.Now().Unix()]. *)
Variable now : Z.

Definition getIP (q : Request) : string :=
  let cut res := hd EmptyString (SplitN 1 res ":") in
  if String.eqb (Forwarded_For q) "" then if String.eqb useAsRemoteIP "" then cut (RemoteAddr q) else useAsRemoteIP
  else cut (Forwarded_For q).

Definition known_device (devs : gmap string SourceDevice) (ip : string) (i : JCHF) : JCHF :=
  match devs !! ip with
  | Some dev =>
      SetUserTags dev (i <| DeviceName := Dev_Name dev |> <| DeviceId := Dev_ID dev |> <| CompanyId := Dev_CompanyID dev |>
        <| SampleRate := Dev_SampleRate dev |>)
  | None => i
  end.

Definition getGigaJCHF (devs : gmap string SourceDevice) (event : gigaEvent) (remoteIP : string) : JCHF :=
  let i := NewJCHF <| Timestamp := now |>
    <| CustomStr := Some {["timestamp" := g_Timestamp event; "vendor" := g_Vendor event; "version" := g_Version event;
         "generator" := g_Generator event; "app_name" := g_AppName event; "id" := g_Id event; "ssl_common_name" := g_SslCommonName event]} |>
    <| CustomInt := Some {["app_id" := wraps 32 (g_AppId event)]} |>
    <| CustomBigInt := Some {["seq_num" := g_SeqNum event]} |>
    <| CustomFloat := Some ∅ |>
    <| EventType := g_Vendor event |> <| Provider := ProviderHttpDevice |>
    <| SrcAddr := IP_String (g_SrcIP event) |> <| DstAddr := IP_String (g_DstIP event) |>
    <| Protocol := proto_name (wrapu 16 (g_Protocol event)) |>
    <| L4SrcPort := wrapu 32 (g_SrcPort event) |> <| L4DstPort := wrapu 32 (g_DstPort event) |>
    <| InPkts := wrapu 64 (g_SrcPackets event) |> <| OutPkts := wrapu 64 (g_DstPackets event) |>
    <| InBytes := wrapu 64 (g_SrcBytes event) |> <| OutBytes := wrapu 64 (g_DstBytes event) |> in
  known_device devs remoteIP i.

Definition getJCHF (devs : gmap string SourceDevice) (wrapper : basic) (remoteIP : string) : JCHF :=
  let i := NewJCHF <| CustomStr := Some ∅ |> <| CustomInt := Some ∅ |> <| CustomBigInt := Some ∅ |>
    <| EventType := ReplaceAll (b_Name wrapper) "." "_" |> <| Provider := ProviderHttpDevice |>
    <| SrcAddr := remoteIP |> <| ApplySample := true |> in
  let i := (known_device devs (default remoteIP (b_Tags wrapper !! "host")) i) <| Timestamp := b_Timestamp wrapper |> in
  i <| CustomStr := Some (b_Tags wrapper ∪ map_range (CustomStr i)) |>
    <| CustomBigInt := Some ((SnmpCounters.int64_of_float <$> b_Fields wrapper) ∪ map_range (CustomBigInt i)) |>.

(** The body, decompressed where the request says so, and decoded. *)
Definition read_body {W} (decode : list byte → option W) (q : Request) : option W :=
  b ← (if String.eqb (Content_Encoding q) "gzip" then gunzip (rq_Body q) else Some (rq_Body q));
  decode b.
Definition with_body {W} (decode : list byte → option W) (k : W → handler) : handler := λ q l w,
  match read_body decode q with
  | None => (l, w, Some (Code StatusInternalServerError))
  | Some v => k v q l (WriteHeader StatusOK w)
  end.

Definition readGigaBatch : handler := with_body decode_giga (λ wrap q l w,
  let out := (λ m, getGigaJCHF (devices l) m (getIP q)) <$> wrap in
  (send out (mark_messages (Z.of_nat (length out)) l), w, None)).
Definition readBatch : handler := with_body decode_batch (λ wrapper q l w,
  let out := (λ m, getJCHF (devices l) m (getIP q)) <$> wrapper in
  (send out (mark_messages (Z.of_nat (length out)) l), w, None)).
Definition readStandard : handler := with_body decode_basic (λ wrapper q l w,
  (mark_messages 1 (send [getJCHF (devices l) wrapper (getIP q)] l), w, None)).

(** [chf.SetMap()] for all, which a nil pointer stops. *)
Fixpoint SetMaps (flows : list (option JCHF)) : option (list JCHF) :=
  match flows with
  | [] => Some []
  | None :: _ => None
  | Some chf :: flows => out ← SetMaps flows; Some (SetMap chf :: out)
  end.
Definition readJCHF : handler := with_body decode_jchf (λ wrapper q l w,
  let l := mark_messages (Z.of_nat (length wrapper)) l in
  match SetMaps wrapper with
  | Some out => (send out l, w, None)
  | None => (l, w, Some (Runtime "nil pointer dereference"))
  end).

(** A code is answered; any other panic goes on to the server. *)
Definition recovered (r : handled) : handled :=
  match r with
  | (l, w, Some (Code code)) => (mark_error l, http_Error code w, None)
  | (l, w, Some p) => (mark_error l, w, Some p)
  | r => r
  end.
Definition wrap (f : handler) : handler := λ q l w,
  recovered (match ParseForm q with
    | None => (l, w, Some (Code StatusBadRequest))
    | Some body => f (mkRequest (Content_Encoding q) (Forwarded_For q) (RemoteAddr q) body) l w
    end).

Definition RegisterRoutes : list (string * handler) := [
  ("/input/telegraf/standard", wrap readStandard); ("/input/telegraf/batch", wrap readBatch);
  ("/input/ktranslate/jchf", wrap readJCHF); ("/input/gigamon/batch", wrap readGigaBatch)].

(** ** Answers *)

Definition received (q : Request) (body : list byte) : Request := mkRequest (Content_Encoding q) (Forwarded_For q) (RemoteAddr q) body.

(** What the answer to a request is: the flows that go on, if any. *)
Inductive answer := BadForm | BadBody | Flows (out : list JCHF) | NullFlow (n : Z).
Definition answered (a : answer) (l : KentikHttpListener) : handled :=
  match a with
  | BadForm => (mark_error l, mkReply (Some 400) (Some 400), None)
  | BadBody => (mark_error l, mkReply (Some 500) (Some 500), None)
  | Flows out => (send out (mark_messages (Z.of_nat (length out)) l), mkReply (Some 200) None, None)
  | NullFlow n => (mark_error (mark_messages n l), mkReply (Some 200) None, Some (Runtime "nil pointer dereference"))
  end.
Definition answer_by {W} (decode : list byte → option W) (build : Request → W → answer) (q : Request) : answer :=
  match ParseForm q with
  | None => BadForm
  | Some body => match read_body decode (received q body) with None => BadBody | Some v => build q v end
  end.
Definition jchf_answer (flows : list (option JCHF)) : answer :=
  match SetMaps flows with Some out => Flows out | None => NullFlow (Z.of_nat (length flows)) end.

Lemma SetMaps_Some flows out : SetMaps flows = Some out → length out = length flows ∧ Some <$> out = (fmap SetMap) <$> flows.
Proof.
  revert out. induction flows as [|[j|] flows IH]; intros out; cbn; [by intros [= <-]| |done].
  destruct (SetMaps flows) as [o|]; [|done]. intros [= <-]. destruct (IH o eq_refl) as [E1 E2]. cbn. by rewrite E1, E2.
Qed.
Lemma SetMaps_None flows : SetMaps flows = None ↔ None ∈ flows.
Proof.
  induction flows as [|[j|] flows IH]; cbn; [split; [done|by intros ?%not_elem_of_nil]| |split; [by left|done]].
  rewrite elem_of_cons. destruct (SetMaps flows) as [o|]; cbn; split; try done; intuition; try congruence.
Qed.

Lemma wrap_with_body {W} (decode : list byte → option W) k build q l :
  (∀ v body, recovered (k v (received q body) l (mkReply (Some 200) None)) = answered (build q v) l) →
  wrap (with_body decode k) q l new_reply = answered (answer_by decode build q) l.
Proof.
  intros Hk. unfold wrap, answer_by, with_body. destruct (ParseForm q) as [body|]; [|done]. fold (received q body).
  destruct (read_body decode (received q body)); [|done]. apply Hk.
Qed.

(** how each of the four addresses answers: 400 for a bad form and 500 for a body that cannot be
    read, with nothing sent on and one error counted; otherwise 200, all the records of the body are sent
    on at once in their order and counted; a null among received flows is a panic after the 200, and
    nothing of that request is sent on. *)
Theorem listener_answers q l :
  wrap readGigaBatch q l new_reply = answered (answer_by decode_giga (λ q v, Flows ((λ m, getGigaJCHF (devices l) m (getIP q)) <$> v)) q) l ∧
  wrap readBatch q l new_reply = answered (answer_by decode_batch (λ q v, Flows ((λ m, getJCHF (devices l) m (getIP q)) <$> v)) q) l ∧
  wrap readStandard q l new_reply = answered (answer_by decode_basic (λ q v, Flows [getJCHF (devices l) v (getIP q)]) q) l ∧
  wrap readJCHF q l new_reply = answered (answer_by decode_jchf (λ q v, jchf_answer v) q) l.
Proof.
  split; [|split; [|split]]; apply wrap_with_body; try done.
  intros v body. unfold jchf_answer. destruct (SetMaps v) as [out|] eqn:E; [|done]. cbn. by rewrite (proj1 (SetMaps_Some _ _ E)).
Qed.

(** ** Records *)

Lemma known_columns devs ip i :
  map_range (CustomStr (known_device devs ip i)) = default ∅ (map_range ∘ allUserTags <$> devs !! ip) ∪ map_range (CustomStr i) ∧
  CustomBigInt (known_device devs ip i) = CustomBigInt i ∧ SrcAddr (known_device devs ip i) = SrcAddr i ∧
  DeviceName (known_device devs ip i) = default (DeviceName i) (Dev_Name <$> devs !! ip) ∧
  SampleRate (known_device devs ip i) = default (SampleRate i) (Dev_SampleRate <$> devs !! ip).
Proof.
  unfold known_device, SetUserTags. destruct (devs !! ip) as [dev|]; cbn; [done|]. by rewrite (left_id_L ∅ (∪)).
Qed.

(** the record of a metric: a tag is found under its name before a tag of the device, which is found
    by the tag host where there is one and by the sender's address otherwise; every field is the integer
    part of its number; the source is the sender; name and sampling rate are those of the device. *)
Theorem metric_columns devs m ip k :
  let dev := devs !! default ip (b_Tags m !! "host") in
  let j := getJCHF devs m ip in
  map_range (CustomStr j) !! k = (match b_Tags m !! k with Some v => Some v | None => d ← dev; map_range (allUserTags d) !! k end) ∧
  map_range (CustomBigInt j) !! k = SnmpCounters.int64_of_float <$> b_Fields m !! k ∧
  SrcAddr j = ip ∧ Timestamp j = b_Timestamp m ∧ DeviceName j = default "" (Dev_Name <$> dev) ∧ SampleRate j = default 0 (Dev_SampleRate <$> dev).
Proof.
  cbv zeta. unfold getJCHF. match goal with |- context [known_device ?d ?h ?x] => destruct (known_columns d h x) as (E1 & E2 & E3 & E4 & E5);
    set (i := known_device d h x) in *; clearbody i end.
  cbn in *. change (default ∅ (CustomStr i)) with (map_range (CustomStr i)). rewrite E1, E2, E3, E4, E5. cbn. rewrite !(right_id_L ∅ (∪)), lookup_union, lookup_fmap. split; [|done].
  destruct (b_Tags m !! k); [by rewrite union_Some_l|]. rewrite (left_id_L None (∪)).
  by destruct (devs !! default ip (b_Tags m !! "host")).
Qed.

(** The port is cut off the address of the sender. *)
Lemma getIP_port e h p b : useAsRemoteIP = "" → Contains h ":" = false → getIP (mkRequest e "" (h +:+ ":" +:+ p) b) = h.
Proof.
  intros E Hh. unfold getIP. cbn [Forwarded_For RemoteAddr String.eqb SplitN]. rewrite E. cbn [String.eqb].
  pose proof (Cut_char ":" h p Hh) as E1. change (String ":" p) with (":" +:+ p) in E1. by rewrite E1.
Qed.
End Http.

(** An address of IPv6 is cut at its first colon, and a list of forwarding hosts is one address. *)
Example getIP_v6 : getIP "" (mkRequest "" "" "[2001:db8::1]:4000" []) = "[2001" ∧ getIP "" (mkRequest "" "10.0.0.1, 10.0.0.2" "10.0.0.9:4000" []) = "10.0.0.1, 10.0.0.2".
Proof. by vm_compute. Qed.
(** The columns of a received flow are gone when it is sent on. *)
Example received_columns : SetMaps [Some (NewJCHF <| InBytes := 9 |> <| CustomStr := Some {["app" := "dns"]} |>)] =
  Some [NewJCHF <| InBytes := 9 |> <| CustomStr := Some ∅ |> <| CustomInt := Some ∅ |> <| CustomBigInt := Some ∅ |> <| CustomFloat := Some ∅ |>
    <| CustomMetrics := Some ∅ |> <| CustomTables := Some ∅ |> <| MatchAttr := Some ∅ |>].
Proof. reflexivity. Qed.

(** ** Syslog *)

(** A field of a message: text, null, or another value, as its JSON. *)
Inductive part := PStr (s : string) | PNil | POther (raw : string).
#[export] Instance part_eq_dec : EqDecision part.
Proof. solve_decision. Defined.
Abbreviation LogParts := (gmap string part).
Definition PluginSyslog : string := "ktranslate-syslog".
Definition InstNameSyslog : string := "ktranslate-syslog".

Class SyslogEnv := json_Marshal : LogParts → option string.

Section Syslog.
Context `{SyslogEnv}.
(** The devices, the lookup of names where there is one, and the name of the service. *)
Variables (devs : gmap string SourceDevice) (resolver : option (string → string)) (ServiceName : string).

Definition SetMsgUserTags (d : SourceDevice) (msg : LogParts) : LogParts := (PStr <$> map_range (allUserTags d)) ∪ msg.
Definition client_address (client : string) : string := hd EmptyString (Split client ":").

Definition by_client (msg : LogParts) : LogParts :=
  match msg !! "client" with
  | Some (PStr client) =>
      let ip := client_address client in
      let msg := match devs !! ip with
        | Some dev => SetMsgUserTags dev (<["device_name" := PStr (Dev_Name dev)]> msg)
        | None => if String.eqb ServiceName "" then msg else <["tags.container_service" := PStr ServiceName]> msg
        end in
      match resolver with Some f => <["client_name" := PStr (f ip)]> msg | None => msg end
  | _ => msg
  end.
Definition by_hostname (msg : LogParts) : LogParts :=
  match msg !! "device_name", msg !! "hostname" with
  | None, Some (PStr hs) =>
      match ParseIP hs with
      | Some _ =>
          match devs !! hs with
          | Some dev => SetMsgUserTags dev (<["device_name" := PStr (Dev_Name dev)]> msg)
          | None =>
              match resolver with
              | Some f => <["device_name" := PStr (if String.eqb (f hs) "" then hs else f hs)]> msg
              | None => <["device_name" := PStr hs]> msg
              end
          end
      | None => <["device_name" := PStr hs]> msg
      end
  | _, _ => msg
  end.
Definition by_client_name (msg : LogParts) : LogParts :=
  match msg !! "device_name" with None => <["device_name" := default PNil (msg !! "client_name")]> msg | Some _ => msg end.
Definition swap_content (msg : LogParts) : LogParts :=
  match msg !! "message", msg !! "content" with None, Some v => delete "content" (<["message" := v]> msg) | _, _ => msg end.
Definition mark_plugin (msg : LogParts) : LogParts :=
  <["instrumentation.name" := PStr InstNameSyslog]> (<["plugin.type" := PStr PluginSyslog]> msg).
Definition drop_empty (msg : LogParts) : LogParts := filter (λ kv, kv.2 ≠ PStr "") msg.

Definition formatted (msg : LogParts) : LogParts :=
  drop_empty (mark_plugin (swap_content (by_client_name (by_hostname (by_client msg))))).
Definition formatMessage (msg : LogParts) : option string := json_Marshal (formatted msg).

(** The queue between [process] and its reader.  What cannot be written to the channel is counted, and
    where a message has no JSON an empty text goes on. *)
Record KentikSyslog := mkSyslog { logchan : list string; taken : list string; sl_Messages : Z; sl_Errors : Z }.
Definition new_syslog : KentikSyslog := mkSyslog [] [] 0 0.
Inductive syslog_event := Arrives (msg : LogParts) | Taken.
Definition text_of (msg : LogParts) : string := default EmptyString (formatMessage msg).
Definition process_one (cap : nat) (s : KentikSyslog) (e : syslog_event) : KentikSyslog :=
  match e with
  | Arrives msg =>
      if (length (logchan s) <? cap)%nat then mkSyslog (logchan s ++ [text_of msg]) (taken s) (sl_Messages s + 1) (sl_Errors s)
      else mkSyslog (logchan s) (taken s) (sl_Messages s + 1) (sl_Errors s + 1)
  | Taken => match logchan s with [] => s | t :: q => mkSyslog q (taken s ++ [t]) (sl_Messages s) (sl_Errors s) end
  end.
Definition process (cap : nat) (es : list syslog_event) (s : KentikSyslog) : KentikSyslog := foldl (process_one cap) s es.
Definition arrivals (es : list syslog_event) : list string := omap (λ e, match e with Arrives m => Some (text_of m) | Taken => None end) es.

(** *** What a message becomes *)

Definition nonempty (v : option part) : option part := if bool_decide (v = Some (PStr "")) then None else v.
Lemma drop_empty_lookup msg k : drop_empty msg !! k = nonempty (msg !! k).
Proof.
  unfold drop_empty, nonempty. rewrite map_lookup_filter. destruct (msg !! k) as [v|]; cbn; [|by case_bool_decide].
  case_guard as Hv; cbn; case_bool_decide; try done; congruence.
Qed.

(** Fields that no device has a tag for. *)
Definition untagged (k : string) : Prop := ∀ ip dev, devs !! ip = Some dev → map_range (allUserTags dev) !! k = None.
Lemma tags_lookup ip dev msg k : devs !! ip = Some dev → untagged k → SetMsgUserTags dev msg !! k = msg !! k.
Proof. intros Hd Hu. unfold SetMsgUserTags. rewrite lookup_union, lookup_fmap, (Hu _ _ Hd). cbn. by rewrite (left_id_L None (∪)). Qed.

Lemma by_client_other msg k : untagged k → k ∉ ["device_name"; "tags.container_service"; "client_name"] → by_client msg !! k = msg !! k.
Proof.
  intros Hu Hk. repeat (apply not_elem_of_cons in Hk as [? Hk]). unfold by_client. destruct (msg !! "client") as [[c| |]|]; try done.
  destruct resolver; [rewrite lookup_insert_ne by done|]; (destruct (devs !! _) as [dev|] eqn:E;
    [rewrite (tags_lookup _ _ _ _ E Hu), lookup_insert_ne by done; done|case_match; [done|by rewrite lookup_insert_ne by done]]).
Qed.
Lemma by_hostname_other msg k : untagged k → k ≠ "device_name" → by_hostname msg !! k = msg !! k.
Proof.
  intros Hu Hk. unfold by_hostname. destruct (msg !! "device_name"); [done|]. destruct (msg !! "hostname") as [[hs| |]|]; try done.
  destruct (ParseIP hs); [|by rewrite lookup_insert_ne]. destruct (devs !! hs) as [dev|] eqn:E.
  - by rewrite (tags_lookup _ _ _ _ E Hu), lookup_insert_ne.
  - by destruct resolver; rewrite lookup_insert_ne.
Qed.
Lemma by_client_name_other msg k : k ≠ "device_name" → by_client_name msg !! k = msg !! k.
Proof. intros Hk. unfold by_client_name. case_match; [done|by rewrite lookup_insert_ne]. Qed.
Lemma swap_other msg k : k ∉ ["message"; "content"] → swap_content msg !! k = msg !! k.
Proof.
  intros Hk. repeat (apply not_elem_of_cons in Hk as [? Hk]). unfold swap_content. repeat case_match; try done.
  by rewrite lookup_delete_ne, lookup_insert_ne.
Qed.
Lemma mark_other msg k : k ∉ ["plugin.type"; "instrumentation.name"] → mark_plugin msg !! k = msg !! k.
Proof. intros Hk. repeat (apply not_elem_of_cons in Hk as [? Hk]). unfold mark_plugin. by rewrite !lookup_insert_ne. Qed.

(** The name that a message should have: that of the device it came from, the one it carries, what is
    known of its host name, and last the name of the client. *)
Definition host_name (hs : string) : string :=
  match ParseIP hs, devs !! hs, resolver with
  | None, _, _ => hs
  | _, Some dev, _ => Dev_Name dev
  | _, None, Some f => if String.eqb (f hs) "" then hs else f hs
  | _, None, None => hs
  end.
Definition client_of (msg : LogParts) : option string := match msg !! "client" with Some (PStr c) => Some (client_address c) | _ => None end.
Definition client_name (msg : LogParts) : part :=
  match client_of msg, resolver with Some ip, Some f => PStr (f ip) | _, _ => default PNil (msg !! "client_name") end.
Definition best_name (msg : LogParts) : part :=
  match client_of msg ≫= (devs !!.), msg !! "device_name", msg !! "hostname" with
  | Some dev, _, _ => PStr (Dev_Name dev)
  | None, Some v, _ => v
  | None, None, Some (PStr hs) => PStr (host_name hs)
  | None, None, _ => client_name msg
  end.

Lemma by_client_device msg : untagged "device_name" → by_client msg !! "device_name" =
  match client_of msg ≫= (devs !!.) with Some dev => Some (PStr (Dev_Name dev)) | None => msg !! "device_name" end.
Proof.
  intros Hu. unfold by_client, client_of. destruct (msg !! "client") as [[c| |]|]; try done. cbn.
  destruct resolver; [rewrite lookup_insert_ne by done|]; (destruct (devs !! _) as [dev|] eqn:E;
    [by rewrite (tags_lookup _ _ _ _ E Hu), lookup_insert_eq|case_match; [done|by rewrite lookup_insert_ne by done]]).
Qed.
Lemma by_client_client msg : untagged "client_name" → default PNil (by_client msg !! "client_name") = client_name msg.
Proof.
  intros Hu. unfold by_client, client_name, client_of. destruct (msg !! "client") as [[c| |]|]; try done.
  destruct resolver; [by rewrite lookup_insert_eq|]. destruct (devs !! _) as [dev|] eqn:E.
  - by rewrite (tags_lookup _ _ _ _ E Hu), lookup_insert_ne.
  - case_match; [done|by rewrite lookup_insert_ne by done].
Qed.
Lemma by_hostname_device msg : untagged "device_name" → by_hostname msg !! "device_name" =
  match msg !! "device_name", msg !! "hostname" with Some v, _ => Some v | None, Some (PStr hs) => Some (PStr (host_name hs)) | None, _ => None end.
Proof.
  intros Hu. unfold by_hostname, host_name. destruct (msg !! "device_name") eqn:Ed; [done|]. destruct (msg !! "hostname") as [[hs| |]|]; try done.
  destruct (ParseIP hs); [|by rewrite lookup_insert_eq]. destruct (devs !! hs) as [dev|] eqn:E.
  - by rewrite (tags_lookup _ _ _ _ E Hu), lookup_insert_eq.
  - by destruct resolver; rewrite lookup_insert_eq.
Qed.

Lemma named msg : untagged "device_name" → untagged "hostname" → untagged "client_name" →
  by_client_name (by_hostname (by_client msg)) !! "device_name" = Some (best_name msg).
Proof.
  intros Hd Hh Hc. unfold by_client_name. destruct (by_hostname (by_client msg) !! "device_name") as [v|] eqn:E.
  - rewrite E. f_equal. rewrite (by_hostname_device _ Hd), (by_client_device _ Hd), (by_client_other _ _ Hh) in E by set_solver. unfold best_name.
    destruct (client_of msg ≫= _); [by injection E|]. destruct (msg !! "device_name"); [by injection E|].
    destruct (msg !! "hostname") as [[]|]; try discriminate E. by injection E.
  - rewrite lookup_insert_eq, (by_hostname_other _ _ Hc), (by_client_client _ Hc) by done. f_equal.
    rewrite (by_hostname_device _ Hd), (by_client_device _ Hd), (by_client_other _ _ Hh) in E by set_solver. unfold best_name.
    destruct (client_of msg ≫= _); [discriminate E|]. destruct (msg !! "device_name"); [discriminate E|].
    by destruct (msg !! "hostname") as [[]|].
Qed.

Definition touched : list string := ["device_name"; "tags.container_service"; "client_name"; "message"; "content"; "plugin.type"; "instrumentation.name"].

Lemma swap_message msg : swap_content msg !! "message" = match msg !! "message" with Some v => Some v | None => msg !! "content" end.
Proof.
  unfold swap_content. destruct (msg !! "message") eqn:E; [done|]. destruct (msg !! "content"); [|done].
  by rewrite lookup_delete_ne, lookup_insert_eq.
Qed.

(** what a syslog message becomes, where no device has tags under the names in question: no field is
    an empty text; its name is that of the device it came from, else the one it carries, else what is known
    of its host name, else the name of the client; the text is the message or else the content; it carries the
    two marks of its origin; every other field is as it came. *)
Theorem syslog_message msg : untagged "device_name" → untagged "hostname" → untagged "client_name" → untagged "message" → untagged "content" →
  (∀ k, formatted msg !! k ≠ Some (PStr "")) ∧
  formatted msg !! "device_name" = nonempty (Some (best_name msg)) ∧
  formatted msg !! "message" = nonempty (match msg !! "message" with Some v => Some v | None => msg !! "content" end) ∧
  formatted msg !! "plugin.type" = Some (PStr PluginSyslog) ∧ formatted msg !! "instrumentation.name" = Some (PStr InstNameSyslog) ∧
  (∀ k, untagged k → k ∉ touched → formatted msg !! k = nonempty (msg !! k)).
Proof.
  intros Hd Hh Hc Hm Hco. unfold formatted. split; [|split; [|split; [|split; [|split]]]].
  - intros k. rewrite drop_empty_lookup. unfold nonempty. by case_bool_decide.
  - by rewrite drop_empty_lookup, mark_other, swap_other, named by set_solver.
  - rewrite drop_empty_lookup, mark_other, swap_message by set_solver. rewrite !by_client_name_other by done.
    by rewrite (by_hostname_other _ _ Hm), (by_hostname_other _ _ Hco), (by_client_other _ _ Hm), (by_client_other _ _ Hco) by set_solver.
  - rewrite drop_empty_lookup. unfold mark_plugin. by rewrite lookup_insert_ne, lookup_insert_eq.
  - rewrite drop_empty_lookup. unfold mark_plugin. by rewrite lookup_insert_eq.
  - intros k Hu Hk. unfold touched in Hk.
    by rewrite drop_empty_lookup, mark_other, swap_other, by_client_name_other, (by_hostname_other _ _ Hu), (by_client_other _ _ Hu) by set_solver.
Qed.

Record queue_inv (cap : nat) (seen : list string) (s : KentikSyslog) : Prop := {
  qi_cap : (length (logchan s) ≤ cap)%nat;
  qi_order : taken s ++ logchan s `sublist_of` seen;
  qi_messages : sl_Messages s = Z.of_nat (length seen);
  qi_errors : sl_Errors s = Z.of_nat (length seen) - Z.of_nat (length (taken s ++ logchan s)) }.
Lemma queue_inv_step cap seen s e : queue_inv cap seen s → queue_inv cap (seen ++ arrivals [e]) (process_one cap s e).
Proof.
  intros [H1 H2 H3 H4]. destruct e as [m|]; unfold process_one, arrivals; cbn [omap list_omap].
  - destruct (Nat.ltb_spec (length (logchan s)) cap) as [Hl|Hl]; split; cbn; rewrite ?length_app in *; cbn; try lia.
    + rewrite app_assoc. by apply sublist_app.
    + by apply sublist_inserts_r.
  - rewrite app_nil_r. destruct s as [[|t q] tk ms er]; [by split|]. cbn in *. split; cbn in *; try lia; [by rewrite <-app_assoc|].
    rewrite <-app_assoc. exact H4.
Qed.

(** the queue of syslog never blocks and never holds more than its size; the texts that are taken from
    it or still wait are those of arrived messages, in the order of arrival; every message is counted, and
    each that is not among them is counted as an error. *)
Theorem syslog_accounts cap es : let s := process cap es new_syslog in
  (length (logchan s) ≤ cap)%nat ∧ taken s ++ logchan s `sublist_of` arrivals es ∧ sl_Messages s = Z.of_nat (length (arrivals es)) ∧
  sl_Errors s = Z.of_nat (length (arrivals es)) - Z.of_nat (length (taken s ++ logchan s)).
Proof.
  cbv zeta. assert (queue_inv cap (arrivals es) (process cap es new_syslog)) as [H1 H2 H3 H4]; [|done].
  induction es as [|e es IH] using rev_ind; [by split; cbn; [lia|..]|].
  unfold process, arrivals in *. rewrite foldl_snoc, omap_app. by apply queue_inv_step.
Qed.
End Syslog.

(** *** Examples *)

#[local] Instance ex_json : SyslogEnv := λ msg, Some (match msg !! "device_name" with Some (PStr s) => s | _ => "?" end).
Definition ex_router : SourceDevice :=
  {| Dev_Name := "edge1"; Dev_ID := 7; Dev_CompanyID := 9; Dev_SampleRate := 10; allUserTags := Some {["tags.site" := "ams"]} |}.
Definition ex_devs : gmap string SourceDevice := {["10.0.0.1" := ex_router]}.
Definition ex_msg : LogParts := {["client" := PStr "10.0.0.1:40000"; "hostname" := PStr "edge"; "content" := PStr "up"; "tag" := PStr ""]}.

Lemma syslog_message_witness : formatted ex_devs None "" ex_msg !! "device_name" = Some (PStr "edge1") ∧
  formatted ex_devs None "" ex_msg !! "message" = Some (PStr "up") ∧ formatted ex_devs None "" ex_msg !! "tag" = None.
Proof.
  assert (∀ k, k ≠ "tags.site" → untagged ex_devs k) as Hu.
  { intros k Hk ip dev E. unfold ex_devs in E. apply lookup_singleton_Some in E as [_ <-]. cbn. by rewrite lookup_singleton_ne. }
  destruct (syslog_message ex_devs None "" ex_msg) as (_ & H1 & H2 & _ & _ & H3); [by apply Hu..|].
  rewrite H1, H2. split; [vm_compute; reflexivity|]. split; [vm_compute; reflexivity|].
  rewrite H3; [vm_compute; reflexivity|by apply Hu|apply (bool_decide_unpack _); vm_compute; exact I].
Defined.

(** A message with neither client nor host name is given null for a name. *)
Example syslog_no_name : formatted ∅ None "" {["message" := PStr "x"]} !! "device_name" = Some PNil.
Proof. by vm_compute. Qed.
(** A client of IPv6 is not found among the devices. *)
Example syslog_v6 : client_address "[2001:db8::1]:514" = "[2001".
Proof. by vm_compute. Qed.
(** A device without a name hides the host name. *)
Example syslog_empty_name : formatted {["10.0.0.1" := {| Dev_Name := ""; Dev_ID := 7; Dev_CompanyID := 9; Dev_SampleRate := 10; allUserTags := None |}]} None ""
  ex_msg !! "device_name" = None.
Proof. by vm_compute. Qed.
