(* ===== verification/SnmpStart.v ===== *)
(** The start of SNMP (src/pkg/inputs/snmp/snmp.go, snmp_unix.go, util/adaptor.go): the parts of a
    configuration that come from other files, sessions with devices, which pollers each device gets, and
    what is run again when the configuration changes.

    Files, yaml, the connection of a session, the Kentik API and the lookup of profiles are parameters.
    The tags of devices are in SnmpTags.v. *)
From S2P Require Import Prelude GoStrings.
From S2P Require Import Config.
Local Open Scope Z_scope.
Local Open Scope config_scope.

(** ** Configuration *)

Record V3SNMPConfig := mkV3 {
  UserName : string; AuthenticationProtocol : string; AuthenticationPassphrase : string; PrivacyProtocol : string;
  PrivacyPassphrase : string; ContextEngineID : string; ContextName : string; useGlobal : bool }.
Definition InheritGlobal (v : option V3SNMPConfig) : bool := match v with Some v => useGlobal v | None => false end.

(** What is read here of a device; [ExtOnly] is whether it has an extension that is all it runs. *)
Record device := mkDevice {
  DeviceName : string; DeviceIP : string; Community : string; UseV1 : bool; V3 : option V3SNMPConfig; Port : Z; d_TimeoutMS : Z; d_Retries : Z;
  OID : string; Description : string; MibProfile_ : string; Provider : string; FlowOnly : bool; PingOnly : bool; RunPing : bool;
  ExtOnly : bool; NoUseBulkWalkAll : bool; NoCheckIncreasing : bool }.
Record SnmpGlobalConfig := mkGlobal {
  TimeoutMS : Z; Retries : Z; GlobalV3 : option V3SNMPConfig; g_PingOnly : bool; g_RunPing : bool; WatchProfileChanges : bool }.
Record SnmpDiscoConfig := mkDisco { Cidrs : list string; IgnoreList : list string; DefaultV3 : option V3SNMPConfig; CidrOrig : string; IgnoreOrig : string }.
Record SnmpTrapConfig := mkTrap { TrapOnly : bool; trap_V3 : option V3SNMPConfig }.
(** A name without a device is a nil pointer. *)
Record SnmpConfig := mkSnmpConfig {
  Devices : gmap string (option device); Disco : option SnmpDiscoConfig; Trap : option SnmpTrapConfig; Global : option SnmpGlobalConfig;
  DeviceOrig : string }.

Class SnmpFiles := {
  ReadFile : string → error + list byte;
  yaml_strings : list byte → error + list string;
  yaml_devices : list byte → error + gmap string (option device) }.

(** *** Sections from other files *)

Section Files.
Context `{SnmpFiles}.

(** [strings.HasPrefix(l[0], "@")], and the name of the file. *)
Definition at_file (l : list string) : option string :=
  match l with s :: _ => if HasPrefix s "@" then Some (drop_string 1 s) else None | [] => None end.
Definition read_yaml {A} (decode : list byte → error + A) (file : string) : error + A :=
  match ReadFile file with inl err => inl err | inr by_ => decode by_ end.

Definition expand_cidrs (d : SnmpDiscoConfig) : error + SnmpDiscoConfig :=
  match at_file (Cidrs d) with
  | None => inr d
  | Some f => match read_yaml yaml_strings f with inl err => inl err | inr l => inr (d <| CidrOrig := f |> <| Cidrs := l |>) end
  end.
Definition expand_ignore (d : SnmpDiscoConfig) : error + SnmpDiscoConfig :=
  match at_file (IgnoreList d) with
  | None => inr d
  | Some f => match read_yaml yaml_strings f with inl err => inl err | inr l => inr (d <| IgnoreOrig := f |> <| IgnoreList := l |>) end
  end.

(** The range over the devices, whose order is given. *)
Record expansion := mkExpansion { left_ : gmap string (option device); fullDevices : gmap string (option device); orig : string }.
Definition expand_device (nd : string * option device) (s : expansion) : res (error + expansion) :=
  if HasPrefix nd.1 "file_" then
    match nd.2 with
    | None => Panic "nil pointer dereference"
    | Some devFile =>
        if HasPrefix (DeviceName devFile) "@" then
          match read_yaml yaml_devices (drop_string 1 (DeviceName devFile)) with
          | inl err => Ok (inl err)
          | inr deviceSet =>
              Ok (inr (mkExpansion (delete nd.1 (left_ s)) (delete nd.1 deviceSet ∪ fullDevices s) (drop_string 1 (DeviceName devFile))))
          end
        else Ok (inr s)
    end
  else Ok (inr s).
Fixpoint expand_loop (l : list (string * option device)) (s : expansion) : res (error + expansion) :=
  match l with
  | [] => Ok (inr s)
  | nd :: l => r ← expand_device nd s; match r with inl err => Ok (inl err) | inr s => expand_loop l s end
  end.
Definition expand_devices (order : list (string * option device)) (c : SnmpConfig) : res (error + SnmpConfig) :=
  r ← expand_loop order (mkExpansion (Devices c) ∅ (DeviceOrig c));
  match r with
  | inl err => Ok (inl err)
  | inr s => Ok (inr (c <| Devices := if bool_decide (fullDevices s = ∅) then left_ s else fullDevices s |> <| DeviceOrig := orig s |>))
  end.
End Files.

(** *** The settings of SNMPv3 that are shared *)

Definition inherit_device (g : V3SNMPConfig) (d : option device) : option (option device) :=
  match d with
  | None => None
  | Some d => Some (Some (if InheritGlobal (V3 d) then d <| V3 := Some g |> else d))
  end.
(** Every device is visited; one that is nil is a panic. *)
Definition inherit_v3 (c : SnmpConfig) : res SnmpConfig :=
  match Global c ≫= GlobalV3 with
  | None => Ok c
  | Some g =>
      let disco := (λ d, if InheritGlobal (DefaultV3 d) then d <| DefaultV3 := Some g |> else d) <$> Disco c in
      let trap := (λ t, if InheritGlobal (trap_V3 t) then t <| trap_V3 := Some g |> else t) <$> Trap c in
      if bool_decide (map_Forall (λ _ d, d ≠ None) (Devices c))
      then Ok (c <| Disco := disco |> <| Trap := trap |> <| Devices := omap (inherit_device g) (Devices c) |>)
      else Panic "nil pointer dereference"
  end.

(** [initSnmp]: the timeout in milliseconds and the number of retries; nothing without a global section. *)
Definition initSnmp (conf : error + SnmpConfig) : error + option (SnmpConfig * Z * Z) :=
  match conf with
  | inl err => inl err
  | inr conf =>
      match Global conf with
      | None => inr None
      | Some g => inr (Some (conf, if 0 <? TimeoutMS g then TimeoutMS g else 5000, if 0 <? Retries g then Retries g else 0))
      end
  end.

(** ** Sessions (util/adaptor.go) *)

Inductive SnmpV3MsgFlags := NoAuthNoPriv | AuthNoPriv | AuthPriv.
Inductive SnmpVersion := Version1 | Version2c | Version3.
(** Protocols are their names. *)
Record UsmSecurityParameters := mkUsm {
  usm_UserName : string; usm_Auth : string; usm_Priv : string; usm_AuthPass : string; usm_PrivPass : string }.
Definition AWSErrPrefix : string := "AwsError: ".
Definition priv_protocols : list string := ["NoPriv"; "DES"; "AES"; "AES192"; "AES256"; "AES192C"; "AES256C"].
Definition auth_protocols : list string := ["NoAuth"; "MD5"; "SHA"; "SHA224"; "SHA256"; "SHA384"; "SHA512"].

Definition ParseV3Config (v3config : option V3SNMPConfig) : error + (UsmSecurityParameters * SnmpV3MsgFlags * string * string) :=
  match v3config with
  | None => inl (Errorf "invalid nil v3 config passed: %v" [])
  | Some v =>
      if bool_decide (PrivacyProtocol v ∉ priv_protocols) then inl (Errorf "invalid v3 privacy_protocol: %s" [FStr (PrivacyProtocol v)])
      else if bool_decide (AuthenticationProtocol v ∉ auth_protocols)
        then inl (Errorf "invalid v3 authentication_protocol: %s" [FStr (AuthenticationProtocol v)])
      else
        let flags := if String.eqb (PrivacyProtocol v) "NoPriv" then AuthNoPriv else AuthPriv in
        let flags := if String.eqb (AuthenticationProtocol v) "NoAuth" then NoAuthNoPriv else flags in
        if HasPrefix (AuthenticationPassphrase v) AWSErrPrefix
          then inl (Errorf "Invalid AuthenticationPassphrase: %s" [FStr (AuthenticationPassphrase v)])
        else if HasPrefix (PrivacyPassphrase v) AWSErrPrefix then inl (Errorf "Invalid PrivacyPassphrase: %s" [FStr (PrivacyPassphrase v)])
        else inr (mkUsm (UserName v) (AuthenticationProtocol v) (PrivacyProtocol v) (AuthenticationPassphrase v) (PrivacyPassphrase v),
                  flags, ContextEngineID v, ContextName v)
  end.

Record GoSNMP := mkGoSNMP {
  s_Port : Z; s_Timeout : Z; s_Retries : Z; s_Target : string; s_Community : string; s_Version : SnmpVersion; s_ContextEngineID : string;
  s_ContextName : string; s_MsgFlags : option SnmpV3MsgFlags; s_Security : option UsmSecurityParameters; s_no_check : bool }.
Definition SNMP_PORT : Z := 161.
Definition MAX_CONNECT_TRY : nat := 10.

(** The session that is to be connected, and the device, which may lose bulk walks. *)
Definition session_for (d : device) (connectTimeout retries : Z) : error + (GoSNMP * device) :=
  if (String.eqb (Community d) "" && bool_decide (V3 d = None)) || String.eqb (DeviceIP d) "" then inl (Errorf "community or server IP not set" [])
  else
    let timeout := if 0 <? d_TimeoutMS d then d_TimeoutMS d else connectTimeout in
    let retries := if 0 <? d_Retries d then d_Retries d else retries in
    let port := if Port d =? 0 then SNMP_PORT else Port d in
    match V3 d with
    | None =>
        let v := if UseV1 d then Version1 else Version2c in
        inr (mkGoSNMP port timeout retries (DeviceIP d) (Community d) v "" "" None None (NoCheckIncreasing d),
             if UseV1 d then d <| NoUseBulkWalkAll := true |> else d)
    | Some v3 =>
        match ParseV3Config (Some v3) with
        | inl err => inl err
        | inr (params, flags, engine, name) =>
            inr (mkGoSNMP port timeout retries (DeviceIP d) "" Version3 engine name (Some flags) (Some params) (NoCheckIncreasing d), d)
        end
    end.

(** [Connect s n] is what the attempt after [n] others gives. *)
Fixpoint connect_loop (fuel : nat) (Connect : nat → option error) (times : nat) : res (option error * nat) :=
  match fuel with
  | O => OutOfFuel
  | S fuel =>
      match Connect times with
      | None => Ok (None, S times)
      | Some err => if (MAX_CONNECT_TRY <? times)%nat then Ok (Some err, S times) else connect_loop fuel Connect (S times)
      end
  end.

Class SnmpEnv := {
  Connect : GoSNMP → nat → option error;
  EnsureDevice : device → option error;
  FindProfile : string → string → string → option (string * bool) }.

(** ** Pollers *)

Inductive poller := PingLoop (name : string) | ExtensionLoop (name : string) | MetadataAndMetrics (name : string) (session : GoSNMP).

Section Polling.
Context `{SnmpEnv}.

Definition InitSNMP (d : device) (connectTimeout retries : Z) : res (error + (GoSNMP * device)) :=
  match session_for d connectTimeout retries with
  | inl err => Ok (inl err)
  | inr (server, d) =>
      '(err, _) ← connect_loop 13 (Connect server) 0;
      Ok (match err with None => inr (server, d) | Some err => inl err end)
  end.

(** What is started for one device, and the error that ends its start. *)
Definition launchSnmp (g : SnmpGlobalConfig) (d : device) (connectTimeout retries : Z) : res (list poller * option error) :=
  if g_PingOnly g || PingOnly d then Ok ([PingLoop (DeviceName d)], None)
  else
    let ping := if g_RunPing g || RunPing d then [PingLoop (DeviceName d)] else [] in
    if ExtOnly d then Ok (ping ++ [ExtensionLoop (DeviceName d)], None)
    else
      metadataServer ← InitSNMP d connectTimeout retries;
      match metadataServer with
      | inl err => Ok (ping, Some err)
      | inr (_, d) =>
          metricsServer ← InitSNMP d connectTimeout retries;
          match metricsServer with
          | inl err => Ok (ping, Some err)
          | inr (s, d) => Ok (ping ++ [MetadataAndMetrics (DeviceName d) s], None)
          end
      end.

(** The device with its provider and its profile. *)
Definition with_profile (d : device) : device :=
  let d := if String.eqb (Provider d) "" then d <| Provider := "kentik-default" |> else d in
  match FindProfile (OID d) (Description d) (MibProfile_ d) with
  | Some (provider, noBulk) =>
      let d := if noBulk : bool then d <| NoUseBulkWalkAll := true |> else d in
      if String.eqb provider "" then d else d <| Provider := provider |>
  | None => d
  end.

(** One turn of the loop of [runSnmpPolling]. *)
Definition run_device (flowOnly : bool) (g : SnmpGlobalConfig) (timeout retries : Z) (d : option device) : res (list poller * option error) :=
  match d with
  | None => Panic "nil pointer dereference"
  | Some d =>
      if flowOnly || FlowOnly d then Ok ([], None)
      else
        let d := with_profile d in
        match EnsureDevice d with Some err => Ok ([], Some err) | None => launchSnmp g d timeout retries end
  end.
Fixpoint run_devices (flowOnly : bool) (g : SnmpGlobalConfig) (timeout retries : Z) (l : list (option device)) : res (list poller * option error) :=
  match l with
  | [] => Ok ([], None)
  | d :: l =>
      '(ps, err) ← run_device flowOnly g timeout retries d;
      match err with
      | Some err => Ok (ps, Some err)
      | None => '(ps', err) ← run_devices flowOnly g timeout retries l; Ok (ps ++ ps', err)
      end
  end.
(** [runSnmpPolling] for the configuration that is read now, its devices in the order of the range. *)
Definition runSnmpPolling (flowOnly : bool) (conf : error + SnmpConfig) (order : SnmpConfig → list (option device)) : res (list poller * option error) :=
  match initSnmp conf with
  | inl err => Ok ([], Some err)
  | inr None => Ok ([], None)
  | inr (Some (conf, timeout, retries)) =>
      match Global conf with None => Ok ([], None) | Some g => run_devices flowOnly g timeout retries (order conf) end
  end.

(** ** What a start does (StartSNMPPolls) *)

Record SNMPInputConfig := mkInput {
  JSONToYAML : string; WalkTarget : string; RunFromWalkFile : string; ValidateMIBs : bool; PollNowTarget : string; in_FlowOnly : bool;
  DiscoveryOnStart : bool; DiscoveryIntervalMinutes : Z }.
Inductive start_action := ConvertJson (file : string) | DoWalk (target : string) | PollOnce (target : string) | StartPolling | StartTraps.
(** The result: an error, the end of the process, or what was started. *)
Inductive start_result := Failed (e : error) | Exits | Started (l : list start_action).
Definition StartSNMPPolls (cfg : SNMPInputConfig) (conf : error + SnmpConfig) (LoadFromWalk : string → option error) (NewMibDB : option error)
    (NewTrapListener : option error) : start_result :=
  match initSnmp conf with
  | inl err => Failed err
  | inr None => Started []
  | inr (Some (conf, _, _)) =>
      if negb (String.eqb (JSONToYAML cfg) "") then Started [ConvertJson (JSONToYAML cfg)]
      else if negb (String.eqb (WalkTarget cfg) "") then Started [DoWalk (WalkTarget cfg)]
      else
        match (if String.eqb (RunFromWalkFile cfg) "" then None else LoadFromWalk (RunFromWalkFile cfg)) with
        | Some err => Failed err
        | None =>
            match NewMibDB with
            | Some err => Failed err
            | None =>
                if ValidateMIBs cfg then Exits
                else if negb (String.eqb (PollNowTarget cfg) "") then Started [PollOnce (PollNowTarget cfg)]
                else
                  let polls := match Trap conf with Some t => if TrapOnly t then [] else [StartPolling] | None => [StartPolling] end in
                  match Trap conf with
                  | Some _ =>
                      if in_FlowOnly cfg then Started polls
                      else match NewTrapListener with Some err => Failed err | None => Started (polls ++ [StartTraps]) end
                  | None => Started polls
                  end
            end
        end
  end.

(** [pollOnce] looks for the device by its key and then by its name. *)
Definition find_device (order : list (string * option device)) (devs : gmap string (option device)) (t : string) : res (option device) :=
  match devs !! t with
  | Some (Some d) => Ok (Some d)
  | _ =>
      (fix go l := match l with
        | [] => Ok None
        | (_, None) :: _ => Panic "nil pointer dereference"
        | (_, Some d) :: l => if String.eqb (DeviceName d) t then Ok (Some d) else go l
        end) order
  end.

(** ** Running again (wrapSnmpPolling) *)

(** One round: what was polled, and how discovery is started, if it is: its interval and whether at once. *)
Record round := mkRound { r_polls : res (list poller * option error); r_disco : option (Z * bool) }.
Definition wrap_round (cfg : SNMPInputConfig) (restartCount : nat) (polls : res (list poller * option error)) : round :=
  let runOnStart := DiscoveryOnStart cfg && (restartCount =? 0)%nat in
  mkRound polls (if (0 <? DiscoveryIntervalMinutes cfg) || runOnStart then Some (DiscoveryIntervalMinutes cfg, runOnStart) else None).
(** The rounds for the configurations that are read, one after each signal. *)
Fixpoint wrapSnmpPolling (cfg : SNMPInputConfig) (restartCount : nat) (order : SnmpConfig → list (option device)) (confs : list (error + SnmpConfig)) : list round :=
  match confs with
  | [] => []
  | conf :: confs =>
      wrap_round cfg restartCount (runSnmpPolling (in_FlowOnly cfg) conf order) :: wrapSnmpPolling cfg (S restartCount) order confs
  end.
End Polling.

(** ** Sessions *)

Lemma connect_loop_spec C fuel times : (12 < fuel + times)%nat → (times ≤ 11)%nat →
  ∃ err n, connect_loop fuel C times = Ok (err, n) ∧ (times < n ≤ 12)%nat ∧ (∀ i, (times ≤ i < n - 1)%nat → C i ≠ None) ∧ C (n - 1)%nat = err ∧
    (err ≠ None → n = 12%nat).
Proof.
  revert times. induction fuel as [|fuel IH]; intros times Hf Ht; [lia|]. cbn [connect_loop].
  destruct (C times) as [err|] eqn:E.
  - unfold MAX_CONNECT_TRY. destruct (Nat.ltb_spec 10 times) as [Hl|Hl].
    + exists (Some err), (S times). split; [done|]. split; [lia|]. split; [intros i Hi; lia|]. split; [by replace (S times - 1)%nat with times by lia|intros _; lia].
    + destruct (IH (S times)) as (e & n & E1 & Hn & Hb & He & Hl'); [lia..|]. exists e, n. split; [done|]. split; [lia|]. split; [|done].
      intros i Hi. destruct (decide (i = times)) as [->|Hi']; [by rewrite E|]. apply Hb. lia.
  - exists None, (S times). split; [done|]. split; [lia|]. split; [intros i Hi; lia|]. split; [by replace (S times - 1)%nat with times by lia|done].
Qed.

(** When a session can be set up. *)
Definition v3_ok (v : V3SNMPConfig) : Prop :=
  PrivacyProtocol v ∈ priv_protocols ∧ AuthenticationProtocol v ∈ auth_protocols ∧
  HasPrefix (AuthenticationPassphrase v) AWSErrPrefix = false ∧ HasPrefix (PrivacyPassphrase v) AWSErrPrefix = false.
Definition session_ok (d : device) : Prop := DeviceIP d ≠ "" ∧ match V3 d with None => Community d ≠ "" | Some v => v3_ok v end.
Definition v3_flags (v : V3SNMPConfig) : SnmpV3MsgFlags :=
  if String.eqb (AuthenticationProtocol v) "NoAuth" then NoAuthNoPriv else if String.eqb (PrivacyProtocol v) "NoPriv" then AuthNoPriv else AuthPriv.

Lemma ParseV3Config_ok v : v3_ok v → ParseV3Config (Some v) =
  inr (mkUsm (UserName v) (AuthenticationProtocol v) (PrivacyProtocol v) (AuthenticationPassphrase v) (PrivacyPassphrase v), v3_flags v,
       ContextEngineID v, ContextName v).
Proof.
  intros (H1 & H2 & H3 & H4). unfold ParseV3Config. rewrite (bool_decide_false (PrivacyProtocol v ∉ _)), (bool_decide_false (AuthenticationProtocol v ∉ _)) by tauto.
  rewrite H3, H4. unfold v3_flags. by destruct (String.eqb (AuthenticationProtocol v) "NoAuth").
Qed.
Lemma ParseV3Config_err v : ¬ v3_ok v → ∃ e, ParseV3Config (Some v) = inl e.
Proof.
  intros Hn. unfold ParseV3Config. case_bool_decide as H1; [by eexists|]. case_bool_decide as H2; [by eexists|].
  destruct (HasPrefix (AuthenticationPassphrase v) AWSErrPrefix) eqn:H3; [by eexists|].
  destruct (HasPrefix (PrivacyPassphrase v) AWSErrPrefix) eqn:H4; [by eexists|]. destruct Hn.
  split; [by destruct (decide (PrivacyProtocol v ∈ priv_protocols))|]. by split; [destruct (decide (AuthenticationProtocol v ∈ auth_protocols))|].
Qed.

Section Spec.
Context `{SnmpEnv}.

(** The first try to connect that succeeds, if one of the twelve does. *)
Definition first_try (s : GoSNMP) : option nat := find (λ i, bool_decide (Connect s i = None)) (seq 0 12).

Lemma session_for_ok d t r : session_ok d → ∃ s d', session_for d t r = inr (s, d') ∧ s_Target s = DeviceIP d ∧
  s_Timeout s = (if 0 <? d_TimeoutMS d then d_TimeoutMS d else t) ∧ s_Retries s = (if 0 <? d_Retries d then d_Retries d else r) ∧
  s_Version s = (match V3 d with Some _ => Version3 | None => if UseV1 d then Version1 else Version2c end) ∧
  s_MsgFlags s = v3_flags <$> V3 d ∧ NoUseBulkWalkAll d' = (NoUseBulkWalkAll d || (bool_decide (V3 d = None) && UseV1 d)).
Proof.
  intros [Hip Hv]. unfold session_for. rewrite (proj2 (String.eqb_neq _ _) Hip), orb_false_r. destruct (V3 d) as [v|] eqn:E.
  - rewrite bool_decide_false, andb_false_r, (ParseV3Config_ok _ Hv) by done. do 2 eexists. split; [reflexivity|]. cbn. repeat split. by rewrite orb_false_r.
  - rewrite (proj2 (String.eqb_neq _ _) Hv). cbn [andb]. do 2 eexists. split; [reflexivity|]. cbn. repeat split.
    destruct (UseV1 d); [rewrite orb_true_r; by destruct d|by rewrite orb_false_r].
Qed.
Lemma session_for_err d t r : ¬ session_ok d → ∃ e, session_for d t r = inl e.
Proof.
  intros Hn. unfold session_for. destruct (_ || _) eqn:Hc; [by eexists|]. apply orb_false_iff in Hc as [Hc Hip%String.eqb_neq].
  destruct (V3 d) as [v|] eqn:E.
  - destruct (ParseV3Config_err v) as [e ->]; [|by eexists]. intros Hv. apply Hn. split; [done|by rewrite E].
  - destruct Hn. split; [done|]. rewrite E. rewrite bool_decide_true, andb_true_r in Hc by done. by apply String.eqb_neq.
Qed.

(** a session with a device is set up exactly when it has an address and either a community or valid
    settings of SNMPv3, and one of at most twelve tries to connect succeeds; it has the device's own
    timeout and retries where they are set; with SNMPv3 messages are only encrypted where both protocols are
    set: without authentication the protocol of privacy is not used. *)
Theorem InitSNMP_spec d t r :
  (¬ session_ok d → ∃ e, InitSNMP d t r = Ok (inl e)) ∧
  (session_ok d → ∃ s d', session_for d t r = inr (s, d') ∧
     s_Timeout s = (if 0 <? d_TimeoutMS d then d_TimeoutMS d else t) ∧ s_MsgFlags s = v3_flags <$> V3 d ∧
     ((∃ i, (i < 12)%nat ∧ Connect s i = None) → InitSNMP d t r = Ok (inr (s, d'))) ∧
     ((∀ i, (i < 12)%nat → Connect s i ≠ None) → ∃ e, Connect s 11 = Some e ∧ InitSNMP d t r = Ok (inl e))).
Proof.
  unfold InitSNMP. split.
  - intros Hn. destruct (session_for_err d t r Hn) as [e ->]. by exists e.
  - intros Hok. destruct (session_for_ok d t r Hok) as (s & d' & E & _ & Ht & _ & _ & Hf & _). exists s, d'. split; [done|]. split; [done|]. split; [done|].
    rewrite E. destruct (connect_loop_spec (Connect s) 13 0) as (err & n & -> & Hn & Hb & He & Hl); [lia..|]. cbn. split.
    + intros (i & Hi & Hc). destruct err as [e|]; [|done]. rewrite (Hl ltac:(done)) in *. exfalso. destruct (decide (i = 11)%nat) as [->|Hi'].
      * cbn in He. congruence.
      * apply (Hb i); [lia|done].
    + intros Hall. destruct err as [e|]; [|by destruct (Hall (n - 1)%nat ltac:(lia))]. rewrite (Hl ltac:(done)) in He. exists e. split; [exact He|done].
Qed.

(** ** Pollers *)

(** All of these devices were started without an error. *)
Inductive all_started (flowOnly : bool) (g : SnmpGlobalConfig) (t r : Z) : list (option device) → list poller → Prop :=
| started_nil : all_started flowOnly g t r [] []
| started_cons d ps l qs : run_device flowOnly g t r d = Ok (ps, None) → all_started flowOnly g t r l qs → all_started flowOnly g t r (d :: l) (ps ++ qs).

(** the devices are started one after the other until the first that fails: without an error every
    device has its pollers; with one, exactly those before the device that failed have theirs, and none
    after it is started, whichever order the range over the devices took. *)
Theorem polling_stops flowOnly g t r l ps err : run_devices flowOnly g t r l = Ok (ps, err) →
  match err with
  | None => all_started flowOnly g t r l ps
  | Some e => ∃ l1 d l2 qs rs, l = l1 ++ d :: l2 ∧ ps = qs ++ rs ∧ all_started flowOnly g t r l1 qs ∧ run_device flowOnly g t r d = Ok (rs, Some e)
  end.
Proof.
  revert ps err. induction l as [|d l IH]; intros ps err; cbn [run_devices]; [intros [= <- <-]; constructor|].
  destruct (run_device flowOnly g t r d) as [[qs [e|]]| | |] eqn:E; cbn; try discriminate.
  - intros [= <- <-]. exists [], d, l, [], qs. split; [done|]. split; [done|]. split; [constructor|done].
  - destruct (run_devices flowOnly g t r l) as [[rs err']| | |]; cbn; try discriminate. intros [= <- <-]. specialize (IH _ _ eq_refl). destruct err' as [e|].
    + destruct IH as (l1 & d' & l2 & qs' & rs' & -> & -> & H1 & H2). exists (d :: l1), d', l2, (qs ++ qs'), rs'.
      split; [done|]. split; [by rewrite app_assoc|]. split; [by constructor|done].
    + by constructor.
Qed.

(** Discovery at the start of the program is not repeated. *)
Lemma discovers_once cfg order confs i rd v : wrapSnmpPolling cfg 0 order confs !! i = Some rd → r_disco rd = Some (v, true) → i = 0%nat.
Proof.
  assert (∀ n, wrapSnmpPolling cfg n order confs !! i = Some rd → r_disco rd = Some (v, true) → (n + i = 0)%nat) as Hg.
  { revert i. induction confs as [|c confs IH]; intros i n; [done|]. cbn [wrapSnmpPolling]. destruct i as [|i]; cbn [lookup list_lookup].
    - intros [= <-]. unfold wrap_round. cbn. case_match; [|done]. intros [= _ E]. apply andb_true_iff in E as [_ E%Nat.eqb_eq]. lia.
    - intros E1 E2. pose proof (IH _ _ E1 E2). lia. }
  intros E1 E2. exact (Hg _ E1 E2).
Qed.
End Spec.

(** ** Devices from files *)

Section Expansion.
Context `{SnmpFiles}.

(** An entry of the configuration that stands for a file, and the devices of that file. *)
Definition from_file (nd : string * option device) (deviceSet : gmap string (option device)) : Prop :=
  HasPrefix nd.1 "file_" = true ∧ ∃ devFile, nd.2 = Some devFile ∧ HasPrefix (DeviceName devFile) "@" = true ∧
    read_yaml yaml_devices (drop_string 1 (DeviceName devFile)) = inr deviceSet.

Record expanded (c : SnmpConfig) (seen : list (string * option device)) (s : expansion) : Prop := {
  xp_full : ∀ k d, fullDevices s !! k = Some d → ∃ nd deviceSet, nd ∈ seen ∧ from_file nd deviceSet ∧ deviceSet !! k = Some d ∧ k ≠ nd.1;
  xp_left : left_ s ⊆ Devices c;
  xp_files : ∀ nd deviceSet, nd ∈ seen → from_file nd deviceSet → (fullDevices s = ∅ → delete nd.1 deviceSet = ∅) ∧ left_ s !! nd.1 = None }.

Lemma from_file_other nd : (∀ f, nd.2 = Some f → HasPrefix nd.1 "file_" && HasPrefix (DeviceName f) "@" = false) → ∀ deviceSet, ¬ from_file nd deviceSet.
Proof. intros Hn deviceSet (H1 & f & H2 & H3 & _). specialize (Hn f H2). by rewrite H1, H3 in Hn. Qed.

Lemma expanded_skip c seen s nd : (∀ deviceSet, ¬ from_file nd deviceSet) → expanded c seen s → expanded c (seen ++ [nd]) s.
Proof.
  intros Hn [H1 H2 H3]. split; [|done|].
  - intros k d Hk. destruct (H1 k d Hk) as (nd' & ds & Hin & Hr). exists nd', ds. split; [apply elem_of_app; by left|done].
  - intros nd' ds [Hin| ->%list_elem_of_singleton]%elem_of_app Hf; [by apply H3|by destruct (Hn ds Hf)].
Qed.

Lemma expand_device_inv c seen s nd s' : expanded c seen s → expand_device nd s = Ok (inr s') → expanded c (seen ++ [nd]) s'.
Proof.
  intros Hs. unfold expand_device. destruct (HasPrefix nd.1 "file_") eqn:Hp.
  2: { intros [= <-]. apply expanded_skip; [|done]. apply from_file_other. intros f _. by rewrite Hp. }
  destruct nd as [n [f|]]; [|done]. cbn [fst snd] in *. destruct (HasPrefix (DeviceName f) "@") eqn:Ha.
  2: { intros [= <-]. apply expanded_skip; [|done]. apply from_file_other. cbn. intros ? [= <-]. by rewrite Ha, andb_false_r. }
  destruct (read_yaml _ _) as [|ds] eqn:Hr; [done|]. intros [= <-]. destruct Hs as [H1 H2 H3].
  assert (from_file (n, Some f) ds) as Hf by (split; [done|by exists f]).
  split; cbn.
  - intros k d [[Hk Hd]%lookup_delete_Some|[_ Hk]]%lookup_union_Some_raw.
    + exists (n, Some f), ds. split; [apply elem_of_app; right; by apply list_elem_of_singleton|]. split; [done|]. split; [done|]. by intros ->.
    + destruct (H1 k d Hk) as (nd' & ds' & Hin & Hr'). exists nd', ds'. split; [apply elem_of_app; by left|done].
  - etrans; [apply delete_subseteq|done].
  - intros nd' ds' [Hin| ->%list_elem_of_singleton]%elem_of_app Hf'.
    + destruct (H3 _ _ Hin Hf') as [H4 H5]. split; [|destruct (decide (n = nd'.1)) as [->|]; [by rewrite lookup_delete_eq|by rewrite lookup_delete_ne]].
      intros He. apply H4. apply map_empty. intros k. apply (f_equal (.!! k)) in He. rewrite lookup_empty, lookup_union_None in He. apply He.
    + cbn. rewrite lookup_delete_eq. split; [|done]. destruct Hf' as (_ & f' & [= <-] & _ & Hr').
      assert (ds' = ds) as -> by (pose proof (eq_trans (eq_sym Hr) Hr') as [= ->]; done).
      intros He. apply map_empty. intros k. apply (f_equal (.!! k)) in He. rewrite lookup_empty, lookup_union_None in He. apply He.
Qed.
Lemma expand_loop_inv c l : ∀ seen s s', expanded c seen s → expand_loop l s = Ok (inr s') → expanded c (seen ++ l) s'.
Proof.
  induction l as [|nd l IH]; intros seen s s' Hs; cbn [expand_loop]; [intros [= <-]; by rewrite app_nil_r|].
  destruct (expand_device nd s) as [[err|s1]| | |] eqn:E; cbn; try done. intros El. rewrite cons_middle, app_assoc. eapply IH; [|exact El].
  by eapply expand_device_inv.
Qed.

(** with entries that stand for files, either every device of the configuration comes from one of
    the files, and those that are listed beside them are gone, or no file has a device and the listed
    devices are left without the entries. *)
Theorem expand_all_or_files order c c' : expand_devices order c = Ok (inr c') →
  (Devices c' ≠ ∅ ∧ ∀ k d, Devices c' !! k = Some d → ∃ nd deviceSet, nd ∈ order ∧ from_file nd deviceSet ∧ deviceSet !! k = Some d ∧ k ≠ nd.1) ∨
  (Devices c' ⊆ Devices c ∧ ∀ nd deviceSet, nd ∈ order → from_file nd deviceSet → delete nd.1 deviceSet = ∅ ∧ Devices c' !! nd.1 = None).
Proof.
  unfold expand_devices. destruct (expand_loop _ _) as [[err|s]| | |] eqn:E; cbn; try done.
  assert (expanded c ([] ++ order) s) as [H1 H2 H3].
  { eapply expand_loop_inv; [|exact E]. split; cbn; [intros k d; by rewrite lookup_empty|done|by intros nd ds ?%not_elem_of_nil]. }
  intros Hc. case_bool_decide as Hf; injection Hc as <-; destruct c; cbn in *.
  - right. split; [done|]. intros nd ds Hin Hff. destruct (H3 _ _ Hin Hff). by split; [auto|].
  - left. split; [done|]. exact H1.
Qed.
End Expansion.

(** ** Examples *)

Definition ex_device (name ip : string) : device := mkDevice name ip "public" false None 0 0 0 "" "" "" "" false false false false false false.
Definition ex_files (file : string) : SnmpFiles := {|
  ReadFile f := if String.eqb f file then inr [] else inl EOF; yaml_strings _ := inr [];
  yaml_devices _ := inr {["core1" := Some (ex_device "core1" "10.0.0.1")]} |}.
Definition ex_listed : list (string * option device) := [("file_0", Some (ex_device "@devs.yaml" "")); ("edge1", Some (ex_device "edge1" "10.0.0.2"))].
Definition ex_conf : SnmpConfig := mkSnmpConfig (list_to_map ex_listed) None None (Some (mkGlobal 0 0 None false false false)) "".

(** The device edge1 is listed beside a file and is lost. *)
Example listed_lost : (λ r, match r with Ok (inr c) => Some (Devices c !! "edge1", DeviceName <$> mjoin (Devices c !! "core1")) | _ => None end)
  (@expand_devices (ex_files "devs.yaml") ex_listed ex_conf) = Some (None, Some "core1").
Proof. by vm_compute. Qed.
Lemma expand_all_or_files_witness : ∃ c', @expand_devices (ex_files "devs.yaml") ex_listed ex_conf = Ok (inr c') ∧ Devices c' ≠ ∅.
Proof.
  destruct (@expand_devices (ex_files "devs.yaml") ex_listed ex_conf) as [[|c']| | |] eqn:E; [vm_compute in E; discriminate E| |vm_compute in E; discriminate E..].
  exists c'. split; [done|]. destruct (@expand_all_or_files (ex_files "devs.yaml") _ _ _ E) as [[Hn _]|[_ Hf]]; [exact Hn|].
  exfalso. assert (@from_file (ex_files "devs.yaml") ("file_0", Some (ex_device "@devs.yaml" "")) {["core1" := Some (ex_device "core1" "10.0.0.1")]}) as Hff.
  { split; [done|]. eexists. split; [reflexivity|]. by split. }
  destruct (Hf _ _ ltac:(left) Hff) as [Hd _]. apply (f_equal (.!! "core1")) in Hd. by vm_compute in Hd.
Defined.

(** A name without a device ends the process where there are shared settings of SNMPv3. *)
Example nil_device_panics : inherit_v3 (mkSnmpConfig {["edge1" := None]} None None (Some (mkGlobal 0 0 (Some (mkV3 "u" "SHA" "p" "AES" "q" "" "" false)) false false false)) "") =
  Panic "nil pointer dereference".
Proof. by vm_compute. Qed.

#[local] Instance ex_env : SnmpEnv := {|
  Connect s i := if String.eqb (s_Target s) "10.0.0.9" then Some EOF else if (i =? 2)%nat then None else Some EOF;
  EnsureDevice _ := None; FindProfile _ _ _ := None |}.
Definition ex_global : SnmpGlobalConfig := mkGlobal 0 0 None false true false.
Definition ex_order : list (option device) := [Some (ex_device "a" "10.0.0.1"); Some (ex_device "b" "10.0.0.9"); Some (ex_device "c" "10.0.0.3")].
Definition names (l : list poller) : list string :=
  (λ p, match p with PingLoop n => "ping " +:+ n | ExtensionLoop n => n | MetadataAndMetrics n _ => "poll " +:+ n end) <$> l.
(** The device c is not polled because b, before it, does not answer; b is still pinged. *)
Example later_devices_lost : names <$> (fst <$> run_devices false ex_global 5000 0 ex_order) = Ok ["ping a"; "poll a"; "ping b"].
Proof. by vm_compute. Qed.
Lemma polling_stops_witness : ∃ ps e l1 d l2, run_devices false ex_global 5000 0 ex_order = Ok (ps, Some e) ∧ ex_order = l1 ++ d :: l2 ∧
  ∃ rs, run_device false ex_global 5000 0 d = Ok (rs, Some e).
Proof.
  destruct (run_devices false ex_global 5000 0 ex_order) as [[ps [e|]]| | |] eqn:E; [|vm_compute in E; discriminate E..].
  destruct (polling_stops _ _ _ _ _ _ _ E) as (l1 & d & l2 & qs & rs & H1 & _ & _ & H2). by exists ps, e, l1, d, l2; repeat split; [..|exists rs].
Defined.

(** Privacy without authentication: the messages are not encrypted. *)
Example privacy_lost : v3_flags (mkV3 "u" "NoAuth" "" "AES256" "secret" "" "" false) = NoAuthNoPriv.
Proof. reflexivity. Qed.
Lemma InitSNMP_spec_witness : ∃ s d', InitSNMP (ex_device "a" "10.0.0.1") 5000 0 = Ok (inr (s, d')) ∧ s_Timeout s = 5000 ∧ Connect s 2 = None.
Proof.
  destruct (InitSNMP_spec (ex_device "a" "10.0.0.1") 5000 0) as [_ H1]. destruct H1 as (s & d' & E & Ht & _ & H2 & _); [by split|].
  assert (Connect s 2 = None) as Hc by (vm_compute in E; injection E as <- _; reflexivity).
  exists s, d'. split; [apply H2; exists 2%nat; split; [lia|exact Hc]|]. split; [rewrite Ht; reflexivity|exact Hc].
Defined.
