(* ===== verification/Api.v ===== *)
(** The client of the Kentik API (src/pkg/api/api.go, util.go) and its objects
    (src/pkg/kt/device_types.go): how a device of the API becomes a device of the program, what a refresh
    keeps of the answers to each credential, the loads in the background, and how a device is made.

    What the servers answer is given; the messages of the API's libraries are records of the fields that
    are read.  Devices are shared by pointers: the model has a heap of them, so that a load that ends after
    a refresh writes to the device that it was started for.  The flag of a device that a load was started
    is tested and set in one step. *)
From S2P Require Import Prelude GoStrings GoNet.
From S2P Require Import Config.
From S2P Require Ic.
From S2P Require KtHelpers.
Local Open Scope Z_scope.
Local Open Scope config_scope.

(** ** Loops that fill a map *)
Section insert_all.
Context {K V : Type} `{Countable K}.
Definition insert_all (l : list (K * V)) (m : gmap K V) : gmap K V := foldl (λ m kv, <[kv.1 := kv.2]> m) m l.

Lemma insert_all_lookup l m k :
  insert_all l m !! k = match last (filter (λ kv, kv.1 = k) l) with Some kv => Some kv.2 | None => m !! k end.
Proof.
  unfold insert_all. revert m. induction l as [|[k' v] l IH] using rev_ind; intros m; [done|].
  rewrite foldl_app, filter_app. simpl. destruct (decide (k' = k)) as [->|Hne].
  - rewrite lookup_insert_eq, filter_cons_True, filter_nil by done. by rewrite last_snoc.
  - rewrite lookup_insert_ne, filter_cons_False, filter_nil, app_nil_r by done. apply IH.
Qed.
Lemma insert_all_elem l m k v : insert_all l m !! k = Some v → (k, v) ∈ l ∨ m !! k = Some v.
Proof.
  rewrite insert_all_lookup. destruct (last _) as [[k' v']|] eqn:Hl; [|by right].
  intros [= <-]. apply last_Some_elem_of, list_elem_of_filter in Hl as [Hk Hin]. simpl in Hk. subst. by left.
Qed.
End insert_all.

(** ** Numbers *)
(** [strconv.ParseInt(s, 10, 64)], and [ParseUint(s, 10, 32)]. *)
Definition ParseInt : string → option Z := Atoi.
Definition ParseUint (s : string) : option Z :=
  match s with
  | EmptyString => None
  | _ => n ← digits_value s 0; if n <? 2 ^ 32 then Some n else None
  end.
Definition or_zero (o : option Z) : Z := match o with Some n => n | None => 0 end.
(** Identifiers are unsigned: a negative number wraps around. *)
Definition IntId (z : Z) : Z := wrapu 64 z.

(** ** Messages of the API *)
Record pb_Interface := mkPbInterface {
  pi_SnmpId : string; pi_DeviceId : string; pi_SnmpSpeed : string; pi_Description : string; pi_NetworkBoundary : string;
  pi_ConnectivityType : string; pi_Provider : string; pi_SnmpAlias : string }.
(** Of the service of interfaces: numbers for the boundary, the type and the speed. *)
Record pb_Interface2 := mkPbInterface2 {
  p2_SnmpId : string; p2_DeviceId : string; p2_SnmpSpeed : Z; p2_Description : string; p2_NetworkBoundary : Z;
  p2_ConnectivityType : Z; p2_Provider : string; p2_SnmpAlias : string; p2_InterfaceIp : string }.
Record pb_Label := mkPbLabel { pl_Id : string; pl_Name : string; pl_Description : string }.
Record pb_Plan := mkPbPlan { pp_Id : string; pp_Name : string }.
Record pb_Custom := mkPbCustom {
  pc_FieldId : string; pc_DeviceId : string; pc_ColName : string; pc_Description : string; pc_ColType : string; pc_DeviceType : string }.
Record V3SNMPConfig := mkV3 {
  UserName : string; AuthenticationProtocol : string; AuthenticationPassphrase : string; PrivacyProtocol : string; PrivacyPassphrase : string }.
Record pb_Site := mkPbSite { ps_Id : string; ps_Title : string }.
Record pb_Device := mkPbDevice {
  pd_Id : string; pd_CompanyId : string; pd_DeviceName : string; pd_DeviceType : string; pd_DeviceSubtype : string;
  pd_DeviceDescription : string; pd_SnmpIp : string; pd_SendingIps : list string; pd_AllInterfaces : list (option pb_Interface);
  pd_SampleRate : string; pd_BgpType : string; pd_Plan : option pb_Plan; pd_CdnAttr : string; pd_MaxFlowRate : Z;
  pd_CustomColumnData : list (option pb_Custom); pd_CustomColumns : string; pd_SnmpCommunity : string;
  pd_SnmpV3Conf : option V3SNMPConfig; pd_Labels : list pb_Label; pd_Site : option pb_Site }.

(** ** Devices (device_types.go) *)
Record Plan := mkPlan { Plan_ID : Z; Plan_Name : string }.
Record Column := mkColumn {
  Column_ID : Z; Column_Name : string; Column_Type : string; Column_DeviceID : string; Column_FieldID : string;
  Column_Description : string; Column_DeviceType : string }.
Record DeviceLabel := mkLabel { Label_ID : Z; Label_Name : string; Label_Desc : string }.
(** Less the fields that nothing here sets: the netmask, the type, other addresses and information. *)
Record Interface := mkInterface {
  I_DeviceID : Z; I_Address : string; I_Description : string; NetworkBoundary : string; ConnectivityType : string;
  I_Provider : string; SnmpID : Z; Alias : string; SnmpSpeedMbps : Z }.
Record Device := mkDevice {
  ID : Z; Name : string; CompanyID : Z; DeviceType : string; DeviceSubtype : string; Description : string; D_IP : option IP;
  Interfaces : gmap Z Interface; SendingIps : list IP; SampleRate : Z; BgpType : string; D_Plan : Plan; CdnAttr : string;
  MaxFlowRate : Z; Customs : list Column; CustomStr : string; SnmpCommunity : string; SnmpIp : string; SnmpV3 : option V3SNMPConfig;
  Labels : list DeviceLabel; Site : option pb_Site; allUserTags : gmap string string; FullSite : option pb_Site; IDStr : string;
  loadedCustoms : bool; loadedInts : bool }.

Definition mapCustomColumns (cols : list (option pb_Custom)) : list Column :=
  (λ c, mkColumn (or_zero (ParseUint (pc_FieldId c))) (pc_ColName c) (pc_ColType c) (pc_DeviceId c) (pc_FieldId c)
          (pc_Description c) (pc_DeviceType c)) <$> omap id cols.

Definition mapPlan (p : option pb_Plan) : Plan :=
  match p with
  | None => mkPlan 0 ""
  | Some p => mkPlan (wrapu 64 (or_zero (Atoi (pp_Id p)))) (pp_Name p)
  end.

(** One round of the loop of [mapInterfaces]: the entry that it makes, if any. *)
Definition interface_entry (wantDevID : Z) (p : pb_Interface) : option (Z * Interface) :=
  let snmpID := or_zero (ParseInt (pi_SnmpId p)) in
  let devID := or_zero (ParseInt (pi_DeviceId p)) in
  if negb (devID =? wantDevID) then None
  else Some (IntId snmpID, mkInterface (IntId devID) "" (pi_Description p) (pi_NetworkBoundary p) (pi_ConnectivityType p) (pi_Provider p)
               (IntId snmpID) (pi_SnmpAlias p) (or_zero (ParseInt (pi_SnmpSpeed p)))).
Definition mapInterfaces (deviceID : string) (protos : list (option pb_Interface)) : gmap Z Interface :=
  insert_all (omap (interface_entry (or_zero (ParseInt deviceID))) (omap id protos)) ∅.

(** The same for what the service of interfaces answers. *)
Definition interface2_entry (kc : Ic.ic_state) (id : Z) (p : pb_Interface2) : option (Z * Interface) :=
  let snmpID := or_zero (ParseInt (p2_SnmpId p)) in
  let devID := or_zero (ParseInt (p2_DeviceId p)) in
  if negb (IntId devID =? id) then None
  else Some (IntId snmpID, mkInterface (IntId devID) (p2_InterfaceIp p) (p2_Description p) (Ic.NameFromNBInt (p2_NetworkBoundary p))
               (Ic.NameFromCTInt (p2_ConnectivityType p) kc) (p2_Provider p) (IntId snmpID) (p2_SnmpAlias p) (p2_SnmpSpeed p)).
Definition AddInterfaces (kc : Ic.ic_state) (ints : list (option pb_Interface2)) (d : Device) : Device :=
  d <| Interfaces := insert_all (omap (interface2_entry kc (ID d)) (omap id ints)) ∅ |>.

(** A device without a message is a nil pointer, whose getters give nothing. *)
Definition AddCustoms (dd : option pb_Device) (d : Device) : Device :=
  d <| Customs := match dd with Some dd => mapCustomColumns (pd_CustomColumnData dd) | None => [] end |>
    <| CustomStr := match dd with Some dd => pd_CustomColumns dd | None => "" end |>
    <| loadedCustoms := true |>.

(** The flags are set by the question itself. *)
Definition LoadedCustoms (d : Device) : bool * Device := (loadedCustoms d, d <| loadedCustoms := true |>).
Definition LoadedInterfaces (d : Device) : bool * Device := (loadedInts d, d <| loadedInts := true |>).

Definition map_label (l : pb_Label) : DeviceLabel := mkLabel (or_zero (Atoi (pl_Id l))) (pl_Name l) (pl_Description l).
Definition MapDeviceDetailedToDevice (dd : option pb_Device) : error + Device :=
  match dd with
  | None => inl (Errorf "DeviceDetailed is nil" [])
  | Some dd =>
      match ParseInt (pd_Id dd) with
      | None => inl (Errorf "parsing device ID %q: %w" [FStr (pd_Id dd)])
      | Some deviceID =>
          match ParseInt (pd_CompanyId dd) with
          | None => inl (Errorf "parsing company ID %q: %w" [FStr (pd_CompanyId dd)])
          | Some companyID =>
              let ifaceMap := mapInterfaces (pd_Id dd) (pd_AllInterfaces dd) in
              let customs := mapCustomColumns (pd_CustomColumnData dd) in
              inr {| ID := IntId deviceID; IDStr := pd_Id dd; Name := pd_DeviceName dd; CompanyID := IntId companyID;
                     DeviceType := pd_DeviceType dd; DeviceSubtype := pd_DeviceSubtype dd; Description := pd_DeviceDescription dd;
                     D_IP := ParseIP (pd_SnmpIp dd); Interfaces := ifaceMap; SendingIps := omap ParseIP (pd_SendingIps dd);
                     SampleRate := or_zero (ParseUint (pd_SampleRate dd)); BgpType := pd_BgpType dd; D_Plan := mapPlan (pd_Plan dd);
                     CdnAttr := pd_CdnAttr dd; MaxFlowRate := pd_MaxFlowRate dd; Customs := customs; CustomStr := pd_CustomColumns dd;
                     SnmpCommunity := pd_SnmpCommunity dd; SnmpIp := pd_SnmpIp dd; SnmpV3 := pd_SnmpV3Conf dd;
                     Labels := map_label <$> pd_Labels dd; Site := pd_Site dd; allUserTags := ∅; FullSite := None;
                     loadedCustoms := negb (bool_decide (customs = [])); loadedInts := negb (bool_decide (ifaceMap = ∅)) |}
          end
      end
  end.

(** ** The client (api.go) *)
Definition API_TIMEOUT : Z := 60 * Second.
Definition MIN_TIME_BETWEEN_SYNTH_CHECKS : Z := 60 * Second.

(** What a call to a service of the API gives. *)
Inductive answer (A : Type) := Answer (a : A) | Unimplemented | Failed (e : error).
Arguments Answer {A} a.
Arguments Unimplemented {A}.
Arguments Failed {A} e.

Record Agent := mkAgent { ag_Id : string; ag_LocalIp : string; ag_Ip : string; ag_Alias : string }.
Record Test := mkTest { tst_Id : string; tst_Name : string }.
(** [NewAgentId], [NewTestId]: the number, even one that [Atoi] finds out of range. *)
Definition NewAgentId (id : string) : Z := IntId (Atoi_value id).1.
Definition NewTestId (id : string) : Z := IntId (Atoi_value id).1.

(** What the services answer to one credential in one refresh; devices are asked for with or without
    their custom columns. *)
Record cred_answers := mkAnswers {
  ListTests : answer (list Test); ListAgents : answer (list Agent); ListDevices : bool → answer (list (option pb_Device));
  ListSites : answer (list pb_Site) }.

(** From the environment. *)
Record Settings := mkSettings {
  apiTimeout : Z; lazyLoadCustoms : bool; fullLoadCustoms : bool; lazyLoadInts : bool; interfaceFilterText : string }.
Definition NewSettings (LookupEnv : string → option string) : Settings :=
  {| apiTimeout := match default "" (LookupEnv "KENTIK_API_TIMEOUT") with
                   | EmptyString => API_TIMEOUT
                   | t => Duration_mul (Atoi_value t).1 Second
                   end;
     lazyLoadCustoms := KtHelpers.LookupEnvBool LookupEnv "KT_API_LAZY_LOAD_CUSTOMS" false;
     fullLoadCustoms := KtHelpers.LookupEnvBool LookupEnv "KT_LOAD_CUSTOM_COLUMNS" false;
     lazyLoadInts := KtHelpers.LookupEnvBool LookupEnv "KT_API_LAZY_LOAD_INTERFACES" false;
     interfaceFilterText := KtHelpers.LookupEnvString LookupEnv "KT_INTERFACE_LOOKUP_TEXT_FILTER" "" |}.

(** What runs in the background: a refresh, or a load of a device. *)
Inductive load := LoadCustoms (l : nat) | LoadInterfaces (l : nat).
Record KentikApi := mkApi {
  heap : list Device; devices : gmap Z (gmap Z nat); synAgents : gmap Z Agent; synAgentsByIP : gmap string Agent;
  synTests : gmap Z Test; lastSynth : option Z; refreshes : nat; loads : list load }.
Definition empty_api : KentikApi := mkApi [] ∅ ∅ ∅ ∅ None 0 [].

(** *** A refresh *)
Inductive fetched (A : Type) := Fetched (a : A) | NotThere | FetchErr (e : error).
Arguments Fetched {A} a.
Arguments NotThere {A}.
Arguments FetchErr {A} e.

Definition agent_addresses (a : Agent) : list (string * Agent) :=
  (if String.eqb (ag_LocalIp a) "" then [] else [(ag_LocalIp a, a)]) ++ [(ag_Ip a, a)].
Definition Synth : Type := gmap Z Test * gmap Z Agent * gmap string Agent.
Fixpoint fetch_synth (creds : list cred_answers) (acc : Synth) : fetched Synth :=
  match creds with
  | [] => Fetched acc
  | c :: creds =>
      let '(tests, agents, ips) := acc in
      match ListTests c with
      | Unimplemented => NotThere
      | Failed err => FetchErr err
      | Answer r =>
          let tests := insert_all ((λ t, (NewTestId (tst_Id t), t)) <$> r) tests in
          match ListAgents c with
          | Unimplemented => FetchErr (Errorf "Unimplemented" [])
          | Failed err => FetchErr err
          | Answer ra =>
              fetch_synth creds (tests, insert_all ((λ a, (NewAgentId (ag_Id a), a)) <$> ra) agents,
                                 insert_all (ra ≫= agent_addresses) ips)
          end
      end
  end.

(** Devices that are not valid are skipped. *)
Definition valid_devices (r : list (option pb_Device)) : list Device :=
  omap (λ dd, match MapDeviceDetailedToDevice dd with inl _ => None | inr d => Some d end) r.
Fixpoint fetch_devices (full : bool) (creds : list cred_answers) (acc : list Device) : fetched (list Device) :=
  match creds with
  | [] => Fetched acc
  | c :: creds =>
      match ListDevices c (negb full) with
      | Unimplemented => NotThere
      | Failed err => FetchErr err
      | Answer r => fetch_devices full creds (acc ++ valid_devices r)
      end
  end.
(** [resDev[dev.CompanyID][dev.ID] = dev], the map of the company made where there is none. *)
Definition place (m : gmap Z (gmap Z nat)) (ld : nat * Device) : gmap Z (gmap Z nat) :=
  <[CompanyID ld.2 := <[ID ld.2 := ld.1]> (default ∅ (m !! CompanyID ld.2))]> m.
Definition numbered (n : nat) (ds : list Device) : list (nat * Device) := imap (λ i d, ((n + i)%nat, d)) ds.

Fixpoint fetch_sites (creds : list cred_answers) (acc : gmap string pb_Site) : fetched (gmap string pb_Site) :=
  match creds with
  | [] => Fetched acc
  | c :: creds =>
      match ListSites c with
      | Unimplemented => NotThere
      | Failed _ => fetch_sites creds acc
      | Answer r => fetch_sites creds (insert_all ((λ s, (ps_Id s, s)) <$> r) acc)
      end
  end.
(** The pointers that the maps of devices hold, of one company or of all. *)
Definition company_locs (cd : gmap Z nat) : list nat := (map_to_list cd).*2.
Definition all_locs (m : gmap Z (gmap Z nat)) : list nat := (map_to_list m).*2 ≫= company_locs.
Definition with_site (siteMap : gmap string pb_Site) (d : Device) : Device :=
  match Site d with
  | None => d
  | Some s => match siteMap !! ps_Id s with Some ds => d <| FullSite := Some ds |> | None => d end
  end.
Definition getSites (creds : list cred_answers) (s : KentikApi) : option error * KentikApi :=
  match fetch_sites creds ∅ with
  | Fetched siteMap => (None, s <| heap := foldr (alter (with_site siteMap)) (heap s) (all_locs (devices s)) |>)
  | NotThere => (None, s)
  | FetchErr err => (Some err, s)
  end.

Definition getDeviceInfoNew (g : Settings) (creds : list cred_answers) (s : KentikApi) : option error * KentikApi :=
  match fetch_devices (fullLoadCustoms g) creds [] with
  | FetchErr err => (Some err, s)
  | NotThere => (None, s)
  | Fetched ds =>
      getSites creds (s <| heap := heap s ++ ds |> <| devices := foldl place ∅ (numbered (length (heap s)) ds) |>)
  end.
Definition getSynthAndDeviceInfo (g : Settings) (now : Z) (creds : list cred_answers) (s : KentikApi) : option error * KentikApi :=
  let s := s <| lastSynth := Some now |> in
  match fetch_synth creds (∅, ∅, ∅) with
  | FetchErr err => (Some err, s)
  | NotThere => (None, s)
  | Fetched (tests, agents, ips) =>
      getDeviceInfoNew g creds (s <| synAgents := agents |> <| synAgentsByIP := ips |> <| synTests := tests |>)
  end.

(** [NewKentikApi], given a connection: an error of the first refresh is that of the start. *)
Definition NewKentikApi (g : Settings) (now : Z) (creds : list cred_answers) : error + KentikApi :=
  match getSynthAndDeviceInfo g now creds empty_api with (Some err, _) => inl err | (None, s) => inr s end.

(** [UpdateTests] starts a refresh when the last began long enough ago; [time] is never before the zero
    time of a client that has not refreshed. *)
Definition UpdateTests (config : option Config) (now : Z) (s : KentikApi) : KentikApi :=
  match config with
  | None => s
  | Some c =>
      if bool_decide (KentikCreds c = []) then s
      else match lastSynth s with
           | Some t => if now <? t + MIN_TIME_BETWEEN_SYNTH_CHECKS then s else s <| refreshes := S (refreshes s) |>
           | None => s <| refreshes := S (refreshes s) |>
           end
  end.

(** *** Questions *)
(** A nil client answers with nothing. *)
Definition GetTest (s : option KentikApi) (tid : Z) : option Test := s ← s; synTests s !! tid.
Definition GetAgent (s : option KentikApi) (aid : Z) : option Agent := s ← s; synAgents s !! aid.
Definition GetAgentByIP (s : option KentikApi) (ip : string) : option Agent := s ← s; synAgentsByIP s !! ip.

(** The pointers of the company, or of all of them for company zero, in the order of the range. *)
Definition locs_of (cid : Z) (s : KentikApi) : list nat :=
  if cid =? 0 then all_locs (devices s) else company_locs (default ∅ (devices s !! cid)).
Definition sending (h : list Device) (l : nat) : list (string * nat) :=
  match h !! l with Some d => (λ ip, (IP_String ip, l)) <$> SendingIps d | None => [] end.
Definition GetDevicesAsMap (order : list nat) (s : KentikApi) : gmap string nat := insert_all (order ≫= sending (heap s)) ∅.

Definition find_device (cid did : Z) (s : KentikApi) : option nat := c ← devices s !! cid; c !! did.
Definition GetDevice (g : Settings) (cid did : Z) (s : KentikApi) : option nat * KentikApi :=
  match find_device cid did s with
  | None => (None, s)
  | Some l =>
      match heap s !! l with
      | None => (Some l, s)
      | Some d =>
          if lazyLoadCustoms g then
            let '(loaded, d) := LoadedCustoms d in
            let s := s <| heap := <[l := d]> (heap s) |> in
            (Some l, if (loaded : bool) then s else s <| loads := loads s ++ [LoadCustoms l] |>)
          else (Some l, s)
      end
  end.
Definition GetInterface (g : Settings) (dev : option nat) (port : Z) (s : KentikApi) : option Interface * KentikApi :=
  match dev with
  | None => (None, s)
  | Some l =>
      match heap s !! l with
      | None => (None, s)
      | Some d =>
          let s' :=
            if lazyLoadInts g then
              let '(loaded, d) := LoadedInterfaces d in
              let s := s <| heap := <[l := d]> (heap s) |> in
              if (loaded : bool) then s else s <| loads := loads s ++ [LoadInterfaces l] |>
            else s in
          (Interfaces d !! port, s')
      end
  end.

(** *** Loads in the background *)
(** Credential after credential until one does not fail; a service that is not there counts as done. *)
Fixpoint first_answer {A} (answers : list (answer A)) : option A :=
  match answers with
  | [] => None
  | Answer a :: _ => Some a
  | Unimplemented :: _ => None
  | Failed _ :: answers => first_answer answers
  end.
Definition run_load (kc : Ic.ic_state) (customs : list (answer (option pb_Device))) (ints : list (answer (list (option pb_Interface2))))
    (j : load) (h : list Device) : list Device :=
  match j with
  | LoadCustoms l => match first_answer customs with Some dd => alter (AddCustoms dd) l h | None => h end
  | LoadInterfaces l => match first_answer ints with Some is_ => alter (AddInterfaces kc is_) l h | None => h end
  end.

(** *** A run of the client *)
(** The flag is read and then set, without a lock, so other calls may come in between. *)
Definition flagged (j : load) (h : list Device) : bool :=
  match j with
  | LoadCustoms l => match h !! l with Some d => (LoadedCustoms d).1 | None => false end
  | LoadInterfaces l => match h !! l with Some d => (LoadedInterfaces d).1 | None => false end
  end.
Definition mark (j : load) (h : list Device) : list Device :=
  match j with
  | LoadCustoms l => alter (λ d, (LoadedCustoms d).2) l h
  | LoadInterfaces l => alter (λ d, (LoadedInterfaces d).2) l h
  end.
(** What a call asks the flag of, if it does. *)
Definition begin_device (g : Settings) (cid did : Z) (s : KentikApi) : option load :=
  if lazyLoadCustoms g then l ← find_device cid did s; _ ← heap s !! l; Some (LoadCustoms l) else None.
Definition begin_interface (g : Settings) (dev : option nat) (s : KentikApi) : option load :=
  if lazyLoadInts g then l ← dev; _ ← heap s !! l; Some (LoadInterfaces l) else None.
(** The rest of a call that has read the flag. *)
Definition end_call (c : load * bool) (s : KentikApi) : KentikApi :=
  let s := s <| heap := mark c.1 (heap s) |> in
  if c.2 then s else s <| loads := loads s ++ [c.1] |>.

(** The client, and the calls that have read a flag and not set it yet, with what they read. *)
Record Run := mkRun { client : KentikApi; calls : list (load * bool) }.
Definition idle (s : KentikApi) : Run := mkRun s [].
Definition begin_call (j : option load) (r : Run) : Run :=
  match j with None => r | Some j => mkRun (client r) (calls r ++ [(j, flagged j (heap (client r)))]) end.

(** Steps of the calls of the program and ends of what runs in the background, one after the other; calls are
    made by several threads. A refresh is asked for ([EUpdateTests], or the ticker of [manageCache]) and takes place
    once it has the lock. *)
Inductive event :=
| EGetDevice (cid did : Z)
| EGetInterface (dev : option nat) (port : Z)
| EMark (i : nat)
| EUpdateTests (now : Z)
| ETick
| ERefresh (now : Z) (creds : list cred_answers)
| ELoad (i : nat) (customs : list (answer (option pb_Device))) (ints : list (answer (list (option pb_Interface2)))).
Definition on_client (f : KentikApi → KentikApi) (r : Run) : Run := mkRun (f (client r)) (calls r).
Definition do_event (g : Settings) (kc : Ic.ic_state) (config : option Config) (e : event) (r : Run) : Run :=
  match e with
  | EGetDevice cid did => begin_call (begin_device g cid did (client r)) r
  | EGetInterface dev _ => begin_call (begin_interface g dev (client r)) r
  | EMark i =>
      match calls r !! i with
      | None => r
      | Some c => mkRun (end_call c (client r)) (delete i (calls r))
      end
  | EUpdateTests now => on_client (UpdateTests config now) r
  | ETick => on_client (λ s, s <| refreshes := S (refreshes s) |>) r
  | ERefresh now creds => on_client (λ s,
      match refreshes s with O => s | S n => (getSynthAndDeviceInfo g now creds s).2 <| refreshes := n |> end) r
  | ELoad i customs ints => on_client (λ s,
      match loads s !! i with
      | None => s
      | Some j => s <| heap := run_load kc customs ints j (heap s) |> <| loads := delete i (loads s) |>
      end) r
  end.
Definition run_events (g : Settings) (kc : Ic.ic_state) (config : option Config) (es : list event) (r : Run) : Run :=
  foldl (λ r e, do_event g kc config e r) r es.

(** *** Devices of a file *)
(** [NewKentikApiFromLocalDevices]: the pointers in the order of the range; one without a device panics.
    The interfaces are copied from the map that has just been emptied. *)
Definition local_device (d : Device) : Device :=
  let d := d <| Interfaces := ∅ |> in
  d <| Interfaces := insert_all ((λ ki, (SnmpID ki.2, ki.2)) <$> map_to_list (Interfaces d)) (Interfaces d) |>.
Fixpoint add_local (order : list (option nat)) (s : KentikApi) : res KentikApi :=
  match order with
  | [] => Ok s
  | None :: _ => Panic "nil pointer dereference"
  | Some l :: order =>
      match heap s !! l with
      | None => Panic "nil pointer dereference"
      | Some d => add_local order (s <| heap := <[l := local_device d]> (heap s) |> <| devices := place (devices s) (l, d) |>)
      end
  end.
Definition NewKentikApiFromLocalDevices (h : list Device) (localDevices : option (list (option nat))) : res (option KentikApi) :=
  match localDevices with
  | None => Ok None
  | Some order => s ← add_local order (empty_api <| heap := h |>); Ok (Some s)
  end.

(** *** Making a device *)
Record deviceCreate := mkCreate {
  c_Name : string; c_Type : string; c_Description : string; c_SampleRate : Z; c_BgpType : string; c_PlanID : Z; c_SiteID : Z;
  c_IPs : list (option IP); c_CdnAttr : string; c_ExportId : Z; c_Subtype : string; c_Region : string; c_Zone : string; c_MinSnmp : bool }.
(** What is read of a device of SNMP. *)
Record SnmpDevice := mkSnmpDevice { DeviceName : string; DeviceIP : string; sd_Description : string }.
Record post := mkPost { p_URL : string; p_Email : string; p_Token : string; p_UserAgent : string; p_Device : deviceCreate }.

Section Create.
(** The platform and version of the program, whether a URL makes a request, and what the server answers:
    an error, or a status with the strings of its body. *)
Context (GOOS GOARCH Version : string) (NewRequest : string → option error) (Do : post → error + Z * gmap string string).

Definition userAgent (comments : list string) : string :=
  String.append "kentik/ktranslate/" (String.append Version (String.append " (" (String.append (Join ([GOOS; GOARCH] ++ comments) "; ") ")"))).

(** The requests that are sent, and the error. *)
Definition createDevice (c : Config) (create : deviceCreate) (url : string) : list post * option error :=
  match KentikCreds c with
  | [] => ([], Some (Errorf "No API Credencials Specified." []))
  | info :: _ =>
      match NewRequest url with
      | Some err => ([], Some err)
      | None =>
          let req := mkPost url (APIEmail info) (APIToken info) (userAgent []) create in
          ([req], match Do req with
                  | inl err => Some err
                  | inr (StatusCode, bodymap) =>
                      if negb (StatusCode =? 201)
                      then Some (Errorf "Invalid status code %d -> %v" [FInt StatusCode; FStr (default "" (bodymap !! "error"))])
                      else None
                  end)
      end
  end.

Definition normal_name (n : string) : string := ToLower (ReplaceAll n "." "_").
Definition short (desc : string) : string := if (128 <? String.length desc)%nat then String.substring 0 127 desc else desc.
Definition known_name (dname : string) (s : KentikApi) : bool :=
  existsb (λ l, match heap s !! l with Some d => String.eqb (Name d) dname | None => false end) (all_locs (devices s)).
Definition create_of (c : Config) (conf : SnmpDevice) : deviceCreate :=
  {| c_Name := normal_name (DeviceName conf); c_Type := "router"; c_Description := short (sd_Description conf); c_SampleRate := 1; c_BgpType := "none";
     c_PlanID := KentikPlan c; c_SiteID := 0; c_IPs := [ParseIP (DeviceIP conf)]; c_CdnAttr := ""; c_ExportId := 0; c_Subtype := "router";
     c_Region := ""; c_Zone := ""; c_MinSnmp := false |}.
Definition EnsureDevice (api : option (option Config * KentikApi)) (conf : SnmpDevice) : list post * option error :=
  match api with
  | Some (Some c, s) =>
      if bool_decide (KentikCreds c = []) then ([], None)
      else if KentikPlan c =? 0 then ([], None)
      else if known_name (normal_name (DeviceName conf)) s then ([], None)
      else createDevice c (create_of c conf) (String.append (APIBaseURL c) "/api/v5/device")
  | _ => ([], None)
  end.
(** A device of SNMP after the other, as the start of SNMP asks for them. *)
Definition ensure_all (api : option (option Config * KentikApi)) (confs : list SnmpDevice) : list post :=
  confs ≫= λ conf, (EnsureDevice api conf).1.
End Create.

(** *** Names of values *)
(** The identifiers in the order of the range, and what each credential is answered for them. *)
Fixpoint lookup_values (ids : list string) (answers : list (list string → error + list (string * string))) (res : gmap Z string) :
    option (gmap Z string) * option error :=
  match answers with
  | [] => (Some res, None)
  | FetchValuesByIds :: answers =>
      match FetchValuesByIds ids with
      | inl err => (None, Some err)
      | inr r => lookup_values ids answers (insert_all (omap (λ es, e ← ParseUint es.1; Some (e, es.2)) r) res)
      end
  end.
Definition LookupEnumerationValues (connected : bool) (enums : list Z) (answers : list (list string → error + list (string * string))) :
    option (gmap Z string) * option error :=
  if connected then lookup_values (Itoa <$> enums) answers ∅ else (None, None).

(** *** The address (util.go) *)
Definition strip (s prefix : string) (s' : string) : string := if HasPrefix s prefix then drop_string (String.length prefix) s' else s'.
Definition ends_443 (s : string) : bool :=
  let n := String.length s in (4 <=? n)%nat && String.eqb (drop_string (n - 4) s) ":443".
Definition getAddressFromApiRoot (apiRoot : string) : string :=
  let address := strip apiRoot "http://" (strip apiRoot "https://" apiRoot) in
  if ends_443 address then address else String.append address ":443".

Section Tls.
Context {Cert Pool : Type} (LoadX509KeyPair : string → string → error + Cert) (ReadFile : string → error + list byte)
  (AppendCertsFromPEM : list byte → option Pool).
Record TlsConfig := mkTls { Certificates : list Cert; InsecureSkipVerify : bool; RootCAs : option Pool }.
Definition clientTransportCredentials (insecureSkipVerify : bool) (cacertFile clientCertFile clientKeyFile : string) : error + TlsConfig :=
  match (if String.eqb clientCertFile "" then inr []
         else match LoadX509KeyPair clientCertFile clientKeyFile with
              | inl err => inl (Errorf "could not load client key pair: %v" [FErr err])
              | inr cert => inr [cert]
              end) with
  | inl err => inl err
  | inr certs =>
      if insecureSkipVerify then inr (mkTls certs true None)
      else if String.eqb cacertFile "" then inr (mkTls certs false None)
      else match ReadFile cacertFile with
           | inl err => inl (Errorf "could not read ca certificate: %v" [FErr err])
           | inr ca => match AppendCertsFromPEM ca with
                       | None => inl (Errorf "failed to append ca certs" [])
                       | Some pool => inr (mkTls certs false (Some pool))
                       end
           end
  end.
End Tls.

(** ** What a refresh keeps *)
Definition answered {A} (a : answer A) : bool := match a with Answer _ => true | _ => false end.
Definition cred_answered (full : bool) (c : cred_answers) : bool :=
  answered (ListTests c) && answered (ListAgents c) && answered (ListDevices c (negb full)).
(** Every valid device of the answers, and the sites. *)
Definition devices_of (full : bool) (c : cred_answers) : list Device :=
  match ListDevices c (negb full) with Answer r => valid_devices r | _ => [] end.
Definition sites_of (creds : list cred_answers) : gmap string pb_Site :=
  match fetch_sites creds ∅ with Fetched m => m | _ => ∅ end.
Definition lookup_device (cid did : Z) (s : KentikApi) : option Device := l ← find_device cid did s; heap s !! l.

Lemma fetch_synth_all full creds acc : forallb (cred_answered full) creds = true → ∃ x, fetch_synth creds acc = Fetched x.
Proof.
  revert acc. induction creds as [|c creds IH]; intros [[tests agents] ips] Hall; simpl in *; [eauto|].
  apply andb_prop in Hall as [Hc Hall]. unfold cred_answered in Hc.
  destruct (ListTests c), (ListAgents c); simpl in Hc; try discriminate. by apply IH.
Qed.
Lemma fetch_devices_all full creds acc : forallb (cred_answered full) creds = true →
  fetch_devices full creds acc = Fetched (acc ++ (creds ≫= devices_of full)).
Proof.
  revert acc. induction creds as [|c creds IH]; intros acc Hall; simpl in *; [by rewrite app_nil_r|].
  apply andb_prop in Hall as [Hc Hall]. unfold cred_answered in Hc.
  destruct (ListDevices c (negb full)) eqn:Hd; rewrite ?andb_false_r in Hc; try discriminate.
  rewrite (IH _ Hall). unfold devices_of at 2. by rewrite Hd, app_assoc.
Qed.
Lemma fetch_both_answered full creds acc acc' x y :
  fetch_synth creds acc = Fetched x → fetch_devices full creds acc' = Fetched y → forallb (cred_answered full) creds = true.
Proof.
  revert acc acc'. induction creds as [|c creds IH]; intros [[tests agents] ips] acc' Hs Hd; [done|]. simpl in *.
  unfold cred_answered. destruct (ListTests c), (ListAgents c), (ListDevices c (negb full)); try discriminate; eauto.
Qed.

(** *** The map of devices *)
Lemma place_lookup m l d cid did :
  (place m (l, d) !! cid ≫= λ c, c !! did) = if decide (CompanyID d = cid ∧ ID d = did) then Some l else m !! cid ≫= λ c, c !! did.
Proof.
  unfold place. simpl. destruct (decide (CompanyID d = cid)) as [<-|Hc].
  - rewrite lookup_insert_eq. simpl. destruct (decide (ID d = did)) as [<-|Hd].
    + rewrite lookup_insert_eq, decide_True by done. done.
    + rewrite lookup_insert_ne, decide_False by naive_solver. by destruct (m !! _).
  - rewrite lookup_insert_ne, decide_False by naive_solver. done.
Qed.
Definition is_device (cid did : Z) (d : Device) : Prop := CompanyID d = cid ∧ ID d = did.
#[export] Instance is_device_dec cid did d : Decision (is_device cid did d).
Proof. unfold is_device. apply _. Defined.
Lemma numbered_snoc n ds d : numbered n (ds ++ [d]) = numbered n ds ++ [((n + length ds)%nat, d)].
Proof. unfold numbered. rewrite imap_app. simpl. by rewrite Nat.add_0_r. Qed.
(** What a map made of numbered devices leads to is the last device of that company and number. *)
Lemma placed_lookup h ds cid did :
  ((foldl place ∅ (numbered (length h) ds) !! cid ≫= λ c, c !! did) ≫= λ l, (h ++ ds) !! l) = last (filter (is_device cid did) ds) ∧
  ∀ l, (foldl place ∅ (numbered (length h) ds) !! cid ≫= λ c, c !! did) = Some l → (length h ≤ l < length h + length ds)%nat.
Proof.
  induction ds as [|d ds [IH IHb]] using rev_ind.
  { simpl. rewrite lookup_empty. simpl. split; [done|]. discriminate. }
  rewrite numbered_snoc, foldl_app. simpl. rewrite place_lookup, filter_app, length_app. simpl.
  destruct (decide (CompanyID d = cid ∧ ID d = did)) as [Hd|Hd].
  - split; [|intros l [= <-]; lia]. rewrite filter_cons_True, filter_nil by done. rewrite last_snoc. simpl.
    rewrite app_assoc, lookup_app_r by (rewrite length_app; lia). rewrite length_app.
    by replace (length h + length ds - (length h + length ds))%nat with 0%nat by lia.
  - split; [|intros l Hl; specialize (IHb l Hl); lia].
    rewrite filter_cons_False, filter_nil, app_nil_r by done. rewrite <- IH.
    destruct (_ !! cid ≫= _) as [l|] eqn:Hl; [|done]. simpl. rewrite app_assoc, lookup_app_l; [done|].
    rewrite length_app. specialize (IHb l eq_refl). lia.
Qed.

(** *** Sites *)
Lemma all_locs_elem m l : l ∈ all_locs m ↔ ∃ cid did, (m !! cid ≫= λ c, c !! did) = Some l.
Proof.
  unfold all_locs, company_locs. rewrite list_elem_of_bind. split.
  - intros (cd & Hl & Hcd). apply list_elem_of_fmap in Hcd as ([cid cd'] & -> & Hc). apply elem_of_map_to_list in Hc.
    apply list_elem_of_fmap in Hl as ([did l'] & -> & Hd). apply elem_of_map_to_list in Hd. exists cid, did. by rewrite Hc.
  - intros (cid & did & H). destruct (m !! cid) as [c|] eqn:Hc; [|done]. simpl in H. exists c. split.
    + apply list_elem_of_fmap. exists (did, l). split; [done|]. by apply elem_of_map_to_list.
    + apply list_elem_of_fmap. exists (cid, c). split; [done|]. by apply elem_of_map_to_list.
Qed.
Lemma with_site_idem m d : with_site m (with_site m d) = with_site m d.
Proof. unfold with_site. destruct d as [? ? ? ? ? ? ? ? ? ? ? ? ? ? ? ? ? ? ? ? [s|]]; simpl; [|done]. by destruct (m !! ps_Id s) eqn:E; simpl; rewrite ?E. Qed.
Lemma with_site_empty d : with_site ∅ d = d.
Proof. unfold with_site. destruct (Site d); [|done]. by rewrite lookup_empty. Qed.
Lemma foldr_alter_lookup (f : Device → Device) (ls : list nat) (h : list Device) (l : nat) : (∀ d, f (f d) = f d) →
  foldr (alter f) h ls !! l = if decide (l ∈ ls) then f <$> h !! l else h !! l.
Proof.
  intros Hf. induction ls as [|k ls IH]; simpl; [by destruct (decide (l ∈ [])); [set_solver|]|].
  destruct (decide (k = l)) as [->|Hne].
  - rewrite list_lookup_alter_eq, IH. destruct (decide (l ∈ l :: ls)); [|set_solver]. destruct (decide (l ∈ ls)); [|done].
    destruct (h !! l); simpl; by rewrite ?Hf.
  - rewrite list_lookup_alter_ne, IH by done. apply decide_ext. set_solver.
Qed.
Lemma getSites_heap creds s s' err : getSites creds s = (err, s') →
  err = None ∧ devices s' = devices s ∧ loads s' = loads s ∧ lastSynth s' = lastSynth s ∧ refreshes s' = refreshes s ∧
  ∀ l, heap s' !! l = if decide (l ∈ all_locs (devices s)) then with_site (sites_of creds) <$> heap s !! l else heap s !! l.
Proof.
  destruct s as [h dv ag ip ts ls rf lo]. unfold getSites, sites_of. assert (∀ c acc e, fetch_sites c acc ≠ FetchErr e) as Hne.
  { induction c as [|c cs IH]; simpl; [done|]. intros acc e. destruct (ListSites c); [apply IH|done|apply IH]. }
  destruct (fetch_sites creds ∅) eqn:E; [| |by destruct (Hne _ _ _ E)]; intros [= <- <-]; simpl.
  - split_and!; try done. intros l. apply foldr_alter_lookup. intros d. apply with_site_idem.
  - split_and!; try done. intros l. destruct (decide _); [|done]. destruct (h !! l); simpl; [by rewrite with_site_empty|done].
Qed.

(** A refresh, where every credential was answered and otherwise. *)
Definition all_devices (g : Settings) (creds : list cred_answers) : list Device := creds ≫= devices_of (fullLoadCustoms g).
Lemma refresh_cases g now creds s err s' : getSynthAndDeviceInfo g now creds s = (err, s') →
  lastSynth s' = Some now ∧ loads s' = loads s ∧
  if forallb (cred_answered (fullLoadCustoms g)) creds
  then err = None ∧ devices s' = foldl place ∅ (numbered (length (heap s)) (all_devices g creds)) ∧
       ∀ l, heap s' !! l = if decide (l ∈ all_locs (devices s')) then with_site (sites_of creds) <$> (heap s ++ all_devices g creds) !! l else (heap s ++ all_devices g creds) !! l
  else devices s' = devices s ∧ heap s' = heap s.
Proof.
  destruct s as [h dv ag ip ts ls rf lo]. unfold getSynthAndDeviceInfo. unfold all_devices. set (full := fullLoadCustoms g).
  destruct (fetch_synth creds (∅, ∅, ∅)) as [[[tests agents] ips]| |e] eqn:Hs; cycle 1.
  1,2: intros [= <- <-]; destruct (forallb _ creds) eqn:Hall; [destruct (fetch_synth_all _ _ (∅, ∅, ∅) Hall) as [x Hx]; congruence|done].
  unfold getDeviceInfoNew. fold full. destruct (fetch_devices full creds []) as [ds'| |e] eqn:Hd; cycle 1.
  1,2: intros [= <- <-]; destruct (forallb _ creds) eqn:Hall; [pose proof (fetch_devices_all _ _ [] Hall); congruence|done].
  pose proof (fetch_both_answered _ _ _ _ _ _ Hs Hd) as Hall. rewrite Hall.
  rewrite (fetch_devices_all _ _ [] Hall) in Hd. injection Hd as <-.
  intros (-> & Hdev & Hl & Hn & _ & Hh)%getSites_heap. cbn in Hdev, Hl, Hn, Hh. split_and!; try done. rewrite Hdev. exact Hh.
Qed.
Lemma refresh_keeps g now creds s err s' l d : getSynthAndDeviceInfo g now creds s = (err, s') → heap s !! l = Some d → heap s' !! l = Some d.
Proof.
  intros (_ & _ & H)%refresh_cases Hl. destruct (forallb _ creds); [|by destruct H as [_ ->]].
  destruct H as (_ & Hdev & Hh). rewrite Hh, Hdev, decide_False; [by apply lookup_app_l_Some|].
  intros (cid & did & Hin%(proj2 (placed_lookup (heap s) _ cid did)))%all_locs_elem. apply lookup_lt_Some in Hl. lia.
Qed.

(** C32: A refresh in which every credential is answered about tests, agents and devices ends without an error, and each company and number leads to the last valid device among all the answers, with its site; otherwise no device is changed. Devices held elsewhere are never written to. *)
Theorem refresh_devices g now creds s : let '(err, s') := getSynthAndDeviceInfo g now creds s in
  lastSynth s' = Some now ∧ loads s' = loads s ∧
  (∀ l d, heap s !! l = Some d → heap s' !! l = Some d) ∧
  if forallb (cred_answered (fullLoadCustoms g)) creds
  then err = None ∧ ∀ cid did, lookup_device cid did s' =
         with_site (sites_of creds) <$> last (filter (is_device cid did) (all_devices g creds))
  else devices s' = devices s ∧ heap s' = heap s.
Proof.
  destruct (getSynthAndDeviceInfo g now creds s) as [err s'] eqn:Hr. pose proof (refresh_cases _ _ _ _ _ _ Hr) as (Hn & Hl & H).
  split_and!; [done|done|by intros l d; apply (refresh_keeps _ _ _ _ _ _ _ _ Hr)|].
  destruct (forallb _ creds); [|done]. destruct H as (-> & Hdev & Hh). split; [done|]. intros cid did. unfold lookup_device.
  destruct (placed_lookup (heap s) (all_devices g creds) cid did) as [<- _]. rewrite <- Hdev. fold (find_device cid did s').
  destruct (find_device cid did s') as [l|] eqn:Hin; [|done]. simpl. rewrite Hh, decide_True; [done|]. apply all_locs_elem. eauto.
Qed.

(** ** What holds in every run *)
(** What of a device never changes, and what only grows. *)
Definition frozen (d : Device) :=
  (ID d, IDStr d, Name d, CompanyID d, (DeviceType d, DeviceSubtype d, Description d, D_IP d, SendingIps d, SampleRate d),
   (BgpType d, D_Plan d, CdnAttr d, MaxFlowRate d, SnmpCommunity d, SnmpIp d, SnmpV3 d, Labels d, Site d)).
(** Interfaces are under their own numbers and of this device. *)
Definition interfaces_ok (d : Device) : Prop := ∀ k i, Interfaces d !! k = Some i → SnmpID i = k ∧ I_DeviceID i = ID d.
Record evolves (d d' : Device) : Prop := {
  ev_frozen : frozen d' = frozen d;
  ev_customs : loadedCustoms d = true → loadedCustoms d' = true;
  ev_ints : loadedInts d = true → loadedInts d' = true;
  ev_ok : interfaces_ok d → interfaces_ok d' }.
#[export] Instance evolves_pre : PreOrder evolves.
Proof. split; [by split|]. intros d1 d2 d3 [] []. split; [congruence|auto..]. Qed.
Definition heap_evolves (h h' : list Device) : Prop := ∀ l d, h !! l = Some d → ∃ d', h' !! l = Some d' ∧ evolves d d'.
#[export] Instance heap_evolves_pre : PreOrder heap_evolves.
Proof.
  split; [intros h l d; exists d; by split|]. intros h1 h2 h3 H12 H23 l d Hl. apply H12 in Hl as (d2 & Hl & H). apply H23 in Hl as (d3 & Hl & H').
  exists d3. split; [done|]. by etrans.
Qed.

Lemma evolves_customs d : evolves d (d <| loadedCustoms := true |>).
Proof. by destruct d; split. Qed.
Lemma evolves_ints d : evolves d (d <| loadedInts := true |>).
Proof. by destruct d; split. Qed.
Lemma evolves_AddCustoms dd d : evolves d (AddCustoms dd d).
Proof. by destruct d; split. Qed.
Lemma evolves_with_site m d : evolves d (with_site m d).
Proof. unfold with_site. destruct d as [? ? ? ? ? ? ? ? ? ? ? ? ? ? ? ? ? ? ? ? [x|] ? ? ? ? ?]; simpl; [|done]. by destruct (m !! ps_Id x); split. Qed.

Lemma filled_interfaces {P} (entry : P → option (Z * Interface)) (l : list P) id :
  (∀ p k i, entry p = Some (k, i) → SnmpID i = k ∧ I_DeviceID i = id) →
  ∀ k i, insert_all (omap entry l) (∅ : gmap Z Interface) !! k = Some i → SnmpID i = k ∧ I_DeviceID i = id.
Proof.
  intros H k i [(p & _ & Hp)%list_elem_of_omap|Hi]%insert_all_elem; [by apply (H p)|]. by rewrite lookup_empty in Hi.
Qed.
Lemma evolves_AddInterfaces kc is_ d : evolves d (AddInterfaces kc is_ d).
Proof.
  split; [by destruct d|by destruct d..|]. intros _. unfold AddInterfaces, interfaces_ok. destruct d; simpl.
  apply filled_interfaces. intros p k i. unfold interface2_entry. destruct (_ =? _) eqn:E; simpl; [|done]. apply Z.eqb_eq in E as <-. by intros [= <- <-].
Qed.
Lemma Map_ok dd d : MapDeviceDetailedToDevice dd = inr d → interfaces_ok d.
Proof.
  unfold MapDeviceDetailedToDevice. destruct dd as [dd|]; [|done]. destruct (ParseInt (pd_Id dd)) as [n|] eqn:E; [|done].
  destruct (ParseInt (pd_CompanyId dd)); [|done]. intros [= <-]. unfold interfaces_ok. simpl. unfold mapInterfaces. rewrite E. simpl.
  apply filled_interfaces. intros p k i. unfold interface_entry. destruct (Z.eqb_spec (or_zero (ParseInt (pi_DeviceId p))) n) as [->|]; simpl; [|done]. by intros [= <- <-].
Qed.

Lemma heap_evolves_insert (h : list Device) l d d' : h !! l = Some d → evolves d d' → heap_evolves h (<[l := d']> h).
Proof.
  intros Hl He k x Hk. destruct (decide (l = k)) as [->|Hne].
  - exists d'. rewrite list_lookup_insert_eq by (by eapply lookup_lt_Some). split; [done|]. congruence.
  - exists x. by rewrite list_lookup_insert_ne.
Qed.
Lemma heap_evolves_alter (h : list Device) l f : (∀ d, evolves d (f d)) → heap_evolves h (alter f l h).
Proof.
  intros Hf k x Hk. destruct (decide (l = k)) as [->|Hne].
  - exists (f x). by rewrite list_lookup_alter_eq, Hk.
  - exists x. by rewrite list_lookup_alter_ne.
Qed.
Lemma run_load_evolves kc cs is_ j h : heap_evolves h (run_load kc cs is_ j h).
Proof.
  destruct j; simpl; (destruct (first_answer _); [|done]); apply heap_evolves_alter; intros; [apply evolves_AddCustoms|apply evolves_AddInterfaces].
Qed.

(** *** Each device is as its place says *)
Record api_ok (s : KentikApi) : Prop := {
  ok_devices cid did l : find_device cid did s = Some l → ∃ d, heap s !! l = Some d ∧ CompanyID d = cid ∧ ID d = did;
  ok_heap : Forall interfaces_ok (heap s) }.
Lemma api_ok_evolves s s' : api_ok s → devices s' = devices s → heap_evolves (heap s) (heap s') → length (heap s') = length (heap s) → api_ok s'.
Proof.
  intros [Hd Hh] Hdev He Hlen. split.
  - intros cid did l Hl. unfold find_device in *. rewrite Hdev in Hl. apply Hd in Hl as (d & Hl & <- & <-). apply He in Hl as (d' & Hl & [Hf _ _ _]).
    exists d'. unfold frozen in Hf. split; [done|]. by simplify_eq.
  - apply Forall_lookup. intros l d' Hl. assert (is_Some (heap s !! l)) as [d Hd'] by (apply lookup_lt_is_Some; rewrite <- Hlen; by eapply lookup_lt_Some).
    destruct (He l d Hd') as (d'' & Hl' & He'). simplify_eq. apply (ev_ok _ _ He'). by eapply Forall_lookup_1.
Qed.

Lemma alter_insert {A} (f : A → A) i (l : list A) x : l !! i = Some x → alter f i l = <[i := f x]> l.
Proof.
  intros Hx. apply list_eq. intros k. destruct (decide (i = k)) as [->|Hne]; [|by rewrite list_lookup_alter_ne, list_lookup_insert_ne].
  by rewrite list_lookup_alter_eq, Hx, list_lookup_insert_eq by (by eapply lookup_lt_Some).
Qed.
Lemma mark_evolves j h : heap_evolves h (mark j h) ∧ length (mark j h) = length h.
Proof.
  destruct j; simpl; rewrite length_alter; (split; [|done]); apply heap_evolves_alter; [exact evolves_customs|exact evolves_ints].
Qed.
Lemma end_call_evolves c s : let s' := end_call c s in
  devices s' = devices s ∧ heap_evolves (heap s) (heap s') ∧ length (heap s') = length (heap s).
Proof. destruct (mark_evolves c.1 (heap s)) as [H1 H2]. unfold end_call. destruct s, c as [j [|]]; cbn in *; by split_and!. Qed.

(** A call that nothing comes between is its two steps. *)
Lemma GetDevice_steps g cid did s : (GetDevice g cid did s).2 =
  match begin_device g cid did s with None => s | Some j => end_call (j, flagged j (heap s)) s end.
Proof.
  unfold GetDevice, begin_device. destruct (find_device cid did s) as [l|]; [|by destruct (lazyLoadCustoms g)]. simpl.
  destruct (heap s !! l) as [d|] eqn:Hl; simpl; [|by destruct (lazyLoadCustoms g)]. destruct (lazyLoadCustoms g); [|done]. simpl.
  unfold end_call. cbn [fst snd flagged mark]. rewrite Hl, (alter_insert _ _ _ _ Hl). by destruct d as [? ? ? ? ? ? ? ? ? ? ? ? ? ? ? ? ? ? ? ? ? ? ? ? [|] ?].
Qed.
Lemma GetInterface_steps g dev port s : (GetInterface g dev port s).2 =
  match begin_interface g dev s with None => s | Some j => end_call (j, flagged j (heap s)) s end.
Proof.
  unfold GetInterface, begin_interface. destruct dev as [l|]; [|by destruct (lazyLoadInts g)]. simpl.
  destruct (heap s !! l) as [d|] eqn:Hl; simpl; [|by destruct (lazyLoadInts g)]. destruct (lazyLoadInts g); [|done]. simpl.
  unfold end_call. cbn [fst snd flagged mark]. rewrite Hl, (alter_insert _ _ _ _ Hl). by destruct d as [? ? ? ? ? ? ? ? ? ? ? ? ? ? ? ? ? ? ? ? ? ? ? ? ? [|]].
Qed.
Lemma run_load_length kc cs is_ j h : length (run_load kc cs is_ j h) = length h.
Proof. destruct j; simpl; destruct (first_answer _); by rewrite ?length_alter. Qed.

(** Every event but a refresh keeps the maps; a refresh keeps the devices. *)
Definition is_refresh (e : event) : bool := match e with ERefresh _ _ => true | _ => false end.
Lemma event_evolves g kc config e r : is_refresh e = false → let s := client r in let s' := client (do_event g kc config e r) in
  devices s' = devices s ∧ heap_evolves (heap s) (heap s') ∧ length (heap s') = length (heap s).
Proof.
  destruct r as [s cs]. destruct e as [cid did|dev port|i|now| |now creds|i cs' is_]; intros He; simpl; try done.
  - by destruct (begin_device g cid did s).
  - by destruct (begin_interface g dev s).
  - destruct (cs !! i); [apply end_call_evolves|done].
  - unfold UpdateTests. destruct config; [|done]. destruct (bool_decide _); [done|]. destruct s; simpl. destruct lastSynth0; [|done]. by destruct (_ <? _).
  - by destruct s.
  - destruct (loads s !! i) as [j|]; [|done]. destruct s; simpl. split_and!; [done|apply run_load_evolves|apply run_load_length].
Qed.
Lemma refresh_event g kc config now creds r : let s := client r in let s' := client (do_event g kc config (ERefresh now creds) r) in
  heap_evolves (heap s) (heap s') ∧ (api_ok s → api_ok s') ∧ loads s' = loads s ∧ ∀ l d, heap s !! l = Some d → heap s' !! l = Some d.
Proof.
  destruct r as [s cs]. simpl. destruct (refreshes s) as [|n]; [done|]. destruct (getSynthAndDeviceInfo g now creds s) as [err s'] eqn:Hr.
  assert (heap (s' <| refreshes := n |>) = heap s' ∧ devices (s' <| refreshes := n |>) = devices s' ∧ loads (s' <| refreshes := n |>) = loads s')
    as (Hh' & Hd' & Hl') by by destruct s'. simpl. rewrite Hh', Hl'.
  pose proof (refresh_cases _ _ _ _ _ _ Hr) as (_ & Hl & H). split_and!; [|intros Hok|done|by intros l d Hd; eapply refresh_keeps].
  { intros l d Hd. exists d. split; [by eapply refresh_keeps|done]. }
  destruct (forallb _ creds); cycle 1.
  { destruct H as [Hd Hh]. by apply (api_ok_evolves s); [|rewrite Hd'|rewrite Hh', Hh|rewrite Hh', Hh]. }
  destruct H as (_ & Hdev & Hh). set (ds := all_devices g creds) in *. split.
  - intros cid did l Hin. unfold find_device in Hin. rewrite Hd' in Hin. destruct (placed_lookup (heap s) ds cid did) as [Hp Hb].
    rewrite Hh', Hh, decide_True by (apply all_locs_elem; eauto). rewrite Hdev in Hin. rewrite Hin in Hp. simpl in Hp. rewrite Hp.
    specialize (Hb l Hin). destruct (last _) as [d|] eqn:Hlast; simpl.
    + exists (with_site (sites_of creds) d). split; [done|]. apply last_Some_elem_of, list_elem_of_filter in Hlast as [[<- <-] _].
      pose proof (ev_frozen _ _ (evolves_with_site (sites_of creds) d)) as Hf. unfold frozen in Hf. by simplify_eq.
    + apply lookup_ge_None in Hp. rewrite length_app in Hp. lia.
  - apply Forall_lookup. rewrite Hh'. intros l d'. rewrite Hh. assert (Forall interfaces_ok (heap s ++ ds)) as Hall.
    { apply Forall_app. split; [apply Hok|]. apply Forall_forall. intros d (c & Hin & _)%list_elem_of_bind. unfold devices_of in Hin.
      destruct (ListDevices c _); [|set_solver..]. apply list_elem_of_omap in Hin as (dd & _ & Hdd).
      destruct (MapDeviceDetailedToDevice dd) eqn:E; [done|]. injection Hdd as <-. by eapply Map_ok. }
    rewrite Forall_lookup in Hall. destruct (decide _); [|apply Hall]. destruct (_ !! l) as [d|] eqn:Hd; simpl; [|done].
    intros [= <-]. apply (ev_ok _ _ (evolves_with_site _ _)). by eapply Hall.
Qed.
Lemma event_steps g kc config e r : let s := client r in let s' := client (do_event g kc config e r) in
  heap_evolves (heap s) (heap s') ∧ (api_ok s → api_ok s').
Proof.
  destruct (is_refresh e) eqn:He; [destruct e; try done; by destruct (refresh_event g kc config now creds r) as (? & ? & _)|].
  destruct (event_evolves g kc config e r He) as (Hd & Hh & Hl). split; [done|]. intros Hok. by apply (api_ok_evolves (client r)).
Qed.
Lemma run_steps g kc config es r : let s := client r in let s' := client (run_events g kc config es r) in
  heap_evolves (heap s) (heap s') ∧ (api_ok s → api_ok s').
Proof.
  unfold run_events. revert r. induction es as [|e es IH]; intros r; [done|]. simpl. destruct (event_steps g kc config e r) as [Hh Hok].
  destruct (IH (do_event g kc config e r)) as [Hh2 Hok2]. split; [by etrans|auto].
Qed.

(** C33: In every run of a client, whatever its threads ask, and whatever is refreshed and loaded in whichever order: a company and a number lead to a device of that company and number, the interfaces of a device are its own and under their own numbers, and a pointer that was handed out stays the same device, of which only columns, interfaces and the site may change. *)
Theorem devices_as_placed g kc config es es' :
  let r := run_events g kc config es (idle empty_api) in let s := client r in
  (∀ cid did l, (GetDevice g cid did s).1 = Some l → ∃ d, heap s !! l = Some d ∧ CompanyID d = cid ∧ ID d = did) ∧
  (∀ l d, heap s !! l = Some d → interfaces_ok d ∧
     ∃ d', heap (client (run_events g kc config es' r)) !! l = Some d' ∧ frozen d' = frozen d).
Proof.
  intros r s. destruct (run_steps g kc config es (idle empty_api)) as [_ Hok]. fold r s in Hok. destruct Hok as [Hd Hh]; [by split|]. split.
  - intros cid did l Hl. apply Hd. unfold GetDevice in Hl. destruct (find_device cid did s) as [l'|]; [|done].
    destruct (heap s !! l'); [|done]. by destruct (lazyLoadCustoms g).
  - intros l d Hl. split; [by eapply Forall_lookup_1 in Hh|]. destruct (run_steps g kc config es' r) as [He _].
    destruct (He l d Hl) as (d' & Hl' & [Hf _ _ _]). eauto.
Qed.

(** *** How often a load is started *)
(** What a step puts in the background, and what a run does. *)
Definition starts (g : Settings) (kc : Ic.ic_state) (config : option Config) (e : event) (r : Run) : list load :=
  match e with
  | EMark _ => drop (length (loads (client r))) (loads (client (do_event g kc config e r)))
  | _ => []
  end.
Fixpoint started (g : Settings) (kc : Ic.ic_state) (config : option Config) (es : list event) (r : Run) : list load :=
  match es with
  | [] => []
  | e :: es => starts g kc config e r ++ started g kc config es (do_event g kc config e r)
  end.
#[export] Instance load_eq_dec : EqDecision load.
Proof. solve_decision. Defined.
(** How often [j] is in a list. *)
Definition times (j : load) (l : list load) : nat := length (filter (j =.) l).
Lemma times_app j l1 l2 : times j (l1 ++ l2) = (times j l1 + times j l2)%nat.
Proof. unfold times. by rewrite filter_app, length_app. Qed.
Lemma times_elem j l : j ∈ l ↔ (0 < times j l)%nat.
Proof.
  unfold times. split.
  - intros Hj. assert (j ∈ filter (j =.) l) as H by by apply list_elem_of_filter. destruct (filter _ l); [by apply elem_of_nil in H|simpl; lia].
  - destruct (filter (j =.) l) as [|x f] eqn:E; simpl; [lia|]. intros _. assert (x ∈ filter (j =.) l) as [<- H]%list_elem_of_filter by (rewrite E; left). done.
Qed.

Lemma flagged_evolves j h h' : heap_evolves h h' → flagged j h = true → flagged j h' = true.
Proof.
  intros He. destruct j as [l|l]; simpl; destruct (h !! l) as [d|] eqn:Hl; try done; destruct (He l d Hl) as (d' & -> & []); auto.
Qed.
Definition place_of (j : load) : nat := match j with LoadCustoms l | LoadInterfaces l => l end.
Lemma flagged_mark j h : (place_of j < length h)%nat → flagged j (mark j h) = true.
Proof.
  destruct j as [l|l]; simpl; intros [d Hd]%lookup_lt_is_Some_2; rewrite list_lookup_alter_eq, Hd; by destruct d.
Qed.
Lemma flagged_mark_ne j j' h : j ≠ j' → flagged j (mark j' h) = flagged j h.
Proof.
  intros Hne. destruct j as [l|l], j' as [k|k]; simpl; (destruct (decide (k = l)) as [->|?]; [|by rewrite list_lookup_alter_ne]); try done;
    rewrite list_lookup_alter_eq; by destruct (h !! l) as [[]|].
Qed.

(** The calls that will start [j]. *)
Definition owing (j : load) (cs : list (load * bool)) : nat := length (filter (λ c, c = (j, false)) cs).
Lemma owing_le j cs : (owing j cs ≤ length cs)%nat.
Proof. apply length_filter. Qed.
Lemma owing_delete j cs i c : cs !! i = Some c → owing j cs = ((if decide (c = (j, false)) then 1 else 0) + owing j (delete i cs))%nat.
Proof.
  intros Hi. rewrite <-(take_drop_middle _ _ _ Hi) at 1. rewrite delete_take_drop. unfold owing. rewrite !filter_app, !length_app.
  destruct (decide (c = (j, false))) as [->|Hne]; [rewrite filter_cons_True by done; simpl; lia|rewrite filter_cons_False by done; lia].
Qed.
Lemma owing_snoc j cs c : owing j (cs ++ [c]) = (owing j cs + if decide (c = (j, false)) then 1 else 0)%nat.
Proof. unfold owing. rewrite filter_app, length_app, filter_cons. by destruct (decide _). Qed.

(** Calls are about devices of the heap. *)
Definition calls_ok (r : Run) : Prop := Forall (λ c : load * bool, (place_of c.1 < length (heap (client r)))%nat) (calls r).
Lemma evolves_length h h' : heap_evolves h h' → (length h ≤ length h')%nat.
Proof.
  intros He. destruct (decide (length h = 0)%nat); [lia|]. destruct (lookup_lt_is_Some_2 h (length h - 1)) as [d Hd]; [lia|].
  apply He in Hd as (d' & Hd%lookup_lt_Some & _). lia.
Qed.
Lemma calls_ok_event g kc config e r : calls_ok r → calls_ok (do_event g kc config e r).
Proof.
  intros Hr. pose proof (evolves_length _ _ (proj1 (event_steps g kc config e r))) as Hlen.
  assert (Forall (λ c : load * bool, (place_of c.1 < length (heap (client (do_event g kc config e r))))%nat) (calls r)) as Hc
    by (eapply Forall_impl; [exact Hr|]; simpl; lia). unfold calls_ok.
  assert (∀ j, (∀ l, j = Some l → (place_of l < length (heap (client r)))%nat) → calls_ok (begin_call j r)) as Hb.
  { intros [j|] Hj; [|done]. apply Forall_app. split; [exact Hr|]. constructor; [by apply Hj|done]. }
  destruct e as [cid did|dev port|i|now| |now creds|i cs is_]; try done.
  - apply Hb. unfold begin_device. intros j. destruct (lazyLoadCustoms g); [|done]. destruct (find_device _ _ _) as [l|]; [|done]. simpl.
    destruct (heap (client r) !! l) eqn:E; simpl; [|done]. intros [= <-]. by eapply lookup_lt_Some.
  - apply Hb. unfold begin_interface. intros j. destruct (lazyLoadInts g); [|done]. destruct dev as [l|]; [|done]. simpl.
    destruct (heap (client r) !! l) eqn:E; simpl; [|done]. intros [= <-]. by eapply lookup_lt_Some.
  - revert Hc. simpl. destruct (calls r !! i); [|done]. simpl. intros Hc. by apply Forall_delete.
Qed.

(** What a step starts, and what becomes of the calls. *)
Lemma starts_mark g kc config i r : starts g kc config (EMark i) r = match calls r !! i with Some (j, false) => [j] | _ => [] end.
Proof.
  simpl. destruct (calls r !! i) as [[j [|]]|]; simpl; [by destruct (client r); simpl; rewrite drop_all| |by rewrite drop_all].
  destruct (client r); simpl. by rewrite drop_app_length.
Qed.
Lemma owing_event g kc config e j r : calls_ok r →
  let r' := do_event g kc config e r in
  (flagged j (heap (client r)) = true → times j (starts g kc config e r) + owing j (calls r') = owing j (calls r))%nat ∧
  (j ∈ starts g kc config e r → flagged j (heap (client r')) = true ∧
   times j (starts g kc config e r) + owing j (calls r') = owing j (calls r))%nat.
Proof.
  intros Hr r'. destruct e as [cid did|dev port|i|now| |now creds|i cs is_]; try (split; [done|by intros ?%elem_of_nil]).
  - split; [|by intros ?%elem_of_nil]. intros Hf. unfold r'. simpl. destruct (begin_device _ _ _ _) as [j'|]; [|done]. simpl. rewrite owing_snoc.
    destruct (decide _) as [[= -> E]|_]; [congruence|simpl; lia].
  - split; [|by intros ?%elem_of_nil]. intros Hf. unfold r'. simpl. destruct (begin_interface _ _ _) as [j'|]; [|done]. simpl. rewrite owing_snoc.
    destruct (decide _) as [[= -> E]|_]; [congruence|simpl; lia].
  - rewrite starts_mark. unfold r'. simpl. destruct (calls r !! i) as [[j' b]|] eqn:Hi; [|by split; [|intros ?%elem_of_nil]]. simpl.
    rewrite (owing_delete j _ _ _ Hi). assert (times j (if b then [] else [j']) = if decide ((j', b) = (j, false)) then 1%nat else 0%nat) as Ht.
    { destruct b; [by rewrite decide_False by congruence|]. unfold times. rewrite filter_cons. destruct (decide (j = j')) as [->|Hne];
        [by rewrite decide_True|by rewrite decide_False by congruence]. }
    replace (match b with true => [] | false => [j'] end) with (if b then [] else [j']) by by destruct b. rewrite Ht. split; [done|]. intros Hj. split; [|done].
    destruct b; [by apply elem_of_nil in Hj|]. apply list_elem_of_singleton in Hj as ->.
    assert (heap (end_call (j', false) (client r)) = mark j' (heap (client r))) as -> by by destruct (client r).
    apply flagged_mark. by apply (Forall_lookup_1 _ _ _ _ Hr Hi).
Qed.

(** A device whose flag is set is loaded only for the calls that have read it before. *)
Lemma started_flagged g kc config es j r : calls_ok r → flagged j (heap (client r)) = true → (times j (started g kc config es r) ≤ owing j (calls r))%nat.
Proof.
  revert r. induction es as [|e es IH]; intros r Hr Hf; simpl; [unfold times; simpl; lia|]. rewrite times_app.
  destruct (owing_event g kc config e j r Hr) as [Ho _]. rewrite <-(Ho Hf). apply Nat.add_le_mono_l, IH; [by apply calls_ok_event|].
  eapply flagged_evolves; [apply event_steps|done].
Qed.

Lemma flagged_run_load kc cs is_ j j' h : j ≠ j' → flagged j (run_load kc cs is_ j' h) = flagged j h.
Proof.
  intros Hne. destruct j' as [k|k]; simpl; (destruct (first_answer _); [|done]); destruct j as [x|x]; simpl;
    (destruct (decide (k = x)) as [->|?]; [|by rewrite list_lookup_alter_ne]); try done; rewrite list_lookup_alter_eq; by destruct (h !! x) as [[]|].
Qed.
Lemma flagged_event g kc config e j r : (place_of j < length (heap (client r)))%nat → let r' := do_event g kc config e r in
  flagged j (heap (client r')) = true → flagged j (heap (client r)) = true ∨ j ∈ starts g kc config e r ∨ j ∈ loads (client r) ∨ (j, true) ∈ calls r.
Proof.
  intros Hj r'. unfold r'. destruct e as [cid did|dev port|i|now| |now creds|i cs is_]; simpl.
  - destruct (begin_device _ _ _ _); simpl; tauto.
  - destruct (begin_interface _ _ _); simpl; tauto.
  - change (drop _ _) with (starts g kc config (EMark i) r). rewrite starts_mark. destruct (calls r !! i) as [[j' b]|] eqn:Hi; [|tauto]. simpl.
    assert (heap (end_call (j', b) (client r)) = mark j' (heap (client r))) as -> by by destruct (client r), b.
    destruct (decide (j = j')) as [<-|Hne]; [|rewrite flagged_mark_ne by done; tauto]. intros _. destruct b; [|right; left; left].
    right; right; right. by eapply list_elem_of_lookup_2.
  - unfold UpdateTests. destruct config; [|tauto]. destruct (bool_decide _); [tauto|]. destruct (client r); simpl. destruct lastSynth0; [|tauto].
    destruct (_ <? _); tauto.
  - destruct (client r); simpl; tauto.
  - intros Hf. left. destruct (refresh_event g kc config now creds r) as (_ & _ & _ & Hk). simpl in Hk.
    apply lookup_lt_is_Some_2 in Hj as [d Hd]. pose proof (Hk _ _ Hd) as Hd'. destruct j as [l|l]; simpl in *; rewrite Hd in *; by rewrite Hd' in Hf.
  - destruct (loads (client r) !! i) as [j'|] eqn:Hi; [|tauto]. destruct (decide (j = j')) as [<-|Hne];
      [intros _; right; right; left; by eapply list_elem_of_lookup_2|].
    intros Hf. left. assert (∀ h, flagged j (run_load kc cs is_ j' h) = flagged j h) as Hrun; [|destruct (client r); simpl in *; by rewrite Hrun in Hf].
    intros h. by apply flagged_run_load.
Qed.
Lemma loads_event g kc config e j r : j ∈ loads (client (do_event g kc config e r)) → j ∈ loads (client r) ∨ j ∈ starts g kc config e r.
Proof.
  destruct e as [cid did|dev port|i|now| |now creds|i cs is_]; simpl.
  - destruct (begin_device _ _ _ _); simpl; tauto.
  - destruct (begin_interface _ _ _); simpl; tauto.
  - change (drop _ _) with (starts g kc config (EMark i) r). rewrite starts_mark. destruct (calls r !! i) as [[j' b]|]; [|tauto]. simpl.
    destruct (client r), b; simpl; [tauto|]. rewrite elem_of_app. tauto.
  - unfold UpdateTests. destruct config; [|tauto]. destruct (bool_decide _); [tauto|]. destruct (client r); simpl. destruct lastSynth0; [|tauto].
    destruct (_ <? _); tauto.
  - destruct (client r); simpl; tauto.
  - destruct (refresh_event g kc config now creds r) as (_ & _ & Hl & _). simpl in Hl. rewrite Hl. tauto.
  - destruct (loads (client r) !! i) as [j'|]; [|tauto]. destruct (client r); simpl. intros H%list_elem_of_delete_inv. by left.
Qed.
Lemma calls_event g kc config e j r : (j, true) ∈ calls (do_event g kc config e r) → (j, true) ∈ calls r ∨ flagged j (heap (client r)) = true.
Proof.
  destruct e as [cid did|dev port|i|now| |now creds|i cs is_]; simpl; try tauto.
  - destruct (begin_device _ _ _ _); simpl; [|tauto]. rewrite elem_of_app, list_elem_of_singleton. intros [H|[= -> H]]; [by left|by right].
  - destruct (begin_interface _ _ _); simpl; [|tauto]. rewrite elem_of_app, list_elem_of_singleton. intros [H|[= -> H]]; [by left|by right].
  - destruct (calls r !! i); [|tauto]. simpl. intros H%list_elem_of_delete_inv. by left.
Qed.
Lemma flagged_started g kc config es j r : (place_of j < length (heap (client r)))%nat → flagged j (heap (client (run_events g kc config es r))) = true →
  flagged j (heap (client r)) = true ∨ j ∈ started g kc config es r ∨ j ∈ loads (client r) ∨ (j, true) ∈ calls r.
Proof.
  unfold run_events. revert r. induction es as [|e es IH]; intros r Hj; simpl; [tauto|]. intros Hf. rewrite elem_of_app.
  pose proof (evolves_length _ _ (proj1 (event_steps g kc config e r))) as Hlen. destruct (IH (do_event g kc config e r)) as [H|[H|[H|H]]]; [lia|done| | | |].
  - destruct (flagged_event g kc config e j r Hj H) as [?|[?|[?|?]]]; tauto.
  - tauto.
  - destruct (loads_event g kc config e j r H); tauto.
  - destruct (calls_event g kc config e j r H); tauto.
Qed.

(** C34: Whatever the order of the steps of its calls, a run that begins without calls or loads starts a load of the columns, or of the interfaces, of a device (as one refresh has made it) no more often than calls are under way at once, so at most once when calls do not overlap; it never starts one of a device that came with them, and no device becomes flagged as loaded without such a load. *)
Theorem loads_once g kc config es s (T : nat) :
  (∀ es1 es2, es = es1 ++ es2 → (length (calls (run_events g kc config es1 (idle s))) ≤ T)%nat) → loads s = [] →
  ∀ j, (times j (started g kc config es (idle s)) ≤ T)%nat ∧
    (flagged j (heap s) = true → j ∉ started g kc config es (idle s)) ∧
    ((place_of j < length (heap s))%nat → flagged j (heap (client (run_events g kc config es (idle s)))) = true →
     flagged j (heap s) = true ∨ j ∈ started g kc config es (idle s)).
Proof.
  intros HT Hl j. assert (calls_ok (idle s)) as Hok by constructor. split_and!.
  - revert HT Hok. generalize (idle s) as r. clear Hl. induction es as [|e es IH]; intros r HT Hok; simpl; [unfold times; simpl; lia|].
    pose proof (HT [] _ eq_refl) as H0. simpl in H0.
    destruct (owing_event g kc config e j r Hok) as [_ Hs]. rewrite times_app. destruct (decide (j ∈ starts g kc config e r)) as [Hin|Hno].
    + destruct (Hs Hin) as [Hf Ht]. pose proof (started_flagged g kc config es j (do_event g kc config e r) (calls_ok_event _ _ _ _ _ Hok) Hf).
      pose proof (owing_le j (calls r)). lia.
    + assert (times j (starts g kc config e r) = 0%nat) as -> by (rewrite times_elem in Hno; lia). apply IH; [|by apply calls_ok_event].
      intros es1 es2 ->. apply (HT (e :: es1) es2). done.
  - intros Hf Hj%times_elem. pose proof (started_flagged g kc config es j (idle s) Hok Hf) as Ht. unfold owing in Ht. simpl in Ht. lia.
  - intros Hj Hf. destruct (flagged_started g kc config es j (idle s) Hj Hf) as [?|[?|[H|H]]]; [by left|by right|simpl in H; rewrite Hl in H|];
      by apply elem_of_nil in H.
Qed.

(** ** Devices of a file *)
Lemma local_device_Interfaces d : Interfaces (local_device d) = ∅.
Proof. by destruct d. Qed.
Definition local_done (s : KentikApi) : Prop := ∀ cid did l, find_device cid did s = Some l →
  ∃ d, heap s !! l = Some d ∧ Interfaces d = ∅ ∧ CompanyID d = cid ∧ ID d = did.
Lemma add_local_done order s s' : add_local order s = Ok s' → local_done s → local_done s'.
Proof.
  revert s. induction order as [|[l|] order IH]; intros s; simpl; [by intros [= <-]| |done].
  destruct s as [h dv ag ip ts ls rf lo]. simpl. destruct (h !! l) as [d|] eqn:Hl; [|done]. intros H Hs. apply (IH _ H). clear H IH.
  intros cid did k. unfold find_device. cbn -[place]. rewrite place_lookup. destruct (decide _) as [[<- <-]|Hne].
  - intros [= <-]. exists (local_device d). rewrite list_lookup_insert_eq by (by eapply lookup_lt_Some). by destruct d.
  - intros Hk. destruct (Hs cid did k Hk) as (d' & Hd' & Hi & Hc & Hid). cbn in Hd'. destruct (decide (l = k)) as [->|Hlk].
    + simplify_eq. exists (local_device d). rewrite list_lookup_insert_eq by (by eapply lookup_lt_Some). by destruct d.
    + exists d'. by rewrite list_lookup_insert_ne.
Qed.
Lemma add_local_total order s : (∀ o, o ∈ order → ∃ l d, o = Some l ∧ heap s !! l = Some d) → is_ok (add_local order s) = true.
Proof.
  revert s. induction order as [|o order IH]; intros s Hall; [done|]. destruct (Hall o) as (l & d & -> & Hl); [left|]. simpl. rewrite Hl.
  apply IH. intros o Ho. destruct (Hall o) as (k & d' & -> & Hk); [by right|]. destruct s; cbn in *.
  destruct (decide (l = k)) as [->|Hne]; [|exists k, d'; by rewrite list_lookup_insert_ne].
  exists k, (local_device d). by rewrite list_lookup_insert_eq by (by eapply lookup_lt_Some).
Qed.

(** ** Devices that are made *)
Fixpoint smap (f : ascii → ascii) (s : string) : string :=
  match s with EmptyString => EmptyString | String c s => String (f c) (smap f s) end.
Lemma smap_append f a b : smap f (String.append a b) = String.append (smap f a) (smap f b).
Proof. induction a as [|c a IH]; simpl; [done|]. by rewrite append_cons, IH. Qed.
Definition swap (x y c : ascii) : ascii := if Ascii.eqb x c then y else c.
Lemma HasPrefix_one x c s : HasPrefix (String c s) (String x EmptyString) = Ascii.eqb x c.
Proof. simpl. destruct s; by rewrite andb_true_r. Qed.
Lemma Cut_one x y s : match Cut s (String x EmptyString) with
  | None => smap (swap x y) s = s
  | Some (a, b) => smap (swap x y) s = String.append a (String y (smap (swap x y) b)) ∧ (String.length b < String.length s)%nat
  end.
Proof.
  induction s as [|c s IH]; [done|]. cbn [Cut]. rewrite HasPrefix_one. cbn [smap]. unfold swap at 1 4. destruct (Ascii.eqb_spec x c) as [<-|Hne].
  - simpl. replace (drop_string 0 s) with s by (by destruct s). split; [done|lia].
  - destruct (Cut s _) as [[a b]|]; simpl; [|by rewrite IH]. destruct IH as [-> Hb]. rewrite append_cons. split; [done|lia].
Qed.
(** Replacing every occurrence of one character by another is a map of characters. *)
Lemma ReplaceAll_one x y s : ReplaceAll s (String x EmptyString) (String y EmptyString) = smap (swap x y) s.
Proof.
  unfold ReplaceAll. assert (∀ n s, (String.length s ≤ n)%nat → Replace s (String x EmptyString) (String y EmptyString) n = smap (swap x y) s) as H; [|by apply H].
  clear. intros n. induction n as [|n IH]; intros s Hn; [by destruct s; [|simpl in Hn; lia]|]. cbn [Replace].
  pose proof (Cut_one x y s) as HC. destruct (Cut s _) as [[a b]|]; [|done]. destruct HC as [-> Hb]. rewrite IH by lia. by rewrite append_cons.
Qed.
Lemma ToLower_smap s : ToLower s = smap lower_ascii s.
Proof. induction s as [|c s IH]; simpl; by rewrite ?IH. Qed.
Lemma smap_smap f g s : smap f (smap g s) = smap (f ∘ g) s.
Proof. induction s as [|c s IH]; simpl; by rewrite ?IH. Qed.
Definition normal_char (c : ascii) : ascii := lower_ascii (swap "." "_" c).
Lemma normal_name_map n : normal_name n = smap normal_char n.
Proof. unfold normal_name. by rewrite ReplaceAll_one, ToLower_smap, smap_smap. Qed.
Fixpoint sforall (P : ascii → bool) (s : string) : bool :=
  match s with EmptyString => true | String c s => P c && sforall P s end.
Definition plain_char (c : ascii) : bool := negb (Ascii.eqb c ".") && negb ((65 <=? nat_of_ascii c)%nat && (nat_of_ascii c <=? 90)%nat).
Lemma normal_char_plain c : plain_char (normal_char c) = true ∧ normal_char (normal_char c) = normal_char c.
Proof. by destruct c as [[] [] [] [] [] [] [] []]. Qed.
Lemma normal_name_plain n : sforall plain_char (normal_name n) = true ∧ normal_name (normal_name n) = normal_name n.
Proof.
  rewrite !normal_name_map. induction n as [|c n [IH1 IH2]]; [done|]. simpl. destruct (normal_char_plain c) as [-> ->]. by rewrite IH1, IH2.
Qed.
Lemma substring_le n m s : (String.length (String.substring n m s) ≤ m)%nat.
Proof.
  revert n m. induction s as [|c s IH]; intros n m; [destruct n, m; simpl; lia|].
  destruct n, m; simpl; [lia| |apply IH|apply IH]. specialize (IH 0%nat m). lia.
Qed.
Lemma short_length d : (String.length (short d) ≤ 128)%nat.
Proof. unfold short. destruct (Nat.ltb_spec 128 (String.length d)); [|lia]. pose proof (substring_le 0 127 d). lia. Qed.
Lemma known_name_iff n s : known_name n s = true ↔ ∃ cid did d, lookup_device cid did s = Some d ∧ Name d = n.
Proof.
  unfold known_name. rewrite existsb_exists. split.
  - intros (l & Hin & Hd). apply list_elem_of_In, all_locs_elem in Hin as (cid & did & Hl). destruct (heap s !! l) as [d|] eqn:E; [|done].
    apply String.eqb_eq in Hd. exists cid, did, d. unfold lookup_device, find_device. by rewrite Hl.
  - intros (cid & did & d & Hl & <-). unfold lookup_device in Hl. destruct (find_device cid did s) as [l|] eqn:Hf; [|done]. simpl in Hl.
    exists l. rewrite Hl, String.eqb_refl. split; [|done]. apply list_elem_of_In, all_locs_elem. eauto.
Qed.

Section ensured.
Context (GOOS GOARCH Version : string) (NewRequest : string → option error) (Do : post → error + Z * gmap string string).

(** Of the devices of SNMP that the client is asked to ensure, it makes one request for each whose normalised name no known device has, if there is a plan and a credential, and none otherwise; each is made with the first credential, for a name without capitals or points that no known device has and a description of at most 128 bytes. *)
Theorem ensured_devices c s confs : NewRequest (String.append (APIBaseURL c) "/api/v5/device") = None →
  let ps := ensure_all GOOS GOARCH Version NewRequest Do (Some (Some c, s)) confs in
  (λ p, c_Name (p_Device p)) <$> ps =
    (if bool_decide (KentikCreds c = [] ∨ KentikPlan c = 0) then []
     else filter (λ n, known_name n s = false) ((λ conf, normal_name (DeviceName conf)) <$> confs)) ∧
  Forall (λ p, head (KentikCreds c) = Some (mkKentikCred (p_Email p) (p_Token p)) ∧
    sforall plain_char (c_Name (p_Device p)) = true ∧ (String.length (c_Description (p_Device p)) ≤ 128)%nat ∧
    ¬ ∃ cid did d, lookup_device cid did s = Some d ∧ Name d = c_Name (p_Device p)) ps.
Proof.
  intros Hurl ps. subst ps. unfold ensure_all. induction confs as [|conf confs [IH1 IH2]]; [split; [by destruct (bool_decide _)|constructor]|].
  rewrite bind_cons, fmap_app, IH1, Forall_app. clear IH1. revert IH2. unfold EnsureDevice at 2 3.
  destruct (KentikCreds c) as [|info creds] eqn:Hcr; intros IH2; [by rewrite !bool_decide_true by auto|].
  rewrite (bool_decide_false (info :: creds = [])) by done. destruct (Z.eqb_spec (KentikPlan c) 0) as [Hp|Hp]; [by rewrite bool_decide_true by auto|].
  rewrite bool_decide_false by naive_solver. rewrite fmap_cons. destruct (known_name (normal_name (DeviceName conf)) s) eqn:Hk.
  { rewrite filter_cons_False by congruence. done. }
  rewrite filter_cons_True by done. unfold createDevice. rewrite Hcr, Hurl. simpl. split; [done|]. split; [|done]. constructor; [|constructor]. simpl.
  split_and!; [by destruct info|apply normal_name_plain|apply short_length|]. rewrite <- known_name_iff. congruence.
Qed.
End ensured.

(** *** A client of two devices *)
Definition ex_iface (snmp dev alias : string) : option pb_Interface := Some (mkPbInterface snmp dev "1000" "" "external" "transit" "" alias).
Definition ex_pb (id company name : string) (ips : list string) (ints : list (option pb_Interface)) : option pb_Device :=
  Some (mkPbDevice id company name "router" "router" "" "10.0.0.1" ips ints "100" "none" None "" 0 [] "" "" None [] (Some (mkPbSite "7" ""))).
Definition ex_kc : Ic.ic_state := Ic.ic_init.
Definition ex_g : Settings := mkSettings API_TIMEOUT true false true "".
Definition ex_answers : cred_answers :=
  mkAnswers (Answer [mkTest "5" "t"]) (Answer [mkAgent "9" "" "192.0.2.9" "a"])
    (λ _, Answer [ex_pb "1" "1013" "core_1" ["192.0.2.1"] [ex_iface "3" "1" "eth3"]; ex_pb "x" "1013" "bad" [] []; ex_pb "2" "1013" "edge" [] []])
    (Answer [mkPbSite "7" "Prague"]).
Definition ex_api : KentikApi := (getSynthAndDeviceInfo ex_g 100 [ex_answers] empty_api).2.
Definition ex_config : Config := DefaultConfig <| KentikCreds := [mkKentikCred "a@example.com" "tok"] |> <| KentikPlan := 4 |>.

Example ex_api_loaded : (d ← lookup_device 1013 1 ex_api; Some (Name d, FullSite d, (λ ki, (ki.1, Alias ki.2)) <$> map_to_list (Interfaces d))) =
  Some ("core_1", Some (mkPbSite "7" "Prague"), [(3, "eth3")]).
Proof. vm_compute. reflexivity. Qed.
Example ex_by_ip : GetDevicesAsMap (locs_of 0 ex_api) ex_api = {["192.0.2.1" := 0%nat]}.
Proof. vm_compute. reflexivity. Qed.

(** A service of tests that is not there: no error, and no device is ever loaded. *)
Example unimplemented_tests : (λ s, devices s) <$> (match NewKentikApi ex_g 0 [mkAnswers Unimplemented Unimplemented (ListDevices ex_answers) (ListSites ex_answers)] with
  inr s => Some s | inl _ => None end) = Some ∅.
Proof. reflexivity. Qed.
(** A second credential that fails: the first one's devices are not used. *)
Example second_fails : let '(err, s) := getSynthAndDeviceInfo ex_g 0 [ex_answers; mkAnswers (Answer []) (Answer []) (λ _, Failed EOF) Unimplemented] empty_api in
  (err, devices s) = (Some EOF, ∅).
Proof. reflexivity. Qed.
(** Of two calls at once both start the load; a call after them does not. *)
Definition overlapping : list event := [EGetInterface (Some 1%nat) 3; EGetInterface (Some 1%nat) 4; EMark 1; EMark 0; EGetInterface (Some 1%nat) 3; EMark 0].
Example loads_twice : started ex_g ex_kc (Some ex_config) overlapping (idle ex_api) = [LoadInterfaces 1; LoadInterfaces 1].
Proof. vm_compute. done. Qed.
Lemma loads_once_witness : (times (LoadInterfaces 1) (started ex_g ex_kc (Some ex_config) overlapping (idle ex_api)) ≤ 2)%nat.
Proof.
  refine (proj1 (loads_once ex_g ex_kc (Some ex_config) overlapping ex_api 2 _ eq_refl (LoadInterfaces 1))).
  intros es1 es2 E. assert (es1 = take (length es1) overlapping) as -> by by rewrite E, take_app_length.
  destruct (decide (length es1 ≤ 5)%nat) as [Hl|Hl].
  - revert Hl. generalize (length es1). intros n Hn. do 6 (destruct n as [|n]; [vm_compute; lia|]). lia.
  - rewrite take_ge by (cbn; lia). vm_compute. lia.
Defined.
(** The load of the interfaces of a device fails; it is not tried again. *)
Example failed_load_final : let es := [EGetInterface (Some 1%nat) 3; EMark 0; ELoad 0 [] [Failed EOF]; EGetInterface (Some 1%nat) 3; EMark 0;
    EGetInterface (Some 1%nat) 4; EMark 0] in
  started ex_g ex_kc (Some ex_config) es (idle ex_api) = [LoadInterfaces 1] ∧
  loads (client (run_events ex_g ex_kc (Some ex_config) es (idle ex_api))) = [].
Proof. vm_compute. done. Qed.
(** A load that ends after a refresh is lost: it writes to the device of before. *)
Example late_load_lost :
  let es := [EGetDevice 1013 2; EMark 0; ETick; ERefresh 200 [ex_answers];
             ELoad 0 [Answer (Some (mkPbDevice "2" "1013" "edge" "" "" "" "" [] [] "" "" None "" 0 [Some (mkPbCustom "12" "2" "app" "" "string" "")] "app" "" None [] None))] []] in
  let s := client (run_events ex_g ex_kc (Some ex_config) es (idle ex_api)) in
  (length ∘ Customs <$> heap s !! 1%nat, length ∘ Customs <$> lookup_device 1013 2 s) = (Some 1%nat, Some 0%nat).
Proof. vm_compute. reflexivity. Qed.
(** Interfaces whose numbers cannot be read share the number zero. *)
Example collide_at_zero : (λ ki, (ki.1, Alias ki.2)) <$> map_to_list (mapInterfaces "1" [ex_iface "ge-0/0/1" "1" "a"; ex_iface "ge-0/0/2" "1" "b"]) = [(0, "b")].
Proof. vm_compute. reflexivity. Qed.

(** Devices of a file lose their interfaces. *)
Example local_lost : (d ← heap ex_api !! 0%nat; Some (size (Interfaces d))) = Some 1%nat ∧
  match NewKentikApiFromLocalDevices (heap ex_api) (Some [Some 0%nat]) with
  | Ok (Some s) => (d ← lookup_device 1013 1 s; Some (size (Interfaces d))) = Some 0%nat
  | _ => False
  end.
Proof. vm_compute. done. Qed.
(** Where every entry of the devices of a file is a device, the client is made, and no interface of any device it gives is found; an entry without a device panics. *)
Theorem local_devices g h order : match NewKentikApiFromLocalDevices h (Some order) with
  | Ok s => ∃ s', s = Some s' ∧ ∀ cid did l port, (GetDevice g cid did s').1 = Some l → (GetInterface g (Some l) port s').1 = None
  | Panic _ => ∃ o, o ∈ order ∧ (l ← o; h !! l) = None
  | _ => False
  end.
Proof.
  simpl. destruct (add_local order (empty_api <| heap := h |>)) as [s| | |] eqn:E.
  - exists s. split; [done|]. intros cid did l port Hl. assert (local_done s) as Hd by (eapply add_local_done; [done|]; intros ? ? ? Hf; discriminate Hf).
    destruct (Hd cid did l) as (d & Hh & Hi & _).
    { unfold GetDevice in Hl. destruct (find_device cid did s) as [k|]; [|done]. destruct (heap s !! k); [|done]. by destruct (lazyLoadCustoms g). }
    unfold GetInterface. rewrite Hh. simpl. by rewrite Hi.
  - revert E. generalize (empty_api <| heap := h |>). induction order as [|[l|] order IH]; intros s; simpl; [done| |done]. destruct (heap s !! l); [apply IH|done].
  - destruct (decide (Exists (λ o, (l ← o; h !! l) = None) order)) as [Hex|Hall].
    { apply Exists_exists in Hex as (o & Ho & Hn). by exists o. }
    exfalso. assert (∀ o, o ∈ order → ∃ l d, o = Some l ∧ h !! l = Some d) as Hok.
    { intros o Ho. destruct (l ← o; h !! l) as [d|] eqn:Hd; [|destruct Hall; apply Exists_exists; eauto]. destruct o as [l|]; [|done]. by exists l, d. }
    apply (f_equal is_ok) in E. rewrite add_local_total in E; [done|]. intros o Ho. cbn. auto.
  - revert E. generalize (empty_api <| heap := h |>). induction order as [|[l|] order IH]; intros s; simpl; [done| |done]. destruct (heap s !! l); [apply IH|done].
Qed.

(** Two devices of SNMP under one name of the portal; an address that is none. *)
Definition ex_Do : post → error + Z * gmap string string := λ _, inr (201, ∅).
Example same_name_twice : (λ p, (c_Name (p_Device p), c_IPs (p_Device p))) <$>
  ensure_all "linux" "amd64" "v1" (λ _, None) ex_Do (Some (Some ex_config, ex_api)) [mkSnmpDevice "Edge.2" "no address" ""; mkSnmpDevice "edge_2" "" ""; mkSnmpDevice "core.1" "" ""]
  = [("edge_2", [None]); ("edge_2", [None])].
Proof. vm_compute. reflexivity. Qed.
Lemma ensured_devices_witness : let c := ex_config in
  Forall (λ p, (String.length (c_Description (p_Device p)) ≤ 128)%nat)
    (ensure_all "linux" "amd64" "v1" (λ _, None) ex_Do (Some (Some c, ex_api)) [mkSnmpDevice "Edge.2" "192.0.2.7" ""]).
Proof.
  pose proof (ensured_devices "linux" "amd64" "v1" (λ _, None) ex_Do ex_config ex_api [mkSnmpDevice "Edge.2" "192.0.2.7" ""] eq_refl) as [_ H].
  eapply Forall_impl; [exact H|]. simpl. tauto.
Defined.
(** A description of 128 bytes is kept, one of 129 is cut to 127. *)
Example short_by_two : String.length (short (String.concat "" (replicate 128 "x"))) = 128%nat ∧ String.length (short (String.concat "" (replicate 129 "x"))) = 127%nat.
Proof. vm_compute. done. Qed.

Example address_default : getAddressFromApiRoot "https://api.kentik.com" = "api.kentik.com:443".
Proof. reflexivity. Qed.
(** A port or a path stays before the port that is added. *)
Example address_other : (getAddressFromApiRoot "http://localhost:8080", getAddressFromApiRoot "https://api.kentik.com/") = ("localhost:8080:443", "api.kentik.com/:443").
Proof. reflexivity. Qed.
(** A time with a unit is no number, and the time is zero. *)
Example bad_timeout : apiTimeout (NewSettings (λ k, if String.eqb k "KENTIK_API_TIMEOUT" then Some "30s" else None)) = 0.
Proof. reflexivity. Qed.
Example ex_values : LookupEnumerationValues true [7; 12] [λ ids, inr [("7", "seven"); ("x", "none")]; λ ids, inr [(default "" (ids !! 1%nat), "twelve")]] = (Some {[7 := "seven"; 12 := "twelve"]}, None).
Proof. vm_compute. reflexivity. Qed.
