(* ===== verification/Auth.v ===== *)
(** The service of devices for clients of the program (src/pkg/cat/auth): devices of a file and of SNMP,
    found by number, address or name, and the handlers of its HTTP interface.

    Devices are pointers into a heap that the service shares with the client of the API (Api.v). A nil
    pointer is [None]. The file, JSON bodies, the configuration of SNMP, the random number of a new device
    and the order of each range are given. *)
From S2P Require Import Prelude GoStrings GoNet.
From S2P Require Import Config.
From S2P Require Import Api.
Local Open Scope Z_scope.
Local Open Scope config_scope.

(** ** The server *)
Abbreviation pointers := (gmap string (option nat)).
Record Server := mkServer { devicesByName : pointers; devicesByIP : pointers; devicesByID : pointers }.
(** [DeviceID.Itoa], through a signed integer. *)
Definition DeviceID_Itoa (id : Z) : string := Itoa (wraps 64 id).

(** What is read of a device of SNMP; its tags are not nil. *)
Record SnmpDeviceConfig := mkSnmp { sc_Name : string; sc_Description : string; sc_IP : string; sc_SampleRate : Z; sc_Tags : gmap string string }.
Definition MissingDeviceName : string := "KT_MISSING_DEVICE".
Definition MissingDeviceIP : string := "1.1.1.255".

Definition InitUserTags (serviceName : string) (tags : gmap string string) (d : Device) : Device :=
  d <| allUserTags := if String.eqb serviceName "ktranslate" then tags else <["tags.container_service" := serviceName]> tags |>.

Definition blank_device : Device :=
  {| ID := 0; Name := ""; CompanyID := 0; DeviceType := ""; DeviceSubtype := ""; Description := ""; D_IP := None; Interfaces := ∅; SendingIps := [];
     SampleRate := 0; BgpType := ""; D_Plan := mkPlan 0 ""; CdnAttr := ""; MaxFlowRate := 0; Customs := []; CustomStr := ""; SnmpCommunity := "";
     SnmpIp := ""; SnmpV3 := None; Labels := []; Site := None; allUserTags := ∅; FullSite := None; IDStr := ""; loadedCustoms := false; loadedInts := false |}.
(** The address of a sending host is the empty one where it is nil. *)
Definition nil_or (ip : option IP) : IP := default [] ip.

(** A device of SNMP, with the rest from a device of the file. *)
Definition snmp_device (serviceName : string) (root : Device) (nextID : Z) (c : SnmpDeviceConfig) : Device :=
  let rate := wrapu 32 (sc_SampleRate c) in
  InitUserTags serviceName (sc_Tags c)
    {| ID := nextID; Name := sc_Name c; CompanyID := CompanyID root; DeviceType := DeviceType root; DeviceSubtype := DeviceSubtype root;
       Description := sc_Description c; D_IP := ParseIP (sc_IP c); Interfaces := ∅; SendingIps := [nil_or (ParseIP (sc_IP c))];
       SampleRate := if rate =? 0 then 1 else rate; BgpType := BgpType root; D_Plan := D_Plan root; CdnAttr := CdnAttr root;
       MaxFlowRate := MaxFlowRate root; Customs := Customs root; CustomStr := CustomStr root; SnmpCommunity := ""; SnmpIp := ""; SnmpV3 := None;
       Labels := []; Site := None; allUserTags := ∅; FullSite := None; IDStr := ""; loadedCustoms := false; loadedInts := false |}.
Definition missing_device (serviceName : string) (nextID : Z) : Device :=
  InitUserTags serviceName ∅
    (blank_device <| ID := nextID |> <| Name := MissingDeviceName |> <| SendingIps := [nil_or (ParseIP MissingDeviceIP)] |>).

(** The range over the devices of SNMP; then the device for flows of unknown ones. *)
Fixpoint add_snmp (serviceName : string) (root : Device) (nextID : Z) (confs : list SnmpDeviceConfig) (st : list Device * pointers) : list Device * pointers :=
  let '(h, ids) := st in
  match confs with
  | [] =>
      let nd := missing_device serviceName nextID in (h ++ [nd], <[DeviceID_Itoa (ID nd) := Some (length h)]> ids)
  | c :: confs =>
      let nd := snmp_device serviceName root nextID c in
      add_snmp serviceName root (wrapu 64 (nextID + 100)) confs (h ++ [nd], <[DeviceID_Itoa (ID nd) := Some (length h)]> ids)
  end.

(** [for _, d := range order]: a nil pointer panics. *)
Fixpoint res_flat {A} (f : Device → nat → list A) (h : list Device) (order : list (option nat)) : res (list A) :=
  match order with
  | [] => Ok []
  | p :: order =>
      match l ← p; h !! l with
      | None => Panic "nil pointer dereference"
      | Some d => rest ← res_flat f h order; Ok (f d (default 0%nat p) ++ rest)
      end
  end.
Definition ip_keys (d : Device) (l : nat) : list (string * option nat) := (λ ip, (IP_String ip, Some l)) <$> SendingIps d.
Definition name_key (d : Device) (l : nat) : list (string * option nat) := [(Name d, Some l)].

(** [loadDevices]: the pointers of the file, which are put on the heap. *)
Record AuthConfig := mkAuth { DevicesFile : string }.
Definition load_entry (st : list Device * pointers) (kd : string * option Device) : list Device * pointers :=
  match kd.2 with
  | None => (st.1, <[kd.1 := None]> st.2)
  | Some d => (st.1 ++ [d], <[kd.1 := Some (length st.1)]> st.2)
  end.
Definition loadDevices (read : string → error + list (string * option Device)) (conf : option AuthConfig) (h : list Device) :
    error + list Device * pointers :=
  match conf with
  | None => inr (h, ∅)
  | Some c => if String.eqb (DevicesFile c) "" then inr (h, ∅)
              else match read (DevicesFile c) with inl err => inl err | inr ds => inr (foldl load_entry (h, ∅) ds) end
  end.

Section NewServer.
Context (read : string → error + list (string * option Device)) (ParseConfig : string → error + list SnmpDeviceConfig).
(** The orders in which the pointers are met. *)
Context (order1 order2 order3 : pointers → list (option nat)).

(** The devices and the numbers they are found by. *)
Definition all_devices_of (snmpFile serviceName : string) (h : list Device) (ids : pointers) : error + list Device * pointers :=
  if String.eqb snmpFile "" then inr (h, ids)
  else match ParseConfig snmpFile with
       | inl err => inl err
       | inr confs =>
           match (p ← head (order1 ids); l ← p; h !! l) with
           | None => inr (h, ids)
           | Some root => inr (add_snmp serviceName root (wrapu 64 (ID root + 100)) confs (h, ids))
           end
       end.
Definition NewServer (auth : option AuthConfig) (snmpFile serviceName : string) (h : list Device) : res (list Device * Server) :=
  match loadDevices read auth h with
  | inl err => Err err
  | inr (h, ids) =>
      match all_devices_of snmpFile serviceName h ids with
      | inl err => Err err
      | inr (h, ids) =>
          ips ← res_flat ip_keys h (order2 ids);
          names ← res_flat name_key h (order3 ids);
          Ok (h, mkServer (insert_all names ∅) (insert_all ips ∅) ids)
      end
  end.
End NewServer.

(** [AddDevices], of pointers in the order of the range. *)
Definition id_key (d : Device) (l : nat) : list (string * option nat) := [(DeviceID_Itoa (ID d), Some l)].
Definition AddDevices (h : list Device) (order : list (option nat)) (s : Server) : res Server :=
  ids ← res_flat id_key h order; names ← res_flat name_key h order; ips ← res_flat ip_keys h order;
  Ok (mkServer (insert_all names (devicesByName s)) (insert_all ips (devicesByIP s)) (insert_all ids (devicesByID s))).
Definition GetDeviceMap (s : option Server) : option pointers := devicesByIP <$> s.

(** The number, else the address, else the name; a query that is an address is no name. *)
Definition getDevice (query : string) (s : Server) : option nat :=
  match devicesByID s !! query with
  | Some device => device
  | None =>
      match ParseIP query with
      | Some ipr => mjoin (devicesByIP s !! IP_String ipr)
      | None => mjoin (devicesByName s !! query)
      end
  end.

(** ** Handlers *)
(** A status with a body, a status of an error, or a panic that goes on to the server. *)
Inductive reply (B : Type) := Reply (code : Z) (body : B) | ErrorReply (code : Z) | Crashed.
Arguments Reply {B} code body.
Arguments ErrorReply {B} code.
Arguments Crashed {B}.
(** The panics of [f] with a status; a form that cannot be read is refused before. *)
Definition wrap {B} (form_ok : bool) (f : reply B) : reply B := if form_ok then f else ErrorReply 400.

Definition device (h : list Device) (did : string) (s : Server) : reply Device :=
  match getDevice did s with None => ErrorReply 404 | Some l => match h !! l with None => ErrorReply 404 | Some d => Reply 200 d end end.
(** A nil pointer is sent as null. *)
Definition list_devices (h : list Device) (order : list (option nat)) : reply (list (option Device)) := Reply 200 ((λ p, l ← p; h !! l) <$> order).

Record DeviceCreate := mkDeviceCreate {
  dc_Name : string; dc_Type : string; dc_Description : string; dc_SampleRate : Z; dc_BgpType : string; dc_PlanID : Z;
  dc_IPs : list IP; dc_CdnAttr : string }.
(** [body]: an error, or what stands for the key device: nothing leaves an empty one, null is a nil pointer. *)
Definition create (body : error + option (option DeviceCreate)) (od : option nat) (id : Z) (h : list Device) (s : Server) :
    reply Device * list Device * Server :=
  match body with
  | inl _ => (ErrorReply 500, h, s)
  | inr (Some None) => (Crashed, h, s)
  | inr None => (Crashed, h, s)
  | inr (Some (Some c)) =>
      match dc_IPs c with
      | [] => (Crashed, h, s)
      | ip :: _ =>
          let nd := blank_device <| ID := id |> <| Name := dc_Name c |> <| DeviceType := dc_Type c |> <| Description := dc_Description c |>
            <| D_IP := match ip with [] => None | _ => Some ip end |> <| SampleRate := dc_SampleRate c |> <| BgpType := dc_BgpType c |>
            <| D_Plan := mkPlan (wrapu 64 (dc_PlanID c)) "" |> <| CdnAttr := dc_CdnAttr c |> in
          let nd := match (l ← od; h !! l) with
                    | None => nd
                    | Some o => nd <| MaxFlowRate := MaxFlowRate o |> <| CompanyID := CompanyID o |> <| Customs := Customs o |>
                    end in
          (Reply 201 nd, h ++ [nd], mkServer (<[IP_String ip := Some (length h)]> (devicesByName s)) (devicesByIP s) (devicesByID s))
      end
  end.
Definition interfaces : reply (list Interface) := Reply 200 [].
(** The paths: the part between slashes that names a device or a company. *)
Definition routes : list (string * string) :=
  [("/api/device/{did}", "device"); ("/api/device/", "create"); ("/api/device/{did}/interfaces", "interfaces");
   ("/api/company/{cid}/device/{did}/tags/snmp", "update"); ("/api/devices", "devices");
   ("/api/internal/device/{did}", "device"); ("/api/internal/devices", "devices")].

(** ** Laws *)
Lemma res_flat_spec {A} (f : Device → nat → list A) h order xs : res_flat f h order = Ok xs →
  (∀ x, x ∈ xs ↔ ∃ l d, Some l ∈ order ∧ h !! l = Some d ∧ x ∈ f d l) ∧ (∀ p, p ∈ order → ∃ l d, p = Some l ∧ h !! l = Some d).
Proof.
  revert xs. induction order as [|p order IH]; intros xs; simpl; [intros [= <-]; split; [set_solver|set_solver]|].
  destruct p as [l|]; simpl; [|done]. destruct (h !! l) as [d|] eqn:Hl; [|done].
  destruct (res_flat f h order) as [rest| | |] eqn:E; try done. intros [= <-]. destruct (IH _ eq_refl) as [Hx Hp]. split.
  - intros x. rewrite elem_of_app, Hx. split.
    + intros [H|(l' & d' & Ho & Hd)]; [exists l, d; split; [by left|done]|exists l', d'; split; [by right|done]].
    + intros (l' & d' & Ho & Hd & H). inversion Ho; subst; [left; congruence|right; eauto].
  - intros p [->|Hin]%elem_of_cons; eauto.
Qed.
Lemma insert_all_has {V} (xs : list (string * V)) (m : gmap string V) k v : (k, v) ∈ xs → ∃ v', insert_all xs m !! k = Some v' ∧ (k, v') ∈ xs.
Proof.
  intros Hin. rewrite insert_all_lookup. destruct (last _) as [[k' v']|] eqn:Hl.
  - apply last_Some_elem_of, list_elem_of_filter in Hl as [<- Hl]. by exists v'.
  - apply last_None in Hl. assert ((k, v) ∈ filter (λ kv : string * V, kv.1 = k) xs) as H by by apply list_elem_of_filter. rewrite Hl in H. set_solver.
Qed.

Lemma join_Some {A} (o : option (option A)) x : mjoin o = Some x → o = Some (Some x).
Proof. by destruct o as [[]|]; simpl; [intros [= ->]|..]. Qed.

(** What a device is asked for by, when no number is. *)
Definition goes_by (q : string) (d : Device) : Prop :=
  match ParseIP q with Some ip => IP_String ip ∈ IP_String <$> SendingIps d | None => Name d = q end.

(** C35: In a service that starts, a query that is a number under which a device is kept finds that device. Any other query finds something exactly when it is an address from which some device that is kept sends, or no address and the name of one, and what it finds is such a device. A device whose number another takes over is not kept. *)
Theorem NewServer_lookup read ParseConfig o1 o2 o3 auth snmpFile serviceName h h' s :
  (∀ ids, o2 ids ≡ₚ (map_to_list ids).*2) → (∀ ids, o3 ids ≡ₚ (map_to_list ids).*2) →
  NewServer read ParseConfig o1 o2 o3 auth snmpFile serviceName h = Ok (h', s) →
  let kept l d := ∃ k, devicesByID s !! k = Some (Some l) ∧ h' !! l = Some d in
  ∀ q, match devicesByID s !! q with
  | Some p => getDevice q s = p ∧ ∃ l d, p = Some l ∧ h' !! l = Some d
  | None => (∀ l, getDevice q s = Some l → ∃ d, kept l d ∧ goes_by q d) ∧ ((∃ l d, kept l d ∧ goes_by q d) → is_Some (getDevice q s))
  end.
Proof.
  intros H2 H3. unfold NewServer. destruct (loadDevices read auth h) as [err|[h0 ids0]]; [done|].
  destruct (all_devices_of _ _ _ _ _ _) as [err|[h1 ids]]; [done|]. destruct (res_flat ip_keys h1 (o2 ids)) as [ips| | |] eqn:Ei; try done. simpl.
  destruct (res_flat name_key h1 (o3 ids)) as [names| | |] eqn:En; try done. intros [= <- <-]. simpl.
  destruct (res_flat_spec _ _ _ _ Ei) as [Hi Hall]. destruct (res_flat_spec _ _ _ _ En) as [Hn _].
  assert (∀ o p, o ≡ₚ (map_to_list ids).*2 → p ∈ o ↔ ∃ k, ids !! k = Some p) as Hids.
  { intros o p ->. rewrite list_elem_of_fmap. split; [intros ([k p'] & -> & Hk%elem_of_map_to_list); by exists k|].
    intros [k Hk]. exists (k, p). split; [done|]. by apply elem_of_map_to_list. }
  assert (∀ kv, kv ∈ ips ↔ ∃ l d, (∃ k, ids !! k = Some (Some l)) ∧ h1 !! l = Some d ∧ kv ∈ ip_keys d l) as Hips
    by (intros; rewrite Hi; by setoid_rewrite (Hids _ _ (H2 ids))).
  assert (∀ kv, kv ∈ names ↔ ∃ l d, (∃ k, ids !! k = Some (Some l)) ∧ h1 !! l = Some d ∧ kv ∈ name_key d l) as Hnames
    by (intros; rewrite Hn; by setoid_rewrite (Hids _ _ (H3 ids))).
  intros q. unfold getDevice, goes_by. simpl. destruct (ids !! q) as [p|] eqn:Hq.
  { split; [done|]. destruct (Hall p) as (l & d & -> & Hd); [apply (Hids _ _ (H2 ids)); eauto|]. eauto. }
  destruct (ParseIP q) as [ipq|]; split.
  - intros l Hv%join_Some. apply insert_all_elem in Hv as [Hv|Hv]; [|done]. apply Hips in Hv as (l' & d & [k Hk] & Hd & Hin).
    apply list_elem_of_fmap in Hin as (ip & [= -> ->] & Hip). exists d. split; [by exists k|]. by apply list_elem_of_fmap_2.
  - intros (l & d & (k & Hk & Hd) & (ip & E & Hip)%list_elem_of_fmap). rewrite E.
    destruct (insert_all_has ips ∅ (IP_String ip) (Some l)) as (v & -> & Hin).
    { apply Hips. exists l, d. split_and!; [eauto|done|]. apply list_elem_of_fmap. eauto. }
    apply Hips in Hin as (l' & d' & _ & _ & Hin). apply list_elem_of_fmap in Hin as (? & [= _ ->] & _). by eexists.
  - intros l Hv%join_Some. apply insert_all_elem in Hv as [Hv|Hv]; [|done]. apply Hnames in Hv as (l' & d & [k Hk] & Hd & Hin).
    apply list_elem_of_singleton in Hin as [= -> ->]. exists d. split; [by exists k|done].
  - intros (l & d & (k & Hk & Hd) & <-). destruct (insert_all_has names ∅ (Name d) (Some l)) as (v & -> & Hin).
    { apply Hnames. exists l, d. split_and!; [eauto|done|]. by apply list_elem_of_singleton. }
    apply Hnames in Hin as (l' & d' & _ & _ & [= _ ->]%list_elem_of_singleton). by eexists.
Qed.

(** *** Addresses as they are written *)
Definition octet_ok (n : Z) : bool :=
  match Itoa n with
  | String a EmptyString => bool_decide (digit_value a = Some n)
  | String a (String b EmptyString) =>
      match digit_value a, digit_value b with Some x, Some y => negb (x =? 0) && (x * 10 + y =? n) | _, _ => false end
  | String a (String b (String c EmptyString)) =>
      match digit_value a, digit_value b, digit_value c with
      | Some x, Some y, Some z => negb (x =? 0) && (0 <=? y) && (0 <=? z) && (0 <=? x) && ((x * 10 + y) * 10 + z =? n) | _, _, _ => false end
  | _ => false
  end.
Lemma octets_checked : forallb (λ n, octet_ok (Z.of_nat n)) (seq 0 256) = true.
Proof. vm_compute. reflexivity. Qed.
Lemma octet_loop b prev fields s : ∃ c d, Some c ≠ Some "."%char ∧
  parseIPv4_loop (String.append (Itoa (b2z b)) s) prev fields 0 0 = parseIPv4_loop s (Some c) fields (b2z b) d.
Proof.
  pose proof octets_checked as Hc. rewrite forallb_forall in Hc. pose proof (b2z_range b) as Hb.
  specialize (Hc (Z.to_nat (b2z b)) ltac:(apply in_seq; lia)). rewrite Z2Nat.id in Hc by lia. unfold octet_ok in Hc.
  assert (∀ a n, digit_value a = Some n → Some a ≠ Some "."%char ∧ 0 ≤ n) as Hdot.
  { intros a n Ha. split; [by intros [= ->]|]. unfold digit_value in Ha. destruct (_ && _)%nat eqn:E in Ha; [|done].
    apply andb_prop in E as [E _]. apply Nat.leb_le in E. injection Ha as <-. lia. }
  destruct (Itoa (b2z b)) as [|a [|b1 [|c [|? ?]]]]; try done; rewrite ?append_cons; cbn [parseIPv4_loop];
    change (String.append EmptyString s) with s; change (0 * 10) with 0; rewrite ?Z.add_0_l.
  - apply bool_decide_eq_true in Hc. exists a, 1. split; [by eapply Hdot|]. rewrite Hc. simpl. rewrite Z.add_0_l. by destruct (Z.ltb_spec 255 (b2z b)); [lia|].
  - destruct (digit_value a) as [x|] eqn:Ha, (digit_value b1) as [y|] eqn:Hy; try done. apply andb_prop in Hc as [Hx Hc]. apply Z.eqb_eq in Hc.
    apply negb_true_iff in Hx. exists b1, 2. destruct (Hdot _ _ Ha), (Hdot _ _ Hy). split; [done|]. simpl. rewrite Z.add_0_l, Hx.
    destruct (Z.ltb_spec 255 x); [lia|]. rewrite Hc. by destruct (Z.ltb_spec 255 (b2z b)); [lia|].
  - destruct (digit_value a) as [x|] eqn:Ha, (digit_value b1) as [y|] eqn:Hy, (digit_value c) as [z|] eqn:Hz; try done. repeat (apply andb_prop in Hc as [Hc ?H]).
    apply negb_true_iff in Hc. exists c, 3. destruct (Hdot _ _ Ha), (Hdot _ _ Hy), (Hdot _ _ Hz). split; [done|].
    simpl. rewrite Z.add_0_l, Hc. apply Z.eqb_eq in H. destruct (Z.ltb_spec 255 x); [lia|].
    destruct (Z.ltb_spec 255 (x * 10 + y)); [lia|]. rewrite H. by destruct (Z.ltb_spec 255 (b2z b)); [lia|].
Qed.
Lemma octet_digits b : ∃ s, Itoa (b2z b) = s ∧ s ≠ EmptyString ∧ sforall (λ c, bool_decide (is_Some (digit_value c))) s = true.
Proof.
  pose proof (b2z_range b) as Hb. assert (forallb (λ n, negb (String.eqb (Itoa (Z.of_nat n)) "") && sforall (λ c, bool_decide (is_Some (digit_value c))) (Itoa (Z.of_nat n))) (seq 0 256) = true)
    as Hc by (vm_compute; reflexivity).
  rewrite forallb_forall in Hc. specialize (Hc (Z.to_nat (b2z b)) ltac:(apply in_seq; lia)). rewrite Z2Nat.id in Hc by lia.
  apply andb_prop in Hc as [H1 H2]. eexists. split_and!; [done| |done]. intros H. by rewrite H in H1.
Qed.
Lemma digits_kind s t : sforall (λ c, bool_decide (is_Some (digit_value c))) s = true → addr_kind (String.append s t) = addr_kind t.
Proof.
  induction s as [|c s IH]; [done|]. cbn [sforall]. rewrite append_cons. intros [Hc Hs]%andb_prop. simpl. rewrite IH by done.
  apply bool_decide_eq_true in Hc as [n Hc]. rewrite !(proj2 (Ascii.eqb_neq c _)) by (intros ->; done). done.
Qed.
Lemma dot_step c fields v n s : Some c ≠ Some "."%char → s ≠ EmptyString → (length fields < 3)%nat →
  parseIPv4_loop (String "." s) (Some c) fields v n = parseIPv4_loop s (Some "."%char) (fields ++ [v]) 0 0.
Proof.
  intros Hc Hs Hl. simpl. rewrite (proj2 (Ascii.eqb_neq c _)) by congruence. rewrite (proj2 (String.eqb_neq s _)) by done. simpl.
  destruct (Nat.eqb_spec (length fields) 3); [lia|done].
Qed.
(** The text of an address of IPv4 is read as that address. *)
Lemma ParseIP_dotted a b c d : ParseIP (dotted [a; b; c; d]) = Some (v4InV6Prefix ++ [a; b; c; d]).
Proof.
  unfold ParseIP. destruct (octet_digits a) as (sa & Ha & _ & Da). cbn [dotted]. rewrite Ha, digits_kind by done. simpl. rewrite <- Ha. unfold parseIPv4.
  destruct (octet_digits b) as (sb & Hb & Nb & _), (octet_digits c) as (sc & Hc & Nc & _), (octet_digits d) as (sd & Hd & Nd & _).
  assert (∀ s t, s ≠ EmptyString → String.append s t ≠ EmptyString) as Happ by by intros [].
  destruct (octet_loop a None [] (String "." (String.append (Itoa (b2z b)) (String "." (String.append (Itoa (b2z c)) (String "." (Itoa (b2z d)))))))) as (ca & na & Hca & ->).
  rewrite dot_step by (simpl; (done || lia || (apply Happ; by rewrite Hb))).
  destruct (octet_loop b (Some "."%char) ([] ++ [b2z a]) (String "." (String.append (Itoa (b2z c)) (String "." (Itoa (b2z d)))))) as (cb & nb & Hcb & ->).
  rewrite dot_step by (simpl; (done || lia || (apply Happ; by rewrite Hc))).
  destruct (octet_loop c (Some "."%char) (([] ++ [b2z a]) ++ [b2z b]) (String "." (Itoa (b2z d)))) as (cc & nc & Hcc & ->).
  rewrite dot_step by (simpl; (done || lia || by rewrite Hd)).
  destruct (octet_loop d (Some "."%char) ((([] ++ [b2z a]) ++ [b2z b]) ++ [b2z c]) "") as (cd & nd & _ & Hl).
  assert (∀ s, String.append s "" = s) as Hnil by (induction s as [|x s IH]; simpl; [done|]; by rewrite append_cons, IH).
  rewrite Hnil in Hl. rewrite Hl. simpl. by rewrite !z2b_b2z.
Qed.

(** An address of IPv4, in four or sixteen bytes, is written with dots. *)
Lemma IP_String_v4 ip v4 : To4 ip = Some v4 → ∃ a b c d, IP_String ip = dotted [a; b; c; d].
Proof.
  intros H4. assert (length v4 = 4%nat ∧ ((length ip =? 4) || (length ip =? 16))%nat = true) as [Hl Hi].
  { unfold To4 in H4. destruct (Nat.eqb_spec (length ip) 4) as [E|_]; [by injection H4 as <-|].
    destruct (Nat.eqb_spec (length ip) 16) as [E|_]; simpl in H4; [|done]. destruct (bool_decide _); [|done]. injection H4 as <-. rewrite length_drop, E. done. }
  destruct v4 as [|a [|b [|c [|d [|? ?]]]]]; try done. exists a, b, c, d. unfold IP_String. rewrite Hi, H4. simpl.
  destruct (Nat.eqb_spec (length ip) 0) as [E|_]; [by rewrite E in Hi|done].
Qed.

(** C36: A device that is created is answered with 201 and kept, but a question for any number, address or name finds what it found before; only a device whose first address is not written as an address can be asked for by that text, as one with an empty address is by <nil>. An address of IPv4, in four bytes or in the sixteen that JSON is read into, is written as an address. *)
Theorem created_not_found body od id h s : let '(r, h', s') := create body od id h s in
  match r with
  | Reply code d => code = 201 ∧ h' = h ++ [d] ∧ ID d = id ∧ ∃ c ip ips, body = inr (Some (Some c)) ∧ dc_IPs c = ip :: ips ∧ Name d = dc_Name c ∧
      (∀ q, getDevice q s' ≠ getDevice q s → q = IP_String ip ∧ ParseIP q = None ∧ getDevice q s' = Some (length h)) ∧
      (is_Some (To4 ip) → ∀ q, getDevice q s' = getDevice q s) ∧
      (ip = [] → devicesByID s !! "<nil>" = None → getDevice "<nil>" s' = Some (length h))
  | _ => h' = h ∧ s' = s
  end.
Proof.
  unfold create. destruct body as [err|[[c|]|]]; [done| |done|done]. destruct (dc_IPs c) as [|ip ips] eqn:Hips; [done|]. split; [done|]. split; [done|].
  assert (∀ q, (q = IP_String ip → is_Some (ParseIP q)) →
    getDevice q (mkServer (<[IP_String ip := Some (length h)]> (devicesByName s)) (devicesByIP s) (devicesByID s)) = getDevice q s) as Hsame.
  { intros q Hq. unfold getDevice. simpl. destruct (devicesByID s !! q); [done|]. destruct (ParseIP q) as [|] eqn:E; [done|].
    rewrite lookup_insert_ne; [done|]. intros <-. destruct Hq as [? [=]]; done. }
  split; [by destruct (od ≫= _)|]. exists c, ip, ips. split_and!; [done..|by destruct (od ≫= _)| | |].
  - intros q Hne. destruct (decide (q = IP_String ip)) as [->|Hq]; [|by destruct Hne; apply Hsame].
    destruct (ParseIP (IP_String ip)) as [x|] eqn:E; [destruct Hne; apply Hsame; by rewrite E|]. split_and!; [done..|].
    revert Hne. unfold getDevice. simpl. destruct (devicesByID s !! _); [done|]. rewrite E, lookup_insert_eq. done.
  - intros [v4 H4] q. apply Hsame. intros ->. destruct (IP_String_v4 ip v4 H4) as (a & b & c' & d & ->). rewrite ParseIP_dotted. eauto.
  - intros -> Hn. unfold getDevice. simpl. rewrite Hn. change (ParseIP "<nil>") with (@None IP). change (IP_String []) with "<nil>". by rewrite lookup_insert_eq.
Qed.

(** *** A file with two devices and one of SNMP *)
Definition ex_dev (id : Z) (name ip : string) : Device := blank_device <| ID := id |> <| Name := name |> <| CompanyID := 1013 |> <| SendingIps := [nil_or (ParseIP ip)] |>
  <| Interfaces := {[3 := mkInterface id "" "" "" "" "" 3 "eth3" 1000]} |>.
Definition in_order (ids : pointers) : list (option nat) := (map_to_list ids).*2.
Definition ex_file : string → error + list (string * option Device) :=
  λ _, inr [("1", Some (ex_dev 1 "core" "192.0.2.1")); ("101", Some (ex_dev 101 "edge" "192.0.2.2"))].
Definition ex_snmp (c : string) : error + list SnmpDeviceConfig := inr [mkSnmp "switch" "" "192.0.2.3" 0 ∅].
Definition ex_empty : Server := mkServer ∅ ∅ ∅.
Definition ex_server (snmp : string) : list Device * Server :=
  match NewServer ex_file ex_snmp (λ _, [Some 0%nat]) in_order in_order (Some (mkAuth "devices.json")) snmp "ktranslate" [] with Ok x => x | _ => ([], ex_empty) end.
Definition found (q : string) (hs : list Device * Server) : option string := l ← getDevice q hs.2; d ← hs.1 !! l; Some (Name d).

Example ex_found : (λ q, found q (ex_server "")) <$> ["1"; "192.0.2.2"; "edge"; "7"] = [Some "core"; Some "edge"; Some "edge"; None].
Proof. vm_compute. reflexivity. Qed.
(** The first device of SNMP gets the number of a device of the file, which is then not found at all. *)
Example snmp_takes_number : (λ q, found q (ex_server "snmp.yaml")) <$> ["101"; "192.0.2.2"; "edge"; "switch"; "192.0.2.3"; "201"; "1.1.1.255"]
  = [Some "switch"; None; None; Some "switch"; Some "switch"; Some "KT_MISSING_DEVICE"; Some "KT_MISSING_DEVICE"].
Proof. vm_compute. reflexivity. Qed.
Lemma NewServer_lookup_witness : (∃ d, goes_by "192.0.2.2" d ∧ (ex_server "").1 !! 1%nat = Some d) ∧ is_Some (getDevice "edge" (ex_server "").2).
Proof.
  pose proof (NewServer_lookup ex_file ex_snmp (λ _, [Some 0%nat]) in_order in_order (Some (mkAuth "devices.json")) "" "ktranslate" [] (ex_server "").1 (ex_server "").2
    (λ ids, reflexivity _) (λ ids, reflexivity _) ltac:(vm_compute; reflexivity)) as H. cbv zeta in H.
  assert (∀ q, q = "192.0.2.2" ∨ q = "edge" → devicesByID (ex_server "").2 !! q = None) as Hq by (intros q [->| ->]; vm_compute; reflexivity).
  split.
  - specialize (H "192.0.2.2"). rewrite (Hq _ (or_introl eq_refl)) in H. destruct H as [H _].
    destruct (H 1%nat) as (d & (k & _ & Hd) & Hg); [vm_compute; reflexivity|]. exists d. split; [exact Hg|exact Hd].
  - specialize (H "edge"). rewrite (Hq _ (or_intror eq_refl)) in H. destruct H as [_ H]. apply H. exists 1%nat, (ex_dev 101 "edge" "192.0.2.2").
    split; [exists "101"; split; vm_compute; reflexivity|vm_compute; reflexivity].
Defined.
(** A file with null for a device ends the start with a panic. *)
Example null_device : is_ok (NewServer (λ _, inr [("1", None)]) ex_snmp (λ _, []) in_order in_order (Some (mkAuth "f")) "" "" []) = false.
Proof. reflexivity. Qed.

(** A device that is created: neither its number nor its address nor its name finds it. *)
Definition ex_body : error + option (option DeviceCreate) :=
  inr (Some (Some (mkDeviceCreate "new" "router" "" 1 "none" 4 (omap ParseIP ["192.0.2.9"]) ""))).
Example created_lost : let '(r, h, s) := create ex_body (Some 0%nat) 500 (ex_server "").1 (ex_server "").2 in
  (match r with Reply c d => Some (c, CompanyID d) | _ => None end, (λ q, found q (h, s)) <$> ["500"; "192.0.2.9"; "new"]) = (Some (201, 1013), [None; None; None]).
Proof. vm_compute. reflexivity. Qed.
(** Without the key, with null for it, or without an address the handler panics. *)
Example create_crashes : Forall (λ b, (create b None 1 [] ex_empty).1.1 = Crashed)
  [inr None; inr (Some None); inr (Some (Some (mkDeviceCreate "new" "" "" 1 "" 0 [] "")))].
Proof. repeat constructor. Qed.

(** The client of the API takes the same devices, and empties the interfaces of those of the service. *)
Example shared_interfaces : let '(h, s) := ex_server "" in
  (d ← h !! 0%nat; Some (size (Interfaces d))) = Some 1%nat ∧
  match NewKentikApiFromLocalDevices h (in_order <$> GetDeviceMap (Some s)) with
  | Ok (Some a) => match device (heap a) "1" s with Reply _ d => size (Interfaces d) = 0%nat | _ => False end
  | _ => False
  end.
Proof. vm_compute. done. Qed.
