(* ===== verification/Series.v ===== *)
(** Three formats that hand numbers to other stores: Datadog (src/pkg/formats/ddog), remote writes of
    Prometheus (src/pkg/formats/prom/remote.go) and Redis (src/pkg/formats/redis).

    The encoders of payloads, compression and the connection are parameters; orders of ranges are those of
    an oracle that sees how many messages came before. *)
From Stdlib Require Import Floats.SpecFloat.
From S2P Require Import Prelude GoStrings GoNet.
From S2P Require Import GoMap.
From S2P Require Import Jchf.
From S2P Require Import FlowToJCHF.
From S2P Require Import FormatsUtil.
From S2P Require Prom.
From S2P Require Influx.
From S2P Require Records.
Local Open Scope Z_scope.

Class SeriesEnv := {
  order_of : ∀ {A}, nat → gmap string A → list (string * A);
  row_order : nat → JCHF → list string;
  strs_order : nat → JCHF → list (string * string);
  ints_order : nat → JCHF → list (string * Z);
  match_visit : nat → LastMetadata → list (string * Regexp);
  FromFloatSeconds : Z → Z }.
Class SeriesEnvLaws `{SeriesEnv} := {
  order_of_perm {A} n (m : gmap string A) : order_of n m ≡ₚ map_to_list m }.

(** What the three formats keep: metadata of devices, and the types they complained about. *)
Record Format := mkFormat { invalids : gset string; lastMetadata : gmap string LastMetadata; clock : nat }.
Definition NewFormat : Format := mkFormat ∅ ∅ 0.
Definition tick (f : Format) : Format := mkFormat (invalids f) (lastMetadata f) (S (clock f)).
Definition meta (f : Format) (jin : JCHF) : option LastMetadata := lastMetadata f !! DeviceName jin.
Definition invalid (e : string) (f : Format) : Format := mkFormat ({[e]} ∪ invalids f) (lastMetadata f) (clock f).

Section formats.
Context `{SeriesEnv} `{RegexpEngine}.

Definition attrs (f : Format) (jin : JCHF) (metrics : gomap MetricInfo) (strip : bool) : res (JCHF * gmap string value) :=
  SetAttr (row_order (clock f) jin) ∅ jin metrics (meta f jin) strip.
(** The attributes of a metric, unless it is dropped. *)
Definition metric_attrs (f : Format) (gentle dropSrc isIf : bool) (jin : JCHF) (attr : gmap string value) (m : string) (name : MetricInfo) : option (gmap string value) :=
  let attrNew := CopyAttrForSnmp (order_of (clock f) attr) m name (meta f jin) gentle dropSrc in
  if DropOnFilter attrNew (meta f jin) isIf (match meta f jin with Some lm => match_visit (clock f) lm | None => [] end) then None
  else Some attrNew.
Definition metadata_of (f : Format) (jin : JCHF) : LastMetadata := SetMetadata jin (strs_order (clock f) jin) (ints_order (clock f) jin).
Definition set_lastMetadata (d : string) (lm : LastMetadata) (f : Format) : Format := mkFormat (invalids f) (<[d := lm]> (lastMetadata f)) (clock f).
(** Metadata with fewer names than what is known is not kept. *)
Definition keep_larger (jin : JCHF) (f : Format) : Format :=
  if String.eqb (DeviceName jin) "" then f
  else match meta f jin with
       | Some old => if (Size (Some old) <=? Size (Some (metadata_of f jin)))%nat then set_lastMetadata (DeviceName jin) (metadata_of f jin) f else f
       | None => set_lastMetadata (DeviceName jin) (metadata_of f jin) f
       end.
(** The number of a metric, in seconds where it is in milliseconds. *)
Definition metric_number (name : MetricInfo) (v : Z) : spec_float :=
  if String.eqb (Jchf.Format name) Influx.FloatMS then Prom.float_div (Prom.float_of v) (Prom.float_of 1000) else Prom.float_of v.

(** ** Datadog (ddog.go) *)
Record Series := mkSeries { s_Metric : string; s_Timestamp : Z; s_Value : spec_float; s_Tags : list string }.
Definition dd_tag (kv : string * value) : option string :=
  match kv.2 with
  | VString s => Some (Join [kv.1; s] ":")
  | VInt64 z | VInt32 z => Some (Join [kv.1; Itoa z] ":")
  | _ => None
  end.
Definition getDDMetricTags (n : nat) (attrNew : gmap string value) : list string := omap dd_tag (order_of n attrNew).
Definition dd_series (f : Format) (jin : JCHF) (prefix m : string) (v : spec_float) (attr : gmap string value) : Series :=
  mkSeries (String.append prefix m) (Timestamp jin) v (getDDMetricTags (clock f) attr).

Definition dd_synth : list string := ["avg_rtt"; "jit_rtt"; "time"; "code"; "port"; "status"; "ttlb"; "sent"; "lost"]%string.
Definition dd_fromKSynth (f : Format) (jin : JCHF) : res (JCHF * list Series) :=
  let metrics := GetSynMetricNameSet (int_at "result_type" jin) in
  '(jin, attr) ← attrs f jin metrics true;
  Ok (jin, omap (λ '(m, name), if existsb (String.eqb (MI_Name name)) dd_synth
                               then Some (dd_series f jin "kentik.synth." m (Prom.float_of (int_at m jin)) attr) else None)
             (order_of (clock f) (map_range metrics))).
Definition dd_fromKflow (f : Format) (jin : JCHF) : res (JCHF * list Series) :=
  '(jin, attr) ← attrs f jin Prom.kflow_metrics true;
  Ok (jin, (λ '(m, _), dd_series f jin "kentik.flow." m (Prom.float_of (Prom.kflow_value jin m)) attr) <$> order_of (clock f) (map_range Prom.kflow_metrics)).
Definition dd_fromKtranslate (f : Format) (jin : JCHF) : res (JCHF * list Series) :=
  '(jin, attr) ← attrs f jin Influx.own_metrics false;
  Ok (jin, match Influx.own_key (str_at "type" jin) with
           | Some k => if String.eqb (str_at "force" jin) "true" || (0 <? big_at k jin)
                       then [dd_series f jin "" (str_at "name" jin) (Prom.float_div (Prom.float_of (big_at k jin)) (Prom.float_of 100)) attr] else []
           | None => []
           end).
Definition dd_fromSnmpMetadata (jin : JCHF) (f : Format) : Format :=
  if String.eqb (DeviceName jin) "" then f else set_lastMetadata (DeviceName jin) (metadata_of f jin) f.

(** A metric of a device or an interface, with its profile. *)
Definition dd_metric (f : Format) (isIf : bool) (jin : JCHF) (attr : gmap string value) (kv : string * MetricInfo) : option (string * Series) :=
  let '(m, name) := kv in
  if String.eqb m "" then None
  else
    v ← map_range (CustomBigInt jin) !! m;
    attrNew ← metric_attrs f true false isIf jin attr m name;
    Some (Profile name, dd_series f jin "kentik.snmp." m (metric_number name v) attrNew).
Definition dd_fromSnmpDeviceMetric (f : Format) (jin : JCHF) : res (JCHF * list Series) :=
  let metrics := CustomMetrics jin in
  '(jin, attr) ← attrs f jin metrics true;
  Ok (jin, (omap (dd_metric f false jin attr) (order_of (clock f) (map_range metrics))).*2).

Definition dd_setRates (f : Format) (direction : string) (jin : JCHF) (attr : gmap string value) (profileName : string) : list Series :=
  let port := if String.eqb direction "In" then InputPort jin else OutputPort jin in
  match meta f jin ≫= λ lm, Influx.speed_of lm port with
  | None => []
  | Some ispeed =>
      match metric_attrs f true false true jin attr (Influx.rate_name direction "Utilization") (mkMetricInfo "computed" "computed" "" profileName "if" "" "" 0 None) with
      | None => []
      | Some attrNew => (λ kv, dd_series f jin "kentik.snmp." kv.1 kv.2 attrNew) <$> Influx.rate_floats direction ispeed jin
      end
  end.
(** The profile of the rates is that of the last metric that is sent. *)
Definition dd_fromSnmpInterfaceMetric (f : Format) (jin : JCHF) : res (JCHF * list Series) :=
  let metrics := CustomMetrics jin in
  '(jin, attr) ← attrs f jin metrics true;
  let sent := omap (dd_metric f true jin attr) (order_of (clock f) (map_range metrics)) in
  let profileName := default "snmp"%string (last sent.*1) in
  Ok (jin, sent.*2 ++ match meta f jin with
                      | Some _ => dd_setRates f "In" jin attr profileName ++ dd_setRates f "Out" jin attr profileName
                      | None => []
                      end).

Definition toDDogMetric (jin : JCHF) (f : Format) : res (Format * list Series) :=
  let emit (r : res (JCHF * list Series)) := '(_, ms) ← r; Ok (tick f, ms) in
  let e := EventType jin in
  if String.eqb e Prom.KENTIK_EVENT_SNMP_DEV_METRIC then emit (dd_fromSnmpDeviceMetric f jin)
  else if String.eqb e Prom.KENTIK_EVENT_SNMP_INT_METRIC then emit (dd_fromSnmpInterfaceMetric f jin)
  else if String.eqb e Prom.KENTIK_EVENT_SNMP_METADATA then Ok (tick (dd_fromSnmpMetadata jin f), [])
  else if String.eqb e Influx.KENTIK_EVENT_KTRANS_METRIC then emit (dd_fromKtranslate f jin)
  else if String.eqb e KENTIK_EVENT_TYPE then emit (dd_fromKflow f jin)
  else if String.eqb e KENTIK_EVENT_SYNTH then emit (dd_fromKSynth f jin)
  else Ok (tick f, []).
Fixpoint to_all {A} (to : JCHF → Format → res (Format * list A)) (msgs : list JCHF) (f : Format) : res (Format * list A) :=
  match msgs with
  | [] => Ok (f, [])
  | m :: msgs => '(f, ms) ← to m f; '(f, rest) ← to_all to msgs f; Ok (f, ms ++ rest)
  end.
Definition DDog_To (json_Marshal : list Series → error + list byte) (gzip : list byte → error + list byte) (doGz : bool) (msgs : list JCHF) (f : Format) :
    res (Format * option Output) :=
  '(f, ms) ← to_all toDDogMetric msgs f;
  match ms with
  | [] => Ok (f, None)
  | _ => match json_Marshal ms with
         | inl err => Err err
         | inr target => if doGz then match gzip target with inl err => Err err | inr b => Ok (f, Some (NewOutput b)) end
                         else Ok (f, Some (NewOutput target))
         end
  end.

(** ** Remote writes of Prometheus (remote.go) *)
Record Sample := mkSample { sm_Timestamp : Z; sm_Value : spec_float }.
Record TimeSeries := mkTimeSeries { ts_Labels : list (string * string); ts_Samples : list Sample }.
Definition label_text (v : value) : option string :=
  match v with VString s => Some s | VInt64 z | VInt32 z => Some (Itoa z) | _ => None end.
Definition metric_labels (n : nat) (attrNew : gmap string value) : list (string * string) :=
  omap (λ '(k, v), s ← label_text v; Some (k, s)) (order_of n attrNew).
Definition rw_metric (f : Format) (isIf : bool) (jin : JCHF) (attr : gmap string value) (kv : string * MetricInfo) : option TimeSeries :=
  let '(m, name) := kv in
  if String.eqb m "" then None
  else
    v ← map_range (CustomBigInt jin) !! m;
    attrNew ← metric_attrs f (negb isIf) isIf isIf jin attr m name;
    let mtype := if isIf then "snmp"%string else MetricInfo_GetType name in
    Some (mkTimeSeries (("name"%string, String.append "kentik." (String.append mtype (String.append "." m))) :: metric_labels (clock f) attrNew)
            [mkSample (FromFloatSeconds (Timestamp jin)) (metric_number name v)]).
Definition rw_fromSnmpDeviceMetric (f : Format) (jin : JCHF) : res (JCHF * list TimeSeries) :=
  let metrics := CustomMetrics jin in
  '(jin, attr) ← attrs f jin metrics false;
  Ok (jin, omap (rw_metric f false jin attr) (order_of (clock f) (map_range metrics))).
Definition rw_fromSnmpInterfaceMetric (f : Format) (jin : JCHF) : res (JCHF * list TimeSeries) :=
  let metrics := CustomMetrics jin in
  '(jin, attr) ← attrs f jin metrics true;
  Ok (jin, omap (rw_metric f true jin attr) (order_of (clock f) (map_range metrics))).
(** Other values make a label without a text. *)
Definition rw_fromKflow (f : Format) (jin : JCHF) : res (JCHF * list TimeSeries) :=
  '(jin, attr) ← attrs f jin Prom.kflow_metrics false;
  let labels := (λ '(k, v), (k, default EmptyString (label_text v))) <$> order_of (clock f) attr in
  let ms := omap (λ '(m, _), let value := Prom.kflow_value jin m in
                             if 0 <? value then Some (mkSample (FromFloatSeconds (Timestamp jin)) (Prom.float_of value)) else None)
              (order_of (clock f) (map_range Prom.kflow_metrics)) in
  Ok (jin, [mkTimeSeries labels ms]).
Definition rw_toMetric (jin : JCHF) (f : Format) : res (Format * list TimeSeries) :=
  let emit (r : res (JCHF * list TimeSeries)) := '(_, ms) ← r; Ok (tick f, ms) in
  let e := EventType jin in
  if String.eqb e KENTIK_EVENT_TYPE then emit (rw_fromKflow f jin)
  else if String.eqb e Prom.KENTIK_EVENT_SNMP_DEV_METRIC then emit (rw_fromSnmpDeviceMetric f jin)
  else if String.eqb e Prom.KENTIK_EVENT_SNMP_INT_METRIC then emit (rw_fromSnmpInterfaceMetric f jin)
  else if String.eqb e Prom.KENTIK_EVENT_SNMP_METADATA then Ok (tick (keep_larger jin f), [])
  else Ok (tick (invalid e f), []).
(** Only snappy is accepted. *)
Definition NewRemoteFormat (compression : string) : res Format :=
  if String.eqb compression Records.CompressionSnappy then Ok NewFormat
  else Err (Errorf "You used an unsupported compression format: %s. For remote_prom, use snappy only." [FStr compression]).
Definition Remote_To (proto_Marshal : list TimeSeries → error + list byte) (snappy : list byte → list byte) (msgs : list JCHF) (f : Format) :
    res (Format * option Output) :=
  '(f, series) ← to_all rw_toMetric msgs f;
  match series, msgs with
  | [], _ | _, [] => Ok (f, None)
  | _, m :: _ => match proto_Marshal series with
                 | inl err => Err (Errorf "promwrite: marshaling remote write request proto: %w" [FErr err])
                 | inr b => Ok (f, Some (NewOutputWithProviderAndCompanySender (snappy b) (Provider m) (CompanyId m) MetricOutput ""))
                 end
  end.

(** ** Redis (redis.go) *)
Record RedisData := mkRedisData { rd_IP : IP; Latency : spec_float; Is6 : bool }.
Definition aPrefix : string := ":A".
Definition aaaaPrefix : string := ":AAAA".

(** The measurements of a message, with the name they are for. *)
Definition rd_fromKSynth (f : Format) (jin : JCHF) : res (option (string * list RedisData)) :=
  if int_at "result_type" jin <=? 1 then Ok None
  else
    let metrics := GetSynMetricNameSet (int_at "result_type" jin) in
    '(jin, attr) ← attrs f jin metrics false;
    Ok (match attr !! "test_name"%string, attr !! "dst_addr"%string with
        | Some (VString fqdn), Some (VString da) =>
            ip ← ParseIP da;
            Some (fqdn, omap (λ '(m, name), if String.eqb (MI_Name name) "avg_rtt"
                                            then Some (mkRedisData ip (Prom.float_of (int_at m jin)) (bool_decide (To4 ip = None))) else None)
                          (order_of (clock f) (map_range metrics)))
        | _, _ => None
        end).
Definition toRedisMetric (jin : JCHF) (f : Format) : res (Format * list (string * list RedisData)) :=
  let e := EventType jin in
  if String.eqb e KENTIK_EVENT_SYNTH then r ← rd_fromKSynth f jin; Ok (tick f, option_list r)
  else if String.eqb e Prom.KENTIK_EVENT_SNMP_METADATA then Ok (tick (keep_larger jin f), [])
  else Ok (tick (invalid e f), []).
(** [res[fqdn] = append(res[fqdn], r...)]. *)
Definition group (res : gmap string (list RedisData)) (fr : string * list RedisData) : gmap string (list RedisData) :=
  <[fr.1 := default [] (res !! fr.1) ++ fr.2]> res.

Inductive command := HSet (key : string) (values : gmap string spec_float) | HExpire (key : string) (ttl : Z) (fields : list string).
(** The fields and values of one family, each field once and in the order it came first. *)
Definition put_field (st : gmap string spec_float * list string) (r : RedisData) : gmap string spec_float * list string :=
  let field := IP_String (rd_IP r) in
  (<[field := Latency r]> st.1, match st.1 !! field with Some _ => st.2 | None => st.2 ++ [field] end).
Definition family (six : bool) (results : list RedisData) : gmap string spec_float * list string :=
  foldl put_field (∅, []) (filter (λ r, Is6 r = six) results).
Definition family_commands (key : string) (keyTTL : Z) (vf : gmap string spec_float * list string) : list command :=
  if bool_decide (vf.1 = ∅) then [] else [HSet key vf.1; HExpire key keyTTL vf.2].
Definition name_commands (KeyPrefix : string) (keyTTL : Z) (fr : string * list RedisData) : list command :=
  let key := String.append KeyPrefix fr.1 in
  family_commands (String.append key aPrefix) keyTTL (family false fr.2) ++ family_commands (String.append key aaaaPrefix) keyTTL (family true fr.2).
(** The commands that are sent as one, or none when nothing was measured; and the error of sending them. *)
Definition Redis_To (KeyPrefix : string) (keyTTL : Z) (Exec : list command → option error) (msgs : list JCHF) (f : Format) : res (Format * list command) :=
  '(f, ms) ← to_all toRedisMetric msgs f;
  let cmds := order_of (clock f) (foldl group ∅ ms) ≫= name_commands KeyPrefix keyTTL in
  match ms with
  | [] => Ok (f, [])
  | _ => match Exec cmds with Some err => Err err | None => Ok (f, cmds) end
  end.
End formats.

(** ** What Redis ends up with *)
Abbreviation store := (gmap string (gmap string spec_float)).
Definition run_cmd (st : store) (c : command) : store :=
  match c with HSet k vs => <[k := vs ∪ default ∅ (st !! k)]> st | HExpire _ _ _ => st end.
Definition stored (k g : string) (st : store) : option spec_float := default ∅ (st !! k) !! g.
(** Every measurement by itself, in the order of the messages. *)
Definition measurements (ms : list (string * list RedisData)) : list (string * RedisData) := ms ≫= λ fr, (λ r, (fr.1, r)) <$> fr.2.
Definition key_of (KeyPrefix : string) (fr : string * RedisData) : string :=
  String.append (String.append KeyPrefix fr.1) (if Is6 fr.2 then aaaaPrefix else aPrefix).
Definition field_of (fr : string * RedisData) : string := IP_String (rd_IP fr.2).
Definition write_one (KeyPrefix : string) (st : store) (fr : string * RedisData) : store :=
  run_cmd st (HSet (key_of KeyPrefix fr) {[field_of fr := Latency fr.2]}).

Definition hit (k g : string) (c : command) : option spec_float :=
  match c with HSet k' vs => if decide (k' = k) then vs !! g else None | HExpire _ _ _ => None end.
Lemma run_cmd_stored k g st c : stored k g (run_cmd st c) = match hit k g c with Some v => Some v | None => stored k g st end.
Proof.
  destruct c as [k' vs|]; [|done]. unfold stored. simpl. destruct (decide (k' = k)) as [->|Hne].
  - rewrite lookup_insert_eq. simpl. rewrite lookup_union. destruct (vs !! g) as [v|]; [by rewrite union_Some_l|by rewrite (left_id None _)].
  - by rewrite lookup_insert_ne.
Qed.
Lemma run_cmds_stored k g st cmds : stored k g (foldl run_cmd st cmds) = match last (omap (hit k g) cmds) with Some v => Some v | None => stored k g st end.
Proof.
  induction cmds as [|c cmds IH] using rev_ind; [done|]. rewrite foldl_app, omap_app. simpl. rewrite run_cmd_stored, IH.
  destruct (hit k g c) as [v|]; [by rewrite last_snoc|by rewrite app_nil_r].
Qed.
Lemma writes_stored KeyPrefix k g st l :
  stored k g (foldl (write_one KeyPrefix) st l) =
  match last (filter (λ fr, key_of KeyPrefix fr = k ∧ field_of fr = g) l) with Some fr => Some (Latency fr.2) | None => stored k g st end.
Proof.
  induction l as [|fr l IH] using rev_ind; [done|]. rewrite foldl_app, filter_app. simpl. unfold write_one at 1. rewrite run_cmd_stored, IH. simpl.
  destruct (decide (key_of KeyPrefix fr = k ∧ field_of fr = g)) as [[Hk Hg]|Hne].
  - rewrite filter_cons_True, filter_nil, last_snoc by done. rewrite decide_True by done. by rewrite Hg, lookup_singleton_eq.
  - rewrite filter_cons_False, filter_nil, app_nil_r by done. destruct (decide (key_of KeyPrefix fr = k)); [|done].
    rewrite lookup_singleton_ne; [done|]. naive_solver.
Qed.

Lemma family_spec six rs : let '(vs, fields) := family six rs in
  (∀ g, vs !! g = Latency <$> last (filter (λ r, Is6 r = six ∧ IP_String (rd_IP r) = g) rs)) ∧
  NoDup fields ∧ ∀ g, g ∈ fields ↔ is_Some (vs !! g).
Proof.
  unfold family. assert (∀ l : list RedisData, let '(vs, fields) := foldl put_field (∅, []) l in
    (∀ g, vs !! g = Latency <$> last (filter (λ r, IP_String (rd_IP r) = g) l)) ∧ NoDup fields ∧ ∀ g, g ∈ fields ↔ is_Some (vs !! g)) as H0.
  { intros l. induction l as [|r l IH] using rev_ind.
    - simpl. split_and!; [done|constructor|]. intros g. rewrite lookup_empty. split; [set_solver|by intros []].
    - rewrite foldl_app. simpl. destruct (foldl put_field (∅, []) l) as [vs fields]. destruct IH as (Hv & Hn & Hf). unfold put_field. simpl. split_and!.
      + intros g. rewrite filter_app. destruct (decide (IP_String (rd_IP r) = g)) as [<-|Hne].
        * rewrite lookup_insert_eq, filter_cons_True, filter_nil, last_snoc by done. done.
        * rewrite lookup_insert_ne, filter_cons_False, filter_nil, app_nil_r by done. apply Hv.
      + destruct (vs !! IP_String (rd_IP r)) eqn:E; [done|]. apply NoDup_app. split_and!; [done| |apply NoDup_singleton].
        intros g Hg ->%list_elem_of_singleton. apply Hf in Hg as [? ?]. congruence.
      + intros g. destruct (decide (IP_String (rd_IP r) = g)) as [<-|Hne].
        * rewrite lookup_insert_eq. destruct (vs !! _) eqn:E; [rewrite Hf, E; split; eauto|]. split; [eauto|]. set_solver.
        * rewrite lookup_insert_ne by done. rewrite <- Hf. destruct (vs !! _); [done|]. set_solver. }
  specialize (H0 (filter (λ r, Is6 r = six) rs)). destruct (foldl _ _ _) as [vs fields]. destruct H0 as (Hv & Hn & Hf). split_and!; [|done|done].
  intros g. rewrite Hv. do 2 f_equal. rewrite list_filter_filter. apply list_filter_iff. intros r. tauto.
Qed.
Lemma group_lookup ms n : default [] (foldl group ∅ ms !! n) = snd <$> filter (λ fr, fr.1 = n) (measurements ms).
Proof.
  induction ms as [|[m rs] ms IH] using rev_ind; [done|]. unfold measurements in *. rewrite foldl_app, bind_app, filter_app, fmap_app. simpl. unfold group at 1. simpl.
  rewrite app_nil_r. destruct (decide (m = n)) as [->|Hne].
  - rewrite lookup_insert_eq, IH. simpl. f_equal. clear. induction rs as [|r rs IH]; [done|]. simpl. rewrite filter_cons_True by done. simpl. f_equal. exact IH.
  - rewrite lookup_insert_ne, IH by done. rewrite (list_filter_none _ (_ <$> rs)); [by rewrite app_nil_r|]. apply Forall_fmap, Forall_true. simpl. done.
Qed.

(** *** Keys are of one name and one family *)
Definition suffix (six : bool) : string := if six then aaaaPrefix else aPrefix.
Definition name_key (KeyPrefix n : string) (six : bool) : string := String.append (String.append KeyPrefix n) (suffix six).
Lemma list_ascii_append a b : String.list_ascii_of_string (String.append a b) = (String.list_ascii_of_string a ++ String.list_ascii_of_string b)%list.
Proof. induction a as [|c a IH]; [done|]. rewrite append_cons. simpl. by rewrite IH. Qed.
Lemma name_key_inj P n n' six six' : name_key P n six = name_key P n' six' → n = n' ∧ six = six'.
Proof.
  unfold name_key. rewrite !append_assoc. intros H%(inj _). apply (f_equal String.list_ascii_of_string) in H. rewrite !list_ascii_append in H.
  assert (∀ s t, String.list_ascii_of_string s = String.list_ascii_of_string t → s = t) as Hinj.
  { intros s t Hst. by rewrite <- (String.string_of_list_ascii_of_string s), Hst, String.string_of_list_ascii_of_string. }
  destruct six, six'; simpl in H.
  - apply app_inv_tail in H. split; [by apply Hinj|done].
  - change [":"; "A"; "A"; "A"; "A"]%char with ([":"; "A"; "A"] ++ ["A"; "A"])%char%list in H. rewrite app_assoc in H. by apply app_inj_2 in H as [_ [=]].
  - change [":"; "A"; "A"; "A"; "A"]%char with ([":"; "A"; "A"] ++ ["A"; "A"])%char%list in H. rewrite app_assoc in H. by apply app_inj_2 in H as [_ [=]].
  - apply app_inv_tail in H. split; [by apply Hinj|done].
Qed.

Lemma family_hits k g key ttl vf : omap (hit k g) (family_commands key ttl vf) = if decide (key = k) then option_list (vf.1 !! g) else [].
Proof.
  unfold family_commands. case_bool_decide as He; simpl; [rewrite He, lookup_empty; by destruct (decide _)|].
  destruct (decide (key = k)); [|done]. by destruct (vf.1 !! g).
Qed.
Lemma omap_bind {A B C} (f : B → option C) (h : A → list B) l : omap f (l ≫= h) = l ≫= λ x, omap f (h x).
Proof. induction l as [|x l IH]; [done|]. by rewrite !bind_cons, omap_app, IH. Qed.
Lemma bind_unique {V B} (m : gmap string V) (order : list (string * V)) n (h : string * V → list B) (o : V → option B) :
  order ≡ₚ map_to_list m → (∀ v, h (n, v) = option_list (o v)) → (∀ n' v, n' ≠ n → h (n', v) = []) → order ≫= h = option_list (m !! n ≫= o).
Proof.
  intros Hp Hn Hne. assert (∀ l : list (string * V), (∀ kv, kv ∈ l → kv.1 ≠ n) → l ≫= h = []) as Hnil.
  { intros l. induction l as [|[n' v] l IH]; intros Hl; [done|]. rewrite bind_cons, Hne, IH; [done|set_solver|]. apply (Hl (n', v)). left. }
  destruct (m !! n) as [v|] eqn:Hm; simpl.
  - rewrite <- (insert_delete_id m n v), map_to_list_insert in Hp by (done || apply lookup_delete_eq).
    apply Permutation_cons_inv_r in Hp as (l1 & l2 & -> & Hp).
    assert (∀ kv, kv ∈ l1 ++ l2 → kv.1 ≠ n) as Hl.
    { intros [n' v'] Hin. rewrite <- Hp in Hin. apply elem_of_map_to_list in Hin. simpl. intros ->. by rewrite lookup_delete_eq in Hin. }
    rewrite bind_app, bind_cons, Hn, (Hnil l1), (Hnil l2) by set_solver. simpl. by rewrite app_nil_r.
  - apply Hnil. intros [n' v] Hin. rewrite Hp in Hin. apply elem_of_map_to_list in Hin. simpl. intros ->. congruence.
Qed.

Section store_laws.
Context `{SeriesEnvLaws} `{RegexpEngine}.

Lemma name_hits k g P ttl n rs six : k = name_key P n six → ∀ n', omap (hit k g) (name_commands P ttl (n', rs)) =
  if decide (n' = n) then option_list ((family six rs).1 !! g) else [].
Proof.
  intros -> n'. unfold name_commands. rewrite omap_app, !family_hits. simpl. change (String.append (String.append P n') aPrefix) with (name_key P n' false).
  change (String.append (String.append P n') aaaaPrefix) with (name_key P n' true).
  destruct (decide (n' = n)) as [->|Hn].
  - destruct six; [rewrite (decide_False (P := name_key P n false = _)), decide_True by (done || by intros [? [=]]%name_key_inj); done|].
    rewrite decide_True, (decide_False (P := name_key P n true = _)), app_nil_r by (done || by intros [? [=]]%name_key_inj). done.
  - rewrite !decide_False by (by intros [? ?]%name_key_inj). done.
Qed.
Lemma grouped_stored P ttl n ms st k g : stored k g (foldl run_cmd st (order_of n (foldl group ∅ ms) ≫= name_commands P ttl)) =
  stored k g (foldl (write_one P) st (measurements ms)).
Proof.
  rewrite run_cmds_stored, writes_stored, omap_bind. set (M := foldl group ∅ ms).
  destruct (decide (Exists (λ fr, key_of P fr = k) (measurements ms))) as [Hex|Hno].
  - apply Exists_exists in Hex as ([n0 r0] & _ & Hk). change (name_key P n0 (Is6 r0) = k) in Hk. symmetry in Hk.
    rewrite (bind_unique M _ n0 _ (λ rs, (family (Is6 r0) rs).1 !! g)); cycle 1.
    { apply order_of_perm. } { intros rs. rewrite (name_hits _ _ _ _ _ _ _ Hk). by rewrite decide_True. }
    { intros n' rs Hne. rewrite (name_hits _ _ _ _ _ _ _ Hk). by rewrite decide_False. }
    assert ((M !! n0 ≫= λ rs, (family (Is6 r0) rs).1 !! g) = (family (Is6 r0) (default [] (M !! n0))).1 !! g) as -> by (by destruct (M !! n0)).
    unfold M. rewrite group_lookup. pose proof (family_spec (Is6 r0) (snd <$> filter (λ fr, fr.1 = n0) (measurements ms))) as Hf.
    destruct (family _ _) as [vs fields]. destruct Hf as [Hv _]. simpl. rewrite Hv. clear Hv.
    rewrite list_filter_map, list_filter_filter, fmap_last.
    erewrite (list_filter_iff _ (λ fr, key_of P fr = k ∧ field_of fr = g)).
    + by destruct (last (filter _ _)) as [fr|].
    + intros [n' r]. unfold key_of, field_of. simpl. change (String.append (String.append P n') (if Is6 r then aaaaPrefix else aPrefix)) with (name_key P n' (Is6 r)).
      rewrite Hk. split; [intros [[? ?] ->]; split; [congruence|done]|]. intros [[-> ?]%name_key_inj ?]. done.
  - rewrite (list_filter_none _ (measurements ms)); cycle 1.
    { apply Forall_forall. intros fr Hin [Hk _]. apply Hno, Exists_exists. eauto. }
    destruct (last (_ ≫= _)) as [v|] eqn:Hl; [|done]. exfalso. apply last_Some_elem_of, list_elem_of_bind in Hl as ([n' rs] & Hv & Hin).
    rewrite order_of_perm in Hin. apply elem_of_map_to_list in Hin. unfold name_commands in Hv. rewrite omap_app, !family_hits in Hv.
    assert (∃ six, name_key P n' six = k ∧ (family six rs).1 !! g = Some v) as (six & Hk & Hf).
    { apply elem_of_app in Hv as [Hv|Hv]; [exists false|exists true]; (destruct (decide _) as [Hd|]; [|set_solver]);
        (split; [exact Hd|]); simpl in Hv; destruct (_ !! g); set_solver. }
    pose proof (family_spec six rs) as Hs. destruct (family six rs) as [vs fields]. destruct Hs as [Hs _]. simpl in Hf. rewrite Hs in Hf.
    apply fmap_Some in Hf as (r & Hr & _). apply last_Some_elem_of, list_elem_of_filter in Hr as [[Hsix _] Hr].
    pose proof (group_lookup ms n') as Hg. fold M in Hg. rewrite Hin in Hg. simpl in Hg. rewrite Hg in Hr.
    apply list_elem_of_fmap in Hr as ([n'' r'] & -> & Hr). apply list_elem_of_filter in Hr as [Hn Hr]. simpl in Hn. subst n''.
    apply Hno, Exists_exists. exists (n', r'). split; [done|]. simpl in Hsix. rewrite <- Hsix in Hk. exact Hk.
Qed.
Lemma grouped_expires P ttl n ms k t fields : HExpire k t fields ∈ order_of n (foldl group ∅ ms) ≫= name_commands P ttl →
  t = ttl ∧ NoDup fields ∧ ∃ vs, HSet k vs ∈ order_of n (foldl group ∅ ms) ≫= name_commands P ttl ∧ ∀ g, g ∈ fields ↔ is_Some (vs !! g).
Proof.
  intros ([n' rs] & Hin & Ho)%list_elem_of_bind. unfold name_commands in Hin.
  assert (∃ six, HExpire k t fields ∈ family_commands (name_key P n' six) ttl (family six rs)) as [six Hc]
    by (apply elem_of_app in Hin as [?|?]; [by exists false|by exists true]).
  pose proof (family_spec six rs) as Hs. unfold family_commands in Hc. destruct (bool_decide _) eqn:He; [set_solver|].
  destruct (family six rs) as [vs fs] eqn:Hfam. destruct Hs as (_ & Hn & Hf). simpl in *.
  apply elem_of_cons in Hc as [[=]|Hc]. apply list_elem_of_singleton in Hc as [= -> -> ->]. split_and!; [done|done|]. exists vs. split; [|done].
  apply list_elem_of_bind. exists (n', rs). split; [|done]. unfold name_commands. apply elem_of_app.
  destruct six; [right|left]; unfold family_commands; simpl; rewrite Hfam; simpl; rewrite He; left.
Qed.

(** C37: Whatever the order of the names, the commands that are sent leave in Redis what the measurements of the messages would when written one after the other: for each name and family an address has its last latency and other fields keep theirs; and what is set to expire is each field of a set once. *)
Theorem redis_store P ttl Exec msgs f f' cmds : Redis_To P ttl Exec msgs f = Ok (f', cmds) →
  ∃ ms, to_all toRedisMetric msgs f = Ok (f', ms) ∧
  (∀ st k g, stored k g (foldl run_cmd st cmds) = stored k g (foldl (write_one P) st (measurements ms))) ∧
  ∀ k t fields, HExpire k t fields ∈ cmds → t = ttl ∧ NoDup fields ∧ ∃ vs, HSet k vs ∈ cmds ∧ ∀ g, g ∈ fields ↔ is_Some (vs !! g).
Proof.
  unfold Redis_To. destruct (to_all toRedisMetric msgs f) as [[f1 ms]| | |]; try done. simpl. intros Hr. exists ms.
  assert (f' = f1 ∧ (ms = [] ∧ cmds = [] ∨ cmds = order_of (clock f1) (foldl group ∅ ms) ≫= name_commands P ttl)) as [-> Hc].
  { destruct ms; [injection Hr as <- <-; auto|]. destruct (Exec _); [done|]. injection Hr as <- <-. auto. }
  split; [done|]. destruct Hc as [[-> ->]| ->]; [split; [done|set_solver]|]. split; [intros; apply grouped_stored|apply grouped_expires].
Qed.
End store_laws.

(** *** Examples *)
#[local] Instance any_series : SeriesEnv := {|
  order_of A n m := map_to_list m; row_order n jin := (avro_rows jin).*1;
  strs_order n jin := map_to_list (map_range (CustomStr jin)); ints_order n jin := map_to_list (map_range (CustomInt jin));
  match_visit n lm := map_to_list (map_range (lm_MatchAttr lm)); FromFloatSeconds z := z * 1000 |}.
#[local] Instance any_series_laws : SeriesEnvLaws.
Proof. split. done. Qed.

Definition ex_test (addr : string) (rtt : Z) : JCHF :=
  NewJCHF <| EventType := KENTIK_EVENT_SYNTH |> <| DstAddr := addr |> <| CustomStr := Some {["test_name" := "www"]}%string |>
    <| CustomInt := Some (list_to_map [("result_type", 2); ("ping_avg_rtt", rtt); ("fetch_status_|_ping_sent_|_trace_time", 5)]%string) |>.
Definition ex_tests : list JCHF := [ex_test "192.0.2.1" 7; ex_test "2001:db8::1" 8; ex_test "192.0.2.1" 9; NewJCHF <| EventType := "other"%string |>].
Definition ex_cmds : list command := match Redis_To "kt:" 60 (λ _, None) ex_tests NewFormat with Ok (_, c) => c | _ => [] end.

Example redis_commands : ex_cmds =
  [HSet "kt:www:A" {["192.0.2.1" := Prom.float_of 9]}; HExpire "kt:www:A" 60 ["192.0.2.1"];
   HSet "kt:www:AAAA" {["2001:db8::1" := Prom.float_of 8]}; HExpire "kt:www:AAAA" 60 ["2001:db8::1"]].
Proof. vm_compute. reflexivity. Qed.
Lemma redis_store_witness : stored "kt:www:A" "192.0.2.1" (foldl run_cmd ∅ ex_cmds) = Some (Prom.float_of 9).
Proof.
  destruct (redis_store "kt:" 60 (λ _, None) ex_tests NewFormat (mkFormat {["other"%string]} ∅ 4) ex_cmds) as (ms & Hms & Hs & _); [vm_compute; reflexivity|].
  rewrite Hs. vm_compute in Hms. injection Hms as <-. vm_compute. reflexivity.
Defined.

(** A remote write does not say which counter a number is of: bytes that came in look as packets that went out. *)
Example remote_confused : 
  (λ j : JCHF, match rw_toMetric j NewFormat with Ok (_, l) => Some l | _ => None end) (NewJCHF <| EventType := KENTIK_EVENT_TYPE |> <| SampleRate := 1 |> <| InBytes := 5 |>) =
  (λ j : JCHF, match rw_toMetric j NewFormat with Ok (_, l) => Some l | _ => None end) (NewJCHF <| EventType := KENTIK_EVENT_TYPE |> <| SampleRate := 1 |> <| OutPkts := 5 |>).
Proof. vm_compute. reflexivity. Qed.
(** The names of metrics of tests are those of the shared fields. *)
Example dd_synth_names : match toDDogMetric (ex_test "192.0.2.1" 7) NewFormat with Ok (_, l) => s_Metric <$> l | _ => [] end =
  ["kentik.synth.fetch_status_|_ping_sent_|_trace_time"; "kentik.synth.fetch_ttlb_|_ping_lost"; "kentik.synth.ping_avg_rtt"; "kentik.synth.ping_jit_rtt"].
Proof. vm_compute. reflexivity. Qed.
(** Metadata with less in it takes the place of what was known, for Datadog alone. *)
Definition ex_meta (l : list (string * string)) : JCHF :=
  NewJCHF <| EventType := Prom.KENTIK_EVENT_SNMP_METADATA |> <| DeviceName := "r1"%string |> <| CustomStr := Some (list_to_map l) |>.
Example dd_forgets :
  let known (f : Format) := Size (lastMetadata f !! "r1"%string) in
  let big := ex_meta [("a", "1"); ("b", "2")]%string in let small := ex_meta [("a", "1")]%string in
  match to_all toDDogMetric [big; small] NewFormat, to_all rw_toMetric [big; small] NewFormat with
  | Ok (f1, _), Ok (f2, _) => (known f1, known f2) = (1%nat, 2%nat)
  | _, _ => False
  end.
Proof. vm_compute. done. Qed.
