(* ===== verification/Meraki.v ===== *)
(** The Meraki extension of a device of SNMP (src/pkg/inputs/snmp/x/meraki/meraki.go): pages of answers and
    when a call is tried again, which organizations and networks are followed, what is asked at each poll,
    and the records that are made of the answers.

    What the service answers is given: for each call a list of pages and failures, in the order in which
    they come. JSON, regular expressions and the text of floating-point numbers are parameters; the order
    of a range is that of an oracle. The clients of single devices ([getDeviceClients]) are left out:
    [tasks_of_client] shows that no client that is made asks for them. *)
From Stdlib Require Import Floats.SpecFloat.
From S2P Require Import Prelude GoStrings.
From S2P Require Import Jchf.
From S2P Require Prom.
From S2P Require Nrm.
From S2P Require SnmpCounters.
Local Open Scope Z_scope.

Definition ControllerKey : string := "meraki_controller_name".
Definition MAX_TIMEOUT_RETRY : Z := 10.
Definition DEFAULT_TIMEOUT_RETRY : Z := 2.
Definition MaxRetriesGetOrgNetworks : Z := 3.
Definition DeviceCacheDuration : Z := 24 * 3600 * Second.
Definition UplinkBWCacheDuration : Z := 24 * 3600 * Second.
Definition DeviceStatusEnum : gmap string Z := list_to_map [("online", 1); ("alerting", 2); ("offline", 3); ("dormant", 0)].

(** ** Pages *)
(** What one call gives: the text of an error, or a payload with its links. *)
Inductive response (A : Type) := Failed (err : string) | Page (payload : A) (link : string).
Arguments Failed {A} err.
Arguments Page {A} payload link.
Definition status_429 (err : string) : bool := Contains err "(status 429)".
Definition status_400 (err : string) : bool := Contains err "(status 400)".

(** What is before the last [sep]. *)
Fixpoint cut_last (s sep : string) : option string :=
  match s with
  | EmptyString => None
  | String c t =>
      match cut_last t sep with
      | Some a => Some (String c a)
      | None => if HasPrefix s sep then Some EmptyString else None
      end
  end.
(** The submatch of the expression: what is between the first [startingAfter=] and the last [>;]. *)
Definition reLink (link : string) : option string := '(_, rest) ← Cut link "startingAfter="; cut_last rest ">;".
Fixpoint next_link (links : list string) : string :=
  match links with
  | [] => ""
  | link :: links =>
      if Contains link "rel=next" then match reLink link with Some l => l | None => next_link links end
      else next_link links
  end.
Definition getNextLink (linkSet : string) : string := next_link (Split linkSet ",").

(** How a chain of calls ends: with its last page, with an error, or not within the answers that are given. *)
Inductive ended := Ended | EndedErr (err : string) | NoAnswer.
Record paged (A : Type) := mkPaged { asked : list string; payloads : list A; how : ended }.
Arguments mkPaged {A} asked payloads how.
Arguments asked {A} p.
Arguments payloads {A} p.
Arguments how {A} p.

(** The recursion of every call with pages: [retry] says of an error and the number of tries so far whether
    the call is made again. Asked are the pages after these; the first is after nothing. *)
Fixpoint paging {A} (retry : string → Z → bool) (rs : list (response A)) (nextToken : string) (timeouts : Z) : paged A :=
  match rs with
  | [] => mkPaged [nextToken] [] NoAnswer
  | Failed err :: rs =>
      if retry err timeouts then
        let p := paging retry rs nextToken (timeouts + 1) in mkPaged (nextToken :: asked p) (payloads p) (how p)
      else mkPaged [nextToken] [] (EndedErr err)
  | Page x link :: rs =>
      let nextLink := getNextLink link in
      if String.eqb nextLink "" then mkPaged [nextToken] [x] Ended
      else let p := paging retry rs nextLink timeouts in mkPaged (nextToken :: asked p) (x :: payloads p) (how p)
  end.
Definition capped (maxRetry : Z) (err : string) (timeouts : Z) : bool := status_429 err && (timeouts <? maxRetry).
Definition no_retry (err : string) (timeouts : Z) : bool := false.
(** Of the usage of uplinks: without a limit. *)
Definition unlimited (err : string) (timeouts : Z) : bool := Contains err "status 429".
Definition org_retry (pref : bool) (err : string) (retries : Z) : bool := pref && negb (MaxRetriesGetOrgNetworks <=? retries).

(** ** Configuration *)
Record MerakiConfig := mkMeraki {
  MonitorUplinks : bool; MonitorDevices : bool; MonitorOrgChanges : bool; MonitorNetworkClients : bool; MonitorVpnStatus : bool;
  Orgs : list string; Networks : list string; Prefs : gmap string bool; ProductTypes : list string; MaxAPIRetry : Z }.
Definition pref (c : MerakiConfig) (k : string) : bool := default false (Prefs c !! k).
Record DeviceConf := mkConf { cf_DeviceName : string; cf_DeviceIP : string; cf_TimeoutMS : Z; cf_tags : gmap string string; cf_Meraki : MerakiConfig }.

Record Org := mkOrg { o_ID : string; o_Name : string }.
Record networkDesc := mkNetwork { n_ID : string; n_Name : string; n_Tags : list string; n_org : Org }.
Record orgDesc := mkOrgDesc { od_ID : string; od_Name : string; od_networks : gmap string networkDesc; od_org : Org }.

(** A network as it is answered. *)
Record network_answer := mkNet { na_ID : string; na_Name : string; na_Tags : list string }.

Record MerakiClient := mkClient { c_conf : DeviceConf; c_timeout : Z; c_maxRetry : Z; c_orgs : list orgDesc }.

Section client.
Context {Re : Type} (Compile : string → option Re) (MatchString : Re → string → bool).

(** With no expression everything matches. *)
Definition opted (res : list Re) (name : string) : bool :=
  match res with [] => true | _ => existsb (λ r, MatchString r name) res end.
Definition add_network (nets : list Re) (org : Org) (st : gmap string networkDesc * Z) (n : network_answer) : gmap string networkDesc * Z :=
  if opted nets (na_Name n) then (<[na_ID n := mkNetwork (na_ID n) (na_Name n) (na_Tags n) org]> st.1, st.2 + 1) else st.
Definition getOrgNetworks (c : MerakiConfig) (nets : list Re) (org : Org) (rs : list (response (list network_answer))) :
    gmap string networkDesc * Z * ended :=
  let p := paging (org_retry (pref c "retry_org_networks")) rs "" 0 in
  (foldl (add_network nets org) (∅, 0) (mjoin (payloads p)), how p).
Definition follow_org (c : MerakiConfig) (orgs nets : list Re) (networks : Org → list (response (list network_answer))) (org : Org) : option orgDesc :=
  if opted orgs (o_Name org) then
    match getOrgNetworks c nets org (networks org) with
    | (netSet, _, Ended) => if bool_decide (netSet = ∅) then None else Some (mkOrgDesc (o_ID org) (o_Name org) netSet org)
    | _ => None
    end
  else None.

Definition retries_of (n : Z) : Z := if (n =? 0) || (MAX_TIMEOUT_RETRY <? n) then DEFAULT_TIMEOUT_RETRY else n.
Definition timeout_of (conf global : Z) : Z :=
  if 0 <? conf then Duration_mul conf Millisecond else if 0 <? global then Duration_mul global Millisecond else 30 * Second.
(** [regexp.MustCompile] panics. *)
Definition MustCompile (s : string) : res Re := match Compile s with Some r => Ok r | None => Panic "regexp: Compile" end.
(** [answer]: the organizations, or an error. *)
Definition NewMerakiClient (conf : DeviceConf) (gTimeoutMS : Z) (answer : option (list Org)) (networks : Org → list (response (list network_answer))) :
    res MerakiClient :=
  let c := cf_Meraki conf in
  match answer with
  | None => Err (Errorf "Invalid API Key. Cannot get organizations. Check config and try again" [])
  | Some payload =>
      if MonitorDevices c && negb (pref c "device_status_only") then Err (Errorf "monitor_devices option is not supported for Meraki in this version." [])
      else
        orgs ← mapM MustCompile (Orgs c);
        nets ← mapM MustCompile (Networks c);
        Ok (mkClient conf (timeout_of (cf_TimeoutMS conf) gTimeoutMS) (retries_of (MaxAPIRetry c)) (omap (follow_org c orgs nets networks) payload))
  end.
End client.

(** ** What a poll asks for *)
Inductive task :=
| OrgChanges | DeviceClients | DeviceStatus | NetworkClients | Uplinks | VpnStatus | NetworkAttr | SecurityEvents.
Definition doNetworkEvents (c : MerakiConfig) : bool := pref c "log_network_events".
(** The tasks of a poll, in their order; network events are read on the side. *)
Definition tasks (c : MerakiConfig) : list task :=
  let doDeviceClients := MonitorDevices c && negb (pref c "device_status_only") in
  let doDeviceStatus := MonitorDevices c && (pref c "device_status_only" || pref c "device_status") in
  let doNetworkAttr := pref c "show_network_attr" in
  let doSecurity := pref c "log_network_security_events" in
  let doUplinks := MonitorUplinks c ||
    negb (MonitorUplinks c || doDeviceClients || doDeviceStatus || MonitorOrgChanges c || MonitorNetworkClients c || MonitorVpnStatus c ||
          doNetworkAttr || doSecurity || doNetworkEvents c) in
  let on (b : bool) (t : task) := if b then [t] else [] in
  on (MonitorOrgChanges c) OrgChanges ++ on doDeviceClients DeviceClients ++ on doDeviceStatus DeviceStatus ++
  on (MonitorNetworkClients c) NetworkClients ++ on doUplinks Uplinks ++ on (MonitorVpnStatus c) VpnStatus ++
  on doNetworkAttr NetworkAttr ++ on doSecurity SecurityEvents.

(** ** Records *)
Definition ProviderMerakiCloud : Provider_ := "meraki-cloud-controller".
Definition meraki_info (profile : string) (format : string) : MetricInfo := mkMetricInfo "meraki" "meraki" "" profile "" format profile 0 None.
Definition texts (l : list (string * string)) : gmap string string := list_to_map l.
(** [c.conf.SetUserTags(dst.CustomStr)]: the tags take the place of what is there. *)
Definition SetUserTags (conf : DeviceConf) (dst : JCHF) : JCHF := dst <| CustomStr := Some (cf_tags conf ∪ map_range (CustomStr dst)) |>.
Definition put_text (k v : string) (dst : JCHF) : JCHF := dst <| CustomStr := Some (<[k := v]> (map_range (CustomStr dst))) |>.
Definition put_number (k : string) (v : Z) (i : MetricInfo) (dst : JCHF) : JCHF :=
  dst <| CustomBigInt := Some (<[k := v]> (map_range (CustomBigInt dst))) |> <| CustomMetrics := Some (<[k := i]> (map_range (CustomMetrics dst))) |>.
(** A record of a metric, before tags. *)
Definition metric_record (now : Z) (strs : gmap string string) : JCHF :=
  NewJCHF <| CustomStr := Some strs |> <| CustomInt := Some ∅ |> <| CustomBigInt := Some ∅ |> <| EventType := Prom.KENTIK_EVENT_SNMP_DEV_METRIC |>
    <| Provider := ProviderMerakiCloud |> <| Timestamp := now |> <| CustomMetrics := Some ∅ |>.

(** *** Changes of organizations *)
Record orgLog := mkOrgLog {
  ol_TimeStamp : Z; AdminName : string; ol_NetworkName : string; Label : string; NewValue : string; AdminEmail : string; AdminId : string;
  ol_NetworkId : string; ol_Page : string; OldValue : string }.
Definition parseOrgLog (conf : DeviceConf) (l : orgLog) (org : orgDesc) : JCHF :=
  SetUserTags conf
    (NewJCHF <| Timestamp := ol_TimeStamp l |>
      <| CustomStr := Some (texts [(ControllerKey, cf_DeviceName conf); ("admin_name", AdminName l); ("network_name", ol_NetworkName l); ("label", Label l);
           ("new_value", NewValue l); ("admin_email", AdminEmail l); ("admin_id", AdminId l); ("network_id", ol_NetworkId l); ("page", ol_Page l);
           ("old_value", OldValue l); ("org_name", od_Name org); ("org_id", od_ID org)]%string) |>
      <| EventType := Nrm.KENTIK_EVENT_EXT |> <| Provider := ProviderMerakiCloud |>).
(** One call for each organization; the first that fails drops the changes of all. *)
Fixpoint getOrgChanges (conf : DeviceConf) (orgs : list orgDesc) (answer : orgDesc → string + list orgLog) : string + list JCHF :=
  match orgs with
  | [] => inr []
  | org :: orgs =>
      match answer org with
      | inl err => inl err
      | inr logs =>
          match getOrgChanges conf orgs answer with
          | inl err => inl err
          | inr res => inr (((λ lg, parseOrgLog conf lg org) <$> filter (λ lg, is_Some (od_networks org !! ol_NetworkId lg)) logs) ++ res)
          end
      end
  end.

(** *** Clients of networks *)
Record appUsage := mkAppUsage { Application : string; au_Received : Z; au_Sent : Z }.
Record networkDevice := mkNetworkDevice {
  nd_Name : string; nd_Serial : string; nd_Mac : string; nd_Model : string; nd_Notes : string; LanIP : string; nd_Tags : list string; Firmware : string;
  nd_org : option Org }.
Record merakiClient := mkMerakiClient {
  Usage : gmap string spec_float; AdaptivePolicyGroup : string; cl_Description : string; DeviceTypePrediction : string; FirstSeen : string;
  cl_ID : string; cl_IP : string; Ip6 : string; LastSeen : string; cl_Mac : string; Manufacturer : string; NamedVlan : string; cl_Notes : string;
  Os : string; PskGroup : string; RecentDeviceMac : string; RecentDeviceName : string; RecentDeviceSerial : string; Ssid : string;
  cl_Status : string; Switchport : string; cl_User : string; cl_Vlan : string;
  cl_network : string; cl_orgName : string; cl_orgId : string; cl_device : networkDevice; cl_appUsage : list appUsage }.
Definition f64_mul (a : spec_float) (n : Z) : spec_float := SFmul 53 1024 a (Prom.float_of n).
(** [int64(x * 1000)]. *)
Definition thousands (x : spec_float) : Z := SnmpCounters.int64_of_float (f64_mul x 1000).
Definition client_texts (conf : DeviceConf) (cl : merakiClient) : gmap string string :=
  texts [(ControllerKey, cf_DeviceName conf); ("network", cl_network cl); ("client_id", cl_ID cl); ("policy_group", AdaptivePolicyGroup cl);
    ("description", cl_Description cl); ("status", cl_Status cl); ("vlan_name", NamedVlan cl); ("client_mac_addr", cl_Mac cl); ("user", cl_User cl);
    ("manufacturer", Manufacturer cl); ("device_type", DeviceTypePrediction cl); ("psk_group", PskGroup cl); ("os", Os cl);
    ("recent_device_name", RecentDeviceName cl); ("device_mac_addr", RecentDeviceMac cl); ("device_serial", RecentDeviceSerial cl); ("ssid", Ssid cl);
    ("switchport", Switchport cl); ("vlan", cl_Vlan cl); ("org_name", cl_orgName cl); ("org_id", cl_orgId cl); ("notes", cl_Notes cl);
    ("last_seen", LastSeen cl); ("first_seen", FirstSeen cl)]%string.
Definition device_texts (d : networkDevice) : gmap string string :=
  texts ([("device_serial", nd_Serial d); ("device_firmware", Firmware d); ("device_mac_addr", nd_Mac d); ("device_tags", Join (nd_Tags d) ",");
    ("device_notes", nd_Notes d); ("device_model", nd_Model d); ("src_ip", LanIP d)]%string ++
    match nd_org d with Some o => [("org_name", o_Name o); ("org_id", o_ID o)]%string | None => [] end).
Definition clients_info : MetricInfo := meraki_info "meraki.clients" "".
Definition makeJCHF (conf : DeviceConf) (now : Z) (cl : merakiClient) : JCHF :=
  let known := negb (String.eqb (nd_Serial (cl_device cl)) "") in
  let strs := if known then device_texts (cl_device cl) ∪ client_texts conf cl else client_texts conf cl in
  let use k := match Usage cl !! k with Some x => thousands x | None => 0 end in
  SetUserTags conf
    (put_number "RecvTotal" (use "recv"%string) clients_info (put_number "SentTotal" (use "sent"%string) clients_info
      ((metric_record now strs) <| CustomInt := None |> <| DstAddr := if String.eqb (Ip6 cl) "" then cl_IP cl else Ip6 cl |>
        <| DeviceName := if known then nd_Name (cl_device cl) else Join [RecentDeviceName cl; cl_ID cl] "." |>
        <| SrcAddr := if known then LanIP (cl_device cl) else cf_DeviceIP conf |>))).
Definition parseClients (conf : DeviceConf) (now : Z) (cs : list merakiClient) : list JCHF :=
  cs ≫= λ cl,
    match cl_appUsage cl with
    | [] => [makeJCHF conf now cl]
    | apps => (λ a, put_number "Recv" (wraps 64 (au_Received a * 1000)) clients_info (put_number "Sent" (wraps 64 (au_Sent a * 1000)) clients_info
                      (put_text "application" (Application a) (makeJCHF conf now cl)))) <$> apps
    end.
(** A client as it is answered, with the network and the organization it is asked of. *)
Definition of_network (org : orgDesc) (n : networkDesc) (cl : string → string → string → merakiClient) : merakiClient := cl (n_Name n) (od_Name org) (od_ID org).
(** A network without clients, status 400, is left; the clients of the pages before stay. Any other error drops all. *)
Fixpoint network_clients (maxRetry : Z) (nets : list (orgDesc * networkDesc))
    (answers : networkDesc → list (response (list (string → string → string → merakiClient)))) (acc : list merakiClient) : string + option (list merakiClient) :=
  match nets with
  | [] => inr (Some acc)
  | (org, n) :: nets =>
      let p := paging (capped maxRetry) (answers n) "" 0 in
      let acc := acc ++ (of_network org n <$> mjoin (payloads p)) in
      match how p with
      | Ended => network_clients maxRetry nets answers acc
      | EndedErr err => if status_400 err then network_clients maxRetry nets answers acc else inl err
      | NoAnswer => inr None
      end
  end.

(** *** Uplinks *)
Record uplinkTS := mkTS { LossPercent : spec_float; TS_LatencyMS : spec_float }.
Record deviceUplinkLatency := mkLatency { la_Serial : string; la_Uplink : string; TimeSeries : list uplinkTS }.
Record uplinkUsage := mkUsage { us_Serial : string; us_Interface : string; us_Sent : Z; us_Received : Z }.
Record uplink := mkUplink {
  ul_Interface : string; ul_Status : string; ul_IP : string; ul_Provider : string; ConnectionType : string; SignalType : string; Rsrp : string;
  Rsrq : string; ul_Usage : option uplinkUsage; LatencyLoss : option deviceUplinkLatency; LimitDown : Z; LimitUp : Z; PublicIP : string }.
Record deviceUplink := mkDeviceUplink { du_Serial : string; du_Model : string; du_Uplinks : list uplink; du_NetworkID : string; du_network : networkDesc }.
Definition with_uplinks (l : list uplink) (d : deviceUplink) : deviceUplink := mkDeviceUplink (du_Serial d) (du_Model d) l (du_NetworkID d) (du_network d).
Definition with_latency (u : deviceUplinkLatency) (l : uplink) : uplink :=
  mkUplink (ul_Interface l) (ul_Status l) (ul_IP l) (ul_Provider l) (ConnectionType l) (SignalType l) (Rsrp l) (Rsrq l) (ul_Usage l) (Some u)
    (LimitDown l) (LimitUp l) (PublicIP l).
Definition with_usage (u : uplinkUsage) (l : uplink) : uplink :=
  mkUplink (ul_Interface l) (ul_Status l) (ul_IP l) (ul_Provider l) (ConnectionType l) (SignalType l) (Rsrp l) (Rsrq l) (Some u) (LatencyLoss l)
    (LimitDown l) (LimitUp l) (PublicIP l).
Definition with_limits (down up : Z) (l : uplink) : uplink :=
  mkUplink (ul_Interface l) (ul_Status l) (ul_IP l) (ul_Provider l) (ConnectionType l) (SignalType l) (Rsrp l) (Rsrq l) (ul_Usage l) (LatencyLoss l)
    down up (PublicIP l).
Definition new_uplink (u : deviceUplinkLatency) : uplink := mkUplink (la_Uplink u) "" "" "" "" "" "" "" None (Some u) 0 0 "".

(** [du.SetLatencyLoss(u)]: what is in the array that the slice shares, and the slice of the receiver. An
    uplink that is not there is appended to the slice of the receiver only. *)
Definition SetLatencyLoss (u : deviceUplinkLatency) (l : list uplink) : list uplink * list uplink :=
  if existsb (λ x, String.eqb (ul_Interface x) (la_Uplink u)) l then
    let l' := (λ x, if String.eqb (ul_Interface x) (la_Uplink u) then with_latency u x else x) <$> l in (l', l')
  else (l, l ++ [new_uplink u]).
(** The receiver is a copy of what the map holds: the map sees the array alone. *)
Definition set_loss (m : gmap string deviceUplink) (u : deviceUplinkLatency) : gmap string deviceUplink :=
  match m !! la_Serial u with Some uu => <[la_Serial u := with_uplinks (SetLatencyLoss u (du_Uplinks uu)).1 uu]> m | None => m end.
Fixpoint getUplinkLatencyLoss (orgs : list orgDesc) (answer : orgDesc → string + list deviceUplinkLatency) (m : gmap string deviceUplink) :
    string + gmap string deviceUplink :=
  match orgs with
  | [] => inr m
  | org :: orgs => match answer org with inl err => inl err | inr us => getUplinkLatencyLoss orgs answer (foldl set_loss m us) end
  end.

(** The usage of an organization that fails is left out. *)
Definition set_usage (m : gmap string deviceUplink) (u : uplinkUsage) : gmap string deviceUplink :=
  alter (λ d, with_uplinks ((λ x, if String.eqb (ul_Interface x) (us_Interface u) then with_usage u x else x) <$> du_Uplinks d) d) (us_Serial u) m.
Fixpoint getUsage (rs : list (response (list uplinkUsage))) : option (list uplinkUsage) :=
  match rs with
  | [] => None
  | Failed err :: rs => if unlimited err 0 then getUsage rs else Some []
  | Page us _ :: _ => Some us
  end.
Definition getUplinkUsage (orgs : list orgDesc) (answers : orgDesc → list (response (list uplinkUsage))) (m : gmap string deviceUplink) : option (gmap string deviceUplink) :=
  uss ← mapM (λ org, getUsage (answers org)) orgs; Some (foldl set_usage m (mjoin uss)).

(** *** Limits of bandwidth, from the cache *)
Record bandwidth := mkBandwidth { Cellular : Z * Z; Wan1 : Z * Z; Wan2 : Z * Z }.    (* down and up *)
Definition limit_uplink (info : bandwidth) (l : uplink) : uplink :=
  if String.eqb (ul_Interface l) "cellular" then with_limits (Cellular info).1 (Cellular info).2 l
  else if String.eqb (ul_Interface l) "wan1" then with_limits (Wan1 info).1 (Wan1 info).2 l
  else if String.eqb (ul_Interface l) "wan2" then with_limits (Wan2 info).1 (Wan1 info).2 l
  else l.
(** A device as the organization lists it. *)
Record deviceInfo := mkInfo { di_Serial : string; di_Name : string; di_NetworkID : string; di_ProductType : string; Lat : spec_float; Lng : spec_float; di_Address : string; di_Notes : string }.
Record clientCache := mkCache { deviceInfoTime : option Z; infos : list deviceInfo; uplinkBWTime : option Z; uplinkInfoBW : gmap string bandwidth }.
Definition newClientCache : clientCache := mkCache None [] None ∅.
Definition getDeviceInfo_cached (now : Z) (c : clientCache) : option (list deviceInfo) :=
  t ← deviceInfoTime c; if t + DeviceCacheDuration <? now then None else Some (infos c).
Definition getUplinkBW (now : Z) (c : clientCache) : option (gmap string bandwidth) :=
  t ← uplinkBWTime c; if t + UplinkBWCacheDuration <? now then None else Some (uplinkInfoBW c).
Definition setDeviceInfo (now : Z) (l : list deviceInfo) (c : clientCache) : clientCache := mkCache (Some now) l (uplinkBWTime c) (uplinkInfoBW c).
Definition setUplinkBW (now : Z) (m : gmap string bandwidth) (c : clientCache) : clientCache := mkCache (deviceInfoTime c) (infos c) (Some now) m.
(** With the cache, the uplinks and no job; without, a job in the background. *)
Definition getUplinkExtraInfo (now : Z) (c : clientCache) (m : gmap string deviceUplink) : gmap string deviceUplink * bool :=
  match getUplinkBW now c with
  | Some cc => ((λ d, match cc !! du_NetworkID d with Some info => with_uplinks (limit_uplink info <$> du_Uplinks d) d | None => d end) <$> m, false)
  | None => (m, true)
  end.
(** The job: an error other than status 400 drops what was read; [None] while answers are missing. *)
Fixpoint read_limits (maxRetry : Z) (nets : list networkDesc) (answers : networkDesc → list (response bandwidth)) (acc : gmap string bandwidth) : option (option (gmap string bandwidth)) :=
  match nets with
  | [] => Some (Some acc)
  | n :: nets =>
      let p := paging (capped maxRetry) (answers n) "" 0 in
      match how p, payloads p with
      | Ended, info :: _ => read_limits maxRetry nets answers (<[n_ID n := info]> acc)
      | EndedErr err, _ => if status_400 err then read_limits maxRetry nets answers acc else Some None
      | _, _ => None
      end
  end.
Definition background (maxRetry now : Z) (nets : list networkDesc) (answers : networkDesc → list (response bandwidth)) (c : clientCache) : clientCache :=
  match read_limits maxRetry nets answers ∅ with Some (Some m) => setUplinkBW now m c | _ => c end.

(** *** Records of uplinks *)
Definition uplinkStatus : gmap string Z := list_to_map [("active", 1); ("failed", 2); ("not connected", 3); ("ready", 4)]%string.
Definition f64_zero : spec_float := S754_zero false.
Definition f64_mean (l : list spec_float) : spec_float :=
  match l with [] => f64_zero | _ => Prom.float_div (foldl (SFadd 53 1024) f64_zero l) (Prom.float_of (Z.of_nat (length l))) end.
Definition getLatencyLoss (u : uplink) : spec_float * spec_float :=
  let ts := match LatencyLoss u with Some d => TimeSeries d | None => [] end in
  (f64_mean (TS_LatencyMS <$> ts), f64_mean (LossPercent <$> ts)).
Definition serial_names (now : Z) (c : clientCache) : gmap string string :=
  match getDeviceInfo_cached now c with Some cc => foldl (λ m d, <[di_Serial d := di_Name d]> m) ∅ cc | None => ∅ end.
Definition uplinks_info : MetricInfo := meraki_info "meraki.uplinks" "".
Definition parseUplink (conf : DeviceConf) (now : Z) (names : gmap string string) (d : deviceUplink) (u : uplink) : JCHF :=
  let n := du_network d in
  let name := Join [n_Name n; ul_Interface u] "." in
  let dst := (metric_record now (texts [(ControllerKey, cf_DeviceName conf); ("network", n_Name n); ("network_id", du_NetworkID d); ("serial", du_Serial d);
      ("model", du_Model d); ("status", ul_Status u); ("connection_type", ConnectionType u); ("interface", ul_Interface u); ("cellular_provider", ul_Provider u);
      ("signal_type", SignalType u); ("signal_rsrp", Rsrp u); ("signal_rsrq", Rsrq u); ("org_name", o_Name (n_org n)); ("org_id", o_ID (n_org n));
      ("uplink_name", name)]%string)) <| SrcAddr := ul_IP u |> <| DeviceName := default name (names !! du_Serial d) |> in
  let limit k v dst := if 0 <? v then dst <| CustomBigInt := Some (<[k := v]> (map_range (CustomBigInt dst))) |> else dst in
  let dst := limit "bw_limit_down"%string (LimitDown u) (limit "bw_limit_up"%string (LimitUp u) dst) in
  let dst := put_number "Status" (default 0 (uplinkStatus !! ul_Status u)) (meraki_info "meraki.uplink_status" "") dst in
  let dst :=
    if pref (cf_Meraki conf) "hide_uplink_usage" then dst
    else
      let dst := match ul_Usage u with
                 | Some us => put_number "Recv" (us_Received us) uplinks_info (put_number "Sent" (us_Sent us) uplinks_info dst)
                 | None => dst
                 end in
      let '(latency, loss) := getLatencyLoss u in
      let info := meraki_info "meraki.uplinks" "float_ms" in
      put_number "LossPct" (thousands loss) info (put_number "LatencyMS" (thousands latency) info dst) in
  SetUserTags conf dst.
(** The devices in the order of the range. *)
Definition parseUplinks (conf : DeviceConf) (now : Z) (c : clientCache) (order : list deviceUplink) : list JCHF :=
  order ≫= λ d, parseUplink conf now (serial_names now c) d <$> du_Uplinks d.

(** [order]: the range over the map. *)
Record uplink_answers := mkUplinkAnswers {
  ua_status : orgDesc → list (response (list (networkDesc → deviceUplink)));
  ua_usage : orgDesc → list (response (list uplinkUsage));
  ua_latency : orgDesc → string + list deviceUplinkLatency }.
(** A device of a followed network; its network is added to it. *)
Definition track (org : orgDesc) (m : gmap string deviceUplink) (d : networkDesc → deviceUplink) : gmap string deviceUplink :=
  let raw := d (mkNetwork "" "" [] (od_org org)) in
  match od_networks org !! du_NetworkID raw with Some n => <[du_Serial raw := d n]> m | None => m end.
Fixpoint uplink_status (maxRetry : Z) (orgs : list orgDesc) (answers : orgDesc → list (response (list (networkDesc → deviceUplink)))) (m : gmap string deviceUplink) :
    option (string + gmap string deviceUplink) :=
  match orgs with
  | [] => Some (inr m)
  | org :: orgs =>
      let p := paging (capped maxRetry) (answers org) "" 0 in
      match how p with
      | Ended => uplink_status maxRetry orgs answers (foldl (track org) m (mjoin (payloads p)))
      | EndedErr err => Some (inl err)
      | NoAnswer => None
      end
  end.
(** The records, an error, or no answer; and whether a job was started. Status 400 of any organization
    drops the uplinks of all, without an error. *)
Definition getUplinks (cl : MerakiClient) (now : Z) (c : clientCache) (a : uplink_answers) (order : gmap string deviceUplink → list deviceUplink) :
    option ((string + list JCHF) * bool) :=
  let conf := c_conf cl in
  st ← uplink_status (c_maxRetry cl) (c_orgs cl) (ua_status a) ∅;
  match st with
  | inl err => Some (if status_400 err then inr [] else inl err, false)
  | inr m =>
      r ← (if pref (cf_Meraki conf) "hide_uplink_usage" then Some (inr m)
           else m ← getUplinkUsage (c_orgs cl) (ua_usage a) m; Some (getUplinkLatencyLoss (c_orgs cl) (ua_latency a) m));
      match r with
      | inl err => Some (inl err, false)
      | inr m =>
          let '(m, job) := if pref (cf_Meraki conf) "show_uplink_bandwidth_limits" then getUplinkExtraInfo now c m else (m, false) in
          Some (inr (parseUplinks conf now c (order m)), job)
      end
  end.

(** *** Networks and organizations *)
Definition count_record (conf : DeviceConf) (now : Z) (name profile : string) (strs : gmap string string) : JCHF :=
  SetUserTags conf (put_number "Count" 1 (meraki_info profile "") ((metric_record now strs) <| DeviceName := name |>)).
Definition network_record (conf : DeviceConf) (now : Z) (n : networkDesc) : JCHF :=
  count_record conf now (n_Name n) "meraki.network"
    (texts (imap (λ i tag, (String.append "tag_" (Itoa (Z.of_nat (S i))), tag)) (n_Tags n)) ∪
     texts [(ControllerKey, cf_DeviceName conf); ("network", n_Name n); ("network_id", n_ID n); ("org_name", o_Name (n_org n)); ("org_id", o_ID (n_org n))]%string).
Definition org_record (conf : DeviceConf) (now : Z) (org : orgDesc) : JCHF :=
  count_record conf now (od_Name org) "meraki.organization" (texts [(ControllerKey, cf_DeviceName conf); ("org_name", od_Name org); ("org_id", od_ID org)]%string).
Definition getNetworkAttr (conf : DeviceConf) (now : Z) (orgs : list orgDesc) (order : orgDesc → list networkDesc) : list JCHF :=
  orgs ≫= λ org, (network_record conf now <$> order org) ++ [org_record conf now org].

(** *** Tunnels *)
Record vpnPeer := mkPeer { pe_NetworkID : string; pe_NetworkName : string; Reachability : string; pe_Name : string; pe_PublicIp : string }.
Record vpnStatus := mkVpn {
  vp_NetworkID : string; vp_NetworkName : string; DeviceSerial : string; vp_DeviceStatus : string; vp_Uplinks : list (string * string);
  VpnMode : string; MerakiVpnPeers : list vpnPeer; ThirdPartyVpnPeers : list vpnPeer; vp_org : orgDesc }.
Definition makeChf_vpn (conf : DeviceConf) (now : Z) (names : gmap string string) (vpn : vpnStatus) : JCHF :=
  let strs := texts [(ControllerKey, cf_DeviceName conf); ("network", vp_NetworkName vpn); ("network_id", vp_NetworkID vpn); ("serial", DeviceSerial vpn);
    ("status", vp_DeviceStatus vpn); ("vpn_mode", VpnMode vpn); ("org_name", od_Name (vp_org vpn)); ("org_id", od_ID (vp_org vpn))]%string in
  SetUserTags conf ((metric_record now (foldl (λ m u, <[u.1 := u.2]> m) strs (vp_Uplinks vpn))) <| DeviceName := default (DeviceSerial vpn) (names !! DeviceSerial vpn) |>).
Definition vpn_info : MetricInfo := meraki_info "meraki.vpn_status" "".
Definition peer_record (conf : DeviceConf) (now : Z) (names : gmap string string) (vpn : vpnStatus) (strs : list (string * string)) (p : vpnPeer) (type : string) : JCHF :=
  put_number "PeerStatus" (if String.eqb (Reachability p) "reachable" then 1 else 0) vpn_info
    (put_text "peer_type" type (put_text "peer_reachability" (Reachability p)
      (foldl (λ dst kv, put_text kv.1 kv.2 dst) (makeChf_vpn conf now names vpn) strs))).
Definition parseVpnStatus (conf : DeviceConf) (now : Z) (c : clientCache) (vpns : list vpnStatus) : list JCHF :=
  let names := serial_names now c in
  vpns ≫= λ vpn,
    put_number "Status" (default 0 (DeviceStatusEnum !! vp_DeviceStatus vpn)) vpn_info (makeChf_vpn conf now names vpn) ::
    (if pref (cf_Meraki conf) "show_vpn_peers" then
       ((λ p, peer_record conf now names vpn [("peer_name", pe_NetworkName p); ("peer_network_id", pe_NetworkID p)]%string p "Meraki") <$> MerakiVpnPeers vpn) ++
       ((λ p, peer_record conf now names vpn [("peer_name", pe_Name p); ("peer_public_ip", pe_PublicIp p)]%string p "ThirdParty") <$> ThirdPartyVpnPeers vpn)
     else []).

(** *** Lists of all organizations *)
(** The calls for tunnels and for the status of devices: what every organization answers, kept where its
    network is followed; the first error ends it. *)
Fixpoint each_org {A B} (maxRetry : Z) (keep : orgDesc → A → option B) (orgs : list orgDesc) (answers : orgDesc → list (response (list A))) (acc : list B) :
    option (string + list B) :=
  match orgs with
  | [] => Some (inr acc)
  | org :: orgs =>
      let p := paging (capped maxRetry) (answers org) "" 0 in
      match how p with
      | Ended => each_org maxRetry keep orgs answers (acc ++ omap (keep org) (mjoin (payloads p)))
      | EndedErr err => Some (inl err)
      | NoAnswer => None
      end
  end.
Definition keep_vpn (org : orgDesc) (v : orgDesc → vpnStatus) : option vpnStatus :=
  match od_networks org !! vp_NetworkID (v org) with Some _ => Some (v org) | None => None end.
Definition getVpnStatus (cl : MerakiClient) (now : Z) (c : clientCache) (answers : orgDesc → list (response (list (orgDesc → vpnStatus)))) : option (string + list JCHF) :=
  r ← each_org (c_maxRetry cl) keep_vpn (c_orgs cl) answers [];
  Some (match r with
        | inl err => if status_400 err then inr [] else inl err
        | inr vpns => inr (parseVpnStatus (c_conf cl) now c vpns)
        end).

(** *** The status of devices *)
Record merakiDevice := mkMerakiDevice {
  md_Serial : string; md_Name : string; md_NetworkID : string; md_ProductType : string; md_Status : string; md_PublicIP : string; md_Tags : list string;
  md_Mac : string; md_Model : string }.
Record deviceStatusWrapper := mkWrap { w_org : orgDesc; w_NetworkName : string; w_device : merakiDevice; w_info : option deviceInfo }.
(** Of a product that is asked for; with none all are. *)
Definition product (c : MerakiConfig) (t : string) : bool := bool_decide (ProductTypes c = []) || bool_decide (t ∈ ProductTypes c).
Definition keep_status (c : MerakiConfig) (org : orgDesc) (d : merakiDevice) : option deviceStatusWrapper :=
  n ← od_networks org !! md_NetworkID d; if product c (md_ProductType d) then Some (mkWrap org (n_Name n) d None) else None.
Definition keep_info (c : MerakiConfig) (org : orgDesc) (d : deviceInfo) : option deviceInfo :=
  n ← od_networks org !! di_NetworkID d; if product c (di_ProductType d) then Some d else None.
(** Each device gets the last information of its serial number. *)
Definition add_info (l : list deviceInfo) (w : deviceStatusWrapper) : deviceStatusWrapper :=
  foldl (λ w d, if String.eqb (md_Serial (w_device w)) (di_Serial d) then mkWrap (w_org w) (w_NetworkName w) (w_device w) (Some d) else w) w l.
Fixpoint org_infos (c : MerakiConfig) (orgs : list orgDesc) (answers : orgDesc → list (response (list deviceInfo))) (acc : list deviceInfo) : option (string + list deviceInfo) :=
  match orgs with
  | [] => Some (inr acc)
  | org :: orgs =>
      let p := paging no_retry (answers org) "" 0 in
      match how p with
      | Ended => org_infos c orgs answers (acc ++ omap (keep_info c org) (mjoin (payloads p)))
      | EndedErr err => Some (inl err)
      | NoAnswer => None
      end
  end.
Definition getDeviceInfo (cl : MerakiClient) (now : Z) (answers : orgDesc → list (response (list deviceInfo))) (c : clientCache) (ws : list deviceStatusWrapper) :
    option ((string + list deviceStatusWrapper) * clientCache) :=
  match getDeviceInfo_cached now c with
  | Some cc => Some (inr (add_info cc <$> ws), c)
  | None => r ← org_infos (cf_Meraki (c_conf cl)) (c_orgs cl) answers [];
            Some (match r with inl err => (inl err, c) | inr l => (inr (add_info l <$> ws), setDeviceInfo now l c) end)
  end.
Section status.
Context (Sprintf_f : spec_float → string).
Definition parseDeviceStatus (conf : DeviceConf) (now : Z) (ws : list deviceStatusWrapper) : list JCHF :=
  (λ w, let d := w_device w in
    let strs := texts [(ControllerKey, cf_DeviceName conf); ("network", w_NetworkName w); ("network_id", md_NetworkID d); ("serial", md_Serial d);
      ("status", md_Status d); ("tags", Join (md_Tags d) ","); ("org_name", od_Name (w_org w)); ("org_id", od_ID (w_org w)); ("mac", md_Mac d);
      ("model", md_Model d); ("product_type", md_ProductType d)]%string in
    let more := match w_info w with
                | Some i => texts [("lat", Sprintf_f (Lat i)); ("lng", Sprintf_f (Lng i)); ("address", di_Address i); ("notes", di_Notes i)]%string
                | None => ∅ end in
    put_number "Status" (default 0 (DeviceStatusEnum !! md_Status d)) (meraki_info "meraki.device_status" "")
      (SetUserTags conf ((metric_record now (more ∪ strs)) <| SrcAddr := md_PublicIP d |> <| DeviceName := md_Name d |>))) <$> ws.
Definition getDeviceStatus (cl : MerakiClient) (now : Z) (c : clientCache) (answers : orgDesc → list (response (list merakiDevice)))
    (infos : orgDesc → list (response (list deviceInfo))) : option ((string + list JCHF) * clientCache) :=
  r ← each_org (c_maxRetry cl) (keep_status (cf_Meraki (c_conf cl))) (c_orgs cl) answers [];
  match r with
  | inl err => Some (if status_400 err then inr [] else inl err, c)
  | inr [] => Some (inr [], c)
  | inr ws => '(r, c) ← getDeviceInfo cl now infos c ws;
              Some (match r with inl err => inl err | inr ws => inr (parseDeviceStatus (c_conf cl) now ws) end, c)
  end.
End status.

(** ** Events *)
(** An event of a network, and the text it is sent as. *)
Section events.
Context {Event : Type} (Marshal : Event → string → string → string → string → option string).
Definition event_text (n : networkDesc) (e : Event) : option string := Marshal e (n_Name n) (o_Name (n_org n)) (o_ID (n_org n)) Nrm.KENTIK_EVENT_EXT.
Fixpoint send_events (n : networkDesc) (es : list Event) : list string * bool :=
  match es with
  | [] => ([], true)
  | e :: es => match event_text n e with None => ([], false) | Some t => let '(ts, ok) := send_events n es in (t :: ts, ok) end
  end.
(** The events of one network after a token, and where its pages end: the lines, an error, and the token. *)
Fixpoint network_events (maxRetry : Z) (n : networkDesc) (rs : list (response (list Event * string))) (nextToken : string) (timeouts : Z) :
    option (list string * option string * string) :=
  match rs with
  | [] => None
  | Failed err :: rs =>
      if capped maxRetry err timeouts then network_events maxRetry n rs nextToken (timeouts + 1)
      else if status_400 err then Some ([], None, nextToken)
      else Some ([], Some err, nextToken)
  | Page (es, PageEndAt) link :: rs =>
      let '(ts, ok) := send_events n es in
      if ok then
        let nextLink := getNextLink link in
        if String.eqb nextLink "" then Some (ts, None, PageEndAt)
        else '(ts', err, tok) ← network_events maxRetry n rs nextLink timeouts; Some (ts ++ ts', err, tok)
      else Some (ts, Some "json"%string, nextToken)
  end.
(** Every network is asked after the same token; the last one's end is the token of the next time. *)
Fixpoint all_events (maxRetry : Z) (calls : list (networkDesc * string)) (answers : networkDesc → string → list (response (list Event * string)))
    (lastPageEndAt nextPageEndAt : string) : option (list string * option string * string) :=
  match calls with
  | [] => Some ([], None, nextPageEndAt)
  | (n, pt) :: calls =>
      '(ts, err, lp) ← network_events maxRetry n (answers n pt) lastPageEndAt 0;
      match err with
      | Some e => Some (ts, Some e, nextPageEndAt)
      | None => '(ts', err, np) ← all_events maxRetry calls answers lastPageEndAt lp; Some (ts ++ ts', err, np)
      end
  end.
Definition event_calls (c : MerakiConfig) (nets : list networkDesc) : list (networkDesc * string) :=
  nets ≫= λ n, match ProductTypes c with [] => [(n, ""%string)] | pts => (λ pt, (n, pt)) <$> pts end.
(** A round of [getNetworkEventsWrapper]: after an error the token stays. *)
Definition events_round (maxRetry : Z) (calls : list (networkDesc * string)) (answers : networkDesc → string → list (response (list Event * string))) (token : string) :
    option (list string * string) :=
  '(ts, err, np) ← all_events maxRetry calls answers token token; Some (ts, match err with None => np | Some _ => token end).

(** Security events; an error that is not status 400 ends the round. *)
Fixpoint security_events (maxRetry : Z) (nets : list networkDesc) (answers : networkDesc → list (response (list Event))) : option (list string * option string) :=
  match nets with
  | [] => Some ([], None)
  | n :: nets =>
      let p := paging (capped maxRetry) (answers n) "" 0 in
      let '(ts, ok) := send_events n (mjoin (payloads p)) in
      if ok then
        match how p with
        | NoAnswer => None
        | EndedErr err => if status_400 err then '(ts', e) ← security_events maxRetry nets answers; Some (ts ++ ts', e) else Some (ts, Some err)
        | Ended => '(ts', e) ← security_events maxRetry nets answers; Some (ts ++ ts', e)
        end
      else Some (ts, Some "json"%string)
  end.
End events.

(** ** Laws *)
Section paging_laws.
Context {A : Type} (retry : string → Z → bool) (err : string) (max : Z).
Hypothesis retry_spec : ∀ t, retry err t = (t <? max).

(** Pages, each after some failures; every link but the last leads on. *)
Fixpoint leads (chain : list (nat * A * string)) : Prop :=
  match chain with
  | [] => False
  | [(_, _, l)] => getNextLink l = ""%string
  | (_, _, l) :: chain => getNextLink l ≠ ""%string ∧ leads chain
  end.
Definition answers_of (chain : list (nat * A * string)) : list (response A) :=
  chain ≫= λ c, replicate c.1.1 (Failed err) ++ [Page c.1.2 c.2].
Fixpoint tokens_of (token : string) (chain : list (nat * A * string)) : list string :=
  match chain with [] => [] | (n, _, l) :: chain => replicate (S n) token ++ tokens_of (getNextLink l) chain end.
Fixpoint failures (chain : list (nat * A * string)) : nat := match chain with [] => 0 | c :: chain => c.1.1 + failures chain end.
Definition pages_of (chain : list (nat * A * string)) : list A := (λ c, c.1.2) <$> chain.

Lemma paging_failures n (rs : list (response A)) token t : t + Z.of_nat n ≤ max →
  paging retry (replicate n (Failed err) ++ rs) token t =
  let p := paging retry rs token (t + Z.of_nat n) in mkPaged (replicate n token ++ asked p) (payloads p) (how p).
Proof.
  revert t. induction n as [|n IH]; intros t Hn; simpl.
  - rewrite Z.add_0_r. by destruct (paging retry rs token t).
  - rewrite retry_spec. destruct (Z.ltb_spec t max); [|lia]. rewrite IH by lia. replace (t + Z.of_nat (S n)) with (t + 1 + Z.of_nat n) by lia. done.
Qed.
Lemma paging_gives_up n (rs : list (response A)) token t : t ≤ max → max < t + Z.of_nat n →
  paging retry (replicate n (Failed err) ++ rs) token t = mkPaged (replicate (S (Z.to_nat (max - t))) token) [] (EndedErr err).
Proof.
  revert t. induction n as [|n IH]; intros t Ht Hn; [lia|]. simpl. rewrite retry_spec. destruct (Z.ltb_spec t max) as [Hlt|Hge].
  - rewrite IH by lia. simpl. replace (Z.to_nat (max - t)) with (S (Z.to_nat (max - (t + 1)))) by lia. done.
  - replace (max - t) with 0 by lia. done.
Qed.
Lemma paging_all chain token t : leads chain → t + Z.of_nat (failures chain) ≤ max →
  paging retry (answers_of chain) token t = mkPaged (tokens_of token chain) (pages_of chain) Ended.
Proof.
  revert token t. induction chain as [|[[n x] l] chain IH]; intros token t Hl Ht; [done|]. unfold answers_of. rewrite bind_cons. fold (answers_of chain).
  assert (t + Z.of_nat n + Z.of_nat (failures chain) ≤ max) as Ht' by (simpl in Ht; lia).
  rewrite <- app_assoc, paging_failures by (simpl; lia). simpl. destruct chain as [|c chain].
  - simpl in Hl. rewrite Hl. simpl. by rewrite app_nil_r, replicate_cons_app.
  - destruct Hl as [Hne Hl]. rewrite (proj2 (String.eqb_neq _ _) Hne). rewrite IH by (done || lia).
    cbn [asked payloads how tokens_of pages_of fmap list_fmap]. f_equal. simpl. by rewrite app_comm_cons, replicate_cons_app, <- app_assoc.
Qed.
Lemma paging_stops chain token t : leads chain → t ≤ max → max < t + Z.of_nat (failures chain) →
  let p := paging retry (answers_of chain) token t in
  how p = EndedErr err ∧ payloads p `prefix_of` pages_of chain ∧ length (asked p) = (length (payloads p) + Z.to_nat (max - t) + 1)%nat.
Proof.
  revert token t. induction chain as [|[[n x] l] chain IH]; intros token t Hl Ht Hf; [done|]. cbv zeta. unfold answers_of. rewrite bind_cons. fold (answers_of chain).
  assert (max < t + Z.of_nat n + Z.of_nat (failures chain)) as Hf' by (simpl in Hf; lia).
  rewrite <- app_assoc. destruct (Z.ltb_spec max (t + Z.of_nat n)) as [Hn|Hn].
  - rewrite paging_gives_up by (simpl; lia). cbn [how payloads asked]. rewrite length_replicate. split_and!; [done|apply prefix_nil|simpl; lia].
  - rewrite paging_failures by (simpl; lia). simpl. destruct chain as [|c chain]; [simpl in Hf'; lia|].
    destruct Hl as [Hne Hl]. rewrite (proj2 (String.eqb_neq _ _) Hne). destruct (IH (getNextLink l) (t + Z.of_nat n)) as (H1 & H2 & H3); [done|lia|lia|].
    cbn [how payloads asked]. split_and!; [done|by apply prefix_cons|]. rewrite length_app, length_replicate. cbn [length]. rewrite H3. lia.
Qed.
End paging_laws.

(** C38: A call with pages, each answered after some refusals for its rate, gives every page once and in order, and asks each time after the link of the page before, as long as the refusals of all pages together are no more than the retries; with more it ends with the refusal, after the pages that came before and one try more than that. *)
Theorem pages_in_order {A : Type} maxRetry err (chain : list (nat * A * string)) :
  0 ≤ maxRetry → status_429 err = true → leads chain →
  let p := paging (capped maxRetry) (answers_of err chain) "" 0 in
  if Z.of_nat (failures chain) <=? maxRetry
  then p = mkPaged (tokens_of "" chain) (pages_of chain) Ended
  else how p = EndedErr err ∧ payloads p `prefix_of` pages_of chain ∧ length (asked p) = (length (payloads p) + Z.to_nat maxRetry + 1)%nat.
Proof.
  intros Hm He Hl p. assert (∀ t, capped maxRetry err t = (t <? maxRetry)) as Hr by (intros; unfold capped; by rewrite He).
  destruct (Z.leb_spec (Z.of_nat (failures chain)) maxRetry).
  - apply (paging_all _ _ maxRetry Hr); [done|lia].
  - destruct (paging_stops _ _ maxRetry Hr chain "" 0) as (H1 & H2 & H3); [done..|]. rewrite Z.sub_0_r in H3. done.
Qed.

(** *** What is followed *)
Section follow_laws.
Context {Re : Type} (Compile : string → option Re) (MatchString : Re → string → bool).
Lemma add_networks_in nets org l st k n : (foldl (add_network MatchString nets org) st l).1 !! k = Some n →
  (n_ID n = k ∧ n_org n = org ∧ opted MatchString nets (n_Name n) = true) ∨ st.1 !! k = Some n.
Proof.
  revert st. induction l as [|x l IH]; intros st; simpl; [by right|]. intros [H|H]%IH; [by left|]. unfold add_network in H.
  destruct (opted MatchString nets (na_Name x)) eqn:E; [|by right]. simpl in H.
  destruct (decide (na_ID x = k)) as [<-|Hne]; [rewrite lookup_insert_eq in H; injection H as <-; by left|rewrite lookup_insert_ne in H by done; by right].
Qed.

(** C40: A client that is made follows only organizations and networks that match what is configured, and no organization without a network; the limit of retries it is made with, which calls with pages share and calls for the usage of uplinks do not keep, is at most ten; it never asks for the clients of single devices, and has something to do at each poll unless it reads events on the side. *)
Theorem tasks_of_client conf gTimeout answer networks cl : NewMerakiClient Compile MatchString conf gTimeout answer networks = Ok cl →
  c_conf cl = conf ∧ (c_maxRetry cl ≤ 10) ∧ (DeviceClients ∉ tasks (cf_Meraki conf)) ∧ (tasks (cf_Meraki conf) = [] → doNetworkEvents (cf_Meraki conf) = true) ∧
  ∃ orgs nets, mapM (MustCompile Compile) (Orgs (cf_Meraki conf)) = Ok orgs ∧ mapM (MustCompile Compile) (Networks (cf_Meraki conf)) = Ok nets ∧
  ∀ od, od ∈ c_orgs cl → od_networks od ≠ ∅ ∧ opted MatchString orgs (od_Name od) = true ∧
    ∀ k n, od_networks od !! k = Some n → n_ID n = k ∧ n_org n = od_org od ∧ opted MatchString nets (n_Name n) = true.
Proof.
  unfold NewMerakiClient. destruct answer as [payload|]; [|done]. destruct (MonitorDevices _ && _) eqn:Hd; [done|].
  destruct (mapM _ (Orgs _)) as [orgs| | |]; try done. destruct (mapM _ (Networks _)) as [nets| | |]; try done. intros [= <-]. simpl. split_and!; [done| | | |].
  - unfold retries_of, DEFAULT_TIMEOUT_RETRY, MAX_TIMEOUT_RETRY. destruct (Z.eqb_spec (MaxAPIRetry (cf_Meraki conf)) 0), (Z.ltb_spec 10 (MaxAPIRetry (cf_Meraki conf))); simpl; lia.
  - unfold tasks. rewrite Hd. repeat case_match; set_solver.
  - unfold tasks. rewrite Hd. destruct (MonitorUplinks _), (MonitorOrgChanges _), (MonitorNetworkClients _), (MonitorVpnStatus _), (pref _ "show_network_attr"),
      (pref _ "log_network_security_events"), (doNetworkEvents _), (MonitorDevices _ && (_ || _)); done.
  - exists orgs, nets. split_and!; [done|done|]. intros od (org & _ & Hod)%list_elem_of_omap. unfold follow_org in Hod.
    destruct (opted MatchString orgs (o_Name org)) eqn:Ho; [|done]. unfold getOrgNetworks in Hod.
    set (p := paging _ _ _ _) in Hod. destruct (foldl _ _ _) as [netSet num] eqn:Hf. destruct (how p); try done.
    case_bool_decide; [done|]. injection Hod as <-. simpl. split_and!; [done|done|]. intros k n Hk.
    assert ((foldl (add_network MatchString nets org) (∅, 0) (mjoin (payloads p))).1 !! k = Some n) as Hk' by by rewrite Hf.
    by destruct (add_networks_in _ _ _ _ _ _ Hk') as [?|?].
Qed.
End follow_laws.

(** *** One record for each uplink *)
Definition shape (d : deviceUplink) : string * string * networkDesc * list string := (du_Serial d, du_NetworkID d, du_network d, ul_Interface <$> du_Uplinks d).
Lemma shape_with (f : uplink → uplink) d : (∀ u, ul_Interface (f u) = ul_Interface u) → shape (with_uplinks (f <$> du_Uplinks d) d) = shape d.
Proof. intros Hf. unfold shape. simpl. rewrite <- list_fmap_compose. do 1 f_equal. apply list_fmap_ext. intros; apply Hf. Qed.
Lemma shape_insert (m : gmap string deviceUplink) k d d' : m !! k = Some d → shape d' = shape d → shape <$> <[k := d']> m = shape <$> m.
Proof. intros Hk Hs. rewrite fmap_insert, Hs. apply insert_id. by rewrite lookup_fmap, Hk. Qed.
Lemma shape_loss u d : shape (with_uplinks (SetLatencyLoss u (du_Uplinks d)).1 d) = shape d.
Proof.
  unfold SetLatencyLoss. destruct (existsb _ _); simpl; [|by destruct d].
  apply (shape_with (λ x, if String.eqb (ul_Interface x) (la_Uplink u) then with_latency u x else x)). intros x. by destruct (String.eqb _ _).
Qed.
Lemma shape_set_loss us m : shape <$> foldl set_loss m us = shape <$> m.
Proof.
  revert m. induction us as [|u us IH]; intros m; [done|]. simpl. rewrite IH. unfold set_loss. destruct (m !! la_Serial u) as [d|] eqn:Hd; [|done].
  eapply shape_insert; [done|]. apply shape_loss.
Qed.
Lemma shape_latency orgs answer m m' : getUplinkLatencyLoss orgs answer m = inr m' → shape <$> m' = shape <$> m.
Proof.
  revert m. induction orgs as [|org orgs IH]; intros m; simpl; [by intros [= <-]|]. destruct (answer org) as [|us]; [done|].
  intros H%IH. by rewrite H, shape_set_loss.
Qed.
Lemma shape_usage us m : shape <$> foldl set_usage m us = shape <$> m.
Proof.
  revert m. induction us as [|u us IH]; intros m; [done|]. simpl. rewrite IH. unfold set_usage. apply map_eq. intros k. rewrite !lookup_fmap.
  destruct (decide (us_Serial u = k)) as [<-|Hne]; [rewrite lookup_alter_eq|by rewrite lookup_alter_ne]. destruct (m !! us_Serial u) as [d|]; [|done]. simpl. f_equal.
  apply (shape_with (λ x, if String.eqb (ul_Interface x) (us_Interface u) then with_usage u x else x)). intros x. by destruct (String.eqb _ _).
Qed.
Lemma shape_limits now c m : shape <$> (getUplinkExtraInfo now c m).1 = shape <$> m.
Proof.
  unfold getUplinkExtraInfo. destruct (getUplinkBW now c) as [cc|]; [|done]. simpl. rewrite <- map_fmap_compose. apply map_fmap_ext. intros k d _. simpl.
  destruct (cc !! du_NetworkID d); [|done]. apply shape_with. intros u. unfold limit_uplink. by repeat case_match.
Qed.
Lemma length_parse conf now c ds : length (parseUplinks conf now c ds) = sum_list ((λ s : string * string * networkDesc * list string, length s.2) <$> (shape <$> ds)).
Proof. induction ds as [|d ds IH]; [done|]. unfold parseUplinks in *. rewrite bind_cons, length_app, IH, length_fmap. simpl. by rewrite length_fmap. Qed.

Lemma total_shape (m m' : gmap string deviceUplink) : shape <$> m' = shape <$> m →
  sum_list ((length ∘ du_Uplinks) <$> (map_to_list m').*2) = sum_list ((length ∘ du_Uplinks) <$> (map_to_list m).*2).
Proof.
  assert (∀ M : gmap string deviceUplink, (length ∘ du_Uplinks) <$> (map_to_list M).*2 =
    (λ s : string * string * networkDesc * list string, length s.2) <$> (map_to_list (shape <$> M)).*2) as HM.
  { intros M. rewrite map_to_list_fmap, <- !list_fmap_compose. apply list_fmap_ext. intros i [k d] _. simpl. by rewrite length_fmap. }
  intros H. by rewrite !HM, H.
Qed.

(** C39: When the uplinks are read without an error that drops them all, there is a record for each uplink that the service lists for a device of a followed network, and no other: what is read of usage, latency and limits adds no uplink, takes none away and moves none. *)
Theorem uplinks_one_each cl now c a order m res job :
  (∀ m, order m ≡ₚ (map_to_list m).*2) →
  uplink_status (c_maxRetry cl) (c_orgs cl) (ua_status a) ∅ = Some (inr m) →
  getUplinks cl now c a order = Some (inr res, job) →
  ∃ m', shape <$> m' = shape <$> m ∧ res = parseUplinks (c_conf cl) now c (order m') ∧
    length res = sum_list ((length ∘ du_Uplinks) <$> (map_to_list m).*2).
Proof.
  intros Ho Hm. unfold getUplinks. rewrite Hm. simpl.
  set (r := if pref _ "hide_uplink_usage" then _ else _). destruct r as [[err|m1]|] eqn:Hr; [done| |done]. simpl.
  assert (shape <$> m1 = shape <$> m) as Hs1.
  { subst r. destruct (pref _ "hide_uplink_usage"); [by injection Hr as ->|]. destruct (getUplinkUsage _ _ _) as [m0|] eqn:Hu; [|done]. simpl in Hr. injection Hr as Hr.
    rewrite (shape_latency _ _ _ _ Hr). unfold getUplinkUsage in Hu. destruct (mapM _ _) as [uss|]; [|done]. simpl in Hu. injection Hu as <-. apply shape_usage. }
  set (mj := if pref _ "show_uplink_bandwidth_limits" then _ else _). assert (shape <$> mj.1 = shape <$> m) as Hs2.
  { subst mj. destruct (pref _ "show_uplink_bandwidth_limits"); [by rewrite shape_limits|done]. }
  destruct mj as [m2 j]. simpl in Hs2. intros [= <- <-]. exists m2. split_and!; [done|done|]. rewrite <- (total_shape _ _ Hs2), <- (Ho m2).
  rewrite length_parse, <- list_fmap_compose. f_equal. apply list_fmap_ext. intros i d _. simpl. by rewrite length_fmap.
Qed.

(** *** Examples *)
Definition link_to (t : string) : string :=
  String.append "<https://api.meraki.com/api/v1/x?startingAfter=a>; rel=first, <https://api.meraki.com/api/v1/x?perPage=3&startingAfter=" (String.append t ">; rel=next").
Example next_of : (getNextLink (link_to "L_7"), getNextLink "<https://api.meraki.com/api/v1/x?startingAfter=a>; rel=first", getNextLink "") = ("L_7", "", "")%string.
Proof. vm_compute. reflexivity. Qed.
(** A parameter after the token becomes a part of it. *)
Example next_with_parameter : getNextLink "<https://api.meraki.com/x?startingAfter=L_7&perPage=3>; rel=next" = "L_7&perPage=3"%string.
Proof. vm_compute. reflexivity. Qed.

Definition too_many : string := "[GET /x][429] (status 429)".
Definition ex_chain : list (nat * Z * string) := [(1%nat, 10, link_to "b"); (1%nat, 20, "")].
Lemma pages_in_order_witness : leads ex_chain ∧
  paging (capped 2) (answers_of too_many ex_chain) "" 0 = mkPaged [""; ""; "b"; "b"]%string [10; 20] Ended.
Proof.
  split; [vm_compute; split; [discriminate|reflexivity]|].
  pose proof (pages_in_order 2 too_many ex_chain ltac:(lia) ltac:(vm_compute; reflexivity) ltac:(vm_compute; split; [discriminate|reflexivity])) as H.
  vm_compute in H. vm_compute. exact H.
Defined.
(** The retries are those of all pages: a third refusal, though of another page, ends the call. *)
Example retries_shared : how (paging (capped 2) (answers_of too_many [(2%nat, 10, link_to "b"); (1%nat, 20, "")]) "" 0) = EndedErr too_many.
Proof. vm_compute. reflexivity. Qed.
(** The usage of uplinks is asked for again without an end. *)
Lemma usage_asked_forever n : getUsage (replicate n (Failed too_many)) = None.
Proof. induction n as [|n IH]; [done|]. simpl. exact IH. Qed.

Definition ex_meraki : MerakiConfig := mkMeraki false false false false false [] [] ∅ [] 0.
Definition ex_conf : DeviceConf := mkConf "meraki" "192.0.2.1" 0 {["tags.site" := "lab"]}%string ex_meraki.
Definition org1 : Org := mkOrg "1" "Acme".
Definition org2 : Org := mkOrg "2" "Other".
Definition ex_nets (o : Org) : list (response (list network_answer)) := if String.eqb (o_ID o) "1" then [Page [mkNet "N1" "branch" ["a"; "b"]%string] ""%string] else [Failed "(status 403)"].
Definition re_prefix (s : string) : option string := Some s.
Definition ex_client : MerakiClient := match NewMerakiClient re_prefix (λ r n, HasPrefix n r) ex_conf 0 (Some [org1; org2]) ex_nets with Ok c => c | _ => mkClient ex_conf 0 0 [] end.
Lemma tasks_of_client_witness : (DeviceClients ∉ tasks (cf_Meraki ex_conf)) ∧ length (c_orgs ex_client) = 1%nat.
Proof.
  destruct (tasks_of_client re_prefix (λ r n, HasPrefix n r) ex_conf 0 (Some [org1; org2]) ex_nets ex_client ltac:(vm_compute; reflexivity)) as (_ & _ & H & _).
  split; [exact H|vm_compute; reflexivity].
Defined.
Example default_tasks : tasks ex_meraki = [Uplinks].
Proof. reflexivity. Qed.

Definition ex_uplink (i : string) : uplink := mkUplink i "active" "203.0.113.1" "" "" "" "" "" None None 0 0 "".
Definition ex_device (n : networkDesc) : deviceUplink := mkDeviceUplink "Q1" "MX" [ex_uplink "wan1"; ex_uplink "wan2"] "N1" n.
Definition f64 (z : Z) : spec_float := Prom.float_of z.
Definition ex_answers : uplink_answers :=
  mkUplinkAnswers (λ _, [Failed too_many; Page [ex_device] ""%string]) (λ _, [Page [mkUsage "Q1" "wan1" 5 7] ""%string])
    (λ _, inr [mkLatency "Q1" "wan1" [mkTS (f64 0) (f64 10); mkTS (f64 2) (f64 20)]; mkLatency "Q1" "cellular" [mkTS (f64 9) (f64 90)]]).
Definition in_order (m : gmap string deviceUplink) : list deviceUplink := (map_to_list m).*2.
Definition ex_result : list JCHF := match getUplinks ex_client 1000 newClientCache ex_answers in_order with Some (inr l, _) => l | _ => [] end.
(** Latency of an uplink that the status does not list is lost. *)
Example latency_lost : (λ j : JCHF, (DeviceName j, map_range (CustomBigInt j) !! "Sent", map_range (CustomBigInt j) !! "LatencyMS", map_range (CustomBigInt j) !! "LossPct")%string) <$> ex_result =
  [("branch.wan1", Some 5, Some 15000, Some 1000); ("branch.wan2", None, Some 0, Some 0)]%string.
Proof. vm_compute. reflexivity. Qed.
Definition ex_status : gmap string deviceUplink := match uplink_status (c_maxRetry ex_client) (c_orgs ex_client) (ua_status ex_answers) ∅ with Some (inr m) => m | _ => ∅ end.
Lemma uplinks_one_each_witness : length ex_result = 2%nat.
Proof.
  destruct (uplinks_one_each ex_client 1000 newClientCache ex_answers in_order ex_status ex_result false
    (λ m, reflexivity _) ltac:(vm_compute; reflexivity) ltac:(vm_compute; reflexivity)) as (m' & _ & _ & ->).
  vm_compute. reflexivity.
Defined.
(** One organization without uplinks drops the uplinks of the others. *)
Definition second : orgDesc := mkOrgDesc "2" "Other" {["N9" := mkNetwork "N9" "x" [] org2]}%string org2.
Example other_org_drops : getUplinks (mkClient ex_conf 0 2 (c_orgs ex_client ++ [second])) 1000 newClientCache
  (mkUplinkAnswers (λ o, if String.eqb (od_ID o) "2" then [Failed "(status 400)"] else ua_status ex_answers o) (ua_usage ex_answers) (ua_latency ex_answers)) in_order
  = Some (inr [], false).
Proof. vm_compute. reflexivity. Qed.
(** The second uplink gets the limit of the first for what is sent. *)
Example wan2_limit : let info := mkBandwidth (1, 2) (3, 4) (5, 6) in (λ u, (LimitDown u, LimitUp u)) <$> (limit_uplink info <$> [ex_uplink "wan1"; ex_uplink "wan2"]) = [(3, 4); (5, 4)].
Proof. reflexivity. Qed.
(** Until the first job ends every poll starts another. *)
Example jobs_pile_up : ((getUplinkExtraInfo 1000 newClientCache ∅).2, (getUplinkExtraInfo 1060 newClientCache ∅).2) = (true, true).
Proof. reflexivity. Qed.
(** The next round asks every network after the end of the last one. *)
Example last_token_for_all : let net i := mkNetwork i i [] org1 in
  events_round (λ (e n o i t : string), Some e) 2 (event_calls ex_meraki [net "N1"; net "N2"]%string)
    (λ n _, [Page (["e"]%string, if String.eqb (n_ID n) "N1" then "later" else "earlier") ""]%string) "" = Some (["e"; "e"], "earlier")%string.
Proof. vm_compute. reflexivity. Qed.
